(* ===== verification/_CoqProject ===== *)
-Q . S2P
Prelude.v
Errors.v
Graph.v
Text.v
Float.v
Value.v
Json.v
Sha256.v
Lifecycle.v
Workflow.v
Checkpoint.v
Coordinator.v
CoordinatorFacts.v
CheckpointFacts.v
CoordinatorSpec.v
CancelFacts.v
Approval.v
Events.v
Records.v
Provider.v
Budget.v
BudgetFacts.v
Dict.v
Tables.v
TableFacts.v
Repositories.v
RepositoryFacts.v
Manifests.v
UnitOfWork.v
UnitOfWorkFacts.v
CommitFacts.v
Isolation.v
SnapshotIsolation.v
Concurrency.v
Deletion.v
RetryPolicy.v
EngineModels.v
References.v
Validator.v
Scheduler.v
Engine.v
EngineFacts.v
EngineCoordinator.v
EngineCoordinatorFacts.v
RecordFacts.v
Lexical.v
SkillSchema.v
ExecutionPolicy.v
Skills.v
SkillFacts.v
Calendar.v
AgentRuntime.v
RuntimeInvariants.v
RuntimeFacts.v
RuntimeDurability.v
RuntimeBounds.v
RuntimeExamples.v
Regex.v
Canonical.v
RunApproval.v
RunApprovalFacts.v
RunApprovalSafety.v
RunApprovalExamples.v
Views.v
Application.v
Contents.v
Queries.v
ApplicationFacts.v
DecisionFacts.v
ApplicationExamples.v
Order.v
Progress.v
ProgressService.v
ProgressIdentity.v
ProgressFacts.v
ProgressHistory.v
ProjectionFacts.v
ProgressExamples.v
Resources.v
ResourceFacts.v
