(* ===== verification/Prelude.v ===== *)
(** * ResearchAgent: a verification of its backend

    The program under [src/backend] runs research workflows: a user creates a
    run of a workflow definition, an engine decides step by step what is to be
    done, a runtime applies the decisions, calls skills, waits for approvals and
    commits every recovery boundary, and a unit of work keeps the records.
    Beside it a service authorizes experiments that run on the owner's machine,
    another receives reports of the progress of local work, and a third keeps
    which external resources the workflows of a project are bound to.

    ** The parts and where they are modelled

    Foundations. Prelude (results, the state-and-exception monad, lists),
    Errors (the exception classes and their inheritance), Text, Float, Value,
    Json, Sha256 (with [uuid5]), Lexical, Calendar, Regex, Order: what the code uses of
    Python and its standard library, executably. Contents: the port to stored
    contents, and [base64]. Graph: Kahn's algorithm as both
    validators write it.

    The domain, [domain/]. Lifecycle: statuses, transition tables and the
    entities [WorkflowRun], [AgentSession], [StepRun]. Workflow: definitions.
    Checkpoint, Approval: [models/checkpoint.py], [models/approval_request.py].
    Coordinator: [services/execution_coordinator.py], one computation for each
    method. Theorems in CoordinatorFacts, CheckpointFacts, CoordinatorSpec,
    CancelFacts: attempts are numbered and bounded, session and run stay in step,
    only a checkpoint of the current state resumes, cancellation completes.

    The engine, [workflow_engine/]. RetryPolicy, EngineModels, References,
    Validator, Scheduler, Engine, EngineCoordinator. Theorems in Validator,
    EngineFacts, EngineCoordinatorFacts: a definition is accepted exactly when it
    satisfies the declarative conditions, every snapshot gets a decision, which
    is never a deadlock, the first eligible step is chosen, a run is completed
    exactly when all its steps succeeded and its outputs resolve, and a decision
    is applied once.

    Storage, [persistence/] and [execution_events/]. Records ([models/]), Events,
    Dict, Tables (the disciplines of versioned records, streams and plain
    records), Repositories, Manifests and UnitOfWork ([adapters/in_memory.py]).
    Theorems in TableFacts, RepositoryFacts, UnitOfWorkFacts, CommitFacts,
    Isolation, SnapshotIsolation, Deletion, RecordFacts: commits are atomic, and
    what they publish is said for every table; as long as no project is deleted
    the committed state is well formed, its history append-only, and every
    interleaving of units of work is, on the tables guarded by versions and
    counts, a run of an abstract snapshot-isolation machine; conflicting updates
    of those tables are refused; deletion removes one project, from every table,
    and nothing else; and reloading is transparent. Concurrency runs concrete
    interleavings, among them two races that the checks of a commit do not see.

    Budgets, [research/contracts], [research/services/budget.py] and
    [execution_policy.py]. Provider, Budget, BudgetFacts, ExecutionPolicy: the
    service is written against the class [OperationRepository], whose laws the
    repository of RepositoryFacts keeps; within one unit of work accounting never
    exceeds the budget.

    Skills, [skill_system/]. SkillSchema, Skills, SkillFacts: schema validation is
    the declarative meaning of a schema, undeclared capabilities are
    unobservable, and every execution whose failures can be reported comes to a
    result, which is said on every branch.

    The runtime, [agent_runtime/]. AgentRuntime is the whole loop. Theorems in
    RuntimeInvariants, RuntimeFacts, RuntimeDurability, RuntimeBounds,
    RuntimeExamples: a skill is called at most once for an attempt and only after
    its announcement is committed, what is returned is what the database holds,
    and one run makes a bounded number of calls.

    The use cases, [application/]. Views, Application, Queries, with theorems in
    ApplicationFacts, DecisionFacts, ApplicationExamples: creation is idempotent,
    cancellation durable, refusals change nothing, and between two use cases
    nothing is left staged (but for a conflict of the application that is raised
    inside a resumption, which the code passes on without a rollback).

    Run approvals, [controlled_local_run_approvals.py]. Canonical
    ([workflow_packages/serialization.py], [security.py]), RunApproval, with
    theorems in RunApprovalFacts, RunApprovalSafety, RunApprovalExamples: over
    calls that follow one another on one store a decision is final, an
    authorization is used for one attempt, an instance has one open request; an
    example consumes one approval in two units of work side by side.

    Progress reports, [progress_reports/]. Progress ([contracts.py], [chain.py],
    [projection.py]), ProgressService ([service.py] and the repository of
    [adapters/in_memory.py]), ProgressIdentity ([identity.py]), with theorems in
    ProgressFacts, ProgressHistory, ProjectionFacts, ProgressExamples: accepted
    reports stand on complete chains that do not branch, an accepted upload is
    never received twice, the stored projection is the one its history gives, and
    it shows the latest round. An example uploads a report before its predecessor.

    Resource references, [resource_references/]. Resources ([contracts.py],
    [service.py] and the repository of [adapters/in_memory.py]), with theorems in
    ResourceFacts: over calls that follow one another a requirement of a workflow
    instance has one active binding, of a stored resource that meets it, and
    requests may be repeated; an example binds one requirement in two units of
    work side by side.

    ** How they interact

    Application calls the runtime and the coordinator and commits; the runtime
    asks Engine, applies through EngineCoordinator, which calls Coordinator,
    calls skills through the executor, and stores through Repositories into
    UnitOfWork. Classes state what a component needs of another:
    [OperationRepository] (Budget), the repository of run approvals
    (RunApproval), [ContentStorage] (Contents), [IdentityRepositories]
    (ProgressIdentity, also used by Resources).

    ** Conventions

    A method that mutates is a computation of the monad [M]: it gives the result
    or the exception together with the state, and what was changed before an
    exception stays changed. A pure function that raises gives a [result].

    Values are JSON-compatible: dictionaries are association lists with string
    keys in insertion order, a flag marks a read-only view. Strings are the bytes
    of their UTF-8 encoding. Integers are unbounded, as in Python; floats are
    binary64. A datetime is an instant in microseconds and whether it is aware;
    times are written in UTC, stored timestamps are aware. The clock and the
    source of identifiers are parameters. Python sets are lists without
    duplicates: where one is iterated the result does not depend on the order.

    Fuel. Kahn's algorithm and the ancestors of a step have as much fuel as there
    are nodes, which Graph and References prove enough; a run takes the number of
    decisions of its own limit [max_decisions]; a repetition of a regular
    expression has the length of the text as fuel; the blocks of a hash have the
    number of its words.

    Tables of the unit of work that the workflow engine does not use hold opaque
    values of a parameter; their stage, check, publication and deletion are
    modelled. Skill implementations are parameters that may change a state of
    their own; a log records their calls, and they are assumed to leave the
    session as it is. Which characters of a text above U+007F are word characters
    is the parameter [unicode_word]. The package of a workflow instance and the
    checksum of its definition are parameters of the run approvals. The
    services of progress reports and of resources have the commit of the tables
    they do not own as a parameter, and the unit of work of a call that raises
    is given up. The progress service further has as parameters what the bytes of a report normalize to,
    the instance a package resolves to (ProgressIdentity defines the resolver in
    use) and the artifact references. The theorem on
    stored projections assumes that packages have one workflow instance each.

    Concurrency is the interleaving of whole repository calls, commits and
    rollbacks of units of work. In Isolation the interleavings do not contain the
    deletion of a project, whose identifiers could be used again.

    ** Not modelled

    Cancellation of tasks in [agent_runtime] and timers; the normalization of
    report bytes, the checks of an envelope built from untrusted JSON, the
    aggregation of progress over instances and the HTTP client of
    [progress_reports]; the compiler, the local runner and the built-in
    definitions of [workflow_packages] and [project_workspaces], which are file
    and process I/O and literal tables; the research skills, which prompt language
    models and read web services; [database/], whose behaviour the SQL server
    decides; [api/], [cloud_api_proxy/], [local_projects/], [local_sessions/],
    [artifact_references/] and the requirement tables of
    [resource_references/], which check and route contracts of those parts; the frontend and the scripts. *)
From stdpp Require Export base list strings gmap sets relations sorting.
From Stdlib Require Export Lia ZArith.

(** * Results and the state-and-exception monad *)

(** The outcome of a Python call: a returned value or a raised exception. *)
Inductive result (E A : Type) : Type :=
  | Ok (a : A)
  | Err (e : E).
Arguments Ok {E A} a.
Arguments Err {E A} e.

Definition is_ok {E A} (r : result E A) : bool :=
  match r with Ok _ => true | Err _ => false end.

#[export] Instance result_ret E : MRet (result E) := fun A a => Ok a.
#[export] Instance result_bind E : MBind (result E) :=
  fun A B f m => match m with Ok a => f a | Err e => Err e end.
#[export] Instance result_fmap E : FMap (result E) :=
  fun A B f m => match m with Ok a => Ok (f a) | Err e => Err e end.

(** A method that mutates an object of type [S]: mutations made before an
    exception is raised stay in the state, as they do in Python. *)
Definition M (E S A : Type) : Type := S -> result E A * S.

#[export] Instance M_ret E S : MRet (M E S) := fun A a s => (Ok a, s).
#[export] Instance M_bind E S : MBind (M E S) :=
  fun A B f m s => match m s with
                   | (Ok a, s') => f a s'
                   | (Err e, s') => (Err e, s')
                   end.

Definition raise {E S A} (e : E) : M E S A := fun s => (Err e, s).
Definition get_state {E S} : M E S S := fun s => (Ok s, s).
Definition gets {E S A} (f : S -> A) : M E S A := fun s => (Ok (f s), s).
Definition put_state {E S} (s' : S) : M E S unit := fun _ => (Ok tt, s').
Definition modify {E S} (f : S -> S) : M E S unit := fun s => (Ok tt, f s).
Definition lift_result {E S A} (r : result E A) : M E S A := fun s => (r, s).

(** [if cond: raise e] *)
Definition raise_if {E S} (b : bool) (e : E) : M E S unit :=
  if b then raise e else mret tt.
Definition fail_if {E} (b : bool) (e : E) : result E unit :=
  if b then Err e else Ok tt.

(** [for x in l: f x] *)
Fixpoint for_each {E S A} (f : A -> M E S unit) (l : list A) : M E S unit :=
  match l with
  | [] => mret tt
  | x :: l' => f x ;; for_each f l'
  end.

Section result_loops.
Context {E A B : Type}.

(** A loop whose body may raise. *)
Section each.
Context (f : A -> result E unit).
Fixpoint each_ok (l : list A) : result E unit :=
  match l with
  | [] => Ok tt
  | x :: l' => match f x with Ok _ => each_ok l' | Err e => Err e end
  end.
End each.

(** [[f(x) for x in l]] *)
Section map.
Context (f : A -> result E B).
Fixpoint map_ok (l : list A) : result E (list B) :=
  match l with
  | [] => Ok []
  | x :: l' => match f x with
               | Ok y => match map_ok l' with
                         | Ok ys => Ok (y :: ys)
                         | Err e => Err e
                         end
               | Err e => Err e
               end
  end.
End map.

(** [[f(i, x) for i, x in enumerate(l, i)]] *)
Section mapi.
Context (f : nat -> A -> result E B).
Fixpoint mapi_ok (i : nat) (l : list A) : result E (list B) :=
  match l with
  | [] => Ok []
  | x :: l' => match f i x with
               | Ok y => match mapi_ok (S i) l' with
                         | Ok ys => Ok (y :: ys)
                         | Err e => Err e
                         end
               | Err e => Err e
               end
  end.
End mapi.
End result_loops.

(** The two ways a sequence runs. *)
Lemma bind_inv {E S A B} (c : M E S A) (f : A -> M E S B) s r s' : (c ≫= f) s = (r, s') ->
  (exists a s1, c s = (Ok a, s1) /\ f a s1 = (r, s')) \/ (exists e, c s = (Err e, s') /\ r = Err e).
Proof. unfold mbind, M_bind. destruct (c s) as [[a|e] s1]; [eauto|]. intros [= <- <-]. eauto. Qed.

Lemma lift_inv {E S A} (r : result E A) (s s' : S) x : lift_result r s = (x, s') -> r = x /\ s' = s.
Proof. by intros [= -> ->]. Qed.

(** * Triples over the state monad *)

(** [triple P m Q R]: from a state satisfying [P], [m] either returns a value
    with [Q], or raises with [R]. *)
Definition triple {E S A} (P : S -> Prop) (m : M E S A)
    (Q : A -> S -> Prop) (R : E -> S -> Prop) : Prop :=
  forall s, P s ->
    match m s with
    | (Ok a, s') => Q a s'
    | (Err e, s') => R e s'
    end.

Section triples.
Context {E S : Type}.
Implicit Types (A B : Type).

Lemma triple_ret {A} (a : A) (Q : A -> S -> Prop) (R : E -> S -> Prop) :
  triple (Q a) (mret a) Q R.
Proof. intros s H; exact H. Qed.

Lemma triple_bind {A B} P (m : M E S A) (f : A -> M E S B) Q' Q R :
  triple P m Q' R ->
  (forall a, triple (Q' a) (f a) Q R) ->
  triple P (m ≫= f) Q R.
Proof.
  intros Hm Hf s Hs. specialize (Hm s Hs).
  unfold mbind, M_bind. destruct (m s) as [[a|e] s']; [|done].
  apply (Hf a s' Hm).
Qed.

Lemma triple_raise {A} (e : E) P (Q : A -> S -> Prop) (R : E -> S -> Prop) :
  (forall s, P s -> R e s) -> triple P (raise e) Q R.
Proof. intros H s Hs. apply H, Hs. Qed.

Lemma triple_conseq {A} (P P' : S -> Prop) (m : M E S A) (Q Q' : A -> S -> Prop) (R R' : E -> S -> Prop) :
  triple P' m Q' R' ->
  (forall s, P s -> P' s) ->
  (forall a s, Q' a s -> Q a s) ->
  (forall e s, R' e s -> R e s) ->
  triple P m Q R.
Proof.
  intros H HP HQ HR s Hs. specialize (H s (HP s Hs)).
  destruct (m s) as [[a|e] s']; auto.
Qed.

Lemma triple_for_each {A} (f : A -> M E S unit) (I : S -> Prop) (R : E -> S -> Prop) l :
  (forall x, x ∈ l -> triple I (f x) (fun _ => I) R) ->
  triple I (for_each f l) (fun _ => I) R.
Proof.
  induction l as [|x l IH]; intros H; simpl.
  - apply (triple_ret tt (fun _ => I)).
  - apply triple_bind with (Q' := fun _ => I).
    + apply H. set_solver.
    + intros _. apply IH. intros y Hy. apply H. set_solver.
Qed.
End triples.

(** * Automation shared by the components *)

Create HintDb reagent.

(** Invert equations between results and monadic outcomes. *)
Ltac inv_ok :=
  repeat match goal with
  | H : Ok _ = Ok _ |- _ => injection H as H; subst
  | H : Err _ = Err _ |- _ => injection H as H; subst
  | H : Ok _ = Err _ |- _ => discriminate H
  | H : Err _ = Ok _ |- _ => discriminate H
  | H : (_, _) = (_, _) |- _ => injection H as H; subst
  | H : Some _ = Some _ |- _ => injection H as H; subst
  | H : Some _ = None |- _ => discriminate H
  | H : None = Some _ |- _ => discriminate H
  | H : is_ok (Ok _) = false |- _ => discriminate H
  | H : is_ok (Err _) = true |- _ => discriminate H
  end.

(** Case analysis on the scrutinee of a [match] in a hypothesis or the goal,
    keeping the equation. *)
Ltac case_in H :=
  match type of H with
  | context [match ?x with _ => _ end] =>
      lazymatch x with
      | context [match _ with _ => _ end] => fail
      | _ => destruct x eqn:?
      end
  end.

Ltac case_goal :=
  match goal with
  | |- context [match ?x with _ => _ end] =>
      lazymatch x with
      | context [match _ with _ => _ end] => fail
      | _ => destruct x eqn:?
      end
  end.

Ltac split_ok H := repeat (case_in H; simplify_eq/=; inv_ok; try done).

(** Turn boolean tests in the context into propositions. *)
Ltac reflect_bools :=
  repeat match goal with
  | H : (_ && _) = true |- _ => apply andb_true_iff in H as [? ?]
  | H : (_ || _) = false |- _ => apply orb_false_iff in H as [? ?]
  | H : negb _ = true |- _ => apply negb_true_iff in H
  | H : negb _ = false |- _ => apply negb_false_iff in H
  | H : bool_decide _ = true |- _ => apply bool_decide_eq_true in H
  | H : bool_decide _ = false |- _ => apply bool_decide_eq_false in H
  | H : (_ <=? _)%Z = true |- _ => apply Z.leb_le in H
  | H : (_ <=? _)%Z = false |- _ => apply Z.leb_gt in H
  | H : (_ <? _)%Z = true |- _ => apply Z.ltb_lt in H
  | H : (_ <? _)%Z = false |- _ => apply Z.ltb_ge in H
  | H : (_ =? _)%Z = true |- _ => apply Z.eqb_eq in H
  | H : (_ =? _)%Z = false |- _ => apply Z.eqb_neq in H
  | H : String.eqb _ _ = true |- _ => apply String.eqb_eq in H
  | H : String.eqb _ _ = false |- _ => apply String.eqb_neq in H
  end.

(** * Guards *)

Lemma bind_Ok {E A B} (m : result E A) (f : A -> result E B) b :
  m ≫= f = Ok b <-> exists a, m = Ok a /\ f a = Ok b.
Proof.
  destruct m as [a|e]; simpl; split; [eauto|intros (? & [= ->] & ?); done|done|].
  by intros (? & ? & ?).
Qed.

Lemma result_bind_ext {E A B} (m : result E A) (f g : A -> result E B) :
  (forall a, f a = g a) -> m ≫= f = m ≫= g.
Proof. intros H. destruct m; [apply H|done]. Qed.

Lemma fail_if_Ok {E} b (e : E) u : fail_if b e = Ok u <-> b = false.
Proof. destruct b, u; simpl; done. Qed.

Lemma guard_Ok {E A} b (e : E) (f : unit -> result E A) a :
  fail_if b e ≫= f = Ok a <-> b = false /\ f tt = Ok a.
Proof. destruct b; simpl; naive_solver. Qed.

Lemma then_Ok {E A} (m : result E unit) (f : unit -> result E A) a :
  m ≫= f = Ok a <-> m = Ok tt /\ f tt = Ok a.
Proof. destruct m as [[]|e]; simpl; naive_solver. Qed.

Lemma is_ok_exists {E A} (r : result E A) : is_ok r = true <-> exists a, r = Ok a.
Proof. destruct r; simpl; naive_solver. Qed.

(** * Lists and options *)

Lemma each_ok_Ok {E A} (f : A -> result E unit) l :
  each_ok f l = Ok tt <-> forall x, x ∈ l -> f x = Ok tt.
Proof.
  induction l as [|y l IH]; simpl.
  - split; [set_solver|done].
  - destruct (f y) as [[]|e] eqn:Hy.
    + rewrite IH. split.
      * intros H x [->|Hx]%elem_of_cons; auto.
      * intros H x Hx. apply H. set_solver.
    + split; [done|]. intros H. rewrite (H y) in Hy; [done|set_solver].
Qed.

Lemma map_ok_length {E A B} (f : A -> result E B) l ys :
  map_ok f l = Ok ys -> length ys = length l.
Proof.
  revert ys. induction l as [|x l IH]; simpl; intros ys H; inv_ok; [done|].
  split_ok H. f_equal/=. by apply IH.
Qed.

Lemma map_ok_Forall2 {E A B} (f : A -> result E B) l ys :
  map_ok f l = Ok ys <-> Forall2 (fun x y => f x = Ok y) l ys.
Proof.
  split.
  - revert ys. induction l as [|x l IH]; simpl; intros ys H; [by inv_ok|].
    split_ok H. constructor; auto.
  - induction 1 as [|x y l ys Hx _ IH]; simpl; [done|]. by rewrite Hx, IH.
Qed.

Lemma mapi_ok_pure {E A B} (f : nat -> A -> result E B) (g : A -> B) i l :
  (forall j x, x ∈ l -> f j x = Ok (g x)) -> mapi_ok f i l = Ok (g <$> l).
Proof.
  revert i. induction l as [|x l IH]; intros i H; simpl; [done|].
  rewrite (H i x) by set_solver. rewrite IH; [done|]. intros j y Hy. apply H. set_solver.
Qed.

Lemma map_ok_pure {E A B} (f : A -> result E B) (g : A -> B) l :
  (forall x, x ∈ l -> f x = Ok (g x)) -> map_ok f l = Ok (g <$> l).
Proof.
  induction l as [|x l IH]; intros H; simpl; [done|].
  rewrite (H x) by set_solver. rewrite IH; [done|]. intros y Hy. apply H. set_solver.
Qed.

(** Number of elements of [l] satisfying a boolean test. *)
Definition countb {A} (f : A -> bool) (l : list A) : nat := length (List.filter f l).

Lemma countb_zero {A} (f : A -> bool) l :
  countb f l = 0 <-> forall x, x ∈ l -> f x = false.
Proof.
  unfold countb. induction l as [|y l IH]; simpl.
  - split; [set_solver|done].
  - destruct (f y) eqn:Hy; simpl.
    + split; [lia|]. intros H. rewrite (H y) in Hy; [done|set_solver].
    + rewrite IH. split.
      * intros H x [->|Hx]%elem_of_cons; auto.
      * intros H x Hx. apply H. set_solver.
Qed.

Lemma countb_ext {A} (f g : A -> bool) l :
  (forall x, x ∈ l -> f x = g x) -> countb f l = countb g l.
Proof.
  unfold countb. induction l as [|y l IH]; simpl; intros H; [done|].
  rewrite (H y) by set_solver. destruct (g y); simpl;
    rewrite IH; try done; intros; apply H; set_solver.
Qed.

Lemma countb_remove {A} `{EqDecision A} (f : A -> bool) l x :
  NoDup l -> x ∈ l -> f x = true ->
  countb f l = S (countb (fun y => f y && negb (bool_decide (y = x))) l).
Proof.
  unfold countb. induction 1 as [|y l Hy Hl IH]; simpl; [set_solver|].
  intros [->|Hx]%elem_of_cons Hf.
  - rewrite Hf, bool_decide_true by done. simpl. f_equal.
    apply (countb_ext f). intros z Hz. rewrite bool_decide_false by congruence.
    by rewrite andb_true_r.
  - rewrite (bool_decide_false (y = x)) by congruence. rewrite andb_true_r.
    destruct (f y); simpl; rewrite IH; done.
Qed.

Lemma filter_none {A} (P : A -> Prop) `{!forall x, Decision (P x)} (l : list A) :
  (forall x, x ∈ l -> ~ P x) -> filter P l = [].
Proof.
  induction l as [|x l IH]; intros Hn; [done|].
  rewrite filter_cons, decide_False by (apply Hn; left). apply IH. intros y Hy. apply Hn. by right.
Qed.

Lemma prefix_snoc_lookup {A} (l : list A) x i y :
  (l ++ [x]) !! i = Some y -> l !! i = Some y \/ (i = length l /\ y = x).
Proof.
  intros H. apply lookup_app_Some in H as [H|[Hi H]]; [by left|].
  apply list_lookup_singleton_Some in H as [? ->]. right. split; [lia|done].
Qed.

(** Sums over lists, in any order. *)
Definition Zsum {A} (f : A -> Z) (l : list A) : Z := foldr (fun x acc => (f x + acc)%Z) 0%Z l.

#[export] Instance Zsum_proper {A} (f : A -> Z) : Proper ((≡ₚ) ==> eq) (Zsum f).
Proof. unfold Zsum. induction 1; cbn; lia. Qed.

Lemma Zsum_app {A} (f : A -> Z) l l' : Zsum f (l ++ l') = (Zsum f l + Zsum f l')%Z.
Proof. unfold Zsum. induction l as [|x l IH]; cbn in *; lia. Qed.

(** ** Insertion sort: the stable sort of [sorted] and [list.sort] *)

Section isort.
Context {A : Type} (le : A -> A -> bool).

Fixpoint insert_sorted (x : A) (l : list A) : list A :=
  match l with
  | [] => [x]
  | y :: l' => if le x y then x :: l else y :: insert_sorted x l'
  end.

Fixpoint isort (l : list A) : list A :=
  match l with [] => [] | x :: l' => insert_sorted x (isort l') end.

Lemma insert_sorted_perm x l : insert_sorted x l ≡ₚ x :: l.
Proof.
  induction l as [|y l IH]; simpl; [done|]. destruct (le x y); [done|].
  rewrite IH. apply Permutation_swap.
Qed.

Lemma isort_perm l : isort l ≡ₚ l.
Proof. induction l as [|x l IH]; simpl; [done|]. by rewrite insert_sorted_perm, IH. Qed.

Context (le_total : forall x y, le x y = true \/ le y x = true).

Lemma insert_sorted_Sorted x l : Sorted le l -> Sorted le (insert_sorted x l).
Proof.
  induction 1 as [|y l Hl IH Hhd]; simpl; [by repeat constructor|].
  destruct (le x y) eqn:Hxy; [by constructor; [constructor|constructor; rewrite Hxy]|].
  constructor; [done|]. destruct l as [|z l]; simpl in *.
  - constructor. destruct (le_total x y) as [?|Hyx]; [congruence|by rewrite Hyx].
  - destruct (le x z); constructor.
    + destruct (le_total x y) as [?|Hyx]; [congruence|by rewrite Hyx].
    + by inversion Hhd.
Qed.

Lemma isort_Sorted l : Sorted le (isort l).
Proof. induction l; simpl; [constructor|]. by apply insert_sorted_Sorted. Qed.
End isort.

Lemma isort_fmap {A B} (leA : A -> A -> bool) (leB : B -> B -> bool) (f : A -> B) l :
  (forall x y, leB (f x) (f y) = leA x y) -> isort leB (f <$> l) = f <$> isort leA l.
Proof.
  intros H. induction l as [|x l IH]; [done|]. rewrite fmap_cons. cbn [isort].
  rewrite IH. clear IH.
  induction (isort leA l) as [|y l' IH]; [done|]. rewrite fmap_cons. cbn [insert_sorted].
  rewrite H. destruct (leA x y); [done|]. by rewrite IH.
Qed.
