(* ===== verification/Errors.v ===== *)
(** The exception classes the core raises, with their inheritance, and the
    exception values carried by results. *)
From S2P Require Import Prelude.
From stdpp Require Import base strings.
Local Open Scope string_scope.
Local Open Scope list_scope.

(** One constructor per exception class of the modelled packages, and the
    built-in classes their code raises or lets escape. The coded classes carry
    the code of the instance. *)
Inductive exn_class :=
  | DomainError
  | DomainValidationError
  | InvalidStateTransition
  | CheckpointIntegrityError
  | CheckpointMismatchError
  | ExecutionNotResumableError
  | StepRunNotFoundError
  | WorkflowEngineError
  | InvalidWorkflowDefinitionError
  | InvalidReferenceError
  | InvalidRetryPolicyError
  | WorkflowStateError
  | StaleDecisionError
  | PersistenceError
  | StaleStateError
  | DuplicateEntityError
  | BudgetExceededError
  | ManifestRevisionConflictError
  | SkillSystemError
  | InvalidSkillDefinitionError
  | InvalidSkillReferenceError
  | DuplicateSkillRegistrationError
  | SkillNotFoundError
  | SkillDecisionMismatchError
  | AgentRuntimeError
  | ApplicationError
  | ApplicationValidationError
  | ApplicationNotFoundError
  | ApplicationConflictError
  | ApplicationAuthorizationError
  | ApplicationCodedConflictError (code : string)
  | ApplicationCodedNotFoundError (code : string)
  | ApplicationCodedValidationError (code : string)
  | ApplicationCodedAuthorizationError (code : string)
  | ArtifactGatewayError
  | UnsafeProgressReportError
  | ArtifactReferenceError
  | ArtifactReferenceConflictError
  | ArtifactTypeUnknownError
  | ArtifactDependencyError
  | ResourceReferenceConflictError
  | PyException
  | PyValueError
  | PyTypeError
  | PyKeyError
  | PyOverflowError
  | PyRuntimeError
  | PyAssertionError
  | PyAttributeError
  | PyIndexError.

#[export] Instance exn_class_eq_dec : EqDecision exn_class.
Proof. solve_decision. Defined.

(** The direct base class. *)
Definition base_class (c : exn_class) : option exn_class :=
  match c with
  | PyException => None
  | DomainError | PersistenceError | PyValueError | PyTypeError
  | PyKeyError | PyOverflowError | PyRuntimeError | PyAssertionError
  | PyAttributeError | PyIndexError => Some PyException
  | DomainValidationError | InvalidStateTransition | CheckpointIntegrityError
  | CheckpointMismatchError | ExecutionNotResumableError
  | StepRunNotFoundError => Some DomainError
  | WorkflowEngineError => Some DomainError
  | InvalidWorkflowDefinitionError => Some WorkflowEngineError
  | InvalidReferenceError | InvalidRetryPolicyError => Some InvalidWorkflowDefinitionError
  | WorkflowStateError => Some WorkflowEngineError
  | StaleDecisionError => Some WorkflowStateError
  | StaleStateError | DuplicateEntityError => Some PersistenceError
  | BudgetExceededError | ManifestRevisionConflictError => Some PyRuntimeError
  | SkillSystemError => Some PyException
  | InvalidSkillDefinitionError | InvalidSkillReferenceError | DuplicateSkillRegistrationError
  | SkillNotFoundError | SkillDecisionMismatchError => Some SkillSystemError
  | AgentRuntimeError | ApplicationError => Some PyRuntimeError
  | ApplicationValidationError | ApplicationNotFoundError | ApplicationConflictError
  | ApplicationAuthorizationError =>
      Some ApplicationError
  | ApplicationCodedConflictError _ => Some ApplicationConflictError
  | ApplicationCodedNotFoundError _ => Some ApplicationNotFoundError
  | ApplicationCodedValidationError _ => Some ApplicationValidationError
  | ApplicationCodedAuthorizationError _ => Some ApplicationAuthorizationError
  | ArtifactGatewayError => Some PyRuntimeError
  | UnsafeProgressReportError | ArtifactReferenceError | ResourceReferenceConflictError =>
      Some PyValueError
  | ArtifactReferenceConflictError | ArtifactTypeUnknownError | ArtifactDependencyError =>
      Some ArtifactReferenceError
  end.

(** The class chain is at most five long. *)
Fixpoint mro (fuel : nat) (c : exn_class) : list exn_class :=
  c :: match fuel with
       | 0 => []
       | S n => match base_class c with Some b => mro n b | None => [] end
       end.

(** [isinstance(error, c)]: what an [except c] clause catches. *)
Definition is_instance (e c : exn_class) : bool := bool_decide (c ∈ mro 5 e).

Record exn := Exn { exn_kind : exn_class; exn_msg : string }.

#[export] Instance exn_eq_dec : EqDecision exn.
Proof. solve_decision. Defined.

Abbreviation res := (result exn).

(** ** Which exceptions a computation can raise *)

(** Every exception of [r] is of class [k]. *)
Definition raises_only {A} (k : exn_class) (r : res A) : Prop :=
  forall e, r = Err e -> exn_kind e = k.

Section raises.
Context (k : exn_class).

Lemma raises_Ok {A} (a : A) : raises_only k (Ok a).
Proof. by intros e. Qed.

Lemma raises_Err {A} e : exn_kind e = k -> raises_only (A := A) k (Err e).
Proof. by intros He e' [= <-]. Qed.

Lemma raises_fail_if b e : exn_kind e = k -> raises_only k (fail_if b e).
Proof. destruct b; [apply raises_Err|intros _; apply raises_Ok]. Qed.

Lemma raises_bind {A B} (m : res A) (f : A -> res B) :
  raises_only k m -> (forall a, m = Ok a -> raises_only k (f a)) -> raises_only k (m ≫= f).
Proof.
  intros Hm Hf e. destruct m as [a|e']; simpl; [by apply Hf|]. intros [= <-]. by apply Hm.
Qed.

Lemma raises_each {A} (f : A -> res unit) l :
  (forall x, raises_only k (f x)) -> raises_only k (each_ok f l).
Proof.
  intros Hf. induction l as [|x l IH]; simpl; [apply raises_Ok|].
  destruct (f x) as [[]|e] eqn:Hx; [done|]. apply raises_Err. by apply (Hf x).
Qed.
End raises.

#[export] Hint Resolve raises_Ok raises_Err raises_fail_if raises_bind raises_each : reagent.

(** Prove [raises_only] along a chain of guards. *)
Ltac raises_tac :=
  repeat first
    [ apply raises_Ok
    | apply raises_Err; reflexivity
    | apply raises_fail_if; reflexivity
    | apply raises_bind; [|intros ? ?]
    | apply raises_each; intros ?
    | solve [auto with reagent]
    | progress case_goal ].
