(* ===== verification/Graph.v ===== *)
(** Dependency graphs: Kahn's counting algorithm, as both workflow validators
    write it, and the proof that it accepts exactly the graphs that have a
    topological order.  A node is its identifier with the list of the
    identifiers it needs. *)
From S2P Require Import Prelude Errors.
From stdpp Require Import base list strings gmap relations.
Local Open Scope string_scope.
Local Open Scope list_scope.

Abbreviation node := (string * list string)%type.

(** [{step.id: len(step.needs) for step in steps}] *)
Definition inbound_counts (nodes : list node) : gmap string Z :=
  foldl (fun m n => <[n.1 := Z.of_nat (length n.2)]> m) ∅ nodes.

(** [{step.id: [] for step in steps}] *)
Definition no_dependents (nodes : list node) : gmap string (list string) :=
  foldl (fun m n => <[n.1 := []]> m) ∅ nodes.

(** [dependents[dependency].append(step.id)] for every dependency of one
    step; an unknown dependency is a [KeyError]. *)
Fixpoint add_dependents (id : string) (needs : list string)
    (m : gmap string (list string)) : res (gmap string (list string)) :=
  match needs with
  | [] => Ok m
  | d :: needs' =>
      match m !! d with
      | Some l => add_dependents id needs' (<[d := l ++ [id]]> m)
      | None => Err (Exn PyKeyError d)
      end
  end.

Fixpoint dependents_table (nodes : list node) (m : gmap string (list string)) :
    res (gmap string (list string)) :=
  match nodes with
  | [] => Ok m
  | n :: nodes' => m' ← add_dependents n.1 n.2 m; dependents_table nodes' m'
  end.

(** The inner loop: decrement each dependent's count and queue it at zero. *)
Fixpoint relax (ds : list string) (inbound : gmap string Z) (ready : list string) :
    res (gmap string Z * list string) :=
  match ds with
  | [] => Ok (inbound, ready)
  | d :: ds' =>
      match inbound !! d with
      | None => Err (Exn PyKeyError d)
      | Some k =>
          let inbound' := <[d := (k - 1)%Z]> inbound in
          relax ds' inbound' (if (k - 1 =? 0)%Z then ready ++ [d] else ready)
      end
  end.

(** The outer loop: pop the queue's head and count it as visited. *)
Fixpoint process_ready (fuel : nat) (dependents : gmap string (list string))
    (ready : list string) (inbound : gmap string Z) (visited : nat) :
    option (res nat) :=
  match fuel with
  | 0 => None
  | S fuel' =>
      match ready with
      | [] => Some (Ok visited)
      | id :: ready' =>
          match dependents !! id with
          | None => Some (Err (Exn PyKeyError id))
          | Some ds =>
              match relax ds inbound ready' with
              | Ok (inbound', ready'') =>
                  process_ready fuel' dependents ready'' inbound' (S visited)
              | Err e => Some (Err e)
              end
          end
      end
  end.

(** ** The specification *)

Definition ids (nodes : list node) : list string := nodes.*1.

(** [needs_of nodes x]: the dependencies of node [x]. *)
Definition needs_of (nodes : list node) (x : string) : list string :=
  match list_find (fun n => n.1 = x) nodes with
  | Some (_, n) => n.2
  | None => []
  end.

(** Every dependency of an element of the list occurs before it. *)
Definition ordered (nodes : list node) (order : list string) : Prop :=
  forall i x, order !! i = Some x -> forall d, d ∈ needs_of nodes x -> d ∈ take i order.

Definition topological_order (nodes : list node) (order : list string) : Prop :=
  order ≡ₚ ids nodes /\ ordered nodes order.

Definition acyclic_graph (nodes : list node) : Prop :=
  exists order, topological_order nodes order.

(** What the validators check before they look for cycles. *)
Record well_formed (nodes : list node) : Prop := {
  wf_ids : NoDup (ids nodes);
  wf_needs : forall n, n ∈ nodes -> NoDup n.2;
  wf_closed : forall n d, n ∈ nodes -> d ∈ n.2 -> d ∈ ids nodes
}.

(** ** The tables *)

Lemma inbound_counts_app nodes n :
  inbound_counts (nodes ++ [n]) = <[n.1 := Z.of_nat (length n.2)]> (inbound_counts nodes).
Proof. unfold inbound_counts. by rewrite foldl_app. Qed.

Lemma elem_of_ids nodes x : x ∈ ids nodes <-> exists needs, (x, needs) ∈ nodes.
Proof.
  unfold ids. rewrite list_elem_of_fmap. split.
  - intros ([y l] & -> & H). by exists l.
  - intros [l H]. by exists (x, l).
Qed.

Lemma needs_of_elem nodes x needs :
  NoDup (ids nodes) -> (x, needs) ∈ nodes -> needs_of nodes x = needs.
Proof.
  unfold needs_of, ids. intros Hnd Hin.
  destruct (list_find _ nodes) as [[i n]|] eqn:Hf.
  - apply list_find_Some in Hf as (Hi & Hn & _). destruct n as [y l]; simpl in *; subst.
    apply list_elem_of_lookup in Hin as [j Hj].
    assert (i = j) as ->.
    { eapply (NoDup_lookup _ _ _ x Hnd);
        rewrite list_lookup_fmap; [by rewrite Hi|by rewrite Hj]. }
    congruence.
  - apply list_find_None in Hf. rewrite Forall_forall in Hf. by specialize (Hf _ Hin).
Qed.

Lemma inbound_counts_lookup nodes x needs :
  NoDup (ids nodes) -> (x, needs) ∈ nodes ->
  inbound_counts nodes !! x = Some (Z.of_nat (length needs)).
Proof.
  induction nodes as [|[y l] nodes IH] using rev_ind; [set_solver|].
  unfold ids in *. rewrite fmap_app, inbound_counts_app. simpl.
  intros (Hnd & Hy & _)%NoDup_app Hin.
  apply elem_of_app in Hin as [Hin| [= -> ->]%list_elem_of_singleton].
  - rewrite lookup_insert_ne; [by apply IH|]. intros ->.
    apply (Hy x); [apply elem_of_ids; eauto|set_solver].
  - by rewrite lookup_insert_eq.
Qed.

Lemma no_dependents_lookup nodes x : x ∈ ids nodes -> no_dependents nodes !! x = Some [].
Proof.
  unfold no_dependents, ids. induction nodes as [|[y l] nodes IH] using rev_ind; [set_solver|].
  rewrite foldl_app, fmap_app, elem_of_app. simpl. intros Hin.
  destruct (decide (x = y)) as [->|Hne]; [by rewrite lookup_insert_eq|].
  rewrite lookup_insert_ne by done. apply IH. set_solver.
Qed.

Lemma add_dependents_spec id needs m :
  NoDup needs -> (forall d, d ∈ needs -> is_Some (m !! d)) ->
  exists m', add_dependents id needs m = Ok m' /\
    forall x, m' !! x = if decide (x ∈ needs) then (fun l => l ++ [id]) <$> m !! x else m !! x.
Proof.
  intros Hnd. revert m. induction Hnd as [|d needs Hd Hnd IH]; intros m Hm; cbn [add_dependents].
  - eexists; split; [done|]. intros x. by rewrite decide_False by set_solver.
  - destruct (Hm d) as [l Hl]; [set_solver|]. rewrite Hl.
    destruct (IH (<[d:=l ++ [id]]> m)) as (m' & Hm' & Hx).
    { intros e He. destruct (decide (e = d)) as [->|]; simplify_map_eq; [eauto|].
      apply Hm; set_solver. }
    exists m'. split; [done|]. intros x. rewrite Hx.
    destruct (decide (x = d)) as [->|Hne].
    + rewrite decide_False, decide_True by set_solver. by rewrite lookup_insert_eq, Hl.
    + rewrite lookup_insert_ne by done.
      destruct (decide (x ∈ needs)); [rewrite decide_True by set_solver|rewrite decide_False by set_solver]; done.
Qed.

(** The nodes that need [x], in definition order. *)
Definition dependents_of (nodes : list node) (x : string) : list string :=
  (filter (fun n => x ∈ n.2) nodes).*1.

Lemma dependents_table_spec nodes m :
  (forall n, n ∈ nodes -> NoDup n.2) ->
  (forall n d, n ∈ nodes -> d ∈ n.2 -> is_Some (m !! d)) ->
  exists m', dependents_table nodes m = Ok m' /\
    forall x, m' !! x = (fun l => l ++ dependents_of nodes x) <$> m !! x.
Proof.
  revert m. induction nodes as [|n nodes IH]; intros m Hnd Hm; simpl.
  - eexists; split; [done|]. intros x. unfold dependents_of. simpl.
    destruct (m !! x); simpl; [by rewrite app_nil_r|done].
  - destruct (add_dependents_spec n.1 n.2 m) as (m1 & Hm1 & Hx1).
    { apply Hnd; set_solver. }
    { intros d Hd. apply (Hm n); set_solver. }
    rewrite Hm1. simpl.
    destruct (IH m1) as (m' & Hm' & Hx).
    { intros; apply Hnd; set_solver. }
    { intros n' d Hn' Hd. rewrite Hx1.
      assert (is_Some (m !! d)) as [l ->] by (apply (Hm n'); set_solver).
      destruct (decide _); eauto. }
    exists m'. split; [done|]. intros x. rewrite Hx, Hx1.
    unfold dependents_of. rewrite filter_cons.
    destruct (decide (x ∈ n.2)); destruct (m !! x); simpl; try done.
    by rewrite <- app_assoc.
Qed.

Lemma elem_of_dependents_of nodes x y :
  NoDup (ids nodes) ->
  y ∈ dependents_of nodes x <-> y ∈ ids nodes /\ x ∈ needs_of nodes y.
Proof.
  intros Hnd. unfold dependents_of. rewrite list_elem_of_fmap. split.
  - intros ([z l] & -> & [Hx Hn]%list_elem_of_filter). simpl in *. split.
    + apply elem_of_ids; eauto.
    + by rewrite (needs_of_elem _ _ l).
  - intros [[l Hl]%elem_of_ids Hx]. rewrite (needs_of_elem _ _ l) in Hx by done.
    exists (y, l). split; [done|]. by apply list_elem_of_filter.
Qed.

Lemma sublist_fmap {A B} (f : A -> B) l1 l2 :
  l1 `sublist_of` l2 -> f <$> l1 `sublist_of` f <$> l2.
Proof. induction 1; simpl; by constructor. Qed.

Lemma NoDup_dependents_of nodes x : NoDup (ids nodes) -> NoDup (dependents_of nodes x).
Proof.
  unfold dependents_of, ids. intros Hnd. eapply sublist_NoDup; [exact Hnd|].
  apply sublist_fmap, sublist_filter.
Qed.

Lemma relax_spec ds inbound ready :
  NoDup ds -> (forall d, d ∈ ds -> is_Some (inbound !! d)) ->
  exists inbound', relax ds inbound ready
      = Ok (inbound', ready ++ filter (fun d => inbound !! d = Some 1%Z) ds) /\
    forall x, inbound' !! x =
      if decide (x ∈ ds) then (fun k => k - 1)%Z <$> inbound !! x else inbound !! x.
Proof.
  intros Hnd. revert inbound ready.
  induction Hnd as [|d ds Hd Hnd IH]; intros inbound ready Hin; cbn [relax].
  - eexists; split; [by rewrite app_nil_r|]. intros x. by rewrite decide_False by set_solver.
  - destruct (Hin d) as [k Hk]; [set_solver|]. rewrite Hk.
    destruct (IH (<[d:=(k-1)%Z]> inbound)
                 (if (k - 1 =? 0)%Z then ready ++ [d] else ready)) as (inb' & Hr & Hx).
    { intros e He. destruct (decide (e = d)) as [->|]; simplify_map_eq; [eauto|].
      apply Hin; set_solver. }
    exists inb'. split.
    + rewrite Hr. do 2 f_equal.
      assert (filter (fun e => <[d:=(k-1)%Z]> inbound !! e = Some 1%Z) ds
              = filter (fun e => inbound !! e = Some 1%Z) ds) as ->.
      { clear -Hd. induction ds as [|e ds IH]; [done|].
        rewrite !filter_cons, lookup_insert_ne by set_solver.
        rewrite IH by set_solver. done. }
      rewrite filter_cons, Hk.
      destruct (Z.eqb_spec (k - 1) 0); [rewrite decide_True by (f_equal; lia)
                                       |rewrite decide_False by (intros [=]; lia)].
      * by rewrite <- app_assoc.
      * done.
    + intros x. rewrite Hx. destruct (decide (x = d)) as [->|Hne].
      * rewrite decide_False, decide_True by set_solver. by rewrite lookup_insert_eq, Hk.
      * rewrite lookup_insert_ne by done.
        destruct (decide (x ∈ ds));
          [rewrite decide_True by set_solver|rewrite decide_False by set_solver]; done.
Qed.

(** ** The loop *)

Section loop.
Context (nodes : list node) (Hwf : well_formed nodes).
Context (dependents : gmap string (list string)).
Context (Hdep : forall x, x ∈ ids nodes -> dependents !! x = Some (dependents_of nodes x)).

(** The dependencies of [x] that are not visited yet. *)
Definition remaining (vis : list string) (x : string) : nat :=
  length (filter (fun d => d ∉ vis) (needs_of nodes x)).

Record loop_inv (vis q : list string) (inbound : gmap string Z) : Prop := {
  li_nodup : NoDup (vis ++ q);
  li_ids : forall x, x ∈ vis ++ q -> x ∈ ids nodes;
  li_count : forall x, x ∈ ids nodes -> inbound !! x = Some (Z.of_nat (remaining vis x));
  li_queue : forall x, x ∈ ids nodes -> x ∈ vis ++ q <-> remaining vis x = 0;
  li_ordered : ordered nodes vis
}.

Lemma li_visited_length vis q inbound :
  loop_inv vis q inbound -> length vis <= length (ids nodes).
Proof.
  intros [Hnd Hids _ _ _]. apply submseteq_length, NoDup_submseteq.
  - by apply NoDup_app in Hnd as [? _].
  - intros x Hx. apply Hids. set_solver.
Qed.

Lemma needs_of_NoDup x : x ∈ ids nodes -> NoDup (needs_of nodes x).
Proof.
  intros [l Hl]%elem_of_ids. rewrite (needs_of_elem _ _ l) by (done || apply Hwf).
  by apply (wf_needs _ Hwf _ Hl).
Qed.

Lemma needs_of_closed x d : x ∈ ids nodes -> d ∈ needs_of nodes x -> d ∈ ids nodes.
Proof.
  intros [l Hl]%elem_of_ids. rewrite (needs_of_elem _ _ l) by (done || apply Hwf).
  by apply (wf_closed _ Hwf _ _ Hl).
Qed.

Lemma remaining_zero vis x :
  remaining vis x = 0 <-> forall d, d ∈ needs_of nodes x -> d ∈ vis.
Proof.
  unfold remaining. rewrite length_zero_iff_nil. split.
  - intros Hf d Hd. destruct (decide (d ∈ vis)) as [|Hn]; [done|].
    assert (d ∈ filter (fun d => d ∉ vis) (needs_of nodes x)) as H
      by by apply list_elem_of_filter.
    rewrite Hf in H. set_solver.
  - intros H. apply elem_of_nil_inv. intros d [Hn Hd]%list_elem_of_filter. auto.
Qed.

Lemma remaining_snoc vis a x :
  a ∉ vis -> NoDup (needs_of nodes x) ->
  remaining vis x = (if decide (a ∈ needs_of nodes x) then 1 else 0) + remaining (vis ++ [a]) x.
Proof.
  intros Ha. unfold remaining. induction 1 as [|d l Hd Hl IH].
  - by rewrite decide_False by set_solver.
  - rewrite !filter_cons. destruct (decide (a = d)) as [->|Hne].
    + rewrite (decide_True (P := d ∉ vis)) by done.
      rewrite (decide_True (P := d ∈ d :: l)) by set_solver.
      rewrite (decide_False (P := d ∉ vis ++ [d])) by set_solver.
      rewrite (decide_False (P := d ∈ l)) in IH by done. simpl in *. lia.
    + assert (d ∉ vis ++ [a] <-> d ∉ vis) as Hiff by set_solver.
      destruct (decide (d ∉ vis)); [rewrite (decide_True (P := d ∉ vis ++ [a])) by set_solver
                                   |rewrite (decide_False (P := d ∉ vis ++ [a])) by set_solver].
      all: destruct (decide (a ∈ l)); [rewrite (decide_True (P := a ∈ d :: l)) by set_solver
                                      |rewrite (decide_False (P := a ∈ d :: l)) by set_solver].
      all: simpl; lia.
Qed.

Lemma ordered_snoc vis x :
  ordered nodes vis -> (forall d, d ∈ needs_of nodes x -> d ∈ vis) -> ordered nodes (vis ++ [x]).
Proof.
  intros Ho Hx i y Hi d Hd. apply prefix_snoc_lookup in Hi as [Hi|[-> ->]].
  - rewrite take_app_le; [by apply (Ho i y)|]. apply lookup_lt_Some in Hi; lia.
  - rewrite take_app_length. by apply Hx.
Qed.

(** One iteration keeps the invariant and moves the head to the visited list. *)
Lemma loop_step vis a q inbound :
  loop_inv vis (a :: q) inbound ->
  exists inbound' q', relax (dependents_of nodes a) inbound q = Ok (inbound', q') /\
    loop_inv (vis ++ [a]) q' inbound'.
Proof.
  intros [Hnd Hids Hcount Hqueue Hord].
  assert (a ∈ ids nodes) as Ha by (apply Hids; set_solver).
  assert (a ∉ vis) as Hav.
  { apply NoDup_app in Hnd as (_ & H & _). intros Hin. by apply (H a Hin), list_elem_of_here. }
  assert (Hstep : forall x, x ∈ ids nodes -> remaining vis x =
    (if decide (a ∈ needs_of nodes x) then 1 else 0) + remaining (vis ++ [a]) x).
  { intros x Hx. by apply remaining_snoc, needs_of_NoDup. }
  destruct (relax_spec (dependents_of nodes a) inbound q) as (inb' & Hr & Hinb').
  { apply NoDup_dependents_of, Hwf. }
  { intros d [Hd _]%elem_of_dependents_of; [|apply Hwf]. rewrite (Hcount d Hd). eauto. }
  assert (Hcount' : forall x, x ∈ ids nodes ->
    inb' !! x = Some (Z.of_nat (remaining (vis ++ [a]) x))).
  { intros x Hx. rewrite Hinb', (Hcount x Hx). specialize (Hstep x Hx).
    destruct (decide (x ∈ dependents_of nodes a)) as [Hin|Hin];
      rewrite elem_of_dependents_of in Hin by apply Hwf; simpl.
    - rewrite decide_True in Hstep by tauto. f_equal. lia.
    - rewrite decide_False in Hstep by tauto. f_equal. lia. }
  set (new := filter (fun d => inbound !! d = Some 1%Z) (dependents_of nodes a)) in *.
  assert (Hnew : forall x, x ∈ new <->
    x ∈ ids nodes /\ a ∈ needs_of nodes x /\ remaining (vis ++ [a]) x = 0).
  { intros x. unfold new. rewrite list_elem_of_filter, elem_of_dependents_of by apply Hwf.
    split.
    - intros (Hc & Hx & Hn). specialize (Hstep x Hx). rewrite Hcount in Hc by done.
      rewrite decide_True in Hstep by done. simplify_eq. repeat split; auto; lia.
    - intros (Hx & Hn & H0). specialize (Hstep x Hx). rewrite decide_True in Hstep by done.
      rewrite Hcount by done. repeat split; auto. f_equal. lia. }
  exists inb', (q ++ new). split; [done|]. split.
  - rewrite <- app_assoc. change ([a] ++ q ++ new) with ((a :: q) ++ new). rewrite app_assoc.
    apply NoDup_app. split; [done|]. split.
    + intros x Hx (Hxi & Hn & _)%Hnew. apply Hqueue in Hx; [|done].
      rewrite remaining_zero in Hx. by apply Hav, Hx.
    + eapply sublist_NoDup; [apply (NoDup_dependents_of nodes a), Hwf|apply sublist_filter].
  - intros x. rewrite <- app_assoc, !elem_of_app, Hnew, list_elem_of_singleton.
    intros [H|[->|[H|(H & _)]]]; try done; apply Hids; set_solver.
  - done.
  - intros x Hx. specialize (Hstep x Hx). rewrite !elem_of_app, list_elem_of_singleton, Hnew.
    specialize (Hqueue x Hx). rewrite elem_of_app, elem_of_cons in Hqueue.
    destruct (decide (a ∈ needs_of nodes x)); [|rewrite Nat.add_0_l in Hstep; rewrite <- Hstep].
    + assert (remaining vis x <> 0) by lia. tauto.
    + tauto.
  - apply ordered_snoc; [done|]. apply remaining_zero, Hqueue; set_solver.
Qed.

Lemma process_ready_spec fuel vis q inbound :
  loop_inv vis q inbound ->
  length (ids nodes) < fuel + length vis ->
  exists vis', process_ready fuel dependents q inbound (length vis) = Some (Ok (length vis')) /\
    exists inbound', loop_inv vis' [] inbound'.
Proof.
  revert vis q inbound. induction fuel as [|fuel IH]; intros vis q inbound Hinv Hfuel.
  - apply li_visited_length in Hinv. lia.
  - destruct q as [|a q]; cbn [process_ready]; [eauto|].
    rewrite Hdep by (eapply li_ids; [exact Hinv|set_solver]).
    destruct (loop_step _ _ _ _ Hinv) as (inb' & q' & -> & Hinv').
    replace (S (length vis)) with (length (vis ++ [a])) by (rewrite length_app; simpl; lia).
    apply (IH _ _ _ Hinv'). rewrite length_app. simpl. lia.
Qed.

(** At the end, a node is visited iff it occurs in some topological order. *)
Lemma final_complete vis inbound order :
  loop_inv vis [] inbound -> topological_order nodes order -> ids nodes ⊆+ vis.
Proof.
  intros Hinv [Hperm Hord]. apply NoDup_submseteq; [apply Hwf|].
  assert (Hall : forall n i x, i < n -> order !! i = Some x -> x ∈ vis).
  { induction n as [|n IH]; intros i x Hi Hx; [lia|].
    assert (x ∈ ids nodes) as Hxi.
    { rewrite <- Hperm. by eapply list_elem_of_lookup_2. }
    rewrite <- (app_nil_r vis). eapply (li_queue _ _ _ Hinv x Hxi), remaining_zero.
    intros d Hd. pose proof (Hord i x Hx d Hd) as Hti.
    apply list_elem_of_lookup in Hti as [j Hj].
    apply lookup_take_Some in Hj as [Hj Hji]. eapply IH; [|exact Hj]. lia. }
  intros x Hx. rewrite <- Hperm in Hx. apply list_elem_of_lookup in Hx as [i Hi].
  eapply (Hall (S i) i); [lia|done].
Qed.

Lemma final_sound vis inbound :
  loop_inv vis [] inbound -> length vis = length (ids nodes) -> topological_order nodes vis.
Proof.
  intros Hinv Hlen. split; [|by eapply li_ordered].
  apply submseteq_length_Permutation; [|lia]. apply NoDup_submseteq.
  - rewrite <- (app_nil_r vis). eapply li_nodup, Hinv.
  - intros x Hx. eapply li_ids; [exact Hinv|]. set_solver.
Qed.
End loop.

(** ** The two entry points of the loop *)

(** Both validators queue the nodes with no dependencies first, in definition
    order; they test this on the count or on the list itself. *)
Definition roots (nodes : list node) : list string :=
  (filter (fun n => n.2 = []) nodes).*1.

Lemma initial_inv nodes :
  well_formed nodes -> loop_inv nodes [] (roots nodes) (inbound_counts nodes).
Proof.
  intros Hwf.
  assert (Hrem : forall x l, (x, l) ∈ nodes -> remaining nodes [] x = length l).
  { intros x l Hx. unfold remaining. rewrite (needs_of_elem _ _ l) by (done || apply Hwf).
    f_equal. clear. induction l as [|d l IH]; [done|].
    rewrite filter_cons, decide_True by set_solver. by rewrite IH. }
  assert (Hroots : forall x, x ∈ roots nodes <-> (x, []) ∈ nodes).
  { intros x. unfold roots. rewrite list_elem_of_fmap. split.
    - intros ([y l] & -> & [Hl Hn]%list_elem_of_filter). simpl in *. by subst.
    - intros H. exists (x, []). split; [done|]. by apply list_elem_of_filter. }
  split; simpl.
  - eapply sublist_NoDup; [apply Hwf|]. apply sublist_fmap, sublist_filter.
  - intros x Hx%Hroots. apply elem_of_ids; eauto.
  - intros x [l Hl]%elem_of_ids. rewrite (Hrem _ _ Hl). apply inbound_counts_lookup; [apply Hwf|done].
  - intros x [l Hl]%elem_of_ids. rewrite (Hrem _ _ Hl), Hroots, length_zero_iff_nil. split.
    + intros Hx. eapply needs_of_elem in Hl; [|apply Hwf]. eapply needs_of_elem in Hx; [|apply Hwf].
      congruence.
    + by intros ->.
  - intros i x Hi. done.
Qed.

(** Running the loop from the roots, with the fuel of one pop per node. *)
Lemma kahn_spec nodes dependents :
  well_formed nodes ->
  dependents_table nodes (no_dependents nodes) = Ok dependents ->
  exists n, process_ready (S (length nodes)) dependents (roots nodes) (inbound_counts nodes) 0
              = Some (Ok n) /\
    (n = length nodes <-> acyclic_graph nodes).
Proof.
  intros Hwf Hdep.
  assert (Hlookup : forall x, x ∈ ids nodes -> dependents !! x = Some (dependents_of nodes x)).
  { destruct (dependents_table_spec nodes (no_dependents nodes)) as (m & Hm & Hx).
    - apply Hwf.
    - intros n d Hn Hd. rewrite no_dependents_lookup; [eauto|]. by eapply wf_closed.
    - rewrite Hdep in Hm. inv_ok. intros x Hxi. rewrite Hx, no_dependents_lookup by done. done. }
  destruct (process_ready_spec nodes Hwf dependents Hlookup (S (length nodes)) [] (roots nodes)
              (inbound_counts nodes)) as (vis & Hrun & inb & Hinv).
  { by apply initial_inv. }
  { unfold ids. rewrite length_fmap. simpl. lia. }
  exists (length vis). split; [done|].
  assert (length (ids nodes) = length nodes) as Hlen by apply length_fmap.
  split.
  - intros H. exists vis. eapply final_sound; eauto. lia.
  - intros [order Hord]. apply Nat.le_antisymm.
    + rewrite <- Hlen. by eapply li_visited_length.
    + rewrite <- Hlen. apply submseteq_length. by eapply final_complete.
Qed.

Lemma dependents_table_total nodes :
  well_formed nodes -> exists m, dependents_table nodes (no_dependents nodes) = Ok m.
Proof.
  intros Hwf. destruct (dependents_table_spec nodes (no_dependents nodes)) as (m & Hm & _).
  - apply Hwf.
  - intros n d Hn Hd. rewrite no_dependents_lookup; [eauto|]. by eapply wf_closed.
  - eauto.
Qed.

(** In a graph with a topological order, some node outside a set has all its
    dependencies in the set, unless the set has every node. *)
Lemma acyclic_frontier nodes (done : string -> Prop) `{!forall x, Decision (done x)} :
  acyclic_graph nodes ->
  (forall x, x ∈ ids nodes -> done x) \/
  exists x, x ∈ ids nodes /\ ~ done x /\ forall d, d ∈ needs_of nodes x -> done d.
Proof.
  intros (order & Hperm & Hord).
  destruct (list_find (fun x => ~ done x) order) as [[i x]|] eqn:Hf.
  - right. apply list_find_Some in Hf as (Hi & Hx & Hbefore). exists x. split; [|split; [done|]].
    + rewrite <- Hperm. by eapply list_elem_of_lookup_2.
    + intros d Hd. specialize (Hord i x Hi d Hd).
      apply list_elem_of_lookup in Hord as [j Hj]. apply lookup_take_Some in Hj as [Hj Hji].
      specialize (Hbefore j d Hj Hji). by destruct (decide (done d)).
  - left. apply list_find_None in Hf. intros x Hx. rewrite <- Hperm in Hx.
    rewrite Forall_forall in Hf. specialize (Hf x Hx). by destruct (decide (done x)).
Qed.
