(* ===== verification/Text.v ===== *)
(** Python strings.  A [str] is the sequence of the bytes of its UTF-8
    encoding: [encode("utf-8")] is then the identity, comparison of code points
    is comparison of bytes, and the ASCII tests of the source read bytes. *)
From S2P Require Import Prelude Errors.
From stdpp Require Import base list strings sorting.
From Stdlib Require Import Ascii String ZArith DecimalString.
From Stdlib Require DecimalZ DecimalPos.
Local Open Scope string_scope.
Local Open Scope list_scope.

(** ** Characters *)

Definition code (c : ascii) : N := N_of_ascii c.

Definition between (lo hi : N) (c : ascii) : bool := (lo <=? code c)%N && (code c <=? hi)%N.

Definition is_letter (c : ascii) : bool := between 65 90 c || between 97 122 c.
Definition is_digit (c : ascii) : bool := between 48 57 c.
Definition is_ident_char (c : ascii) : bool :=
  is_letter c || is_digit c || Ascii.eqb c "_" || Ascii.eqb c "-".

(** ** Blank strings: [not value.strip()] *)

(** The one-byte characters for which [str.isspace] holds. *)
Definition ascii_space (c : ascii) : bool :=
  between 9 13 c || between 28 31 c || Ascii.eqb c " ".

(** The two- and three-byte UTF-8 sequences of the other whitespace code
    points: U+0085, U+00A0, U+1680, U+2000-200A, U+2028, U+2029, U+202F,
    U+205F, U+3000. *)
Definition space2 (a b : ascii) : bool :=
  (code a =? 194)%N && ((code b =? 133)%N || (code b =? 160)%N).
Definition space3 (a b c : ascii) : bool :=
  let '(x, y, z) := (code a, code b, code c) in
  ((x =? 225) && (y =? 154) && (z =? 128))%N
  || ((x =? 226) && (y =? 128) && (((128 <=? z) && (z <=? 138)) || (z =? 168) || (z =? 169) || (z =? 175)))%N
  || ((x =? 226) && (y =? 129) && (z =? 159))%N
  || ((x =? 227) && (y =? 128) && (z =? 128))%N.

Fixpoint blank_bytes (s : list ascii) : bool :=
  match s with
  | [] => true
  | a :: s1 =>
      if ascii_space a then blank_bytes s1
      else match s1 with
           | b :: s2 =>
               if space2 a b then blank_bytes s2
               else match s2 with
                    | c :: s3 => if space3 a b c then blank_bytes s3 else false
                    | [] => false
                    end
           | [] => false
           end
  end.

(** [not value or not value.strip()] *)
Definition is_blank (s : string) : bool := blank_bytes (list_ascii_of_string s).

(** ** Searching and cutting *)

Definition starts_with (p s : string) : bool := String.prefix p s.

(** [s.removeprefix(p)] *)
Fixpoint drop_prefix (p s : string) : option string :=
  match p, s with
  | EmptyString, _ => Some s
  | String a p', String b s' => if Ascii.eqb a b then drop_prefix p' s' else None
  | String _ _, EmptyString => None
  end.
Definition removeprefix (p s : string) : string :=
  match drop_prefix p s with Some r => r | None => s end.

(** [sub in s] *)
Fixpoint str_contains (sub s : string) : bool :=
  String.prefix sub s
  || match s with EmptyString => false | String _ s' => str_contains sub s' end.

(** The longest prefix of identifier characters, and the rest. *)
Fixpoint span_ident (s : string) : string * string :=
  match s with
  | EmptyString => (EmptyString, EmptyString)
  | String c s' =>
      if is_ident_char c then let '(a, b) := span_ident s' in (String c a, b)
      else (EmptyString, s)
  end.

(** [[A-Za-z][A-Za-z0-9_-]*] at the start of the string. *)
Definition scan_ident (s : string) : option (string * string) :=
  match s with
  | String c _ => if is_letter c then Some (span_ident s) else None
  | EmptyString => None
  end.

(** [re.compile(r"^[A-Za-z][A-Za-z0-9_-]*$").fullmatch(s)] *)
Definition is_identifier (s : string) : bool :=
  match scan_ident s with Some (_, EmptyString) => true | _ => false end.

(** The reference syntax: [${inputs.NAME}] and [${nodes.STEP.outputs.FIELD}],
    matched against the whole string. *)
Definition parse_input_reference (s : string) : option string :=
  match drop_prefix "${inputs." s with
  | Some r => match scan_ident r with
              | Some (name, "}") => Some name
              | _ => None
              end
  | None => None
  end.

Definition parse_node_reference (s : string) : option (string * string) :=
  match drop_prefix "${nodes." s with
  | Some r =>
      match scan_ident r with
      | Some (step, r1) =>
          match drop_prefix ".outputs." r1 with
          | Some r2 => match scan_ident r2 with
                       | Some (field, "}") => Some (step, field)
                       | _ => None
                       end
          | None => None
          end
      | None => None
      end
  | None => None
  end.

(** ** Order and sorting *)

Definition sort_strings (l : list string) : list string := isort String.leb l.

(** ** Numerals *)

(** [str(z)] *)
Definition int_str (z : Z) : string := NilZero.string_of_int (Z.to_int z).

(** [int(s)] on a decimal numeral. *)
Definition parse_int (s : string) : option Z := Z.of_int <$> NilZero.int_of_string s.

Lemma parse_int_str z : parse_int (int_str z) = Some z.
Proof.
  unfold parse_int, int_str. rewrite NilZero.isi; simpl.
  - by rewrite DecimalZ.of_to.
  - destruct z as [|q|q]; simpl; intros [=]. by apply (DecimalPos.Unsigned.to_uint_nonnil q).
  - destruct z as [|q|q]; simpl; intros [=]. by apply (DecimalPos.Unsigned.to_uint_nonnil q).
Qed.

(** [repr(s)]: single quotes unless the string has a single quote and no
    double quote; backslash, the chosen quote and control characters are
    escaped.  Printable non-ASCII characters are kept. *)
Definition hex_digit (n : N) : ascii :=
  ascii_of_N (if (n <? 10)%N then 48 + n else 87 + n).
Definition repr_char (quote c : ascii) : string :=
  let n := code c in
  if Ascii.eqb c quote || Ascii.eqb c "\" then String "\" (String c "")
  else if (n =? 10)%N then "\n"
  else if (n =? 13)%N then "\r"
  else if (n =? 9)%N then "\t"
  else if (n <? 32)%N || (n =? 127)%N
       then "\x" +:+ String (hex_digit (n / 16)) (String (hex_digit (n mod 16)) "")
  else String c "".
Fixpoint concat_map (f : ascii -> string) (s : string) : string :=
  match s with
  | EmptyString => ""
  | String c s' => f c +:+ concat_map f s'
  end.
Definition double_quote : ascii := ascii_of_N 34.
Definition has_char (c : ascii) (s : string) : bool := str_contains (String c "") s.
Definition py_repr (s : string) : string :=
  let q := if has_char "'" s && negb (has_char double_quote s) then double_quote else "'"%char in
  String q (concat_map (repr_char q) s +:+ String q "").

Definition join (sep : string) (l : list string) : string := String.concat sep l.

(** [f"{l}"] for a list of strings. *)
Definition list_repr (l : list string) : string :=
  "[" +:+ join ", " (py_repr <$> l) +:+ "]".

(** ** Lemmas *)

Lemma str_app_cons c s t : String c s +:+ t = String c (s +:+ t).
Proof. done. Qed.

Lemma str_app_nil_r s : s +:+ "" = s.
Proof. induction s as [|c s IH]; [done|]. by rewrite str_app_cons, IH. Qed.

Lemma str_app_assoc s t u : (s +:+ t) +:+ u = s +:+ t +:+ u.
Proof. induction s as [|c s IH]; [done|]. by rewrite !str_app_cons, IH. Qed.

Lemma drop_prefix_app p s : drop_prefix p (p +:+ s) = Some s.
Proof.
  induction p as [|c p IH]; [done|]. rewrite str_app_cons. simpl. by rewrite Ascii.eqb_refl.
Qed.

Lemma drop_prefix_Some p s r : drop_prefix p s = Some r <-> s = p +:+ r.
Proof.
  revert s. induction p as [|a p IH]; intros s; simpl.
  - change ("" +:+ r) with r. split; congruence.
  - rewrite str_app_cons. destruct s as [|b s]; [split; congruence|].
    destruct (Ascii.eqb_spec a b) as [->|Hne].
    + rewrite IH. split; congruence.
    + split; congruence.
Qed.

Lemma removeprefix_app p s : removeprefix p (p +:+ s) = s.
Proof. unfold removeprefix. by rewrite drop_prefix_app. Qed.

Lemma starts_with_app p s : starts_with p (p +:+ s) = true.
Proof.
  unfold starts_with. induction p as [|c p IH]; [by destruct s|].
  rewrite str_app_cons. simpl. by destruct (ascii_dec c c).
Qed.

Lemma is_identifier_nonempty s : is_identifier s = true -> s <> "".
Proof. by intros H ->. Qed.

(** An identifier is never blank: its first character is a letter. *)
Lemma letter_not_space c : is_letter c = true -> ascii_space c = false.
Proof. by destruct c as [[] [] [] [] [] [] [] []]; vm_compute. Qed.
Lemma letter_not_space2 c b : is_letter c = true -> space2 c b = false.
Proof. unfold space2. by destruct c as [[] [] [] [] [] [] [] []]; vm_compute. Qed.
Lemma letter_not_space3 c b d : is_letter c = true -> space3 c b d = false.
Proof. unfold space3. by destruct c as [[] [] [] [] [] [] [] []]; vm_compute. Qed.

Lemma identifier_not_blank s : is_identifier s = true -> is_blank s = false.
Proof.
  unfold is_identifier, scan_ident. destruct s as [|c s]; [done|].
  destruct (is_letter c) eqn:Hc; [|done]. intros _. unfold is_blank. simpl.
  rewrite letter_not_space by done.
  destruct (list_ascii_of_string s) as [|b [|d l]]; [done| |];
    rewrite letter_not_space2 by done; [done|]. by rewrite letter_not_space3.
Qed.
