(* ===== verification/Float.v ===== *)
(** Python floats as IEEE 754 binary64 numbers (the executable model of the
    Standard Library), with the comparisons, the mixed arithmetic, the decimal
    notation [repr] prints and the decimal numerals [float] reads. *)
From S2P Require Import Prelude Errors Text.
From stdpp Require Import base list strings.
From Stdlib Require Import Ascii String ZArith SpecFloat.
Local Open Scope string_scope.
Local Open Scope list_scope.

Abbreviation float := spec_float.
Abbreviation f64_prec := 53%Z.
Abbreviation f64_emax := 1024%Z.

#[export] Instance spec_float_eq_dec : EqDecision spec_float.
Proof. solve_decision. Defined.

(** [x < y]; a comparison with a NaN is false. *)
Definition f64_lt (x y : float) : bool := SFltb x y.

(** [x * y] *)
Definition f64_mul (x y : float) : float := SFmul f64_prec f64_emax x y.

Definition f64_zero : float := S754_zero false.

(** [math.isfinite(x)] *)
Definition f64_is_finite (x : float) : bool :=
  match x with S754_zero _ | S754_finite _ _ _ => true | _ => false end.

Definition f64_is_nan (x : float) : bool :=
  match x with S754_nan => true | _ => false end.

(** The conversion of an [int] operand in mixed arithmetic: rounded to
    nearest even, and an [OverflowError] where the result is infinite. *)
Definition f64_of_int (z : Z) : res float :=
  match binary_normalize f64_prec f64_emax z 0 false with
  | S754_infinity _ => Err (Exn PyOverflowError "int too large to convert to float")
  | x => Ok x
  end.

(** [float * int] *)
Definition f64_mul_int (x : float) (z : Z) : res float :=
  y ← f64_of_int z; Ok (f64_mul x y).

(** [min(x, y)]: [y] only where [y < x]. *)
Definition f64_min (x y : float) : float := if f64_lt y x then y else x.

(** ** Reading decimal numerals *)

(** The binary64 number nearest to [m * 10 ^ p]. *)
Definition f64_of_decimal (neg : bool) (m : Z) (p : Z) : float :=
  match m with
  | Z0 => S754_zero neg
  | Zpos _ =>
      if (0 <=? p)%Z then
        match binary_normalize f64_prec f64_emax (m * 10 ^ p) 0 false with
        | S754_finite _ x e => S754_finite neg x e
        | S754_infinity _ => S754_infinity neg
        | y => y
        end
      else
        let '(q, e, l) := SFdiv_core_binary f64_prec f64_emax m 0 (10 ^ (- p)) 0 in
        binary_round_aux f64_prec f64_emax neg q e l
  | Zneg _ => S754_nan
  end.

(** Digits at the head of the text: their value, their number and the rest. *)
Fixpoint scan_digits (acc : Z) (n : nat) (s : list ascii) : Z * nat * list ascii :=
  match s with
  | c :: s' =>
      if is_digit c then scan_digits (10 * acc + (Z.of_N (code c) - 48)) (S n) s'
      else (acc, n, s)
  | [] => (acc, n, [])
  end.

(** An optional exponent part up to the end of the numeral. *)
Definition scan_exponent (s : list ascii) : option Z :=
  match s with
  | [] => Some 0%Z
  | c :: s' =>
      if Ascii.eqb c "e" || Ascii.eqb c "E" then
        let '(sign, digits) :=
          match s' with
          | "+"%char :: s'' => (1, s'')%Z
          | "-"%char :: s'' => (-1, s'')%Z
          | _ => (1, s')%Z
          end in
        match scan_digits 0 0 digits with
        | (x, S _, []) => Some (sign * x)%Z
        | _ => None
        end
      else None
  end.

(** A JSON numeral with a fraction or an exponent: an optional minus sign, an
    integer part without leading zeros, an optional fraction, an optional
    exponent.  [json.loads] reads such numerals as floats. *)
Definition parse_float (s : list ascii) : option float :=
  let '(neg, s1) := match s with "-"%char :: s' => (true, s') | _ => (false, s) end in
  match scan_digits 0 0 s1 with
  | (_, 0, _) => None
  | (ip, S n, s2) =>
      if match s1 with "0"%char :: _ => bool_decide (n <> 0) | _ => false end then None
      else
        let frac := match s2 with
                    | "."%char :: s3 =>
                        match scan_digits ip 0 s3 with
                        | (_, 0, _) => None
                        | (m, k, s4) => Some (m, Z.of_nat k, s4)
                        end
                    | _ => Some (ip, 0%Z, s2)
                    end in
        '(m, k, s4) ← frac;
        e ← scan_exponent s4;
        Some (f64_of_decimal neg m (e - k))
  end.

(** ** [repr] *)

Definition digit_count (z : Z) : Z := Z.of_nat (String.length (int_str z)).

(** The [d] with [10^(d-1) <= num/den < 10^d]. *)
Definition decimal_point (num den : Z) : Z :=
  if (den <=? num)%Z then digit_count (num / den)
  else let j := (digit_count (den / num) - 1)%Z in
       if (den =? num * 10 ^ j)%Z then (1 - j)%Z else (- j)%Z.

(** [num/den] rounded half to even. *)
Definition round_half_even (num den : Z) : Z :=
  let q := (num / den)%Z in
  match (2 * (num mod den) ?= den)%Z with
  | Lt => q
  | Gt => (q + 1)%Z
  | Eq => if Z.even q then q else (q + 1)%Z
  end.

(** [n] significant digits of [num/den] and their decimal point. *)
Definition significant (num den d n : Z) : Z * Z :=
  let p := (n - d)%Z in
  let r := if (0 <=? p)%Z then round_half_even (num * 10 ^ p) den
           else round_half_even num (den * 10 ^ (- p)) in
  if (r =? 10 ^ n)%Z then (10 ^ (n - 1), d + 1)%Z else (r, d).

(** The least number of digits, from [n] up, that reads back as [x]. *)
Fixpoint shortest (fuel : nat) (x : float) (num den d n : Z) : Z * Z * Z :=
  let '(digits, d') := significant num den d n in
  match fuel with
  | 0 => (digits, d', n)
  | S fuel' =>
      if bool_decide (f64_of_decimal false digits (d' - n) = x) then (digits, d', n)
      else shortest fuel' x num den d (n + 1)
  end.

Fixpoint zeros (n : nat) : string :=
  match n with 0 => "" | S n' => String "0" (zeros n') end.

(** Fixed notation for decimal points in -3..16, exponent notation elsewhere. *)
Definition format_digits (digits : string) (d : Z) : string :=
  let n := Z.of_nat (String.length digits) in
  if ((-4 <? d) && (d <=? 16))%Z then
    if (d <=? 0)%Z then "0." +:+ zeros (Z.to_nat (- d)) +:+ digits
    else if (n <=? d)%Z then digits +:+ zeros (Z.to_nat (d - n)) +:+ ".0"
    else String.substring 0 (Z.to_nat d) digits +:+ "."
         +:+ String.substring (Z.to_nat d) (Z.to_nat (n - d)) digits
  else
    let e := (d - 1)%Z in
    let mant := match digits with
                | String c EmptyString => digits
                | String c rest => String c ("." +:+ rest)
                | EmptyString => ""
                end in
    mant +:+ "e" +:+ (if (e <? 0)%Z then "-" else "+")
    +:+ (if (Z.abs e <? 10)%Z then "0" else "") +:+ int_str (Z.abs e).

(** [float.__repr__] *)
Definition float_repr (x : float) : string :=
  match x with
  | S754_nan => "nan"
  | S754_infinity s => if s then "-inf" else "inf"
  | S754_zero s => if s then "-0.0" else "0.0"
  | S754_finite s m e =>
      let '(num, den) := if (0 <=? e)%Z then (Zpos m * 2 ^ e, 1)%Z else (Zpos m, 2 ^ (- e))%Z in
      let '(digits, d, _) := shortest 16 (S754_finite false m e) num den (decimal_point num den) 1 in
      (if s then "-" else "") +:+ format_digits (int_str digits) d
  end.

(** [float(repr(x)) == x], which Python documents for every finite [x]. *)
Definition repr_reads_back (x : float) : bool :=
  bool_decide (parse_float (list_ascii_of_string (float_repr x)) = Some x).
