(* ===== verification/Value.v ===== *)
(** JSON-compatible Python values, and the helpers of the packages that freeze
    and thaw them.  Dictionaries are association lists in insertion order with
    string keys; the read-only view [MappingProxyType] is a flag. *)
From S2P Require Import Prelude Errors Text Float.
From stdpp Require Import base list strings.
From Stdlib Require Import ZArith SpecFloat.
Local Open Scope string_scope.
Local Open Scope list_scope.

Unset Elimination Schemes.
Inductive value : Type :=
  | VNone
  | VBool (b : bool)
  | VInt (z : Z)
  | VFloat (x : float)
  | VStr (s : string)
  | VList (l : list value)
  | VTuple (l : list value)
  | VDict (frozen : bool) (d : list (string * value)).
Set Elimination Schemes.

Section value_ind.
Context (P : value -> Prop).
Context (HNone : P VNone) (HBool : forall b, P (VBool b)) (HInt : forall z, P (VInt z)).
Context (HFloat : forall x, P (VFloat x)) (HStr : forall s, P (VStr s)).
Context (HList : forall l, Forall P l -> P (VList l)).
Context (HTuple : forall l, Forall P l -> P (VTuple l)).
Context (HDict : forall b d, Forall (fun kv => P kv.2) d -> P (VDict b d)).

Fixpoint value_ind (v : value) : P v :=
  match v with
  | VNone => HNone
  | VBool b => HBool b
  | VInt z => HInt z
  | VFloat x => HFloat x
  | VStr s => HStr s
  | VList l => HList l ((fix go l : Forall P l :=
      match l with [] => Forall_nil_2 _ | v :: l' => Forall_cons_2 _ _ _ (value_ind v) (go l') end) l)
  | VTuple l => HTuple l ((fix go l : Forall P l :=
      match l with [] => Forall_nil_2 _ | v :: l' => Forall_cons_2 _ _ _ (value_ind v) (go l') end) l)
  | VDict b d => HDict b d ((fix go d : Forall (fun kv => P kv.2) d :=
      match d with
      | [] => Forall_nil_2 _
      | kv :: d' => Forall_cons_2 _ _ _ (value_ind kv.2) (go d')
      end) d)
  end.
End value_ind.

(** A [Mapping[str, Any]]. *)
Abbreviation mapping := (list (string * value)).

(** ** Dictionaries *)

(** [d.get(key)] *)
Fixpoint dict_get {A} (key : string) (d : list (string * A)) : option A :=
  match d with
  | [] => None
  | (k, v) :: d' => if String.eqb k key then Some v else dict_get key d'
  end.

(** [key in d] *)
Definition dict_has {A} (key : string) (d : list (string * A)) : bool :=
  match dict_get key d with Some _ => true | None => false end.

(** [d[key] = v]: in place for a present key, appended otherwise. *)
Fixpoint dict_set {A} (key : string) (v : A) (d : list (string * A)) : list (string * A) :=
  match d with
  | [] => [(key, v)]
  | (k, w) :: d' => if String.eqb k key then (key, v) :: d' else (k, w) :: dict_set key v d'
  end.

(** [d.update(e)] *)
Definition dict_update {A} (d e : list (string * A)) : list (string * A) :=
  foldl (fun d kv => dict_set kv.1 kv.2 d) d e.

Definition map_values {A B} (f : A -> B) (d : list (string * A)) : list (string * B) :=
  (fun kv => (kv.1, f kv.2)) <$> d.

(** ** [freeze] and [thaw] *)

Fixpoint freeze (v : value) : value :=
  match v with
  | VDict _ d => VDict true (map (fun kv => (kv.1, freeze kv.2)) d)
  | VList l | VTuple l => VTuple (map freeze l)
  | _ => v
  end.

Fixpoint thaw (v : value) : value :=
  match v with
  | VDict _ d => VDict false (map (fun kv => (kv.1, thaw kv.2)) d)
  | VList l | VTuple l => VList (map thaw l)
  | _ => v
  end.

Definition freeze_mapping (d : mapping) : mapping := map_values freeze d.
Definition thaw_mapping (d : mapping) : mapping := map_values thaw d.

(** ** [freeze_json] *)

Definition freeze_json_float (path : string) (x : float) : res value :=
  if f64_is_finite x then Ok (VFloat x)
  else Err (Exn PyValueError (path +:+ " must contain only finite numbers")).

Fixpoint freeze_json (path : string) (v : value) {struct v} : res value :=
  match v with
  | VNone | VStr _ | VBool _ | VInt _ => Ok v
  | VFloat x => freeze_json_float path x
  | VDict _ d =>
      d' ← map_ok (fun kv => w ← freeze_json (path +:+ "." +:+ kv.1) kv.2; Ok (kv.1, w)) d;
      Ok (VDict true d')
  | VList l | VTuple l =>
      l' ← mapi_ok (fun i x => freeze_json (path +:+ "[" +:+ int_str (Z.of_nat i) +:+ "]") x) 0 l;
      Ok (VTuple l')
  end.

(** [freeze_json] on a [Mapping[str, Any]]. *)
Definition freeze_json_mapping (path : string) (d : mapping) : res mapping :=
  map_ok (fun kv => w ← freeze_json (path +:+ "." +:+ kv.1) kv.2; Ok (kv.1, w)) d.

(** ** Equality, Python's [==] *)

Definition float_equals_int (x : float) (n : Z) : bool :=
  match x with
  | S754_zero _ => (n =? 0)%Z
  | S754_finite s m e =>
      let k := if s then Z.neg m else Z.pos m in
      if (0 <=? e)%Z then (k * 2 ^ e =? n)%Z else (k =? n * 2 ^ (- e))%Z
  | _ => false
  end.

(** A number: booleans count as the integers they are. *)
Definition as_int (v : value) : option Z :=
  match v with VInt z => Some z | VBool b => Some (Z.b2z b) | _ => None end.

Definition number_eq (v w : value) : bool :=
  match v, w with
  | VFloat x, VFloat y => SFeqb x y
  | VFloat x, w => match as_int w with Some n => float_equals_int x n | None => false end
  | v, VFloat y => match as_int v with Some n => float_equals_int y n | None => false end
  | v, w => match as_int v, as_int w with Some m, Some n => (m =? n)%Z | _, _ => false end
  end.

(** Lists and tuples compare by position, dictionaries by key and without
    regard to order. *)
Fixpoint value_eq (v w : value) {struct v} : bool :=
  match v, w with
  | VNone, VNone => true
  | VStr s, VStr s' => String.eqb s s'
  | VList l, VList l' | VTuple l, VTuple l' =>
      (fix go (l l' : list value) : bool :=
        match l, l' with
        | [], [] => true
        | x :: l, y :: l' => value_eq x y && go l l'
        | _, _ => false
        end) l l'
  | VDict _ d, VDict _ d' =>
      (length d =? length d')%nat
      && forallb (fun kv => match dict_get kv.1 d' with Some w => value_eq kv.2 w | None => false end) d
  | v, w => number_eq v w
  end.

Definition mapping_eq (d d' : mapping) : bool := value_eq (VDict true d) (VDict true d').

(** ** What the helpers do *)

Section freezing.
(** Every float of the value is finite. *)
Fixpoint all_finite (v : value) : bool :=
  match v with
  | VFloat x => f64_is_finite x
  | VDict _ d => forallb (fun kv => all_finite kv.2) d
  | VList l | VTuple l => forallb all_finite l
  | _ => true
  end.
End freezing.

Lemma map_ext_Forall {A B} (f g : A -> B) l :
  Forall (fun x => f x = g x) l -> map f l = map g l.
Proof. induction 1; simpl; congruence. Qed.

(** Two structural functions agree on a value when they do on its parts. *)
Ltac by_value_ind v :=
  induction v as [| | | | |l IH|l IH|b d IH] using value_ind; simpl; try done;
  f_equal; rewrite ?map_map; apply map_ext_Forall; [exact IH|exact IH|];
  (eapply Forall_impl; [exact IH|]); intros kv Hkv; simpl; by rewrite Hkv.

Lemma thaw_freeze v : thaw (freeze v) = thaw v.
Proof. by_value_ind v. Qed.
Lemma freeze_thaw v : freeze (thaw v) = freeze v.
Proof. by_value_ind v. Qed.
Lemma freeze_freeze v : freeze (freeze v) = freeze v.
Proof. by_value_ind v. Qed.
Lemma thaw_thaw v : thaw (thaw v) = thaw v.
Proof. by_value_ind v. Qed.

Lemma map_values_ext {A B C} (f : A -> B) (g : B -> C) (h : A -> C) d :
  (forall a, g (f a) = h a) -> map_values g (map_values f d) = map_values h d.
Proof.
  intros H. unfold map_values. rewrite <- list_fmap_compose. apply list_fmap_ext.
  intros _ [k a] _. cbn. by rewrite H.
Qed.

Lemma thaw_freeze_mapping d : thaw_mapping (freeze_mapping d) = thaw_mapping d.
Proof. apply map_values_ext, thaw_freeze. Qed.
Lemma freeze_thaw_mapping d : freeze_mapping (thaw_mapping d) = freeze_mapping d.
Proof. apply map_values_ext, freeze_thaw. Qed.
Lemma thaw_thaw_mapping d : thaw_mapping (thaw_mapping d) = thaw_mapping d.
Proof. apply map_values_ext, thaw_thaw. Qed.
Lemma freeze_freeze_mapping d : freeze_mapping (freeze_mapping d) = freeze_mapping d.
Proof. apply map_values_ext, freeze_freeze. Qed.

#[export] Hint Rewrite thaw_freeze freeze_thaw freeze_freeze : reagent.

(** [freeze_json] is [freeze] guarded by finiteness. *)
Lemma freeze_json_finite v path :
  all_finite v = true -> freeze_json path v = Ok (freeze v).
Proof.
  revert path. induction v as [| | |x| |l IH|l IH|b d IH] using value_ind; simpl; intros path H; try done.
  - unfold freeze_json_float. by rewrite H.
  - rewrite (mapi_ok_pure _ freeze); [done|]. rewrite forallb_forall in H.
    rewrite Forall_forall in IH. intros j x Hx. apply IH, H; [done|]. by apply list_elem_of_In.
  - rewrite (mapi_ok_pure _ freeze); [done|]. rewrite forallb_forall in H.
    rewrite Forall_forall in IH. intros j x Hx. apply IH, H; [done|]. by apply list_elem_of_In.
  - rewrite (map_ok_pure _ (fun kv => (kv.1, freeze kv.2))); [done|]. rewrite forallb_forall in H.
    rewrite Forall_forall in IH. intros kv Hkv. rewrite IH; [done|done|].
    apply H. by apply list_elem_of_In.
Qed.

(** Where [freeze_json] returns, every float was finite. *)
Lemma mapi_ok_Ok {A B} (f : nat -> A -> res B) i l ys :
  mapi_ok f i l = Ok ys -> forall x, x ∈ l -> exists j y, f j x = Ok y.
Proof.
  revert i ys. induction l as [|a l IH]; simpl; intros i ys H x Hx; [set_solver|].
  split_ok H. apply elem_of_cons in Hx as [->|Hx]; eauto.
Qed.

Lemma map_ok_Ok {A B} (f : A -> res B) l ys :
  map_ok f l = Ok ys -> forall x, x ∈ l -> exists y, f x = Ok y.
Proof.
  revert ys. induction l as [|a l IH]; simpl; intros ys H x Hx; [set_solver|].
  split_ok H. apply elem_of_cons in Hx as [->|Hx]; eauto.
Qed.

Lemma freeze_json_Ok_finite v path w : freeze_json path v = Ok w -> all_finite v = true.
Proof.
  revert path w. induction v as [| | |x| |l IH|l IH|b d IH] using value_ind; simpl; intros path w H; try done.
  - unfold freeze_json_float in H. by case_in H.
  - destruct (mapi_ok _ _ _) eqn:Hm; [|done]. apply forallb_forall. intros x Hx%list_elem_of_In.
    destruct (mapi_ok_Ok _ _ _ _ Hm x Hx) as (j & y & Hy). rewrite Forall_forall in IH. eauto.
  - destruct (mapi_ok _ _ _) eqn:Hm; [|done]. apply forallb_forall. intros x Hx%list_elem_of_In.
    destruct (mapi_ok_Ok _ _ _ _ Hm x Hx) as (j & y & Hy). rewrite Forall_forall in IH. eauto.
  - destruct (map_ok _ _) eqn:Hm; [|done]. apply forallb_forall. intros kv Hkv%list_elem_of_In.
    destruct (map_ok_Ok _ _ _ Hm kv Hkv) as (y & Hy). rewrite Forall_forall in IH.
    destruct (freeze_json _ kv.2) eqn:Hf; [|done]. eauto.
Qed.

Lemma freeze_json_Ok v path w : freeze_json path v = Ok w -> w = freeze v.
Proof.
  intros H. pose proof (freeze_json_Ok_finite _ _ _ H) as Hf.
  rewrite freeze_json_finite in H by done. by inv_ok.
Qed.

Definition mapping_finite (d : mapping) : bool := forallb (fun kv => all_finite kv.2) d.

Lemma freeze_json_mapping_Ok path d d' :
  freeze_json_mapping path d = Ok d' <-> mapping_finite d = true /\ d' = freeze_mapping d.
Proof.
  pose proof (freeze_json_finite (VDict false d) path) as Hf.
  pose proof (freeze_json_Ok_finite (VDict false d) path) as Hf'.
  pose proof (freeze_json_Ok (VDict false d) path) as Hok.
  cbn in Hf, Hf', Hok. fold (freeze_json_mapping path d) in Hf, Hf', Hok. split.
  - intros H. rewrite H in Hf', Hok. split; [by eapply Hf'|]. specialize (Hok _ eq_refl). by injection Hok.
  - intros [Hfin ->]. specialize (Hf Hfin). destruct (freeze_json_mapping path d); [|done].
    cbn in Hf. by injection Hf as ->.
Qed.

(** A rejected value raises a [ValueError]. *)
Lemma freeze_json_Err v path e : freeze_json path v = Err e -> exn_kind e = PyValueError.
Proof.
  revert path e. induction v as [| | |x| |l IH|l IH|b d IH] using value_ind; simpl; intros path e H; try done.
  - unfold freeze_json_float in H. case_in H; [done|]. by inv_ok.
  - revert H. generalize 0. induction IH as [|x l Hx _ IHl]; intros i; simpl; [done|].
    destruct (freeze_json _ x) eqn:Hf; simpl; [|intros [= <-]; eauto].
    specialize (IHl (S i)). destruct (mapi_ok _ _ l); simpl in *; [done|exact IHl].
  - revert H. generalize 0. induction IH as [|x l Hx _ IHl]; intros i; simpl; [done|].
    destruct (freeze_json _ x) eqn:Hf; simpl; [|intros [= <-]; eauto].
    specialize (IHl (S i)). destruct (mapi_ok _ _ l); simpl in *; [done|exact IHl].
  - induction IH as [|x d Hx _ IHd]; simpl in H; [done|].
    destruct (freeze_json _ x.2) eqn:Hf; simpl in H; [|inv_ok; eauto].
    destruct (map_ok _ d); simpl in *; [done|auto].
Qed.

(** ** Dictionary lemmas *)

Lemma dict_get_set {A} key k (v : A) d :
  dict_get key (dict_set k v d) = if String.eqb k key then Some v else dict_get key d.
Proof.
  induction d as [|[k' w] d IH]; simpl; [done|].
  destruct (String.eqb_spec k' k) as [->|Hne]; simpl.
  - by destruct (String.eqb k key).
  - rewrite IH. destruct (String.eqb_spec k' key) as [->|]; [|done].
    destruct (String.eqb_spec k key); congruence.
Qed.

Lemma dict_get_map_values {A B} (f : A -> B) key d :
  dict_get key (map_values f d) = f <$> dict_get key d.
Proof.
  induction d as [|[k v] d IH]; simpl; [done|]. by destruct (String.eqb k key).
Qed.

Lemma dict_has_map_values {A B} (f : A -> B) key d :
  dict_has key (map_values f d) = dict_has key d.
Proof. unfold dict_has. rewrite dict_get_map_values. by destruct (dict_get key d). Qed.

Lemma dict_get_elem {A} key (d : list (string * A)) v :
  dict_get key d = Some v -> (key, v) ∈ d.
Proof.
  induction d as [|[k w] d IH]; simpl; [done|].
  destruct (String.eqb_spec k key) as [->|]; [intros [= ->]|]; set_solver.
Qed.

Lemma elem_dict_get {A} key (d : list (string * A)) v :
  NoDup d.*1 -> (key, v) ∈ d -> dict_get key d = Some v.
Proof.
  induction d as [|[k w] d IH]; simpl; [set_solver|].
  intros [Hk Hnd]%NoDup_cons Hin. destruct (String.eqb_spec k key) as [->|Hne].
  - apply elem_of_cons in Hin as [[= ->]|Hin]; [done|].
    exfalso. apply Hk, list_elem_of_fmap. by exists (key, v).
  - apply IH; [done|]. set_solver.
Qed.

(** ** Equality is reflexive on finite values whose dictionaries are sets of keys *)

Fixpoint wf_value (v : value) : bool :=
  match v with
  | VFloat x => f64_is_finite x
  | VList l | VTuple l => forallb wf_value l
  | VDict _ d => bool_decide (NoDup d.*1) && forallb (fun kv => wf_value kv.2) d
  | _ => true
  end.

Lemma finite_eq_refl x : f64_is_finite x = true -> SFeqb x x = true.
Proof.
  destruct x as [s|s| |s m e]; try done. intros _. unfold SFeqb. cbn.
  destruct s; rewrite Z.compare_refl, Pos.compare_cont_refl; done.
Qed.

Lemma items_eq_refl (l : list value) (go := fix go (l l' : list value) : bool :=
        match l, l' with
        | [], [] => true
        | x :: l, y :: l' => value_eq x y && go l l'
        | _, _ => false
        end) :
  Forall (fun v => wf_value v = true -> value_eq v v = true) l ->
  forallb wf_value l = true -> go l l = true.
Proof.
  induction 1 as [|v l Hv _ IH]; cbn; [done|]. intros [Hw Hl]%andb_true_iff.
  by rewrite (Hv Hw), (IH Hl).
Qed.

Lemma value_eq_refl v : wf_value v = true -> value_eq v v = true.
Proof.
  induction v as [|b|z|x|s|l IH|l IH|b d IH] using value_ind; cbn; try done.
  - intros _. apply Z.eqb_refl.
  - intros _. apply Z.eqb_refl.
  - apply finite_eq_refl.
  - intros _. apply String.eqb_refl.
  - by apply items_eq_refl.
  - by apply items_eq_refl.
  - intros [Hnd Hw]%andb_true_iff. apply bool_decide_eq_true in Hnd. rewrite Nat.eqb_refl. cbn.
    rewrite forallb_forall in Hw |- *. rewrite Forall_forall in IH. intros [k w] Hin.
    apply list_elem_of_In in Hin as Hin'. cbn. rewrite (elem_dict_get _ _ _ Hnd Hin').
    by apply (IH (k, w)), (Hw (k, w)).
Qed.
