(* ===== verification/Json.v ===== *)
(** [json.dumps(state, sort_keys=True, separators=(",", ":"),
    ensure_ascii=False)] and [json.loads] on JSON-compatible values, and their
    round trip. *)
From S2P Require Import Prelude Errors Text Float Value.
From Stdlib Require Import Ascii String SpecFloat DecimalString.
Local Open Scope string_scope.
Local Open Scope list_scope.

Abbreviation bytes := (list ascii).
Definition chars (s : string) : bytes := list_ascii_of_string s.

(** ** Writing *)

(** The characters JSON must escape; the others are written as they are. *)
Definition escape (c : ascii) : bytes :=
  let n := code c in
  if (n =? 34)%N then chars "\" ++ [c]
  else if (n =? 92)%N then chars "\\"
  else if (n =? 10)%N then chars "\n"
  else if (n =? 13)%N then chars "\r"
  else if (n =? 9)%N then chars "\t"
  else if (n =? 12)%N then chars "\f"
  else if (n =? 8)%N then chars "\b"
  else if (n <? 32)%N then chars "\u00" ++ [hex_digit (n / 16); hex_digit (n mod 16)]
  else [c].

Definition quote_string (s : string) : bytes :=
  double_quote :: flat_map escape (chars s) ++ [double_quote].

Definition write_float (x : float) : bytes :=
  match x with
  | S754_nan => chars "NaN"
  | S754_infinity s => chars (if s then "-Infinity" else "Infinity")
  | _ => chars (float_repr x)
  end.

Definition comma_separated (l : list bytes) : bytes :=
  match l with
  | [] => []
  | t :: l' => t ++ flat_map (fun u => ","%char :: u) l'
  end.

Definition key_leb {A} (x y : string * A) : bool := String.leb x.1 y.1.

Definition write_member (kv : string * bytes) : bytes :=
  quote_string kv.1 ++ ":"%char :: kv.2.

(** A [MappingProxyType] is not serializable. *)
Fixpoint write_value (v : value) : res bytes :=
  match v with
  | VNone => Ok (chars "null")
  | VBool b => Ok (chars (if b then "true" else "false"))
  | VInt z => Ok (chars (int_str z))
  | VFloat x => Ok (write_float x)
  | VStr s => Ok (quote_string s)
  | VList l | VTuple l =>
      ts ← map_ok write_value l; Ok ("["%char :: comma_separated ts ++ ["]"%char])
  | VDict false d =>
      ts ← map_ok (fun kv => t ← write_value kv.2; Ok (kv.1, t)) d;
      Ok ("{"%char :: comma_separated (write_member <$> isort key_leb ts) ++ ["}"%char])
  | VDict true _ =>
      Err (Exn PyTypeError "Object of type mappingproxy is not JSON serializable")
  end.

Definition json_dumps (v : value) : res string :=
  t ← write_value v; Ok (string_of_list_ascii t).

(** ** Reading *)

Definition is_json_space (c : ascii) : bool :=
  let n := code c in ((n =? 32) || (n =? 10) || (n =? 13) || (n =? 9))%N.

Fixpoint skip_space (s : bytes) : bytes :=
  match s with
  | c :: s' => if is_json_space c then skip_space s' else s
  | [] => []
  end.

Definition hex_value (c : ascii) : option N :=
  let n := code c in
  if is_digit c then Some (n - 48)%N
  else if between 97 102 c then Some (n - 87)%N
  else if between 65 70 c then Some (n - 55)%N
  else None.

Definition hex4 (a b c d : ascii) : option N :=
  x ← hex_value a; y ← hex_value b; z ← hex_value c; w ← hex_value d;
  Some (((x * 16 + y) * 16 + z) * 16 + w)%N.

Definition byte (n : N) : ascii := ascii_of_N n.

(** The UTF-8 encoding of a code point; a lone surrogate has none. *)
Definition utf8 (n : N) : option bytes :=
  if (n <? 128)%N then Some [byte n]
  else if (n <? 2048)%N then Some [byte (192 + n / 64); byte (128 + n mod 64)]
  else if (55296 <=? n)%N && (n <=? 57343)%N then None
  else if (n <? 65536)%N
       then Some [byte (224 + n / 4096); byte (128 + (n / 64) mod 64); byte (128 + n mod 64)]
  else Some [byte (240 + n / 262144); byte (128 + (n / 4096) mod 64);
             byte (128 + (n / 64) mod 64); byte (128 + n mod 64)].

Definition simple_escape (c : ascii) : option ascii :=
  let n := code c in
  if (n =? 34)%N || (n =? 92)%N || (n =? 47)%N then Some c
  else if (n =? 98)%N then Some (byte 8)
  else if (n =? 102)%N then Some (byte 12)
  else if (n =? 110)%N then Some (byte 10)
  else if (n =? 114)%N then Some (byte 13)
  else if (n =? 116)%N then Some (byte 9)
  else None.

Definition prepend (b : bytes) (r : option (bytes * bytes)) : option (bytes * bytes) :=
  '(s, rest) ← r; Some (b ++ s, rest).

(** The rest of a string literal after its opening quote. *)
Fixpoint read_string (s : bytes) : option (bytes * bytes) :=
  match s with
  | [] => None
  | c :: s1 =>
      if (code c =? 34)%N then Some ([], s1)
      else if (code c =? 92)%N then
        match s1 with
        | [] => None
        | e :: s2 =>
            if (code e =? 117)%N then
              match s2 with
              | h1 :: h2 :: h3 :: h4 :: s3 =>
                  n ← hex4 h1 h2 h3 h4;
                  match s3 with
                  | b :: u :: l1 :: l2 :: l3 :: l4 :: s4 =>
                      if (55296 <=? n)%N && (n <=? 56319)%N && (code b =? 92)%N && (code u =? 117)%N
                      then m ← hex4 l1 l2 l3 l4;
                           if (56320 <=? m)%N && (m <=? 57343)%N then
                             t ← utf8 (65536 + (n - 55296) * 1024 + (m - 56320))%N;
                             prepend t (read_string s4)
                           else None
                      else t ← utf8 n; prepend t (read_string s3)
                  | _ => t ← utf8 n; prepend t (read_string s3)
                  end
              | _ => None
              end
            else t ← simple_escape e; prepend [t] (read_string s2)
        end
      else if (code c <? 32)%N then None
      else prepend [c] (read_string s1)
  end.

Definition is_number_char (c : ascii) : bool :=
  is_digit c || Ascii.eqb c "-" || Ascii.eqb c "+" || Ascii.eqb c "."
  || Ascii.eqb c "e" || Ascii.eqb c "E".

Fixpoint span_number (s : bytes) : bytes * bytes :=
  match s with
  | c :: s' => if is_number_char c then let '(a, b) := span_number s' in (c :: a, b) else ([], s)
  | [] => ([], [])
  end.

(** An integer numeral without leading zeros, else a float numeral. *)
Definition read_number (t : bytes) : option value :=
  let s := string_of_list_ascii t in
  match parse_int s with
  | Some z => if String.eqb (int_str z) s || String.eqb s "-0" then Some (VInt z)
              else VFloat <$> parse_float t
  | None => VFloat <$> parse_float t
  end.

(** A literal at the head of the text. *)
Fixpoint strip (p s : bytes) : option bytes :=
  match p, s with
  | [], _ => Some s
  | a :: p', b :: s' => if Ascii.eqb a b then strip p' s' else None
  | _ :: _, [] => None
  end.

Definition read_literal (s : bytes) : option (value * bytes) :=
  match strip (chars "null") s, strip (chars "true") s, strip (chars "false") s,
        strip (chars "NaN") s, strip (chars "Infinity") s, strip (chars "-Infinity") s with
  | Some r, _, _, _, _, _ => Some (VNone, r)
  | _, Some r, _, _, _, _ => Some (VBool true, r)
  | _, _, Some r, _, _, _ => Some (VBool false, r)
  | _, _, _, Some r, _, _ => Some (VFloat S754_nan, r)
  | _, _, _, _, Some r, _ => Some (VFloat (S754_infinity false), r)
  | _, _, _, _, _, Some r => Some (VFloat (S754_infinity true), r)
  | _, _, _, _, _, _ => None
  end.

Definition read_atom (s : bytes) : option (value * bytes) :=
  match read_literal s with
  | Some r => Some r
  | None => let '(t, rest) := span_number s in v ← read_number t; Some (v, rest)
  end.

(** The items of a non-empty array, after its bracket or a comma. *)
Section items.
Context (read : bytes -> option (value * bytes)).

Fixpoint read_items (fuel : nat) (s : bytes) : option (list value * bytes) :=
  match fuel with
  | 0 => None
  | S n =>
      '(v, s1) ← read (skip_space s);
      match skip_space s1 with
      | c :: s2 =>
          if Ascii.eqb c "," then '(vs, rest) ← read_items n s2; Some (v :: vs, rest)
          else if Ascii.eqb c "]" then Some ([v], s2)
          else None
      | [] => None
      end
  end.

Definition read_member (s : bytes) : option ((string * value) * bytes) :=
  match skip_space s with
  | q :: s1 =>
      if (code q =? 34)%N then
        '(k, s2) ← read_string s1;
        match skip_space s2 with
        | c :: s3 => if Ascii.eqb c ":"
                     then '(v, s4) ← read (skip_space s3);
                          Some ((string_of_list_ascii k, v), s4)
                     else None
        | [] => None
        end
      else None
  | [] => None
  end.

Fixpoint read_members (fuel : nat) (s : bytes) : option (list (string * value) * bytes) :=
  match fuel with
  | 0 => None
  | S n =>
      '(kv, s1) ← read_member s;
      match skip_space s1 with
      | c :: s2 =>
          if Ascii.eqb c "," then '(kvs, rest) ← read_members n s2; Some (kv :: kvs, rest)
          else if Ascii.eqb c "}" then Some ([kv], s2)
          else None
      | [] => None
      end
  end.
End items.

(** Later members replace earlier ones with the same key. *)
Definition dict_of_members (d : list (string * value)) : value := VDict false (dict_update [] d).

Fixpoint read_value (fuel : nat) (s : bytes) : option (value * bytes) :=
  match fuel with
  | 0 => None
  | S n =>
      match s with
      | c :: s1 =>
          if (code c =? 34)%N then
            '(t, rest) ← read_string s1; Some (VStr (string_of_list_ascii t), rest)
          else if Ascii.eqb c "[" then
            match skip_space s1 with
            | c' :: s2 => if Ascii.eqb c' "]" then Some (VList [], s2)
                          else '(vs, rest) ← read_items (read_value n) (Datatypes.length s) s1;
                               Some (VList vs, rest)
            | [] => None
            end
          else if Ascii.eqb c "{" then
            match skip_space s1 with
            | c' :: s2 => if Ascii.eqb c' "}" then Some (VDict false [], s2)
                          else '(kvs, rest) ← read_members (read_value n) (Datatypes.length s) s1;
                               Some (dict_of_members kvs, rest)
            | [] => None
            end
          else read_atom s
      | [] => None
      end
  end.

(** The whole text must be one value; nesting is at most the text's length. *)
Definition json_loads (s : string) : res value :=
  let t := skip_space (chars s) in
  match read_value (S (Datatypes.length t)) t with
  | Some (v, rest) =>
      match skip_space rest with
      | [] => Ok v
      | _ => Err (Exn PyValueError "Extra data")
      end
  | None => Err (Exn PyValueError "Expecting value")
  end.

(** ** The round trip *)

(** What [json.loads] gives back: lists for tuples, mutable dictionaries with
    sorted keys. *)
Fixpoint canon (v : value) : value :=
  match v with
  | VList l | VTuple l => VList (map canon l)
  | VDict _ d => VDict false (isort key_leb (map (fun kv => (kv.1, canon kv.2)) d))
  | _ => v
  end.

(** The text [repr] gives for a finite float is a float numeral that reads
    back as the same float: Python documents this for every finite float, and
    it is computed here for a given one. *)
Definition float_reads_back (x : float) : bool :=
  negb (f64_is_finite x)
  || (forallb is_number_char (chars (float_repr x))
      && match read_number (chars (float_repr x)) with
         | Some (VFloat y) => bool_decide (y = x)
         | _ => false
         end).

(** Dictionary keys are distinct, and floats have their documented [repr]. *)
Fixpoint json_ready (v : value) : bool :=
  match v with
  | VFloat x => float_reads_back x
  | VList l | VTuple l => forallb json_ready l
  | VDict _ d => bool_decide (NoDup d.*1) && forallb (fun kv => json_ready kv.2) d
  | _ => true
  end.

Definition delimiter (rest : bytes) : Prop :=
  match rest with
  | [] => True
  | c :: _ => c ∈ [","%char; "]"%char; "}"%char]
  end.

Definition value_head (t : bytes) : Prop :=
  match t with
  | [] => False
  | c :: _ => is_json_space c = false /\ c <> "]"%char /\ c <> "}"%char
  end.

Lemma read_string_escape c s : read_string (escape c ++ s) = prepend [c] (read_string s).
Proof.
  destruct c as [[] [] [] [] [] [] [] []]; try reflexivity;
    destruct s as [|? [|? [|? [|? [|? [|? ?]]]]]]; reflexivity.
Qed.

Lemma read_string_quoted s rest :
  read_string (flat_map escape s ++ double_quote :: rest) = Some (s, rest).
Proof.
  induction s as [|c s IH]; [done|]. cbn [flat_map].
  rewrite <- app_assoc, read_string_escape, IH. done.
Qed.

Lemma string_of_chars s : string_of_list_ascii (chars s) = s.
Proof. apply string_of_list_ascii_of_string. Qed.

Lemma chars_of_string t : chars (string_of_list_ascii t) = t.
Proof. apply list_ascii_of_string_of_list_ascii. Qed.

Lemma chars_app s t : chars (s +:+ t) = chars s ++ chars t.
Proof. induction s as [|c s IH]; [done|]. rewrite str_app_cons. simpl. by f_equal. Qed.

Lemma uint_chars_digits d : forallb is_digit (chars (NilEmpty.string_of_uint d)) = true.
Proof. induction d; simpl; done. Qed.

Lemma digit_number_char c : is_digit c = true -> is_number_char c = true.
Proof. unfold is_number_char. by intros ->. Qed.

Lemma int_str_chars z : forallb is_number_char (chars (int_str z)) = true /\ chars (int_str z) <> [].
Proof.
  assert (forall d, forallb is_number_char (chars (NilZero.string_of_uint d)) = true
                    /\ chars (NilZero.string_of_uint d) <> []) as H.
  { intros d. destruct d; (split; [|done]); try done.
    all: apply forallb_forall; intros c Hc; apply digit_number_char.
    all: eapply (proj1 (forallb_forall is_digit _)); [|exact Hc]; apply (uint_chars_digits (_ _)). }
  unfold int_str. destruct (Z.to_int z) as [d|d]; simpl; [apply H|].
  split; [apply H|done].
Qed.

Lemma span_number_all t rest :
  forallb is_number_char t = true -> delimiter rest -> span_number (t ++ rest) = (t, rest).
Proof.
  intros Ht Hd. induction t as [|c t IH]; simpl in *.
  - destruct rest as [|c rest]; [done|]. simpl in *.
    by repeat (apply elem_of_cons in Hd as [->|Hd]; [done|]); apply elem_of_nil in Hd.
  - reflect_bools. rewrite H. by rewrite IH.
Qed.

Lemma strip_ne a p b s : a <> b -> strip (a :: p) (b :: s) = None.
Proof. intros H. cbn [strip]. by destruct (Ascii.eqb_spec a b). Qed.

Lemma strip_same a p s : strip (a :: p) (a :: s) = strip p s.
Proof. cbn [strip]. by rewrite Ascii.eqb_refl. Qed.

(** No character of a literal's name, its minus sign apart, is in a numeral. *)
Lemma delimiter_not_I rest : delimiter rest -> strip (chars "Infinity") rest = None.
Proof.
  destruct rest as [|c rest]; [done|]. intros Hd. apply strip_ne. intros <-.
  by repeat (apply elem_of_cons in Hd as [Hd|Hd]; [done|]); apply elem_of_nil in Hd.
Qed.

Lemma number_not_literal t rest :
  forallb is_number_char t = true -> t <> [] -> delimiter rest -> read_literal (t ++ rest) = None.
Proof.
  intros Ht Hne Hd. destruct t as [|c t]; [done|]. simpl in Ht. apply andb_true_iff in Ht as [Hc Ht].
  assert (forall a p b s, is_number_char a = false -> is_number_char b = true ->
                     strip (a :: p) (b :: s) = None) as Hs.
  { intros a p b s Ha Hb. apply strip_ne. congruence. }
  assert (strip (chars "-Infinity") ((c :: t) ++ rest) = None) as Hinf.
  { change (chars "-Infinity") with ("-"%char :: chars "Infinity").
    destruct (ascii_dec "-" c) as [<-|]; [|by apply strip_ne].
    simpl ((_ :: _) ++ _). rewrite strip_same.
    destruct t as [|d t]; [by apply delimiter_not_I|].
    simpl in Ht. apply andb_true_iff in Ht as [Hd' _]. by apply Hs. }
  unfold read_literal. rewrite Hinf. simpl ((_ :: _) ++ _).
  change (chars "null") with ("n"%char :: chars "ull").
  change (chars "true") with ("t"%char :: chars "rue").
  change (chars "false") with ("f"%char :: chars "alse").
  change (chars "NaN") with ("N"%char :: chars "aN").
  change (chars "Infinity") with ("I"%char :: chars "nfinity").
  by rewrite !Hs.
Qed.

Lemma skip_space_head t rest : value_head t -> skip_space (t ++ rest) = t ++ rest.
Proof. destruct t as [|c t]; simpl; [done|]. intros [-> _]. done. Qed.

Lemma number_head t : forallb is_number_char t = true -> t <> [] -> value_head t.
Proof.
  destruct t as [|c t]; simpl; [done|]. intros [Hc _]%andb_true_iff _.
  split; [|split; intros ->; done].
  by destruct c as [[] [] [] [] [] [] [] []]; vm_compute in Hc |- *.
Qed.

Lemma float_text x :
  f64_is_finite x = true -> float_reads_back x = true ->
  forallb is_number_char (write_float x) = true /\ write_float x <> []
  /\ read_number (write_float x) = Some (VFloat x).
Proof.
  unfold float_reads_back. intros Hf. rewrite Hf. simpl. intros H. reflect_bools.
  assert (write_float x = chars (float_repr x)) as -> by by destruct x.
  destruct (read_number _) as [[]|] eqn:Hr; try done. apply bool_decide_eq_true in H0 as ->.
  repeat split; try done. by intros Hn; rewrite Hn in Hr.
Qed.

Lemma read_value_atom n t rest :
  value_head t -> (forall c t', t = c :: t' -> (code c =? 34)%N = false /\ c <> "["%char /\ c <> "{"%char) ->
  read_value (S n) (t ++ rest) = read_atom (t ++ rest).
Proof.
  destruct t as [|c t]; [done|]. intros _ H. destruct (H c t eq_refl) as (H1 & H2 & H3).
  simpl. rewrite H1.
  destruct (Ascii.eqb_spec c "[") as [->|_]; [done|].
  by destruct (Ascii.eqb_spec c "{") as [->|_].
Qed.

Lemma read_value_number n t rest v :
  forallb is_number_char t = true -> t <> [] -> read_number t = Some v -> delimiter rest ->
  read_value (S n) (t ++ rest) = Some (v, rest).
Proof.
  intros Ht Hne Hr Hd. rewrite read_value_atom.
  - unfold read_atom. rewrite number_not_literal, span_number_all by done. by rewrite Hr.
  - by apply number_head.
  - intros c t' ->. simpl in Ht. apply andb_true_iff in Ht as [Hc _].
    split; [|split; intros ->; done].
    by destruct c as [[] [] [] [] [] [] [] []]; vm_compute in Hc |- *.
Qed.

(** Texts that read back as their values, before any delimiter. *)
Definition reads_as (read : bytes -> option (value * bytes)) (t : bytes) (v : value) : Prop :=
  value_head t /\ forall rest, delimiter rest -> read (t ++ rest) = Some (v, rest).

Lemma comma_separated_cons t u ts :
  comma_separated (t :: u :: ts) = t ++ ","%char :: comma_separated (u :: ts).
Proof. done. Qed.

Lemma comma_separated_head t ts : value_head t -> value_head (comma_separated (t :: ts)).
Proof. by destruct t. Qed.

Lemma comma_separated_length ts :
  Forall value_head ts -> Datatypes.length ts <= Datatypes.length (comma_separated ts).
Proof.
  destruct ts as [|t ts]; [done|]. intros [Ht Hts]%Forall_cons. simpl.
  destruct t as [|c t]; [done|]. simpl. rewrite length_app. clear Ht.
  induction Hts as [|u ts _ _ IH]; simpl; [lia|]. rewrite length_app. lia.
Qed.

Lemma comma_separated_member t ts :
  t ∈ ts -> Datatypes.length t <= Datatypes.length (comma_separated ts).
Proof.
  destruct ts as [|u ts]; [set_solver|]. simpl. rewrite length_app.
  intros [->|Ht]%elem_of_cons; [lia|].
  induction ts as [|w ts IH]; [set_solver|]. simpl. rewrite length_app.
  apply elem_of_cons in Ht as [->|Ht]; [lia|]. specialize (IH Ht). lia.
Qed.

Lemma skip_comma s : skip_space (","%char :: s) = ","%char :: s.
Proof. reflexivity. Qed.
Lemma skip_colon s : skip_space (":"%char :: s) = ":"%char :: s.
Proof. reflexivity. Qed.
Lemma skip_quote s : skip_space (double_quote :: s) = double_quote :: s.
Proof. reflexivity. Qed.

Lemma read_items_comma read ts vs fuel rest :
  Forall2 (reads_as read) ts vs -> ts <> [] -> Datatypes.length ts <= fuel ->
  read_items read fuel (comma_separated ts ++ "]"%char :: rest) = Some (vs, rest).
Proof.
  intros H. revert fuel. induction H as [|t v ts vs [Hh Hr] H IH]; intros fuel Hne Hf; [done|].
  destruct fuel as [|fuel]; [simpl in Hf; lia|]. cbn [read_items].
  destruct ts as [|u ts].
  - apply Forall2_nil_inv_l in H as ->. simpl. rewrite app_nil_r.
    rewrite skip_space_head, Hr by (done || (simpl; set_solver)). done.
  - rewrite comma_separated_cons, <- app_assoc. cbn [app].
    rewrite skip_space_head, Hr by (done || (simpl; set_solver)).
    cbn -[comma_separated read_items skip_space]. rewrite skip_comma.
    cbn -[comma_separated read_items]. rewrite IH; [done|done|simpl in *; lia].
Qed.

Lemma read_member_write read k t v rest :
  reads_as read t v -> delimiter rest ->
  read_member read (write_member (k, t) ++ rest) = Some ((k, v), rest).
Proof.
  intros [Hh Hr] Hd. unfold write_member, quote_string. simpl.
  unfold read_member. rewrite skip_quote.
  change (code double_quote =? 34)%N with true. cbn iota.
  rewrite <- !app_assoc. cbn [app]. rewrite read_string_quoted.
  cbn -[skip_space]. rewrite skip_colon. cbn -[skip_space].
  rewrite skip_space_head, Hr by done. cbn. by rewrite string_of_chars.
Qed.

Lemma write_member_head kv : value_head (write_member kv).
Proof. done. Qed.

Lemma write_member_length k t : Datatypes.length t < Datatypes.length (write_member (k, t)).
Proof. unfold write_member. simpl. rewrite !length_app. simpl. lia. Qed.

Lemma read_members_comma read (ts : list (string * bytes)) vs fuel rest :
  Forall2 (fun kt kv => kt.1 = kv.1 /\ reads_as read kt.2 kv.2) ts vs -> ts <> [] ->
  Datatypes.length ts <= fuel ->
  read_members read fuel (comma_separated (write_member <$> ts) ++ "}"%char :: rest) = Some (vs, rest).
Proof.
  intros H. revert fuel.
  induction H as [|[k t] [k' v] ts vs [Hk Hr] H IH]; intros fuel Hne Hf; [done|]. simpl in Hk; subst k'.
  destruct fuel as [|fuel]; [simpl in Hf; lia|]. cbn [read_members].
  destruct ts as [|u ts].
  - apply Forall2_nil_inv_l in H as ->. cbn [fmap list_fmap comma_separated flat_map].
    rewrite app_nil_r, (read_member_write _ _ _ v) by (done || (simpl; set_solver)). done.
  - rewrite !fmap_cons, comma_separated_cons, <- app_assoc. cbn [app].
    rewrite (read_member_write _ _ _ v) by (done || (simpl; set_solver)).
    cbn -[comma_separated read_members fmap write_member skip_space]. rewrite skip_comma.
    cbn -[comma_separated read_members fmap write_member]. rewrite fmap_cons in IH.
    rewrite IH; [done|done|simpl in *; lia].
Qed.

Lemma dict_set_fresh {A} k (v : A) d : k ∉ d.*1 -> dict_set k v d = d ++ [(k, v)].
Proof.
  induction d as [|[k' w] d IH]; simpl; [done|]. intros H.
  destruct (String.eqb_spec k' k) as [->|]; [set_solver|]. rewrite IH by set_solver. done.
Qed.

Lemma dict_update_fresh {A} (acc d : list (string * A)) :
  NoDup (acc ++ d).*1 -> dict_update acc d = acc ++ d.
Proof.
  unfold dict_update. revert acc. induction d as [|[k v] d IH]; intros acc H; simpl.
  - by rewrite app_nil_r.
  - assert (k ∉ acc.*1) as Hk.
    { rewrite fmap_app in H. apply NoDup_app in H as (_ & H & _). intros Hin. apply (H _ Hin). set_solver. }
    rewrite dict_set_fresh by done. rewrite IH.
    + by rewrite <- app_assoc.
    + rewrite <- app_assoc. done.
Qed.

(** Members of a dictionary with their texts. *)
Lemma zip_members (f : value -> res bytes) d ts :
  map_ok (fun kv => t ← f kv.2; Ok (kv.1, t)) d = Ok ts ->
  exists z : list (string * (value * bytes)),
    d = map_values fst z /\ ts = map_values snd z /\ Forall (fun x => f x.2.1 = Ok x.2.2) z.
Proof.
  revert ts. induction d as [|[k v] d IH]; simpl; intros ts H.
  - inv_ok. by exists [].
  - destruct (f v) as [t|] eqn:Hf; [|done]. cbn in H.
    destruct (map_ok _ d) as [ts'|] eqn:Hm; [|done]. inv_ok.
    destruct (IH _ eq_refl) as (z & -> & -> & Hz). exists ((k, (v, t)) :: z).
    repeat split; [done..|]. by constructor.
Qed.

Lemma isort_map_values {A B} (f : A -> B) (d : list (string * A)) :
  isort key_leb (map_values f d) = map_values f (isort key_leb d).
Proof. unfold map_values. by apply isort_fmap. Qed.

Lemma map_values_keys {A B} (f : A -> B) (d : list (string * A)) : (map_values f d).*1 = d.*1.
Proof. unfold map_values. rewrite <- list_fmap_compose. done. Qed.

Lemma map_values_map {A B} (f : A -> B) d :
  map (fun kv => (kv.1, f kv.2)) d = map_values f d.
Proof. done. Qed.

Lemma reads_as_heads read (vs : list value) ts :
  Forall2 (fun t v => reads_as read t (canon v)) ts vs -> Forall value_head ts.
Proof. induction 1 as [|t v ts vs [Hh _] _ IH]; by constructor. Qed.

Lemma read_array n vs ts rest :
  Forall2 (fun t v => reads_as (read_value n) t (canon v)) ts vs ->
  read_value (S n) (("["%char :: comma_separated ts ++ ["]"%char]) ++ rest)
  = Some (VList (map canon vs), rest).
Proof.
  intros H. cbn -[read_value]. rewrite <- app_assoc.
  cbn -[skip_space comma_separated read_items].
  pose proof (reads_as_heads _ _ _ H) as Hh.
  destruct ts as [|t ts].
  - apply Forall2_nil_inv_l in H as ->. done.
  - assert (value_head (comma_separated (t :: ts))) as Hhd.
    { apply comma_separated_head. by inversion Hh. }
    rewrite skip_space_head by done.
    destruct (comma_separated (t :: ts)) as [|c s] eqn:Hc; [done|]. cbn [app].
    destruct (Ascii.eqb_spec c "]") as [->|_]; [by destruct Hhd as (_ & [] & _)|].
    change (c :: s ++ "]"%char :: rest) with ((c :: s) ++ "]"%char :: rest).
    rewrite <- Hc, (read_items_comma _ _ (map canon vs)); [done| |done|].
    + by apply Forall2_fmap_r.
    + rewrite length_app. pose proof (comma_separated_length _ Hh) as Hl. simpl in *. lia.
Qed.

Lemma read_object n (z : list (string * (value * bytes))) rest :
  Forall (fun x => reads_as (read_value n) x.2.2 (canon x.2.1)) z ->
  NoDup z.*1 ->
  read_value (S n)
    (("{"%char :: comma_separated (write_member <$> map_values snd z) ++ ["}"%char]) ++ rest)
  = Some (VDict false (map_values canon (map_values fst z)), rest).
Proof.
  intros Hread Hkeys. cbn -[read_value]. rewrite <- app_assoc.
  cbn -[skip_space comma_separated read_members fmap map_values].
  destruct z as [|[k [v t]] z'] eqn:Hz; [done|]. rewrite <- Hz in *.
  destruct (comma_separated (write_member <$> map_values snd z)) as [|c s] eqn:Hc.
  { by rewrite Hz in Hc. }
  assert (c = double_quote) as -> by (rewrite Hz in Hc; by injection Hc).
  cbn [app]. rewrite skip_quote. change (Ascii.eqb double_quote "}") with false. cbn iota.
  change (double_quote :: s ++ "}"%char :: rest) with ((double_quote :: s) ++ "}"%char :: rest).
  rewrite <- Hc, (read_members_comma _ _ (map_values canon (map_values fst z))).
  - cbn -[map_values]. unfold dict_of_members. rewrite dict_update_fresh; [done|].
    by rewrite app_nil_l, !map_values_keys.
  - unfold map_values. rewrite <- list_fmap_compose. apply Forall2_fmap, Forall_Forall2_diag.
    eapply Forall_impl; [exact Hread|]. done.
  - by rewrite Hz.
  - rewrite length_app.
    assert (Forall value_head (write_member <$> map_values snd z)) as H.
    { apply Forall_fmap, Forall_true. intros [k' t']. apply write_member_head. }
    pose proof (comma_separated_length _ H) as Hl. rewrite length_fmap in Hl. simpl in *. lia.
Qed.

Lemma isort_perm_keys {A} (d : list (string * A)) : (isort key_leb d).*1 ≡ₚ d.*1.
Proof. apply fmap_Permutation, isort_perm. Qed.

(** A value whose text reads back with any sufficient nesting bound. *)
Definition round_trips (v : value) : Prop :=
  forall t, json_ready v = true -> write_value v = Ok t ->
    value_head t /\
    forall n rest, Datatypes.length t <= n -> delimiter rest ->
      read_value (S n) (t ++ rest) = Some (canon v, rest).

Lemma round_trips_array l ts n rest :
  Forall round_trips l -> forallb json_ready l = true -> map_ok write_value l = Ok ts ->
  Datatypes.length ("["%char :: comma_separated ts ++ ["]"%char]) <= n ->
  read_value (S n) (("["%char :: comma_separated ts ++ ["]"%char]) ++ rest)
  = Some (VList (map canon l), rest).
Proof.
  intros IH Hready Hm Hn. simpl in Hn. rewrite length_app in Hn. simpl in Hn.
  destruct n as [|n]; [lia|]. apply read_array. apply map_ok_Forall2 in Hm.
  rewrite forallb_forall in Hready. rewrite Forall_forall in IH.
  apply Forall2_flip. apply (Forall2_same_length_lookup_2 _ _ _ (Forall2_length _ _ _ Hm)).
  intros i v t Hv Ht. destruct (IH v) with (t := t) as [Hh Hr].
  - by eapply list_elem_of_lookup_2.
  - apply Hready, list_elem_of_In. by eapply list_elem_of_lookup_2.
  - by eapply (Forall2_lookup_lr _ _ _ _ _ _ Hm).
  - split; [done|]. intros r Hd. apply Hr; [|done].
    apply list_elem_of_lookup_2, comma_separated_member in Ht. lia.
Qed.

Lemma round_trips_object d ts n rest :
  Forall (fun kv => round_trips kv.2) d ->
  NoDup d.*1 -> forallb (fun kv => json_ready kv.2) d = true ->
  map_ok (fun kv => t ← write_value kv.2; Ok (kv.1, t)) d = Ok ts ->
  Datatypes.length ("{"%char :: comma_separated (write_member <$> isort key_leb ts) ++ ["}"%char]) <= n ->
  read_value (S n) (("{"%char :: comma_separated (write_member <$> isort key_leb ts) ++ ["}"%char]) ++ rest)
  = Some (VDict false (isort key_leb (map_values canon d)), rest).
Proof.
  intros IH Hkeys Hready Hm Hn. simpl in Hn. rewrite length_app in Hn. simpl in Hn.
  destruct n as [|n]; [lia|]. apply zip_members in Hm as (z & -> & -> & Hz).
  rewrite forallb_forall in Hready. rewrite Forall_forall in IH. rewrite Forall_forall in Hz.
  rewrite !isort_map_values, read_object; [done| |].
  - apply Forall_forall. intros [k [v t]] Hx. simpl.
    assert ((k, (v, t)) ∈ z) as Hin by by rewrite <- (isort_perm key_leb z).
    destruct (IH (k, v)) with (t := t) as [Hh Hr].
    + unfold map_values. apply list_elem_of_fmap. by exists (k, (v, t)).
    + apply (Hready (k, v)), list_elem_of_In. apply list_elem_of_fmap. by exists (k, (v, t)).
    + by apply (Hz (k, (v, t))).
    + split; [done|]. intros r Hd. apply Hr; [|done].
      assert (write_member (k, t) ∈ write_member <$> isort key_leb (map_values snd z)) as Hmem.
      { apply list_elem_of_fmap. exists (k, t). split; [done|].
        rewrite isort_map_values. apply list_elem_of_fmap. by exists (k, (v, t)). }
      apply comma_separated_member in Hmem. pose proof (write_member_length k t). lia.
  - rewrite isort_perm_keys. by rewrite map_values_keys in Hkeys.
Qed.

(** Every written value reads back as its canonical form. *)
Lemma read_write v : round_trips v.
Proof.
  induction v as [|b|z|x|s|l IH|l IH|b d IH] using value_ind; intros t Hready Hw; simpl in Hw.
  - inv_ok. split; [done|]. done.
  - inv_ok. split; [by destruct b|]. by destruct b.
  - inv_ok. destruct (int_str_chars z) as [H1 H2]. split; [by apply number_head|].
    intros n rest _ Hd. apply read_value_number; try done.
    unfold read_number. by rewrite string_of_chars, parse_int_str, String.eqb_refl.
  - inv_ok. destruct (f64_is_finite x) eqn:Hf.
    + destruct (float_text x Hf Hready) as (H1 & H2 & H3). split; [by apply number_head|].
      intros n rest _ Hd. by apply read_value_number.
    + split; [by destruct x as [| [] | |]|]. intros n rest _ _. by destruct x as [| [] | |].
  - inv_ok. split; [done|]. intros n rest _ _. unfold quote_string. cbn [app read_value].
    change (code double_quote =? 34)%N with true. cbn iota. rewrite <- app_assoc.
    cbn [app]. rewrite read_string_quoted. cbn. by rewrite string_of_chars.
  - destruct (map_ok write_value l) as [ts|] eqn:Hm; [|done]. cbn in Hw. inv_ok.
    split; [done|]. intros n rest Hn _. by apply round_trips_array.
  - destruct (map_ok write_value l) as [ts|] eqn:Hm; [|done]. cbn in Hw. inv_ok.
    split; [done|]. intros n rest Hn _. by apply round_trips_array.
  - destruct b; [done|]. destruct (map_ok _ d) as [ts|] eqn:Hm; [|done]. cbn -[comma_separated] in Hw.
    inv_ok. simpl in Hready. reflect_bools.
    split; [done|]. intros n rest Hn _. by apply round_trips_object.
Qed.

(** [json.loads(json.dumps(v))] is the canonical form of [v]. *)
Lemma loads_dumps v s : json_ready v = true -> json_dumps v = Ok s -> json_loads s = Ok (canon v).
Proof.
  unfold json_dumps, json_loads. intros Hready H.
  destruct (write_value v) as [t|] eqn:Hw; [|done]. cbn in H. inv_ok.
  destruct (read_write v t Hready Hw) as [Hh Hr]. rewrite chars_of_string.
  rewrite <- (app_nil_r t), skip_space_head, app_nil_r by done.
  rewrite <- (app_nil_r t) at 2. by rewrite Hr.
Qed.

(** No [MappingProxyType] is left: serialization cannot fail. *)
Fixpoint thawed (v : value) : bool :=
  match v with
  | VList l | VTuple l => forallb thawed l
  | VDict b d => negb b && forallb (fun kv => thawed kv.2) d
  | _ => true
  end.

Lemma forallb_map {A B} (f : A -> B) (p : B -> bool) l :
  forallb p (map f l) = forallb (fun x => p (f x)) l.
Proof. induction l as [|x l IH]; simpl; [done|]. by rewrite IH. Qed.

Lemma thaw_thawed v : thawed (thaw v) = true.
Proof.
  induction v as [| | | | |l IH|l IH|b d IH] using value_ind; simpl; try done;
    rewrite forallb_map; apply forallb_forall; intros x Hx%list_elem_of_In;
    rewrite Forall_forall in IH; by apply IH.
Qed.

Lemma write_thawed v : thawed v = true -> exists t, write_value v = Ok t.
Proof.
  induction v as [| | | | |l IH|l IH|b d IH] using value_ind; simpl; intros H; eauto.
  - destruct (map_ok write_value l) as [ts|e] eqn:Hm; cbn; eauto. exfalso.
    induction IH as [|v l Hv _ IHl]; simpl in *; [done|]. reflect_bools.
    destruct (Hv H) as [t Ht]. rewrite Ht in Hm. destruct (map_ok write_value l) eqn:?; [done|]. inv_ok. auto.
  - destruct (map_ok write_value l) as [ts|e] eqn:Hm; cbn; eauto. exfalso.
    induction IH as [|v l Hv _ IHl]; simpl in *; [done|]. reflect_bools.
    destruct (Hv H) as [t Ht]. rewrite Ht in Hm. destruct (map_ok write_value l) eqn:?; [done|]. inv_ok. auto.
  - destruct b; [done|]. simpl in H.
    destruct (map_ok _ d) as [ts|e] eqn:Hm; cbn; eauto. exfalso.
    induction IH as [|v l Hv _ IHl]; simpl in *; [done|]. reflect_bools.
    destruct (Hv H) as [t Ht]. rewrite Ht in Hm. cbn in Hm. destruct (map_ok _ l) eqn:?; [done|]. inv_ok. auto.
Qed.
