(* ===== verification/Sha256.v ===== *)
(** [hashlib.sha256(text.encode("utf-8")).hexdigest()] and [uuid.uuid5]: the
    SHA-256 and SHA-1 functions of FIPS 180-4 on the bytes of a string, on 32-bit
    words in [N], and the name-based identifiers of RFC 4122. *)
From S2P Require Import Prelude Text.
From Stdlib Require Import Ascii String NArith.
Local Open Scope N_scope.

Definition ones32 : N := 4294967295.
Definition add32 (x y : N) : N := N.land (x + y) ones32.
Definition not32 (x : N) : N := N.lxor x ones32.
Definition rotr (n x : N) : N := N.lor (N.shiftr x n) (N.land (N.shiftl x (32 - n)) ones32).

Definition big_sigma0 (x : N) : N := N.lxor (rotr 2 x) (N.lxor (rotr 13 x) (rotr 22 x)).
Definition big_sigma1 (x : N) : N := N.lxor (rotr 6 x) (N.lxor (rotr 11 x) (rotr 25 x)).
Definition small_sigma0 (x : N) : N := N.lxor (rotr 7 x) (N.lxor (rotr 18 x) (N.shiftr x 3)).
Definition small_sigma1 (x : N) : N := N.lxor (rotr 17 x) (N.lxor (rotr 19 x) (N.shiftr x 10)).
Definition choose (x y z : N) : N := N.lxor (N.land x y) (N.land (not32 x) z).
Definition majority (x y z : N) : N := N.lxor (N.land x y) (N.lxor (N.land x z) (N.land y z)).

(** The standard defines its constants as the first 32 bits of the fractional
    parts of the cube roots of the first 64 primes, and of the square roots of
    the first 8; they are computed here. *)
Definition is_prime (n : nat) : bool :=
  forallb (fun d => negb (Nat.modulo n d =? 0)%nat) (seq 2 (n - 2)).

Definition primes_below (limit : nat) : list N :=
  N.of_nat <$> base.filter (fun n => is_prime n = true) (seq 2 (limit - 2)).

(** The largest [r < 2 ^ bits] above [r0], on those bits, with [r ^ 3 <= x]. *)
Fixpoint cube_root_from (bits : nat) (r0 x : N) : N :=
  match bits with
  | O => r0
  | S b => let r := r0 + 2 ^ N.of_nat b in cube_root_from b (if r * r * r <=? x then r else r0) x
  end.

Definition cube_root_fraction (p : N) : N := cube_root_from 36 0 (p * 2 ^ 96) mod 2 ^ 32.
Definition square_root_fraction (p : N) : N := N.sqrt (p * 2 ^ 64) mod 2 ^ 32.

Definition round_constants : list N := Eval vm_compute in cube_root_fraction <$> primes_below 312.
Definition initial_hash : list N := Eval vm_compute in square_root_fraction <$> primes_below 20.

(** The 16 message words of a block, in order, extended to 64. *)
Fixpoint extend (n : nat) (w : list N) : list N :=
  match n with
  | O => w
  | S n' =>
      let k := List.length w in
      let at_back j := nth (k - j) w 0 in
      extend n' (w ++ [add32 (add32 (small_sigma1 (at_back 2%nat)) (at_back 7%nat))
                             (add32 (small_sigma0 (at_back 15%nat)) (at_back 16%nat))])
  end.

Definition round (h : list N) (kw : N * N) : list N :=
  match h with
  | [a; b; c; d; e; f; g; i] =>
      let t1 := add32 (add32 i (big_sigma1 e)) (add32 (choose e f g) (add32 kw.1 kw.2)) in
      let t2 := add32 (big_sigma0 a) (majority a b c) in
      [add32 t1 t2; a; b; c; add32 d t1; e; f; g]
  | _ => h
  end.

Definition compress (h w : list N) : list N :=
  zip_with add32 h (foldl round h (zip round_constants (extend 48 w))).

Fixpoint words (l : list N) : list N :=
  match l with
  | a :: b :: c :: d :: l' => (((a * 256 + b) * 256 + c) * 256 + d) :: words l'
  | _ => []
  end.

Fixpoint blocks (fuel : nat) (h w : list N) : list N :=
  match fuel with
  | O => h
  | S n => match w with [] => h | _ => blocks n (compress h (take 16 w)) (drop 16 w) end
  end.

Definition bytes_of (width : nat) (x : N) : list N :=
  rev ((fun i => N.shiftr x (8 * N.of_nat i) mod 256) <$> seq 0 width).

Definition padding (len : nat) : list N :=
  128 :: replicate ((119 - len mod 64) mod 64) 0 ++ bytes_of 8 (8 * N.of_nat len).

Definition hex_byte (b : N) : list ascii := [hex_digit (b / 16); hex_digit (b mod 16)].

Definition sha256_bytes (l : list N) : list N :=
  let w := words (l ++ padding (List.length l)) in
  blocks (List.length w) initial_hash w ≫= bytes_of 4.

Definition sha256_hex (s : string) : string :=
  string_of_list_ascii (sha256_bytes (N_of_ascii <$> list_ascii_of_string s) ≫= hex_byte).

Example sha256_abc :
  sha256_hex "abc" = "ba7816bf8f01cfea414140de5dae2223b00361a396177a9cb410ff61f20015ad"%string.
Proof. vm_compute. reflexivity. Qed.

Example sha256_two_blocks :
  sha256_hex "abcdbcdecdefdefgefghfghighijhijkijkljklmklmnlmnomnopnopq"
  = "248d6a61d20638b8e5c026930c3e6039a33ce45964ff2167f6ecedd419db06c1"%string.
Proof. vm_compute. reflexivity. Qed.

(** ** The shape of a digest *)

Lemma round_length h kw : List.length h = 8%nat -> List.length (round h kw) = 8%nat.
Proof. intros H. do 8 (destruct h as [|? h]; [done|]). by destruct h. Qed.

Lemma compress_length h w : List.length h = 8%nat -> List.length (compress h w) = 8%nat.
Proof.
  intros H. unfold compress. rewrite length_zip_with, H.
  assert (forall l h, List.length h = 8%nat -> List.length (foldl round h l) = 8%nat) as ->; [|done|lia].
  clear. induction l as [|kw l IH]; intros h H; [done|]. cbn [foldl]. by apply IH, round_length.
Qed.

Lemma blocks_length fuel h w : List.length h = 8%nat -> List.length (blocks fuel h w) = 8%nat.
Proof.
  revert h w. induction fuel as [|n IH]; intros h w H; [done|]. cbn [blocks].
  destruct w; [done|]. by apply IH, compress_length.
Qed.

Lemma bind_length {A B} (f : A -> list B) k l :
  (forall x, List.length (f x) = k) -> List.length (l ≫= f) = (List.length l * k)%nat.
Proof. intros H. induction l as [|x l IH]; [done|]. cbn. by rewrite length_app, H, IH. Qed.

Lemma sha256_bytes_length l : List.length (sha256_bytes l) = 32%nat.
Proof.
  unfold sha256_bytes. rewrite (bind_length _ 4).
  - by rewrite blocks_length.
  - intros x. unfold bytes_of. by rewrite length_rev, length_fmap, length_seq.
Qed.

Definition is_hex_char (c : ascii) : bool := between 48 57 c || between 97 102 c.

Lemma hex_digit_char n : (n < 16)%N -> is_hex_char (hex_digit n) = true.
Proof.
  destruct n as [|p]; [done|]. intros H.
  do 4 (try (destruct p as [p|p|]; try done)); lia.
Qed.

Lemma sha256_hex_chars s :
  Forall (fun c => is_hex_char c = true) (list_ascii_of_string (sha256_hex s)) /\
  List.length (list_ascii_of_string (sha256_hex s)) = 64%nat.
Proof.
  unfold sha256_hex. rewrite list_ascii_of_string_of_list_ascii. split.
  - apply Forall_bind, Forall_forall. intros b Hb.
    assert (b < 256)%N as Hlt.
    { unfold sha256_bytes in Hb. apply list_elem_of_bind in Hb as (x & Hb & _).
      unfold bytes_of in Hb. apply list_elem_of_In, in_rev, list_elem_of_In in Hb.
      apply list_elem_of_fmap in Hb as (i & -> & _). by apply N.mod_lt. }
    unfold hex_byte. repeat constructor; apply hex_digit_char.
    + apply N.Div0.div_lt_upper_bound. lia.
    + by apply N.mod_lt.
  - by rewrite (bind_length _ 2), sha256_bytes_length.
Qed.

Lemma hex_not_space c :
  is_hex_char c = true -> ascii_space c = false /\ (forall b, space2 c b = false) /\
  (forall a b, space3 c a b = false).
Proof. by destruct c as [[] [] [] [] [] [] [] []]. Qed.

Lemma sha256_hex_not_blank s : is_blank (sha256_hex s) = false.
Proof.
  unfold is_blank. destruct (sha256_hex_chars s) as [Hall Hlen].
  destruct (list_ascii_of_string (sha256_hex s)) as [|a [|b [|c l]]]; try done.
  apply Forall_cons in Hall as [(Ha & Hb & Hc)%hex_not_space _]. cbn [blank_bytes]. by rewrite Ha, Hb, Hc.
Qed.

(** ** SHA-1 and the name-based identifiers of RFC 4122 *)

Definition rotl (n x : N) : N := rotr (32 - n) x.
Definition parity (x y z : N) : N := N.lxor x (N.lxor y z).

(** The function and the constant of round [t]. *)
Definition sha1_function (t : nat) (x y z : N) : N * N :=
  if (t <? 20)%nat then (choose x y z, 1518500249)
  else if (t <? 40)%nat then (parity x y z, 1859775393)
  else if (t <? 60)%nat then (majority x y z, 2400959708)
  else (parity x y z, 3395469782).

Definition sha1_initial : list N := [1732584193; 4023233417; 2562383102; 271733878; 3285377520].

Fixpoint sha1_extend (n : nat) (w : list N) : list N :=
  match n with
  | O => w
  | S n' =>
      let at_back j := nth (List.length w - j) w 0 in
      sha1_extend n' (w ++ [rotl 1 (N.lxor (N.lxor (at_back 3%nat) (at_back 8%nat)) (N.lxor (at_back 14%nat) (at_back 16%nat)))])
  end.

Definition sha1_round (h : list N) (tw : nat * N) : list N :=
  match h with
  | [a; b; c; d; e] =>
      let f := sha1_function tw.1 b c d in
      [add32 (add32 (rotl 5 a) f.1) (add32 e (add32 f.2 tw.2)); a; rotl 30 b; c; d]
  | _ => h
  end.

Definition sha1_compress (h w : list N) : list N :=
  zip_with add32 h (foldl sha1_round h (zip (seq 0 80) (sha1_extend 64 w))).

Fixpoint sha1_blocks (fuel : nat) (h w : list N) : list N :=
  match fuel with
  | O => h
  | S n => match w with [] => h | _ => sha1_blocks n (sha1_compress h (take 16 w)) (drop 16 w) end
  end.

Definition sha1_bytes (l : list N) : list N :=
  let w := words (l ++ padding (List.length l)) in
  sha1_blocks (List.length w) sha1_initial w ≫= bytes_of 4.

Definition hex_of_bytes (l : list N) : string := string_of_list_ascii (l ≫= hex_byte).

Example sha1_abc : hex_of_bytes (sha1_bytes (N_of_ascii <$> list_ascii_of_string "abc"))
  = "a9993e364706816aba3e25717850c26c9cd0d89d"%string.
Proof. vm_compute. reflexivity. Qed.

(** The version and the variant of the identifier, in its bytes 6 and 8. *)
Definition stamped (l : list N) : list N :=
  imap (fun i b =>
    if (i =? 6)%nat then N.lor (N.land b 15) 80
    else if (i =? 8)%nat then N.lor (N.land b 63) 128
    else b) l.

(** [uuid5(namespace, name).hex] *)
Definition uuid5_hex (namespace : list N) (name : string) : string :=
  hex_of_bytes (stamped (take 16 (sha1_bytes (namespace ++ (N_of_ascii <$> list_ascii_of_string name))))).
