(* ===== verification/Lifecycle.v ===== *)
(** The lifecycle entities of [backend/domain]: the status enumerations, their
    transition tables, and the run, session and step-attempt entities whose
    [transition_to] methods enforce the tables. *)
From S2P Require Import Prelude Errors Text Float Value.
Local Open Scope string_scope.
Local Open Scope list_scope.
Local Open Scope Z_scope.

(** ** Helpers of [domain/models/_utils.py] *)

(** A [datetime]: its instant in microseconds, and whether it has an offset. *)
Record datetime := Datetime { instant : Z; is_aware : bool }.

#[export] Instance datetime_eq_dec : EqDecision datetime.
Proof. solve_decision. Defined.

Definition require_non_empty (value field_name : string) : res unit :=
  fail_if (is_blank value)
    (Exn DomainValidationError (field_name +:+ " must be a non-empty string")).

Definition require_aware (timestamp : datetime) (field_name : string) : res unit :=
  fail_if (negb (is_aware timestamp))
    (Exn DomainValidationError (field_name +:+ " must be timezone-aware")).

Definition require_all_non_empty (l : list (string * string)) : res unit :=
  each_ok (fun vn => require_non_empty vn.1 vn.2) l.

Lemma require_non_empty_Ok v n u : require_non_empty v n = Ok u <-> is_blank v = false.
Proof. apply fail_if_Ok. Qed.

Lemma require_aware_Ok ts n u : require_aware ts n = Ok u <-> is_aware ts = true.
Proof. unfold require_aware. by rewrite fail_if_Ok, negb_false_iff. Qed.

Lemma require_all_non_empty_Ok l u :
  require_all_non_empty l = Ok u <-> forall v n, (v, n) ∈ l -> is_blank v = false.
Proof.
  unfold require_all_non_empty. destruct u. rewrite each_ok_Ok. split.
  - intros H v n Hin. by apply (require_non_empty_Ok v n tt), (H (v, n)).
  - intros H [v n] Hin. apply require_non_empty_Ok. by eapply H.
Qed.

Lemma raises_non_empty v n : raises_only DomainValidationError (require_non_empty v n).
Proof. by apply raises_fail_if. Qed.
Lemma raises_aware ts n : raises_only DomainValidationError (require_aware ts n).
Proof. by apply raises_fail_if. Qed.

#[export] Hint Resolve raises_non_empty raises_aware : reagent.

(** ** Status enumerations *)

Module WorkflowRunStatus.
Inductive t :=
  | CREATED | INITIALIZING | RUNNING | WAITING_FOR_APPROVAL | WAITING_FOR_INPUT
  | RETRY_SCHEDULED | COMPLETED | FAILED | CANCELLING | CANCELLED.

#[global] Instance eq_dec : EqDecision t.
Proof. solve_decision. Defined.

Definition value (s : t) : string :=
  match s with
  | CREATED => "CREATED" | INITIALIZING => "INITIALIZING" | RUNNING => "RUNNING"
  | WAITING_FOR_APPROVAL => "WAITING_FOR_APPROVAL"
  | WAITING_FOR_INPUT => "WAITING_FOR_INPUT" | RETRY_SCHEDULED => "RETRY_SCHEDULED"
  | COMPLETED => "COMPLETED" | FAILED => "FAILED"
  | CANCELLING => "CANCELLING" | CANCELLED => "CANCELLED"
  end.

Definition is_terminal (s : t) : bool :=
  match s with COMPLETED | FAILED | CANCELLED => true | _ => false end.

Definition transitions (s : t) : list t :=
  match s with
  | CREATED => [INITIALIZING; CANCELLING]
  | INITIALIZING => [RUNNING; FAILED; CANCELLING]
  | RUNNING => [WAITING_FOR_APPROVAL; WAITING_FOR_INPUT; RETRY_SCHEDULED;
                COMPLETED; FAILED; CANCELLING]
  | WAITING_FOR_APPROVAL => [RUNNING; CANCELLING]
  | WAITING_FOR_INPUT => [RUNNING; CANCELLING]
  | RETRY_SCHEDULED => [RUNNING; CANCELLING]
  | CANCELLING => [CANCELLED]
  | COMPLETED | FAILED | CANCELLED => []
  end.
End WorkflowRunStatus.

Module StepRunStatus.
Inductive t :=
  | CREATED | READY | RUNNING | WAITING_APPROVAL | COMPLETED | FAILED
  | SKIPPED | CANCELLED.

#[global] Instance eq_dec : EqDecision t.
Proof. solve_decision. Defined.

Definition value (s : t) : string :=
  match s with
  | CREATED => "CREATED" | READY => "READY" | RUNNING => "RUNNING"
  | WAITING_APPROVAL => "WAITING_APPROVAL" | COMPLETED => "COMPLETED"
  | FAILED => "FAILED" | SKIPPED => "SKIPPED" | CANCELLED => "CANCELLED"
  end.

Definition is_terminal (s : t) : bool :=
  match s with COMPLETED | FAILED | SKIPPED | CANCELLED => true | _ => false end.

Definition transitions (s : t) : list t :=
  match s with
  | CREATED => [READY; SKIPPED; CANCELLED]
  | READY => [RUNNING; SKIPPED; CANCELLED]
  | RUNNING => [WAITING_APPROVAL; COMPLETED; FAILED; CANCELLED]
  | WAITING_APPROVAL => [RUNNING; CANCELLED]
  | COMPLETED | FAILED | SKIPPED | CANCELLED => []
  end.
End StepRunStatus.

Module AgentSessionStatus.
Inductive t :=
  | CREATED | INITIALIZING | ACTIVE | WAITING | COMPLETED | FAILED
  | CANCELLING | CANCELLED.

#[global] Instance eq_dec : EqDecision t.
Proof. solve_decision. Defined.

Definition value (s : t) : string :=
  match s with
  | CREATED => "CREATED" | INITIALIZING => "INITIALIZING" | ACTIVE => "ACTIVE"
  | WAITING => "WAITING" | COMPLETED => "COMPLETED" | FAILED => "FAILED"
  | CANCELLING => "CANCELLING" | CANCELLED => "CANCELLED"
  end.

Definition is_terminal (s : t) : bool :=
  match s with COMPLETED | FAILED | CANCELLED => true | _ => false end.

Definition transitions (s : t) : list t :=
  match s with
  | CREATED => [INITIALIZING; CANCELLING]
  | INITIALIZING => [ACTIVE; FAILED; CANCELLING]
  | ACTIVE => [WAITING; COMPLETED; FAILED; CANCELLING]
  | WAITING => [ACTIVE; FAILED; CANCELLING]
  | CANCELLING => [CANCELLED]
  | COMPLETED | FAILED | CANCELLED => []
  end.
End AgentSessionStatus.

Inductive WorkflowStepKind := SKILL | APPROVAL.

#[export] Instance step_kind_eq_dec : EqDecision WorkflowStepKind.
Proof. solve_decision. Defined.

(** [InvalidStateTransition(entity_type, entity_id, current, target)] *)
Definition invalid_transition (entity_type entity_id current target : string) : exn :=
  Exn InvalidStateTransition
    ("Invalid " +:+ entity_type +:+ " transition for " +:+ entity_id +:+ ": "
     +:+ current +:+ " -> " +:+ target).

(** [at or utc_now()]: [now] is what the clock would give. *)
Definition timestamp_or (now : datetime) (at_ : option datetime) : datetime :=
  default now at_.

(** ** [WorkflowRun] *)

Module WorkflowRun.
Record t := mk {
  id : string;
  project_id : string;
  workflow_id : string;
  workflow_version : string;
  actor_user_id : string;
  idempotency_key : string;
  inputs : mapping;
  status : WorkflowRunStatus.t;
  outputs : mapping;
  wait_reason : option string;
  error_code : option string;
  row_version : Z;
  created_at : datetime;
  updated_at : datetime
}.

(** The dataclass constructor: the fields as given, then [__post_init__]. *)
Definition post_init (self : t) : res t :=
  _ ← require_all_non_empty
        [(id self, "WorkflowRun.id"); (project_id self, "WorkflowRun.project_id");
         (workflow_id self, "WorkflowRun.workflow_id");
         (workflow_version self, "WorkflowRun.workflow_version");
         (actor_user_id self, "WorkflowRun.actor_user_id");
         (idempotency_key self, "WorkflowRun.idempotency_key")];
  _ ← require_aware (created_at self) "WorkflowRun.created_at";
  _ ← require_aware (updated_at self) "WorkflowRun.updated_at";
  Ok (mk (id self) (project_id self) (workflow_id self) (workflow_version self)
        (actor_user_id self) (idempotency_key self) (freeze_mapping (inputs self))
        (status self) (outputs self) (wait_reason self) (error_code self)
        (row_version self) (created_at self) (updated_at self)).

(** The statuses that keep a wait reason. *)
Definition waits (s : WorkflowRunStatus.t) : bool :=
  match s with
  | WorkflowRunStatus.WAITING_FOR_APPROVAL | WorkflowRunStatus.WAITING_FOR_INPUT
  | WorkflowRunStatus.RETRY_SCHEDULED => true
  | _ => false
  end.

Definition transition_to (now : datetime) (self : t) (target : WorkflowRunStatus.t)
    (at_ : option datetime) (reason code : option string) : res t :=
  if negb (bool_decide (target ∈ WorkflowRunStatus.transitions (status self))) then
    Err (invalid_transition "WorkflowRun" (id self)
           (WorkflowRunStatus.value (status self)) (WorkflowRunStatus.value target))
  else
    let timestamp := timestamp_or now at_ in
    _ ← require_aware timestamp "WorkflowRun transition timestamp";
    Ok (mk (id self) (project_id self) (workflow_id self) (workflow_version self)
          (actor_user_id self) (idempotency_key self) (inputs self)
          target (outputs self)
          (if waits target then reason else None)
          (if bool_decide (target = WorkflowRunStatus.FAILED) then code else None)
          (row_version self + 1) (created_at self) timestamp).

Definition set_outputs (self : t) (new_outputs : mapping) : t :=
  mk (id self) (project_id self) (workflow_id self) (workflow_version self)
    (actor_user_id self) (idempotency_key self) (inputs self) (status self) new_outputs
    (wait_reason self) (error_code self) (row_version self) (created_at self) (updated_at self).
End WorkflowRun.

(** ** [AgentSession] *)

Module AgentSession.
Record t := mk {
  id : string;
  project_id : string;
  workflow_run_id : string;
  agent_profile_ref : string;
  role : string;
  status : AgentSessionStatus.t;
  state : mapping;
  row_version : Z;
  created_at : datetime;
  updated_at : datetime
}.

Definition post_init (self : t) : res t :=
  _ ← require_all_non_empty
        [(id self, "AgentSession.id"); (project_id self, "AgentSession.project_id");
         (workflow_run_id self, "AgentSession.workflow_run_id");
         (agent_profile_ref self, "AgentSession.agent_profile_ref");
         (role self, "AgentSession.role")];
  _ ← require_aware (created_at self) "AgentSession.created_at";
  _ ← require_aware (updated_at self) "AgentSession.updated_at";
  Ok (mk (id self) (project_id self) (workflow_run_id self) (agent_profile_ref self)
        (role self) (status self) (freeze_mapping (state self)) (row_version self)
        (created_at self) (updated_at self)).

Definition transition_to (now : datetime) (self : t) (target : AgentSessionStatus.t)
    (at_ : option datetime) : res t :=
  if negb (bool_decide (target ∈ AgentSessionStatus.transitions (status self))) then
    Err (invalid_transition "AgentSession" (id self)
           (AgentSessionStatus.value (status self)) (AgentSessionStatus.value target))
  else
    let timestamp := timestamp_or now at_ in
    _ ← require_aware timestamp "AgentSession transition timestamp";
    Ok (mk (id self) (project_id self) (workflow_run_id self) (agent_profile_ref self)
          (role self) target (state self) (row_version self + 1) (created_at self) timestamp).
End AgentSession.

(** ** [StepRun] *)

Module StepRun.
Record t := mk {
  id : string;
  workflow_run_id : string;
  step_id : string;
  attempt : Z;
  idempotency_key : string;
  inputs : mapping;
  status : StepRunStatus.t;
  outputs : mapping;
  error_code : option string;
  row_version : Z;
  created_at : datetime;
  updated_at : datetime;
  started_at : option datetime;
  finished_at : option datetime
}.

Definition post_init (self : t) : res t :=
  _ ← require_all_non_empty
        [(id self, "StepRun.id"); (workflow_run_id self, "StepRun.workflow_run_id");
         (step_id self, "StepRun.step_id"); (idempotency_key self, "StepRun.idempotency_key")];
  _ ← fail_if (attempt self <=? 0)
        (Exn DomainValidationError "StepRun.attempt must be positive");
  _ ← require_aware (created_at self) "StepRun.created_at";
  _ ← require_aware (updated_at self) "StepRun.updated_at";
  Ok (mk (id self) (workflow_run_id self) (step_id self) (attempt self)
        (idempotency_key self) (freeze_mapping (inputs self)) (status self) (outputs self)
        (error_code self) (row_version self) (created_at self) (updated_at self)
        (started_at self) (finished_at self)).

Definition transition_to (now : datetime) (self : t) (target : StepRunStatus.t)
    (at_ : option datetime) (new_inputs new_outputs : option mapping)
    (code : option string) : res t :=
  if negb (bool_decide (target ∈ StepRunStatus.transitions (status self))) then
    Err (invalid_transition "StepRun" (id self)
           (StepRunStatus.value (status self)) (StepRunStatus.value target))
  else
    _ ← fail_if (match new_inputs with Some _ => true | None => false end
                 && negb (bool_decide (target = StepRunStatus.READY)))
          (Exn DomainValidationError "StepRun inputs can be assigned only when entering READY");
    let timestamp := timestamp_or now at_ in
    _ ← require_aware timestamp "StepRun transition timestamp";
    Ok (mk (id self) (workflow_run_id self) (step_id self) (attempt self) (idempotency_key self)
          (match new_inputs with Some i => freeze_mapping i | None => inputs self end)
          target
          (match new_outputs with Some o => o | None => outputs self end)
          (if bool_decide (target = StepRunStatus.FAILED) then code else None)
          (row_version self + 1) (created_at self) timestamp
          (match started_at self with
           | None => if bool_decide (target = StepRunStatus.RUNNING) then Some timestamp else None
           | s => s
           end)
          (if StepRunStatus.is_terminal target then Some timestamp else finished_at self)).
End StepRun.

(** ** What a lifecycle promises *)

(** An entity with a status, an optimistic version and one mutating call. *)
Class Machine (E A S : Type) := {
  m_status : E -> S;
  m_version : E -> Z;
  m_call : E -> A -> res E;
  m_targets : S -> list S
}.

(** The call raises, or moves along the table and bumps the version. *)
Class MachineLaws (E A S : Type) `{Machine E A S} := {
  call_legal e a e' : m_call e a = Ok e' -> m_status e' ∈ m_targets (m_status e);
  call_version e a e' : m_call e a = Ok e' -> m_version e' = m_version e + 1
}.

Section machine.
Context {E A S : Type} `{MachineLaws E A S}.

(** A caller that survives the exceptions: a raising call leaves the entity
    as it was. *)
Definition call_or_keep (e : E) (a : A) : E :=
  match m_call e a with Ok e' => e' | Err _ => e end.

Definition history (e : E) (calls : list A) : E := foldl call_or_keep e calls.

(** One move of the transition table. *)
Definition moves (s s' : S) : Prop := s' ∈ m_targets s.

Lemma history_moves e calls :
  exists n : nat, nsteps moves n (m_status e) (m_status (history e calls)) /\
    m_version (history e calls) = m_version e + Z.of_nat n /\ (n <= length calls)%nat.
Proof.
  revert e. induction calls as [|a calls IH]; intros e; simpl.
  - exists 0%nat. split; [constructor|]. split; lia.
  - destruct (IH (call_or_keep e a)) as (n & Hn & Hv & Hle).
    unfold call_or_keep in *. destruct (m_call e a) as [e'|x] eqn:Hc.
    + exists (Datatypes.S n). split; [|rewrite Hv, (call_version _ _ _ Hc); lia].
      econstructor; [by apply (call_legal _ _ _ Hc)|done].
    + exists n. split; [done|]. split; [done|lia].
Qed.

Lemma history_final e calls : m_targets (m_status e) = [] -> history e calls = e.
Proof.
  intros Ht. unfold history. induction calls as [|a calls IH]; [done|]. cbn [foldl].
  assert (call_or_keep e a = e) as ->; [|done].
  unfold call_or_keep. destruct (m_call e a) as [e'|x] eqn:Hc; [|done].
  pose proof (call_legal _ _ _ Hc) as Hl. rewrite Ht in Hl. set_solver.
Qed.
End machine.

(** What a successful transition does, for each entity. *)
Lemma run_transition_Ok now r s at_ reason code r' :
  WorkflowRun.transition_to now r s at_ reason code = Ok r' ->
  s ∈ WorkflowRunStatus.transitions (WorkflowRun.status r) /\
  WorkflowRun.status r' = s /\
  WorkflowRun.row_version r' = WorkflowRun.row_version r + 1 /\
  WorkflowRun.id r' = WorkflowRun.id r /\
  WorkflowRun.updated_at r' = timestamp_or now at_ /\
  is_aware (timestamp_or now at_) = true.
Proof.
  unfold WorkflowRun.transition_to. intros H. case_in H; [done|]. reflect_bools.
  unfold require_aware, fail_if in H. cbn in H. destruct (is_aware _) eqn:Ha; cbn in H; [|done].
  inv_ok. done.
Qed.

Lemma session_transition_Ok now r s at_ r' :
  AgentSession.transition_to now r s at_ = Ok r' ->
  s ∈ AgentSessionStatus.transitions (AgentSession.status r) /\
  AgentSession.status r' = s /\
  AgentSession.row_version r' = AgentSession.row_version r + 1 /\
  AgentSession.id r' = AgentSession.id r.
Proof.
  unfold AgentSession.transition_to. intros H. case_in H; [done|]. reflect_bools.
  unfold require_aware, fail_if in H. cbn in H. destruct (is_aware _) eqn:Ha; cbn in H; [|done].
  inv_ok. done.
Qed.

Lemma step_transition_Ok now r s at_ i o code r' :
  StepRun.transition_to now r s at_ i o code = Ok r' ->
  s ∈ StepRunStatus.transitions (StepRun.status r) /\
  StepRun.status r' = s /\
  StepRun.row_version r' = StepRun.row_version r + 1 /\
  StepRun.id r' = StepRun.id r /\ StepRun.step_id r' = StepRun.step_id r /\
  StepRun.attempt r' = StepRun.attempt r /\
  StepRun.idempotency_key r' = StepRun.idempotency_key r /\
  StepRun.workflow_run_id r' = StepRun.workflow_run_id r /\
  is_aware (timestamp_or now at_) = true.
Proof.
  unfold StepRun.transition_to. intros H. case_in H; [done|]. reflect_bools.
  unfold require_aware, fail_if in H. cbn in H. destruct (_ && _); cbn in H; [done|].
  destruct (is_aware _) eqn:Ha; cbn in H; [|done]. inv_ok. done.
Qed.

(** The converse: a listed target with an aware timestamp is accepted. *)
Lemma run_transition_legal now r s at_ reason code :
  s ∈ WorkflowRunStatus.transitions (WorkflowRun.status r) ->
  is_aware (timestamp_or now at_) = true ->
  exists r', WorkflowRun.transition_to now r s at_ reason code = Ok r'.
Proof.
  intros Hs Ha. unfold WorkflowRun.transition_to. rewrite bool_decide_true by done.
  unfold require_aware, fail_if. cbn. rewrite Ha. cbn. eauto.
Qed.

Lemma session_transition_legal now r s at_ :
  s ∈ AgentSessionStatus.transitions (AgentSession.status r) ->
  is_aware (timestamp_or now at_) = true ->
  exists r', AgentSession.transition_to now r s at_ = Ok r'.
Proof.
  intros Hs Ha. unfold AgentSession.transition_to. rewrite bool_decide_true by done.
  unfold require_aware, fail_if. cbn. rewrite Ha. cbn. eauto.
Qed.

Lemma step_transition_legal now r s at_ o code :
  s ∈ StepRunStatus.transitions (StepRun.status r) ->
  is_aware (timestamp_or now at_) = true ->
  exists r', StepRun.transition_to now r s at_ None o code = Ok r'.
Proof.
  intros Hs Ha. unfold StepRun.transition_to. rewrite bool_decide_true by done.
  unfold require_aware, fail_if. cbn. rewrite Ha. cbn. eauto.
Qed.

(** ** The three machines *)

(** The arguments of one [transition_to] call; [Run_call now target at reason code]. *)
Record run_call := RunCall {
  rc_now : datetime; rc_target : WorkflowRunStatus.t; rc_at : option datetime;
  rc_reason : option string; rc_code : option string }.
Record session_call := SessionCall {
  sc_now : datetime; sc_target : AgentSessionStatus.t; sc_at : option datetime }.
Record step_call := StepCall {
  tc_now : datetime; tc_target : StepRunStatus.t; tc_at : option datetime;
  tc_inputs : option mapping; tc_outputs : option mapping; tc_code : option string }.

#[export] Instance run_machine : Machine WorkflowRun.t run_call WorkflowRunStatus.t := {
  m_status := WorkflowRun.status;
  m_version := WorkflowRun.row_version;
  m_call r c := WorkflowRun.transition_to (rc_now c) r (rc_target c) (rc_at c) (rc_reason c) (rc_code c);
  m_targets := WorkflowRunStatus.transitions
}.
#[export] Instance session_machine : Machine AgentSession.t session_call AgentSessionStatus.t := {
  m_status := AgentSession.status;
  m_version := AgentSession.row_version;
  m_call r c := AgentSession.transition_to (sc_now c) r (sc_target c) (sc_at c);
  m_targets := AgentSessionStatus.transitions
}.
#[export] Instance step_machine : Machine StepRun.t step_call StepRunStatus.t := {
  m_status := StepRun.status;
  m_version := StepRun.row_version;
  m_call r c := StepRun.transition_to (tc_now c) r (tc_target c) (tc_at c)
                  (tc_inputs c) (tc_outputs c) (tc_code c);
  m_targets := StepRunStatus.transitions
}.

#[export] Instance run_machine_laws : MachineLaws WorkflowRun.t run_call WorkflowRunStatus.t.
Proof. split; cbn; intros e a e' H%run_transition_Ok; [destruct H as (? & -> & ?)|]; naive_solver. Qed.
#[export] Instance session_machine_laws : MachineLaws AgentSession.t session_call AgentSessionStatus.t.
Proof. split; cbn; intros e a e' H%session_transition_Ok; [destruct H as (? & -> & ?)|]; naive_solver. Qed.
#[export] Instance step_machine_laws : MachineLaws StepRun.t step_call StepRunStatus.t.
Proof. split; cbn; intros e a e' H%step_transition_Ok; [destruct H as (? & -> & ?)|]; naive_solver. Qed.

(** ** The invariants of the fields that depend on the status *)

Definition run_fields_ok (r : WorkflowRun.t) : Prop :=
  (WorkflowRun.wait_reason r <> None -> WorkflowRun.waits (WorkflowRun.status r) = true) /\
  (WorkflowRun.error_code r <> None -> WorkflowRun.status r = WorkflowRunStatus.FAILED).

(** Statuses only reached through [RUNNING]. *)
Definition has_run (s : StepRunStatus.t) : bool :=
  match s with
  | StepRunStatus.RUNNING | StepRunStatus.WAITING_APPROVAL
  | StepRunStatus.COMPLETED | StepRunStatus.FAILED => true
  | _ => false
  end.

Definition step_fields_ok (s : StepRun.t) : Prop :=
  (StepRun.finished_at s <> None <-> StepRunStatus.is_terminal (StepRun.status s) = true) /\
  (has_run (StepRun.status s) = true -> StepRun.started_at s <> None) /\
  (StepRun.error_code s <> None -> StepRun.status s = StepRunStatus.FAILED).

Lemma run_fields_kept r c : run_fields_ok r -> run_fields_ok (call_or_keep r c).
Proof.
  intros Hr. unfold call_or_keep. destruct (m_call r c) as [r'|] eqn:Hc; [|done].
  cbn in Hc. unfold WorkflowRun.transition_to in Hc. case_in Hc; [done|].
  unfold require_aware, fail_if in Hc. cbn in Hc. destruct (is_aware _); cbn in Hc; [|done].
  inv_ok. split; cbn; [by case_goal|].
  destruct (bool_decide (rc_target c = _)) eqn:?; reflect_bools; [done|congruence].
Qed.

Lemma step_fields_kept s c : step_fields_ok s -> step_fields_ok (call_or_keep s c).
Proof.
  intros (Hf & Hs & He). unfold call_or_keep. destruct (m_call s c) as [s'|] eqn:Hc; [|done].
  cbn in Hc. unfold StepRun.transition_to in Hc. case_in Hc; [done|]. reflect_bools.
  unfold require_aware, fail_if in Hc. cbn in Hc. destruct (_ && _); cbn in Hc; [done|].
  destruct (is_aware _); cbn in Hc; [|done]. inv_ok.
  destruct s as [? ? ? ? ? ? st ? ? ? ? ? sa fa], c as [? tg]; cbn in *.
  unfold step_fields_ok; cbn. split; [|split].
  - destruct st, tg; cbn in *; try set_solver; naive_solver.
  - destruct st, tg, sa; cbn in *; try set_solver; naive_solver.
  - destruct (bool_decide (tg = _)) eqn:?; reflect_bools; [done|congruence].
Qed.

(** ** Properties *)

(** Whatever sequence of [transition_to] calls a run, a session and a step
    attempt receive, each status is reached along the transition table, the
    row version counts the calls that succeeded, and an entity in a terminal
    status never changes again. *)
Theorem lifecycle_histories r rcs a acs s scs :
  (exists n, nsteps (moves (E := WorkflowRun.t) (A := run_call)) n
       (WorkflowRun.status r) (WorkflowRun.status (history r rcs)) /\
     WorkflowRun.row_version (history r rcs) = WorkflowRun.row_version r + Z.of_nat n) /\
  (exists n, nsteps (moves (E := AgentSession.t) (A := session_call)) n
       (AgentSession.status a) (AgentSession.status (history a acs)) /\
     AgentSession.row_version (history a acs) = AgentSession.row_version a + Z.of_nat n) /\
  (exists n, nsteps (moves (E := StepRun.t) (A := step_call)) n
       (StepRun.status s) (StepRun.status (history s scs)) /\
     StepRun.row_version (history s scs) = StepRun.row_version s + Z.of_nat n) /\
  (WorkflowRunStatus.is_terminal (WorkflowRun.status r) = true -> history r rcs = r) /\
  (AgentSessionStatus.is_terminal (AgentSession.status a) = true -> history a acs = a) /\
  (StepRunStatus.is_terminal (StepRun.status s) = true -> history s scs = s).
Proof.
  split; [|split; [|split; [|split; [|split]]]].
  - destruct (history_moves r rcs) as (n & ? & ? & ?); eauto.
  - destruct (history_moves a acs) as (n & ? & ? & ?); eauto.
  - destruct (history_moves s scs) as (n & ? & ? & ?); eauto.
  - intros Ht. apply history_final. cbn. by destruct (WorkflowRun.status r).
  - intros Ht. apply history_final. cbn. by destruct (AgentSession.status a).
  - intros Ht. apply history_final. cbn. by destruct (StepRun.status s).
Qed.

(** The fields that follow the status stay consistent with it through any
    sequence of calls: a run keeps a wait reason only while it waits and an
    error code only when it failed; a step attempt has a finish time exactly
    when it is terminal, a start time once it has run, and an error code only
    when it failed. *)
Theorem lifecycle_fields r rcs s scs :
  run_fields_ok r -> step_fields_ok s ->
  run_fields_ok (history r rcs) /\ step_fields_ok (history s scs).
Proof.
  intros Hr Hs. unfold history. split.
  - clear Hs. revert r Hr. induction rcs as [|c rcs IH]; intros r Hr; [done|].
    apply IH, run_fields_kept, Hr.
  - clear Hr. revert s Hs. induction scs as [|c scs IH]; intros s Hs; [done|].
    apply IH, step_fields_kept, Hs.
Qed.

(** ** Witnesses *)

Definition epoch (n : Z) : datetime := Datetime n true.

Definition sample_run : WorkflowRun.t :=
  WorkflowRun.mk "run_1" "p" "wf" "1" "u" "k" [] WorkflowRunStatus.CREATED [] None None 0
    (epoch 0) (epoch 0).
Definition sample_step : StepRun.t :=
  StepRun.mk "step_run_1" "run_1" "plan" 1 "run_1:plan:1" [] StepRunStatus.CREATED [] None 0
    (epoch 0) (epoch 0) None None.

Lemma lifecycle_histories_witness :
  exists n, nsteps (moves (E := WorkflowRun.t) (A := run_call)) n WorkflowRunStatus.CREATED
    (WorkflowRun.status (history sample_run
       [RunCall (epoch 1) WorkflowRunStatus.RUNNING None None None;
        RunCall (epoch 1) WorkflowRunStatus.INITIALIZING None None None;
        RunCall (epoch 2) WorkflowRunStatus.RUNNING (Some (epoch 2)) None None])).
Proof.
  destruct (lifecycle_histories sample_run
       [RunCall (epoch 1) WorkflowRunStatus.RUNNING None None None;
        RunCall (epoch 1) WorkflowRunStatus.INITIALIZING None None None;
        RunCall (epoch 2) WorkflowRunStatus.RUNNING (Some (epoch 2)) None None]
       (AgentSession.mk "a" "p" "run_1" "x" "primary" AgentSessionStatus.CREATED [] 0 (epoch 0) (epoch 0))
       [] sample_step []) as [[n [H _]] _].
  exists n. exact H.
Defined.

Lemma lifecycle_fields_witness :
  let calls := [StepCall (epoch 1) StepRunStatus.READY None None None None;
                StepCall (epoch 2) StepRunStatus.RUNNING None None None None;
                StepCall (epoch 3) StepRunStatus.FAILED None None None (Some "X")] in
  StepRun.status (history sample_step calls) = StepRunStatus.FAILED /\
  step_fields_ok (history sample_step calls).
Proof.
  intros calls. split; [reflexivity|].
  refine (proj2 (lifecycle_fields sample_run [] sample_step calls _ _)).
  - split; intros H; by destruct H.
  - split; [split; intros H; [by destruct H|discriminate H]|].
    split; [intros H; discriminate H|intros H; by destruct H].
Defined.
