(* ===== verification/Workflow.v ===== *)
(** The workflow definition of [backend/domain/models]: [WorkflowStep],
    [Workflow] with its acyclicity check, and [ArtifactMetadata]. *)
From S2P Require Import Prelude Errors Text Float Value Graph Lifecycle.
From Stdlib Require Import SpecFloat.
Local Open Scope string_scope.
Local Open Scope list_scope.
Local Open Scope Z_scope.

Definition validation_error (message : string) : exn := Exn DomainValidationError message.

(** ** [WorkflowStep] *)

Module WorkflowStep.
Record t := mk {
  id : string;
  kind : WorkflowStepKind;
  needs : list string;
  uses : option string;
  input_mapping : mapping;
  timeout_seconds : Z;
  max_attempts : Z;
  retry_backoff : string;
  retry_initial_seconds : float;
  retry_max_seconds : float;
  checkpoint_policy : string;
  approval_policy : option string
}.

(** The clause of [__post_init__] on the two kinds of step. *)
Definition check_kind (self : t) : res unit :=
  match kind self with
  | SKILL =>
      _ ← fail_if (match uses self with
                   | Some u => negb (str_contains "@" u)
                   | None => true
                   end)
            (validation_error ("Skill step " +:+ id self +:+ " must pin a skill as skill_id@version"));
      fail_if (match approval_policy self with Some _ => true | None => false end)
        (validation_error ("Skill step " +:+ id self +:+ " cannot define approval_policy directly"))
  | APPROVAL =>
      _ ← fail_if (match uses self with Some _ => true | None => false end)
            (validation_error ("Approval step " +:+ id self +:+ " cannot define uses"));
      require_non_empty (default "" (approval_policy self)) "WorkflowStep.approval_policy"
  end.

Definition check_limits (self : t) : res unit :=
  _ ← fail_if (timeout_seconds self <=? 0)
        (validation_error "WorkflowStep.timeout_seconds must be positive");
  _ ← fail_if (max_attempts self <=? 0)
        (validation_error "WorkflowStep.max_attempts must be positive");
  _ ← fail_if (negb (bool_decide (retry_backoff self ∈ ["fixed"; "linear"; "exponential"])))
        (validation_error "WorkflowStep.retry_backoff must be fixed, linear, or exponential");
  _ ← fail_if (f64_lt (retry_initial_seconds self) f64_zero)
        (validation_error "WorkflowStep.retry_initial_seconds cannot be negative");
  _ ← fail_if (f64_lt (retry_max_seconds self) (retry_initial_seconds self))
        (validation_error "WorkflowStep.retry_max_seconds cannot be smaller than retry_initial_seconds");
  fail_if (negb (String.eqb (checkpoint_policy self) "after_success"))
    (validation_error "V1 supports only the after_success checkpoint policy").

Definition post_init (self : t) : res t :=
  _ ← require_non_empty (id self) "WorkflowStep.id";
  _ ← fail_if (negb (is_identifier (id self)))
        (validation_error
          "WorkflowStep.id must start with a letter and contain only letters, digits, underscores, or hyphens");
  _ ← fail_if (negb (bool_decide (NoDup (needs self))))
        (validation_error ("WorkflowStep " +:+ id self +:+ " has duplicate dependencies"));
  _ ← fail_if (bool_decide (id self ∈ needs self))
        (validation_error ("WorkflowStep " +:+ id self +:+ " cannot depend on itself"));
  _ ← check_kind self;
  _ ← check_limits self;
  Ok (mk (id self) (kind self) (needs self) (uses self) (freeze_mapping (input_mapping self))
        (timeout_seconds self) (max_attempts self) (retry_backoff self)
        (retry_initial_seconds self) (retry_max_seconds self) (checkpoint_policy self)
        (approval_policy self)).
End WorkflowStep.

(** ** [Workflow] *)

Module Workflow.
Record t := mk {
  id : string;
  version : string;
  name : string;
  steps : list WorkflowStep.t;
  schema_version : string;
  input_schema : mapping;
  outputs : mapping
}.

Definition node_of (s : WorkflowStep.t) : node := (WorkflowStep.id s, WorkflowStep.needs s).
Definition graph (self : t) : list node := node_of <$> steps self.
Definition step_ids (self : t) : list string := WorkflowStep.id <$> steps self.

(** [set(step.needs) - known_ids], sorted. *)
Definition missing_dependencies (known : list string) (s : WorkflowStep.t) : list string :=
  sort_strings (remove_dups (filter (fun d => d ∉ known) (WorkflowStep.needs s))).

Definition check_dependencies (known : list string) (s : WorkflowStep.t) : res unit :=
  let missing := missing_dependencies known s in
  fail_if (negb (bool_decide (missing = [])))
    (validation_error ("WorkflowStep " +:+ WorkflowStep.id s +:+ " has missing dependencies: "
                       +:+ join ", " missing)).

(** [deque(step.id for step in self.steps if inbound_count[step.id] == 0)] *)
Definition initial_ready (inbound : gmap string Z) (nodes : list node) : list string :=
  (filter (fun n => inbound !! n.1 = Some 0) nodes).*1.

(** The loop pops at most one entry per step; the fuel is one more. *)
Definition validate_acyclic (self : t) : res unit :=
  let nodes := graph self in
  let inbound := inbound_counts nodes in
  dependents ← dependents_table nodes (no_dependents nodes);
  match process_ready (S (List.length nodes)) dependents (initial_ready inbound nodes) inbound 0 with
  | Some (Ok visited) =>
      fail_if (negb (visited =? List.length (steps self))%nat)
        (validation_error "Workflow dependencies must form an acyclic graph")
  | Some (Err e) => Err e
  | None => Err (Exn PyRuntimeError "out of fuel")
  end.

Definition check_output (known : list string) (entry : string * value) : res unit :=
  let '(output_name, reference) := entry in
  _ ← require_non_empty output_name "Workflow output name";
  match reference with
  | VStr text =>
      match parse_node_reference text with
      | None => Err (validation_error ("Workflow output " +:+ output_name
                                       +:+ " has an unsupported reference"))
      | Some (referenced, _) =>
          fail_if (negb (bool_decide (referenced ∈ known)))
            (validation_error ("Workflow output " +:+ output_name +:+ " references missing step "
                               +:+ referenced))
      end
  | _ => Err (validation_error ("Workflow output " +:+ output_name
                                +:+ " must be a string reference"))
  end.

Definition post_init (self : t) : res t :=
  _ ← require_non_empty (id self) "Workflow.id";
  _ ← require_non_empty (version self) "Workflow.version";
  _ ← require_non_empty (name self) "Workflow.name";
  _ ← fail_if (negb (String.eqb (schema_version self) "reagent/v1alpha1"))
        (validation_error ("Unsupported workflow schema version: " +:+ schema_version self));
  _ ← fail_if (bool_decide (steps self = []))
        (validation_error "Workflow must contain at least one step");
  _ ← fail_if (negb (bool_decide (NoDup (step_ids self))))
        (validation_error "Workflow step IDs must be unique");
  _ ← each_ok (check_dependencies (step_ids self)) (steps self);
  _ ← validate_acyclic self;
  _ ← each_ok (check_output (step_ids self)) (outputs self);
  Ok (mk (id self) (version self) (name self) (steps self) (schema_version self)
        (freeze_mapping (input_schema self)) (freeze_mapping (outputs self))).

Definition roots (self : t) : list WorkflowStep.t :=
  filter (fun s => WorkflowStep.needs s = []) (steps self).

Definition get_step (self : t) (step_id : string) : res WorkflowStep.t :=
  match list_find (fun s => WorkflowStep.id s = step_id) (steps self) with
  | Some (_, s) => Ok s
  | None => Err (validation_error ("Workflow has no step named " +:+ step_id))
  end.

Definition dependents_of (self : t) (step_id : string) : list WorkflowStep.t :=
  filter (fun s => step_id ∈ WorkflowStep.needs s) (steps self).
End Workflow.

(** ** [ArtifactMetadata] *)

Module ArtifactMetadata.
Record t := mk {
  id : string;
  project_id : string;
  logical_artifact_id : string;
  logical_name : string;
  version : Z;
  kind : string;
  storage_ref : string;
  checksum : string;
  media_type : string;
  size : Z;
  producer_run_id : option string;
  producer_step_run_id : option string;
  metadata : mapping;
  created_at : datetime
}.

Definition post_init (self : t) : res t :=
  _ ← require_all_non_empty
        [(id self, "ArtifactMetadata.id"); (project_id self, "ArtifactMetadata.project_id");
         (logical_artifact_id self, "ArtifactMetadata.logical_artifact_id");
         (logical_name self, "ArtifactMetadata.logical_name");
         (kind self, "ArtifactMetadata.kind");
         (storage_ref self, "ArtifactMetadata.storage_ref");
         (checksum self, "ArtifactMetadata.checksum");
         (media_type self, "ArtifactMetadata.media_type")];
  _ ← fail_if (version self <=? 0) (validation_error "ArtifactMetadata.version must be positive");
  _ ← fail_if (size self <? 0) (validation_error "ArtifactMetadata.size cannot be negative");
  _ ← require_aware (created_at self) "ArtifactMetadata.created_at";
  Ok (mk (id self) (project_id self) (logical_artifact_id self) (logical_name self)
        (version self) (kind self) (storage_ref self) (checksum self) (media_type self)
        (size self) (producer_run_id self) (producer_step_run_id self)
        (freeze_mapping (metadata self)) (created_at self)).
End ArtifactMetadata.

(** ** What the constructors accept *)

(** The inputs [Workflow.__post_init__] accepts. *)
Record valid_workflow (w : Workflow.t) : Prop := {
  vw_id : is_blank (Workflow.id w) = false;
  vw_version : is_blank (Workflow.version w) = false;
  vw_name : is_blank (Workflow.name w) = false;
  vw_schema : Workflow.schema_version w = "reagent/v1alpha1";
  vw_steps : Workflow.steps w <> [];
  vw_unique : NoDup (Workflow.step_ids w);
  vw_closed : forall s d, s ∈ Workflow.steps w -> d ∈ WorkflowStep.needs s ->
    d ∈ Workflow.step_ids w;
  vw_acyclic : acyclic_graph (Workflow.graph w);
  vw_outputs : forall n r, (n, r) ∈ Workflow.outputs w ->
    is_blank n = false /\
    exists text st f, r = VStr text /\ parse_node_reference text = Some (st, f) /\
      st ∈ Workflow.step_ids w
}.

Lemma graph_ids w : ids (Workflow.graph w) = Workflow.step_ids w.
Proof. unfold ids, Workflow.graph, Workflow.step_ids. by rewrite <- list_fmap_compose. Qed.

Lemma elem_graph w n :
  n ∈ Workflow.graph w <-> exists s, s ∈ Workflow.steps w /\ n = Workflow.node_of s.
Proof. unfold Workflow.graph. rewrite list_elem_of_fmap. naive_solver. Qed.

Lemma graph_well_formed w :
  (forall s, s ∈ Workflow.steps w -> NoDup (WorkflowStep.needs s)) ->
  NoDup (Workflow.step_ids w) ->
  (forall s d, s ∈ Workflow.steps w -> d ∈ WorkflowStep.needs s -> d ∈ Workflow.step_ids w) ->
  well_formed (Workflow.graph w).
Proof.
  intros Hn Hu Hc. split.
  - by rewrite graph_ids.
  - intros n (s & Hs & ->)%elem_graph. by apply Hn.
  - intros n d (s & Hs & ->)%elem_graph Hd. rewrite graph_ids. by eapply Hc.
Qed.

Lemma filter_ext_elem {A} (P Q : A -> Prop) `{!forall x, Decision (P x)} `{!forall x, Decision (Q x)} (l : list A) :
  (forall x, x ∈ l -> P x <-> Q x) -> filter P l = filter Q l.
Proof.
  induction l as [|x l IH]; intros Hpq; [done|]. rewrite !filter_cons.
  assert (filter P l = filter Q l) as -> by (apply IH; set_solver).
  destruct (decide (P x)), (decide (Q x)); try done; exfalso; specialize (Hpq x); set_solver.
Qed.

(** The queue starts with the roots. *)
Lemma initial_ready_roots nodes :
  well_formed nodes -> Workflow.initial_ready (inbound_counts nodes) nodes = Graph.roots nodes.
Proof.
  intros Hwf. unfold Workflow.initial_ready, Graph.roots. f_equal. apply filter_ext_elem.
  intros [x l] Hx. simpl. rewrite (inbound_counts_lookup _ _ l) by (done || apply Hwf).
  split; [|intros ->; done]. destruct l; [done|]. intros [= H].
Qed.

Lemma validate_acyclic_Ok w :
  well_formed (Workflow.graph w) ->
  (Workflow.validate_acyclic w = Ok tt <-> acyclic_graph (Workflow.graph w)) /\
  (forall e, Workflow.validate_acyclic w = Err e -> exn_kind e = DomainValidationError).
Proof.
  intros Hwf. unfold Workflow.validate_acyclic.
  destruct (dependents_table_total _ Hwf) as [m Hm]. rewrite Hm. cbn [mbind result_bind].
  rewrite initial_ready_roots by done.
  destruct (kahn_spec _ _ Hwf Hm) as (n & -> & Hn).
  assert (List.length (Workflow.graph w) = List.length (Workflow.steps w)) as Hlen
    by apply length_fmap.
  split.
  - rewrite fail_if_Ok, negb_false_iff, Nat.eqb_eq, <- Hlen. exact Hn.
  - intros e He. unfold fail_if in He. case_in He; [|done]. inv_ok. done.
Qed.

Lemma missing_dependencies_nil known s :
  Workflow.missing_dependencies known s = [] <->
  forall d, d ∈ WorkflowStep.needs s -> d ∈ known.
Proof.
  unfold Workflow.missing_dependencies, sort_strings.
  assert (forall l : list string, isort String.leb l = [] <-> l = []) as ->.
  { intros l. split; [|by intros ->]. intros H. apply Permutation_nil_r.
    rewrite <- H. symmetry. apply isort_perm. }
  split.
  - intros H d Hd. destruct (decide (d ∈ known)); [done|exfalso].
    assert (d ∈ remove_dups (filter (fun d => d ∉ known) (WorkflowStep.needs s))) as Hin
      by (apply elem_of_remove_dups, list_elem_of_filter; done).
    rewrite H in Hin. set_solver.
  - intros H. assert (filter (fun d => d ∉ known) (WorkflowStep.needs s) = []) as ->; [|done].
    destruct (filter _ _) as [|d l] eqn:Hf; [done|exfalso].
    assert (d ∈ filter (fun d => d ∉ known) (WorkflowStep.needs s)) as Hd by (rewrite Hf; set_solver).
    apply list_elem_of_filter in Hd as [Hd Hin]. eauto.
Qed.

Lemma check_output_Ok known n r :
  Workflow.check_output known (n, r) = Ok tt <->
  is_blank n = false /\
  exists text st f, r = VStr text /\ parse_node_reference text = Some (st, f) /\ st ∈ known.
Proof.
  unfold Workflow.check_output. rewrite then_Ok, require_non_empty_Ok.
  split; intros [Hb H]; (split; [done|]).
  - destruct r; try done. destruct (parse_node_reference s) as [[st f]|] eqn:Hp; [|done].
    apply fail_if_Ok in H. reflect_bools. naive_solver.
  - destruct H as (text & st & f & -> & -> & Hin). apply fail_if_Ok.
    by rewrite bool_decide_true.
Qed.

(** What [WorkflowStep.__post_init__] guarantees of an accepted step. *)
Lemma step_post_init_Ok s s' :
  WorkflowStep.post_init s = Ok s' ->
  is_identifier (WorkflowStep.id s') = true /\
  NoDup (WorkflowStep.needs s') /\ WorkflowStep.id s' ∉ WorkflowStep.needs s' /\
  0 < WorkflowStep.max_attempts s' /\ 0 < WorkflowStep.timeout_seconds s'.
Proof.
  unfold WorkflowStep.post_init. rewrite !then_Ok, !fail_if_Ok.
  intros (_ & Hid & Hnd & Hself & _ & Hlim & [= <-]). cbn.
  unfold WorkflowStep.check_limits in Hlim. rewrite !then_Ok, !fail_if_Ok in Hlim.
  destruct Hlim as (Ht & Hm & _). reflect_bools. done.
Qed.

Lemma check_dependencies_Ok known l :
  each_ok (Workflow.check_dependencies known) l = Ok tt <->
  forall s d, s ∈ l -> d ∈ WorkflowStep.needs s -> d ∈ known.
Proof.
  rewrite each_ok_Ok. unfold Workflow.check_dependencies. split.
  - intros H s d Hs. apply missing_dependencies_nil. specialize (H s Hs).
    apply fail_if_Ok in H. by reflect_bools.
  - intros H s Hs. apply fail_if_Ok. rewrite bool_decide_true; [done|].
    apply missing_dependencies_nil. eauto.
Qed.

(** On checked steps the constructor only raises validation errors. *)
Lemma post_init_raises w :
  (forall s, s ∈ Workflow.steps w -> NoDup (WorkflowStep.needs s)) ->
  raises_only DomainValidationError (Workflow.post_init w).
Proof.
  intros Hnd. unfold Workflow.post_init.
  do 5 (apply raises_bind; [by auto with reagent|intros _ _]).
  apply raises_bind; [by auto with reagent|intros [] Hu].
  apply raises_bind; [unfold Workflow.check_dependencies; raises_tac|intros [] Hd].
  apply fail_if_Ok in Hu. reflect_bools. rewrite check_dependencies_Ok in Hd.
  apply raises_bind; [|intros _ _; raises_tac].
  - intros e. apply validate_acyclic_Ok, graph_well_formed; done.
  - unfold Workflow.check_output. raises_tac.
Qed.

(** ** Properties *)

(** Given steps whose dependency lists have no duplicates (the
    constructor of [WorkflowStep] rejects the others), [Workflow] accepts
    exactly the definitions whose identifiers are set, whose schema version is
    the supported one, whose step identifiers are unique, whose dependencies
    exist and have a topological order, and whose outputs refer to a step; its
    worklist loop always ends, and every rejection is a
    [DomainValidationError]. *)
Theorem workflow_accepts_exactly_valid w :
  (forall s, s ∈ Workflow.steps w -> NoDup (WorkflowStep.needs s)) ->
  (is_ok (Workflow.post_init w) = true <-> valid_workflow w) /\
  (forall e, Workflow.post_init w = Err e -> exn_kind e = DomainValidationError).
Proof.
  intros Hnd. split; [|by apply post_init_raises].
  rewrite is_ok_exists. unfold Workflow.post_init. split.
  - intros [w' H]. rewrite !then_Ok, !fail_if_Ok, !require_non_empty_Ok, check_dependencies_Ok, each_ok_Ok in H.
    destruct H as (Hi & Hv & Hn & Hs & Hne & Hu & Hd & Ha & Ho & _). reflect_bools.
    split; try done.
    + by apply validate_acyclic_Ok; [apply graph_well_formed|].
    + intros n r Hin. apply check_output_Ok, Ho, Hin.
  - intros []. eexists. rewrite !then_Ok, !fail_if_Ok, !require_non_empty_Ok, check_dependencies_Ok, each_ok_Ok.
    rewrite !negb_false_iff, !bool_decide_eq_false, !bool_decide_eq_true, String.eqb_eq.
    repeat (split; [done|]). split; [|split; [|done]].
    + by apply validate_acyclic_Ok; [apply graph_well_formed|].
    + intros [n r] Hin. apply check_output_Ok. eauto.
Qed.

(** ** Witness *)

Definition sample_skill (id : string) (needs : list string) : WorkflowStep.t :=
  WorkflowStep.mk id SKILL needs (Some "echo@1.0.0") [] 300 2 "exponential"
    (S754_finite false 4503599627370496 (-52)) (S754_finite false 8444249301319680 (-48))
    "after_success" None.

Definition sample_workflow (back : list string) : Workflow.t :=
  Workflow.mk "wf" "1" "Sample"
    [sample_skill "draft" ["plan"]; sample_skill "plan" back; sample_skill "check" ["draft"; "plan"]]
    "reagent/v1alpha1" [] [("report", VStr "${nodes.check.outputs.text}")].

Lemma workflow_accepts_exactly_valid_witness :
  valid_workflow (sample_workflow []) /\ ~ valid_workflow (sample_workflow ["check"]).
Proof.
  assert (forall back s, s ∈ Workflow.steps (sample_workflow back) -> NoDup back ->
            NoDup (WorkflowStep.needs s)) as Hnd.
  { intros back s Hs Hb. cbn in Hs. rewrite !elem_of_cons, elem_of_nil in Hs.
    destruct Hs as [-> |[-> |[-> |[]]]]; cbn; [|done|]; apply (bool_decide_unpack _); reflexivity. }
  split.
  - apply (workflow_accepts_exactly_valid (sample_workflow [])); [|reflexivity].
    intros s Hs. apply (Hnd _ _ Hs). constructor.
  - intros H. apply (workflow_accepts_exactly_valid (sample_workflow ["check"])) in H; [discriminate H|].
    intros s Hs. apply (Hnd _ _ Hs). apply (bool_decide_unpack _); reflexivity.
Defined.
