(* ===== verification/Checkpoint.v ===== *)
(** [backend/domain/models/checkpoint.py]: the integrity-protected recovery
    point, and what its hash and its round trip through JSON guarantee. *)
From S2P Require Import Prelude Errors Text Float Value Json Sha256 Lifecycle.
Local Open Scope string_scope.
Local Open Scope list_scope.
Local Open Scope Z_scope.

Module Checkpoint.
Record t := mk {
  id : string;
  workflow_run_id : string;
  agent_session_id : string;
  sequence : Z;
  state_json : string;
  state_hash : string;
  created_at : datetime;
  parent_id : option string
}.

Definition post_init (self : t) : res t :=
  _ ← require_all_non_empty
        [(id self, "Checkpoint.id"); (workflow_run_id self, "Checkpoint.workflow_run_id");
         (agent_session_id self, "Checkpoint.agent_session_id");
         (state_json self, "Checkpoint.state_json");
         (state_hash self, "Checkpoint.state_hash")];
  _ ← fail_if (sequence self <=? 0)
        (Exn DomainValidationError "Checkpoint.sequence must be positive");
  _ ← require_aware (created_at self) "Checkpoint.created_at";
  Ok self.

Definition create (checkpoint_id workflow_run_id agent_session_id : string) (sequence : Z)
    (state : mapping) (created_at : datetime) (parent_id : option string) : res t :=
  state_json ← json_dumps (VDict false state);
  let state_hash := sha256_hex state_json in
  post_init (mk checkpoint_id workflow_run_id agent_session_id sequence state_json state_hash
               created_at parent_id).

Definition verify_integrity (self : t) : res unit :=
  fail_if (negb (String.eqb (sha256_hex (state_json self)) (state_hash self)))
    (Exn CheckpointIntegrityError ("Checkpoint " +:+ id self +:+ " failed integrity verification")).

Definition restore_state (self : t) : res mapping :=
  _ ← verify_integrity self;
  state ← json_loads (state_json self);
  match state with
  | VDict _ d => Ok d
  | _ => Err (Exn CheckpointIntegrityError
                ("Checkpoint " +:+ id self +:+ " does not contain an object state"))
  end.
End Checkpoint.

(** ** Creation *)

Lemma checkpoint_create_Ok i r a n st ts p c :
  Checkpoint.create i r a n st ts p = Ok c ->
  exists js, json_dumps (VDict false st) = Ok js /\
    c = Checkpoint.mk i r a n js (sha256_hex js) ts p /\
    0 < n /\ is_aware ts = true /\ is_blank i = false.
Proof.
  unfold Checkpoint.create. rewrite bind_Ok. intros (js & Hj & H). exists js. split; [done|].
  unfold Checkpoint.post_init in H. rewrite !then_Ok, require_all_non_empty_Ok, fail_if_Ok, require_aware_Ok in H.
  cbn in H. destruct H as (Hne & Hn & Ha & [= <-]). reflect_bools. split; [done|].
  split; [done|]. split; [done|]. eapply Hne. left.
Qed.

Lemma checkpoint_create_verifies i r a n st ts p c :
  Checkpoint.create i r a n st ts p = Ok c -> Checkpoint.verify_integrity c = Ok tt.
Proof.
  intros (js & _ & -> & _)%checkpoint_create_Ok. unfold Checkpoint.verify_integrity. cbn.
  by rewrite String.eqb_refl.
Qed.

(** ** Properties *)

(** C40: a checkpoint restores the state it was created from: hash and
    serialisation round-trip, the keys come back sorted, floats and strings
    are exactly those written, and tuples come back as lists. *)
Theorem checkpoint_round_trip i r a n st ts p c :
  json_ready (VDict false st) = true ->
  Checkpoint.create i r a n st ts p = Ok c ->
  exists d, Checkpoint.restore_state c = Ok d /\ VDict false d = canon (VDict false st).
Proof.
  intros Hr Hc. pose proof (checkpoint_create_verifies _ _ _ _ _ _ _ _ Hc) as Hv.
  apply checkpoint_create_Ok in Hc as (js & Hj & -> & _).
  unfold Checkpoint.restore_state. rewrite Hv. cbn [mbind result_bind].
  rewrite (loads_dumps (VDict false st)) by done. cbn. eauto.
Qed.

(** Integrity is exactly agreement with the hash: the state of a
    checkpoint is read only when the SHA-256 digest of its text is the stored
    digest, so a changed text is read only if the two texts collide, and a
    text that is not a JSON object is refused. *)
Theorem checkpoint_integrity c :
  (sha256_hex (Checkpoint.state_json c) <> Checkpoint.state_hash c ->
     exists m, Checkpoint.restore_state c = Err (Exn CheckpointIntegrityError m)) /\
  (forall d, Checkpoint.restore_state c = Ok d ->
     sha256_hex (Checkpoint.state_json c) = Checkpoint.state_hash c /\
     exists b, json_loads (Checkpoint.state_json c) = Ok (VDict b d)).
Proof.
  unfold Checkpoint.restore_state, Checkpoint.verify_integrity. split.
  - intros H%String.eqb_neq. rewrite H. cbn. eauto.
  - intros d. rewrite then_Ok, fail_if_Ok, bind_Ok. intros (H & v & Hl & Hv). reflect_bools.
    split; [done|]. destruct v; try done. inv_ok. eauto.
Qed.

(** ** Witnesses *)

Definition sample_state : mapping :=
  [("workflow_run", VDict false [("status", VStr "RUNNING"); ("row_version", VInt 3)]);
   ("contract_version", VInt 1); ("step_runs", VList [VStr "a"; VNone; VBool true])].

Lemma checkpoint_round_trip_witness :
  exists c d, Checkpoint.create "cp" "run" "agent" 1 sample_state (epoch 5) None = Ok c /\
    Checkpoint.restore_state c = Ok d /\
    VDict false d = canon (VDict false sample_state).
Proof.
  destruct (Checkpoint.create "cp" "run" "agent" 1 sample_state (epoch 5) None) as [c|e] eqn:Hc.
  - exists c. destruct (checkpoint_round_trip "cp" "run" "agent" 1 sample_state (epoch 5) None c)
      as (d & Hd & Hd'); [vm_compute; reflexivity|exact Hc|].
    exists d. exact (conj eq_refl (conj Hd Hd')).
  - exfalso. vm_compute in Hc. discriminate Hc.
Defined.

Lemma checkpoint_integrity_witness :
  exists m, Checkpoint.restore_state (Checkpoint.mk "cp" "run" "agent" 1 "{}" "0000" (epoch 0) None)
    = Err (Exn CheckpointIntegrityError m).
Proof.
  apply (proj1 (checkpoint_integrity (Checkpoint.mk "cp" "run" "agent" 1 "{}" "0000" (epoch 0) None))).
  vm_compute. discriminate.
Defined.
