(* ===== verification/Coordinator.v ===== *)
(** [backend/domain/services/execution_coordinator.py]: the domain service that
    moves a workflow run, its agent session, its step attempts and its
    checkpoints together.  Entities mutated in place live in the state of the
    monad, so what an operation changed before it raised is kept. *)
From S2P Require Import Prelude Errors Text Float Value Json Sha256 Lifecycle Workflow Checkpoint.
From Stdlib Require Import SpecFloat.
Local Open Scope string_scope.
Local Open Scope list_scope.
Local Open Scope Z_scope.

Definition mismatch {A} (message : string) : res A := Err (Exn CheckpointMismatchError message).

(** ** [ExecutionState] *)

Module ExecutionState.
Record t := mk {
  workflow : Workflow.t;
  workflow_run : WorkflowRun.t;
  agent_session : AgentSession.t;
  step_runs : list StepRun.t;
  checkpoints : list Checkpoint.t
}.

(** [max(attempts, key=lambda step_run: step_run.attempt)]: the position of
    the first of the largest attempts of a step. *)
Fixpoint latest_from (step_id : string) (i : nat) (l : list StepRun.t)
    (best : option (nat * StepRun.t)) : option (nat * StepRun.t) :=
  match l with
  | [] => best
  | s :: l' =>
      latest_from step_id (S i) l'
        (if String.eqb (StepRun.step_id s) step_id then
           match best with
           | Some (_, b) => if StepRun.attempt b <? StepRun.attempt s then Some (i, s) else best
           | None => Some (i, s)
           end
         else best)
  end.

(** A step attempt is handled by reference: its position in [step_runs]
    stands for the object. *)
Definition latest_step_run (self : t) (step_id : string) : res (nat * StepRun.t) :=
  match latest_from step_id 0 (step_runs self) None with
  | Some found => Ok found
  | None => Err (Exn StepRunNotFoundError ("No StepRun exists for workflow step " +:+ step_id))
  end.

Definition current_step_runs (self : t) : res (list (nat * StepRun.t)) :=
  map_ok (fun step => latest_step_run self (WorkflowStep.id step)) (Workflow.steps (workflow self)).

Definition latest_checkpoint (self : t) : res Checkpoint.t :=
  match last (checkpoints self) with
  | Some c => Ok c
  | None => mismatch "Execution has no checkpoint"
  end.
End ExecutionState.

(** What the injected clock and identifier factory have been asked so far. *)
Record env := Env { ticks : nat; ids_given : nat }.
Record world := World { environment : env; execution : ExecutionState.t }.

(** ** Python comparisons used on restored states *)

(** [v.get(key)] where [v] should be a dictionary. *)
Definition py_get (v : value) (key : string) : res (option value) :=
  match v with
  | VDict _ d => Ok (dict_get key d)
  | _ => Err (Exn PyAttributeError "get")
  end.

(** [v == text] *)
Definition equals_str (v : option value) (text : string) : bool :=
  match v with Some (VStr s) => String.eqb s text | _ => false end.

(** [v == n]: Python compares booleans and floats with integers by value. *)
Definition equals_int (v : option value) (n : Z) : bool :=
  match v with
  | Some (VInt z) => z =? n
  | Some (VBool b) => Z.b2z b =? n
  | Some (VFloat x) => float_equals_int x n
  | _ => false
  end.

(** ** The operations *)

Section coordinator.
Context (clock : nat -> datetime) (id_factory : nat -> string -> string).

Definition tick : M exn env datetime :=
  fun e => (Ok (clock (ticks e)), Env (S (ticks e)) (ids_given e)).
Definition new_id (prefix : string) : M exn env string :=
  fun e => (Ok (id_factory (ids_given e) prefix), Env (ticks e) (S (ids_given e))).

Definition on_env {A} (m : M exn env A) : M exn world A :=
  fun w => let '(r, e) := m (environment w) in (r, World e (execution w)).
Definition now : M exn world datetime := on_env tick.
Definition reads {A} (f : ExecutionState.t -> res A) : M exn world A :=
  fun w => (f (execution w), w).

Definition edit_execution (f : ExecutionState.t -> res ExecutionState.t) : M exn world unit :=
  fun w => match f (execution w) with
           | Ok x => (Ok tt, World (environment w) x)
           | Err e => (Err e, w)
           end.

(** [execution.workflow_run.transition_to(...)] *)
Definition run_to (target : WorkflowRunStatus.t) (at_ : datetime)
    (reason code : option string) : M exn world unit :=
  edit_execution (fun x =>
    r ← WorkflowRun.transition_to at_ (ExecutionState.workflow_run x) target (Some at_) reason code;
    Ok (ExecutionState.mk (ExecutionState.workflow x) r (ExecutionState.agent_session x)
          (ExecutionState.step_runs x) (ExecutionState.checkpoints x))).

(** [execution.agent_session.transition_to(...)] *)
Definition session_to (target : AgentSessionStatus.t) (at_ : datetime) : M exn world unit :=
  edit_execution (fun x =>
    a ← AgentSession.transition_to at_ (ExecutionState.agent_session x) target (Some at_);
    Ok (ExecutionState.mk (ExecutionState.workflow x) (ExecutionState.workflow_run x) a
          (ExecutionState.step_runs x) (ExecutionState.checkpoints x))).

(** [step_run.transition_to(...)] on the attempt at position [i]. *)
Definition step_to (i : nat) (target : StepRunStatus.t) (at_ : datetime)
    (inputs outputs : option mapping) (code : option string) : M exn world unit :=
  edit_execution (fun x =>
    match ExecutionState.step_runs x !! i with
    | None => Err (Exn PyIndexError "step_runs")
    | Some s =>
        s' ← StepRun.transition_to at_ s target (Some at_) inputs outputs code;
        Ok (ExecutionState.mk (ExecutionState.workflow x) (ExecutionState.workflow_run x)
              (ExecutionState.agent_session x) (<[i := s']> (ExecutionState.step_runs x))
              (ExecutionState.checkpoints x))
    end).

Definition append_step_run (s : StepRun.t) : M exn world unit :=
  edit_execution (fun x =>
    Ok (ExecutionState.mk (ExecutionState.workflow x) (ExecutionState.workflow_run x)
          (ExecutionState.agent_session x) (ExecutionState.step_runs x ++ [s])
          (ExecutionState.checkpoints x))).

Definition append_checkpoint (c : Checkpoint.t) : M exn world unit :=
  edit_execution (fun x =>
    Ok (ExecutionState.mk (ExecutionState.workflow x) (ExecutionState.workflow_run x)
          (ExecutionState.agent_session x) (ExecutionState.step_runs x)
          (ExecutionState.checkpoints x ++ [c]))).

Definition set_run_outputs (o : mapping) : M exn world unit :=
  edit_execution (fun x =>
    Ok (ExecutionState.mk (ExecutionState.workflow x)
          (WorkflowRun.set_outputs (ExecutionState.workflow_run x) o)
          (ExecutionState.agent_session x) (ExecutionState.step_runs x)
          (ExecutionState.checkpoints x))).

Definition new_step_run (run : WorkflowRun.t) (step_id : string) (attempt : Z)
    (inputs : mapping) (timestamp : datetime) : M exn env StepRun.t :=
  i ← new_id "step_run";
  lift_result (StepRun.post_init
    (StepRun.mk i (WorkflowRun.id run) step_id attempt
       (WorkflowRun.id run +:+ ":" +:+ step_id +:+ ":" +:+ int_str attempt)
       inputs StepRunStatus.CREATED [] None 0 timestamp timestamp None None)).

Definition str_or_none (o : option string) : value :=
  match o with Some s => VStr s | None => VNone end.

Definition step_entry (s : StepRun.t) : mapping :=
  [("id", VStr (StepRun.id s)); ("step_id", VStr (StepRun.step_id s));
   ("attempt", VInt (StepRun.attempt s));
   ("status", VStr (StepRunStatus.value (StepRun.status s)));
   ("row_version", VInt (StepRun.row_version s));
   ("outputs", VDict false (thaw_mapping (StepRun.outputs s)));
   ("error_code", str_or_none (StepRun.error_code s))].

Definition workflow_entry (w : Workflow.t) : mapping :=
  [("id", VStr (Workflow.id w)); ("version", VStr (Workflow.version w));
   ("schema_version", VStr (Workflow.schema_version w))].

Definition run_entry (r : WorkflowRun.t) : mapping :=
  [("id", VStr (WorkflowRun.id r)); ("project_id", VStr (WorkflowRun.project_id r));
   ("status", VStr (WorkflowRunStatus.value (WorkflowRun.status r)));
   ("row_version", VInt (WorkflowRun.row_version r));
   ("wait_reason", str_or_none (WorkflowRun.wait_reason r));
   ("error_code", str_or_none (WorkflowRun.error_code r));
   ("outputs", VDict false (thaw_mapping (WorkflowRun.outputs r)))].

Definition session_entry (a : AgentSession.t) : mapping :=
  [("id", VStr (AgentSession.id a));
   ("status", VStr (AgentSessionStatus.value (AgentSession.status a)));
   ("row_version", VInt (AgentSession.row_version a))].

Definition snapshot (x : ExecutionState.t) : mapping :=
  [("contract_version", VInt 1);
   ("workflow", VDict false (workflow_entry (ExecutionState.workflow x)));
   ("workflow_run", VDict false (run_entry (ExecutionState.workflow_run x)));
   ("agent_session", VDict false (session_entry (ExecutionState.agent_session x)));
   ("step_runs", VList ((fun s => VDict false (step_entry s)) <$> ExecutionState.step_runs x))].

Definition create_checkpoint : M exn world Checkpoint.t :=
  i ← on_env (new_id "checkpoint");
  x ← gets execution;
  ts ← now;
  c ← lift_result (Checkpoint.create i (WorkflowRun.id (ExecutionState.workflow_run x))
         (AgentSession.id (ExecutionState.agent_session x))
         (Z.of_nat (List.length (ExecutionState.checkpoints x)) + 1) (snapshot x) ts
         (Checkpoint.id <$> last (ExecutionState.checkpoints x)));
  append_checkpoint c ;;
  mret c.

(** *** Creation *)

Definition validate_input_type (name : string) (v : value) (expected_type : string) : res unit :=
  let known :=
    match v with
    | VStr _ => Some (expected_type =? "string")%string
    | VInt _ => Some ((expected_type =? "integer") || (expected_type =? "number"))%string
    | VFloat _ => Some (expected_type =? "number")%string
    | VBool _ => Some (expected_type =? "boolean")%string
    | VList _ | VTuple _ => Some (expected_type =? "array")%string
    | VDict _ _ => Some (expected_type =? "object")%string
    | VNone => Some false
    end in
  _ ← fail_if (negb (bool_decide (expected_type ∈
                ["string"; "integer"; "number"; "boolean"; "array"; "object"])))
        (validation_error ("Unsupported input type " +:+ py_repr expected_type +:+ " for " +:+ name));
  _ ← fail_if (bool_decide (expected_type ∈ ["integer"; "number"])
               && match v with VBool _ => true | _ => false end)
        (validation_error ("Workflow input " +:+ name +:+ " must be " +:+ expected_type
                           +:+ ", not boolean"));
  fail_if (match known with Some b => negb b | None => true end)
    (validation_error ("Workflow input " +:+ name +:+ " must be of type " +:+ expected_type)).

(** One entry of the input schema: whether it is required, and its type. *)
Definition input_spec (specification : value) : bool * option string :=
  match specification with
  | VDict _ d =>
      (match dict_get "required" d with Some (VBool false) => false | _ => true end,
       match dict_get "type" d with Some (VStr s) => Some s | _ => None end)
  | _ => (true, None)
  end.

Definition validate_inputs (workflow : Workflow.t) (inputs : value) : res unit :=
  match inputs with
  | VDict _ given =>
      each_ok (fun '(input_name, specification) =>
        let '(is_required, expected_type) := input_spec specification in
        _ ← fail_if (is_required && negb (dict_has input_name given))
              (validation_error ("Missing required workflow input: " +:+ input_name));
        match dict_get input_name given, expected_type with
        | Some v, Some ty => validate_input_type input_name v ty
        | _, _ => Ok tt
        end) (Workflow.input_schema workflow)
  | _ => Err (validation_error "Workflow inputs must be a mapping")
  end.

Definition mapping_of (v : value) : mapping := match v with VDict _ d => d | _ => [] end.

Fixpoint new_step_runs (run : WorkflowRun.t) (steps : list WorkflowStep.t) (timestamp : datetime) :
    M exn env (list StepRun.t) :=
  match steps with
  | [] => mret []
  | step :: steps' =>
      s ← new_step_run run (WorkflowStep.id step) 1 [] timestamp;
      l ← new_step_runs run steps' timestamp;
      mret (s :: l)
  end.

(** [self.create_checkpoint(execution)] on the new execution, then return it. *)
Definition first_checkpoint (x : ExecutionState.t) : M exn env ExecutionState.t :=
  fun e =>
    match create_checkpoint (World e x) with
    | (Ok _, w) => (Ok (execution w), environment w)
    | (Err err, w) => (Err err, environment w)
    end.

Definition create_workflow_run (workflow : Workflow.t)
    (project_id actor_user_id idempotency_key : string) (inputs : value)
    (agent_profile_ref : string) : M exn env ExecutionState.t :=
  lift_result (validate_inputs workflow inputs) ;;
  timestamp ← tick;
  run_id ← new_id "run";
  run ← lift_result (WorkflowRun.post_init
          (WorkflowRun.mk run_id project_id (Workflow.id workflow) (Workflow.version workflow)
             actor_user_id idempotency_key (mapping_of inputs) WorkflowRunStatus.CREATED []
             None None 0 timestamp timestamp));
  session_id ← new_id "agent";
  session ← lift_result (AgentSession.post_init
          (AgentSession.mk session_id project_id (WorkflowRun.id run) agent_profile_ref "primary"
             AgentSessionStatus.CREATED [] 0 timestamp timestamp));
  step_runs ← new_step_runs run (Workflow.steps workflow) timestamp;
  first_checkpoint (ExecutionState.mk workflow run session step_runs []).

(** *** Transitions *)

Definition start_execution : M exn world Checkpoint.t :=
  timestamp ← now;
  run_to WorkflowRunStatus.INITIALIZING timestamp None None ;;
  session_to AgentSessionStatus.INITIALIZING timestamp ;;
  run_to WorkflowRunStatus.RUNNING timestamp None None ;;
  session_to AgentSessionStatus.ACTIVE timestamp ;;
  create_checkpoint.

Definition require_running (action : string) : M exn world unit :=
  x ← gets execution;
  let run := ExecutionState.workflow_run x in
  raise_if (negb (bool_decide (WorkflowRun.status run = WorkflowRunStatus.RUNNING)))
    (invalid_transition "WorkflowRun" (WorkflowRun.id run)
       (WorkflowRunStatus.value (WorkflowRun.status run)) action).

(** [error_code or "STEP_FAILED"] *)
Definition or_default (o : option string) (d : string) : string :=
  match o with
  | Some s => if String.eqb s "" then d else s
  | None => d
  end.

Definition step_failed (i : nat) (step_id : string) (retryable : bool)
    (error_code : option string) (timestamp : datetime) : M exn world unit :=
  step ← reads (fun x => Workflow.get_step (ExecutionState.workflow x) step_id);
  attempt ← reads (fun x => match ExecutionState.step_runs x !! i with
                            | Some s => Ok (StepRun.attempt s)
                            | None => Err (Exn PyIndexError "step_runs")
                            end);
  if retryable && (attempt <? WorkflowStep.max_attempts step) then
    run_to WorkflowRunStatus.RETRY_SCHEDULED timestamp (Some ("retry:" +:+ step_id)) None ;;
    session_to AgentSessionStatus.WAITING timestamp
  else
    run_to WorkflowRunStatus.FAILED timestamp None (Some (or_default error_code "STEP_FAILED")) ;;
    session_to AgentSessionStatus.FAILED timestamp.

(** The canonical two-step cancellation of run and session. *)
Definition cancel_both (timestamp : datetime) : M exn world unit :=
  run_to WorkflowRunStatus.CANCELLING timestamp None None ;;
  session_to AgentSessionStatus.CANCELLING timestamp ;;
  run_to WorkflowRunStatus.CANCELLED timestamp None None ;;
  session_to AgentSessionStatus.CANCELLED timestamp.

Definition checkpointed (m : M exn world unit) : M exn world (option Checkpoint.t) :=
  m ;; c ← create_checkpoint; mret (Some c).

Definition update_step_state (step_id : string) (target_status : StepRunStatus.t)
    (outputs : option mapping) (error_code : option string) (retryable : bool) :
    M exn world (option Checkpoint.t) :=
  require_running ("UPDATE_STEP_" +:+ StepRunStatus.value target_status) ;;
  timestamp ← now;
  found ← reads (fun x => ExecutionState.latest_step_run x step_id);
  step_to found.1 target_status timestamp None outputs error_code ;;
  match target_status with
  | StepRunStatus.WAITING_APPROVAL =>
      checkpointed (run_to WorkflowRunStatus.WAITING_FOR_APPROVAL timestamp
                      (Some ("approval:" +:+ step_id)) None ;;
                    session_to AgentSessionStatus.WAITING timestamp)
  | StepRunStatus.FAILED =>
      checkpointed (step_failed found.1 step_id retryable error_code timestamp)
  | StepRunStatus.CANCELLED => checkpointed (cancel_both timestamp)
  | StepRunStatus.COMPLETED => checkpointed (mret tt)
  | _ => mret None
  end.

Definition mark_step_ready (step_id : string) (inputs : option mapping) (checkpoint : bool) :
    M exn world (option Checkpoint.t) :=
  require_running "MARK_STEP_READY" ;;
  found ← reads (fun x => ExecutionState.latest_step_run x step_id);
  timestamp ← now;
  step_to found.1 StepRunStatus.READY timestamp inputs None None ;;
  if checkpoint then checkpointed (mret tt) else mret None.

Definition succeeded (s : StepRunStatus.t) : bool :=
  match s with StepRunStatus.COMPLETED | StepRunStatus.SKIPPED => true | _ => false end.

Definition complete_workflow (outputs : mapping) : M exn world Checkpoint.t :=
  current ← reads ExecutionState.current_step_runs;
  raise_if (negb (forallb (fun f => succeeded (StepRun.status f.2)) current))
    (validation_error "Workflow cannot complete while a current step is non-successful") ;;
  timestamp ← now;
  set_run_outputs outputs ;;
  run_to WorkflowRunStatus.COMPLETED timestamp None None ;;
  session_to AgentSessionStatus.COMPLETED timestamp ;;
  create_checkpoint.

(** [if not step_run.status.is_terminal: step_run.transition_to(CANCELLED)] *)
Definition cancel_step (timestamp : datetime) (found : nat * StepRun.t) : M exn world unit :=
  x ← gets execution;
  match ExecutionState.step_runs x !! found.1 with
  | Some s => if StepRunStatus.is_terminal (StepRun.status s) then mret tt
              else step_to found.1 StepRunStatus.CANCELLED timestamp None None None
  | None => raise (Exn PyIndexError "step_runs")
  end.

Definition fail_execution (error_code : string) : M exn world Checkpoint.t :=
  timestamp ← now;
  current ← reads ExecutionState.current_step_runs;
  for_each (cancel_step timestamp) current ;;
  run_to WorkflowRunStatus.FAILED timestamp None (Some error_code) ;;
  session_to AgentSessionStatus.FAILED timestamp ;;
  create_checkpoint.

Definition cancel_execution : M exn world Checkpoint.t :=
  x ← gets execution;
  raise_if (WorkflowRunStatus.is_terminal (WorkflowRun.status (ExecutionState.workflow_run x)))
    (Exn ExecutionNotResumableError
       ("Terminal WorkflowRun " +:+ WorkflowRun.id (ExecutionState.workflow_run x)
        +:+ " cannot be cancelled")) ;;
  timestamp ← now;
  current ← reads ExecutionState.current_step_runs;
  for_each (cancel_step timestamp) current ;;
  cancel_both timestamp ;;
  create_checkpoint.

(** *** Resuming *)

Definition steps_by_id (items : list value) : list (string * mapping) :=
  foldl (fun acc item =>
    match item with
    | VDict _ d => match dict_get "id" d with
                   | Some (VStr i) => dict_set i d acc
                   | _ => acc
                   end
    | _ => acc
    end) [] items.

Definition check_step_state (by_id : list (string * mapping)) (s : StepRun.t) : res unit :=
  match dict_get (StepRun.id s) by_id with
  | None => mismatch ("Checkpoint is missing StepRun " +:+ StepRun.id s)
  | Some d =>
      fail_if (negb (equals_str (dict_get "status" d) (StepRunStatus.value (StepRun.status s)))
               || negb (equals_int (dict_get "row_version" d) (StepRun.row_version s)))
        (Exn CheckpointMismatchError
           ("Checkpoint StepRun " +:+ StepRun.id s +:+ " state is stale"))
  end.

Definition check_field (state : value) (key : string) (test : option value -> bool)
    (message : string) : res unit :=
  v ← py_get state key;
  fail_if (negb (test v)) (Exn CheckpointMismatchError message).

Definition validate_checkpoint (x : ExecutionState.t) (c : Checkpoint.t) : res mapping :=
  let w := ExecutionState.workflow x in
  let r := ExecutionState.workflow_run x in
  let a := ExecutionState.agent_session x in
  latest ← ExecutionState.latest_checkpoint x;
  _ ← fail_if (negb (String.eqb (Checkpoint.id c) (Checkpoint.id latest)))
        (Exn CheckpointMismatchError "Only the latest checkpoint may be resumed");
  _ ← fail_if (negb (String.eqb (Checkpoint.workflow_run_id c) (WorkflowRun.id r)))
        (Exn CheckpointMismatchError "Checkpoint belongs to another WorkflowRun");
  _ ← fail_if (negb (String.eqb (Checkpoint.agent_session_id c) (AgentSession.id a)))
        (Exn CheckpointMismatchError "Checkpoint belongs to another AgentSession");
  state ← Checkpoint.restore_state c;
  let workflow_state := default (VDict false []) (dict_get "workflow" state) in
  let run_state := default (VDict false []) (dict_get "workflow_run" state) in
  let session_state := default (VDict false []) (dict_get "agent_session" state) in
  _ ← check_field workflow_state "id" (fun v => equals_str v (Workflow.id w))
        "Checkpoint pins another Workflow version";
  _ ← check_field workflow_state "version" (fun v => equals_str v (Workflow.version w))
        "Checkpoint pins another Workflow version";
  _ ← check_field run_state "id" (fun v => equals_str v (WorkflowRun.id r))
        "Checkpoint WorkflowRun state is stale";
  _ ← check_field run_state "status"
        (fun v => equals_str v (WorkflowRunStatus.value (WorkflowRun.status r)))
        "Checkpoint WorkflowRun state is stale";
  _ ← check_field run_state "row_version" (fun v => equals_int v (WorkflowRun.row_version r))
        "Checkpoint WorkflowRun version is stale";
  _ ← check_field session_state "id" (fun v => equals_str v (AgentSession.id a))
        "Checkpoint AgentSession state is stale";
  _ ← check_field session_state "status"
        (fun v => equals_str v (AgentSessionStatus.value (AgentSession.status a)))
        "Checkpoint AgentSession state is stale";
  _ ← check_field session_state "row_version" (fun v => equals_int v (AgentSession.row_version a))
        "Checkpoint AgentSession version is stale";
  match dict_get "step_runs" state with
  | Some (VList items) =>
      let by_id := steps_by_id items in
      _ ← fail_if (negb (List.length by_id =? List.length (ExecutionState.step_runs x))%nat)
            (Exn CheckpointMismatchError "Checkpoint StepRun collection is stale");
      _ ← each_ok (check_step_state by_id) (ExecutionState.step_runs x);
      Ok state
  | _ => mismatch "Checkpoint has no valid StepRun state list"
  end.

Definition step_with_status (x : ExecutionState.t) (status : StepRunStatus.t) :
    res (nat * StepRun.t) :=
  current ← ExecutionState.current_step_runs x;
  match filter (fun f => StepRun.status f.2 = status) current with
  | [found] => Ok found
  | l => mismatch ("Expected one current step in " +:+ StepRunStatus.value status +:+ "; found "
                   +:+ int_str (Z.of_nat (List.length l)))
  end.

(** The retry attempt both branches of [resume_from_checkpoint] append. *)
Definition append_retry (failed : StepRun.t) (step_id : string) (timestamp : datetime) :
    M exn world (option nat) :=
  x ← gets execution;
  retry ← on_env (new_step_run (ExecutionState.workflow_run x) step_id (StepRun.attempt failed + 1)
                   (thaw_mapping (StepRun.inputs failed)) timestamp);
  ready ← lift_result (StepRun.transition_to timestamp retry StepRunStatus.READY (Some timestamp)
                         None None None);
  append_step_run ready ;;
  create_checkpoint ;;
  mret (Some (List.length (ExecutionState.step_runs x))).

Definition resume_both (timestamp : datetime) : M exn world unit :=
  run_to WorkflowRunStatus.RUNNING timestamp None None ;;
  session_to AgentSessionStatus.ACTIVE timestamp.

Definition resume_approval (timestamp : datetime) : M exn world (option nat) :=
  waiting ← reads (fun x => step_with_status x StepRunStatus.WAITING_APPROVAL);
  resume_both timestamp ;;
  step_to waiting.1 StepRunStatus.RUNNING timestamp None None None ;;
  create_checkpoint ;;
  mret (Some waiting.1).

(** The step named by the [retry:] wait reason of the restored state. *)
Definition retry_step_id (state : mapping) : res string :=
  run_state ← match dict_get "workflow_run" state with
              | Some v => Ok v
              | None => Err (Exn PyKeyError "workflow_run")
              end;
  reason ← py_get run_state "wait_reason";
  match reason with
  | Some (VStr s) =>
      if starts_with "retry:" s then Ok (removeprefix "retry:" s)
      else mismatch "Retry checkpoint does not identify the failed workflow step"
  | _ => mismatch "Retry checkpoint does not identify the failed workflow step"
  end.

Definition resume_retry (state : mapping) (timestamp : datetime) : M exn world (option nat) :=
  step_id ← lift_result (retry_step_id state);
  failed ← reads (fun x => ExecutionState.latest_step_run x step_id);
  raise_if (negb (bool_decide (StepRun.status failed.2 = StepRunStatus.FAILED)))
    (Exn CheckpointMismatchError ("Retry checkpoint step " +:+ step_id +:+ " is not in FAILED state")) ;;
  step ← reads (fun x => Workflow.get_step (ExecutionState.workflow x) step_id);
  raise_if (WorkflowStep.max_attempts step <=? StepRun.attempt failed.2)
    (Exn ExecutionNotResumableError ("Step " +:+ step_id +:+ " has exhausted its retry attempts")) ;;
  resume_both timestamp ;;
  append_retry failed.2 step_id timestamp.

Definition resume_interrupted (timestamp : datetime) : M exn world (option nat) :=
  current ← reads ExecutionState.current_step_runs;
  match filter (fun f => StepRun.status f.2 = StepRunStatus.RUNNING) current with
  | [] => mret None
  | [interrupted] =>
      let step_id := StepRun.step_id interrupted.2 in
      step ← reads (fun x => Workflow.get_step (ExecutionState.workflow x) step_id);
      step_to interrupted.1 StepRunStatus.FAILED timestamp None None (Some "INTERRUPTED") ;;
      if WorkflowStep.max_attempts step <=? StepRun.attempt interrupted.2 then
        run_to WorkflowRunStatus.FAILED timestamp None (Some "INTERRUPTED_RETRY_EXHAUSTED") ;;
        session_to AgentSessionStatus.FAILED timestamp ;;
        create_checkpoint ;;
        raise (Exn ExecutionNotResumableError
                 ("Interrupted step " +:+ step_id +:+ " has no retry remaining"))
      else append_retry interrupted.2 step_id timestamp
  | _ => raise (Exn CheckpointMismatchError "V1 checkpoint contains more than one active step")
  end.

(** The returned attempt is given by its position in [step_runs]. *)
Definition resume_from_checkpoint (c : Checkpoint.t) : M exn world (option nat) :=
  state ← reads (fun x => validate_checkpoint x c);
  timestamp ← now;
  run_status ← gets (fun w => WorkflowRun.status (ExecutionState.workflow_run (execution w)));
  match run_status with
  | WorkflowRunStatus.WAITING_FOR_APPROVAL => resume_approval timestamp
  | WorkflowRunStatus.WAITING_FOR_INPUT =>
      resume_both timestamp ;; create_checkpoint ;; mret None
  | WorkflowRunStatus.RETRY_SCHEDULED => resume_retry state timestamp
  | WorkflowRunStatus.RUNNING => resume_interrupted timestamp
  | s => raise (Exn ExecutionNotResumableError
                  ("WorkflowRun in " +:+ WorkflowRunStatus.value s
                   +:+ " cannot resume from a checkpoint"))
  end.
End coordinator.
