(* ===== verification/CoordinatorFacts.v ===== *)
(** The invariants of the domain coordinator: every operation, whether it
    returns or raises, keeps the run and its session in step, only ever
    extends the history, and keeps the attempts of a step numbered and
    bounded. *)
From S2P Require Import Prelude Errors Text Float Value Json Sha256 Lifecycle Workflow Checkpoint Coordinator.
From Stdlib Require Import SpecFloat.
Local Open Scope string_scope.
Local Open Scope list_scope.
Local Open Scope Z_scope.

Import ExecutionState.

(** ** Computations that relate the states before and after *)

Section respects.
Context {X : Type} (R : relation ExecutionState.t) `{!PreOrder R}.

(** [m] moves the execution along [R], whatever its outcome. *)
Definition respects {A} (m : M exn world A) : Prop :=
  forall w, R (execution w) (execution (m w).2).

Lemma respects_ret {A} (a : A) : respects (mret a).
Proof. intros w. reflexivity. Qed.

Lemma respects_raise {A} e : respects (A := A) (raise e).
Proof. intros w. reflexivity. Qed.

Lemma respects_raise_if b e : respects (raise_if b e).
Proof. destruct b; [apply respects_raise|apply respects_ret]. Qed.

Lemma respects_reads {A} (f : ExecutionState.t -> res A) : respects (reads f).
Proof. intros w. reflexivity. Qed.

Lemma respects_gets {A} (f : world -> A) : respects (gets f).
Proof. intros w. reflexivity. Qed.

Lemma respects_lift {A} (r : res A) : respects (lift_result r).
Proof. intros w. reflexivity. Qed.

Lemma respects_env {A} (m : M exn env A) : respects (on_env m).
Proof. intros w. unfold on_env. by destruct (m (environment w)). Qed.

Lemma respects_bind {A B} (m : M exn world A) (f : A -> M exn world B) :
  respects m -> (forall a, respects (f a)) -> respects (m ≫= f).
Proof.
  intros Hm Hf w. specialize (Hm w). unfold mbind, M_bind.
  destruct (m w) as [[a|e] w1]; [|done]. etrans; [exact Hm|]. apply (Hf a w1).
Qed.

Lemma respects_for_each {A} (f : A -> M exn world unit) l :
  (forall a, respects (f a)) -> respects (for_each f l).
Proof.
  intros Hf. induction l as [|a l IH]; simpl; [apply respects_ret|].
  by apply respects_bind; [|intros _].
Qed.

Lemma respects_edit f :
  (forall x x', f x = Ok x' -> R x x') -> respects (edit_execution f).
Proof.
  intros Hf w. unfold edit_execution. destruct (f (execution w)) eqn:Hx; [by apply Hf|reflexivity].
Qed.
End respects.

#[export] Hint Resolve respects_ret respects_raise respects_raise_if respects_reads respects_gets
  respects_lift respects_env : reagent.

(** Descend through the binds, branches and loops of an operation. *)
Ltac respects_step :=
  first
    [ apply respects_ret; typeclasses eauto
    | apply respects_raise; typeclasses eauto
    | apply respects_raise_if; typeclasses eauto
    | apply respects_reads; typeclasses eauto
    | apply respects_gets; typeclasses eauto
    | apply respects_lift; typeclasses eauto
    | apply respects_env; typeclasses eauto
    | apply respects_for_each; [typeclasses eauto|intros ?]
    | solve [eauto with reagent]
    | apply respects_bind; [typeclasses eauto| |intros ?]
    | case_goal ].
Ltac respects_tac := repeat respects_step.

(** An invariant, as the relation of its preservation. *)
Definition keeps (I : ExecutionState.t -> Prop) : relation ExecutionState.t :=
  fun x x' => I x -> I x'.

#[export] Instance keeps_preorder I : PreOrder (keeps I).
Proof. split; unfold keeps; red; naive_solver. Qed.

(** *** The history only grows *)

Definition step_evolves (s s' : StepRun.t) : Prop :=
  StepRun.id s' = StepRun.id s /\ StepRun.step_id s' = StepRun.step_id s /\
  StepRun.attempt s' = StepRun.attempt s /\
  StepRun.idempotency_key s' = StepRun.idempotency_key s /\
  rtc (moves (E := StepRun.t) (A := step_call)) (StepRun.status s) (StepRun.status s') /\
  StepRun.row_version s <= StepRun.row_version s' /\
  (StepRunStatus.is_terminal (StepRun.status s) = true -> s' = s).

Record evolves (x x' : ExecutionState.t) : Prop := {
  ev_workflow : workflow x' = workflow x;
  ev_run_id : WorkflowRun.id (workflow_run x') = WorkflowRun.id (workflow_run x);
  ev_session_id : AgentSession.id (agent_session x') = AgentSession.id (agent_session x);
  ev_run : rtc (moves (E := WorkflowRun.t) (A := run_call))
             (WorkflowRun.status (workflow_run x)) (WorkflowRun.status (workflow_run x'));
  ev_session : rtc (moves (E := AgentSession.t) (A := session_call))
             (AgentSession.status (agent_session x)) (AgentSession.status (agent_session x'));
  ev_version : WorkflowRun.row_version (workflow_run x) <= WorkflowRun.row_version (workflow_run x');
  ev_steps : forall i s, step_runs x !! i = Some s ->
    exists s', step_runs x' !! i = Some s' /\ step_evolves s s';
  ev_checkpoints : checkpoints x `prefix_of` checkpoints x'
}.

#[export] Instance step_evolves_preorder : PreOrder step_evolves.
Proof.
  split; red; unfold step_evolves.
  - intros s. repeat split; try done.
  - intros a b c (-> & -> & -> & -> & H1 & H2 & H3) (-> & -> & -> & -> & H4 & H5 & H6).
    repeat split; try done; [by etrans|lia|].
    intros Ht. pose proof (H3 Ht) as ->. by apply H6.
Qed.

#[export] Instance evolves_preorder : PreOrder evolves.
Proof.
  split; red.
  - intros x. split; try done. intros i s Hi. exists s. split; [done|reflexivity].
  - intros x y z [] []. split; try congruence; try (by etrans); try lia.
    intros i s Hi. destruct (ev_steps0 i s Hi) as (s1 & Hi1 & H1).
    destruct (ev_steps1 i s1 Hi1) as (s2 & Hi2 & H2). exists s2. split; [done|]. by etrans.
Qed.

Lemma step_transition_evolves now s tg at_ inp o cd s' :
  StepRun.transition_to now s tg at_ inp o cd = Ok s' -> step_evolves s s'.
Proof.
  intros (Ht & Hst & Hv & Hi & Hsi & Ha & Hk & _)%step_transition_Ok.
  repeat split; try done.
  - apply rtc_once. red. cbn. by rewrite Hst.
  - lia.
  - intros Hterm. exfalso. destruct (StepRun.status s); cbn in *; try done; set_solver.
Qed.

(** ** The operations as data *)

Inductive operation :=
  | OpStart
  | OpUpdate (step_id : string) (target : StepRunStatus.t) (outputs : option mapping)
      (error_code : option string) (retryable : bool)
  | OpReady (step_id : string) (inputs : option mapping) (checkpoint : bool)
  | OpComplete (outputs : mapping)
  | OpFail (error_code : string)
  | OpCheckpoint
  | OpResume (c : Checkpoint.t)
  | OpCancel.

Section facts.
Context (clock : nat -> datetime) (id_factory : nat -> string -> string).

Definition discard {A} (m : M exn world A) : M exn world unit := m ;; mret tt.

Definition perform (op : operation) : M exn world unit :=
  match op with
  | OpStart => discard (start_execution clock id_factory)
  | OpUpdate i t o e r => discard (update_step_state clock id_factory i t o e r)
  | OpReady i inp c => discard (mark_step_ready clock id_factory i inp c)
  | OpComplete o => discard (complete_workflow clock id_factory o)
  | OpFail e => discard (fail_execution clock id_factory e)
  | OpCheckpoint => discard (create_checkpoint clock id_factory)
  | OpResume c => discard (resume_from_checkpoint clock id_factory c)
  | OpCancel => discard (cancel_execution clock id_factory)
  end.

(** A caller that goes on after exceptions. *)
Definition perform_all (w : world) (ops : list operation) : world :=
  foldl (fun w op => (perform op w).2) w ops.

(** ** The primitive steps *)

Section primitives.
Context (R : relation ExecutionState.t) `{!PreOrder R}.

(** The steps every operation is made of, the two branches of a resume
    that append an attempt aside. *)
Record primitive_steps : Prop := {
  ps_run : forall tg at_ rs cd, respects R (run_to tg at_ rs cd);
  ps_session : forall tg at_, respects R (session_to tg at_);
  ps_step : forall i tg at_ inp o cd, respects R (step_to i tg at_ inp o cd);
  ps_outputs : forall o, respects R (set_run_outputs o);
  ps_checkpoint : respects R (create_checkpoint clock id_factory)
}.

Lemma primitive_operations :
  primitive_steps ->
  (forall state ts, respects R (resume_retry clock id_factory state ts)) ->
  (forall ts, respects R (resume_interrupted clock id_factory ts)) ->
  forall op, respects R (perform op).
Proof.
  intros [] Hr Hi op. destruct op; unfold perform, discard, start_execution, update_step_state,
    mark_step_ready, complete_workflow, fail_execution, resume_from_checkpoint,
    cancel_execution, require_running, checkpointed, step_failed, cancel_both, cancel_step,
    resume_approval, resume_both, now; respects_tac.
Qed.

(** Where appending an attempt needs no context, the two branches follow. *)
Lemma simple_operations :
  primitive_steps ->
  (forall f sid ts, respects R (append_retry clock id_factory f sid ts)) ->
  forall op, respects R (perform op).
Proof.
  intros Hp Ha. apply primitive_operations; [done|..]; destruct Hp; intros;
    unfold resume_retry, resume_interrupted, resume_both; respects_tac.
Qed.
End primitives.
End facts.

(** ** The history relation *)

Section history_facts.
Context (clock : nat -> datetime) (id_factory : nat -> string -> string).

(** A checkpoint is appended, or nothing happens. *)
Lemma create_checkpoint_cases w :
  ((exists e, (create_checkpoint clock id_factory w).1 = Err e) /\
   execution (create_checkpoint clock id_factory w).2 = execution w) \/
  exists i ts c,
    Checkpoint.create i (WorkflowRun.id (workflow_run (execution w)))
      (AgentSession.id (agent_session (execution w)))
      (Z.of_nat (List.length (checkpoints (execution w))) + 1) (snapshot (execution w)) ts
      (Checkpoint.id <$> last (checkpoints (execution w))) = Ok c /\
    (create_checkpoint clock id_factory w).1 = Ok c /\
    execution (create_checkpoint clock id_factory w).2 =
      mk (workflow (execution w)) (workflow_run (execution w)) (agent_session (execution w))
         (step_runs (execution w)) (checkpoints (execution w) ++ [c]).
Proof.
  unfold create_checkpoint, now, on_env, new_id, tick, gets, lift_result, append_checkpoint,
    edit_execution, mbind, M_bind. cbn [environment execution ticks ids_given].
  destruct (Checkpoint.create _ _ _ _ _ _ _) as [c|e] eqn:Hc; [|by left; split; [exists e|]].
  right. eexists _, _, c. split; [exact Hc|]. done.
Qed.

(** A relation that ignores what is appended to the checkpoints. *)
Lemma respects_checkpoint (R : relation t) `{!PreOrder R} :
  (forall x i ts c,
    Checkpoint.create i (WorkflowRun.id (workflow_run x)) (AgentSession.id (agent_session x))
      (Z.of_nat (List.length (checkpoints x)) + 1) (snapshot x) ts
      (Checkpoint.id <$> last (checkpoints x)) = Ok c ->
    R x (mk (workflow x) (workflow_run x) (agent_session x) (step_runs x) (checkpoints x ++ [c]))) ->
  respects R (create_checkpoint clock id_factory).
Proof.
  intros H w. destruct (create_checkpoint_cases w) as [[_ ->]|(i & ts & c & Hc & _ & ->)];
    [reflexivity|by eapply H].
Qed.

Lemma evolves_run tg at_ rs cd : respects evolves (run_to tg at_ rs cd).
Proof.
  apply respects_edit; [typeclasses eauto|]. intros x x'. rewrite bind_Ok.
  intros (r & (Ht & Hs & Hv & Hi & _)%run_transition_Ok & [= <-]).
  split; cbn; try done; try lia; [|intros i s ?; by exists s].
  apply rtc_once. red. cbn. by rewrite Hs.
Qed.

Lemma evolves_session tg at_ : respects evolves (session_to tg at_).
Proof.
  apply respects_edit; [typeclasses eauto|]. intros x x'. rewrite bind_Ok.
  intros (r & (Ht & Hs & Hv & Hi)%session_transition_Ok & [= <-]).
  split; cbn; try done; try lia; [|intros i s ?; by exists s].
  apply rtc_once. red. cbn. by rewrite Hs.
Qed.

Lemma evolves_step i tg at_ inp o cd : respects evolves (step_to i tg at_ inp o cd).
Proof.
  apply respects_edit; [typeclasses eauto|]. intros x x' H.
  destruct (step_runs x !! i) as [s|] eqn:Hi; [|done]. rewrite bind_Ok in H.
  destruct H as (s' & Hs & [= <-]). split; cbn; try done.
  intros j s1 Hj. destruct (decide (i = j)) as [<-|Hne].
  - rewrite list_lookup_insert_eq by (by eapply lookup_lt_Some). simplify_eq.
    exists s'. split; [done|]. by eapply step_transition_evolves.
  - rewrite list_lookup_insert_ne by done. by exists s1.
Qed.

Lemma evolves_checkpoint : respects evolves (create_checkpoint clock id_factory).
Proof.
  apply respects_checkpoint; [typeclasses eauto|]. intros x i ts c _.
  split; cbn; try done; [intros j s ?; by exists s|by apply prefix_app_r].
Qed.

Lemma evolves_append s : respects evolves (append_step_run s).
Proof.
  apply respects_edit; [typeclasses eauto|]. intros x x' [= <-].
  split; cbn; try done. intros j s1 Hj. exists s1. split; [by apply lookup_app_l_Some|done].
Qed.

Lemma evolves_retry f sid ts : respects evolves (append_retry clock id_factory f sid ts).
Proof.
  unfold append_retry, append_step_run. pose proof evolves_checkpoint. pose proof evolves_append.
  respects_tac.
Qed.

Lemma evolves_primitive : primitive_steps clock id_factory evolves.
Proof.
  split; auto using evolves_run, evolves_session, evolves_step, evolves_checkpoint.
  intros o. apply respects_edit; [typeclasses eauto|]. intros x x' [= <-].
  split; cbn; try done. intros j s ?; by exists s.
Qed.

Lemma perform_all_respects (R : relation t) `{!PreOrder R} w ops :
  (forall op, respects R (perform clock id_factory op)) ->
  R (execution w) (execution (perform_all clock id_factory w ops)).
Proof.
  intros H. revert w. induction ops as [|op ops IH]; intros w; [reflexivity|].
  cbn. etrans; [apply (H op)|apply IH].
Qed.
End history_facts.

(** ** The run and its session move together *)

(** The session status that belongs to a run status. *)
Definition session_of (s : WorkflowRunStatus.t) : AgentSessionStatus.t :=
  match s with
  | WorkflowRunStatus.CREATED => AgentSessionStatus.CREATED
  | WorkflowRunStatus.INITIALIZING => AgentSessionStatus.INITIALIZING
  | WorkflowRunStatus.RUNNING => AgentSessionStatus.ACTIVE
  | WorkflowRunStatus.WAITING_FOR_APPROVAL | WorkflowRunStatus.WAITING_FOR_INPUT
  | WorkflowRunStatus.RETRY_SCHEDULED => AgentSessionStatus.WAITING
  | WorkflowRunStatus.COMPLETED => AgentSessionStatus.COMPLETED
  | WorkflowRunStatus.FAILED => AgentSessionStatus.FAILED
  | WorkflowRunStatus.CANCELLING => AgentSessionStatus.CANCELLING
  | WorkflowRunStatus.CANCELLED => AgentSessionStatus.CANCELLED
  end.

Definition coherent (x : ExecutionState.t) : Prop :=
  AgentSession.status (agent_session x) = session_of (WorkflowRun.status (workflow_run x)).

(** A move of the run is a move of the session. *)
Lemma session_follows s s' :
  s' ∈ WorkflowRunStatus.transitions s ->
  session_of s' ∈ AgentSessionStatus.transitions (session_of s).
Proof. destruct s, s'; cbn; set_solver. Qed.

(** The two transitions, made one after the other with one timestamp, both
    happen or neither does. *)
Lemma lockstep tg at_ rs cd w :
  coherent (execution w) ->
  ((exists e, run_to tg at_ rs cd w = (Err e, w)) \/
   (exists w1 w2, run_to tg at_ rs cd w = (Ok tt, w1) /\
      session_to (session_of tg) at_ w1 = (Ok tt, w2) /\ coherent (execution w2) /\
      WorkflowRun.status (workflow_run (execution w2)) = tg)).
Proof.
  intros Hc. unfold run_to, edit_execution.
  destruct (WorkflowRun.transition_to _ _ _ _ _ _) as [r|e] eqn:Hr; [|left; cbn; by exists e].
  right. apply run_transition_Ok in Hr as (Ht & Hs & _ & _ & _ & Ha).
  assert (exists a, AgentSession.transition_to at_ (agent_session (execution w)) (session_of tg) (Some at_)
            = Ok a) as [a Hl].
  { apply session_transition_legal; [|done]. rewrite Hc. by apply session_follows. }
  eexists _, _. split; [done|]. unfold session_to, edit_execution. cbn. rewrite Hl. cbn.
  split; [done|]. apply session_transition_Ok in Hl as (_ & Hl & _).
  unfold coherent. cbn. rewrite Hl, Hs. done.
Qed.

Lemma coherent_pair {A} tg at_ rs cd (k : M exn world A) :
  respects (keeps coherent) k ->
  respects (keeps coherent) (run_to tg at_ rs cd ;; session_to (session_of tg) at_ ;; k).
Proof.
  intros Hk w Hc. unfold mbind, M_bind. destruct (lockstep tg at_ rs cd w Hc)
    as [[e ->]|(w1 & w2 & -> & -> & H2 & _)]; [done|]. by apply (Hk w2).
Qed.

Lemma coherent_tail tg at_ rs cd :
  respects (keeps coherent) (run_to tg at_ rs cd ;; session_to (session_of tg) at_).
Proof.
  intros w Hc. unfold mbind, M_bind. destruct (lockstep tg at_ rs cd w Hc)
    as [[e ->]|(w1 & w2 & -> & -> & H2 & _)]; done.
Qed.

Section coherence.
Context (clock : nat -> datetime) (id_factory : nat -> string -> string).

Lemma coherent_checkpoint : respects (keeps coherent) (create_checkpoint clock id_factory).
Proof. apply (respects_checkpoint _ _ (keeps coherent)). intros x i ts c _ H. exact H. Qed.

Lemma coherent_step i tg at_ inp o cd : respects (keeps coherent) (step_to i tg at_ inp o cd).
Proof.
  apply (respects_edit (keeps coherent)). intros x x' H.
  destruct (step_runs x !! i) as [s|] eqn:Hi; [|done]. rewrite bind_Ok in H.
  destruct H as (s' & Hs & [= <-]). intros Hc. exact Hc.
Qed.

Lemma coherent_append s : respects (keeps coherent) (append_step_run s).
Proof. apply (respects_edit (keeps coherent)). intros x x' [= <-] H. exact H. Qed.

Lemma coherent_outputs o : respects (keeps coherent) (set_run_outputs o).
Proof. apply (respects_edit (keeps coherent)). intros x x' [= <-] H. exact H. Qed.

Ltac coherent_step :=
  match goal with
  | |- respects _ (run_to ?tg _ _ _ ≫= (fun _ => session_to _ _ ≫= _)) =>
      apply (coherent_pair tg)
  | |- respects _ (run_to ?tg ?at_ ?rs ?cd ≫= (fun _ => session_to _ _)) =>
      exact (coherent_tail tg at_ rs cd)
  | _ => respects_step
  end.

Lemma coherent_operation op : respects (keeps coherent) (perform clock id_factory op).
Proof.
  pose proof coherent_checkpoint. pose proof coherent_step. pose proof coherent_append.
  pose proof coherent_outputs.
  destruct op; unfold perform, discard, start_execution, update_step_state,
      mark_step_ready, complete_workflow, fail_execution, resume_from_checkpoint,
      cancel_execution, require_running, checkpointed, step_failed, cancel_both, cancel_step,
      resume_approval, resume_retry, resume_interrupted, resume_both, append_retry, now; repeat coherent_step.
Qed.
End coherence.

(** ** The checkpoint chain *)

(** The [i]-th checkpoint is numbered [i + 1], belongs to the run and the
    session, names its predecessor as parent and verifies. *)
Definition link_ok (x : ExecutionState.t) (i : nat) (c : Checkpoint.t) : Prop :=
  Checkpoint.sequence c = Z.of_nat i + 1 /\
  Checkpoint.workflow_run_id c = WorkflowRun.id (workflow_run x) /\
  Checkpoint.agent_session_id c = AgentSession.id (agent_session x) /\
  Checkpoint.parent_id c =
    match i with O => None | S j => Checkpoint.id <$> checkpoints x !! j end /\
  Checkpoint.verify_integrity c = Ok tt.

Definition chain_ok (x : ExecutionState.t) : Prop :=
  forall i c, checkpoints x !! i = Some c -> link_ok x i c.

Lemma chain_same x x' :
  checkpoints x' = checkpoints x -> WorkflowRun.id (workflow_run x') = WorkflowRun.id (workflow_run x) ->
  AgentSession.id (agent_session x') = AgentSession.id (agent_session x) ->
  keeps chain_ok x x'.
Proof.
  intros Hc Hr Ha H i c Hi. rewrite Hc in Hi. specialize (H i c Hi).
  unfold link_ok in *. by rewrite Hc, Hr, Ha.
Qed.

Section chain.
Context (clock : nat -> datetime) (id_factory : nat -> string -> string).

Lemma chain_checkpoint : respects (keeps chain_ok) (create_checkpoint clock id_factory).
Proof.
  apply (respects_checkpoint _ _ (keeps chain_ok)). intros x i ts c Hc H j d Hj. cbn in Hj.
  pose proof (checkpoint_create_verifies _ _ _ _ _ _ _ _ Hc) as Hv.
  apply checkpoint_create_Ok in Hc as (js & _ & -> & _).
  apply prefix_snoc_lookup in Hj as [Hj|[-> ->]].
  - destruct (H j d Hj) as (H1 & H2 & H3 & H4 & H5). repeat split; cbn; try done.
    rewrite H4. destruct j as [|j]; [done|]. rewrite lookup_app_l; [done|].
    apply lookup_lt_Some in Hj. lia.
  - repeat split; cbn; try done. rewrite last_lookup.
    destruct (checkpoints x) as [|d l]; [done|]. cbn [List.length pred].
    rewrite lookup_app_l; [done|]. cbn. lia.
Qed.

Lemma chain_primitive : primitive_steps clock id_factory (keeps chain_ok).
Proof.
  split.
  - intros tg at_ rs cd. apply (respects_edit (keeps chain_ok)). intros x x'. rewrite bind_Ok.
    intros (r & (_ & _ & _ & Hi & _)%run_transition_Ok & [= <-]). by apply chain_same.
  - intros tg at_. apply (respects_edit (keeps chain_ok)). intros x x'. rewrite bind_Ok.
    intros (r & (_ & _ & _ & Hi)%session_transition_Ok & [= <-]). by apply chain_same.
  - intros i tg at_ inp o cd. apply (respects_edit (keeps chain_ok)). intros x x' H.
    destruct (step_runs x !! i) as [s|] eqn:Hi; [|done]. rewrite bind_Ok in H.
    destruct H as (s' & Hs & [= <-]). by apply chain_same.
  - intros o. apply (respects_edit (keeps chain_ok)). intros x x' [= <-]. by apply chain_same.
  - apply chain_checkpoint.
Qed.

Lemma chain_retry f sid ts : respects (keeps chain_ok) (append_retry clock id_factory f sid ts).
Proof.
  assert (forall s, respects (keeps chain_ok) (append_step_run s)) as Happ.
  { intros s. apply (respects_edit (keeps chain_ok)). intros x x' [= <-]. by apply chain_same. }
  unfold append_retry. pose proof chain_checkpoint. respects_tac.
Qed.
End chain.

(** ** The attempts of a step *)

Definition attempts (x : ExecutionState.t) (step_id : string) : list Z :=
  StepRun.attempt <$> filter (fun s => StepRun.step_id s = step_id) (step_runs x).

(** The attempts of every step are numbered 1, 2, ... within the step's bound,
    belong to the run and are keyed by run, step and attempt; all but the last
    have failed. *)
Record attempts_ok (x : ExecutionState.t) : Prop := {
  ao_unique : NoDup (Workflow.step_ids (workflow x));
  ao_numbered : forall sid, exists n : nat, attempts x sid = seqZ 1 (Z.of_nat n);
  ao_bounded : forall step, step ∈ Workflow.steps (workflow x) ->
    Z.of_nat (List.length (attempts x (WorkflowStep.id step))) <= WorkflowStep.max_attempts step;
  ao_known : forall s, s ∈ step_runs x -> StepRun.step_id s ∈ Workflow.step_ids (workflow x);
  ao_present : forall sid, sid ∈ Workflow.step_ids (workflow x) -> attempts x sid <> [];
  ao_keys : forall s, s ∈ step_runs x ->
    StepRun.workflow_run_id s = WorkflowRun.id (workflow_run x) /\
    StepRun.idempotency_key s = WorkflowRun.id (workflow_run x) +:+ ":" +:+ StepRun.step_id s
                                  +:+ ":" +:+ int_str (StepRun.attempt s);
  ao_failed : forall i j s s', step_runs x !! i = Some s -> step_runs x !! j = Some s' ->
    (i < j)%nat -> StepRun.step_id s = StepRun.step_id s' ->
    StepRun.status s = StepRunStatus.FAILED /\ StepRun.attempt s < StepRun.attempt s'
}.

Lemma attempts_key (l l' : list StepRun.t) sid :
  (fun s => (StepRun.step_id s, StepRun.attempt s)) <$> l =
  (fun s => (StepRun.step_id s, StepRun.attempt s)) <$> l' ->
  StepRun.attempt <$> filter (fun s => StepRun.step_id s = sid) l =
  StepRun.attempt <$> filter (fun s => StepRun.step_id s = sid) l'.
Proof.
  revert l'. induction l as [|s l IH]; intros [|s' l'] H; try done.
  rewrite !fmap_cons in H. injection H as H1 H2 H. rewrite !filter_cons, <- H1.
  specialize (IH l' H). case_decide; [|done]. rewrite !fmap_cons. by rewrite H2, IH.
Qed.

Lemma attempts_ok_same x x' :
  workflow x' = workflow x -> WorkflowRun.id (workflow_run x') = WorkflowRun.id (workflow_run x) ->
  step_runs x' = step_runs x -> keeps attempts_ok x x'.
Proof.
  intros Hw Hr Hs []. split; unfold attempts in *; rewrite ?Hw, ?Hr, ?Hs; done.
Qed.

Lemma attempts_ok_step x i s s' :
  step_runs x !! i = Some s -> step_evolves s s' ->
  StepRun.workflow_run_id s' = StepRun.workflow_run_id s ->
  keeps attempts_ok x (mk (workflow x) (workflow_run x) (agent_session x)
                         (<[i := s']> (step_runs x)) (checkpoints x)).
Proof.
  intros Hi Hev Hrun []. pose proof Hev as (_ & He2 & He3 & _).
  assert (Hat : forall sid, attempts (mk (workflow x) (workflow_run x) (agent_session x)
                         (<[i := s']> (step_runs x)) (checkpoints x)) sid = attempts x sid).
  { intros sid. apply attempts_key. cbn. rewrite list_fmap_insert. rewrite He2, He3.
    apply list_insert_id. by rewrite list_lookup_fmap, Hi. }
  assert (Hlook : forall j s1, <[i := s']> (step_runs x) !! j = Some s1 ->
            exists s0, step_runs x !! j = Some s0 /\ step_evolves s0 s1 /\
              StepRun.workflow_run_id s1 = StepRun.workflow_run_id s0).
  { intros j s1 [(-> & -> & _)|[? Hj]]%list_lookup_insert_Some; [|by exists s1].
    by exists s. }
  split; cbn [workflow workflow_run step_runs].
  - done.
  - intros sid. rewrite Hat. eauto.
  - intros step Hst. rewrite Hat. eauto.
  - intros s1 [j (s0 & Hj & (_ & -> & _) & _)%Hlook]%list_elem_of_lookup.
    eapply ao_known0, list_elem_of_lookup_2, Hj.
  - intros sid. rewrite Hat. auto.
  - intros s1 [j (s0 & Hj & (_ & -> & -> & -> & _) & ->)%Hlook]%list_elem_of_lookup.
    eapply ao_keys0, list_elem_of_lookup_2, Hj.
  - intros a b s1 s2 (t1 & H1 & (_ & E1 & A1 & _ & _ & _ & T1) & _)%Hlook
      (t2 & H2 & (_ & E2 & A2 & _) & _)%Hlook Hab Heq.
    destruct (ao_failed0 a b t1 t2 H1 H2 Hab) as [Hf Hlt]; [congruence|].
    rewrite T1 by (by rewrite Hf). split; [done|]. lia.
Qed.

(** The attempt to retry is the last of its step, it failed, and the bound
    leaves room for another. *)
Definition may_retry (x : ExecutionState.t) (sid : string) (k : Z) : Prop :=
  attempts x sid = seqZ 1 k /\ 0 < k /\
  (exists step, step ∈ Workflow.steps (workflow x) /\ WorkflowStep.id step = sid /\
     k < WorkflowStep.max_attempts step) /\
  forall s, s ∈ step_runs x -> StepRun.step_id s = sid -> StepRun.status s = StepRunStatus.FAILED.

Lemma may_retry_same x x' sid k :
  workflow x' = workflow x -> step_runs x' = step_runs x -> may_retry x sid k -> may_retry x' sid k.
Proof. intros Hw Hs. unfold may_retry, attempts. by rewrite Hw, Hs. Qed.

Lemma attempts_app x sid s :
  attempts (mk (workflow x) (workflow_run x) (agent_session x) (step_runs x ++ [s]) (checkpoints x)) sid =
  attempts x sid ++ (if decide (StepRun.step_id s = sid) then [StepRun.attempt s] else []).
Proof. unfold attempts. cbn. rewrite filter_app, fmap_app, filter_cons. by case_decide. Qed.

Lemma seqZ_snoc k : 0 <= k -> seqZ 1 k ++ [k + 1] = seqZ 1 (k + 1).
Proof.
  intros Hk. rewrite (seqZ_app 1 k 1) by lia. f_equal. rewrite (Z.add_comm 1 k). done.
Qed.

Lemma elem_attempts x s : s ∈ step_runs x -> StepRun.attempt s ∈ attempts x (StepRun.step_id s).
Proof. intros H. apply list_elem_of_fmap. exists s. split; [done|]. by apply list_elem_of_filter. Qed.

(** Appending the next attempt. *)
Lemma attempts_ok_append x sid k s :
  attempts_ok x -> may_retry x sid k ->
  StepRun.step_id s = sid -> StepRun.attempt s = k + 1 ->
  StepRun.workflow_run_id s = WorkflowRun.id (workflow_run x) ->
  StepRun.idempotency_key s = WorkflowRun.id (workflow_run x) +:+ ":" +:+ sid +:+ ":" +:+ int_str (k + 1) ->
  attempts_ok (mk (workflow x) (workflow_run x) (agent_session x) (step_runs x ++ [s]) (checkpoints x)).
Proof.
  intros [] (Hseq & Hk & (step & Hst & Hid & Hmax) & Hfail) Hsid Hatt Hrun Hkey.
  split; try setoid_rewrite attempts_app; cbn [workflow workflow_run step_runs]; rewrite ?Hsid.
  - done.
  - intros sid'. destruct (decide (sid = sid')) as [<-|Hne]; [|rewrite app_nil_r; auto].
    exists (Z.to_nat (k + 1)). rewrite Hatt, Hseq, seqZ_snoc by lia. f_equal. lia.
  - intros step' Hst'. specialize (ao_bounded0 step' Hst').
    destruct (decide (sid = WorkflowStep.id step')) as [He|Hne]; [|by rewrite app_nil_r].
    rewrite length_app, <- He, Hseq, length_seqZ. cbn.
    assert (step = step') as <-; [|lia].
    apply list_elem_of_lookup in Hst as [a Ha], Hst' as [b Hb].
    assert (a = b); [|congruence]. eapply (NoDup_lookup _ _ _ sid ao_unique0);
      unfold Workflow.step_ids; rewrite list_lookup_fmap; [by rewrite Ha, <- Hid|by rewrite Hb, He].
  - intros s' [Hs' | ->%list_elem_of_singleton]%elem_of_app; [auto|].
    rewrite Hsid. apply list_elem_of_fmap. by exists step.
  - intros sid' Hin Hnil. apply app_nil in Hnil as [Hnil _]. by apply (ao_present0 sid').
  - intros s' [Hs' | ->%list_elem_of_singleton]%elem_of_app; [auto|].
    by rewrite Hkey, Hsid, Hatt.
  - intros i j s1 s2 H1 H2 Hij Heq.
    apply prefix_snoc_lookup in H2 as [H2|[-> ->]].
    + apply prefix_snoc_lookup in H1 as [H1|[-> _]]; [by eapply ao_failed0|].
      apply lookup_lt_Some in H2. lia.
    + rewrite lookup_app_l in H1 by done. apply list_elem_of_lookup_2 in H1.
      rewrite Hsid in Heq. split; [by apply Hfail|].
      apply elem_attempts in H1. rewrite Heq, Hseq in H1. apply elem_of_seqZ in H1. lia.
Qed.

(** ** The latest attempt *)

Lemma latest_from_spec sid l k best i s :
  latest_from sid k l best = Some (i, s) ->
  ((exists j, i = (k + j)%nat /\ l !! j = Some s /\ StepRun.step_id s = sid) \/ best = Some (i, s)) /\
  (forall s', s' ∈ l -> StepRun.step_id s' = sid -> StepRun.attempt s' <= StepRun.attempt s) /\
  (forall b, best = Some b -> StepRun.attempt b.2 <= StepRun.attempt s).
Proof.
  revert k best. induction l as [|s0 l IH]; intros k best H; cbn in H.
  - subst. split; [by right|]. split; [set_solver|]. intros b [= <-]. done.
  - destruct (IH _ _ H) as (Hpos & Hmax & Hbest). split; [|split].
    + destruct Hpos as [(j & -> & Hj & Hs)|Hb].
      * left. exists (S j). split; [lia|]. done.
      * destruct (String.eqb_spec (StepRun.step_id s0) sid) as [He|]; [|by right].
        assert (Hhead : Some (k, s0) = Some (i, s) ->
          exists j, i = (k + j)%nat /\ (s0 :: l) !! j = Some s /\ StepRun.step_id s = sid).
        { intros [= <- <-]. exists O. split; [lia|]. done. }
        destruct best as [[b1 b2]|]; [|by left; apply Hhead].
        destruct (_ <? _); [by left; apply Hhead|by right].
    + intros s1 Hs1 He. apply elem_of_cons in Hs1 as [->|Hs1]; [|by apply Hmax].
      rewrite He, String.eqb_refl in Hbest.
      destruct best as [[b1 b2]|]; [|by apply (Hbest _ eq_refl)].
      destruct (Z.ltb_spec (StepRun.attempt b2) (StepRun.attempt s0)).
      * by apply (Hbest _ eq_refl).
      * specialize (Hbest _ eq_refl). cbn in Hbest. lia.
    + intros b ->. destruct b as [b1 b2]. cbn.
      destruct (String.eqb _ _); [|by apply (Hbest _ eq_refl)].
      destruct (Z.ltb_spec (StepRun.attempt b2) (StepRun.attempt s0));
        specialize (Hbest _ eq_refl); cbn in Hbest; lia.
Qed.

Lemma latest_step_run_spec x sid i s :
  latest_step_run x sid = Ok (i, s) ->
  step_runs x !! i = Some s /\ StepRun.step_id s = sid /\
  forall s', s' ∈ step_runs x -> StepRun.step_id s' = sid -> StepRun.attempt s' <= StepRun.attempt s.
Proof.
  unfold latest_step_run. destruct (latest_from _ _ _ _) as [[i' s']|] eqn:Hl; [|done].
  intros [= -> ->]. apply latest_from_spec in Hl as ([(j & -> & Hj & Hs)|] & Hmax & _); [|done].
  done.
Qed.

Lemma latest_exists x sid : attempts x sid <> [] -> exists f, latest_step_run x sid = Ok f.
Proof.
  intros H. unfold latest_step_run.
  assert (forall l k b, exists f, latest_from sid k l (Some b) = Some f) as Hsome.
  { induction l as [|s l IH]; intros k b; cbn; [by eexists|].
    destruct (String.eqb _ _); [|apply IH]. destruct b. destruct (_ <? _); apply IH. }
  assert (exists f, latest_from sid 0 (step_runs x) None = Some f) as [f ->]; [|by eexists].
  unfold attempts in H. revert H. generalize 0%nat.
  induction (step_runs x) as [|s l IH]; intros k H; [done|]. cbn.
  rewrite filter_cons in H. destruct (String.eqb_spec (StepRun.step_id s) sid); [apply Hsome|].
  rewrite decide_False in H by done. by apply IH.
Qed.

(** In a numbered history the latest attempt carries the number of attempts,
    and it is the only one that may not have failed. *)
Lemma latest_numbered x sid i s :
  attempts_ok x -> latest_step_run x sid = Ok (i, s) ->
  attempts x sid = seqZ 1 (StepRun.attempt s) /\ 0 < StepRun.attempt s /\
  forall j s', step_runs x !! j = Some s' -> StepRun.step_id s' = sid -> j <> i ->
    StepRun.status s' = StepRunStatus.FAILED.
Proof.
  intros [] (Hi & Hsid & Hmax)%latest_step_run_spec.
  destruct (ao_numbered0 sid) as [n Hn].
  pose proof (elem_attempts x s (list_elem_of_lookup_2 _ _ _ Hi)) as Hin.
  rewrite Hsid, Hn in Hin. apply elem_of_seqZ in Hin.
  assert (StepRun.attempt s = Z.of_nat n) as Heq.
  { assert (Z.of_nat n ∈ attempts x sid) as Hlast by (rewrite Hn; apply elem_of_seqZ; lia).
    unfold attempts in Hlast. apply list_elem_of_fmap in Hlast as (s' & He & [Hs' Hin']%list_elem_of_filter).
    specialize (Hmax s' Hin' Hs'). lia. }
  rewrite Heq. split; [done|]. split; [lia|]. intros j s' Hj Hs' Hne.
  destruct (decide (j < i)%nat) as [Hlt|]; [by apply (ao_failed0 j i s' s Hj Hi Hlt); congruence|].
  destruct (ao_failed0 i j s s' Hi Hj) as [_ Hlt]; [lia|congruence|].
  specialize (Hmax s' (list_elem_of_lookup_2 _ _ _ Hj) Hs'). lia.
Qed.

Section attempts.
Context (clock : nat -> datetime) (id_factory : nat -> string -> string).

Lemma attempts_primitive : primitive_steps clock id_factory (keeps attempts_ok).
Proof.
  split.
  - intros tg at_ rs cd. apply (respects_edit (keeps attempts_ok)). intros x x'. rewrite bind_Ok.
    intros (r & (_ & _ & _ & Hi & _)%run_transition_Ok & [= <-]). by apply attempts_ok_same.
  - intros tg at_. apply (respects_edit (keeps attempts_ok)). intros x x'. rewrite bind_Ok.
    intros (r & _ & [= <-]). by apply attempts_ok_same.
  - intros i tg at_ inp o cd. apply (respects_edit (keeps attempts_ok)). intros x x' H.
    destruct (step_runs x !! i) as [s|] eqn:Hi; [|done]. rewrite bind_Ok in H.
    destruct H as (s' & Hs & [= <-]). eapply attempts_ok_step; [done|by eapply step_transition_evolves|].
    apply step_transition_Ok in Hs. naive_solver.
  - intros o. apply (respects_edit (keeps attempts_ok)). intros x x' [= <-]. by apply attempts_ok_same.
  - apply (respects_checkpoint _ _ (keeps attempts_ok)). intros x i ts c _. by apply attempts_ok_same.
Qed.

(** What [_new_step_run] builds. *)
Lemma new_step_run_Ok run sid k inp ts e s e' :
  new_step_run id_factory run sid k inp ts e = (Ok s, e') ->
  StepRun.workflow_run_id s = WorkflowRun.id run /\ StepRun.step_id s = sid /\
  StepRun.attempt s = k /\ StepRun.status s = StepRunStatus.CREATED /\
  StepRun.idempotency_key s = WorkflowRun.id run +:+ ":" +:+ sid +:+ ":" +:+ int_str k.
Proof.
  unfold new_step_run, mbind, M_bind, new_id, lift_result. intros [= H _].
  unfold StepRun.post_init in H. rewrite !then_Ok in H.
  destruct H as (_ & _ & _ & _ & [= <-]). done.
Qed.

Lemma append_retry_keeps f sid ts w :
  may_retry (execution w) sid (StepRun.attempt f) ->
  keeps attempts_ok (execution w) (execution (append_retry clock id_factory f sid ts w).2).
Proof.
  intros Hm Ha. unfold append_retry, mbind, M_bind, gets, on_env, lift_result.
  destruct (new_step_run _ _ _ _ _ _ _) as [[s|e] e'] eqn:Hs; [|done].
  apply new_step_run_Ok in Hs as (Hr & Hsid & Hat & _ & Hkey).
  destruct (StepRun.transition_to _ _ _ _ _ _ _) as [s'|e] eqn:Ht; [|done].
  apply step_transition_Ok in Ht as (_ & _ & _ & _ & Hsid' & Hat' & Hkey' & Hr' & _).
  unfold append_step_run, edit_execution. cbn [execution environment].
  set (w1 := World _ _).
  assert (attempts_ok (execution w1)) as Hok.
  { eapply attempts_ok_append; [done|done|..]; congruence. }
  pose proof (ps_checkpoint _ _ _ attempts_primitive w1 Hok) as H.
  by destruct (create_checkpoint clock id_factory w1) as [[c|e] w2].
Qed.

(** Entering [RUNNING] again does not touch the steps. *)
Lemma resume_both_same ts w r w' :
  resume_both ts w = (r, w') ->
  workflow (execution w') = workflow (execution w) /\
  step_runs (execution w') = step_runs (execution w) /\
  WorkflowRun.id (workflow_run (execution w')) = WorkflowRun.id (workflow_run (execution w)).
Proof.
  unfold resume_both, run_to, session_to, edit_execution, mbind, M_bind.
  destruct (WorkflowRun.transition_to _ _ _ _ _ _) as [run|e] eqn:Hr; cbn; [|by intros [= _ <-]].
  apply run_transition_Ok in Hr as (_ & _ & _ & Hi & _).
  destruct (AgentSession.transition_to _ _ _ _); cbn; by intros [= _ <-].
Qed.

Lemma get_step_Ok w sid step :
  Workflow.get_step w sid = Ok step -> step ∈ Workflow.steps w /\ WorkflowStep.id step = sid.
Proof.
  unfold Workflow.get_step. destruct (list_find _ _) as [[i s]|] eqn:Hf; [|done].
  apply list_find_Some in Hf as (Hi & Hs & _). intros [= <-].
  split; [by eapply list_elem_of_lookup_2|done].
Qed.

Lemma latest_may_retry x sid i s step :
  attempts_ok x -> latest_step_run x sid = Ok (i, s) -> StepRun.status s = StepRunStatus.FAILED ->
  Workflow.get_step (workflow x) sid = Ok step ->
  StepRun.attempt s < WorkflowStep.max_attempts step ->
  may_retry x sid (StepRun.attempt s).
Proof.
  intros Hok Hl Hf [Hin Hid]%get_step_Ok Hlt.
  destruct (latest_numbered _ _ _ _ Hok Hl) as (Hseq & Hpos & Hothers).
  apply latest_step_run_spec in Hl as (Hi & _ & _).
  split; [done|]. split; [done|]. split; [by exists step|].
  intros s' [j Hj]%list_elem_of_lookup Hs'. destruct (decide (j = i)) as [->|]; [congruence|eauto].
Qed.

Lemma attempts_resume_retry state ts :
  respects (keeps attempts_ok) (resume_retry clock id_factory state ts).
Proof.
  intros w Hok. unfold resume_retry, mbind, M_bind, lift_result, reads.
  destruct (retry_step_id state) as [sid|e]; [|done].
  destruct (latest_step_run (execution w) sid) as [[i s]|e] eqn:Hl; [|done]. cbn [fst snd].
  destruct (bool_decide (StepRun.status s = StepRunStatus.FAILED)) eqn:Hf; cbn [negb raise_if]; [|done].
  unfold raise_if at 1, mret, M_ret. cbn beta iota.
  destruct (Workflow.get_step _ sid) as [step|e] eqn:Hg; [|done].
  destruct (WorkflowStep.max_attempts step <=? StepRun.attempt s) eqn:Hlt; [done|].
  unfold raise_if, mret, M_ret. cbn beta iota. reflect_bools.
  destruct (resume_both ts w) as [r w'] eqn:Hb. apply resume_both_same in Hb as (Hw & Hs & Hr).
  assert (attempts_ok (execution w')) as Hok' by (by eapply attempts_ok_same).
  destruct r; [|done]. apply append_retry_keeps; [|done].
  eapply may_retry_same; [done|done|]. by eapply latest_may_retry.
Qed.

Lemma elem_current_step_runs x l f :
  current_step_runs x = Ok l -> f ∈ l -> exists sid, latest_step_run x sid = Ok f.
Proof.
  unfold current_step_runs. rewrite map_ok_Forall2. intros H Hin.
  apply list_elem_of_lookup in Hin as [i Hi].
  destruct (Forall2_lookup_r _ _ _ _ _ H Hi) as (step & _ & Hl). eauto.
Qed.

(** After the interrupted attempt is failed, it may be retried. *)
Lemma interrupted_may_retry x sid i s ts s' step :
  attempts_ok x -> latest_step_run x sid = Ok (i, s) ->
  StepRun.transition_to ts s StepRunStatus.FAILED (Some ts) None None (Some "INTERRUPTED") = Ok s' ->
  Workflow.get_step (workflow x) sid = Ok step ->
  StepRun.attempt s < WorkflowStep.max_attempts step ->
  may_retry (mk (workflow x) (workflow_run x) (agent_session x) (<[i := s']> (step_runs x))
               (checkpoints x)) sid (StepRun.attempt s).
Proof.
  intros Hok Hl Ht [Hin Hid]%get_step_Ok Hlt.
  destruct (latest_numbered _ _ _ _ Hok Hl) as (Hseq & Hpos & Hothers).
  apply latest_step_run_spec in Hl as (Hi & Hsid & _).
  apply step_transition_Ok in Ht as (_ & Hst & _ & _ & Hsid' & Hat & _).
  split; [|split; [done|split; [by exists step|]]].
  - rewrite <- Hseq. apply attempts_key. cbn. rewrite list_fmap_insert, Hsid', Hat.
    apply list_insert_id. by rewrite list_lookup_fmap, Hi.
  - cbn. intros s1 [j [(-> & -> & _)|[? Hj]]%list_lookup_insert_Some]%list_elem_of_lookup Hs1;
      [done|]. by eapply Hothers.
Qed.

Lemma attempts_resume_interrupted ts :
  respects (keeps attempts_ok) (resume_interrupted clock id_factory ts).
Proof.
  intros w Hok. unfold resume_interrupted, mbind at 1, M_bind at 1, reads at 1.
  destruct (current_step_runs (execution w)) as [l|e] eqn:Hc; [|done].
  destruct (filter _ l) as [|[i s] [|? ?]] eqn:Hf; [done| |done]. cbn [fst snd].
  assert ((i, s) ∈ filter (fun f => StepRun.status f.2 = StepRunStatus.RUNNING) l) as Hin
    by (rewrite Hf; left).
  apply list_elem_of_filter in Hin as [_ [sid Hl]%(elem_current_step_runs _ _ _ Hc)].
  destruct (latest_step_run_spec _ _ _ _ Hl) as (Hi & <- & _).
  unfold mbind at 1, M_bind at 1, reads.
  destruct (Workflow.get_step _ _) as [step|e] eqn:Hg; [|done].
  unfold step_to at 1, edit_execution, mbind at 1, M_bind at 1. rewrite Hi.
  destruct (StepRun.transition_to _ _ _ _ _ _ _) as [s'|e] eqn:Ht; [|done]. cbn [mbind result_bind].
  set (w1 := World _ _).
  assert (attempts_ok (execution w1)) as Hok1.
  { eapply attempts_ok_step; [done|by eapply step_transition_evolves| |done].
    apply step_transition_Ok in Ht. naive_solver. }
  destruct (_ <=? _) eqn:Hlt; reflect_bools.
  - revert Hok1. generalize w1. change (respects (keeps attempts_ok)
      (run_to WorkflowRunStatus.FAILED ts None (Some "INTERRUPTED_RETRY_EXHAUSTED") ;;
        session_to AgentSessionStatus.FAILED ts ;; create_checkpoint clock id_factory ;;
        raise (A := option nat) (Exn ExecutionNotResumableError
          ("Interrupted step " +:+ StepRun.step_id s +:+ " has no retry remaining")))).
    destruct attempts_primitive. respects_tac.
  - apply append_retry_keeps; [|done]. by eapply interrupted_may_retry.
Qed.

Lemma attempts_operation op : respects (keeps attempts_ok) (perform clock id_factory op).
Proof.
  apply primitive_operations; [typeclasses eauto|..];
    auto using attempts_primitive, attempts_resume_retry, attempts_resume_interrupted.
Qed.
End attempts.

(** ** Creation establishes the invariants *)

Section creation.
Context (clock : nat -> datetime) (id_factory : nat -> string -> string).

Definition first_attempt (run : WorkflowRun.t) (step : WorkflowStep.t) (s : StepRun.t) : Prop :=
  StepRun.workflow_run_id s = WorkflowRun.id run /\ StepRun.step_id s = WorkflowStep.id step /\
  StepRun.attempt s = 1 /\ StepRun.status s = StepRunStatus.CREATED /\
  StepRun.idempotency_key s = WorkflowRun.id run +:+ ":" +:+ WorkflowStep.id step +:+ ":" +:+ int_str 1.

Lemma new_step_runs_Ok run steps ts e l e' :
  new_step_runs id_factory run steps ts e = (Ok l, e') -> Forall2 (first_attempt run) steps l.
Proof.
  revert e l e'. induction steps as [|step steps IH]; intros e l e' H; cbn in H.
  - injection H as <- _. constructor.
  - unfold mbind, M_bind in H.
    destruct (new_step_run _ _ _ _ _ _ _) as [[s|x] e1] eqn:Hs; [|done].
    destruct (new_step_runs _ _ _ _ _) as [[l'|x] e2] eqn:Hl; [|done].
    injection H as <- _. constructor; [by apply new_step_run_Ok in Hs|by eapply IH].
Qed.

Lemma create_workflow_run_Ok w p a k inp prof e x e' :
  create_workflow_run clock id_factory w p a k inp prof e = (Ok x, e') ->
  exists run session steps e1 ts,
    WorkflowRun.status run = WorkflowRunStatus.CREATED /\
    AgentSession.status session = AgentSessionStatus.CREATED /\
    Forall2 (first_attempt run) (Workflow.steps w) steps /\
    (create_checkpoint clock id_factory (World e1 (mk w run session steps []))).2 = World e' x /\
    validate_inputs w inp = Ok tt /\ WorkflowRun.created_at run = ts.
Proof.
  unfold create_workflow_run, first_checkpoint, mbind, M_bind, lift_result, tick, new_id. intros H.
  destruct (validate_inputs w inp) as [[]|err] eqn:Hv; [|done]. cbn [fst snd ticks ids_given] in H.
  destruct (WorkflowRun.post_init _) as [run|err] eqn:Hr; [|done].
  destruct (AgentSession.post_init _) as [session|err] eqn:Hs; [|done].
  destruct (new_step_runs _ _ _ _ _) as [[steps|err] e1] eqn:Hl; [|done].
  destruct (create_checkpoint _ _ _) as [[c|err] [e2 x2]] eqn:Hc; [|done].
  injection H as <- <-. exists run, session, steps, e1, (WorkflowRun.created_at run).
  unfold WorkflowRun.post_init in Hr. rewrite !then_Ok in Hr.
  unfold AgentSession.post_init in Hs. rewrite !then_Ok in Hs.
  destruct Hr as (_ & _ & _ & [= <-]), Hs as (_ & _ & _ & [= <-]).
  rewrite Hc. repeat split; try done. by eapply new_step_runs_Ok.
Qed.

Lemma first_attempts run steps l s :
  Forall2 (first_attempt run) steps l -> s ∈ l ->
  StepRun.attempt s = 1 /\ StepRun.workflow_run_id s = WorkflowRun.id run /\
  StepRun.idempotency_key s = WorkflowRun.id run +:+ ":" +:+ StepRun.step_id s
                                +:+ ":" +:+ int_str (StepRun.attempt s).
Proof.
  intros Hall [i Hi]%list_elem_of_lookup.
  destruct (Forall2_lookup_r _ _ _ _ _ Hall Hi) as (st & _ & (H1 & H2 & H3 & _ & H4)).
  by rewrite H2, H3, H1, H4.
Qed.

(** One attempt of each step, numbered one. *)
Lemma single_attempt (l : list StepRun.t) sid :
  NoDup (StepRun.step_id <$> l) -> (forall s, s ∈ l -> StepRun.attempt s = 1) ->
  StepRun.attempt <$> filter (fun s => StepRun.step_id s = sid) l =
    if decide (sid ∈ StepRun.step_id <$> l) then [1] else [].
Proof.
  induction l as [|s l IH]; intros Hnd Hone; [done|]. rewrite fmap_cons in *.
  apply NoDup_cons in Hnd as [Hn Hnd]. rewrite filter_cons.
  specialize (IH Hnd (fun s' H => Hone s' (list_elem_of_further _ _ _ H))).
  destruct (decide (StepRun.step_id s = sid)) as [<-|Hne].
  - rewrite decide_True by left. rewrite fmap_cons, IH, (decide_False _ _ Hn).
    by rewrite (Hone s (list_elem_of_here _ _)).
  - rewrite IH. destruct (decide (sid ∈ StepRun.step_id <$> l)).
    + by rewrite decide_True by set_solver.
    + by rewrite decide_False by set_solver.
Qed.

Lemma fresh_attempts_ok w run session steps :
  NoDup (Workflow.step_ids w) ->
  (forall step, step ∈ Workflow.steps w -> 1 <= WorkflowStep.max_attempts step) ->
  Forall2 (first_attempt run) (Workflow.steps w) steps ->
  attempts_ok (mk w run session steps []).
Proof.
  intros Hnd Hmax Hall.
  assert (Hids : StepRun.step_id <$> steps = Workflow.step_ids w).
  { unfold Workflow.step_ids. clear -Hall. induction Hall as [|st s l l' (_ & H & _) _ IH]; cbn; congruence. }
  assert (Hatt : forall sid, attempts (mk w run session steps []) sid =
            if decide (sid ∈ Workflow.step_ids w) then [1] else []).
  { intros sid. rewrite <- Hids. apply single_attempt; [by rewrite Hids|].
    intros s Hs. by eapply first_attempts. }
  split; cbn [workflow workflow_run step_runs].
  - done.
  - intros sid. rewrite Hatt. case_decide; [by exists 1%nat|by exists 0%nat].
  - intros step Hin. rewrite Hatt, decide_True by (apply list_elem_of_fmap; by exists step).
    cbn. by apply Hmax.
  - intros s Hin. rewrite <- Hids. apply list_elem_of_fmap. by exists s.
  - intros sid Hin. by rewrite Hatt, decide_True.
  - intros s Hin. by eapply first_attempts.
  - intros i j s s' Hi Hj Hij Heq. exfalso. rewrite <- Hids in Hnd.
    assert (i = j); [|lia]. eapply (NoDup_lookup _ _ _ (StepRun.step_id s) Hnd);
      rewrite list_lookup_fmap; [by rewrite Hi|by rewrite Hj; cbn; rewrite Heq].
Qed.
End creation.
