(* ===== verification/CheckpointFacts.v ===== *)
(** Which checkpoints [_validate_checkpoint] accepts: exactly those whose
    recorded statuses and row versions are the current ones. *)
From S2P Require Import Prelude Errors Text Float Value Json Sha256 Lifecycle Workflow Checkpoint Coordinator CoordinatorFacts.
Local Open Scope string_scope.
Local Open Scope list_scope.
Local Open Scope Z_scope.

Import ExecutionState.

(** ** Reading a snapshot back *)

Lemma dict_get_perm {A} (d d' : list (string * A)) key :
  NoDup d.*1 -> d ≡ₚ d' -> dict_get key d = dict_get key d'.
Proof.
  intros Hnd Hp. assert (NoDup d'.*1) as Hnd' by (by rewrite <- Hp).
  destruct (dict_get key d) as [v|] eqn:H1.
  - apply dict_get_elem in H1. symmetry. apply elem_dict_get; [done|]. by rewrite <- Hp.
  - destruct (dict_get key d') as [v|] eqn:H2; [|done].
    apply dict_get_elem in H2. rewrite <- Hp in H2. apply elem_dict_get in H2; [congruence|done].
Qed.

(** The canonical form of a dictionary, and its entries. *)
Definition canon_dict (d : mapping) : mapping := isort key_leb (map_values canon d).

Lemma canon_dict_get key d :
  NoDup d.*1 -> dict_get key (canon_dict d) = canon <$> dict_get key d.
Proof.
  intros Hnd. rewrite <- dict_get_map_values. symmetry. apply dict_get_perm.
  - by rewrite map_values_keys.
  - symmetry. apply isort_perm.
Qed.

Lemma canon_VDict b d : canon (VDict b d) = VDict false (canon_dict d).
Proof. reflexivity. Qed.

Lemma canon_VList l : canon (VList l) = VList (canon <$> l).
Proof. reflexivity. Qed.

Ltac distinct_keys := apply (bool_decide_unpack _); vm_compute; reflexivity.

Lemma restored_get d key v :
  bool_decide (NoDup d.*1) = true -> dict_get key d = Some v ->
  dict_get key (canon_dict d) = Some (canon v).
Proof. intros Hnd H. by rewrite canon_dict_get, H by (by apply bool_decide_eq_true in Hnd). Qed.

Lemma restored_str d key s t :
  bool_decide (NoDup d.*1) = true -> dict_get key d = Some (VStr s) ->
  equals_str (dict_get key (canon_dict d)) t = true <-> t = s.
Proof. intros Hnd H. rewrite (restored_get _ _ _ Hnd H). cbn. rewrite String.eqb_eq. naive_solver. Qed.

Lemma restored_int d key z n :
  bool_decide (NoDup d.*1) = true -> dict_get key d = Some (VInt z) ->
  equals_int (dict_get key (canon_dict d)) n = true <-> n = z.
Proof. intros Hnd H. rewrite (restored_get _ _ _ Hnd H). cbn. rewrite Z.eqb_eq. naive_solver. Qed.

(** The dictionary [_validate_checkpoint] builds from the restored list. *)
Lemma steps_by_id_restored (l : list StepRun.t) acc :
  NoDup (acc.*1 ++ (StepRun.id <$> l)) ->
  foldl (fun acc item =>
      match item with
      | VDict _ d => match dict_get "id" d with
                     | Some (VStr i) => dict_set i d acc
                     | _ => acc
                     end
      | _ => acc
      end) acc (canon <$> ((fun s => VDict false (step_entry s)) <$> l)) =
  acc ++ ((fun s => (StepRun.id s, canon_dict (step_entry s))) <$> l).
Proof.
  revert acc. induction l as [|s l IH]; intros acc Hnd; cbn [fmap list_fmap foldl].
  - by rewrite app_nil_r.
  - rewrite canon_VDict, (restored_get _ "id" (VStr (StepRun.id s))) by reflexivity. cbn [canon].
    rewrite fmap_cons in Hnd. rewrite dict_set_fresh.
    + rewrite IH; [by rewrite <- app_assoc|]. by rewrite fmap_app, <- app_assoc.
    + apply NoDup_app in Hnd as (_ & Hn & _). intros Hin. apply (Hn _ Hin). left.
Qed.

Lemma step_status_inj a b : StepRunStatus.value a = StepRunStatus.value b -> a = b.
Proof. by destruct a, b. Qed.
Lemma run_status_inj a b : WorkflowRunStatus.value a = WorkflowRunStatus.value b -> a = b.
Proof. by destruct a, b. Qed.
Lemma session_status_inj a b : AgentSessionStatus.value a = AgentSessionStatus.value b -> a = b.
Proof. by destruct a, b. Qed.

(** ** What agreement means *)

(** [x'] is where [x] was when the checkpoint [c] was taken of it. *)
Record same_progress (c : Checkpoint.t) (x x' : ExecutionState.t) : Prop := {
  sp_latest : exists latest, last (checkpoints x') = Some latest /\ Checkpoint.id latest = Checkpoint.id c;
  sp_workflow : Workflow.id (workflow x') = Workflow.id (workflow x) /\
    Workflow.version (workflow x') = Workflow.version (workflow x);
  sp_run : WorkflowRun.id (workflow_run x') = WorkflowRun.id (workflow_run x) /\
    WorkflowRun.status (workflow_run x') = WorkflowRun.status (workflow_run x) /\
    WorkflowRun.row_version (workflow_run x') = WorkflowRun.row_version (workflow_run x);
  sp_session : AgentSession.id (agent_session x') = AgentSession.id (agent_session x) /\
    AgentSession.status (agent_session x') = AgentSession.status (agent_session x) /\
    AgentSession.row_version (agent_session x') = AgentSession.row_version (agent_session x);
  sp_count : List.length (step_runs x') = List.length (step_runs x);
  sp_steps : forall s', s' ∈ step_runs x' -> exists s, s ∈ step_runs x /\
    StepRun.id s = StepRun.id s' /\ StepRun.status s = StepRun.status s' /\
    StepRun.row_version s = StepRun.row_version s'
}.

Lemma check_step_state_restored l s' :
  NoDup (StepRun.id <$> l) ->
  check_step_state ((fun s => (StepRun.id s, canon_dict (step_entry s))) <$> l) s' = Ok tt <->
  exists s, s ∈ l /\ StepRun.id s = StepRun.id s' /\ StepRun.status s = StepRun.status s' /\
    StepRun.row_version s = StepRun.row_version s'.
Proof.
  intros Hnd. unfold check_step_state.
  set (by_id := _ <$> l). assert (by_id.*1 = StepRun.id <$> l) as Hkeys
    by (unfold by_id; by rewrite <- list_fmap_compose).
  destruct (dict_get (StepRun.id s') by_id) as [d|] eqn:Hd.
  - apply dict_get_elem in Hd. unfold by_id in Hd. apply list_elem_of_fmap in Hd as (s & [= Hid ->] & Hs).
    rewrite fail_if_Ok, orb_false_iff, !negb_false_iff.
    rewrite (restored_get _ "status" (VStr (StepRunStatus.value (StepRun.status s)))) by reflexivity.
    rewrite (restored_get _ "row_version" (VInt (StepRun.row_version s))) by reflexivity.
    cbn [canon equals_str equals_int]. rewrite String.eqb_eq, Z.eqb_eq. split.
    + intros [H1 H2]. exists s. split; [done|]. split; [done|]. split; [|done]. by apply step_status_inj.
    + intros (t & Ht & Hi & Hst & Hv). assert (t = s) as ->; [|split; congruence].
      apply list_elem_of_lookup in Ht as [a Ha], Hs as [b Hb].
      assert (a = b); [|congruence]. eapply (NoDup_lookup _ _ _ (StepRun.id s') Hnd);
        rewrite list_lookup_fmap; [by rewrite Ha; cbn; rewrite Hi|by rewrite Hb; cbn; rewrite Hid].
  - split; [done|]. intros (s & Hs & Hi & _). exfalso.
    rewrite (elem_dict_get (StepRun.id s') by_id (canon_dict (step_entry s))) in Hd; [done|..].
    + by rewrite Hkeys.
    + rewrite <- Hi. unfold by_id. apply list_elem_of_fmap. by exists s.
Qed.

(** A checkpoint of [x]: the record [create_checkpoint] appends. *)
Definition checkpoint_of (x : ExecutionState.t) (c : Checkpoint.t) : Prop :=
  exists i n ts p, Checkpoint.create i (WorkflowRun.id (workflow_run x))
    (AgentSession.id (agent_session x)) n (snapshot x) ts p = Ok c.

Lemma check_field_Ok state key test m :
  check_field (VDict false state) key test m = Ok tt <-> test (dict_get key state) = true.
Proof. unfold check_field. cbn. by rewrite fail_if_Ok, negb_false_iff. Qed.

Lemma restored_steps (l l' : list StepRun.t) :
  NoDup (StepRun.id <$> l) ->
  let by_id := (fun s => (StepRun.id s, canon_dict (step_entry s))) <$> l in
  (List.length by_id =? List.length l')%nat = true /\ each_ok (check_step_state by_id) l' = Ok tt <->
  List.length l' = List.length l /\
  forall s', s' ∈ l' -> exists s, s ∈ l /\ StepRun.id s = StepRun.id s' /\
    StepRun.status s = StepRun.status s' /\ StepRun.row_version s = StepRun.row_version s'.
Proof.
  intros Hnd by_id. unfold by_id. rewrite length_fmap, Nat.eqb_eq, each_ok_Ok.
  setoid_rewrite check_step_state_restored; [|done]. split; intros [? ?]; split; done.
Qed.

(** The guards one after the other, on the restored state of [x]. *)
Lemma validate_fields x c x' st :
  NoDup (StepRun.id <$> step_runs x) ->
  Checkpoint.restore_state c = Ok (canon_dict (snapshot x)) ->
  Checkpoint.workflow_run_id c = WorkflowRun.id (workflow_run x) ->
  Checkpoint.agent_session_id c = AgentSession.id (agent_session x) ->
  validate_checkpoint x' c = Ok st <-> st = canon_dict (snapshot x) /\ same_progress c x x'.
Proof.
  intros Hnd Hrestore Hrid Haid. unfold validate_checkpoint, latest_checkpoint.
  destruct (last (checkpoints x')) as [latest|] eqn:Hl; cbn [mbind result_bind];
    [|split; [done|intros (_ & [(l & ? & _)]); congruence]].
  rewrite Hrestore. rewrite !then_Ok, !fail_if_Ok, !negb_false_iff. cbn [mbind result_bind].
  rewrite (restored_get _ "workflow" (VDict false (workflow_entry (workflow x)))) by reflexivity.
  rewrite (restored_get _ "workflow_run" (VDict false (run_entry (workflow_run x)))) by reflexivity.
  rewrite (restored_get _ "agent_session" (VDict false (session_entry (agent_session x)))) by reflexivity.
  rewrite (restored_get _ "step_runs"
    (VList ((fun s => VDict false (step_entry s)) <$> step_runs x))) by reflexivity.
  cbn [default from_option]. rewrite !canon_VDict, canon_VList. unfold id.
  rewrite !then_Ok, !check_field_Ok, fail_if_Ok, negb_false_iff, !String.eqb_eq.
  rewrite !(restored_str (workflow_entry _) "id" (Workflow.id (workflow x))) by reflexivity.
  rewrite !(restored_str (workflow_entry _) "version" (Workflow.version (workflow x))) by reflexivity.
  rewrite !(restored_str (run_entry _) "id" (WorkflowRun.id (workflow_run x))) by reflexivity.
  rewrite (restored_str (run_entry _) "status"
    (WorkflowRunStatus.value (WorkflowRun.status (workflow_run x)))) by reflexivity.
  rewrite (restored_int (run_entry _) "row_version" (WorkflowRun.row_version (workflow_run x))) by reflexivity.
  rewrite !(restored_str (session_entry _) "id" (AgentSession.id (agent_session x))) by reflexivity.
  rewrite (restored_str (session_entry _) "status"
    (AgentSessionStatus.value (AgentSession.status (agent_session x)))) by reflexivity.
  rewrite (restored_int (session_entry _) "row_version" (AgentSession.row_version (agent_session x))) by reflexivity.
  unfold steps_by_id. rewrite (steps_by_id_restored _ []) by done. cbn [app].
  pose proof (restored_steps (step_runs x) (step_runs x') Hnd) as Hsteps. cbn zeta in Hsteps.
  split.
  - intros (? & ? & ? & ? & ? & ? & Hrs & ? & ? & Hss & ? & Hlen & Heach & [= <-]).
    destruct (proj1 Hsteps (conj Hlen Heach)). split; [done|]. split; try done.
    + by exists latest.
    + split; [done|]. split; [by apply run_status_inj|done].
    + split; [done|]. split; [by apply session_status_inj|done].
  - intros (-> & [(l & Hl' & Hid) [? ?] (? & Hrs & ?) (? & Hss & ?) ? ?]).
    destruct (proj2 Hsteps) as [? ?]; [done|]. rewrite Hrs, Hss. repeat split; congruence.
Qed.

Lemma validate_checkpoint_iff x c x' :
  json_ready (VDict false (snapshot x)) = true -> NoDup (StepRun.id <$> step_runs x) ->
  checkpoint_of x c ->
  is_ok (validate_checkpoint x' c) = true <-> same_progress c x x'.
Proof.
  intros Hready Hnd (i & n & ts & p & Hc).
  assert (Hrestore : Checkpoint.restore_state c = Ok (canon_dict (snapshot x))).
  { pose proof (checkpoint_create_verifies _ _ _ _ _ _ _ _ Hc) as Hv.
    apply checkpoint_create_Ok in Hc as (js & Hj & -> & _). unfold Checkpoint.restore_state.
    rewrite Hv. cbn [mbind result_bind Checkpoint.state_json].
    by rewrite (loads_dumps _ _ Hready Hj). }
  apply checkpoint_create_Ok in Hc as (js & Hj & -> & _).
  rewrite is_ok_exists. split.
  - by intros (st & [_ H]%(validate_fields x)).
  - intros H. eexists. by apply (validate_fields x).
Qed.

Lemma raises_check_field d key test m :
  raises_only CheckpointMismatchError (check_field (VDict false d) key test m).
Proof. unfold check_field. cbn. raises_tac. Qed.

Lemma raises_check_step by_id s :
  raises_only CheckpointMismatchError (check_step_state by_id s).
Proof. unfold check_step_state, mismatch. raises_tac. Qed.

#[export] Hint Resolve raises_check_step : reagent.

Lemma restored_state x c :
  json_ready (VDict false (snapshot x)) = true -> checkpoint_of x c ->
  Checkpoint.restore_state c = Ok (canon_dict (snapshot x)).
Proof.
  intros Hready (i & n & ts & p & Hc).
  pose proof (checkpoint_create_verifies _ _ _ _ _ _ _ _ Hc) as Hv.
  apply checkpoint_create_Ok in Hc as (js & Hj & -> & _). unfold Checkpoint.restore_state.
  rewrite Hv. cbn [mbind result_bind Checkpoint.state_json].
  by rewrite (loads_dumps _ _ Hready Hj).
Qed.

(** A genuine checkpoint is refused only as a mismatch. *)
Lemma validate_raises x c x' :
  json_ready (VDict false (snapshot x)) = true -> checkpoint_of x c ->
  raises_only CheckpointMismatchError (validate_checkpoint x' c).
Proof.
  intros Hready Hc. pose proof (restored_state _ _ Hready Hc) as Hrestore.
  unfold validate_checkpoint, latest_checkpoint, mismatch. rewrite Hrestore.
  destruct (last (checkpoints x')) as [latest|]; cbn [mbind result_bind]; [|raises_tac].
  do 3 (apply raises_bind; [by apply raises_fail_if|intros _ _]).
  rewrite (restored_get _ "workflow" (VDict false (workflow_entry (workflow x)))) by reflexivity.
  rewrite (restored_get _ "workflow_run" (VDict false (run_entry (workflow_run x)))) by reflexivity.
  rewrite (restored_get _ "agent_session" (VDict false (session_entry (agent_session x)))) by reflexivity.
  cbn [default from_option]. rewrite !canon_VDict. unfold id.
  do 8 (apply raises_bind; [apply raises_check_field|intros _ _]).
  unfold mismatch. raises_tac.
Qed.
