(* ===== verification/CoordinatorSpec.v ===== *)
(** The properties of the domain coordinator, with witnesses that run it. *)
From S2P Require Import Prelude Errors Text Float Value Json Sha256 Lifecycle Workflow Checkpoint Coordinator CoordinatorFacts CheckpointFacts.
From Stdlib Require Import SpecFloat.
Local Open Scope string_scope.
Local Open Scope list_scope.
Local Open Scope Z_scope.

Import ExecutionState.

Section properties.
Context (clock : nat -> datetime) (id_factory : nat -> string -> string).

(** C15: from its creation on, and through every sequence of coordinator
    operations, whether they return or raise, the agent session has the
    status that belongs to the status of its workflow run. *)
Theorem session_matches_run w p a k inp prof e x e' ops :
  create_workflow_run clock id_factory w p a k inp prof e = (Ok x, e') ->
  coherent (execution (perform_all clock id_factory (World e' x) ops)).
Proof.
  intros (run & session & steps & e1 & ts & Hr & Hs & _ & Hx & _)%create_workflow_run_Ok.
  apply (perform_all_respects clock id_factory (keeps coherent));
    [apply coherent_operation|]. cbn [execution].
  pose proof (coherent_checkpoint clock id_factory (World e1 (mk w run session steps []))) as H.
  rewrite Hx in H. apply H. unfold coherent. cbn. by rewrite Hr, Hs.
Qed.

(** The checkpoints of an execution always form one chain: numbered from
    one without gaps, each naming the one before as its parent, all of this
    run and session, each verifying against its hash. *)
Theorem checkpoint_chain w p a k inp prof e x e' ops :
  create_workflow_run clock id_factory w p a k inp prof e = (Ok x, e') ->
  chain_ok (execution (perform_all clock id_factory (World e' x) ops)).
Proof.
  intros (run & session & steps & e1 & ts & _ & _ & _ & Hx & _)%create_workflow_run_Ok.
  apply (perform_all_respects clock id_factory (keeps chain_ok)).
  - apply simple_operations; [typeclasses eauto|apply chain_primitive|apply chain_retry].
  - cbn [execution].
    pose proof (chain_checkpoint clock id_factory (World e1 (mk w run session steps []))) as H.
    rewrite Hx in H. apply H. intros i c Hi. done.
Qed.

(** C14: for an accepted workflow, the attempts of every step are numbered
    one, two, ... without gaps, never more of them than the step allows;
    each has the key of its run, step and attempt, so no two attempts share
    one, and an attempt is only followed by another when it failed. *)
Theorem attempts_numbered_and_bounded w p a k inp prof e x e' ops :
  NoDup (Workflow.step_ids w) ->
  (forall step, step ∈ Workflow.steps w -> 1 <= WorkflowStep.max_attempts step) ->
  create_workflow_run clock id_factory w p a k inp prof e = (Ok x, e') ->
  attempts_ok (execution (perform_all clock id_factory (World e' x) ops)).
Proof.
  intros Hnd Hmax (run & session & steps & e1 & ts & _ & _ & Hall & Hx & _)%create_workflow_run_Ok.
  apply (perform_all_respects clock id_factory (keeps attempts_ok));
    [apply attempts_operation|]. cbn [execution].
  pose proof (ps_checkpoint _ _ _ (attempts_primitive clock id_factory)
                (World e1 (mk w run session steps []))) as H.
  rewrite Hx in H. apply H. by apply fresh_attempts_ok.
Qed.

(** Operations only extend the history: the workflow, the run and the
    session stay the same objects, statuses move along the transition
    tables, no checkpoint is changed or removed, and a step attempt keeps its
    place, its identity and, once terminal, its contents. *)
Theorem history_only_grows w ops :
  evolves (execution w) (execution (perform_all clock id_factory w ops)).
Proof.
  apply (perform_all_respects clock id_factory evolves).
  apply simple_operations; [typeclasses eauto|apply evolves_primitive|apply evolves_retry].
Qed.

(** C16: the checkpoint [create_checkpoint] has just returned can be resumed
    from, and it stays resumable exactly as long as it is the latest and no
    status or row version has moved; otherwise [resume_from_checkpoint]
    raises [CheckpointMismatchError] and leaves everything as it was. *)
Theorem only_current_checkpoint_resumes w0 c w1 :
  json_ready (VDict false (snapshot (execution w0))) = true ->
  NoDup (StepRun.id <$> step_runs (execution w0)) ->
  create_checkpoint clock id_factory w0 = (Ok c, w1) ->
  is_ok (validate_checkpoint (execution w1) c) = true /\
  forall w2, ~ same_progress c (execution w0) (execution w2) ->
    exists m, resume_from_checkpoint clock id_factory c w2
              = (Err (Exn CheckpointMismatchError m), w2).
Proof.
  intros Hready Hnd Hc.
  destruct (create_checkpoint_cases clock id_factory w0)
    as [[[err He] _]|(i & ts & c' & Hcr & H1 & H2)]; [by rewrite Hc in He|].
  rewrite Hc in H1, H2. cbn in H1, H2. injection H1 as <-.
  assert (checkpoint_of (execution w0) c) as Hof by (by eexists _, _, _, _).
  split.
  - apply (validate_checkpoint_iff (execution w0)); [done..|]. rewrite H2.
    split; cbn; try done; [by exists c; rewrite last_snoc|].
    intros s Hs. by exists s.
  - intros w2 Hne. unfold resume_from_checkpoint, mbind at 1, M_bind at 1, reads at 1.
    destruct (validate_checkpoint (execution w2) c) as [st|[kd m]] eqn:Hv.
    + exfalso. apply Hne. apply (validate_checkpoint_iff (execution w0) c); [done..|]. by rewrite Hv.
    + pose proof (validate_raises _ _ _ Hready Hof _ Hv) as Hk. cbn in Hk. subst. by exists m.
Qed.
End properties.

(** ** Witnesses *)

Definition test_clock (n : nat) : datetime := epoch (Z.of_nat n).
Definition test_ids (n : nat) (prefix : string) : string := prefix +:+ "_" +:+ int_str (Z.of_nat n).

Abbreviation create_sample :=
  (create_workflow_run test_clock test_ids (sample_workflow []) "project" "user" "key"
    (VDict false [("topic", VStr "proofs")]) "agent@1" (Env 0 0)).

Lemma outcome_Ok {A} (r : res A * env) : is_ok r.1 = true -> exists a e, r = (Ok a, e).
Proof. destruct r as [[a|x] e]; [eauto|done]. Qed.

Lemma create_sample_Ok : exists x e, create_sample = (Ok x, e).
Proof. apply outcome_Ok. vm_compute. reflexivity. Qed.

(** The state after the operations, from a new run. *)
Definition after (created : res ExecutionState.t * env) (ops : list operation) :
    option ExecutionState.t :=
  match created with
  | (Ok x, e) => Some (execution (perform_all test_clock test_ids (World e x) ops))
  | _ => None
  end.

Definition start_plan : list operation :=
  [OpStart; OpReady "plan" None false; OpUpdate "plan" StepRunStatus.RUNNING None None false].

Example retry_scheduled :
  (fun x => (WorkflowRun.status (workflow_run x), WorkflowRun.wait_reason (workflow_run x)))
    <$> after create_sample (start_plan ++ [OpUpdate "plan" StepRunStatus.FAILED None (Some "X") true])
  = Some (WorkflowRunStatus.RETRY_SCHEDULED, Some "retry:plan").
Proof. vm_compute. reflexivity. Qed.

Lemma sample_steps_valid :
  NoDup (Workflow.step_ids (sample_workflow [])) /\
  forall step, step ∈ Workflow.steps (sample_workflow []) -> 1 <= WorkflowStep.max_attempts step.
Proof.
  split; [apply (bool_decide_unpack _); vm_compute; reflexivity|].
  intros step Hs. cbn in Hs. rewrite !elem_of_cons, elem_of_nil in Hs.
  by destruct Hs as [-> |[-> |[-> |[]]]].
Qed.

Lemma session_matches_run_witness :
  exists x e, create_sample = (Ok x, e) /\
    coherent (execution (perform_all test_clock test_ids (World e x) (start_plan ++ [OpFail "E"; OpCancel]))).
Proof.
  destruct create_sample_Ok as (x & e & H). exists x, e. split; [exact H|].
  exact (session_matches_run test_clock test_ids _ _ _ _ _ _ _ x e (start_plan ++ [OpFail "E"; OpCancel]) H).
Defined.

Lemma checkpoint_chain_witness :
  exists x e, create_sample = (Ok x, e) /\
    chain_ok (execution (perform_all test_clock test_ids (World e x) (start_plan ++ [OpCheckpoint]))).
Proof.
  destruct create_sample_Ok as (x & e & H). exists x, e. split; [exact H|].
  exact (checkpoint_chain test_clock test_ids _ _ _ _ _ _ _ x e (start_plan ++ [OpCheckpoint]) H).
Defined.

Lemma attempts_numbered_and_bounded_witness :
  exists x e, create_sample = (Ok x, e) /\
    attempts_ok (execution (perform_all test_clock test_ids (World e x) start_plan)).
Proof.
  destruct create_sample_Ok as (x & e & H). exists x, e. split; [exact H|]. destruct sample_steps_valid as [Hnd Hmax].
  exact (attempts_numbered_and_bounded test_clock test_ids _ _ _ _ _ _ _ x e start_plan Hnd Hmax H).
Defined.

Definition bare_world : world :=
  World (Env 0 0)
    (mk (sample_workflow []) sample_run
       (AgentSession.mk "agent_1" "p" "run_1" "x" "primary" AgentSessionStatus.CREATED [] 0 (epoch 0) (epoch 0))
       [sample_step] []).

Lemma bare_checkpoint : exists c w1, create_checkpoint test_clock test_ids bare_world = (Ok c, w1).
Proof.
  assert (is_ok (create_checkpoint test_clock test_ids bare_world).1 = true) as H
    by (vm_compute; reflexivity).
  destruct (create_checkpoint test_clock test_ids bare_world) as [[c|err] w1]; [by eexists _, _|done].
Qed.

Lemma only_current_checkpoint_resumes_witness :
  exists c w1, create_checkpoint test_clock test_ids bare_world = (Ok c, w1) /\
    is_ok (validate_checkpoint (execution w1) c) = true.
Proof.
  destruct bare_checkpoint as (c & w1 & H). exists c, w1. split; [exact H|].
  refine (proj1 (only_current_checkpoint_resumes test_clock test_ids bare_world c w1 _ _ H)).
  - vm_compute. reflexivity.
  - apply (bool_decide_unpack _). vm_compute. reflexivity.
Defined.
