(* ===== verification/CancelFacts.v ===== *)
(** Cancellation always goes through: from any open state of an execution the
    coordinator reaches [CANCELLED] with every attempt closed. *)
From S2P Require Import Prelude Errors Text Float Value Json Sha256 Lifecycle Workflow Checkpoint Coordinator CoordinatorFacts CoordinatorSpec.
From Stdlib Require Import SpecFloat.
Local Open Scope string_scope.
Local Open Scope list_scope.
Local Open Scope Z_scope.

Import ExecutionState.

Section cancel.
Context (clock : nat -> datetime) (id_factory : nat -> string -> string).
Context (clock_aware : forall n, is_aware (clock n) = true).
Context (ids_set : forall n p, is_blank (id_factory n p) = false).

(** ** The checkpoint *)

Lemma thawed_dict d : thawed (VDict false (thaw_mapping d)) = true.
Proof. exact (thaw_thawed (VDict false d)). Qed.

Lemma snapshot_thawed x : thawed (VDict false (snapshot x)) = true.
Proof.
  assert (Ho : forall o, thawed (str_or_none o) = true) by (by intros []).
  assert (He : forall s, thawed (VDict false (step_entry s)) = true).
  { intros s. cbn -[thaw_mapping]. rewrite Ho. pose proof (thawed_dict (StepRun.outputs s)) as H.
    cbn in H. by rewrite H. }
  cbn -[thaw_mapping fmap]. rewrite !Ho.
  pose proof (thawed_dict (WorkflowRun.outputs (workflow_run x))) as H. cbn in H. rewrite H. cbn -[fmap].
  rewrite andb_true_r. apply forallb_forall. intros v Hv. apply list_elem_of_In, list_elem_of_fmap in Hv.
  destruct Hv as (s & -> & _). apply He.
Qed.

Lemma snapshot_text x : exists js, json_dumps (VDict false (snapshot x)) = Ok js /\ is_blank js = false.
Proof.
  destruct (write_thawed _ (snapshot_thawed x)) as [t Ht].
  exists (String.string_of_list_ascii t). unfold json_dumps. rewrite Ht. split; [done|].
  cbn [write_value] in Ht. destruct (map_ok _ (snapshot x)) as [ts|]; [|done].
  cbn [mbind result_bind] in Ht. injection Ht as <-.
  unfold is_blank. rewrite String.list_ascii_of_string_of_list_ascii.
  destruct (comma_separated _); cbn; [done|]. by destruct l.
Qed.

Lemma create_checkpoint_total w :
  is_blank (WorkflowRun.id (workflow_run (execution w))) = false ->
  is_blank (AgentSession.id (agent_session (execution w))) = false ->
  exists c w', create_checkpoint clock id_factory w = (Ok c, w') /\
    execution w' = mk (workflow (execution w)) (workflow_run (execution w))
      (agent_session (execution w)) (step_runs (execution w)) (checkpoints (execution w) ++ [c]).
Proof.
  intros Hr Ha. destruct (snapshot_text (execution w)) as (js & Hjs & Hb).
  unfold create_checkpoint, now, on_env, new_id, tick, gets, lift_result, append_checkpoint,
    edit_execution, mbind, M_bind. cbn [environment execution ticks ids_given].
  unfold Checkpoint.create. rewrite Hjs. cbn [mbind result_bind].
  unfold Checkpoint.post_init.
  rewrite (proj2 (require_all_non_empty_Ok _ tt)).
  2:{ cbn. intros v n. rewrite !elem_of_cons, elem_of_nil.
      pose proof (sha256_hex_not_blank js). pose proof (ids_set (ids_given (environment w)) "checkpoint").
      intros [[= -> _]|[[= -> _]|[[= -> _]|[[= -> _]|[[= -> _]|[]]]]]]; done. }
  cbn [mbind result_bind Checkpoint.sequence Checkpoint.created_at].
  rewrite (proj2 (fail_if_Ok _ _ tt)) by (apply Z.leb_gt; cbn; lia). cbn [mbind result_bind].
  rewrite (proj2 (require_aware_Ok _ _ tt)) by done. cbn. by eexists _, _.
Qed.

(** ** The steps *)

Lemma current_total x :
  attempts_ok x -> exists l, current_step_runs x = Ok l /\
    forall sid, sid ∈ Workflow.step_ids (workflow x) -> exists f, f ∈ l /\ latest_step_run x sid = Ok f.
Proof.
  intros Hok. unfold current_step_runs.
  assert (forall step, step ∈ Workflow.steps (workflow x) ->
            exists f, latest_step_run x (WorkflowStep.id step) = Ok f) as Hex.
  { intros step Hs. apply latest_exists, (ao_present _ Hok), list_elem_of_fmap. by exists step. }
  unfold Workflow.step_ids. induction (Workflow.steps (workflow x)) as [|step l IH].
  - exists []. split; [done|]. intros sid Hs. by apply elem_of_nil in Hs.
  - destruct (Hex step) as [f Hf]; [left|]. destruct IH as (fs & Hfs & Hall); [intros; apply Hex; by right|].
    exists (f :: fs). cbn [map_ok]. rewrite Hf, Hfs. split; [done|].
    intros sid Hs. rewrite fmap_cons in Hs. apply elem_of_cons in Hs as [->|Hs].
    + exists f. split; [left|done].
    + destruct (Hall sid Hs) as (g & Hg & ?). exists g. split; [by right|done].
Qed.

Lemma cancel_step_spec ts f w s :
  is_aware ts = true -> step_runs (execution w) !! f.1 = Some s ->
  exists s', cancel_step ts f w = (Ok tt, World (environment w)
      (mk (workflow (execution w)) (workflow_run (execution w)) (agent_session (execution w))
         (<[f.1 := s']> (step_runs (execution w))) (checkpoints (execution w)))) /\
    StepRunStatus.is_terminal (StepRun.status s') = true /\ step_evolves s s'.
Proof.
  intros Hts Hi. unfold cancel_step, mbind, M_bind, gets. rewrite Hi.
  destruct (StepRunStatus.is_terminal (StepRun.status s)) eqn:Ht.
  - exists s. rewrite list_insert_id by done. split; [|by split].
    by destruct w as [e []].
  - destruct (step_transition_legal ts s StepRunStatus.CANCELLED (Some ts) None None) as [s' Hs'].
    { by destruct (StepRun.status s); cbn in *; try done; set_solver. }
    { done. }
    exists s'. unfold step_to, edit_execution. rewrite Hi, Hs'. split; [done|]. split.
    + apply step_transition_Ok in Hs' as (_ & -> & _). done.
    + by eapply step_transition_evolves.
Qed.

Definition indexed (x : ExecutionState.t) (l : list (nat * StepRun.t)) : Prop :=
  forall f, f ∈ l -> is_Some (step_runs x !! f.1).

Lemma cancel_steps_spec ts l w :
  is_aware ts = true -> indexed (execution w) l ->
  exists steps, for_each (cancel_step ts) l w = (Ok tt, World (environment w)
      (mk (workflow (execution w)) (workflow_run (execution w)) (agent_session (execution w))
         steps (checkpoints (execution w)))) /\
    List.length steps = List.length (step_runs (execution w)) /\
    (forall i s, step_runs (execution w) !! i = Some s -> exists s', steps !! i = Some s' /\ step_evolves s s') /\
    (forall f s', f ∈ l -> steps !! f.1 = Some s' -> StepRunStatus.is_terminal (StepRun.status s') = true).
Proof.
  intros Hts. revert w. induction l as [|f l IH]; intros w Hl; cbn [for_each].
  - exists (step_runs (execution w)). split; [by destruct w as [e []]|]. split; [done|].
    split; [by intros i s Hi; exists s|]. intros f s' Hf. by apply elem_of_nil in Hf.
  - destruct (Hl f) as [s Hs]; [left|].
    destruct (cancel_step_spec ts f w s Hts Hs) as (s1 & Hrun & Hterm & Hev).
    unfold mbind, M_bind. rewrite Hrun. set (w1 := World _ _).
    assert (Hstep : forall i s0, step_runs (execution w) !! i = Some s0 ->
      exists s', step_runs (execution w1) !! i = Some s' /\ step_evolves s0 s').
    { intros i s0 Hi. cbn. destruct (decide (f.1 = i)) as [<-|Hne].
      - exists s1. simplify_eq. by rewrite list_lookup_insert_eq by (by eapply lookup_lt_Some).
      - exists s0. by rewrite list_lookup_insert_ne. }
    destruct (IH w1) as (steps & -> & Hlen & Hevs & Hdone).
    { intros g Hg. destruct (Hl g) as [s0 Hs0]; [by right|]. destruct (Hstep _ _ Hs0) as (? & ? & _). eauto. }
    exists steps. split; [done|]. split; [by rewrite Hlen; cbn; rewrite length_insert|]. split.
    + intros i s0 Hi. destruct (Hstep i s0 Hi) as (s' & Hi' & H1).
      destruct (Hevs i s' Hi') as (s'' & H2 & H3). exists s''. split; [done|]. by etrans.
    + intros g s' [->|Hg]%elem_of_cons Hg'; [|by eapply Hdone].
      destruct (Hevs f.1 s1) as (s'' & H2 & (_ & _ & _ & _ & _ & _ & H3)).
      { cbn. by rewrite list_lookup_insert_eq by (by eapply lookup_lt_Some). }
      simplify_eq. by rewrite (H3 Hterm).
Qed.

(** Once the current attempts are closed, so are all the others: they failed
    before their step was retried. *)
Lemma all_terminal x (l : list (nat * StepRun.t)) (steps : list StepRun.t) :
  attempts_ok x ->
  (forall sid, sid ∈ Workflow.step_ids (workflow x) -> exists f, f ∈ l /\ latest_step_run x sid = Ok f) ->
  List.length steps = List.length (step_runs x) ->
  (forall i s, step_runs x !! i = Some s -> exists s', steps !! i = Some s' /\ step_evolves s s') ->
  (forall f s', f ∈ l -> steps !! f.1 = Some s' -> StepRunStatus.is_terminal (StepRun.status s') = true) ->
  forall s, s ∈ steps -> StepRunStatus.is_terminal (StepRun.status s) = true.
Proof.
  intros Hok Hcur Hlen Hev Hdone s [i Hi]%list_elem_of_lookup.
  assert (exists s0, step_runs x !! i = Some s0) as [s0 Hs0].
  { apply lookup_lt_is_Some. rewrite <- Hlen. by eapply lookup_lt_Some. }
  destruct (Hev i s0 Hs0) as (s' & Hs' & (_ & _ & _ & _ & _ & _ & Hfix)). simplify_eq.
  destruct (Hcur (StepRun.step_id s0)) as ([j sl] & Hin & Hlatest).
  { eapply (ao_known _ Hok), list_elem_of_lookup_2, Hs0. }
  destruct (decide (i = j)) as [->|Hij]; [by apply (Hdone (j, sl))|].
  destruct (latest_numbered _ _ _ _ Hok Hlatest) as (_ & _ & Hfailed).
  specialize (Hfailed i s0 Hs0 eq_refl Hij). rewrite Hfix; by rewrite Hfailed.
Qed.

(** ** Run and session *)

Lemma lockstep_legal tg at_ rs cd w :
  coherent (execution w) -> is_aware at_ = true ->
  tg ∈ WorkflowRunStatus.transitions (WorkflowRun.status (workflow_run (execution w))) ->
  exists w1 w2, run_to tg at_ rs cd w = (Ok tt, w1) /\
    session_to (session_of tg) at_ w1 = (Ok tt, w2) /\ coherent (execution w2) /\
    WorkflowRun.status (workflow_run (execution w2)) = tg /\
    step_runs (execution w2) = step_runs (execution w) /\
    WorkflowRun.id (workflow_run (execution w2)) = WorkflowRun.id (workflow_run (execution w)) /\
    AgentSession.id (agent_session (execution w2)) = AgentSession.id (agent_session (execution w)).
Proof.
  intros Hc Ha Ht.
  destruct (lockstep tg at_ rs cd w Hc) as [[e He]|(w1 & w2 & H1 & H2 & H3 & H4)].
  - exfalso. unfold run_to, edit_execution in He.
    destruct (run_transition_legal at_ (workflow_run (execution w)) tg (Some at_) rs cd Ht Ha) as [r Hr].
    by rewrite Hr in He.
  - exists w1, w2. repeat (split; [done|]).
    unfold run_to, edit_execution in H1.
    destruct (WorkflowRun.transition_to _ _ _ _ _ _) as [r|] eqn:Hr; [|done]. injection H1 as <-.
    apply run_transition_Ok in Hr as (_ & _ & _ & Hi & _).
    unfold session_to, edit_execution in H2. cbn in H2.
    destruct (AgentSession.transition_to _ _ _ _) as [a|] eqn:Hs; [|done]. injection H2 as <-.
    apply session_transition_Ok in Hs as (_ & _ & _ & Hi'). by cbn.
Qed.

Lemma cancel_both_total ts w :
  coherent (execution w) -> is_aware ts = true ->
  WorkflowRunStatus.CANCELLING ∈ WorkflowRunStatus.transitions (WorkflowRun.status (workflow_run (execution w))) ->
  exists w', cancel_both ts w = (Ok tt, w') /\ coherent (execution w') /\
    WorkflowRun.status (workflow_run (execution w')) = WorkflowRunStatus.CANCELLED /\
    step_runs (execution w') = step_runs (execution w) /\
    WorkflowRun.id (workflow_run (execution w')) = WorkflowRun.id (workflow_run (execution w)) /\
    AgentSession.id (agent_session (execution w')) = AgentSession.id (agent_session (execution w)).
Proof.
  intros Hc Ha Ht. unfold cancel_both, mbind, M_bind.
  destruct (lockstep_legal WorkflowRunStatus.CANCELLING ts None None w Hc Ha Ht)
    as (w1 & w2 & H1 & H2 & Hc2 & Hs2 & Hsteps & Hi & Hi').
  cbn [session_of] in H2. rewrite H1, H2.
  destruct (lockstep_legal WorkflowRunStatus.CANCELLED ts None None w2 Hc2 Ha)
    as (w3 & w4 & H3 & H4 & Hc4 & Hs4 & Hsteps4 & Hi4 & Hi4').
  { rewrite Hs2. cbn. set_solver. }
  cbn [session_of] in H4. rewrite H3, H4. exists w4. repeat split; congruence.
Qed.

(** C33: as long as the clock gives aware timestamps and the factory
    identifiers, an open execution that is not already being cancelled can
    be cancelled: the call returns a checkpoint, the run and the session are
    [CANCELLED], and every attempt of every step is terminal. *)
Theorem cancellation_completes w :
  coherent (execution w) -> attempts_ok (execution w) ->
  is_blank (WorkflowRun.id (workflow_run (execution w))) = false ->
  is_blank (AgentSession.id (agent_session (execution w))) = false ->
  WorkflowRunStatus.is_terminal (WorkflowRun.status (workflow_run (execution w))) = false ->
  WorkflowRun.status (workflow_run (execution w)) <> WorkflowRunStatus.CANCELLING ->
  exists c w', cancel_execution clock id_factory w = (Ok c, w') /\
    WorkflowRun.status (workflow_run (execution w')) = WorkflowRunStatus.CANCELLED /\
    AgentSession.status (agent_session (execution w')) = AgentSessionStatus.CANCELLED /\
    forall s, s ∈ step_runs (execution w') -> StepRunStatus.is_terminal (StepRun.status s) = true.
Proof.
  intros Hc Hok Hr Ha Hterm Hne.
  destruct (current_total _ Hok) as (l & Hl & Hcur).
  unfold cancel_execution, mbind at 1, M_bind at 1, gets at 1. rewrite Hterm.
  unfold raise_if, mbind at 1, M_bind at 1, mret at 1, M_ret at 1.
  unfold now, on_env, tick, mbind at 1, M_bind at 1.
  set (ts := clock _). set (w0 := World _ _).
  unfold mbind at 1, M_bind at 1, reads at 1. change (execution w0) with (execution w). rewrite Hl.
  destruct (cancel_steps_spec ts l w0) as (steps & Hrun & Hlen & Hev & Hdone).
  { apply clock_aware. }
  { intros f Hf. destruct (elem_current_step_runs _ _ _ Hl Hf) as [sid Hs]. destruct f as [i s].
    apply latest_step_run_spec in Hs as (Hi & _). eauto. }
  unfold mbind at 1, M_bind at 1. rewrite Hrun.
  set (w1 := World (environment w0) _).
  destruct (cancel_both_total ts w1) as (w2 & Hboth & Hc2 & Hs2 & Hsteps2 & Hi2 & Hi2');
    [done|apply clock_aware| |].
  { change (workflow_run (execution w1)) with (workflow_run (execution w)).
    destruct (WorkflowRun.status (workflow_run (execution w))); cbn in *; try done; set_solver. }
  unfold mbind at 1, M_bind at 1. rewrite Hboth.
  destruct (create_checkpoint_total w2) as (c & w3 & Hcp & Hx3); [by rewrite Hi2|by rewrite Hi2'|].
  rewrite Hcp. exists c, w3. rewrite Hx3. cbn [workflow_run agent_session step_runs].
  split; [done|]. split; [done|]. split; [by rewrite Hc2, Hs2|].
  rewrite Hsteps2. by eapply (all_terminal (execution w)).
Qed.

(** [fail_execution] is not fit for a run that waits: it first closes the
    current step attempts and only then finds that the run may not fail, so
    it raises [InvalidStateTransition] and leaves a waiting run and session
    whose current attempts are all terminal. *)
Theorem fail_while_waiting_closes_steps w code :
  attempts_ok (execution w) ->
  WorkflowRun.waits (WorkflowRun.status (workflow_run (execution w))) = true ->
  exists m w', fail_execution clock id_factory code w = (Err (Exn InvalidStateTransition m), w') /\
    workflow_run (execution w') = workflow_run (execution w) /\
    agent_session (execution w') = agent_session (execution w) /\
    forall s, s ∈ step_runs (execution w') -> StepRunStatus.is_terminal (StepRun.status s) = true.
Proof.
  intros Hok Hwait. destruct (current_total _ Hok) as (l & Hl & Hcur).
  unfold fail_execution, now, on_env, tick. unfold mbind at 1, M_bind at 1.
  set (ts := clock _). set (w0 := World _ _).
  unfold mbind at 1, M_bind at 1, reads at 1. change (execution w0) with (execution w). rewrite Hl.
  destruct (cancel_steps_spec ts l w0) as (steps & Hrun & Hlen & Hev & Hdone).
  { apply clock_aware. }
  { intros f Hf. destruct (elem_current_step_runs _ _ _ Hl Hf) as [sid Hs]. destruct f as [i s].
    apply latest_step_run_spec in Hs as (Hi & _). eauto. }
  unfold mbind at 1, M_bind at 1. rewrite Hrun. unfold mbind at 1, M_bind at 1.
  unfold run_to, edit_execution. cbn [workflow_run execution].
  unfold WorkflowRun.transition_to at 1. change (execution w0) with (execution w).
  rewrite bool_decide_false.
  - cbn. eexists _, _. split; [reflexivity|]. split; [done|]. split; [done|].
    by eapply (all_terminal (execution w)).
  - destruct (WorkflowRun.status (workflow_run (execution w))); cbn in *; try done; set_solver.
Qed.
End cancel.

(** ** Witnesses *)

Definition sample_attempt (n step_id : string) : StepRun.t :=
  StepRun.mk n "run_1" step_id 1 ("run_1:" +:+ step_id +:+ ":1") [] StepRunStatus.CREATED [] None 0
    (epoch 0) (epoch 0) None None.

Definition sample_session (s : AgentSessionStatus.t) : AgentSession.t :=
  AgentSession.mk "agent_1" "p" "run_1" "x" "primary" s [] 0 (epoch 0) (epoch 0).

Definition sample_run_in (s : WorkflowRunStatus.t) : WorkflowRun.t :=
  WorkflowRun.mk "run_1" "p" "wf" "1" "u" "k" [] s [] None None 0 (epoch 0) (epoch 0).

Definition sample_execution (s : WorkflowRunStatus.t) : ExecutionState.t :=
  mk (sample_workflow []) (sample_run_in s) (sample_session (session_of s))
    [sample_attempt "s1" "draft"; sample_attempt "s2" "plan"; sample_attempt "s3" "check"] [].

Lemma sample_attempts_ok s : attempts_ok (sample_execution s).
Proof.
  destruct sample_steps_valid as [Hnd Hmax]. apply fresh_attempts_ok; [done..|].
  repeat constructor.
Qed.

Definition fixed_ids (n : nat) (prefix : string) : string := "id-" +:+ int_str (Z.of_nat n).

Lemma fixed_ids_set n p : is_blank (fixed_ids n p) = false.
Proof. reflexivity. Qed.

Lemma cancellation_completes_witness :
  exists c w', cancel_execution test_clock fixed_ids
      (World (Env 0 0) (sample_execution WorkflowRunStatus.WAITING_FOR_INPUT)) = (Ok c, w') /\
    WorkflowRun.status (workflow_run (execution w')) = WorkflowRunStatus.CANCELLED.
Proof.
  destruct (cancellation_completes test_clock fixed_ids (fun _ => eq_refl) fixed_ids_set
    (World (Env 0 0) (sample_execution WorkflowRunStatus.WAITING_FOR_INPUT)))
    as (c & w' & H & Hs & _);
    [reflexivity|apply sample_attempts_ok|reflexivity|reflexivity|reflexivity|discriminate|].
  exists c, w'. exact (conj H Hs).
Defined.

Lemma fail_while_waiting_closes_steps_witness :
  exists m w', fail_execution test_clock fixed_ids "E"
      (World (Env 0 0) (sample_execution WorkflowRunStatus.WAITING_FOR_APPROVAL))
    = (Err (Exn InvalidStateTransition m), w').
Proof.
  destruct (fail_while_waiting_closes_steps test_clock fixed_ids (fun _ => eq_refl) fixed_ids_set
    (World (Env 0 0) (sample_execution WorkflowRunStatus.WAITING_FOR_APPROVAL)) "E")
    as (m & w' & H & _); [apply sample_attempts_ok|reflexivity|].
  exists m, w'. exact H.
Defined.
