(* ===== verification/Approval.v ===== *)
(** [backend/domain/models/approval_request.py]: the durable approval gate.
    [approve], [reject] and [expire] mutate the request in place, so they are
    computations over its state and keep what they changed before raising. *)
From S2P Require Import Prelude Errors Text Float Value Lifecycle Workflow.
From Stdlib Require Import SpecFloat.
Local Open Scope string_scope.
Local Open Scope list_scope.
Local Open Scope Z_scope.

Module ApprovalRequestStatus.
Inductive t := PENDING | APPROVED | REJECTED | EXPIRED.

#[global] Instance eq_dec : EqDecision t.
Proof. solve_decision. Defined.

Definition value (s : t) : string :=
  match s with
  | PENDING => "PENDING" | APPROVED => "APPROVED" | REJECTED => "REJECTED" | EXPIRED => "EXPIRED"
  end.

Definition is_terminal (s : t) : bool := negb (bool_decide (s = PENDING)).
End ApprovalRequestStatus.

(** [a < b] on timestamps: comparing a naive with an aware one is a [TypeError]. *)
Definition datetime_lt (a b : datetime) : res bool :=
  if Bool.eqb (is_aware a) (is_aware b) then Ok (instant a <? instant b)
  else Err (Exn PyTypeError "can't compare offset-naive and offset-aware datetimes").

(** [_freeze_json_object]: the strict dump rejects the floats JSON lacks. *)
Definition freeze_json_object (v : mapping) (field_name : string) : res mapping :=
  if forallb (fun kv => all_finite kv.2) v then Ok (freeze_mapping v)
  else Err (validation_error (field_name +:+ " must contain only JSON-compatible values")).

Module ApprovalRequest.
Record t := mk {
  id : string;
  project_id : string;
  workflow_run_id : string;
  step_run_id : string;
  policy_key : string;
  request_fingerprint : string;
  prompt : string;
  requested_action : mapping;
  requested_by : string;
  permitted_approver_role : string;
  requested_at : datetime;
  expires_at : option datetime;
  status : ApprovalRequestStatus.t;
  resolved_by : option string;
  resolved_at : option datetime;
  decision_reason : option string;
  decision_idempotency_key : option string;
  decision_metadata : mapping;
  row_version : Z
}.

(** Rewrite the fields a decision sets, from [status] on. *)
Definition with_decision (s : t) (st : ApprovalRequestStatus.t) (by_ : option string)
    (at_ : option datetime) (reason key : option string) (metadata : mapping) (version : Z) : t :=
  mk (id s) (project_id s) (workflow_run_id s) (step_run_id s) (policy_key s)
    (request_fingerprint s) (prompt s) (requested_action s) (requested_by s)
    (permitted_approver_role s) (requested_at s) (expires_at s)
    st by_ at_ reason key metadata version.

Definition is_set {A} (o : option A) : bool := match o with Some _ => true | None => false end.

Definition validate_resolution_fields (s : t) : res unit :=
  match status s with
  | ApprovalRequestStatus.PENDING =>
      fail_if (is_set (resolved_by s) || is_set (resolved_at s) || is_set (decision_reason s)
               || is_set (decision_idempotency_key s)
               || negb (bool_decide (decision_metadata s = [])))
        (validation_error "Pending ApprovalRequest cannot contain decision metadata")
  | st =>
      match resolved_at s with
      | None => Err (validation_error "Resolved ApprovalRequest requires resolved_at")
      | Some at_ =>
          _ ← require_aware at_ "ApprovalRequest.resolved_at";
          match st with
          | ApprovalRequestStatus.APPROVED | ApprovalRequestStatus.REJECTED =>
              match resolved_by s, decision_idempotency_key s with
              | Some by_, Some key =>
                  _ ← require_non_empty by_ "ApprovalRequest.resolved_by";
                  require_non_empty key "ApprovalRequest.decision_idempotency_key"
              | _, _ => Err (validation_error
                  "Approved or rejected request requires resolver and idempotency key")
              end
          | _ =>
              fail_if (is_set (resolved_by s) || is_set (decision_idempotency_key s))
                (validation_error "Expired ApprovalRequest cannot contain a human resolver")
          end
      end
  end.

Definition check_expiry_after_request (s : t) : res unit :=
  match expires_at s with
  | None => Ok tt
  | Some e =>
      _ ← require_aware e "ApprovalRequest.expires_at";
      later ← datetime_lt (requested_at s) e;
      fail_if (negb later)
        (validation_error "ApprovalRequest.expires_at must be after requested_at")
  end.

Definition post_init (s : t) : res t :=
  _ ← require_all_non_empty
        [(id s, "ApprovalRequest.id"); (project_id s, "ApprovalRequest.project_id");
         (workflow_run_id s, "ApprovalRequest.workflow_run_id");
         (step_run_id s, "ApprovalRequest.step_run_id");
         (policy_key s, "ApprovalRequest.policy_key");
         (request_fingerprint s, "ApprovalRequest.request_fingerprint");
         (prompt s, "ApprovalRequest.prompt");
         (requested_by s, "ApprovalRequest.requested_by");
         (permitted_approver_role s, "ApprovalRequest.permitted_approver_role")];
  _ ← require_aware (requested_at s) "ApprovalRequest.requested_at";
  _ ← check_expiry_after_request s;
  _ ← fail_if (row_version s <? 0)
        (validation_error "ApprovalRequest.row_version cannot be negative");
  action ← freeze_json_object (requested_action s) "ApprovalRequest.requested_action";
  metadata ← freeze_json_object (decision_metadata s) "ApprovalRequest.decision_metadata";
  let s' := mk (id s) (project_id s) (workflow_run_id s) (step_run_id s) (policy_key s)
    (request_fingerprint s) (prompt s) action (requested_by s)
    (permitted_approver_role s) (requested_at s) (expires_at s) (status s) (resolved_by s)
    (resolved_at s) (decision_reason s) (decision_idempotency_key s) metadata (row_version s) in
  _ ← validate_resolution_fields s';
  Ok s'.

Definition ensure_pending (target : ApprovalRequestStatus.t) : M exn t unit :=
  s ← get_state;
  raise_if (negb (bool_decide (status s = ApprovalRequestStatus.PENDING)))
    (invalid_transition "ApprovalRequest" (id s) (ApprovalRequestStatus.value (status s))
       (ApprovalRequestStatus.value target)).

(** [metadata or {}], frozen: the last thing that can raise. *)
Definition store_metadata (metadata : option mapping) : M exn t unit :=
  frozen ← lift_result (freeze_json_object (default [] metadata) "ApprovalRequest.decision_metadata");
  modify (fun s => with_decision s (status s) (resolved_by s) (resolved_at s) (decision_reason s)
                     (decision_idempotency_key s) frozen (row_version s + 1)).

(** [if self.expires_at is not None and timestamp >= self.expires_at: raise] *)
Definition check_not_expired (s : t) (timestamp : datetime) : res unit :=
  match expires_at s with
  | None => Ok tt
  | Some e =>
      before ← datetime_lt timestamp e;
      fail_if (negb before)
        (validation_error "Expired ApprovalRequest must be marked EXPIRED before resolution")
  end.

Definition resolve (now : datetime) (target : ApprovalRequestStatus.t)
    (by_ key : string) (current_fingerprint : option string) (at_ : option datetime)
    (reason : option string) (metadata : option mapping) : M exn t unit :=
  ensure_pending target ;;
  lift_result (require_non_empty by_ "ApprovalRequest.resolved_by") ;;
  lift_result (require_non_empty key "ApprovalRequest.decision_idempotency_key") ;;
  let timestamp := timestamp_or now at_ in
  lift_result (require_aware timestamp "ApprovalRequest decision timestamp") ;;
  s ← get_state;
  lift_result (check_not_expired s timestamp) ;;
  raise_if (bool_decide (target = ApprovalRequestStatus.APPROVED)
            && negb (bool_decide (current_fingerprint = Some (request_fingerprint s))))
    (validation_error "ApprovalRequest fingerprint no longer matches the planned action") ;;
  modify (fun s => with_decision s target (Some by_) (Some timestamp) reason (Some key)
                     (decision_metadata s) (row_version s)) ;;
  store_metadata metadata.

Definition approve (now : datetime) (by_ key : string) (current_fingerprint : string)
    (at_ : option datetime) (reason : option string) (metadata : option mapping) : M exn t unit :=
  resolve now ApprovalRequestStatus.APPROVED by_ key (Some current_fingerprint) at_ reason metadata.

Definition reject (now : datetime) (by_ key : string) (at_ : option datetime)
    (reason : option string) (metadata : option mapping) : M exn t unit :=
  resolve now ApprovalRequestStatus.REJECTED by_ key None at_ reason metadata.

Definition expire (now : datetime) (at_ : option datetime) (reason : option string)
    (metadata : option mapping) : M exn t unit :=
  let timestamp := timestamp_or now at_ in
  lift_result (require_aware timestamp "ApprovalRequest expiry timestamp") ;;
  s ← get_state;
  match expires_at s with
  | None => raise (validation_error "ApprovalRequest cannot expire without expires_at")
  | Some e =>
      before ← lift_result (datetime_lt timestamp e);
      raise_if before (validation_error "ApprovalRequest cannot expire before expires_at") ;;
      ensure_pending ApprovalRequestStatus.EXPIRED ;;
      modify (fun s => with_decision s ApprovalRequestStatus.EXPIRED (resolved_by s)
                         (Some timestamp) reason (decision_idempotency_key s)
                         (decision_metadata s) (row_version s)) ;;
      store_metadata metadata
  end.
End ApprovalRequest.

(** ** Calls as data *)

Inductive approval_call :=
  | CallApprove (now : datetime) (by_ key fingerprint : string) (at_ : option datetime)
      (reason : option string) (metadata : option mapping)
  | CallReject (now : datetime) (by_ key : string) (at_ : option datetime)
      (reason : option string) (metadata : option mapping)
  | CallExpire (now : datetime) (at_ : option datetime) (reason : option string)
      (metadata : option mapping).

Definition call_approval (c : approval_call) : M exn ApprovalRequest.t unit :=
  match c with
  | CallApprove n b k f a r m => ApprovalRequest.approve n b k f a r m
  | CallReject n b k a r m => ApprovalRequest.reject n b k a r m
  | CallExpire n a r m => ApprovalRequest.expire n a r m
  end.

(** A caller that goes on after exceptions. *)
Definition call_all (s : ApprovalRequest.t) (calls : list approval_call) : ApprovalRequest.t :=
  foldl (fun s c => (call_approval c s).2) s calls.

(** ** One decision *)

Import ApprovalRequest.

(** What a decision must satisfy. *)
Definition may_resolve (s : t) (target : ApprovalRequestStatus.t) (by_ key : string)
    (fingerprint : option string) (ts : datetime) : bool :=
  bool_decide (status s = ApprovalRequestStatus.PENDING)
  && negb (is_blank by_) && negb (is_blank key) && is_aware ts
  && is_ok (check_not_expired s ts)
  && negb (bool_decide (target = ApprovalRequestStatus.APPROVED)
           && negb (bool_decide (fingerprint = Some (request_fingerprint s)))).

(** [_resolve] by cases: a refused call changes nothing; an admitted one sets
    the decision fields, and the metadata and the version too if the metadata
    can be stored. *)
Lemma resolve_cases now target by_ key fp at_ reason metadata s :
  let ts := timestamp_or now at_ in
  let decided := with_decision s target (Some by_) (Some ts) reason (Some key) in
  if may_resolve s target by_ key fp ts then
    resolve now target by_ key fp at_ reason metadata s =
      match freeze_json_object (default [] metadata) "ApprovalRequest.decision_metadata" with
      | Ok frozen => (Ok tt, decided frozen (row_version s + 1))
      | Err e => (Err e, decided (decision_metadata s) (row_version s))
      end
  else exists e, resolve now target by_ key fp at_ reason metadata s = (Err e, s).
Proof.
  intros ts decided. unfold may_resolve, resolve, ensure_pending, require_non_empty, require_aware,
    store_metadata, mbind, M_bind, get_state, lift_result, modify, raise_if, raise, fail_if, mret, M_ret.
  fold ts. cbn zeta.
  destruct (bool_decide (status s = _)); cbn [negb andb]; [|by eexists].
  destruct (is_blank by_); cbn [negb andb]; [by eexists|].
  destruct (is_blank key); cbn [negb andb]; [by eexists|].
  destruct (is_aware ts); cbn [negb andb]; [|by eexists].
  destruct (check_not_expired s ts) as [[]|e]; cbn [is_ok andb]; [|by eexists].
  destruct (_ && _); cbn [negb]; [by eexists|].
  by destruct (freeze_json_object _ _).
Qed.

Lemma check_not_expired_iff s ts :
  is_aware ts = true ->
  is_ok (check_not_expired s ts) = true <->
  forall e, expires_at s = Some e -> is_aware e = true /\ instant ts < instant e.
Proof.
  intros Ha. unfold check_not_expired, datetime_lt. rewrite Ha.
  destruct (expires_at s) as [e|]; [|naive_solver]. destruct (is_aware e) eqn:He; cbn.
  - destruct (Z.ltb_spec (instant ts) (instant e)); cbn; naive_solver lia.
  - naive_solver.
Qed.

Lemma may_approve_iff s by_ key fp ts :
  may_resolve s ApprovalRequestStatus.APPROVED by_ key (Some fp) ts = true <->
  status s = ApprovalRequestStatus.PENDING /\ is_blank by_ = false /\ is_blank key = false /\
  is_aware ts = true /\
  (forall e, expires_at s = Some e -> is_aware e = true /\ instant ts < instant e) /\
  fp = request_fingerprint s.
Proof.
  unfold may_resolve. rewrite !andb_true_iff, !negb_true_iff, bool_decide_eq_true.
  rewrite (bool_decide_true (ApprovalRequestStatus.APPROVED = _)) by done. cbn [andb].
  rewrite negb_false_iff, bool_decide_eq_true. split.
  - intros (((((? & ?) & ?) & ?) & Hx) & [= ->]). repeat (split; [done|]).
    split; [by apply check_not_expired_iff|done].
  - intros (? & ? & ? & ? & Hx & ->). repeat split; try done. by apply check_not_expired_iff.
Qed.

Definition may_expire (s : t) (ts : datetime) : bool :=
  is_aware ts && bool_decide (status s = ApprovalRequestStatus.PENDING)
  && match expires_at s with
     | Some e => match datetime_lt ts e with Ok before => negb before | Err _ => false end
     | None => false
     end.

Lemma expire_cases now at_ reason metadata s :
  let ts := timestamp_or now at_ in
  let decided := with_decision s ApprovalRequestStatus.EXPIRED (resolved_by s) (Some ts) reason
                   (decision_idempotency_key s) in
  if may_expire s ts then
    expire now at_ reason metadata s =
      match freeze_json_object (default [] metadata) "ApprovalRequest.decision_metadata" with
      | Ok frozen => (Ok tt, decided frozen (row_version s + 1))
      | Err e => (Err e, decided (decision_metadata s) (row_version s))
      end
  else exists e, expire now at_ reason metadata s = (Err e, s).
Proof.
  intros ts decided. unfold may_expire, expire, ensure_pending, require_aware,
    store_metadata, mbind, M_bind, get_state, lift_result, modify, raise_if, raise, fail_if, mret, M_ret.
  fold ts. cbn zeta.
  destruct (is_aware ts); cbn [negb andb]; [|by eexists].
  destruct (expires_at s) as [e|]; cbn [negb andb]; [|rewrite andb_false_r; by eexists].
  destruct (datetime_lt ts e) as [[]|x]; rewrite ?andb_false_r; [by eexists| |by eexists].
  rewrite andb_true_r. destruct (bool_decide (status s = _)); cbn [negb]; [|by eexists].
  by destruct (freeze_json_object _ _).
Qed.

(** Every call either leaves a request alone or decides a pending one. *)
Lemma call_cases c s :
  (exists e, call_approval c s = (Err e, s)) \/
  (status s = ApprovalRequestStatus.PENDING /\
   status (call_approval c s).2 <> ApprovalRequestStatus.PENDING).
Proof.
  destruct c as [n b k f a r m|n b k a r m|n a r m]; cbn [call_approval].
  - pose proof (resolve_cases n ApprovalRequestStatus.APPROVED b k (Some f) a r m s) as H. cbn zeta in H.
    unfold approve. destruct (may_resolve _ _ _ _ _ _) eqn:Hm; [|by left]. right.
    unfold may_resolve in Hm. reflect_bools. rewrite H. by destruct (freeze_json_object _ _).
  - pose proof (resolve_cases n ApprovalRequestStatus.REJECTED b k None a r m s) as H. cbn zeta in H.
    unfold reject. destruct (may_resolve _ _ _ _ _ _) eqn:Hm; [|by left]. right.
    unfold may_resolve in Hm. reflect_bools. rewrite H. by destruct (freeze_json_object _ _).
  - pose proof (expire_cases n a r m s) as H. cbn zeta in H.
    destruct (may_expire _ _) eqn:Hm; [|by left]. right.
    unfold may_expire in Hm. reflect_bools. rewrite H. by destruct (freeze_json_object _ _).
Qed.

Lemma decided_final s calls :
  status s <> ApprovalRequestStatus.PENDING -> call_all s calls = s.
Proof.
  intros Hs. unfold call_all. induction calls as [|c calls IH]; [done|]. cbn [foldl].
  destruct (call_cases c s) as [[e ->]|[? _]]; done.
Qed.

(** The fields agree with the status, as the constructor demands. *)
Definition decision_ok (s : t) : Prop :=
  validate_resolution_fields s = Ok tt /\
  match expires_at s with Some e => is_aware e = true | None => True end.

Lemma call_keeps_decision_ok c s : decision_ok s -> decision_ok (call_approval c s).2.
Proof.
  intros [Hv He].
  assert (Hres : forall n tgt b k f a r m, tgt = ApprovalRequestStatus.APPROVED \/ tgt = ApprovalRequestStatus.REJECTED ->
    decision_ok (resolve n tgt b k f a r m s).2).
  { intros n tgt b k f a r m Ht. pose proof (resolve_cases n tgt b k f a r m s) as H. cbn zeta in H.
    destruct (may_resolve _ _ _ _ _ _) eqn:Hm; [|destruct H as [e ->]; by split].
    unfold may_resolve in Hm. reflect_bools. rewrite H. clear H.
    destruct (freeze_json_object _ _); split; cbn; try done; unfold validate_resolution_fields,
      require_aware, require_non_empty; destruct Ht as [-> | ->]; cbn;
      repeat match goal with H : _ = true |- _ => rewrite H | H : _ = false |- _ => rewrite H end; done. }
  destruct c as [n b k f a r m|n b k a r m|n a r m]; cbn [call_approval].
  { unfold approve. apply Hres. by left. }
  { unfold reject. apply Hres. by right. }
  pose proof (expire_cases n a r m s) as H. cbn zeta in H.
  destruct (may_expire _ _) eqn:Hm; [|destruct H as [e ->]; by split].
  unfold may_expire in Hm. reflect_bools. rewrite H. clear H.
  unfold validate_resolution_fields in Hv. rewrite H2 in Hv. apply fail_if_Ok in Hv. reflect_bools.
  destruct (freeze_json_object _ _); split; cbn; try done; unfold validate_resolution_fields,
      require_aware; cbn;
      repeat match goal with H : _ = true |- _ => rewrite H | H : _ = false |- _ => rewrite H end; done.
Qed.

(** ** Properties *)

(** A request is decided at most once: through any sequence of approve,
    reject and expire calls, either it is still the pending request it was, or
    exactly one of the calls decided it, the calls before it changed nothing
    and neither does any call after it. *)
Theorem decided_at_most_once s calls :
  status s = ApprovalRequestStatus.PENDING ->
  call_all s calls = s \/
  exists before c after, calls = before ++ c :: after /\ call_all s before = s /\
    status (call_approval c s).2 <> ApprovalRequestStatus.PENDING /\
    call_all s calls = (call_approval c s).2.
Proof.
  intros Hs. induction calls as [|c calls IH]; [by left|].
  unfold call_all in *. cbn [foldl]. destruct (call_cases c s) as [[e He]|[_ Hd]].
  - rewrite He. cbn [snd]. destruct IH as [IH|(b & c' & a & -> & Hb & Hc & Hall)]; [by left|right].
    exists (c :: b), c', a. split; [done|]. cbn [foldl]. by rewrite He.
  - right. exists [], c, calls. split; [done|]. split; [done|]. split; [done|].
    exact (decided_final _ calls Hd).
Qed.

(** [approve] succeeds exactly when the request is pending, the resolver
    and the key are set, the time is aware and before the expiry, the
    fingerprint is the stored one and the metadata is JSON; it then records the
    decision and bumps the version once. *)
Theorem approve_exactly_when_allowed now by_ key fp at_ reason metadata s s' :
  approve now by_ key fp at_ reason metadata s = (Ok tt, s') <->
  let ts := timestamp_or now at_ in
  status s = ApprovalRequestStatus.PENDING /\ is_blank by_ = false /\ is_blank key = false /\
  is_aware ts = true /\
  (forall e, expires_at s = Some e -> is_aware e = true /\ instant ts < instant e) /\
  fp = request_fingerprint s /\
  forallb (fun kv => all_finite kv.2) (default [] metadata) = true /\
  s' = with_decision s ApprovalRequestStatus.APPROVED (Some by_) (Some ts) reason (Some key)
         (freeze_mapping (default [] metadata)) (row_version s + 1).
Proof.
  cbn zeta. unfold approve.
  pose proof (resolve_cases now ApprovalRequestStatus.APPROVED by_ key (Some fp) at_ reason metadata s) as H.
  cbn zeta in H. pose proof (may_approve_iff s by_ key fp (timestamp_or now at_)) as Hiff.
  destruct (may_resolve _ _ _ _ _ _).
  - rewrite H. unfold freeze_json_object. destruct (forallb _ _); split; naive_solver.
  - destruct H as [e ->]. split; [done|]. intros (? & ? & ? & ? & ? & ? & _). exfalso.
    destruct Hiff as [_ Hiff]. discriminate Hiff. done.
Qed.

(** A decision is not atomic: when everything about an approval is in
    order except that its metadata holds a float JSON lacks, the call raises,
    and yet the request is left [APPROVED], with its old version number. *)
Theorem refused_metadata_leaves_decision now by_ key at_ reason metadata s :
  may_resolve s ApprovalRequestStatus.APPROVED by_ key (Some (request_fingerprint s))
    (timestamp_or now at_) = true ->
  forallb (fun kv => all_finite kv.2) metadata = false ->
  exists e s', approve now by_ key (request_fingerprint s) at_ reason (Some metadata) s = (Err e, s') /\
    exn_kind e = DomainValidationError /\ status s' = ApprovalRequestStatus.APPROVED /\
    row_version s' = row_version s /\ decision_metadata s' = decision_metadata s.
Proof.
  intros Hm Hf. unfold approve.
  pose proof (resolve_cases now ApprovalRequestStatus.APPROVED by_ key (Some (request_fingerprint s))
    at_ reason (Some metadata) s) as H.
  cbn zeta in H. rewrite Hm in H. rewrite H. unfold freeze_json_object. cbn [default from_option]. 
  change (Datatypes.id metadata) with metadata. rewrite Hf. by eexists _, _.
Qed.

(** The resolution fields stay consistent with the status through every
    sequence of calls, refused calls included. *)
Theorem resolution_fields_consistent s0 s calls :
  post_init s0 = Ok s -> validate_resolution_fields (call_all s calls) = Ok tt.
Proof.
  intros Hp. assert (decision_ok s) as Hs.
  { unfold post_init in Hp. rewrite !then_Ok in Hp. destruct Hp as (_ & _ & He & _ & Hp).
    rewrite bind_Ok in Hp. destruct Hp as (act & _ & Hp). rewrite bind_Ok in Hp.
    destruct Hp as (md & _ & Hp). cbn zeta in Hp. rewrite then_Ok in Hp. destruct Hp as [Hv [= <-]].
    split; [done|]. cbn. unfold check_expiry_after_request in He. destruct (expires_at s0); [|done].
    rewrite then_Ok, require_aware_Ok in He. by destruct He. }
  clear Hp. assert (decision_ok (call_all s calls)) as [H _]; [|done].
  revert s Hs. induction calls as [|c calls IH]; intros s Hs; [done|].
  unfold call_all in *. cbn [foldl]. by apply IH, call_keeps_decision_ok.
Qed.

(** ** Witnesses *)

Definition sample_request : t :=
  mk "a1" "p" "run_1" "s1" "human" "sha256:0" "Publish?" [] "agent" "owner" (epoch 0)
    (Some (epoch 100)) ApprovalRequestStatus.PENDING None None None None [] 0.

Lemma decided_at_most_once_witness :
  let calls := [CallExpire (epoch 5) None None None;
                CallApprove (epoch 6) "bob" "k" "sha256:0" None None None;
                CallReject (epoch 7) "eve" "k2" None None None] in
  status (call_all sample_request calls) = ApprovalRequestStatus.APPROVED /\
  (call_all sample_request calls = sample_request \/
   exists before c after, calls = before ++ c :: after /\ call_all sample_request before = sample_request /\
     status (call_approval c sample_request).2 <> ApprovalRequestStatus.PENDING /\
     call_all sample_request calls = (call_approval c sample_request).2).
Proof.
  intros calls. split; [reflexivity|].
  apply (decided_at_most_once sample_request calls). reflexivity.
Defined.

Definition nan_metadata : mapping := [("score", VFloat S754_nan)].

Lemma refused_metadata_leaves_decision_witness :
  exists e s', approve (epoch 6) "bob" "k" "sha256:0" None None (Some nan_metadata) sample_request = (Err e, s') /\
    exn_kind e = DomainValidationError /\ status s' = ApprovalRequestStatus.APPROVED /\
    row_version s' = 0 /\ decision_metadata s' = [].
Proof.
  exact (refused_metadata_leaves_decision (epoch 6) "bob" "k" None None nan_metadata sample_request
           eq_refl eq_refl).
Defined.

Lemma resolution_fields_consistent_witness :
  validate_resolution_fields (call_all sample_request
    [CallApprove (epoch 6) "bob" "k" "sha256:0" None None (Some nan_metadata)]) = Ok tt.
Proof.
  apply (resolution_fields_consistent sample_request sample_request). reflexivity.
Defined.
