(* ===== verification/Events.v ===== *)
(** [backend/execution_events/models/execution_event.py]: the immutable events
    of a workflow run and their payloads. *)
From S2P Require Import Prelude Errors Text Float Value Lifecycle Workflow.
Local Open Scope string_scope.
Local Open Scope list_scope.
Local Open Scope Z_scope.

Inductive ExecutionEventType :=
  | WORKFLOW_STARTED | STEP_STARTED | SKILL_EXECUTED | CHECKPOINT_CREATED
  | APPROVAL_REQUESTED | WORKFLOW_COMPLETED | WORKFLOW_FAILED.

#[export] Instance event_type_eq_dec : EqDecision ExecutionEventType.
Proof. solve_decision. Defined.

Inductive EventSeverity := INFO | WARNING | ERROR.

#[export] Instance event_severity_eq_dec : EqDecision EventSeverity.
Proof. solve_decision. Defined.

Module EventPayload.
Record t := mk { data : mapping; schema_version : Z }.

(** [EventPayload(data, schema_version)]; a [ValueError] of [freeze_json]
    becomes a [DomainValidationError] with the same message. *)
Definition create (data_ : value) (schema_version_ : Z) : res t :=
  _ ← fail_if (schema_version_ <=? 0)
        (validation_error "EventPayload.schema_version must be positive");
  frozen ← match freeze_json "EventPayload.data" data_ with
           | Ok v => Ok v
           | Err e => if is_instance (exn_kind e) PyValueError
                      then Err (validation_error (exn_msg e)) else Err e
           end;
  match frozen with
  | VDict _ d => Ok (mk d schema_version_)
  | _ => Err (validation_error "EventPayload.data must be an object")
  end.

Definition to_dict (self : t) : mapping :=
  [("schema_version", VInt (schema_version self)); ("data", VDict false (thaw_mapping (data self)))].

Definition eqb (a b : t) : bool :=
  mapping_eq (data a) (data b) && (schema_version a =? schema_version b).
End EventPayload.

Module ExecutionEvent.
Record t := mk {
  id : string;
  project_id : string;
  workflow_run_id : string;
  sequence : Z;
  event_type : ExecutionEventType;
  payload : EventPayload.t;
  request_id : string;
  occurred_at : datetime;
  severity : EventSeverity;
  agent_session_id : option string;
  step_run_id : option string;
  correlation_id : option string;
  causation_id : option string
}.

Definition post_init (self : t) : res t :=
  _ ← require_all_non_empty
        [(id self, "ExecutionEvent.id"); (project_id self, "ExecutionEvent.project_id");
         (workflow_run_id self, "ExecutionEvent.workflow_run_id");
         (request_id self, "ExecutionEvent.request_id")];
  _ ← each_ok (fun vn => match vn.1 with
                         | Some v => require_non_empty v vn.2
                         | None => Ok tt
                         end)
        [(agent_session_id self, "ExecutionEvent.agent_session_id");
         (step_run_id self, "ExecutionEvent.step_run_id");
         (correlation_id self, "ExecutionEvent.correlation_id");
         (causation_id self, "ExecutionEvent.causation_id")];
  _ ← fail_if (sequence self <=? 0) (validation_error "ExecutionEvent.sequence must be positive");
  _ ← require_aware (occurred_at self) "ExecutionEvent.occurred_at";
  Ok self.

(** The dataclass equality. *)
Definition eqb (a b : t) : bool :=
  bool_decide (id a = id b) && bool_decide (project_id a = project_id b)
  && bool_decide (workflow_run_id a = workflow_run_id b) && (sequence a =? sequence b)
  && bool_decide (event_type a = event_type b) && EventPayload.eqb (payload a) (payload b)
  && bool_decide (request_id a = request_id b) && bool_decide (occurred_at a = occurred_at b)
  && bool_decide (severity a = severity b)
  && bool_decide (agent_session_id a = agent_session_id b)
  && bool_decide (step_run_id a = step_run_id b)
  && bool_decide (correlation_id a = correlation_id b)
  && bool_decide (causation_id a = causation_id b).
End ExecutionEvent.

Lemma event_eqb_id a b : ExecutionEvent.eqb a b = true -> ExecutionEvent.id a = ExecutionEvent.id b.
Proof.
  unfold ExecutionEvent.eqb. rewrite !andb_true_iff, !bool_decide_eq_true.
  by intros ((((((((((((? & _) & _) & _) & _) & _) & _) & _) & _) & _) & _) & _) & _).
Qed.

Lemma event_eqb_refl a :
  wf_value (VDict true (EventPayload.data (ExecutionEvent.payload a))) = true ->
  ExecutionEvent.eqb a a = true.
Proof.
  intros Hw. unfold ExecutionEvent.eqb, EventPayload.eqb, mapping_eq. rewrite (value_eq_refl _ Hw).
  by rewrite !bool_decide_eq_true_2, !Z.eqb_refl.
Qed.

(** A created payload is frozen, finite and versioned. *)
Lemma payload_create_Ok d n p :
  EventPayload.create d n = Ok p <->
  0 < n /\ exists b m, d = VDict b m /\ mapping_finite m = true /\
    p = EventPayload.mk (freeze_mapping m) n.
Proof.
  unfold EventPayload.create. rewrite then_Ok, fail_if_Ok, bind_Ok, Z.leb_gt. split.
  - intros (Hn & v & Hv & H). split; [done|].
    destruct (freeze_json _ d) as [w|e] eqn:Hf; [|by case_in Hv]. injection Hv as ->.
    pose proof (freeze_json_Ok_finite _ _ _ Hf) as Hfin. apply freeze_json_Ok in Hf as ->.
    destruct d as [| | | | | | |b m]; try done. cbn in H. injection H as <-. by exists b, m.
  - intros (Hn & b & m & -> & Hfin & ->). split; [done|]. eexists.
    rewrite freeze_json_finite by done. done.
Qed.
