(* ===== verification/Records.v ===== *)
(** [backend/persistence/models]: the immutable records an execution, an
    approval, a checkpoint and a memory revision are stored as, and the
    reconstitution of the domain entities. *)
From S2P Require Import Prelude Errors Text Float Value Json Sha256 Lifecycle Workflow Checkpoint Coordinator Approval.
Local Open Scope string_scope.
Local Open Scope list_scope.
Local Open Scope Z_scope.

Definition value_error (message : string) : exn := Exn PyValueError message.

(** ** [execution_record.py] *)

Module WorkflowRunRecord.
Record t := mk {
  id : string;
  project_id : string;
  workflow_id : string;
  workflow_version : string;
  actor_user_id : string;
  idempotency_key : string;
  inputs : mapping;
  status : WorkflowRunStatus.t;
  outputs : mapping;
  wait_reason : option string;
  error_code : option string;
  row_version : Z;
  created_at : datetime;
  updated_at : datetime
}.

Definition post_init (self : t) : res t :=
  i ← freeze_json_mapping "run.inputs" (inputs self);
  o ← freeze_json_mapping "run.outputs" (outputs self);
  Ok (mk (id self) (project_id self) (workflow_id self) (workflow_version self) (actor_user_id self)
        (idempotency_key self) i (status self) o (wait_reason self) (error_code self)
        (row_version self) (created_at self) (updated_at self)).

Definition from_domain (run : WorkflowRun.t) : res t :=
  post_init (mk (WorkflowRun.id run) (WorkflowRun.project_id run) (WorkflowRun.workflow_id run)
    (WorkflowRun.workflow_version run) (WorkflowRun.actor_user_id run) (WorkflowRun.idempotency_key run)
    (WorkflowRun.inputs run) (WorkflowRun.status run) (WorkflowRun.outputs run)
    (WorkflowRun.wait_reason run) (WorkflowRun.error_code run) (WorkflowRun.row_version run)
    (WorkflowRun.created_at run) (WorkflowRun.updated_at run)).

Definition to_domain (self : t) : res WorkflowRun.t :=
  WorkflowRun.post_init
    (WorkflowRun.mk (id self) (project_id self) (workflow_id self) (workflow_version self)
       (actor_user_id self) (idempotency_key self) (thaw_mapping (inputs self)) (status self)
       (thaw_mapping (outputs self)) (wait_reason self) (error_code self) (row_version self)
       (created_at self) (updated_at self)).
End WorkflowRunRecord.

Module AgentSessionRecord.
Record t := mk {
  id : string;
  project_id : string;
  workflow_run_id : string;
  agent_profile_ref : string;
  role : string;
  status : AgentSessionStatus.t;
  state : mapping;
  row_version : Z;
  created_at : datetime;
  updated_at : datetime
}.

Definition post_init (self : t) : res t :=
  s ← freeze_json_mapping "agent.state" (state self);
  Ok (mk (id self) (project_id self) (workflow_run_id self) (agent_profile_ref self) (role self)
        (status self) s (row_version self) (created_at self) (updated_at self)).

Definition from_domain (session : AgentSession.t) : res t :=
  post_init (mk (AgentSession.id session) (AgentSession.project_id session)
    (AgentSession.workflow_run_id session) (AgentSession.agent_profile_ref session)
    (AgentSession.role session) (AgentSession.status session) (AgentSession.state session)
    (AgentSession.row_version session) (AgentSession.created_at session)
    (AgentSession.updated_at session)).

Definition to_domain (self : t) : res AgentSession.t :=
  AgentSession.post_init
    (AgentSession.mk (id self) (project_id self) (workflow_run_id self) (agent_profile_ref self)
       (role self) (status self) (thaw_mapping (state self)) (row_version self) (created_at self)
       (updated_at self)).
End AgentSessionRecord.

Module StepRunRecord.
Record t := mk {
  id : string;
  workflow_run_id : string;
  step_id : string;
  attempt : Z;
  idempotency_key : string;
  inputs : mapping;
  status : StepRunStatus.t;
  outputs : mapping;
  error_code : option string;
  row_version : Z;
  created_at : datetime;
  updated_at : datetime;
  started_at : option datetime;
  finished_at : option datetime
}.

Definition post_init (self : t) : res t :=
  i ← freeze_json_mapping "step.inputs" (inputs self);
  o ← freeze_json_mapping "step.outputs" (outputs self);
  Ok (mk (id self) (workflow_run_id self) (step_id self) (attempt self) (idempotency_key self) i
        (status self) o (error_code self) (row_version self) (created_at self) (updated_at self)
        (started_at self) (finished_at self)).

Definition from_domain (step : StepRun.t) : res t :=
  post_init (mk (StepRun.id step) (StepRun.workflow_run_id step) (StepRun.step_id step)
    (StepRun.attempt step) (StepRun.idempotency_key step) (StepRun.inputs step) (StepRun.status step)
    (StepRun.outputs step) (StepRun.error_code step) (StepRun.row_version step)
    (StepRun.created_at step) (StepRun.updated_at step) (StepRun.started_at step)
    (StepRun.finished_at step)).

Definition to_domain (self : t) : res StepRun.t :=
  StepRun.post_init
    (StepRun.mk (id self) (workflow_run_id self) (step_id self) (attempt self) (idempotency_key self)
       (thaw_mapping (inputs self)) (status self) (thaw_mapping (outputs self)) (error_code self)
       (row_version self) (created_at self) (updated_at self) (started_at self) (finished_at self)).
End StepRunRecord.

Module WorkflowExecutionRecord.
Record t := mk {
  persistence_version : Z;
  workflow : Workflow.t;
  workflow_run : WorkflowRunRecord.t;
  agent_session : AgentSessionRecord.t;
  step_runs : list StepRunRecord.t
}.

Definition post_init (self : t) : res t :=
  _ ← fail_if (persistence_version self <=? 0) (value_error "Persistence version must be positive");
  Ok self.

Definition from_execution (x : ExecutionState.t) (version : Z) : res t :=
  run ← WorkflowRunRecord.from_domain (ExecutionState.workflow_run x);
  session ← AgentSessionRecord.from_domain (ExecutionState.agent_session x);
  steps ← map_ok StepRunRecord.from_domain (ExecutionState.step_runs x);
  post_init (mk version (ExecutionState.workflow x) run session steps).

Definition to_execution (self : t) (checkpoints : list Checkpoint.t) : res ExecutionState.t :=
  run ← WorkflowRunRecord.to_domain (workflow_run self);
  session ← AgentSessionRecord.to_domain (agent_session self);
  steps ← map_ok StepRunRecord.to_domain (step_runs self);
  Ok (ExecutionState.mk (workflow self) run session steps checkpoints).
End WorkflowExecutionRecord.

(** ** [approval_record.py] *)

Module ApprovalRecord.
Record t := mk {
  id : string;
  project_id : string;
  workflow_run_id : string;
  step_run_id : string;
  policy_key : string;
  request_fingerprint : string;
  prompt : string;
  requested_action : mapping;
  requested_by : string;
  permitted_approver_role : string;
  requested_at : datetime;
  expires_at : option datetime;
  status : ApprovalRequestStatus.t;
  resolved_by : option string;
  resolved_at : option datetime;
  decision_reason : option string;
  decision_idempotency_key : option string;
  decision_metadata : mapping;
  row_version : Z;
  persistence_version : Z
}.

Definition post_init (self : t) : res t :=
  _ ← fail_if (persistence_version self <=? 0)
        (value_error "ApprovalRecord.persistence_version must be positive");
  action ← freeze_json_mapping "ApprovalRecord.requested_action" (requested_action self);
  metadata ← freeze_json_mapping "ApprovalRecord.decision_metadata" (decision_metadata self);
  Ok (mk (id self) (project_id self) (workflow_run_id self) (step_run_id self) (policy_key self)
        (request_fingerprint self) (prompt self) action (requested_by self)
        (permitted_approver_role self) (requested_at self) (expires_at self) (status self)
        (resolved_by self) (resolved_at self) (decision_reason self)
        (decision_idempotency_key self) metadata (row_version self) (persistence_version self)).

Definition from_approval (a : ApprovalRequest.t) (version : Z) : res t :=
  post_init (mk (ApprovalRequest.id a) (ApprovalRequest.project_id a)
    (ApprovalRequest.workflow_run_id a) (ApprovalRequest.step_run_id a) (ApprovalRequest.policy_key a)
    (ApprovalRequest.request_fingerprint a) (ApprovalRequest.prompt a)
    (ApprovalRequest.requested_action a) (ApprovalRequest.requested_by a)
    (ApprovalRequest.permitted_approver_role a) (ApprovalRequest.requested_at a)
    (ApprovalRequest.expires_at a) (ApprovalRequest.status a) (ApprovalRequest.resolved_by a)
    (ApprovalRequest.resolved_at a) (ApprovalRequest.decision_reason a)
    (ApprovalRequest.decision_idempotency_key a) (ApprovalRequest.decision_metadata a)
    (ApprovalRequest.row_version a) version).

Definition to_approval (self : t) : res ApprovalRequest.t :=
  ApprovalRequest.post_init
    (ApprovalRequest.mk (id self) (project_id self) (workflow_run_id self) (step_run_id self)
       (policy_key self) (request_fingerprint self) (prompt self)
       (thaw_mapping (requested_action self)) (requested_by self) (permitted_approver_role self)
       (requested_at self) (expires_at self) (status self) (resolved_by self) (resolved_at self)
       (decision_reason self) (decision_idempotency_key self) (thaw_mapping (decision_metadata self))
       (row_version self)).
End ApprovalRecord.

(** ** [checkpoint_record.py] *)

Inductive CheckpointBoundary :=
  | BASELINE | INITIALIZED | STEP_READY | BEFORE_SKILL | AFTER_SKILL | WAITING_APPROVAL
  | RETRY_SCHEDULED | RECOVERED | APPROVAL_RESOLVED | BEFORE_TERMINAL | TERMINAL | DOMAIN_TRANSITION.

#[export] Instance boundary_eq_dec : EqDecision CheckpointBoundary.
Proof. solve_decision. Defined.

#[export] Instance checkpoint_eq_dec : EqDecision Checkpoint.t.
Proof. solve_decision. Defined.

Module CheckpointRecord.
Record t := mk {
  record_sequence : Z;
  boundary : CheckpointBoundary;
  checkpoint : Checkpoint.t;
  step_id : option string;
  attempt : option Z
}.

Definition post_init (self : t) : res t :=
  _ ← fail_if (record_sequence self <=? 0) (value_error "Checkpoint record sequence must be positive");
  _ ← Checkpoint.verify_integrity (checkpoint self);
  Ok self.
End CheckpointRecord.

(** ** [memory_record.py] *)

Module MemoryRevision.
Record t := mk {
  project_id : string;
  workflow_run_id : string;
  revision : Z;
  context : mapping;
  producer : string;
  source_references : list string
}.

Definition post_init (self : t) : res t :=
  _ ← fail_if (String.eqb (project_id self) "" || String.eqb (workflow_run_id self) ""
               || String.eqb (producer self) "")
        (value_error "Memory scope and producer must be non-empty");
  _ ← fail_if (revision self <=? 0) (value_error "Memory revision must be positive");
  c ← freeze_json_mapping "context" (context self);
  Ok (mk (project_id self) (workflow_run_id self) (revision self) c (producer self)
        (source_references self)).
End MemoryRevision.
