(* ===== verification/Provider.v ===== *)
(** [backend/research/contracts/models.py], the provider section: usage,
    reservations, budgets and the lifecycle of one provider operation.  The
    operation is immutable: every transition builds a new value through the
    constructor, which checks it again. *)
From S2P Require Import Prelude Errors Text Float Value Sha256 Lifecycle Workflow Records.
Local Open Scope string_scope.
Local Open Scope list_scope.
Local Open Scope Z_scope.

(** ** The helpers of the contracts package *)

Definition require_text (v field_name : string) : res unit :=
  fail_if (is_blank v) (value_error (field_name +:+ " must be a non-empty string")).

Definition require_aware_value (ts : datetime) (field_name : string) : res unit :=
  fail_if (negb (is_aware ts)) (value_error (field_name +:+ " must be timezone-aware")).

Definition require_some_aware (ts : option datetime) (field_name : string) : res unit :=
  match ts with Some t => require_aware_value t field_name | None => Ok tt end.

(** [sha256:] and 64 lower-case hexadecimal digits. *)
Definition is_sha256 (v : string) : bool :=
  starts_with "sha256:" v
  && (String.length (removeprefix "sha256:" v) =? 64)%nat
  && forallb is_hex_char (String.list_ascii_of_string (removeprefix "sha256:" v)).

Definition require_sha256 (v field_name : string) : res unit :=
  fail_if (negb (is_sha256 v))
    (value_error (field_name +:+ " must be sha256:<64 lowercase hex characters>")).

(** ** Enumerations *)

Module ProviderCategory.
Inductive t := PAPER_SEARCH | SOURCE_CONTENT | LLM.
#[global] Instance eq_dec : EqDecision t.
Proof. solve_decision. Defined.
End ProviderCategory.

Module ProviderOperationKind.
Inductive t :=
  | SEARCH | RETRIEVE | GENERATE_TEXT | GENERATE_STRUCTURED | SUMMARIZE_EVIDENCE
  | SYNTHESIZE_CLAIMS | COMPOSE_REPORT | MECHANICAL_REPAIR.
#[global] Instance eq_dec : EqDecision t.
Proof. solve_decision. Defined.
End ProviderOperationKind.

Module ProviderFailureCategory.
Inductive t :=
  | INVALID_QUERY | PROVIDER_AUTHENTICATION | PROVIDER_RATE_LIMIT | PROVIDER_TIMEOUT
  | PROVIDER_UNAVAILABLE | MALFORMED_PROVIDER_RESPONSE | CONTENT_UNAVAILABLE | SCHEMA_VALIDATION
  | LLM_STRUCTURED_OUTPUT | PROVENANCE_VALIDATION | ARTIFACT_STORAGE | BUDGET_EXCEEDED | CANCELLED.
#[global] Instance eq_dec : EqDecision t.
Proof. solve_decision. Defined.
End ProviderFailureCategory.

Module ProviderOperationStatus.
Inductive t := RESERVED | RUNNING | SUCCEEDED | FAILED | CANCELLED.
#[global] Instance eq_dec : EqDecision t.
Proof. solve_decision. Defined.

Definition is_terminal (s : t) : bool :=
  match s with SUCCEEDED | FAILED | CANCELLED => true | _ => false end.
End ProviderOperationStatus.

Module SettlementState.
Inductive t := UNSETTLED | SETTLED | RELEASED.
#[global] Instance eq_dec : EqDecision t.
Proof. solve_decision. Defined.
End SettlementState.

(** ** [ProviderUsage], [ProviderReservation], [ProviderBudget] *)

Definition is_negative (o : option Z) : bool := match o with Some n => n <? 0 | None => false end.

Module ProviderUsage.
Record t := mk {
  provider : string;
  model_or_endpoint : string;
  operation_kind : ProviderOperationKind.t;
  request_count : Z;
  input_tokens : option Z;
  output_tokens : option Z;
  estimated_cost_minor_units : option Z;
  cost_currency : option string;
  latency_ms : Z;
  retry_count : Z;
  failure_category : option ProviderFailureCategory.t;
  provider_request_ids : list string;
  schema_version : string
}.

#[global] Instance eq_dec : EqDecision t.
Proof. solve_decision. Defined.

Definition post_init (self : t) : res t :=
  _ ← require_text (provider self) "ProviderUsage.provider";
  _ ← require_text (model_or_endpoint self) "ProviderUsage.model_or_endpoint";
  _ ← each_ok (fun vn => fail_if (vn.1 <? 0)
                 (value_error ("ProviderUsage." +:+ vn.2 +:+ " cannot be negative")))
        [(request_count self, "request_count"); (latency_ms self, "latency_ms");
         (retry_count self, "retry_count")];
  _ ← each_ok (fun vn => fail_if (is_negative vn.1)
                 (value_error ("ProviderUsage." +:+ vn.2 +:+ " cannot be negative")))
        [(input_tokens self, "input_tokens"); (output_tokens self, "output_tokens");
         (estimated_cost_minor_units self, "estimated_cost_minor_units")];
  _ ← fail_if (match estimated_cost_minor_units self with
               | Some _ => String.eqb (default "" (cost_currency self)) ""
               | None => false
               end) (value_error "ProviderUsage cost requires a currency");
  Ok self.

Definition zero_cost (provider_ model : string) (kind : ProviderOperationKind.t) : res t :=
  post_init (mk provider_ model kind 1 (Some 0) (Some 0) (Some 0) (Some "USD") 0 0 None []
               "provider-usage/v1").
End ProviderUsage.

Module ProviderReservation.
Record t := mk {
  request_count : Z;
  input_tokens : Z;
  output_tokens : Z;
  cost_minor_units : Z;
  cost_currency : string
}.

#[global] Instance eq_dec : EqDecision t.
Proof. solve_decision. Defined.

Definition post_init (self : t) : res t :=
  _ ← fail_if (Z.min (Z.min (request_count self) (input_tokens self))
                 (Z.min (output_tokens self) (cost_minor_units self)) <? 0)
        (value_error "ProviderReservation values cannot be negative");
  _ ← require_text (cost_currency self) "ProviderReservation.cost_currency";
  Ok self.
End ProviderReservation.

Module ProviderBudget.
Record t := mk {
  max_provider_requests : Z;
  max_llm_calls : Z;
  max_input_tokens : Z;
  max_output_tokens : Z;
  max_cost_minor_units : Z;
  cost_currency : string;
  max_runtime_seconds : Z;
  max_artifact_bytes : Z;
  live_provider_enabled : bool;
  schema_version : string
}.

Definition post_init (self : t) : res t :=
  _ ← fail_if (foldr Z.min 0 [max_provider_requests self; max_llm_calls self; max_input_tokens self;
                 max_output_tokens self; max_cost_minor_units self; max_runtime_seconds self;
                 max_artifact_bytes self] <? 0)
        (value_error "ProviderBudget limits cannot be negative");
  _ ← require_text (cost_currency self) "ProviderBudget.cost_currency";
  Ok self.

Definition fake_only_default : res t :=
  post_init (mk 25 10 0 0 0 "USD" 1800 (100 * 1024 * 1024) false "provider-budget/v1").
End ProviderBudget.

(** ** [ProviderOperation] *)

Module ProviderOperation.
Record t := mk {
  id : string;
  project_id : string;
  workflow_run_id : string;
  logical_step_id : string;
  step_run_id : option string;
  provider_category : ProviderCategory.t;
  operation_kind : ProviderOperationKind.t;
  provider_identity : string;
  adapter_version : string;
  model_or_endpoint : string;
  idempotency_key : string;
  request_fingerprint : string;
  reservation : ProviderReservation.t;
  is_live_provider : bool;
  status : ProviderOperationStatus.t;
  settlement_state : SettlementState.t;
  actual_usage : option ProviderUsage.t;
  failure_category : option ProviderFailureCategory.t;
  retry_count : Z;
  diagnostic_metadata : mapping;
  created_at : datetime;
  updated_at : datetime;
  started_at : option datetime;
  finished_at : option datetime;
  row_version : Z;
  schema_version : string
}.

(** The fields a transition replaces. *)
Definition replace (s : t) (status_ : ProviderOperationStatus.t) (settlement : SettlementState.t)
    (usage : option ProviderUsage.t) (failure : option ProviderFailureCategory.t) (retries : Z)
    (metadata : mapping) (updated : datetime) (started finished : option datetime) (version : Z) : t :=
  mk (id s) (project_id s) (workflow_run_id s) (logical_step_id s) (step_run_id s)
    (provider_category s) (operation_kind s) (provider_identity s) (adapter_version s)
    (model_or_endpoint s) (idempotency_key s) (request_fingerprint s) (reservation s)
    (is_live_provider s) status_ settlement usage failure retries metadata (created_at s) updated
    started finished version (schema_version s).

Definition is_set {A} (o : option A) : bool := match o with Some _ => true | None => false end.

(** The checks on the timestamps and on the settlement of each status. *)
Definition check_status (self : t) : res unit :=
  let terminal := ProviderOperationStatus.is_terminal (status self) in
  _ ← fail_if (terminal && negb (is_set (finished_at self)))
        (value_error "Terminal ProviderOperation requires finished_at");
  _ ← fail_if (bool_decide (status self = ProviderOperationStatus.RUNNING)
               && negb (is_set (started_at self)))
        (value_error "Running ProviderOperation requires started_at");
  _ ← fail_if (terminal && bool_decide (settlement_state self = SettlementState.UNSETTLED))
        (value_error "Terminal ProviderOperation must be settled or released");
  _ ← (if bool_decide (status self = ProviderOperationStatus.SUCCEEDED) then
         _ ← fail_if (negb (is_set (actual_usage self))
                      || negb (bool_decide (settlement_state self = SettlementState.SETTLED)))
               (value_error "Succeeded ProviderOperation must have settled usage");
         fail_if (is_set (failure_category self))
           (value_error "Succeeded ProviderOperation cannot have a failure")
       else Ok tt);
  _ ← fail_if (bool_decide (status self = ProviderOperationStatus.FAILED)
               && negb (is_set (failure_category self)))
        (value_error "Failed ProviderOperation requires a failure category");
  _ ← fail_if (bool_decide (status self = ProviderOperationStatus.CANCELLED)
               && negb (bool_decide (failure_category self = Some ProviderFailureCategory.CANCELLED)))
        (value_error "Cancelled ProviderOperation requires CANCELLED failure");
  fail_if (bool_decide (settlement_state self = SettlementState.RELEASED) && is_set (actual_usage self))
    (value_error "Released ProviderOperation cannot contain actual usage").

(** The usage reported must be for this operation and in its currency. *)
Definition check_usage (self : t) : res unit :=
  match actual_usage self with
  | None => Ok tt
  | Some u =>
      _ ← fail_if (negb (String.eqb (ProviderUsage.provider u) (provider_identity self)
                         && String.eqb (ProviderUsage.model_or_endpoint u) (model_or_endpoint self)
                         && bool_decide (ProviderUsage.operation_kind u = operation_kind self)))
            (value_error "ProviderOperation usage identity does not match operation");
      fail_if (match ProviderUsage.cost_currency u with
               | Some c => negb (String.eqb c (ProviderReservation.cost_currency (reservation self)))
               | None => false
               end) (value_error "ProviderOperation usage currency does not match reservation")
  end.

Definition post_init (self : t) : res t :=
  _ ← each_ok (fun vn => require_text vn.1 vn.2)
        [(id self, "ProviderOperation.id"); (project_id self, "ProviderOperation.project_id");
         (workflow_run_id self, "ProviderOperation.workflow_run_id");
         (logical_step_id self, "ProviderOperation.logical_step_id");
         (provider_identity self, "ProviderOperation.provider_identity");
         (adapter_version self, "ProviderOperation.adapter_version");
         (model_or_endpoint self, "ProviderOperation.model_or_endpoint");
         (idempotency_key self, "ProviderOperation.idempotency_key")];
  _ ← require_sha256 (request_fingerprint self) "ProviderOperation.request_fingerprint";
  _ ← require_aware_value (created_at self) "ProviderOperation.created_at";
  _ ← require_aware_value (updated_at self) "ProviderOperation.updated_at";
  _ ← require_some_aware (started_at self) "ProviderOperation.started_at";
  _ ← require_some_aware (finished_at self) "ProviderOperation.finished_at";
  _ ← fail_if ((retry_count self <? 0) || (row_version self <? 0))
        (value_error "ProviderOperation retry/version values cannot be negative");
  _ ← check_status self;
  _ ← check_usage self;
  metadata ← freeze_json_mapping "$" (diagnostic_metadata self);
  Ok (replace self (status self) (settlement_state self) (actual_usage self) (failure_category self)
        (retry_count self) metadata (updated_at self) (started_at self) (finished_at self)
        (row_version self)).

(** *** Transitions *)

Definition mark_running (self : t) (at_ : datetime) : res t :=
  _ ← fail_if (negb (bool_decide (status self = ProviderOperationStatus.RESERVED)))
        (value_error "Only RESERVED ProviderOperation can start");
  post_init (replace self ProviderOperationStatus.RUNNING (settlement_state self) (actual_usage self)
    (failure_category self) (retry_count self) (diagnostic_metadata self) at_ (Some at_)
    (finished_at self) (row_version self + 1)).

Definition settle_success (self : t) (usage : ProviderUsage.t) (at_ : datetime) : res t :=
  _ ← fail_if (negb (bool_decide (status self = ProviderOperationStatus.RUNNING)))
        (value_error "Only RUNNING ProviderOperation can succeed");
  post_init (replace self ProviderOperationStatus.SUCCEEDED SettlementState.SETTLED (Some usage) None
    (ProviderUsage.retry_count usage) (diagnostic_metadata self) at_ (started_at self) (Some at_)
    (row_version self + 1)).

Definition settle_failure (self : t) (failure : ProviderFailureCategory.t) (at_ : datetime)
    (usage : option ProviderUsage.t) (release_reservation : bool) (metadata : option mapping) : res t :=
  _ ← fail_if (negb (bool_decide (status self = ProviderOperationStatus.RESERVED)
                     || bool_decide (status self = ProviderOperationStatus.RUNNING)))
        (value_error "ProviderOperation cannot fail from its current status");
  post_init (replace self ProviderOperationStatus.FAILED
    (if release_reservation && negb (is_set usage) then SettlementState.RELEASED
     else SettlementState.SETTLED)
    usage (Some failure)
    (match usage with Some u => ProviderUsage.retry_count u | None => retry_count self end)
    (default [] metadata) at_ (started_at self) (Some at_) (row_version self + 1)).

Definition cancel (self : t) (at_ : datetime) (release_reservation : bool) : res t :=
  _ ← fail_if (ProviderOperationStatus.is_terminal (status self))
        (value_error "Terminal ProviderOperation cannot be cancelled");
  post_init (replace self ProviderOperationStatus.CANCELLED
    (if release_reservation then SettlementState.RELEASED else SettlementState.SETTLED)
    (actual_usage self) (Some ProviderFailureCategory.CANCELLED) (retry_count self)
    (diagnostic_metadata self) at_ (started_at self) (Some at_) (row_version self + 1)).
End ProviderOperation.

Module ProviderOperationRecord.
Record t := mk { operation : ProviderOperation.t; persistence_version : Z }.

Definition post_init (self : t) : res t :=
  _ ← fail_if (persistence_version self <=? 0)
        (value_error "ProviderOperationRecord.persistence_version must be positive");
  Ok self.
End ProviderOperationRecord.
