(* ===== verification/Budget.v ===== *)
(** [backend/research/services/budget.py]: what the provider operations of a run
    are accounted at, and the service that reserves, starts and settles them.
    The service is written against an interface, [OperationRepository], whose
    laws say what it expects of the storage. *)
From S2P Require Import Prelude Errors Text Float Value Sha256 Lifecycle Workflow Records Provider.
Local Open Scope string_scope.
Local Open Scope list_scope.
Local Open Scope Z_scope.

Definition budget_exceeded (dimension : string) : exn :=
  Exn BudgetExceededError ("Provider budget exceeded: " +:+ dimension).

Module BudgetTotals.
Record t := mk {
  request_count : Z;
  llm_call_count : Z;
  input_tokens : Z;
  output_tokens : Z;
  cost_minor_units : Z
}.

Definition zero : t := mk 0 0 0 0 0.

Definition plus (self : t) (r : ProviderReservation.t) (llm_calls : Z) : t :=
  mk (request_count self + ProviderReservation.request_count r)
     (llm_call_count self + llm_calls)
     (input_tokens self + ProviderReservation.input_tokens r)
     (output_tokens self + ProviderReservation.output_tokens r)
     (cost_minor_units self + ProviderReservation.cost_minor_units r).
End BudgetTotals.

(** ** [ProviderBudgetEvaluator] *)

(** What a settled operation is accounted at: the reported usage where it is
    known, the reservation where it is not, and never fewer requests than were
    reserved. *)
Definition used_amount (r : ProviderReservation.t) (u : ProviderUsage.t) : ProviderReservation.t :=
  ProviderReservation.mk
    (Z.max (ProviderReservation.request_count r) (ProviderUsage.request_count u))
    (default (ProviderReservation.input_tokens r) (ProviderUsage.input_tokens u))
    (default (ProviderReservation.output_tokens r) (ProviderUsage.output_tokens u))
    (default (ProviderReservation.cost_minor_units r) (ProviderUsage.estimated_cost_minor_units u))
    (if String.eqb (default "" (ProviderUsage.cost_currency u)) ""
     then ProviderReservation.cost_currency r else default "" (ProviderUsage.cost_currency u)).

Definition accounted_amount (op : ProviderOperation.t) : res ProviderReservation.t :=
  let r := ProviderOperation.reservation op in
  if bool_decide (ProviderOperation.settlement_state op = SettlementState.RELEASED) then
    ProviderReservation.post_init (ProviderReservation.mk 0 0 0 0 (ProviderReservation.cost_currency r))
  else
    match ProviderOperation.actual_usage op with
    | None => Ok r
    | Some u => ProviderReservation.post_init (used_amount r u)
    end.

Definition llm_calls (category : ProviderCategory.t) (amount : ProviderReservation.t) : Z :=
  if bool_decide (category = ProviderCategory.LLM) then ProviderReservation.request_count amount else 0.

Fixpoint totals_from (acc : BudgetTotals.t) (operations : list ProviderOperation.t) : res BudgetTotals.t :=
  match operations with
  | [] => Ok acc
  | op :: operations' =>
      amount ← accounted_amount op;
      totals_from (BudgetTotals.plus acc amount
                     (llm_calls (ProviderOperation.provider_category op) amount)) operations'
  end.

Definition totals (operations : list ProviderOperation.t) : res BudgetTotals.t :=
  totals_from BudgetTotals.zero operations.

(** The limits, in the order in which they are tested. *)
Definition budget_checks (budget : ProviderBudget.t) (projected : BudgetTotals.t) :
    list (string * Z * Z) :=
  [("provider_requests", BudgetTotals.request_count projected, ProviderBudget.max_provider_requests budget);
   ("llm_calls", BudgetTotals.llm_call_count projected, ProviderBudget.max_llm_calls budget);
   ("input_tokens", BudgetTotals.input_tokens projected, ProviderBudget.max_input_tokens budget);
   ("output_tokens", BudgetTotals.output_tokens projected, ProviderBudget.max_output_tokens budget);
   ("estimated_cost", BudgetTotals.cost_minor_units projected, ProviderBudget.max_cost_minor_units budget)].

Definition assert_can_reserve (budget : ProviderBudget.t) (operations : list ProviderOperation.t)
    (reservation : ProviderReservation.t) (category : ProviderCategory.t) : res unit :=
  _ ← fail_if (negb (String.eqb (ProviderReservation.cost_currency reservation)
                       (ProviderBudget.cost_currency budget)))
        (budget_exceeded "cost_currency");
  current ← totals operations;
  let projected := BudgetTotals.plus current reservation (llm_calls category reservation) in
  each_ok (fun '(dimension, actual, limit) => fail_if (limit <? actual) (budget_exceeded dimension))
    (budget_checks budget projected).

(** ** The port [ProviderOperationRepository] *)

Class OperationRepository (S : Type) := {
  find_operation : string -> S -> option ProviderOperation.t;
  operation_version : string -> S -> option Z;
  operation_by_key : string -> string -> S -> option ProviderOperation.t;
  operations_of_run : string -> string -> S -> list ProviderOperation.t;
  save_operation : ProviderOperation.t -> option Z -> M exn S Z
}.

(** ** [ProviderOperationService] *)

(** Two operations make the same request. *)
Definition same_request (a b : ProviderOperation.t) : bool :=
  let same {A} `{EqDecision A} (f : ProviderOperation.t -> A) := bool_decide (f a = f b) in
  same ProviderOperation.request_fingerprint && same ProviderOperation.workflow_run_id
  && same ProviderOperation.logical_step_id && same ProviderOperation.step_run_id
  && same ProviderOperation.provider_category && same ProviderOperation.operation_kind
  && same ProviderOperation.provider_identity && same ProviderOperation.adapter_version
  && same ProviderOperation.model_or_endpoint && same ProviderOperation.reservation
  && same ProviderOperation.is_live_provider.

Section service.
Context {S : Type} `{!OperationRepository S}.

Definition reserve (operation : ProviderOperation.t) (budget : ProviderBudget.t) :
    M exn S (ProviderOperation.t * bool) :=
  raise_if (negb (bool_decide (ProviderOperation.status operation = ProviderOperationStatus.RESERVED)))
    (value_error "New provider operation must be RESERVED") ;;
  existing ← gets (operation_by_key (ProviderOperation.project_id operation)
                     (ProviderOperation.idempotency_key operation));
  match existing with
  | Some old =>
      raise_if (negb (same_request old operation))
        (Exn DuplicateEntityError
           "Provider operation idempotency key has conflicting request identity") ;;
      mret (old, true)
  | None =>
      raise_if (ProviderOperation.is_live_provider operation
                && negb (ProviderBudget.live_provider_enabled budget))
        (budget_exceeded "live_provider_disabled") ;;
      current ← gets (operations_of_run (ProviderOperation.project_id operation)
                        (ProviderOperation.workflow_run_id operation));
      lift_result (assert_can_reserve budget current (ProviderOperation.reservation operation)
                     (ProviderOperation.provider_category operation)) ;;
      save_operation operation None ;;
      mret (operation, false)
  end.

Definition load_versioned (operation_id : string) : M exn S (ProviderOperation.t * Z) :=
  operation ← gets (find_operation operation_id);
  version ← gets (operation_version operation_id);
  match operation, version with
  | Some op, Some v => mret (op, v)
  | _, _ => raise (Exn StaleStateError ("ProviderOperation " +:+ operation_id +:+ " does not exist"))
  end.

(** [_load_versioned], a transition, [save] at the loaded version. *)
Definition update_operation (operation_id : string)
    (transition : ProviderOperation.t -> res ProviderOperation.t) : M exn S ProviderOperation.t :=
  loaded ← load_versioned operation_id;
  updated ← lift_result (transition loaded.1);
  save_operation updated (Some loaded.2) ;;
  mret updated.

Definition mark_running (operation_id : string) (at_ : datetime) : M exn S ProviderOperation.t :=
  update_operation operation_id (fun op => ProviderOperation.mark_running op at_).

Definition settle_success (operation_id : string) (usage : ProviderUsage.t) (at_ : datetime) :
    M exn S ProviderOperation.t :=
  update_operation operation_id (fun op => ProviderOperation.settle_success op usage at_).

(** The guard of [settle_failure] and [cancel]: only what never started
    releases its reservation. *)
Definition check_started (op : ProviderOperation.t) (provider_call_started : bool) : res unit :=
  if provider_call_started then
    fail_if (negb (bool_decide (ProviderOperation.status op = ProviderOperationStatus.RUNNING)))
      (value_error "A started provider call must have a RUNNING reservation")
  else
    fail_if (negb (bool_decide (ProviderOperation.status op = ProviderOperationStatus.RESERVED)))
      (value_error "Only an unstarted RESERVED operation can release budget").

Definition settle_failure (operation_id : string) (category : ProviderFailureCategory.t) (at_ : datetime)
    (usage : option ProviderUsage.t) (provider_call_started : bool) (metadata : option mapping) :
    M exn S ProviderOperation.t :=
  update_operation operation_id (fun op =>
    _ ← check_started op provider_call_started;
    ProviderOperation.settle_failure op category at_ usage (negb provider_call_started) metadata).

Definition cancel (operation_id : string) (at_ : datetime) (provider_call_started : bool) :
    M exn S ProviderOperation.t :=
  update_operation operation_id (fun op =>
    _ ← check_started op provider_call_started;
    ProviderOperation.cancel op at_ (negb provider_call_started)).
End service.
