(* ===== verification/BudgetFacts.v ===== *)
(** The promises of the budget service, proved against the laws of its storage:
    within one unit of work a run never spends more than its budget as long as
    providers report no more than was reserved, refusals change nothing, and a repeated
    reservation is counted once. *)
From S2P Require Import Prelude Errors Text Float Value Sha256 Lifecycle Workflow Records Provider Budget.
Local Open Scope string_scope.
Local Open Scope list_scope.
Local Open Scope Z_scope.

Abbreviation op_id := ProviderOperation.id.

(** What a later version of an operation must keep. *)
Definition same_identity (a b : ProviderOperation.t) : Prop :=
  ProviderOperation.project_id a = ProviderOperation.project_id b /\
  ProviderOperation.workflow_run_id a = ProviderOperation.workflow_run_id b /\
  ProviderOperation.idempotency_key a = ProviderOperation.idempotency_key b /\
  ProviderOperation.provider_category a = ProviderOperation.provider_category b /\
  ProviderOperation.reservation a = ProviderOperation.reservation b.

Definition has_key (p k : string) (op : ProviderOperation.t) : Prop :=
  ProviderOperation.project_id op = p /\ ProviderOperation.idempotency_key op = k.

Definition in_run (p r : string) (op : ProviderOperation.t) : Prop :=
  ProviderOperation.project_id op = p /\ ProviderOperation.workflow_run_id op = r.

#[export] Instance has_key_dec p k op : Decision (has_key p k op).
Proof. unfold has_key. apply _. Defined.
#[export] Instance in_run_dec p r op : Decision (in_run p r op).
Proof. unfold in_run. apply _. Defined.

(** The operations of a table. *)
Definition values_of (m : gmap string (ProviderOperation.t * Z)) : list ProviderOperation.t :=
  (map_to_list m).*2.*1.

(** ** The laws of the storage *)

Class OperationStore (S : Type) `{!OperationRepository S} := {
  stored : S -> gmap string (ProviderOperation.t * Z);
  store_ok : S -> Prop;
  ok_ids s i op v : store_ok s -> stored s !! i = Some (op, v) -> op_id op = i;
  ok_keys s i j a b v w : store_ok s -> stored s !! i = Some (a, v) -> stored s !! j = Some (b, w) ->
    has_key (ProviderOperation.project_id a) (ProviderOperation.idempotency_key a) b -> i = j;
  find_spec s i : find_operation i s = fst <$> stored s !! i;
  version_spec s i : operation_version i s = snd <$> stored s !! i;
  by_key_some s p k op : store_ok s -> operation_by_key p k s = Some op ->
    has_key p k op /\ exists i v, stored s !! i = Some (op, v);
  by_key_none s p k : store_ok s -> operation_by_key p k s = None ->
    forall i op v, stored s !! i = Some (op, v) -> ~ has_key p k op;
  of_run_spec s p r : store_ok s -> operations_of_run p r s ≡ₚ filter (in_run p r) (values_of (stored s));
  save_new s op v s' : store_ok s -> save_operation op None s = (Ok v, s') ->
    stored s !! op_id op = None /\ stored s' = <[op_id op := (op, 1)]> (stored s) /\ store_ok s';
  save_new_defined s op : store_ok s -> stored s !! op_id op = None ->
    operation_by_key (ProviderOperation.project_id op) (ProviderOperation.idempotency_key op) s = None ->
    exists v s', save_operation op None s = (Ok v, s');
  save_known s op v v' s' : store_ok s -> save_operation op (Some v) s = (Ok v', s') ->
    exists old, stored s !! op_id op = Some (old, v) /\ same_identity old op /\
      stored s' = <[op_id op := (op, v + 1)]> (stored s) /\ store_ok s';
  save_refused s op ver e s' : store_ok s -> save_operation op ver s = (Err e, s') -> s' = s
}.

(** ** Amounts *)

(** The amount an operation is accounted at, and its share of each total. *)
Definition amount (op : ProviderOperation.t) : ProviderReservation.t :=
  let r := ProviderOperation.reservation op in
  if bool_decide (ProviderOperation.settlement_state op = SettlementState.RELEASED) then
    ProviderReservation.mk 0 0 0 0 (ProviderReservation.cost_currency r)
  else
    match ProviderOperation.actual_usage op with
    | None => r
    | Some u => used_amount r u
    end.

Definition charge (op : ProviderOperation.t) (r : ProviderReservation.t) : BudgetTotals.t :=
  BudgetTotals.plus BudgetTotals.zero r (llm_calls (ProviderOperation.provider_category op) r).

(** The five dimensions with their limits. *)
Definition dimensions : list ((BudgetTotals.t -> Z) * (ProviderBudget.t -> Z)) :=
  [(BudgetTotals.request_count, ProviderBudget.max_provider_requests);
   (BudgetTotals.llm_call_count, ProviderBudget.max_llm_calls);
   (BudgetTotals.input_tokens, ProviderBudget.max_input_tokens);
   (BudgetTotals.output_tokens, ProviderBudget.max_output_tokens);
   (BudgetTotals.cost_minor_units, ProviderBudget.max_cost_minor_units)].

Definition spent (l : list ProviderOperation.t) (d : BudgetTotals.t -> Z) : Z :=
  Zsum (fun op => d (charge op (amount op))) l.

Definition within (b : ProviderBudget.t) (l : list ProviderOperation.t) : Prop :=
  forall d limit, (d, limit) ∈ dimensions -> spent l d <= limit b.

Lemma accounted_is_amount op a : accounted_amount op = Ok a -> a = amount op.
Proof.
  unfold accounted_amount, amount. destruct (bool_decide _).
  - unfold ProviderReservation.post_init. rewrite !then_Ok. by intros (_ & _ & [= <-]).
  - destruct (ProviderOperation.actual_usage op); [|by intros [= <-]].
    unfold ProviderReservation.post_init. rewrite !then_Ok. by intros (_ & _ & [= <-]).
Qed.

Ltac dims H := unfold dimensions in H; rewrite !elem_of_cons, elem_of_nil in H;
  destruct H as [[= -> ->]|[[= -> ->]|[[= -> ->]|[[= -> ->]|[[= -> ->]|[]]]]]].

Lemma dimension_plus d limit t r n : (d, limit) ∈ dimensions ->
  d (BudgetTotals.plus t r n) = d t + d (BudgetTotals.plus BudgetTotals.zero r n).
Proof. intros H. dims H; done. Qed.

Lemma dimension_zero d limit : (d, limit) ∈ dimensions -> d BudgetTotals.zero = 0.
Proof. intros H. dims H; done. Qed.

Lemma spent_cons op l d : spent (op :: l) d = d (charge op (amount op)) + spent l d.
Proof. reflexivity. Qed.

Lemma totals_from_spent acc l t d limit :
  totals_from acc l = Ok t -> (d, limit) ∈ dimensions -> d t = d acc + spent l d.
Proof.
  intros H Hd. revert acc H. induction l as [|op l IH]; intros acc H; cbn [totals_from] in H.
  - injection H as <-. change (spent [] d) with 0. lia.
  - rewrite bind_Ok in H. destruct H as (a & Ha & H). apply IH in H. rewrite H, spent_cons.
    apply accounted_is_amount in Ha as ->. rewrite (dimension_plus _ _ _ _ _ Hd).
    unfold charge. lia.
Qed.

(** A granted reservation stays within every limit. *)
Lemma can_reserve_within b l r cat :
  assert_can_reserve b l r cat = Ok tt ->
  forall d limit, (d, limit) ∈ dimensions ->
    spent l d + d (BudgetTotals.plus BudgetTotals.zero r (llm_calls cat r)) <= limit b.
Proof.
  unfold assert_can_reserve. rewrite then_Ok, bind_Ok. intros (_ & t & Ht & H) d limit Hd. cbn zeta in H.
  rewrite each_ok_Ok in H.
  pose proof (totals_from_spent _ _ _ _ _ Ht Hd) as Hs. rewrite (dimension_zero d limit Hd) in Hs.
  assert (d (BudgetTotals.plus t r (llm_calls cat r)) <= limit b) as Hle.
  { assert (exists n, (n, d (BudgetTotals.plus t r (llm_calls cat r)), limit b)
              ∈ budget_checks b (BudgetTotals.plus t r (llm_calls cat r))) as [n Hin].
    { unfold budget_checks. dims Hd; eexists; rewrite !elem_of_cons; eauto 10. }
    specialize (H _ Hin). cbn in H. apply fail_if_Ok in H. by apply Z.ltb_ge in H. }
  rewrite (dimension_plus _ _ _ _ _ Hd) in Hle. lia.
Qed.

(** ** Accounting of one operation *)

(** An operation that holds its reservation. *)
Definition open_operation (op : ProviderOperation.t) : Prop :=
  ProviderOperation.settlement_state op = SettlementState.UNSETTLED /\
  ProviderOperation.actual_usage op = None.

Definition reservation_ok (r : ProviderReservation.t) : Prop :=
  is_ok (ProviderReservation.post_init r) = true.

(** A report that stays within the reservation it settles. *)
Definition covered (r : ProviderReservation.t) (u : ProviderUsage.t) : Prop :=
  forall d limit, (d, limit) ∈ dimensions -> forall cat,
    d (BudgetTotals.plus BudgetTotals.zero (used_amount r u) (llm_calls cat (used_amount r u)))
    <= d (BudgetTotals.plus BudgetTotals.zero r (llm_calls cat r)).

(** What every stored operation satisfies: a started or waiting operation
    holds a valid reservation. *)
Definition operation_ok (op : ProviderOperation.t) : Prop :=
  reservation_ok (ProviderOperation.reservation op) /\
  (ProviderOperationStatus.is_terminal (ProviderOperation.status op) = false -> open_operation op).

(** [new] replaces [old] without accounting for more. *)
Definition no_dearer (old new : ProviderOperation.t) : Prop :=
  forall d limit, (d, limit) ∈ dimensions -> d (charge new (amount new)) <= d (charge old (amount old)).

Lemma open_amount op : open_operation op -> amount op = ProviderOperation.reservation op.
Proof. intros [H1 H2]. unfold amount. by rewrite H1, H2. Qed.

Lemma reservation_nonneg r c d limit : reservation_ok r -> (d, limit) ∈ dimensions ->
  0 <= d (BudgetTotals.plus BudgetTotals.zero r (llm_calls c r)).
Proof.
  unfold reservation_ok, ProviderReservation.post_init. rewrite is_ok_exists. intros [x H] Hd.
  rewrite then_Ok, fail_if_Ok in H. destruct H as [H _]. apply Z.ltb_ge in H.
  unfold llm_calls. dims Hd; cbn; try case_bool_decide; lia.
Qed.

(** A transition's result, up to its frozen metadata. *)
Lemma operation_post_init op op' : ProviderOperation.post_init op = Ok op' ->
  exists metadata, op' = ProviderOperation.replace op (ProviderOperation.status op)
    (ProviderOperation.settlement_state op) (ProviderOperation.actual_usage op)
    (ProviderOperation.failure_category op) (ProviderOperation.retry_count op) metadata
    (ProviderOperation.updated_at op) (ProviderOperation.started_at op)
    (ProviderOperation.finished_at op) (ProviderOperation.row_version op).
Proof.
  unfold ProviderOperation.post_init. rewrite !then_Ok, bind_Ok.
  intros (_ & _ & _ & _ & _ & _ & _ & _ & _ & m & _ & [= <-]). by exists m.
Qed.

(** Every transition keeps the identity and the invariant, and never accounts
    for more than the reservation it replaces. *)
Definition settles (old new : ProviderOperation.t) : Prop :=
  operation_ok new /\ no_dearer old new.

Lemma settled_amount old new u :
  operation_ok old -> open_operation old ->
  ProviderOperation.reservation new = ProviderOperation.reservation old ->
  ProviderOperation.provider_category new = ProviderOperation.provider_category old ->
  ProviderOperation.actual_usage new = u ->
  match u with Some u => covered (ProviderOperation.reservation old) u | None => True end ->
  no_dearer old new.
Proof.
  intros [Hr _] Hopen Hres Hcat Hu Hc d limit Hd. unfold charge. rewrite (open_amount _ Hopen), Hcat.
  unfold amount. rewrite Hu, Hres. case_bool_decide.
  - etrans; [|by apply (reservation_nonneg _ _ d limit Hr)].
    unfold llm_calls. dims Hd; cbn; try case_bool_decide; lia.
  - destruct u as [u|]; [by eapply Hc|lia].
Qed.

Ltac transition H :=
  apply then_Ok in H as [_ H]; apply operation_post_init in H as [m ->].

Lemma mark_running_settles op at_ op' : operation_ok op ->
  ProviderOperation.mark_running op at_ = Ok op' -> settles op op'.
Proof.
  intros [Hr Ho] H. unfold ProviderOperation.mark_running in H.
  pose proof H as Hst. apply then_Ok in Hst as [Hst _]. apply fail_if_Ok in Hst. reflect_bools.
  destruct (Ho ltac:(by rewrite Hst)) as [H1 H2]. transition H. split; [by split|].
  eapply settled_amount; try done; by rewrite ?H2.
Qed.

Lemma settle_success_settles op u at_ op' : operation_ok op ->
  covered (ProviderOperation.reservation op) u ->
  ProviderOperation.settle_success op u at_ = Ok op' -> settles op op'.
Proof.
  intros [Hr Ho] Hc H. unfold ProviderOperation.settle_success in H.
  pose proof H as Hst. apply then_Ok in Hst as [Hst _]. apply fail_if_Ok in Hst. reflect_bools.
  specialize (Ho ltac:(by rewrite Hst)). transition H. split; [by split|].
  by eapply (settled_amount _ _ (Some u)).
Qed.

Lemma settle_failure_settles op cat at_ u release metadata op' : operation_ok op ->
  match u with Some u => covered (ProviderOperation.reservation op) u | None => True end ->
  ProviderOperation.settle_failure op cat at_ u release metadata = Ok op' -> settles op op'.
Proof.
  intros [Hr Ho] Hc H. unfold ProviderOperation.settle_failure in H.
  pose proof H as Hst. apply then_Ok in Hst as [Hst _]. apply fail_if_Ok in Hst.
  apply negb_false_iff, orb_true_iff in Hst. rewrite !bool_decide_eq_true in Hst.
  specialize (Ho ltac:(by destruct Hst as [-> | ->])). transition H. split; [by split|].
  by eapply (settled_amount _ _ u).
Qed.

Lemma cancel_settles op at_ release op' : operation_ok op ->
  ProviderOperation.cancel op at_ release = Ok op' -> settles op op'.
Proof.
  intros [Hr Ho] H. unfold ProviderOperation.cancel in H.
  pose proof H as Hst. apply then_Ok in Hst as [Hst _]. apply fail_if_Ok in Hst.
  specialize (Ho Hst). destruct Ho as [H1 H2]. transition H. split; [by split|].
  eapply (settled_amount _ _ None); try done.
Qed.

(** ** Tables *)

Lemma values_insert_new m i op v : m !! i = None -> values_of (<[i := (op, v)]> m) ≡ₚ op :: values_of m.
Proof. intros H. unfold values_of. by rewrite (map_to_list_insert _ _ _ H). Qed.

Lemma values_insert_old m i old v op w : m !! i = Some (old, v) ->
  exists l, values_of m ≡ₚ old :: l /\ values_of (<[i := (op, w)]> m) ≡ₚ op :: l.
Proof.
  intros H. exists (values_of (delete i m)). split.
  - rewrite <- (insert_delete_id m i (old, v) H) at 1. apply values_insert_new. by simplify_map_eq.
  - rewrite <- insert_delete_eq. apply values_insert_new. by simplify_map_eq.
Qed.

Lemma elem_values_of m op : op ∈ values_of m <-> exists i v, m !! i = Some (op, v).
Proof.
  unfold values_of. rewrite list_elem_of_fmap. split.
  - intros ([? v] & -> & H). apply list_elem_of_fmap in H as ([i ?] & ? & H). simplify_eq/=.
    exists i, v. by apply elem_of_map_to_list.
  - intros (i & v & H). exists (op, v). split; [done|]. apply list_elem_of_fmap. exists (i, (op, v)).
    split; [done|]. by apply elem_of_map_to_list.
Qed.

#[export] Instance spent_proper : Proper ((≡ₚ) ==> eq ==> eq) spent.
Proof. intros l l' H d ? <-. unfold spent. by rewrite H. Qed.

#[export] Instance within_proper b : Proper ((≡ₚ) ==> iff) (within b).
Proof.
  intros l l' H. unfold within. by split; intros W d limit Hd; specialize (W d limit Hd); rewrite H in *.
Qed.

(** ** Runs of the service *)

Section service.
Context {S : Type} `{OS : OperationStore S}.

(** The operations of a run, as the storage holds them. *)
Definition run_operations (p r : string) (s : S) : list ProviderOperation.t :=
  filter (in_run p r) (values_of (stored s)).

Definition budget_ok (p r : string) (b : ProviderBudget.t) (s : S) : Prop :=
  store_ok s /\ (forall op, op ∈ values_of (stored s) -> operation_ok op) /\
  within b (run_operations p r s).

Lemma within_spent_eq b l l' : (forall d, spent l d = spent l' d) -> within b l -> within b l'.
Proof. intros H W d limit Hd. rewrite <- H. by apply W. Qed.

(** Storing a new operation of the run that fits the budget, or one of another run. *)
Lemma new_operation_ok p r b s op v s' :
  budget_ok p r b s -> operation_ok op -> open_operation op ->
  save_operation op None s = (Ok v, s') ->
  (in_run p r op -> assert_can_reserve b (run_operations p r s)
     (ProviderOperation.reservation op) (ProviderOperation.provider_category op) = Ok tt) ->
  budget_ok p r b s'.
Proof.
  intros (Hok & Hops & Hw) Hop Hopen Hsave Hfits.
  destruct (save_new _ _ _ _ Hok Hsave) as (Hnone & Hs' & Hok'). split_and!; [done| |].
  - intros op' Hin. rewrite Hs', values_insert_new, elem_of_cons in Hin by done.
    destruct Hin as [->|]; [done|by apply Hops].
  - unfold run_operations. rewrite Hs', values_insert_new by done.
    destruct (decide (in_run p r op)) as [Hrun|Hrun].
    + rewrite filter_cons_True by done. intros d limit Hd. rewrite spent_cons. unfold charge.
      rewrite open_amount by done. pose proof (can_reserve_within _ _ _ _ (Hfits Hrun) d limit Hd).
      unfold run_operations in *. lia.
    + by rewrite filter_cons_False.
Qed.

(** Replacing an operation by one that is no dearer. *)
Lemma known_operation_ok p r b s op v v' s' :
  budget_ok p r b s ->
  (forall old, stored s !! op_id op = Some (old, v) -> settles old op) ->
  save_operation op (Some v) s = (Ok v', s') -> budget_ok p r b s'.
Proof.
  intros (Hok & Hops & Hw) Hset Hsave.
  destruct (save_known _ _ _ _ _ Hok Hsave) as (old & Hold & (E1 & E2 & _) & Hs' & Hok').
  destruct (Hset _ Hold) as [Hop Hdear].
  destruct (values_insert_old _ _ _ _ op (v + 1) Hold) as (l & Hl & Hl'). split_and!; [done| |].
  - intros op' Hin. rewrite Hs', Hl', elem_of_cons in Hin. destruct Hin as [->|Hin]; [done|].
    apply Hops. rewrite Hl. by right.
  - unfold run_operations in *. rewrite Hs', Hl'. rewrite Hl in Hw.
    destruct (decide (in_run p r old)) as [Hrun|Hrun].
    + assert (in_run p r op) by (destruct Hrun; split; congruence).
      rewrite filter_cons_True in * by done. intros d limit Hd. specialize (Hw d limit Hd).
      specialize (Hdear d limit Hd). rewrite !spent_cons in *. lia.
    + assert (~ in_run p r op) by (intros [??]; apply Hrun; split; congruence).
      by rewrite filter_cons_False in * by done.
Qed.

Lemma update_operation_eq i f s :
  update_operation i f s =
    match stored s !! i with
    | None => (Err (Exn StaleStateError ("ProviderOperation " +:+ i +:+ " does not exist")), s)
    | Some (old, v) =>
        match f old with
        | Err e => (Err e, s)
        | Ok new => match save_operation new (Some v) s with
                    | (Ok _, s') => (Ok new, s')
                    | (Err e, s') => (Err e, s')
                    end
        end
    end.
Proof.
  unfold update_operation, load_versioned, mbind, M_bind, gets, lift_result, mret, M_ret, raise.
  rewrite find_spec, version_spec. destruct (stored s !! i) as [[old v]|]; [|done]. cbn.
  destruct (f old) as [new|e]; [|done]. by destruct (save_operation new (Some v) s) as [[|] ?].
Qed.

Lemma update_operation_ok p r b s i f x s' :
  budget_ok p r b s ->
  (forall old new v, stored s !! i = Some (old, v) -> operation_ok old -> f old = Ok new ->
     op_id new = op_id old /\ settles old new) ->
  update_operation i f s = (x, s') -> budget_ok p r b s'.
Proof.
  intros Hok Hf H. rewrite update_operation_eq in H.
  destruct (stored s !! i) as [[old v]|] eqn:Hi; [|by injection H as _ <-].
  destruct (f old) as [new|e] eqn:Hnew; [|by injection H as _ <-].
  assert (operation_ok old) as Hop by (apply Hok, elem_values_of; eauto).
  destruct (Hf _ _ _ eq_refl Hop Hnew) as [Hid Hset].
  destruct (save_operation new (Some v) s) as [[v'|e] s''] eqn:Hsave; injection H as _ <-.
  - eapply known_operation_ok; [done| |done]. intros old' Hold'.
    rewrite Hid, (ok_ids _ _ _ _ (proj1 Hok) Hi), Hi in Hold'. by injection Hold' as <-.
  - by rewrite (save_refused _ _ _ _ _ (proj1 Hok) Hsave).
Qed.

(** What [reserve] does when it succeeds: it found the same request, or it
    stored the operation after every test. *)
Lemma reserve_Ok op bud s o known s' : reserve op bud s = (Ok (o, known), s') ->
  ProviderOperation.status op = ProviderOperationStatus.RESERVED /\
  ((known = true /\ s' = s /\ same_request o op = true /\
    operation_by_key (ProviderOperation.project_id op) (ProviderOperation.idempotency_key op) s = Some o) \/
   (known = false /\ o = op /\
    operation_by_key (ProviderOperation.project_id op) (ProviderOperation.idempotency_key op) s = None /\
    assert_can_reserve bud (operations_of_run (ProviderOperation.project_id op)
      (ProviderOperation.workflow_run_id op) s) (ProviderOperation.reservation op)
      (ProviderOperation.provider_category op) = Ok tt /\
    exists v, save_operation op None s = (Ok v, s'))).
Proof.
  unfold reserve, mbind, M_bind, raise_if, raise, gets, lift_result, mret, M_ret.
  case_bool_decide as Hst; [|done]. cbn. split; [done|].
  destruct (operation_by_key _ _ s) as [old|].
  - destruct (same_request old op) eqn:Hsame; cbn in *; [|done]. simplify_eq. by left.
  - right. destruct (_ && negb (ProviderBudget.live_provider_enabled bud)); [done|]. destruct (assert_can_reserve _ _ _ _) as [[]|]; [|done].
    destruct (save_operation op None s) as [[v|] ?]; [|done]. simplify_eq/=. eauto 10.
Qed.

Lemma reserve_Err op bud s e s' : store_ok s -> reserve op bud s = (Err e, s') -> s' = s.
Proof.
  intros Hok. unfold reserve, mbind, M_bind, raise_if, raise, gets, lift_result, mret, M_ret.
  case_bool_decide as Hst; cbn; [|by intros [= _ <-]].
  destruct (operation_by_key _ _ s) as [old|].
  - by destruct (same_request old op); intros [= _ <-].
  - destruct (_ && negb (ProviderBudget.live_provider_enabled bud)); [by intros [= _ <-]|]. destruct (assert_can_reserve _ _ _ _) as [[]|]; [|by intros [= _ <-]].
    destruct (save_operation op None s) as [[v|] s''] eqn:Hs; [done|]. intros [= _ <-].
    by eapply save_refused.
Qed.

Lemma run_operations_spec p r s : store_ok s -> operations_of_run p r s ≡ₚ run_operations p r s.
Proof. apply of_run_spec. Qed.

Lemma totals_from_perm acc l l' : l ≡ₚ l' -> is_ok (totals_from acc l) = is_ok (totals_from acc l').
Proof.
  intros H. revert acc. induction H as [|x l l' _ IH|x y l|l1 l2 l3 _ IH1 _ IH2]; intros acc; cbn; [done| | |].
  - destruct (accounted_amount x); cbn; [apply IH|done].
  - destruct (accounted_amount x) as [a|], (accounted_amount y) as [b|]; cbn; try done.
    f_equal. f_equal. unfold BudgetTotals.plus. cbn. f_equal; lia.
  - by rewrite IH1.
Qed.

(** Whether a reservation fits does not depend on the order of the run's operations. *)
Lemma can_reserve_perm b l l' r cat :
  l ≡ₚ l' -> assert_can_reserve b l r cat = Ok tt -> assert_can_reserve b l' r cat = Ok tt.
Proof.
  intros Hp. unfold assert_can_reserve. rewrite !then_Ok, !bind_Ok. intros (Hc & t & Ht & H). split; [done|].
  assert (is_ok (totals l') = true) as Hl'.
  { unfold totals in *. by rewrite <- (totals_from_perm _ _ _ Hp), Ht. }
  apply is_ok_exists in Hl' as [t' Ht']. exists t'. split; [done|].
  assert (t' = t) as ->; [|done].
  assert (forall d limit, (d, limit) ∈ dimensions -> d t' = d t) as Hd.
  { intros d limit Hd. rewrite (totals_from_spent _ _ _ _ _ Ht Hd), (totals_from_spent _ _ _ _ _ Ht' Hd).
    by rewrite Hp. }
  destruct t, t'. unfold dimensions in Hd.
  f_equal; [apply (Hd BudgetTotals.request_count ProviderBudget.max_provider_requests)
           |apply (Hd BudgetTotals.llm_call_count ProviderBudget.max_llm_calls)
           |apply (Hd BudgetTotals.input_tokens ProviderBudget.max_input_tokens)
           |apply (Hd BudgetTotals.output_tokens ProviderBudget.max_output_tokens)
           |apply (Hd BudgetTotals.cost_minor_units ProviderBudget.max_cost_minor_units)];
    rewrite !elem_of_cons; eauto 10.
Qed.

Lemma reserve_ok p r b op bud s x s' :
  budget_ok p r b s -> operation_ok op -> open_operation op -> (in_run p r op -> bud = b) ->
  reserve op bud s = (x, s') -> budget_ok p r b s'.
Proof.
  intros Hok Hop Hopen Hb H. destruct x as [[o known]|e].
  2:{ by rewrite (reserve_Err _ _ _ _ _ (proj1 Hok) H). }
  destruct (reserve_Ok _ _ _ _ _ _ H) as (_ & [(_ & -> & _)|(_ & _ & _ & Hcan & v & Hsave)]); [done|].
  eapply new_operation_ok; [done..|]. intros Hrun. destruct Hrun as [Hp Hr].
  rewrite <- (Hb (conj Hp Hr)), <- Hp, <- Hr. eapply can_reserve_perm, Hcan. apply run_operations_spec, Hok.
Qed.

(** The calls made on the service in one unit of work, whatever their result; every
    reservation of run [r] of project [p] is made against budget [b], and every
    reported usage is covered by its reservation. *)
Inductive budget_step (p r : string) (b : ProviderBudget.t) (s : S) : S -> Prop :=
  | step_reserve op bud x s' : operation_ok op -> open_operation op -> (in_run p r op -> bud = b) ->
      reserve op bud s = (x, s') -> budget_step p r b s s'
  | step_mark_running i at_ x s' : mark_running i at_ s = (x, s') -> budget_step p r b s s'
  | step_settle_success i u at_ x s' :
      (forall op v, stored s !! i = Some (op, v) -> covered (ProviderOperation.reservation op) u) ->
      settle_success i u at_ s = (x, s') -> budget_step p r b s s'
  | step_settle_failure i cat at_ u started metadata x s' :
      (forall op v u', stored s !! i = Some (op, v) -> u = Some u' ->
         covered (ProviderOperation.reservation op) u') ->
      settle_failure i cat at_ u started metadata s = (x, s') -> budget_step p r b s s'
  | step_cancel i at_ started x s' : cancel i at_ started s = (x, s') -> budget_step p r b s s'.

Lemma post_init_id op op' : ProviderOperation.post_init op = Ok op' -> op_id op' = op_id op.
Proof. intros H. by apply operation_post_init in H as [m ->]. Qed.

Lemma budget_step_ok p r b s s' : budget_ok p r b s -> budget_step p r b s s' -> budget_ok p r b s'.
Proof.
  intros Hok H. destruct H as [op bud x s' Hop Hopen Hb H|i at_ x s' H|i u at_ x s' Hc H
    |i cat at_ u started metadata x s' Hc H|i at_ started x s' H].
  - by eapply reserve_ok.
  - eapply update_operation_ok; [done| |done]. intros old new v Hold Ho Hnew. cbv beta in Hnew. split.
    + apply then_Ok in Hnew as [_ Hnew]. by apply post_init_id in Hnew.
    + by eapply mark_running_settles.
  - eapply update_operation_ok; [done| |done]. intros old new v Hold Ho Hnew. cbv beta in Hnew. split.
    + apply then_Ok in Hnew as [_ Hnew]. by apply post_init_id in Hnew.
    + eapply settle_success_settles; eauto.
  - eapply update_operation_ok; [done| |done]. intros old new v Hold Ho Hnew. cbv beta in Hnew.
    apply then_Ok in Hnew as [_ Hnew]. split.
    + apply then_Ok in Hnew as [_ Hnew]. by apply post_init_id in Hnew.
    + eapply settle_failure_settles; [done| |done]. destruct u; eauto.
  - eapply update_operation_ok; [done| |done]. intros old new v Hold Ho Hnew. cbv beta in Hnew.
    apply then_Ok in Hnew as [_ Hnew]. split.
    + apply then_Ok in Hnew as [_ Hnew]. by apply post_init_id in Hnew.
    + by eapply cancel_settles.
Qed.

(** ** The promises *)

(** C20: within one unit of work, whose calls follow one another, however a run's
    provider operations are reserved against one budget, started, settled and
    cancelled, in whatever order and with whatever refusals, the run never
    accounts for more requests, LLM calls, tokens or cost than that budget
    allows, as long as providers report no more than was reserved and no
    reservation is made against another budget.  Two units of work side by side
    see only their own reservations, and may exceed it together
    (Concurrency.concurrent_reservations_exceed_budget). *)
Theorem budget_never_exceeded p r b s s' :
  budget_ok p r b s -> rtc (budget_step p r b) s s' -> within b (run_operations p r s').
Proof.
  intros Hok Hr. induction Hr as [|x y z Hxy _ IH]; [by destruct Hok as (_ & _ & ?)|].
  apply IH. by eapply budget_step_ok.
Qed.

(** A refused reservation changes nothing, and a refused start,
    settlement or cancellation changes nothing either. *)
Theorem refusal_changes_nothing s s' e op bud i f :
  store_ok s ->
  (reserve op bud s = (Err e, s') -> s' = s) /\ (update_operation i f s = (Err e, s') -> s' = s).
Proof.
  intros Hok. split; [by apply reserve_Err|]. rewrite update_operation_eq.
  destruct (stored s !! i) as [[old v]|]; [|by intros [= _ <-]].
  destruct (f old) as [new|]; [|by intros [= _ <-]].
  destruct (save_operation new (Some v) s) as [[|] s''] eqn:Hs; [done|]. intros [= _ <-].
  by eapply save_refused.
Qed.

Lemma same_request_refl op : same_request op op = true.
Proof. unfold same_request. by rewrite !bool_decide_eq_true_2. Qed.

(** A reservation made again, with whatever budget, finds the operation
    the first call stored and leaves the storage unchanged: it is accounted for once. *)
Theorem reservation_counted_once op bud bud' s s1 o :
  store_ok s -> reserve op bud s = (Ok (o, false), s1) ->
  reserve op bud' s1 = (Ok (op, true), s1).
Proof.
  intros Hok H. destruct (reserve_Ok _ _ _ _ _ _ H) as (Hst & [(? & _)|(_ & -> & Hnone & _ & v & Hsave)]); [done|].
  destruct (save_new _ _ _ _ Hok Hsave) as (Hnew & Hs1 & Hok1).
  destruct (operation_by_key (ProviderOperation.project_id op) (ProviderOperation.idempotency_key op) s1)
    as [o|] eqn:Ho.
  2:{ exfalso. eapply (by_key_none _ _ _ Hok1 Ho (op_id op)); [by rewrite Hs1, lookup_insert_eq|done]. }
  destruct (by_key_some _ _ _ _ Hok1 Ho) as (Hkey & i & w & Hi).
  assert (i = op_id op) as ->.
  { symmetry. eapply (ok_keys s1); [done| |exact Hi|exact Hkey]. by rewrite Hs1, lookup_insert_eq. }
  rewrite Hs1, lookup_insert_eq in Hi. injection Hi as <- _.
  unfold reserve, mbind, M_bind, raise_if, raise, gets, mret, M_ret.
  rewrite bool_decide_eq_true_2 by done. cbn. rewrite Ho. by rewrite same_request_refl.
Qed.
End service.
