(* ===== verification/Dict.v ===== *)
(** Python dictionaries with keys of any type: insertion-ordered association
    lists, with the operations the storage adapters use, and their view as
    finite maps. *)
From S2P Require Import Prelude Errors.
Local Open Scope string_scope.
Local Open Scope list_scope.

Module Dict.
Section dict.
Context {K V : Type} `{EqDecision K}.

Fixpoint get (k : K) (d : list (K * V)) : option V :=
  match d with
  | [] => None
  | (k', v) :: d' => if decide (k' = k) then Some v else get k d'
  end.

(** [d[k] = v]: a known key keeps its place, a new one goes last. *)
Fixpoint set (k : K) (v : V) (d : list (K * V)) : list (K * V) :=
  match d with
  | [] => [(k, v)]
  | (k', v') :: d' => if decide (k' = k) then (k, v) :: d' else (k', v') :: set k v d'
  end.

(** [k in d] *)
Definition has (k : K) (d : list (K * V)) : bool :=
  match get k d with Some _ => true | None => false end.

(** [d[k]] *)
Definition item (k : K) (d : list (K * V)) : res V :=
  match get k d with Some v => Ok v | None => Err (Exn PyKeyError "") end.

(** [d.setdefault(k, v)] *)
Definition setdefault (k : K) (v : V) (d : list (K * V)) : list (K * V) :=
  if has k d then d else set k v d.

(** [d.values()], [d.keys()] *)
Definition values (d : list (K * V)) : list V := d.*2.
Definition keys (d : list (K * V)) : list K := d.*1.

(** [{k: v for k, v in d.items() if keep(k, v)}] *)
Definition select (keep : K -> V -> bool) (d : list (K * V)) : list (K * V) :=
  List.filter (fun kv => keep kv.1 kv.2) d.
End dict.

Definition map_values {K V W} (f : V -> W) (d : list (K * V)) : list (K * W) :=
  (fun kv => (kv.1, f kv.2)) <$> d.
End Dict.

Abbreviation dict K V := (list (K * V)).

(** A Python set of keys, as the list of its elements in some order. *)
Definition set_add {K} `{EqDecision K} (k : K) (s : list K) : list K :=
  if decide (k ∈ s) then s else s ++ [k].

Lemma elem_set_add {K} `{EqDecision K} (k k' : K) s : k' ∈ set_add k s <-> k' = k \/ k' ∈ s.
Proof. unfold set_add. case_decide; set_solver. Qed.

Section facts.
Context {K V : Type} `{EqDecision K}.
Implicit Types (k : K) (v : V) (d : dict K V).

Lemma get_set k k' v d : Dict.get k' (Dict.set k v d) = if decide (k = k') then Some v else Dict.get k' d.
Proof. induction d as [|[k0 v0] d IH]; cbn; repeat (case_decide; cbn); simplify_eq; try done. Qed.

Lemma get_set_eq k v d : Dict.get k (Dict.set k v d) = Some v.
Proof. by rewrite get_set, decide_True. Qed.

Lemma get_set_ne k k' v d : k <> k' -> Dict.get k' (Dict.set k v d) = Dict.get k' d.
Proof. intros. by rewrite get_set, decide_False. Qed.

Lemma get_setdefault k k' v d :
  Dict.get k' (Dict.setdefault k v d) =
    if decide (k = k') then Some (default v (Dict.get k d)) else Dict.get k' d.
Proof.
  unfold Dict.setdefault, Dict.has. destruct (Dict.get k d) as [w|] eqn:H.
  - case_decide; by subst.
  - by rewrite get_set.
Qed.

Lemma get_elem k v d : Dict.get k d = Some v -> (k, v) ∈ d.
Proof.
  induction d as [|[k0 v0] d IH]; cbn; [done|]. case_decide; intros Hd; simplify_eq; [by left|right; auto].
Qed.

Lemma elem_get k v d : NoDup (Dict.keys d) -> (k, v) ∈ d -> Dict.get k d = Some v.
Proof.
  induction d as [|[k0 v0] d IH]; cbn; [by rewrite elem_of_nil|].
  rewrite NoDup_cons, elem_of_cons. intros [Hk Hd] [[= -> ->]|Hin]; [by rewrite decide_True|].
  rewrite decide_False; [auto|]. intros ->. apply Hk, list_elem_of_fmap. by exists (k, v).
Qed.

Lemma keys_set k v d : Dict.keys (Dict.set k v d) = if Dict.has k d then Dict.keys d else Dict.keys d ++ [k].
Proof.
  unfold Dict.has. induction d as [|[k0 v0] d IH]; [done|]. cbn. case_decide; simplify_eq; [done|].
  cbn. unfold Dict.keys in IH. rewrite IH. by destruct (Dict.get k d).
Qed.

Lemma elem_keys k d : k ∈ Dict.keys d <-> Dict.get k d <> None.
Proof.
  unfold Dict.keys. induction d as [|[k0 v0] d IH]; cbn; [set_solver|].
  case_decide; rewrite elem_of_cons, IH; naive_solver.
Qed.

Lemma keys_set_NoDup k v d : NoDup (Dict.keys d) -> NoDup (Dict.keys (Dict.set k v d)).
Proof.
  intros H. rewrite keys_set. unfold Dict.has. destruct (Dict.get k d) eqn:Hk; [done|].
  apply NoDup_app. split_and!; [done| |apply NoDup_singleton].
  intros k' Hk' ->%list_elem_of_singleton. by apply elem_keys in Hk'.
Qed.

Lemma select_keys keep d : NoDup (Dict.keys d) -> NoDup (Dict.keys (Dict.select keep d)).
Proof.
  unfold Dict.keys, Dict.select. induction d as [|[k v] d IH]; cbn; [done|].
  rewrite NoDup_cons. intros [Hk Hd]. destruct (keep k v); cbn; [|auto].
  apply NoDup_cons. split; [|auto]. contradict Hk. apply list_elem_of_fmap in Hk as ([k' v'] & -> & Hin).
  apply list_elem_of_In, filter_In in Hin as [Hin _]. apply list_elem_of_fmap. exists (k', v').
  split; [done|]. by apply list_elem_of_In.
Qed.

Lemma get_select keep k d : NoDup (Dict.keys d) ->
  Dict.get k (Dict.select keep d) = match Dict.get k d with
                                    | Some v => if keep k v then Some v else None
                                    | None => None
                                    end.
Proof.
  unfold Dict.keys, Dict.select. induction d as [|[k0 v0] d IH]; cbn; [done|].
  rewrite NoDup_cons. intros [Hk Hd]. destruct (keep k0 v0) eqn:Hkeep; cbn.
  - case_decide; simplify_eq; [by rewrite Hkeep|auto].
  - rewrite IH by done. case_decide; simplify_eq; [|done]. rewrite Hkeep.
    destruct (Dict.get k d) as [v|] eqn:Hv; [|done]. exfalso. apply Hk.
    by apply elem_keys; rewrite Hv.
Qed.

Lemma elem_values k v d : Dict.get k d = Some v -> v ∈ Dict.values d.
Proof. intros H. apply list_elem_of_fmap. exists (k, v). split; [done|]. by apply get_elem. Qed.

Lemma values_elem v d : NoDup (Dict.keys d) -> v ∈ Dict.values d -> exists k, Dict.get k d = Some v.
Proof.
  intros Hd H. apply list_elem_of_fmap in H as ([k w] & -> & H). exists k. by apply elem_get.
Qed.

Lemma item_Ok k d v : Dict.item k d = Ok v <-> Dict.get k d = Some v.
Proof. unfold Dict.item. destruct (Dict.get k d); split; congruence. Qed.
End facts.

Section map_values.
Context {K V W : Type} `{EqDecision K}.

Lemma get_map_values (f : V -> W) k (d : dict K V) :
  Dict.get k (Dict.map_values f d) = f <$> Dict.get k d.
Proof. induction d as [|[k0 v0] d IH]; cbn; [done|]. by case_decide. Qed.
End map_values.

(** ** The finite map a dictionary represents *)

Section to_map.
Context {K V : Type} `{Countable K}.

Definition to_map (d : dict K V) : gmap K V := list_to_map d.

Lemma lookup_to_map (d : dict K V) k : to_map d !! k = Dict.get k d.
Proof.
  unfold to_map. induction d as [|[k0 v0] d IH]; cbn; [apply lookup_empty|].
  rewrite lookup_insert. case_decide; [done|]. by rewrite IH.
Qed.

Lemma to_map_set k v (d : dict K V) : to_map (Dict.set k v d) = <[k := v]> (to_map d).
Proof.
  apply map_eq. intros k'. rewrite lookup_to_map, get_set, lookup_insert, lookup_to_map. done.
Qed.

Lemma to_map_values (d : dict K V) : NoDup (Dict.keys d) -> (map_to_list (to_map d)).*2 ≡ₚ Dict.values d.
Proof. intros Hd. unfold to_map, Dict.values. by rewrite map_to_list_to_map. Qed.
End to_map.
