(* ===== verification/Tables.v ===== *)
(** The three disciplines by which a unit of work stages and publishes its
    changes ([persistence/adapters/in_memory.py]): versioned records with
    optimistic concurrency, append-only streams with expected lengths, and
    plain records. Each discipline is stated once, over any key and record type;
    the repositories instantiate it. *)
From S2P Require Import Prelude Errors Text Dict.
Local Open Scope string_scope.
Local Open Scope list_scope.
Local Open Scope Z_scope.

(** [str(version)] where the version of an absent record is [None]. *)
Definition version_str (v : option Z) : string :=
  match v with Some n => int_str n | None => "None" end.

(** An operation on a part of the state. *)
Definition zoom {S T A} (get : S -> T) (set : T -> S -> S) (m : M exn T A) : M exn S A :=
  fun s => let (r, t) := m (get s) in (r, set t s).

(** [for k in dirty: database.table[k] = staged[k]] *)
Definition publish_to {D K V} `{EqDecision K} (table : D -> dict K V) (set : dict K V -> D -> D)
    (staged : dict K V) (dirty : list K) : M exn D unit :=
  for_each (fun k => v ← lift_result (Dict.item k staged);
                     modify (fun db => set (Dict.set k v (table db)) db)) dirty.

(** A loop that threads a value and may raise. *)
Fixpoint fold_ok {A B} (f : B -> A -> res B) (acc : B) (l : list A) : res B :=
  match l with
  | [] => Ok acc
  | x :: l' => acc' ← f acc x; fold_ok f acc' l'
  end.

Module Versioned.
Record t R := mk {
  records : dict string R;
  expected : dict string (option Z);
  dirty : list string
}.
Arguments mk {R}. Arguments records {R}. Arguments expected {R}. Arguments dirty {R}.

(** [_refresh] of one table. *)
Definition refresh {R} (committed : dict string R) : t R := mk committed [] [].

Definition with_records {R} (new : dict string R) (self : t R) : t R := mk new (expected self) (dirty self).

Section versioned.
Context {R : Type} (version : R -> Z) (label : string).

(** The version check of [save]: [fresh] and [known] are the further tests on
    an insertion and on an update. *)
Definition next_version (self : t R) (id : string) (expected_version : option Z)
    (fresh : res unit) (known : R -> res unit) : res Z :=
  let current := Dict.get id (records self) in
  match expected_version with
  | None =>
      match current with
      | Some r => Err (Exn StaleStateError (label +:+ " " +:+ id
                    +:+ " already exists at persistence version " +:+ int_str (version r)))
      | None => _ ← fresh; Ok 1
      end
  | Some e =>
      match current with
      | None => Err (Exn StaleStateError (label +:+ " " +:+ id +:+ " does not exist"))
      | Some r =>
          _ ← fail_if (negb (version r =? e))
                (Exn StaleStateError (label +:+ " " +:+ id +:+ " expected persistence version "
                   +:+ int_str e +:+ "; found " +:+ int_str (version r)));
          _ ← known r;
          Ok (e + 1)
      end
  end.

(** The version the unit of work first expected is kept; then the record is
    built, stored and marked. *)
Definition stage (id : string) (expected_version : option Z) (record : res R) : M exn (t R) unit :=
  modify (fun self => mk (records self) (Dict.setdefault id expected_version (expected self)) (dirty self)) ;;
  r ← lift_result record;
  modify (fun self => mk (Dict.set id r (records self)) (expected self) (set_add id (dirty self))).

(** The check of one dirty record against the committed table. *)
Definition check_version (committed : dict string R) (self : t R) (id : string) : res unit :=
  e ← Dict.item id (expected self);
  let current_version := version <$> Dict.get id committed in
  fail_if (negb (bool_decide (current_version = e)))
    (Exn StaleStateError (label +:+ " " +:+ id +:+ " expected committed persistence version "
       +:+ version_str e +:+ "; found " +:+ version_str current_version)).
End versioned.
End Versioned.

Module Stream.
Record t K A := mk {
  entries : dict K (list A);
  base_counts : dict K Z;
  dirty : list K
}.
Arguments mk {K A}. Arguments entries {K A}. Arguments base_counts {K A}. Arguments dirty {K A}.

Definition refresh {K A} (committed : dict K (list A)) : t K A :=
  mk committed (Dict.map_values (fun l => Z.of_nat (length l)) committed) [].

Definition with_entries {K A} (new : dict K (list A)) (self : t K A) : t K A :=
  mk new (base_counts self) (dirty self).

Section stream.
Context {K A : Type} `{EqDecision K}.

(** [d.get(key, ())] *)
Definition at_key (k : K) (d : dict K (list A)) : list A := default [] (Dict.get k d).

Definition append (k : K) (a : A) (self : t K A) : t K A :=
  mk (Dict.set k (at_key k (entries self) ++ [a]) (entries self)) (base_counts self)
    (set_add k (dirty self)).

Definition expected_count (self : t K A) (k : K) : Z := default 0 (Dict.get k (base_counts self)).

(** The check of one dirty stream against the committed table. *)
Definition check_count (message : Z -> Z -> string) (committed : dict K (list A)) (self : t K A) (k : K) :
    res unit :=
  let current_count := Z.of_nat (length (at_key k committed)) in
  fail_if (negb (current_count =? expected_count self k))
    (Exn StaleStateError (message (expected_count self k) current_count)).
End stream.
End Stream.

Module Plain.
Record t K R := mk { records : dict K R; dirty : list K }.
Arguments mk {K R}. Arguments records {K R}. Arguments dirty {K R}.

Definition refresh {K R} (committed : dict K R) : t K R := mk committed [].

Definition with_records {K R} (new : dict K R) (self : t K R) : t K R := mk new (dirty self).

Definition put {K R} `{EqDecision K} (k : K) (r : R) (self : t K R) : t K R :=
  mk (Dict.set k r (records self)) (set_add k (dirty self)).
End Plain.
