(* ===== verification/TableFacts.v ===== *)
(** What the three disciplines guarantee: publication writes exactly the dirty
    keys, a version check that passes means nobody else wrote the record since
    the snapshot, and streams only grow. *)
From S2P Require Import Prelude Errors Text Dict Tables.
Local Open Scope string_scope.
Local Open Scope list_scope.
Local Open Scope Z_scope.

Section publish.
Context {K V : Type} `{EqDecision K}.

(** The table a publication leaves. *)
Definition published (staged : dict K V) (dirty : list K) (d : dict K V) : dict K V :=
  foldl (fun d k => match Dict.get k staged with Some v => Dict.set k v d | None => d end) d dirty.

Lemma get_published staged dirty d k :
  (forall k, k ∈ dirty -> Dict.get k staged <> None) ->
  Dict.get k (published staged dirty d) = if decide (k ∈ dirty) then Dict.get k staged else Dict.get k d.
Proof.
  unfold published. revert d. induction dirty as [|k0 dirty IH]; intros d Hd; [by rewrite decide_False by set_solver|].
  cbn [foldl]. rewrite IH by (intros k' ?; apply Hd; by right).
  destruct (Dict.get k0 staged) as [v|] eqn:Hv; [|by destruct (Hd k0); [left|]].
  rewrite get_set. repeat case_decide; subst; set_solver.
Qed.

Lemma published_keys staged dirty d : NoDup (Dict.keys d) -> NoDup (Dict.keys (published staged dirty d)).
Proof.
  revert d. induction dirty as [|k dirty IH]; intros d Hd; [done|]. apply IH.
  destruct (Dict.get k staged); [by apply keys_set_NoDup|done].
Qed.

(** Publication succeeds when every dirty key is staged. *)
Lemma publish_to_Ok {D} (table : D -> dict K V) set staged dirty db :
  (forall x db, table (set x db) = x) -> (forall x y db, set x (set y db) = set x db) ->
  (forall db, set (table db) db = db) ->
  (forall k, k ∈ dirty -> Dict.get k staged <> None) ->
  publish_to table set staged dirty db = (Ok tt, set (published staged dirty (table db)) db).
Proof.
  intros Hts Hss Hst. revert db. unfold publish_to.
  induction dirty as [|k dirty IH]; intros db Hd; [by cbn; rewrite Hst|].
  cbn [for_each published foldl]. destruct (Dict.get k staged) as [v|] eqn:Hv; [|by destruct (Hd k); [left|]].
  unfold mbind at 1, M_bind at 1, mbind at 1, M_bind at 1, lift_result.
  rewrite (proj2 (item_Ok _ _ _) Hv). unfold modify at 1.
  rewrite IH by (intros k' ?; apply Hd; by right). by rewrite Hts, Hss.
Qed.

(** Whatever the setter, publication changes nothing the setter does not. *)
Lemma publish_to_frame {D} (table : D -> dict K V) set staged dirty db (P : D -> Prop) :
  (forall x db, P db -> P (set x db)) -> (forall k, k ∈ dirty -> Dict.get k staged <> None) -> P db ->
  exists db', publish_to table set staged dirty db = (Ok tt, db') /\ P db'.
Proof.
  intros Hset. revert db. unfold publish_to. induction dirty as [|k dirty IH]; intros db Hd Hdb; [by exists db|].
  cbn [for_each]. destruct (Dict.get k staged) as [v|] eqn:Hv; [|by destruct (Hd k); [left|]].
  unfold mbind at 1, M_bind at 1, mbind at 1, M_bind at 1, lift_result.
  rewrite (proj2 (item_Ok _ _ _) Hv). unfold modify at 1.
  apply IH; [by intros k' ?; apply Hd; right|by apply Hset].
Qed.
(** One new record, published. *)
Lemma published_put k (v : V) (d d' : dict K V) : published (Dict.set k v d) (set_add k []) d' = Dict.set k v d'.
Proof.
  unfold published, set_add. rewrite decide_False by apply not_elem_of_nil. cbn [app foldl]. by rewrite get_set_eq.
Qed.
End publish.

Lemma fold_ok_app {A B} (f : B -> A -> res B) acc l l' :
  fold_ok f acc (l ++ l') = fold_ok f acc l ≫= (fun acc' => fold_ok f acc' l').
Proof.
  revert acc. induction l as [|x l IH]; intros acc; [done|]. cbn. destruct (f acc x); cbn; [apply IH|done].
Qed.

(** A property each step of a successful loop establishes and keeps. *)
Lemma fold_ok_inv {A B} (f : B -> A -> res B) (P : B -> list A -> Prop) acc l b :
  P acc [] -> (forall acc done x acc', P acc done -> f acc x = Ok acc' -> P acc' (done ++ [x])) ->
  fold_ok f acc l = Ok b -> P b l.
Proof.
  intros H0 Hs H. change l with ([] ++ l). revert acc H0 H.
  generalize (@nil A). induction l as [|x l IH]; intros pre acc H0 H; cbn in H.
  - injection H as ->. by rewrite app_nil_r.
  - apply bind_Ok in H as (acc' & Hx & H). rewrite cons_middle, app_assoc. eapply IH; eauto.
Qed.

(** ** Versioned records *)

Section versioned.
Context {R : Type} (version : R -> Z).

(** [d] is what [b] has become: every record of [b] is unchanged, or has been
    replaced by one of a later version. *)
Definition older (b d : dict string R) : Prop :=
  forall k r, Dict.get k b = Some r ->
    exists r', Dict.get k d = Some r' /\ (r' = r \/ version r < version r').

#[export] Instance older_preorder : PreOrder older.
Proof.
  split; [by intros b k r H; exists r; auto|].
  intros a b c Hab Hbc k r Hr. destruct (Hab k r Hr) as (r1 & H1 & C1).
  destruct (Hbc k r1 H1) as (r2 & H2 & C2). exists r2. split; [done|].
  destruct C1 as [->|C1], C2 as [->|C2]; auto. right. lia.
Qed.

Definition versions_positive (d : dict string R) : Prop :=
  forall k r, Dict.get k d = Some r -> 0 < version r.

(** The staged table against the snapshot [b] it was refreshed from. *)
Record staged_ok (b : dict string R) (self : Versioned.t R) : Prop := {
  clean_records k : k ∉ Versioned.dirty self -> Dict.get k (Versioned.records self) = Dict.get k b;
  dirty_records k : k ∈ Versioned.dirty self -> exists r,
    Dict.get k (Versioned.records self) = Some r /\
    (forall r0, Dict.get k b = Some r0 -> version r0 < version r);
  dirty_expected k : k ∈ Versioned.dirty self -> Dict.get k (Versioned.expected self) <> None;
  expected_base k e : Dict.get k (Versioned.expected self) = Some e -> e = version <$> Dict.get k b;
  staged_positive : versions_positive (Versioned.records self);
  base_positive : versions_positive b;
  staged_keys : NoDup (Dict.keys (Versioned.records self));
  base_keys : NoDup (Dict.keys b)
}.

Lemma refresh_staged_ok b : NoDup (Dict.keys b) -> versions_positive b -> staged_ok b (Versioned.refresh b).
Proof. intros. split; cbn; try done; set_solver. Qed.

(** A version the check grants is the next one. *)
Lemma next_version_Ok label self id e fresh known n :
  Versioned.next_version version label self id e fresh known = Ok n <->
  e = version <$> Dict.get id (Versioned.records self) /\ n = default 0 e + 1 /\
  match Dict.get id (Versioned.records self) with Some r => known r = Ok tt | None => fresh = Ok tt end.
Proof.
  unfold Versioned.next_version.
  destruct e as [e|], (Dict.get id (Versioned.records self)) as [r|]; cbn.
  - rewrite then_Ok, fail_if_Ok, then_Ok, negb_false_iff, Z.eqb_eq.
    split; [intros (-> & ? & [= <-])|intros ([= ->] & -> & ?)]; auto.
  - split; [done|by intros (? & _)].
  - split; [done|by intros (? & _)].
  - rewrite then_Ok. split; [intros (? & [= <-])|intros (_ & -> & ?)]; auto.
Qed.

(** Staging at a granted version keeps the discipline, whether or not the
    record can be built. *)
Lemma stage_ok label b self id e fresh known n (record : res R) x self' :
  staged_ok b self ->
  Versioned.next_version version label self id e fresh known = Ok n ->
  (forall r, record = Ok r -> version r = n) ->
  Versioned.stage id e record self = (x, self') -> staged_ok b self'.
Proof.
  intros [Hc Hd Hde He Hp Hb Hk Hbk] Hn Hv H. apply next_version_Ok in Hn as (He' & -> & _).
  assert (forall k e0, Dict.get k (Dict.setdefault id e (Versioned.expected self)) = Some e0 ->
            e0 = version <$> Dict.get k b) as Hexp.
  { intros k e0. rewrite get_setdefault. case_decide as Hkk; [subst k|by apply He].
    intros [= <-]. destruct (Dict.get id (Versioned.expected self)) as [e1|] eqn:H1; [by apply He|].
    cbn. rewrite He'. destruct (decide (id ∈ Versioned.dirty self)) as [Hin|Hin];
      [by apply Hde in Hin|by rewrite Hc]. }
  unfold Versioned.stage, mbind, M_bind, modify, lift_result in H. destruct record as [r|err]; injection H as _ <-.
  2:{ split; cbn; try done. intros k Hin. rewrite get_setdefault. case_decide; [done|by apply Hde]. }
  specialize (Hv r eq_refl). split; cbn; try done.
  - intros k Hin. rewrite elem_set_add in Hin. rewrite get_set_ne by naive_solver. apply Hc. naive_solver.
  - intros k Hin. rewrite elem_set_add in Hin. rewrite get_set. case_decide as Hkk.
    + subst k. exists r. split; [done|]. intros r0 Hr0. rewrite Hv, He'.
      destruct (decide (id ∈ Versioned.dirty self)) as [Hi|Hi].
      * destruct (Hd _ Hi) as (r1 & Hr1 & Hlt). rewrite Hr1. cbn. specialize (Hlt _ Hr0). lia.
      * rewrite Hc, Hr0 by done. cbn. lia.
    + apply Hd. naive_solver.
  - intros k Hin. rewrite elem_set_add in Hin. rewrite get_setdefault. case_decide; [done|].
    apply Hde. naive_solver.
  - intros k r0. rewrite get_set. case_decide; [|by apply Hp]. intros [= <-]. rewrite Hv, He'.
    destruct (Dict.get id (Versioned.records self)) as [r1|] eqn:H1; cbn; [|lia].
    specialize (Hp _ _ H1). lia.
  - by apply keys_set_NoDup.
Qed.

(** The check on a dirty record passes only if the committed record is still
    the one of the snapshot. *)
Lemma check_version_Ok label b db self k :
  staged_ok b self -> older b db -> k ∈ Versioned.dirty self ->
  Versioned.check_version version label db self k = Ok tt -> Dict.get k db = Dict.get k b.
Proof.
  intros Hs Ho Hk H. unfold Versioned.check_version in H. apply bind_Ok in H as (e & He & H).
  apply item_Ok, (expected_base _ _ Hs) in He as ->. apply fail_if_Ok in H. reflect_bools.
  destruct (Dict.get k b) as [r|] eqn:Hb.
  - destruct (Ho k r Hb) as (r' & Hr' & C). rewrite Hr' in *. cbn in H. injection H as H.
    destruct C as [->|C]; [done|lia].
  - by destruct (Dict.get k db).
Qed.

(** Publishing after the checks: the committed table grows older by exactly the
    staged changes. *)
Lemma publish_older b db self db' :
  staged_ok b self -> (forall k, k ∈ Versioned.dirty self -> Dict.get k db = Dict.get k b) ->
  (forall k, Dict.get k db' = if decide (k ∈ Versioned.dirty self)
                              then Dict.get k (Versioned.records self) else Dict.get k db) ->
  older db db'.
Proof.
  intros Hs Heq Hg k r Hr. rewrite Hg. case_decide as Hk; [|by exists r; auto].
  destruct (dirty_records _ _ Hs k Hk) as (r' & -> & Hlt). exists r'. split; [done|]. right.
  apply Hlt. by rewrite <- Heq.
Qed.
End versioned.

(** ** Streams *)

Section stream.
Context {K A : Type} `{EqDecision K}.

(** Every stream of [d] extends that of [b]. *)
Definition extends (b d : dict K (list A)) : Prop :=
  forall k, Stream.at_key k b `prefix_of` Stream.at_key k d.

#[export] Instance extends_preorder : PreOrder extends.
Proof. split; [by intros b k|]. intros a b c Hab Hbc k. specialize (Hab k). specialize (Hbc k). by etrans. Qed.

Record stream_ok (b : dict K (list A)) (self : Stream.t K A) : Prop := {
  clean_entries k : k ∉ Stream.dirty self ->
    Stream.at_key k (Stream.entries self) = Stream.at_key k b;
  entries_extend : extends b (Stream.entries self);
  counts_base k : Stream.expected_count self k = Z.of_nat (length (Stream.at_key k b));
  dirty_entries k : k ∈ Stream.dirty self -> Dict.get k (Stream.entries self) <> None
}.

Lemma refresh_stream_ok b : stream_ok b (Stream.refresh b).
Proof.
  split; cbn; try done; [|set_solver]. intros k. unfold Stream.expected_count, Stream.at_key. cbn.
  rewrite get_map_values. by destruct (Dict.get k b).
Qed.

Lemma append_at k k' a (self : Stream.t K A) :
  Stream.at_key k' (Stream.entries (Stream.append k a self)) =
    Stream.at_key k' (Stream.entries self) ++ (if decide (k = k') then [a] else []).
Proof.
  unfold Stream.append, Stream.at_key at 1. cbn. rewrite get_set. case_decide; subst; [done|].
  by rewrite app_nil_r.
Qed.

Lemma append_ok b k a self : stream_ok b self -> stream_ok b (Stream.append k a self).
Proof.
  intros [Hc He Hb Hd]. split; [| |done|].
  - intros k' Hk'. cbn in Hk'. rewrite elem_set_add in Hk'. rewrite append_at, decide_False by naive_solver.
    rewrite app_nil_r. apply Hc. naive_solver.
  - intros k'. rewrite append_at. by apply prefix_app_r.
  - intros k' Hk'. cbn in Hk' |- *. rewrite elem_set_add in Hk'. rewrite get_set.
    case_decide; [done|]. apply Hd. naive_solver.
Qed.

(** The check on a dirty stream passes only if nobody appended to it. *)
Lemma check_count_Ok message b db self k :
  stream_ok b self -> extends b db ->
  Stream.check_count message db self k = Ok tt -> Stream.at_key k db = Stream.at_key k b.
Proof.
  intros Hs He H. unfold Stream.check_count in H. apply fail_if_Ok in H.
  rewrite negb_false_iff, Z.eqb_eq, (counts_base _ _ Hs) in H.
  destruct (He k) as [l Hl]. rewrite Hl in *. rewrite length_app in H.
  destruct l; [by rewrite app_nil_r|]. cbn in H. lia.
Qed.

Lemma publish_extends b db self db' :
  stream_ok b self -> (forall k, k ∈ Stream.dirty self -> Stream.at_key k db = Stream.at_key k b) ->
  (forall k, Dict.get k db' = if decide (k ∈ Stream.dirty self)
                              then Dict.get k (Stream.entries self) else Dict.get k db) ->
  extends db db'.
Proof.
  intros Hs Heq Hg k. unfold Stream.at_key at 2. rewrite Hg. case_decide as Hk; [|done].
  rewrite (Heq k Hk). apply (entries_extend _ _ Hs).
Qed.
End stream.
