(* ===== verification/Repositories.v ===== *)
(** The repositories of [persistence/adapters/in_memory.py] that serve the
    workflow engine, each as operations on its own slice of a unit of work. *)
From S2P Require Import Prelude Errors Text Float Value Sha256 Lifecycle Workflow Checkpoint Coordinator Approval Events Records Provider Budget Dict Tables.
Local Open Scope string_scope.
Local Open Scope list_scope.
Local Open Scope Z_scope.

(** ** Ordering and slicing *)

(** [(a, s) <= (b, t)] for a timestamp and an identifier. Stored timestamps are
    all aware, so that comparing them never raises. *)
Definition stamp_leb (x y : datetime * string) : bool :=
  (instant x.1 <? instant y.1) || ((instant x.1 =? instant y.1) && String.leb x.2 y.2).

(** [sorted(l, key=key)] and [sorted(l, key=key, reverse=True)]: both are stable. *)
Definition sort_by {A B} (le : B -> B -> bool) (key : A -> B) (l : list A) : list A :=
  isort (fun x y => le (key x) (key y)) l.
Definition sort_desc {A B} (le : B -> B -> bool) (key : A -> B) (l : list A) : list A :=
  rev (sort_by le key (rev l)).

(** [min(l, key=key)] and [max(l, key=key)]: the first of the least and of the greatest. *)
Definition min_by {A B} (le : B -> B -> bool) (key : A -> B) (l : list A) : option A :=
  head (sort_by le key l).
Definition max_by {A B} (le : B -> B -> bool) (key : A -> B) (l : list A) : option A :=
  head (sort_desc le key l).

(** [l[offset:offset + limit]]: negative bounds count from the end. *)
Definition clamp (n : Z) (i : Z) : Z := if i <? 0 then Z.max 0 (i + n) else Z.min i n.
Definition page {A} (offset limit : Z) (l : list A) : list A :=
  let n := Z.of_nat (length l) in
  let start := clamp n offset in
  let stop := clamp n (offset + limit) in
  take (Z.to_nat (stop - start)) (drop (Z.to_nat start) l).

(** The reconstitution of an optional record. *)
Definition reconstitute {R D} (to_domain : R -> res D) (o : option R) : res (option D) :=
  match o with
  | None => Ok None
  | Some r => d ← to_domain r; Ok (Some d)
  end.

(** The dataclass equality of [ArtifactMetadata]. *)
Definition artifact_eqb (a b : ArtifactMetadata.t) : bool :=
  let same {A} `{EqDecision A} (f : ArtifactMetadata.t -> A) := bool_decide (f a = f b) in
  same ArtifactMetadata.id && same ArtifactMetadata.project_id
  && same ArtifactMetadata.logical_artifact_id && same ArtifactMetadata.logical_name
  && same ArtifactMetadata.version && same ArtifactMetadata.kind && same ArtifactMetadata.storage_ref
  && same ArtifactMetadata.checksum && same ArtifactMetadata.media_type && same ArtifactMetadata.size
  && same ArtifactMetadata.producer_run_id && same ArtifactMetadata.producer_step_run_id
  && mapping_eq (ArtifactMetadata.metadata a) (ArtifactMetadata.metadata b)
  && same ArtifactMetadata.created_at.

(** ** Workflow executions *)

Module WorkflowRepository.
Definition t := Versioned.t WorkflowExecutionRecord.t.

Definition version_of := WorkflowExecutionRecord.persistence_version.
Definition run_of (r : WorkflowExecutionRecord.t) := WorkflowExecutionRecord.workflow_run r.

(** The project and the idempotency key an execution is unique for. *)
Definition key_of (r : WorkflowExecutionRecord.t) : string * string :=
  (WorkflowRunRecord.project_id (run_of r), WorkflowRunRecord.idempotency_key (run_of r)).

(** The first other execution that owns the key. *)
Definition conflicting_run (records : dict string WorkflowExecutionRecord.t)
    (key : string * string) (run_id : string) : option string :=
  (fun r => WorkflowRunRecord.id (run_of r)) <$>
    head (List.filter (fun r => bool_decide (key_of r = key)
                                && negb (String.eqb (WorkflowRunRecord.id (run_of r)) run_id))
            (Dict.values records)).

Definition refuse_conflict (message : string) (conflict : option string) : res unit :=
  match conflict with
  | Some owner => Err (Exn DuplicateEntityError (message +:+ owner))
  | None => Ok tt
  end.

Definition save (execution : ExecutionState.t) (expected_version : option Z) : M exn t Z :=
  let run := ExecutionState.workflow_run execution in
  let run_id := WorkflowRun.id run in
  self ← get_state;
  next_version ← lift_result
    (Versioned.next_version version_of "WorkflowRun" self run_id expected_version
       (refuse_conflict "Workflow execution idempotency key is already owned by WorkflowRun "
          (conflicting_run (Versioned.records self)
             (WorkflowRun.project_id run, WorkflowRun.idempotency_key run) run_id))
       (fun _ => Ok tt));
  Versioned.stage run_id expected_version (WorkflowExecutionRecord.from_execution execution next_version) ;;
  mret next_version.

Definition to_execution (r : WorkflowExecutionRecord.t) : res ExecutionState.t :=
  WorkflowExecutionRecord.to_execution r [].

Definition get (run_id : string) (self : t) : res (option ExecutionState.t) :=
  reconstitute to_execution (Dict.get run_id (Versioned.records self)).

Definition get_version (run_id : string) (self : t) : option Z :=
  version_of <$> Dict.get run_id (Versioned.records self).

Definition get_by_idempotency_key (project_id idempotency_key : string) (self : t) :
    res (option ExecutionState.t) :=
  reconstitute to_execution
    (min_by String.leb (fun r => WorkflowRunRecord.id (run_of r))
       (List.filter (fun r => bool_decide (key_of r = (project_id, idempotency_key)))
          (Dict.values (Versioned.records self)))).

Definition with_status (status : option WorkflowRunStatus.t) (self : t) : list WorkflowExecutionRecord.t :=
  List.filter (fun r => match status with
                        | None => true
                        | Some s => bool_decide (WorkflowRunRecord.status (run_of r) = s)
                        end) (Dict.values (Versioned.records self)).

Definition list_runs (status : option WorkflowRunStatus.t) (offset limit : Z) (self : t) :
    res (list ExecutionState.t) :=
  map_ok to_execution
    (page offset limit
       (sort_desc stamp_leb
          (fun r => (WorkflowRunRecord.created_at (run_of r), WorkflowRunRecord.id (run_of r)))
          (with_status status self))).

Definition count_runs (status : option WorkflowRunStatus.t) (self : t) : Z :=
  Z.of_nat (length (with_status status self)).

Definition pair_leb (x y : string * string) : bool :=
  negb (String.eqb x.1 y.1) && String.leb x.1 y.1 || String.eqb x.1 y.1 && String.leb x.2 y.2.

(** The definitions the executions carry, the last one stored for each identity. *)
Definition list_definitions (self : t) : list Workflow.t :=
  let definitions := foldl (fun d r => let w := WorkflowExecutionRecord.workflow r in
                                       Dict.set (Workflow.id w, Workflow.version w) w d)
                       [] (Dict.values (Versioned.records self)) in
  (sort_by pair_leb fst definitions).*2.
End WorkflowRepository.

(** ** Checkpoints *)

Module CheckpointRepository.
Definition t := Stream.t string CheckpointRecord.t.

Definition key_of (r : CheckpointRecord.t) :=
  (CheckpointRecord.boundary r, Checkpoint.id (CheckpointRecord.checkpoint r),
   CheckpointRecord.step_id r, CheckpointRecord.attempt r).

(** The record already stored under the key; meeting a record with the same
    checkpoint identifier and other content first is an error. *)
Fixpoint find_record (checkpoint : Checkpoint.t) (boundary : CheckpointBoundary)
    (step_id : option string) (attempt : option Z) (records : list CheckpointRecord.t) :
    res (option CheckpointRecord.t) :=
  match records with
  | [] => Ok None
  | r :: records' =>
      if String.eqb (Checkpoint.id (CheckpointRecord.checkpoint r)) (Checkpoint.id checkpoint)
         && negb (bool_decide (CheckpointRecord.checkpoint r = checkpoint)) then
        Err (Exn DuplicateEntityError ("Checkpoint ID " +:+ Checkpoint.id checkpoint
               +:+ " has conflicting immutable content"))
      else if bool_decide (key_of r = (boundary, Checkpoint.id checkpoint, step_id, attempt)) then
        Ok (Some r)
      else find_record checkpoint boundary step_id attempt records'
  end.

Definition save (checkpoint : Checkpoint.t) (boundary : CheckpointBoundary) (step_id : option string)
    (attempt : option Z) : M exn t CheckpointRecord.t :=
  lift_result (Checkpoint.verify_integrity checkpoint) ;;
  self ← get_state;
  let run_id := Checkpoint.workflow_run_id checkpoint in
  let records := Stream.at_key run_id (Stream.entries self) in
  known ← lift_result (find_record checkpoint boundary step_id attempt records);
  match known with
  | Some r => mret r
  | None =>
      record ← lift_result (CheckpointRecord.post_init
                 (CheckpointRecord.mk (Z.of_nat (length records) + 1) boundary checkpoint step_id attempt));
      modify (Stream.append run_id record) ;;
      mret record
  end.

Definition list_records (run_id : string) (self : t) : list CheckpointRecord.t :=
  Stream.at_key run_id (Stream.entries self).

Definition sequence_leb (x y : Z * string) : bool :=
  (x.1 <? y.1) || ((x.1 =? y.1) && String.leb x.2 y.2).

(** The first record of each checkpoint, in the order of their sequence. *)
Definition list (run_id : string) (self : t) : list Checkpoint.t :=
  let by_id := foldl (fun d r => let c := CheckpointRecord.checkpoint r in
                                 Dict.setdefault (Checkpoint.id c) c d)
                 [] (list_records run_id self) in
  sort_by sequence_leb (fun c => (Checkpoint.sequence c, Checkpoint.id c)) (Dict.values by_id).

Definition get_latest (run_id : string) (self : t) : option Checkpoint.t := last (list run_id self).
End CheckpointRepository.

(** ** Memory *)

Module MemoryRepository.
Definition t := Stream.t (string * string) MemoryRevision.t.

Definition history (project_id run_id : string) (self : t) : list MemoryRevision.t :=
  Stream.at_key (project_id, run_id) (Stream.entries self).

Definition read_context (project_id run_id : string) (self : t) : mapping :=
  match last (history project_id run_id self) with
  | Some r => MemoryRevision.context r
  | None => []
  end.

Definition update_context (project_id run_id : string) (updates : mapping) (producer : string)
    (source_references : list string) : M exn t MemoryRevision.t :=
  self ← get_state;
  let revisions := history project_id run_id self in
  let current := match last revisions with
                 | Some r => thaw_mapping (MemoryRevision.context r)
                 | None => []
                 end in
  frozen ← lift_result (freeze_json_mapping "updates" updates);
  revision ← lift_result (MemoryRevision.post_init
               (MemoryRevision.mk project_id run_id (Z.of_nat (length revisions) + 1)
                  (dict_update current (thaw_mapping frozen)) producer source_references));
  modify (Stream.append (project_id, run_id) revision) ;;
  mret revision.

Definition initialize_context (project_id run_id : string) (context : mapping) (producer : string)
    (source_references : list string) : M exn t MemoryRevision.t :=
  existing ← gets (fun self => last (history project_id run_id self));
  match existing with
  | Some r => mret r
  | None => update_context project_id run_id context producer source_references
  end.
End MemoryRepository.

(** ** Artifacts *)

Module ArtifactRepository.
Definition t := Plain.t string ArtifactMetadata.t.

Definition save (artifact : ArtifactMetadata.t) : M exn t unit :=
  self ← get_state;
  match Dict.get (ArtifactMetadata.id artifact) (Plain.records self) with
  | Some existing =>
      raise_if (negb (artifact_eqb existing artifact))
        (Exn DuplicateEntityError ("Artifact ID " +:+ ArtifactMetadata.id artifact
           +:+ " has conflicting immutable metadata"))
  | None => put_state (Plain.put (ArtifactMetadata.id artifact) artifact self)
  end.

Definition get (artifact_id : string) (self : t) : option ArtifactMetadata.t :=
  Dict.get artifact_id (Plain.records self).

Definition artifact_leb (x y : string * Z * string) : bool :=
  negb (String.eqb x.1.1 y.1.1) && String.leb x.1.1 y.1.1
  || String.eqb x.1.1 y.1.1 && CheckpointRepository.sequence_leb (x.1.2, x.2) (y.1.2, y.2).

Definition list_for_project (project_id : string) (self : t) : list ArtifactMetadata.t :=
  sort_by artifact_leb
    (fun a => (ArtifactMetadata.logical_artifact_id a, ArtifactMetadata.version a, ArtifactMetadata.id a))
    (List.filter (fun a => String.eqb (ArtifactMetadata.project_id a) project_id)
       (Dict.values (Plain.records self))).
End ArtifactRepository.

(** ** Approvals *)

Module ApprovalRepository.
Definition t := Versioned.t ApprovalRecord.t.

Definition version_of := ApprovalRecord.persistence_version.

Definition save (approval : ApprovalRequest.t) (expected_version : option Z) : M exn t Z :=
  self ← get_state;
  next_version ← lift_result
    (Versioned.next_version version_of "ApprovalRequest" self (ApprovalRequest.id approval)
       expected_version (Ok tt) (fun _ => Ok tt));
  Versioned.stage (ApprovalRequest.id approval) expected_version
    (ApprovalRecord.from_approval approval next_version) ;;
  mret next_version.

Definition get (approval_id : string) (self : t) : res (option ApprovalRequest.t) :=
  reconstitute ApprovalRecord.to_approval (Dict.get approval_id (Versioned.records self)).

Definition get_version (approval_id : string) (self : t) : option Z :=
  version_of <$> Dict.get approval_id (Versioned.records self).

Definition stamp (r : ApprovalRecord.t) : datetime * string :=
  (ApprovalRecord.requested_at r, ApprovalRecord.id r).

Definition of_run (project_id run_id : string) (r : ApprovalRecord.t) : bool :=
  String.eqb (ApprovalRecord.project_id r) project_id
  && String.eqb (ApprovalRecord.workflow_run_id r) run_id.

(** The last request with the fingerprint. *)
Definition get_by_fingerprint (project_id run_id fingerprint : string) (self : t) :
    res (option ApprovalRequest.t) :=
  reconstitute ApprovalRecord.to_approval
    (max_by stamp_leb stamp
       (List.filter (fun r => of_run project_id run_id r
                              && String.eqb (ApprovalRecord.request_fingerprint r) fingerprint)
          (Dict.values (Versioned.records self)))).

Definition list_for_run (project_id run_id : string) (self : t) : res (list ApprovalRequest.t) :=
  map_ok ApprovalRecord.to_approval
    (sort_by stamp_leb stamp (List.filter (of_run project_id run_id) (Dict.values (Versioned.records self)))).

Definition list_pending_for_run (project_id run_id : string) (self : t) : res (list ApprovalRequest.t) :=
  approvals ← list_for_run project_id run_id self;
  Ok (List.filter (fun a => bool_decide (ApprovalRequest.status a = ApprovalRequestStatus.PENDING))
        approvals).

Definition with_status (status : option ApprovalRequestStatus.t) (self : t) : list ApprovalRecord.t :=
  List.filter (fun r => match status with
                        | None => true
                        | Some s => bool_decide (ApprovalRecord.status r = s)
                        end) (Dict.values (Versioned.records self)).

Definition list_requests (status : option ApprovalRequestStatus.t) (offset limit : Z) (self : t) :
    res (list ApprovalRequest.t) :=
  map_ok ApprovalRecord.to_approval
    (page offset limit (sort_desc stamp_leb stamp (with_status status self))).

Definition count_requests (status : option ApprovalRequestStatus.t) (self : t) : Z :=
  Z.of_nat (length (with_status status self)).
End ApprovalRepository.

(** ** Execution events *)

(** [str((project_id, workflow_run_id))] *)
Definition scope_str (scope : string * string) : string :=
  "(" +:+ py_repr scope.1 +:+ ", " +:+ py_repr scope.2 +:+ ")".

Module ExecutionEventStore.
Definition t := Stream.t (string * string) ExecutionEvent.t.

Definition scope_of (e : ExecutionEvent.t) : string * string :=
  (ExecutionEvent.project_id e, ExecutionEvent.workflow_run_id e).

(** The events of all streams, in the order they are searched. *)
Definition all_events (streams : dict (string * string) (list ExecutionEvent.t)) : list ExecutionEvent.t :=
  concat (Dict.values streams).

Definition get (event_id : string) (self : t) : option ExecutionEvent.t :=
  head (List.filter (fun e => String.eqb (ExecutionEvent.id e) event_id)
          (all_events (Stream.entries self))).

Definition append (event : ExecutionEvent.t) (expected_sequence : Z) : M exn t ExecutionEvent.t :=
  existing ← gets (get (ExecutionEvent.id event));
  match existing with
  | Some e =>
      raise_if (negb (ExecutionEvent.eqb e event))
        (Exn DuplicateEntityError ("ExecutionEvent ID " +:+ ExecutionEvent.id event
           +:+ " has conflicting immutable content")) ;;
      mret e
  | None =>
      let scope := scope_of event in
      current_sequence ← gets (fun self =>
        Z.of_nat (length (Stream.at_key scope (Stream.entries self))));
      raise_if (negb (expected_sequence =? current_sequence))
        (Exn StaleStateError ("Execution event stream " +:+ scope_str scope +:+ " expected sequence "
           +:+ int_str expected_sequence +:+ "; found " +:+ int_str current_sequence)) ;;
      raise_if (negb (ExecutionEvent.sequence event =? current_sequence + 1))
        (Exn StaleStateError ("ExecutionEvent " +:+ ExecutionEvent.id event +:+ " must use sequence "
           +:+ int_str (current_sequence + 1) +:+ "; received "
           +:+ int_str (ExecutionEvent.sequence event))) ;;
      modify (Stream.append scope event) ;;
      mret event
  end.

Definition list_for_run (project_id run_id : string) (self : t) : list ExecutionEvent.t :=
  Stream.at_key (project_id, run_id) (Stream.entries self).

Definition latest_sequence (project_id run_id : string) (self : t) : Z :=
  Z.of_nat (length (list_for_run project_id run_id self)).
End ExecutionEventStore.

(** ** Provider operations *)

Module ProviderOperationRepository.
Definition t := Versioned.t ProviderOperationRecord.t.

Definition version_of := ProviderOperationRecord.persistence_version.
Definition operation := ProviderOperationRecord.operation.

Definition find_operation (operation_id : string) (self : t) : option ProviderOperation.t :=
  operation <$> Dict.get operation_id (Versioned.records self).

Definition get_version (operation_id : string) (self : t) : option Z :=
  version_of <$> Dict.get operation_id (Versioned.records self).

Definition operations (self : t) : list ProviderOperation.t :=
  operation <$> Dict.values (Versioned.records self).

Definition get_by_idempotency_key (project_id idempotency_key : string) (self : t) :
    option ProviderOperation.t :=
  min_by String.leb ProviderOperation.id
    (List.filter (fun op => String.eqb (ProviderOperation.project_id op) project_id
                            && String.eqb (ProviderOperation.idempotency_key op) idempotency_key)
       (operations self)).

Definition list_for_run (project_id run_id : string) (self : t) : list ProviderOperation.t :=
  sort_by stamp_leb (fun op => (ProviderOperation.created_at op, ProviderOperation.id op))
    (List.filter (fun op => String.eqb (ProviderOperation.project_id op) project_id
                            && String.eqb (ProviderOperation.workflow_run_id op) run_id)
       (operations self)).

Definition list_unsettled (project_id : option string) (self : t) : list ProviderOperation.t :=
  sort_by stamp_leb (fun op => (ProviderOperation.updated_at op, ProviderOperation.id op))
    (List.filter (fun op =>
         bool_decide (ProviderOperation.settlement_state op = SettlementState.UNSETTLED)
         && match project_id with
            | None => true
            | Some p => String.eqb (ProviderOperation.project_id op) p
            end) (operations self)).

(** The request identity an update may not change. *)
Definition same_request_identity (a b : ProviderOperation.t) : bool :=
  let same {A} `{EqDecision A} (f : ProviderOperation.t -> A) := bool_decide (f a = f b) in
  same ProviderOperation.project_id && same ProviderOperation.workflow_run_id
  && same ProviderOperation.logical_step_id && same ProviderOperation.step_run_id
  && same ProviderOperation.provider_category && same ProviderOperation.operation_kind
  && same ProviderOperation.provider_identity && same ProviderOperation.adapter_version
  && same ProviderOperation.model_or_endpoint && same ProviderOperation.idempotency_key
  && same ProviderOperation.request_fingerprint && same ProviderOperation.reservation
  && same ProviderOperation.is_live_provider && same ProviderOperation.created_at.

(** The test on an insertion. *)
Definition key_free (self : t) (op : ProviderOperation.t) : res unit :=
  match get_by_idempotency_key (ProviderOperation.project_id op)
          (ProviderOperation.idempotency_key op) self with
  | Some owner =>
      fail_if (negb (String.eqb (ProviderOperation.id owner) (ProviderOperation.id op)))
        (Exn DuplicateEntityError
           ("Provider operation idempotency key is already owned by ProviderOperation "
            +:+ ProviderOperation.id owner))
  | None => Ok tt
  end.

(** The tests on an update. *)
Definition advances (op : ProviderOperation.t) (current : ProviderOperationRecord.t) : res unit :=
  let row := ProviderOperation.row_version (operation current) in
  _ ← fail_if (negb (ProviderOperation.row_version op =? row + 1))
        (Exn StaleStateError ("ProviderOperation " +:+ ProviderOperation.id op
           +:+ " domain row version must advance from " +:+ int_str row +:+ " to " +:+ int_str (row + 1)));
  fail_if (negb (same_request_identity (operation current) op))
    (Exn DuplicateEntityError "ProviderOperation immutable request identity cannot change").

Definition save (op : ProviderOperation.t) (expected_version : option Z) : M exn t Z :=
  self ← get_state;
  next_version ← lift_result
    (Versioned.next_version version_of "ProviderOperation" self (ProviderOperation.id op)
       expected_version (key_free self op) (advances op));
  Versioned.stage (ProviderOperation.id op) expected_version
    (ProviderOperationRecord.post_init (ProviderOperationRecord.mk op next_version)) ;;
  mret next_version.

(** The port the budget service is written against. *)
#[global] Instance repository : OperationRepository t := {
  Budget.find_operation := find_operation;
  operation_version := get_version;
  operation_by_key := get_by_idempotency_key;
  operations_of_run := list_for_run;
  save_operation := save
}.
End ProviderOperationRepository.
