(* ===== verification/RepositoryFacts.v ===== *)
(** Facts of the repositories, and the proof that the repository of provider
    operations keeps every promise the budget service relies on. *)
From S2P Require Import Prelude Errors Text Float Value Sha256 Lifecycle Workflow Checkpoint Coordinator Approval Events Records Provider Budget BudgetFacts Dict Tables TableFacts Repositories.
Local Open Scope string_scope.
Local Open Scope list_scope.
Local Open Scope Z_scope.

Lemma sort_by_perm {A B} (le : B -> B -> bool) (key : A -> B) l : sort_by le key l ≡ₚ l.
Proof. apply isort_perm. Qed.

Lemma min_by_Some {A B} (le : B -> B -> bool) (key : A -> B) l x : min_by le key l = Some x -> x ∈ l.
Proof.
  unfold min_by. intros H. rewrite <- (sort_by_perm le key l).
  destruct (sort_by le key l); [done|]. injection H as ->. by left.
Qed.

Lemma min_by_None {A B} (le : B -> B -> bool) (key : A -> B) l : min_by le key l = None -> l = [].
Proof.
  unfold min_by. intros H. apply Permutation_nil_r. rewrite <- (sort_by_perm le key l).
  by destruct (sort_by le key l).
Qed.

Lemma max_by_perm {A B} (le : B -> B -> bool) (key : A -> B) l : sort_desc le key l ≡ₚ l.
Proof. unfold sort_desc. rewrite <- Permutation_rev, sort_by_perm. symmetry. apply Permutation_rev. Qed.

Lemma max_by_Some {A B} (le : B -> B -> bool) (key : A -> B) l x : max_by le key l = Some x -> x ∈ l.
Proof.
  unfold max_by. intros H. rewrite <- (max_by_perm le key l).
  destruct (sort_desc le key l); [done|]. injection H as ->. by left.
Qed.

Lemma max_by_None {A B} (le : B -> B -> bool) (key : A -> B) l : max_by le key l = None -> l = [].
Proof.
  unfold max_by. intros H. apply Permutation_nil_r. rewrite <- (max_by_perm le key l).
  by destruct (sort_desc le key l).
Qed.

Lemma filter_bool {A} (f : A -> bool) (P : A -> Prop) `{!forall x, Decision (P x)} l :
  (forall x, f x = true <-> P x) -> List.filter f l = filter P l.
Proof.
  intros Hf. induction l as [|x l IH]; [done|]. cbn [List.filter]. rewrite IH.
  destruct (f x) eqn:Hx.
  - rewrite filter_cons_True; [done|]. by apply Hf.
  - rewrite filter_cons_False; [done|]. rewrite <- Hf. by rewrite Hx.
Qed.

Lemma elem_List_filter {A} (f : A -> bool) l x : x ∈ List.filter f l <-> x ∈ l /\ f x = true.
Proof. by rewrite list_elem_of_In, filter_In, <- list_elem_of_In. Qed.

(** ** Provider operations *)

Module OperationFacts.
Import ProviderOperationRepository.

(** The table the repository's records stand for. *)
Definition table (self : t) : gmap string (ProviderOperation.t * Z) :=
  (fun r => (operation r, version_of r)) <$> to_map (Versioned.records self).

Record table_ok (self : t) : Prop := {
  records_keys : NoDup (Dict.keys (Versioned.records self));
  records_ids i r : Dict.get i (Versioned.records self) = Some r -> op_id (operation r) = i;
  records_unique i j r r' : Dict.get i (Versioned.records self) = Some r ->
    Dict.get j (Versioned.records self) = Some r' ->
    has_key (ProviderOperation.project_id (operation r))
      (ProviderOperation.idempotency_key (operation r)) (operation r') -> i = j;
  records_positive : versions_positive version_of (Versioned.records self)
}.

Lemma table_lookup self i :
  table self !! i = (fun r => (operation r, version_of r)) <$> Dict.get i (Versioned.records self).
Proof. unfold table. by rewrite lookup_fmap, lookup_to_map. Qed.

Lemma table_Some self i op v : table self !! i = Some (op, v) <->
  exists r, Dict.get i (Versioned.records self) = Some r /\ operation r = op /\ version_of r = v.
Proof.
  rewrite table_lookup. destruct (Dict.get i _) as [r|]; cbn; [|naive_solver].
  split; [intros [= <- <-]; eauto|intros (? & [= <-] & <- & <-); done].
Qed.

Lemma elem_operations self op : NoDup (Dict.keys (Versioned.records self)) ->
  op ∈ operations self <-> exists i v, table self !! i = Some (op, v).
Proof.
  intros Hn. unfold operations. rewrite list_elem_of_fmap. split.
  - intros (r & -> & Hr). apply values_elem in Hr as [i Hi]; [|done]. exists i, (version_of r).
    apply table_Some. eauto.
  - intros (i & v & H). apply table_Some in H as (r & Hr & <- & _). exists r. split; [done|].
    by eapply elem_values.
Qed.

Lemma operations_values self : NoDup (Dict.keys (Versioned.records self)) ->
  operations self ≡ₚ values_of (table self).
Proof.
  intros Hn. unfold operations, values_of, table. rewrite map_to_list_fmap, <- (to_map_values _ Hn).
  rewrite <- !list_fmap_compose. done.
Qed.

Lemma key_filter p k (op : ProviderOperation.t) :
  (String.eqb (ProviderOperation.project_id op) p
   && String.eqb (ProviderOperation.idempotency_key op) k) = true <-> has_key p k op.
Proof. by rewrite andb_true_iff, !String.eqb_eq. Qed.

Lemma run_filter p r (op : ProviderOperation.t) :
  (String.eqb (ProviderOperation.project_id op) p
   && String.eqb (ProviderOperation.workflow_run_id op) r) = true <-> in_run p r op.
Proof. by rewrite andb_true_iff, !String.eqb_eq. Qed.

Lemma by_key_Some self p k op : table_ok self -> get_by_idempotency_key p k self = Some op ->
  has_key p k op /\ exists i v, table self !! i = Some (op, v).
Proof.
  intros Hok H. apply min_by_Some, elem_List_filter in H as [Hin Hk].
  split; [by apply key_filter|]. by apply elem_operations; [apply Hok|].
Qed.

Lemma by_key_None self p k i op v : table_ok self -> get_by_idempotency_key p k self = None ->
  table self !! i = Some (op, v) -> ~ has_key p k op.
Proof.
  intros Hok H Hi Hk. apply min_by_None in H.
  assert (op ∈ operations self) as Hin by (apply elem_operations; [apply Hok|eauto]).
  assert (op ∈ (@nil ProviderOperation.t)) as Hnil; [|by apply elem_of_nil in Hnil].
  rewrite <- H. apply elem_List_filter. split; [done|]. by apply key_filter.
Qed.

Lemma next_positive self id e fresh known n : table_ok self ->
  Versioned.next_version version_of "ProviderOperation" self id e fresh known = Ok n -> 0 < n.
Proof.
  intros Hok H. apply next_version_Ok in H as (-> & -> & _).
  destruct (Dict.get id (Versioned.records self)) as [r|] eqn:Hr; cbn; [|done].
  pose proof (records_positive _ Hok _ _ Hr). lia.
Qed.

(** [save] either refuses and changes nothing, or stores the operation at the next version. *)
Lemma save_cases self op e : table_ok self ->
  (exists err, save op e self = (Err err, self)) \/
  (exists n, Versioned.next_version version_of "ProviderOperation" self (op_id op) e
               (key_free self op) (advances op) = Ok n /\
     save op e self = (Ok n, Versioned.mk
       (Dict.set (op_id op) (ProviderOperationRecord.mk op n) (Versioned.records self))
       (Dict.setdefault (op_id op) e (Versioned.expected self))
       (set_add (op_id op) (Versioned.dirty self)))).
Proof.
  intros Hok. unfold save, mbind, M_bind, get_state, lift_result, mret, M_ret.
  destruct (Versioned.next_version _ _ _ _ _ _ _) as [n|err] eqn:Hn; [|left; eauto].
  right. exists n. split; [done|]. pose proof (next_positive _ _ _ _ _ _ Hok Hn) as Hpos.
  unfold Versioned.stage, mbind, M_bind, modify, lift_result, ProviderOperationRecord.post_init. cbn.
  by rewrite (proj2 (Z.leb_gt _ _) Hpos).
Qed.

Lemma save_table self op n e :
  table (Versioned.mk (Dict.set (op_id op) (ProviderOperationRecord.mk op n) (Versioned.records self))
           (Dict.setdefault (op_id op) e (Versioned.expected self))
           (set_add (op_id op) (Versioned.dirty self)))
  = <[op_id op := (op, n)]> (table self).
Proof. unfold table. cbn [Versioned.records]. by rewrite to_map_set, fmap_insert. Qed.

(** Storing keeps the table well formed when no other operation has the key. *)
Lemma save_table_ok self op n e x : table_ok self -> 0 < n ->
  (forall i r, i <> op_id op -> Dict.get i (Versioned.records self) = Some r ->
     ~ has_key (ProviderOperation.project_id op) (ProviderOperation.idempotency_key op) (operation r)) ->
  table_ok (Versioned.mk (Dict.set (op_id op) (ProviderOperationRecord.mk op n) (Versioned.records self)) e x).
Proof.
  intros [Hk Hi Hu Hp] Hn Hfree. split; cbn.
  - by apply keys_set_NoDup.
  - intros i r. rewrite get_set. case_decide; [intros [= <-]; done|apply Hi].
  - intros i j r r'. rewrite !get_set. repeat case_decide; subst; try done.
    + intros [= <-] Hj Hkey. exfalso. eapply Hfree; [|done..]. done.
    + intros Hr [= <-] Hkey. exfalso. eapply (Hfree i); [done..|].
      by destruct Hkey; split.
    + apply Hu.
  - intros i r. rewrite get_set. case_decide; [by intros [= <-]|apply Hp].
Qed.

Lemma same_request_identity_true a b : same_request_identity a b = true ->
  BudgetFacts.same_identity a b.
Proof.
  unfold same_request_identity. rewrite !andb_true_iff, !bool_decide_eq_true. unfold BudgetFacts.same_identity.
  tauto.
Qed.

Lemma save_new_ok self op v self' : table_ok self -> save op None self = (Ok v, self') ->
  table self !! op_id op = None /\ table self' = <[op_id op := (op, 1)]> (table self) /\ table_ok self'.
Proof.
  intros Hok H. destruct (save_cases self op None Hok) as [[err He]|(n & Hn & Hs)]; [congruence|].
  rewrite Hs in H. injection H as <- <-. apply next_version_Ok in Hn as (Hnone & -> & Hfree).
  destruct (Dict.get (op_id op) (Versioned.records self)) as [r|] eqn:Hr; [done|].
  split_and!; [by rewrite table_lookup, Hr|apply save_table|].
  apply save_table_ok; [done|done|]. intros i r Hi Hir Hkey. unfold key_free in Hfree.
  destruct (get_by_idempotency_key _ _ self) as [owner|] eqn:Ho.
  - apply fail_if_Ok in Hfree. reflect_bools. destruct (by_key_Some _ _ _ _ Hok Ho) as (_ & j & w & Hj).
    apply table_Some in Hj as (r' & Hr' & <- & _). pose proof (records_ids _ Hok _ _ Hr') as Hid.
    rewrite Hid in Hfree. subst j. congruence.
  - eapply (by_key_None _ _ _ i (operation r) (version_of r) Hok Ho); [|done]. apply table_Some. eauto.
Qed.

Lemma save_known_ok self op v v' self' : table_ok self -> save op (Some v) self = (Ok v', self') ->
  exists old, table self !! op_id op = Some (old, v) /\ BudgetFacts.same_identity old op /\
    table self' = <[op_id op := (op, v + 1)]> (table self) /\ table_ok self'.
Proof.
  intros Hok H. destruct (save_cases self op (Some v) Hok) as [[err He]|(n & Hn & Hs)]; [congruence|].
  rewrite Hs in H. injection H as <- <-. pose proof (next_positive _ _ _ _ _ _ Hok Hn) as Hpos.
  apply next_version_Ok in Hn as (Hv & -> & Hadv).
  destruct (Dict.get (op_id op) (Versioned.records self)) as [r|] eqn:Hr; [|done]. injection Hv as Hv.
  unfold advances in Hadv. rewrite then_Ok, !fail_if_Ok in Hadv. destruct Hadv as [_ Hsame].
  apply negb_false_iff, same_request_identity_true in Hsame.
  exists (operation r). split_and!; [apply table_Some; eauto|done|apply save_table|].
  apply save_table_ok; [done..|]. intros i r' Hi Hir Hkey. apply Hi.
  destruct Hsame as (E1 & _ & E2 & _).
  symmetry. eapply (records_unique _ Hok _ _ r r' Hr Hir). by rewrite E1, E2.
Qed.

Lemma save_refused_ok self op e err self' : table_ok self -> save op e self = (Err err, self') -> self' = self.
Proof.
  intros Hok H. destruct (save_cases self op e Hok) as [[err' He]|(n & _ & Hs)]; congruence.
Qed.

Lemma save_new_total self op : table_ok self -> table self !! op_id op = None ->
  get_by_idempotency_key (ProviderOperation.project_id op) (ProviderOperation.idempotency_key op) self = None ->
  exists v self', save op None self = (Ok v, self').
Proof.
  intros Hok Hnone Hkey. destruct (save_cases self op None Hok) as [[err He]|(n & _ & Hs)]; [|eauto].
  exfalso. unfold save, mbind, M_bind, get_state, lift_result in He.
  assert (Versioned.next_version version_of "ProviderOperation" self (op_id op) None
            (key_free self op) (advances op) = Ok 1) as Hn.
  { apply next_version_Ok. rewrite table_lookup in Hnone. apply fmap_None in Hnone. rewrite Hnone.
    unfold key_free. by rewrite Hkey. }
  rewrite Hn in He. done.
Qed.

Lemma table_ids self i op v : table_ok self -> table self !! i = Some (op, v) -> op_id op = i.
Proof. intros Hok H. apply table_Some in H as (r & Hr & <- & _). by apply (records_ids _ Hok). Qed.

Lemma table_keys self i j a b v w : table_ok self ->
  table self !! i = Some (a, v) -> table self !! j = Some (b, w) ->
  has_key (ProviderOperation.project_id a) (ProviderOperation.idempotency_key a) b -> i = j.
Proof.
  intros Hok Ha Hb. apply table_Some in Ha as (r & Hr & <- & _).
  apply table_Some in Hb as (r' & Hr' & <- & _). by apply (records_unique _ Hok).
Qed.

Lemma find_table self i : find_operation i self = fst <$> table self !! i.
Proof. unfold find_operation. rewrite table_lookup. by destruct (Dict.get i _). Qed.

Lemma version_table self i : get_version i self = snd <$> table self !! i.
Proof. unfold get_version. rewrite table_lookup. by destruct (Dict.get i _). Qed.

Lemma list_for_run_table self p r : table_ok self ->
  list_for_run p r self ≡ₚ filter (in_run p r) (values_of (table self)).
Proof.
  intros Hok. unfold list_for_run. rewrite sort_by_perm.
  rewrite (filter_bool _ (in_run p r)) by (intros op; apply run_filter).
  by rewrite operations_values by apply Hok.
Qed.

(** The repository implements the interface of the budget service. *)
#[global] Instance store : OperationStore t := {
  stored := table;
  store_ok := table_ok;
  ok_ids := table_ids;
  ok_keys := table_keys;
  find_spec := find_table;
  version_spec := version_table;
  by_key_some := fun s p k op => by_key_Some s p k op;
  by_key_none := fun s p k Hok H i op v => by_key_None s p k i op v Hok H;
  of_run_spec := list_for_run_table;
  save_refused := save_refused_ok;
  save_new := save_new_ok;
  save_known := save_known_ok;
  save_new_defined := save_new_total
}.
End OperationFacts.
