(* ===== verification/Manifests.v ===== *)
(** The canonical project of [project_workspaces/contracts.py], and the in-memory
    repository of projects and of their desired manifests, whose revisions
    advance by compare-and-swap. Manifests and their entries are values of a
    type the section is parametric in. *)
From Stdlib Require Import Ascii.
From S2P Require Import Prelude Errors Text Lifecycle Records Dict Tables.
Local Open Scope string_scope.
Local Open Scope list_scope.
Local Open Scope Z_scope.

(** ** [CloudProject] *)

(** [re.fullmatch(prefix + r"[0-9a-f]{32}", value)] *)
Definition is_hex_digit (c : ascii) : bool := is_digit c || between 97 102 c.
Definition has_hex_id (prefix value : string) : bool :=
  match drop_prefix prefix value with
  | Some suffix =>
      (String.length suffix =? 32)%nat && forallb is_hex_digit (String.list_ascii_of_string suffix)
  | None => false
  end.

(** [len(value)]: the number of code points of a UTF-8 string. *)
Definition char_count (value : string) : Z :=
  Z.of_nat (countb (fun c => negb (between 128 191 c)) (String.list_ascii_of_string value)).

Definition require_match (value prefix name : string) : res unit :=
  fail_if (negb (has_hex_id prefix value)) (value_error (name +:+ " has an invalid canonical format")).

Definition require_bounded (value : string) (minimum maximum : Z) (name : string) : res unit :=
  fail_if (negb ((minimum <=? char_count value) && (char_count value <=? maximum)))
    (value_error (name +:+ " length must be between " +:+ int_str minimum +:+ " and " +:+ int_str maximum)).

Definition require_aware_field (value : datetime) (name : string) : res unit :=
  fail_if (negb (is_aware value)) (value_error (name +:+ " must be timezone-aware")).

Inductive CloudProjectStatus := ACTIVE | ARCHIVED.

#[export] Instance cloud_project_status_eq_dec : EqDecision CloudProjectStatus.
Proof. solve_decision. Defined.

Module CloudProject.
Record t := mk {
  project_id : string;
  workspace_id : string;
  name : string;
  research_topic : string;
  status : CloudProjectStatus;
  current_manifest_revision : Z;
  legacy_local_project_id : option string;
  created_at : datetime;
  updated_at : datetime
}.

Definition post_init (self : t) : res t :=
  _ ← require_match (project_id self) "project-" "project_id";
  _ ← require_match (workspace_id self) "workspace-" "workspace_id";
  _ ← require_bounded (name self) 1 200 "name";
  _ ← require_bounded (research_topic self) 1 4000 "research_topic";
  _ ← fail_if (current_manifest_revision self <? 0)
        (value_error "current_manifest_revision must be non-negative");
  _ ← match legacy_local_project_id self with
      | Some p => require_match p "project-" "legacy_local_project_id"
      | None => Ok tt
      end;
  _ ← require_aware_field (created_at self) "created_at";
  _ ← require_aware_field (updated_at self) "updated_at";
  Ok self.

(** [replace(project, current_manifest_revision=..., updated_at=...)] *)
Definition at_revision (self : t) (revision : Z) (updated : datetime) : res t :=
  post_init (mk (project_id self) (workspace_id self) (name self) (research_topic self) (status self)
    revision (legacy_local_project_id self) (created_at self) updated).
End CloudProject.

(** ** The repository *)

Module ManifestRepository.
Section repository.
Context {manifest entry : Type}.

Record t := mk {
  projects : Plain.t string CloudProject.t;
  desired_manifests : Plain.t (string * Z) manifest;
  manifest_entries : Plain.t string entry;
  revision_expected : dict string Z
}.

Definition with_projects (f : Plain.t string CloudProject.t -> Plain.t string CloudProject.t) (self : t) : t :=
  mk (f (projects self)) (desired_manifests self) (manifest_entries self) (revision_expected self).

Definition manifest_conflict : exn :=
  Exn ManifestRevisionConflictError "Desired Project Manifest revision changed".

Definition add_project (project : CloudProject.t) : M exn t unit :=
  self ← get_state;
  raise_if (Dict.has (CloudProject.project_id project) (Plain.records (projects self)))
    (Exn DuplicateEntityError "Canonical Project already exists") ;;
  modify (with_projects (Plain.put (CloudProject.project_id project) project)).

Definition get_project (project_id : string) (self : t) : option CloudProject.t :=
  Dict.get project_id (Plain.records (projects self)).

Definition add_manifest (project_id : string) (revision : Z) (m : manifest) : M exn t unit :=
  self ← get_state;
  raise_if (Dict.has (project_id, revision) (Plain.records (desired_manifests self)))
    (Exn DuplicateEntityError "Desired Project Manifest already exists") ;;
  modify (fun self => mk (projects self) (Plain.put (project_id, revision) m (desired_manifests self))
                        (manifest_entries self) (revision_expected self)).

Definition add_manifest_entries (entries : list (string * entry)) : M exn t unit :=
  for_each (fun e =>
    self ← get_state;
    raise_if (Dict.has e.1 (Plain.records (manifest_entries self)))
      (Exn DuplicateEntityError "Desired Project Manifest entry already exists") ;;
    modify (fun self => mk (projects self) (desired_manifests self)
                          (Plain.put e.1 e.2 (manifest_entries self)) (revision_expected self)))
    entries.

Definition get_manifest (project_id : string) (revision : Z) (self : t) : option manifest :=
  Dict.get (project_id, revision) (Plain.records (desired_manifests self)).

Definition get_current_manifest (project_id : string) (self : t) : option manifest :=
  match get_project project_id self with
  | None => None
  | Some project =>
      if CloudProject.current_manifest_revision project =? 0 then None
      else get_manifest project_id (CloudProject.current_manifest_revision project) self
  end.

Definition compare_and_swap_revision (project_id : string) (base_revision : Z) (updated_at : datetime) :
    M exn t Z :=
  project ← gets (get_project project_id);
  match project with
  | None => raise (value_error "Canonical Project does not exist")
  | Some project =>
      raise_if (negb (CloudProject.current_manifest_revision project =? base_revision))
        manifest_conflict ;;
      modify (fun self => mk (projects self) (desired_manifests self) (manifest_entries self)
                            (Dict.set project_id base_revision (revision_expected self))) ;;
      advanced ← lift_result (CloudProject.at_revision project (base_revision + 1) updated_at);
      modify (with_projects (Plain.put project_id advanced)) ;;
      mret (base_revision + 1)
  end.

(** The check of [_validate_concurrency] on the swapped revisions. *)
Definition check_revision (committed : dict string CloudProject.t) (swap : string * Z) : res unit :=
  fail_if (negb (bool_decide
                   (CloudProject.current_manifest_revision <$> Dict.get swap.1 committed = Some swap.2)))
    manifest_conflict.
End repository.
Arguments t : clear implicits.
End ManifestRepository.
