(* ===== verification/UnitOfWork.v ===== *)
(** [InMemoryDatabase] and [InMemoryUnitOfWork] of
    [persistence/adapters/in_memory.py]: the committed state, the copy a unit
    of work stages its changes in, the checks of a commit, publication,
    rollback and the deletion of a project.

    The tables the workflow engine uses are modelled record by record. The
    other tables hold values of a type the development is parametric in, of
    which the unit of work only uses equality and the project they belong to. *)
From S2P Require Import Prelude Errors Text Float Value Sha256 Lifecycle Workflow Checkpoint Coordinator Approval Events Records Provider Budget Dict Tables Repositories Manifests.
Local Open Scope string_scope.
Local Open Scope list_scope.
Local Open Scope Z_scope.

(** ** The other tables *)

(** Part of a dictionary key. *)
Inductive atom := AStr (s : string) | AInt (n : Z).
#[export] Instance atom_eq_dec : EqDecision atom.
Proof. solve_decision. Defined.
Abbreviation okey := (list atom).

(** The text of a single-part key. *)
Definition key_str (k : okey) : string := match k with [AStr s] => s | _ => "" end.

(** Tables published key by key. *)
Inductive keyed_store :=
  | progress_reports | progress_projections | capsule_artifacts | installation_acknowledgements
  | local_artifact_references | artifact_presentations | artifact_content_qualifications
  | workflow_artifact_requirements | artifact_dependency_bindings | workflow_input_setup_decisions
  | project_resource_references | workflow_resource_requirements | workflow_resource_bindings
  | controlled_local_run_approvals.
#[export] Instance keyed_store_eq_dec : EqDecision keyed_store.
Proof. solve_decision. Defined.

(** In the order in which a commit publishes them, after the manifest tables. *)
Definition keyed_stores : list keyed_store :=
  [progress_reports; progress_projections; capsule_artifacts; installation_acknowledgements;
   local_artifact_references; artifact_presentations; artifact_content_qualifications;
   workflow_artifact_requirements; artifact_dependency_bindings; workflow_input_setup_decisions;
   project_resource_references; workflow_resource_requirements; workflow_resource_bindings;
   controlled_local_run_approvals].

(** Tables published whole. *)
Inductive foundation_store :=
  | workflow_definitions | workflow_definition_versions | workflow_capsule_versions
  | skill_definitions | skill_versions | workflow_skill_pins | project_workflow_instances.
#[export] Instance foundation_store_eq_dec : EqDecision foundation_store.
Proof. solve_decision. Defined.

(** How [_purge_project_state] recognises the values of a project. *)
Inductive ownership := by_value | by_key | by_artifact | not_owned.

Definition keyed_ownership (s : keyed_store) : ownership :=
  match s with
  | progress_projections => by_key
  | artifact_presentations | artifact_content_qualifications => by_artifact
  | workflow_artifact_requirements | workflow_resource_requirements => not_owned
  | _ => by_value
  end.

(** The values of the other tables. *)
Class Entities := {
  entity : Type;
  entity_eq_dec :: EqDecision entity;
  entity_project : entity -> string;
  (** equality of everything but the timestamps *)
  same_content : entity -> entity -> bool
}.

Section unit_of_work.
Context {EN : Entities}.

Record database := Database {
  db_executions : dict string WorkflowExecutionRecord.t;
  db_checkpoint_records : dict string (list CheckpointRecord.t);
  db_memory_revisions : dict (string * string) (list MemoryRevision.t);
  db_artifacts : dict string ArtifactMetadata.t;
  db_approvals : dict string ApprovalRecord.t;
  db_execution_events : dict (string * string) (list ExecutionEvent.t);
  db_provider_operations : dict string ProviderOperationRecord.t;
  db_local_projects : dict string entity;
  db_projects : dict string CloudProject.t;
  db_desired_manifests : dict (string * Z) entity;
  db_manifest_entries : dict string entity;
  db_keyed : keyed_store -> dict okey entity;
  db_foundation : foundation_store -> dict okey entity;
  db_user_skills : dict okey entity;
  db_project_user_skills : dict okey entity
}.

Definition empty_database : database :=
  Database [] [] [] [] [] [] [] [] [] [] [] (fun _ => []) (fun _ => []) [] [].

Record unit_of_work := UnitOfWork {
  workflows : WorkflowRepository.t;
  checkpoints : CheckpointRepository.t;
  memory : MemoryRepository.t;
  artifacts : ArtifactRepository.t;
  approvals : ApprovalRepository.t;
  events : ExecutionEventStore.t;
  provider_operations : ProviderOperationRepository.t;
  local_projects : Plain.t string entity;
  local_project_expected : dict string entity;
  manifests : ManifestRepository.t entity entity;
  keyed : keyed_store -> Plain.t okey entity;
  foundation : foundation_store -> dict okey entity;
  foundation_dirty : bool;
  dirty_project_workflow_instances : list string;
  user_skills : dict okey entity;
  project_user_skills : dict okey entity;
  deleted_project_ids : list string
}.

(** [_refresh] *)
Definition refresh (db : database) : unit_of_work :=
  UnitOfWork (Versioned.refresh (db_executions db)) (Stream.refresh (db_checkpoint_records db))
    (Stream.refresh (db_memory_revisions db)) (Plain.refresh (db_artifacts db))
    (Versioned.refresh (db_approvals db)) (Stream.refresh (db_execution_events db))
    (Versioned.refresh (db_provider_operations db)) (Plain.refresh (db_local_projects db))
    (db_local_projects db)
    (ManifestRepository.mk (Plain.refresh (db_projects db)) (Plain.refresh (db_desired_manifests db))
       (Plain.refresh (db_manifest_entries db)) [])
    (fun s => Plain.refresh (db_keyed db s)) (db_foundation db) false [] (db_user_skills db)
    (db_project_user_skills db) [].

(** ** [_purge_project_state] *)

(** The graph of a project, whether in the database or in a unit of work. *)
Record graph := Graph {
  g_executions : dict string WorkflowExecutionRecord.t;
  g_checkpoint_records : dict string (list CheckpointRecord.t);
  g_memory_revisions : dict (string * string) (list MemoryRevision.t);
  g_artifacts : dict string ArtifactMetadata.t;
  g_approvals : dict string ApprovalRecord.t;
  g_execution_events : dict (string * string) (list ExecutionEvent.t);
  g_provider_operations : dict string ProviderOperationRecord.t;
  g_local_projects : dict string entity;
  g_projects : dict string CloudProject.t;
  g_desired_manifests : dict (string * Z) entity;
  g_manifest_entries : dict string entity;
  g_keyed : keyed_store -> dict okey entity;
  g_foundation : foundation_store -> dict okey entity;
  g_project_user_skills : dict okey entity
}.

Definition key_project (k : okey) : option string :=
  match k with AStr p :: _ => Some p | _ => None end.

Definition execution_in (p : string) (r : WorkflowExecutionRecord.t) : bool :=
  String.eqb (WorkflowRunRecord.project_id (WorkflowExecutionRecord.workflow_run r)) p.
Definition entity_in (p : string) (e : entity) : bool := String.eqb (entity_project e) p.
Definition key_in (p : string) (k : okey) : bool := bool_decide (key_project k = Some p).

(** [{key: value for key, value in current.items() if not predicate(key, value)}] *)
Definition discard {K V} (predicate : K -> V -> bool) (d : dict K V) : dict K V :=
  Dict.select (fun k v => negb (predicate k v)) d.

Definition purge (p : string) (g : graph) : graph :=
  let run_ids := Dict.keys (Dict.select (fun _ r => execution_in p r) (g_executions g)) in
  let artifact_ids :=
    Dict.keys (Dict.select (fun _ a => entity_in p a) (g_keyed g local_artifact_references)) in
  Graph
    (discard (fun k _ => bool_decide (k ∈ run_ids)) (g_executions g))
    (discard (fun k _ => bool_decide (k ∈ run_ids)) (g_checkpoint_records g))
    (discard (fun k _ => String.eqb k.1 p) (g_memory_revisions g))
    (discard (fun _ a => String.eqb (ArtifactMetadata.project_id a) p) (g_artifacts g))
    (discard (fun _ a => String.eqb (ApprovalRecord.project_id a) p) (g_approvals g))
    (discard (fun k _ => String.eqb k.1 p) (g_execution_events g))
    (discard (fun _ r => String.eqb (ProviderOperation.project_id (ProviderOperationRecord.operation r)) p)
       (g_provider_operations g))
    (discard (fun k _ => String.eqb k p) (g_local_projects g))
    (discard (fun k _ => String.eqb k p) (g_projects g))
    (discard (fun k _ => String.eqb k.1 p) (g_desired_manifests g))
    (discard (fun _ e => entity_in p e) (g_manifest_entries g))
    (fun s => match keyed_ownership s with
              | by_value => discard (fun _ e => entity_in p e) (g_keyed g s)
              | by_key => discard (fun k _ => key_in p k) (g_keyed g s)
              | by_artifact => discard (fun k _ => bool_decide (k ∈ artifact_ids)) (g_keyed g s)
              | not_owned => g_keyed g s
              end)
    (fun s => match s with
              | project_workflow_instances => discard (fun _ e => entity_in p e) (g_foundation g s)
              | _ => g_foundation g s
              end)
    (discard (fun k _ => key_in p k) (g_project_user_skills g)).

Definition database_graph (db : database) : graph :=
  Graph (db_executions db) (db_checkpoint_records db) (db_memory_revisions db) (db_artifacts db)
    (db_approvals db) (db_execution_events db) (db_provider_operations db) (db_local_projects db)
    (db_projects db) (db_desired_manifests db) (db_manifest_entries db) (db_keyed db)
    (db_foundation db) (db_project_user_skills db).

Definition purge_database (p : string) (db : database) : database :=
  let g := purge p (database_graph db) in
  Database (g_executions g) (g_checkpoint_records g) (g_memory_revisions g) (g_artifacts g)
    (g_approvals g) (g_execution_events g) (g_provider_operations g) (g_local_projects g)
    (g_projects g) (g_desired_manifests g) (g_manifest_entries g) (g_keyed g) (g_foundation g)
    (db_user_skills db) (g_project_user_skills g).

Definition unit_graph (u : unit_of_work) : graph :=
  Graph (Versioned.records (workflows u)) (Stream.entries (checkpoints u)) (Stream.entries (memory u))
    (Plain.records (artifacts u)) (Versioned.records (approvals u)) (Stream.entries (events u))
    (Versioned.records (provider_operations u)) (Plain.records (local_projects u))
    (Plain.records (ManifestRepository.projects (manifests u)))
    (Plain.records (ManifestRepository.desired_manifests (manifests u)))
    (Plain.records (ManifestRepository.manifest_entries (manifests u)))
    (fun s => Plain.records (keyed u s)) (foundation u) (project_user_skills u).

(** The tables are replaced; what is dirty and what is expected stays. *)
Definition purge_unit (p : string) (u : unit_of_work) : unit_of_work :=
  let g := purge p (unit_graph u) in
  UnitOfWork (Versioned.with_records (g_executions g) (workflows u))
    (Stream.with_entries (g_checkpoint_records g) (checkpoints u))
    (Stream.with_entries (g_memory_revisions g) (memory u))
    (Plain.with_records (g_artifacts g) (artifacts u))
    (Versioned.with_records (g_approvals g) (approvals u))
    (Stream.with_entries (g_execution_events g) (events u))
    (Versioned.with_records (g_provider_operations g) (provider_operations u))
    (Plain.with_records (g_local_projects g) (local_projects u)) (local_project_expected u)
    (ManifestRepository.mk (Plain.with_records (g_projects g) (ManifestRepository.projects (manifests u)))
       (Plain.with_records (g_desired_manifests g) (ManifestRepository.desired_manifests (manifests u)))
       (Plain.with_records (g_manifest_entries g) (ManifestRepository.manifest_entries (manifests u)))
       (ManifestRepository.revision_expected (manifests u)))
    (fun s => Plain.with_records (g_keyed g s) (keyed u s)) (g_foundation g) (foundation_dirty u)
    (dirty_project_workflow_instances u) (user_skills u) (g_project_user_skills g)
    (deleted_project_ids u).

Definition mark_deleted (p : string) (u : unit_of_work) : unit_of_work :=
  UnitOfWork (workflows u) (checkpoints u) (memory u) (artifacts u) (approvals u) (events u)
    (provider_operations u) (local_projects u) (local_project_expected u) (manifests u) (keyed u)
    (foundation u) (foundation_dirty u) (dirty_project_workflow_instances u) (user_skills u)
    (project_user_skills u) (set_add p (deleted_project_ids u)).

Definition delete_project_cloud_state (p : string) : M exn unit_of_work unit :=
  u ← get_state;
  raise_if (negb (Dict.has p (Plain.records (ManifestRepository.projects (manifests u))))
            || negb (Dict.has p (Plain.records (local_projects u))))
    (Exn PyValueError "Project deletion identity is unavailable") ;;
  modify (mark_deleted p) ;;
  modify (purge_unit p).

(** ** [_validate_concurrency] *)

Definition check_workflow (db : database) (t : WorkflowRepository.t) (run_id : string) : res unit :=
  _ ← Versioned.check_version WorkflowRepository.version_of "WorkflowRun" (db_executions db) t run_id;
  candidate ← Dict.item run_id (Versioned.records t);
  WorkflowRepository.refuse_conflict
    "Workflow execution idempotency key was concurrently claimed by WorkflowRun "
    (WorkflowRepository.conflicting_run (db_executions db) (WorkflowRepository.key_of candidate) run_id).

Definition checkpoint_message (run_id : string) (expected found : Z) : string :=
  "Checkpoint stream " +:+ run_id +:+ " expected " +:+ int_str expected +:+ " records; found " +:+ int_str found.
Definition memory_message (scope : string * string) (expected found : Z) : string :=
  "Memory scope " +:+ scope_str scope +:+ " expected revision " +:+ int_str expected +:+ "; found " +:+ int_str found.
Definition event_message (scope : string * string) (expected found : Z) : string :=
  "Execution event stream " +:+ scope_str scope +:+ " expected sequence " +:+ int_str expected
  +:+ "; found " +:+ int_str found.

Definition check_artifact (db : database) (t : ArtifactRepository.t) (artifact_id : string) : res unit :=
  match Dict.get artifact_id (db_artifacts db) with
  | None => Ok tt
  | Some current =>
      staged ← Dict.item artifact_id (Plain.records t);
      fail_if (negb (artifact_eqb current staged))
        (Exn DuplicateEntityError ("Artifact ID " +:+ artifact_id +:+ " was concurrently reused"))
  end.

(** New events may not reuse an identifier, of the database or of each other. *)
Definition claim_event (committed_ids : list string) (e : ExecutionEvent.t) : res (list string) :=
  _ ← fail_if (bool_decide (ExecutionEvent.id e ∈ committed_ids))
        (Exn DuplicateEntityError ("ExecutionEvent ID " +:+ ExecutionEvent.id e +:+ " was concurrently reused"));
  Ok (ExecutionEvent.id e :: committed_ids).

Definition check_events (db : database) (t : ExecutionEventStore.t) (committed_ids : list string)
    (scope : string * string) : res (list string) :=
  _ ← Stream.check_count (event_message scope) (db_execution_events db) t scope;
  staged ← Dict.item scope (Stream.entries t);
  fold_ok claim_event committed_ids (drop (Z.to_nat (Stream.expected_count t scope)) staged).

Definition operation_key (op : ProviderOperation.t) : string * string :=
  (ProviderOperation.project_id op, ProviderOperation.idempotency_key op).

Definition check_operation (db : database) (t : ProviderOperationRepository.t)
    (owners : dict (string * string) string) (operation_id : string) :
    res (dict (string * string) string) :=
  _ ← Versioned.check_version ProviderOperationRepository.version_of "ProviderOperation"
        (db_provider_operations db) t operation_id;
  staged ← Dict.item operation_id (Versioned.records t);
  let key := operation_key (ProviderOperationRecord.operation staged) in
  _ ← match Dict.get key owners with
      | Some owner =>
          fail_if (negb (String.eqb owner operation_id))
            (Exn DuplicateEntityError
               ("Provider operation idempotency key was concurrently claimed by ProviderOperation "
                +:+ owner))
      | None => Ok tt
      end;
  Ok (Dict.set key operation_id owners).

Definition check_progress_report (db : database) (u : unit_of_work) (receipt_id : okey) : res unit :=
  staged ← Dict.item receipt_id (Plain.records (keyed u progress_reports));
  match Dict.get receipt_id (db_keyed db progress_reports) with
  | None => Ok tt
  | Some current =>
      fail_if (negb (bool_decide (current = staged)))
        (Exn DuplicateEntityError ("Progress receipt " +:+ key_str receipt_id +:+ " was concurrently reused"))
  end.

Definition check_local_project (db : database) (u : unit_of_work) (project_id : string) : res unit :=
  fail_if (negb (bool_decide (Dict.get project_id (db_local_projects db)
                              = Dict.get project_id (local_project_expected u))))
    (Exn StaleStateError ("Local project " +:+ project_id +:+ " changed concurrently")).

Definition committed_event_ids (db : database) : list string :=
  ExecutionEvent.id <$> ExecutionEventStore.all_events (db_execution_events db).

Definition committed_owners (db : database) : dict (string * string) string :=
  foldl (fun owners kv => Dict.set (operation_key (ProviderOperationRecord.operation kv.2)) kv.1 owners)
    [] (db_provider_operations db).

Definition validate_concurrency (db : database) (u : unit_of_work) : res unit :=
  _ ← each_ok (check_workflow db (workflows u)) (Versioned.dirty (workflows u));
  _ ← each_ok (fun run_id => Stream.check_count (checkpoint_message run_id)
                 (db_checkpoint_records db) (checkpoints u) run_id) (Stream.dirty (checkpoints u));
  _ ← each_ok (fun scope => Stream.check_count (memory_message scope)
                 (db_memory_revisions db) (memory u) scope) (Stream.dirty (memory u));
  _ ← each_ok (check_artifact db (artifacts u)) (Plain.dirty (artifacts u));
  _ ← each_ok (Versioned.check_version ApprovalRepository.version_of "ApprovalRequest"
                 (db_approvals db) (approvals u)) (Versioned.dirty (approvals u));
  _ ← fold_ok (check_events db (events u)) (committed_event_ids db) (Stream.dirty (events u));
  _ ← fold_ok (check_operation db (provider_operations u)) (committed_owners db)
        (Versioned.dirty (provider_operations u));
  _ ← each_ok (check_progress_report db u) (Plain.dirty (keyed u progress_reports));
  _ ← each_ok (check_local_project db u) (Plain.dirty (local_projects u));
  each_ok (ManifestRepository.check_revision (db_projects db))
    (ManifestRepository.revision_expected (manifests u)).

(** ** Publication *)

(** The database with one table replaced. *)
Definition set_executions x db := Database x (db_checkpoint_records db) (db_memory_revisions db)
  (db_artifacts db) (db_approvals db) (db_execution_events db) (db_provider_operations db)
  (db_local_projects db) (db_projects db) (db_desired_manifests db) (db_manifest_entries db)
  (db_keyed db) (db_foundation db) (db_user_skills db) (db_project_user_skills db).
Definition set_checkpoint_records x db := Database (db_executions db) x (db_memory_revisions db)
  (db_artifacts db) (db_approvals db) (db_execution_events db) (db_provider_operations db)
  (db_local_projects db) (db_projects db) (db_desired_manifests db) (db_manifest_entries db)
  (db_keyed db) (db_foundation db) (db_user_skills db) (db_project_user_skills db).
Definition set_memory_revisions x db := Database (db_executions db) (db_checkpoint_records db) x
  (db_artifacts db) (db_approvals db) (db_execution_events db) (db_provider_operations db)
  (db_local_projects db) (db_projects db) (db_desired_manifests db) (db_manifest_entries db)
  (db_keyed db) (db_foundation db) (db_user_skills db) (db_project_user_skills db).
Definition set_artifacts x db := Database (db_executions db) (db_checkpoint_records db)
  (db_memory_revisions db) x (db_approvals db) (db_execution_events db) (db_provider_operations db)
  (db_local_projects db) (db_projects db) (db_desired_manifests db) (db_manifest_entries db)
  (db_keyed db) (db_foundation db) (db_user_skills db) (db_project_user_skills db).
Definition set_approvals x db := Database (db_executions db) (db_checkpoint_records db)
  (db_memory_revisions db) (db_artifacts db) x (db_execution_events db) (db_provider_operations db)
  (db_local_projects db) (db_projects db) (db_desired_manifests db) (db_manifest_entries db)
  (db_keyed db) (db_foundation db) (db_user_skills db) (db_project_user_skills db).
Definition set_execution_events x db := Database (db_executions db) (db_checkpoint_records db)
  (db_memory_revisions db) (db_artifacts db) (db_approvals db) x (db_provider_operations db)
  (db_local_projects db) (db_projects db) (db_desired_manifests db) (db_manifest_entries db)
  (db_keyed db) (db_foundation db) (db_user_skills db) (db_project_user_skills db).
Definition set_provider_operations x db := Database (db_executions db) (db_checkpoint_records db)
  (db_memory_revisions db) (db_artifacts db) (db_approvals db) (db_execution_events db) x
  (db_local_projects db) (db_projects db) (db_desired_manifests db) (db_manifest_entries db)
  (db_keyed db) (db_foundation db) (db_user_skills db) (db_project_user_skills db).
Definition set_local_projects x db := Database (db_executions db) (db_checkpoint_records db)
  (db_memory_revisions db) (db_artifacts db) (db_approvals db) (db_execution_events db)
  (db_provider_operations db) x (db_projects db) (db_desired_manifests db) (db_manifest_entries db)
  (db_keyed db) (db_foundation db) (db_user_skills db) (db_project_user_skills db).
Definition set_manifests p m e db := Database (db_executions db) (db_checkpoint_records db)
  (db_memory_revisions db) (db_artifacts db) (db_approvals db) (db_execution_events db)
  (db_provider_operations db) (db_local_projects db) p m e
  (db_keyed db) (db_foundation db) (db_user_skills db) (db_project_user_skills db).
Definition set_keyed (s : keyed_store) x db := Database (db_executions db) (db_checkpoint_records db)
  (db_memory_revisions db) (db_artifacts db) (db_approvals db) (db_execution_events db)
  (db_provider_operations db) (db_local_projects db) (db_projects db) (db_desired_manifests db)
  (db_manifest_entries db) (fun s' => if decide (s' = s) then x else db_keyed db s')
  (db_foundation db) (db_user_skills db) (db_project_user_skills db).
Definition set_whole_tables f us ps db := Database (db_executions db) (db_checkpoint_records db)
  (db_memory_revisions db) (db_artifacts db) (db_approvals db) (db_execution_events db)
  (db_provider_operations db) (db_local_projects db) (db_projects db) (db_desired_manifests db)
  (db_manifest_entries db) (db_keyed db) f us ps.

Definition publish_keyed (u : unit_of_work) (s : keyed_store) : M exn database unit :=
  publish_to (fun db => db_keyed db s) (set_keyed s) (Plain.records (keyed u s)) (Plain.dirty (keyed u s)).

(** The tables of definitions are replaced as a whole when any of them is
    dirty; the two tables of user skills are always replaced. *)
Definition replace_whole_tables (u : unit_of_work) : M exn database unit :=
  modify (fun db => set_whole_tables
    (if foundation_dirty u || negb (bool_decide (dirty_project_workflow_instances u = []))
     then foundation u else db_foundation db)
    (user_skills u) (project_user_skills u) db).

Definition publish_manifests (m : ManifestRepository.t entity entity) : M exn database unit :=
  publish_to db_projects (fun x db => set_manifests x (db_desired_manifests db) (db_manifest_entries db) db)
    (Plain.records (ManifestRepository.projects m)) (Plain.dirty (ManifestRepository.projects m)) ;;
  publish_to db_desired_manifests (fun x db => set_manifests (db_projects db) x (db_manifest_entries db) db)
    (Plain.records (ManifestRepository.desired_manifests m))
    (Plain.dirty (ManifestRepository.desired_manifests m)) ;;
  publish_to db_manifest_entries (fun x db => set_manifests (db_projects db) (db_desired_manifests db) x db)
    (Plain.records (ManifestRepository.manifest_entries m))
    (Plain.dirty (ManifestRepository.manifest_entries m)).

Definition publish_changes (u : unit_of_work) : M exn database unit :=
  publish_to db_executions set_executions
    (Versioned.records (workflows u)) (Versioned.dirty (workflows u)) ;;
  publish_to db_checkpoint_records set_checkpoint_records
    (Stream.entries (checkpoints u)) (Stream.dirty (checkpoints u)) ;;
  publish_to db_memory_revisions set_memory_revisions (Stream.entries (memory u)) (Stream.dirty (memory u)) ;;
  publish_to db_artifacts set_artifacts (Plain.records (artifacts u)) (Plain.dirty (artifacts u)) ;;
  publish_to db_approvals set_approvals
    (Versioned.records (approvals u)) (Versioned.dirty (approvals u)) ;;
  publish_to db_execution_events set_execution_events (Stream.entries (events u)) (Stream.dirty (events u)) ;;
  publish_to db_provider_operations set_provider_operations
    (Versioned.records (provider_operations u)) (Versioned.dirty (provider_operations u)) ;;
  publish_keyed u progress_reports ;;
  publish_keyed u progress_projections ;;
  publish_to db_local_projects set_local_projects
    (Plain.records (local_projects u)) (Plain.dirty (local_projects u)) ;;
  replace_whole_tables u ;;
  publish_manifests (manifests u) ;;
  for_each (publish_keyed u)
    [capsule_artifacts; installation_acknowledgements; local_artifact_references;
     artifact_presentations; artifact_content_qualifications; workflow_artifact_requirements;
     artifact_dependency_bindings; workflow_input_setup_decisions; project_resource_references;
     workflow_resource_requirements; workflow_resource_bindings; controlled_local_run_approvals].

(** ** The repositories, bound to the unit of work *)

Definition set_workflows x u := UnitOfWork x (checkpoints u) (memory u) (artifacts u) (approvals u)
  (events u) (provider_operations u) (local_projects u) (local_project_expected u) (manifests u)
  (keyed u) (foundation u) (foundation_dirty u) (dirty_project_workflow_instances u) (user_skills u)
  (project_user_skills u) (deleted_project_ids u).
Definition set_checkpoints x u := UnitOfWork (workflows u) x (memory u) (artifacts u) (approvals u)
  (events u) (provider_operations u) (local_projects u) (local_project_expected u) (manifests u)
  (keyed u) (foundation u) (foundation_dirty u) (dirty_project_workflow_instances u) (user_skills u)
  (project_user_skills u) (deleted_project_ids u).
Definition set_memory x u := UnitOfWork (workflows u) (checkpoints u) x (artifacts u) (approvals u)
  (events u) (provider_operations u) (local_projects u) (local_project_expected u) (manifests u)
  (keyed u) (foundation u) (foundation_dirty u) (dirty_project_workflow_instances u) (user_skills u)
  (project_user_skills u) (deleted_project_ids u).
Definition set_artifact_table x u := UnitOfWork (workflows u) (checkpoints u) (memory u) x (approvals u)
  (events u) (provider_operations u) (local_projects u) (local_project_expected u) (manifests u)
  (keyed u) (foundation u) (foundation_dirty u) (dirty_project_workflow_instances u) (user_skills u)
  (project_user_skills u) (deleted_project_ids u).
Definition set_approval_table x u := UnitOfWork (workflows u) (checkpoints u) (memory u) (artifacts u) x
  (events u) (provider_operations u) (local_projects u) (local_project_expected u) (manifests u)
  (keyed u) (foundation u) (foundation_dirty u) (dirty_project_workflow_instances u) (user_skills u)
  (project_user_skills u) (deleted_project_ids u).
Definition set_events x u := UnitOfWork (workflows u) (checkpoints u) (memory u) (artifacts u)
  (approvals u) x (provider_operations u) (local_projects u) (local_project_expected u) (manifests u)
  (keyed u) (foundation u) (foundation_dirty u) (dirty_project_workflow_instances u) (user_skills u)
  (project_user_skills u) (deleted_project_ids u).
Definition set_operations x u := UnitOfWork (workflows u) (checkpoints u) (memory u) (artifacts u)
  (approvals u) (events u) x (local_projects u) (local_project_expected u) (manifests u)
  (keyed u) (foundation u) (foundation_dirty u) (dirty_project_workflow_instances u) (user_skills u)
  (project_user_skills u) (deleted_project_ids u).
Definition set_local_project_table x u := UnitOfWork (workflows u) (checkpoints u) (memory u)
  (artifacts u) (approvals u) (events u) (provider_operations u) x (local_project_expected u)
  (manifests u) (keyed u) (foundation u) (foundation_dirty u) (dirty_project_workflow_instances u)
  (user_skills u) (project_user_skills u) (deleted_project_ids u).
Definition set_manifest_tables x u := UnitOfWork (workflows u) (checkpoints u) (memory u) (artifacts u)
  (approvals u) (events u) (provider_operations u) (local_projects u) (local_project_expected u) x
  (keyed u) (foundation u) (foundation_dirty u) (dirty_project_workflow_instances u) (user_skills u)
  (project_user_skills u) (deleted_project_ids u).
Definition set_keyed_table (s : keyed_store) x u := UnitOfWork (workflows u) (checkpoints u) (memory u)
  (artifacts u) (approvals u) (events u) (provider_operations u) (local_projects u)
  (local_project_expected u) (manifests u) (fun s' => if decide (s' = s) then x else keyed u s')
  (foundation u) (foundation_dirty u) (dirty_project_workflow_instances u) (user_skills u)
  (project_user_skills u) (deleted_project_ids u).
Definition set_definitions f b d us ps u := UnitOfWork (workflows u) (checkpoints u) (memory u)
  (artifacts u) (approvals u) (events u) (provider_operations u) (local_projects u)
  (local_project_expected u) (manifests u) (keyed u) f b d us ps (deleted_project_ids u).

Definition on_workflows {A} : M exn WorkflowRepository.t A -> M exn unit_of_work A :=
  zoom workflows set_workflows.
Definition on_checkpoints {A} : M exn CheckpointRepository.t A -> M exn unit_of_work A :=
  zoom checkpoints set_checkpoints.
Definition on_memory {A} : M exn MemoryRepository.t A -> M exn unit_of_work A := zoom memory set_memory.
Definition on_artifacts {A} : M exn ArtifactRepository.t A -> M exn unit_of_work A :=
  zoom artifacts set_artifact_table.
Definition on_approvals {A} : M exn ApprovalRepository.t A -> M exn unit_of_work A :=
  zoom approvals set_approval_table.
Definition on_events {A} : M exn ExecutionEventStore.t A -> M exn unit_of_work A := zoom events set_events.
Definition on_operations {A} : M exn ProviderOperationRepository.t A -> M exn unit_of_work A :=
  zoom provider_operations set_operations.
Definition on_manifests {A} : M exn (ManifestRepository.t entity entity) A -> M exn unit_of_work A :=
  zoom manifests set_manifest_tables.

(** *** [InMemoryLocalProjectRepository] *)

Definition add_local_project (project_id : string) (project : entity) : M exn unit_of_work unit :=
  u ← get_state;
  raise_if (Dict.has project_id (Plain.records (local_projects u)))
    (Exn DuplicateEntityError ("Local project " +:+ project_id +:+ " already exists")) ;;
  modify (set_local_project_table (Plain.put project_id project (local_projects u))).

Definition save_local_project (project_id : string) (project : entity) : M exn unit_of_work unit :=
  u ← get_state;
  raise_if (negb (Dict.has project_id (Plain.records (local_projects u))))
    (Exn PyValueError "Local project does not exist") ;;
  modify (set_local_project_table (Plain.put project_id project (local_projects u))).

(** *** [InMemoryWorkflowFoundationRepository] *)

Definition set_foundation (s : foundation_store) (d : dict okey entity) (u : unit_of_work) :
    foundation_store -> dict okey entity :=
  fun s' => if decide (s' = s) then d else foundation u s'.

(** [_add_immutable] *)
Definition add_immutable (s : foundation_store) (key : okey) (value : entity) (label : string) :
    M exn unit_of_work unit :=
  u ← get_state;
  match Dict.get key (foundation u s) with
  | Some existing =>
      raise_if (negb (bool_decide (existing = value)) && negb (same_content existing value))
        (Exn PyRuntimeError (label +:+ " immutable-content conflict"))
  | None =>
      modify (set_definitions (set_foundation s (Dict.set key value (foundation u s)) u) true
                (dirty_project_workflow_instances u) (user_skills u) (project_user_skills u))
  end.

(** *** [InMemoryUserSkillRepository] *)

Definition add_skill (skill_id : okey) (value : entity) : M exn unit_of_work unit :=
  modify (fun u => set_definitions (foundation u) (foundation_dirty u)
    (dirty_project_workflow_instances u) (Dict.set skill_id value (user_skills u))
    (project_user_skills u) u).

Definition delete_skill (skill_id : okey) : M exn unit_of_work unit :=
  modify (fun u => set_definitions (foundation u) (foundation_dirty u)
    (dirty_project_workflow_instances u)
    (Dict.select (fun k _ => negb (bool_decide (k = skill_id))) (user_skills u))
    (project_user_skills u) u).

Definition add_project_skill (key : okey) (value : entity) : M exn unit_of_work unit :=
  modify (fun u => set_definitions (foundation u) (foundation_dirty u)
    (dirty_project_workflow_instances u) (user_skills u)
    (Dict.set key value (project_user_skills u)) u).

Definition delete_project_skill (key : okey) : M exn unit_of_work unit :=
  modify (fun u => set_definitions (foundation u) (foundation_dirty u)
    (dirty_project_workflow_instances u) (user_skills u)
    (Dict.select (fun k _ => negb (bool_decide (k = key))) (project_user_skills u)) u).

(** ** [commit] and [rollback] *)

(** A unit of work with the database it is bound to. *)
Record session := Session { shared : database; uow : unit_of_work }.

Definition on_database {A} : M exn database A -> M exn session A :=
  zoom shared (fun db s => Session db (uow s)).
Definition on_unit {A} : M exn unit_of_work A -> M exn session A :=
  zoom uow (fun u s => Session (shared s) u).

Definition refresh_unit : M exn session unit :=
  modify (fun s => Session (shared s) (refresh (shared s))).

Definition commit_deletions (deleted : list string) : M exn session unit :=
  for_each (fun p => s ← get_state;
                     raise_if (negb (Dict.has p (db_projects (shared s))))
                       (Exn StaleStateError "Project was deleted concurrently")) deleted ;;
  for_each (fun p => on_database (modify (purge_database p))) deleted ;;
  refresh_unit.

Definition commit : M exn session unit :=
  s ← get_state;
  match deleted_project_ids (uow s) with
  | [] =>
      lift_result (validate_concurrency (shared s) (uow s)) ;;
      on_database (publish_changes (uow s)) ;;
      refresh_unit
  | deleted => commit_deletions deleted
  end.

Definition rollback : M exn session unit := refresh_unit.
End unit_of_work.
