(* ===== verification/UnitOfWorkFacts.v ===== *)
(** What the unit of work guarantees: the discipline every repository operation
    keeps, and the databases a commit produces. *)
From S2P Require Import Prelude Errors Text Float Value Sha256 Lifecycle Workflow Checkpoint Coordinator Approval Events Records Provider Budget BudgetFacts Dict Tables TableFacts Repositories RepositoryFacts Manifests UnitOfWork.
Local Open Scope string_scope.
Local Open Scope list_scope.
Local Open Scope Z_scope.

(** ** Zoomed operations *)

Lemma zoom_inv {S T A} (get : S -> T) (set : T -> S -> S) (m : M exn T A) s r s' :
  zoom get set m s = (r, s') -> exists t', m (get s) = (r, t') /\ s' = set t' s.
Proof. unfold zoom. destruct (m (get s)) as [r0 t0]. intros [= -> <-]. eauto. Qed.

(** ** Executions *)

Record executions_ok (d : dict string WorkflowExecutionRecord.t) : Prop := {
  ex_keys : NoDup (Dict.keys d);
  ex_ids i r : Dict.get i d = Some r -> WorkflowRunRecord.id (WorkflowRepository.run_of r) = i;
  ex_unique i j r r' : Dict.get i d = Some r -> Dict.get j d = Some r' ->
    WorkflowRepository.key_of r = WorkflowRepository.key_of r' -> i = j;
  ex_positive : versions_positive WorkflowRepository.version_of d
}.

Definition execution_key (x : ExecutionState.t) : string * string :=
  (WorkflowRun.project_id (ExecutionState.workflow_run x),
   WorkflowRun.idempotency_key (ExecutionState.workflow_run x)).

Abbreviation run_id_of x := (WorkflowRun.id (ExecutionState.workflow_run x)).

Lemma from_execution_fields x v r : WorkflowExecutionRecord.from_execution x v = Ok r ->
  WorkflowRunRecord.id (WorkflowRepository.run_of r) = run_id_of x /\
  WorkflowRepository.key_of r = execution_key x /\ WorkflowRepository.version_of r = v.
Proof.
  unfold WorkflowExecutionRecord.from_execution. rewrite !bind_Ok. intros (run & Hrun & H).
  apply bind_Ok in H as (a & _ & H). apply bind_Ok in H as (ss & _ & H).
  unfold WorkflowExecutionRecord.post_init in H. apply then_Ok in H as [_ [= <-]].
  unfold WorkflowRunRecord.from_domain, WorkflowRunRecord.post_init in Hrun.
  apply bind_Ok in Hrun as (i & _ & Hrun). apply bind_Ok in Hrun as (o & _ & [= <-]). done.
Qed.

Lemma conflicting_run_None records key run_id :
  WorkflowRepository.conflicting_run records key run_id = None ->
  forall i r, Dict.get i records = Some r -> WorkflowRepository.key_of r = key ->
    WorkflowRunRecord.id (WorkflowRepository.run_of r) = run_id.
Proof.
  unfold WorkflowRepository.conflicting_run. rewrite fmap_None. intros H i r Hi Hk.
  apply elem_values in Hi. destruct (decide (WorkflowRunRecord.id (WorkflowRepository.run_of r) = run_id)) as [|Hne]; [done|].
  match type of H with head (List.filter ?f ?l) = _ =>
    assert (r ∈ List.filter f l) as Hin by (apply elem_List_filter; split; [done|];
      rewrite bool_decide_eq_true_2 by done; by apply negb_true_iff, String.eqb_neq);
    destruct (List.filter f l); [by apply elem_of_nil in Hin|done]
  end.
Qed.

Lemma refuse_conflict_Ok m c : WorkflowRepository.refuse_conflict m c = Ok tt -> c = None.
Proof. by destruct c. Qed.

(** A change of the executions that keeps them well formed. *)
Lemma executions_set d i r : executions_ok d ->
  WorkflowRunRecord.id (WorkflowRepository.run_of r) = i -> 0 < WorkflowRepository.version_of r ->
  (forall j r', j <> i -> Dict.get j d = Some r' ->
     WorkflowRepository.key_of r' <> WorkflowRepository.key_of r) ->
  executions_ok (Dict.set i r d).
Proof.
  intros [Hk Hi Hu Hp] Hid Hpos Hfree. split.
  - by apply keys_set_NoDup.
  - intros j r'. rewrite get_set. case_decide; [by intros [= <-]; subst|apply Hi].
  - intros j j' r1 r2. rewrite !get_set. repeat case_decide; subst; try done.
    + intros [= <-] H2 Hkey. exfalso. by eapply (Hfree j' r2).
    + intros H1 [= <-] Hkey. exfalso. by eapply (Hfree j r1).
    + apply Hu.
  - intros j r'. rewrite get_set. case_decide; [by intros [= <-]|apply Hp].
Qed.

Definition same_key (t : WorkflowRepository.t) (x : ExecutionState.t) : Prop :=
  forall r, Dict.get (run_id_of x) (Versioned.records t) = Some r ->
    WorkflowRepository.key_of r = execution_key x.

Lemma save_execution_ok b t x e r t' :
  staged_ok WorkflowRepository.version_of b t -> executions_ok (Versioned.records t) -> same_key t x ->
  WorkflowRepository.save x e t = (r, t') ->
  staged_ok WorkflowRepository.version_of b t' /\ executions_ok (Versioned.records t') /\
  (NoDup (Versioned.dirty t) -> NoDup (Versioned.dirty t')).
Proof.
  intros Hs He Hsame H. unfold WorkflowRepository.save, mbind, M_bind, get_state, lift_result, mret, M_ret in H.
  destruct (Versioned.next_version _ _ _ _ _ _ _) as [n|err] eqn:Hn; [|by injection H as _ <-].
  destruct (Versioned.stage _ _ _ t) as [s t1] eqn:Hst.
  assert (t' = t1) as -> by (by destruct s; injection H as _ <-). clear H.
  split; [|].
  { eapply stage_ok; [done|done| |done]. intros r0 Hr0. by apply from_execution_fields in Hr0 as (_ & _ & ?). }
  pose proof Hn as Hn'. apply next_version_Ok in Hn' as (_ & Hpos & Hcheck).
  unfold Versioned.stage, mbind, M_bind, modify, lift_result in Hst.
  destruct (WorkflowExecutionRecord.from_execution x n) as [r0|err] eqn:Hr0; injection Hst as _ <-; [|done].
  cbn. split; [|intros Hd; unfold set_add; case_decide; [done|];
    apply NoDup_app; split_and!; [done|set_solver|apply NoDup_singleton]].
  apply from_execution_fields in Hr0 as (Hid & Hkey & Hv). apply executions_set; [done|done| |].
  - rewrite Hv, Hpos. apply next_version_Ok in Hn as (-> & _ & _).
    destruct (Dict.get _ _) as [r1|] eqn:Hr1; cbn; [|lia]. pose proof (ex_positive _ He _ _ Hr1). lia.
  - intros j r' Hj Hr' Hk'. rewrite Hkey in Hk'. apply Hj.
    destruct (Dict.get (run_id_of x) (Versioned.records t)) as [r1|] eqn:Hr1.
    + eapply (ex_unique _ He); [exact Hr'|exact Hr1|]. by rewrite Hk', (Hsame _ Hr1).
    + apply refuse_conflict_Ok in Hcheck. rewrite <- (ex_ids _ He _ _ Hr').
      by eapply conflicting_run_None.
Qed.

(** ** Approvals and provider operations *)

Lemma set_add_NoDup {K} `{EqDecision K} (k : K) s : NoDup s -> NoDup (set_add k s).
Proof.
  intros H. unfold set_add. case_decide; [done|].
  apply NoDup_app. split_and!; [done|set_solver|apply NoDup_singleton].
Qed.

Lemma from_approval_version a v r : ApprovalRecord.from_approval a v = Ok r ->
  ApprovalRecord.persistence_version r = v.
Proof.
  unfold ApprovalRecord.from_approval, ApprovalRecord.post_init. rewrite then_Ok, bind_Ok.
  intros (_ & m & _ & H). apply bind_Ok in H as (m' & _ & [= <-]). done.
Qed.

Lemma save_approval_ok b t a e r t' :
  staged_ok ApprovalRepository.version_of b t ->
  ApprovalRepository.save a e t = (r, t') -> staged_ok ApprovalRepository.version_of b t'.
Proof.
  intros Hs H. unfold ApprovalRepository.save, mbind, M_bind, get_state, lift_result, mret, M_ret in H.
  destruct (Versioned.next_version _ _ _ _ _ _ _) as [n|err] eqn:Hn; [|by injection H as _ <-].
  destruct (Versioned.stage _ _ _ t) as [s t1] eqn:Hst.
  assert (t' = t1) as -> by (by destruct s; injection H as _ <-).
  eapply stage_ok; [done|done| |done]. apply from_approval_version.
Qed.

Lemma save_operation_ok b t op e r t' :
  staged_ok ProviderOperationRepository.version_of b t -> OperationFacts.table_ok t ->
  ProviderOperationRepository.save op e t = (r, t') ->
  staged_ok ProviderOperationRepository.version_of b t' /\ OperationFacts.table_ok t' /\
  (NoDup (Versioned.dirty t) -> NoDup (Versioned.dirty t')).
Proof.
  intros Hs Ht H. destruct (OperationFacts.save_cases t op e Ht) as [[err He]|(n & Hn & Hsave)].
  { rewrite He in H. by injection H as _ <-. }
  pose proof H as Htab. rewrite Hsave in H. injection H as <- <-. split_and!.
  - eapply (stage_ok _ _ _ _ _ _ _ _ _ (ProviderOperationRecord.post_init (ProviderOperationRecord.mk op n)));
      [done|exact Hn| |].
    + intros r. unfold ProviderOperationRecord.post_init. by rewrite then_Ok; intros (_ & [= <-]).
    + unfold Versioned.stage, mbind, M_bind, modify, lift_result, ProviderOperationRecord.post_init. cbn.
      by rewrite (proj2 (Z.leb_gt _ _) (OperationFacts.next_positive _ _ _ _ _ _ Ht Hn)).
  - destruct e as [e|].
    + by destruct (OperationFacts.save_known_ok _ _ _ _ _ Ht Htab) as (_ & _ & _ & _ & ?).
    + by destruct (OperationFacts.save_new_ok _ _ _ _ Ht Htab) as (_ & _ & ?).
  - cbn. apply set_add_NoDup.
Qed.

(** ** Streams *)

(** The entries of a stream are numbered from one. *)
Definition numbered {A} (number : A -> Z) (l : list A) : Prop :=
  forall i x, l !! i = Some x -> number x = Z.of_nat i + 1.

Lemma numbered_snoc {A} (number : A -> Z) l x :
  numbered number l -> number x = Z.of_nat (length l) + 1 -> numbered number (l ++ [x]).
Proof.
  intros Hl Hx i y H. apply lookup_app_Some in H as [H|[Hi H]]; [by apply Hl|].
  apply list_lookup_singleton_Some in H as [H <-]. rewrite Hx. lia.
Qed.

Lemma append_numbered {K A} `{EqDecision K} (number : A -> Z) (t : Stream.t K A) k a :
  (forall k, numbered number (Stream.at_key k (Stream.entries t))) ->
  number a = Z.of_nat (length (Stream.at_key k (Stream.entries t))) + 1 ->
  forall k', numbered number (Stream.at_key k' (Stream.entries (Stream.append k a t))).
Proof.
  intros H Ha k'. rewrite append_at. case_decide; [|by rewrite app_nil_r]. subst k'.
  by apply numbered_snoc.
Qed.

(** A repository operation on a stream either leaves it or appends the next entry. *)
Definition appends {K A B} `{EqDecision K} (number : A -> Z) (m : M exn (Stream.t K A) B) : Prop :=
  forall t r t', m t = (r, t') ->
    t' = t \/ exists k a, t' = Stream.append k a t /\
                number a = Z.of_nat (length (Stream.at_key k (Stream.entries t))) + 1.

Lemma save_checkpoint_appends c boundary step attempt :
  appends CheckpointRecord.record_sequence (CheckpointRepository.save c boundary step attempt).
Proof.
  intros t r t' H. unfold CheckpointRepository.save, mbind, M_bind, get_state, lift_result, modify, mret, M_ret in H.
  destruct (Checkpoint.verify_integrity c); [|injection H as _ <-; by left].
  destruct (CheckpointRepository.find_record _ _ _ _ _) as [[known|]|]; [injection H as _ <-; by left| |injection H as _ <-; by left].
  destruct (CheckpointRecord.post_init _) as [rec|] eqn:Hrec; injection H as _ <-; [|by left].
  right. eexists _, _. split; [done|]. unfold CheckpointRecord.post_init in Hrec.
  rewrite !then_Ok in Hrec. by destruct Hrec as (_ & _ & [= <-]).
Qed.

Lemma update_context_appends p w updates producer refs :
  appends MemoryRevision.revision (MemoryRepository.update_context p w updates producer refs).
Proof.
  intros t r t' H. unfold MemoryRepository.update_context, mbind, M_bind, get_state, lift_result, modify, mret, M_ret in H.
  destruct (freeze_json_mapping _ updates) as [m|]; [|injection H as _ <-; by left].
  destruct (MemoryRevision.post_init _) as [rec|] eqn:Hrec; injection H as _ <-; [|by left].
  right. eexists _, _. split; [done|]. unfold MemoryRevision.post_init in Hrec.
  rewrite !then_Ok, bind_Ok in Hrec. by destruct Hrec as (_ & _ & c & _ & [= <-]).
Qed.

Lemma initialize_context_appends p w context producer refs :
  appends MemoryRevision.revision (MemoryRepository.initialize_context p w context producer refs).
Proof.
  intros t r t' H. unfold MemoryRepository.initialize_context, mbind at 1, M_bind at 1, gets in H.
  destruct (last _) as [known|]; [injection H as _ <-; by left|]. by eapply update_context_appends.
Qed.

Lemma append_event_appends e n : appends ExecutionEvent.sequence (ExecutionEventStore.append e n).
Proof.
  intros t r t' H. unfold ExecutionEventStore.append, mbind, M_bind, gets, raise_if, raise, modify, mret, M_ret in H.
  destruct (ExecutionEventStore.get _ t) as [known|].
  { destruct (negb _); injection H as _ <-; by left. }
  destruct (negb (n =? _)) eqn:H1; [injection H as _ <-; by left|].
  destruct (negb (ExecutionEvent.sequence e =? _)) eqn:H2; injection H as _ <-; [by left|].
  right. eexists _, _. split; [done|]. by reflect_bools.
Qed.

Lemma appends_ok {K A B} `{EqDecision K} number (m : M exn (Stream.t K A) B) b t r t' :
  appends number m -> stream_ok b t -> (forall k, numbered number (Stream.at_key k (Stream.entries t))) ->
  m t = (r, t') ->
  stream_ok b t' /\ (forall k, numbered number (Stream.at_key k (Stream.entries t'))) /\
  (NoDup (Stream.dirty t) -> NoDup (Stream.dirty t')).
Proof.
  intros Hm Hs Hn H. destruct (Hm _ _ _ H) as [->|(k & a & -> & Ha)]; [done|]. split_and!.
  - by apply append_ok.
  - by apply append_numbered.
  - cbn. apply set_add_NoDup.
Qed.
