(* ===== verification/CommitFacts.v ===== *)
(** A commit: what the checks establish, what publication writes, and that the
    committed state stays well formed and only grows older. *)
From S2P Require Import Prelude Errors Text Float Value Sha256 Lifecycle Workflow Checkpoint Coordinator Approval Events Records Provider Budget BudgetFacts Dict Tables TableFacts Repositories RepositoryFacts Manifests UnitOfWork UnitOfWorkFacts.
Local Open Scope string_scope.
Local Open Scope list_scope.
Local Open Scope Z_scope.

Lemma each_ok_elem {A} (f : A -> res unit) l : each_ok f l = Ok tt -> forall x, x ∈ l -> f x = Ok tt.
Proof. by rewrite each_ok_Ok. Qed.

Lemma fold_ok_elem {A B} (f : B -> A -> res B) acc l b x :
  fold_ok f acc l = Ok b -> x ∈ l -> exists acc1 acc2, f acc1 x = Ok acc2.
Proof.
  revert acc. induction l as [|y l IH]; intros acc H Hin; [by apply elem_of_nil in Hin|].
  cbn in H. apply bind_Ok in H as (acc' & Hy & H). apply elem_of_cons in Hin as [->|Hin]; eauto.
Qed.

(** ** Events: identifiers stay unique *)

Definition event_ids (l : list ExecutionEvent.t) : list string := ExecutionEvent.id <$> l.

#[export] Instance event_ids_proper : Proper ((≡ₚ) ==> (≡ₚ)) event_ids.
Proof. intros l l' H. unfold event_ids. by rewrite H. Qed.

(** The events a unit of work added to a stream. *)
Definition new_events (t : ExecutionEventStore.t) (scope : string * string) : list ExecutionEvent.t :=
  drop (Z.to_nat (Stream.expected_count t scope)) (Stream.at_key scope (Stream.entries t)).

Lemma claim_events acc l acc' : fold_ok claim_event acc l = Ok acc' ->
  NoDup acc -> NoDup acc' /\ acc' ≡ₚ event_ids l ++ acc.
Proof.
  revert acc. induction l as [|e l IH]; intros acc H Hn; cbn in H.
  - injection H as <-. done.
  - apply bind_Ok in H as (a & Ha & H). unfold claim_event in Ha.
    rewrite then_Ok, fail_if_Ok, bool_decide_eq_false in Ha. destruct Ha as [Hnew [= <-]].
    apply IH in H as [H1 H2]; [|by constructor]. split; [done|].
    rewrite H2. cbn. by rewrite <- Permutation_middle.
Qed.

Lemma check_events_claims {EN : Entities} db t acc l acc' :
  fold_ok (check_events db t) acc l = Ok acc' -> NoDup acc ->
  NoDup acc' /\ acc' ≡ₚ event_ids (concat (new_events t <$> l)) ++ acc.
Proof.
  revert acc. induction l as [|k l IH]; intros acc H Hn; cbn in H; [by injection H as <-|].
  apply bind_Ok in H as (a & Ha & H). unfold check_events in Ha. rewrite then_Ok, bind_Ok in Ha.
  destruct Ha as (_ & staged & Hst & Ha). apply item_Ok in Hst.
  apply claim_events in Ha as [Hna Hpa]; [|done]. apply IH in H as [H1 H2]; [|done].
  split; [done|]. rewrite H2, Hpa. cbn. unfold event_ids, new_events at 2, Stream.at_key at 1.
  rewrite Hst, fmap_app. cbn. solve_Permutation.
Qed.

Lemma concat_values_set {K A} `{EqDecision K} (k : K) s (d : dict K (list A)) :
  concat (Dict.values (Dict.set k (Stream.at_key k d ++ s) d)) ≡ₚ concat (Dict.values d) ++ s.
Proof.
  unfold Stream.at_key. induction d as [|[k0 l] d IH]; cbn; [by rewrite app_nil_r|].
  case_decide; cbn; [subst|unfold Dict.values in IH; rewrite IH]; solve_Permutation.
Qed.

Lemma at_key_set {K A} `{EqDecision K} (k k' : K) l (d : dict K (list A)) : k <> k' ->
  Stream.at_key k' (Dict.set k l d) = Stream.at_key k' d.
Proof. intros. unfold Stream.at_key. by rewrite get_set_ne. Qed.

(** Publication appends the new events of the dirty streams. *)
Lemma published_events t dirty d : NoDup dirty ->
  (forall k, k ∈ dirty -> Dict.get k (Stream.entries t) <> None /\
     Stream.at_key k (Stream.entries t) = Stream.at_key k d ++ new_events t k) ->
  ExecutionEventStore.all_events (published (Stream.entries t) dirty d)
    ≡ₚ ExecutionEventStore.all_events d ++ concat (new_events t <$> dirty).
Proof.
  unfold published. revert d. induction dirty as [|k dirty IH]; intros d Hnd H; [by cbn; rewrite app_nil_r|].
  rewrite fmap_cons. cbn [foldl concat].
  apply NoDup_cons in Hnd as [Hk Hnd]. destruct (H k) as [Hs He]; [by left|].
  destruct (Dict.get k (Stream.entries t)) as [l|] eqn:Hl; [|done].
  assert (l = Stream.at_key k d ++ new_events t k) as ->.
  { rewrite <- He. unfold Stream.at_key. by rewrite Hl. }
  rewrite IH; [|done|].
  - unfold ExecutionEventStore.all_events. rewrite concat_values_set. solve_Permutation.
  - intros k' Hk'. destruct (H k') as [Hs' He']; [by right|]. split; [done|].
    rewrite He', at_key_set; [done|]. intros ->. done.
Qed.

(** ** Provider operations: idempotency keys stay unique *)

Definition record_key (r : ProviderOperationRecord.t) : string * string :=
  operation_key (ProviderOperationRecord.operation r).

Definition keys_unique (d : dict string ProviderOperationRecord.t) : Prop :=
  forall i j r r', Dict.get i d = Some r -> Dict.get j d = Some r' -> record_key r = record_key r' -> i = j.

Lemma owners_spec (d : dict string ProviderOperationRecord.t) :
  NoDup (Dict.keys d) -> keys_unique d ->
  forall i r, Dict.get i d = Some r ->
    Dict.get (record_key r)
      (foldl (fun owners kv => Dict.set (operation_key (ProviderOperationRecord.operation kv.2)) kv.1 owners)
         [] d) = Some i.
Proof.
  intros Hn Hu i r Hi. apply get_elem in Hi.
  assert (forall j r', (j, r') ∈ d -> record_key r' = record_key r -> j = i) as Hj.
  { intros j r' Hj. apply elem_get in Hj, Hi; [|done..]. by apply Hu. }
  clear Hn Hu. induction d as [|[k v] d IH] using rev_ind; [by apply elem_of_nil in Hi|].
  rewrite foldl_snoc. cbn. rewrite get_set. case_decide as Hk.
  - f_equal. apply (Hj k v); [|done]. apply elem_of_app. right. by left.
  - apply IH.
    + apply elem_of_app in Hi as [Hi|Hi]; [done|]. apply list_elem_of_singleton in Hi. simplify_eq.
    + intros j r' Hin. apply Hj. apply elem_of_app. by left.
Qed.

Section owners.
Context {EN : Entities} (db : database) (t : ProviderOperationRepository.t).

Lemma check_operations_owners owners l owners' :
  fold_ok (check_operation db t) owners l = Ok owners' ->
  (forall i r, Dict.get i (db_provider_operations db) = Some r -> Dict.get (record_key r) owners = Some i) ->
  (forall i r, i ∈ l -> Dict.get i (Versioned.records t) = Some r -> Dict.get (record_key r) owners' = Some i) /\
  (forall i r, Dict.get i (db_provider_operations db) = Some r -> Dict.get (record_key r) owners' = Some i).
Proof.
  intros H Hdb.
  refine (fold_ok_inv (check_operation db t) (fun owners done =>
    (forall i r, i ∈ done -> Dict.get i (Versioned.records t) = Some r -> Dict.get (record_key r) owners = Some i) /\
    (forall i r, Dict.get i (db_provider_operations db) = Some r -> Dict.get (record_key r) owners = Some i))
    owners l owners' _ _ H); [split; [set_solver|done]|].
  clear. intros acc ok x acc' [H1 H2] H. unfold check_operation in H. rewrite then_Ok, bind_Ok in H.
  destruct H as (_ & r & Hr & H). cbn zeta in H. apply item_Ok in Hr. rewrite then_Ok in H.
  destruct H as [Hown [= <-]]. fold (record_key r) in *.
  assert (forall i, Dict.get (record_key r) acc = Some i -> i = x) as Hx.
  { intros i Hi. rewrite Hi in Hown. apply fail_if_Ok in Hown. by reflect_bools. }
  split; intros i r' Hi.
  - intros Hr'. rewrite get_set. case_decide as Hk.
    + apply elem_of_app in Hi as [Hi|Hi]; [|by apply list_elem_of_singleton in Hi as ->].
      f_equal. symmetry. apply Hx. rewrite Hk. by apply H1.
    + apply elem_of_app in Hi as [Hi|Hi]; [by apply H1|]. apply list_elem_of_singleton in Hi as ->.
      congruence.
  - rewrite get_set. case_decide as Hk; [|by apply H2]. f_equal. symmetry. apply Hx. rewrite Hk. by apply H2.
Qed.
End owners.

(** ** Publication *)

(** Every dirty key is staged. *)
Definition present {K V} `{EqDecision K} (staged : dict K V) (dirty : list K) : Prop :=
  forall k, k ∈ dirty -> Dict.get k staged <> None.

Lemma present_put {K R} `{EqDecision K} k (r : R) (t : Plain.t K R) :
  present (Plain.records t) (Plain.dirty t) ->
  present (Plain.records (Plain.put k r t)) (Plain.dirty (Plain.put k r t)).
Proof.
  intros H k'. cbn. rewrite elem_set_add, get_set. intros Hin. case_decide; [done|].
  apply H. naive_solver.
Qed.

Section commit.
Context {EN : Entities}.

(** The tables modelled record by record. *)
Definition core (db : database) :=
  (db_executions db, db_checkpoint_records db, db_memory_revisions db, db_artifacts db,
   db_approvals db, db_execution_events db, db_provider_operations db).

Record consistent (u : unit_of_work) : Prop := {
  c_workflows : present (Versioned.records (workflows u)) (Versioned.dirty (workflows u));
  c_checkpoints : present (Stream.entries (checkpoints u)) (Stream.dirty (checkpoints u));
  c_memory : present (Stream.entries (memory u)) (Stream.dirty (memory u));
  c_artifacts : present (Plain.records (artifacts u)) (Plain.dirty (artifacts u));
  c_approvals : present (Versioned.records (approvals u)) (Versioned.dirty (approvals u));
  c_events : present (Stream.entries (events u)) (Stream.dirty (events u));
  c_operations : present (Versioned.records (provider_operations u)) (Versioned.dirty (provider_operations u));
  c_local_projects : present (Plain.records (local_projects u)) (Plain.dirty (local_projects u));
  c_projects : present (Plain.records (ManifestRepository.projects (manifests u)))
                 (Plain.dirty (ManifestRepository.projects (manifests u)));
  c_manifests : present (Plain.records (ManifestRepository.desired_manifests (manifests u)))
                  (Plain.dirty (ManifestRepository.desired_manifests (manifests u)));
  c_entries : present (Plain.records (ManifestRepository.manifest_entries (manifests u)))
                (Plain.dirty (ManifestRepository.manifest_entries (manifests u)));
  c_keyed s : present (Plain.records (keyed u s)) (Plain.dirty (keyed u s))
}.

(** What a publication makes of the core. *)
Definition published_core (u : unit_of_work) (db : database) :=
  (published (Versioned.records (workflows u)) (Versioned.dirty (workflows u)) (db_executions db),
   published (Stream.entries (checkpoints u)) (Stream.dirty (checkpoints u)) (db_checkpoint_records db),
   published (Stream.entries (memory u)) (Stream.dirty (memory u)) (db_memory_revisions db),
   published (Plain.records (artifacts u)) (Plain.dirty (artifacts u)) (db_artifacts db),
   published (Versioned.records (approvals u)) (Versioned.dirty (approvals u)) (db_approvals db),
   published (Stream.entries (events u)) (Stream.dirty (events u)) (db_execution_events db),
   published (Versioned.records (provider_operations u)) (Versioned.dirty (provider_operations u))
     (db_provider_operations db)).

Lemma then_run {S A B} (m : M exn S A) (f : M exn S B) s a s' :
  m s = (Ok a, s') -> (m ;; f) s = f s'.
Proof. intros H. unfold mbind, M_bind. by rewrite H. Qed.

(** A chain of writes none of which changes the core. *)
Definition frames (m : M exn database unit) : Prop :=
  forall c db, core db = c -> exists db', m db = (Ok tt, db') /\ core db' = c.

Lemma frames_then m m' : frames m -> frames m' -> frames (m ;; m').
Proof.
  intros H H' c db Hc. destruct (H _ _ Hc) as (db1 & H1 & Hc1). destruct (H' _ _ Hc1) as (db2 & H2 & Hc2).
  exists db2. split; [|done]. by rewrite (then_run _ _ _ _ _ H1).
Qed.

Lemma frames_each {A} (f : A -> M exn database unit) l : (forall x, frames (f x)) -> frames (for_each f l).
Proof. intros H. induction l as [|x l IH]; [by intros c db Hc; exists db|]. by apply frames_then. Qed.

Lemma frames_publish {K V} `{EqDecision K} table (set : dict K V -> database -> database) staged dirty :
  (forall x db, core (set x db) = core db) -> present staged dirty ->
  frames (publish_to table set staged dirty).
Proof.
  intros Hset Hp c db Hc. apply (publish_to_frame table set staged dirty db (fun db => core db = c)); [|done..].
  intros x db' <-. apply Hset.
Qed.

Lemma frames_publish_keyed u s : consistent u -> frames (publish_keyed u s).
Proof. intros Hc. apply frames_publish; [done|apply Hc]. Qed.

Lemma frames_publish_manifests u : consistent u -> frames (publish_manifests (manifests u)).
Proof.
  intros Hc. apply frames_then; [|apply frames_then]; apply frames_publish; first [done|apply Hc].
Qed.

Lemma frames_replace u : frames (replace_whole_tables u).
Proof. intros c db Hc. eexists. by split. Qed.

Lemma publish_changes_Ok u db : consistent u ->
  exists db', publish_changes u db = (Ok tt, db') /\ core db' = published_core u db.
Proof.
  intros Hc. unfold publish_changes.
  do 7 (erewrite then_run; [|apply publish_to_Ok; [reflexivity|reflexivity|by intros []|apply Hc]]).
  match goal with |- exists db', ?m ?d = _ /\ _ => assert (frames m) as Hf end.
  { do 2 (apply frames_then; [by apply frames_publish_keyed|]).
    apply frames_then; [apply frames_publish; [done|apply Hc]|].
    apply frames_then; [apply frames_replace|]. apply frames_then; [by apply frames_publish_manifests|].
    apply frames_each. intros s. by apply frames_publish_keyed. }
  by apply Hf.
Qed.

(** *** Every table *)

(** The table holds what is staged of the dirty keys, and is as it was elsewhere. *)
Definition staged_over {K V} `{EqDecision K} (staged : dict K V) (dirty : list K) (d d' : dict K V) : Prop :=
  forall k, Dict.get k d' = if decide (k ∈ dirty) then Dict.get k staged else Dict.get k d.

(** What a commit of the unit of work [u] makes of the database [db]: the
    tables published key by key, the tables of definitions, replaced when one
    of them is dirty, and the two tables of user skills, always replaced. *)
Record publication (u : unit_of_work) (db db' : database) : Prop := {
  p_executions : staged_over (Versioned.records (workflows u)) (Versioned.dirty (workflows u))
    (db_executions db) (db_executions db');
  p_checkpoints : staged_over (Stream.entries (checkpoints u)) (Stream.dirty (checkpoints u))
    (db_checkpoint_records db) (db_checkpoint_records db');
  p_memory : staged_over (Stream.entries (memory u)) (Stream.dirty (memory u))
    (db_memory_revisions db) (db_memory_revisions db');
  p_artifacts : staged_over (Plain.records (artifacts u)) (Plain.dirty (artifacts u))
    (db_artifacts db) (db_artifacts db');
  p_approvals : staged_over (Versioned.records (approvals u)) (Versioned.dirty (approvals u))
    (db_approvals db) (db_approvals db');
  p_events : staged_over (Stream.entries (events u)) (Stream.dirty (events u))
    (db_execution_events db) (db_execution_events db');
  p_operations : staged_over (Versioned.records (provider_operations u)) (Versioned.dirty (provider_operations u))
    (db_provider_operations db) (db_provider_operations db');
  p_local_projects : staged_over (Plain.records (local_projects u)) (Plain.dirty (local_projects u))
    (db_local_projects db) (db_local_projects db');
  p_projects : staged_over (Plain.records (ManifestRepository.projects (manifests u)))
    (Plain.dirty (ManifestRepository.projects (manifests u))) (db_projects db) (db_projects db');
  p_manifests : staged_over (Plain.records (ManifestRepository.desired_manifests (manifests u)))
    (Plain.dirty (ManifestRepository.desired_manifests (manifests u))) (db_desired_manifests db) (db_desired_manifests db');
  p_entries : staged_over (Plain.records (ManifestRepository.manifest_entries (manifests u)))
    (Plain.dirty (ManifestRepository.manifest_entries (manifests u))) (db_manifest_entries db) (db_manifest_entries db');
  p_keyed s : staged_over (Plain.records (keyed u s)) (Plain.dirty (keyed u s)) (db_keyed db s) (db_keyed db' s);
  p_foundation : db_foundation db' =
    if foundation_dirty u || negb (bool_decide (dirty_project_workflow_instances u = []))
    then foundation u else db_foundation db;
  p_user_skills : db_user_skills db' = user_skills u;
  p_project_user_skills : db_project_user_skills db' = project_user_skills u
}.

(** The tables published after the core. *)
Definition outside_core (db : database) :=
  (db_local_projects db, db_projects db, db_desired_manifests db, db_manifest_entries db, db_keyed db,
   db_foundation db, db_user_skills db, db_project_user_skills db).

(** All but the tables that are published after the core, key by key. *)
Definition outside_keyed (db : database) :=
  (core db, db_local_projects db, db_projects db, db_desired_manifests db, db_manifest_entries db,
   db_foundation db, db_user_skills db, db_project_user_skills db).

Lemma publish_set_keyed s staged dirty db : present staged dirty ->
  exists db', publish_to (fun db => db_keyed db s) (set_keyed s) staged dirty db = (Ok tt, db') /\
    outside_keyed db' = outside_keyed db /\
    forall s', db_keyed db' s' = if decide (s' = s) then published staged dirty (db_keyed db s) else db_keyed db s'.
Proof.
  revert db. unfold publish_to. induction dirty as [|k dirty IH]; intros db Hp.
  { exists db. split; [done|]. split; [done|]. intros s'. by case_decide; subst. }
  cbn [for_each published foldl]. destruct (Dict.get k staged) as [v|] eqn:Hv; [|by destruct (Hp k); [left|]].
  unfold mbind at 1, M_bind at 1, mbind at 1, M_bind at 1, lift_result.
  rewrite (proj2 (item_Ok _ _ _) Hv). unfold modify at 1.
  destruct (IH (set_keyed s (Dict.set k v (db_keyed db s)) db)) as (db' & E & Ho & Hk); [by intros k' ?; apply Hp; right|].
  exists db'. split; [exact E|]. split; [exact Ho|]. intros s'. rewrite Hk. cbn [set_keyed db_keyed].
  by repeat case_decide.
Qed.

(** [m] publishes the tables [l] of [u]. *)
Definition publishes_keyed (u : unit_of_work) (m : M exn database unit) (l : list keyed_store) : Prop :=
  forall db, exists db', m db = (Ok tt, db') /\ outside_keyed db' = outside_keyed db /\
    forall s, db_keyed db' s =
      if decide (s ∈ l) then published (Plain.records (keyed u s)) (Plain.dirty (keyed u s)) (db_keyed db s)
      else db_keyed db s.

Lemma publish_each_keyed u l : consistent u -> NoDup l -> publishes_keyed u (for_each (publish_keyed u) l) l.
Proof.
  intros Hc. induction l as [|s l IH]; intros Hn db.
  { exists db. split; [done|]. split; [done|]. intros s. by rewrite decide_False by apply not_elem_of_nil. }
  apply NoDup_cons in Hn as [Hs Hn].
  destruct (publish_set_keyed s _ _ db (c_keyed _ Hc s)) as (db1 & E1 & O1 & K1).
  destruct (IH Hn db1) as (db2 & E2 & O2 & K2). exists db2. split.
  { cbn [for_each]. by rewrite (then_run _ _ _ _ _ E1). }
  split; [by rewrite O2|]. intros s'. rewrite K2, K1. destruct (decide (s' = s)) as [->|Hne].
  - by rewrite decide_False, decide_True by (done || by left).
  - destruct (decide (s' ∈ l)); [rewrite decide_True by (by right)|rewrite decide_False by set_solver]; done.
Qed.

Lemma publish_manifests_Ok u db : consistent u ->
  publish_manifests (manifests u) db = (Ok tt, set_manifests
    (published (Plain.records (ManifestRepository.projects (manifests u)))
       (Plain.dirty (ManifestRepository.projects (manifests u))) (db_projects db))
    (published (Plain.records (ManifestRepository.desired_manifests (manifests u)))
       (Plain.dirty (ManifestRepository.desired_manifests (manifests u))) (db_desired_manifests db))
    (published (Plain.records (ManifestRepository.manifest_entries (manifests u)))
       (Plain.dirty (ManifestRepository.manifest_entries (manifests u))) (db_manifest_entries db)) db).
Proof.
  intros Hc. unfold publish_manifests.
  do 2 (erewrite then_run; [|apply publish_to_Ok; [reflexivity|reflexivity|by intros []|apply Hc]]).
  rewrite publish_to_Ok; [reflexivity|reflexivity|reflexivity|by intros []|apply Hc].
Qed.

Lemma staged_over_published {K V} `{EqDecision K} (staged : dict K V) dirty d d' :
  present staged dirty -> d' = published staged dirty d -> staged_over staged dirty d d'.
Proof. intros Hp -> k. by apply get_published. Qed.

Lemma publish_changes_all u db : consistent u ->
  exists db', publish_changes u db = (Ok tt, db') /\ publication u db db'.
Proof.
  intros Hc. unfold publish_changes.
  do 7 (erewrite then_run; [|apply publish_to_Ok; [reflexivity|reflexivity|by intros []|apply Hc]]).
  match goal with |- exists db', (_ ;; _) ?d = _ /\ _ => set (db7 := d) end.
  destruct (publish_set_keyed progress_reports _ _ db7 (c_keyed _ Hc progress_reports)) as (db8 & E8 & O8 & K8).
  rewrite (then_run _ _ _ _ _ E8).
  destruct (publish_set_keyed progress_projections _ _ db8 (c_keyed _ Hc progress_projections)) as (db9 & E9 & O9 & K9).
  rewrite (then_run _ _ _ _ _ E9).
  erewrite then_run; [|apply publish_to_Ok; [reflexivity|reflexivity|by intros []|apply Hc]].
  erewrite then_run; [|reflexivity]. erewrite then_run; [|by apply publish_manifests_Ok].
  match goal with |- exists db', for_each _ ?l ?d = _ /\ _ =>
    destruct (publish_each_keyed u l Hc ltac:(vm_compute; repeat constructor; set_solver) d) as (db' & E & O & K) end.
  exists db'. split; [exact E|].
  assert (Hcore : core db7 = published_core u db) by done.
  assert (Hrest : outside_core db7 = outside_core db) by done. clearbody db7.
  unfold outside_keyed, core, published_core, outside_core in *. cbn -[published] in O, K. split.
  12:{ intros s. apply staged_over_published; [apply Hc|]. injection Hrest as _ _ _ _ Hk _ _ _.
       rewrite K, !K9, !K8, Hk. by destruct s. }
  all: try (apply staged_over_published; [apply Hc|]); try congruence.
  destruct (_ || _); congruence.
Qed.

(** ** The committed state *)

Record database_ok (db : database) : Prop := {
  d_executions : executions_ok (db_executions db);
  d_approvals_keys : NoDup (Dict.keys (db_approvals db));
  d_approvals_positive : versions_positive ApprovalRepository.version_of (db_approvals db);
  d_operations : OperationFacts.table_ok (Versioned.refresh (db_provider_operations db));
  d_checkpoints k : numbered CheckpointRecord.record_sequence (Stream.at_key k (db_checkpoint_records db));
  d_memory k : numbered MemoryRevision.revision (Stream.at_key k (db_memory_revisions db));
  d_events k : numbered ExecutionEvent.sequence (Stream.at_key k (db_execution_events db));
  d_event_ids : NoDup (committed_event_ids db)
}.

(** [db] is what the committed state [b] has become. *)
Record db_older (b db : database) : Prop := {
  o_executions : older WorkflowRepository.version_of (db_executions b) (db_executions db);
  o_approvals : older ApprovalRepository.version_of (db_approvals b) (db_approvals db);
  o_operations : older ProviderOperationRepository.version_of
                   (db_provider_operations b) (db_provider_operations db);
  o_checkpoints : extends (db_checkpoint_records b) (db_checkpoint_records db);
  o_memory : extends (db_memory_revisions b) (db_memory_revisions db);
  o_events : extends (db_execution_events b) (db_execution_events db)
}.

#[export] Instance db_older_preorder : PreOrder db_older.
Proof.
  split; [by intros b; split|].
  intros a b c [] []. split; etrans; done.
Qed.

(** A unit of work refreshed from [b], with what it staged since. *)
Record unit_staged (b : database) (u : unit_of_work) : Prop := {
  u_consistent : consistent u;
  u_workflows : staged_ok WorkflowRepository.version_of (db_executions b) (workflows u);
  u_executions : executions_ok (Versioned.records (workflows u));
  u_approvals : staged_ok ApprovalRepository.version_of (db_approvals b) (approvals u);
  u_operations : staged_ok ProviderOperationRepository.version_of
                   (db_provider_operations b) (provider_operations u);
  u_operation_table : OperationFacts.table_ok (provider_operations u);
  u_checkpoints : stream_ok (db_checkpoint_records b) (checkpoints u);
  u_memory : stream_ok (db_memory_revisions b) (memory u);
  u_events : stream_ok (db_execution_events b) (events u);
  u_numbered_checkpoints k : numbered CheckpointRecord.record_sequence
                               (Stream.at_key k (Stream.entries (checkpoints u)));
  u_numbered_memory k : numbered MemoryRevision.revision (Stream.at_key k (Stream.entries (memory u)));
  u_numbered_events k : numbered ExecutionEvent.sequence (Stream.at_key k (Stream.entries (events u)));
  u_event_scopes : NoDup (Stream.dirty (events u));
  u_not_deleting : deleted_project_ids u = []
}.

Lemma operations_ok_keys db : OperationFacts.table_ok (Versioned.refresh (db_provider_operations db)) ->
  keys_unique (db_provider_operations db).
Proof.
  intros H i j r r' Hi Hj Hk. eapply (OperationFacts.records_unique _ H i j r r' Hi Hj).
  injection Hk as H1 H2. done.
Qed.

Lemma refresh_staged db : database_ok db -> unit_staged db (refresh db).
Proof.
  intros []. split; cbn; try done.
  - split; cbn; intros; set_solver.
  - apply refresh_staged_ok; apply d_executions0.
  - by apply refresh_staged_ok.
  - apply refresh_staged_ok; apply d_operations0.
  - apply refresh_stream_ok.
  - apply refresh_stream_ok.
  - apply refresh_stream_ok.
  - constructor.
Qed.

(** What the checks of a commit establish: nothing the unit of work writes
    has changed since its snapshot, and no identifier is taken. *)
Record unchanged (b db : database) (u : unit_of_work) : Prop := {
  v_executions k : k ∈ Versioned.dirty (workflows u) ->
    Dict.get k (db_executions db) = Dict.get k (db_executions b) /\
    forall r i r', Dict.get k (Versioned.records (workflows u)) = Some r ->
      Dict.get i (db_executions db) = Some r' ->
      WorkflowRepository.key_of r' = WorkflowRepository.key_of r ->
      WorkflowRunRecord.id (WorkflowRepository.run_of r') = k;
  v_approvals k : k ∈ Versioned.dirty (approvals u) ->
    Dict.get k (db_approvals db) = Dict.get k (db_approvals b);
  v_operations k : k ∈ Versioned.dirty (provider_operations u) ->
    Dict.get k (db_provider_operations db) = Dict.get k (db_provider_operations b);
  v_checkpoints k : k ∈ Stream.dirty (checkpoints u) ->
    Stream.at_key k (db_checkpoint_records db) = Stream.at_key k (db_checkpoint_records b);
  v_memory k : k ∈ Stream.dirty (memory u) ->
    Stream.at_key k (db_memory_revisions db) = Stream.at_key k (db_memory_revisions b);
  v_events k : k ∈ Stream.dirty (events u) ->
    Stream.at_key k (db_execution_events db) = Stream.at_key k (db_execution_events b);
  v_event_ids : NoDup (event_ids (concat (new_events (events u) <$> Stream.dirty (events u)))
                         ++ committed_event_ids db);
  v_owners : exists owners, forall i r,
    ((i ∈ Versioned.dirty (provider_operations u) /\
        Dict.get i (Versioned.records (provider_operations u)) = Some r) \/
     Dict.get i (db_provider_operations db) = Some r) -> Dict.get (record_key r) owners = Some i
}.

Lemma check_workflow_Ok b db t k : staged_ok WorkflowRepository.version_of (db_executions b) t ->
  db_older b db -> k ∈ Versioned.dirty t -> check_workflow db t k = Ok tt ->
  Dict.get k (db_executions db) = Dict.get k (db_executions b) /\
  forall r i r', Dict.get k (Versioned.records t) = Some r -> Dict.get i (db_executions db) = Some r' ->
    WorkflowRepository.key_of r' = WorkflowRepository.key_of r ->
    WorkflowRunRecord.id (WorkflowRepository.run_of r') = k.
Proof.
  intros Hs Ho Hk H. unfold check_workflow in H. rewrite then_Ok, bind_Ok in H.
  destruct H as (H1 & r & Hr & H2). apply item_Ok in Hr. split.
  - eapply check_version_Ok; [done|apply Ho|done..].
  - intros r0 i r' Hr0 Hi Hkey. apply refuse_conflict_Ok in H2. rewrite Hr in Hr0. injection Hr0 as ->.
    by eapply conflicting_run_None.
Qed.

Lemma validate_unchanged b db u : unit_staged b u -> database_ok db -> db_older b db ->
  validate_concurrency db u = Ok tt -> unchanged b db u.
Proof.
  intros Hu Hdb Ho H. unfold validate_concurrency in H. rewrite !then_Ok in H.
  destruct H as (Hw & Hc & Hm & _ & Ha & H). apply bind_Ok in H as (ids & He & H).
  apply bind_Ok in H as (owners & Hop & _). split.
  - intros k Hk. eapply check_workflow_Ok; [apply Hu|done|done|]. by eapply each_ok_elem.
  - intros k Hk. eapply check_version_Ok; [apply Hu|apply Ho|done|]. by eapply each_ok_elem.
  - intros k Hk. destruct (fold_ok_elem _ _ _ _ _ Hop Hk) as (a1 & a2 & H1).
    unfold check_operation in H1. apply then_Ok in H1 as [H1 _].
    eapply check_version_Ok; [apply Hu|apply Ho|done|exact H1].
  - intros k Hk. eapply check_count_Ok; [apply Hu|apply Ho|]. by eapply each_ok_elem in Hc.
  - intros k Hk. eapply check_count_Ok; [apply Hu|apply Ho|]. by eapply each_ok_elem in Hm.
  - intros k Hk. destruct (fold_ok_elem _ _ _ _ _ He Hk) as (a1 & a2 & H1).
    unfold check_events in H1. apply then_Ok in H1 as [H1 _].
    eapply check_count_Ok; [apply Hu|apply Ho|exact H1].
  - apply check_events_claims in He as [Hn Hp]; [|apply Hdb]. by rewrite <- Hp.
  - exists owners. destruct (check_operations_owners db (provider_operations u) _ _ _ Hop) as [H1 H2].
    { apply owners_spec; [apply Hdb|apply operations_ok_keys, Hdb]. }
    intros i r [[Hi Hr]|Hr]; [by apply H1|by apply H2].
Qed.

(** ** The database after a commit *)

Lemma published_positive {R} (version : R -> Z) staged dirty d :
  present staged dirty -> versions_positive version staged -> versions_positive version d ->
  versions_positive version (published staged dirty d).
Proof. intros Hp Hs Hd k r. rewrite get_published by done. case_decide; [apply Hs|apply Hd]. Qed.

Lemma published_executions b db u : unit_staged b u -> database_ok db -> unchanged b db u ->
  executions_ok (published (Versioned.records (workflows u)) (Versioned.dirty (workflows u)) (db_executions db)).
Proof.
  intros Hu Hdb Hv. pose proof (d_executions _ Hdb) as Hd. pose proof (u_executions _ _ Hu) as He.
  pose proof (c_workflows _ (u_consistent _ _ Hu)) as Hp. split.
  - apply published_keys, Hd.
  - intros i r. rewrite get_published by done. case_decide; [apply He|apply Hd].
  - intros i j r r'. rewrite !get_published by done. intros Hi Hj Hk. do 2 case_decide.
    + by eapply (ex_unique _ He).
    + rewrite <- (ex_ids _ Hd _ _ Hi).
      eapply (proj2 (v_executions _ _ _ Hv j ltac:(done))); [exact Hj|exact Hi|done].
    + rewrite <- (ex_ids _ Hd _ _ Hj). symmetry.
      eapply (proj2 (v_executions _ _ _ Hv i ltac:(done))); [exact Hi|exact Hj|done].
    + by eapply (ex_unique _ Hd).
  - apply published_positive; [done|apply He|apply Hd].
Qed.

Lemma published_operations b db u : unit_staged b u -> database_ok db -> unchanged b db u ->
  OperationFacts.table_ok (Versioned.refresh
    (published (Versioned.records (provider_operations u)) (Versioned.dirty (provider_operations u))
       (db_provider_operations db))).
Proof.
  intros Hu Hdb Hv. pose proof (d_operations _ Hdb) as Hd. pose proof (u_operation_table _ _ Hu) as He.
  pose proof (c_operations _ (u_consistent _ _ Hu)) as Hp. split; cbn.
  - apply published_keys, Hd.
  - intros i r. rewrite get_published by done. case_decide; [apply He|apply Hd].
  - intros i j r r' Hi Hj [H1 H2]. destruct (v_owners _ _ _ Hv) as (owners & Hown).
    assert (record_key r = record_key r') as Hk by (unfold record_key, operation_key; f_equal; by symmetry).
    assert (forall k x, Dict.get k (published (Versioned.records (provider_operations u))
              (Versioned.dirty (provider_operations u)) (db_provider_operations db)) = Some x ->
            Dict.get (record_key x) owners = Some k) as Hall.
    { intros k x. rewrite get_published by done. case_decide; intros Hx; apply Hown; auto. }
    apply Hall in Hi, Hj. congruence.
  - apply published_positive; [done|apply He|apply Hd].
Qed.

Lemma at_published {K A} `{EqDecision K} (t : Stream.t K A) d k :
  present (Stream.entries t) (Stream.dirty t) ->
  Stream.at_key k (published (Stream.entries t) (Stream.dirty t) d) =
    if decide (k ∈ Stream.dirty t) then Stream.at_key k (Stream.entries t) else Stream.at_key k d.
Proof. intros H. unfold Stream.at_key. rewrite get_published by done. by case_decide. Qed.

Lemma published_event_ids b db u : unit_staged b u -> database_ok db -> unchanged b db u ->
  NoDup (event_ids (ExecutionEventStore.all_events
    (published (Stream.entries (events u)) (Stream.dirty (events u)) (db_execution_events db)))).
Proof.
  intros Hu Hdb Hv. rewrite published_events.
  - unfold event_ids. rewrite fmap_app, Permutation_app_comm. apply (v_event_ids _ _ _ Hv).
  - apply Hu.
  - intros k Hk. split; [by apply (c_events _ (u_consistent _ _ Hu))|].
    rewrite (v_events _ _ _ Hv k Hk). unfold new_events.
    rewrite (counts_base _ _ (u_events _ _ Hu)), Nat2Z.id.
    destruct (entries_extend _ _ (u_events _ _ Hu) k) as [s Hs]. by rewrite Hs, drop_app_length.
Qed.

Lemma published_older b db u db' : unit_staged b u -> unchanged b db u ->
  core db' = published_core u db -> db_older db db'.
Proof.
  intros Hu Hv [= H1 H2 H3 H4 H5 H6 H7]. pose proof (u_consistent _ _ Hu) as Hc. split.
  - eapply publish_older; [apply Hu|intros k Hk; by apply (v_executions _ _ _ Hv)|].
    intros k. rewrite H1. apply get_published, Hc.
  - eapply publish_older; [apply Hu|apply Hv|]. intros k. rewrite H5. apply get_published, Hc.
  - eapply publish_older; [apply Hu|apply Hv|]. intros k. rewrite H7. apply get_published, Hc.
  - eapply publish_extends; [apply Hu|apply Hv|]. intros k. rewrite H2. apply get_published, Hc.
  - eapply publish_extends; [apply Hu|apply Hv|]. intros k. rewrite H3. apply get_published, Hc.
  - eapply publish_extends; [apply Hu|apply Hv|]. intros k. rewrite H6. apply get_published, Hc.
Qed.

Lemma published_ok b db u db' : unit_staged b u -> database_ok db -> unchanged b db u ->
  core db' = published_core u db -> database_ok db'.
Proof.
  intros Hu Hdb Hv [= H1 H2 H3 H4 H5 H6 H7]. pose proof (u_consistent _ _ Hu) as Hc. split.
  - rewrite H1. by eapply published_executions.
  - rewrite H5. apply published_keys, Hdb.
  - rewrite H5. apply published_positive; [apply Hc|apply (staged_positive _ _ _ (u_approvals _ _ Hu))|apply Hdb].
  - rewrite H7. by eapply published_operations.
  - intros k. rewrite H2, at_published by apply Hc. case_decide; [apply Hu|apply Hdb].
  - intros k. rewrite H3, at_published by apply Hc. case_decide; [apply Hu|apply Hdb].
  - intros k. rewrite H6, at_published by apply Hc. case_decide; [apply Hu|apply Hdb].
  - unfold committed_event_ids. rewrite H6. by eapply published_event_ids.
Qed.

(** A commit either raises and changes nothing, or finds what it writes as it
    was in the snapshot and publishes it. *)
Lemma commit_cases b db u : unit_staged b u -> database_ok db -> db_older b db ->
  (exists e, commit (Session db u) = (Err e, Session db u)) \/
  (exists db', commit (Session db u) = (Ok tt, Session db' (refresh db')) /\
     validate_concurrency db u = Ok tt /\ unchanged b db u /\
     core db' = published_core u db /\ database_ok db' /\ db_older db db').
Proof.
  intros Hu Hdb Ho. unfold commit, mbind, M_bind, get_state, lift_result. cbn.
  rewrite (u_not_deleting _ _ Hu).
  destruct (validate_concurrency db u) as [[]|e] eqn:Hv; [|left; eauto]. right.
  pose proof (validate_unchanged _ _ _ Hu Hdb Ho Hv) as Hun.
  destruct (publish_changes_Ok u db (u_consistent _ _ Hu)) as (db' & Hp & Hcore).
  exists db'. unfold on_database, zoom. cbn. rewrite Hp. cbn. split_and!; try done.
  - by eapply published_ok.
  - by eapply published_older.
Qed.

Lemma commit_publishes db u r s : consistent u -> deleted_project_ids u = [] ->
  commit (Session db u) = (r, s) -> r = Ok tt -> publication u db (shared s).
Proof.
  intros Hc Hd H ->. unfold commit, mbind, M_bind, get_state, lift_result in H. cbn in H. rewrite Hd in H.
  destruct (validate_concurrency db u) as [[]|e]; [|done].
  destruct (publish_changes_all u db Hc) as (db' & Hp & Hpub). unfold on_database, zoom in H. cbn in H.
  rewrite Hp in H. by injection H as <-.
Qed.
End commit.
