(* ===== verification/Isolation.v ===== *)
(** Units of work that run side by side on one database: every interleaving
    keeps the committed state well formed, publishes each unit of work at once
    or not at all, and behaves as snapshot isolation in which the first of two
    conflicting commits wins. *)
From S2P Require Import Prelude Errors Text Float Value Sha256 Lifecycle Workflow Checkpoint Coordinator Approval Events Records Provider Budget BudgetFacts Dict Tables TableFacts Repositories RepositoryFacts Manifests UnitOfWork UnitOfWorkFacts CommitFacts.
Local Open Scope string_scope.
Local Open Scope list_scope.
Local Open Scope Z_scope.

Section isolation.
Context {EN : Entities}.

(** ** Steps *)

(** One repository call of a unit of work, whether it returns or raises. The
    identity of a stored execution is not changed by saving it again. *)
Inductive local_step (u : unit_of_work) : unit_of_work -> Prop :=
  | save_execution x e r u' : same_key (workflows u) x ->
      on_workflows (WorkflowRepository.save x e) u = (r, u') -> local_step u u'
  | save_checkpoint c boundary step attempt r u' :
      on_checkpoints (CheckpointRepository.save c boundary step attempt) u = (r, u') -> local_step u u'
  | initialize_context p w context producer refs r u' :
      on_memory (MemoryRepository.initialize_context p w context producer refs) u = (r, u') -> local_step u u'
  | update_context p w updates producer refs r u' :
      on_memory (MemoryRepository.update_context p w updates producer refs) u = (r, u') -> local_step u u'
  | save_artifact a r u' : on_artifacts (ArtifactRepository.save a) u = (r, u') -> local_step u u'
  | save_approval a e r u' : on_approvals (ApprovalRepository.save a e) u = (r, u') -> local_step u u'
  | append_event e n r u' : on_events (ExecutionEventStore.append e n) u = (r, u') -> local_step u u'
  | save_operation op e r u' :
      on_operations (ProviderOperationRepository.save op e) u = (r, u') -> local_step u u'
  | new_local_project p e r u' : add_local_project p e u = (r, u') -> local_step u u'
  | known_local_project p e r u' : save_local_project p e u = (r, u') -> local_step u u'
  | new_project p r u' : on_manifests (ManifestRepository.add_project p) u = (r, u') -> local_step u u'
  | new_manifest p n m r u' :
      on_manifests (ManifestRepository.add_manifest p n m) u = (r, u') -> local_step u u'
  | new_entries l r u' :
      on_manifests (ManifestRepository.add_manifest_entries l) u = (r, u') -> local_step u u'
  | swap_revision p n at_ r u' :
      on_manifests (ManifestRepository.compare_and_swap_revision p n at_) u = (r, u') -> local_step u u'
  | put_keyed s k e : local_step u (set_keyed_table s (Plain.put k e (keyed u s)) u)
  | new_definition s k e label r u' : add_immutable s k e label u = (r, u') -> local_step u u'
  | new_skill k e r u' : add_skill k e u = (r, u') -> local_step u u'
  | remove_skill k r u' : delete_skill k u = (r, u') -> local_step u u'
  | new_project_skill k e r u' : add_project_skill k e u = (r, u') -> local_step u u'
  | remove_project_skill k r u' : delete_project_skill k u = (r, u') -> local_step u u'.

(** The database and the units of work open on it. *)
Record world := World { committed : database; units : list unit_of_work }.

Inductive world_step (w : world) : world -> Prop :=
  | step_open : world_step w (World (committed w) (units w ++ [refresh (committed w)]))
  | step_local i u u' : units w !! i = Some u -> local_step u u' ->
      world_step w (World (committed w) (<[i := u']> (units w)))
  | step_commit i u r s : units w !! i = Some u -> commit (Session (committed w) u) = (r, s) ->
      world_step w (World (shared s) (<[i := uow s]> (units w)))
  | step_rollback i u r s : units w !! i = Some u -> rollback (Session (committed w) u) = (r, s) ->
      world_step w (World (shared s) (<[i := uow s]> (units w))).

Definition initial : world := World empty_database [].

(** ** Local steps keep the discipline *)

Lemma unit_frame b u u' : unit_staged b u -> consistent u' ->
  workflows u' = workflows u -> checkpoints u' = checkpoints u -> memory u' = memory u ->
  approvals u' = approvals u -> events u' = events u -> provider_operations u' = provider_operations u ->
  deleted_project_ids u' = deleted_project_ids u -> unit_staged b u'.
Proof.
  intros [] Hc E1 E2 E3 E4 E5 E6 E7. split; rewrite ?E1, ?E2, ?E3, ?E4, ?E5, ?E6, ?E7; done.
Qed.

Lemma staged_present {R} (version : R -> Z) b (t : Versioned.t R) : staged_ok version b t ->
  present (Versioned.records t) (Versioned.dirty t).
Proof. intros H k Hk. destruct (dirty_records _ _ _ H k Hk) as (r & -> & _). done. Qed.

Lemma stream_present {K A} `{EqDecision K} b (t : Stream.t K A) : stream_ok b t ->
  present (Stream.entries t) (Stream.dirty t).
Proof. intros H k Hk. by apply (dirty_entries _ _ H). Qed.

Lemma save_artifact_present a t r t' : present (Plain.records t) (Plain.dirty t) ->
  ArtifactRepository.save a t = (r, t') -> present (Plain.records t') (Plain.dirty t').
Proof.
  intros Hp H. unfold ArtifactRepository.save, mbind, M_bind, get_state, raise_if, raise, put_state, mret, M_ret in H.
  destruct (Dict.get _ (Plain.records t)).
  - destruct (negb _); by injection H as _ <-.
  - injection H as _ <-. by apply present_put.
Qed.

(** The tables of the manifest repository. *)
Definition manifests_present (m : ManifestRepository.t entity entity) : Prop :=
  present (Plain.records (ManifestRepository.projects m)) (Plain.dirty (ManifestRepository.projects m)) /\
  present (Plain.records (ManifestRepository.desired_manifests m))
    (Plain.dirty (ManifestRepository.desired_manifests m)) /\
  present (Plain.records (ManifestRepository.manifest_entries m))
    (Plain.dirty (ManifestRepository.manifest_entries m)).

Definition keeps_present {A} (m : M exn (ManifestRepository.t entity entity) A) : Prop :=
  forall t r t', manifests_present t -> m t = (r, t') -> manifests_present t'.

Ltac unmonad H := unfold mbind, M_bind, get_state, gets, raise_if, raise, modify, lift_result, mret, M_ret in H.

Lemma add_project_present p : keeps_present (ManifestRepository.add_project p).
Proof.
  intros t r t' (H1 & H2 & H3) H. unfold ManifestRepository.add_project in H. unmonad H.
  destruct (Dict.has _ _); injection H as _ <-; [done|]. split_and!; [by apply present_put|done..].
Qed.

Lemma add_manifest_present p n m : keeps_present (ManifestRepository.add_manifest p n m).
Proof.
  intros t r t' (H1 & H2 & H3) H. unfold ManifestRepository.add_manifest in H. unmonad H.
  destruct (Dict.has _ _); injection H as _ <-; [done|]. split_and!; [done|by apply present_put|done].
Qed.

Lemma add_entries_present l : keeps_present (ManifestRepository.add_manifest_entries l).
Proof.
  unfold ManifestRepository.add_manifest_entries. induction l as [|e l IH]; intros t r t' Hp H; cbn in H.
  - by injection H as _ <-.
  - unmonad H. destruct (Dict.has _ _); [by injection H as _ <-|]. eapply IH, H.
    destruct Hp as (H1 & H2 & H3). split_and!; [done|done|by apply present_put].
Qed.

Lemma swap_present p n at_ : keeps_present (ManifestRepository.compare_and_swap_revision p n at_).
Proof.
  intros t r t' (H1 & H2 & H3) H. unfold ManifestRepository.compare_and_swap_revision in H. unmonad H.
  destruct (ManifestRepository.get_project p t) as [project|]; [|by injection H as _ <-].
  destruct (negb _); [by injection H as _ <-|].
  destruct (CloudProject.at_revision _ _ _); injection H as _ <-; [|done].
  split_and!; [by apply present_put|done..].
Qed.

Lemma manifest_step_ok {A} (m : M exn (ManifestRepository.t entity entity) A) b u r u' :
  unit_staged b u -> keeps_present m -> on_manifests m u = (r, u') -> unit_staged b u'.
Proof.
  intros Hu Hm H. apply zoom_inv in H as (t' & H & ->). pose proof (u_consistent _ _ Hu) as Hc.
  destruct (Hm _ _ _ (conj (c_projects _ Hc) (conj (c_manifests _ Hc) (c_entries _ Hc))) H) as (H1 & H2 & H3).
  eapply unit_frame; try done. destruct Hc. by split.
Qed.

Lemma local_project_step_ok b u p e : unit_staged b u ->
  unit_staged b (set_local_project_table (Plain.put p e (local_projects u)) u).
Proof.
  intros Hu. eapply unit_frame; try done. destruct (u_consistent _ _ Hu). split; try done.
  by apply present_put.
Qed.

Lemma definitions_step_ok b u f bb d us ps : unit_staged b u ->
  unit_staged b (set_definitions f bb d us ps u).
Proof. intros Hu. eapply unit_frame; try done. destruct (u_consistent _ _ Hu). by split. Qed.

Lemma local_step_ok b u u' : unit_staged b u -> local_step u u' -> unit_staged b u'.
Proof.
  intros Hu H. pose proof (u_consistent _ _ Hu) as Hc. destruct H as [x e r u' Hk H|c bd st at_ r u' H|p w c pr rf r u' H
    |p w c pr rf r u' H|a r u' H|a e r u' H|e n r u' H|op e r u' H|p e r u' H|p e r u' H|p r u' H|p n m r u' H
    |l r u' H|p n at_ r u' H|s k e|s k e label r u' H|k e r u' H|k r u' H|k e r u' H|k r u' H].
  - apply zoom_inv in H as (t' & H & ->). destruct Hu as [? Hw He].
    destruct (save_execution_ok _ _ _ _ _ _ Hw He Hk H) as (H1 & H2 & _).
    split; try done. destruct Hc. split; try done. by eapply staged_present.
  - apply zoom_inv in H as (t' & H & ->). destruct Hu.
    destruct (appends_ok _ _ _ _ _ _ (save_checkpoint_appends c bd st at_) u_checkpoints u_numbered_checkpoints H) as (H1 & H2 & _).
    split; try done. destruct Hc. split; try done. by eapply stream_present.
  - apply zoom_inv in H as (t' & H & ->). destruct Hu.
    destruct (appends_ok _ _ _ _ _ _ (initialize_context_appends p w c pr rf) u_memory u_numbered_memory H) as (H1 & H2 & _).
    split; try done. destruct Hc. split; try done. by eapply stream_present.
  - apply zoom_inv in H as (t' & H & ->). destruct Hu.
    destruct (appends_ok _ _ _ _ _ _ (update_context_appends p w c pr rf) u_memory u_numbered_memory H) as (H1 & H2 & _).
    split; try done. destruct Hc. split; try done. by eapply stream_present.
  - apply zoom_inv in H as (t' & H & ->). eapply unit_frame; try done. destruct Hc. split; try done.
    by eapply save_artifact_present.
  - apply zoom_inv in H as (t' & H & ->). destruct Hu. pose proof (save_approval_ok _ _ _ _ _ _ u_approvals H).
    split; try done. destruct Hc. split; try done. by eapply staged_present.
  - apply zoom_inv in H as (t' & H & ->). destruct Hu.
    destruct (appends_ok _ _ _ _ _ _ (append_event_appends e n) u_events u_numbered_events H) as (H1 & H2 & H3).
    split; try done; [|by apply H3]. destruct Hc. split; try done. by eapply stream_present.
  - apply zoom_inv in H as (t' & H & ->). destruct Hu.
    destruct (save_operation_ok _ _ _ _ _ _ u_operations u_operation_table H) as (H1 & H2 & _).
    split; try done. destruct Hc. split; try done. by eapply staged_present.
  - unfold add_local_project in H. unmonad H. destruct (Dict.has _ _); injection H as _ <-; [done|].
    by apply local_project_step_ok.
  - unfold save_local_project in H. unmonad H. destruct (negb _); injection H as _ <-; [done|].
    by apply local_project_step_ok.
  - eapply manifest_step_ok; [done|apply add_project_present|done].
  - eapply manifest_step_ok; [done|apply add_manifest_present|done].
  - eapply manifest_step_ok; [done|apply add_entries_present|done].
  - eapply manifest_step_ok; [done|apply swap_present|done].
  - eapply unit_frame; try done. destruct Hc. split; try done. intros s'. cbn. case_decide; [|done].
    by apply present_put.
  - unfold add_immutable in H. unmonad H. destruct (Dict.get _ _).
    + destruct (negb _ && _); by injection H as _ <-.
    + injection H as _ <-. by apply definitions_step_ok.
  - injection H as _ <-. by apply definitions_step_ok.
  - injection H as _ <-. by apply definitions_step_ok.
  - injection H as _ <-. by apply definitions_step_ok.
  - injection H as _ <-. by apply definitions_step_ok.
Qed.

(** ** The invariant of a world *)

Definition world_ok (w : world) : Prop :=
  database_ok (committed w) /\
  forall i u, units w !! i = Some u -> exists b, unit_staged b u /\ db_older b (committed w).

Lemma empty_ok : database_ok empty_database.
Proof.
  assert (forall A (f : A -> Z), numbered f []) as Hn by (intros A f i x H; by rewrite lookup_nil in H).
  split; cbn; try apply NoDup_nil_2; try (intros; apply Hn); try done.
  - split; cbn; try apply NoDup_nil_2; done.
  - split; cbn; try apply NoDup_nil_2; done.
Qed.

Lemma initial_ok : world_ok initial.
Proof. split; [apply empty_ok|]. intros i u H. by destruct i. Qed.

Lemma refreshed_ok db : database_ok db -> exists b, unit_staged b (refresh db) /\ db_older b db.
Proof. intros H. exists db. split; [by apply refresh_staged|done]. Qed.

Lemma units_insert_ok db (us : list unit_of_work) (i : nat) u' :
  (forall (j : nat) u, us !! j = Some u -> exists b, unit_staged b u /\ db_older b db) ->
  (exists b, unit_staged b u' /\ db_older b db) ->
  forall (j : nat) u, <[i := u']> us !! j = Some u -> exists b, unit_staged b u /\ db_older b db.
Proof.
  intros Hus Hu' j u H. destruct (decide (i = j)) as [->|Hne].
  - apply list_lookup_insert_Some in H as [(_ & <- & _)|[? _]]; [done|congruence].
  - rewrite list_lookup_insert_ne in H by done. by eapply Hus.
Qed.

Lemma world_step_ok w w' : world_ok w -> world_step w w' ->
  world_ok w' /\ db_older (committed w) (committed w').
Proof.
  intros [Hdb Hus] H. destruct H as [|i u u' Hi H|i u r s Hi H|i u r s Hi H]; cbn.
  - split; [|done]. split; [done|]. cbn. intros i u H.
    apply lookup_app_Some in H as [H|[_ H]]; [by eapply Hus|].
    apply list_lookup_singleton_Some in H as [_ <-]. by apply refreshed_ok.
  - split; [|done]. split; [done|]. cbn. destruct (Hus _ _ Hi) as (b & Hb & Ho).
    apply units_insert_ok; [done|]. exists b. split; [by eapply local_step_ok|done].
  - destruct (Hus _ _ Hi) as (b & Hb & Ho).
    destruct (commit_cases _ _ _ Hb Hdb Ho) as [[e He]|(db' & Hc & _ & _ & _ & Hok & Hold)].
    + rewrite He in H. injection H as _ <-. cbn. rewrite list_insert_id by done. done.
    + rewrite Hc in H. injection H as _ <-. cbn. split; [|done]. split; [done|]. cbn.
      apply units_insert_ok; [|by apply refreshed_ok]. intros j u' Hj.
      destruct (Hus _ _ Hj) as (b' & Hb' & Ho'). exists b'. split; [done|]. by etrans.
  - injection H as _ <-. cbn. split; [|done]. split; [done|]. cbn.
    apply units_insert_ok; [done|by apply refreshed_ok].
Qed.

Lemma worlds_ok w w' : world_ok w -> rtc world_step w w' -> world_ok w' /\ db_older (committed w) (committed w').
Proof.
  intros Hw H. induction H as [w|w w1 w2 H1 _ IH]; [done|].
  destruct (world_step_ok _ _ Hw H1) as [Hw1 Ho1]. destruct (IH Hw1) as [Hw2 Ho2].
  split; [done|]. by etrans.
Qed.

Definition reachable (w : world) : Prop := rtc world_step initial w.

Lemma reachable_ok w : reachable w -> world_ok w.
Proof. intros H. by apply (worlds_ok _ _ initial_ok H). Qed.

(** ** Properties *)

(** C19: a commit is atomic: in every world that units of work reach side by
    side, none of which deletes a project (for that commit see Deletion.v), a
    commit that raises leaves the database and the unit of work as they
    were; one that returns has published every change the unit of work staged
    and nothing else.  Table by table, [publication] says what that is: the
    tables of executions, checkpoints, memory, artifacts, approvals, events,
    provider operations, local projects, projects, manifests and their entries
    and the keyed tables hold the staged records of exactly the dirty keys; the
    tables of definitions are replaced by the staged ones when one of them is
    dirty; and the two tables of user skills are always replaced as a whole by
    what the unit of work holds.  The unit of work is then refreshed from the
    result. *)
Theorem commit_atomic w i u r s :
  reachable w -> units w !! i = Some u -> commit (Session (committed w) u) = (r, s) ->
  match r with
  | Err _ => s = Session (committed w) u
  | Ok _ =>
      publication u (committed w) (shared s) /\ core (shared s) = published_core u (committed w) /\
      uow s = refresh (shared s)
  end.
Proof.
  intros Hr Hi H. destruct (reachable_ok _ Hr) as [Hdb Hus]. destruct (Hus _ _ Hi) as (b & Hb & Ho).
  pose proof (commit_publishes _ _ _ _ (u_consistent _ _ Hb) (u_not_deleting _ _ Hb) H) as Hp.
  destruct (commit_cases _ _ _ Hb Hdb Ho) as [[e He]|(db' & Hc & _ & _ & Hcore & _)].
  - rewrite He in H. by injection H as <- <-.
  - rewrite Hc in H. injection H as <- <-. split; [by apply Hp|done].
Qed.

(** C25: however units of work interleave, as long as no project is deleted, the
    committed database stays well typed: executions and provider operations are
    stored under their own identifiers, no two share an idempotency key of their
    project, versions are positive, the records of every checkpoint, memory and
    event stream are numbered from one without gaps, and no event identifier
    occurs twice. *)
Theorem committed_state_well_formed w : reachable w -> database_ok (committed w).
Proof. intros H. apply (reachable_ok _ H). Qed.

(** C26: committed history is append-only as long as no project is deleted:
    along every further run of repository calls, commits and rollbacks of units
    of work side by side, none of which deletes a project, a committed
    checkpoint, memory or event stream only gains entries at its end, and a
    committed execution, approval or provider operation is either untouched or
    replaced at a strictly greater version.  (The deletion of a project removes
    the streams and records of that project; see Deletion.v.) *)
Theorem committed_history_append_only w w' : reachable w -> rtc world_step w w' ->
  db_older (committed w) (committed w').
Proof. intros Hr H. apply (worlds_ok _ _ (reachable_ok _ Hr) H). Qed.

(** A run in which unit [i] only makes repository calls. *)
Inductive meanwhile (i : nat) (w : world) : world -> Prop :=
  | meanwhile_own u u' : units w !! i = Some u -> local_step u u' ->
      meanwhile i w (World (committed w) (<[i := u']> (units w)))
  | meanwhile_other w' : world_step w w' -> units w' !! i = units w !! i -> meanwhile i w w'.

Lemma meanwhile_step i w w' : meanwhile i w w' -> world_step w w'.
Proof. intros []; [by eapply step_local|done]. Qed.

Lemma meanwhile_ok i b w w' u :
  world_ok w -> rtc (meanwhile i) w w' -> units w !! i = Some u -> unit_staged b u ->
  db_older b (committed w) ->
  world_ok w' /\ db_older b (committed w') /\ forall u', units w' !! i = Some u' -> unit_staged b u'.
Proof.
  intros Hw H. revert u. induction H as [w|w w1 w2 H1 _ IH]; intros u Hi Hu Ho.
  - split_and!; [done|done|]. intros u' Hi'. congruence.
  - destruct (world_step_ok _ _ Hw (meanwhile_step _ _ _ H1)) as [Hw1 Ho1].
    destruct H1 as [v v' Hv Hl|w' Hs Hsame]; cbn in *.
    + assert (v = u) as -> by congruence.
      eapply IH; [done| |by eapply local_step_ok|done]. apply list_lookup_insert_eq.
      by eapply lookup_lt_Some.
    + eapply IH; [done|by rewrite Hsame|done|by etrans].
Qed.

(** What a unit of work writes differs between two databases. *)
Definition conflicts (u : unit_of_work) (b db : database) : Prop :=
  (exists k, k ∈ Versioned.dirty (workflows u) /\ Dict.get k (db_executions db) <> Dict.get k (db_executions b)) \/
  (exists k, k ∈ Versioned.dirty (approvals u) /\ Dict.get k (db_approvals db) <> Dict.get k (db_approvals b)) \/
  (exists k, k ∈ Versioned.dirty (provider_operations u) /\
     Dict.get k (db_provider_operations db) <> Dict.get k (db_provider_operations b)) \/
  (exists k, k ∈ Stream.dirty (checkpoints u) /\
     Stream.at_key k (db_checkpoint_records db) <> Stream.at_key k (db_checkpoint_records b)) \/
  (exists k, k ∈ Stream.dirty (memory u) /\
     Stream.at_key k (db_memory_revisions db) <> Stream.at_key k (db_memory_revisions b)) \/
  (exists k, k ∈ Stream.dirty (events u) /\
     Stream.at_key k (db_execution_events db) <> Stream.at_key k (db_execution_events b)).

(** C18: no update is lost: if, since a unit of work was opened, some other
    commit changed an execution, an approval, a provider operation or a stream
    that the unit of work has staged a change of, then its own commit raises
    and the database keeps what the other commit wrote. *)
Theorem concurrent_update_refused w w' i u :
  reachable w -> units w !! i = Some (refresh (committed w)) -> rtc (meanwhile i) w w' ->
  units w' !! i = Some u -> conflicts u (committed w) (committed w') ->
  exists e, commit (Session (committed w') u) = (Err e, Session (committed w') u).
Proof.
  intros Hr Hi H Hi' Hc. pose proof (reachable_ok _ Hr) as Hw.
  destruct (meanwhile_ok i (committed w) _ _ _ Hw H Hi) as (Hw' & Ho & Hu); [by apply refresh_staged, Hw|done|].
  specialize (Hu _ Hi').
  destruct (commit_cases _ _ _ Hu (proj1 Hw') Ho) as [?|(db' & _ & _ & [] & _)]; [done|]. exfalso.
  destruct Hc as [(k & Hk & Hne)|[(k & Hk & Hne)|[(k & Hk & Hne)|[(k & Hk & Hne)|[(k & Hk & Hne)|(k & Hk & Hne)]]]]];
    apply Hne; auto. by apply v_executions.
Qed.
End isolation.
