(* ===== verification/SnapshotIsolation.v ===== *)
(** The contract of a unit of work as an abstract machine, snapshot isolation
    with first-committer-wins, and the proof that the in-memory unit of work
    implements it on the tables whose changes a commit checks (executions,
    approvals, provider operations and the three kinds of streams): every run of
    units of work on a database in which no project is deleted is, on those
    tables, a run of the machine. *)
From S2P Require Import Prelude Errors Text Float Value Sha256 Lifecycle Workflow Checkpoint Coordinator Approval Events Records Provider Budget BudgetFacts Dict Tables TableFacts Repositories RepositoryFacts Manifests UnitOfWork UnitOfWorkFacts CommitFacts Isolation.
Local Open Scope string_scope.
Local Open Scope list_scope.

(** ** The abstract machine *)

Module SI.
Section machine.
Context {key cell : Type}.

Record transaction := Transaction { snapshot : key -> cell; writes : key -> option cell }.
Record state := State { current : key -> cell; transactions : list transaction }.

Definition begin (c : key -> cell) : transaction := Transaction c (fun _ => None).

(** What the store becomes when the writes are applied. *)
Definition apply_writes (c : key -> cell) (t : transaction) : key -> cell :=
  fun k => default (c k) (writes t k).

Inductive step (a : state) : state -> Prop :=
  | step_begin : step a (State (current a) (transactions a ++ [begin (current a)]))
  | step_write (i : nat) t ws : transactions a !! i = Some t ->
      step a (State (current a) (<[i := Transaction (snapshot t) ws]> (transactions a)))
  | step_commit (i : nat) t : transactions a !! i = Some t ->
      (forall k, writes t k <> None -> current a k = snapshot t k) ->
      step a (State (apply_writes (current a) t)
                (<[i := begin (apply_writes (current a) t)]> (transactions a)))
  | step_abort (i : nat) t : transactions a !! i = Some t ->
      step a (State (current a) (<[i := begin (current a)]> (transactions a))).
End machine.
Arguments transaction : clear implicits.
Arguments state : clear implicits.
End SI.

(** ** The view of a database as cells

    The records and streams that a commit publishes only after it has compared
    their version or length with the snapshot's. *)

Inductive key :=
  | KExecution (id : string) | KApproval (id : string) | KOperation (id : string)
  | KCheckpoints (run_id : string) | KMemory (scope : string * string) | KEvents (scope : string * string).

Inductive cell :=
  | Execution (r : option WorkflowExecutionRecord.t) | Approval (r : option ApprovalRecord.t)
  | Operation (r : option ProviderOperationRecord.t) | Checkpoints (l : list CheckpointRecord.t)
  | Memory (l : list MemoryRevision.t) | Events (l : list ExecutionEvent.t).

Section refinement.
Context {EN : Entities}.

Definition view (db : database) (k : key) : cell :=
  match k with
  | KExecution i => Execution (Dict.get i (db_executions db))
  | KApproval i => Approval (Dict.get i (db_approvals db))
  | KOperation i => Operation (Dict.get i (db_provider_operations db))
  | KCheckpoints i => Checkpoints (Stream.at_key i (db_checkpoint_records db))
  | KMemory i => Memory (Stream.at_key i (db_memory_revisions db))
  | KEvents i => Events (Stream.at_key i (db_execution_events db))
  end.

Definition is_dirty (u : unit_of_work) (k : key) : bool :=
  match k with
  | KExecution i => bool_decide (i ∈ Versioned.dirty (workflows u))
  | KApproval i => bool_decide (i ∈ Versioned.dirty (approvals u))
  | KOperation i => bool_decide (i ∈ Versioned.dirty (provider_operations u))
  | KCheckpoints i => bool_decide (i ∈ Stream.dirty (checkpoints u))
  | KMemory i => bool_decide (i ∈ Stream.dirty (memory u))
  | KEvents i => bool_decide (i ∈ Stream.dirty (events u))
  end.

Definition unit_view (u : unit_of_work) (k : key) : cell :=
  match k with
  | KExecution i => Execution (Dict.get i (Versioned.records (workflows u)))
  | KApproval i => Approval (Dict.get i (Versioned.records (approvals u)))
  | KOperation i => Operation (Dict.get i (Versioned.records (provider_operations u)))
  | KCheckpoints i => Checkpoints (Stream.at_key i (Stream.entries (checkpoints u)))
  | KMemory i => Memory (Stream.at_key i (Stream.entries (memory u)))
  | KEvents i => Events (Stream.at_key i (Stream.entries (events u)))
  end.

(** What a unit of work would publish. *)
Definition staged_writes (u : unit_of_work) (k : key) : option cell :=
  if is_dirty u k then Some (unit_view u k) else None.

(** ** The simulation *)

Definition unit_related (db : database) (u : unit_of_work) (t : SI.transaction key cell) : Prop :=
  exists b, unit_staged b u /\ db_older b db /\
    (forall k, SI.snapshot t k = view b k) /\ (forall k, SI.writes t k = staged_writes u k).

Record related (w : world) (a : SI.state key cell) : Prop := {
  r_database : database_ok (committed w);
  r_current k : SI.current a k = view (committed w) k;
  r_units : Forall2 (unit_related (committed w)) (units w) (SI.transactions a)
}.

Lemma view_published u db db' k : consistent u -> core db' = published_core u db ->
  view db' k = default (view db k) (staged_writes u k).
Proof.
  intros Hc [= H1 H2 H3 H4 H5 H6 H7]. unfold staged_writes.
  destruct k as [i|i|i|i|i|i]; cbn; unfold Stream.at_key; rewrite ?H1, ?H2, ?H3, ?H5, ?H6, ?H7;
    rewrite get_published by apply Hc;
    match goal with |- context [bool_decide (?x ∈ ?l)] => destruct (decide (x ∈ l)) as [Hd|Hd] end;
    by rewrite ?(bool_decide_eq_true_2 _ Hd), ?(bool_decide_eq_false_2 _ Hd).
Qed.

Lemma unchanged_view b db u k : unchanged b db u -> staged_writes u k <> None -> view db k = view b k.
Proof.
  intros Hv. unfold staged_writes. destruct (is_dirty u k) eqn:Hd; [intros _|done].
  destruct k; cbn in *; apply bool_decide_eq_true in Hd; f_equal; by apply Hv.
Qed.

Lemma refresh_related db : database_ok db ->
  forall c, (forall k, c k = view db k) -> unit_related db (refresh db) (SI.begin c).
Proof.
  intros Hdb c Hc. exists db. split_and!; [by apply refresh_staged|done|done|].
  intros k. unfold staged_writes. by destruct k.
Qed.

Lemma unit_related_older db db' u t : db_older db db' -> unit_related db u t -> unit_related db' u t.
Proof. intros Ho (b & H1 & H2 & H3 & H4). exists b. split_and!; [done|by etrans|done..]. Qed.

(** Every step of a world is at most one step of the machine. *)
Lemma simulation w a w' : related w a -> world_step w w' ->
  exists a', rtc SI.step a a' /\ related w' a'.
Proof.
  intros [Hdb Hcur Hus] H. destruct H as [|i u u' Hi H|i u r s Hi H|i u r s Hi H].
  - eexists. split; [apply rtc_once, SI.step_begin|]. split; cbn; [done|done|].
    apply Forall2_app; [done|]. constructor; [|done]. by apply refresh_related.
  - destruct (Forall2_lookup_l _ _ _ _ _ Hus Hi) as (t & Ht & b & Hb & Ho & Hs & Hw).
    eexists. split; [apply rtc_once, (SI.step_write _ i t (staged_writes u')), Ht|].
    split; cbn; [done|done|]. apply Forall2_insert; [done|]. exists b.
    split_and!; [by eapply local_step_ok|done|done|done].
  - destruct (Forall2_lookup_l _ _ _ _ _ Hus Hi) as (t & Ht & b & Hb & Ho & Hs & Hw).
    destruct (commit_cases _ _ _ Hb Hdb Ho) as [[e He]|(db' & Hc & _ & Hun & Hcore & Hok & Hold)].
    + exists a. split; [done|]. rewrite He in H. injection H as _ <-. cbn.
      rewrite list_insert_id by done. by split.
    + rewrite Hc in H. injection H as _ <-. eexists. split; [apply rtc_once, (SI.step_commit _ i t Ht)|].
      * intros k Hk. rewrite Hcur, Hs. eapply unchanged_view; [done|]. by rewrite <- Hw.
      * assert (forall k, SI.apply_writes (SI.current a) t k = view db' k) as Hview.
        { intros k. unfold SI.apply_writes. rewrite Hw, Hcur. symmetry.
          eapply view_published; [apply (u_consistent _ _ Hb)|done]. }
        split; cbn; [done|done|]. apply Forall2_insert.
        -- eapply Forall2_impl; [done|]. intros. by eapply unit_related_older.
        -- by apply refresh_related.
  - destruct (Forall2_lookup_l _ _ _ _ _ Hus Hi) as (t & Ht & _).
    injection H as _ <-. eexists. split; [apply rtc_once, (SI.step_abort _ i t Ht)|].
    split; cbn; [done|done|]. apply Forall2_insert; [done|]. by apply refresh_related.
Qed.

(** C17: on the tables a commit guards by versions and counts (executions,
    approvals, provider operations, and the checkpoint, memory and event
    streams) the unit of work refines snapshot isolation: whatever the
    repository calls, commits and rollbacks of the units of work open on a
    database, as long as none of them deletes a project, there is a run of the
    abstract machine, in which a commit succeeds only if every cell it writes is
    as it was in its snapshot, that has the same cells of those tables committed
    and, for every unit of work, the same writes of them pending.  The other
    tables are not cells of the view: some of them are published without a
    check. *)
Theorem refines_snapshot_isolation w :
  reachable w ->
  exists a, rtc SI.step (SI.State (view empty_database) []) a /\
    (forall k, SI.current a k = view (committed w) k) /\
    Forall2 (fun u t => forall k, SI.writes t k = staged_writes u k) (units w) (SI.transactions a).
Proof.
  intros H. assert (exists a, rtc SI.step (SI.State (view empty_database) []) a /\ related w a) as (a & Ha & Hr).
  { unfold reachable in H. revert w H. refine (rtc_ind_r (fun w => exists a,
      rtc SI.step (SI.State (view empty_database) []) a /\ related w a) initial _ _).
    - eexists. split; [done|]. split; [apply empty_ok|done|constructor].
    - intros w1 w2 _ Hs (a & Ha & Hr). destruct (simulation _ _ _ Hr Hs) as (a' & Hst & Hr').
      exists a'. split; [by etrans|done]. }
  exists a. split_and!; [done|apply Hr|]. eapply Forall2_impl; [apply Hr|].
  by intros u t (b & _ & _ & _ & Hw).
Qed.
End refinement.
