(* ===== verification/Concurrency.v ===== *)
(** Concrete interleavings: the witnesses of the isolation theorems, and two
    races the checks of a commit do not see. *)
From S2P Require Import Prelude Errors Text Float Value Sha256 Lifecycle Workflow Checkpoint Coordinator Approval Events Records Provider Budget BudgetFacts Dict Tables TableFacts Repositories RepositoryFacts Manifests UnitOfWork UnitOfWorkFacts CommitFacts Isolation SnapshotIsolation.
Local Open Scope string_scope.
Local Open Scope list_scope.
Local Open Scope Z_scope.

(** Values of the other tables: an owner and a content. *)
#[export] Instance sample_entities : Entities := {|
  entity := string * string;
  entity_project := fst;
  same_content := fun a b => String.eqb a.2 b.2
|}.

(** ** Steps as functions *)

Definition open_unit (w : world) : world :=
  World (committed w) (units w ++ [refresh (committed w)]).
Definition local {A} (i : nat) (m : M exn unit_of_work A) (w : world) : world :=
  match units w !! i with
  | Some u => World (committed w) (<[i := (m u).2]> (units w))
  | None => w
  end.
Definition commit_unit (i : nat) (w : world) : world :=
  match units w !! i with
  | Some u => let s := (commit (Session (committed w) u)).2 in
              World (shared s) (<[i := uow s]> (units w))
  | None => w
  end.
Definition committed_ok (i : nat) (w : world) : bool :=
  match units w !! i with
  | Some u => is_ok (commit (Session (committed w) u)).1
  | None => false
  end.

Definition some_unit (i : nat) (w : world) : bool :=
  match units w !! i with Some _ => true | None => false end.

(** A call that is a local step wherever it is made. *)
Definition is_call {A} (m : M exn unit_of_work A) : Prop := forall u, local_step u (m u).2.

Lemma event_call e n : is_call (on_events (ExecutionEventStore.append e n)).
Proof. intros u. destruct (on_events _ u) as [r u'] eqn:H. by eapply append_event. Qed.
Lemma operation_call op e : is_call (on_operations (ProviderOperationRepository.save op e)).
Proof. intros u. destruct (on_operations _ u) as [r u'] eqn:H. by eapply save_operation. Qed.
Lemma skill_call k e : is_call (add_skill k e).
Proof. intros u. by eapply new_skill. Qed.

Lemma open_step w : world_step w (open_unit w).
Proof. apply step_open. Qed.

Lemma call_step {A} i (m : M exn unit_of_work A) w : is_call m -> some_unit i w = true -> world_step w (local i m w).
Proof.
  intros Hm. unfold some_unit, local. destruct (units w !! i) as [u|] eqn:Hi; [intros _|done].
  by eapply step_local.
Qed.

Lemma commit_step i w : some_unit i w = true -> world_step w (commit_unit i w).
Proof.
  unfold some_unit, commit_unit. destruct (units w !! i) as [u|] eqn:Hi; [intros _|done].
  destruct (commit _) as [r s] eqn:Hc. by eapply step_commit.
Qed.

Lemma own_call {A} i (m : M exn unit_of_work A) w : is_call m -> some_unit i w = true -> meanwhile i w (local i m w).
Proof.
  intros Hm. unfold some_unit, local. destruct (units w !! i) as [u|] eqn:Hi; [intros _|done].
  by eapply meanwhile_own.
Qed.

(** ** Samples *)

Definition sample_event (id : string) (n : Z) : ExecutionEvent.t :=
  ExecutionEvent.mk id "p" "run" n WORKFLOW_STARTED (EventPayload.mk [] 1) "req" (epoch 0) INFO
    None None None None.

(** One event committed by the first of two units of work, and one staged by
    the second, which was opened before. *)
Definition two_open : world := open_unit (open_unit initial).
Definition first_staged : world :=
  local 0 (on_events (ExecutionEventStore.append (sample_event "e1" 1) 0)) two_open.
Definition both_staged : world :=
  local 1 (on_events (ExecutionEventStore.append (sample_event "e2" 1) 0)) first_staged.
Definition first_committed : world := commit_unit 0 both_staged.

Lemma two_open_reachable : reachable two_open.
Proof. apply (rtc_l _ _ (open_unit initial)); [apply open_step|]. apply rtc_once, open_step. Qed.

Lemma both_staged_reachable : reachable both_staged.
Proof.
  unfold reachable. transitivity two_open; [apply two_open_reachable|]. apply (rtc_l _ _ first_staged).
  - apply call_step; [apply event_call|vm_compute; reflexivity].
  - apply rtc_once, call_step; [apply event_call|vm_compute; reflexivity].
Qed.

Lemma commit_atomic_witness :
  exists u s, units both_staged !! 0%nat = Some u /\
    commit (Session (committed both_staged) u) = (Ok tt, s) /\
    publication u (committed both_staged) (shared s) /\ uow s = refresh (shared s).
Proof.
  destruct (units both_staged !! 0%nat) as [u|] eqn:Hu; [|discriminate].
  destruct (commit (Session (committed both_staged) u)) as [r s] eqn:Hc.
  pose proof (commit_atomic both_staged 0 u r s both_staged_reachable Hu Hc) as H.
  exists u, s. destruct r as [[]|e]; [|exfalso].
  - destruct H as (H1 & _ & H2). exact (conj eq_refl (conj Hc (conj H1 H2))).
  - injection Hu as <-. vm_compute in Hc. discriminate Hc.
Defined.

Lemma committed_state_well_formed_witness :
  reachable both_staged /\ NoDup (committed_event_ids (committed both_staged)).
Proof.
  split; [exact both_staged_reachable|].
  exact (d_event_ids _ (committed_state_well_formed both_staged both_staged_reachable)).
Defined.

Lemma first_committed_reached : rtc world_step both_staged first_committed.
Proof. apply rtc_once, commit_step. vm_compute. reflexivity. Qed.

Lemma committed_history_append_only_witness :
  Stream.at_key ("p", "run") (db_execution_events (committed both_staged)) = [] /\
  extends (db_execution_events (committed both_staged)) (db_execution_events (committed first_committed)).
Proof.
  split; [vm_compute; reflexivity|].
  exact (o_events _ _ (committed_history_append_only both_staged first_committed both_staged_reachable
    first_committed_reached)).
Defined.


Lemma meanwhile_second : rtc (meanwhile 1) two_open first_committed.
Proof.
  apply (rtc_l _ _ first_staged).
  { apply meanwhile_other; [|reflexivity]. apply call_step; [apply event_call|vm_compute; reflexivity]. }
  apply (rtc_l _ _ both_staged).
  { apply own_call; [apply event_call|]. vm_compute. reflexivity. }
  apply rtc_once. apply meanwhile_other; [|reflexivity]. apply commit_step. vm_compute. reflexivity.
Qed.

Lemma concurrent_update_refused_witness :
  exists u e, units first_committed !! 1%nat = Some u /\
    commit (Session (committed first_committed) u) = (Err e, Session (committed first_committed) u).
Proof.
  destruct (units first_committed !! 1%nat) as [u|] eqn:Hu; [|discriminate].
  destruct (concurrent_update_refused two_open first_committed 1 u) as [e He].
  - exact two_open_reachable.
  - reflexivity.
  - exact meanwhile_second.
  - exact Hu.
  - injection Hu as <-. do 5 right. exists ("p", "run"). vm_compute. split; [left|discriminate].
  - exists u, e. exact (conj eq_refl He).
Defined.

Lemma refines_snapshot_isolation_witness :
  exists a, SI.current (key := key) (cell := cell) a (KEvents ("p", "run"))
            = Events [sample_event "e1" 1].
Proof.
  destruct (refines_snapshot_isolation first_committed) as (a & _ & Ha & _).
  - unfold reachable. transitivity both_staged; [exact both_staged_reachable|exact first_committed_reached].
  - exists a. rewrite Ha. vm_compute. reflexivity.
Defined.

(** ** Two races a commit does not see *)

Definition sample_value : @entity sample_entities := ("p", "content").

(** The tables of user skills are published whole by every commit: a skill
    that one unit of work has committed disappears when another, opened before,
    commits, even though that other made no call at all. *)
Theorem user_skills_lose_updates :
  exists w u, reachable w /\ units w !! 1%nat = Some u /\
    Dict.get [AStr "skill"] (db_user_skills (committed w)) = Some sample_value /\
    u = refresh empty_database /\
    is_ok (commit (Session (committed w) u)).1 = true /\
    Dict.get [AStr "skill"] (db_user_skills (shared (commit (Session (committed w) u)).2)) = None.
Proof.
  exists (commit_unit 0 (local 0 (add_skill [AStr "skill"] sample_value) two_open)),
    (refresh empty_database). split.
  - unfold reachable. transitivity two_open; [exact two_open_reachable|].
    apply (rtc_l _ _ (local 0 (add_skill [AStr "skill"] sample_value) two_open)).
    + apply call_step; [apply skill_call|vm_compute; reflexivity].
    + apply rtc_once, commit_step. vm_compute. reflexivity.
  - split_and!; vm_compute; reflexivity.
Qed.

Definition sample_operation (id key : string) : ProviderOperation.t :=
  ProviderOperation.mk id "p" "run" "step" None ProviderCategory.LLM ProviderOperationKind.GENERATE_TEXT
    "provider" "adapter/v1" "model" key
    "sha256:0123456789abcdef0123456789abcdef0123456789abcdef0123456789abcdef"
    (ProviderReservation.mk 1 0 0 0 "USD") false ProviderOperationStatus.RESERVED
    SettlementState.UNSETTLED None None 0 [] (epoch 0) (epoch 0) None None 0 "v1".

(** One request and one LLM call in all. *)
Definition sample_budget : ProviderBudget.t :=
  ProviderBudget.mk 1 1 0 0 0 "USD" 10 10 false "provider-budget/v1".

Definition reserve_on (i : nat) (op : ProviderOperation.t) (w : world) : result exn (ProviderOperation.t * bool) :=
  match units w !! i with
  | Some u => (on_operations (reserve op sample_budget) u).1
  | None => Err (Exn PyIndexError "")
  end.

Definition race_reserved : world :=
  local 1 (on_operations (ProviderOperationRepository.save (sample_operation "op2" "k2") None))
    (local 0 (on_operations (ProviderOperationRepository.save (sample_operation "op1" "k1") None)) two_open).
Definition race_committed : world := commit_unit 1 (commit_unit 0 race_reserved).

(** The budget is checked against the unit of work's own snapshot, and a
    commit does not check it again: two units of work that each reserve within
    the budget, on one database, both commit, and the run then holds twice what
    its budget allows. *)
Theorem concurrent_reservations_exceed_budget :
  reachable race_committed /\
  (exists o o', reserve_on 0 (sample_operation "op1" "k1") two_open = Ok (o, false) /\
     reserve_on 1 (sample_operation "op2" "k2") two_open = Ok (o', false)) /\
  committed_ok 0 race_reserved = true /\ committed_ok 1 (commit_unit 0 race_reserved) = true /\
  ProviderBudget.max_provider_requests sample_budget <
    spent (ProviderOperationRepository.operations
             (Versioned.refresh (db_provider_operations (committed race_committed))))
      BudgetTotals.request_count.
Proof.
  split; [|split_and!; try (vm_compute; reflexivity)].
  - unfold reachable. transitivity two_open; [exact two_open_reachable|].
    apply (rtc_l _ _ (local 0 (on_operations (ProviderOperationRepository.save (sample_operation "op1" "k1") None)) two_open)).
    { apply call_step; [apply operation_call|vm_compute; reflexivity]. }
    apply (rtc_l _ _ race_reserved). { apply call_step; [apply operation_call|vm_compute; reflexivity]. }
    apply (rtc_l _ _ (commit_unit 0 race_reserved)); [apply commit_step; vm_compute; reflexivity|].
    apply rtc_once, commit_step. vm_compute. reflexivity.
  - eexists _, _. split; vm_compute; reflexivity.
Qed.

(** ** The budget of one repository *)

Module BudgetWitness.
Definition empty : ProviderOperationRepository.t := Versioned.refresh [].
Definition op1 : ProviderOperation.t := sample_operation "op1" "k1".
Definition usage : ProviderUsage.t :=
  ProviderUsage.mk "provider" "model" ProviderOperationKind.GENERATE_TEXT 1 (Some 0) (Some 0) (Some 0)
    (Some "USD") 0 0 None [] "provider-usage/v1".

Definition reserved : ProviderOperationRepository.t := (reserve op1 sample_budget empty).2.
Definition running : ProviderOperationRepository.t := (mark_running "op1" (epoch 1) reserved).2.
Definition settled : ProviderOperationRepository.t := (settle_success "op1" usage (epoch 2) running).2.

Lemma empty_table_ok : OperationFacts.table_ok empty.
Proof. split; cbn; [apply NoDup_nil_2|done|done|done]. Qed.

Lemma empty_budget_ok : budget_ok "p" "run" sample_budget empty.
Proof.
  split; [exact empty_table_ok|]. split.
  - intros op H. by apply elem_of_nil in H.
  - intros d limit H. unfold dimensions in H. cbn. rewrite !elem_of_cons, elem_of_nil in H.
    destruct H as [[= -> ->]|[[= -> ->]|[[= -> ->]|[[= -> ->]|[[= -> ->]|[]]]]]]; vm_compute; discriminate.
Qed.

Lemma usage_covered : covered (ProviderReservation.mk 1 0 0 0 "USD") usage.
Proof.
  intros d limit H cat. unfold dimensions in H. rewrite !elem_of_cons, elem_of_nil in H.
  destruct H as [[= -> ->]|[[= -> ->]|[[= -> ->]|[[= -> ->]|[[= -> ->]|[]]]]]];
    destruct cat; vm_compute; discriminate.
Qed.

Lemma settled_reached : rtc (budget_step "p" "run" sample_budget) empty settled.
Proof.
  apply (rtc_l _ _ reserved).
  { apply (step_reserve _ _ _ _ op1 sample_budget (reserve op1 sample_budget empty).1).
    - split; [vm_compute; reflexivity|by intros _].
    - by split.
    - done.
    - apply surjective_pairing. }
  apply (rtc_l _ _ running).
  { apply (step_mark_running _ _ _ _ "op1" (epoch 1) (mark_running "op1" (epoch 1) reserved).1).
    apply surjective_pairing. }
  apply rtc_once, (step_settle_success _ _ _ _ "op1" usage (epoch 2) (settle_success "op1" usage (epoch 2) running).1).
  - intros op v H. assert (ProviderOperation.reservation op = ProviderReservation.mk 1 0 0 0 "USD") as ->;
      [|exact usage_covered].
    change (OperationFacts.table running !! "op1" = Some (op, v)) in H.
    rewrite OperationFacts.table_lookup in H. vm_compute in H. by injection H as <- _.
  - apply surjective_pairing.
Qed.

Lemma budget_never_exceeded_witness :
  ProviderOperation.status <$> ProviderOperationRepository.find_operation "op1" settled
    = Some ProviderOperationStatus.SUCCEEDED /\
  within sample_budget (run_operations "p" "run" settled).
Proof.
  split; [vm_compute; reflexivity|].
  exact (budget_never_exceeded "p" "run" sample_budget empty settled empty_budget_ok settled_reached).
Defined.

(** The second operation does not fit the budget. *)
Lemma refusal_changes_nothing_witness :
  (reserve (sample_operation "op2" "k2") sample_budget reserved).1
    = Err (budget_exceeded "provider_requests") /\
  (reserve (sample_operation "op2" "k2") sample_budget reserved).2 = reserved.
Proof.
  assert (reserve (sample_operation "op2" "k2") sample_budget reserved
          = (Err (budget_exceeded "provider_requests"),
             (reserve (sample_operation "op2" "k2") sample_budget reserved).2)) as H
    by (vm_compute; reflexivity).
  split; [vm_compute; reflexivity|].
  refine (proj1 (refusal_changes_nothing reserved _ _ _ _ "op1" (fun op => Ok op) _) H).
  exact (proj1 (reserve_ok "p" "run" sample_budget op1 sample_budget empty
    (reserve op1 sample_budget empty).1 reserved empty_budget_ok
    (conj eq_refl (fun _ => conj eq_refl eq_refl)) (conj eq_refl eq_refl) (fun _ => eq_refl)
    (surjective_pairing _))).
Defined.

Lemma reservation_counted_once_witness :
  (reserve op1 sample_budget empty).1 = Ok (op1, false) /\
  reserve op1 sample_budget reserved = (Ok (op1, true), reserved).
Proof.
  split; [vm_compute; reflexivity|].
  exact (reservation_counted_once op1 sample_budget sample_budget empty reserved op1 empty_table_ok
           ltac:(vm_compute; reflexivity)).
Defined.
End BudgetWitness.
