(* ===== verification/Deletion.v ===== *)
(** The deletion of a project: a commit after it removes what belongs to
    the project from every table of the database and nothing else, and drops whatever else the
    unit of work had staged. *)
From S2P Require Import Prelude Errors Text Float Value Sha256 Lifecycle Workflow Checkpoint Coordinator Approval Events Records Provider Budget BudgetFacts Dict Tables TableFacts Repositories RepositoryFacts Manifests UnitOfWork UnitOfWorkFacts CommitFacts Isolation Concurrency.
Local Open Scope string_scope.
Local Open Scope list_scope.
Local Open Scope Z_scope.

Lemma get_select_key {K V} `{EqDecision K} (f : K -> bool) k (d : dict K V) :
  Dict.get k (Dict.select (fun k _ => f k) d) = if f k then Dict.get k d else None.
Proof.
  unfold Dict.select. induction d as [|[k0 v] d IH]; cbn; [by destruct (f k)|].
  destruct (f k0) eqn:Hf; cbn; rewrite IH; case_decide; subst; rewrite ?Hf; done.
Qed.

Lemma elem_select_keys {K V} `{EqDecision K} (f : K -> V -> bool) k (d : dict K V) :
  NoDup (Dict.keys d) ->
  k ∈ Dict.keys (Dict.select f d) <-> exists v, Dict.get k d = Some v /\ f k v = true.
Proof.
  intros Hn. rewrite elem_keys, get_select by done.
  destruct (Dict.get k d) as [v|]; [|split; [done|by intros (? & ? & _)]].
  destruct (f k v) eqn:Hf; split; try done.
  - intros _. by exists v.
  - intros (v' & [= <-] & Hv'). congruence.
Qed.

Section deletion.
Context {EN : Entities}.

Definition run_in (p : string) (db : database) (run_id : string) : Prop :=
  exists r, Dict.get run_id (db_executions db) = Some r /\ execution_in p r = true.

(** The table [d'] holds the items of [d] that are not [gone]. *)
Definition leaves_out {K V} (gone : K -> V -> Prop) (d d' : dict K V) : Prop :=
  forall k v, (k, v) ∈ d' <-> (k, v) ∈ d /\ ~ gone k v.

(** The local artifact references of the project. *)
Definition artifact_of (p : string) (db : database) (k : okey) : Prop :=
  exists a, (k, a) ∈ db_keyed db local_artifact_references /\ entity_project a = p.

(** What of a keyed table belongs to the project: the values that name it, or
    the keys that begin with it, or what is known of its artifacts; the
    requirements belong to the definition of a workflow, not to a project. *)
Definition owned_by (p : string) (db : database) (s : keyed_store) (k : okey) (e : entity) : Prop :=
  match s with
  | progress_projections => key_project k = Some p
  | artifact_presentations | artifact_content_qualifications => artifact_of p db k
  | workflow_artifact_requirements | workflow_resource_requirements => False
  | _ => entity_project e = p
  end.

(** [db'] is [db] without the project [p]. *)
Record without_project (p : string) (db db' : database) : Prop := {
  w_executions i r : Dict.get i (db_executions db') = Some r <->
    Dict.get i (db_executions db) = Some r /\ execution_in p r = false;
  w_approvals i r : Dict.get i (db_approvals db') = Some r <->
    Dict.get i (db_approvals db) = Some r /\ ApprovalRecord.project_id r <> p;
  w_operations i r : Dict.get i (db_provider_operations db') = Some r <->
    Dict.get i (db_provider_operations db) = Some r /\
    ProviderOperation.project_id (ProviderOperationRecord.operation r) <> p;
  w_checkpoints_gone i : run_in p db i -> Stream.at_key i (db_checkpoint_records db') = [];
  w_checkpoints i : ~ run_in p db i ->
    Stream.at_key i (db_checkpoint_records db') = Stream.at_key i (db_checkpoint_records db);
  w_events scope : Stream.at_key scope (db_execution_events db') =
    if decide (scope.1 = p) then [] else Stream.at_key scope (db_execution_events db);
  w_memory scope : Stream.at_key scope (db_memory_revisions db') =
    if decide (scope.1 = p) then [] else Stream.at_key scope (db_memory_revisions db);
  w_artifacts : leaves_out (fun _ a => ArtifactMetadata.project_id a = p) (db_artifacts db) (db_artifacts db');
  w_local_projects i : Dict.get i (db_local_projects db') = if decide (i = p) then None else Dict.get i (db_local_projects db);
  w_projects i : Dict.get i (db_projects db') = if decide (i = p) then None else Dict.get i (db_projects db);
  w_manifests k : Dict.get k (db_desired_manifests db') =
    if decide (k.1 = p) then None else Dict.get k (db_desired_manifests db);
  w_entries : leaves_out (fun _ e => entity_project e = p) (db_manifest_entries db) (db_manifest_entries db');
  w_keyed s : leaves_out (owned_by p db s) (db_keyed db s) (db_keyed db' s);
  w_instances : leaves_out (fun _ e => entity_project e = p)
    (db_foundation db project_workflow_instances) (db_foundation db' project_workflow_instances);
  w_foundation s : s <> project_workflow_instances -> db_foundation db' s = db_foundation db s;
  w_user_skills : db_user_skills db' = db_user_skills db;
  w_project_user_skills k : Dict.get k (db_project_user_skills db') =
    if decide (key_project k = Some p) then None else Dict.get k (db_project_user_skills db)
}.

Definition runs_of (p : string) (db : database) : list string :=
  Dict.keys (Dict.select (fun _ r => execution_in p r) (db_executions db)).

Lemma elem_runs p db i : database_ok db -> i ∈ runs_of p db <-> run_in p db i.
Proof. intros H. apply (elem_select_keys (fun _ r => execution_in p r)), H. Qed.

Lemma get_discard_key {K V} `{EqDecision K} (f : K -> bool) k (d : dict K V) :
  Dict.get k (discard (fun k _ => f k) d) = if f k then None else Dict.get k d.
Proof. unfold discard. rewrite (get_select_key (fun k => negb (f k))). by destruct (f k). Qed.

Lemma at_discard_key {K A} `{EqDecision K} (f : K -> bool) k (d : dict K (list A)) :
  Stream.at_key k (discard (fun k _ => f k) d) = if f k then [] else Stream.at_key k d.
Proof.
  unfold Stream.at_key. rewrite get_discard_key. by destruct (f k).
Qed.

Lemma discard_leaves_out {K V} (f : K -> V -> bool) (gone : K -> V -> Prop) (d : dict K V) :
  (forall k v, f k v = true <-> gone k v) -> leaves_out gone d (discard f d).
Proof.
  intros Hf k v. unfold discard, Dict.select. rewrite elem_List_filter. cbn. rewrite negb_true_iff, <- Hf.
  by rewrite not_true_iff_false.
Qed.

Lemma entity_in_iff p e : entity_in p e = true <-> entity_project e = p.
Proof. apply String.eqb_eq. Qed.

Lemma elem_artifact_ids p db k :
  k ∈ Dict.keys (Dict.select (fun _ a => entity_in p a) (db_keyed db local_artifact_references)) <-> artifact_of p db k.
Proof.
  unfold Dict.keys, Dict.select. rewrite list_elem_of_fmap. split.
  - intros ([k' a] & -> & [Hin Ha]%elem_List_filter). exists a. split; [done|]. by apply entity_in_iff.
  - intros (a & Hin & Ha). exists (k, a). split; [done|]. apply elem_List_filter. split; [done|]. by apply entity_in_iff.
Qed.

Lemma purge_keyed p db s : leaves_out (owned_by p db s) (db_keyed db s) (db_keyed (purge_database p db) s).
Proof.
  destruct s; cbn -[discard Dict.select Dict.keys]; first
    [ apply discard_leaves_out; intros k v; cbn;
        first [apply entity_in_iff|apply bool_decide_eq_true|rewrite bool_decide_eq_true; apply elem_artifact_ids]
    | intros k v; cbn; naive_solver ].
Qed.

Lemma purge_spec p db : database_ok db -> without_project p db (purge_database p db).
Proof.
  intros Hdb. pose proof (elem_runs p db) as Hruns. split.
  - intros i r. cbn -[discard Dict.select Dict.keys Stream.at_key]. rewrite (get_discard_key (fun k => bool_decide (k ∈ runs_of p db))).
    destruct (bool_decide _) eqn:Hi; cbn; reflect_bools; rewrite Hruns in Hi by done; split.
    + done.
    + intros [H1 H2]. destruct Hi as (r' & H3 & H4). congruence.
    + intros H. split; [done|]. destruct (execution_in p r) eqn:He; [|done].
      exfalso. apply Hi. by exists r.
    + tauto.
  - intros i r. cbn -[discard Dict.select Dict.keys Stream.at_key]. unfold discard. rewrite get_select by apply Hdb.
    destruct (Dict.get i (db_approvals db)) as [r0|]; [|naive_solver].
    destruct (String.eqb_spec (ApprovalRecord.project_id r0) p); cbn; naive_solver.
  - intros i r. cbn -[discard Dict.select Dict.keys Stream.at_key]. unfold discard. rewrite get_select by apply (d_operations _ Hdb).
    destruct (Dict.get i (db_provider_operations db)) as [r0|]; [|naive_solver].
    destruct (String.eqb_spec (ProviderOperation.project_id (ProviderOperationRecord.operation r0)) p);
      cbn; naive_solver.
  - intros i Hi. cbn -[discard Dict.select Dict.keys Stream.at_key]. rewrite (at_discard_key (fun k => bool_decide (k ∈ runs_of p db))).
    rewrite bool_decide_eq_true_2; [done|]. by apply Hruns.
  - intros i Hi. cbn -[discard Dict.select Dict.keys Stream.at_key]. rewrite (at_discard_key (fun k => bool_decide (k ∈ runs_of p db))).
    rewrite bool_decide_eq_false_2; [done|]. by rewrite Hruns.
  - intros scope. cbn -[discard Stream.at_key]. rewrite (at_discard_key (fun k => String.eqb k.1 p)).
    destruct (String.eqb_spec scope.1 p); case_decide; done.
  - intros scope. cbn -[discard Stream.at_key]. rewrite (at_discard_key (fun k => String.eqb k.1 p)).
    destruct (String.eqb_spec scope.1 p); case_decide; done.
  - apply (discard_leaves_out (fun _ a => String.eqb (ArtifactMetadata.project_id a) p)). intros k a. apply String.eqb_eq.
  - intros i. cbn -[discard]. rewrite (get_discard_key (fun k => String.eqb k p)).
    destruct (String.eqb_spec i p); case_decide; done.
  - intros i. cbn -[discard]. rewrite (get_discard_key (fun k => String.eqb k p)).
    destruct (String.eqb_spec i p); case_decide; done.
  - intros k. cbn -[discard]. rewrite (get_discard_key (fun k => String.eqb k.1 p)).
    destruct (String.eqb_spec k.1 p); case_decide; done.
  - apply (discard_leaves_out (fun _ e => entity_in p e)). intros k e. apply entity_in_iff.
  - apply purge_keyed.
  - apply (discard_leaves_out (fun _ e => entity_in p e)). intros k e. apply entity_in_iff.
  - intros s Hs. by destruct s.
  - done.
  - intros k. cbn -[discard]. rewrite (get_discard_key (key_in p)). unfold key_in.
    by repeat case_decide; reflect_bools.
Qed.

Lemma commit_one_deletion p db u : deleted_project_ids u = [p] ->
  commit (Session db u) =
    if Dict.has p (db_projects db)
    then (Ok tt, Session (purge_database p db) (refresh (purge_database p db)))
    else (Err (Exn StaleStateError "Project was deleted concurrently"), Session db u).
Proof.
  intros H. unfold commit, mbind, M_bind, get_state. cbn [uow shared]. rewrite H.
  unfold commit_deletions, mbind, M_bind, get_state, raise_if. cbn [for_each]. unfold mbind, M_bind.
  cbn [shared]. by destruct (Dict.has p (db_projects db)).
Qed.

(** C28: deleting a project removes the project and nothing else: after
    [delete_project_cloud_state], a commit either finds that the project was
    deleted meanwhile and changes nothing, or leaves the database without the
    project, in every table: its executions, approvals, provider operations,
    checkpoint, event and memory streams, artifacts, its local and cloud project,
    manifests and their entries, progress reports and projections, capsule and
    artifact records, resources, bindings, run approvals, workflow instances and
    project skills are gone, and every other project's, the definitions, the
    requirements of workflows and the users' skills are as they were.  The
    changes the unit of work had staged before are not published. *)
Theorem project_deletion_removes_only_the_project w i u p u' r s :
  reachable w -> units w !! i = Some u ->
  delete_project_cloud_state p u = (Ok tt, u') ->
  commit (Session (committed w) u') = (r, s) ->
  match r with
  | Ok _ => without_project p (committed w) (shared s) /\ uow s = refresh (shared s)
  | Err e => exn_kind e = StaleStateError /\ Dict.has p (db_projects (committed w)) = false /\
             shared s = committed w
  end.
Proof.
  intros Hr Hi Hdel H. destruct (reachable_ok _ Hr) as [Hdb Hus]. destruct (Hus _ _ Hi) as (b & Hb & _).
  unfold delete_project_cloud_state, mbind, M_bind, get_state, raise_if, raise, modify, mret, M_ret in Hdel.
  destruct (_ || _); [done|]. cbn -[purge_unit mark_deleted] in Hdel. injection Hdel as <-.
  rewrite (commit_one_deletion p) in H by (cbn; by rewrite (u_not_deleting _ _ Hb)).
  destruct (Dict.has p (db_projects (committed w))) eqn:Hp; injection H as <- <-; [|done].
  split; [|done]. by apply purge_spec.
Qed.
End deletion.

(** ** Witness *)

Definition sample_project : CloudProject.t :=
  CloudProject.mk "p" "workspace" "name" "topic" ACTIVE 0 None (epoch 0) (epoch 0).

Definition with_project : world :=
  commit_unit 0 (local 0 (on_manifests (ManifestRepository.add_project sample_project))
    (local 0 (add_local_project "p" sample_value)
      (local 0 (on_events (ExecutionEventStore.append (sample_event "e1" 1) 0)) (open_unit initial)))).

Lemma project_call p : is_call (on_manifests (ManifestRepository.add_project p)).
Proof. intros u. destruct (on_manifests _ u) as [r u'] eqn:H. by eapply new_project. Qed.
Lemma local_project_call p e : is_call (add_local_project p e).
Proof. intros u. destruct (add_local_project p e u) as [r u'] eqn:H. by eapply new_local_project. Qed.

Lemma with_project_reachable : reachable with_project.
Proof.
  unfold with_project. eapply rtc_r; [|apply commit_step; vm_compute; reflexivity].
  eapply rtc_r; [|apply call_step; [apply project_call|vm_compute; reflexivity]].
  eapply rtc_r; [|apply call_step; [apply local_project_call|vm_compute; reflexivity]].
  eapply rtc_r; [|apply call_step; [apply event_call|vm_compute; reflexivity]].
  apply rtc_once, open_step.
Qed.

Lemma project_deletion_removes_only_the_project_witness :
  Stream.at_key ("p", "run") (db_execution_events (committed with_project)) <> [] /\
  exists db, without_project "p" (committed with_project) db /\
    Stream.at_key ("p", "run") (db_execution_events db) = [].
Proof.
  split; [vm_compute; discriminate|].
  destruct (units with_project !! 0%nat) as [u|] eqn:Hu; [|discriminate].
  destruct (delete_project_cloud_state "p" u) as [d u'] eqn:Hd.
  destruct (commit (Session (committed with_project) u')) as [r s] eqn:Hc.
  assert (d = Ok tt) as -> by (injection Hu as <-; vm_compute in Hd; by injection Hd as <- _).
  pose proof (project_deletion_removes_only_the_project with_project 0 u "p" u' r s
    with_project_reachable Hu Hd Hc) as H.
  destruct r as [[]|e].
  - exists (shared s). split; [exact (proj1 H)|]. rewrite (w_events _ _ _ (proj1 H)). reflexivity.
  - destruct H as (_ & H & _). vm_compute in H. discriminate H.
Defined.
