(* ===== verification/RetryPolicy.v ===== *)
(** [backend/workflow_engine/models/retry_policy.py]: retry limits and the
    backoff, computed on binary64 floats. *)
From S2P Require Import Prelude Errors Text Float.
From Stdlib Require Import SpecFloat.
Local Open Scope string_scope.
Local Open Scope list_scope.
Local Open Scope Z_scope.

Module RetryPolicy.
Record t := mk {
  max_attempts : Z;
  backoff : string;
  initial_seconds : float;
  max_seconds : float
}.

Definition invalid (message : string) : exn := Exn InvalidRetryPolicyError message.

Definition post_init (self : t) : res t :=
  _ ← fail_if (max_attempts self <=? 0) (invalid "RetryPolicy.max_attempts must be positive");
  _ ← fail_if (negb (bool_decide (backoff self ∈ ["fixed"; "linear"; "exponential"])))
        (invalid "RetryPolicy.backoff must be fixed, linear, or exponential");
  _ ← fail_if (f64_lt (initial_seconds self) f64_zero)
        (invalid "RetryPolicy.initial_seconds cannot be negative");
  _ ← fail_if (f64_lt (max_seconds self) (initial_seconds self))
        (invalid "RetryPolicy.max_seconds cannot be smaller than initial_seconds");
  Ok self.

Definition permits_retry (self : t) (current_attempt : Z) : res bool :=
  _ ← fail_if (current_attempt <=? 0) (invalid "Current attempt must be positive");
  Ok (current_attempt <? max_attempts self).

Definition delay_for_next_attempt (self : t) (next_attempt : Z) : res float :=
  _ ← fail_if (next_attempt <? 2) (invalid "Retry attempt must be at least 2");
  let retry_index := next_attempt - 1 in
  delay ← (if String.eqb (backoff self) "fixed" then Ok (initial_seconds self)
           else if String.eqb (backoff self) "linear" then
             f64_mul_int (initial_seconds self) retry_index
           else f64_mul_int (initial_seconds self) (2 ^ (retry_index - 1)));
  Ok (f64_min delay (max_seconds self)).
End RetryPolicy.

(** ** The powers of two that are floats *)

Definition is_infinite (x : float) : bool :=
  match x with S754_infinity _ => true | _ => false end.

Lemma f64_of_int_Ok z : is_ok (f64_of_int z) = negb (is_infinite (binary_normalize 53 1024 z 0 false)).
Proof. unfold f64_of_int. by destruct (binary_normalize _ _ _ _ _). Qed.

Lemma small_powers k : (k <= 1023)%nat -> is_ok (f64_of_int (2 ^ Z.of_nat k)) = true.
Proof.
  intros Hk. assert (forallb (fun k => is_ok (f64_of_int (2 ^ Z.of_nat k))) (seq 0 1024) = true) as H
    by (vm_compute; reflexivity).
  rewrite forallb_forall in H. apply H, in_seq. lia.
Qed.

Lemma iter_S {A} n (f : A -> A) x : Nat.iter (S n) f x = f (Nat.iter n f x).
Proof. reflexivity. Qed.

Lemma iter_pos_iter {A} (f : A -> A) n x : iter_pos f n x = Nat.iter (Pos.to_nat n) f x.
Proof.
  assert (forall m a, Nat.iter m f (f a) = f (Nat.iter m f a)) as Hcomm.
  { induction m as [|m IH]; intros a; [done|]. by rewrite !iter_S, IH. }
  assert (forall m m' a, Nat.iter (m + m') f a = Nat.iter m f (Nat.iter m' f a)) as Hadd.
  { induction m as [|m IH]; intros m' a; [done|]. cbn [Nat.add]. by rewrite !iter_S, IH. }
  revert x. induction n as [n IH|n IH|]; intros x; cbn [iter_pos]; [..|done].
  - rewrite !IH, <- Hadd. replace (Pos.to_nat n~1) with (S (Pos.to_nat n + Pos.to_nat n)) by lia.
    by rewrite iter_S, Hcomm.
  - rewrite !IH, <- Hadd. f_equal. lia.
Qed.

(** [2 ^ n] as a positive. *)
Definition pow2 (n : nat) : positive := Nat.iter n xO 1%positive.

Lemma pow2_Z n : Z.pos (pow2 n) = 2 ^ Z.of_nat n.
Proof.
  induction n as [|n IH]; [done|]. unfold pow2 in *. rewrite iter_S,
    Nat2Z.inj_succ, Z.pow_succ_r by lia. rewrite <- IH. lia.
Qed.

Lemma digits_pow2 n : Z.pos (digits2_pos (pow2 n)) = Z.of_nat n + 1.
Proof.
  induction n as [|n IH]; [done|]. unfold pow2 in *. rewrite iter_S. cbn [digits2_pos].
  rewrite Pos2Z.inj_succ, IH. lia.
Qed.

Lemma shift_pow2 n j :
  Nat.iter n shr_1 (Build_shr_record (Z.pos (pow2 (n + j))) false false)
  = Build_shr_record (Z.pos (pow2 j)) false false.
Proof.
  revert j. induction n as [|n IH]; intros j; [done|]. rewrite iter_S.
  replace (S n + j)%nat with (n + S j)%nat by lia. by rewrite IH.
Qed.

(** A power of two from [2 ^ 53] on keeps its 53 bits, with its exponent. *)
Lemma round_pow2 n :
  (0 < n)%nat ->
  binary_normalize 53 1024 (2 ^ Z.of_nat (n + 52)) 0 false =
    if Z.of_nat n <=? 971 then S754_finite false (pow2 52) (Z.of_nat n) else S754_infinity false.
Proof.
  intros Hn. rewrite <- pow2_Z. unfold binary_normalize, binary_round.
  assert (Hfexp : fexp 53 1024 (Z.pos (digits2_pos (pow2 (n + 52))) + 0) = Z.of_nat n).
  { rewrite digits_pow2. unfold fexp, emin. lia. }
  rewrite Hfexp. unfold shl_align.
  replace (Z.of_nat n - 0) with (Z.of_nat n) by lia. destruct n as [|n]; [lia|].
  change (Z.of_nat (S n)) with (Z.pos (Pos.of_succ_nat n)) in *. cbv iota.
  unfold binary_round_aux, shr_fexp at 1. cbn [shr_record_of_loc Zdigits2].
  rewrite Hfexp. replace (Z.pos (Pos.of_succ_nat n) - 0) with (Z.pos (Pos.of_succ_nat n)) by lia.
  unfold shr at 1. rewrite iter_pos_iter, SuccNat2Pos.id_succ, shift_pow2.
  cbn [shr_m loc_of_shr_record round_nearest_even].
  unfold shr_fexp. cbn [shr_record_of_loc Zdigits2]. rewrite digits_pow2.
  replace (fexp 53 1024 (Z.of_nat 52 + 1 + (0 + Z.pos (Pos.of_succ_nat n)))
           - (0 + Z.pos (Pos.of_succ_nat n))) with 0 by (unfold fexp, emin; lia).
  cbn [shr shr_m]. by rewrite Z.add_0_l.
Qed.

(** The powers of two with an integer-to-float conversion are those below
    [2 ^ 1024]. *)
Lemma f64_of_pow2 k : 0 <= k -> is_ok (f64_of_int (2 ^ k)) = (k <=? 1023).
Proof.
  intros Hk. destruct (Z.leb_spec k 1023).
  - replace k with (Z.of_nat (Z.to_nat k)) by lia. apply small_powers. lia.
  - rewrite f64_of_int_Ok. replace k with (Z.of_nat (Z.to_nat (k - 52) + 52)) by lia.
    rewrite round_pow2 by lia. destruct (Z.leb_spec (Z.of_nat (Z.to_nat (k - 52))) 971); [lia|done].
Qed.

(** ** Properties *)

(** The exponential backoff is not total: a delay for attempt [n] exists
    exactly for [2 <= n <= 1025].  From attempt 1026 on, [2 ** (n - 2)] no
    longer converts to a float and an [OverflowError] escapes, whatever the
    cap [max_seconds]. *)
Theorem exponential_delay_defined self n :
  RetryPolicy.backoff self = "exponential" ->
  (is_ok (RetryPolicy.delay_for_next_attempt self n) = true <-> 2 <= n <= 1025) /\
  (1026 <= n -> exists m, RetryPolicy.delay_for_next_attempt self n = Err (Exn PyOverflowError m)).
Proof.
  intros Hb. unfold RetryPolicy.delay_for_next_attempt, f64_mul_int. rewrite Hb.
  cbn [String.eqb Ascii.eqb Bool.eqb].
  replace (n - 1 - 1) with (n - 2) by lia. destruct (Z.ltb_spec n 2); cbn [fail_if mbind result_bind is_ok].
  - split; [split; [done|lia]|lia].
  - pose proof (f64_of_pow2 (n - 2) ltac:(lia)) as Hp. split.
    + destruct (f64_of_int _); cbn in *; lia.
    + intros Hn. destruct (f64_of_int (2 ^ (n - 2))) as [y|[k m]] eqn:Hf; cbn in *; [lia|].
      exists m. unfold f64_of_int in Hf. by destruct (binary_normalize _ _ _ _ _); inv_ok.
Qed.

(** A delay that is computed never exceeds the cap, and with a fixed
    backoff it is the initial delay. *)
Theorem delay_capped self self' n d :
  RetryPolicy.post_init self = Ok self' ->
  RetryPolicy.delay_for_next_attempt self' n = Ok d ->
  f64_lt (RetryPolicy.max_seconds self') d = false /\
  (RetryPolicy.backoff self' = "fixed" -> d = RetryPolicy.initial_seconds self').
Proof.
  unfold RetryPolicy.post_init. rewrite !then_Ok, !fail_if_Ok.
  intros (_ & _ & _ & Hmax & [= <-]).
  unfold RetryPolicy.delay_for_next_attempt. rewrite then_Ok, bind_Ok.
  intros (_ & delay & Hd & [= <-]). unfold f64_min. split.
  - destruct (f64_lt (RetryPolicy.max_seconds self) delay) eqn:Hlt; [|done].
    unfold f64_lt, SFltb. destruct (RetryPolicy.max_seconds self) as [s|s| |s m e]; cbn; try done.
    + by destruct s.
    + rewrite Z.compare_refl. rewrite Pos.compare_cont_refl. by destruct s.
  - intros Hb. rewrite Hb in Hd. cbn in Hd. injection Hd as <-. by rewrite Hmax.
Qed.

(** ** Witnesses *)

Definition one_second : float := S754_finite false 4503599627370496 (-52).
Definition thirty_seconds : float := S754_finite false 8444249301319680 (-48).
Definition default_policy (attempts : Z) : RetryPolicy.t :=
  RetryPolicy.mk attempts "exponential" one_second thirty_seconds.

Lemma exponential_delay_defined_witness :
  RetryPolicy.post_init (default_policy 2000) = Ok (default_policy 2000) /\
  is_ok (RetryPolicy.delay_for_next_attempt (default_policy 2000) 1026) = false.
Proof.
  split; [reflexivity|].
  destruct (proj2 (exponential_delay_defined (default_policy 2000) 1026 eq_refl)) as [m ->];
    [discriminate|reflexivity].
Defined.

Lemma delay_capped_witness :
  RetryPolicy.delay_for_next_attempt (default_policy 9) 9 = Ok thirty_seconds /\
  f64_lt thirty_seconds thirty_seconds = false.
Proof.
  split; [reflexivity|].
  exact (proj1 (delay_capped (default_policy 9) (default_policy 9) 9 thirty_seconds eq_refl eq_refl)).
Defined.
