(* ===== verification/EngineModels.v ===== *)
(** [backend/workflow_engine/models]: the engine's view of a workflow and of an
    execution, and the decisions it returns. *)
From S2P Require Import Prelude Errors Text Float Value Graph Lifecycle Workflow Checkpoint Coordinator RetryPolicy.
Local Open Scope string_scope.
Local Open Scope list_scope.
Local Open Scope Z_scope.

Definition state_error (message : string) : exn := Exn WorkflowStateError message.
Definition definition_error (message : string) : exn := Exn InvalidWorkflowDefinitionError message.
Definition reference_error (message : string) : exn := Exn InvalidReferenceError message.

Module StepDefinition.
Record t := mk {
  id : string;
  kind : WorkflowStepKind;
  needs : list string;
  uses : option string;
  input_mapping : mapping;
  timeout_seconds : Z;
  retry_policy : RetryPolicy.t;
  checkpoint_policy : string;
  approval_policy : option string
}.

(** [__post_init__] *)
Definition create (self : t) : t :=
  mk (id self) (kind self) (needs self) (uses self) (freeze_mapping (input_mapping self))
    (timeout_seconds self) (retry_policy self) (checkpoint_policy self) (approval_policy self).

Definition from_domain (step : WorkflowStep.t) : res t :=
  policy ← RetryPolicy.post_init
             (RetryPolicy.mk (WorkflowStep.max_attempts step) (WorkflowStep.retry_backoff step)
                (WorkflowStep.retry_initial_seconds step) (WorkflowStep.retry_max_seconds step));
  Ok (create (mk (WorkflowStep.id step) (WorkflowStep.kind step) (WorkflowStep.needs step)
        (WorkflowStep.uses step) (WorkflowStep.input_mapping step)
        (WorkflowStep.timeout_seconds step) policy (WorkflowStep.checkpoint_policy step)
        (WorkflowStep.approval_policy step))).
End StepDefinition.

Module WorkflowDefinition.
Record t := mk {
  id : string;
  version : string;
  name : string;
  steps : list StepDefinition.t;
  schema_version : string;
  input_schema : mapping;
  outputs : mapping
}.

Definition create (self : t) : t :=
  mk (id self) (version self) (name self) (steps self) (schema_version self)
    (freeze_mapping (input_schema self)) (freeze_mapping (outputs self)).

Definition from_domain (w : Workflow.t) : res t :=
  steps ← map_ok StepDefinition.from_domain (Workflow.steps w);
  Ok (create (mk (Workflow.id w) (Workflow.version w) (Workflow.name w) steps
        (Workflow.schema_version w) (Workflow.input_schema w) (Workflow.outputs w))).

Definition get_step (self : t) (step_id : string) : res StepDefinition.t :=
  match list_find (fun s => StepDefinition.id s = step_id) (steps self) with
  | Some (_, s) => Ok s
  | None => Err (Exn PyKeyError step_id)
  end.

Definition order_of (self : t) (step_id : string) : res nat :=
  match list_find (fun s => StepDefinition.id s = step_id) (steps self) with
  | Some (i, _) => Ok i
  | None => Err (Exn PyKeyError step_id)
  end.

Definition step_ids (self : t) : list string := StepDefinition.id <$> steps self.
Definition graph (self : t) : list node :=
  (fun s => (StepDefinition.id s, StepDefinition.needs s)) <$> steps self.
End WorkflowDefinition.

Module StepRunSnapshot.
Record t := mk {
  id : string;
  step_id : string;
  attempt : Z;
  status : StepRunStatus.t;
  row_version : Z;
  inputs : mapping;
  outputs : mapping;
  error_code : option string
}.

Definition of_step_run (s : StepRun.t) : t :=
  mk (StepRun.id s) (StepRun.step_id s) (StepRun.attempt s) (StepRun.status s)
    (StepRun.row_version s) (freeze_mapping (StepRun.inputs s))
    (freeze_mapping (StepRun.outputs s)) (StepRun.error_code s).
End StepRunSnapshot.

Module ExecutionSnapshot.
Record t := mk {
  workflow_run_id : string;
  workflow_id : string;
  workflow_version : string;
  run_status : WorkflowRunStatus.t;
  run_row_version : Z;
  workflow_inputs : mapping;
  agent_session_id : string;
  agent_status : AgentSessionStatus.t;
  agent_row_version : Z;
  step_runs : list StepRunSnapshot.t
}.

Definition from_execution (x : ExecutionState.t) : t :=
  let run := ExecutionState.workflow_run x in
  let session := ExecutionState.agent_session x in
  mk (WorkflowRun.id run) (WorkflowRun.workflow_id run) (WorkflowRun.workflow_version run)
    (WorkflowRun.status run) (WorkflowRun.row_version run) (freeze_mapping (WorkflowRun.inputs run))
    (AgentSession.id session) (AgentSession.status session) (AgentSession.row_version session)
    (StepRunSnapshot.of_step_run <$> ExecutionState.step_runs x).

(** The loop of [latest_attempts]: the attempts seen, and the largest of each
    step, in the order in which the steps first appear. *)
Fixpoint collect_latest (runs : list StepRunSnapshot.t) (seen : list (string * Z))
    (latest : list (string * StepRunSnapshot.t)) : res (list (string * StepRunSnapshot.t)) :=
  match runs with
  | [] => Ok latest
  | s :: runs' =>
      let key := (StepRunSnapshot.step_id s, StepRunSnapshot.attempt s) in
      if bool_decide (key ∈ seen) then
        Err (state_error ("Duplicate attempt " +:+ int_str (StepRunSnapshot.attempt s)
                          +:+ " for step " +:+ StepRunSnapshot.step_id s))
      else
        collect_latest runs' (key :: seen)
          (match dict_get (StepRunSnapshot.step_id s) latest with
           | Some previous =>
               if StepRunSnapshot.attempt previous <? StepRunSnapshot.attempt s
               then dict_set (StepRunSnapshot.step_id s) s latest else latest
           | None => dict_set (StepRunSnapshot.step_id s) s latest
           end)
  end.

Definition latest_attempts (self : t) : res (list (string * StepRunSnapshot.t)) :=
  collect_latest (step_runs self) [] [].
End ExecutionSnapshot.

(** ** Outcomes and decisions *)

Module ApprovalOutcome.
Inductive t := APPROVED | REJECTED | EXPIRED.
Definition value (o : t) : string :=
  match o with APPROVED => "APPROVED" | REJECTED => "REJECTED" | EXPIRED => "EXPIRED" end.
End ApprovalOutcome.

Record EngineDecision := Base {
  workflow_run_id : string;
  workflow_id : string;
  workflow_version : string;
  expected_run_version : Z;
  checkpoint_required : bool;
  reason : string
}.

(** The union [EngineDecisionType]; constructor arguments in field order. *)
Inductive Decision_t :=
  | StepReady (base : EngineDecision) (step_id step_run_id : string) (attempt : Z)
      (expected_step_version : Z) (skill_ref : string) (resolved_inputs : mapping)
      (requires_ready_transition : bool)
  | WorkflowCompleted (base : EngineDecision) (outputs : mapping)
  | WaitingApproval (base : EngineDecision) (step_id step_run_id : string) (attempt : Z)
      (expected_step_version : Z) (approval_policy : string) (resolved_inputs : mapping)
      (requires_ready_transition : bool)
  | RetryScheduled (base : EngineDecision) (step_id step_run_id : string)
      (current_attempt next_attempt : Z) (expected_step_version : Z) (delay_seconds : float)
      (backoff : string) (error_code : string)
  | WorkflowFailed (base : EngineDecision) (error_code message : string)
      (failed_step_id : option string) (expected_step_version : option Z) (retry_exhausted : bool)
  | ApprovalCompleted (base : EngineDecision) (step_id step_run_id : string)
      (expected_step_version : Z) (outputs : mapping)
  | WorkflowCancelled (base : EngineDecision) (error_code : string) (step_id : option string)
  | NoAction (base : EngineDecision).

Definition decision_base (d : Decision_t) : EngineDecision :=
  match d with
  | StepReady b _ _ _ _ _ _ _ | WorkflowCompleted b _ | WaitingApproval b _ _ _ _ _ _ _
  | RetryScheduled b _ _ _ _ _ _ _ _ | WorkflowFailed b _ _ _ _ _ | ApprovalCompleted b _ _ _ _
  | WorkflowCancelled b _ _ | NoAction b => b
  end.

(** [getattr(decision, "step_id", None)] *)
Definition decision_step_id (d : Decision_t) : option string :=
  match d with
  | StepReady _ i _ _ _ _ _ _ | WaitingApproval _ i _ _ _ _ _ _
  | RetryScheduled _ i _ _ _ _ _ _ _ | ApprovalCompleted _ i _ _ _ => Some i
  | WorkflowCancelled _ _ i => i
  | WorkflowCompleted _ _ | WorkflowFailed _ _ _ _ _ _ | NoAction _ => None
  end.

(** [getattr(decision, "expected_step_version", None)] *)
Definition decision_step_version (d : Decision_t) : option Z :=
  match d with
  | StepReady _ _ _ _ v _ _ _ | WaitingApproval _ _ _ _ v _ _ _
  | RetryScheduled _ _ _ _ _ v _ _ _ | ApprovalCompleted _ _ _ v _ => Some v
  | WorkflowFailed _ _ _ _ v _ => v
  | WorkflowCompleted _ _ | WorkflowCancelled _ _ _ | NoAction _ => None
  end.

(** ** The latest attempts *)

Section latest.
Import ExecutionSnapshot.

(** What [latest_attempts] returns: one entry per step that has an attempt,
    holding an attempt of that step that none of its others exceeds. *)
Record is_latest (runs : list StepRunSnapshot.t) (l : list (string * StepRunSnapshot.t)) : Prop := {
  il_keys : NoDup l.*1;
  il_domain : forall sid, sid ∈ l.*1 <-> sid ∈ StepRunSnapshot.step_id <$> runs;
  il_max : forall sid s, dict_get sid l = Some s ->
    s ∈ runs /\ StepRunSnapshot.step_id s = sid /\
    forall s', s' ∈ runs -> StepRunSnapshot.step_id s' = sid ->
      StepRunSnapshot.attempt s' <= StepRunSnapshot.attempt s
}.

Lemma dict_set_keys {A} k (v : A) d sid : sid ∈ (dict_set k v d).*1 <-> sid = k \/ sid ∈ d.*1.
Proof.
  induction d as [|[k' w] d IH]; cbn; [set_solver|].
  destruct (String.eqb_spec k' k) as [->|]; cbn; set_solver.
Qed.

Lemma dict_set_NoDup {A} k (v : A) d : NoDup d.*1 -> NoDup (dict_set k v d).*1.
Proof.
  induction d as [|[k' w] d IH]; cbn; intros Hnd; [by apply NoDup_singleton|].
  apply NoDup_cons in Hnd as [Hk Hnd]. destruct (String.eqb_spec k' k) as [->|Hne]; cbn.
  - by apply NoDup_cons.
  - apply NoDup_cons. split; [|by apply IH]. by intros [->|?]%dict_set_keys.
Qed.

Lemma is_latest_step done l s :
  is_latest done l ->
  is_latest (done ++ [s])
    (match dict_get (StepRunSnapshot.step_id s) l with
     | Some previous =>
         if StepRunSnapshot.attempt previous <? StepRunSnapshot.attempt s
         then dict_set (StepRunSnapshot.step_id s) s l else l
     | None => dict_set (StepRunSnapshot.step_id s) s l
     end).
Proof.
  intros [Hk Hd Hm].
  assert (Hset : (forall p, dict_get (StepRunSnapshot.step_id s) l = Some p ->
            StepRunSnapshot.attempt p < StepRunSnapshot.attempt s) ->
          is_latest (done ++ [s]) (dict_set (StepRunSnapshot.step_id s) s l)).
  { intros Hp. split.
    - by apply dict_set_NoDup.
    - intros sid. rewrite dict_set_keys, Hd, fmap_app, elem_of_app. cbn. set_solver.
    - intros sid s0. rewrite dict_get_set. destruct (String.eqb_spec (StepRunSnapshot.step_id s) sid) as [<-|Hne].
      + intros [= <-]. split; [set_solver|]. split; [done|].
        intros s' [Hs'| ->%list_elem_of_singleton]%elem_of_app He; [|done].
        destruct (dict_get (StepRunSnapshot.step_id s) l) as [p|] eqn:Hg.
        * destruct (Hm _ _ Hg) as (_ & _ & Hle). specialize (Hle s' Hs' He). specialize (Hp p eq_refl). lia.
        * exfalso. assert (StepRunSnapshot.step_id s ∈ l.*1) as Hin.
          { apply Hd. rewrite <- He. apply list_elem_of_fmap. by exists s'. }
          apply list_elem_of_fmap in Hin as ([k v] & Hkv & Hin).
          rewrite (elem_dict_get _ _ v) in Hg; [done|done|]. rewrite Hkv. done.
      + intros Hg. destruct (Hm _ _ Hg) as (H1 & H2 & H3). split; [set_solver|]. split; [done|].
        intros s' [Hs'| ->%list_elem_of_singleton]%elem_of_app He; [by apply H3|done]. }
  destruct (dict_get (StepRunSnapshot.step_id s) l) as [p|] eqn:Hg; [|by apply Hset].
  destruct (Z.ltb_spec (StepRunSnapshot.attempt p) (StepRunSnapshot.attempt s));
    [apply Hset; by intros q [= <-]|].
  split; [done| |].
  - intros sid. rewrite Hd, fmap_app, elem_of_app. cbn. split; [by left|].
    intros [?|Hin]; [done|]. apply Hd. apply list_elem_of_singleton in Hin as ->.
    apply dict_get_elem in Hg. apply list_elem_of_fmap. by eexists (_, p).
  - intros sid s0 Hs0. destruct (Hm _ _ Hs0) as (H1 & H2 & H3). split; [set_solver|]. split; [done|].
    intros s' [Hs'| ->%list_elem_of_singleton]%elem_of_app He; [by apply H3|].
    subst sid. rewrite <- He, Hg in Hs0. injection Hs0 as <-. lia.
Qed.

Lemma collect_latest_spec runs done seen l r :
  is_latest done l -> collect_latest runs seen l = Ok r -> is_latest (done ++ runs) r.
Proof.
  revert done seen l. induction runs as [|s runs IH]; intros done seen l Hl H; cbn in H.
  - injection H as <-. by rewrite app_nil_r.
  - case_in H; [done|]. rewrite (cons_middle s done runs), app_assoc. eapply IH; [|exact H].
    by apply is_latest_step.
Qed.

Lemma latest_attempts_spec snap l : latest_attempts snap = Ok l -> is_latest (step_runs snap) l.
Proof.
  intros H. apply (collect_latest_spec _ [] [] []); [|done]. split; [constructor|done|done].
Qed.

Lemma latest_raises snap : raises_only WorkflowStateError (latest_attempts snap).
Proof.
  unfold latest_attempts. generalize (@nil (string * Z)), (@nil (string * StepRunSnapshot.t)).
  induction (step_runs snap) as [|s runs IH]; intros seen l; cbn; [apply raises_Ok|].
  case_bool_decide; [by apply raises_Err|]. apply IH.
Qed.
End latest.
