(* ===== verification/References.v ===== *)
(** [backend/workflow_engine/services/reference_resolver.py]: the ancestors of
    a step and the resolution of [${inputs.X}] and [${nodes.S.outputs.F}]. *)
From S2P Require Import Prelude Errors Text Float Value Graph Lifecycle Workflow Checkpoint Coordinator RetryPolicy EngineModels.
Local Open Scope string_scope.
Local Open Scope list_scope.

(** ** [iter_reference_strings] *)

Fixpoint iter_reference_strings (v : value) : list string :=
  match v with
  | VStr s => if str_contains "${" s then [s] else []
  | VDict _ d => concat (map (fun kv => iter_reference_strings kv.2) d)
  | VTuple l | VList l => concat (map iter_reference_strings l)
  | _ => []
  end.

(** ** [ancestors_of] *)

(** [{step.id: step for step in definition.steps}] *)
Definition step_by_id (definition : WorkflowDefinition.t) : gmap string StepDefinition.t :=
  foldl (fun m s => <[StepDefinition.id s := s]> m) ∅ (WorkflowDefinition.steps definition).

(** The depth-first loop.  [pending] is the Python list with its last element,
    the next to pop, first: [extend] pushes the new dependencies in reverse. *)
Fixpoint ancestors_loop (fuel : nat) (steps : gmap string StepDefinition.t) (step_id : string)
    (pending : list string) (ancestors : gset string) : option (res (gset string)) :=
  match fuel with
  | O => None
  | S fuel' =>
      match pending with
      | [] => Some (Ok ancestors)
      | ancestor_id :: pending' =>
          if bool_decide (ancestor_id ∈ ancestors) then
            ancestors_loop fuel' steps step_id pending' ancestors
          else
            match steps !! ancestor_id with
            | None => Some (Err (reference_error ("Step " +:+ step_id +:+ " has missing dependency "
                                                  +:+ ancestor_id)))
            | Some ancestor =>
                ancestors_loop fuel' steps step_id
                  (rev (StepDefinition.needs ancestor) ++ pending') ({[ancestor_id]} ∪ ancestors)
            end
      end
  end.

(** One iteration per dependency listed by the step or by an ancestor, and one
    to see that nothing is pending. *)
Definition ancestors_fuel (definition : WorkflowDefinition.t) (needs : list string) : nat :=
  S (length needs
     + sum_list_with (fun s => length (StepDefinition.needs s)) (WorkflowDefinition.steps definition)).

Definition ancestors_of (definition : WorkflowDefinition.t) (step_id : string) : res (gset string) :=
  let steps := step_by_id definition in
  match steps !! step_id with
  | None => Err (reference_error ("Unknown step " +:+ step_id))
  | Some step =>
      match ancestors_loop (ancestors_fuel definition (StepDefinition.needs step)) steps step_id
              (rev (StepDefinition.needs step)) ∅ with
      | Some r => r
      | None => Err (Exn PyRuntimeError "out of fuel")
      end
  end.

(** ** [resolve_step_inputs] *)

Definition is_success (s : StepRunStatus.t) : bool :=
  match s with StepRunStatus.COMPLETED | StepRunStatus.SKIPPED => true | _ => false end.

Section resolve.
Context (snapshot : ExecutionSnapshot.t) (step_id : string) (ancestors : gset string).
Context (latest : list (string * StepRunSnapshot.t)).

Definition resolve_input (input_name : string) : res value :=
  match dict_get input_name (ExecutionSnapshot.workflow_inputs snapshot) with
  | Some v => Ok (freeze v)
  | None => Err (reference_error ("Step " +:+ step_id +:+ " references missing workflow input "
                                  +:+ input_name))
  end.

Definition resolve_node (source_step_id output_name : string) : res value :=
  if negb (bool_decide (source_step_id ∈ ancestors)) then
    Err (reference_error ("Step " +:+ step_id +:+ " references non-ancestor step " +:+ source_step_id))
  else
    match dict_get source_step_id latest with
    | None => Err (reference_error ("Step " +:+ step_id +:+ " references missing state for "
                                    +:+ source_step_id))
    | Some source_run =>
        _ ← fail_if (negb (is_success (StepRunSnapshot.status source_run)))
              (reference_error ("Step " +:+ step_id +:+ " references incomplete step " +:+ source_step_id));
        match dict_get output_name (StepRunSnapshot.outputs source_run) with
        | Some v => Ok (freeze v)
        | None => Err (reference_error ("Step " +:+ step_id +:+ " references missing output "
                                        +:+ source_step_id +:+ "." +:+ output_name))
        end
    end.

Definition resolve_text (text : string) : res value :=
  match parse_input_reference text with
  | Some input_name => resolve_input input_name
  | None =>
      match parse_node_reference text with
      | Some (source_step_id, output_name) => resolve_node source_step_id output_name
      | None =>
          if str_contains "${" text then
            Err (reference_error ("Step " +:+ step_id +:+ " contains unsupported reference "
                                  +:+ py_repr text))
          else Ok (VStr text)
      end
  end.

Fixpoint resolve_value (v : value) : res value :=
  match v with
  | VStr text => resolve_text text
  | VDict _ d =>
      d' ← map_ok (fun kv => x ← resolve_value kv.2; Ok (kv.1, x)) d;
      Ok (freeze (VDict false d'))
  | VTuple l | VList l => l' ← map_ok resolve_value l; Ok (VTuple l')
  | _ => Ok v
  end.
End resolve.

Definition resolve_step_inputs (definition : WorkflowDefinition.t) (step : StepDefinition.t)
    (snapshot : ExecutionSnapshot.t) : res mapping :=
  ancestors ← ancestors_of definition (StepDefinition.id step);
  latest ← ExecutionSnapshot.latest_attempts snapshot;
  d ← map_ok (fun kv => x ← resolve_value snapshot (StepDefinition.id step) ancestors latest kv.2;
                        Ok (kv.1, x)) (StepDefinition.input_mapping step);
  Ok (freeze_mapping d).

(** ** [resolve_workflow_outputs] *)

Definition resolve_output (latest : list (string * StepRunSnapshot.t)) (entry : string * value) :
    res (string * value) :=
  let '(output_name, reference) := entry in
  match reference with
  | VStr text =>
      match parse_node_reference text with
      | None => Err (reference_error ("Workflow output " +:+ output_name +:+ " has invalid reference "
                                      +:+ py_repr text))
      | Some (step_id, field_name) =>
          match dict_get step_id latest with
          | Some step_run =>
              _ ← fail_if (negb (is_success (StepRunSnapshot.status step_run)))
                    (reference_error ("Workflow output " +:+ output_name +:+ " references incomplete step "
                                      +:+ step_id));
              match dict_get field_name (StepRunSnapshot.outputs step_run) with
              | Some v => Ok (output_name, freeze v)
              | None => Err (reference_error ("Workflow output " +:+ output_name +:+ " references missing "
                                              +:+ step_id +:+ "." +:+ field_name))
              end
          | None => Err (reference_error ("Workflow output " +:+ output_name
                                          +:+ " references incomplete step " +:+ step_id))
          end
      end
  | _ => Err (Exn PyTypeError "expected string or bytes-like object")
  end.

Definition resolve_workflow_outputs (definition : WorkflowDefinition.t)
    (snapshot : ExecutionSnapshot.t) : res mapping :=
  latest ← ExecutionSnapshot.latest_attempts snapshot;
  resolved ← map_ok (resolve_output latest) (WorkflowDefinition.outputs definition);
  Ok (freeze_mapping (dict_update [] resolved)).

(** ** The ancestors are the transitive dependencies *)

(** [depends steps a b]: step [a] needs [b]. *)
Definition depends (steps : gmap string StepDefinition.t) (a b : string) : Prop :=
  exists s, steps !! a = Some s /\ b ∈ StepDefinition.needs s.

Section ancestors.
Context (definition : WorkflowDefinition.t).
Context (unique : NoDup (WorkflowDefinition.step_ids definition)).
Local Abbreviation steps := (step_by_id definition).

Lemma step_by_id_lookup sid s :
  steps !! sid = Some s <-> s ∈ WorkflowDefinition.steps definition /\ StepDefinition.id s = sid.
Proof using unique.
  unfold step_by_id, WorkflowDefinition.step_ids in *.
  assert (Hgen : forall l (m : gmap string StepDefinition.t), NoDup (StepDefinition.id <$> l) ->
    (forall s, s ∈ l -> m !! StepDefinition.id s = None) ->
    foldl (fun m s => <[StepDefinition.id s := s]> m) m l !! sid = Some s <->
    m !! sid = Some s \/ s ∈ l /\ StepDefinition.id s = sid).
  { induction l as [|x l IH]; intros m Hnd Hm; cbn [foldl].
    - split; [by left|]. by intros [?|[?%elem_of_nil _]].
    - rewrite fmap_cons in Hnd. apply NoDup_cons in Hnd as [Hx Hnd]. rewrite IH; [|done|].
      + rewrite lookup_insert_Some. split.
        * intros [[[<- <-]|[Hne Hs]]|[? ?]]; [right; split; [left|done]|by left|right; split; [by right|done]].
        * intros [Hs|[[->|Hin]%elem_of_cons Hid]].
          { left. right. split; [|done]. intros <-. rewrite Hm in Hs by left. done. }
          { left. by left. }
          { by right. }
      + intros y Hy. rewrite lookup_insert_ne; [apply Hm; by right|].
        intros Heq. apply Hx. rewrite Heq. apply list_elem_of_fmap. by exists y. }
  rewrite Hgen; [|done|intros; apply lookup_empty]. rewrite lookup_empty. naive_solver.
Qed.

(** Dependencies still to be listed: those of the steps not yet visited. *)
Definition unvisited (ancestors : gset string) : nat :=
  sum_list_with (fun s => if bool_decide (StepDefinition.id s ∈ ancestors) then O
                          else length (StepDefinition.needs s))
    (WorkflowDefinition.steps definition).

Lemma unvisited_visit ancestors a s :
  steps !! a = Some s -> a ∉ ancestors ->
  (unvisited ({[a]} ∪ ancestors) + length (StepDefinition.needs s) = unvisited ancestors)%nat.
Proof using unique.
  intros [Hs <-]%step_by_id_lookup Ha. unfold unvisited, WorkflowDefinition.step_ids in *.
  induction (WorkflowDefinition.steps definition) as [|x l IH]; [by apply elem_of_nil in Hs|].
  rewrite fmap_cons in unique. apply NoDup_cons in unique as [Hx Hnd]. cbn [sum_list_with].
  apply elem_of_cons in Hs as [<-|Hs].
  - rewrite bool_decide_true by set_solver. rewrite (bool_decide_false (StepDefinition.id s ∈ ancestors)) by done.
    assert (forall l, StepDefinition.id s ∉ StepDefinition.id <$> l ->
      sum_list_with (fun s0 => if bool_decide (StepDefinition.id s0 ∈ {[StepDefinition.id s]} ∪ ancestors)
        then O else length (StepDefinition.needs s0)) l =
      sum_list_with (fun s0 => if bool_decide (StepDefinition.id s0 ∈ ancestors)
        then O else length (StepDefinition.needs s0)) l) as Hext.
    { clear. induction l as [|y l IH]; intros Hn; [done|]. rewrite fmap_cons in Hn. cbn [sum_list_with].
      rewrite IH by set_solver. f_equal.
      rewrite (bool_decide_ext _ (StepDefinition.id y ∈ ancestors)) by set_solver. done. }
    rewrite (Hext l Hx). lia.
  - specialize (IH Hnd Hs).
    assert (StepDefinition.id x <> StepDefinition.id s) as Hid.
    { intros Heq. apply Hx. rewrite Heq. apply list_elem_of_fmap. by exists s. }
    rewrite (bool_decide_ext (StepDefinition.id x ∈ _) (StepDefinition.id x ∈ ancestors)) by set_solver.
    destruct (bool_decide _); lia.
Qed.

(** What the loop keeps: it has collected only transitive dependencies, and
    every dependency of a collected step is collected or pending. *)
Record ancestors_inv (sid : string) (pending : list string) (ancestors : gset string) : Prop := {
  ai_sound : forall a, a ∈ ancestors \/ a ∈ pending -> tc (depends steps) sid a;
  ai_closed : forall a b, (a = sid \/ a ∈ ancestors) -> depends steps a b -> b ∈ ancestors \/ b ∈ pending
}.

Lemma ancestors_loop_spec fuel sid pending ancestors :
  (length pending + unvisited ancestors < fuel)%nat ->
  ancestors_inv sid pending ancestors ->
  exists r, ancestors_loop fuel steps sid pending ancestors = Some r /\
    match r with
    | Ok final => ancestors_inv sid [] final
    | Err e => exn_kind e = InvalidReferenceError /\
        exists a, tc (depends steps) sid a /\ steps !! a = None
    end.
Proof using unique.
  revert pending ancestors. induction fuel as [|fuel IH]; intros pending ancestors Hf Hinv; [lia|].
  cbn [ancestors_loop]. destruct pending as [|a pending]; [by eexists|].
  destruct Hinv as [Hs Hc]. cbn in Hf. case_bool_decide as Ha.
  - apply IH; [lia|]. split; [set_solver|]. intros x y Hx Hxy. specialize (Hc x y Hx Hxy). set_solver.
  - destruct (steps !! a) as [s|] eqn:Hl.
    + apply IH.
      * rewrite length_app, length_rev. pose proof (unvisited_visit ancestors a s Hl Ha). lia.
      * assert (tc (depends steps) sid a) as Hta by (apply Hs; right; left). split.
        { intros x. rewrite elem_of_app, elem_of_union, elem_of_singleton.
          intros [[->|Hx]|[Hx|Hx]]; [done|apply Hs; by left| |apply Hs; right; by right].
          apply tc_r with a; [done|]. exists s. split; [done|]. by apply list_elem_of_In, in_rev, list_elem_of_In. }
        { intros x y Hx Hxy. rewrite elem_of_app, elem_of_union, elem_of_singleton.
          destruct (decide (x = a)) as [->|Hne].
          - destruct Hxy as (s' & Hs' & Hy). simplify_eq. right. left.
            by apply list_elem_of_In, in_rev; rewrite rev_involutive; apply list_elem_of_In.
          - destruct (Hc x y) as [?|[->|?]%elem_of_cons]; [set_solver|done|tauto..]. }
    + eexists. split; [done|]. split; [done|]. exists a. split; [|done]. apply Hs. right. left.
Qed.

Lemma ancestors_inv_final sid final :
  ancestors_inv sid [] final -> forall a, a ∈ final <-> tc (depends steps) sid a.
Proof.
  intros [Hs Hc] a. split; [intros; apply Hs; by left|].
  assert (Hgen : forall x, tc (depends steps) x a -> x = sid \/ x ∈ final -> a ∈ final).
  { induction 1 as [x y Hxy|x y z Hxy _ IH]; intros Hx.
    - destruct (Hc x y Hx Hxy) as [?|?%elem_of_nil]; done.
    - apply IH. right. destruct (Hc x y Hx Hxy) as [?|?%elem_of_nil]; done. }
  intros Ht. apply (Hgen sid Ht). by left.
Qed.

Lemma ancestors_of_cases sid s :
  steps !! sid = Some s ->
  match ancestors_of definition sid with
  | Ok final => forall a, a ∈ final <-> tc (depends steps) sid a
  | Err e => exn_kind e = InvalidReferenceError /\
      exists a, tc (depends steps) sid a /\ steps !! a = None
  end.
Proof using unique.
  intros Hs. unfold ancestors_of. rewrite Hs.
  destruct (ancestors_loop_spec (ancestors_fuel definition (StepDefinition.needs s)) sid
              (rev (StepDefinition.needs s)) ∅) as (r & -> & Hr).
  - unfold ancestors_fuel, unvisited. rewrite length_rev.
    assert (forall l, sum_list_with (fun s0 => if bool_decide (StepDefinition.id s0 ∈ (∅ : gset string))
      then O else length (StepDefinition.needs s0)) l = sum_list_with (fun s0 => length (StepDefinition.needs s0)) l)
      as ->; [|lia].
    induction l as [|x l IH]; [done|]. cbn [sum_list_with].
    rewrite bool_decide_false by set_solver. by rewrite IH.
  - assert (Hrev : forall b, b ∈ rev (StepDefinition.needs s) <-> b ∈ StepDefinition.needs s).
    { intros b. rewrite !list_elem_of_In. symmetry. apply in_rev. }
    split.
    + intros a [Ha|Ha]; [set_solver|]. apply tc_once. exists s. split; [done|]. by apply Hrev.
    + intros a b [->|Ha] (s' & Hs' & Hb); [|set_solver]. simplify_eq. right. by apply Hrev.
  - destruct r as [final|e]; [by apply ancestors_inv_final|done].
Qed.
End ancestors.

(** ** Properties *)

(** In a definition with unique step identifiers and no missing
    dependency, [ancestors_of] always returns, and returns exactly the
    transitive dependencies of the step; a dangling dependency among them is
    the only reason it raises. *)
Theorem ancestors_are_transitive_dependencies definition sid :
  NoDup (WorkflowDefinition.step_ids definition) ->
  sid ∈ WorkflowDefinition.step_ids definition ->
  match ancestors_of definition sid with
  | Ok final => forall a, a ∈ final <-> tc (depends (step_by_id definition)) sid a
  | Err e => exn_kind e = InvalidReferenceError /\
      exists a, tc (depends (step_by_id definition)) sid a /\ a ∉ WorkflowDefinition.step_ids definition
  end.
Proof.
  intros Hnd (s & -> & Hs)%list_elem_of_fmap.
  pose proof (ancestors_of_cases definition Hnd (StepDefinition.id s) s) as H.
  destruct (ancestors_of _ _) as [final|e].
  - apply H. by apply step_by_id_lookup.
  - destruct H as (Hk & a & Ha & Hn); [by apply step_by_id_lookup|]. split; [done|].
    exists a. split; [done|]. intros (s' & -> & Hs')%list_elem_of_fmap.
    assert (step_by_id definition !! StepDefinition.id s' = Some s') by (by apply step_by_id_lookup).
    congruence.
Qed.

(** ** Witness *)

Lemma ancestors_are_transitive_dependencies_witness :
  exists d final, WorkflowDefinition.from_domain (sample_workflow []) = Ok d /\
    ancestors_of d "check" = Ok final /\
    (forall a, a ∈ final <-> tc (depends (step_by_id d)) "check" a).
Proof.
  eexists _, _. split; [vm_compute; reflexivity|]. split; [vm_compute; reflexivity|].
  match goal with |- forall a, a ∈ ?final <-> tc (depends (step_by_id ?d)) "check" a =>
    assert (Hf : ancestors_of d "check" = Ok final) by (vm_compute; reflexivity);
    pose proof (ancestors_are_transitive_dependencies d "check") as H; rewrite Hf in H
  end.
  apply H; apply (bool_decide_unpack _); vm_compute; reflexivity.
Defined.
