(* ===== verification/Validator.v ===== *)
(** [backend/workflow_engine/services/validator.py]: the static checks on a
    workflow definition, and exactly what passes them. *)
From S2P Require Import Prelude Errors Text Float Value Graph Lifecycle Workflow Checkpoint Coordinator RetryPolicy EngineModels References.
From Stdlib Require Import SpecFloat.
Local Open Scope string_scope.
Local Open Scope list_scope.
Local Open Scope Z_scope.

Module Validator.
Import WorkflowDefinition.

Definition missing_dependencies (known : list string) (s : StepDefinition.t) : list string :=
  sort_strings (remove_dups (filter (fun d => d ∉ known) (StepDefinition.needs s))).

Definition check_kind (s : StepDefinition.t) : res unit :=
  match StepDefinition.kind s with
  | SKILL =>
      fail_if (match StepDefinition.uses s with
               | Some u => negb (str_contains "@" u)
               | None => true
               end)
        (definition_error ("Skill step " +:+ StepDefinition.id s +:+ " must pin skill_id@version"))
  | APPROVAL =>
      fail_if (match StepDefinition.uses s with Some _ => true | None => false end
               || match StepDefinition.approval_policy s with
                  | Some p => String.eqb p ""
                  | None => true
                  end)
        (definition_error ("Approval step " +:+ StepDefinition.id s +:+ " requires only an approval policy"))
  end.

Definition check_step (known : list string) (s : StepDefinition.t) : res unit :=
  _ ← fail_if (negb (is_identifier (StepDefinition.id s)))
        (definition_error ("Invalid workflow step id " +:+ py_repr (StepDefinition.id s)));
  _ ← fail_if (negb (bool_decide (NoDup (StepDefinition.needs s))))
        (definition_error ("Step " +:+ StepDefinition.id s +:+ " contains duplicate dependencies"));
  _ ← fail_if (bool_decide (StepDefinition.id s ∈ StepDefinition.needs s))
        (definition_error ("Step " +:+ StepDefinition.id s +:+ " cannot depend on itself"));
  let missing := missing_dependencies known s in
  _ ← fail_if (negb (bool_decide (missing = [])))
        (definition_error ("Step " +:+ StepDefinition.id s +:+ " has missing dependencies: "
                           +:+ join ", " missing));
  _ ← fail_if (StepDefinition.timeout_seconds s <=? 0)
        (definition_error ("Step " +:+ StepDefinition.id s +:+ " timeout must be positive"));
  _ ← fail_if (negb (String.eqb (StepDefinition.checkpoint_policy s) "after_success"))
        (definition_error ("Step " +:+ StepDefinition.id s +:+ " uses an unsupported checkpoint policy"));
  check_kind s.

Definition validate_acyclic (definition : t) : res unit :=
  let nodes := graph definition in
  let inbound := inbound_counts nodes in
  dependents ← dependents_table nodes (no_dependents nodes);
  match process_ready (S (List.length nodes)) dependents (Graph.roots nodes) inbound 0 with
  | Some (Ok visited) =>
      fail_if (negb (visited =? List.length (steps definition))%nat)
        (definition_error "Workflow dependencies contain a cycle")
  | Some (Err e) => Err e
  | None => Err (Exn PyRuntimeError "out of fuel")
  end.

Definition validate_step_reference (definition : t) (step_id : string) (ancestors : gset string)
    (reference : string) : res unit :=
  match parse_input_reference reference with
  | Some input_name =>
      fail_if (negb (dict_has input_name (input_schema definition)))
        (reference_error ("Step " +:+ step_id +:+ " references undefined input " +:+ input_name))
  | None =>
      match parse_node_reference reference with
      | Some (referenced_step, _) =>
          fail_if (negb (bool_decide (referenced_step ∈ ancestors)))
            (reference_error ("Step " +:+ step_id +:+ " references non-ancestor step " +:+ referenced_step))
      | None =>
          Err (reference_error ("Step " +:+ step_id +:+ " contains unsupported reference "
                                +:+ py_repr reference))
      end
  end.

Definition check_references (definition : t) (s : StepDefinition.t) : res unit :=
  ancestors ← ancestors_of definition (StepDefinition.id s);
  each_ok (validate_step_reference definition (StepDefinition.id s) ancestors)
    (iter_reference_strings (VDict true (StepDefinition.input_mapping s))).

Definition check_output (known : list string) (entry : string * value) : res unit :=
  let '(output_name, reference) := entry in
  _ ← fail_if (is_blank output_name) (reference_error "Workflow output name cannot be empty");
  match reference with
  | VStr text =>
      match parse_node_reference text with
      | None => Err (reference_error ("Workflow output " +:+ output_name +:+ " has invalid reference "
                                      +:+ py_repr text))
      | Some (referenced, _) =>
          fail_if (negb (bool_decide (referenced ∈ known)))
            (reference_error ("Workflow output " +:+ output_name +:+ " references missing step "
                              +:+ referenced))
      end
  | _ => Err (Exn PyTypeError "expected string or bytes-like object")
  end.

Definition validate (definition : t) : res unit :=
  _ ← fail_if (is_blank (id definition) || is_blank (version definition))
        (definition_error "Workflow id and version must be non-empty");
  _ ← fail_if (is_blank (name definition)) (definition_error "Workflow name must be non-empty");
  _ ← fail_if (negb (String.eqb (schema_version definition) "reagent/v1alpha1"))
        (definition_error ("Unsupported schema version " +:+ schema_version definition));
  _ ← fail_if (match steps definition with [] => true | _ => false end)
        (definition_error "Workflow must contain a step");
  _ ← fail_if (negb (bool_decide (NoDup (step_ids definition))))
        (definition_error "Workflow contains duplicate step ids");
  _ ← each_ok (check_step (step_ids definition)) (steps definition);
  _ ← validate_acyclic definition;
  _ ← each_ok (check_references definition) (steps definition);
  each_ok (check_output (step_ids definition)) (outputs definition).
End Validator.

(** ** What passes *)

Import WorkflowDefinition Validator.

(** The checks on one step. *)
Record valid_step (known : list string) (s : StepDefinition.t) : Prop := {
  vs_id : is_identifier (StepDefinition.id s) = true;
  vs_needs : NoDup (StepDefinition.needs s);
  vs_self : StepDefinition.id s ∉ StepDefinition.needs s;
  vs_known : forall d, d ∈ StepDefinition.needs s -> d ∈ known;
  vs_timeout : 0 < StepDefinition.timeout_seconds s;
  vs_checkpoint : StepDefinition.checkpoint_policy s = "after_success";
  vs_kind : match StepDefinition.kind s with
            | SKILL => exists u, StepDefinition.uses s = Some u /\ str_contains "@" u = true
            | APPROVAL => StepDefinition.uses s = None /\
                exists p, StepDefinition.approval_policy s = Some p /\ p <> ""
            end
}.

Lemma missing_nil known s :
  missing_dependencies known s = [] <-> forall d, d ∈ StepDefinition.needs s -> d ∈ known.
Proof.
  exact (missing_dependencies_nil known
    (WorkflowStep.mk "" SKILL (StepDefinition.needs s) None [] 0 0 "" f64_zero f64_zero "" None)).
Qed.

Lemma check_kind_Ok s :
  check_kind s = Ok tt <->
  match StepDefinition.kind s with
  | SKILL => exists u, StepDefinition.uses s = Some u /\ str_contains "@" u = true
  | APPROVAL => StepDefinition.uses s = None /\
      exists p, StepDefinition.approval_policy s = Some p /\ p <> ""
  end.
Proof.
  unfold check_kind. destruct (StepDefinition.kind s); rewrite fail_if_Ok.
  - destruct (StepDefinition.uses s) as [u|]; [rewrite negb_false_iff|]; naive_solver.
  - rewrite orb_false_iff. destruct (StepDefinition.uses s); [naive_solver|].
    destruct (StepDefinition.approval_policy s) as [p|]; [|naive_solver].
    rewrite String.eqb_neq. naive_solver.
Qed.

Lemma check_step_Ok known s : check_step known s = Ok tt <-> valid_step known s.
Proof.
  unfold check_step. cbn zeta. rewrite !then_Ok, !fail_if_Ok, check_kind_Ok.
  rewrite !negb_false_iff, !bool_decide_eq_true, bool_decide_eq_false, String.eqb_eq, Z.leb_gt, missing_nil.
  split; [intros (?&?&?&?&?&?&?); by split|by intros []].
Qed.

(** A reference of an input mapping to a declared input or to an ancestor. *)
Definition valid_reference (definition : t) (s : StepDefinition.t) (reference : string) : Prop :=
  (exists name, parse_input_reference reference = Some name /\
     dict_has name (input_schema definition) = true) \/
  (parse_input_reference reference = None /\
   exists st f, parse_node_reference reference = Some (st, f) /\
     tc (depends (step_by_id definition)) (StepDefinition.id s) st).

Record valid_definition (d : t) : Prop := {
  vd_id : is_blank (id d) = false;
  vd_version : is_blank (version d) = false;
  vd_name : is_blank (name d) = false;
  vd_schema : schema_version d = "reagent/v1alpha1";
  vd_nonempty : steps d <> [];
  vd_unique : NoDup (step_ids d);
  vd_steps : forall s, s ∈ steps d -> valid_step (step_ids d) s;
  vd_acyclic : acyclic_graph (graph d);
  vd_references : forall s r, s ∈ steps d ->
    r ∈ iter_reference_strings (VDict true (StepDefinition.input_mapping s)) -> valid_reference d s r;
  vd_outputs : forall n r, (n, r) ∈ outputs d ->
    is_blank n = false /\
    exists text st f, r = VStr text /\ parse_node_reference text = Some (st, f) /\ st ∈ step_ids d
}.

Lemma definition_graph_ids d : ids (graph d) = step_ids d.
Proof. unfold ids, graph, step_ids. by rewrite <- list_fmap_compose. Qed.

Lemma definition_well_formed d :
  NoDup (step_ids d) -> (forall s, s ∈ steps d -> valid_step (step_ids d) s) -> well_formed (graph d).
Proof.
  intros Hnd Hs. split.
  - by rewrite definition_graph_ids.
  - intros n (s & -> & Hin)%list_elem_of_fmap. by apply (Hs s Hin).
  - intros n x (s & -> & Hin)%list_elem_of_fmap Hx. rewrite definition_graph_ids.
    by eapply vs_known; [apply (Hs s Hin)|].
Qed.

Lemma definition_acyclic_Ok d :
  well_formed (graph d) ->
  (validate_acyclic d = Ok tt <-> acyclic_graph (graph d)) /\
  raises_only InvalidWorkflowDefinitionError (validate_acyclic d).
Proof.
  intros Hwf. unfold validate_acyclic.
  destruct (dependents_table_total _ Hwf) as [m Hm]. rewrite Hm. cbn [mbind result_bind].
  destruct (kahn_spec _ _ Hwf Hm) as (n & -> & Hn).
  assert (List.length (graph d) = List.length (steps d)) as Hlen by apply length_fmap.
  split; [|by apply raises_fail_if].
  rewrite fail_if_Ok, negb_false_iff, Nat.eqb_eq, <- Hlen. exact Hn.
Qed.

(** In a checked graph every step has its ancestors. *)
Lemma ancestors_defined d s :
  NoDup (step_ids d) -> (forall s, s ∈ steps d -> valid_step (step_ids d) s) -> s ∈ steps d ->
  exists final, ancestors_of d (StepDefinition.id s) = Ok final /\
    forall a, a ∈ final <-> tc (depends (step_by_id d)) (StepDefinition.id s) a.
Proof.
  intros Hnd Hv Hs. pose proof (ancestors_of_cases d Hnd (StepDefinition.id s) s) as H.
  destruct (ancestors_of d (StepDefinition.id s)) as [final|e].
  - exists final. split; [done|]. apply H. by apply step_by_id_lookup.
  - exfalso. destruct H as (_ & a & Ha & Hn); [by apply step_by_id_lookup|].
    assert (a ∈ step_ids d) as (s' & -> & Hs')%list_elem_of_fmap.
    { clear Hn. induction Ha as [x a (s' & [Hs' _]%step_by_id_lookup & Ha)|x b a _ _ IH]; [|done|done].
      by eapply vs_known; [apply (Hv s' Hs')|]. }
    assert (step_by_id d !! StepDefinition.id s' = Some s') by (by apply step_by_id_lookup). congruence.
Qed.

Lemma check_references_Ok d s :
  NoDup (step_ids d) -> (forall s, s ∈ steps d -> valid_step (step_ids d) s) -> s ∈ steps d ->
  check_references d s = Ok tt <->
  forall r, r ∈ iter_reference_strings (VDict true (StepDefinition.input_mapping s)) -> valid_reference d s r.
Proof.
  intros Hnd Hv Hs. destruct (ancestors_defined d s Hnd Hv Hs) as (final & Hf & Hfinal).
  unfold check_references. rewrite Hf. cbn [mbind result_bind]. rewrite each_ok_Ok.
  apply forall_proper. intros r. split; intros H Hr; specialize (H Hr).
  - unfold validate_step_reference in H. destruct (parse_input_reference r) as [name|] eqn:Hi.
    + apply fail_if_Ok in H. reflect_bools. left. by exists name.
    + right. split; [done|]. destruct (parse_node_reference r) as [[st f]|] eqn:Hp; [|done].
      apply fail_if_Ok in H. reflect_bools. exists st, f. split; [done|]. by apply Hfinal.
  - unfold validate_step_reference. destruct H as [(name & -> & Hn)|(-> & st & f & -> & Ht)];
      apply fail_if_Ok; [by rewrite Hn|]. rewrite bool_decide_true; [done|]. by apply Hfinal.
Qed.

Lemma definition_output_Ok known n r :
  check_output known (n, r) = Ok tt <->
  is_blank n = false /\
  exists text st f, r = VStr text /\ parse_node_reference text = Some (st, f) /\ st ∈ known.
Proof.
  unfold check_output. rewrite then_Ok, fail_if_Ok.
  split; intros [Hb H]; (split; [done|]).
  - destruct r; try done. destruct (parse_node_reference s) as [[st f]|] eqn:Hp; [|done].
    apply fail_if_Ok in H. reflect_bools. naive_solver.
  - destruct H as (text & st & f & -> & -> & Hin). apply fail_if_Ok. by rewrite bool_decide_true.
Qed.

Lemma validate_iff d : validate d = Ok tt <-> valid_definition d.
Proof.
  unfold validate. rewrite !then_Ok, !fail_if_Ok, !each_ok_Ok.
  rewrite !negb_false_iff, String.eqb_eq, bool_decide_eq_true, orb_false_iff.
  split.
  - intros ([Hi Hv] & Hn & Hs & Hne & Hu & Hsteps & Ha & Hr & Ho).
    assert (forall s, s ∈ steps d -> valid_step (step_ids d) s) as Hvs
      by (intros s Hin; by apply check_step_Ok, Hsteps).
    split; try done.
    + by destruct (steps d).
    + apply definition_acyclic_Ok; [by apply definition_well_formed|done].
    + intros s r Hin. by apply check_references_Ok, Hr.
    + intros n r Hin. apply definition_output_Ok, Ho, Hin.
  - intros [Hi Hv Hn Hs Hne Hu Hsteps Ha Hr Ho]. repeat (split; [done|]).
    split; [by destruct (steps d)|]. split; [done|]. split; [intros; by apply check_step_Ok, Hsteps|].
    split; [apply definition_acyclic_Ok; [by apply definition_well_formed|done]|].
    split; [intros s Hin; apply check_references_Ok; auto|].
    intros [n r] Hin. by apply definition_output_Ok, Ho.
Qed.

(** ** Properties *)

(** C21: the engine's validator accepts exactly the valid definitions: names
    set, supported schema, unique well-formed steps, dependencies that exist
    and form no cycle, references only to declared inputs and to transitive
    dependencies, and outputs taken from a step. *)
Theorem validator_accepts_exactly_valid d :
  is_ok (validate d) = true <-> valid_definition d.
Proof.
  rewrite <- validate_iff. destruct (validate d) as [[]|e]; cbn; [done|]. split; done.
Qed.
