(* ===== verification/Scheduler.v ===== *)
(** [backend/workflow_engine/services/scheduler.py]: the deterministic choice of
    the next step, with at most one active step. *)
From S2P Require Import Prelude Errors Text Float Value Graph Lifecycle Workflow Checkpoint Coordinator RetryPolicy EngineModels References Validator.
Local Open Scope string_scope.
Local Open Scope list_scope.
Local Open Scope Z_scope.

Import WorkflowDefinition.

Record ScheduledNode := Scheduled {
  sn_definition : StepDefinition.t;
  sn_step_run : StepRunSnapshot.t;
  sn_requires_ready_transition : bool
}.

Definition is_active (s : StepRunStatus.t) : bool :=
  match s with StepRunStatus.RUNNING | StepRunStatus.WAITING_APPROVAL => true | _ => false end.

Abbreviation latest_map := (list (string * StepRunSnapshot.t)).

(** [sorted(a - b)] on sets of step identifiers. *)
Definition sorted_difference (a b : list string) : list string :=
  sort_strings (remove_dups (filter (fun x => x ∉ b) a)).

Definition latest_for_definition (definition : t) (snapshot : ExecutionSnapshot.t) : res latest_map :=
  latest ← ExecutionSnapshot.latest_attempts snapshot;
  let missing := sorted_difference (step_ids definition) latest.*1 in
  let unknown := sorted_difference latest.*1 (step_ids definition) in
  _ ← fail_if (negb (bool_decide (missing = []) && bool_decide (unknown = [])))
        (state_error ("Execution step state does not match definition; missing=" +:+ list_repr missing
                      +:+ ", unknown=" +:+ list_repr unknown));
  Ok latest.

Definition active_runs (latest : latest_map) : list StepRunSnapshot.t :=
  filter (fun s => is_active (StepRunSnapshot.status s) = true) latest.*2.

Definition too_many_active : exn := state_error "V1 permits at most one active workflow step".

Definition all_successful (definition : t) (snapshot : ExecutionSnapshot.t) : res bool :=
  latest ← latest_for_definition definition snapshot;
  Ok (forallb (fun s => is_success (StepRunSnapshot.status s)) latest.*2).

Definition has_active_step (definition : t) (snapshot : ExecutionSnapshot.t) : res bool :=
  latest ← latest_for_definition definition snapshot;
  let active := active_runs latest in
  _ ← fail_if (1 <? Z.of_nat (List.length active)) too_many_active;
  Ok (negb (bool_decide (active = []))).

(** [latest[key]] *)
Definition lookup_latest (latest : latest_map) (key : string) : res StepRunSnapshot.t :=
  match dict_get key latest with Some s => Ok s | None => Err (Exn PyKeyError key) end.

(** [all(latest[dependency].status in SUCCESS_STATES for dependency in needs)] *)
Fixpoint dependencies_complete (latest : latest_map) (needs : list string) : res bool :=
  match needs with
  | [] => Ok true
  | dependency :: needs' =>
      s ← lookup_latest latest dependency;
      if is_success (StepRunSnapshot.status s) then dependencies_complete latest needs' else Ok false
  end.

(** One step's contribution to the candidates. *)
Definition add_candidate (index : nat) (step : StepDefinition.t) (step_run : StepRunSnapshot.t)
    (complete : bool) (rest : list (nat * ScheduledNode)) : list (nat * ScheduledNode) :=
  match StepRunSnapshot.status step_run with
  | StepRunStatus.READY => (index, Scheduled step step_run false) :: rest
  | StepRunStatus.CREATED => if complete then (index, Scheduled step step_run true) :: rest else rest
  | _ => rest
  end.

(** The loop over [enumerate(definition.steps)] that collects the candidates. *)
Fixpoint candidates (latest : latest_map) (index : nat) (steps : list StepDefinition.t) :
    res (list (nat * ScheduledNode)) :=
  match steps with
  | [] => Ok []
  | step :: steps' =>
      step_run ← lookup_latest latest (StepDefinition.id step);
      complete ← dependencies_complete latest (StepDefinition.needs step);
      _ ← fail_if (bool_decide (StepRunSnapshot.status step_run = StepRunStatus.READY) && negb complete)
            (state_error ("Step " +:+ StepDefinition.id step +:+ " is READY before its dependencies completed"));
      rest ← candidates latest (S index) steps';
      Ok (add_candidate index step step_run complete rest)
  end.

(** [min(candidates, key=lambda c: (c[0], c[1]))]: the first least one. *)
Definition candidate_lt (a b : nat * ScheduledNode) : bool :=
  (a.1 <? b.1)%nat
  || (a.1 =? b.1)%nat && String.ltb (StepDefinition.id (sn_definition a.2)) (StepDefinition.id (sn_definition b.2)).

Definition min_candidate (first : nat * ScheduledNode) (rest : list (nat * ScheduledNode)) :
    nat * ScheduledNode :=
  foldl (fun best c => if candidate_lt c best then c else best) first rest.

Definition select (definition : t) (snapshot : ExecutionSnapshot.t) : res (option ScheduledNode) :=
  latest ← latest_for_definition definition snapshot;
  let active := active_runs latest in
  _ ← fail_if (1 <? Z.of_nat (List.length active)) too_many_active;
  if negb (bool_decide (active = [])) then Ok None
  else
    found ← candidates latest 0 (steps definition);
    Ok (match found with
        | [] => None
        | first :: rest => Some (min_candidate first rest).2
        end).

(** ** What the scheduler relies on *)

Lemma sorted_difference_nil a b : sorted_difference a b = [] <-> forall x, x ∈ a -> x ∈ b.
Proof.
  exact (missing_nil b (StepDefinition.mk "" SKILL a None [] 0 (RetryPolicy.mk 0 "" f64_zero f64_zero) "" None)).
Qed.

(** The state has exactly the steps of the definition. *)
Lemma latest_for_definition_Ok d snap latest :
  latest_for_definition d snap = Ok latest <->
  ExecutionSnapshot.latest_attempts snap = Ok latest /\ forall sid, sid ∈ latest.*1 <-> sid ∈ step_ids d.
Proof.
  unfold latest_for_definition. rewrite bind_Ok. split.
  - intros (l & Hl & H). cbn zeta in H. rewrite then_Ok, fail_if_Ok in H. destruct H as [H [= <-]].
    split; [done|]. apply negb_false_iff in H. reflect_bools.
    intros sid. split; intros Hs; by eapply sorted_difference_nil.
  - intros [Hl Hs]. exists latest. split; [done|]. cbn zeta. rewrite then_Ok, fail_if_Ok. split; [|done].
    rewrite !bool_decide_true; [done|..]; apply sorted_difference_nil; intros; by apply Hs.
Qed.

Lemma latest_for_definition_raises d snap :
  raises_only WorkflowStateError (latest_for_definition d snap).
Proof.
  unfold latest_for_definition. apply raises_bind; [apply latest_raises|intros l _]. raises_tac.
Qed.

Lemma lookup_latest_total latest sid :
  NoDup latest.*1 -> sid ∈ latest.*1 -> exists s, lookup_latest latest sid = Ok s /\ dict_get sid latest = Some s.
Proof.
  intros Hnd ([k s] & -> & Hin)%list_elem_of_fmap. exists s. unfold lookup_latest.
  by rewrite (elem_dict_get _ _ s).
Qed.

Lemma dependencies_complete_spec latest needs :
  NoDup latest.*1 -> (forall x, x ∈ needs -> x ∈ latest.*1) ->
  exists b, dependencies_complete latest needs = Ok b /\
    (b = true <-> forall x, x ∈ needs -> exists s, dict_get x latest = Some s /\
                               is_success (StepRunSnapshot.status s) = true).
Proof.
  intros Hnd. induction needs as [|x needs IH]; intros Hk; cbn [dependencies_complete].
  - exists true. split; [done|]. split; [intros _ x Hx; by apply elem_of_nil in Hx|done].
  - destruct (lookup_latest_total latest x Hnd) as (s & Hl & Hg); [apply Hk; left|].
    rewrite Hl. cbn [mbind result_bind]. destruct (is_success _) eqn:Hs.
    + destruct IH as (b & -> & Hb); [intros; apply Hk; by right|]. exists b. split; [done|].
      rewrite Hb. split.
      * intros H y [->|Hy]%elem_of_cons; [by exists s|auto].
      * intros H y Hy. apply H. by right.
    + exists false. split; [done|]. split; [done|]. intros H.
      destruct (H x) as (s' & Hs' & Ht); [left|]. congruence.
Qed.

(** A step is eligible when it waits for nothing but the scheduler. *)
Definition eligible (latest : latest_map) (step : StepDefinition.t) (s : StepRunSnapshot.t) : Prop :=
  dict_get (StepDefinition.id step) latest = Some s /\
  (StepRunSnapshot.status s = StepRunStatus.READY \/ StepRunSnapshot.status s = StepRunStatus.CREATED) /\
  forall x, x ∈ StepDefinition.needs step -> exists r, dict_get x latest = Some r /\
    is_success (StepRunSnapshot.status r) = true.

Definition node_of (step : StepDefinition.t) (s : StepRunSnapshot.t) : ScheduledNode :=
  Scheduled step s (bool_decide (StepRunSnapshot.status s = StepRunStatus.CREATED)).

(** The candidates are the eligible steps, with increasing positions. *)
Lemma candidates_spec latest index l :
  NoDup latest.*1 -> (forall s, s ∈ l -> StepDefinition.id s ∈ latest.*1) ->
  (forall s x, s ∈ l -> x ∈ StepDefinition.needs s -> x ∈ latest.*1) ->
  match candidates latest index l with
  | Ok found =>
      (forall i n, (i, n) ∈ found -> (index <= i)%nat /\
         l !! (i - index)%nat = Some (sn_definition n) /\
         eligible latest (sn_definition n) (sn_step_run n) /\ n = node_of (sn_definition n) (sn_step_run n)) /\
      (forall j step s, l !! j = Some step -> eligible latest step s -> ((index + j)%nat, node_of step s) ∈ found) /\
      StronglySorted (fun a b => (a.1 < b.1)%nat) found
  | Err e => exn_kind e = WorkflowStateError
  end.
Proof.
  intros Hnd. revert index. induction l as [|step l IH]; intros index Hk Hn; cbn [candidates].
  - split; [|split; [|constructor]].
    + intros i n Hin. by apply elem_of_nil in Hin.
    + intros j step s Hj. done.
  - destruct (lookup_latest_total latest (StepDefinition.id step) Hnd) as (s & Hl & Hg); [apply Hk; left|].
    destruct (dependencies_complete_spec latest (StepDefinition.needs step) Hnd) as (b & Hd & Hb);
      [intros; eapply Hn; [left|done]|].
    rewrite Hl, Hd. cbn [mbind result_bind]. clear Hl Hd.
    destruct (_ && _) eqn:Hready; cbn [fail_if mbind result_bind]; [done|].
    specialize (IH (S index) (fun s H => Hk s (list_elem_of_further _ _ _ H))
                  (fun s x H => Hn s x (list_elem_of_further _ _ _ H))).
    destruct (candidates latest (S index) l) as [rest|e]; cbn [mbind result_bind]; [|done].
    destruct IH as (Hsound & Hcomplete & Hsorted).
    assert (Hrest_sound : forall i n, (i, n) ∈ rest -> (index <= i)%nat /\
         (step :: l) !! (i - index)%nat = Some (sn_definition n) /\
         eligible latest (sn_definition n) (sn_step_run n) /\ n = node_of (sn_definition n) (sn_step_run n)).
    { intros i n Hin. destruct (Hsound i n Hin) as (Hle & Hi & He). split; [lia|]. split; [|done].
      replace (i - index)%nat with (S (i - S index)) by lia. done. }
    assert (Hcons : forall requires, eligible latest step s ->
      Scheduled step s requires = node_of step s ->
      (forall i n, (i, n) ∈ (index, Scheduled step s requires) :: rest -> (index <= i)%nat /\
         (step :: l) !! (i - index)%nat = Some (sn_definition n) /\
         eligible latest (sn_definition n) (sn_step_run n) /\ n = node_of (sn_definition n) (sn_step_run n)) /\
      (forall j step' s', (step :: l) !! j = Some step' -> eligible latest step' s' ->
         ((index + j)%nat, node_of step' s') ∈ (index, Scheduled step s requires) :: rest) /\
      StronglySorted (fun a b => (a.1 < b.1)%nat) ((index, Scheduled step s requires) :: rest)).
    { intros requires He Heq. split; [|split].
      - intros i n [[= -> ->]|Hin]%elem_of_cons; [|by apply Hrest_sound].
        split; [lia|]. rewrite Nat.sub_diag. done.
      - intros [|j] step' s' Hj He'; cbn in Hj.
        + injection Hj as <-. destruct He as [He _], He' as [He' _]. rewrite He in He'. injection He' as <-.
          rewrite Nat.add_0_r, <- Heq. left.
        + right. replace (index + S j)%nat with (S index + j)%nat by lia. by apply Hcomplete.
      - constructor; [done|]. apply Forall_forall. intros [i n] Hin. cbn.
        destruct (Hsound i n Hin) as (Hle & _). lia. }
    assert (Hskip : ~ (exists s', eligible latest step s') ->
      (forall j step' s', (step :: l) !! j = Some step' -> eligible latest step' s' ->
         ((index + j)%nat, node_of step' s') ∈ rest)).
    { intros Hne [|j] step' s' Hj He'; cbn in Hj; [injection Hj as <-; exfalso; eauto|].
      replace (index + S j)%nat with (S index + j)%nat by lia. by apply Hcomplete. }
    assert (Hstatus : forall s', eligible latest step s' -> s' = s) by (intros s' [He _]; congruence).
    unfold add_candidate. destruct (StepRunSnapshot.status s) eqn:Hst; cbn in Hready;
      try (split; [done|split; [apply Hskip; intros [s' He]; pose proof (Hstatus _ He); subst;
             destruct He as (_ & [?|?] & _); congruence|done]]).
    + destruct b.
      * apply Hcons; [|unfold node_of; by rewrite Hst, bool_decide_true].
        split; [done|]. split; [by right|]. by apply Hb.
      * split; [done|]. split; [|done]. apply Hskip. intros [s' (_ & _ & He)].
        assert (false = true) by (by apply Hb). done.
    + destruct b; [|done]. apply Hcons; [|unfold node_of; by rewrite Hst].
      split; [done|]. split; [by left|]. by apply Hb.
Qed.

(** The least candidate is the first. *)
Lemma min_candidate_first first rest :
  Forall (fun b => (first.1 < b.1)%nat) rest -> min_candidate first rest = first.
Proof.
  intros H. unfold min_candidate. induction H as [|c rest Hc _ IH]; [done|]. cbn [foldl].
  assert (candidate_lt c first = false) as ->; [|done]. unfold candidate_lt.
  apply orb_false_iff. split; [apply Nat.ltb_ge; lia|].
  apply andb_false_iff. left. apply Nat.eqb_neq. lia.
Qed.
