(* ===== verification/Engine.v ===== *)
(** [backend/workflow_engine/services/workflow_engine.py]: the pure function
    from a definition and an execution snapshot to the next decision. *)
From S2P Require Import Prelude Errors Text Float Value Graph Lifecycle Workflow Checkpoint Coordinator RetryPolicy EngineModels References Validator Scheduler.
Local Open Scope string_scope.
Local Open Scope list_scope.
Local Open Scope Z_scope.

Section engine.
Context (definition : WorkflowDefinition.t) (snapshot : ExecutionSnapshot.t).

Definition base (checkpoint : bool) (why : string) : EngineDecision :=
  Base (ExecutionSnapshot.workflow_run_id snapshot) (WorkflowDefinition.id definition)
    (WorkflowDefinition.version definition) (ExecutionSnapshot.run_row_version snapshot)
    checkpoint why.

Definition no_action (why : string) : Decision_t := NoAction (base false why).

Definition workflow_failed (code message : string) (failed : option string)
    (version : option Z) (exhausted : bool) : Decision_t :=
  WorkflowFailed (base true message) code message failed version exhausted.

Definition validate_snapshot_identity : res unit :=
  fail_if (negb (String.eqb (ExecutionSnapshot.workflow_id snapshot) (WorkflowDefinition.id definition)
                 && String.eqb (ExecutionSnapshot.workflow_version snapshot)
                      (WorkflowDefinition.version definition)))
    (state_error "Execution snapshot does not pin the supplied Workflow definition").

(** [try: ... except <class> as error: return <handler(str(error))>] *)
Definition catching {A} (class : exn_class) (r : res A) (handler : string -> Decision_t)
    (k : A -> res Decision_t) : res Decision_t :=
  match r with
  | Ok a => k a
  | Err e => if is_instance (exn_kind e) class then Ok (handler (exn_msg e)) else Err e
  end.

Definition invalid_state (message : string) : Decision_t :=
  workflow_failed "INVALID_EXECUTION_STATE" message None None false.

Definition is_blocker (s : StepRunStatus.t) : bool :=
  match s with StepRunStatus.FAILED | StepRunStatus.CANCELLED => true | _ => false end.

(** Nothing is active and nothing is eligible. *)
Definition blocked : res Decision_t :=
  latest ← ExecutionSnapshot.latest_attempts snapshot;
  let terminal_blockers :=
    (filter (fun kv => is_blocker (StepRunSnapshot.status kv.2) = true) latest).*1 in
  Ok (if bool_decide (terminal_blockers = []) then
        workflow_failed "WORKFLOW_DEADLOCK" "Workflow has no active or eligible step" None None false
      else
        workflow_failed "BLOCKED_BY_TERMINAL_STEP"
          ("Workflow is blocked by terminal steps " +:+ list_repr (sort_strings terminal_blockers))
          None None false).

Definition complete_decision : res Decision_t :=
  catching InvalidReferenceError (resolve_workflow_outputs definition snapshot)
    (fun message => workflow_failed "INVALID_WORKFLOW_OUTPUT" message None None false)
    (fun outputs => Ok (WorkflowCompleted (base true "All workflow steps completed") outputs)).

Definition step_decision (scheduled : ScheduledNode) : res Decision_t :=
  let step := sn_definition scheduled in
  let step_run := sn_step_run scheduled in
  let failed code message :=
    workflow_failed code message (Some (StepDefinition.id step))
      (Some (StepRunSnapshot.row_version step_run)) false in
  match StepDefinition.kind step with
  | APPROVAL =>
      catching InvalidReferenceError (resolve_step_inputs definition step snapshot)
        (failed "INVALID_APPROVAL_INPUT_REFERENCE")
        (fun resolved_inputs =>
          Ok (WaitingApproval
                (base true ("Approval step " +:+ StepDefinition.id step +:+ " is ready"))
                (StepDefinition.id step) (StepRunSnapshot.id step_run)
                (StepRunSnapshot.attempt step_run) (StepRunSnapshot.row_version step_run)
                (default "" (StepDefinition.approval_policy step)) resolved_inputs
                (sn_requires_ready_transition scheduled)))
  | SKILL =>
      catching InvalidReferenceError (resolve_step_inputs definition step snapshot)
        (failed "INVALID_STEP_INPUT_REFERENCE")
        (fun resolved_inputs =>
          Ok (StepReady
                (base (sn_requires_ready_transition scheduled)
                   ("Skill step " +:+ StepDefinition.id step +:+ " is ready"))
                (StepDefinition.id step) (StepRunSnapshot.id step_run)
                (StepRunSnapshot.attempt step_run) (StepRunSnapshot.row_version step_run)
                (default "" (StepDefinition.uses step)) resolved_inputs
                (sn_requires_ready_transition scheduled)))
  end.

(** [next_decision] past the validation and the status tests. *)
Definition running_decision : res Decision_t :=
  catching WorkflowStateError
    (all_ok ← all_successful definition snapshot;
     active ← has_active_step definition snapshot;
     Ok (all_ok, active))
    invalid_state
    (fun '(all_ok, active) =>
      if (all_ok : bool) then complete_decision
      else if (active : bool) then Ok (no_action "A workflow step is already active")
      else
        catching WorkflowStateError (select definition snapshot) invalid_state
          (fun scheduled =>
            match scheduled with
            | None => blocked
            | Some node => step_decision node
            end)).

Definition next_decision : res Decision_t :=
  _ ← Validator.validate definition;
  _ ← validate_snapshot_identity;
  let status := ExecutionSnapshot.run_status snapshot in
  if WorkflowRunStatus.is_terminal status then
    Ok (no_action ("Workflow is terminal: " +:+ WorkflowRunStatus.value status))
  else if negb (bool_decide (status = WorkflowRunStatus.RUNNING)) then
    Ok (no_action ("Workflow is not runnable: " +:+ WorkflowRunStatus.value status))
  else if negb (bool_decide (ExecutionSnapshot.agent_status snapshot = AgentSessionStatus.ACTIVE)) then
    Ok (no_action ("Agent session is not active: "
                   +:+ AgentSessionStatus.value (ExecutionSnapshot.agent_status snapshot)))
  else running_decision.

Definition evaluate_failure (step_id : string) (retryable : bool) (error_code message : string) :
    res Decision_t :=
  _ ← Validator.validate definition;
  _ ← validate_snapshot_identity;
  _ ← fail_if (negb (bool_decide (ExecutionSnapshot.run_status snapshot = WorkflowRunStatus.RUNNING)))
        (state_error "Failure can be evaluated only for a running workflow");
  step ← WorkflowDefinition.get_step definition step_id;
  latest ← ExecutionSnapshot.latest_attempts snapshot;
  let inactive := state_error ("Failure can be evaluated only for active step " +:+ step_id) in
  match dict_get step_id latest with
  | None => Err inactive
  | Some step_run =>
      _ ← fail_if (negb (bool_decide (StepRunSnapshot.status step_run = StepRunStatus.RUNNING))) inactive;
      let attempt := StepRunSnapshot.attempt step_run in
      retry ← (if retryable then RetryPolicy.permits_retry (StepDefinition.retry_policy step) attempt
               else Ok false);
      if (retry : bool) then
        let next_attempt := attempt + 1 in
        delay ← RetryPolicy.delay_for_next_attempt (StepDefinition.retry_policy step) next_attempt;
        Ok (RetryScheduled (base true ("Retryable failure in step " +:+ step_id)) step_id
              (StepRunSnapshot.id step_run) attempt next_attempt (StepRunSnapshot.row_version step_run)
              delay (RetryPolicy.backoff (StepDefinition.retry_policy step)) error_code)
      else
        Ok (workflow_failed error_code
              (if String.eqb message "" then "Step " +:+ step_id +:+ " failed" else message)
              (Some step_id) (Some (StepRunSnapshot.row_version step_run)) retryable)
  end.

Definition evaluate_approval (step_id : string) (outcome : ApprovalOutcome.t)
    (outputs : option mapping) : res Decision_t :=
  _ ← Validator.validate definition;
  _ ← validate_snapshot_identity;
  step ← WorkflowDefinition.get_step definition step_id;
  _ ← fail_if (negb (bool_decide (StepDefinition.kind step = APPROVAL)))
        (state_error ("Step " +:+ step_id +:+ " is not an approval step"));
  latest ← ExecutionSnapshot.latest_attempts snapshot;
  match dict_get step_id latest with
  | None => Err (state_error ("Approval step " +:+ step_id +:+ " has no execution state"))
  | Some step_run =>
      match outcome with
      | ApprovalOutcome.APPROVED =>
          _ ← fail_if (negb (bool_decide (ExecutionSnapshot.run_status snapshot = WorkflowRunStatus.RUNNING)
                             && bool_decide (StepRunSnapshot.status step_run = StepRunStatus.RUNNING)))
                (state_error "Approved step must first resume to RUNNING from its checkpoint");
          Ok (ApprovalCompleted (base true ("Approval for step " +:+ step_id +:+ " accepted")) step_id
                (StepRunSnapshot.id step_run) (StepRunSnapshot.row_version step_run)
                (freeze_mapping (default [] outputs)))
      | _ =>
          _ ← fail_if (negb (bool_decide (ExecutionSnapshot.run_status snapshot
                                          = WorkflowRunStatus.WAITING_FOR_APPROVAL)
                             && bool_decide (StepRunSnapshot.status step_run
                                             = StepRunStatus.WAITING_APPROVAL)))
                (state_error "Rejected or expired approval must reference a waiting step");
          Ok (WorkflowCancelled
                (base true ("Approval for step " +:+ step_id +:+ ": " +:+ ApprovalOutcome.value outcome))
                (match outcome with
                 | ApprovalOutcome.REJECTED => "APPROVAL_REJECTED"
                 | _ => "APPROVAL_EXPIRED"
                 end)
                (Some step_id))
      end
  end.
End engine.
