(* ===== verification/EngineFacts.v ===== *)
(** What the engine decides: it always decides on a valid definition, it never
    reports a deadlock, it picks the first eligible step and it completes a
    workflow exactly when every step has succeeded. *)
From S2P Require Import Prelude Errors Text Float Value Graph Lifecycle Workflow Checkpoint Coordinator RetryPolicy EngineModels References Validator Scheduler Engine.
From Stdlib Require Import SpecFloat.
Local Open Scope string_scope.
Local Open Scope list_scope.
Local Open Scope Z_scope.

Import WorkflowDefinition.

(** ** Resolution only raises reference errors *)

Lemma raises_map_ok {A B} k (f : A -> res B) l :
  (forall x, x ∈ l -> raises_only k (f x)) -> raises_only k (map_ok f l).
Proof.
  induction l as [|x l IH]; intros Hf; cbn [map_ok]; [apply raises_Ok|].
  pose proof (Hf x (list_elem_of_here _ _)) as Hx.
  destruct (f x) as [y|e]; [|apply raises_Err; by apply Hx].
  specialize (IH (fun y H => Hf y (list_elem_of_further _ _ _ H))).
  destruct (map_ok f l) as [ys|e]; [apply raises_Ok|apply raises_Err; by apply IH].
Qed.

Lemma resolve_text_raises snap sid anc latest text :
  raises_only InvalidReferenceError (resolve_text snap sid anc latest text).
Proof. unfold resolve_text, resolve_input, resolve_node. raises_tac. Qed.

Lemma resolve_value_raises snap sid anc latest v :
  raises_only InvalidReferenceError (resolve_value snap sid anc latest v).
Proof.
  induction v as [| | | |s|l IH|l IH|b d IH] using value_ind; cbn [resolve_value]; try apply raises_Ok.
  - apply resolve_text_raises.
  - rewrite Forall_forall in IH. apply raises_bind; [by apply raises_map_ok|intros; apply raises_Ok].
  - rewrite Forall_forall in IH. apply raises_bind; [by apply raises_map_ok|intros; apply raises_Ok].
  - rewrite Forall_forall in IH. apply raises_bind; [|intros; apply raises_Ok].
    apply raises_map_ok. intros kv Hkv. apply raises_bind; [by apply IH|intros; apply raises_Ok].
Qed.

Lemma resolve_step_inputs_raises d step snap latest :
  valid_definition d -> step ∈ steps d -> ExecutionSnapshot.latest_attempts snap = Ok latest ->
  raises_only InvalidReferenceError (resolve_step_inputs d step snap).
Proof.
  intros Hv Hs Hl. unfold resolve_step_inputs. rewrite Hl.
  destruct (ancestors_defined d step) as (final & -> & _); [apply Hv|apply Hv|done|].
  cbn [mbind result_bind]. apply raises_bind; [|intros; apply raises_Ok].
  apply raises_map_ok. intros kv _. apply raises_bind; [apply resolve_value_raises|intros; apply raises_Ok].
Qed.

Lemma resolve_outputs_raises d snap latest :
  valid_definition d -> ExecutionSnapshot.latest_attempts snap = Ok latest ->
  raises_only InvalidReferenceError (resolve_workflow_outputs d snap).
Proof.
  intros Hv Hl. unfold resolve_workflow_outputs. rewrite Hl. cbn [mbind result_bind].
  apply raises_bind; [|intros; apply raises_Ok]. apply raises_map_ok. intros [n r] Hin.
  destruct (vd_outputs _ Hv n r Hin) as (_ & text & st & f & -> & Hp & _).
  unfold resolve_output. rewrite Hp. raises_tac.
Qed.

(** ** The choice *)

Section choice.
Context (d : t) (snap : ExecutionSnapshot.t) (latest : latest_map).
Context (valid : valid_definition d).
Context (Hlatest : latest_for_definition d snap = Ok latest).

Lemma latest_keys : NoDup latest.*1 /\ forall sid, sid ∈ latest.*1 <-> sid ∈ step_ids d.
Proof using Hlatest.
  apply latest_for_definition_Ok in Hlatest as [Hl Hd].
  split; [by eapply il_keys, latest_attempts_spec|done].
Qed.

Lemma step_known s : s ∈ steps d -> StepDefinition.id s ∈ latest.*1.
Proof using Hlatest. intros Hs. apply latest_keys, list_elem_of_fmap. by exists s. Qed.

Lemma need_known s x : s ∈ steps d -> x ∈ StepDefinition.needs s -> x ∈ latest.*1.
Proof using Hlatest valid.
  intros Hs Hx. apply latest_keys. by eapply vs_known; [apply (vd_steps _ valid s Hs)|].
Qed.

Definition first_eligible (n : ScheduledNode) : Prop :=
  exists j, steps d !! j = Some (sn_definition n) /\
    eligible latest (sn_definition n) (sn_step_run n) /\
    n = node_of (sn_definition n) (sn_step_run n) /\
    forall i step s, (i < j)%nat -> steps d !! i = Some step -> ~ eligible latest step s.

Lemma select_spec :
  match select d snap with
  | Ok (Some n) => active_runs latest = [] /\ first_eligible n
  | Ok None => active_runs latest = [] -> forall step s, step ∈ steps d -> ~ eligible latest step s
  | Err e => exn_kind e = WorkflowStateError
  end.
Proof using valid Hlatest.
  unfold select. rewrite Hlatest. cbn [mbind result_bind].
  destruct (1 <? _); cbn [fail_if mbind result_bind]; [done|].
  destruct (bool_decide (active_runs latest = [])) eqn:Ha; cbn [negb]; [|by reflect_bools].
  apply bool_decide_eq_true in Ha.
  pose proof (candidates_spec latest 0 (steps d) (proj1 latest_keys) step_known need_known) as H.
  destruct (candidates latest 0 (steps d)) as [found|e]; cbn [mbind result_bind]; [|done].
  destruct H as (Hsound & Hcomplete & Hsorted). destruct found as [|[j n] rest].
  - intros _ step s [i Hi]%list_elem_of_lookup He. specialize (Hcomplete i step s Hi He).
    by apply elem_of_nil in Hcomplete.
  - apply StronglySorted_inv in Hsorted as [_ Hlt]. rewrite min_candidate_first by done. cbn [snd].
    split; [done|]. destruct (Hsound j n) as (_ & Hj & He & Hn); [left|].
    rewrite Nat.sub_0_r in Hj. exists j. split; [done|]. split; [done|]. split; [done|].
    intros i step s Hij Hi He'. specialize (Hcomplete i step s Hi He'). cbn in Hcomplete.
    apply elem_of_cons in Hcomplete as [[= -> _]|Hin]; [lia|].
    rewrite Forall_forall in Hlt. specialize (Hlt _ Hin). cbn in Hlt. lia.
Qed.

(** Whether the latest attempt of a step succeeded. *)
Definition succeeded_in (x : string) : Prop :=
  exists r, dict_get x latest = Some r /\ is_success (StepRunSnapshot.status r) = true.

Instance succeeded_dec x : Decision (succeeded_in x).
Proof.
  unfold succeeded_in. destruct (dict_get x latest) as [r|]; [|right; naive_solver].
  destruct (is_success (StepRunSnapshot.status r)) eqn:Hs; [left; eauto|right].
  intros (r' & [= <-] & H). congruence.
Defined.

(** Acyclicity rules a deadlock out: with nothing active and nothing failed,
    an unfinished workflow has an eligible step. *)
Lemma unfinished_has_eligible :
  active_runs latest = [] ->
  (forall sid s, dict_get sid latest = Some s -> is_blocker (StepRunSnapshot.status s) = false) ->
  (forall x, x ∈ step_ids d -> succeeded_in x) \/
  exists step s, step ∈ steps d /\ eligible latest step s.
Proof using valid Hlatest.
  intros Hactive Hblock. destruct latest_keys as [Hnd Hkeys].
  destruct (acyclic_frontier (graph d) succeeded_in (vd_acyclic _ valid))
    as [Hall|(x & Hx & Hnot & Hdeps)].
  { left. intros x Hx. apply Hall. by rewrite definition_graph_ids. }
  right. rewrite definition_graph_ids in Hx. apply list_elem_of_fmap in Hx as (step & -> & Hs).
  destruct (lookup_latest_total latest (StepDefinition.id step) Hnd (step_known _ Hs)) as (s & _ & Hg).
  exists step, s. split; [done|]. split; [done|]. split.
  - assert (is_success (StepRunSnapshot.status s) = false) as Hns.
    { destruct (is_success _) eqn:?; [|done]. exfalso. apply Hnot. by exists s. }
    assert (is_active (StepRunSnapshot.status s) = false) as Hna.
    { destruct (is_active _) eqn:Hact; [|done]. exfalso.
      assert (s ∈ active_runs latest) as Hin; [|rewrite Hactive in Hin; by apply elem_of_nil in Hin].
      apply list_elem_of_filter. split; [done|]. apply dict_get_elem in Hg.
      apply list_elem_of_fmap. by eexists (_, s). }
    specialize (Hblock _ _ Hg). destruct (StepRunSnapshot.status s); cbn in *; try done; (by left) || by right.
  - intros y Hy. apply Hdeps. rewrite (needs_of_elem _ _ (StepDefinition.needs step)); [done|..].
    + rewrite definition_graph_ids. apply valid.
    + apply list_elem_of_fmap. by exists step.
Qed.
End choice.

(** ** Properties *)

Lemma all_successful_Ok d snap b :
  all_successful d snap = Ok b <->
  exists latest, latest_for_definition d snap = Ok latest /\
    b = forallb (fun s => is_success (StepRunSnapshot.status s)) latest.*2.
Proof. unfold all_successful. rewrite bind_Ok. naive_solver. Qed.

Lemma has_active_Ok d snap b :
  has_active_step d snap = Ok b <->
  exists latest, latest_for_definition d snap = Ok latest /\
    (List.length (active_runs latest) <= 1)%nat /\ b = negb (bool_decide (active_runs latest = [])).
Proof.
  unfold has_active_step. rewrite bind_Ok. split; intros (l & Hl & H); exists l; (split; [done|]).
  - cbn zeta in H. rewrite then_Ok, fail_if_Ok, Z.ltb_ge in H. destruct H as [H [= <-]]. split; [lia|done].
  - destruct H as [H ->]. cbn zeta. rewrite then_Ok, fail_if_Ok, Z.ltb_ge. split; [lia|done].
Qed.

Lemma scheduler_raises d snap :
  raises_only WorkflowStateError
    (all_ok ← all_successful d snap; active ← has_active_step d snap; Ok (all_ok, active)).
Proof.
  unfold all_successful, has_active_step.
  pose proof (latest_for_definition_raises d snap) as Hl.
  apply raises_bind; [apply raises_bind; [done|intros; apply raises_Ok]|intros ? _].
  apply raises_bind; [apply raises_bind; [done|intros; raises_tac]|intros; apply raises_Ok].
Qed.

Lemma catching_inv {A} class (r : res A) h k dec :
  raises_only class r -> is_instance class class = true -> catching class r h k = Ok dec ->
  (exists a, r = Ok a /\ k a = Ok dec) \/ (exists e, r = Err e /\ dec = h (exn_msg e)).
Proof.
  intros Hr Hc. destruct r as [a|e]; cbn; [eauto|]. rewrite (Hr e eq_refl), Hc. intros [= <-]. eauto.
Qed.

(** The outcome of a running workflow, by the way it was reached. *)
Lemma running_cases d snap dec :
  valid_definition d -> running_decision d snap = Ok dec ->
  (exists m, dec = invalid_state d snap m) \/
  exists latest, latest_for_definition d snap = Ok latest /\
    ((forallb (fun s => is_success (StepRunSnapshot.status s)) latest.*2 = true /\
      complete_decision d snap = Ok dec) \/
     (forallb (fun s => is_success (StepRunSnapshot.status s)) latest.*2 = false /\
      ((active_runs latest <> [] /\ dec = no_action d snap "A workflow step is already active") \/
       (active_runs latest = [] /\
        ((exists n, select d snap = Ok (Some n) /\ first_eligible d latest n /\ step_decision d snap n = Ok dec) \/
         (select d snap = Ok None /\ blocked d snap = Ok dec)))))).
Proof.
  intros Hv H. unfold running_decision in H. apply catching_inv in H; [|apply scheduler_raises|done].
  destruct H as [([all_ok active] & Hr & H)|(e & _ & ->)]; [|by left; eexists].
  rewrite bind_Ok in Hr. destruct Hr as (a' & Ha & Hr). rewrite bind_Ok in Hr.
  destruct Hr as (b' & Hb & [= -> ->]).
  apply all_successful_Ok in Ha as (latest & Hl & ->). apply has_active_Ok in Hb as (l' & Hl' & _ & ->).
  rewrite Hl in Hl'. injection Hl' as <-. destruct (forallb _ _) eqn:Hall; [right; exists latest; split; [done|]; by left|].
  destruct (bool_decide (active_runs latest = [])) eqn:Hact; reflect_bools; cbn [negb] in H.
  2:{ injection H as <-. right. exists latest. split; [done|]. right. split; [done|]. by left. }
  pose proof (select_spec d snap latest Hv Hl) as Hsel.
  apply catching_inv in H; [|intros e He; rewrite He in Hsel; done|done].
  destruct H as [(n & Hs & H)|(e & _ & ->)]; [|by left; eexists].
  right. exists latest. split; [done|]. right. split; [done|]. right. split; [done|].
  rewrite Hs in Hsel. destruct n as [n|]; [left; exists n; tauto|by right].
Qed.

(** What [next_decision] has established before it looks at the steps. *)
Lemma next_decision_running d snap dec :
  next_decision d snap = Ok dec ->
  valid_definition d /\
  ((exists why, dec = no_action d snap why) \/
   (ExecutionSnapshot.run_status snap = WorkflowRunStatus.RUNNING /\
    ExecutionSnapshot.agent_status snap = AgentSessionStatus.ACTIVE /\ running_decision d snap = Ok dec)).
Proof.
  unfold next_decision. rewrite !then_Ok. intros (Hv & _ & H). split; [by apply validate_iff|].
  case_in H; [injection H as <-; left; by eexists|].
  case_in H; [injection H as <-; left; by eexists|].
  case_in H; [injection H as <-; left; by eexists|]. reflect_bools. by right.
Qed.

(** C1: the engine never reports [WORKFLOW_DEADLOCK]: on an accepted definition
    every execution state in which no step is active, none has failed or been
    cancelled and not all have succeeded has an eligible step. *)
Theorem engine_never_deadlocks d snap b m f v x :
  next_decision d snap <> Ok (WorkflowFailed b "WORKFLOW_DEADLOCK" m f v x).
Proof.
  intros (Hv & [(why & [=])|(_ & _ & H)])%next_decision_running.
  apply (running_cases _ _ _ Hv) in H as [(m' & [=])|(latest & Hl & [[_ H]|[Hall [[_ [=]]|[Hact H]]]])].
  { apply catching_inv in H as [(o & _ & [=])|(e & _ & [=])]; [|done].
    apply latest_for_definition_Ok in Hl as [Hl _]. by eapply resolve_outputs_raises. }
  destruct H as [(n & _ & (j & Hj & _) & H)|[Hsel H]].
  - apply list_elem_of_lookup_2 in Hj. apply latest_for_definition_Ok in Hl as [Hl _].
    unfold step_decision in H. destruct (StepDefinition.kind _);
      (apply catching_inv in H as [(o & _ & [=])|(e & _ & [=])];
        [by eapply resolve_step_inputs_raises|done]).
  - pose proof (select_spec d snap latest Hv Hl) as Hs. rewrite Hsel in Hs. specialize (Hs Hact).
    unfold blocked in H. apply latest_for_definition_Ok in Hl as Hl2. destruct Hl2 as [Hla _].
    rewrite Hla in H. cbn [mbind result_bind] in H. case_in H; [|discriminate H]. clear H. reflect_bools.
    destruct (unfinished_has_eligible d snap latest Hv Hl Hact) as [Hdone|(step & s & Hst & He)].
    + intros sid s Hg. destruct (is_blocker _) eqn:Hb; [|done]. exfalso.
      assert (sid ∈ (filter (fun kv => is_blocker (StepRunSnapshot.status kv.2) = true) latest).*1) as Hin.
      { apply list_elem_of_fmap. exists (sid, s). split; [done|]. apply list_elem_of_filter.
        split; [done|]. by apply dict_get_elem. }
      rewrite Heqb0 in Hin. by apply elem_of_nil in Hin.
    + apply not_true_iff_false in Hall. apply Hall, forallb_forall. intros s Hin%list_elem_of_In.
      apply list_elem_of_fmap in Hin as ([sid s'] & -> & Hin).
      destruct (latest_keys d snap latest Hl) as [Hnd Hkeys].
      destruct (Hdone sid) as (r & Hr & Hs').
      { apply Hkeys, list_elem_of_fmap. by eexists (_, _). }
      rewrite (elem_dict_get _ _ _ Hnd Hin) in Hr. injection Hr as <-. done.
    + by eapply Hs.
Qed.

(** The scheduling fields of a decision to run a step or to wait for it. *)
Definition decision_target (dec : Decision_t) : option (string * Z * Z * bool) :=
  match dec with
  | StepReady _ sid _ a v _ _ r | WaitingApproval _ sid _ a v _ _ r => Some (sid, a, v, r)
  | _ => None
  end.

Lemma chosen_step d snap dec sid a v requires :
  next_decision d snap = Ok dec -> decision_target dec = Some (sid, a, v, requires) ->
  exists latest j step s,
    latest_for_definition d snap = Ok latest /\
    ExecutionSnapshot.run_status snap = WorkflowRunStatus.RUNNING /\
    ExecutionSnapshot.agent_status snap = AgentSessionStatus.ACTIVE /\
    active_runs latest = [] /\
    steps d !! j = Some step /\ StepDefinition.id step = sid /\ eligible latest step s /\
    StepRunSnapshot.attempt s = a /\ StepRunSnapshot.row_version s = v /\
    requires = bool_decide (StepRunSnapshot.status s = StepRunStatus.CREATED) /\
    forall i step' s', (i < j)%nat -> steps d !! i = Some step' -> ~ eligible latest step' s'.
Proof.
  intros (Hv & [(why & ->)|(Hrun & Hses & H)])%next_decision_running Ht; [done|].
  apply (running_cases _ _ _ Hv) in H
    as [(m' & ->)|(latest & Hl & [[_ H]|[Hall [[_ ->]|[Hact H]]]])]; [done| |done|].
  { apply catching_inv in H as [(o & _ & [= <-])|(e & _ & ->)]; [done|done| |done].
    apply latest_for_definition_Ok in Hl as [Hl _]. by eapply resolve_outputs_raises. }
  destruct H as [(n & _ & (j & Hj & He & Hn & Hfirst) & H)|[_ H]].
  - exists latest, j, (sn_definition n), (sn_step_run n). repeat (split; [done|]).
    assert (raises_only InvalidReferenceError (resolve_step_inputs d (sn_definition n) snap)) as Hres.
    { apply latest_for_definition_Ok in Hl as [Hl _].
      eapply resolve_step_inputs_raises; [done|by eapply list_elem_of_lookup_2|done]. }
    assert (sn_requires_ready_transition n = bool_decide (StepRunSnapshot.status (sn_step_run n) = StepRunStatus.CREATED))
      as Hreq by (rewrite Hn at 1; done).
    unfold step_decision in H. destruct (StepDefinition.kind _);
      (apply catching_inv in H as [(o & _ & [= <-])|(e & _ & ->)]; [|done|done|done]);
      cbn in Ht; injection Ht as <- <- <- <-; by rewrite Hreq.
  - unfold blocked in H. rewrite bind_Ok in H. destruct H as (l & _ & H). cbn zeta in H.
    case_in H; injection H as <-; done.
Qed.

(** C22: when the engine hands out a step, the run and the session are running,
    no step is active, and the step is the first of the definition that is
    eligible: its latest attempt is [READY] or [CREATED] and all its
    dependencies have succeeded.  The decision carries that attempt's number
    and version, and asks for a transition exactly when it is [CREATED]. *)
Theorem first_eligible_step_is_chosen d snap dec sid a v requires :
  next_decision d snap = Ok dec -> decision_target dec = Some (sid, a, v, requires) ->
  exists latest j step s,
    latest_for_definition d snap = Ok latest /\
    ExecutionSnapshot.run_status snap = WorkflowRunStatus.RUNNING /\
    ExecutionSnapshot.agent_status snap = AgentSessionStatus.ACTIVE /\
    active_runs latest = [] /\
    steps d !! j = Some step /\ StepDefinition.id step = sid /\ eligible latest step s /\
    StepRunSnapshot.attempt s = a /\ StepRunSnapshot.row_version s = v /\
    requires = bool_decide (StepRunSnapshot.status s = StepRunStatus.CREATED) /\
    forall i step' s', (i < j)%nat -> steps d !! i = Some step' -> ~ eligible latest step' s'.
Proof. apply chosen_step. Qed.

(** A running workflow whose steps have all succeeded gets to its outputs. *)
Lemma succeeded_decision d snap latest :
  valid_definition d -> validate_snapshot_identity d snap = Ok tt ->
  ExecutionSnapshot.run_status snap = WorkflowRunStatus.RUNNING ->
  ExecutionSnapshot.agent_status snap = AgentSessionStatus.ACTIVE ->
  latest_for_definition d snap = Ok latest ->
  (forall sid s, (sid, s) ∈ latest -> is_success (StepRunSnapshot.status s) = true) ->
  next_decision d snap = complete_decision d snap.
Proof.
  intros Hv Hid Hrun Hses Hl Hall. unfold next_decision.
  rewrite (proj2 (validate_iff d) Hv), Hid, Hrun, Hses. cbn -[running_decision]. unfold running_decision.
  assert (active_runs latest = []) as Hact.
  { unfold active_runs. destruct (filter _ _) as [|s l] eqn:Hf; [done|].
    assert (s ∈ filter (fun s => is_active (StepRunSnapshot.status s) = true) latest.*2) as Hs by (rewrite Hf; by left).
    apply list_elem_of_filter in Hs as [Ha ([sid s'] & -> & Hin)%list_elem_of_fmap].
    apply Hall in Hin. cbn in Ha. by destruct (StepRunSnapshot.status s'). }
  assert (forallb (fun s => is_success (StepRunSnapshot.status s)) latest.*2 = true) as Hb.
  { apply forallb_forall. intros s ([sid s'] & -> & Hin)%list_elem_of_In%list_elem_of_fmap. by eapply Hall. }
  unfold all_successful, has_active_step. rewrite Hl. cbn [mbind result_bind]. cbn zeta. by rewrite Hact, Hb.
Qed.

(** What a completion has established. *)
Lemma completed_steps d snap b o : next_decision d snap = Ok (WorkflowCompleted b o) ->
  exists latest, latest_for_definition d snap = Ok latest /\
    (forall sid s, (sid, s) ∈ latest -> is_success (StepRunSnapshot.status s) = true) /\
    resolve_workflow_outputs d snap = Ok o.
Proof.
  intros (Hv & [(why & [=])|(_ & _ & H)])%next_decision_running.
  apply (running_cases _ _ _ Hv) in H
    as [(m' & [=])|(latest & Hl & [[Hall H]|[Hall [[_ [=]]|[Hact H]]]])].
  - exists latest. split; [done|]. split.
    { intros sid s Hin. rewrite forallb_forall in Hall. apply Hall, list_elem_of_In, list_elem_of_fmap.
      by exists (sid, s). }
    apply latest_for_definition_Ok in Hl as [Hl _].
    apply catching_inv in H as [(o' & Ho & [= _ ->])|(e & _ & [=])]; [done| |done].
    by eapply resolve_outputs_raises.
  - exfalso. destruct H as [(n & _ & (j & Hj & _) & H)|[_ H]].
    + apply list_elem_of_lookup_2 in Hj. apply latest_for_definition_Ok in Hl as [Hl _].
      unfold step_decision in H. destruct (StepDefinition.kind _);
        (apply catching_inv in H as [(o' & _ & [=])|(e & _ & [=])];
          [by eapply resolve_step_inputs_raises|done]).
    + unfold blocked in H. rewrite bind_Ok in H. destruct H as (l & _ & H). cbn zeta in H.
      by case_in H.
Qed.

(** C23: the engine completes a running workflow exactly when the latest attempt
    of every step has succeeded and the outputs resolve, and it completes it
    with those outputs; if the steps have succeeded and the outputs do not
    resolve, it fails the workflow with [INVALID_WORKFLOW_OUTPUT] instead. *)
Theorem completion_iff_all_succeeded d snap :
  valid_definition d -> validate_snapshot_identity d snap = Ok tt ->
  ExecutionSnapshot.run_status snap = WorkflowRunStatus.RUNNING ->
  ExecutionSnapshot.agent_status snap = AgentSessionStatus.ACTIVE ->
  (forall o,
    (exists b, next_decision d snap = Ok (WorkflowCompleted b o)) <->
    exists latest, latest_for_definition d snap = Ok latest /\
      (forall sid s, (sid, s) ∈ latest -> is_success (StepRunSnapshot.status s) = true) /\
      resolve_workflow_outputs d snap = Ok o) /\
  (forall latest e,
    latest_for_definition d snap = Ok latest ->
    (forall sid s, (sid, s) ∈ latest -> is_success (StepRunSnapshot.status s) = true) ->
    resolve_workflow_outputs d snap = Err e ->
    exists b, next_decision d snap = Ok (WorkflowFailed b "INVALID_WORKFLOW_OUTPUT" (exn_msg e) None None false)).
Proof.
  intros Hv Hid Hrun Hses. split.
  - intros o. split; [intros [b H]; by eapply completed_steps|].
    intros (latest & Hl & Hall & Ho). rewrite (succeeded_decision d snap latest) by done.
    unfold complete_decision. rewrite Ho. by eexists.
  - intros latest e Hl Hall Ho. rewrite (succeeded_decision d snap latest) by done.
    unfold complete_decision, catching. apply latest_for_definition_Ok in Hl as [Hl _].
    pose proof (resolve_outputs_raises d snap latest Hv Hl e Ho) as Hk. rewrite Ho, Hk. by eexists.
Qed.

(** C24: on an accepted definition and a snapshot that pins it, the engine always
    returns a decision: no inconsistency of the snapshot makes it raise. *)
Theorem next_decision_total d snap :
  valid_definition d -> validate_snapshot_identity d snap = Ok tt ->
  exists dec, next_decision d snap = Ok dec.
Proof.
  intros Hv Hid. unfold next_decision. rewrite (proj2 (validate_iff d) Hv), Hid. cbn [mbind result_bind].
  cbn zeta. do 3 (case_goal; [by eexists|]). clear Heqb Heqb0 Heqb1.
  unfold running_decision, catching at 1.
  destruct (all_ok ← _; _) as [[all_ok active]|e] eqn:Hr;
    [|rewrite (scheduler_raises d snap e Hr); by eexists].
  rewrite bind_Ok in Hr. destruct Hr as (a' & (latest & Hl & _)%all_successful_Ok & _).
  pose proof Hl as [Hla _]%latest_for_definition_Ok.
  destruct all_ok.
  { unfold complete_decision, catching. pose proof (resolve_outputs_raises d snap latest Hv Hla) as Ho.
    destruct (resolve_workflow_outputs _ _) as [o|e]; [by eexists|]. rewrite (Ho e eq_refl). by eexists. }
  destruct active; [by eexists|]. pose proof (select_spec d snap latest Hv Hl) as Hsel.
  unfold catching. destruct (select d snap) as [[n|]|e]; [..|rewrite Hsel; by eexists].
  - destruct Hsel as (_ & j & Hj & _). apply list_elem_of_lookup_2 in Hj.
    pose proof (resolve_step_inputs_raises d _ snap latest Hv Hj Hla) as Hi.
    unfold step_decision, catching. destruct (StepDefinition.kind _);
      (destruct (resolve_step_inputs _ _ _) as [o|e]; [by eexists|]; rewrite (Hi e eq_refl); by eexists).
  - unfold blocked. rewrite Hla. cbn. by eexists.
Qed.
