(* ===== verification/EngineCoordinator.v ===== *)
(** [backend/workflow_engine/services/execution_coordinator.py]: decisions of
    the engine applied to an execution through the domain coordinator. *)
From S2P Require Import Prelude Errors Text Float Value Graph Lifecycle Workflow Checkpoint Coordinator RetryPolicy EngineModels References Validator Scheduler Engine.
Local Open Scope string_scope.
Local Open Scope list_scope.
Local Open Scope Z_scope.

Definition stale (message : string) : exn := Exn StaleDecisionError message.

Section engine_coordinator.
Context (clock : nat -> datetime) (id_factory : nat -> string -> string).

Definition decide (x : ExecutionState.t) : res Decision_t :=
  definition ← WorkflowDefinition.from_domain (ExecutionState.workflow x);
  next_decision definition (ExecutionSnapshot.from_execution x).

Definition evaluate_failure_of (x : ExecutionState.t) (step_id : string) (retryable : bool)
    (error_code message : string) : res Decision_t :=
  definition ← WorkflowDefinition.from_domain (ExecutionState.workflow x);
  evaluate_failure definition (ExecutionSnapshot.from_execution x) step_id retryable error_code message.

Definition validate_decision (x : ExecutionState.t) (decision : Decision_t) : res unit :=
  let run := ExecutionState.workflow_run x in
  let b := decision_base decision in
  _ ← fail_if (negb (String.eqb (workflow_run_id b) (WorkflowRun.id run)
                     && String.eqb (workflow_id b) (WorkflowRun.workflow_id run)
                     && String.eqb (workflow_version b) (WorkflowRun.workflow_version run)))
        (stale "Decision belongs to another workflow run/version");
  _ ← fail_if (negb (expected_run_version b =? WorkflowRun.row_version run))
        (stale ("Decision expected run version " +:+ int_str (expected_run_version b)
                +:+ "; current version is " +:+ int_str (WorkflowRun.row_version run)));
  match decision_step_id decision, decision_step_version decision with
  | Some step_id, Some expected =>
      current ← ExecutionState.latest_step_run x step_id;
      fail_if (negb (StepRun.row_version current.2 =? expected))
        (stale ("Decision expected step " +:+ step_id +:+ " version " +:+ int_str expected
                +:+ "; current version is " +:+ int_str (StepRun.row_version current.2)))
  | _, _ => Ok tt
  end.

Abbreviation update := (update_step_state clock id_factory).

(** The branch of [apply_decision] for a failed workflow. *)
Definition apply_failure (failed_step_id : option string) (error_code : string) :
    M exn world (option Checkpoint.t) :=
  let fail_all := c ← fail_execution clock id_factory error_code; mret (Some c) in
  match failed_step_id with
  | Some step_id =>
      failed_step ← reads (fun x => ExecutionState.latest_step_run x step_id);
      if bool_decide (StepRun.status failed_step.2 = StepRunStatus.RUNNING) then
        update step_id StepRunStatus.FAILED None (Some error_code) false
      else fail_all
  | None => fail_all
  end.

Definition apply_decision (decision : Decision_t) : M exn world (option Checkpoint.t) :=
  reads (fun x => validate_decision x decision) ;;
  match decision with
  | StepReady _ step_id _ _ _ _ resolved_inputs requires =>
      if requires then mark_step_ready clock id_factory step_id (Some resolved_inputs) true
      else mret None
  | WaitingApproval _ step_id _ _ _ _ resolved_inputs requires =>
      (if requires then mark_step_ready clock id_factory step_id (Some resolved_inputs) false
       else mret None) ;;
      update step_id StepRunStatus.RUNNING None None false ;;
      update step_id StepRunStatus.WAITING_APPROVAL None None false
  | RetryScheduled _ step_id _ _ _ _ _ _ error_code =>
      update step_id StepRunStatus.FAILED None (Some error_code) true
  | WorkflowCompleted _ outputs => c ← complete_workflow clock id_factory outputs; mret (Some c)
  | WorkflowFailed _ error_code _ failed_step_id _ _ => apply_failure failed_step_id error_code
  | ApprovalCompleted _ step_id _ _ outputs =>
      update step_id StepRunStatus.COMPLETED (Some outputs) None false
  | WorkflowCancelled _ _ _ => c ← cancel_execution clock id_factory; mret (Some c)
  | NoAction _ => mret None
  end.

(** [decide] then [apply_decision]: one turn of the engine. *)
Definition turn : M exn world Decision_t :=
  decision ← reads decide;
  apply_decision decision ;;
  mret decision.

Definition resolve_approval (checkpoint : Checkpoint.t) (outcome : ApprovalOutcome.t)
    (outputs : option mapping) : M exn world Decision_t :=
  x ← gets execution;
  let wait_reason := default "" (WorkflowRun.wait_reason (ExecutionState.workflow_run x)) in
  raise_if (negb (starts_with "approval:" wait_reason))
    (state_error "Execution is not waiting on an approval step") ;;
  let step_id := removeprefix "approval:" wait_reason in
  definition ← lift_result (WorkflowDefinition.from_domain (ExecutionState.workflow x));
  decision ←
    match outcome with
    | ApprovalOutcome.APPROVED =>
        resume_from_checkpoint clock id_factory checkpoint ;;
        reads (fun x => evaluate_approval definition (ExecutionSnapshot.from_execution x)
                          step_id outcome outputs)
    | _ => reads (fun x => evaluate_approval definition (ExecutionSnapshot.from_execution x)
                             step_id outcome None)
    end;
  apply_decision decision ;;
  mret decision.

Definition resume_and_decide (checkpoint : Checkpoint.t) : M exn world Decision_t :=
  x ← gets execution;
  raise_if (bool_decide (WorkflowRun.status (ExecutionState.workflow_run x)
                         = WorkflowRunStatus.WAITING_FOR_APPROVAL))
    (state_error "Approval checkpoints require resolve_approval with a typed outcome") ;;
  resume_from_checkpoint clock id_factory checkpoint ;;
  reads decide.
End engine_coordinator.
