(* ===== verification/EngineCoordinatorFacts.v ===== *)
(** Decisions are fresh when they are made, refused once they are stale, and
    their application keeps the invariants of the domain coordinator. *)
From S2P Require Import Prelude Errors Text Float Value Graph Json Lifecycle Workflow Checkpoint Coordinator CoordinatorFacts RetryPolicy EngineModels References Validator Scheduler Engine EngineFacts EngineCoordinator CancelFacts.
From Stdlib Require Import SpecFloat.
Local Open Scope string_scope.
Local Open Scope list_scope.
Local Open Scope Z_scope.

(** ** The invariants *)

Section invariants.
Context (clock : nat -> datetime) (id_factory : nat -> string -> string).
Context (R : relation ExecutionState.t) `{!PreOrder R}.
Context (operations : forall op, respects R (perform clock id_factory op)).

Lemma respects_discarded {A} (m : M exn world A) : respects R (discard m) -> respects R m.
Proof using.
  intros H w. specialize (H w). unfold discard, mbind, M_bind in H.
  by destruct (m w) as [[a|e] w'].
Qed.

Lemma respects_apply decision : respects R (apply_decision clock id_factory decision).
Proof using All.
  assert (Hup : forall i t o e r, respects R (update_step_state clock id_factory i t o e r))
    by (intros; apply respects_discarded, (operations (OpUpdate i t o e r))).
  assert (Hready : forall i inp c, respects R (mark_step_ready clock id_factory i inp c))
    by (intros; apply respects_discarded, (operations (OpReady i inp c))).
  assert (Hcomplete : forall o, respects R (complete_workflow clock id_factory o))
    by (intros; apply respects_discarded, (operations (OpComplete o))).
  assert (Hfail : forall e, respects R (fail_execution clock id_factory e))
    by (intros; apply respects_discarded, (operations (OpFail e))).
  pose proof (respects_discarded _ (operations OpCancel)) as Hcancel.
  unfold apply_decision, apply_failure. respects_tac.
Qed.

Lemma respects_turn : respects R (turn clock id_factory).
Proof using All. unfold turn. pose proof respects_apply. respects_tac. Qed.

Lemma respects_resolve_approval c o out : respects R (resolve_approval clock id_factory c o out).
Proof using All.
  pose proof respects_apply.
  pose proof (fun c => respects_discarded _ (operations (OpResume c))) as Hresume.
  unfold resolve_approval. respects_tac.
Qed.

Lemma respects_resume_and_decide c : respects R (resume_and_decide clock id_factory c).
Proof using All.
  pose proof (fun c => respects_discarded _ (operations (OpResume c))) as Hresume.
  unfold resume_and_decide. respects_tac.
Qed.
End invariants.

(** What a driver of the engine may do, on top of the domain operations. *)
Inductive engine_step :=
  | EngineTurn
  | EngineApply (decision : Decision_t)
  | EngineApproval (c : Checkpoint.t) (outcome : ApprovalOutcome.t) (outputs : option mapping)
  | EngineResume (c : Checkpoint.t)
  | DomainStep (op : operation).

Section driver.
Context (clock : nat -> datetime) (id_factory : nat -> string -> string).

Definition drive (s : engine_step) : M exn world unit :=
  match s with
  | EngineTurn => discard (turn clock id_factory)
  | EngineApply d => discard (apply_decision clock id_factory d)
  | EngineApproval c o out => discard (resolve_approval clock id_factory c o out)
  | EngineResume c => discard (resume_and_decide clock id_factory c)
  | DomainStep op => perform clock id_factory op
  end.

Definition drive_all (w : world) (l : list engine_step) : world :=
  foldl (fun w s => (drive s w).2) w l.

Lemma drive_all_respects (R : relation ExecutionState.t) `{!PreOrder R} w l :
  (forall op, respects R (perform clock id_factory op)) ->
  R (execution w) (execution (drive_all w l)).
Proof.
  intros H. revert w. induction l as [|s l IH]; intros w; [reflexivity|].
  cbn. etrans; [|apply IH]. assert (respects R (drive s)) as Hs; [|apply Hs].
  pose proof (respects_turn clock id_factory R H).
  pose proof (respects_apply clock id_factory R H).
  pose proof (respects_resolve_approval clock id_factory R H).
  pose proof (respects_resume_and_decide clock id_factory R H).
  destruct s; unfold drive, discard; respects_tac.
Qed.

(** The engine on top of the coordinator keeps every invariant of the
    execution: through any interleaving of turns, decisions (fresh or not),
    approvals, resumes and domain operations, the history only grows, the
    session follows the run, the checkpoints stay one verified chain and the
    attempts stay numbered and bounded. *)
Theorem engine_keeps_invariants w l :
  evolves (execution w) (execution (drive_all w l)) /\
  (coherent (execution w) -> coherent (execution (drive_all w l))) /\
  (chain_ok (execution w) -> chain_ok (execution (drive_all w l))) /\
  (attempts_ok (execution w) -> attempts_ok (execution (drive_all w l))).
Proof.
  split; [|split; [|split]].
  - apply (drive_all_respects evolves).
    apply simple_operations; [typeclasses eauto|apply evolves_primitive|apply evolves_retry].
  - apply (drive_all_respects (keeps coherent)), coherent_operation.
  - apply (drive_all_respects (keeps chain_ok)).
    apply simple_operations; [typeclasses eauto|apply chain_primitive|apply chain_retry].
  - apply (drive_all_respects (keeps attempts_ok)), attempts_operation.
Qed.
End driver.

(** ** Freshness *)

(** Two attempts of one step with one number are one attempt. *)
Definition attempt_key (s : StepRunSnapshot.t) : string * Z :=
  (StepRunSnapshot.step_id s, StepRunSnapshot.attempt s).

Lemma collect_latest_fresh runs seen l r k :
  ExecutionSnapshot.collect_latest runs seen l = Ok r -> k ∈ attempt_key <$> runs -> k ∉ seen.
Proof.
  revert seen l. induction runs as [|s runs IH]; intros seen l H Hk; [by apply elem_of_nil in Hk|].
  cbn in H. case_in H; [done|]. reflect_bools. rewrite fmap_cons in Hk.
  apply elem_of_cons in Hk as [->|Hk]; [done|]. specialize (IH _ _ H Hk). set_solver.
Qed.

Lemma collect_latest_keys runs seen l r :
  ExecutionSnapshot.collect_latest runs seen l = Ok r -> NoDup (attempt_key <$> runs).
Proof.
  revert seen l. induction runs as [|s runs IH]; intros seen l H; [constructor|].
  cbn in H. case_in H; [done|]. rewrite fmap_cons. apply NoDup_cons. split; [|by eapply IH].
  intros Hin. apply (collect_latest_fresh _ _ _ _ _ H Hin). left.
Qed.

(** The engine and the coordinator agree on the latest attempt. *)
Lemma latest_agree x latest sid s :
  ExecutionSnapshot.latest_attempts (ExecutionSnapshot.from_execution x) = Ok latest ->
  dict_get sid latest = Some s ->
  exists i s0, ExecutionState.latest_step_run x sid = Ok (i, s0) /\ s = StepRunSnapshot.of_step_run s0.
Proof.
  intros Hl Hg. pose proof (collect_latest_keys _ _ _ _ Hl) as Hnd.
  apply latest_attempts_spec in Hl as [_ _ Hmax]. destruct (Hmax _ _ Hg) as (Hin & Hsid & Hle). cbn in *.
  apply list_elem_of_fmap in Hin as (s1 & -> & Hin). cbn in Hsid.
  destruct (latest_exists x sid) as [[i s0] H0].
  { intros Hnil. assert (StepRun.attempt s1 ∈ attempts x sid) as Ha
      by (rewrite <- Hsid; by apply elem_attempts). rewrite Hnil in Ha. by apply elem_of_nil in Ha. }
  exists i, s0. split; [done|]. apply latest_step_run_spec in H0 as (Hi & Hsid0 & Hle0).
  assert (StepRun.attempt s0 = StepRun.attempt s1) as Hat.
  { apply Z.le_antisymm; [|by apply Hle0].
    apply (Hle (StepRunSnapshot.of_step_run s0)); [|done]. apply list_elem_of_fmap. exists s0.
    split; [done|]. by eapply list_elem_of_lookup_2. }
  apply list_elem_of_lookup in Hin as [j Hj].
  assert (i = j) as <-; [|congruence].
  eapply (NoDup_lookup _ _ _ (sid, StepRun.attempt s0) Hnd);
    rewrite !list_lookup_fmap; [by rewrite Hi; cbn; unfold attempt_key; cbn; rewrite Hsid0|].
  rewrite Hj. cbn. unfold attempt_key. cbn. by rewrite Hsid, Hat.
Qed.

(** Every decision carries the identity and the version of the snapshot. *)
Lemma decision_base_of d snap dec :
  next_decision d snap = Ok dec -> exists cp why, decision_base dec = base d snap cp why.
Proof.
  intros (Hv & [(why & ->)|(_ & _ & H)])%next_decision_running; [by eexists _, _|].
  apply (running_cases _ _ _ Hv) in H
    as [(m & ->)|(latest & Hl & [[_ H]|[_ [[_ ->]|[_ H]]]])]; [by eexists _, _| |by eexists _, _|].
  - unfold complete_decision, catching in H. destruct (resolve_workflow_outputs _ _).
    + injection H as <-. by eexists _, _.
    + case_in H; [|done]. injection H as <-. by eexists _, _.
  - destruct H as [(n & _ & _ & H)|[_ H]].
    + unfold step_decision, catching in H.
      destruct (StepDefinition.kind _), (resolve_step_inputs _ _ _);
        try (case_in H; [|done]); injection H as <-; by eexists _, _.
    + unfold blocked in H. rewrite bind_Ok in H. destruct H as (l & _ & H). cbn zeta in H.
      case_in H; injection H as <-; by eexists _, _.
Qed.

(** Decisions of [next_decision] that name a step are its targets. *)
Lemma decision_step_target d snap dec sid v :
  next_decision d snap = Ok dec -> decision_step_id dec = Some sid -> decision_step_version dec = Some v ->
  exists a r, decision_target dec = Some (sid, a, v, r).
Proof.
  intros (Hv & [(why & ->)|(_ & _ & H)])%next_decision_running Hs Hver; [done|].
  apply (running_cases _ _ _ Hv) in H
    as [(m & ->)|(latest & Hl & [[_ H]|[_ [[_ ->]|[_ H]]]])]; [done| |done|].
  - unfold complete_decision, catching in H. destruct (resolve_workflow_outputs _ _).
    + by injection H as <-.
    + case_in H; [|done]. by injection H as <-.
  - destruct H as [(n & _ & _ & H)|[_ H]].
    + unfold step_decision, catching in H.
      destruct (StepDefinition.kind _), (resolve_step_inputs _ _ _);
        try (case_in H; [|done]); injection H as <-; cbn in *; simplify_eq; by eexists _, _.
    + unfold blocked in H. rewrite bind_Ok in H. destruct H as (l & _ & H). cbn zeta in H.
      case_in H; by injection H as <-.
Qed.

Lemma from_domain_identity w d :
  WorkflowDefinition.from_domain w = Ok d ->
  WorkflowDefinition.id d = Workflow.id w /\ WorkflowDefinition.version d = Workflow.version w.
Proof. unfold WorkflowDefinition.from_domain. rewrite bind_Ok. by intros (l & _ & [= <-]). Qed.

(** ** Properties *)

(** A decision is never stale when it is made: whatever the execution,
    [_validate_decision] accepts what [decide] has just returned for it. *)
Theorem fresh_decision_accepted x dec :
  decide x = Ok dec -> validate_decision x dec = Ok tt.
Proof.
  unfold decide. rewrite bind_Ok. intros (d & Hd & H).
  destruct (decision_base_of _ _ _ H) as (cp & why & Hb).
  assert (validate_snapshot_identity d (ExecutionSnapshot.from_execution x) = Ok tt) as Hid.
  { unfold next_decision in H. rewrite !then_Ok in H. tauto. }
  unfold validate_snapshot_identity in Hid. apply fail_if_Ok in Hid. apply negb_false_iff in Hid.
  apply andb_true_iff in Hid as [Hi Hv]. cbn in Hi, Hv.
  unfold validate_decision. rewrite Hb. cbn. rewrite String.eqb_refl.
  rewrite (String.eqb_sym (WorkflowDefinition.id d)), Hi, (String.eqb_sym (WorkflowDefinition.version d)), Hv.
  cbn. rewrite Z.eqb_refl. cbn.
  destruct (decision_step_id dec) as [sid|] eqn:Hs; [|done].
  destruct (decision_step_version dec) as [v|] eqn:Hver; [|done].
  destruct (decision_step_target _ _ _ _ _ H Hs Hver) as (a & r & Ht).
  destruct (chosen_step _ _ _ _ _ _ _ H Ht) as (latest & j & step & s & Hl & _ & _ & _ & Hj & Hsid & He & _ & Hrv & _).
  apply latest_for_definition_Ok in Hl as [Hl _]. destruct He as [He _]. rewrite Hsid in He.
  destruct (latest_agree _ _ _ _ Hl He) as (i & s0 & -> & ->). cbn in *. by rewrite Hrv, Z.eqb_refl.
Qed.

(** ** Staleness *)

(** The guards of [_validate_decision] that can fail. *)
Definition is_stale (x : ExecutionState.t) (dec : Decision_t) : Prop :=
  let run := ExecutionState.workflow_run x in
  let b := decision_base dec in
  workflow_run_id b <> WorkflowRun.id run \/ workflow_id b <> WorkflowRun.workflow_id run \/
  workflow_version b <> WorkflowRun.workflow_version run \/
  expected_run_version b <> WorkflowRun.row_version run \/
  exists sid v i s, decision_step_id dec = Some sid /\ decision_step_version dec = Some v /\
    ExecutionState.latest_step_run x sid = Ok (i, s) /\ StepRun.row_version s <> v.

Lemma validate_stale x dec :
  is_stale x dec -> exists m, validate_decision x dec = Err (Exn StaleDecisionError m).
Proof.
  intros H. unfold validate_decision.
  destruct (String.eqb_spec (workflow_run_id (decision_base dec)) (WorkflowRun.id (ExecutionState.workflow_run x)));
    [|by eexists].
  destruct (String.eqb_spec (workflow_id (decision_base dec)) (WorkflowRun.workflow_id (ExecutionState.workflow_run x)));
    [|by eexists].
  destruct (String.eqb_spec (workflow_version (decision_base dec)) (WorkflowRun.workflow_version (ExecutionState.workflow_run x)));
    [|by eexists].
  destruct (Z.eqb_spec (expected_run_version (decision_base dec)) (WorkflowRun.row_version (ExecutionState.workflow_run x)));
    [|by eexists].
  destruct H as [?|[?|[?|[?|(sid & v & i & s & -> & -> & -> & Hv)]]]]; try done. cbn.
  apply Z.eqb_neq in Hv. rewrite Hv. by eexists.
Qed.

Lemma apply_stale clock ids dec w :
  is_stale (execution w) dec ->
  exists m, apply_decision clock ids dec w = (Err (Exn StaleDecisionError m), w).
Proof.
  intros [m Hm]%validate_stale. exists m. unfold apply_decision, mbind, M_bind, reads. by rewrite Hm.
Qed.

(** *** What an applied decision changes *)

Section bumps.
Context (clock : nat -> datetime) (id_factory : nat -> string -> string).

Definition run_version (w : world) : Z := WorkflowRun.row_version (ExecutionState.workflow_run (execution w)).

(** Where [m] returns, the row version of the run has grown. *)
Definition bumps {A} (m : M exn world A) : Prop :=
  forall w a w', m w = (Ok a, w') -> run_version w < run_version w'.

Lemma bumps_first {A B} (m : M exn world A) (f : A -> M exn world B) :
  bumps m -> (forall a, respects evolves (f a)) -> bumps (m ≫= f).
Proof.
  intros Hm Hf w b w' H. unfold mbind, M_bind in H. destruct (m w) as [[a|e] w1] eqn:Hw; [|done].
  specialize (Hm _ _ _ Hw). pose proof (ev_version _ _ (Hf a w1)) as Hv. rewrite H in Hv. cbn in Hv.
  unfold run_version in *. lia.
Qed.

Lemma bumps_then {A B} (m : M exn world A) (f : A -> M exn world B) :
  respects evolves m -> (forall a, bumps (f a)) -> bumps (m ≫= f).
Proof.
  intros Hm Hf w b w' H. unfold mbind, M_bind in H. pose proof (ev_version _ _ (Hm w)) as Hv.
  destruct (m w) as [[a|e] w1] eqn:Hw; [|done].
  specialize (Hf _ _ _ _ H). unfold run_version in *. cbn in Hv. lia.
Qed.

Lemma bumps_run_to tg at_ rs cd : bumps (run_to tg at_ rs cd).
Proof.
  intros w a w' H. unfold run_to, edit_execution in H.
  destruct (WorkflowRun.transition_to _ _ _ _ _ _) as [r|e] eqn:Hr; [|done]. injection H as <- <-.
  apply run_transition_Ok in Hr as (_ & _ & Hv & _). unfold run_version. cbn. lia.
Qed.

Lemma evolves_all :
  (forall tg at_ rs cd, respects evolves (run_to tg at_ rs cd)) /\
  (forall tg at_, respects evolves (session_to tg at_)) /\
  (forall i tg at_ inp o cd, respects evolves (step_to i tg at_ inp o cd)) /\
  (forall o, respects evolves (set_run_outputs o)) /\
  respects evolves (create_checkpoint clock id_factory).
Proof. destruct (evolves_primitive clock id_factory). auto. Qed.

Ltac bumps_tac :=
  match goal with
  | |- bumps (run_to _ _ _ _) => apply bumps_run_to
  | |- bumps (run_to _ _ _ _ ≫= _) => apply bumps_first; [apply bumps_run_to|intros; respects_tac]
  | |- bumps (_ ≫= _) =>
      first [ apply bumps_then; [solve [respects_tac]|intros; bumps_tac]
            | apply bumps_first; [bumps_tac|intros; respects_tac] ]
  | |- bumps (raise _) => by intros ? ? ?
  | |- bumps (match ?x with _ => _ end) => destruct x; bumps_tac
  end.

Lemma bumps_update sid tg o e r :
  match tg with
  | StepRunStatus.WAITING_APPROVAL | StepRunStatus.FAILED | StepRunStatus.CANCELLED => True
  | _ => False
  end -> bumps (update_step_state clock id_factory sid tg o e r).
Proof.
  intros Ht. destruct evolves_all as (? & ? & ? & ? & ?).
  destruct tg; try done; unfold update_step_state, require_running, checkpointed, step_failed, cancel_both, now;
    bumps_tac.
Qed.

Lemma bumps_complete o : bumps (complete_workflow clock id_factory o).
Proof. destruct evolves_all as (? & ? & ? & ? & ?). unfold complete_workflow, now. bumps_tac. Qed.

Lemma bumps_fail e : bumps (fail_execution clock id_factory e).
Proof. destruct evolves_all as (? & ? & ? & ? & ?). unfold fail_execution, cancel_step, now. bumps_tac. Qed.

Lemma bumps_cancel : bumps (cancel_execution clock id_factory).
Proof.
  destruct evolves_all as (? & ? & ? & ? & ?).
  unfold cancel_execution, cancel_step, cancel_both, now. bumps_tac.
Qed.
End bumps.

Lemma latest_from_keys sid l l' k (b b' : option (nat * StepRun.t)) :
  (fun s => (StepRun.step_id s, StepRun.attempt s)) <$> l =
  (fun s => (StepRun.step_id s, StepRun.attempt s)) <$> l' ->
  (fun f => (f.1, StepRun.attempt f.2)) <$> b = (fun f => (f.1, StepRun.attempt f.2)) <$> b' ->
  fst <$> ExecutionState.latest_from sid k l b = fst <$> ExecutionState.latest_from sid k l' b'.
Proof.
  revert k l' b b'. induction l as [|s l IH]; intros k [|s' l'] b b' Hl Hb; try done; cbn.
  - destruct b, b'; cbn in *; congruence.
  - rewrite !fmap_cons in Hl. injection Hl as Hsid Hat Hl. rewrite <- Hsid. apply IH; [done|].
    destruct (String.eqb _ _); [|done].
    destruct b as [[i t]|], b' as [[i' t']|]; cbn in *; try done; [|by rewrite Hat].
    injection Hb as -> Ht. rewrite <- Ht, <- Hat. destruct (_ <? _); cbn; by rewrite ?Hat, ?Ht.
Qed.

(** Changing the latest attempt in place does not change which one is latest. *)
Lemma latest_update x sid i s s' :
  ExecutionState.latest_step_run x sid = Ok (i, s) ->
  StepRun.step_id s' = StepRun.step_id s -> StepRun.attempt s' = StepRun.attempt s ->
  ExecutionState.latest_step_run
    (ExecutionState.mk (ExecutionState.workflow x) (ExecutionState.workflow_run x)
       (ExecutionState.agent_session x) (<[i := s']> (ExecutionState.step_runs x))
       (ExecutionState.checkpoints x)) sid = Ok (i, s').
Proof.
  intros Hl Hsid Hat. pose proof (latest_step_run_spec _ _ _ _ Hl) as (Hi & _ & _).
  unfold ExecutionState.latest_step_run in *. cbn.
  destruct (ExecutionState.latest_from sid 0 (ExecutionState.step_runs x) None) as [[i0 s0]|] eqn:Hf; [|done].
  injection Hl as -> ->.
  pose proof (latest_from_keys sid (ExecutionState.step_runs x) (<[i := s']> (ExecutionState.step_runs x))
                0 None None) as Hk.
  rewrite Hf in Hk. destruct (ExecutionState.latest_from sid 0 (<[i:=s']> _) None) as [[i1 s1]|] eqn:Hf1.
  - assert (i = i1) as <-.
    { cbn in Hk. assert (Some i = Some i1) as [= ?]; [|done]. apply Hk; [|done].
      rewrite list_fmap_insert, Hsid, Hat. symmetry. apply list_insert_id. by rewrite list_lookup_fmap, Hi. }
    apply latest_from_spec in Hf1 as ([(j & -> & Hj & _)|] & _); [|done]. cbn in *.
    rewrite list_lookup_insert_eq in Hj by (by eapply lookup_lt_Some). congruence.
  - exfalso. assert (Some i = None) as [=]. cbn in Hk. apply Hk; [|done].
    rewrite list_fmap_insert, Hsid, Hat. symmetry. apply list_insert_id. by rewrite list_lookup_fmap, Hi.
Qed.

Section step_bumps.
Context (clock : nat -> datetime) (id_factory : nat -> string -> string).

(** Where [m] returns, the latest attempt of the step has a newer version. *)
Definition bumps_step (sid : string) {A} (m : M exn world A) : Prop :=
  forall w a w', m w = (Ok a, w') -> exists i s s',
    ExecutionState.latest_step_run (execution w) sid = Ok (i, s) /\
    ExecutionState.latest_step_run (execution w') sid = Ok (i, s') /\
    StepRun.row_version s < StepRun.row_version s'.

Lemma step_to_latest sid i s tg at_ inp o cd w a w' :
  ExecutionState.latest_step_run (execution w) sid = Ok (i, s) ->
  step_to i tg at_ inp o cd w = (Ok a, w') -> exists s',
    ExecutionState.latest_step_run (execution w') sid = Ok (i, s') /\
    StepRun.row_version s < StepRun.row_version s'.
Proof.
  intros Hl H. pose proof (latest_step_run_spec _ _ _ _ Hl) as (Hi & _ & _).
  unfold step_to, edit_execution in H. rewrite Hi in H.
  destruct (StepRun.transition_to _ _ _ _ _ _ _) as [s'|e] eqn:Ht; [|done]. injection H as <- <-.
  apply step_transition_Ok in Ht as (_ & _ & Hv & _ & Hsid & Hat & _). exists s'.
  split; [|lia]. by apply latest_update with s.
Qed.

Lemma checkpoint_step_runs w :
  ExecutionState.step_runs (execution (create_checkpoint clock id_factory w).2)
  = ExecutionState.step_runs (execution w).
Proof. by destruct (create_checkpoint_cases clock id_factory w) as [[_ ->]|(i & ts & c & _ & _ & ->)]. Qed.

Lemma latest_same_runs x x' sid :
  ExecutionState.step_runs x' = ExecutionState.step_runs x ->
  ExecutionState.latest_step_run x' sid = ExecutionState.latest_step_run x sid.
Proof. intros H. unfold ExecutionState.latest_step_run. by rewrite H. Qed.

Lemma bumps_ready sid inp b : bumps_step sid (mark_step_ready clock id_factory sid inp b).
Proof.
  intros w a w' H. unfold mark_step_ready, require_running, mbind, M_bind, gets, reads, now, on_env, tick in H.
  destruct (negb _); [done|]. unfold raise_if, mret, M_ret in H.
  destruct (ExecutionState.latest_step_run (execution w) sid) as [[i s]|e] eqn:Hl; [|done]. cbn [fst] in H.
  destruct (step_to _ _ _ _ _ _ _) as [[u|e] w1] eqn:Hs; [|done].
  apply (step_to_latest sid i s) in Hs as (s' & Hl' & Hv); [|done].
  exists i, s, s'. split; [done|]. split; [|done]. rewrite <- Hl'. apply latest_same_runs.
  destruct b; [|by injection H as <- <-].
  unfold checkpointed, mbind, M_bind, mret, M_ret in H. pose proof (checkpoint_step_runs w1) as Hc.
  destruct (create_checkpoint clock id_factory w1) as [[c|e] w2]; [|done]. by injection H as <- <-.
Qed.

Lemma bumps_completed sid o e r :
  bumps_step sid (update_step_state clock id_factory sid StepRunStatus.COMPLETED o e r).
Proof.
  intros w a w' H. unfold update_step_state, require_running, mbind, M_bind, gets, reads, now, on_env, tick in H.
  destruct (negb _); [done|]. unfold raise_if, mret, M_ret in H.
  cbn [execution] in H.
  destruct (ExecutionState.latest_step_run (execution w) sid) as [[i s]|x] eqn:Hl; [|done]. cbn [fst] in H.
  destruct (step_to _ _ _ _ _ _ _) as [[u|x] w1] eqn:Hs; [|done].
  apply (step_to_latest sid i s) in Hs as (s' & Hl' & Hv); [|done].
  exists i, s, s'. split; [done|]. split; [|done]. rewrite <- Hl'. apply latest_same_runs.
  unfold checkpointed, mbind, M_bind, mret, M_ret in H. pose proof (checkpoint_step_runs w1) as Hc.
  destruct (create_checkpoint clock id_factory w1) as [[c|x] w2]; [|done]. by injection H as <- <-.
Qed.

(** The decisions that change something when they are applied. *)
Definition effective (dec : Decision_t) : bool :=
  match dec with
  | NoAction _ => false
  | StepReady _ _ _ _ _ _ _ requires => requires
  | _ => true
  end.

Lemma run_bumped_stale dec w w' :
  validate_decision (execution w) dec = Ok tt -> run_version w < run_version w' -> is_stale (execution w') dec.
Proof.
  intros Hv Hlt. do 3 right. left. unfold validate_decision in Hv. rewrite !then_Ok, !fail_if_Ok in Hv.
  destruct Hv as (_ & Hr & _). apply negb_false_iff, Z.eqb_eq in Hr. unfold run_version in Hlt. lia.
Qed.

Lemma step_bumped_stale dec sid v w w' i s s' :
  validate_decision (execution w) dec = Ok tt ->
  decision_step_id dec = Some sid -> decision_step_version dec = Some v ->
  ExecutionState.latest_step_run (execution w) sid = Ok (i, s) ->
  ExecutionState.latest_step_run (execution w') sid = Ok (i, s') ->
  StepRun.row_version s < StepRun.row_version s' -> is_stale (execution w') dec.
Proof.
  intros Hval Hsid Hver Hl Hl' Hlt. do 4 right. exists sid, v, i, s'. repeat (split; [done|]).
  unfold validate_decision in Hval. rewrite !then_Ok, Hsid, Hver, Hl in Hval. cbn in Hval.
  destruct Hval as (_ & _ & Hv). apply fail_if_Ok, negb_false_iff, Z.eqb_eq in Hv. lia.
Qed.

Lemma evolves_update sid tg o e r : respects evolves (update_step_state clock id_factory sid tg o e r).
Proof.
  apply respects_discarded. apply (simple_operations clock id_factory evolves
    (evolves_primitive clock id_factory) (evolves_retry clock id_factory) (OpUpdate sid tg o e r)).
Qed.

Lemma evolves_ready sid inp b : respects evolves (mark_step_ready clock id_factory sid inp b).
Proof.
  apply respects_discarded. apply (simple_operations clock id_factory evolves
    (evolves_primitive clock id_factory) (evolves_retry clock id_factory) (OpReady sid inp b)).
Qed.

Lemma bumps_completing o : bumps (c ← complete_workflow clock id_factory o; mret (Some c)).
Proof. apply bumps_first; [apply bumps_complete|]. intros. respects_tac. Qed.

Lemma bumps_cancelling : bumps (c ← cancel_execution clock id_factory; mret (Some c)).
Proof. apply bumps_first; [apply bumps_cancel|]. intros. respects_tac. Qed.

Lemma bumps_failure failed err : bumps (apply_failure clock id_factory failed err).
Proof.
  assert (bumps (c ← fail_execution clock id_factory err; mret (Some c))) as Hfail.
  { apply bumps_first; [apply bumps_fail|]. intros. respects_tac. }
  unfold apply_failure. cbn zeta. destruct failed as [sid|]; [|done].
  apply bumps_then; [respects_tac|intros f]. case_bool_decide; [by apply bumps_update|done].
Qed.

Lemma bumps_waiting sid inp (req : bool) :
  bumps ((if req then mark_step_ready clock id_factory sid (Some inp) false else mret None) ;;
         update_step_state clock id_factory sid StepRunStatus.RUNNING None None false ;;
         update_step_state clock id_factory sid StepRunStatus.WAITING_APPROVAL None None false).
Proof.
  pose proof evolves_update. pose proof evolves_ready.
  apply bumps_then; [respects_tac|intros _]. apply bumps_then; [respects_tac|intros _].
  by apply bumps_update.
Qed.

(** C2: a decision takes effect at most once: after it has been applied with
    success, applying it again raises [StaleDecisionError] and changes
    nothing.  Only [NoAction] and a [StepReady] for a step that is already
    [READY] can be repeated, and they change nothing at all. *)
Theorem decision_applied_once dec w r w' :
  apply_decision clock id_factory dec w = (Ok r, w') ->
  if effective dec then
    exists m, apply_decision clock id_factory dec w' = (Err (Exn StaleDecisionError m), w')
  else w' = w.
Proof.
  intros H. unfold apply_decision in H.
  change (reads (fun x => validate_decision x dec) ≫= ?f) with (fun w => match validate_decision (execution w) dec with
    | Ok a => f a w | Err e => (Err e, w) end) in H. cbv beta in H.
  destruct (validate_decision (execution w) dec) as [[]|e] eqn:Hval; [|done].
  assert (Hrun : run_version w < run_version w' ->
    exists m, apply_decision clock id_factory dec w' = (Err (Exn StaleDecisionError m), w')).
  { intros Hlt. by apply apply_stale, (run_bumped_stale dec w). }
  destruct dec as [b sid rid a v ref inp req|b o|b sid rid a v pol inp req|b sid rid c n v dl bo err
                  |b err msg failed v ex|b sid rid v o|b err sid|b]; cbn [effective].
  - destruct req; [|by injection H as _ <-].
    destruct (bumps_ready _ _ _ _ _ _ H) as (i & s & s' & Hl & Hl' & Hlt).
    by eapply apply_stale, step_bumped_stale.
  - apply Hrun. by eapply bumps_completing.
  - apply Hrun. by eapply bumps_waiting.
  - apply Hrun. exact (bumps_update clock id_factory sid StepRunStatus.FAILED None (Some err) true I _ _ _ H).
  - apply Hrun. by eapply bumps_failure.
  - destruct (bumps_completed _ _ _ _ _ _ _ H) as (i & s & s' & Hl & Hl' & Hlt).
    by eapply apply_stale, step_bumped_stale.
  - apply Hrun. by eapply bumps_cancelling.
  - by injection H as _ <-.
Qed.
End step_bumps.

(** The version a failure was decided against is not enforced: where the
    step has moved on since, a [RetryScheduled] decision is refused as stale,
    but a [WorkflowFailed] decision that carries the same outdated
    [expected_step_version] passes the validation. *)
Theorem stale_failure_not_refused x b code msg sid v ex rid c n dl bo i s :
  workflow_run_id b = WorkflowRun.id (ExecutionState.workflow_run x) ->
  workflow_id b = WorkflowRun.workflow_id (ExecutionState.workflow_run x) ->
  workflow_version b = WorkflowRun.workflow_version (ExecutionState.workflow_run x) ->
  expected_run_version b = WorkflowRun.row_version (ExecutionState.workflow_run x) ->
  ExecutionState.latest_step_run x sid = Ok (i, s) -> StepRun.row_version s <> v ->
  validate_decision x (WorkflowFailed b code msg (Some sid) (Some v) ex) = Ok tt /\
  exists m, validate_decision x (RetryScheduled b sid rid c n v dl bo code)
            = Err (Exn StaleDecisionError m).
Proof.
  intros Hr Hw Hv He Hl Hne. split.
  - unfold validate_decision. cbn. by rewrite Hr, Hw, Hv, He, !String.eqb_refl, Z.eqb_refl.
  - apply validate_stale. do 4 right. by exists sid, v, i, s.
Qed.

(** A retry is scheduled only for a retryable failure of a running step
    with attempts left; the next attempt is the following one, within the
    policy, and its delay is the policy's. *)
Theorem retry_within_policy d snap sid retryable code msg b sid' rid c n v dl bo code' :
  evaluate_failure d snap sid retryable code msg = Ok (RetryScheduled b sid' rid c n v dl bo code') ->
  retryable = true /\ sid' = sid /\ code' = code /\ n = c + 1 /\ 0 < c /\
  exists step latest s, WorkflowDefinition.get_step d sid = Ok step /\
    ExecutionSnapshot.latest_attempts snap = Ok latest /\ dict_get sid latest = Some s /\
    StepRunSnapshot.status s = StepRunStatus.RUNNING /\ StepRunSnapshot.attempt s = c /\
    StepRunSnapshot.row_version s = v /\
    n <= RetryPolicy.max_attempts (StepDefinition.retry_policy step) /\
    RetryPolicy.delay_for_next_attempt (StepDefinition.retry_policy step) n = Ok dl.
Proof.
  unfold evaluate_failure. rewrite !then_Ok. intros (_ & _ & _ & H).
  rewrite bind_Ok in H. destruct H as (step & Hg & H). rewrite bind_Ok in H.
  destruct H as (latest & Hl & H). cbn zeta in H. destruct (dict_get sid latest) as [s|] eqn:Hd; [|done].
  rewrite then_Ok, fail_if_Ok in H. destruct H as [Hst H]. reflect_bools.
  rewrite bind_Ok in H. destruct H as ([] & Hretry & H); [|discriminate H].
  destruct retryable; [|discriminate Hretry].
  rewrite bind_Ok in H. destruct H as (delay & Hdl & [= <- <- <- <- <- <- <- <- <-]).
  unfold RetryPolicy.permits_retry in Hretry. rewrite then_Ok, fail_if_Ok in Hretry.
  destruct Hretry as [Hpos [= Hlt]]. reflect_bools.
  repeat (split; [done|]). exists step, latest, s. repeat (split; [done|]). split; [lia|done].
Qed.

(** ** Witnesses *)

Definition running_sample : ExecutionState.t := sample_execution WorkflowRunStatus.RUNNING.
Definition running_world : world := World (Env 0 0) running_sample.

Definition sample_base : EngineDecision := Base "run_1" "wf" "1" 0 true "Skill step plan is ready".

Definition plan_ready : Decision_t :=
  StepReady sample_base "plan" "s2" 1 0 "echo@1.0.0" [] true.

Lemma sample_decision : decide running_sample = Ok plan_ready.
Proof. vm_compute. reflexivity. Qed.

Lemma engine_keeps_invariants_witness :
  coherent (execution (drive_all CoordinatorSpec.test_clock fixed_ids running_world [EngineTurn; EngineTurn])).
Proof.
  destruct (engine_keeps_invariants CoordinatorSpec.test_clock fixed_ids running_world [EngineTurn; EngineTurn])
    as (_ & H & _).
  apply H. reflexivity.
Defined.

Lemma fresh_decision_accepted_witness :
  decide running_sample = Ok plan_ready /\ validate_decision running_sample plan_ready = Ok tt.
Proof.
  split; [exact sample_decision|]. exact (fresh_decision_accepted running_sample plan_ready sample_decision).
Defined.

Lemma apply_sample :
  exists r w', apply_decision CoordinatorSpec.test_clock fixed_ids plan_ready running_world = (Ok r, w').
Proof.
  assert (is_ok (apply_decision CoordinatorSpec.test_clock fixed_ids plan_ready running_world).1 = true) as H
    by (vm_compute; reflexivity).
  destruct (apply_decision _ _ plan_ready running_world) as [[r|e] w']; [by eexists _, _|done].
Qed.

Lemma decision_applied_once_witness :
  exists r w' m, apply_decision CoordinatorSpec.test_clock fixed_ids plan_ready running_world = (Ok r, w') /\
    apply_decision CoordinatorSpec.test_clock fixed_ids plan_ready w' = (Err (Exn StaleDecisionError m), w').
Proof.
  destruct apply_sample as (r & w' & H).
  destruct (decision_applied_once CoordinatorSpec.test_clock fixed_ids plan_ready running_world r w' H) as [m Hm].
  exists r, w', m. exact (conj H Hm).
Defined.

Lemma stale_failure_not_refused_witness :
  validate_decision running_sample (WorkflowFailed sample_base "E" "m" (Some "plan") (Some 7) false) = Ok tt.
Proof.
  exact (proj1 (stale_failure_not_refused running_sample sample_base "E" "m" "plan" 7 false "s2" 1 2
    f64_zero "fixed" 1 (sample_attempt "s2" "plan") eq_refl eq_refl eq_refl eq_refl eq_refl
    ltac:(discriminate))).
Defined.

Definition running_attempt : StepRun.t :=
  StepRun.mk "s2" "run_1" "plan" 1 "run_1:plan:1" [] StepRunStatus.RUNNING [] None 2
    (epoch 0) (epoch 0) (Some (epoch 0)) None.

Definition failing_sample : ExecutionState.t :=
  ExecutionState.mk (sample_workflow []) (sample_run_in WorkflowRunStatus.RUNNING)
    (sample_session AgentSessionStatus.ACTIVE)
    [sample_attempt "s1" "draft"; running_attempt; sample_attempt "s3" "check"] [].

Lemma retry_within_policy_witness :
  exists d b dl, WorkflowDefinition.from_domain (sample_workflow []) = Ok d /\
    evaluate_failure d (ExecutionSnapshot.from_execution failing_sample) "plan" true "E" ""
      = Ok (RetryScheduled b "plan" "s2" 1 2 2 dl "exponential" "E") /\ 2 = 1 + 1.
Proof.
  eexists _, _, _. split; [vm_compute; reflexivity|].
  match goal with |- ?l = Ok (RetryScheduled ?b _ _ _ _ _ ?dl _ _) /\ _ =>
    assert (Hx : l = Ok (RetryScheduled b "plan" "s2" 1 2 2 dl "exponential" "E")) by (vm_compute; reflexivity)
  end.
  split; [exact Hx|]. exact (proj1 (proj2 (proj2 (proj2 (retry_within_policy _ _ _ _ _ _ _ _ _ _ _ _ _ _ _ Hx))))).
Defined.

(** *** The engine on the sample execution *)

Lemma sample_definition : exists d, WorkflowDefinition.from_domain (sample_workflow []) = Ok d /\
  next_decision d (ExecutionSnapshot.from_execution running_sample) = Ok plan_ready.
Proof.
  pose proof sample_decision as H. unfold decide in H. rewrite bind_Ok in H.
  destruct H as (d & Hd & H). exists d. exact (conj Hd H).
Qed.

Lemma first_eligible_step_is_chosen_witness :
  exists d latest s, WorkflowDefinition.from_domain (sample_workflow []) = Ok d /\
    latest_for_definition d (ExecutionSnapshot.from_execution running_sample) = Ok latest /\
    dict_get "plan" latest = Some s /\ active_runs latest = [].
Proof.
  destruct sample_definition as (d & Hd & H). exists d.
  destruct (first_eligible_step_is_chosen d (ExecutionSnapshot.from_execution running_sample) plan_ready
              "plan" 1 0 true H eq_refl)
    as (latest & j & step & s & Hl & _ & _ & Hact & _ & <- & (Hg & _) & _).
  exists latest, s. exact (conj Hd (conj Hl (conj Hg Hact))).
Defined.

(** Every attempt of the sample has completed. *)
Definition finished_attempt (id sid : string) : StepRun.t :=
  StepRun.mk id "run_1" sid 1 ("run_1:" +:+ sid +:+ ":1") [] StepRunStatus.COMPLETED
    [("text", VStr "done")] None 3 (epoch 0) (epoch 0) (Some (epoch 0)) (Some (epoch 0)).

Definition finished_sample : ExecutionState.t :=
  ExecutionState.mk (sample_workflow []) (sample_run_in WorkflowRunStatus.RUNNING)
    (sample_session AgentSessionStatus.ACTIVE)
    [finished_attempt "s1" "draft"; finished_attempt "s2" "plan"; finished_attempt "s3" "check"] [].

Lemma completion_iff_all_succeeded_witness :
  exists d b, WorkflowDefinition.from_domain (sample_workflow []) = Ok d /\
    next_decision d (ExecutionSnapshot.from_execution finished_sample)
      = Ok (WorkflowCompleted b [("report", VStr "done")]).
Proof.
  destruct sample_definition as (d & Hd & H). exists d.
  pose proof H as (Hv & _)%next_decision_running.
  assert (Hid : validate_snapshot_identity d (ExecutionSnapshot.from_execution finished_sample) = Ok tt).
  { unfold next_decision in H. rewrite !then_Ok in H. destruct H as (_ & Hid & _). exact Hid. }
  assert (Hl : exists latest, latest_for_definition d (ExecutionSnapshot.from_execution finished_sample) = Ok latest /\
    forallb (fun kv => is_success (StepRunSnapshot.status kv.2)) latest = true /\
    resolve_workflow_outputs d (ExecutionSnapshot.from_execution finished_sample) = Ok [("report", VStr "done")]).
  { vm_compute in Hd. injection Hd as <-. eexists. split; [vm_compute; reflexivity|]. split; vm_compute; reflexivity. }
  destruct Hl as (latest & Hl & Hall & Ho). rewrite forallb_forall in Hall.
  destruct (proj2 (proj1 (completion_iff_all_succeeded d (ExecutionSnapshot.from_execution finished_sample) Hv Hid eq_refl eq_refl)
    [("report", VStr "done")])) as [b Hb].
  - exists latest. split; [exact Hl|]. split; [|exact Ho].
    intros sid s Hin. exact (Hall (sid, s) (proj1 (list_elem_of_In _ _) Hin)).
  - exists b. exact (conj Hd Hb).
Defined.

Lemma next_decision_total_witness :
  exists d dec, WorkflowDefinition.from_domain (sample_workflow []) = Ok d /\
    next_decision d (ExecutionSnapshot.from_execution failing_sample) = Ok dec.
Proof.
  destruct sample_definition as (d & Hd & H). pose proof H as (Hv & _)%next_decision_running.
  destruct (next_decision_total d (ExecutionSnapshot.from_execution failing_sample) Hv) as [dec Hdec].
  - unfold next_decision in H. rewrite !then_Ok in H. destruct H as (_ & Hid & _). exact Hid.
  - exists d, dec. exact (conj Hd Hdec).
Defined.
