(* ===== verification/RecordFacts.v ===== *)
(** Persistence is transparent: an execution that was stored and loaded again
    has the same identity, statuses and versions, is decided the same by the
    engine and accepts the same decisions and checkpoints. *)
From S2P Require Import Prelude Errors Text Float Value Json Sha256 Lifecycle Workflow Checkpoint Coordinator CoordinatorFacts CoordinatorSpec CancelFacts Approval Records RetryPolicy EngineModels References Validator Scheduler Engine EngineFacts EngineCoordinator EngineCoordinatorFacts.
From Stdlib Require Import SpecFloat.
Local Open Scope string_scope.
Local Open Scope list_scope.
Local Open Scope Z_scope.

Import ExecutionState.

(** ** The entities of an execution satisfy their constructors *)

Definition valid_run (r : WorkflowRun.t) : Prop := WorkflowRun.post_init r = Ok r.
Definition valid_session (a : AgentSession.t) : Prop := AgentSession.post_init a = Ok a.
Definition valid_step (s : StepRun.t) : Prop := StepRun.post_init s = Ok s.

Record valid_entities (x : ExecutionState.t) : Prop := {
  ve_run : valid_run (workflow_run x);
  ve_session : valid_session (agent_session x);
  ve_steps : forall s, s ∈ step_runs x -> valid_step s
}.

(** The checks of a constructor, and its freezing. *)
Ltac post_init_tac H :=
  unfold valid_run, valid_session, valid_step, WorkflowRun.post_init, AgentSession.post_init,
    StepRun.post_init in *;
  rewrite !then_Ok, ?require_all_non_empty_Ok, ?fail_if_Ok, ?require_aware_Ok in H.

Lemma run_post_init_valid r r' : WorkflowRun.post_init r = Ok r' -> valid_run r'.
Proof.
  intros H. post_init_tac H. destruct H as (Hne & Hc & Hu & [= <-]).
  rewrite !then_Ok, require_all_non_empty_Ok, !require_aware_Ok. cbn.
  by rewrite freeze_freeze_mapping.
Qed.

Lemma session_post_init_valid a a' : AgentSession.post_init a = Ok a' -> valid_session a'.
Proof.
  intros H. post_init_tac H. destruct H as (Hne & Hc & Hu & [= <-]).
  rewrite !then_Ok, require_all_non_empty_Ok, !require_aware_Ok. cbn.
  by rewrite freeze_freeze_mapping.
Qed.

Lemma step_post_init_valid s s' : StepRun.post_init s = Ok s' -> valid_step s'.
Proof.
  intros H. post_init_tac H. destruct H as (Hne & Ha & Hc & Hu & [= <-]).
  rewrite !then_Ok, require_all_non_empty_Ok, fail_if_Ok, !require_aware_Ok. cbn.
  by rewrite freeze_freeze_mapping.
Qed.

Lemma run_transition_valid now r s at_ reason code r' :
  valid_run r -> WorkflowRun.transition_to now r s at_ reason code = Ok r' -> valid_run r'.
Proof.
  intros H Ht. post_init_tac H. destruct H as (Hne & Hc & Hu & Hf).
  unfold WorkflowRun.transition_to in Ht. case_in Ht; [done|]. cbn zeta in Ht.
  rewrite then_Ok, require_aware_Ok in Ht. destruct Ht as [Ha [= <-]].
  rewrite !then_Ok, require_all_non_empty_Ok, !require_aware_Ok. cbn -[freeze_mapping] in *.
  repeat (split; [done|]). destruct r. injection Hf as Hf. cbn -[freeze_mapping] in *. by rewrite Hf.
Qed.

Lemma run_outputs_valid r o : valid_run r -> valid_run (WorkflowRun.set_outputs r o).
Proof.
  intros H. post_init_tac H. destruct H as (Hne & Hc & Hu & Hf).
  rewrite !then_Ok, require_all_non_empty_Ok, !require_aware_Ok.
  repeat (split; [done|]). destruct r. injection Hf as Hf. cbn -[freeze_mapping] in *. by rewrite Hf.
Qed.

Lemma session_transition_valid now a s at_ a' :
  valid_session a -> AgentSession.transition_to now a s at_ = Ok a' -> valid_session a'.
Proof.
  intros H Ht. post_init_tac H. destruct H as (Hne & Hc & Hu & Hf).
  unfold AgentSession.transition_to in Ht. case_in Ht; [done|]. cbn zeta in Ht.
  rewrite then_Ok, require_aware_Ok in Ht. destruct Ht as [Ha [= <-]].
  rewrite !then_Ok, require_all_non_empty_Ok, !require_aware_Ok. cbn -[freeze_mapping] in *.
  repeat (split; [done|]). destruct a. injection Hf as Hf. cbn -[freeze_mapping] in *. by rewrite Hf.
Qed.

Lemma step_transition_valid now s tg at_ i o code s' :
  valid_step s -> StepRun.transition_to now s tg at_ i o code = Ok s' -> valid_step s'.
Proof.
  intros H Ht. post_init_tac H. destruct H as (Hne & Hn & Hc & Hu & Hf).
  unfold StepRun.transition_to in Ht. case_in Ht; [done|]. cbn zeta in Ht.
  rewrite !then_Ok, fail_if_Ok, require_aware_Ok in Ht. destruct Ht as (_ & Ha & [= <-]).
  rewrite !then_Ok, require_all_non_empty_Ok, fail_if_Ok, !require_aware_Ok. cbn -[freeze_mapping] in *.
  repeat (split; [done|]). destruct i; [by rewrite freeze_freeze_mapping|].
  destruct s. injection Hf as Hf. cbn -[freeze_mapping] in *. by rewrite Hf.
Qed.

(** *** Every operation keeps them *)

Section validity.
Context (clock : nat -> datetime) (id_factory : nat -> string -> string).

Lemma valid_primitive : primitive_steps clock id_factory (keeps valid_entities).
Proof.
  split.
  - intros tg at_ rs cd. apply (respects_edit (keeps valid_entities)). intros x x'. rewrite bind_Ok.
    intros (r & Hr & [= <-]) []. split; try done. by eapply run_transition_valid.
  - intros tg at_. apply (respects_edit (keeps valid_entities)). intros x x'. rewrite bind_Ok.
    intros (a & Ha & [= <-]) []. split; try done. by eapply session_transition_valid.
  - intros i tg at_ inp o cd. apply (respects_edit (keeps valid_entities)). intros x x' H [].
    destruct (step_runs x !! i) as [s|] eqn:Hi; [|done]. rewrite bind_Ok in H.
    destruct H as (s' & Hs & [= <-]). split; try done. cbn.
    intros s0 [j Hj]%list_elem_of_lookup. apply list_lookup_insert_Some in Hj as [(_ & -> & _)|[_ Hj]].
    + eapply step_transition_valid; [|done]. apply ve_steps0. by eapply list_elem_of_lookup_2.
    + apply ve_steps0. by eapply list_elem_of_lookup_2.
  - intros o. apply (respects_edit (keeps valid_entities)). intros x x' [= <-] []. split; try done. by apply run_outputs_valid.
  - apply respects_checkpoint; [typeclasses eauto|]. intros x i ts c _ []. by split.
Qed.

Lemma valid_retry f sid ts : respects (keeps valid_entities) (append_retry clock id_factory f sid ts).
Proof.
  intros w Hv. unfold append_retry, mbind, M_bind, gets, on_env, lift_result.
  destruct (new_step_run _ _ _ _ _ _ _) as [[s|e] e'] eqn:Hs; [|done].
  destruct (StepRun.transition_to _ _ _ _ _ _ _) as [s'|e] eqn:Ht; [|done].
  unfold append_step_run, edit_execution. cbn [execution environment]. set (w1 := World _ _).
  assert (valid_entities (execution w1)) as Hv1.
  { destruct Hv. split; try done. cbn. intros s0 [Hs0| ->%list_elem_of_singleton]%elem_of_app; [auto|].
    eapply step_transition_valid; [|done]. unfold new_step_run, mbind, M_bind, new_id, lift_result in Hs.
    injection Hs as Hs _. by eapply step_post_init_valid. }
  pose proof (ps_checkpoint _ _ _ valid_primitive w1 Hv1) as H.
  by destruct (create_checkpoint clock id_factory w1) as [[c|e] w2].
Qed.

Lemma new_step_runs_valid run steps ts e l e' :
  new_step_runs id_factory run steps ts e = (Ok l, e') -> forall s, s ∈ l -> valid_step s.
Proof.
  revert e l e'. induction steps as [|step steps IH]; intros e l e' H; cbn in H.
  - injection H as <- _. intros s Hs. by apply elem_of_nil in Hs.
  - unfold mbind, M_bind in H.
    destruct (new_step_run _ _ _ _ _ _ _) as [[s|x] e1] eqn:Hs; [|done].
    destruct (new_step_runs _ _ _ _ _) as [[l'|x] e2] eqn:Hl; [|done].
    injection H as <- _. intros s0 [->|Hs0]%elem_of_cons; [|by eapply IH].
    unfold new_step_run, mbind, M_bind, new_id, lift_result in Hs.
    injection Hs as Hs _. by eapply step_post_init_valid.
Qed.

Lemma create_valid w p a k inp prof e x e' :
  create_workflow_run clock id_factory w p a k inp prof e = (Ok x, e') -> valid_entities x.
Proof.
  unfold create_workflow_run, first_checkpoint, mbind, M_bind, lift_result, tick, new_id. intros H.
  destruct (validate_inputs w inp) as [[]|err] eqn:Hv; [|done]. cbn [fst snd ticks ids_given] in H.
  destruct (WorkflowRun.post_init _) as [run|err] eqn:Hr; [|done].
  destruct (AgentSession.post_init _) as [session|err] eqn:Hs; [|done].
  destruct (new_step_runs _ _ _ _ _) as [[steps|err] e1] eqn:Hl; [|done].
  pose proof (ps_checkpoint _ _ _ valid_primitive (World e1 (mk w run session steps []))) as Hk.
  destruct (create_checkpoint _ _ _) as [[c|err] [e2 x2]]; [|done]. injection H as <- <-. apply Hk.
  split; [by eapply run_post_init_valid|by eapply session_post_init_valid|by eapply new_step_runs_valid].
Qed.

(** Every execution the coordinator can produce is valid. *)
Lemma reachable_valid w p a k inp prof e x e' ops :
  create_workflow_run clock id_factory w p a k inp prof e = (Ok x, e') ->
  valid_entities (execution (perform_all clock id_factory (World e' x) ops)).
Proof.
  intros H%create_valid. revert H.
  apply (perform_all_respects clock id_factory (keeps valid_entities) (World e' x) ops).
  apply simple_operations; [typeclasses eauto|apply valid_primitive|apply valid_retry].
Qed.
End validity.

(** ** Storing and loading *)

Definition thawed_run (r : WorkflowRun.t) : WorkflowRun.t :=
  WorkflowRun.set_outputs r (thaw_mapping (WorkflowRun.outputs r)).

Definition thawed_step (s : StepRun.t) : StepRun.t :=
  StepRun.mk (StepRun.id s) (StepRun.workflow_run_id s) (StepRun.step_id s) (StepRun.attempt s)
    (StepRun.idempotency_key s) (StepRun.inputs s) (StepRun.status s) (thaw_mapping (StepRun.outputs s))
    (StepRun.error_code s) (StepRun.row_version s) (StepRun.created_at s) (StepRun.updated_at s)
    (StepRun.started_at s) (StepRun.finished_at s).

(** What comes back: the outputs with mutable containers, the rest as it was. *)
Definition reloaded (x : ExecutionState.t) (cps : list Checkpoint.t) : ExecutionState.t :=
  mk (workflow x) (thawed_run (workflow_run x)) (agent_session x) (thawed_step <$> step_runs x) cps.

Lemma frozen_again d : freeze_mapping d = d -> freeze_mapping (thaw_mapping (freeze_mapping d)) = d.
Proof. intros H. by rewrite freeze_thaw_mapping, freeze_freeze_mapping. Qed.

Lemma run_record_round_trip r rec :
  valid_run r -> WorkflowRunRecord.from_domain r = Ok rec ->
  WorkflowRunRecord.to_domain rec = Ok (thawed_run r).
Proof.
  intros H Hr. unfold WorkflowRunRecord.from_domain, WorkflowRunRecord.post_init in Hr.
  rewrite bind_Ok in Hr. destruct Hr as (i & [_ ->]%freeze_json_mapping_Ok & Hr).
  rewrite bind_Ok in Hr. destruct Hr as (o & [_ ->]%freeze_json_mapping_Ok & [= <-]).
  unfold WorkflowRunRecord.to_domain. post_init_tac H. destruct H as (Hne & Hc & Hu & Hf).
  rewrite !then_Ok, require_all_non_empty_Ok, !require_aware_Ok.
  destruct r. injection Hf as Hf. cbn -[freeze_mapping thaw_mapping] in *.
  repeat (split; [done|]). rewrite frozen_again by done. by rewrite thaw_freeze_mapping.
Qed.

Lemma session_record_round_trip a rec :
  valid_session a -> AgentSessionRecord.from_domain a = Ok rec -> AgentSessionRecord.to_domain rec = Ok a.
Proof.
  intros H Hr. unfold AgentSessionRecord.from_domain, AgentSessionRecord.post_init in Hr.
  rewrite bind_Ok in Hr. destruct Hr as (i & [_ ->]%freeze_json_mapping_Ok & [= <-]).
  unfold AgentSessionRecord.to_domain. post_init_tac H. destruct H as (Hne & Hc & Hu & Hf).
  rewrite !then_Ok, require_all_non_empty_Ok, !require_aware_Ok.
  destruct a. injection Hf as Hf. cbn -[freeze_mapping thaw_mapping] in *.
  repeat (split; [done|]). by rewrite frozen_again.
Qed.

Lemma step_record_round_trip s rec :
  valid_step s -> StepRunRecord.from_domain s = Ok rec -> StepRunRecord.to_domain rec = Ok (thawed_step s).
Proof.
  intros H Hr. unfold StepRunRecord.from_domain, StepRunRecord.post_init in Hr.
  rewrite bind_Ok in Hr. destruct Hr as (i & [_ ->]%freeze_json_mapping_Ok & Hr).
  rewrite bind_Ok in Hr. destruct Hr as (o & [_ ->]%freeze_json_mapping_Ok & [= <-]).
  unfold StepRunRecord.to_domain. post_init_tac H. destruct H as (Hne & Hn & Hc & Hu & Hf).
  rewrite !then_Ok, require_all_non_empty_Ok, fail_if_Ok, !require_aware_Ok.
  destruct s. injection Hf as Hf. cbn -[freeze_mapping thaw_mapping] in *.
  repeat (split; [done|]). unfold thawed_step. cbn -[freeze_mapping thaw_mapping].
  rewrite frozen_again by done. by rewrite thaw_freeze_mapping.
Qed.

Lemma execution_round_trip x v rec cps :
  valid_entities x -> WorkflowExecutionRecord.from_execution x v = Ok rec ->
  WorkflowExecutionRecord.to_execution rec cps = Ok (reloaded x cps).
Proof.
  intros [Hr Ha Hs] H. unfold WorkflowExecutionRecord.from_execution in H.
  rewrite bind_Ok in H. destruct H as (r & Hr' & H). rewrite bind_Ok in H.
  destruct H as (a & Ha' & H). rewrite bind_Ok in H. destruct H as (l & Hl & H).
  unfold WorkflowExecutionRecord.post_init in H. rewrite then_Ok in H. destruct H as [_ [= <-]].
  unfold WorkflowExecutionRecord.to_execution. cbn -[mbind].
  rewrite (run_record_round_trip _ _ Hr Hr'), (session_record_round_trip _ _ Ha Ha'). cbn [mbind result_bind].
  assert (map_ok StepRunRecord.to_domain l = Ok (thawed_step <$> step_runs x)) as ->; [|done].
  apply map_ok_Forall2. apply map_ok_Forall2 in Hl. unfold reloaded.
  induction Hl as [|s s' steps l Hss _ IH]; [constructor|]. constructor.
  - eapply step_record_round_trip; [|done]. apply Hs. left.
  - apply IH. intros s0 Hs0. apply Hs. by right.
Qed.

(** Every number of the execution is one JSON has. *)
Definition finite_execution (x : ExecutionState.t) : bool :=
  mapping_finite (WorkflowRun.inputs (workflow_run x))
  && mapping_finite (WorkflowRun.outputs (workflow_run x))
  && mapping_finite (AgentSession.state (agent_session x))
  && forallb (fun s => mapping_finite (StepRun.inputs s) && mapping_finite (StepRun.outputs s))
       (step_runs x).

Lemma freeze_finite path d : mapping_finite d = true -> freeze_json_mapping path d = Ok (freeze_mapping d).
Proof. intros H. by apply freeze_json_mapping_Ok. Qed.

Lemma execution_storable x v :
  0 < v -> finite_execution x = true ->
  exists rec, WorkflowExecutionRecord.from_execution x v = Ok rec.
Proof.
  intros Hv H. unfold finite_execution in H. rewrite !andb_true_iff in H.
  destruct H as (((Hi & Ho) & Ha) & Hs).
  unfold WorkflowExecutionRecord.from_execution, WorkflowRunRecord.from_domain,
    WorkflowRunRecord.post_init, AgentSessionRecord.from_domain, AgentSessionRecord.post_init.
  cbn -[mbind map_ok freeze_json_mapping]. rewrite (freeze_finite _ _ Hi), (freeze_finite _ _ Ho), (freeze_finite _ _ Ha).
  cbn [mbind result_bind].
  assert (exists l, map_ok StepRunRecord.from_domain (step_runs x) = Ok l) as [l ->].
  { induction (step_runs x) as [|s l IH]; [by exists []|]. cbn in Hs.
    apply andb_true_iff in Hs as [[H1 H2]%andb_true_iff Hl]. destruct (IH Hl) as [l' Hl'].
    cbn [map_ok]. rewrite Hl'. unfold StepRunRecord.from_domain, StepRunRecord.post_init.
    cbn -[mbind freeze_json_mapping]. rewrite (freeze_finite _ _ H1), (freeze_finite _ _ H2). cbn. by eexists. }
  cbn [mbind result_bind]. unfold WorkflowExecutionRecord.post_init. cbn.
  destruct (Z.leb_spec v 0); [lia|]. by eexists.
Qed.

(** ** Nothing that matters changes *)

Lemma reloaded_snapshot x cps : ExecutionSnapshot.from_execution (reloaded x cps) = ExecutionSnapshot.from_execution x.
Proof.
  unfold ExecutionSnapshot.from_execution. cbn -[fmap freeze_mapping thaw_mapping]. f_equal.
  rewrite <- list_fmap_compose. apply list_fmap_ext. intros _ s _.
  unfold StepRunSnapshot.of_step_run. cbn -[freeze_mapping thaw_mapping].
  by rewrite freeze_thaw_mapping.
Qed.

Lemma reloaded_decides x cps : decide (reloaded x cps) = decide x.
Proof. unfold decide. by rewrite reloaded_snapshot. Qed.

Lemma reloaded_state x cps : snapshot (reloaded x cps) = snapshot x.
Proof.
  unfold snapshot, run_entry. cbn -[fmap thaw_mapping]. rewrite thaw_thaw_mapping.
  do 7 f_equal. rewrite <- list_fmap_compose. apply list_fmap_ext. intros _ s _.
  unfold step_entry. cbn -[thaw_mapping]. by rewrite thaw_thaw_mapping.
Qed.

Lemma reloaded_latest_from sid l k best :
  latest_from sid k (thawed_step <$> l) (prod_map id thawed_step <$> best)
  = prod_map id thawed_step <$> latest_from sid k l best.
Proof.
  revert k best. induction l as [|s l IH]; intros k best; [done|]. rewrite fmap_cons.
  cbn [latest_from]. rewrite <- IH. f_equal. cbn. destruct (String.eqb _ _); [|done].
  destruct best as [[j b]|]; [|done]. cbn. by destruct (StepRun.attempt b <? StepRun.attempt s).
Qed.

Lemma reloaded_latest x cps sid :
  latest_step_run (reloaded x cps) sid = prod_map id thawed_step <$> latest_step_run x sid.
Proof.
  unfold latest_step_run. cbn [step_runs reloaded].
  rewrite (reloaded_latest_from sid (step_runs x) 0 None : latest_from sid 0 _ None = _).
  by destruct (latest_from sid 0 (step_runs x) None).
Qed.

Lemma reloaded_validates x cps dec : validate_decision (reloaded x cps) dec = validate_decision x dec.
Proof.
  unfold validate_decision. cbn zeta. cbn [workflow_run reloaded].
  apply result_bind_ext; intros []. apply result_bind_ext; intros [].
  destruct (decision_step_id dec) as [sid|]; [|done]. destruct (decision_step_version dec); [|done].
  rewrite reloaded_latest. by destruct (latest_step_run x sid) as [[i s]|].
Qed.

Lemma reloaded_validates_checkpoint x c :
  validate_checkpoint (reloaded x (checkpoints x)) c = validate_checkpoint x c.
Proof.
  unfold validate_checkpoint. cbn zeta. cbn [workflow workflow_run agent_session step_runs reloaded].
  apply result_bind_ext; intros latest. do 3 (apply result_bind_ext; intros []).
  apply result_bind_ext; intros state. do 8 (apply result_bind_ext; intros []).
  destruct (dict_get "step_runs" state) as [[]|]; try done. rewrite length_fmap.
  apply result_bind_ext; intros []. f_equal. generalize (steps_by_id l). intros by_id.
  induction (step_runs x) as [|s steps IH]; [done|]. rewrite fmap_cons. cbn [each_ok]. rewrite IH.
  done.
Qed.

(** ** Property *)

Section transparency.
Context (clock : nat -> datetime) (id_factory : nat -> string -> string).

(** C27: storing an execution and loading it again is transparent.  Whatever the
    coordinator did to a run before, as long as its data holds only finite
    numbers, the run can be stored, the loaded execution exists, the engine
    takes the same decision on it, it accepts and refuses the same decisions
    and the same checkpoints, and its next checkpoint has the same state. *)
Theorem reload_is_transparent w p a k inp prof e x0 e' ops v :
  create_workflow_run clock id_factory w p a k inp prof e = (Ok x0, e') ->
  let x := execution (perform_all clock id_factory (World e' x0) ops) in
  0 < v -> finite_execution x = true ->
  exists rec x', WorkflowExecutionRecord.from_execution x v = Ok rec /\
    WorkflowExecutionRecord.to_execution rec (checkpoints x) = Ok x' /\
    decide x' = decide x /\ snapshot x' = snapshot x /\
    (forall d, validate_decision x' d = validate_decision x d) /\
    (forall c, validate_checkpoint x' c = validate_checkpoint x c).
Proof.
  intros Hc x Hv Hf. destruct (execution_storable x v Hv Hf) as [rec Hrec].
  exists rec, (reloaded x (checkpoints x)). split; [done|]. split.
  { eapply execution_round_trip; [|done]. by eapply reachable_valid. }
  split; [apply reloaded_decides|]. split; [apply reloaded_state|].
  split; [apply reloaded_validates|apply reloaded_validates_checkpoint].
Qed.
End transparency.

(** ** Witness *)

Lemma create_sample_finite : exists x0 e', create_sample = (Ok x0, e') /\
  finite_execution (execution (perform_all test_clock test_ids (World e' x0) start_plan)) = true.
Proof.
  assert (match create_sample with
          | (Ok x0, e') => finite_execution (execution (perform_all test_clock test_ids (World e' x0) start_plan))
          | _ => false
          end = true) as H by (vm_compute; reflexivity).
  destruct create_sample as [[x0|err] e']; [exists x0, e'; exact (conj eq_refl H)|done].
Qed.

Lemma reload_is_transparent_witness :
  exists x0 e' rec x', create_sample = (Ok x0, e') /\
    let x := execution (perform_all test_clock test_ids (World e' x0) start_plan) in
    WorkflowExecutionRecord.from_execution x 1 = Ok rec /\
    WorkflowExecutionRecord.to_execution rec (checkpoints x) = Ok x' /\ decide x' = decide x.
Proof.
  destruct create_sample_finite as (x0 & e' & H & Hf).
  destruct (reload_is_transparent test_clock test_ids _ _ _ _ _ _ _ x0 e' start_plan 1 H eq_refl Hf)
    as (rec & x' & Hr & Hx & Hd & _).
  exists x0, e', rec, x'. exact (conj H (conj Hr (conj Hx Hd))).
Defined.
