(* ===== verification/Lexical.v ===== *)
(** Lexical forms of the skill contracts: [str.split], [str.strip], code
    points, the regular expressions of skill names and semantic versions, and
    the [repr] of JSON-compatible values. *)
From S2P Require Import Prelude Errors Text Float Value.
From Stdlib Require Import Ascii String SpecFloat.
Local Open Scope string_scope.
Local Open Scope list_scope.

Definition of_chars : list ascii -> string := string_of_list_ascii.
Definition to_chars : string -> list ascii := list_ascii_of_string.

(** ** [s.split(c)] and [s.count(c)] *)

Fixpoint split_chars (c : ascii) (s : list ascii) : list (list ascii) :=
  match s with
  | [] => [[]]
  | a :: s' =>
      match split_chars c s' with
      | part :: parts => if Ascii.eqb a c then [] :: part :: parts else (a :: part) :: parts
      | [] => [[]]
      end
  end.

Definition split_on (c : ascii) (s : string) : list string := of_chars <$> split_chars c (to_chars s).
Definition count_char (c : ascii) (s : string) : nat := pred (List.length (split_chars c (to_chars s))).

(** The parts before and after the first [c]. *)
Fixpoint cut_chars (c : ascii) (s : list ascii) : list ascii * option (list ascii) :=
  match s with
  | [] => ([], None)
  | a :: s' => if Ascii.eqb a c then ([], Some s')
               else let '(l, r) := cut_chars c s' in (a :: l, r)
  end.

(** ** [s.strip()] *)

Fixpoint strip_left (s : list ascii) : list ascii :=
  match s with
  | [] => []
  | a :: s1 =>
      if ascii_space a then strip_left s1
      else match s1 with
           | b :: s2 =>
               if space2 a b then strip_left s2
               else match s2 with
                    | c :: s3 => if space3 a b c then strip_left s3 else s
                    | [] => s
                    end
           | [] => s
           end
  end.

Fixpoint strip_right (s : list ascii) : list ascii :=
  if blank_bytes s then [] else match s with [] => [] | a :: s' => a :: strip_right s' end.

Definition strip (s : string) : string := of_chars (strip_right (strip_left (to_chars s))).

(** ** Code points *)

(** [len(s)]: the bytes that do not continue a character. *)
Definition is_continuation (c : ascii) : bool := between 128 191 c.
Definition code_points (s : string) : Z :=
  Z.of_nat (List.length (List.filter (fun c => negb (is_continuation c)) (to_chars s))).

(** The code points of a UTF-8 string. *)
Fixpoint decode (s : list ascii) : list N :=
  match s with
  | a :: s1 =>
      let x := code a in
      let tail c := (code c mod 64)%N in
      if (x <? 128)%N then x :: decode s1
      else match s1 with
           | b :: s2 =>
               if (x <? 224)%N then ((x mod 32) * 64 + tail b)%N :: decode s2
               else match s2 with
                    | c :: s3 =>
                        if (x <? 240)%N then ((x mod 16) * 4096 + tail b * 64 + tail c)%N :: decode s3
                        else match s3 with
                             | d :: s4 =>
                                 ((x mod 8) * 262144 + tail b * 4096 + tail c * 64 + tail d)%N
                                 :: decode s4
                             | [] => []
                             end
                    | [] => []
                    end
           | [] => []
           end
  | [] => []
  end.

(** The zero digits of the Unicode decimal digits ([\d] in a pattern on [str]);
    each is followed by the nine other digits of its script. *)
Definition digit_zeros : list N :=
  [48; 1632; 1776; 1984; 2406; 2534; 2662; 2790; 2918; 3046; 3174; 3302; 3430; 3558; 3664; 3792; 3872;
   4160; 4240; 6112; 6160; 6470; 6608; 6784; 6800; 6992; 7088; 7232; 7248; 42528; 43216; 43264; 43472;
   43504; 43600; 44016; 65296; 66720; 68912; 69734; 69872; 69942; 70096; 70384; 70736; 70864; 71248;
   71360; 71472; 71904; 72016; 72784; 73040; 73120; 73552; 92768; 92864; 93008; 120782; 120792; 120802;
   120812; 120822; 123200; 123632; 124144; 125264; 130032]%N.
Definition is_decimal (n : N) : bool := existsb (fun z => (z <=? n)%N && (n <=? z + 9)%N) digit_zeros.

(** ** Skill names and semantic versions *)

Definition is_lower (c : ascii) : bool := between 97 122 c.
Definition is_name_char (c : ascii) : bool := is_lower c || is_digit c || Ascii.eqb c "_".

(** A lower-case letter, then lower-case letters, digits and underscores. *)
Definition is_name_part (s : list ascii) : bool :=
  match s with [] => false | a :: s' => is_lower a && forallb is_name_char s' end.

(** [_SKILL_NAME]: such parts, separated by dots. *)
Definition is_skill_name (s : string) : bool := forallb is_name_part (split_chars "." (to_chars s)).

(** Zero, or a digit from 1 to 9 and then decimal digits of any script. *)
Definition is_version_number (s : list ascii) : bool :=
  match decode s with
  | [] => false
  | [48%N] => true
  | n :: rest => (49 <=? n)%N && (n <=? 57)%N && forallb is_decimal rest
  end.

(** Letters, digits and hyphens in parts separated by dots. *)
Definition is_tag_char (c : ascii) : bool := is_letter c || is_digit c || Ascii.eqb c "-".
Definition is_tag (s : list ascii) : bool :=
  forallb (fun part => match part with [] => false | _ => forallb is_tag_char part end)
    (split_chars "." s).

Definition optional_tag (o : option (list ascii)) : bool :=
  match o with Some s => is_tag s | None => true end.

(** [_SEMVER]: a core of three numbers, an optional pre-release and an optional build. *)
Definition is_semver (s : string) : bool :=
  let '(front, build) := cut_chars "+" (to_chars s) in
  let '(core, pre) := cut_chars "-" front in
  match split_chars "." core with
  | [x; y; z] => is_version_number x && is_version_number y && is_version_number z
                 && optional_tag pre && optional_tag build
  | _ => false
  end.

(** ** Numbers and [repr] *)

Inductive number := NInt (z : Z) | NFloat (x : float).
#[export] Instance number_eq_dec : EqDecision number.
Proof. solve_decision. Defined.

(** [k * 2 ^ e < n] and the converse, for the value of a finite float. *)
Definition scaled_lt (k e n : Z) : bool :=
  (if 0 <=? e then k * 2 ^ e <? n else k <? n * 2 ^ (- e))%Z.
Definition lt_scaled (n k e : Z) : bool :=
  (if 0 <=? e then n <? k * 2 ^ e else n * 2 ^ (- e) <? k)%Z.

(** [x < y]: Python compares an integer with a float exactly. *)
Definition number_lt (x y : number) : bool :=
  match x, y with
  | NInt m, NInt n => (m <? n)%Z
  | NFloat x, NFloat y => f64_lt x y
  | NInt m, NFloat y =>
      match y with
      | S754_zero _ => (m <? 0)%Z
      | S754_infinity s => negb s
      | S754_nan => false
      | S754_finite s p e => lt_scaled m (if s then Z.neg p else Z.pos p) e
      end
  | NFloat x, NInt n =>
      match x with
      | S754_zero _ => (0 <? n)%Z
      | S754_infinity s => s
      | S754_nan => false
      | S754_finite s p e => scaled_lt (if s then Z.neg p else Z.pos p) e n
      end
  end.

Definition number_str (x : number) : string :=
  match x with NInt z => int_str z | NFloat x => float_repr x end.

Definition value_number (v : value) : option number :=
  match v with VInt z => Some (NInt z) | VFloat x => Some (NFloat x) | _ => None end.

Definition tuple_repr (l : list string) : string :=
  match l with [x] => "(" +:+ x +:+ ",)" | _ => "(" +:+ join ", " l +:+ ")" end.

Fixpoint value_repr (v : value) : string :=
  match v with
  | VNone => "None"
  | VBool b => if b then "True" else "False"
  | VInt z => int_str z
  | VFloat x => float_repr x
  | VStr s => py_repr s
  | VList l => "[" +:+ join ", " (map value_repr l) +:+ "]"
  | VTuple l => tuple_repr (map value_repr l)
  | VDict b d =>
      let body := "{" +:+ join ", " (map (fun kv => py_repr kv.1 +:+ ": " +:+ value_repr kv.2) d) +:+ "}" in
      if b then "mappingproxy(" +:+ body +:+ ")" else body
  end.

(** ** Splitting *)

Lemma split_chars_nonempty c s : split_chars c s <> [].
Proof. destruct s as [|a s]; cbn; [done|]. destruct (split_chars c s); [done|by destruct (Ascii.eqb a c)]. Qed.

(** A separator-free head is the first part. *)
Lemma split_chars_app c s t :
  c ∉ s -> split_chars c (s ++ c :: t) = s :: split_chars c t.
Proof.
  induction s as [|a s IH]; intros Hc; cbn.
  - pose proof (split_chars_nonempty c t). destruct (split_chars c t); [done|]. by rewrite Ascii.eqb_refl.
  - apply not_elem_of_cons in Hc as [Hac Hc]. rewrite IH by done.
    by destruct (Ascii.eqb_spec a c); [subst|].
Qed.

Lemma split_chars_none c s : c ∉ s -> split_chars c s = [s].
Proof.
  induction s as [|a s IH]; intros Hc; cbn; [done|]. apply not_elem_of_cons in Hc as [Hac Hc].
  rewrite IH by done. by destruct (Ascii.eqb_spec a c); [subst|].
Qed.

Lemma split_chars_join c s parts :
  split_chars c s = parts -> Forall (fun p => c ∉ p) parts /\
  s = match parts with [] => [] | p :: ps => p ++ List.concat (cons c <$> ps) end.
Proof.
  revert parts. induction s as [|a s IH]; intros parts; cbn.
  - intros <-. split; [|done]. constructor; [apply not_elem_of_nil|constructor].
  - destruct (split_chars c s) as [|p ps] eqn:Hs; [by apply split_chars_nonempty in Hs|].
    destruct (IH _ eq_refl) as [Hf ->]. apply Forall_cons in Hf as [Hp Hps].
    destruct (Ascii.eqb_spec a c) as [->|Hac]; intros <-.
    + split; [repeat constructor; [apply not_elem_of_nil|done..]|done].
    + split; [|done]. constructor; [|done]. apply not_elem_of_cons. split; [congruence|done].
Qed.

(** Two parts determine the string. *)
Lemma split_chars_two c s x y :
  split_chars c s = [x; y] -> s = x ++ c :: y /\ c ∉ x /\ c ∉ y.
Proof.
  intros [Hf ->]%split_chars_join. apply Forall_cons in Hf as [Hx Hf]. apply Forall_cons in Hf as [Hy _].
  cbn. by rewrite app_nil_r.
Qed.
