(* ===== verification/SkillSchema.v ===== *)
(** [backend/skill_system/schemas/skill_schema.py]: the object schemas of skill
    inputs and outputs, their validation, and the declarative meaning of a
    schema that validation decides. *)
From S2P Require Import Prelude Errors Text Float Value Lexical.
From Stdlib Require Import SpecFloat.
Local Open Scope string_scope.
Local Open Scope list_scope.
Local Open Scope Z_scope.

(** ** Schemas *)

Inductive FieldSchema := Field {
  kind : string;
  required : bool;
  nullable : bool;
  items : option FieldSchema;
  properties : list (string * FieldSchema);
  field_allow_extra : bool;
  enum_values : list value;
  min_length : option Z;
  max_length : option Z;
  minimum : option number;
  maximum : option number
}.

Definition field_kinds : list string := ["string"; "integer"; "number"; "boolean"; "array"; "object"].

Definition is_some {A} (o : option A) : bool := match o with Some _ => true | None => false end.
Definition value_error_if (b : bool) (message : string) : res unit := fail_if b (Exn PyValueError message).
Definition is_below (o : option Z) (bound : Z) : bool :=
  match o with Some n => n <? bound | None => false end.

Module FieldSchema.
Definition post_init (self : FieldSchema) : res FieldSchema :=
  _ ← value_error_if (negb (bool_decide (kind self ∈ field_kinds)))
        ("Unsupported field schema kind: " +:+ kind self);
  let is_array := String.eqb (kind self) "array" in
  let is_object := String.eqb (kind self) "object" in
  _ ← value_error_if (is_array && negb (is_some (items self))) "Array fields must define an items schema";
  _ ← value_error_if (negb is_array && is_some (items self)) "Only array fields can define items";
  _ ← value_error_if (negb is_object && negb (bool_decide (List.length (properties self) = 0%nat)))
        "Only object fields can define properties";
  _ ← value_error_if (negb is_object && field_allow_extra self)
        "Only object fields can allow extra properties";
  _ ← each_ok (fun p => value_error_if (String.eqb p.1 "")
                 "Object property names must be non-empty strings") (properties self);
  _ ← value_error_if (is_below (min_length self) 0) "min_length cannot be negative";
  _ ← value_error_if (is_below (max_length self) 0) "max_length cannot be negative";
  _ ← value_error_if (match min_length self with Some n => is_below (max_length self) n | None => false end)
        "min_length cannot exceed max_length";
  _ ← value_error_if (match minimum self, maximum self with
                      | Some lo, Some hi => number_lt hi lo
                      | _, _ => false
                      end) "minimum cannot exceed maximum";
  Ok self.
End FieldSchema.

Module SkillSchema.
Record t := mk { fields : list (string * FieldSchema); allow_extra : bool }.

Definition post_init (self : t) : res t :=
  _ ← each_ok (fun p => value_error_if (String.eqb p.1 "")
                 "Schema field names must be non-empty strings") (fields self);
  Ok self.
End SkillSchema.

(** ** Validation *)

(** [SkillValidationError], whose path is also kept as an attribute, or an
    [AssertionError]: what only a schema no constructor accepts leads to. *)
Inductive schema_failure :=
  | Invalid (path message : string)
  | AssertionFailed (message : string).

Abbreviation checked := (result schema_failure).

Definition invalid_if (b : bool) (path message : string) : checked unit := fail_if b (Invalid path message).

Definition validate_number_bounds (x : number) (schema : FieldSchema) (path : string) : checked unit :=
  _ ← match minimum schema with
      | Some lo => invalid_if (number_lt x lo) path ("must be at least " +:+ number_str lo)
      | None => Ok tt
      end;
  match maximum schema with
  | Some hi => invalid_if (number_lt hi x) path ("must be at most " +:+ number_str hi)
  | None => Ok tt
  end.

Definition validate_length (s : string) (schema : FieldSchema) (path : string) : checked unit :=
  _ ← match min_length schema with
      | Some n => invalid_if (code_points s <? n) path
                    ("must contain at least " +:+ int_str n +:+ " characters")
      | None => Ok tt
      end;
  match max_length schema with
  | Some n => invalid_if (n <? code_points s) path
                ("must contain at most " +:+ int_str n +:+ " characters")
  | None => Ok tt
  end.

(** [schema.enum_values and value not in schema.enum_values] *)
Definition outside_enum (v : value) (schema : FieldSchema) : bool :=
  negb (bool_decide (List.length (enum_values schema) = 0%nat))
  && negb (existsb (value_eq v) (enum_values schema)).

(** The checks of [_validate_object] before its loop. *)
Definition check_names (names : list string) (declared : list (string * FieldSchema))
    (extra : bool) (path : string) : checked unit :=
  let missing := List.filter (fun p => required p.2 && negb (bool_decide (p.1 ∈ names))) declared in
  _ ← match missing with
      | (name, _) :: _ => Err (Invalid path ("missing required field " +:+ py_repr name))
      | [] => Ok tt
      end;
  match sort_strings (List.filter (fun n => negb (bool_decide (n ∈ declared.*1))) names) with
  | name :: _ => invalid_if (negb extra) path ("contains unknown field " +:+ py_repr name)
  | [] => Ok tt
  end.

(** The values [_validate_field] checks and returns as they are. *)
Definition validate_scalar (v : value) (schema : FieldSchema) (path : string) : checked value :=
  if String.eqb (kind schema) "string" then
    match v with
    | VStr s => _ ← validate_length s schema path; Ok v
    | _ => Err (Invalid path "must be a string")
    end
  else if String.eqb (kind schema) "boolean" then
    match v with VBool _ => Ok v | _ => Err (Invalid path "must be a boolean") end
  else if String.eqb (kind schema) "integer" then
    match v with
    | VInt z => _ ← validate_number_bounds (NInt z) schema path; Ok v
    | _ => Err (Invalid path "must be an integer")
    end
  else if String.eqb (kind schema) "number" then
    match v with
    | VInt z => _ ← validate_number_bounds (NInt z) schema path; Ok v
    | VFloat x =>
        _ ← invalid_if (negb (f64_is_finite x)) path "must be finite";
        _ ← validate_number_bounds (NFloat x) schema path;
        Ok v
    | _ => Err (Invalid path "must be a number")
    end
  else if String.eqb (kind schema) "array" then Err (Invalid path "must be an array")
  else if String.eqb (kind schema) "object" then Err (Invalid path "must be an object")
  else Err (AssertionFailed ("Unhandled schema kind: " +:+ kind schema)).

(** [_validate_object], given what validates one field. *)
Section object.
Context (validate : value -> FieldSchema -> string -> checked value).

Definition validate_member (declared : list (string * FieldSchema)) (path : string)
    (kv : string * value) : checked (string * value) :=
  match dict_get kv.1 declared with
  | None => Ok kv
  | Some schema => w ← validate kv.2 schema (path +:+ "." +:+ kv.1); Ok (kv.1, w)
  end.

Definition validate_object (d : mapping) (declared : list (string * FieldSchema)) (extra : bool)
    (path : string) : checked mapping :=
  _ ← check_names d.*1 declared extra path;
  map_ok (validate_member declared path) d.
End object.

(** [_validate_field] *)
Fixpoint validate_field (v : value) (schema : FieldSchema) (path : string) {struct v} : checked value :=
  match v with
  | VNone => if nullable schema then Ok VNone else Err (Invalid path "cannot be null")
  | _ =>
      _ ← invalid_if (outside_enum v schema) path
            ("must be one of " +:+ tuple_repr (value_repr <$> enum_values schema));
      match v with
      | VList l | VTuple l =>
          if String.eqb (kind schema) "array" then
            match items schema with
            | Some item =>
                l' ← mapi_ok (fun i x =>
                       validate_field x item (path +:+ "[" +:+ int_str (Z.of_nat i) +:+ "]")) 0 l;
                Ok (VList l')
            | None => Err (AssertionFailed "")
            end
          else validate_scalar v schema path
      | VDict _ d =>
          if String.eqb (kind schema) "object" then
            d' ← validate_object validate_field d (properties schema) (field_allow_extra schema) path;
            Ok (VDict false d')
          else validate_scalar v schema path
      | _ => validate_scalar v schema path
      end
  end.

(** [SkillSchema.validate] *)
Definition validate (self : SkillSchema.t) (v : value) (label : string) : checked mapping :=
  match v with
  | VDict _ d =>
      validated ← validate_object validate_field d (SkillSchema.fields self)
                    (SkillSchema.allow_extra self) label;
      match freeze_json label (VDict false validated) with
      | Ok (VDict _ frozen) => Ok frozen
      | Ok _ => Ok []
      | Err e => Err (Invalid label (exn_msg e))
      end
  | _ => Err (Invalid label "must be an object")
  end.

(** ** What a schema means *)

Definition in_enum (s : FieldSchema) (v : value) : Prop :=
  enum_values s = [] \/ exists e, e ∈ enum_values s /\ value_eq v e = true.

Definition within (lo hi : option number) (x : number) : Prop :=
  (forall n, lo = Some n -> number_lt x n = false) /\ (forall n, hi = Some n -> number_lt n x = false).

Definition length_within (lo hi : option Z) (n : Z) : Prop :=
  (forall m, lo = Some m -> m <= n) /\ (forall m, hi = Some m -> n <= m).

Definition scalar_conforms (s : FieldSchema) (v : value) : Prop :=
  match v with
  | VStr x => kind s = "string" /\ length_within (min_length s) (max_length s) (code_points x)
  | VBool _ => kind s = "boolean"
  | VInt z => (kind s = "integer" \/ kind s = "number") /\ within (minimum s) (maximum s) (NInt z)
  | VFloat x => kind s = "number" /\ f64_is_finite x = true /\ within (minimum s) (maximum s) (NFloat x)
  | _ => False
  end.

Definition names_conform (declared : list (string * FieldSchema)) (extra : bool) (names : list string) : Prop :=
  (forall p, p ∈ declared -> required p.2 = true -> p.1 ∈ names) /\
  (extra = true \/ forall n, n ∈ names -> n ∈ declared.*1).

Inductive conforms : FieldSchema -> value -> Prop :=
  | conforms_null s : nullable s = true -> conforms s VNone
  | conforms_scalar s v : in_enum s v -> scalar_conforms s v -> conforms s v
  | conforms_array s item l v :
      v = VList l \/ v = VTuple l -> kind s = "array" -> items s = Some item -> in_enum s v ->
      Forall (conforms item) l -> conforms s v
  | conforms_object s b d :
      kind s = "object" -> in_enum s (VDict b d) ->
      names_conform (properties s) (field_allow_extra s) d.*1 ->
      Forall (fun kv => forall s', dict_get kv.1 (properties s) = Some s' -> conforms s' kv.2) d ->
      conforms s (VDict b d).

Definition members_conform (declared : list (string * FieldSchema)) (d : mapping) : Prop :=
  Forall (fun kv => forall s, dict_get kv.1 declared = Some s -> conforms s kv.2) d.

(** ** The checks, one by one *)

Lemma invalid_if_Ok b path message : invalid_if b path message = Ok tt <-> b = false.
Proof. apply fail_if_Ok. Qed.

Lemma outside_enum_false s v : outside_enum v s = false <-> in_enum s v.
Proof.
  unfold outside_enum, in_enum. rewrite andb_false_iff, !negb_false_iff, bool_decide_eq_true, existsb_exists.
  rewrite length_zero_iff_nil. by setoid_rewrite <- list_elem_of_In.
Qed.

Lemma bounds_Ok x s path :
  validate_number_bounds x s path = Ok tt <-> within (minimum s) (maximum s) x.
Proof.
  unfold validate_number_bounds, within. rewrite bind_Ok. split.
  - intros (? & Hlo & Hhi). split; intros n Hn; rewrite Hn in *;
      [destruct (minimum s)|destruct (maximum s)]; simplify_eq;
      eapply invalid_if_Ok; eauto; by destruct x0.
  - intros [Hlo Hhi]. exists tt. destruct (minimum s), (maximum s);
      rewrite ?invalid_if_Ok; auto.
Qed.

Lemma length_Ok x s path :
  validate_length x s path = Ok tt <-> length_within (min_length s) (max_length s) (code_points x).
Proof.
  unfold validate_length, length_within. rewrite bind_Ok. split.
  - intros (? & Hlo & Hhi). split; intros n Hn; rewrite Hn in *; [destruct x0|];
      match goal with H : invalid_if _ _ _ = Ok tt |- _ => apply invalid_if_Ok in H end; lia.
  - intros [Hlo Hhi]. exists tt.
    destruct (min_length s); [specialize (Hlo _ eq_refl)|];
      (destruct (max_length s); [specialize (Hhi _ eq_refl)|]);
      rewrite ?invalid_if_Ok, ?Z.ltb_ge; auto.
Qed.

Lemma filter_nil {A} (f : A -> bool) l : List.filter f l = [] <-> forall x, x ∈ l -> f x = false.
Proof.
  split.
  - intros H x Hx. destruct (f x) eqn:Hf; [|done]. exfalso.
    assert (In x (List.filter f l)) as Hin by (apply filter_In; split; [by apply list_elem_of_In|done]).
    by rewrite H in Hin.
  - induction l as [|y l IH]; intros H; cbn; [done|]. rewrite H by constructor.
    apply IH. intros x Hx. apply H. by constructor.
Qed.

Lemma sort_strings_nil l : sort_strings l = [] <-> l = [].
Proof.
  unfold sort_strings. split; [|by intros ->].
  intros H. apply Permutation_nil. rewrite <- H. apply isort_perm.
Qed.

Lemma names_Ok names declared extra path :
  check_names names declared extra path = Ok tt <-> names_conform declared extra names.
Proof.
  unfold check_names, names_conform. cbv zeta.
  set (missing := List.filter _ declared). set (unknown := List.filter _ names).
  transitivity (missing = [] /\ (extra = true \/ unknown = [])).
  - rewrite <- (sort_strings_nil unknown), then_Ok.
    destruct missing as [|[n ?] ?]; [|naive_solver]. destruct (sort_strings unknown); [naive_solver|].
    rewrite invalid_if_Ok, negb_false_iff. naive_solver.
  - unfold missing, unknown. rewrite !filter_nil. f_equiv; [|f_equiv].
    + apply forall_proper; intros p. rewrite andb_false_iff, negb_false_iff, bool_decide_eq_true.
      destruct (required p.2); naive_solver.
    + apply forall_proper; intros n. by rewrite negb_false_iff, bool_decide_eq_true.
Qed.

Lemma scalar_Ok v s path w :
  match v with VNone => False | _ => True end ->
  validate_scalar v s path = Ok w <-> scalar_conforms s v /\ w = v.
Proof.
  intros Hv. unfold validate_scalar, scalar_conforms.
  destruct (String.eqb_spec (kind s) "string") as [->|Hs];
    [|destruct (String.eqb_spec (kind s) "boolean") as [->|Hb];
      [|destruct (String.eqb_spec (kind s) "integer") as [->|Hi];
        [|destruct (String.eqb_spec (kind s) "number") as [->|Hn]]]].
  all: destruct v; cbn -[validate_length validate_number_bounds]; try done.
  all: rewrite ?then_Ok, ?invalid_if_Ok, ?length_Ok, ?bounds_Ok, ?negb_false_iff; try naive_solver.
  all: repeat case_match; naive_solver.
Qed.

Section members.
Context (f : value -> FieldSchema -> string -> checked value).

Lemma members_Ok declared d path d' :
  Forall (fun kv => forall s p w, f kv.2 s p = Ok w -> conforms s kv.2 /\ freeze w = freeze kv.2) d ->
  map_ok (validate_member f declared path) d = Ok d' ->
  members_conform declared d /\ freeze_mapping d' = freeze_mapping d.
Proof.
  intros Hf. rewrite map_ok_Forall2. intros Hd.
  induction Hd as [|[k v] [k' w] d d' Hkv Hd IH]; [by split; [constructor|]|].
  apply Forall_cons in Hf as [Hv Hf]. destruct (IH Hf) as [Hm Heq]. cbn in Hv, Hkv.
  unfold validate_member in Hkv. cbn in Hkv. destruct (dict_get k declared) as [s|] eqn:Hk.
  - apply bind_Ok in Hkv as (u & Hu & [= <- <-]). destruct (Hv _ _ _ Hu) as [Hc Hw]. split.
    + constructor; [|done]. cbn. intros s' Hs'. rewrite Hk in Hs'. by injection Hs' as <-.
    + unfold freeze_mapping, map_values in *. cbn. by rewrite Hw, Heq.
  - injection Hkv as <- <-. split.
    + constructor; [|done]. cbn. intros s' Hs'. by rewrite Hk in Hs'.
    + unfold freeze_mapping, map_values in *. cbn. by rewrite Heq.
Qed.

Lemma members_ok declared d path :
  Forall (fun kv => forall s p, conforms s kv.2 -> exists w, f kv.2 s p = Ok w) d ->
  members_conform declared d -> exists d', map_ok (validate_member f declared path) d = Ok d'.
Proof.
  intros Hf Hm. induction Hm as [|[k v] d Hkv Hm IH]; [by exists []|].
  apply Forall_cons in Hf as [Hv Hf]. destruct (IH Hf) as [d' Hd']. cbn. unfold validate_member at 1. cbn.
  destruct (dict_get k declared) as [s|] eqn:Hk.
  - destruct (Hv s (path +:+ "." +:+ k) (Hkv s Hk)) as [w Hw]. cbn in Hw. rewrite Hw. cbn. rewrite Hd'. eauto.
  - rewrite Hd'. eauto.
Qed.
End members.

Lemma map_freeze_mapping d d' :
  freeze_mapping d' = freeze_mapping d -> freeze (VDict false d') = freeze (VDict false d).
Proof. intros H. cbn. f_equal. exact H. Qed.

Lemma freeze_list l l' : freeze <$> l' = freeze <$> l -> freeze (VList l') = freeze (VList l).
Proof. intros H. cbn. f_equal. exact H. Qed.

(** Validation keeps the value, up to read-only containers, and accepts only
    conforming ones. *)
Lemma field_sound v : forall s path w,
  validate_field v s path = Ok w -> conforms s v /\ freeze w = freeze v.
Proof.
  induction v as [|b|z|x|t|l IH|l IH|b d IH] using value_ind; intros s path w; cbn -[outside_enum validate_scalar].
  { destruct (nullable s) eqn:Hn; [|done]. intros [= <-]. split; [by constructor|done]. }
  all: rewrite then_Ok, invalid_if_Ok, outside_enum_false; intros [He H].
  1-4: apply scalar_Ok in H as [Hs ->]; [|done]; split; [by apply conforms_scalar|done].
  1-2: destruct (String.eqb_spec (kind s) "array") as [Hk|Hk];
         [|apply scalar_Ok in H as [[] ->]; done];
       destruct (items s) as [item|] eqn:Hi; [|done]; apply bind_Ok in H as (l' & Hl & [= <-]);
       assert (Forall (conforms item) l /\ freeze <$> l' = freeze <$> l) as [Hc Heq];
         [clear He; revert l' Hl; generalize 0%nat; induction IH as [|x l Hx IH IHl]; intros i l'; cbn;
           [intros [= <-]; by split; [constructor|]|];
           destruct (validate_field x item _) as [y|] eqn:Hy; [|done];
           destruct (mapi_ok _ (S i) l) as [ys|] eqn:Hys; [|done]; intros [= <-];
           destruct (Hx _ _ _ Hy), (IHl _ _ Hys); split; [by constructor|cbn; congruence]
         |split; [by eapply conforms_array; eauto|by apply freeze_list]].
  destruct (String.eqb_spec (kind s) "object") as [Hk|Hk]; [|apply scalar_Ok in H as [[] ->]; done].
  apply bind_Ok in H as (d' & Hd & [= <-]). apply then_Ok in Hd as [Hn Hd]. apply names_Ok in Hn.
  apply members_Ok in Hd as [Hm Heq]; [|done]. split; [by constructor|by apply map_freeze_mapping].
Qed.

Lemma conforms_cases s v :
  conforms s v ->
  v = VNone /\ nullable s = true \/
  in_enum s v /\
    (scalar_conforms s v
     \/ (exists item l, (v = VList l \/ v = VTuple l) /\ kind s = "array" /\ items s = Some item /\
                       Forall (conforms item) l)
     \/ (exists b d, v = VDict b d /\ kind s = "object" /\
           names_conform (properties s) (field_allow_extra s) d.*1 /\ members_conform (properties s) d)).
Proof. destruct 1; [by left|right..]; naive_solver. Qed.

Lemma scalar_validates s v path :
  in_enum s v -> scalar_conforms s v -> validate_field v s path = Ok v.
Proof.
  intros He Hs. destruct v; try done; cbn -[outside_enum validate_scalar];
    rewrite then_Ok, invalid_if_Ok, outside_enum_false, scalar_Ok; done.
Qed.

Lemma elements_ok item l (f : nat -> string) i :
  Forall (fun v => forall s path, conforms s v -> exists w, validate_field v s path = Ok w) l ->
  Forall (conforms item) l ->
  exists l', mapi_ok (fun i x => validate_field x item (f i)) i l = Ok l'.
Proof.
  intros IH. revert i. induction IH as [|v l Hv IH IHl]; intros i Hc; [by exists []|].
  apply Forall_cons in Hc as [Hcv Hc]. destruct (Hv item (f i) Hcv) as [w Hw].
  destruct (IHl (S i) Hc) as [l' Hl']. cbn -[validate_field]. rewrite Hw, Hl'. eauto.
Qed.

(** Every conforming value is accepted. *)
Lemma field_complete v : forall s path, conforms s v -> exists w, validate_field v s path = Ok w.
Proof.
  induction v as [|b|z|x|t|l IH|l IH|b d IH] using value_ind; intros s path Hc;
    apply conforms_cases in Hc
      as [[[=] Hn]|[He [Hs|[(item & l' & [[=]|[=]] & Hk & Hi & Hl)|(b' & d' & [=] & Hk & Hn & Hm)]]]];
    subst; try (rewrite scalar_validates by done; eauto);
    cbn -[outside_enum validate_scalar check_names]; try (rewrite Hn; eauto);
    rewrite (proj2 (outside_enum_false _ _) He); cbn -[outside_enum validate_scalar check_names];
    rewrite Hk; cbn -[validate_scalar check_names].
  1-2: rewrite Hi; edestruct (elements_ok item l'
         (fun i => path +:+ "[" +:+ int_str (Z.of_nat i) +:+ "]")) as [ys ->]; eauto.
  unfold validate_object. rewrite (proj2 (names_Ok _ _ _ _) Hn). cbn.
  destruct (members_ok validate_field (properties s) d' path) as [ys ->]; eauto.
Qed.

(** ** The theorem *)

Lemma finite_freeze v : all_finite (freeze v) = all_finite v.
Proof.
  induction v as [| | | | |l IH|l IH|b d IH] using value_ind; cbn; try done.
  all: induction IH as [|x l' Hx IH IHl]; cbn; [done|]; by rewrite Hx, IHl.
Qed.

Lemma freeze_mapping_finite d : mapping_finite (freeze_mapping d) = mapping_finite d.
Proof.
  unfold mapping_finite, freeze_mapping, map_values.
  induction d as [|[k v] d IH]; cbn; [done|]. by rewrite finite_freeze, IH.
Qed.

Lemma members_conform_sound declared d path d' :
  map_ok (validate_member validate_field declared path) d = Ok d' ->
  members_conform declared d /\ freeze_mapping d' = freeze_mapping d.
Proof. apply members_Ok. rewrite Forall_forall. intros kv _ s p w. apply field_sound. Qed.

Lemma members_conform_complete declared d path :
  members_conform declared d ->
  exists d', map_ok (validate_member validate_field declared path) d = Ok d'.
Proof. apply members_ok. rewrite Forall_forall. intros kv _ s p. apply field_complete. Qed.

(** C30: validation accepts exactly the objects that conform to the schema and
    hold only finite numbers: every required field present, no unknown field
    unless allowed, every declared field of its kind, in its enumeration and
    within its bounds; it returns a read-only copy of the object. *)
Theorem validation_exact schema v label m :
  validate schema v label = Ok m <->
  exists b d, v = VDict b d /\
    names_conform (SkillSchema.fields schema) (SkillSchema.allow_extra schema) d.*1 /\
    members_conform (SkillSchema.fields schema) d /\
    mapping_finite d = true /\ m = freeze_mapping d.
Proof.
  destruct v as [| | | | | | |b d]; try (split; [done|by intros (? & ? & [=] & _)]).
  unfold validate, validate_object. split.
  - intros (d' & Hd & H)%bind_Ok. apply then_Ok in Hd as [Hn Hd].
    apply members_conform_sound in Hd as [Hm Heq]. apply names_Ok in Hn.
    exists b, d. split_and!; [done..| |].
    + rewrite <- freeze_mapping_finite, <- Heq, freeze_mapping_finite.
      destruct (freeze_json _ _) as [w|e] eqn:Hf; [|done]. by apply freeze_json_Ok_finite in Hf.
    + destruct (freeze_json _ _) as [w|e] eqn:Hf; [|done]. apply freeze_json_Ok in Hf as ->.
      cbn in H. injection H as <-. by rewrite <- Heq.
  - intros (b' & d0 & [= <- <-] & Hn & Hm & Hfin & ->).
    destruct (members_conform_complete _ _ label Hm) as [d' Hd].
    destruct (members_conform_sound _ _ _ _ Hd) as [_ Heq].
    rewrite (proj2 (names_Ok _ _ _ _) Hn). cbn -[freeze_json]. rewrite Hd. cbn -[freeze_json].
    rewrite freeze_json_finite; [cbn; by rewrite <- Heq|].
    cbn. rewrite <- Hfin, <- freeze_mapping_finite, Heq, freeze_mapping_finite. done.
Qed.

(** ** Schemas the constructors accept *)

Inductive well_built : FieldSchema -> Prop :=
  | well_built_field s :
      FieldSchema.post_init s = Ok s -> (forall item, items s = Some item -> well_built item) ->
      (forall name s', dict_get name (properties s) = Some s' -> well_built s') -> well_built s.

Definition well_built_schema (self : SkillSchema.t) : Prop :=
  forall name s, dict_get name (SkillSchema.fields self) = Some s -> well_built s.

Definition asserts {A} (r : checked A) : Prop := exists message, r = Err (AssertionFailed message).

Lemma asserts_bind {A B} (m : checked A) (f : A -> checked B) :
  asserts (m ≫= f) -> asserts m \/ exists a, m = Ok a /\ asserts (f a).
Proof.
  intros [message H]. destruct m as [a|e]; cbn in H.
  - right. exists a. split; [done|by exists message].
  - left. injection H as ->. by exists message.
Qed.

Lemma asserts_fail_if b path message : ~ asserts (invalid_if b path message).
Proof. by intros [m H]; destruct b. Qed.

Lemma asserts_names names declared extra path : ~ asserts (check_names names declared extra path).
Proof.
  unfold check_names. intros [[m H]|(u & _ & [m H])]%asserts_bind; repeat case_match; try done.
  by destruct extra.
Qed.

Lemma asserts_scalar s v path : well_built s -> ~ asserts (validate_scalar v s path).
Proof.
  destruct 1 as [s Hs _ _]. intros [m H]. unfold FieldSchema.post_init, value_error_if in Hs.
  apply then_Ok in Hs as [Hk _]. apply fail_if_Ok, negb_false_iff, bool_decide_eq_true in Hk.
  unfold validate_scalar, validate_length, validate_number_bounds, invalid_if, fail_if in H.
  repeat case_match; simplify_eq; try done.
  repeat match goal with H : String.eqb _ _ = false |- _ => apply String.eqb_neq in H end.
  unfold field_kinds in Hk. set_solver.
Qed.

Lemma asserts_elements {A B} (f : nat -> A -> checked B) i l :
  asserts (mapi_ok f i l) -> exists j x, x ∈ l /\ asserts (f j x).
Proof.
  revert i. induction l as [|x l IH]; intros i [m H]; cbn in H; [done|].
  destruct (f i x) as [y|e] eqn:Hx.
  - destruct (mapi_ok f (Datatypes.S i) l) as [ys|e] eqn:Hl; [done|]. injection H as ->.
    destruct (IH (Datatypes.S i)) as (j & z & Hz & Ha); [by exists m|]. exists j, z. split; [by constructor|done].
  - injection H as ->. exists i, x. split; [constructor|by exists m].
Qed.

Lemma asserts_map {A B} (f : A -> checked B) l : asserts (map_ok f l) -> exists x, x ∈ l /\ asserts (f x).
Proof.
  induction l as [|x l IH]; intros [m H]; cbn in H; [done|].
  destruct (f x) as [y|e] eqn:Hx.
  - destruct (map_ok f l) as [ys|e] eqn:Hl; [done|]. injection H as ->.
    destruct IH as (z & Hz & Ha); [by exists m|]. exists z. split; [by constructor|done].
  - injection H as ->. exists x. split; [constructor|by exists m].
Qed.

Lemma array_items s :
  well_built s -> kind s = "array" -> exists item, items s = Some item /\ well_built item.
Proof.
  destruct 1 as [s Hs Hi _]. intros Hk. unfold FieldSchema.post_init, value_error_if in Hs.
  rewrite !then_Ok, !fail_if_Ok in Hs. destruct Hs as (_ & Ha & _). rewrite Hk in Ha.
  destruct (items s) as [item|]; [eauto|done].
Qed.

Lemma field_never_asserts v : forall s path, well_built s -> ~ asserts (validate_field v s path).
Proof.
  induction v as [|b|z|x|t|l IH|l IH|b d IH] using value_ind; intros s path Hs H;
    cbn -[outside_enum validate_scalar validate_object] in H.
  { destruct H as [m H]. by destruct (nullable s). }
  all: apply asserts_bind in H as [H|(? & _ & H)]; [by apply asserts_fail_if in H|].
  1-4: by apply asserts_scalar in H.
  1-2: destruct (String.eqb_spec (kind s) "array") as [Hk|Hk]; [|by apply asserts_scalar in H];
       destruct (array_items s Hs Hk) as (item & Hi & Hw); rewrite Hi in H;
       apply asserts_bind in H as [(i & y & Hy & H)%asserts_elements|(? & _ & [? [=]])];
       rewrite Forall_forall in IH; by eapply IH.
  destruct (String.eqb_spec (kind s) "object") as [Hk|Hk]; [|by apply asserts_scalar in H].
  apply asserts_bind in H as [[H|(? & _ & (kv & Hkv & H)%asserts_map)]%asserts_bind|(? & _ & [? [=]])];
    [by apply asserts_names in H|]. unfold validate_member in H.
  destruct (dict_get kv.1 (properties s)) as [s'|] eqn:Hm; [|by destruct H].
  apply asserts_bind in H as [H|(? & _ & [? [=]])]. rewrite Forall_forall in IH.
  apply (IH kv Hkv s' _) in H; [done|]. destruct Hs as [s _ _ Hp]. by eapply Hp.
Qed.

Lemma validate_never_asserts schema v label : well_built_schema schema -> ~ asserts (validate schema v label).
Proof.
  intros Hs H. destruct v as [| | | | | | |b d]; try by destruct H.
  apply asserts_bind in H as [[H|(? & _ & (kv & Hkv & H)%asserts_map)]%asserts_bind|(w & _ & [m H])];
    [by apply asserts_names in H| |by repeat case_match].
  unfold validate_member in H. destruct (dict_get kv.1 _) as [s'|] eqn:Hm; [|by destruct H].
  apply asserts_bind in H as [H|(? & _ & [? [=]])]. eapply field_never_asserts, H. by eapply Hs.
Qed.
