(* ===== verification/ExecutionPolicy.v ===== *)
(** [backend/research/services/execution_policy.py]: the provider policy that
    composition hands to skills, and its presets. *)
From S2P Require Import Prelude Errors Text Value Lexical Lifecycle Dict Provider.
Local Open Scope string_scope.
Local Open Scope list_scope.
Local Open Scope Z_scope.

Module ProviderExecutionPolicy.
Record t := mk {
  budget : ProviderBudget.t;
  live_provider_names : gset string;
  reservations : dict string ProviderReservation.t;
  operation_timeout_seconds : Z
}.

Definition post_init (self : t) : res t :=
  _ ← fail_if (operation_timeout_seconds self <=? 0)
        (Exn PyValueError "operation_timeout_seconds must be positive");
  let names : gset string := set_map strip (live_provider_names self) in
  _ ← fail_if (bool_decide ("" ∈ names))
        (Exn PyValueError "live_provider_names cannot contain empty values");
  Ok (mk (budget self) names (reservations self) (operation_timeout_seconds self)).

(** [ProviderReservation()] *)
Definition default_reservation : res ProviderReservation.t :=
  ProviderReservation.post_init (ProviderReservation.mk 1 0 0 0 "USD").

Definition reservation_for (provider : string) (self : t) : res ProviderReservation.t :=
  match Dict.get provider (reservations self) with
  | Some r => Ok r
  | None => default_reservation
  end.

(** A budget with the default runtime, artifact and version fields left as
    given. *)
Definition budget_of (requests calls input output cost runtime : Z) (live : bool) : res ProviderBudget.t :=
  ProviderBudget.post_init
    (ProviderBudget.mk requests calls input output cost "USD" runtime (100 * 1024 * 1024) live
       "provider-budget/v1").

Definition fake_only : res t :=
  b ← ProviderBudget.fake_only_default; post_init (mk b ∅ [] 60).

Definition supervised_openalex : res t :=
  b ← budget_of 12 10 0 0 0 90 true;
  r ← ProviderReservation.post_init (ProviderReservation.mk 4 0 0 0 "USD");
  post_init (mk b {["openalex"]} [("openalex", r)] 90).

Definition supervised_multilingual_openalex : res t :=
  b ← budget_of 8 0 0 0 0 120 true;
  r ← ProviderReservation.post_init (ProviderReservation.mk 2 0 0 0 "USD");
  post_init (mk b {["openalex"]} [("openalex", r)] 30).

Definition synthetic_relevance_judge : res t :=
  b ← budget_of 100 100 6400 2400 0 60 false;
  r ← ProviderReservation.post_init (ProviderReservation.mk 1 64 24 0 "USD");
  post_init (mk b ∅ [("synthetic-relevance-judge", r)] 5).

Definition synthetic_grounded_report : res t :=
  b ← budget_of 9 8 90000 32000 125 1200 false;
  r ← ProviderReservation.post_init (ProviderReservation.mk 1 4000 2000 0 "USD");
  post_init (mk b ∅ [("synthetic-grounded-generation", r)] 30).

(** The policy of [fake_only], which is the default of every capability bundle. *)
Definition default_policy : t :=
  mk (ProviderBudget.mk 25 10 0 0 0 "USD" 1800 (100 * 1024 * 1024) false "provider-budget/v1") ∅ [] 60.

Lemma fake_only_default : fake_only = Ok default_policy.
Proof. vm_compute. reflexivity. Qed.

(** Every preset passes the checks of its constructors. *)
Lemma presets_accepted :
  Forall (fun p => is_ok p = true)
    [fake_only; supervised_openalex; supervised_multilingual_openalex; synthetic_relevance_judge;
     synthetic_grounded_report].
Proof. repeat constructor. Qed.
End ProviderExecutionPolicy.
