(* ===== verification/Skills.v ===== *)
(** [backend/skill_system]: skill references and definitions, the registry, the
    results of a skill and [SkillExecutor], which turns every failure of a
    skill implementation into a typed result.

    An implementation is code the program is given: a computation that may
    change the state [S] of the process and return an output or raise. *)
From S2P Require Import Prelude Errors Text Float Value Lexical SkillSchema Sha256 Lifecycle Workflow Checkpoint Coordinator RetryPolicy EngineModels Provider ExecutionPolicy Dict.
From Stdlib Require Import Ascii.
Local Open Scope string_scope.
Local Open Scope list_scope.
Local Open Scope Z_scope.

(** ** [models/skill_reference.py] *)

Definition at_sign : Ascii.ascii := "@"%char.

Module SkillReference.
Record t := mk { name : string; version : string }.
#[global] Instance eq_dec : EqDecision t.
Proof. solve_decision. Defined.

Definition invalid_part (s : string) : bool := String.eqb s "" || has_char at_sign s.

Definition post_init (self : t) : res t :=
  _ ← fail_if (invalid_part (name self))
        (Exn InvalidSkillReferenceError "Skill reference name is invalid");
  _ ← fail_if (invalid_part (version self))
        (Exn InvalidSkillReferenceError "Skill reference version is invalid");
  Ok self.

Definition parse (v : string) : res t :=
  match split_on at_sign v with
  | [name; version] => post_init (mk name version)
  | _ => Err (Exn InvalidSkillReferenceError ("Skill reference must be name@version, got " +:+ py_repr v))
  end.

Definition str (self : t) : string := name self +:+ "@" +:+ version self.
End SkillReference.

(** ** [models/skill_definition.py] *)

Module SkillMetadata.
Record t := mk {
  required_permissions : list string;
  capabilities : list string;
  side_effect : string;
  idempotency_supported : bool;
  retry_safe : bool;
  default_timeout_seconds : Z;
  implementation_entrypoint : string;
  api_version : string
}.

Definition definition_error (message : string) : exn := Exn InvalidSkillDefinitionError message.

Definition post_init (self : t) : res t :=
  _ ← fail_if (negb (bool_decide (side_effect self
                ∈ ["none"; "read_external"; "write_external"; "execute_code"])))
        (definition_error ("Unsupported side-effect classification: " +:+ side_effect self));
  _ ← fail_if (default_timeout_seconds self <=? 0)
        (definition_error "default_timeout_seconds must be positive");
  _ ← fail_if (String.eqb (implementation_entrypoint self) "")
        (definition_error "implementation_entrypoint cannot be empty");
  _ ← fail_if (String.eqb (api_version self) "") (definition_error "api_version cannot be empty");
  Ok self.
End SkillMetadata.

Module SkillDefinition.
Record t := mk {
  name : string;
  version : string;
  description : string;
  input_schema : SkillSchema.t;
  output_schema : SkillSchema.t;
  metadata : SkillMetadata.t
}.

Definition post_init (self : t) : res t :=
  _ ← fail_if (negb (is_skill_name (name self)))
        (SkillMetadata.definition_error
           "Skill name must be a lowercase dotted identifier using letters, digits, and underscores");
  _ ← fail_if (negb (is_semver (version self)))
        (SkillMetadata.definition_error
           ("Skill version must be semantic versioning, got " +:+ py_repr (version self)));
  _ ← fail_if (is_blank (description self))
        (SkillMetadata.definition_error "Skill description cannot be empty");
  Ok self.

Definition reference (self : t) : res SkillReference.t :=
  SkillReference.post_init (SkillReference.mk (name self) (version self)).
End SkillDefinition.

(** ** [results/skill_result.py] *)

Module EmittedArtifactMetadata.
Record t := mk {
  artifact_id : string;
  storage_key : string;
  checksum : string;
  media_type : string;
  size : Z;
  logical_name : string;
  logical_artifact_id : string;
  version : Z;
  kind : string;
  metadata : mapping
}.

Definition error (message : string) : exn := Exn PyValueError ("EmittedArtifactMetadata." +:+ message).

(** Backslashes, absolute paths and empty, [.] and [..] parts are refused. *)
Definition unsafe_key (key : string) : bool :=
  has_char "\"%char key || existsb (fun part => bool_decide (part ∈ [""; "."; ".."])) (split_on "/" key).

Definition post_init (self : t) : res t :=
  _ ← each_ok (fun vn => fail_if (String.eqb vn.1 "") (error (vn.2 +:+ " cannot be empty")))
        [(artifact_id self, "artifact_id"); (storage_key self, "storage_key");
         (checksum self, "checksum"); (media_type self, "media_type");
         (logical_name self, "logical_name")];
  _ ← fail_if (unsafe_key (storage_key self)) (error "storage_key must be relative and safe");
  _ ← fail_if (negb (is_sha256 (checksum self))) (error "checksum must be SHA-256");
  _ ← fail_if (size self <? 0) (error "size cannot be negative");
  _ ← fail_if (version self <=? 0) (error "version must be positive");
  frozen ← freeze_json_mapping "artifact.metadata" (metadata self);
  Ok (mk (artifact_id self) (storage_key self) (checksum self) (media_type self) (size self)
        (logical_name self) (logical_artifact_id self) (version self) (kind self) frozen).
End EmittedArtifactMetadata.

Module SkillExecutionOutput.
Record t := mk {
  output_data : mapping;
  emitted_artifacts : list EmittedArtifactMetadata.t;
  provider_usage : list ProviderUsage.t
}.

Definition post_init (self : t) : res t :=
  frozen ← freeze_json_mapping "output_data" (output_data self);
  Ok (mk frozen (emitted_artifacts self) (provider_usage self)).
End SkillExecutionOutput.

Module SkillError.
Record t := mk { code : string; message : string; retryable : bool; details : mapping }.

Definition post_init (self : t) : res t :=
  _ ← fail_if (String.eqb (code self) "") (Exn PyValueError "Skill error code cannot be empty");
  _ ← fail_if (String.eqb (message self) "") (Exn PyValueError "Skill error message cannot be empty");
  frozen ← freeze_json_mapping "error.details" (details self);
  Ok (mk (code self) (message self) (retryable self) frozen).
End SkillError.

Module SkillResult.
Record t := mk {
  success : bool;
  output_data : mapping;
  error : option SkillError.t;
  execution_metadata : mapping;
  emitted_artifacts : list EmittedArtifactMetadata.t;
  provider_usage : list ProviderUsage.t
}.

Definition post_init (self : t) : res t :=
  output ← freeze_json_mapping "output_data" (output_data self);
  metadata ← freeze_json_mapping "execution_metadata" (execution_metadata self);
  _ ← fail_if (success self && is_some (error self))
        (Exn PyValueError "Successful SkillResult cannot contain an error");
  _ ← fail_if (negb (success self) && negb (is_some (error self)))
        (Exn PyValueError "Failed SkillResult must contain an error");
  _ ← fail_if (negb (success self) && negb (bool_decide (List.length output = 0%nat)))
        (Exn PyValueError "Failed SkillResult cannot contain output data");
  Ok (mk (success self) output (error self) metadata (emitted_artifacts self) (provider_usage self)).

Definition succeeded (output : mapping) (metadata : mapping)
    (artifacts : list EmittedArtifactMetadata.t) (usage : list ProviderUsage.t) : res t :=
  post_init (mk true output None metadata artifacts usage).

Definition failed (e : SkillError.t) (metadata : mapping) : res t :=
  post_init (mk false [] (Some e) metadata [] []).
End SkillResult.

(** ** [models/skill_contract.py] *)

(** The ports a skill may be granted, values of a type [P] the program only
    passes on. *)
Module SkillCapabilities.
Record t P := mk {
  paper_search : option P;
  source_content : option P;
  llm : option P;
  structured_generation : option P;
  artifact_storage : option P;
  provider_operations : option P;
  provider_execution_policy : ProviderExecutionPolicy.t
}.
Arguments mk {P}.
Arguments paper_search {P}. Arguments source_content {P}. Arguments llm {P}.
Arguments structured_generation {P}. Arguments artifact_storage {P}. Arguments provider_operations {P}.
Arguments provider_execution_policy {P}.

Section capabilities.
Context {P : Type}.

(** [SkillCapabilities()] *)
Definition none : t P :=
  mk None None None None None None ProviderExecutionPolicy.default_policy.

Definition granted (declared : list string) (name : string) (port : option P) : option P :=
  if bool_decide (name ∈ declared) then port else None.

Definition restricted_to (declared : list string) (self : t P) : t P :=
  mk (granted declared "paper_search" (paper_search self))
     (granted declared "source_content" (source_content self))
     (granted declared "llm" (llm self))
     (granted declared "structured_generation" (structured_generation self))
     (granted declared "artifact_storage" (artifact_storage self))
     (granted declared "provider_operations" (provider_operations self))
     (provider_execution_policy self).

(** [_require]: the ports a skill asks for by name. *)
Definition require (name : string) (port : option P) : result string P :=
  match port with
  | Some p => Ok p
  | None => Err ("Skill capability " +:+ name +:+ " was not granted")
  end.
Definition require_paper_search (self : t P) : result string P := require "paper_search" (paper_search self).
Definition require_source_content (self : t P) : result string P := require "source_content" (source_content self).
Definition require_llm (self : t P) : result string P := require "llm" (llm self).
Definition require_structured_generation (self : t P) : result string P :=
  require "structured_generation" (structured_generation self).
Definition require_artifact_storage (self : t P) : result string P :=
  require "artifact_storage" (artifact_storage self).
Definition require_provider_operations (self : t P) : result string P :=
  require "provider_operations" (provider_operations self).
End capabilities.
End SkillCapabilities.

Module SkillExecutionContext.
Record t P := mk {
  workflow_run_id : string;
  workflow_id : string;
  workflow_version : string;
  step_id : string;
  step_run_id : string;
  attempt : Z;
  capabilities : SkillCapabilities.t P;
  project_id : string
}.
Arguments mk {P}.
Arguments workflow_run_id {P}. Arguments workflow_id {P}. Arguments workflow_version {P}.
Arguments step_id {P}. Arguments step_run_id {P}. Arguments attempt {P}.
Arguments capabilities {P}. Arguments project_id {P}.
End SkillExecutionContext.

(** What an implementation returns: a plain mapping, another value, or the
    envelope with artifacts and usage. *)
Inductive raw_result :=
  | Plain (v : value)
  | Envelope (output : SkillExecutionOutput.t).

(** What it raises: the exceptions the executor tells apart, and any other by
    the name of its class. *)
Inductive skill_failure :=
  | CapabilityDenied (message : string)
  | ExecutionFailure (code message : string) (retryable : bool) (details : mapping)
  | ProviderFailure (category message : string) (retryable : bool) (safe_details : mapping)
  | ValidationFailure (path message : string)
  | OtherException (type_name : string).

Section skills.
Context {S P : Type}.

Definition implementation : Type :=
  mapping -> SkillExecutionContext.t P -> M skill_failure S raw_result.

(** ** [registry/skill_registry.py] *)

Record RegisteredSkill := Registered {
  definition : SkillDefinition.t;
  run_implementation : implementation
}.

Abbreviation registry := (dict (string * string) RegisteredSkill).

Definition register (d : SkillDefinition.t) (i : implementation) (self : registry) : res registry :=
  let key := (SkillDefinition.name d, SkillDefinition.version d) in
  if Dict.has key self then
    r ← SkillDefinition.reference d;
    Err (Exn DuplicateSkillRegistrationError
           ("Skill " +:+ SkillReference.str r +:+ " is already registered"))
  else Ok (Dict.set key (Registered d i) self).

Definition resolve (r : SkillReference.t) (self : registry) : res RegisteredSkill :=
  match Dict.get (SkillReference.name r, SkillReference.version r) self with
  | Some skill => Ok skill
  | None => Err (Exn SkillNotFoundError ("Skill " +:+ SkillReference.str r +:+ " is not registered"))
  end.

Definition get_definition (name version : string) (self : registry) : res SkillDefinition.t :=
  r ← SkillReference.post_init (SkillReference.mk name version);
  skill ← resolve r self;
  Ok (definition skill).

(** The order of pairs of strings. *)
Definition reference_leb (x y : (string * string) * RegisteredSkill) : bool :=
  let '((n, v), _) := x in
  let '((n', v'), _) := y in
  if String.eqb n n' then String.leb v v' else String.leb n n'.

Definition list_definitions (self : registry) : list SkillDefinition.t :=
  (fun entry => definition entry.2) <$> isort reference_leb self.

(** ** [runtime/skill_executor.py] *)

(** The fields of a [StepReady] decision the executor uses. *)
Record step_request := StepRequest {
  req_workflow_run_id : string;
  req_workflow_id : string;
  req_workflow_version : string;
  req_step_id : string;
  req_step_run_id : string;
  req_attempt : Z;
  req_skill_ref : string;
  req_resolved_inputs : mapping
}.

Definition execution_metadata (d : step_request) (r : SkillReference.t) : mapping :=
  [("skill_name", VStr (SkillReference.name r)); ("skill_version", VStr (SkillReference.version r));
   ("workflow_run_id", VStr (req_workflow_run_id d)); ("step_id", VStr (req_step_id d));
   ("step_run_id", VStr (req_step_run_id d)); ("attempt", VInt (req_attempt d))].

(** [SkillResult.failed(SkillError(...), execution_metadata=metadata)] *)
Definition failed_with (metadata : mapping) (code message : string) (retryable : bool)
    (details : mapping) : res SkillResult.t :=
  e ← SkillError.post_init (SkillError.mk code message retryable details);
  SkillResult.failed e metadata.

Definition invalid_result (metadata : mapping) (code path message : string) : res SkillResult.t :=
  failed_with metadata code (path +:+ ": " +:+ message) false [("path", VStr path)].

(** The [except] clauses around the implementation. *)
Definition normalize (metadata : mapping) (f : skill_failure) : res SkillResult.t :=
  match f with
  | CapabilityDenied message => failed_with metadata "CAPABILITY_DENIED" message false []
  | ExecutionFailure code message retryable details => failed_with metadata code message retryable details
  | ProviderFailure category message retryable details =>
      failed_with metadata category message retryable details
  | ValidationFailure path message => invalid_result metadata "INVALID_SKILL_OUTPUT" path message
  | OtherException type_name =>
      failed_with metadata "SKILL_EXECUTION_ERROR" "Skill implementation failed" false
        [("exception_type", VStr type_name)]
  end.

(** [raw_result.output_data], [emitted_artifacts] and [provider_usage] *)
Definition raw_parts (raw : raw_result) :
    value * list EmittedArtifactMetadata.t * list ProviderUsage.t :=
  match raw with
  | Envelope o => (VDict true (SkillExecutionOutput.output_data o),
                   SkillExecutionOutput.emitted_artifacts o, SkillExecutionOutput.provider_usage o)
  | Plain v => (v, [], [])
  end.

(** The result of a call that returned [raw]. *)
Definition finish (metadata : mapping) (d : SkillDefinition.t) (raw : raw_result) : res SkillResult.t :=
  let '(output, artifacts, usage) := raw_parts raw in
  match validate (SkillDefinition.output_schema d) output "output" with
  | Ok validated => SkillResult.succeeded validated metadata artifacts usage
  | Err (Invalid path message) => normalize metadata (ValidationFailure path message)
  | Err (AssertionFailed _) => normalize metadata (OtherException "AssertionError")
  end.

(** The context a skill gets: only the capabilities its definition declares. *)
Definition skill_context (d : step_request) (skill : RegisteredSkill)
    (granted : SkillCapabilities.t P) (project_id : string) : SkillExecutionContext.t P :=
  SkillExecutionContext.mk (req_workflow_run_id d) (req_workflow_id d) (req_workflow_version d)
    (req_step_id d) (req_step_run_id d) (req_attempt d)
    (SkillCapabilities.restricted_to
       (SkillMetadata.capabilities (SkillDefinition.metadata (definition skill))) granted)
    project_id.

Section executor.
Context (registry_ : registry) (capability_provider : option (step_request -> SkillCapabilities.t P)).

Definition granted_capabilities (d : step_request) : SkillCapabilities.t P :=
  match capability_provider with Some f => f d | None => SkillCapabilities.none end.

(** The checks before the skill is looked up. *)
Definition check_request (d : step_request) (reference : SkillReference.t) (resolved_inputs : mapping) :
    res unit :=
  decision_reference ← SkillReference.parse (req_skill_ref d);
  _ ← fail_if (negb (bool_decide (decision_reference = reference)))
        (Exn SkillDecisionMismatchError ("StepReady pins " +:+ SkillReference.str decision_reference
           +:+ ", not " +:+ SkillReference.str reference));
  match freeze_json_mapping "resolved_inputs" resolved_inputs with
  | Ok normalized =>
      fail_if (negb (mapping_eq normalized (req_resolved_inputs d)))
        (Exn SkillDecisionMismatchError
           "Executor resolved_inputs do not match the immutable StepReady inputs")
  | Err e => Err (Exn SkillDecisionMismatchError (exn_msg e))
  end.

(** The call of the implementation, its failures normalized. *)
Definition call_skill (skill : RegisteredSkill) (metadata inputs : mapping)
    (context : SkillExecutionContext.t P) : M exn S SkillResult.t :=
  fun s => match run_implementation skill inputs context s with
           | (Ok raw, s') => (finish metadata (definition skill) raw, s')
           | (Err f, s') => (normalize metadata f, s')
           end.

Definition execute (d : step_request) (reference : SkillReference.t) (resolved_inputs : mapping)
    (project_id : string) : M exn S SkillResult.t :=
  lift_result (check_request d reference resolved_inputs) ;;
  skill ← lift_result (resolve reference registry_);
  let metadata := execution_metadata d reference in
  match validate (SkillDefinition.input_schema (definition skill)) (VDict true resolved_inputs) "input" with
  | Ok validated_input =>
      call_skill skill metadata validated_input
        (skill_context d skill (granted_capabilities d) project_id)
  | Err (Invalid path message) =>
      lift_result (invalid_result metadata "INVALID_SKILL_INPUT" path message)
  | Err (AssertionFailed message) => raise (Exn PyAssertionError message)
  end.
End executor.
End skills.
