(* ===== verification/SkillFacts.v ===== *)
(** What the skill boundary promises: references are exact, an implementation
    only gets the capabilities its definition declares, its results conform to
    the declared schemas, and its failures, if they can be reported, come back as
    typed results. *)
From S2P Require Import Prelude Errors Text Float Value Lexical SkillSchema Sha256 Lifecycle Workflow Checkpoint Coordinator RetryPolicy EngineModels Provider ExecutionPolicy Dict Skills.
From Stdlib Require Import Ascii.
Local Open Scope string_scope.
Local Open Scope list_scope.
Local Open Scope Z_scope.

(** ** References *)

Lemma to_chars_app s t : to_chars (s +:+ t) = to_chars s ++ to_chars t.
Proof. induction s as [|c s IH]; [done|]. rewrite str_app_cons. cbn. by rewrite IH. Qed.

Lemma of_to_chars s : of_chars (to_chars s) = s.
Proof. apply String.string_of_list_ascii_of_string. Qed.

Lemma to_of_chars l : to_chars (of_chars l) = l.
Proof. apply String.list_ascii_of_string_of_list_ascii. Qed.

Lemma has_char_spec c s : has_char c s = false <-> c ∉ to_chars s.
Proof.
  unfold has_char. induction s as [|a s IH]; cbn; [split; [intros _; apply not_elem_of_nil|done]|].
  rewrite not_elem_of_cons, <- IH. destruct (ascii_dec c a) as [->|Hca].
  - split; [|naive_solver]. destruct s; done.
  - naive_solver.
Qed.

Lemma split_on_two c s x y :
  split_on c s = [x; y] <-> s = x +:+ String c y /\ has_char c x = false /\ has_char c y = false.
Proof.
  unfold split_on. rewrite !has_char_spec. split.
  - destruct (split_chars c (to_chars s)) as [|p [|q [|? ?]]] eqn:Hs; try done. intros [= <- <-].
    apply split_chars_two in Hs as (Hs & Hp & Hq). rewrite !to_of_chars. split_and!; [|done..].
    rewrite <- (of_to_chars s), Hs. rewrite <- (of_to_chars (_ +:+ _)), to_chars_app. cbn.
    by rewrite !to_of_chars.
  - intros (-> & Hx & Hy). rewrite to_chars_app. cbn.
    rewrite split_chars_app, split_chars_none by done. cbn. by rewrite !of_to_chars.
Qed.

Lemma reference_valid r :
  SkillReference.post_init r = Ok r <->
  SkillReference.invalid_part (SkillReference.name r) = false /\
  SkillReference.invalid_part (SkillReference.version r) = false.
Proof. unfold SkillReference.post_init. rewrite !then_Ok, !fail_if_Ok. naive_solver. Qed.

(** A reference is written and read back without loss, and reading is strict:
    what parses is exactly the text of a valid reference. *)
Lemma parse_exact v r :
  SkillReference.parse v = Ok r <-> SkillReference.post_init r = Ok r /\ v = SkillReference.str r.
Proof.
  unfold SkillReference.parse. split.
  - destruct (split_on at_sign v) as [|x [|y [|? ?]]] eqn:Hs; try done. intros H.
    assert (r = SkillReference.mk x y) as ->.
    { unfold SkillReference.post_init in H. rewrite !then_Ok in H. naive_solver. }
    split; [done|]. by apply split_on_two in Hs as (-> & _ & _).
  - intros [Hr ->]. pose proof Hr as [Hn Hv]%reference_valid.
    unfold SkillReference.invalid_part in Hn, Hv. apply orb_false_iff in Hn as [_ Hn], Hv as [_ Hv].
    rewrite (proj2 (split_on_two at_sign (SkillReference.str r) (SkillReference.name r)
      (SkillReference.version r))); [by destruct r|]. by split_and!.
Qed.

(** ** The registry *)

Section skills.
Context {S P : Type}.
Implicit Types (reg : dict (string * string) (@RegisteredSkill S P)).

Lemma resolve_registered d i reg reg' r :
  register d i reg = Ok reg' ->
  resolve r reg' =
    if decide ((SkillReference.name r, SkillReference.version r)
               = (SkillDefinition.name d, SkillDefinition.version d))
    then Ok (Registered d i) else resolve r reg.
Proof.
  unfold register, resolve. destruct (Dict.has _ reg) eqn:Hh; [by destruct (SkillDefinition.reference d)|].
  intros [= <-]. rewrite Dict.get_set. by repeat case_decide; simplify_eq.
Qed.

(** ** Results *)

(** A failure an implementation can report as a result. *)
Definition reportable (f : skill_failure) : Prop :=
  match f with
  | CapabilityDenied message => message <> ""
  | ExecutionFailure code message _ details | ProviderFailure code message _ details =>
      code <> "" /\ message <> "" /\ mapping_finite details = true
  | ValidationFailure _ _ | OtherException _ => True
  end.

Lemma freeze_json_mapping_finite path d :
  mapping_finite d = true -> freeze_json_mapping path d = Ok (freeze_mapping d).
Proof. intros Hd. by apply freeze_json_mapping_Ok. Qed.

Lemma failed_with_Ok metadata code message retryable details :
  mapping_finite metadata = true -> code <> "" -> message <> "" -> mapping_finite details = true ->
  failed_with metadata code message retryable details =
    Ok (SkillResult.mk false [] (Some (SkillError.mk code message retryable (freeze_mapping details)))
          (freeze_mapping metadata) [] []).
Proof.
  intros Hm Hc Hmsg Hd. unfold failed_with, SkillError.post_init.
  cbn -[freeze_json_mapping String.eqb].
  rewrite (proj2 (String.eqb_neq code "") Hc), (proj2 (String.eqb_neq message "") Hmsg). cbn -[freeze_json_mapping].
  rewrite (freeze_json_mapping_finite _ _ Hd). cbn -[freeze_json_mapping].
  unfold SkillResult.failed, SkillResult.post_init. cbn -[freeze_json_mapping]. cbn [freeze_json_mapping map_ok]. by rewrite (freeze_json_mapping_finite _ _ Hm).
Qed.

Lemma succeeded_Ok output metadata artifacts usage :
  mapping_finite output = true -> mapping_finite metadata = true ->
  SkillResult.succeeded output metadata artifacts usage =
    Ok (SkillResult.mk true (freeze_mapping output) None (freeze_mapping metadata) artifacts usage).
Proof.
  intros Ho Hm. unfold SkillResult.succeeded, SkillResult.post_init. cbn -[freeze_json_mapping].
  by rewrite (freeze_json_mapping_finite _ _ Ho), (freeze_json_mapping_finite _ _ Hm).
Qed.

(** The result a failure is reported as. *)
Definition reported (f : skill_failure) : SkillError.t :=
  match f with
  | CapabilityDenied message => SkillError.mk "CAPABILITY_DENIED" message false []
  | ExecutionFailure code message retryable details | ProviderFailure code message retryable details =>
      SkillError.mk code message retryable (freeze_mapping details)
  | ValidationFailure path message =>
      SkillError.mk "INVALID_SKILL_OUTPUT" (path +:+ ": " +:+ message) false [("path", VStr path)]
  | OtherException type_name =>
      SkillError.mk "SKILL_EXECUTION_ERROR" "Skill implementation failed" false
        [("exception_type", VStr type_name)]
  end.

Lemma path_message_nonempty path message : path +:+ ": " +:+ message <> "".
Proof. by destruct path. Qed.

(** A reportable failure is reported, and any other raises a [ValueError]. *)
Lemma normalize_reportable metadata f :
  mapping_finite metadata = true -> reportable f ->
  normalize metadata f = Ok (SkillResult.mk false [] (Some (reported f)) (freeze_mapping metadata) [] []).
Proof.
  intros Hm Hf. destruct f; cbn in Hf; unfold normalize, invalid_result;
    rewrite failed_with_Ok; try done; try naive_solver. apply path_message_nonempty.
Qed.

Lemma normalize_unreportable metadata f :
  ~ reportable f -> exists e, normalize metadata f = Err e /\ exn_kind e = PyValueError.
Proof.
  intros Hf. assert (Hg : forall code message retryable details,
    ~ (code <> "" /\ message <> "" /\ mapping_finite details = true) ->
    exists e, failed_with metadata code message retryable details = Err e /\ exn_kind e = PyValueError).
  { intros code message retryable details Hn. unfold failed_with, SkillError.post_init.
    cbn -[freeze_json_mapping String.eqb].
    destruct (String.eqb_spec code "") as [|Hc]; [by eexists|].
    destruct (String.eqb_spec message "") as [|Hmsg]; [by eexists|]. cbn -[freeze_json_mapping].
    destruct (freeze_json_mapping _ details) as [d|e] eqn:Hd.
    - exfalso. apply Hn. by apply freeze_json_mapping_Ok in Hd as [? _].
    - exists e. split; [done|]. apply (freeze_json_Err (VDict false details) "error.details").
      cbn. fold (freeze_json_mapping "error.details" details). by rewrite Hd. }
  destruct f; cbn in Hf; try naive_solver.
Qed.

Lemma failed_with_fails metadata code message retryable details res :
  failed_with metadata code message retryable details = Ok res -> SkillResult.success res = false.
Proof.
  unfold failed_with, SkillResult.failed, SkillResult.post_init. intros (e & _ & H)%bind_Ok.
  apply bind_Ok in H as (output & _ & H). apply bind_Ok in H as (m & _ & H).
  rewrite !then_Ok in H. by destruct H as (_ & _ & _ & [= <-]).
Qed.

Lemma normalize_fails metadata f res : normalize metadata f = Ok res -> SkillResult.success res = false.
Proof. destruct f; apply failed_with_fails. Qed.

Lemma metadata_finite d r : mapping_finite (execution_metadata d r) = true.
Proof. done. Qed.

(** The error of a failed result. *)
Definition failure (res : SkillResult.t) : option SkillError.t :=
  if SkillResult.success res then None else SkillResult.error res.

(** The error of data that do not conform to a schema. *)
Definition refusal (code path message : string) : SkillError.t :=
  SkillError.mk code (path +:+ ": " +:+ message) false [("path", VStr path)].

(** ** The executor *)

Section executor.
Context (reg : dict (string * string) (@RegisteredSkill S P)).
Implicit Types (cp : option (step_request -> SkillCapabilities.t P)).

(** Every skill of the registry was built by the constructors. *)
Definition registry_ok : Prop :=
  forall r skill, resolve r reg = Ok skill ->
    well_built_schema (SkillDefinition.input_schema (definition skill)) /\
    well_built_schema (SkillDefinition.output_schema (definition skill)).

(** The computations the inputs are refused before. *)
Definition accepts (d : step_request) (r : SkillReference.t) (inputs : mapping) (skill : @RegisteredSkill S P) : Prop :=
  check_request d r inputs = Ok tt /\ resolve r reg = Ok skill.

Lemma execute_eq cp d r inputs project_id skill s :
  accepts d r inputs skill -> registry_ok ->
  execute reg cp d r inputs project_id s =
    match validate (SkillDefinition.input_schema (definition skill)) (VDict true inputs) "input" with
    | Ok validated =>
        call_skill skill (execution_metadata d r) validated
          (skill_context d skill (granted_capabilities cp d) project_id) s
    | Err (Invalid path message) =>
        (invalid_result (execution_metadata d r) "INVALID_SKILL_INPUT" path message, s)
    | Err (AssertionFailed _) => (Err (Exn PyAssertionError ""), s)
    end.
Proof.
  intros [Hc Hr] Hreg. unfold execute. unfold mbind at 1, M_bind at 1. unfold lift_result at 1. rewrite Hc.
  unfold mbind at 1, M_bind at 1. unfold lift_result at 1. rewrite Hr.
  destruct (validate _ _ _) as [v|[path message|message]] eqn:Hv; [done..|].
  exfalso. apply (validate_never_asserts _ (VDict true inputs) "input" (proj1 (Hreg _ _ Hr))). by exists message.
Qed.

(** What a call that returned [raw] comes to. *)
Lemma finish_cases metadata skill raw :
  mapping_finite metadata = true -> well_built_schema (SkillDefinition.output_schema skill) ->
  (exists m, validate (SkillDefinition.output_schema skill) (raw_parts raw).1.1 "output" = Ok m /\
     finish metadata skill raw =
       Ok (SkillResult.mk true m None (freeze_mapping metadata) (raw_parts raw).1.2 (raw_parts raw).2)) \/
  (exists path message,
     validate (SkillDefinition.output_schema skill) (raw_parts raw).1.1 "output" = Err (Invalid path message) /\
     finish metadata skill raw =
       Ok (SkillResult.mk false [] (Some (reported (ValidationFailure path message)))
             (freeze_mapping metadata) [] [])).
Proof.
  intros Hm Hw. unfold finish. destruct (raw_parts raw) as [[out artifacts] usage]. cbn -[validate normalize SkillResult.succeeded].
  destruct (validate _ out "output") as [m|[path message|message]] eqn:Hv.
  - left. exists m. split; [done|]. apply validation_exact in Hv as (b & v & _ & _ & _ & Hfin & ->).
    rewrite succeeded_Ok, freeze_freeze_mapping; [done| |done]. by rewrite freeze_mapping_finite.
  - right. exists path, message. split; [done|]. by rewrite normalize_reportable.
  - exfalso. apply (validate_never_asserts _ out "output" Hw). by exists message.
Qed.

(** C29: what an accepted execution comes to, on every branch: if the failures of
    the implementation can be reported (a code, a message, details that are
    JSON), the executor always answers a result.  Inputs that do not conform to
    the schema are refused before the implementation is called; a failure of the
    implementation, declared or unexpected, becomes a failed result that carries
    it; an output that does not conform becomes a failed result that names the
    path; and otherwise the result holds the validated output, the artifacts and
    the usage. *)
Theorem execution_outcome cp d r inputs project_id skill s :
  registry_ok -> accepts d r inputs skill ->
  (forall v f s', run_implementation skill v (skill_context d skill (granted_capabilities cp d) project_id) s = (Err f, s') ->
     reportable f) ->
  exists res s', execute reg cp d r inputs project_id s = (Ok res, s') /\
    SkillResult.execution_metadata res = freeze_mapping (execution_metadata d r) /\
    match validate (SkillDefinition.input_schema (definition skill)) (VDict true inputs) "input" with
    | Err (Invalid path message) => s' = s /\ failure res = Some (refusal "INVALID_SKILL_INPUT" path message)
    | Err (AssertionFailed _) => False
    | Ok validated =>
        match run_implementation skill validated (skill_context d skill (granted_capabilities cp d) project_id) s with
        | (Err f, s1) => s' = s1 /\ failure res = Some (reported f)
        | (Ok raw, s1) => s' = s1 /\
            match validate (SkillDefinition.output_schema (definition skill)) (raw_parts raw).1.1 "output" with
            | Err (Invalid path message) => failure res = Some (refusal "INVALID_SKILL_OUTPUT" path message)
            | Err (AssertionFailed _) => False
            | Ok output => SkillResult.success res = true /\ SkillResult.error res = None /\
                SkillResult.output_data res = output /\
                SkillResult.emitted_artifacts res = (raw_parts raw).1.2 /\
                SkillResult.provider_usage res = (raw_parts raw).2
            end
        end
    end.
Proof.
  intros Hreg Ha Hrep. pose proof (Hreg _ _ (proj2 Ha)) as [Hin Hout]. rewrite (execute_eq _ _ _ _ _ _ _ Ha Hreg).
  destruct (validate (SkillDefinition.input_schema _) _ "input") as [v|[path message|message]] eqn:Hv.
  - unfold call_skill. specialize (Hrep v). destruct (run_implementation _ _ _ s) as [[raw|f] s1].
    + destruct (finish_cases (execution_metadata d r) (definition skill) raw eq_refl Hout)
        as [(m & Hm & ->)|(path & message & Hm & ->)]; rewrite Hm; by eexists _, _.
    + rewrite normalize_reportable; [by eexists _, _|done|by eapply Hrep].
  - unfold invalid_result. rewrite failed_with_Ok; [by eexists _, _|done..|apply path_message_nonempty|done].
  - exfalso. apply (validate_never_asserts _ (VDict true inputs) "input" Hin). by exists message.
Qed.

(** A failure that cannot be reported, because it has no code or no message or
    its details are not JSON, raises a [ValueError] out of the executor. *)
Lemma executor_contains_failures cp d r inputs project_id skill s e s' :
  registry_ok -> accepts d r inputs skill ->
  execute reg cp d r inputs project_id s = (Err e, s') <->
  exists validated f,
    validate (SkillDefinition.input_schema (definition skill)) (VDict true inputs) "input" = Ok validated /\
    run_implementation skill validated (skill_context d skill (granted_capabilities cp d) project_id) s
      = (Err f, s') /\
    ~ reportable f /\ normalize (execution_metadata d r) f = Err e /\ exn_kind e = PyValueError.
Proof.
  intros Hreg Ha. pose proof (Hreg _ _ (proj2 Ha)) as [_ Hout]. rewrite (execute_eq _ _ _ _ _ _ _ Ha Hreg).
  destruct (validate _ _ "input") as [v|[path message|message]] eqn:Hv.
  - unfold call_skill. split.
    + destruct (run_implementation _ _ _ s) as [[raw|f] s1] eqn:Hrun; intros [= Hn <-].
      * destruct (finish_cases (execution_metadata d r) (definition skill) raw) as [(? & _ & Hf)|(? & ? & _ & Hf)];
          rewrite ?Hf in Hn; done.
      * exists v, f. assert (~ reportable f) as Hnr.
        { intros Hrep. by rewrite normalize_reportable in Hn. }
        destruct (normalize_unreportable (execution_metadata d r) f Hnr) as (e' & He & Hk).
        rewrite Hn in He. injection He as <-. done.
    + intros (v' & f & [= <-] & Hrun & _ & Hn & _). by rewrite Hrun, Hn.
  - unfold invalid_result. rewrite failed_with_Ok; [|done..|apply path_message_nonempty|done].
    split; [done|]. by intros (? & ? & [=] & _).
  - exfalso. apply (validate_never_asserts _ (VDict true inputs) "input" (proj1 (Hreg _ _ (proj2 Ha)))).
    by exists message.
Qed.

(** A skill succeeds exactly when its inputs conform to the input schema and
    the implementation returned an output that conforms to the output schema;
    the result holds a read-only copy of that output and the step's identity. *)
Theorem executor_succeeds_exactly cp d r inputs project_id skill s res s' :
  registry_ok -> accepts d r inputs skill ->
  execute reg cp d r inputs project_id s = (Ok res, s') /\ SkillResult.success res = true <->
  exists validated raw output,
    validate (SkillDefinition.input_schema (definition skill)) (VDict true inputs) "input" = Ok validated /\
    run_implementation skill validated (skill_context d skill (granted_capabilities cp d) project_id) s
      = (Ok raw, s') /\
    validate (SkillDefinition.output_schema (definition skill)) (raw_parts raw).1.1 "output" = Ok output /\
    res = SkillResult.mk true output None (freeze_mapping (execution_metadata d r))
            (raw_parts raw).1.2 (raw_parts raw).2.
Proof.
  intros Hreg Ha. pose proof (Hreg _ _ (proj2 Ha)) as [_ Hout]. rewrite (execute_eq _ _ _ _ _ _ _ Ha Hreg).
  destruct (validate _ _ "input") as [v|[path message|message]] eqn:Hv.
  - unfold call_skill. destruct (run_implementation _ _ _ s) as [[raw|f] s1] eqn:Hrun.
    + pose proof (finish_cases (execution_metadata d r) (definition skill) raw eq_refl Hout)
        as [(m & Hm & Hf)|(? & ? & Hm & Hf)]; rewrite Hf; split.
      * intros [[= <- <-] _]. by exists v, raw, m.
      * intros (v' & raw' & m' & [= <-] & Hrun' & Hm' & ->). rewrite Hrun' in Hrun. injection Hrun as -> ->. rewrite Hm in Hm'. by injection Hm' as ->.
      * by intros [[= <- <-] Hs].
      * intros (v' & raw' & m' & [= <-] & Hrun' & Hm' & ->). rewrite Hrun' in Hrun.
        injection Hrun as -> ->. by rewrite Hm in Hm'.
    + split; [|intros (v' & raw' & m' & [= <-] & Hrun' & _); by rewrite Hrun' in Hrun].
      intros [[= Hn <-] Hs]. by rewrite (normalize_fails _ _ _ Hn) in Hs.
  - split; [|by intros (? & ? & ? & [=] & _)].
    unfold invalid_result. intros [[= Hn <-] Hs]. by rewrite (failed_with_fails _ _ _ _ _ _ Hn) in Hs.
  - split; [by intros [[=] _]|by intros (? & ? & ? & [=] & _)].
Qed.

(** The port of a name; a name the bundle does not know has none. *)
Definition port_named (name : string) (c : SkillCapabilities.t P) : option P :=
  match list_find (fun kv => kv.1 = name)
    [("paper_search", SkillCapabilities.paper_search c);
     ("source_content", SkillCapabilities.source_content c); ("llm", SkillCapabilities.llm c);
     ("structured_generation", SkillCapabilities.structured_generation c);
     ("artifact_storage", SkillCapabilities.artifact_storage c);
     ("provider_operations", SkillCapabilities.provider_operations c)] with
  | Some (_, kv) => kv.2
  | None => None
  end.

Lemma restricted_same declared (c c' : SkillCapabilities.t P) :
  SkillCapabilities.provider_execution_policy c = SkillCapabilities.provider_execution_policy c' ->
  (forall name, name ∈ declared -> port_named name c = port_named name c') ->
  SkillCapabilities.restricted_to declared c = SkillCapabilities.restricted_to declared c'.
Proof.
  intros Hpolicy H. unfold SkillCapabilities.restricted_to. rewrite Hpolicy.
  assert (Hg : forall name p p', (name ∈ declared -> p = p') ->
    SkillCapabilities.granted (P := P) declared name p = SkillCapabilities.granted declared name p').
  { intros name p p' Hp. unfold SkillCapabilities.granted. case_bool_decide; auto. }
  f_equal; apply Hg; [exact (H "paper_search")|exact (H "source_content")|exact (H "llm")
    |exact (H "structured_generation")|exact (H "artifact_storage")|exact (H "provider_operations")].
Qed.

(** C31: a skill cannot use, or even observe, a capability its definition does not
    declare: two grants that agree on the declared ones, and on the provider
    policy, which every skill gets, lead to the same outcome and the same
    state. *)
Theorem undeclared_capabilities_unobservable cp cp' d r inputs project_id s :
  SkillCapabilities.provider_execution_policy (granted_capabilities cp d)
  = SkillCapabilities.provider_execution_policy (granted_capabilities cp' d) ->
  (forall skill name, resolve r reg = Ok skill ->
     name ∈ SkillMetadata.capabilities (SkillDefinition.metadata (definition skill)) ->
     port_named name (granted_capabilities cp d) = port_named name (granted_capabilities cp' d)) ->
  execute reg cp d r inputs project_id s = execute reg cp' d r inputs project_id s.
Proof.
  intros Hp H. unfold execute, mbind, M_bind, lift_result.
  destruct (check_request d r inputs) as [[]|e]; [|done].
  destruct (resolve r reg) as [skill|e] eqn:Hr; [|done].
  destruct (validate _ _ "input") as [v|[? ?|?]]; [|done..].
  unfold skill_context. by rewrite (restricted_same _ _ _ Hp (fun name => H skill name eq_refl)).
Qed.
End executor.
End skills.

(** ** A skill that runs *)

Module SkillWitness.
Definition text_field : FieldSchema := Field "string" true false None [] false [] (Some 1) None None None.
Definition schema : SkillSchema.t := SkillSchema.mk [("text", text_field)] false.
Definition metadata : SkillMetadata.t :=
  SkillMetadata.mk [] ["llm"] "none" true true 30 "builtin" "reagent.skill/v1alpha1".
Definition echo : SkillDefinition.t := SkillDefinition.mk "demo.echo" "1.0.0" "Echo" schema schema metadata.

(** Returns its inputs, counts its calls, and fails on the text [fail]. *)
Definition run_echo : @implementation nat unit := fun inputs _ calls =>
  if value_eq (VDict true inputs) (VDict true [("text", VStr "fail")])
  then (Err (ExecutionFailure "" "" false []), S calls)
  else (Ok (Plain (VDict false inputs)), S calls).

Definition skills : dict (string * string) (@RegisteredSkill nat unit) :=
  [(("demo.echo", "1.0.0"), Registered echo run_echo)].
Definition reference : SkillReference.t := SkillReference.mk "demo.echo" "1.0.0".
Definition request (text : string) : step_request :=
  StepRequest "run" "w" "1.0.0" "s" "sr" 1 "demo.echo@1.0.0" [("text", VStr text)].
Definition no_grants : option (step_request -> SkillCapabilities.t unit) := None.

Lemma schema_built : well_built_schema schema.
Proof.
  intros name s H. cbn in H. case_match; [|done]. injection H as <-. by constructor.
Qed.

Lemma skills_ok : registry_ok skills.
Proof.
  intros r skill H. unfold resolve in H. cbn -[String.eqb] in H.
  repeat case_match; simplify_eq; split; apply schema_built.
Qed.

Lemma request_accepted text : accepts skills (request text) reference [("text", VStr text)]
  (Registered echo run_echo).
Proof.
  split; [|done]. unfold check_request. cbn -[mapping_eq]. unfold mapping_eq. rewrite value_eq_refl; done.
Qed.

Lemma executor_contains_failures_witness :
  exists f, ~ reportable f /\
    execute skills no_grants (request "fail") reference [("text", VStr "fail")] "p" 0%nat
    = (Err (Exn PyValueError "Skill error code cannot be empty"), 1%nat).
Proof.
  edestruct (proj1 (executor_contains_failures skills no_grants (request "fail") reference
    [("text", VStr "fail")] "p" _ 0%nat (Exn PyValueError "Skill error code cannot be empty") 1%nat
    skills_ok (request_accepted "fail"))) as (v & f & _ & _ & Hf & _); [vm_compute; reflexivity|].
  exists f. split; [exact Hf|vm_compute; reflexivity].
Defined.

(** The same skill, reporting its failure with a code and a message. *)
Definition run_failing : @implementation nat unit := fun inputs _ calls =>
  (Err (ExecutionFailure "DEMO_FAILED" "it failed" true []), S calls).
Definition failing_skills : dict (string * string) (@RegisteredSkill nat unit) :=
  [(("demo.echo", "1.0.0"), Registered echo run_failing)].

Lemma failing_skills_ok : registry_ok failing_skills.
Proof.
  intros r skill H. unfold resolve in H. cbn -[String.eqb] in H.
  repeat case_match; simplify_eq; split; apply schema_built.
Qed.

Lemma failing_accepted text : accepts failing_skills (request text) reference [("text", VStr text)]
  (Registered echo run_failing).
Proof.
  split; [|done]. unfold check_request. cbn -[mapping_eq]. unfold mapping_eq. rewrite value_eq_refl; done.
Qed.

Lemma failing_execution : let o := execute failing_skills no_grants (request "hello") reference
    [("text", VStr "hello")] "p" 0%nat in
  o.2 = 1%nat /\ match o.1 with
                | Ok res => failure res = Some (SkillError.mk "DEMO_FAILED" "it failed" true [])
                | Err _ => False
                end.
Proof. vm_compute. done. Qed.

Lemma execution_outcome_witness :
  exists res, execute failing_skills no_grants (request "hello") reference [("text", VStr "hello")] "p" 0%nat
      = (Ok res, 1%nat) /\
    SkillResult.execution_metadata res = freeze_mapping (execution_metadata (request "hello") reference) /\
    failure res = Some (SkillError.mk "DEMO_FAILED" "it failed" true []).
Proof.
  destruct (execution_outcome failing_skills no_grants (request "hello") reference [("text", VStr "hello")] "p" _ 0%nat
    failing_skills_ok (failing_accepted "hello")) as (res & s' & He & Hm & _).
  - intros v f s' [= <- _]. split; [discriminate|]. split; [discriminate|reflexivity].
  - pose proof failing_execution as Hf. rewrite He in Hf. destruct Hf as [Hs Hf]. cbn in Hs. subst s'.
    exists res. split; [exact He|]. split; [exact Hm|exact Hf].
Defined.

Lemma executor_succeeds_exactly_witness :
  exists res, SkillResult.success res = true /\ SkillResult.output_data res = [("text", VStr "hello")].
Proof.
  edestruct (proj2 (executor_succeeds_exactly skills no_grants (request "hello") reference
    [("text", VStr "hello")] "p" _ 0%nat
    (SkillResult.mk true [("text", VStr "hello")] None
       (freeze_mapping (execution_metadata (request "hello") reference)) [] [])
    1%nat skills_ok (request_accepted "hello"))) as [_ Hs].
  - exists [("text", VStr "hello")], (Plain (VDict false [("text", VStr "hello")])), [("text", VStr "hello")].
    split; [vm_compute; reflexivity|]. split; [vm_compute; reflexivity|].
    split; [vm_compute; reflexivity|vm_compute; reflexivity].
  - eexists. split; [exact Hs|reflexivity].
Defined.

Lemma undeclared_capabilities_unobservable_witness :
  execute skills no_grants (request "hello") reference [("text", VStr "hello")] "p" 0%nat
  = execute skills (Some (fun _ => SkillCapabilities.mk (Some tt) None None None None None
      ProviderExecutionPolicy.default_policy))
      (request "hello") reference [("text", VStr "hello")] "p" 0%nat.
Proof.
  apply undeclared_capabilities_unobservable; [reflexivity|]. intros skill name H Hn. unfold resolve in H. cbn in H.
  injection H as <-. cbn in Hn. apply list_elem_of_singleton in Hn as ->. reflexivity.
Defined.
End SkillWitness.
