(* ===== verification/Calendar.v ===== *)
(** Dates of the proleptic Gregorian calendar: [datetime.isoformat] of a
    timestamp in UTC and [datetime + timedelta]. The program's clocks give UTC
    timestamps, so an aware timestamp is written with the offset [+00:00]. *)
From S2P Require Import Prelude Errors Text Float Value Lifecycle.
Local Open Scope string_scope.
Local Open Scope list_scope.
Local Open Scope Z_scope.

Definition microseconds_per_day : Z := 86400 * 1000000.

Definition is_leap (y : Z) : bool :=
  (y mod 4 =? 0) && (negb (y mod 100 =? 0) || (y mod 400 =? 0)).
Definition days_in_month (y m : Z) : Z :=
  match m with
  | 2 => if is_leap y then 29 else 28
  | 4 | 6 | 9 | 11 => 30
  | _ => 31
  end.

(** Days before 1 January of year [y], counted from 1 January of year 1. *)
Definition days_before_year (y : Z) : Z :=
  let p := y - 1 in p * 365 + p / 4 - p / 100 + p / 400.
Definition unix_epoch_days : Z := days_before_year 1970.

(** The month and day of the [n]-th day of a year, counting from zero: the
    months from [m] on. *)
Fixpoint month_day (fuel : nat) (y m n : Z) : Z * Z :=
  match fuel with
  | O => (m, n + 1)
  | S fuel' => if n <? days_in_month y m then (m, n + 1)
               else month_day fuel' y (m + 1) (n - days_in_month y m)
  end.

(** The year a day falls in: an estimate from the mean length of a year, which
    is at most one too small. *)
Definition year_of (days : Z) : Z :=
  let y := days * 400 / 146097 + 1 in
  if days_before_year (y + 1) <=? days then y + 1
  else if days <? days_before_year y then y - 1 else y.

Definition civil (days : Z) : Z * Z * Z :=
  let y := year_of days in
  let '(m, d) := month_day 11 y 1 (days - days_before_year y) in
  (y, m, d).

(** ** [isoformat] *)

(** [n] with at least [width] digits. *)
Definition padded (width : nat) (n : Z) : string :=
  let s := int_str n in
  Nat.iter (width - String.length s) (fun t => "0" +:+ t) s.

Definition isoformat (t : datetime) : string :=
  let days := instant t / microseconds_per_day in
  let rest := instant t mod microseconds_per_day in
  let '(y, m, d) := civil (days + unix_epoch_days) in
  let seconds := rest / 1000000 in
  let micro := rest mod 1000000 in
  padded 4 y +:+ "-" +:+ padded 2 m +:+ "-" +:+ padded 2 d +:+ "T"
  +:+ padded 2 (seconds / 3600) +:+ ":" +:+ padded 2 (seconds / 60 mod 60) +:+ ":"
  +:+ padded 2 (seconds mod 60)
  +:+ (if micro =? 0 then "" else "." +:+ padded 6 micro)
  +:+ (if is_aware t then "+00:00" else "").

(** ** [datetime + timedelta] *)

(** 1 January of year 1 and the end of year 9999. *)
Definition min_instant : Z := - unix_epoch_days * microseconds_per_day.
Definition end_instant : Z := (days_before_year 10000 - unix_epoch_days) * microseconds_per_day.

Definition add_microseconds (t : datetime) (delta : Z) : res datetime :=
  let i := instant t + delta in
  _ ← fail_if ((i <? min_instant) || (end_instant <=? i)) (Exn PyOverflowError "date value out of range");
  Ok (Datetime i (is_aware t)).

(** ** The calendar is consistent *)

Lemma days_before_year_step y :
  days_before_year (y + 1) = days_before_year y + (if is_leap y then 366 else 365).
Proof.
  unfold days_before_year, is_leap. replace (y + 1 - 1) with y by lia.
  assert (Hd : forall n, 0 < n -> y / n = (y - 1) / n + (if y mod n =? 0 then 1 else 0)).
  { intros n Hn. destruct (Z.eqb_spec (y mod n) 0); Z.to_euclidean_division_equations; nia. }
  rewrite (Hd 4), (Hd 100), (Hd 400) by lia.
  destruct (Z.eqb_spec (y mod 4) 0), (Z.eqb_spec (y mod 100) 0), (Z.eqb_spec (y mod 400) 0); cbn;
    try lia; exfalso; Z.to_euclidean_division_equations; lia.
Qed.

(** The year a day is given is the one it falls in. *)
Lemma year_of_spec days :
  days_before_year (year_of days) <= days < days_before_year (year_of days + 1).
Proof.
  unfold year_of. cbv zeta. set (y := days * 400 / 146097 + 1).
  assert (days_before_year (y - 1) <= days < days_before_year (y + 1 + 1)) as [Hlo Hhi].
  { unfold days_before_year, y. Z.to_euclidean_division_equations. lia. }
  destruct (Z.leb_spec (days_before_year (y + 1)) days); [lia|].
  destruct (Z.ltb_spec days (days_before_year y)); [rewrite Z.sub_add; lia|lia].
Qed.
