(* ===== verification/AgentRuntime.v ===== *)
(** [backend/agent_runtime]: the loop that drives an execution. It asks the
    workflow engine for a decision, applies it through the domain coordinator,
    calls skills, records events, checkpoints and memory, and commits every
    recovery boundary.

    The state is the session with the database, the execution in memory and
    the persistence versions the runtime remembers. Calls of skill
    implementations are also logged, with the database as it was committed
    when they were made; the log is only read by theorems. *)
From S2P Require Import Prelude Errors Text Float Value Json Lexical SkillSchema Sha256 Lifecycle Workflow Checkpoint Coordinator Approval Events Records Provider Budget Dict Tables Repositories Manifests UnitOfWork RetryPolicy EngineModels References Validator Scheduler Engine EngineCoordinator Skills Calendar.
Local Open Scope string_scope.
Local Open Scope list_scope.
Local Open Scope Z_scope.

Definition runtime_error {E A} (message : string) : M exn E A := raise (Exn AgentRuntimeError message).

(** ** [runtime/approval_fingerprint.py] *)

Definition build_resolved_approval_action (project_id workflow_id workflow_version workflow_run_id
    approval_step_id step_run_id : string) (attempt : Z) (policy_key approval_role : string)
    (expires_at : datetime) (resolved_inputs : mapping) (skill_versions : list (string * string)) : mapping :=
  [("kind", VStr "workflow_approval"); ("project_id", VStr project_id); ("workflow_id", VStr workflow_id);
   ("workflow_version", VStr workflow_version); ("workflow_run_id", VStr workflow_run_id);
   ("approval_step_id", VStr approval_step_id); ("step_run_id", VStr step_run_id);
   ("attempt", VInt attempt); ("policy_key", VStr policy_key); ("approval_role", VStr approval_role);
   ("expires_at", VStr (isoformat expires_at));
   ("resolved_inputs", VDict false (thaw_mapping resolved_inputs));
   ("skill_versions", VDict false (map_values VStr (isort key_leb skill_versions)))].

(** The canonical JSON text does not allow NaN or infinities. *)
Definition approval_action_fingerprint (action : mapping) : res string :=
  _ ← fail_if (negb (mapping_finite action))
        (Exn PyValueError "Out of range float values are not JSON compliant");
  canonical ← json_dumps (VDict false (thaw_mapping action));
  Ok ("sha256:" +:+ sha256_hex canonical).

(** ** [context/execution_context.py] *)

Module AgentExecutionContext.
Record t := mk {
  project_id : string;
  workflow_run_id : string;
  agent_session_id : string;
  workflow_id : string;
  workflow_version : string;
  step_id : string;
  step_run_id : string;
  attempt : Z;
  workflow_inputs : mapping;
  resolved_inputs : mapping;
  working_memory : mapping;
  memory_revision : Z;
  checkpoint_id : string;
  source_references : list string
}.

Definition post_init (self : t) : res t :=
  inputs ← freeze_json_mapping "workflow_inputs" (workflow_inputs self);
  resolved ← freeze_json_mapping "resolved_inputs" (resolved_inputs self);
  working ← freeze_json_mapping "working_memory" (working_memory self);
  Ok (mk (project_id self) (workflow_run_id self) (agent_session_id self) (workflow_id self)
        (workflow_version self) (step_id self) (step_run_id self) (attempt self) inputs resolved
        working (memory_revision self) (checkpoint_id self) (source_references self)).
End AgentExecutionContext.

(** [MemoryRepository.latest_revision_number] *)
Definition latest_revision_number (project_id run_id : string) (self : MemoryRepository.t) : Z :=
  match last (MemoryRepository.history project_id run_id self) with
  | Some r => MemoryRevision.revision r
  | None => 0
  end.

(** [ExecutionContextBuilder.build] *)
Definition build_context (x : ExecutionState.t) (d : step_request) (store : MemoryRepository.t) :
    res AgentExecutionContext.t :=
  let run := ExecutionState.workflow_run x in
  checkpoint ← ExecutionState.latest_checkpoint x;
  _ ← Checkpoint.verify_integrity checkpoint;
  _ ← fail_if (negb (String.eqb (req_workflow_run_id d) (WorkflowRun.id run)))
        (Exn PyValueError "StepReady belongs to another WorkflowRun");
  found ← ExecutionState.latest_step_run x (req_step_id d);
  _ ← fail_if (negb (String.eqb (req_step_run_id d) (StepRun.id found.2)))
        (Exn PyValueError "StepReady belongs to a stale StepRun attempt");
  let w := ExecutionState.workflow x in
  AgentExecutionContext.post_init
    (AgentExecutionContext.mk (WorkflowRun.project_id run) (WorkflowRun.id run)
       (AgentSession.id (ExecutionState.agent_session x)) (Workflow.id w) (Workflow.version w)
       (req_step_id d) (req_step_run_id d) (req_attempt d) (WorkflowRun.inputs run)
       (req_resolved_inputs d) (MemoryRepository.read_context (WorkflowRun.project_id run) (WorkflowRun.id run) store)
       (latest_revision_number (WorkflowRun.project_id run) (WorkflowRun.id run) store)
       (Checkpoint.id checkpoint)
       ["workflow:" +:+ Workflow.id w +:+ "@" +:+ Workflow.version w;
        "checkpoint:" +:+ Checkpoint.id checkpoint; "step_run:" +:+ req_step_run_id d]).

(** ** [runtime/runtime_result.py] *)

Module RuntimeResult.
Record t := mk {
  workflow_run_id : string;
  agent_session_id : string;
  status : WorkflowRunStatus.t;
  outputs : mapping;
  wait_reason : option string;
  error_code : option string;
  completed_steps : list string;
  domain_checkpoint_count : Z;
  runtime_checkpoint_count : Z;
  memory_revision : Z
}.

Definition post_init (self : t) : res t :=
  frozen ← freeze_json_mapping "outputs" (outputs self);
  Ok (mk (workflow_run_id self) (agent_session_id self) (status self) frozen (wait_reason self)
        (error_code self) (completed_steps self) (domain_checkpoint_count self)
        (runtime_checkpoint_count self) (memory_revision self)).
End RuntimeResult.

(** [CheckpointBoundary.value] *)
Definition boundary_value (b : CheckpointBoundary) : string :=
  match b with
  | BASELINE => "BASELINE" | INITIALIZED => "INITIALIZED" | STEP_READY => "STEP_READY"
  | BEFORE_SKILL => "BEFORE_SKILL" | AFTER_SKILL => "AFTER_SKILL"
  | WAITING_APPROVAL => "WAITING_APPROVAL" | RETRY_SCHEDULED => "RETRY_SCHEDULED"
  | RECOVERED => "RECOVERED" | APPROVAL_RESOLVED => "APPROVAL_RESOLVED"
  | BEFORE_TERMINAL => "BEFORE_TERMINAL" | TERMINAL => "TERMINAL"
  | DOMAIN_TRANSITION => "DOMAIN_TRANSITION"
  end.

Definition int_or_none (o : option Z) : value := match o with Some n => VInt n | None => VNone end.

(** [_waiting_step_id] *)
Definition waiting_step_id (x : ExecutionState.t) : option string :=
  match WorkflowRun.wait_reason (ExecutionState.workflow_run x) with
  | Some reason => if starts_with "approval:" reason then Some (removeprefix "approval:" reason) else None
  | None => None
  end.

(** [_active_or_ready_step] *)
Definition active_or_ready_step (x : ExecutionState.t) : res (option StepRun.t) :=
  current ← ExecutionState.current_step_runs x;
  Ok (match List.filter (fun f => match StepRun.status f.2 with
                                  | StepRunStatus.READY | StepRunStatus.RUNNING => true
                                  | _ => false
                                  end) current with
      | [f] => Some f.2
      | _ => None
      end).

(** [dict(current.get("step_outputs", {}))]; only the runtime writes the
    context, and it writes a dictionary there. *)
Definition step_outputs_of (current : mapping) : res mapping :=
  match dict_get "step_outputs" current with
  | Some (VDict _ d) => Ok d
  | None => Ok []
  | Some _ => Err (Exn PyTypeError "step_outputs")
  end.

(** [getattr(d, "failed_step_id", None) or getattr(d, "step_id", None)] *)
Definition terminal_step_id (d : Decision_t) : option string :=
  match d with
  | WorkflowFailed _ _ _ (Some failed) _ _ => if String.eqb failed "" then None else Some failed
  | WorkflowFailed _ _ _ None _ _ => None
  | _ => decision_step_id d
  end.

(** [type(d).__name__] *)
Definition decision_type_name (d : Decision_t) : string :=
  match d with
  | StepReady _ _ _ _ _ _ _ _ => "StepReady"
  | WorkflowCompleted _ _ => "WorkflowCompleted"
  | WaitingApproval _ _ _ _ _ _ _ _ => "WaitingApproval"
  | RetryScheduled _ _ _ _ _ _ _ _ _ => "RetryScheduled"
  | WorkflowFailed _ _ _ _ _ _ => "WorkflowFailed"
  | ApprovalCompleted _ _ _ _ _ => "ApprovalCompleted"
  | WorkflowCancelled _ _ _ => "WorkflowCancelled"
  | NoAction _ => "NoAction"
  end.

Definition step_request_of (b : EngineDecision) (step_id step_run_id : string) (attempt : Z)
    (skill_ref : string) (resolved_inputs : mapping) : step_request :=
  StepRequest (EngineModels.workflow_run_id b) (EngineModels.workflow_id b)
    (EngineModels.workflow_version b) step_id step_run_id attempt skill_ref resolved_inputs.

(** ** The state of the runtime *)

(** One call of a skill implementation. *)
Record skill_call {EN : Entities} {P : Type} := Call {
  call_context : SkillExecutionContext.t P;
  call_inputs : mapping;
  call_database : database
}.
Arguments skill_call {EN} P.

Section runtime.
Context {EN : Entities} {P : Type}.

(** The state skill implementations run in, with the log of their calls. *)
Record observed := Observed { obs_session : session; obs_calls : list (skill_call P) }.

Record machine := Machine {
  rt_world : world;
  rt_observed : observed;
  rt_versions : dict string (option Z)
}.

Definition rt_execution (m : machine) : ExecutionState.t := execution (rt_world m).
Definition rt_session (m : machine) : session := obs_session (rt_observed m).
Definition rt_unit (m : machine) : unit_of_work := uow (rt_session m).
Definition rt_database (m : machine) : database := shared (rt_session m).
Definition rt_calls (m : machine) : list (skill_call P) := obs_calls (rt_observed m).

Definition on_world {A} : M exn world A -> M exn machine A :=
  zoom rt_world (fun w m => Machine w (rt_observed m) (rt_versions m)).
Definition on_observed {A} : M exn observed A -> M exn machine A :=
  zoom rt_observed (fun o m => Machine (rt_world m) o (rt_versions m)).
Definition on_session {A} (c : M exn session A) : M exn machine A :=
  on_observed (zoom obs_session (fun s o => Observed s (obs_calls o)) c).
Definition on_uow {A} (c : M exn unit_of_work A) : M exn machine A := on_session (on_unit c).
Definition reading {A} (f : ExecutionState.t -> res A) : M exn machine A := on_world (reads f).

(** A registered implementation, its calls logged. *)
Definition observe (i : @implementation session P) : @implementation observed P :=
  fun inputs context o =>
    let '(r, s) := i inputs context (obs_session o) in
    (r, Observed s (obs_calls o ++ [Call EN P context inputs (shared (obs_session o))])).

Definition observe_skill (skill : @RegisteredSkill session P) : @RegisteredSkill observed P :=
  Registered (definition skill) (observe (run_implementation skill)).

Section operations.
Context (clock : nat -> datetime) (id_factory : nat -> string -> string).
Context (skills : dict (string * string) (@RegisteredSkill session P)).
Context (capability_provider : option (step_request -> SkillCapabilities.t P)).
Context (max_decisions : nat) (approval_ttl : Z).

Definition observed_skills : dict (string * string) (@RegisteredSkill observed P) :=
  (fun kv => (kv.1, observe_skill kv.2)) <$> skills.

(** ** Events and checkpoints *)

(** [_emit_event] *)
Definition emit_event (event_type : ExecutionEventType) (payload : mapping) (severity : EventSeverity)
    (step_run_id : option string) : M exn machine unit :=
  m ← get_state;
  let run := ExecutionState.workflow_run (rt_execution m) in
  let current_sequence :=
    ExecutionEventStore.latest_sequence (WorkflowRun.project_id run) (WorkflowRun.id run) (events (rt_unit m)) in
  event_id ← on_world (on_env (new_id id_factory "event"));
  data ← lift_result (EventPayload.create (VDict false payload) 1);
  occurred_at ← on_world (now clock);
  event ← lift_result (ExecutionEvent.post_init
            (ExecutionEvent.mk event_id (WorkflowRun.project_id run) (WorkflowRun.id run)
               (current_sequence + 1) event_type data (WorkflowRun.idempotency_key run) occurred_at
               severity (Some (AgentSession.id (ExecutionState.agent_session (rt_execution m))))
               step_run_id (Some (WorkflowRun.id run)) None));
  on_uow (on_events (ExecutionEventStore.append event current_sequence)) ;;
  mret tt.

Definition known_checkpoint (c : Checkpoint.t) (u : unit_of_work) : bool :=
  bool_decide (Checkpoint.id c
    ∈ Checkpoint.id <$> CheckpointRepository.list (Checkpoint.workflow_run_id c) (checkpoints u)).

Definition checkpoint_payload (x : ExecutionState.t) (boundary : CheckpointBoundary) (c : Checkpoint.t)
    (step_id : option string) (attempt : option Z) : mapping :=
  [("checkpoint_id", VStr (Checkpoint.id c)); ("checkpoint_sequence", VInt (Checkpoint.sequence c));
   ("boundary", VStr (boundary_value boundary)); ("step_id", str_or_none step_id);
   ("attempt", int_or_none attempt);
   ("run_status", VStr (WorkflowRunStatus.value (WorkflowRun.status (ExecutionState.workflow_run x))))].

(** [execution.latest_step_run(step_id).id if step_id is not None else None] *)
Definition step_run_id_of (step_id : option string) : M exn machine (option string) :=
  match step_id with
  | Some i => found ← reading (fun x => ExecutionState.latest_step_run x i); mret (Some (StepRun.id found.2))
  | None => mret None
  end.

(** [_record] *)
Definition record (boundary : CheckpointBoundary) (c : Checkpoint.t) (step_id : option string)
    (attempt : option Z) (emit : bool) : M exn machine unit :=
  m ← get_state;
  let is_new_checkpoint := negb (known_checkpoint c (rt_unit m)) in
  on_uow (on_checkpoints (CheckpointRepository.save c boundary step_id attempt)) ;;
  if is_new_checkpoint && emit then
    step_run_id ← step_run_id_of step_id;
    emit_event CHECKPOINT_CREATED (checkpoint_payload (rt_execution m) boundary c step_id attempt) INFO
      step_run_id
  else mret tt.

(** ** Committing *)

(** The loop of [_sync_domain_checkpoints]. *)
Fixpoint sync_checkpoints (persisted : list string) (cs : list Checkpoint.t) : M exn machine unit :=
  match cs with
  | [] => mret tt
  | c :: cs' =>
      if bool_decide (Checkpoint.id c ∈ persisted) then sync_checkpoints persisted cs'
      else record DOMAIN_TRANSITION c None None true ;;
           sync_checkpoints (Checkpoint.id c :: persisted) cs'
  end.

Definition sync_domain_checkpoints : M exn machine unit :=
  m ← get_state;
  let x := rt_execution m in
  sync_checkpoints
    (Checkpoint.id <$> CheckpointRepository.list (WorkflowRun.id (ExecutionState.workflow_run x))
                         (checkpoints (rt_unit m)))
    (ExecutionState.checkpoints x).

(** [try: ... except Exception: self.uow.rollback(); raise] *)
Definition or_rollback {A} (c : M exn machine A) : M exn machine A :=
  fun m => match c m with
           | (Ok a, m') => (Ok a, m')
           | (Err e, m') => (Err e, (on_session rollback m').2)
           end.

Definition set_version (run_id : string) (version : Z) (m : machine) : machine :=
  Machine (rt_world m) (rt_observed m) (Dict.set run_id (Some version) (rt_versions m)).

(** [_commit] *)
Definition commit_execution : M exn machine unit :=
  sync_domain_checkpoints ;;
  m ← get_state;
  let x := rt_execution m in
  let run_id := WorkflowRun.id (ExecutionState.workflow_run x) in
  let expected_version := default None (Dict.get run_id (rt_versions m)) in
  next_version ← or_rollback
    (next_version ← on_uow (on_workflows (WorkflowRepository.save x expected_version));
     on_session commit ;;
     mret next_version);
  modify (set_version run_id next_version).

(** [_create_checkpoint] *)
Definition create_boundary (boundary : CheckpointBoundary) (step_id : option string) (attempt : option Z) :
    M exn machine Checkpoint.t :=
  c ← on_world (create_checkpoint clock id_factory);
  record boundary c step_id attempt true ;;
  commit_execution ;;
  mret c.

(** [execution.latest_checkpoint] *)
Definition latest : M exn machine Checkpoint.t := reading ExecutionState.latest_checkpoint.

(** [_record] with the latest checkpoint, then [_commit] *)
Definition record_latest (boundary : CheckpointBoundary) (step_id : option string) (attempt : option Z) :
    M exn machine unit :=
  c ← latest; record boundary c step_id attempt true.

(** [_result] *)
Definition runtime_result : M exn machine RuntimeResult.t :=
  m ← get_state;
  let x := rt_execution m in
  let u := rt_unit m in
  let run := ExecutionState.workflow_run x in
  current ← reading (fun x => map_ok (fun step => found ← ExecutionState.latest_step_run x (WorkflowStep.id step);
                                                  Ok (WorkflowStep.id step, found.2))
                                (Workflow.steps (ExecutionState.workflow x)));
  lift_result (RuntimeResult.post_init
    (RuntimeResult.mk (WorkflowRun.id run) (AgentSession.id (ExecutionState.agent_session x))
       (WorkflowRun.status run) (WorkflowRun.outputs run) (WorkflowRun.wait_reason run)
       (WorkflowRun.error_code run)
       (List.filter (fun f => succeeded (StepRun.status f.2)) current).*1
       (Z.of_nat (List.length (CheckpointRepository.list (WorkflowRun.id run) (checkpoints u))))
       (Z.of_nat (List.length (CheckpointRepository.list_records (WorkflowRun.id run) (checkpoints u))))
       (latest_revision_number (WorkflowRun.project_id run) (WorkflowRun.id run) (memory u)))).

(** [self._commit(execution); return self._result(execution)] *)
Definition commit_and_yield : M exn machine RuntimeResult.t := commit_execution ;; runtime_result.

(** ** Memory *)

Definition workflow_reference (w : Workflow.t) : string :=
  "workflow:" +:+ Workflow.id w +:+ "@" +:+ Workflow.version w.

(** [_initialize_memory] *)
Definition initialize_memory : M exn machine unit :=
  m ← get_state;
  let x := rt_execution m in
  let run := ExecutionState.workflow_run x in
  let w := ExecutionState.workflow x in
  on_uow (on_memory (MemoryRepository.initialize_context (WorkflowRun.project_id run) (WorkflowRun.id run)
    [("workflow_id", VStr (Workflow.id w)); ("workflow_version", VStr (Workflow.version w));
     ("workflow_inputs", VDict true (WorkflowRun.inputs run)); ("step_outputs", VDict false [])]
    "agent_runtime.initialize" [workflow_reference w])) ;;
  mret tt.

(** [_update_memory] *)
Definition update_memory (d : step_request) (outputs : mapping) : M exn machine unit :=
  m ← get_state;
  let run := ExecutionState.workflow_run (rt_execution m) in
  let current := thaw_mapping (MemoryRepository.read_context (WorkflowRun.project_id run) (WorkflowRun.id run)
                                 (memory (rt_unit m))) in
  step_outputs ← lift_result (step_outputs_of current);
  let entry := VDict false [("attempt", VInt (req_attempt d)); ("outputs", VDict false (thaw_mapping outputs))] in
  on_uow (on_memory (MemoryRepository.update_context (WorkflowRun.project_id run) (WorkflowRun.id run)
    [("step_outputs", VDict false (dict_set (req_step_id d) entry step_outputs))]
    ("skill:" +:+ req_skill_ref d) ["step_run:" +:+ req_step_run_id d])) ;;
  mret tt.

(** [_record_baseline] *)
Definition record_baseline : M exn machine unit :=
  m ← get_state;
  let x := rt_execution m in
  match last (ExecutionState.checkpoints x) with
  | Some c =>
      if bool_decide (CheckpointRepository.list_records (WorkflowRun.id (ExecutionState.workflow_run x))
                        (checkpoints (rt_unit m)) = [])
      then record BASELINE c None None false
      else mret tt
  | None => mret tt
  end.

(** ** Approvals *)

Definition skill_versions (w : Workflow.t) : list (string * string) :=
  foldl (fun d step => match WorkflowStep.uses step with
                       | Some uses => dict_set (WorkflowStep.id step) uses d
                       | None => d
                       end) [] (Workflow.steps w).

(** [_create_approval_request] *)
Definition create_approval_request (step_id step_run_id : string) (attempt : Z) (policy_key : string)
    (resolved_inputs : mapping) : M exn machine ApprovalRequest.t :=
  requested_at ← on_world (now clock);
  expires_at ← lift_result (add_microseconds requested_at approval_ttl);
  m ← get_state;
  let x := rt_execution m in
  let run := ExecutionState.workflow_run x in
  let w := ExecutionState.workflow x in
  let requested_action :=
    build_resolved_approval_action (WorkflowRun.project_id run) (Workflow.id w) (Workflow.version w)
      (WorkflowRun.id run) step_id step_run_id attempt policy_key policy_key expires_at resolved_inputs
      (skill_versions w) in
  fingerprint ← lift_result (approval_action_fingerprint requested_action);
  approval_id ← on_world (on_env (new_id id_factory "approval"));
  approval ← lift_result (ApprovalRequest.post_init
               (ApprovalRequest.mk approval_id (WorkflowRun.project_id run) (WorkflowRun.id run) step_run_id
                  policy_key fingerprint ("Approval required for workflow step " +:+ step_id)
                  requested_action (AgentSession.id (ExecutionState.agent_session x)) policy_key
                  requested_at (Some expires_at) ApprovalRequestStatus.PENDING None None None None [] 0));
  on_uow (on_approvals (ApprovalRepository.save approval None)) ;;
  mret approval.

Definition approval_payload (approval : ApprovalRequest.t) (step_id : string) (attempt : Z)
    (policy_key : string) : mapping :=
  [("approval_request_id", VStr (ApprovalRequest.id approval)); ("step_id", VStr step_id);
   ("attempt", VInt attempt); ("policy_key", VStr policy_key);
   ("expires_at", match ApprovalRequest.expires_at approval with
                  | Some t => VStr (isoformat t)
                  | None => VNone
                  end)].

(** [_ensure_pending_approval] *)
Definition ensure_pending_approval : M exn machine unit :=
  m ← get_state;
  let x := rt_execution m in
  let run := ExecutionState.workflow_run x in
  pending ← lift_result (ApprovalRepository.list_pending_for_run (WorkflowRun.project_id run)
                           (WorkflowRun.id run) (approvals (rt_unit m)));
  if negb (bool_decide (List.length pending = 0%nat)) then mret tt
  else
    match waiting_step_id x with
    | None => runtime_error "Waiting WorkflowRun does not identify an approval step"
    | Some step_id =>
        found ← reading (fun x => ExecutionState.latest_step_run x step_id);
        step ← reading (fun x => Workflow.get_step (ExecutionState.workflow x) step_id);
        match WorkflowStep.approval_policy step with
        | None => runtime_error ("Approval step " +:+ step_id +:+ " has no approval policy")
        | Some policy =>
            let step_run := found.2 in
            approval ← create_approval_request step_id (StepRun.id step_run) (StepRun.attempt step_run)
                         policy (StepRun.inputs step_run);
            emit_event APPROVAL_REQUESTED
              (approval_payload approval step_id (StepRun.attempt step_run) policy
               ++ [("recovered", VBool true)]) INFO (Some (StepRun.id step_run)) ;;
            record_latest WAITING_APPROVAL (Some step_id) (Some (StepRun.attempt step_run)) ;;
            commit_execution
        end
    end.

(** ** Executing a step *)

Definition status_value (m : machine) : value :=
  VStr (WorkflowRunStatus.value (WorkflowRun.status (ExecutionState.workflow_run (rt_execution m)))).

(** The artifact a skill emitted, as the project stores it. *)
Definition save_artifact (d : step_request) (e : EmittedArtifactMetadata.t) : M exn machine unit :=
  m ← get_state;
  let run := ExecutionState.workflow_run (rt_execution m) in
  created_at ← on_world (now clock);
  artifact ← lift_result (ArtifactMetadata.post_init
    (ArtifactMetadata.mk (EmittedArtifactMetadata.artifact_id e) (WorkflowRun.project_id run)
       (if String.eqb (EmittedArtifactMetadata.logical_artifact_id e) ""
        then EmittedArtifactMetadata.artifact_id e else EmittedArtifactMetadata.logical_artifact_id e)
       (EmittedArtifactMetadata.logical_name e) (EmittedArtifactMetadata.version e)
       (EmittedArtifactMetadata.kind e) (EmittedArtifactMetadata.storage_key e)
       (EmittedArtifactMetadata.checksum e) (EmittedArtifactMetadata.media_type e)
       (EmittedArtifactMetadata.size e) (Some (WorkflowRun.id run)) (Some (req_step_run_id d))
       (EmittedArtifactMetadata.metadata e) created_at));
  on_uow (on_artifacts (ArtifactRepository.save artifact)).

Definition sorted_keys (d : mapping) : value := VList (VStr <$> sort_strings d.*1).

(** The branch of [_execute_step] for a successful result. *)
Definition complete_step (d : step_request) (result : SkillResult.t) : M exn machine unit :=
  for_each (save_artifact d) (SkillResult.emitted_artifacts result) ;;
  checkpoint ← on_world (update_step_state clock id_factory (req_step_id d) StepRunStatus.COMPLETED
                           (Some (SkillResult.output_data result)) None false);
  match checkpoint with
  | None => runtime_error "Skill completion did not create a checkpoint"
  | Some c =>
      emit_event SKILL_EXECUTED
        [("step_id", VStr (req_step_id d)); ("attempt", VInt (req_attempt d));
         ("skill_ref", VStr (req_skill_ref d)); ("success", VBool true);
         ("output_fields", sorted_keys (SkillResult.output_data result));
         ("artifact_ids", VList ((fun a => VStr (EmittedArtifactMetadata.artifact_id a))
                                   <$> SkillResult.emitted_artifacts result));
         ("provider_usage_count", VInt (Z.of_nat (List.length (SkillResult.provider_usage result))))]
        INFO (Some (req_step_run_id d)) ;;
      record AFTER_SKILL c (Some (req_step_id d)) (Some (req_attempt d)) true ;;
      update_memory d (SkillResult.output_data result) ;;
      commit_execution
  end.

Definition is_workflow_failed (d : Decision_t) : bool :=
  match d with WorkflowFailed _ _ _ _ _ _ => true | _ => false end.

(** The events and checkpoints after a failed call, by the decision taken. *)
Definition yield_failure (d : step_request) (failure_decision : Decision_t) (c : Checkpoint.t) :
    M exn machine RuntimeResult.t :=
  match failure_decision with
  | RetryScheduled _ _ _ _ _ _ _ _ _ =>
      record RETRY_SCHEDULED c (Some (req_step_id d)) (Some (req_attempt d)) true ;;
      commit_and_yield
  | WorkflowFailed _ _ _ _ _ _ =>
      record TERMINAL c (Some (req_step_id d)) (Some (req_attempt d)) true ;;
      m ← get_state;
      emit_event WORKFLOW_FAILED
        [("status", status_value m);
         ("error_code", str_or_none (WorkflowRun.error_code (ExecutionState.workflow_run (rt_execution m))));
         ("failed_step_id", VStr (req_step_id d))] ERROR (Some (req_step_run_id d)) ;;
      commit_and_yield
  | _ => runtime_error ("Unsupported failure decision " +:+ decision_type_name failure_decision)
  end.

(** The branch of [_execute_step] for a failed result. *)
Definition fail_step (d : step_request) (e : SkillError.t) : M exn machine RuntimeResult.t :=
  failure_decision ← reading (fun x => evaluate_failure_of x (req_step_id d) (SkillError.retryable e)
                                         (SkillError.code e) (SkillError.message e));
  (if is_workflow_failed failure_decision then
     create_boundary BEFORE_TERMINAL (Some (req_step_id d)) (Some (req_attempt d)) ;; mret tt
   else mret tt) ;;
  checkpoint ← on_world (apply_decision clock id_factory failure_decision);
  match checkpoint with
  | None => runtime_error "Skill failure did not create a checkpoint"
  | Some c =>
      emit_event SKILL_EXECUTED
        [("step_id", VStr (req_step_id d)); ("attempt", VInt (req_attempt d));
         ("skill_ref", VStr (req_skill_ref d)); ("success", VBool false);
         ("error_code", VStr (SkillError.code e)); ("retryable", VBool (SkillError.retryable e));
         ("error_details", VDict true (SkillError.details e))]
        (if SkillError.retryable e then WARNING else ERROR) (Some (req_step_run_id d)) ;;
      record AFTER_SKILL c (Some (req_step_id d)) (Some (req_attempt d)) true ;;
      yield_failure d failure_decision c
  end.

(** The call of the skill, between the boundary before it and the handling of
    its result. *)
Definition invoke_skill (d : step_request) : M exn machine SkillResult.t :=
  m ← get_state;
  context ← lift_result (build_context (rt_execution m) d (memory (rt_unit m)));
  reference ← lift_result (SkillReference.parse (req_skill_ref d));
  on_observed (execute observed_skills capability_provider d reference
    (AgentExecutionContext.resolved_inputs context)
    (WorkflowRun.project_id (ExecutionState.workflow_run (rt_execution m)))).

(** Up to the boundary before the call: the step is READY and committed so,
    then RUNNING, announced and committed so. *)
Definition start_step (decision : Decision_t) (d : step_request) : M exn machine unit :=
  ready_checkpoint ← on_world (apply_decision clock id_factory decision);
  (match ready_checkpoint with
   | Some c => record STEP_READY c (Some (req_step_id d)) (Some (req_attempt d)) true ;; commit_execution
   | None => mret tt
   end) ;;
  found ← reading (fun x => ExecutionState.latest_step_run x (req_step_id d));
  (if bool_decide (StepRun.status found.2 = StepRunStatus.READY) then mret tt
   else runtime_error ("Step " +:+ req_step_id d +:+ " must be READY before skill execution")) ;;
  on_world (update_step_state clock id_factory (req_step_id d) StepRunStatus.RUNNING None None false) ;;
  emit_event STEP_STARTED
    [("step_id", VStr (req_step_id d)); ("attempt", VInt (req_attempt d));
     ("skill_ref", VStr (req_skill_ref d))] INFO (Some (req_step_run_id d)) ;;
  create_boundary BEFORE_SKILL (Some (req_step_id d)) (Some (req_attempt d)) ;;
  mret tt.

(** [_execute_step] *)
Definition execute_step (decision : Decision_t) (d : step_request) : M exn machine (option RuntimeResult.t) :=
  start_step decision d ;;
  result ← invoke_skill d;
  if SkillResult.success result then complete_step d result ;; mret None
  else match SkillResult.error result with
       | None => runtime_error "Failed SkillResult has no typed error"
       | Some e => r ← fail_step d e; mret (Some r)
       end.

(** ** Decisions other than a ready step *)

(** The branch of [run] for [WaitingApproval]. *)
Definition wait_for_approval (decision : Decision_t) (step_id step_run_id : string) (attempt : Z)
    (policy : string) (resolved_inputs : mapping) : M exn machine RuntimeResult.t :=
  checkpoint ← on_world (apply_decision clock id_factory decision);
  match checkpoint with
  | None => runtime_error "WaitingApproval did not create a checkpoint"
  | Some c =>
      approval ← create_approval_request step_id step_run_id attempt policy resolved_inputs;
      emit_event APPROVAL_REQUESTED (approval_payload approval step_id attempt policy) INFO
        (Some step_run_id) ;;
      record WAITING_APPROVAL c (Some step_id) (Some attempt) true ;;
      commit_and_yield
  end.

(** The branch for [RetryScheduled]. *)
Definition schedule_retry (decision : Decision_t) (step_id : string) (current_attempt : Z) :
    M exn machine RuntimeResult.t :=
  checkpoint ← on_world (apply_decision clock id_factory decision);
  match checkpoint with
  | None => runtime_error "RetryScheduled did not create a checkpoint"
  | Some c => record RETRY_SCHEDULED c (Some step_id) (Some current_attempt) true ;; commit_and_yield
  end.

(** The event of a terminal decision; a cancellation has none. *)
Definition emit_terminal (decision : Decision_t) : M exn machine unit :=
  m ← get_state;
  match decision with
  | WorkflowCompleted _ _ =>
      emit_event WORKFLOW_COMPLETED
        [("status", status_value m);
         ("output_fields", sorted_keys (WorkflowRun.outputs (ExecutionState.workflow_run (rt_execution m))))]
        INFO None
  | WorkflowFailed _ error_code _ failed_step_id _ retry_exhausted =>
      step_run_id ← step_run_id_of failed_step_id;
      emit_event WORKFLOW_FAILED
        [("status", status_value m); ("error_code", VStr error_code);
         ("failed_step_id", str_or_none failed_step_id); ("retry_exhausted", VBool retry_exhausted)]
        ERROR step_run_id
  | _ => mret tt
  end.

(** [_apply_terminal_decision] *)
Definition apply_terminal_decision (decision : Decision_t) : M exn machine RuntimeResult.t :=
  create_boundary BEFORE_TERMINAL (terminal_step_id decision) None ;;
  checkpoint ← on_world (apply_decision clock id_factory decision);
  match checkpoint with
  | None => runtime_error "Terminal decision did not create a checkpoint"
  | Some c =>
      record TERMINAL c (terminal_step_id decision) None true ;;
      emit_terminal decision ;;
      commit_and_yield
  end.

(** The branch for [ApprovalCompleted]. *)
Definition complete_approval (decision : Decision_t) (step_id : string) : M exn machine unit :=
  checkpoint ← on_world (apply_decision clock id_factory decision);
  match checkpoint with
  | None => mret tt
  | Some c => record APPROVAL_RESOLVED c (Some step_id) None true ;; commit_execution
  end.

(** ** The loop of [run] *)

(** One turn: [None] to go on, a result to yield. *)
Definition take (decision : Decision_t) : M exn machine (option RuntimeResult.t) :=
  match decision with
  | StepReady b step_id step_run_id attempt _ skill_ref resolved_inputs _ =>
      execute_step decision (step_request_of b step_id step_run_id attempt skill_ref resolved_inputs)
  | WaitingApproval _ step_id step_run_id attempt _ policy resolved_inputs _ =>
      r ← wait_for_approval decision step_id step_run_id attempt policy resolved_inputs; mret (Some r)
  | RetryScheduled _ step_id _ current_attempt _ _ _ _ _ =>
      r ← schedule_retry decision step_id current_attempt; mret (Some r)
  | WorkflowCompleted _ _ | WorkflowFailed _ _ _ _ _ _ | WorkflowCancelled _ _ _ =>
      r ← apply_terminal_decision decision; mret (Some r)
  | ApprovalCompleted _ step_id _ _ _ => complete_approval decision step_id ;; mret None
  | NoAction _ => r ← runtime_result; mret (Some r)
  end.

Fixpoint decision_loop (fuel : nat) : M exn machine RuntimeResult.t :=
  match fuel with
  | O => runtime_error ("Execution exceeded deterministic limit of "
                        +:+ int_str (Z.of_nat max_decisions) +:+ " decisions")
  | S fuel' =>
      decision ← reading decide;
      yielded ← take decision;
      match yielded with
      | Some r => mret r
      | None => decision_loop fuel'
      end
  end.

(** ** Resuming *)

Definition is_terminal_run (m : machine) : bool :=
  WorkflowRunStatus.is_terminal (WorkflowRun.status (ExecutionState.workflow_run (rt_execution m))).

(** [_prepare_resume] for a run that waits for an approval. *)
Definition resume_waiting (outcome : option ApprovalOutcome.t) (outputs : option mapping) :
    M exn machine (option RuntimeResult.t) :=
  match outcome with
  | None => ensure_pending_approval ;; r ← runtime_result; mret (Some r)
  | Some outcome =>
      let approved := match outcome with ApprovalOutcome.APPROVED => true | _ => false end in
      (if approved then mret tt
       else c ← on_world (create_checkpoint clock id_factory);
            m ← get_state;
            record BEFORE_TERMINAL c (waiting_step_id (rt_execution m)) None true) ;;
      c ← latest;
      decision ← on_world (resolve_approval clock id_factory c outcome outputs);
      record_latest (if approved then APPROVAL_RESOLVED else TERMINAL) (decision_step_id decision) None ;;
      commit_execution ;;
      m ← get_state;
      if is_terminal_run m then r ← runtime_result; mret (Some r) else mret None
  end.

(** The RECOVERED boundary of a resumed execution, and its commit. *)
Definition record_recovered : M exn machine unit :=
  recovered ← reading active_or_ready_step;
  record_latest RECOVERED (StepRun.step_id <$> recovered) (StepRun.attempt <$> recovered) ;;
  commit_execution.

(** The [except ExecutionNotResumableError] clause. *)
Definition recovery_refused (active : StepRun.t) (e : exn) : M exn machine (option RuntimeResult.t) :=
  m ← get_state;
  if is_terminal_run m then
    record_latest TERMINAL (Some (StepRun.step_id active)) (Some (StepRun.attempt active)) ;;
    m ← get_state;
    emit_event WORKFLOW_FAILED
      [("status", status_value m);
       ("error_code", str_or_none (WorkflowRun.error_code (ExecutionState.workflow_run (rt_execution m))));
       ("failed_step_id", VStr (StepRun.step_id active))] ERROR (Some (StepRun.id active)) ;;
    r ← commit_and_yield;
    mret (Some r)
  else raise e.

Definition resume_active (active : StepRun.t) (c : Checkpoint.t) :
    M exn machine (option RuntimeResult.t) :=
  fun m =>
    match on_world (resume_and_decide clock id_factory c) m with
    | (Ok _, m') => (record_recovered ;; mret None) m'
    | (Err e, m') =>
        if is_instance (exn_kind e) ExecutionNotResumableError then recovery_refused active e m'
        else (Err e, m')
    end.

(** [_prepare_resume] for a running run whose step was active when the process
    stopped. *)
Definition recover_active (active : StepRun.t) : M exn machine (option RuntimeResult.t) :=
  step ← reading (fun x => Workflow.get_step (ExecutionState.workflow x) (StepRun.step_id active));
  (if WorkflowStep.max_attempts step <=? StepRun.attempt active then
     record_latest BEFORE_TERMINAL (Some (StepRun.step_id active)) (Some (StepRun.attempt active))
   else mret tt) ;;
  c ← latest;
  resume_active active c.

(** [_prepare_resume] *)
Definition prepare_resume (outcome : option ApprovalOutcome.t) (outputs : option mapping) :
    M exn machine (option RuntimeResult.t) :=
  m ← get_state;
  match WorkflowRun.status (ExecutionState.workflow_run (rt_execution m)) with
  | WorkflowRunStatus.WAITING_FOR_APPROVAL => resume_waiting outcome outputs
  | WorkflowRunStatus.RETRY_SCHEDULED =>
      c ← latest;
      on_world (resume_and_decide clock id_factory c) ;;
      record_recovered ;;
      mret None
  | WorkflowRunStatus.RUNNING =>
      current ← reading ExecutionState.current_step_runs;
      match List.filter (fun f => bool_decide (StepRun.status f.2 = StepRunStatus.RUNNING)) current with
      | active :: _ => recover_active active.2
      | [] => mret None
      end
  | WorkflowRunStatus.WAITING_FOR_INPUT | WorkflowRunStatus.INITIALIZING | WorkflowRunStatus.CANCELLING =>
      r ← runtime_result; mret (Some r)
  | _ => mret None
  end.

(** ** [run] *)

(** What [run] is given: a new execution or the identifier of a stored run. *)
Inductive run_target := NewExecution (x : ExecutionState.t) | RunId (workflow_run_id : string).

(** The runtime between two runs. *)
Record process := Process {
  pr_environment : env;
  pr_observed : observed;
  pr_versions : dict string (option Z)
}.

Definition pr_unit (p : process) : unit_of_work := uow (obs_session (pr_observed p)).

Definition remember (run_id : string) (version : option Z) : M exn process unit :=
  modify (fun p => Process (pr_environment p) (pr_observed p) (Dict.set run_id version (pr_versions p))).

(** [load_execution] *)
Definition load_execution (run_id : string) : M exn process ExecutionState.t :=
  p ← get_state;
  found ← lift_result (WorkflowRepository.get run_id (workflows (pr_unit p)));
  match found with
  | None => runtime_error ("WorkflowRun " +:+ run_id +:+ " was not found")
  | Some x =>
      let checkpoints_ := CheckpointRepository.list run_id (checkpoints (pr_unit p)) in
      let execution := ExecutionState.mk (ExecutionState.workflow x) (ExecutionState.workflow_run x)
                         (ExecutionState.agent_session x) (ExecutionState.step_runs x)
                         (ExecutionState.checkpoints x ++ checkpoints_) in
      if bool_decide (List.length (ExecutionState.checkpoints execution) = 0%nat) then
        runtime_error ("WorkflowRun " +:+ run_id +:+ " has no persisted checkpoint")
      else
        c ← lift_result (ExecutionState.latest_checkpoint execution);
        lift_result (Checkpoint.verify_integrity c) ;;
        match WorkflowRepository.get_version run_id (workflows (pr_unit p)) with
        | None => runtime_error ("WorkflowRun " +:+ run_id +:+ " has no persistence version")
        | Some version => remember run_id (Some version) ;; mret execution
        end
  end.

(** [_resolve_execution] *)
Definition resolve_execution (target : run_target) : M exn process (ExecutionState.t * bool) :=
  match target with
  | RunId run_id => x ← load_execution run_id; mret (x, false)
  | NewExecution x =>
      let run_id := WorkflowRun.id (ExecutionState.workflow_run x) in
      p ← get_state;
      match WorkflowRepository.get_version run_id (workflows (pr_unit p)) with
      | Some _ => y ← load_execution run_id; mret (y, false)
      | None => remember run_id None ;; mret (x, true)
      end
  end.

(** The start of a created run. *)
Definition start_run : M exn machine unit :=
  checkpoint ← on_world (start_execution clock id_factory);
  m ← get_state;
  let w := ExecutionState.workflow (rt_execution m) in
  emit_event WORKFLOW_STARTED
    [("status", status_value m); ("workflow_id", VStr (Workflow.id w));
     ("workflow_version", VStr (Workflow.version w))] INFO None ;;
  record INITIALIZED checkpoint None None true ;;
  commit_execution.

(** The beginning of [run]: what a new or legacy execution lacks is recorded
    and committed. *)
Definition initialize (is_new : bool) : M exn machine unit :=
  m ← get_state;
  let run := ExecutionState.workflow_run (rt_execution m) in
  let memory_was_empty :=
    latest_revision_number (WorkflowRun.project_id run) (WorkflowRun.id run) (memory (rt_unit m)) =? 0 in
  let checkpoints_were_empty :=
    bool_decide (List.length (CheckpointRepository.list_records (WorkflowRun.id run) (checkpoints (rt_unit m))) = 0%nat) in
  initialize_memory ;;
  record_baseline ;;
  if is_new || memory_was_empty || checkpoints_were_empty then commit_execution else mret tt.

(** [run] once the execution is resolved. *)
Definition run_execution (is_new : bool) (outcome : option ApprovalOutcome.t) (outputs : option mapping) :
    M exn machine RuntimeResult.t :=
  initialize is_new ;;
  m ← get_state;
  if is_terminal_run m then runtime_result
  else
    (if bool_decide (WorkflowRun.status (ExecutionState.workflow_run (rt_execution m)) = WorkflowRunStatus.CREATED)
     then start_run else mret tt) ;;
    prepared ← prepare_resume outcome outputs;
    match prepared with
    | Some r => mret r
    | None => decision_loop max_decisions
    end.

Definition start_machine (x : ExecutionState.t) (p : process) : machine :=
  Machine (World (pr_environment p) x) (pr_observed p) (pr_versions p).
Definition stop_machine (m : machine) : process :=
  Process (environment (rt_world m)) (rt_observed m) (rt_versions m).

(** A computation on the execution the process has resolved. *)
Definition with_execution {A} (x : ExecutionState.t) (c : M exn machine A) : M exn process A :=
  fun p => let '(r, m) := c (start_machine x p) in (r, stop_machine m).

Definition run (target : run_target) (outcome : option ApprovalOutcome.t) (outputs : option mapping) :
    M exn process RuntimeResult.t :=
  resolved ← resolve_execution target;
  with_execution resolved.1 (run_execution resolved.2 outcome outputs).
End operations.
End runtime.

(** [AgentRuntime.__init__] *)
Definition check_limits (max_decisions approval_ttl : Z) : res unit :=
  _ ← fail_if (max_decisions <=? 0) (Exn PyValueError "max_decisions must be positive");
  fail_if (approval_ttl <=? 0) (Exn PyValueError "approval_ttl must be positive").
