(* ===== verification/RuntimeInvariants.v ===== *)
(** The invariant of the agent runtime: the session is well formed, the rows
    of executions are those of well-numbered executions, and every skill call
    in the log is of an attempt that the database, the unit of work and the
    execution in memory all have as started. Coordinator operations, repository
    calls and commits keep it. *)
From S2P Require Import Prelude Isolation Errors Text Float Value Lexical SkillSchema Sha256 Lifecycle Workflow Checkpoint Coordinator CoordinatorFacts Approval Events Records RecordFacts Provider Budget BudgetFacts Dict Tables TableFacts Repositories RepositoryFacts Manifests UnitOfWork UnitOfWorkFacts CommitFacts RetryPolicy EngineModels References Validator Scheduler Engine EngineCoordinator EngineCoordinatorFacts Skills Calendar AgentRuntime.
Local Open Scope string_scope.
Local Open Scope list_scope.
Local Open Scope Z_scope.

(** ** What the coordinator does to an execution *)

Section conjunction.
Context {A : Type} (R S : relation ExecutionState.t).

Definition both (x x' : ExecutionState.t) : Prop := R x x' /\ S x x'.

#[export] Instance both_preorder : PreOrder R -> PreOrder S -> PreOrder both.
Proof. intros HR HS. split; red; [intros x; split; reflexivity|]. intros x y z [] []. split; etrans; done. Qed.

Lemma respects_both (m : M exn world A) : respects R m -> respects S m -> respects both m.
Proof. intros HR HS w. split; auto. Qed.
End conjunction.

Definition same_identity (x x' : ExecutionState.t) : Prop := execution_key x' = execution_key x.

#[export] Instance same_identity_preorder : PreOrder same_identity.
Proof. split; red; unfold same_identity; congruence. Qed.

Definition sound (x : ExecutionState.t) : Prop := valid_entities x /\ attempts_ok x.

(** The history grows, and the execution stays sound and keeps its identity. *)
Definition moved : relation ExecutionState.t := both (both evolves same_identity) (keeps sound).

#[export] Instance moved_preorder : PreOrder moved.
Proof. unfold moved. typeclasses eauto. Qed.

Section coordinator.
Context (clock : nat -> datetime) (id_factory : nat -> string -> string).

Lemma identity_primitive : primitive_steps clock id_factory same_identity.
Proof.
  split.
  - intros tg at_ rs cd. apply respects_edit; [typeclasses eauto|]. intros x x'. rewrite bind_Ok.
    intros (r & Hr & [= <-]). unfold same_identity, execution_key. cbn.
    unfold WorkflowRun.transition_to in Hr. case_in Hr; [done|]. cbn zeta in Hr.
    rewrite then_Ok in Hr. by destruct Hr as [_ [= <-]].
  - intros tg at_. apply respects_edit; [typeclasses eauto|]. intros x x'. rewrite bind_Ok.
    by intros (a & _ & [= <-]).
  - intros i tg at_ inp o cd. apply respects_edit; [typeclasses eauto|]. intros x x' H.
    destruct (ExecutionState.step_runs x !! i); [|done]. rewrite bind_Ok in H. by destruct H as (s' & _ & [= <-]).
  - intros o. apply respects_edit; [typeclasses eauto|]. by intros x x' [= <-].
  - apply respects_checkpoint; [typeclasses eauto|done].
Qed.

Lemma identity_retry f sid ts : respects same_identity (append_retry clock id_factory f sid ts).
Proof.
  unfold append_retry, append_step_run. pose proof (ps_checkpoint _ _ _ identity_primitive).
  assert (forall s, respects same_identity (append_step_run s)).
  { intros s. apply respects_edit; [typeclasses eauto|]. by intros x x' [= <-]. }
  respects_tac.
Qed.

Lemma operation_moves op : respects moved (perform clock id_factory op).
Proof.
  repeat apply respects_both.
  - apply simple_operations; [typeclasses eauto|apply evolves_primitive|apply evolves_retry].
  - apply simple_operations; [typeclasses eauto|apply identity_primitive|apply identity_retry].
  - intros w [Hv Ha]. split; [|by apply attempts_operation].
    revert Hv. apply (simple_operations clock id_factory (keeps valid_entities));
      [apply valid_primitive|apply valid_retry].
Qed.

Lemma start_moves : respects moved (start_execution clock id_factory).
Proof. apply respects_discarded, (operation_moves OpStart). Qed.
Lemma update_moves i t o e r : respects moved (update_step_state clock id_factory i t o e r).
Proof. apply respects_discarded, (operation_moves (OpUpdate i t o e r)). Qed.
Lemma checkpoint_moves : respects moved (create_checkpoint clock id_factory).
Proof. apply respects_discarded, (operation_moves OpCheckpoint). Qed.
Lemma apply_moves d : respects moved (apply_decision clock id_factory d).
Proof. apply respects_apply; [typeclasses eauto|apply operation_moves]. Qed.
Lemma approval_moves c o out : respects moved (resolve_approval clock id_factory c o out).
Proof. apply respects_resolve_approval; [typeclasses eauto|apply operation_moves]. Qed.
Lemma resume_moves c : respects moved (resume_and_decide clock id_factory c).
Proof. apply respects_resume_and_decide; [typeclasses eauto|apply operation_moves]. Qed.
End coordinator.

(** ** Attempts that have started *)

Definition started (s : StepRunStatus.t) : bool :=
  match s with StepRunStatus.CREATED | StepRunStatus.READY => false | _ => true end.

Lemma started_moves s s' : rtc (moves (E := StepRun.t) (A := step_call)) s s' ->
  started s = true -> started s' = true.
Proof.
  intros H Hs. induction H as [s|s s1 s2 H1 _ IH]; [done|]. apply IH. clear IH.
  unfold moves in H1. cbn in H1. destruct s, s1; cbn in *; try done; set_solver.
Qed.

(** A step, an attempt number and the status of the attempt. *)
Abbreviation attempt_entry := (string * Z * StepRunStatus.t)%type.

Definition entry (s : StepRun.t) : attempt_entry := (StepRun.step_id s, StepRun.attempt s, StepRun.status s).
Definition entries (x : ExecutionState.t) : list attempt_entry := entry <$> ExecutionState.step_runs x.
Definition row_entries (r : WorkflowExecutionRecord.t) : list attempt_entry :=
  (fun s => (StepRunRecord.step_id s, StepRunRecord.attempt s, StepRunRecord.status s))
    <$> WorkflowExecutionRecord.step_runs r.

Definition has_started (key : string * Z) (l : list attempt_entry) : Prop :=
  exists status, (key, status) ∈ l /\ started status = true.

Lemma entries_evolve key x x' : evolves x x' -> has_started key (entries x) -> has_started key (entries x').
Proof.
  intros Hev (st & Hin & Hst). unfold entries in Hin. apply list_elem_of_fmap in Hin as (s & Hs & Hin).
  apply list_elem_of_lookup in Hin as [i Hi]. destruct (ev_steps _ _ Hev _ _ Hi) as (s' & Hi' & H).
  destruct H as (_ & Hsid & Ha & _ & Hm & _). exists (StepRun.status s'). split.
  - apply list_elem_of_fmap. exists s'. split; [|by eapply list_elem_of_lookup_2].
    unfold entry in *. rewrite Hsid, Ha. by injection Hs as -> _.
  - eapply started_moves; [exact Hm|]. by injection Hs as _ <-.
Qed.

(** ** Rows of executions *)

Lemma step_record_entry s rec : StepRunRecord.from_domain s = Ok rec ->
  (StepRunRecord.step_id rec, StepRunRecord.attempt rec, StepRunRecord.status rec) = entry s.
Proof.
  unfold StepRunRecord.from_domain, StepRunRecord.post_init. rewrite bind_Ok. intros (i & _ & H).
  rewrite bind_Ok in H. by destruct H as (o & _ & [= <-]).
Qed.

Lemma row_entries_of x v r : WorkflowExecutionRecord.from_execution x v = Ok r -> row_entries r = entries x.
Proof.
  unfold WorkflowExecutionRecord.from_execution. rewrite bind_Ok. intros (run & _ & H).
  rewrite bind_Ok in H. destruct H as (a & _ & H). rewrite bind_Ok in H. destruct H as (l & Hl & H).
  unfold WorkflowExecutionRecord.post_init in H. rewrite then_Ok in H. destruct H as [_ [= <-]].
  unfold row_entries, entries. cbn. apply map_ok_Forall2 in Hl.
  induction Hl as [|s rec l l' Hs _ IH]; [done|]. rewrite !fmap_cons. f_equal; [by apply step_record_entry|done].
Qed.

(** The row of a sound execution. *)
Definition row_ok (r : WorkflowExecutionRecord.t) : Prop :=
  exists x v, sound x /\ WorkflowExecutionRecord.from_execution x v = Ok r.

Definition rows_ok (d : dict string WorkflowExecutionRecord.t) : Prop :=
  forall k r, Dict.get k d = Some r -> row_ok r.

(** What an execution and its thawed copy share decides the numbering. *)
Lemma attempts_ok_thawed x cps : attempts_ok x -> attempts_ok (reloaded x cps).
Proof.
  intros H. assert (forall sid, attempts (reloaded x cps) sid = attempts x sid) as Hat.
  { intros sid. apply attempts_key. cbn. by rewrite <- list_fmap_compose. }
  split; cbn [reloaded ExecutionState.workflow ExecutionState.workflow_run ExecutionState.step_runs].
  - apply H.
  - intros sid. rewrite Hat. apply H.
  - intros step. rewrite Hat. apply H.
  - intros s (s0 & -> & Hs)%list_elem_of_fmap. exact (ao_known _ H s0 Hs).
  - intros sid. rewrite Hat. apply H.
  - intros s (s0 & -> & Hs)%list_elem_of_fmap. exact (ao_keys _ H s0 Hs).
  - intros i j s s'. rewrite !list_lookup_fmap, !fmap_Some. intros (s0 & Hi & ->) (s1 & Hj & ->).
    exact (ao_failed _ H i j s0 s1 Hi Hj).
Qed.

Lemma to_execution_valid r cps x : WorkflowExecutionRecord.to_execution r cps = Ok x -> valid_entities x.
Proof.
  unfold WorkflowExecutionRecord.to_execution. rewrite bind_Ok. intros (run & Hr & H).
  rewrite bind_Ok in H. destruct H as (a & Ha & H). rewrite bind_Ok in H. destruct H as (l & Hl & [= <-]).
  split; cbn; [by eapply run_post_init_valid|by eapply session_post_init_valid|].
  apply map_ok_Forall2 in Hl. intros s Hs.
  apply list_elem_of_lookup in Hs as [i Hi]. destruct (Forall2_lookup_r _ _ _ _ _ Hl Hi) as (rec & _ & Hrec).
  by eapply step_post_init_valid.
Qed.

(** A row that loads gives a sound execution with the row's entries. *)
Lemma row_loads r x : row_ok r -> WorkflowRepository.to_execution r = Ok x ->
  sound x /\ entries x = row_entries r /\ execution_key x = WorkflowRepository.key_of r /\
  run_id_of x = WorkflowRunRecord.id (WorkflowRepository.run_of r).
Proof.
  intros (x0 & v & [Hv Ha] & Hr) Hx. unfold WorkflowRepository.to_execution in Hx.
  pose proof (to_execution_valid _ _ _ Hx) as Hvx.
  rewrite (execution_round_trip _ _ _ [] Hv Hr) in Hx. injection Hx as <-.
  apply from_execution_fields in Hr as Hf. destruct Hf as (Hid & Hkey & _).
  split_and!; [split; [done|by apply attempts_ok_thawed]| |by rewrite Hkey|by rewrite Hid].
  rewrite (row_entries_of _ _ _ Hr). unfold entries. cbn. by rewrite <- list_fmap_compose.
Qed.

(** ** Computations that relate the runtime before and after *)

Section along.
Context {EN : Entities} {P : Type} (R : relation (@machine EN P)) `{!PreOrder R}.

(** [c] moves the runtime along [R], whether it returns or raises. *)
Definition along {A} (c : M exn machine A) : Prop := forall m, R m (c m).2.

Lemma along_ret {A} (a : A) : along (mret a).
Proof. intros m. reflexivity. Qed.
Lemma along_raise {A} e : along (A := A) (raise e).
Proof. intros m. reflexivity. Qed.
Lemma along_lift {A} (r : res A) : along (lift_result r).
Proof. intros m. reflexivity. Qed.
Lemma along_get : along get_state.
Proof. intros m. reflexivity. Qed.
Lemma along_reading {A} (f : ExecutionState.t -> res A) : along (reading f).
Proof. intros [w o v]. reflexivity. Qed.

Lemma along_bind {A B} (c : M exn machine A) (f : A -> M exn machine B) :
  along c -> (forall a, along (f a)) -> along (c ≫= f).
Proof.
  intros Hc Hf m. specialize (Hc m). unfold mbind, M_bind.
  destruct (c m) as [[a|e] m1]; [|done]. etrans; [exact Hc|]. apply (Hf a m1).
Qed.

Lemma along_each {A} (f : A -> M exn machine unit) l : (forall a, along (f a)) -> along (for_each f l).
Proof. intros Hf. induction l as [|a l IH]; [apply along_ret|]. by apply along_bind; [|intros _]. Qed.
End along.

(** Descend through the binds, branches and loops of an operation. *)
Ltac along_step :=
  first
    [ apply along_ret; typeclasses eauto
    | apply along_raise; typeclasses eauto
    | apply along_lift; typeclasses eauto
    | apply along_get; typeclasses eauto
    | apply along_reading; typeclasses eauto
    | apply along_each; [typeclasses eauto|intros ?]
    | solve [eauto with reagent]
    | apply along_bind; [typeclasses eauto| |intros ?]
    | case_goal ].
Ltac along_tac := repeat along_step.

(** ** The invariant *)

Section invariant.
Context {EN : Entities} {P : Type}.
Implicit Types (m : @machine EN P) (s : session).

Definition session_ok (s : session) : Prop :=
  database_ok (shared s) /\ exists b, unit_staged b (uow s) /\ db_older b (shared s).

Definition call_run (c : skill_call P) : string := SkillExecutionContext.workflow_run_id (call_context c).

(** The step and the attempt a skill was called for. *)
Definition call_attempt (c : skill_call P) : string * Z :=
  (SkillExecutionContext.step_id (call_context c), SkillExecutionContext.attempt (call_context c)).

Definition call_key (c : skill_call P) : string * (string * Z) := (call_run c, call_attempt c).

(** When the skill was called the database already had the attempt as running,
    and the boundary before the call. *)
Definition announced (c : skill_call P) : Prop :=
  (exists r, Dict.get (call_run c) (db_executions (call_database c)) = Some r /\
     (call_attempt c, StepRunStatus.RUNNING) ∈ row_entries r) /\
  exists record, record ∈ Stream.at_key (call_run c) (db_checkpoint_records (call_database c)) /\
    CheckpointRecord.boundary record = BEFORE_SKILL /\
    CheckpointRecord.step_id record = Some (call_attempt c).1 /\
    CheckpointRecord.attempt record = Some (call_attempt c).2.

(** A table of executions has the attempt of a call as started. *)
Definition recorded (d : dict string WorkflowExecutionRecord.t) (c : skill_call P) : Prop :=
  exists r, Dict.get (call_run c) d = Some r /\ has_started (call_attempt c) (row_entries r).

Record journal_ok (s : session) (calls : list (skill_call P)) : Prop := {
  j_session : session_ok s;
  j_rows : rows_ok (db_executions (shared s));
  j_staged_rows : rows_ok (Versioned.records (workflows (uow s)));
  j_unique : NoDup (call_key <$> calls);
  j_announced c : c ∈ calls -> announced c;
  j_recorded c : c ∈ calls -> recorded (db_executions (shared s)) c;
  j_staged c : c ∈ calls -> recorded (Versioned.records (workflows (uow s))) c
}.

Record runtime_ok (m : @machine EN P) : Prop := {
  m_journal : journal_ok (rt_session m) (rt_calls m);
  m_sound : sound (rt_execution m);
  m_key r : Dict.get (run_id_of (rt_execution m)) (db_executions (rt_database m)) = Some r ->
    WorkflowRepository.key_of r = execution_key (rt_execution m);
  m_staged_key : same_key (workflows (rt_unit m)) (rt_execution m);
  m_started c : c ∈ rt_calls m -> call_run c = run_id_of (rt_execution m) ->
    has_started (call_attempt c) (entries (rt_execution m))
}.

(** The invariant, as the relation of its preservation. *)
Definition preserved : relation (@machine EN P) := fun m m' => runtime_ok m -> runtime_ok m'.

#[export] Instance preserved_preorder : PreOrder preserved.
Proof. split; unfold preserved; red; naive_solver. Qed.

(** A step of the execution in memory. *)
Lemma preserved_world {A} (c : M exn Coordinator.world A) : respects moved c -> along preserved (on_world c).
Proof.
  intros Hc m [Hj Hs Hk Hu Hst]. unfold on_world, zoom. specialize (Hc (rt_world m)).
  destruct (c (rt_world m)) as [r w']. cbn in Hc |- *. destruct Hc as [[Hev Hid] Hks].
  pose proof (ev_run_id _ _ Hev) as Hrun. split; cbn.
  - done.
  - by apply Hks.
  - unfold rt_execution in *. cbn. rewrite Hrun, Hid. exact Hk.
  - unfold same_key, rt_execution in *. cbn. rewrite Hrun, Hid. exact Hu.
  - intros c0 Hc0 Hr. eapply entries_evolve; [exact Hev|]. apply Hst; [done|]. by rewrite Hr.
Qed.

(** A call of a repository that leaves the executions alone. *)
Lemma preserved_uow {A} (c : M exn unit_of_work A) :
  (forall u r u', c u = (r, u') -> local_step u u' /\ workflows u' = workflows u) -> along preserved (on_uow c).
Proof.
  intros Hc m [Hj Hs Hk Hu Hst]. unfold on_uow, on_session, on_observed, on_unit, zoom.
  fold (rt_session m). fold (rt_unit m).
  destruct (c (rt_unit m)) as [r u'] eqn:Hr. destruct (Hc _ _ _ Hr) as [Hl Hw].
  cbn.
  destruct Hj as [[Hdb (b & Hb & Ho)] Hrows Hst_rows Hun Han Hrec Hstg]. split; try done.
  - split; try done.
    + split; [done|]. exists b. split; [by eapply local_step_ok|done].
    + cbn. by rewrite Hw.
    + cbn. by rewrite Hw.
  - unfold same_key, rt_unit in *. cbn. by rewrite Hw.
Qed.

(** ** Commits *)

(** Everything staged is dropped. *)
Definition refreshed (m : @machine EN P) : machine :=
  Machine (rt_world m) (Observed (Session (rt_database m) (refresh (rt_database m))) (rt_calls m)) (rt_versions m).

Lemma refreshed_runtime_ok m : runtime_ok m -> runtime_ok (refreshed m).
Proof.
  intros [[[Hdb Hb] Hrows Hst_rows Hun Han Hrec Hstg] Hs Hk Hu Hst]. split; try done. split; try done.
  split; [done|]. by apply refreshed_ok.
Qed.

(** Nothing is staged, and the database has the execution in memory at the
    version the runtime remembers. *)
Definition committed (m : @machine EN P) : Prop :=
  rt_unit m = refresh (rt_database m) /\
  exists r v, Dict.get (run_id_of (rt_execution m)) (db_executions (rt_database m)) = Some r /\
    WorkflowExecutionRecord.from_execution (rt_execution m) v = Ok r /\
    Dict.get (run_id_of (rt_execution m)) (rt_versions m) = Some (Some v).

Lemma save_execution_Ok x e (t t' : WorkflowRepository.t) n :
  WorkflowRepository.save x e t = (Ok n, t') -> exists r,
    WorkflowExecutionRecord.from_execution x n = Ok r /\
    Versioned.records t' = Dict.set (run_id_of x) r (Versioned.records t) /\
    Versioned.dirty t' = set_add (run_id_of x) (Versioned.dirty t).
Proof.
  intros H. unfold WorkflowRepository.save, mbind, M_bind, get_state, lift_result, mret, M_ret in H.
  destruct (Versioned.next_version _ _ _ _ _ _ _) as [v|err]; [|done].
  unfold Versioned.stage, mbind, M_bind, modify, lift_result in H.
  destruct (WorkflowExecutionRecord.from_execution x v) as [r|err] eqn:Hr; [|done].
  injection H as <- <-. by exists r.
Qed.

(** The executions a commit leaves: staged where dirty. *)
Lemma committed_executions (u : unit_of_work) db db' k : consistent u -> core db' = published_core u db ->
  Dict.get k (db_executions db') =
    (if base.decide (k ∈ Versioned.dirty (workflows u)) then Dict.get k (Versioned.records (workflows u))
    else Dict.get k (db_executions db)).
Proof. intros Hc [= -> _ _ _ _ _ _]. apply get_published, Hc. Qed.

(** The unit of work once the execution in memory is saved in it, whatever else
    is staged with it. *)
Record stored m (n : Z) (u : unit_of_work) : Prop := {
  sv_staged : exists b, unit_staged b u /\ db_older b (rt_database m);
  sv_row : exists r, WorkflowExecutionRecord.from_execution (rt_execution m) n = Ok r /\
    Versioned.records (workflows u) = Dict.set (run_id_of (rt_execution m)) r (Versioned.records (workflows (rt_unit m)));
  sv_dirty : run_id_of (rt_execution m) ∈ Versioned.dirty (workflows u)
}.

(** The same, when nothing else is. *)
Record saved m (n : Z) (u : unit_of_work) : Prop := {
  sv_stored : stored m n u;
  sv_checkpoints : checkpoints u = checkpoints (rt_unit m)
}.

Lemma stored_step m n u u' : stored m n u -> local_step u u' -> workflows u' = workflows u -> stored m n u'.
Proof.
  intros [(b & Hb & Ho) Hr Hd] Hl Hw. split; [exists b; split; [by eapply local_step_ok|done]|by rewrite Hw..].
Qed.

Lemma save_staged m e n u : runtime_ok m ->
  on_workflows (WorkflowRepository.save (rt_execution m) e) (rt_unit m) = (Ok n, u) -> saved m n u.
Proof.
  intros Hm H. destruct (j_session _ _ (m_journal _ Hm)) as [_ (b & Hb & Ho)]. fold (rt_unit m) in Hb. pose proof H as Hz.
  apply zoom_inv in Hz as (t' & Hsave & ->).
  destruct (save_execution_Ok _ _ _ _ _ Hsave) as (r & Hr & Hrec & Hd). split; [split|].
  - exists b. split; [|done]. eapply local_step_ok; [done|]. by eapply save_execution; [apply Hm|].
  - by exists r.
  - cbn. rewrite Hd. apply elem_set_add. auto.
  - done.
Qed.

(** The rows of a table with the execution in memory stored in it. *)
Lemma stored_rows m n r (d : dict string WorkflowExecutionRecord.t) : runtime_ok m ->
  WorkflowExecutionRecord.from_execution (rt_execution m) n = Ok r -> rows_ok d ->
  rows_ok (Dict.set (run_id_of (rt_execution m)) r d).
Proof.
  intros Hm Hr Hd k r'. rewrite get_set. case_decide; [|apply Hd]. intros [= <-].
  exists (rt_execution m), n. split; [apply Hm|done].
Qed.

Lemma stored_recorded m n r (d : dict string WorkflowExecutionRecord.t) c : runtime_ok m ->
  WorkflowExecutionRecord.from_execution (rt_execution m) n = Ok r -> c ∈ rt_calls m -> recorded d c ->
  recorded (Dict.set (run_id_of (rt_execution m)) r d) c.
Proof.
  intros Hm Hr Hc (r' & Hr' & Hs). unfold recorded. rewrite get_set. case_decide as Hk; [|eauto].
  exists r. split; [done|]. rewrite (row_entries_of _ _ _ Hr). by apply (m_started _ Hm).
Qed.

(** What a successful commit makes of a saved execution. *)
Lemma commit_saved m n u v : runtime_ok m -> stored m n u ->
  (exists e, commit (Session (rt_database m) u) = (Err e, Session (rt_database m) u)) \/
  exists db, commit (Session (rt_database m) u) = (Ok tt, Session db (refresh db)) /\
    core db = published_core u (rt_database m) /\ db_older (rt_database m) db /\
    let m' := Machine (rt_world m) (Observed (Session db (refresh db)) (rt_calls m)) v in
    runtime_ok m' /\ exists r, WorkflowExecutionRecord.from_execution (rt_execution m) n = Ok r /\
      Dict.get (run_id_of (rt_execution m)) (db_executions db) = Some r.
Proof.
  intros Hm [(b & Hb & Ho) (r & Hr & Hrec) Hd].
  pose proof (m_journal _ Hm) as [[Hdb _] Hrows Hst_rows Hun Han Hrecd Hstg].
  destruct (commit_cases _ _ _ Hb Hdb Ho) as [?|(db & Hc & _ & _ & Hcore & Hok & Hold)]; [by left|right].
  exists db. split; [done|]. split; [done|]. split; [done|]. cbv zeta.
  pose proof (fun k => committed_executions _ _ _ k (u_consistent _ _ Hb) Hcore) as Hget.
  assert (Hrow : Dict.get (run_id_of (rt_execution m)) (db_executions db) = Some r).
  { rewrite Hget, decide_True, Hrec, get_set_eq by done. done. }
  assert (Hrs : rows_ok (db_executions db)).
  { intros k r'. rewrite Hget. case_decide; [|by apply Hrows]. rewrite Hrec. by eapply stored_rows. }
  assert (Hcs : forall c, c ∈ rt_calls m -> recorded (db_executions db) c).
  { intros c Hin. unfold recorded. rewrite Hget. case_decide; [|by apply Hrecd].
    rewrite Hrec. eapply stored_recorded; [done..|]. by apply Hstg. }
  assert (Hkey : forall r', Dict.get (run_id_of (rt_execution m)) (db_executions db) = Some r' ->
    WorkflowRepository.key_of r' = execution_key (rt_execution m)).
  { intros r'. rewrite Hrow. intros [= <-]. by apply from_execution_fields in Hr as (_ & ? & _). }
  split; [|by exists r]. split; cbn; [|apply Hm|exact Hkey|exact Hkey|apply Hm].
  split; try done. split; [done|]. by apply refreshed_ok.
Qed.
End invariant.

(** ** Notes: events, checkpoints, memory, approvals and artifacts *)

Section notes.
Context {EN : Entities} {P : Type}.
Implicit Types (m : @machine EN P).

(** Only repositories other than that of executions are called, and the
    checkpoint streams are extended. *)
Record noted (m m' : @machine EN P) : Prop := {
  n_execution : rt_execution m' = rt_execution m;
  n_calls : rt_calls m' = rt_calls m;
  n_database : rt_database m' = rt_database m;
  n_workflows : workflows (rt_unit m') = workflows (rt_unit m);
  n_versions : rt_versions m' = rt_versions m;
  n_records : extends (Stream.entries (checkpoints (rt_unit m))) (Stream.entries (checkpoints (rt_unit m')))
}.

#[export] Instance noted_preorder : PreOrder noted.
Proof.
  split; red; [by intros m; split|]. intros x y z [] []. split; try congruence. etrans; done.
Qed.

Definition aside : relation (@machine EN P) := fun m m' => preserved m m' /\ noted m m'.

#[export] Instance aside_preorder : PreOrder aside.
Proof. split; red; [by split|]. intros x y z [] []. split; etrans; done. Qed.

Lemma aside_preserved {A} (c : M exn machine A) : along aside c -> along preserved c.
Proof. intros H m. apply (H m). Qed.

Lemma aside_env {A} (c : M exn env A) : along aside (on_world (on_env c)).
Proof.
  intros m. split; [apply preserved_world; apply respects_env; typeclasses eauto|].
  unfold on_world, on_env, zoom. destruct (c _) as [r e]. by destruct m as [[] ? ?].
Qed.

Lemma aside_now (clock : nat -> datetime) : along aside (on_world (now clock)).
Proof. apply aside_env. Qed.

(** A call of a repository other than that of executions. *)
Definition touches {A} (c : M exn unit_of_work A) : Prop := forall u r u', c u = (r, u') ->
  local_step u u' /\ workflows u' = workflows u /\
  extends (Stream.entries (checkpoints u)) (Stream.entries (checkpoints u')).

Lemma aside_uow {A} (c : M exn unit_of_work A) : touches c -> along aside (on_uow c).
Proof.
  intros Hc m. split.
  - apply preserved_uow. intros u r u' H. by destruct (Hc _ _ _ H) as (? & ? & _).
  - unfold on_uow, on_session, on_observed, on_unit, zoom.
    destruct (c (uow (obs_session (rt_observed m)))) as [r u'] eqn:Hr.
    destruct (Hc _ _ _ Hr) as (_ & Hw & He). split; done.
Qed.

(** Outside the checkpoint repository nothing happens to the streams. *)
Lemma touches_frame {A} (c : M exn unit_of_work A) :
  (forall u r u', c u = (r, u') -> local_step u u' /\ workflows u' = workflows u /\ checkpoints u' = checkpoints u) ->
  touches c.
Proof. intros H u r u' Hu. destruct (H _ _ _ Hu) as (? & ? & ->). done. Qed.

Ltac frame_tac step :=
  apply aside_uow, touches_frame; intros u r u' H; split; [by eapply step|];
  by apply zoom_inv in H as (? & _ & ->).

Lemma aside_event e n : along aside (on_uow (on_events (ExecutionEventStore.append e n))).
Proof. frame_tac append_event. Qed.
Lemma aside_memory p w d producer refs :
  along aside (on_uow (on_memory (MemoryRepository.update_context p w d producer refs))).
Proof. frame_tac update_context. Qed.
Lemma aside_context p w d producer refs :
  along aside (on_uow (on_memory (MemoryRepository.initialize_context p w d producer refs))).
Proof. frame_tac initialize_context. Qed.
Lemma aside_artifact a : along aside (on_uow (on_artifacts (ArtifactRepository.save a))).
Proof. frame_tac Isolation.save_artifact. Qed.
Lemma aside_approval a e : along aside (on_uow (on_approvals (ApprovalRepository.save a e))).
Proof. frame_tac save_approval. Qed.

Lemma aside_checkpoint c boundary step attempt :
  along aside (on_uow (on_checkpoints (CheckpointRepository.save c boundary step attempt))).
Proof.
  apply aside_uow. intros u r u' H. split; [by eapply save_checkpoint|].
  apply zoom_inv in H as (t' & H & ->). split; [done|]. intros k. cbn.
  destruct (save_checkpoint_appends _ _ _ _ _ _ _ H) as [->|(k' & a & -> & _)]; [done|].
  rewrite append_at. by apply prefix_app_r.
Qed.
End notes.

#[export] Hint Resolve aside_env aside_now aside_event aside_memory aside_context aside_artifact
  aside_approval aside_checkpoint : reagent.

Section noting.
Context {EN : Entities} {P : Type} (clock : nat -> datetime) (id_factory : nat -> string -> string).

Lemma aside_emit type payload severity s :
  along (P := P) aside (emit_event clock id_factory type payload severity s).
Proof. unfold emit_event. along_tac. Qed.

Lemma aside_step_run_id s : along (P := P) aside (step_run_id_of s).
Proof. unfold step_run_id_of. along_tac. Qed.

Hint Resolve aside_emit aside_step_run_id : reagent.

Lemma aside_record boundary c s a emit : along (P := P) aside (record clock id_factory boundary c s a emit).
Proof. unfold record. along_tac. Qed.

Hint Resolve aside_record : reagent.

Lemma aside_sync : along (P := P) aside (sync_domain_checkpoints clock id_factory).
Proof.
  unfold sync_domain_checkpoints. apply along_bind; [typeclasses eauto|apply along_get; typeclasses eauto|].
  intros m. generalize (Checkpoint.id <$> CheckpointRepository.list
    (WorkflowRun.id (ExecutionState.workflow_run (rt_execution m))) (checkpoints (rt_unit m))).
  induction (ExecutionState.checkpoints (rt_execution m)) as [|c l IH]; intros ids; cbn; along_tac.
Qed.

Lemma aside_latest : along (P := P) aside latest.
Proof. unfold latest. along_tac. Qed.

Hint Resolve aside_latest : reagent.

Lemma aside_record_latest boundary s a : along (P := P) aside (record_latest clock id_factory boundary s a).
Proof. unfold record_latest. along_tac. Qed.

Lemma aside_result : along (P := P) aside runtime_result.
Proof. unfold runtime_result. along_tac. Qed.

Lemma aside_initialize_memory : along (P := P) aside initialize_memory.
Proof. unfold initialize_memory. along_tac. Qed.

Lemma aside_update_memory d o : along (P := P) aside (update_memory d o).
Proof. unfold update_memory. along_tac. Qed.

Lemma aside_baseline : along (P := P) aside (record_baseline clock id_factory).
Proof. unfold record_baseline. along_tac. Qed.

Lemma aside_approval_request ttl s sr a policy inputs :
  along (P := P) aside (create_approval_request clock id_factory ttl s sr a policy inputs).
Proof. unfold create_approval_request. along_tac. Qed.

Lemma aside_save_artifact d e : along (P := P) aside (AgentRuntime.save_artifact clock d e).
Proof. unfold AgentRuntime.save_artifact. along_tac. Qed.
End noting.

#[export] Hint Resolve aside_emit aside_step_run_id aside_record aside_sync aside_latest
  aside_record_latest aside_result aside_initialize_memory aside_update_memory aside_baseline
  aside_approval_request aside_save_artifact : reagent.

(** ** The commit of the runtime *)

Section committing.
Context {EN : Entities} {P : Type} (clock : nat -> datetime) (id_factory : nat -> string -> string).
Implicit Types (m : @machine EN P).

(** The body of the [try] statement of [_commit]. *)
Abbreviation store x e :=
  (next_version ← on_uow (on_workflows (WorkflowRepository.save x e)); on_session commit ;; mret next_version).

Lemma store_eq x e m :
  or_rollback (store x e) m =
    match on_workflows (WorkflowRepository.save x e) (rt_unit m) with
    | (Err err, _) => (Err err, refreshed m)
    | (Ok n, u) =>
        match commit (Session (rt_database m) u) with
        | (Err err, s) =>
            (Err err, refreshed (Machine (rt_world m) (Observed s (rt_calls m)) (rt_versions m)))
        | (Ok _, s) => (Ok n, Machine (rt_world m) (Observed s (rt_calls m)) (rt_versions m))
        end
    end.
Proof.
  destruct m as [w [[db u] calls] vs].
  unfold or_rollback, mbind, M_bind, mret, M_ret, on_uow, on_session, on_observed, on_unit. unfold zoom at 1 2 3.
  cbn -[on_workflows commit]. destruct (on_workflows _ u) as [[n|err] u']; [|done].
  unfold zoom. cbn -[commit]. by destruct (commit _) as [[[]|err] s].
Qed.

(** Saved and committed, or rolled back. *)
Lemma store_cases m e : runtime_ok m ->
  (exists err, or_rollback (store (rt_execution m) e) m = (Err err, refreshed m)) \/
  exists n u db, saved m n u /\ core db = published_core u (rt_database m) /\ db_older (rt_database m) db /\
    or_rollback (store (rt_execution m) e) m =
      (Ok n, Machine (rt_world m) (Observed (Session db (refresh db)) (rt_calls m)) (rt_versions m)) /\
    forall v, let m' := Machine (rt_world m) (Observed (Session db (refresh db)) (rt_calls m)) v in
      runtime_ok m' /\ exists r, WorkflowExecutionRecord.from_execution (rt_execution m) n = Ok r /\
        Dict.get (run_id_of (rt_execution m)) (db_executions db) = Some r.
Proof.
  intros Hm. rewrite store_eq.
  destruct (on_workflows _ _) as [[n|err] u] eqn:Hu; [|left; by exists err].
  pose proof (save_staged _ _ _ _ Hm Hu) as Hs.
  destruct (commit_saved _ _ _ (rt_versions m) Hm (sv_stored _ _ _ Hs)) as [[err ->]|(db & Hc & Hcore & Hold & _)];
    [left; by exists err|right].
  rewrite Hc. exists n, u, db. split_and!; try done. intros v.
  destruct (commit_saved _ _ _ v Hm (sv_stored _ _ _ Hs)) as [[err He]|(db' & Hc' & _ & _ & H)]; [by rewrite Hc in He|].
  rewrite Hc in Hc'. by injection Hc' as <-.
Qed.

(** The streams a commit leaves have all that was staged. *)
Lemma committed_streams m n u db : saved m n u -> core db = published_core u (rt_database m) ->
  extends (Stream.entries (checkpoints (rt_unit m))) (db_checkpoint_records db).
Proof.
  intros [[(b & Hb & Ho) _ _] Hck] [= _ -> _ _ _ _ _] k. rewrite <- Hck.
  rewrite at_published by apply (u_consistent _ _ Hb). case_decide as Hk; [done|].
  rewrite (clean_entries _ _ (u_checkpoints _ _ Hb) _ Hk). apply (o_checkpoints _ _ Ho).
Qed.

(** [_commit]: whatever happens the execution in memory is untouched and no
    skill is called; if it returns, everything is committed. *)
Lemma commit_execution_cases m r m' : runtime_ok m -> commit_execution clock id_factory m = (r, m') ->
  runtime_ok m' /\ rt_execution m' = rt_execution m /\ rt_calls m' = rt_calls m /\
  (r = Ok tt -> committed m' /\
     extends (Stream.entries (checkpoints (rt_unit m))) (db_checkpoint_records (rt_database m'))).
Proof.
  intros Hm H. unfold commit_execution in H. unfold mbind at 1, M_bind at 1 in H.
  pose proof (aside_sync (P := P) clock id_factory m) as [Hok [Hx Hc _ _ _ Hrec]].
  destruct (sync_domain_checkpoints clock id_factory m) as [[[]|err] m1]; cbn in *.
  2:{ injection H as <- <-. split_and!; [by apply Hok|done|done|done]. }
  specialize (Hok Hm). unfold mbind at 1, M_bind at 1, get_state in H. cbv zeta in H.
  unfold mbind at 1, M_bind at 1 in H.
  destruct (store_cases m1 (default None (Dict.get (run_id_of (rt_execution m1)) (rt_versions m1))) Hok)
    as [[err He]|(n & u & db & Hs & Hcore & _ & He & Hall)]; rewrite He in H.
  - injection H as <- <-. split_and!; [by apply refreshed_runtime_ok|done|done|done].
  - unfold modify, set_version in H. injection H as <- <-.
    destruct (Hall (Dict.set (run_id_of (rt_execution m1)) (Some n) (rt_versions m1))) as [Hm' (row & Hrow & Hget)].
    split_and!; [exact Hm'|done|done|]. intros _. split.
    + split; [done|]. exists row, n. cbn. split_and!; [done|done|apply get_set_eq].
    + etrans; [exact Hrec|]. by eapply committed_streams.
Qed.

Lemma preserved_commit : along (P := P) preserved (commit_execution clock id_factory).
Proof.
  intros m Hm. destruct (commit_execution clock id_factory m) as [r m'] eqn:H. by eapply commit_execution_cases.
Qed.
End committing.

#[export] Hint Resolve preserved_commit : reagent.
