(* ===== verification/RuntimeFacts.v ===== *)
(** What the agent runtime guarantees: it keeps its invariant, announces every
    skill call durably before making it, never calls a skill twice for one
    attempt, and returns only what is committed. *)
From S2P Require Import Prelude Isolation Errors Text Float Value Lexical SkillSchema Sha256 Lifecycle Workflow Checkpoint Coordinator CoordinatorFacts Approval Events Records RecordFacts Provider Budget BudgetFacts Dict Tables TableFacts Repositories RepositoryFacts Manifests UnitOfWork UnitOfWorkFacts CommitFacts RetryPolicy EngineModels References Validator Scheduler Engine EngineFacts EngineCoordinator EngineCoordinatorFacts Skills Calendar AgentRuntime RuntimeInvariants.
Local Open Scope string_scope.
Local Open Scope list_scope.
Local Open Scope Z_scope.

(** ** Attempts of an execution *)

Lemma entries_elem x i s : ExecutionState.step_runs x !! i = Some s -> entry s ∈ entries x.
Proof. intros H. apply list_elem_of_fmap. exists s. split; [done|]. by eapply list_elem_of_lookup_2. Qed.

(** A step and a number name one attempt. *)
Lemma attempt_unique x key st st' : attempts_ok x -> (key, st) ∈ entries x -> (key, st') ∈ entries x -> st = st'.
Proof.
  intros Ha H H'. apply list_elem_of_fmap in H as (s & Hs & [i Hi]%list_elem_of_lookup),
    H' as (s' & Hs' & [j Hj]%list_elem_of_lookup). unfold entry in *. simplify_eq.
  destruct (base.decide (i = j)) as [->|Hne]; [congruence|].
  assert (i < j \/ j < i)%nat as [Hlt|Hlt] by lia.
  - destruct (ao_failed _ Ha _ _ _ _ Hi Hj Hlt) as [_ Hat]; [congruence|]. lia.
  - destruct (ao_failed _ Ha _ _ _ _ Hj Hi Hlt) as [_ Hat]; [congruence|]. lia.
Qed.

(** The attempts there are, whatever their statuses. *)
Definition attempt_keys (x : ExecutionState.t) : list (string * Z) :=
  (fun s => (StepRun.step_id s, StepRun.attempt s)) <$> ExecutionState.step_runs x.

Definition same_attempts (x x' : ExecutionState.t) : Prop := attempt_keys x' = attempt_keys x.

#[export] Instance same_attempts_preorder : PreOrder same_attempts.
Proof. split; red; unfold same_attempts; congruence. Qed.

Lemma latest_attempt_same x x' sid i s i' s' : same_attempts x x' ->
  ExecutionState.latest_step_run x sid = Ok (i, s) -> ExecutionState.latest_step_run x' sid = Ok (i', s') ->
  StepRun.attempt s' = StepRun.attempt s.
Proof.
  intros Hsame (Hi & Hs & Hmax)%latest_step_run_spec (Hi' & Hs' & Hmax')%latest_step_run_spec.
  assert (forall y y' (j : nat) t t', attempt_keys y' = attempt_keys y ->
    ExecutionState.step_runs y !! j = Some t -> StepRun.step_id t = sid ->
    (forall u, u ∈ ExecutionState.step_runs y' -> StepRun.step_id u = sid -> StepRun.attempt u <= StepRun.attempt t') ->
    StepRun.attempt t <= StepRun.attempt t') as Hle.
  { intros y y' j t t' Hk Hj Ht Hm. apply (f_equal (.!! j)) in Hk. unfold attempt_keys in Hk.
    rewrite !list_lookup_fmap, Hj in Hk. cbn in Hk. apply fmap_Some in Hk as (u & Hu & [= Hid Hat]).
    rewrite Hat. apply Hm; [by eapply list_elem_of_lookup_2|congruence]. }
  apply Z.le_antisymm; [by eapply (Hle x' x)|by eapply (Hle x x')].
Qed.

Section attempts.
Context (clock : nat -> datetime) (id_factory : nat -> string -> string).

Lemma same_attempts_step i tg at_ inp o cd : respects same_attempts (step_to i tg at_ inp o cd).
Proof.
  apply respects_edit; [typeclasses eauto|]. intros x x' H.
  destruct (ExecutionState.step_runs x !! i) as [s|] eqn:Hi; [|done]. rewrite bind_Ok in H.
  destruct H as (s' & Hs & [= <-]). apply step_transition_evolves in Hs as (_ & Hid & Hat & _).
  unfold same_attempts, attempt_keys. cbn. rewrite list_fmap_insert, Hid, Hat.
  apply list_insert_id. by rewrite list_lookup_fmap, Hi.
Qed.

Lemma same_attempts_checkpoint : respects same_attempts (create_checkpoint clock id_factory).
Proof. by apply respects_checkpoint; [typeclasses eauto|]. Qed.

Lemma same_attempts_ready sid inp c : respects same_attempts (mark_step_ready clock id_factory sid inp c).
Proof.
  pose proof same_attempts_step. pose proof same_attempts_checkpoint.
  unfold mark_step_ready, require_running, checkpointed, now. respects_tac.
Qed.

(** A decision to run a step adds no attempt. *)
Lemma same_attempts_apply b sid sr a v skill inputs requires :
  respects same_attempts (apply_decision clock id_factory (StepReady b sid sr a v skill inputs requires)).
Proof. pose proof same_attempts_ready. unfold apply_decision. respects_tac. Qed.

(** Starting a step makes its latest attempt running. *)
Lemma update_running w sid r w' :
  update_step_state clock id_factory sid StepRunStatus.RUNNING None None false w = (Ok r, w') ->
  exists i s, ExecutionState.latest_step_run (execution w) sid = Ok (i, s) /\
    ((sid, StepRun.attempt s), StepRunStatus.RUNNING) ∈ entries (execution w').
Proof.
  unfold update_step_state, require_running, mbind, M_bind, gets, raise_if, reads, now, on_env, tick.
  intros H. cbn -[step_to] in H. case_in H; [done|]. cbn -[step_to] in H.
  destruct (ExecutionState.latest_step_run (execution w) sid) as [[i s]|e] eqn:Hl; [|done].
  exists i, s. split; [done|]. unfold step_to, edit_execution in H. cbn in H.
  apply latest_step_run_spec in Hl as (Hi & Hs & _). rewrite Hi in H.
  destruct (StepRun.transition_to _ _ _ _ _ _ _) as [s'|e] eqn:Ht; [|done]. cbn in H.
  injection H as _ <-. apply step_transition_Ok in Ht as (_ & Hst & _ & _ & Hid & Hat & _).
  replace (sid, StepRun.attempt s, StepRunStatus.RUNNING) with (entry s')
    by (unfold entry; rewrite Hid, Hs, Hat, Hst; done).
  apply (entries_elem _ i). cbn. apply list_lookup_insert_eq. by eapply lookup_lt_Some.
Qed.
End attempts.

(** ** Boundaries *)

Section boundaries.
Context {EN : Entities} {P : Type} (clock : nat -> datetime) (id_factory : nat -> string -> string).
Implicit Types (m : @machine EN P).

(** A boundary of a step, in the database. *)
Definition boundary_stored (b : CheckpointBoundary) (run_id : string) (step_id : option string)
    (attempt : option Z) (db : database) : Prop :=
  exists record, record ∈ Stream.at_key run_id (db_checkpoint_records db) /\
    CheckpointRecord.boundary record = b /\ CheckpointRecord.step_id record = step_id /\
    CheckpointRecord.attempt record = attempt.

Lemma find_record_elem c b s a l r : CheckpointRepository.find_record c b s a l = Ok (Some r) ->
  r ∈ l /\ CheckpointRepository.key_of r = (b, Checkpoint.id c, s, a).
Proof.
  induction l as [|r0 l IH]; [done|]. cbn -[CheckpointRepository.key_of].
  destruct (String.eqb _ _ && _); [done|].
  destruct (bool_decide _) eqn:Hk; [|intros [? ?]%IH; split; [by right|done]].
  intros [= ->]. split; [left|]. by apply bool_decide_eq_true in Hk.
Qed.

(** A saved checkpoint is in the stream of its run. *)
Lemma save_checkpoint_records c b s a t r t' : CheckpointRepository.save c b s a t = (Ok r, t') ->
  r ∈ Stream.at_key (Checkpoint.workflow_run_id c) (Stream.entries t') /\
  CheckpointRecord.boundary r = b /\ CheckpointRecord.step_id r = s /\ CheckpointRecord.attempt r = a.
Proof.
  unfold CheckpointRepository.save, mbind, M_bind, lift_result, get_state, modify, mret, M_ret. intros H.
  destruct (Checkpoint.verify_integrity c) as [[]|]; [|done].
  destruct (CheckpointRepository.find_record _ _ _ _ _) as [[known|]|] eqn:Hf; [| |done].
  - injection H as <- <-. apply find_record_elem in Hf as [Hin [= -> _ -> ->]]. done.
  - destruct (CheckpointRecord.post_init _) as [rec|] eqn:Hrec; [|done]. injection H as <- <-.
    unfold CheckpointRecord.post_init in Hrec. rewrite !then_Ok in Hrec. destruct Hrec as (_ & _ & [= <-]).
    split; [|done]. rewrite append_at. case_decide; [|done]. apply elem_of_app. right. left.
Qed.

Lemma record_Ok m m' b c s a emit u : record clock id_factory b c s a emit m = (Ok u, m') ->
  exists r, r ∈ Stream.at_key (Checkpoint.workflow_run_id c) (Stream.entries (checkpoints (rt_unit m'))) /\
    CheckpointRecord.boundary r = b /\ CheckpointRecord.step_id r = s /\ CheckpointRecord.attempt r = a.
Proof.
  intros H. unfold record in H. unfold mbind at 1, M_bind at 1, get_state in H. cbv zeta in H.
  unfold mbind at 1, M_bind at 1 in H.
  destruct (on_uow _ m) as [[r|e] m1] eqn:Hs; [|done].
  assert (r ∈ Stream.at_key (Checkpoint.workflow_run_id c) (Stream.entries (checkpoints (rt_unit m1))) /\
    CheckpointRecord.boundary r = b /\ CheckpointRecord.step_id r = s /\ CheckpointRecord.attempt r = a) as [Hin Hk].
  { unfold on_uow, on_session, on_observed, on_unit, on_checkpoints in Hs. 
    do 4 apply zoom_inv in Hs as (? & Hs & ?). subst. by apply save_checkpoint_records in Hs. }
  exists r. split; [|exact Hk].
  match type of H with ?c0 m1 = _ => assert (along (P := P) aside c0) as Ha end.
  { case_match; along_tac. }
  destruct (Ha m1) as [_ Hn]. rewrite H in Hn. cbn in Hn.
  by eapply elem_of_prefix, (n_records _ _ Hn).
Qed.

Lemma create_boundary_cases m b s a r m' : runtime_ok m ->
  create_boundary clock id_factory b s a m = (r, m') ->
  runtime_ok m' /\ rt_calls m' = rt_calls m /\ run_id_of (rt_execution m') = run_id_of (rt_execution m) /\
  entries (rt_execution m') = entries (rt_execution m) /\
  (is_ok r = true -> committed m' /\
     boundary_stored b (run_id_of (rt_execution m)) s a (rt_database m')).
Proof.
  intros Hm H. unfold create_boundary in H. unfold mbind at 1, M_bind at 1 in H.
  pose proof (preserved_world _ (checkpoint_moves clock id_factory) m Hm) as Hm1.
  unfold on_world in H, Hm1. unfold zoom in H, Hm1.
  pose proof (create_checkpoint_cases clock id_factory (rt_world m)) as Hc.
  destruct (create_checkpoint clock id_factory (rt_world m)) as [r1 w1]. cbn [fst snd] in Hc, Hm1.
  set (m1 := Machine w1 _ _) in *.
  destruct Hc as [[(e & ->) Hx]|(i & ts & c & Hc & -> & Hx)].
  { injection H as <- <-. unfold m1, rt_execution. cbn. by rewrite Hx. }
  assert (run_id_of (rt_execution m1) = run_id_of (rt_execution m) /\
          entries (rt_execution m1) = entries (rt_execution m)) as [Hid Hent].
  { unfold m1, rt_execution at 1 3. cbn. by rewrite Hx. }
  unfold mbind at 1, M_bind at 1 in H. pose proof (aside_record clock id_factory b c s a true m1) as Ha.
  pose proof (record_Ok m1) as Hr.
  destruct (record clock id_factory b c s a true m1) as [[[]|e] m2] eqn:Hrec; cbn in Ha; destruct Ha as [Hp Hn].
  2:{ injection H as <- <-. rewrite (n_execution _ _ Hn), (n_calls _ _ Hn). split_and!; try done. by apply Hp. }
  destruct (Hr _ _ _ _ _ _ _ Hrec) as (rec & Hin & Hkey). clear Hr.
  unfold mbind, M_bind, mret, M_ret in H.
  destruct (commit_execution clock id_factory m2) as [[[]|e] m3] eqn:Hcm;
    destruct (commit_execution_cases _ _ _ _ _ (Hp Hm1) Hcm) as (Hm3 & Hx3 & Hc3 & Hok);
    injection H as <- <-; rewrite Hx3, (n_execution _ _ Hn), Hc3, (n_calls _ _ Hn);
    split_and!; try done.
  intros _. destruct (Hok eq_refl) as [Hcom Hext]. split; [done|]. exists rec. split; [|done].
  apply checkpoint_create_Ok in Hc as (js & _ & -> & _). cbn in Hin.
  eapply elem_of_prefix; [exact Hin|apply Hext].
Qed.
End boundaries.

(** ** Starting a step *)

Section starting.
Context {EN : Entities} {P : Type} (clock : nat -> datetime) (id_factory : nat -> string -> string).
Implicit Types (m : @machine EN P).

(** The invariant is kept, no skill is called and no attempt is added. *)
Definition calm : relation (@machine EN P) := fun m m' => runtime_ok m ->
  runtime_ok m' /\ rt_calls m' = rt_calls m /\ same_attempts (rt_execution m) (rt_execution m') /\
  run_id_of (rt_execution m') = run_id_of (rt_execution m).

#[export] Instance calm_preorder : PreOrder calm.
Proof.
  split; red; unfold calm, same_attempts; [naive_solver|]. intros x y z Hxy Hyz H.
  destruct (Hxy H) as (Hy & ? & ? & ?). destruct (Hyz Hy) as (? & ? & ? & ?). split_and!; congruence.
Qed.

Lemma calm_world {A} (c : M exn Coordinator.world A) :
  respects moved c -> respects same_attempts c -> along calm (on_world c).
Proof.
  intros Hm Hs m Hok. split_and!.
  - by apply (preserved_world _ Hm m).
  - unfold on_world, zoom. by destruct (c (rt_world m)).
  - specialize (Hs (rt_world m)). unfold on_world, zoom. by destruct (c (rt_world m)).
  - specialize (Hm (rt_world m)). unfold on_world, zoom. destruct (c (rt_world m)).
    apply (ev_run_id _ _ (proj1 (proj1 Hm))).
Qed.

Lemma calm_aside {A} (c : M exn machine A) : along aside c -> along calm c.
Proof.
  intros H m Hok. destruct (H m) as [Hp Hn]. split_and!; [by apply Hp|apply Hn| |].
  - unfold same_attempts. by rewrite (n_execution _ _ Hn).
  - by rewrite (n_execution _ _ Hn).
Qed.

Lemma calm_commit : along (P := P) calm (commit_execution clock id_factory).
Proof.
  intros m Hok. destruct (commit_execution clock id_factory m) as [r m'] eqn:H.
  destruct (commit_execution_cases _ _ _ _ _ Hok H) as (? & Hx & Hc & _). unfold same_attempts. cbn. by rewrite Hx.
Qed.

(** The skill may be called: the attempt is running, in memory and in the
    database, after the boundary before the call, and it was not called for
    before. *)
Record poised (d : step_request) (m : @machine EN P) : Prop := {
  p_ok : runtime_ok m;
  p_committed : committed m;
  p_run : req_workflow_run_id d = run_id_of (rt_execution m);
  p_running : ((req_step_id d, req_attempt d), StepRunStatus.RUNNING) ∈ entries (rt_execution m);
  p_fresh c : c ∈ rt_calls m -> call_run c = run_id_of (rt_execution m) ->
    call_attempt c <> (req_step_id d, req_attempt d);
  p_boundary : boundary_stored BEFORE_SKILL (run_id_of (rt_execution m)) (Some (req_step_id d))
                 (Some (req_attempt d)) (rt_database m)
}.

(** The decision to run a step is about the latest attempt of this run. *)
Lemma decided_step x b sid sr a v skill inputs requires :
  decide x = Ok (StepReady b sid sr a v skill inputs requires) ->
  EngineModels.workflow_run_id b = run_id_of x /\
  exists i s, ExecutionState.latest_step_run x sid = Ok (i, s) /\ StepRun.attempt s = a.
Proof.
  unfold decide. rewrite bind_Ok. intros (d & _ & H).
  destruct (decision_base_of _ _ _ H) as (cp & why & Hb). cbn in Hb. subst b. split; [done|].
  destruct (chosen_step _ _ _ sid a v requires H eq_refl)
    as (latest & j & step & s & Hl & _ & _ & _ & _ & Hsid & He & Hat & _).
  apply latest_for_definition_Ok in Hl as [Hl _]. destruct He as [He _]. rewrite Hsid in He.
  destruct (latest_agree _ _ _ _ Hl He) as (i & s0 & Hs0 & ->). by exists i, s0.
Qed.

(** An attempt that is ready was not called for. *)
Lemma ready_fresh m sid i s c : runtime_ok m ->
  ExecutionState.latest_step_run (rt_execution m) sid = Ok (i, s) -> StepRun.status s = StepRunStatus.READY ->
  c ∈ rt_calls m -> call_run c = run_id_of (rt_execution m) -> call_attempt c <> (sid, StepRun.attempt s).
Proof.
  intros Hm (Hi & Hs & _)%latest_step_run_spec Hst Hc Hr Heq.
  destruct (m_started _ Hm _ Hc Hr) as (st & Hin & Hstarted). rewrite Heq in Hin.
  apply entries_elem in Hi. unfold entry in Hi. rewrite Hs, Hst in Hi.
  by rewrite <- (attempt_unique _ _ _ _ (proj2 (m_sound _ Hm)) Hi Hin) in Hstarted.
Qed.

Lemma reading_inv {A} (f : ExecutionState.t -> res A) m r m' :
  reading f m = (r, m') -> r = f (rt_execution m) /\ m' = m.
Proof. destruct m as [[e x] o v]. unfold reading, on_world, zoom, reads. cbn. intros [= <- <-]. done. Qed.

Lemma bind_assoc {E S A B C} (c : M E S A) (f : A -> M E S B) (g : B -> M E S C) s :
  (c ≫= (fun a => f a ≫= g)) s = ((c ≫= f) ≫= g) s.
Proof. unfold mbind, M_bind. by destruct (c s) as [[a|e] s1]. Qed.

(** The decision applied, and the step committed as ready. *)
Definition make_ready (decision : Decision_t) (d : step_request) : M exn (@machine EN P) unit :=
  ready ← on_world (apply_decision clock id_factory decision);
  match ready with
  | Some c => record clock id_factory STEP_READY c (Some (req_step_id d)) (Some (req_attempt d)) true ;;
              commit_execution clock id_factory
  | None => mret tt
  end.

Lemma calm_ready b sid sr a v skill inputs requires d :
  along calm (make_ready (StepReady b sid sr a v skill inputs requires) d).
Proof.
  apply along_bind; [typeclasses eauto|apply calm_world; [apply apply_moves|apply same_attempts_apply]|].
  intros [c|]; [|apply along_ret; typeclasses eauto].
  apply along_bind; [typeclasses eauto|apply calm_aside; eauto with reagent|intros _; apply calm_commit].
Qed.

(** From a step that is ready to the call. *)
Lemma call_boundary m1 d i s r m' : runtime_ok m1 -> req_workflow_run_id d = run_id_of (rt_execution m1) ->
  ExecutionState.latest_step_run (rt_execution m1) (req_step_id d) = Ok (i, s) ->
  StepRun.attempt s = req_attempt d -> StepRun.status s = StepRunStatus.READY ->
  (on_world (update_step_state clock id_factory (req_step_id d) StepRunStatus.RUNNING None None false) ;;
   emit_event clock id_factory STEP_STARTED
     [("step_id", VStr (req_step_id d)); ("attempt", VInt (req_attempt d));
      ("skill_ref", VStr (req_skill_ref d))] INFO (Some (req_step_run_id d)) ;;
   create_boundary clock id_factory BEFORE_SKILL (Some (req_step_id d)) (Some (req_attempt d)) ;;
   mret tt) m1 = (r, m') ->
  runtime_ok m' /\ rt_calls m' = rt_calls m1 /\ (r = Ok tt -> poised d m').
Proof.
  intros Hm Hrun Hl Hat Hst H.
  pose proof (preserved_world _ (update_moves clock id_factory (req_step_id d) StepRunStatus.RUNNING None None false) m1 Hm) as Hm2.
  pose proof (update_moves clock id_factory (req_step_id d) StepRunStatus.RUNNING None None false (rt_world m1)) as Hmv.
  unfold on_world at 1 in H. unfold on_world at 1 in Hm2.
  apply bind_inv in H as [(o & m2 & E1 & H)|(e & E1 & ->)]; rewrite E1 in Hm2; cbn in Hm2;
    apply zoom_inv in E1 as (w & H1 & ->); rewrite H1 in Hmv; cbn in Hmv; [|done].
  apply update_running in H1 as (i' & s' & Hl' & Hin). unfold rt_execution in Hl. rewrite Hl in Hl'.
  injection Hl' as <- <-. rewrite Hat in Hin.
  set (m2 := Machine w _ _) in *. pose proof (ev_run_id _ _ (proj1 (proj1 Hmv))) as Hid.
  assert (Hfresh : forall c, c ∈ rt_calls m1 -> call_run c = run_id_of (rt_execution m1) ->
    call_attempt c <> (req_step_id d, req_attempt d)).
  { intros c. rewrite <- Hat. by eapply ready_fresh. }
  pose proof (aside_emit (P := P) clock id_factory STEP_STARTED
    [("step_id", VStr (req_step_id d)); ("attempt", VInt (req_attempt d)); ("skill_ref", VStr (req_skill_ref d))]
    INFO (Some (req_step_run_id d)) m2) as [Hp Hn].
  apply bind_inv in H as [([] & m3 & H1 & H)|(e & H1 & ->)]; rewrite H1 in Hp, Hn; cbn in Hp, Hn.
  2:{ split_and!; [by apply Hp|apply Hn|done]. }
  specialize (Hp Hm2).
  apply bind_inv in H as [(c & m4 & E4 & H)|(e & E4 & ->)];
    destruct (create_boundary_cases _ _ _ _ _ _ _ _ Hp E4) as (Hm4 & Hc4 & Hid4 & Hent4 & Hok).
  2:{ split_and!; [done|by rewrite Hc4, (n_calls _ _ Hn)|done]. }
  injection H as <- <-. rewrite (n_execution _ _ Hn) in Hid4, Hent4, Hok. rewrite (n_calls _ _ Hn) in Hc4.
  destruct (Hok eq_refl) as [Hcom Hbd].
  split_and!; [done|done|intros _]. split; rewrite ?Hid4.
  - done.
  - done.
  - rewrite Hrun. symmetry. exact Hid.
  - by rewrite Hent4.
  - rewrite Hc4. change (rt_calls m2) with (rt_calls m1). intros c0 Hc0 Hr0. apply Hfresh; [done|]. etrans; [exact Hr0|exact Hid].
  - done.
Qed.

Lemma start_step_cases b sid sr a v skill inputs requires m r m' :
  runtime_ok m -> decide (rt_execution m) = Ok (StepReady b sid sr a v skill inputs requires) ->
  start_step clock id_factory (StepReady b sid sr a v skill inputs requires)
    (step_request_of b sid sr a skill inputs) m = (r, m') ->
  runtime_ok m' /\ rt_calls m' = rt_calls m /\
  (r = Ok tt -> poised (step_request_of b sid sr a skill inputs) m').
Proof.
  intros Hm Hd H. destruct (decided_step _ _ _ _ _ _ _ _ _ Hd) as (Hb & i & s & Hl & Hat).
  set (d := step_request_of _ _ _ _ _ _) in *. unfold start_step in H.
  rewrite bind_assoc in H. fold (make_ready (StepReady b sid sr a v skill inputs requires) d) in H.
  pose proof (calm_ready b sid sr a v skill inputs requires d m Hm) as (Hm1 & Hc1 & Hs1 & Hid1).
  apply bind_inv in H as [([] & m1 & H1 & H)|(e & H1 & ->)]; rewrite H1 in Hm1, Hc1, Hs1, Hid1; [|done].
  cbn [snd] in Hm1, Hc1, Hs1, Hid1. clear H1.
  apply bind_inv in H as [([i1 s1] & m2 & H1 & H)|(e & H1 & ->)]; apply reading_inv in H1 as [H1 ->]; [|done].
  symmetry in H1. cbn [snd] in H. case_bool_decide as Hready.
  2:{ unfold runtime_error in H. cbn in H. by injection H as <- <-. }
  destruct (call_boundary m1 d i1 s1 r m') as (Hm' & Hc' & Hp); [done| |done| |done|exact H|].
  - by rewrite Hid1.
  - etrans; [|exact Hat]. by eapply latest_attempt_same.
  - split_and!; [done|congruence|done].
Qed.
End starting.

(** ** Calling a skill *)

Section calling.
Context {EN : Entities} {P : Type}.
Context (skills : dict (string * string) (@RegisteredSkill session P)).
Context (capability_provider : option (step_request -> SkillCapabilities.t P)).
Implicit Types (m : @machine EN P).

(** An implementation may use the unit of work, and commit it, but it stores no
    execution: that is the runtime's task. *)
Definition keeps_session (i : @implementation session P) : Prop :=
  forall inputs context db, database_ok db ->
    let s := (i inputs context (Session db (refresh db))).2 in
    session_ok s /\ db_executions (shared s) = db_executions db /\
    Versioned.records (workflows (uow s)) = db_executions db.

Definition skills_ok : Prop :=
  forall r skill, resolve r skills = Ok skill -> keeps_session (run_implementation skill).

Context (Hskills : skills_ok).

Lemma resolve_observed r skill : resolve r (observed_skills skills) = Ok skill ->
  exists skill0, resolve r skills = Ok skill0 /\ skill = observe_skill skill0.
Proof using.
  unfold resolve, observed_skills.
  assert (forall k, Dict.get k ((fun kv => (kv.1, observe_skill kv.2)) <$> skills) = observe_skill <$> Dict.get k skills) as ->.
  { intros k. induction skills as [|[k0 v] l IH]; [done|]. cbn. by case_decide. }
  destruct (Dict.get _ skills) as [s|]; [|done]. intros [= <-]. by exists s.
Qed.

(** Either no skill is called and nothing changes, or the skill the reference
    names is called, once, with the request's attempt. *)
Lemma execute_cases d reference inputs project_id (o : @observed EN P) r o' :
  execute (observed_skills skills) capability_provider d reference inputs project_id o = (r, o') ->
  o' = o \/
  exists skill context arguments, resolve reference skills = Ok skill /\
    SkillExecutionContext.workflow_run_id context = req_workflow_run_id d /\
    SkillExecutionContext.step_id context = req_step_id d /\
    SkillExecutionContext.attempt context = req_attempt d /\
    o' = Observed (run_implementation skill arguments context (obs_session o)).2
           (obs_calls o ++ [Call EN P context arguments (shared (obs_session o))]).
Proof using.
  intros H. unfold execute in H.
  apply bind_inv in H as [(? & o1 & H1 & H)|(e & H1 & ->)]; injection H1 as _ <-; [|by left].
  apply bind_inv in H as [(skill & o1 & H1 & H)|(e & H1 & ->)]; injection H1 as H1 <-; [|by left].
  apply resolve_observed in H1 as (skill0 & Hr & ->). cbn -[call_skill validate] in H.
  destruct (validate _ _ "input") as [args|[path message|message]]; [|injection H as _ <-; by left..].
  right. exists skill0, (skill_context d (observe_skill skill0) (granted_capabilities capability_provider d) project_id), args.
  split_and!; try done. unfold call_skill in H. cbn in H. unfold observe in H.
  destruct (run_implementation skill0 _ _ _) as [[raw|f] s]; by injection H as _ <-.
Qed.

(** The invariant after the call. *)
Lemma called_ok d m skill arguments context : poised d m -> keeps_session (run_implementation skill) ->
  SkillExecutionContext.workflow_run_id context = req_workflow_run_id d ->
  SkillExecutionContext.step_id context = req_step_id d ->
  SkillExecutionContext.attempt context = req_attempt d ->
  runtime_ok (Machine (rt_world m)
    (Observed (run_implementation skill arguments context (rt_session m)).2
       (rt_calls m ++ [Call EN P context arguments (rt_database m)])) (rt_versions m)).
Proof using.
  intros [Hm [Hu (row & v & Hrow & Hfrom & _)] Hrun Hin Hfresh Hbd] Hk Hc1 Hc2 Hc3.
  destruct Hm as [[[Hdb Hb] Hrows Hst_rows Hun Han Hrec Hstg] Hs Hkey Hskey Hst].
  assert (rt_session m = Session (rt_database m) (refresh (rt_database m))) as Hsess.
  { rewrite <- Hu. unfold rt_unit, rt_database. by destruct (rt_session m). }
  destruct (Hk arguments context (rt_database m) Hdb) as (Hs' & Hd' & Hw').
  rewrite Hsess. set (s' := (run_implementation skill _ _ _).2) in *.
  set (c := Call EN P context arguments (rt_database m)).
  assert (call_run c = run_id_of (rt_execution m)) as Hrc by (by rewrite <- Hrun).
  assert (call_attempt c = (req_step_id d, req_attempt d)) as Hac by (unfold call_attempt; cbn; congruence).
  assert (Hrowin : ((req_step_id d, req_attempt d), StepRunStatus.RUNNING) ∈ row_entries row)
    by (by rewrite (row_entries_of _ _ _ Hfrom)).
  assert (recorded (rt_database m).(db_executions) c) as Hrecc.
  { exists row. rewrite Hrc, Hac. split; [done|]. by exists StepRunStatus.RUNNING. }
  assert (forall c0, c0 ∈ rt_calls m ++ [c] -> c0 ∈ rt_calls m \/ c0 = c) as Helem.
  { intros c0 [?|?%list_elem_of_singleton]%elem_of_app; auto. }
  split; [split| | | |].
  - exact Hs'.
  - change (rows_ok (db_executions (shared s'))). by rewrite Hd'.
  - change (rows_ok (Versioned.records (workflows (uow s')))). by rewrite Hw'.
  - change (NoDup (call_key <$> (rt_calls m ++ [c]))). rewrite fmap_app. apply NoDup_app.
    split_and!; [done| |apply NoDup_singleton].
    intros k (c0 & -> & Hc0)%list_elem_of_fmap Heq%list_elem_of_singleton.
    apply (Hfresh _ Hc0); [rewrite <- Hrc; exact (f_equal fst Heq)|rewrite <- Hac; exact (f_equal snd Heq)].
  - intros c0 [Hc0| ->]%Helem; [by apply Han|]. split.
    + exists row. rewrite Hrc, Hac. done.
    + rewrite Hrc, Hac. destruct Hbd as (rec & Hrin & H1 & H2 & H3). by exists rec.
  - change (forall c0, c0 ∈ rt_calls m ++ [c] -> recorded (db_executions (shared s')) c0). rewrite Hd'.
    intros c0 [Hc0| ->]%Helem; [by apply Hrec|done].
  - change (forall c0, c0 ∈ rt_calls m ++ [c] -> recorded (Versioned.records (workflows (uow s'))) c0).
    rewrite Hw'. intros c0 [Hc0| ->]%Helem; [by apply Hrec|done].
  - exact Hs.
  - intros r. change (Dict.get (run_id_of (rt_execution m)) (db_executions (shared s')) = Some r ->
      WorkflowRepository.key_of r = execution_key (rt_execution m)). rewrite Hd'. apply Hkey.
  - intros r. change (Dict.get (run_id_of (rt_execution m)) (Versioned.records (workflows (uow s'))) = Some r ->
      WorkflowRepository.key_of r = execution_key (rt_execution m)). rewrite Hw'. apply Hkey.
  - intros c0 [Hc0| ->]%Helem Hr0; [by apply Hst|]. rewrite Hac. by exists StepRunStatus.RUNNING.
Qed.

(** Whether or not the skill is called, and whatever it does, the invariant
    holds when the runtime goes on. *)
Lemma invoke_cases d m r m' : poised d m ->
  invoke_skill skills capability_provider d m = (r, m') -> runtime_ok m'.
Proof using Hskills.
  intros Hp H. pose proof (p_ok _ _ Hp) as Hm. unfold invoke_skill in H.
  apply bind_inv in H as [(? & m1 & H1 & H)|(e & H1 & _)]; [injection H1 as <- <-|done].
  apply bind_inv in H as [(ctx & m1 & H1 & H)|(e & H1 & _)]; injection H1 as _ <-; [|exact Hm].
  apply bind_inv in H as [(reference & m1 & H1 & H)|(e & H1 & _)]; injection H1 as _ <-; [|exact Hm].
  apply zoom_inv in H as (o' & H & ->).
  apply execute_cases in H as [->|(skill & context & args & Hr & H1 & H2 & H3 & ->)].
  - by destruct m.
  - eapply called_ok; [exact Hp|by eapply Hskills|done..].
Qed.
End calling.

(** ** The loop keeps the invariant *)

#[export] Hint Resolve aside_preserved preserved_world start_moves update_moves checkpoint_moves apply_moves
  approval_moves resume_moves : reagent.

Section looping.
Context {EN : Entities} {P : Type} (clock : nat -> datetime) (id_factory : nat -> string -> string).
Context (skills : dict (string * string) (@RegisteredSkill session P)).
Context (capability_provider : option (step_request -> SkillCapabilities.t P)).
Context (max_decisions : nat) (approval_ttl : Z).
Context (Hskills : skills_ok skills).
Implicit Types (m : @machine EN P).

Lemma preserved_boundary b s a : along (P := P) preserved (create_boundary clock id_factory b s a).
Proof using. unfold create_boundary. along_tac. Qed.

Lemma preserved_yield : along (P := P) preserved (commit_and_yield clock id_factory).
Proof using. unfold commit_and_yield. along_tac. Qed.

Hint Resolve preserved_boundary preserved_yield : reagent.

Lemma preserved_complete d res_ : along (P := P) preserved (complete_step clock id_factory d res_).
Proof using. unfold complete_step. along_tac. Qed.

Lemma preserved_fail d e : along (P := P) preserved (fail_step clock id_factory d e).
Proof using. unfold fail_step, yield_failure, runtime_error. along_tac. Qed.

Lemma preserved_terminal decision : along (P := P) preserved (apply_terminal_decision clock id_factory decision).
Proof using. unfold apply_terminal_decision, emit_terminal, runtime_error. along_tac. Qed.

Lemma preserved_wait decision s sr a policy inputs :
  along (P := P) preserved (wait_for_approval clock id_factory approval_ttl decision s sr a policy inputs).
Proof using. unfold wait_for_approval, runtime_error. along_tac. Qed.

Lemma preserved_retry decision s a : along (P := P) preserved (schedule_retry clock id_factory decision s a).
Proof using. unfold schedule_retry, runtime_error. along_tac. Qed.

Lemma preserved_approval decision s : along (P := P) preserved (complete_approval clock id_factory decision s).
Proof using. unfold complete_approval. along_tac. Qed.

Hint Resolve preserved_complete preserved_fail preserved_terminal preserved_wait preserved_retry
  preserved_approval : reagent.

Lemma execute_step_ok b sid sr a v skill inputs requires m :
  runtime_ok m -> decide (rt_execution m) = Ok (StepReady b sid sr a v skill inputs requires) ->
  runtime_ok (execute_step clock id_factory skills capability_provider
    (StepReady b sid sr a v skill inputs requires) (step_request_of b sid sr a skill inputs) m).2.
Proof using Hskills.
  intros Hm Hd. destruct (execute_step _ _ _ _ _ _ m) as [r m'] eqn:H. unfold execute_step in H.
  apply bind_inv in H as [([] & m1 & H1 & H)|(e & H1 & ->)];
    destruct (start_step_cases _ _ _ _ _ _ _ _ _ _ _ _ _ Hm Hd H1) as (Hm1 & _ & Hp); [|done].
  specialize (Hp eq_refl). clear H1.
  apply bind_inv in H as [(result & m2 & H1 & H)|(e & H1 & ->)];
    pose proof (invoke_cases skills capability_provider Hskills _ _ _ _ Hp H1) as Hm2; [|done].
  match type of H with ?c m2 = _ => assert (along (P := P) preserved c) as Hc end.
  { unfold runtime_error. along_tac. }
  specialize (Hc m2 Hm2). by rewrite H in Hc.
Qed.

Lemma take_ok decision m : runtime_ok m -> decide (rt_execution m) = Ok decision ->
  runtime_ok (take clock id_factory skills capability_provider approval_ttl decision m).2.
Proof using Hskills.
  intros Hm Hd. destruct decision; [by apply execute_step_ok|..];
    (match goal with |- runtime_ok (?c m).2 => assert (along (P := P) preserved c) as Hc end;
     [unfold take; along_tac|by apply Hc]).
Qed.

Lemma loop_ok fuel m : runtime_ok m ->
  runtime_ok (decision_loop clock id_factory skills capability_provider max_decisions approval_ttl fuel m).2.
Proof using Hskills.
  revert m. induction fuel as [|fuel IH]; intros m Hm; [done|].
  destruct (decision_loop _ _ _ _ _ _ _ m) as [r m'] eqn:H. cbn [decision_loop] in H.
  apply bind_inv in H as [(decision & m1 & H1 & H)|(e & H1 & ->)]; apply reading_inv in H1 as [Hd ->]; [|done].
  pose proof (take_ok decision m Hm (eq_sym Hd)) as Ht.
  apply bind_inv in H as [(yielded & m2 & H1 & H)|(e & H1 & ->)]; rewrite H1 in Ht; [|done].
  destruct yielded; [by injection H as _ <-|]. specialize (IH m2 Ht). by rewrite H in IH.
Qed.

(** ** Resuming *)

Lemma preserved_pending : along (P := P) preserved (ensure_pending_approval clock id_factory approval_ttl).
Proof using. unfold ensure_pending_approval, runtime_error. along_tac. Qed.

Lemma preserved_recovered : along (P := P) preserved (record_recovered clock id_factory).
Proof using. unfold record_recovered. along_tac. Qed.

Hint Resolve preserved_pending preserved_recovered : reagent.

Lemma preserved_waiting outcome outputs :
  along (P := P) preserved (resume_waiting clock id_factory approval_ttl outcome outputs).
Proof using. unfold resume_waiting. along_tac. Qed.

Lemma preserved_refused active e : along (P := P) preserved (recovery_refused clock id_factory active e).
Proof using. unfold recovery_refused. along_tac. Qed.

Hint Resolve preserved_waiting preserved_refused : reagent.

Lemma preserved_active active c : along (P := P) preserved (resume_active clock id_factory active c).
Proof using.
  intros m Hm. unfold resume_active.
  pose proof (preserved_world _ (resume_moves clock id_factory c) m Hm) as Hm1.
  destruct (on_world (resume_and_decide clock id_factory c) m) as [[d|e] m1]; cbn in Hm1.
  - assert (along (P := P) preserved (record_recovered clock id_factory ;; mret (@None RuntimeResult.t))) as Hc by along_tac.
    by apply Hc.
  - destruct (is_instance _ _); [by apply preserved_refused|done].
Qed.

Hint Resolve preserved_active : reagent.

Lemma preserved_prepare outcome outputs :
  along (P := P) preserved (prepare_resume clock id_factory approval_ttl outcome outputs).
Proof using. unfold prepare_resume, recover_active. along_tac. Qed.

Lemma preserved_initialize is_new : along (P := P) preserved (initialize clock id_factory is_new).
Proof using. unfold initialize. along_tac. Qed.

Lemma preserved_start : along (P := P) preserved (start_run clock id_factory).
Proof using. unfold start_run. along_tac. Qed.
End looping.

(** ** Runs *)

Section running.
Context {EN : Entities} {P : Type} (clock : nat -> datetime) (id_factory : nat -> string -> string).
Context (skills : dict (string * string) (@RegisteredSkill session P)).
Context (capability_provider : option (step_request -> SkillCapabilities.t P)).
Context (max_decisions : nat) (approval_ttl : Z).
Context (Hskills : skills_ok skills).
Implicit Types (m : @machine EN P) (p : @process EN P).

Abbreviation run_execution_ := (run_execution clock id_factory skills capability_provider max_decisions approval_ttl).
Abbreviation run_ := (run clock id_factory skills capability_provider max_decisions approval_ttl).

Definition pr_database p : database := shared (obs_session (pr_observed p)).
Definition pr_calls p : list (skill_call P) := obs_calls (pr_observed p).

(** The invariant between runs, and nothing staged: the state of a unit of work
    that was just opened. *)
Record process_ok p : Prop := {
  pr_journal : journal_ok (obs_session (pr_observed p)) (pr_calls p);
  pr_clean : pr_unit p = refresh (pr_database p)
}.

(** The same with other changes staged, but none to an execution: a decision
    on an approval is staged before the run that acts on it. *)
Record process_ready p : Prop := {
  rd_journal : journal_ok (obs_session (pr_observed p)) (pr_calls p);
  rd_rows : workflows (pr_unit p) = Versioned.refresh (db_executions (pr_database p))
}.

Lemma ok_ready p : process_ok p -> process_ready p.
Proof using. intros [Hj Hu]. split; [done|]. by rewrite Hu. Qed.

(** A new execution is one the coordinator can have created. *)
Definition target_ok (t : run_target) : Prop :=
  match t with NewExecution x => sound x | RunId _ => True end.

Lemma run_execution_ok is_new outcome outputs m : runtime_ok m ->
  runtime_ok (run_execution_ is_new outcome outputs m).2.
Proof using Hskills.
  intros Hm. destruct (run_execution_ is_new outcome outputs m) as [r m'] eqn:H. unfold run_execution in H.
  pose proof (preserved_initialize (P := P) clock id_factory is_new m Hm) as H1.
  apply bind_inv in H as [([] & m1 & E1 & H)|(e & E1 & ->)]; rewrite E1 in H1; cbn in H1; [|done].
  apply bind_inv in H as [(? & ? & E2 & H)|(e & E2 & ->)]; [injection E2 as <- <-|done].
  destruct (is_terminal_run m1).
  { pose proof (aside_preserved _ (aside_result (P := P)) m1 H1) as Hr. by rewrite H in Hr. }
  assert (along (P := P) preserved (if bool_decide (WorkflowRun.status (ExecutionState.workflow_run (rt_execution m1))
    = WorkflowRunStatus.CREATED) then start_run clock id_factory else mret tt)) as Hs.
  { case_bool_decide; [apply preserved_start|apply along_ret; typeclasses eauto]. }
  specialize (Hs m1 H1).
  apply bind_inv in H as [([] & m2 & E3 & H)|(e & E3 & ->)]; rewrite E3 in Hs; cbn in Hs; [|done].
  pose proof (preserved_prepare (P := P) clock id_factory approval_ttl outcome outputs m2 Hs) as Hp.
  apply bind_inv in H as [(prepared & m3 & E4 & H)|(e & E4 & ->)]; rewrite E4 in Hp; cbn in Hp; [|done].
  destruct prepared; [by injection H as _ <-|].
  pose proof (loop_ok clock id_factory skills capability_provider max_decisions approval_ttl Hskills max_decisions m3 Hp) as Hl.
  by rewrite H in Hl.
Qed.

(** *** Resolution *)

Lemma sound_checkpoints x cps : sound x ->
  sound (ExecutionState.mk (ExecutionState.workflow x) (ExecutionState.workflow_run x)
           (ExecutionState.agent_session x) (ExecutionState.step_runs x) cps).
Proof using. intros [[] Ha]. split; [by split|]. revert Ha. by apply attempts_ok_same. Qed.

(** A loaded execution is the stored one. *)
Lemma load_cases run_id p r p' : process_ready p -> load_execution run_id p = (r, p') ->
  pr_observed p' = pr_observed p /\ pr_environment p' = pr_environment p /\
  forall x, r = Ok x -> exists row x0,
    Dict.get run_id (db_executions (pr_database p)) = Some row /\
    WorkflowRepository.to_execution row = Ok x0 /\
    x = ExecutionState.mk (ExecutionState.workflow x0) (ExecutionState.workflow_run x0)
          (ExecutionState.agent_session x0) (ExecutionState.step_runs x0)
          (ExecutionState.checkpoints x) /\
    pr_versions p' = Dict.set run_id (Some (WorkflowRepository.version_of row)) (pr_versions p).
Proof using.
  intros [Hj Hu] H. unfold load_execution in H.
  apply bind_inv in H as [(? & ? & E & H)|(e & E & ->)]; [injection E as <- <-|done].
  apply bind_inv in H as [(found & p1 & E & H)|(e & E & ->)]; injection E as E <-; [|by split_and!].
  destruct found as [x0|]; [|by injection H as <- <-]. rewrite Hu in E.
  unfold WorkflowRepository.get, reconstitute in E. cbn [workflows refresh Versioned.records Versioned.refresh] in E.
  destruct (Dict.get run_id (db_executions (pr_database p))) as [row|] eqn:Hrow; [|done].
  apply bind_Ok in E as (x1 & Hx1 & [= ->]).
  cbv zeta in H. case_bool_decide; [by injection H as <- <-; split_and!|].
  apply bind_inv in H as [(c & p1 & E & H)|(e & E & ->)]; injection E as E <-; [|by split_and!].
  apply bind_inv in H as [([] & p1 & E1 & H)|(e & E1 & ->)]; injection E1 as E1 <-; [|by split_and!].
  unfold WorkflowRepository.get_version in H. rewrite Hu in H. cbn in H. rewrite Hrow in H. cbn in H.
  injection H as <- <-. split_and!; try done. intros x [= <-]. by exists row, x0.
Qed.

(** A sound execution whose row, if there is one, is consistent with it starts
    in a good state. *)
Lemma start_ok p x : process_ready p -> sound x ->
  (forall row, Dict.get (run_id_of x) (db_executions (pr_database p)) = Some row ->
     WorkflowRepository.key_of row = execution_key x /\ row_entries row = entries x) ->
  runtime_ok (start_machine x p).
Proof using.
  intros [Hj Hu] Hs Hrow. split; [done|done| | |].
  - intros row H. by destruct (Hrow row H).
  - intros row. change (Dict.get (run_id_of x) (Versioned.records (workflows (pr_unit p))) = Some row ->
      WorkflowRepository.key_of row = execution_key x). rewrite Hu. intros H. by destruct (Hrow row H).
  - intros c Hc Hr. destruct (j_recorded _ _ Hj c Hc) as (row & Hget & Hst).
    change (call_run c = run_id_of x) in Hr. rewrite Hr in Hget.
    destruct (Hrow row Hget) as [_ He]. change (has_started (call_attempt c) (entries x)). by rewrite <- He.
Qed.

Lemma process_ok_same p p' : pr_observed p' = pr_observed p -> process_ok p -> process_ok p'.
Proof using. intros H [Hj Hu]. split; unfold pr_calls, pr_unit, pr_database in *; by rewrite H. Qed.

Lemma process_ready_same p p' : pr_observed p' = pr_observed p -> process_ready p -> process_ready p'.
Proof using. intros H [Hj Hu]. split; unfold pr_calls, pr_unit, pr_database in *; by rewrite H. Qed.

(** Loading gives an execution the runtime can go on with. *)
Lemma loaded_ok run_id p x p' : process_ready p -> load_execution run_id p = (Ok x, p') ->
  runtime_ok (start_machine x p').
Proof using.
  intros Hp H. destruct (load_cases _ _ _ _ Hp H) as (Ho & _ & Hx).
  destruct (Hx x eq_refl) as (row & x0 & Hrow & Hto & -> & _). clear Hx.
  pose proof (rd_journal _ Hp) as Hj.
  destruct (row_loads row x0 (j_rows _ _ Hj _ _ Hrow) Hto) as (Hs & He & Hk & Hid).
  apply start_ok; [by eapply process_ready_same|by apply sound_checkpoints|].
  pose proof (ex_ids _ (d_executions _ (proj1 (j_session _ _ Hj))) _ _ Hrow) as Hrid.
  unfold pr_database. rewrite Ho. cbn. intros row'. rewrite Hid, Hrid. unfold pr_database in Hrow. rewrite Hrow.
  intros [= <-]. done.
Qed.

Lemma resolution_cases target p r p' : process_ready p -> target_ok target ->
  resolve_execution target p = (r, p') ->
  pr_observed p' = pr_observed p /\ forall x is_new, r = Ok (x, is_new) ->
    runtime_ok (start_machine x p') /\
    (is_new = false -> exists p0 run_id, pr_observed p0 = pr_observed p /\ load_execution run_id p0 = (Ok x, p')).
Proof using.
  intros Hp Ht H. destruct target as [x|run_id]; unfold resolve_execution in H.
  - apply bind_inv in H as [(? & ? & E & H)|(e & E & ->)]; [injection E as <- <-|done].
    destruct (WorkflowRepository.get_version _ _) as [v|] eqn:Hv.
    + apply bind_inv in H as [(y & p1 & E & H)|(e & E & ->)];
        destruct (load_cases _ _ _ _ Hp E) as (Ho & _ & _); [|by split].
      injection H as <- <-. split; [done|]. intros ? ? [= <- <-]. split; [by eapply loaded_ok|]. by exists p, (run_id_of x).
    + unfold remember in H. injection H as <- <-. split; [done|]. intros ? ? [= <- <-]. split; [|done].
      apply start_ok; [by eapply process_ready_same; [|exact Hp]|done|]. intros row Hrow.
      unfold WorkflowRepository.get_version in Hv. rewrite (rd_rows _ Hp) in Hv. cbn in Hv.
      apply fmap_None in Hv. change (Dict.get (run_id_of x) (db_executions (pr_database p)) = Some row) in Hrow. congruence.
  - apply bind_inv in H as [(y & p1 & E & H)|(e & E & ->)];
      destruct (load_cases _ _ _ _ Hp E) as (Ho & _ & _); [|by split].
    injection H as <- <-. split; [done|]. intros ? ? [= <- <-]. split; [by eapply loaded_ok|]. by exists p, run_id.
Qed.

(** A run keeps the journal, whatever happens. *)
Lemma run_journal target outcome outputs p r p' : process_ready p -> target_ok target ->
  run_ target outcome outputs p = (r, p') -> journal_ok (obs_session (pr_observed p')) (pr_calls p').
Proof using Hskills.
  intros Hp Ht H. unfold run in H.
  apply bind_inv in H as [([x is_new] & p1 & E & H)|(e & E & ->)];
    destruct (resolution_cases _ _ _ _ Hp Ht E) as [Ho Hx].
  2:{ unfold pr_calls. rewrite Ho. apply Hp. }
  destruct (Hx x is_new eq_refl) as [Hm _]. unfold with_execution in H. cbn [fst snd] in H.
  pose proof (run_execution_ok is_new outcome outputs _ Hm) as Hok.
  destruct (run_execution_ is_new outcome outputs (start_machine x p1)) as [r' m']. injection H as _ <-.
  apply (m_journal _ Hok).
Qed.

(** *** Processes that come and go *)

(** The database survives; a process that opens it starts with a clean unit of
    work, with no versions remembered, and with identifiers and a clock that may
    be anywhere. *)
Definition reopen (e : env) (versions : dict string (option Z)) p : process :=
  Process e (Observed (Session (pr_database p) (refresh (pr_database p))) (pr_calls p)) versions.

(** Runs of a process, one after the other or after a crash. *)
Inductive life (db : database) : @process EN P -> Prop :=
  | life_begins e versions : life db (Process e (Observed (Session db (refresh db)) []) versions)
  | life_runs p target outcome outputs r p' : life db p -> pr_unit p = refresh (pr_database p) ->
      target_ok target -> run_ target outcome outputs p = (r, p') -> life db p'
  | life_reopens p e versions : life db p -> life db (reopen e versions p).

Lemma life_journal db p : database_ok db -> rows_ok (db_executions db) -> life db p ->
  journal_ok (obs_session (pr_observed p)) (pr_calls p).
Proof using Hskills.
  intros Hdb Hrows. induction 1 as [e versions|p target outcome outputs r p' _ IH Hu Ht H|p e versions _ IH].
  - split; try done; [split; [done|by apply refreshed_ok]|constructor|..]; set_solver.
  - eapply run_journal; [|exact Ht|exact H]. by apply ok_ready.
  - destruct IH as [[Hd Hb] ? ? ? ? ? ?]. split; try done. split; [done|]. by apply refreshed_ok.
Qed.

(** C3: a skill is called at most once for an attempt of a step, over any number
    of runs, failed runs and restarts of the process on one database; and
    whenever it is called, the database already has the attempt as running and
    the BEFORE_SKILL boundary of that attempt. *)
Theorem skills_called_at_most_once db p : database_ok db -> rows_ok (db_executions db) -> life db p ->
  NoDup (call_key <$> pr_calls p) /\ forall c, c ∈ pr_calls p -> announced c.
Proof using Hskills.
  intros Hdb Hrows Hp. by destruct (life_journal _ _ Hdb Hrows Hp).
Qed.
End running.
