(* ===== verification/RuntimeDurability.v ===== *)
(** What the agent runtime returns is what the database holds: every result is
    yielded with nothing staged and the execution committed, so that another
    process finds the run as the caller was told. *)
From S2P Require Import Prelude Isolation Errors Text Float Value Lexical SkillSchema Sha256 Lifecycle Workflow Checkpoint Coordinator CoordinatorFacts Approval Events Records RecordFacts Provider Budget BudgetFacts Dict Tables TableFacts Repositories RepositoryFacts Manifests UnitOfWork UnitOfWorkFacts CommitFacts RetryPolicy EngineModels References Validator Scheduler Engine EngineFacts EngineCoordinator EngineCoordinatorFacts Skills Calendar AgentRuntime RuntimeInvariants RuntimeFacts.
Local Open Scope string_scope.
Local Open Scope list_scope.
Local Open Scope Z_scope.

(** A row and an execution that agree on what a result shows. *)
Record shown (row : WorkflowExecutionRecord.t) (x : ExecutionState.t) : Prop := {
  sh_status : WorkflowRunRecord.status (WorkflowRepository.run_of row)
              = WorkflowRun.status (ExecutionState.workflow_run x);
  sh_wait_reason : WorkflowRunRecord.wait_reason (WorkflowRepository.run_of row)
                   = WorkflowRun.wait_reason (ExecutionState.workflow_run x);
  sh_error_code : WorkflowRunRecord.error_code (WorkflowRepository.run_of row)
                  = WorkflowRun.error_code (ExecutionState.workflow_run x);
  sh_outputs : WorkflowRunRecord.outputs (WorkflowRepository.run_of row)
               = freeze_mapping (WorkflowRun.outputs (ExecutionState.workflow_run x))
}.

Lemma stored_shown x v row : WorkflowExecutionRecord.from_execution x v = Ok row -> shown row x.
Proof.
  unfold WorkflowExecutionRecord.from_execution. rewrite bind_Ok. intros (run & Hr & H).
  rewrite bind_Ok in H. destruct H as (a & _ & H). rewrite bind_Ok in H. destruct H as (l & _ & H).
  unfold WorkflowExecutionRecord.post_init in H. rewrite then_Ok in H. destruct H as [_ [= <-]].
  unfold WorkflowRunRecord.from_domain, WorkflowRunRecord.post_init in Hr.
  rewrite bind_Ok in Hr. destruct Hr as (i & _ & Hr). rewrite bind_Ok in Hr.
  destruct Hr as (o & [_ ->]%freeze_json_mapping_Ok & [= <-]). done.
Qed.

Lemma loaded_shown row x cps : row_ok row -> WorkflowRepository.to_execution row = Ok x ->
  shown row (ExecutionState.mk (ExecutionState.workflow x) (ExecutionState.workflow_run x)
               (ExecutionState.agent_session x) (ExecutionState.step_runs x) cps).
Proof.
  intros (x0 & v & [Hv _] & Hr) Hx. unfold WorkflowRepository.to_execution in Hx.
  rewrite (execution_round_trip _ _ _ [] Hv Hr) in Hx. injection Hx as <-.
  apply stored_shown in Hr as []. split; cbn -[freeze_mapping thaw_mapping]; try done.
  by rewrite freeze_thaw_mapping.
Qed.

Section durability.
Context {EN : Entities} {P : Type} (clock : nat -> datetime) (id_factory : nat -> string -> string).
Implicit Types (m : @machine EN P).

(** Nothing is staged, and the row of the run shows the execution, at the
    version the runtime remembers. *)
Definition durable m : Prop :=
  rt_unit m = refresh (rt_database m) /\
  exists row, Dict.get (run_id_of (rt_execution m)) (db_executions (rt_database m)) = Some row /\
    shown row (rt_execution m) /\
    Dict.get (run_id_of (rt_execution m)) (rt_versions m) = Some (Some (WorkflowRepository.version_of row)).

Lemma committed_durable m : committed m -> durable m.
Proof using.
  intros [Hu (row & v & Hrow & Hr & Hv)]. split; [done|]. exists row. split; [done|].
  split; [by eapply stored_shown|]. by apply from_execution_fields in Hr as (_ & _ & ->).
Qed.

(** A result shows the execution. *)
Record result_shows (r : RuntimeResult.t) (x : ExecutionState.t) : Prop := {
  rs_run : RuntimeResult.workflow_run_id r = run_id_of x;
  rs_status : RuntimeResult.status r = WorkflowRun.status (ExecutionState.workflow_run x);
  rs_wait_reason : RuntimeResult.wait_reason r = WorkflowRun.wait_reason (ExecutionState.workflow_run x);
  rs_error_code : RuntimeResult.error_code r = WorkflowRun.error_code (ExecutionState.workflow_run x);
  rs_outputs : RuntimeResult.outputs r = freeze_mapping (WorkflowRun.outputs (ExecutionState.workflow_run x))
}.

Lemma result_cases m r m' : runtime_result m = (Ok r, m') -> m' = m /\ result_shows r (rt_execution m).
Proof using.
  intros H. unfold runtime_result in H.
  apply bind_inv in H as [(? & ? & E & H)|(e & _ & [=])]. injection E as <- <-.
  apply bind_inv in H as [(current & ? & E & H)|(e & _ & [=])].
  apply reading_inv in E as [_ ->]. unfold lift_result, RuntimeResult.post_init in H. injection H as H <-.
  split; [done|]. rewrite bind_Ok in H. destruct H as (o & [_ ->]%freeze_json_mapping_Ok & [= <-]). by split.
Qed.

Definition yielded (r : RuntimeResult.t) m : Prop := durable m /\ result_shows r (rt_execution m).

(** What a turn leaves, whether it yields or not. *)
Definition settled_turn (o : option RuntimeResult.t) m : Prop :=
  durable m /\ forall r, o = Some r -> result_shows r (rt_execution m).

(** Where [c] returns from a good state, [Q] holds. *)
Definition finishes {A} (Q : A -> machine -> Prop) (c : M exn machine A) : Prop :=
  forall m a m', runtime_ok m -> c m = (Ok a, m') -> Q a m'.

Lemma finishes_bind {A B} (Q : B -> machine -> Prop) (c : M exn machine A) f :
  along preserved c -> (forall a, finishes Q (f a)) -> finishes Q (c ≫= f).
Proof using.
  intros Hc Hf m b m' Hm H. apply bind_inv in H as [(a & m1 & E & H)|(e & _ & H)]; [|done].
  specialize (Hc m Hm). rewrite E in Hc. exact (Hf a m1 b m' Hc H).
Qed.

Lemma finishes_raise {A} (Q : A -> machine -> Prop) e : finishes Q (raise e).
Proof using. by intros m a m'. Qed.

Lemma finishes_map {A B} (Q : A -> machine -> Prop) (Q' : B -> machine -> Prop) (c : M exn machine A) g :
  finishes Q c -> (forall a m, Q a m -> Q' (g a) m) -> finishes Q' (c ≫= (fun a => mret (g a))).
Proof using.
  intros Hc Hg m b m' Hm H. apply bind_inv in H as [(a & m1 & E & H)|(e & _ & H)]; [|done].
  injection H as <- <-. apply Hg. exact (Hc m a m1 Hm E).
Qed.

Lemma finishes_commit : finishes (fun _ => durable) (commit_execution clock id_factory).
Proof using.
  intros m [] m' Hm H. apply committed_durable.
  by eapply (commit_execution_cases _ _ _ _ _ Hm H).
Qed.

Lemma finishes_yield : finishes yielded (commit_and_yield clock id_factory).
Proof using.
  intros m r m' Hm H. unfold commit_and_yield in H.
  apply bind_inv in H as [([] & m1 & E & H)|(e & _ & H)]; [|done].
  apply result_cases in H as [-> Hr]. split; [|done]. by eapply finishes_commit.
Qed.

Lemma yielded_settled r m : yielded r m -> settled_turn (Some r) m.
Proof using. intros [Hd Hr]. split; [done|]. by intros ? [= <-]. Qed.

Lemma durable_settled m : durable m -> settled_turn None m.
Proof using. by split. Qed.
End durability.

#[export] Hint Resolve yielded_settled durable_settled finishes_commit finishes_yield : reagent.
#[export] Hint Resolve preserved_boundary preserved_yield preserved_complete preserved_fail : reagent.

Ltac finishes_step :=
  first
    [ apply finishes_raise
    | apply finishes_commit
    | apply finishes_yield
    | solve [eauto with reagent]
    | eapply finishes_map; [solve [eauto with reagent]|solve [eauto with reagent]]
    | apply finishes_bind; [solve [along_tac]|intros ?]
    | case_goal ].
Ltac finishes_tac := repeat finishes_step.

Section turns.
Context {EN : Entities} {P : Type} (clock : nat -> datetime) (id_factory : nat -> string -> string).
Context (skills : dict (string * string) (@RegisteredSkill session P)).
Context (capability_provider : option (step_request -> SkillCapabilities.t P)).
Context (max_decisions : nat) (approval_ttl : Z).
Context (Hskills : skills_ok skills).
Implicit Types (m : @machine EN P).

Lemma finishes_complete d result :
  finishes (P := P) (fun _ => durable) (complete_step clock id_factory d result).
Proof using. unfold complete_step, runtime_error. finishes_tac. Qed.

Lemma finishes_fail d e : finishes (P := P) yielded (fail_step clock id_factory d e).
Proof using. unfold fail_step, yield_failure, runtime_error. finishes_tac. Qed.

Lemma finishes_terminal decision :
  finishes (P := P) yielded (apply_terminal_decision clock id_factory decision).
Proof using. unfold apply_terminal_decision, emit_terminal, runtime_error. finishes_tac. Qed.

Lemma finishes_wait decision s sr a policy inputs :
  finishes (P := P) yielded (wait_for_approval clock id_factory approval_ttl decision s sr a policy inputs).
Proof using. unfold wait_for_approval, runtime_error. finishes_tac. Qed.

Lemma finishes_retry decision s a : finishes (P := P) yielded (schedule_retry clock id_factory decision s a).
Proof using. unfold schedule_retry, runtime_error. finishes_tac. Qed.

(** Completing an approval step always makes a checkpoint. *)
Lemma approval_checkpoint b sid sr v outputs w w' :
  apply_decision clock id_factory (ApprovalCompleted b sid sr v outputs) w <> (Ok None, w').
Proof using.
  intros H. unfold apply_decision in H.
  apply bind_inv in H as [([] & w1 & _ & H)|(e & _ & [=])].
  unfold update_step_state in H. repeat apply bind_inv in H as [(? & ? & _ & H)|(e & _ & [=])].
  unfold checkpointed in H. repeat apply bind_inv in H as [(? & ? & _ & H)|(e & _ & [=])]. done.
Qed.

Lemma finishes_approval b sid sr v outputs s :
  finishes (P := P) (fun _ => durable)
    (complete_approval clock id_factory (ApprovalCompleted b sid sr v outputs) s).
Proof using.
  intros m [] m' Hm H. unfold complete_approval in H.
  apply bind_inv in H as [([c|] & m1 & E & H)|(e & _ & [=])].
  - pose proof (preserved_world _ (apply_moves clock id_factory (ApprovalCompleted b sid sr v outputs)) m Hm) as Hm1.
    rewrite E in Hm1.
    assert (finishes (P := P) (fun _ => durable)
      (record clock id_factory APPROVAL_RESOLVED c (Some s) None true ;; commit_execution clock id_factory)) as Hf
      by finishes_tac.
    exact (Hf m1 tt m' Hm1 H).
  - apply zoom_inv in E as (w & E & _). by apply approval_checkpoint in E.
Qed.

Lemma execute_step_settled b sid sr a v skill inputs requires m o m' :
  runtime_ok m -> decide (rt_execution m) = Ok (StepReady b sid sr a v skill inputs requires) ->
  execute_step clock id_factory skills capability_provider
    (StepReady b sid sr a v skill inputs requires) (step_request_of b sid sr a skill inputs) m = (Ok o, m') ->
  settled_turn o m'.
Proof using Hskills.
  intros Hm Hd H. unfold execute_step in H.
  apply bind_inv in H as [([] & m1 & E & H)|(e & _ & [=])].
  destruct (start_step_cases _ _ _ _ _ _ _ _ _ _ _ _ _ Hm Hd E) as (_ & _ & Hp). specialize (Hp eq_refl).
  apply bind_inv in H as [(result & m2 & E2 & H)|(e & _ & [=])].
  pose proof (invoke_cases skills capability_provider Hskills _ _ _ _ Hp E2) as Hm2.
  destruct (SkillResult.success result).
  - eapply (finishes_map (fun _ => durable) settled_turn _ (fun _ => None)); [apply finishes_complete|intros []; apply durable_settled|exact Hm2|exact H].
  - destruct (SkillResult.error result); [|done].
    eapply (finishes_map yielded settled_turn _ Some); [apply finishes_fail|apply yielded_settled|exact Hm2|exact H].
Qed.

Lemma take_settled decision m o m' : runtime_ok m -> durable m -> decide (rt_execution m) = Ok decision ->
  take clock id_factory skills capability_provider approval_ttl decision m = (Ok o, m') -> settled_turn o m'.
Proof using Hskills.
  intros Hm Hdur Hd H.
  assert (Hy : forall c, finishes (P := P) yielded c -> (r ← c; mret (Some r)) m = (Ok o, m') -> settled_turn o m').
  { intros c Hc Ho. eapply (finishes_map yielded settled_turn _ Some); [exact Hc|apply yielded_settled|exact Hm|exact Ho]. }
  destruct decision; cbn [take] in H; [by eapply execute_step_settled|..];
    try (eapply Hy; [|exact H]; first [apply finishes_wait|apply finishes_retry|apply finishes_terminal]).
  - eapply (finishes_map (fun _ => durable) settled_turn _ (fun _ => None)); [apply finishes_approval|intros []; apply durable_settled|exact Hm|exact H].
  - apply bind_inv in H as [(r & m1 & E & H)|(e & _ & [=])]. injection H as <- <-.
    apply result_cases in E as [-> Hr]. by apply yielded_settled.
Qed.

Lemma loop_yields fuel m r m' : runtime_ok m -> durable m ->
  decision_loop clock id_factory skills capability_provider max_decisions approval_ttl fuel m = (Ok r, m') ->
  yielded r m'.
Proof using Hskills.
  revert m. induction fuel as [|fuel IH]; intros m Hm Hdur H; [done|]. cbn [decision_loop] in H.
  apply bind_inv in H as [(decision & m1 & E & H)|(e & _ & [=])]. apply reading_inv in E as [Hd ->].
  symmetry in Hd. pose proof (take_ok clock id_factory skills capability_provider approval_ttl Hskills _ _ Hm Hd) as Hm2.
  apply bind_inv in H as [(o & m2 & E & H)|(e & _ & [=])]. rewrite E in Hm2.
  destruct (take_settled _ _ _ _ Hm Hdur Hd E) as [Hdur2 Hr].
  destruct o as [r0|]; [|by eapply IH]. injection H as <- <-. split; [done|by apply Hr].
Qed.
End turns.

(** ** Resuming and starting *)

#[export] Hint Resolve preserved_pending preserved_recovered preserved_waiting preserved_refused : reagent.

Section resuming.
Context {EN : Entities} {P : Type} (clock : nat -> datetime) (id_factory : nat -> string -> string).
Context (approval_ttl : Z).
Implicit Types (m : @machine EN P).

(** A computation that only looks. *)
Lemma get_inv {B} (f : @machine EN P -> M exn machine B) m r m' :
  (get_state ≫= f) m = (r, m') -> f m m = (r, m').
Proof. done. Qed.

Lemma pending_durable m m' : runtime_ok m -> durable m ->
  ensure_pending_approval clock id_factory approval_ttl m = (Ok tt, m') -> durable m'.
Proof.
  intros Hm Hd H. unfold ensure_pending_approval in H. apply get_inv in H. cbv zeta in H.
  apply bind_inv in H as [(pending & m1 & E & H)|(e & _ & [=])]. injection E as E <-.
  destruct (negb _); [by injection H as <-|].
  match type of H with ?c m = _ => assert (finishes (P := P) (fun _ => durable) c) as Hf end.
  { unfold runtime_error. finishes_tac. }
  by eapply Hf.
Qed.

Lemma result_settled m o m' : durable m ->
  (r ← runtime_result; mret (Some r)) m = (Ok o, m') -> settled_turn (P := P) o m'.
Proof.
  intros Hd H. apply bind_inv in H as [(r & m1 & E & H)|(e & _ & [=])]. injection H as <- <-.
  apply result_cases in E as [-> Hr]. by apply yielded_settled.
Qed.

Lemma recovered_settled :
  finishes (P := P) settled_turn (record_recovered clock id_factory ;; mret None).
Proof.
  apply (finishes_map (fun _ => durable) settled_turn _ (fun _ => None)); [|by intros [] m; apply durable_settled].
  unfold record_recovered. finishes_tac.
Qed.

(** Resuming with an outcome commits, whatever was staged before. *)
Lemma outcome_settled outcome outputs :
  finishes (P := P) settled_turn (resume_waiting clock id_factory approval_ttl (Some outcome) outputs).
Proof.
  unfold resume_waiting. cbv zeta. do 4 (apply finishes_bind; [solve [along_tac]|intros ?]).
  intros m1 o1 m1' Hm1 H1. apply bind_inv in H1 as [([] & m2 & E & H1)|(e & _ & [=])].
  pose proof (finishes_commit _ _ _ _ _ Hm1 E) as Hd2. apply get_inv in H1.
  destruct (is_terminal_run m2); [exact (result_settled _ _ _ Hd2 H1)|]. injection H1 as <- <-. by apply durable_settled.
Qed.

Lemma waiting_settled outcome outputs m o m' : runtime_ok m -> durable m ->
  resume_waiting clock id_factory approval_ttl outcome outputs m = (Ok o, m') -> settled_turn o m'.
Proof.
  intros Hm Hd H. destruct outcome as [outcome|]; [by eapply outcome_settled|]. unfold resume_waiting in H.
  apply bind_inv in H as [([] & m1 & E & H)|(e & _ & [=])]. eapply result_settled; [|exact H].
  by eapply pending_durable.
Qed.

Lemma active_settled active c : finishes (P := P) settled_turn (resume_active clock id_factory active c).
Proof.
  intros m o m' Hm H. unfold resume_active in H.
  pose proof (preserved_world _ (resume_moves clock id_factory c) m Hm) as Hm1.
  destruct (on_world (resume_and_decide clock id_factory c) m) as [[d|e] m1]; cbn in Hm1.
  - by eapply recovered_settled.
  - destruct (is_instance _ _); [|done]. unfold recovery_refused in H. apply get_inv in H.
    destruct (is_terminal_run m1); [|done].
    match type of H with ?c0 m1 = _ => assert (finishes (P := P) settled_turn c0) as Hf end; [|by eapply Hf].
    finishes_tac.
Qed.

Lemma prepare_settled outcome outputs m o m' : runtime_ok m -> durable m ->
  prepare_resume clock id_factory approval_ttl outcome outputs m = (Ok o, m') -> settled_turn o m'.
Proof.
  intros Hm Hd H. unfold prepare_resume in H. apply get_inv in H.
  destruct (WorkflowRun.status (ExecutionState.workflow_run (rt_execution m)));
    try (by eapply result_settled); try (injection H as <- <-; by apply durable_settled).
  - apply bind_inv in H as [(current & m1 & E & H)|(e & _ & [=])]. apply reading_inv in E as [_ ->].
    destruct (List.filter _ current) as [|active ?]; [injection H as <- <-; by apply durable_settled|].
    match type of H with ?c m = _ => assert (finishes (P := P) settled_turn c) as Hf end; [|by eapply Hf].
    unfold recover_active. pose proof (fun a c => active_settled a c). finishes_tac.
  - by eapply waiting_settled.
  - match type of H with ?c m = _ => assert (finishes (P := P) settled_turn c) as Hf end; [|by eapply Hf].
    pose proof recovered_settled. finishes_tac.
Qed.

(** *** The beginning of a run *)

(** Memory that is there is not initialized again. *)
Lemma context_kept m p k c producer refs rv :
  last (MemoryRepository.history p k (memory (rt_unit m))) = Some rv ->
  on_uow (on_memory (MemoryRepository.initialize_context p k c producer refs)) m = (Ok rv, m).
Proof.
  destruct m as [w [[db []] calls] v]. intros H.
  unfold on_uow, on_session, on_observed, on_unit, on_memory, zoom, rt_unit, rt_session in *. simpl in *.
  unfold MemoryRepository.initialize_context, mbind, M_bind, gets. by rewrite H.
Qed.

Lemma memory_kept m r m' :
  (latest_revision_number (WorkflowRun.project_id (ExecutionState.workflow_run (rt_execution m)))
     (run_id_of (rt_execution m)) (memory (rt_unit m)) =? 0) = false ->
  initialize_memory m = (r, m') -> m' = m.
Proof.
  intros Hmem H. unfold initialize_memory in H. apply get_inv in H. cbv zeta in H.
  unfold latest_revision_number in Hmem.
  destruct (last _) as [rv|] eqn:Hl; [|done].
  apply bind_inv in H as [(rev & m1 & E & H)|(e & E & ->)]; rewrite (context_kept _ _ _ _ _ _ _ Hl) in E; [|done].
  injection E as <- <-. by injection H as _ <-.
Qed.

Lemma baseline_kept m r m' :
  List.length (CheckpointRepository.list_records (run_id_of (rt_execution m)) (checkpoints (rt_unit m))) <> 0%nat ->
  record_baseline clock id_factory m = (r, m') -> m' = m.
Proof.
  intros Hl H. unfold record_baseline in H. apply get_inv in H. cbv zeta in H.
  destruct (last _); [|by injection H as _ <-]. case_bool_decide as He; [by rewrite He in Hl|].
  by injection H as _ <-.
Qed.

Lemma initialize_durable is_new m m' : runtime_ok m -> (is_new = false -> durable m) ->
  initialize clock id_factory is_new m = (Ok tt, m') -> durable m'.
Proof.
  intros Hm Hd H. unfold initialize in H. apply get_inv in H. cbv zeta in H.
  assert (finishes (P := P) (fun _ => durable) (initialize_memory ;;
    record_baseline clock id_factory ;; commit_execution clock id_factory)) as Hf by finishes_tac.
  destruct is_new; [by eapply Hf|]. destruct (latest_revision_number _ _ _ =? 0) eqn:Hmem; [by eapply Hf|].
  destruct (bool_decide _) eqn:Hck; [by eapply Hf|]. clear Hf. cbn [orb] in H.
  apply bool_decide_eq_false in Hck.
  apply bind_inv in H as [([] & m1 & E & H)|(e & _ & [=])]. apply memory_kept in E as ->; [|done].
  apply bind_inv in H as [([] & m1 & E & H)|(e & _ & [=])]. apply baseline_kept in E as ->; [|done].
  injection H as <-. by apply Hd.
Qed.

Lemma start_durable : finishes (P := P) (fun _ => durable) (start_run clock id_factory).
Proof. unfold start_run. finishes_tac. Qed.
End resuming.

(** ** Whole runs *)

Section runs.
Context {EN : Entities} {P : Type} (clock : nat -> datetime) (id_factory : nat -> string -> string).
Context (skills : dict (string * string) (@RegisteredSkill session P)).
Context (capability_provider : option (step_request -> SkillCapabilities.t P)).
Context (max_decisions : nat) (approval_ttl : Z).
Context (Hskills : skills_ok skills).
Implicit Types (m : @machine EN P) (p : @process EN P).

(** What is loaded is what is stored. *)
Lemma loaded_durable run_id p x p' : process_ok p -> load_execution run_id p = (Ok x, p') ->
  durable (start_machine x p').
Proof using.
  intros Hp H. destruct (load_cases _ _ _ _ (ok_ready _ Hp) H) as (Ho & _ & Hx).
  destruct (Hx x eq_refl) as (row & x0 & Hrow & Hto & -> & Hv). clear Hx.
  pose proof (pr_journal _ Hp) as Hj. pose proof (j_rows _ _ Hj _ _ Hrow) as Hok.
  destruct (row_loads row x0 Hok Hto) as (_ & _ & _ & Hid).
  pose proof (ex_ids _ (d_executions _ (proj1 (j_session _ _ Hj))) _ _ Hrow) as Hrid.
  split.
  - exact (pr_clean _ (process_ok_same _ _ Ho Hp)).
  - exists row. unfold run_id_of in *. cbn -[Dict.get]. rewrite Hid, Hrid. split; [|split].
    + change (Dict.get run_id (db_executions (pr_database p')) = Some row). unfold pr_database. by rewrite Ho.
    + by apply loaded_shown.
    + rewrite Hv. by rewrite Dict.get_set_eq.
Qed.

Lemma run_execution_yields is_new outcome outputs m r m' : runtime_ok m -> (is_new = false -> durable m) ->
  run_execution clock id_factory skills capability_provider max_decisions approval_ttl is_new outcome outputs m
    = (Ok r, m') -> yielded r m'.
Proof using Hskills.
  intros Hm Hd H. unfold run_execution in H.
  pose proof (preserved_initialize (P := P) clock id_factory is_new m Hm) as Hm1.
  apply bind_inv in H as [([] & m1 & E & H)|(e & _ & [=])]. rewrite E in Hm1.
  pose proof (initialize_durable clock id_factory _ _ _ Hm Hd E) as Hd1. apply get_inv in H.
  destruct (is_terminal_run m1).
  { apply result_cases in H as [-> Hr]. by split. }
  assert (Hs : forall m2, (if bool_decide (WorkflowRun.status (ExecutionState.workflow_run (rt_execution m1))
    = WorkflowRunStatus.CREATED) then start_run clock id_factory else mret tt) m1 = (Ok tt, m2) ->
    runtime_ok m2 /\ durable m2).
  { intros m2 E2. case_bool_decide; [|by injection E2 as <-]. split; [|by eapply start_durable].
    pose proof (preserved_start (P := P) clock id_factory m1 Hm1) as Hp. by rewrite E2 in Hp. }
  apply bind_inv in H as [([] & m2 & E2 & H)|(e & _ & [=])]. destruct (Hs m2 E2) as [Hm2 Hd2].
  pose proof (preserved_prepare (P := P) clock id_factory approval_ttl outcome outputs m2 Hm2) as Hm3.
  apply bind_inv in H as [(prepared & m3 & E3 & H)|(e & _ & [=])]. rewrite E3 in Hm3.
  destruct (prepare_settled _ _ _ _ _ _ _ _ Hm2 Hd2 E3) as [Hd3 Hr].
  destruct prepared as [r0|]; [|by eapply loop_yields].
  injection H as <- <-. split; [done|by apply Hr].
Qed.

(** C4: when the runtime returns a result, nothing is staged in its unit of work,
    and the database holds the run with the status, the wait reason, the error
    code and the outputs of the result, at the version the runtime remembers. *)
Theorem results_are_durable target outcome outputs p r p' : process_ok p -> target_ok target ->
  run clock id_factory skills capability_provider max_decisions approval_ttl target outcome outputs p = (Ok r, p') ->
  pr_unit p' = refresh (pr_database p') /\
  exists row, Dict.get (RuntimeResult.workflow_run_id r) (db_executions (pr_database p')) = Some row /\
    WorkflowRunRecord.status (WorkflowRepository.run_of row) = RuntimeResult.status r /\
    WorkflowRunRecord.wait_reason (WorkflowRepository.run_of row) = RuntimeResult.wait_reason r /\
    WorkflowRunRecord.error_code (WorkflowRepository.run_of row) = RuntimeResult.error_code r /\
    WorkflowRunRecord.outputs (WorkflowRepository.run_of row) = RuntimeResult.outputs r /\
    Dict.get (RuntimeResult.workflow_run_id r) (pr_versions p') = Some (Some (WorkflowRepository.version_of row)).
Proof using Hskills.
  intros Hp Ht H. unfold run in H.
  apply bind_inv in H as [([x is_new] & p1 & E & H)|(e & _ & [=])].
  destruct (resolution_cases _ _ _ _ (ok_ready _ Hp) Ht E) as [Ho Hx]. destruct (Hx x is_new eq_refl) as [Hm Hload].
  unfold with_execution in H. cbn [fst snd] in H.
  destruct (run_execution _ _ _ _ _ _ _ _ _ _) as [r' m'] eqn:Hrun. injection H as -> <-.
  apply run_execution_yields in Hrun as [[Hu (row & Hrow & [Hs Hw He Hout] & Hv)] [Hr Hrs Hrw Hre Hro]]; [|done|].
  - split; [exact Hu|]. exists row. rewrite Hr, Hrs, Hrw, Hre, Hro. by split_and!.
  - intros Hn. destruct (Hload Hn) as (p0 & run_id & Ho0 & Hl).
    eapply loaded_durable; [|exact Hl]. by eapply process_ok_same.
Qed.
End runs.
