(* ===== verification/RuntimeBounds.v ===== *)
(** How much one run of the agent runtime does: outside the call of a skill no
    operation touches the log of calls, and a run takes at most as many
    decisions, hence calls at most as many skills, as its limit says. *)
From S2P Require Import Prelude Isolation Errors Value Lexical SkillSchema Lifecycle Workflow Checkpoint Coordinator Records Provider Budget Dict Tables Repositories UnitOfWork EngineModels Engine EngineCoordinator Skills AgentRuntime RuntimeInvariants RuntimeFacts.
Local Open Scope string_scope.
Local Open Scope list_scope.
Local Open Scope Z_scope.

Section quiet.
Context {EN : Entities} {P : Type} (clock : nat -> datetime) (id_factory : nat -> string -> string).
Context (capability_provider : option (step_request -> SkillCapabilities.t P)) (approval_ttl : Z).
Implicit Types (m : @machine EN P).

(** No skill was called. *)
Definition quiet m m' : Prop := rt_calls m' = rt_calls m.

#[global] Instance quiet_preorder : PreOrder quiet.
Proof. split; [by intros m|]. intros m1 m2 m3 H1 H2. unfold quiet in *. congruence. Qed.

Lemma quiet_world {A} (c : M exn Coordinator.world A) : along quiet (on_world c).
Proof using. intros m. unfold on_world, zoom. by destruct (c _). Qed.

Lemma quiet_session {A} (c : M exn session A) : along quiet (on_session c).
Proof using. intros m. unfold on_session, on_observed, zoom. by destruct (c _). Qed.

Lemma quiet_uow {A} (c : M exn unit_of_work A) : along quiet (on_uow c).
Proof using. apply quiet_session. Qed.

Lemma quiet_rollback {A} (c : M exn machine A) : along quiet c -> along quiet (or_rollback c).
Proof using.
  intros Hc m. unfold or_rollback. specialize (Hc m). destruct (c m) as [[a|e] m1]; [done|].
  etrans; [exact Hc|]. apply quiet_session.
Qed.

Lemma quiet_version run_id version : along quiet (modify (set_version run_id version)).
Proof using. by intros m. Qed.
End quiet.

Create HintDb quiet.
#[export] Hint Resolve quiet_world quiet_session quiet_uow quiet_rollback quiet_version : quiet.

(** Descend through an operation down to the parts that are quiet. *)
Ltac quiet_step :=
  first
    [ apply along_ret; typeclasses eauto
    | apply along_raise; typeclasses eauto
    | apply along_lift; typeclasses eauto
    | apply along_get; typeclasses eauto
    | apply along_reading; typeclasses eauto
    | apply along_each; [typeclasses eauto|intros ?]
    | solve [eauto with quiet]
    | apply quiet_rollback
    | apply along_bind; [typeclasses eauto| |intros ?]
    | case_goal ].
Ltac quiet_tac := repeat quiet_step.

Section operations.
Context {EN : Entities} {P : Type} (clock : nat -> datetime) (id_factory : nat -> string -> string).
Context (approval_ttl : Z).

Lemma quiet_event t p sv s : along (P := P) quiet (emit_event clock id_factory t p sv s).
Proof using. unfold emit_event. quiet_tac. Qed.
Hint Resolve quiet_event : quiet.

Lemma quiet_record b c s a e : along (P := P) quiet (record clock id_factory b c s a e).
Proof using. unfold record, step_run_id_of. quiet_tac. Qed.
Hint Resolve quiet_record : quiet.

Lemma quiet_sync : along (P := P) quiet (sync_domain_checkpoints clock id_factory).
Proof using.
  unfold sync_domain_checkpoints. apply along_bind; [typeclasses eauto|quiet_tac|intros m].
  generalize (Checkpoint.id <$> CheckpointRepository.list
    (WorkflowRun.id (ExecutionState.workflow_run (rt_execution m))) (checkpoints (rt_unit m))) as persisted.
  induction (ExecutionState.checkpoints (rt_execution m)) as [|c cs IH]; intros persisted; cbn [sync_checkpoints];
    quiet_tac.
Qed.
Hint Resolve quiet_sync : quiet.

Lemma quiet_commit : along (P := P) quiet (commit_execution clock id_factory).
Proof using. unfold commit_execution. quiet_tac. Qed.
Hint Resolve quiet_commit : quiet.

Lemma quiet_boundary b s a : along (P := P) quiet (create_boundary clock id_factory b s a).
Proof using. unfold create_boundary. quiet_tac. Qed.
Hint Resolve quiet_boundary : quiet.

Lemma quiet_yield : along (P := P) quiet (commit_and_yield clock id_factory).
Proof using. unfold commit_and_yield, runtime_result. quiet_tac. Qed.
Hint Resolve quiet_yield : quiet.

Lemma quiet_complete d result : along (P := P) quiet (complete_step clock id_factory d result).
Proof using. unfold complete_step, update_memory, AgentRuntime.save_artifact, runtime_error. quiet_tac. Qed.

Lemma quiet_fail d e : along (P := P) quiet (fail_step clock id_factory d e).
Proof using. unfold fail_step, yield_failure, record_latest, latest, runtime_error. quiet_tac. Qed.

Lemma quiet_start decision d : along (P := P) quiet (start_step clock id_factory decision d).
Proof using. unfold start_step, runtime_error. quiet_tac. Qed.

Lemma quiet_wait decision s sr a policy inputs :
  along (P := P) quiet (wait_for_approval clock id_factory approval_ttl decision s sr a policy inputs).
Proof using. unfold wait_for_approval, create_approval_request, runtime_error. quiet_tac. Qed.

Lemma quiet_retry decision s a : along (P := P) quiet (schedule_retry clock id_factory decision s a).
Proof using. unfold schedule_retry, runtime_error. quiet_tac. Qed.

Lemma quiet_terminal decision : along (P := P) quiet (apply_terminal_decision clock id_factory decision).
Proof using. unfold apply_terminal_decision, emit_terminal, step_run_id_of, runtime_error. quiet_tac. Qed.

Lemma quiet_approval decision s : along (P := P) quiet (complete_approval clock id_factory decision s).
Proof using. unfold complete_approval. quiet_tac. Qed.

Lemma quiet_initialize is_new : along (P := P) quiet (initialize clock id_factory is_new).
Proof using. unfold initialize, initialize_memory, record_baseline. quiet_tac. Qed.

Lemma quiet_start_run : along (P := P) quiet (start_run clock id_factory).
Proof using. unfold start_run. quiet_tac. Qed.

Lemma quiet_active active c : along (P := P) quiet (resume_active clock id_factory active c).
Proof using.
  intros m. unfold resume_active. pose proof (quiet_world (resume_and_decide clock id_factory c) m) as Hq.
  destruct (on_world _ m) as [[d|e] m1]; (etrans; [exact Hq|]).
  - assert (along (P := P) quiet (record_recovered clock id_factory ;; mret (@None RuntimeResult.t))) as Hr;
      [|apply Hr]. unfold record_recovered, record_latest, latest. quiet_tac.
  - destruct (is_instance _ _); [|done].
    assert (along (P := P) quiet (recovery_refused clock id_factory active e)) as Hr; [|apply Hr].
    unfold recovery_refused, record_latest, latest. quiet_tac.
Qed.
Hint Resolve quiet_active : quiet.

Lemma quiet_prepare outcome outputs :
  along (P := P) quiet (prepare_resume clock id_factory approval_ttl outcome outputs).
Proof using.
  unfold prepare_resume, resume_waiting, recover_active, record_recovered, ensure_pending_approval,
    create_approval_request, record_latest, latest, runtime_result, runtime_error. quiet_tac.
Qed.
End operations.

#[export] Hint Resolve quiet_event quiet_record quiet_sync quiet_commit quiet_boundary quiet_yield
  quiet_complete quiet_fail quiet_start quiet_wait quiet_retry quiet_terminal quiet_approval
  quiet_initialize quiet_start_run quiet_active quiet_prepare : quiet.

Section bounds.
Context {EN : Entities} {P : Type} (clock : nat -> datetime) (id_factory : nat -> string -> string).
Context (skills : dict (string * string) (@RegisteredSkill session P)).
Context (capability_provider : option (step_request -> SkillCapabilities.t P)).
Context (max_decisions : nat) (approval_ttl : Z).
Implicit Types (m : @machine EN P) (p : @process EN P).

(** At most [n] calls follow those already logged. *)
Definition calls_within (n : nat) (old new : list (skill_call P)) : Prop :=
  exists l, new = old ++ l /\ (List.length l <= n)%nat.

Lemma within_refl n l : calls_within n l l.
Proof using. exists []. rewrite app_nil_r. split; [done|cbn; lia]. Qed.

Lemma within_quiet n m m' : quiet m m' -> calls_within n (rt_calls m) (rt_calls m').
Proof using. intros ->. apply within_refl. Qed.

Lemma within_trans i j l1 l2 l3 : calls_within i l1 l2 -> calls_within j l2 l3 -> calls_within (i + j) l1 l3.
Proof using.
  intros (l & -> & Hl) (l' & -> & Hl'). exists (l ++ l'). rewrite app_assoc, length_app. split; [done|lia].
Qed.

(** At most [n] skills are called on the way. *)
Definition calls_at_most (n : nat) {A} (c : M exn machine A) : Prop :=
  forall m, calls_within n (rt_calls m) (rt_calls (c m).2).

Lemma at_most_quiet n {A} (c : M exn machine A) : along quiet c -> calls_at_most n c.
Proof using. intros Hc m. apply within_quiet, Hc. Qed.

Lemma at_most_bind i j {A B} (c : M exn machine A) (f : A -> M exn machine B) :
  calls_at_most i c -> (forall a, calls_at_most j (f a)) -> calls_at_most (i + j) (c ≫= f).
Proof using.
  intros Hc Hf m. specialize (Hc m). unfold mbind, M_bind.
  destruct (c m) as [[a|e] m1]; cbn [snd] in Hc.
  - eapply within_trans; [exact Hc|apply (Hf a m1)].
  - destruct Hc as (l & Hl & Hn). exists l. split; [exact Hl|lia].
Qed.

Lemma at_most_invoke d : calls_at_most 1 (invoke_skill skills capability_provider d).
Proof using.
  unfold invoke_skill. apply (at_most_bind 0 1); [apply at_most_quiet; quiet_tac|intros m0].
  apply (at_most_bind 0 1); [apply at_most_quiet; quiet_tac|intros context].
  apply (at_most_bind 0 1); [apply at_most_quiet; quiet_tac|intros reference].
  intros m. unfold on_observed, zoom.
  destruct (execute _ _ _ _ _ _ (rt_observed m)) as [r o] eqn:H.
  apply execute_cases in H as [->|(skill & context' & args & _ & _ & _ & _ & ->)]; [apply within_refl|].
  by exists [Call EN P context' args (rt_database m)].
Qed.

Lemma at_most_step decision d :
  calls_at_most 1 (execute_step clock id_factory skills capability_provider decision d).
Proof using.
  unfold execute_step. apply (at_most_bind 0 1); [by apply at_most_quiet, quiet_start|intros _].
  apply (at_most_bind 1 0); [apply at_most_invoke|intros result].
  apply at_most_quiet. unfold runtime_error. quiet_tac.
Qed.

Lemma at_most_take decision :
  calls_at_most 1 (take clock id_factory skills capability_provider approval_ttl decision).
Proof using.
  destruct decision; [apply at_most_step|..]; apply at_most_quiet; unfold take, runtime_result; quiet_tac.
Qed.

Lemma at_most_loop fuel :
  calls_at_most fuel (decision_loop clock id_factory skills capability_provider max_decisions approval_ttl fuel).
Proof using.
  induction fuel as [|fuel IH]; cbn [decision_loop]; [apply at_most_quiet; unfold runtime_error; quiet_tac|].
  apply (at_most_bind 0 (S fuel)); [apply at_most_quiet; quiet_tac|intros decision].
  apply (at_most_bind 1 fuel); [apply at_most_take|intros [r|]; [apply at_most_quiet; quiet_tac|exact IH]].
Qed.

Lemma at_most_execution is_new outcome outputs : calls_at_most max_decisions
  (run_execution clock id_factory skills capability_provider max_decisions approval_ttl is_new outcome outputs).
Proof using.
  unfold run_execution. apply (at_most_bind 0 max_decisions); [apply at_most_quiet; quiet_tac|intros _].
  apply (at_most_bind 0 max_decisions); [apply at_most_quiet; quiet_tac|intros m].
  destruct (is_terminal_run m); [apply at_most_quiet; unfold runtime_result; quiet_tac|].
  apply (at_most_bind 0 max_decisions); [apply at_most_quiet; quiet_tac|intros _].
  apply (at_most_bind 0 max_decisions); [apply at_most_quiet; quiet_tac|intros [r|]];
    [apply at_most_quiet; quiet_tac|apply at_most_loop].
Qed.

Lemma resolve_quiet target p : pr_calls (resolve_execution target p).2 = pr_calls p.
Proof using.
  assert (Hload : forall run_id p0, pr_calls (load_execution run_id p0).2 = pr_calls p0).
  { intros run_id p0. unfold load_execution, runtime_error, mbind, M_bind, mret, M_ret, raise, lift_result, remember, modify.
    cbn -[WorkflowRepository.get WorkflowRepository.get_version CheckpointRepository.list ExecutionState.latest_checkpoint
          Checkpoint.verify_integrity].
    by repeat case_match. }
  destruct target as [x|run_id]; unfold resolve_execution.
  - unfold mbind at 1, M_bind at 1. cbn [get_state].
    destruct (WorkflowRepository.get_version _ _).
    + unfold mbind, M_bind. specialize (Hload (WorkflowRun.id (ExecutionState.workflow_run x)) p).
      by destruct (load_execution _ p) as [[y|e] p1].
    + done.
  - unfold mbind, M_bind. specialize (Hload run_id p). by destruct (load_execution _ p) as [[y|e] p1].
Qed.

(** C32: one run of the runtime calls at most [max_decisions] skills, whether it
    returns or raises, and keeps the log of the earlier calls. *)
Theorem calls_bounded target outcome outputs p r p' :
  run clock id_factory skills capability_provider max_decisions approval_ttl target outcome outputs p = (r, p') ->
  exists l, pr_calls p' = pr_calls p ++ l /\ (List.length l <= max_decisions)%nat.
Proof using.
  intros H. unfold run in H. pose proof (resolve_quiet target p) as Hq.
  apply bind_inv in H as [([x is_new] & p1 & E & H)|(e & E & ->)]; rewrite E in Hq; cbn [snd] in Hq;
    [|rewrite Hq; apply within_refl].
  unfold with_execution in H. cbn [fst snd] in H.
  pose proof (at_most_execution is_new outcome outputs (start_machine x p1)) as Hb.
  destruct (run_execution _ _ _ _ _ _ _ _ _ _) as [r' m']. injection H as <- <-.
  change (calls_within max_decisions (pr_calls p1) (rt_calls m')) in Hb. by rewrite Hq in Hb.
Qed.
End bounds.
