(* ===== verification/RuntimeExamples.v ===== *)
(** The agent runtime on a concrete run: a workflow of one step, a skill that
    answers, an empty database. The theorems on runs apply to it. *)
From S2P Require Import Prelude Isolation Errors Text Float Value Lexical SkillSchema Sha256 Lifecycle Workflow Checkpoint Coordinator CoordinatorFacts CoordinatorSpec Approval Events Records RecordFacts Provider Budget Dict Tables Repositories Manifests UnitOfWork UnitOfWorkFacts Concurrency RetryPolicy EngineModels Engine EngineCoordinator Skills Calendar AgentRuntime RuntimeInvariants RuntimeFacts RuntimeDurability RuntimeBounds.
Local Open Scope string_scope.
Local Open Scope list_scope.
Local Open Scope Z_scope.

(** What the coordinator creates can be given to the runtime. *)
Lemma created_sound clock id_factory w p a k inp prof e x e' :
  NoDup (Workflow.step_ids w) ->
  (forall step, step ∈ Workflow.steps w -> 1 <= WorkflowStep.max_attempts step) ->
  create_workflow_run clock id_factory w p a k inp prof e = (Ok x, e') -> sound x.
Proof.
  intros Hnd Hmax H. split; [by eapply create_valid|].
  apply create_workflow_run_Ok in H as (run & session & steps & e1 & ts & _ & _ & Hall & Hx & _).
  pose proof (ps_checkpoint _ _ _ (attempts_primitive clock id_factory)
                (World e1 (ExecutionState.mk w run session steps []))) as Hc.
  rewrite Hx in Hc. apply Hc. by apply fresh_attempts_ok.
Qed.

Module Answering.
Definition text_field : FieldSchema := Field "string" false false None [] false [] None None None None.
Definition text_schema : SkillSchema.t := SkillSchema.mk [("text", text_field)] true.
Definition answer : SkillDefinition.t :=
  SkillDefinition.mk "echo" "1.0.0" "Echo" text_schema text_schema
    (SkillMetadata.mk [] [] "none" true true 30 "builtin" "v").

Definition run_answer : @implementation (@session sample_entities) unit :=
  fun _ _ s => (Ok (Plain (VDict false [("text", VStr "done")])), s).

Definition skills : dict (string * string) (@RegisteredSkill (@session sample_entities) unit) :=
  [(("echo", "1.0.0"), Registered answer run_answer)].

Definition one_step : Workflow.t :=
  Workflow.mk "wf" "1" "One step" [sample_skill "plan" []] "reagent/v1alpha1" []
    [("report", VStr "${nodes.plan.outputs.text}")].

Definition create : result exn ExecutionState.t * env :=
  create_workflow_run test_clock test_ids one_step "project" "user" "key"
    (VDict false [("topic", VStr "proofs")]) "agent@1" (Env 0 0).

Definition opened : @process sample_entities unit :=
  Process create.2 (Observed (Session empty_database (refresh empty_database)) []) [].

Definition run_it (target : run_target) : M exn (@process sample_entities unit) RuntimeResult.t :=
  run test_clock test_ids skills None 10 1000000 target None None.

Lemma one_step_valid : NoDup (Workflow.step_ids one_step) /\
  forall step, step ∈ Workflow.steps one_step -> 1 <= WorkflowStep.max_attempts step.
Proof.
  split; [apply (bool_decide_unpack _); vm_compute; reflexivity|].
  intros step Hs. by apply list_elem_of_singleton in Hs as ->.
Qed.

Lemma created : exists x, create.1 = Ok x /\ sound x.
Proof.
  destruct create as [[x|e] e'] eqn:H; [|by vm_compute in H].
  exists x. split; [done|]. destruct one_step_valid as [Hnd Hmax]. exact (created_sound _ _ _ _ _ _ _ _ _ _ _ Hnd Hmax H).
Qed.

Lemma skills_keep : skills_ok skills.
Proof.
  intros r skill H. unfold resolve in H. cbn -[String.eqb] in H. repeat case_match; simplify_eq.
  intros inputs context db Hdb. split; [|done]. split; [done|]. by apply refreshed_ok.
Qed.

Lemma opened_ok : process_ok opened.
Proof.
  split; [|done]. split; try (by intros ? ?%elem_of_nil); [split; [apply empty_ok|apply refreshed_ok, empty_ok]|..].
  - by intros ? ?.
  - by intros ? ?.
  - constructor.
Qed.

(** The run completes, and the skill was called once. *)
Lemma completes :
  match create.1 with
  | Ok x => match run_it (NewExecution x) opened with
            | (Ok r, p) => (RuntimeResult.status r, List.length (pr_calls p))
            | _ => (WorkflowRunStatus.FAILED, 0%nat)
            end
  | Err _ => (WorkflowRunStatus.FAILED, 0%nat)
  end = (WorkflowRunStatus.COMPLETED, 1%nat).
Proof. vm_compute. reflexivity. Qed.

Lemma results_are_durable_witness :
  exists x r p', create.1 = Ok x /\ run_it (NewExecution x) opened = (Ok r, p') /\
    RuntimeResult.status r = WorkflowRunStatus.COMPLETED /\
    exists row, Dict.get (RuntimeResult.workflow_run_id r) (db_executions (pr_database p')) = Some row /\
      WorkflowRunRecord.status (WorkflowRepository.run_of row) = WorkflowRunStatus.COMPLETED.
Proof.
  destruct created as (x & Hx & Hs). pose proof completes as Hc. rewrite Hx in Hc.
  destruct (run_it (NewExecution x) opened) as [[r|e] p'] eqn:H; [|done]. injection Hc as Hr _.
  exists x, r, p'. do 2 (split; [assumption|]). split; [exact Hr|].
  destruct (results_are_durable test_clock test_ids skills None 10 1000000 skills_keep
    (NewExecution x) None None opened r p' opened_ok Hs H) as (_ & row & Hrow & Hst & _).
  exists row. split; [exact Hrow|]. by rewrite Hst.
Defined.

Lemma calls_bounded_witness :
  exists x p', create.1 = Ok x /\ (run_it (NewExecution x) opened).2 = p' /\
    List.length (pr_calls p') = 1%nat /\ (List.length (pr_calls p') <= 10)%nat.
Proof.
  destruct created as (x & Hx & Hs). pose proof completes as Hc. rewrite Hx in Hc.
  destruct (run_it (NewExecution x) opened) as [[r|e] p'] eqn:H; [|done]. injection Hc as _ Hl.
  exists x, p'. split; [exact Hx|]. split; [rewrite H; reflexivity|]. split; [exact Hl|].
  destruct (calls_bounded test_clock test_ids skills None 10 1000000 (NewExecution x) None None opened _ p' H)
    as (l & -> & Hle). exact Hle.
Defined.

(** The run completes, the process stops, another one opens the database and
    runs the workflow run again: the log still has the one call. *)
Lemma skills_called_at_most_once_witness :
  exists x r p', create.1 = Ok x /\ run_it (NewExecution x) opened = (Ok r, p') /\
    (exists c, pr_calls p' = [c]) /\
    let again := (run_it (RunId (RuntimeResult.workflow_run_id r)) (reopen (Env 100 100) [] p')).2 in
    NoDup (call_key <$> pr_calls again) /\ forall c, c ∈ pr_calls again -> announced c.
Proof.
  destruct created as (x & Hx & Hs). pose proof completes as Hc. rewrite Hx in Hc.
  destruct (run_it (NewExecution x) opened) as [[r|e] p'] eqn:H; [|done]. injection Hc as Hr Hl.
  exists x, r, p'. do 2 (split; [assumption|]). split.
  - destruct (pr_calls p') as [|c [|? ?]]; [discriminate Hl|by exists c|discriminate Hl].
  - intros again.
    refine (skills_called_at_most_once test_clock test_ids skills None 10 1000000 skills_keep empty_database again
      empty_ok _ _); [by intros ? ?|].
    eapply (life_runs _ _ _ _ _ _ _ (reopen (Env 100 100) [] p')
      (RunId (RuntimeResult.workflow_run_id r)) None None); [|reflexivity|exact I|apply surjective_pairing].
    apply life_reopens. eapply (life_runs _ _ _ _ _ _ _ opened (NewExecution x)); [|reflexivity|exact Hs|exact H].
    apply life_begins.
Defined.
End Answering.
