(* ===== verification/Regex.v ===== *)
(** Regular expressions as the sources use them with [re.search] and
    [re.fullmatch]: a denotation as a relation on positions of the text, and a
    matcher that computes the positions at which a match can end. Whether a
    match exists does not depend on the order in which Python tries the
    alternatives. Texts are lists of code points, or of bytes. *)
From S2P Require Import Prelude Errors Text.
From Stdlib Require Import Ascii String NArith.
Local Open Scope string_scope.
Local Open Scope list_scope.

(** ** Code points *)

Definition lead (lo hi : N) (a : ascii) : bool := between lo hi a.
Definition low_bits (n : N) (a : ascii) : N := N.land (code a) (N.pred (N.shiftl 1 n)).

(** The code points of a [str]; a byte that starts no UTF-8 sequence, which no
    [str] has, stands for itself. *)
Fixpoint decode (s : list ascii) : list N :=
  match s with
  | [] => []
  | a :: s1 =>
      match s1 with
      | b :: s2 =>
          if lead 192 223 a then (64 * low_bits 5 a + low_bits 6 b)%N :: decode s2
          else match s2 with
               | c :: s3 =>
                   if lead 224 239 a then (4096 * low_bits 4 a + 64 * low_bits 6 b + low_bits 6 c)%N :: decode s3
                   else match s3 with
                        | d :: s4 =>
                            if lead 240 247 a then
                              (262144 * low_bits 3 a + 4096 * low_bits 6 b + 64 * low_bits 6 c
                               + low_bits 6 d)%N :: decode s4
                            else code a :: decode s1
                        | [] => code a :: decode s1
                        end
               | [] => code a :: decode s1
               end
      | [] => [code a]
      end
  end.

Definition code_points_of (s : string) : list N := decode (list_ascii_of_string s).
Definition bytes_of_string (s : string) : list N := code <$> list_ascii_of_string s.

(** ** Expressions *)

Inductive regex :=
  | Empty
  | Chars (p : N -> bool)
  | Cat (r s : regex)
  | Alt (r s : regex)
  | Star (r : regex)
  | Boundary
  | Begin
  | NotAhead (r : regex).

Section matching.
Context (word : N -> bool) (w : list N).

Definition word_at (i : nat) : bool := match w !! i with Some c => word c | None => false end.

(** [\b]: exactly one side is a word character. *)
Definition boundary (i : nat) : bool :=
  xorb (match i with O => false | S i' => word_at i' end) (word_at i).

(** [r] matches the text from position [i] to position [j]. *)
Fixpoint den (r : regex) (i j : nat) : Prop :=
  match r with
  | Empty => i = j
  | Chars p => exists c, w !! i = Some c /\ p c = true /\ j = S i
  | Cat r s => exists k, den r i k /\ den s k j
  | Alt r s => den r i j \/ den s i j
  | Star r => rtc (den r) i j
  | Boundary => i = j /\ boundary i = true
  | Begin => i = j /\ i = O
  | NotAhead r => i = j /\ ~ exists k, den r i k
  end.

(** The positions reached from [i] by steps that go forward. *)
Fixpoint star_ends (step : nat -> list nat) (fuel : nat) (i : nat) : list nat :=
  match fuel with
  | O => [i]
  | S n => i :: remove_dups (filter (fun k => i < k)%nat (step i) ≫= star_ends step n)
  end.

Fixpoint ends (r : regex) (i : nat) : list nat :=
  match r with
  | Empty => [i]
  | Chars p => match w !! i with
               | Some c => if p c then [S i] else []
               | None => []
               end
  | Cat r s => remove_dups (ends r i ≫= ends s)
  | Alt r s => remove_dups (ends r i ++ ends s i)
  | Star r => star_ends (ends r) (List.length w - i) i
  | Boundary => if boundary i then [i] else []
  | Begin => if (i =? 0)%nat then [i] else []
  | NotAhead r => match ends r i with [] => [i] | _ => [] end
  end.

Definition search (r : regex) : bool :=
  existsb (fun i => match ends r i with [] => false | _ => true end) (seq 0 (S (List.length w))).

Definition fullmatch (r : regex) : bool := bool_decide (List.length w ∈ ends r 0).

(** ** The matcher computes the denotation *)

Definition forward (R : nat -> nat -> Prop) : Prop :=
  forall i j, R i j -> (i <= j)%nat /\ (j <= List.length w \/ j = i)%nat.

Lemma rtc_forward R : forward R -> forward (rtc R).
Proof using.
  intros HR i j. induction 1 as [i|i k j Hik _ [IH1 IH2]]; [lia|].
  apply HR in Hik. lia.
Qed.

Lemma den_forward r : forward (den r).
Proof using.
  induction r as [|p|r IHr s IHs|r IHr s IHs|r IHr| | |r IHr]; intros i j H; cbn in H.
  - lia.
  - destruct H as (c & Hc & _ & ->). apply lookup_lt_Some in Hc. lia.
  - destruct H as (k & H1%IHr & H2%IHs). lia.
  - destruct H as [H%IHr|H%IHs]; lia.
  - by apply (rtc_forward (den r)).
  - lia.
  - lia.
  - lia.
Qed.

Lemma star_ends_elem step R : forward R -> (forall i j, j ∈ step i <-> R i j) ->
  forall n i j, (List.length w - i <= n)%nat -> j ∈ star_ends step n i <-> rtc R i j.
Proof using.
  intros HR Hstep n i j Hn. split.
  - clear Hn. revert i. induction n as [|n IH]; intros i H; cbn in H.
    + apply list_elem_of_singleton in H as ->. done.
    + apply elem_of_cons in H as [->|H]; [done|].
      rewrite elem_of_remove_dups, list_elem_of_bind in H. destruct H as (k & Hj & Hk).
      apply list_elem_of_filter in Hk as [_ Hk%Hstep]. eapply rtc_l; [exact Hk|]. by apply IH.
  - intros H. revert n Hn. induction H as [i|i k j Hik _ IH]; intros n Hn.
    + destruct n; cbn; [by apply list_elem_of_singleton|by left].
    + pose proof (HR _ _ Hik) as Hb. destruct (decide (k = i)) as [->|Hne]; [by apply IH|].
      destruct n as [|n]; [lia|]. cbn. right. rewrite elem_of_remove_dups, list_elem_of_bind. exists k. split.
      * apply IH. lia.
      * apply list_elem_of_filter. split; [lia|]. by apply Hstep.
Qed.

Lemma ends_elem r i j : j ∈ ends r i <-> den r i j.
Proof using.
  revert i j. induction r as [|p|r IHr s IHs|r IHr s IHs|r IHr| | |r IHr]; intros i j; cbn [ends den].
  - rewrite list_elem_of_singleton. naive_solver.
  - destruct (w !! i) as [c|] eqn:Hc; [|split; [by intros ?%elem_of_nil|by intros (? & ? & _)]].
    destruct (p c) eqn:Hp; [rewrite list_elem_of_singleton; naive_solver|].
    split; [by intros ?%elem_of_nil|]. intros (c' & [= <-] & Hp' & _). congruence.
  - rewrite elem_of_remove_dups, list_elem_of_bind. naive_solver.
  - rewrite elem_of_remove_dups, elem_of_app. naive_solver.
  - apply star_ends_elem; [apply den_forward|exact IHr|done].
  - destruct (boundary i); [rewrite list_elem_of_singleton; naive_solver|]. split; [by intros ?%elem_of_nil|by intros []].
  - destruct (Nat.eqb_spec i 0); [rewrite list_elem_of_singleton; naive_solver|].
    split; [by intros ?%elem_of_nil|by intros []].
  - destruct (ends r i) as [|k l] eqn:He.
    + rewrite list_elem_of_singleton. split; [intros ->; split; [done|]|by intros [-> _]].
      intros (k & Hk%IHr). rewrite He in Hk. by apply elem_of_nil in Hk.
    + split; [by intros ?%elem_of_nil|]. intros [_ Hn]. destruct Hn. exists k. apply IHr. rewrite He. by left.
Qed.

Lemma search_exact r : search r = true <-> exists i j, (i <= List.length w)%nat /\ den r i j.
Proof using.
  unfold search. rewrite existsb_exists. split.
  - intros (i & Hi%in_seq & He). destruct (ends r i) as [|j l] eqn:Hj; [done|].
    exists i, j. split; [lia|]. apply ends_elem. rewrite Hj. by left.
  - intros (i & j & Hi & Hj%ends_elem). exists i. split; [apply in_seq; lia|].
    destruct (ends r i); [by apply elem_of_nil in Hj|done].
Qed.

Lemma fullmatch_exact r : fullmatch r = true <-> den r 0 (List.length w).
Proof using. unfold fullmatch. by rewrite bool_decide_eq_true, ends_elem. Qed.
End matching.

(** ** Notation of the sources *)

Definition single (c : ascii) : regex := Chars (N.eqb (code c)).
Definition any_of (s : string) : N -> bool := fun c => existsb (N.eqb c) (bytes_of_string s).
Definition range (lo hi : ascii) : N -> bool := fun c => ((code lo <=? c) && (c <=? code hi))%N.
Definition either (p q : N -> bool) : N -> bool := fun c => p c || q c.
Definition none_of (p : N -> bool) : N -> bool := fun c => negb (p c).

(** [.]: anything but a line feed. *)
Definition dot : regex := Chars (fun c => negb (c =? 10)%N).

Definition plus (r : regex) : regex := Cat r (Star r).
Definition opt (r : regex) : regex := Alt r Empty.
Fixpoint exactly (n : nat) (r : regex) : regex :=
  match n with O => Empty | S n' => Cat r (exactly n' r) end.
Definition at_least (n : nat) (r : regex) : regex := Cat (exactly n r) (Star r).
Definition seq_of (l : list regex) : regex := foldr Cat Empty l.
Definition any (l : list regex) : regex := foldr Alt (Chars (fun _ => false)) l.

Definition lit (s : string) : regex := seq_of (single <$> list_ascii_of_string s).

(** [re.IGNORECASE] on a [str]: simple lower case, with the code points that
    fold to ASCII letters: U+0130 and U+0131 to i, U+017F to s, U+212A to k. *)
Definition fold_case (c : N) : N :=
  if ((65 <=? c) && (c <=? 90))%N then (c + 32)%N
  else if ((c =? 304) || (c =? 305))%N then 105%N
  else if (c =? 383)%N then 115%N
  else if (c =? 8490)%N then 107%N
  else c.
Definition ignoring_case (p : N -> bool) : N -> bool :=
  fun c => p (fold_case c) || (((97 <=? fold_case c) && (fold_case c <=? 122))%N && p (fold_case c - 32)%N).
Definition lit_ci (s : string) : regex :=
  seq_of ((fun c => Chars (ignoring_case (N.eqb (code c)))) <$> list_ascii_of_string s).

(** [\s] on a [str] and on [bytes]. *)
Definition unicode_space (c : N) : bool :=
  (((9 <=? c) && (c <=? 13)) || ((28 <=? c) && (c <=? 32)) || (c =? 133) || (c =? 160) || (c =? 5760)
   || ((8192 <=? c) && (c <=? 8202)) || (c =? 8232) || (c =? 8233) || (c =? 8239) || (c =? 8287)
   || (c =? 12288))%N.
Definition byte_space (c : N) : bool := (((9 <=? c) && (c <=? 13)) || (c =? 32))%N.

(** [\w] on ASCII; above it the Unicode database decides. *)
Definition ascii_word (c : N) : bool :=
  range "a" "z" c || range "A" "Z" c || range "0" "9" c || (c =? 95)%N.
Definition word_char (unicode_word : N -> bool) (c : N) : bool :=
  if (c <? 128)%N then ascii_word c else unicode_word c.

Definition lower_hex : regex := Chars (either (range "0" "9") (range "a" "f")).

(** ** Lengths of fixed expressions *)

Lemma exactly_length word w n p i j :
  den word w (exactly n (Chars p)) i j -> j = (i + n)%nat.
Proof.
  revert i. induction n as [|n IH]; intros i H; cbn in H; [lia|].
  destruct H as (k & (c & _ & _ & ->) & H%IH). lia.
Qed.

Example search_in_text :
  search ascii_word (code_points_of "the token = 1") (seq_of [Boundary; lit_ci "TOKEN"; Star (Chars unicode_space); single "="])
  = true.
Proof. vm_compute. reflexivity. Qed.
