(* ===== verification/Canonical.v ===== *)
(** [workflow_packages/serialization.py] and [workflow_packages/security.py]:
    the canonical JSON text of a contract, its checksum, and the lexical policy
    on checksums, relative paths and content. *)
From S2P Require Import Prelude Errors Text Float Value Json Sha256 Lexical Regex.
From Stdlib Require Import Ascii String NArith.
Local Open Scope string_scope.
Local Open Scope list_scope.

(** ** Serialization *)

(** [to_json_value]: plain dictionaries and lists all the way down. *)
Definition to_json_value : value -> value := thaw.

(** Canonical text does not allow NaN or infinities. *)
Definition canonical_json (v : value) : res string :=
  _ ← fail_if (negb (all_finite v)) (Exn PyValueError "Out of range float values are not JSON compliant");
  json_dumps (to_json_value v).

Definition sha256_bytes (content : string) : string := "sha256:" +:+ sha256_hex content.

Definition canonical_hash (v : value) : res string :=
  text ← canonical_json v; Ok (sha256_bytes text).

(** ** [require_sha256] *)

Definition lower_hex_string (n : nat) (s : string) : bool :=
  (String.length s =? n)%nat && forallb is_hex_char (list_ascii_of_string s).

(** [prefix-] and [n] lower-case hexadecimal digits, and nothing else. *)
Definition prefixed_hex (prefix : string) (n : nat) (s : string) : bool :=
  match drop_prefix prefix s with Some digits => lower_hex_string n digits | None => false end.

Definition is_sha256 : string -> bool := prefixed_hex "sha256:" 64.

Definition require_sha256 (s field_name : string) : res unit :=
  fail_if (negb (is_sha256 s)) (Exn PyValueError (field_name +:+ " must be sha256:<64 lowercase hex>")).

(** ** [require_relative_path] *)

(** The lower case of a code point, for the comparison with ASCII suffixes. *)
Definition lower_code (c : N) : list N :=
  if ((65 <=? c) && (c <=? 90))%N then [(c + 32)%N]
  else if (c =? 304)%N then [105%N; 775%N]
  else if (c =? 8490)%N then [107%N]
  else [c].

Definition ends_with (suffix s : list N) : bool :=
  bool_decide (drop (List.length s - List.length suffix) s = suffix).

Definition forbidden_suffixes : list string := [".sqlite"; ".sqlite3"; ".db"; ".pem"; ".key"].

Definition path_parts (s : string) : list string := split_on "/"%char s.

Definition drive_letter (s : string) : bool :=
  match s with String a (String b _) => is_letter a && Ascii.eqb b ":" | _ => false end.

Definition env_file (part : string) : bool :=
  String.eqb part ".env" || starts_with ".env." part.

Definition require_relative_path (s field_name : string) : res string :=
  _ ← fail_if (String.eqb s "")
        (Exn PyValueError (field_name +:+ " must be a non-empty relative path"));
  _ ← fail_if (str_contains "\" s || existsb (fun a => (code a =? 0)%N) (list_ascii_of_string s))
        (Exn PyValueError (field_name +:+ " must use safe POSIX separators"));
  _ ← fail_if (starts_with "/" s || existsb (fun p => bool_decide (p ∈ [""; "."; ".."])) (path_parts s))
        (Exn PyValueError (field_name +:+ " must be a clean relative path"));
  _ ← fail_if (drive_letter s)
        (Exn PyValueError (field_name +:+ " must not be a Windows absolute path"));
  _ ← fail_if (existsb env_file (path_parts s))
        (Exn PyValueError (field_name +:+ " must not contain an environment file"));
  _ ← fail_if (existsb (fun x => ends_with (bytes_of_string x) (code_points_of s ≫= lower_code)) forbidden_suffixes)
        (Exn PyValueError (field_name +:+ " has a forbidden sensitive/runtime suffix"));
  Ok s.

(** ** [reject_sensitive_content] *)

Definition token_char : regex :=
  Chars (either (either (range "A" "Z") (range "a" "z")) (either (range "0" "9") (any_of "_-"))).
Definition not_space : regex := Chars (none_of byte_space).
Definition spaces : regex := Star (Chars byte_space).
Definition api_key_value (except_ : string) : regex :=
  Chars (none_of (either byte_space (any_of except_))).

Definition secret_patterns : list regex :=
  [seq_of [lit "sk-ant-"; at_least 8 token_char];
   seq_of [lit "sk-proj-"; at_least 8 token_char];
   seq_of [lit "-----BEGIN "; opt (any [lit "RSA "; lit "EC "; lit "OPENSSH "]); lit "PRIVATE KEY-----"];
   seq_of [any [lit "ANTHROPIC"; lit "OPENAI"]; lit "_API_KEY"; spaces; lit "="; plus (api_key_value "<")];
   seq_of [opt (lit "REAGENT_"); lit "OPENALEX_API_KEY"; spaces; lit "="; spaces;
           NotAhead (Cat (opt (Alt (single "'") (Chars (N.eqb 34)))) (single "<")); plus not_space];
   seq_of [lit "postgres"; opt (lit "ql"); lit "://"; plus (api_key_value "/:"); lit ":";
           plus (api_key_value "/@"); lit "@"]].

Definition machine_path_patterns : list regex :=
  [lit "/Users/"; lit "/Volumes/";
   seq_of [Chars (either (range "A" "Z") (range "a" "z")); lit ":\\"]].

Definition quoted (s : string) : regex := seq_of [Chars (N.eqb 34); lit s; Chars (N.eqb 34)].

Definition raw_provider_patterns : list regex :=
  [seq_of [quoted "raw_provider_response"; spaces; lit ":"];
   seq_of [quoted "raw_response_body"; spaces; lit ":"]].

Definition sensitive_patterns : list regex :=
  secret_patterns ++ machine_path_patterns ++ raw_provider_patterns.

Definition reject_sensitive_content (content path : string) : res unit :=
  fail_if (existsb (search ascii_word (bytes_of_string content)) sensitive_patterns)
    (Exn PyValueError ("sensitive or machine-specific content rejected in " +:+ path)).

Definition reject_duplicate_paths (paths : list string) : res unit :=
  normalized ← map_ok (fun p => require_relative_path p "path") paths;
  fail_if (negb (bool_decide (NoDup normalized)))
    (Exn PyValueError "duplicate relative paths are not permitted").

(** ** Checksums *)

Lemma lower_hex_sha256 content : lower_hex_string 64 (sha256_hex content) = true.
Proof.
  unfold lower_hex_string. destruct (sha256_hex_chars content) as [Hall Hlen].
  rewrite <- (string_of_list_ascii_of_string (sha256_hex content)) at 1.
  apply andb_true_iff. split.
  - apply Nat.eqb_eq. rewrite <- Hlen.
    generalize (list_ascii_of_string (sha256_hex content)). intros l.
    induction l as [|a l IH]; [done|]. cbn. by f_equal.
  - apply forallb_forall. rewrite Forall_forall in Hall. intros a Ha%list_elem_of_In. by apply Hall.
Qed.

Lemma sha256_bytes_is_sha256 content : is_sha256 (sha256_bytes content) = true.
Proof. unfold is_sha256, prefixed_hex, sha256_bytes. rewrite drop_prefix_app. apply lower_hex_sha256. Qed.

Lemma canonical_hash_is_sha256 v h : canonical_hash v = Ok h -> is_sha256 h = true.
Proof. unfold canonical_hash. rewrite bind_Ok. intros (t & _ & [= <-]). apply sha256_bytes_is_sha256. Qed.

(** A value without infinities always has a checksum. *)
Lemma canonical_hash_defined v : all_finite v = true -> exists h, canonical_hash v = Ok h.
Proof.
  intros Hf. unfold canonical_hash, canonical_json, json_dumps, to_json_value. rewrite Hf. cbn.
  destruct (write_thawed (thaw v)) as [t ->]; [apply thaw_thawed|]. cbn. eauto.
Qed.
