(* ===== verification/RunApproval.v ===== *)
(** [controlled_local_run_approvals.py]: the exact Owner authorization for one
    controlled-local experiment attempt: the summary shown to the Owner, the
    request with its checksums and its state, and the service that moves it.
    The repository is a class of operations; the adapter of
    [persistence/adapters/in_memory.py] is an instance of it. *)
From S2P Require Import Prelude Errors Text Float Value Json Sha256 Lifecycle Lexical Calendar Regex Canonical Dict Tables Repositories.
From Stdlib Require Import Ascii String NArith.
Local Open Scope string_scope.
Local Open Scope list_scope.
Local Open Scope Z_scope.

Definition APPROVAL_SCHEMA : string := "reagent.controlled-local-run-approval/v0.1".
Definition SUMMARY_SCHEMA : string := "reagent.controlled-local-run-approval-summary/v0.1".
Definition CONSUMPTION_SCHEMA : string := "reagent.controlled-local-run-approval-consumption/v0.1".
Definition GENERIC_EXPERIMENT_ID : string := "reproduction-experiment-local-experimental".
Definition CONTROLLED_LOCAL_EXPERIMENT_VERSIONS : list string := ["0.6.0"; "0.8.0"].

Definition value_error {A} (message : string) : res A := Err (Exn PyValueError message).

(** ** Bounded text *)

Definition start_or (p : N -> bool) : regex := Alt Begin (Chars p).
Definition letter : regex := Chars (either (range "A" "Z") (range "a" "z")).

Definition absolute_path : regex :=
  Cat (start_or (either unicode_space (any_of "=:")))
    (Alt (seq_of [single "/"; any (lit <$> ["Users"; "Volumes"; "home"; "private"; "tmp"; "var"; "etc"]); single "/"])
         (Cat letter (lit ":\"))).

Definition letter_ci (extra : string) : regex :=
  Chars (either (ignoring_case (range "a" "z")) (any_of extra)).
Definition space_ : regex := Chars unicode_space.
Definition visible : regex := Chars (none_of unicode_space).
Definition visible_but (s : string) : regex := Chars (none_of (either unicode_space (any_of s))).
Definition any_lit_ci (l : list string) : regex := any (lit_ci <$> l).

Definition forbidden : regex := any
  [lit "```";
   seq_of [single "<"; letter_ci "/!"; Star (Chars (none_of (any_of ">"))); single ">"];
   seq_of [lit_ci "-----BEGIN "; Star dot; lit_ci "PRIVATE KEY-----"];
   seq_of [Boundary; lit_ci "Traceback (most recent call last)"];
   Cat (start_or unicode_space)
     (any [lit_ci "def "; lit_ci "class "; lit_ci "import ";
           seq_of [lit_ci "from "; plus visible; lit_ci " import "]]);
   seq_of [Boundary; any_lit_ci ["print"; "eval"; "exec"; "subprocess"]; Star space_; single "("];
   seq_of [single "["; any_lit_ci ["DEBUG"; "INFO"; "ERROR"; "CRITICAL"]; single "]"];
   seq_of [lit_ci "http"; opt (lit_ci "s"); lit "://"; plus (visible_but "/@"); single ":";
           plus (visible_but "/@"); single "@"];
   seq_of [Boundary; lit_ci "Bearer"; plus space_; plus visible];
   seq_of [Boundary;
           any [lit_ci "password"; lit_ci "secret"; lit_ci "token";
                seq_of [lit_ci "api"; opt (Chars (any_of "_-")); lit_ci "key"]];
           Star space_; Chars (any_of ":=")]].

Section texts.
(** Which characters above U+007F are word characters, by the Unicode database. *)
Context (unicode_word : N -> bool).

Definition found_in (s : string) (r : regex) : bool :=
  search (word_char unicode_word) (code_points_of s) r.

(** [_text] on a [str]. *)
Definition check_text (s label : string) (maximum : Z) : res unit :=
  _ ← fail_if (is_blank s || (maximum <? Z.of_nat (List.length (code_points_of s))))
        (Exn PyValueError (label +:+ " must be bounded non-empty text"));
  _ ← fail_if (existsb (fun a => bool_decide (a ∈ [10; 13; 0]%N)) (bytes_of_string s))
        (Exn PyValueError (label +:+ " contains multiline or binary content"));
  fail_if (found_in s absolute_path || found_in s forbidden)
    (Exn PyValueError (label +:+ " contains code, logs, credentials, or local paths")).

Definition text (s label : string) (maximum : Z) : res string :=
  _ ← check_text s label maximum; Ok s.

(** [_text] and [_texts] on any value. *)
Definition text_value (v : value) (label : string) (maximum : Z) : res string :=
  match v with
  | VStr s => text s label maximum
  | _ => value_error (label +:+ " must be bounded non-empty text")
  end.

Definition texts_value (v : value) (label : string) (maximum : Z) : res (list string) :=
  match v with
  | VTuple l | VList l =>
      _ ← fail_if (maximum <? Z.of_nat (List.length l)) (Exn PyValueError (label +:+ " must be a bounded list"));
      map_ok (fun x => text_value x label 1000) l
  | _ => value_error (label +:+ " must be a bounded list")
  end.

End texts.

(** ** [ControlledLocalRunSummary] *)

Definition strings (l : list string) : value := VList (VStr <$> l).

Module Summary.
Record t := mk {
  what_will_run : string;
  research_objective : string;
  preparation_method : string;
  research_resources : list string;
  execution_environment : string;
  network_policy : string;
  compute_limits : list string;
  expected_outputs : list string;
  evaluation_approach : string;
  important_assumptions : list string;
  important_limitations : list string;
  summary_checksum : string
}.

Definition payload (self : t) : mapping :=
  [("schema", VStr SUMMARY_SCHEMA); ("what_will_run", VStr (what_will_run self));
   ("research_objective", VStr (research_objective self));
   ("preparation_method", VStr (preparation_method self));
   ("research_resources", strings (research_resources self));
   ("execution_environment", VStr (execution_environment self));
   ("network_policy", VStr (network_policy self));
   ("compute_limits", strings (compute_limits self));
   ("expected_outputs", strings (expected_outputs self));
   ("evaluation_approach", VStr (evaluation_approach self));
   ("important_assumptions", strings (important_assumptions self));
   ("important_limitations", strings (important_limitations self))].

Definition to_dict (self : t) : mapping :=
  payload self ++ [("summary_checksum", VStr (summary_checksum self))].

Definition fields : list string :=
  ["schema"; "what_will_run"; "research_objective"; "preparation_method"; "research_resources";
   "execution_environment"; "network_policy"; "compute_limits"; "expected_outputs";
   "evaluation_approach"; "important_assumptions"; "important_limitations"; "summary_checksum"].

Fixpoint hashable (v : value) : bool :=
  match v with
  | VList _ | VDict _ _ => false
  | VTuple l => forallb hashable l
  | _ => true
  end.

(** [value not in {...}] with strings. *)
Definition network_policy_of (v : value) : res string :=
  _ ← fail_if (negb (hashable v)) (Exn PyTypeError "unhashable type");
  match v with
  | VStr s => _ ← fail_if (negb (bool_decide (s ∈ ["DISABLED"; "BOUNDED_DECLARED"])))
                    (Exn PyValueError "Run Approval network policy is invalid"); Ok s
  | _ => value_error "Run Approval network policy is invalid"
  end.

Definition truthy (v : value) : bool :=
  match v with
  | VNone => false
  | VBool b => b
  | VInt z => negb (z =? 0)
  | VFloat x => negb (float_equals_int x 0)
  | VStr s => negb (String.eqb s "")
  | VList l | VTuple l => negb (bool_decide (l = []))
  | VDict _ d => negb (bool_decide (d = []))
  end.

Definition is_text (v : value) (s : string) : bool :=
  match v with VStr s' => String.eqb s' s | _ => false end.

Section checks.
Context (unicode_word : N -> bool).

(** [__post_init__], on the arguments of the constructor. *)
Definition post_init (schema w ro pm rr ee np cl eo ea ia il checksum : value) : res t :=
  _ ← fail_if (negb (is_text schema SUMMARY_SCHEMA)) (Exn PyValueError "Run Approval summary schema is invalid");
  what ← text_value unicode_word w "what_will_run" 1000;
  objective ← text_value unicode_word ro "research_objective" 1000;
  method ← text_value unicode_word pm "preparation_method" 1000;
  environment ← text_value unicode_word ee "execution_environment" 1000;
  approach ← text_value unicode_word ea "evaluation_approach" 1000;
  resources ← texts_value unicode_word rr "research_resources" 20;
  limits ← texts_value unicode_word cl "compute_limits" 20;
  outputs ← texts_value unicode_word eo "expected_outputs" 20;
  assumptions ← texts_value unicode_word ia "important_assumptions" 20;
  limitations ← texts_value unicode_word il "important_limitations" 20;
  policy ← network_policy_of np;
  let summary := mk what objective method resources environment policy limits outputs approach
                   assumptions limitations in
  expected ← canonical_hash (VDict false (payload (summary "")));
  _ ← fail_if (truthy checksum && negb (is_text checksum expected))
        (Exn PyValueError "Run Approval summary checksum mismatch");
  let self := summary expected in
  document ← canonical_json (VDict false (to_dict self));
  _ ← fail_if (16384 <? Z.of_nat (String.length document))
        (Exn PyValueError "Run Approval summary exceeds its byte bound");
  Ok self.

(** [from_mapping] *)
Definition from_mapping (v : value) : res t :=
  match v with
  | VDict _ d =>
      _ ← fail_if (negb (forallb (fun k => dict_has k d) fields && forallb (fun kv => bool_decide (kv.1 ∈ fields)) d))
            (Exn PyValueError "Run Approval summary fields mismatch");
      let field k := default VNone (dict_get k d) in
      post_init (field "schema") (field "what_will_run") (field "research_objective")
        (field "preparation_method") (field "research_resources") (field "execution_environment")
        (field "network_policy") (field "compute_limits") (field "expected_outputs")
        (field "evaluation_approach") (field "important_assumptions") (field "important_limitations")
        (field "summary_checksum")
  | _ => value_error "Run Approval summary fields mismatch"
  end.
End checks.
End Summary.

(** ** [ControlledLocalRunApproval] *)

Inductive ControlledLocalApprovalStatus := REQUESTED | APPROVED | REJECTED | CONSUMED | SUPERSEDED.
#[export] Instance approval_status_eq_dec : EqDecision ControlledLocalApprovalStatus.
Proof. solve_decision. Defined.

Definition status_value (s : ControlledLocalApprovalStatus) : string :=
  match s with
  | REQUESTED => "REQUESTED" | APPROVED => "APPROVED" | REJECTED => "REJECTED"
  | CONSUMED => "CONSUMED" | SUPERSEDED => "SUPERSEDED"
  end.

(** [_utc_text] *)
Definition utc_text (at_ : datetime) : res string :=
  _ ← fail_if (negb (is_aware at_)) (Exn PyValueError "timestamp must be timezone-aware");
  Ok (isoformat (Datetime (instant at_) false) +:+ "Z").

Module Approval.
Record t := mk {
  request_id : string;
  project_id : string;
  workflow_instance_id : string;
  research_objective_checksum : string;
  execution_plan_checksum : string;
  validated_package_checksum : string;
  runtime_compatibility_checksum : option string;
  capability_checksum : option string;
  summary : Summary.t;
  created_at : datetime;
  request_checksum : string;
  status : ControlledLocalApprovalStatus;
  owner_actor : option string;
  decision_reason : option string;
  decision_idempotency_key : option string;
  decided_at : option datetime;
  approval_checksum : option string;
  consumed_attempt_id : option string;
  consumed_at : option datetime;
  consumption_checksum : option string
}.

(** [replace(self, status=..., ...)], before the checks of the constructor. *)
Definition with_state (self : t) (s : ControlledLocalApprovalStatus) (actor reason key : option string)
    (decided : option datetime) (approval attempt : option string) (consumed : option datetime)
    (consumption : option string) : t :=
  mk (request_id self) (project_id self) (workflow_instance_id self)
    (research_objective_checksum self) (execution_plan_checksum self) (validated_package_checksum self)
    (runtime_compatibility_checksum self) (capability_checksum self) (summary self) (created_at self)
    (request_checksum self) s actor reason key decided approval attempt consumed consumption.

Definition optional (o : option string) : value := match o with Some s => VStr s | None => VNone end.

Definition request_payload (project instance objective plan package : string)
    (runtime capability : option string) (summary_ : Summary.t) (created : datetime) : res mapping :=
  created_text ← utc_text created;
  Ok [("schema", VStr APPROVAL_SCHEMA); ("project_id", VStr project);
      ("workflow_instance_id", VStr instance); ("research_objective_checksum", VStr objective);
      ("execution_plan_checksum", VStr plan); ("validated_package_checksum", VStr package);
      ("runtime_compatibility_checksum", optional runtime); ("capability_checksum", optional capability);
      ("summary", VDict false (Summary.to_dict summary_)); ("created_at", VStr created_text)].

Definition payload_of (self : t) : res mapping :=
  request_payload (project_id self) (workflow_instance_id self) (research_objective_checksum self)
    (execution_plan_checksum self) (validated_package_checksum self)
    (runtime_compatibility_checksum self) (capability_checksum self) (summary self) (created_at self).

Definition payload_hash (payload : res mapping) : res string :=
  p ← payload; canonical_hash (VDict false p).

(** ["clra-" + checksum.removeprefix("sha256:")[:32]] *)
Definition id_of_checksum (checksum : string) : string :=
  "clra-" +:+ substring 0 32 (removeprefix "sha256:" checksum).

Definition set_ {A} (o : option A) : bool := match o with Some _ => true | None => false end.

(** [_validate_state]: which fields the status allows and requires. *)
Definition decided (self : t) : list bool :=
  [set_ (owner_actor self); set_ (decision_idempotency_key self); set_ (decided_at self);
   set_ (approval_checksum self)].
Definition consumption (self : t) : list bool :=
  [set_ (consumed_attempt_id self); set_ (consumed_at self); set_ (consumption_checksum self)].
Definition all_set (l : list bool) : bool := forallb id l.
Definition any_set (l : list bool) : bool := existsb id l.

Definition validate_state (self : t) : res unit :=
  match status self with
  | REQUESTED =>
      fail_if (any_set (decided self) || any_set (consumption self) || set_ (decision_reason self))
        (Exn PyValueError "Requested approval contains decision state")
  | APPROVED =>
      fail_if (negb (all_set (decided self)) || any_set (consumption self))
        (Exn PyValueError "Approved request state is incomplete")
  | REJECTED =>
      fail_if (negb (all_set (decided self)) || any_set (consumption self))
        (Exn PyValueError "Rejected request state is incomplete")
  | CONSUMED =>
      fail_if (negb (all_set (decided self)) || negb (all_set (consumption self)))
        (Exn PyValueError "Consumed request state is incomplete")
  | SUPERSEDED =>
      fail_if (any_set (consumption self)) (Exn PyValueError "Superseded request cannot be consumed")
  end.

Definition require_optional (o : option string) : res unit :=
  match o with
  | Some s => require_sha256 s "Run Approval optional lineage checksum"
  | None => Ok tt
  end.

(** [__post_init__] *)
Definition post_init (self : t) : res t :=
  _ ← fail_if (negb (prefixed_hex "clra-" 32 (request_id self)))
        (Exn PyValueError "Run Approval request identity is invalid");
  _ ← fail_if (negb (prefixed_hex "project-" 32 (project_id self))
               || negb (prefixed_hex "wfi-" 32 (workflow_instance_id self)))
        (Exn PyValueError "Run Approval Project or Workflow Instance identity is invalid");
  _ ← each_ok (fun s => require_sha256 s "Run Approval lineage checksum")
        [research_objective_checksum self; execution_plan_checksum self; validated_package_checksum self];
  _ ← each_ok require_optional [runtime_compatibility_checksum self; capability_checksum self];
  expected ← payload_hash (payload_of self);
  _ ← fail_if (negb (String.eqb (request_checksum self) expected)
               || negb (String.eqb (request_id self) (id_of_checksum expected)))
        (Exn PyValueError "Run Approval request checksum mismatch");
  _ ← validate_state self;
  Ok self.

(** [create] *)
Definition create (project instance objective plan package : string)
    (runtime capability : option string) (summary_ : Summary.t) (created : datetime) : res t :=
  checksum ← payload_hash (request_payload project instance objective plan package runtime capability
                             summary_ created);
  post_init (mk (id_of_checksum checksum) project instance objective plan package runtime capability
               summary_ created checksum REQUESTED None None None None None None None None).

(** [to_dict] and [request_dict] *)
Definition optional_time (o : option datetime) : res value :=
  match o with
  | Some at_ => s ← utc_text at_; Ok (VStr s)
  | None => Ok VNone
  end.

Definition to_dict (self : t) : res mapping :=
  payload ← payload_of self;
  decided_text ← optional_time (decided_at self);
  consumed_text ← optional_time (consumed_at self);
  Ok (take 1 payload ++ [("request_id", VStr (request_id self))] ++ drop 1 payload ++
      [("request_checksum", VStr (request_checksum self));
       ("status", VStr (status_value (status self))); ("owner_actor", optional (owner_actor self));
       ("decision_reason", optional (decision_reason self));
       ("decision_idempotency_key", optional (decision_idempotency_key self));
       ("decided_at", decided_text); ("approval_checksum", optional (approval_checksum self));
       ("consumed_attempt_id", optional (consumed_attempt_id self)); ("consumed_at", consumed_text);
       ("consumption_checksum", optional (consumption_checksum self))]).

Definition request_dict (self : t) : res mapping :=
  payload ← payload_of self;
  Ok (payload ++ [("request_id", VStr (request_id self)); ("request_checksum", VStr (request_checksum self))]).
End Approval.

(** [consumption_receipt] *)
Definition consumption_receipt (r : Approval.t) : res mapping :=
  _ ← fail_if (negb (bool_decide (Approval.status r = CONSUMED)))
        (Exn PyValueError "Run Approval has not been consumed");
  consumed_text ← Approval.optional_time (Approval.consumed_at r);
  Ok [("schema", VStr CONSUMPTION_SCHEMA); ("request_id", VStr (Approval.request_id r));
      ("approval_checksum", Approval.optional (Approval.approval_checksum r));
      ("execution_plan_checksum", VStr (Approval.execution_plan_checksum r));
      ("attempt_id", Approval.optional (Approval.consumed_attempt_id r));
      ("consumed_at", consumed_text);
      ("consumption_checksum", Approval.optional (Approval.consumption_checksum r))].

(** ** [ControlledLocalRunApprovalRepository], with the commit of its unit of work *)

Class ApprovalStore (S : Type) := {
  get_request : string -> S -> option Approval.t;
  get_current : string -> string -> S -> option Approval.t;
  add_request : Approval.t -> M exn S unit;
  save_request : Approval.t -> M exn S unit;
  commit_requests : M exn S unit
}.

(** ** [ControlledLocalRunApprovalService] *)

Section service.
Context (unicode_word : N -> bool) {S : Type} `{ApprovalStore S}.
(** [instance_resolver]: the definition and the version of the instance. *)
Context (instance_resolver : string -> string -> res (string * string)).

Definition conflict {A} (code_ message : string) : M exn S A :=
  raise (Exn (ApplicationCodedConflictError code_) message).

(** [_commit] *)
Definition commit_as (code_ : string) : M exn S unit :=
  fun s => match commit_requests s with
           | (Ok u, s') => (Ok u, s')
           | (Err e, s') =>
               if is_instance (exn_kind e) DuplicateEntityError || is_instance (exn_kind e) StaleStateError
               then (Err (Exn (ApplicationCodedConflictError code_) (exn_msg e)), s')
               else (Err e, s')
           end.

(** [_scope] *)
Definition scope (project instance : string) : res unit :=
  found ← instance_resolver project instance;
  fail_if (negb (String.eqb found.1 GENERIC_EXPERIMENT_ID)
           || negb (bool_decide (found.2 ∈ CONTROLLED_LOCAL_EXPERIMENT_VERSIONS)))
    (Exn (ApplicationCodedValidationError "RUN_APPROVAL_WORKFLOW_UNSUPPORTED")
       "Controlled-local Run Approval is unavailable for this Workflow publication").

(** [_request] *)
Definition find_request (project instance id : string) : M exn S Approval.t :=
  lift_result (scope project instance) ;;
  s ← get_state;
  match get_request id s with
  | Some r =>
      if String.eqb (Approval.project_id r) project && String.eqb (Approval.workflow_instance_id r) instance
      then mret r
      else raise (Exn (ApplicationCodedNotFoundError "RUN_APPROVAL_NOT_FOUND")
                    "Run Approval request was not found in this scope")
  | None => raise (Exn (ApplicationCodedNotFoundError "RUN_APPROVAL_NOT_FOUND")
                    "Run Approval request was not found in this scope")
  end.

(** [_exact] *)
Definition exact (r : Approval.t) (plan checksum : string) : M exn S unit :=
  raise_if (negb (String.eqb (Approval.execution_plan_checksum r) plan)
            || negb (String.eqb (Approval.request_checksum r) checksum))
    (Exn (ApplicationCodedConflictError "APPROVAL_IDENTITY_MISMATCH") "Run Approval identity changed").

Definition is_open (s : ControlledLocalApprovalStatus) : bool :=
  match s with REQUESTED | APPROVED => true | _ => false end.

Definition superseded (r : Approval.t) : res Approval.t :=
  Approval.post_init
    (Approval.with_state r SUPERSEDED (Approval.owner_actor r) (Approval.decision_reason r)
       (Approval.decision_idempotency_key r) (Approval.decided_at r) (Approval.approval_checksum r)
       (Approval.consumed_attempt_id r) (Approval.consumed_at r) (Approval.consumption_checksum r)).

(** [report] *)
Definition report (request : Approval.t) : M exn S Approval.t :=
  lift_result (scope (Approval.project_id request) (Approval.workflow_instance_id request)) ;;
  s ← get_state;
  match get_request (Approval.request_id request) s with
  | Some existing =>
      if String.eqb (Approval.request_checksum existing) (Approval.request_checksum request) then mret existing
      else conflict "APPROVAL_REQUEST_IDENTITY_CONFLICT" "Run Approval request identity conflicts"
  | None =>
      match get_current (Approval.project_id request) (Approval.workflow_instance_id request) s with
      | Some current =>
          if is_open (Approval.status current)
          then old ← lift_result (superseded current); save_request old
          else mret tt
      | None => mret tt
      end ;;
      add_request request ;;
      commit_as "APPROVAL_REQUEST_CONFLICT" ;;
      mret request
  end.

(** [observe] *)
Definition observe (project instance : string) : M exn S (option Approval.t) :=
  lift_result (scope project instance) ;;
  gets (get_current project instance).

Definition decision_payload (r : Approval.t) (decision owner key : string) (reason : list (string * value))
    (decided_text : string) : mapping :=
  [("request_id", VStr (Approval.request_id r));
   ("execution_plan_checksum", VStr (Approval.execution_plan_checksum r));
   ("request_checksum", VStr (Approval.request_checksum r)); ("decision", VStr decision);
   ("owner_actor", VStr owner); ("idempotency_key", VStr key)] ++ reason ++
  [("decided_at", VStr decided_text)].

(** The request as the Owner approved it at [now]. *)
Definition approved (r : Approval.t) (owner key : string) (now : datetime) : res Approval.t :=
  decided_text ← utc_text now;
  owner' ← text unicode_word owner "owner_actor" 120;
  key' ← text unicode_word key "idempotency_key" 100;
  checksum ← canonical_hash (VDict false (decision_payload r "APPROVED" owner key [] decided_text));
  Approval.post_init
    (Approval.with_state r APPROVED (Some owner') (Approval.decision_reason r) (Some key') (Some now)
       (Some checksum) (Approval.consumed_attempt_id r) (Approval.consumed_at r)
       (Approval.consumption_checksum r)).

Definition store_as (r : res Approval.t) (code_ : string) : M exn S Approval.t :=
  new ← lift_result r;
  save_request new ;;
  commit_as code_ ;;
  mret new.

(** [approve]; [now] is what the clock answers. *)
Definition approve (project instance id plan checksum key owner : string) (now : datetime) :
    M exn S Approval.t :=
  r ← find_request project instance id;
  exact r plan checksum ;;
  match Approval.status r with
  | APPROVED => if bool_decide (Approval.decision_idempotency_key r = Some key) then mret r
                else conflict "ALREADY_APPROVED" "Run Approval was already approved"
  | SUPERSEDED => conflict "APPROVAL_SUPERSEDED" "Run Approval was superseded by a newer request"
  | REJECTED => conflict "APPROVAL_REJECTED" "Run Approval was already rejected"
  | CONSUMED => conflict "ALREADY_CONSUMED" "Run Approval was already consumed"
  | REQUESTED => store_as (approved r owner key now) "APPROVAL_DECISION_CONFLICT"
  end.

Definition rejected (r : Approval.t) (owner key : string) (reason : option string) (now : datetime) :
    res Approval.t :=
  owner' ← text unicode_word owner "owner_actor" 120;
  reason' ← match reason with
            | Some s => s' ← text unicode_word s "reason" 500; Ok (Some s')
            | None => Ok None
            end;
  key' ← text unicode_word key "idempotency_key" 100;
  decided_text ← utc_text now;
  checksum ← canonical_hash (VDict false
    (decision_payload r "REJECTED" owner key [("reason", Approval.optional reason)] decided_text));
  Approval.post_init
    (Approval.with_state r REJECTED (Some owner') reason' (Some key') (Some now) (Some checksum)
       (Approval.consumed_attempt_id r) (Approval.consumed_at r) (Approval.consumption_checksum r)).

(** [reject] *)
Definition reject (project instance id plan checksum key owner : string) (reason : option string)
    (now : datetime) : M exn S Approval.t :=
  r ← find_request project instance id;
  exact r plan checksum ;;
  match Approval.status r with
  | REJECTED => if bool_decide (Approval.decision_idempotency_key r = Some key) then mret r
                else conflict "ALREADY_REJECTED" "Run Approval was already rejected"
  | SUPERSEDED => conflict "APPROVAL_SUPERSEDED" "Run Approval was superseded by a newer request"
  | APPROVED => conflict "ALREADY_APPROVED" "Run Approval was already approved"
  | CONSUMED => conflict "ALREADY_CONSUMED" "Run Approval was already consumed"
  | REQUESTED => store_as (rejected r owner key reason now) "APPROVAL_DECISION_CONFLICT"
  end.

Definition consumed (r : Approval.t) (approval attempt : string) (now : datetime) : res Approval.t :=
  consumed_text ← utc_text now;
  checksum ← canonical_hash (VDict false
    [("schema", VStr CONSUMPTION_SCHEMA); ("request_id", VStr (Approval.request_id r));
     ("approval_checksum", VStr approval);
     ("execution_plan_checksum", VStr (Approval.execution_plan_checksum r));
     ("attempt_id", VStr attempt); ("consumed_at", VStr consumed_text)]);
  Approval.post_init
    (Approval.with_state r CONSUMED (Approval.owner_actor r) (Approval.decision_reason r)
       (Approval.decision_idempotency_key r) (Approval.decided_at r) (Approval.approval_checksum r)
       (Some attempt) (Some now) (Some checksum)).

(** [consume] *)
Definition consume (project instance id plan attempt : string) (now : datetime) : M exn S Approval.t :=
  r ← find_request project instance id;
  lift_result (require_sha256 plan "execution_plan_checksum") ;;
  raise_if (negb (String.eqb (Approval.execution_plan_checksum r) plan))
    (Exn (ApplicationCodedConflictError "APPROVAL_INVALIDATED")
       "Current execution plan differs from the approved plan") ;;
  raise_if (negb (prefixed_hex "attempt-" 32 attempt))
    (Exn (ApplicationCodedValidationError "INVALID_ATTEMPT_ID") "Local execution attempt identity is invalid") ;;
  match Approval.status r, Approval.approval_checksum r with
  | CONSUMED, _ =>
      if bool_decide (Approval.consumed_attempt_id r = Some attempt) then mret r
      else conflict "ALREADY_CONSUMED" "Run Approval was consumed by another attempt"
  | REJECTED, _ => conflict "APPROVAL_REJECTED" "Rejected Run Approval cannot be consumed"
  | SUPERSEDED, _ => conflict "APPROVAL_SUPERSEDED" "Superseded Run Approval cannot be consumed"
  | APPROVED, Some approval => store_as (consumed r approval attempt now) "APPROVAL_CONSUMPTION_CONFLICT"
  | _, _ => conflict "APPROVAL_NOT_APPROVED" "Run Approval is not approved"
  end.
End service.
(** ** [InMemoryControlledLocalRunApprovalRepository] *)

(** The committed table and what the unit of work has staged. *)
Record memory_store := MemoryStore {
  committed_requests : dict string Approval.t;
  staged_requests : Plain.t string Approval.t
}.

Definition open_store (db : dict string Approval.t) : memory_store := MemoryStore db (Plain.refresh db).

Definition priority (s : ControlledLocalApprovalStatus) : Z :=
  match s with REQUESTED | APPROVED => 2 | SUPERSEDED => 0 | REJECTED | CONSUMED => 1 end.

(** [(priority, created_at, request_id)]; stored times are all aware. *)
Definition rank (r : Approval.t) : Z * datetime * string :=
  (priority (Approval.status r), Approval.created_at r, Approval.request_id r).
Definition rank_leb (x y : Z * datetime * string) : bool :=
  (x.1.1 <? y.1.1) || ((x.1.1 =? y.1.1) && stamp_leb (x.1.2, x.2) (y.1.2, y.2)).

Definition in_scope (project instance : string) (r : Approval.t) : bool :=
  String.eqb (Approval.project_id r) project && String.eqb (Approval.workflow_instance_id r) instance.

#[export] Instance approval_summary_eq_dec : EqDecision Summary.t.
Proof. solve_decision. Defined.
#[export] Instance run_approval_eq_dec : EqDecision Approval.t.
Proof. solve_decision. Defined.

Definition put_request (r : Approval.t) : M exn memory_store unit :=
  modify (fun s => MemoryStore (committed_requests s)
                     (Plain.put (Approval.request_id r) r (staged_requests s))).

Definition staged_request (id : string) (s : memory_store) : option Approval.t :=
  Dict.get id (Plain.records (staged_requests s)).

#[export] Instance in_memory_approvals : ApprovalStore memory_store := {
  get_request := staged_request;
  get_current project instance s :=
    max_by rank_leb rank
      (List.filter (in_scope project instance) (Dict.values (Plain.records (staged_requests s))));
  add_request r :=
    s ← get_state;
    match staged_request (Approval.request_id r) s with
    | Some existing =>
        raise_if (negb (bool_decide (existing = r)))
          (Exn DuplicateEntityError "Controlled-local Run Approval identity conflict")
    | None => mret tt
    end ;;
    put_request r;
  save_request r :=
    s ← get_state;
    match staged_request (Approval.request_id r) s with
    | Some _ => put_request r
    | None => raise (Exn DuplicateEntityError "Controlled-local Run Approval does not exist")
    end;
  (** The part of the commit that publishes this table and starts again. *)
  commit_requests :=
    s ← get_state;
    zoom committed_requests (fun db s => MemoryStore db (staged_requests s))
      (publish_to id (fun x _ => x) (Plain.records (staged_requests s)) (Plain.dirty (staged_requests s))) ;;
    modify (fun s => open_store (committed_requests s))
}.
