(* ===== verification/RunApprovalFacts.v ===== *)
(** What the controlled-local run approvals guarantee: stored requests are
    valid, a decision is final, an authorization is used for one attempt, and
    a workflow instance has one open request at a time. The theorems on the
    service hold for every repository with the laws below; the in-memory
    adapter has them. *)
From S2P Require Import Prelude Errors Text Float Value Sha256 Lifecycle Lexical Calendar Regex Canonical Dict Tables TableFacts Repositories RepositoryFacts RunApproval.
From Stdlib Require Import Ascii String NArith.
Local Open Scope string_scope.
Local Open Scope list_scope.
Local Open Scope Z_scope.

(** ** Requests *)

Definition valid (r : Approval.t) : Prop := Approval.post_init r = Ok r.

Lemma post_init_same r r' : Approval.post_init r = Ok r' -> r' = r /\ valid r.
Proof.
  intros H. unfold Approval.post_init in H. pose proof H as H0.
  do 4 (rewrite then_Ok in H0; destruct H0 as [_ H0]). rewrite bind_Ok in H0. destruct H0 as (expected & _ & H0).
  do 2 (rewrite then_Ok in H0; destruct H0 as [_ H0]). injection H0 as <-. by split.
Qed.

(** The moves of a request: a decision of the Owner, the use by one attempt, or
    a newer request. *)
Inductive moves (r : Approval.t) : Approval.t -> Prop :=
  | moves_approved owner reason key now checksum : Approval.status r = REQUESTED ->
      moves r (Approval.with_state r APPROVED (Some owner) reason (Some key) (Some now) (Some checksum)
        (Approval.consumed_attempt_id r) (Approval.consumed_at r) (Approval.consumption_checksum r))
  | moves_rejected owner reason key now checksum : Approval.status r = REQUESTED ->
      moves r (Approval.with_state r REJECTED (Some owner) reason (Some key) (Some now) (Some checksum)
        (Approval.consumed_attempt_id r) (Approval.consumed_at r) (Approval.consumption_checksum r))
  | moves_consumed attempt now checksum : Approval.status r = APPROVED ->
      moves r (Approval.with_state r CONSUMED (Approval.owner_actor r) (Approval.decision_reason r)
        (Approval.decision_idempotency_key r) (Approval.decided_at r) (Approval.approval_checksum r)
        (Some attempt) (Some now) (Some checksum))
  | moves_superseded : is_open (Approval.status r) = true ->
      moves r (Approval.with_state r SUPERSEDED (Approval.owner_actor r) (Approval.decision_reason r)
        (Approval.decision_idempotency_key r) (Approval.decided_at r) (Approval.approval_checksum r)
        (Approval.consumed_attempt_id r) (Approval.consumed_at r) (Approval.consumption_checksum r)).

Lemma moves_open r r' : moves r r' -> is_open (Approval.status r) = true.
Proof. by destruct 1 as [? ? ? ? ? ->|? ? ? ? ? ->|? ? ? ->|]. Qed.

Lemma moves_id r r' : moves r r' -> Approval.request_id r' = Approval.request_id r.
Proof. by destruct 1. Qed.

Lemma moves_scope r r' project instance : moves r r' -> in_scope project instance r' = in_scope project instance r.
Proof. by destruct 1. Qed.

(** What a store may have under a key before and after. *)
Inductive progress : option Approval.t -> option Approval.t -> Prop :=
  | progress_same o : progress o o
  | progress_new r : valid r -> Approval.status r = REQUESTED -> progress None (Some r)
  | progress_moves r r' : valid r' -> moves r r' -> progress (Some r) (Some r').

Lemma progress_final r o : rtc progress (Some r) o -> is_open (Approval.status r) = false -> o = Some r.
Proof.
  intros H Hf. remember (Some r) as o0 eqn:Ho. induction H as [|o0 o1 o2 Hp _ IH]; [done|]. subst o0.
  inversion Hp as [| |? r' _ Hm]; subst; [by apply IH|].
  apply moves_open in Hm. congruence.
Qed.

Lemma progress_valid o o' : progress o o' -> (forall r, o = Some r -> valid r) -> forall r, o' = Some r -> valid r.
Proof. destruct 1; naive_solver. Qed.

(** ** What a repository must do *)

Class ApprovalStoreLaws (S : Type) `{ApprovalStore S} := {
  store_ok : S -> Prop;
  request_law s i r : store_ok s -> get_request i s = Some r -> Approval.request_id r = i;
  (** The current request of an instance is of that instance; it is open
      whenever one of them is. *)
  current_law s project instance : store_ok s ->
    match get_current project instance s with
    | Some r => get_request (Approval.request_id r) s = Some r /\ in_scope project instance r = true /\
        (forall i r', get_request i s = Some r' -> in_scope project instance r' = true ->
           is_open (Approval.status r') = true -> is_open (Approval.status r) = true)
    | None => forall i r', get_request i s = Some r' -> in_scope project instance r' = false
    end;
  add_law r s : store_ok s -> get_request (Approval.request_id r) s = None ->
    exists s', add_request r s = (Ok tt, s') /\ store_ok s' /\
      forall i, get_request i s' = if decide (Approval.request_id r = i) then Some r else get_request i s;
  save_law r s : store_ok s -> get_request (Approval.request_id r) s <> None ->
    exists s', save_request r s = (Ok tt, s') /\ store_ok s' /\
      forall i, get_request i s' = if decide (Approval.request_id r = i) then Some r else get_request i s;
  (** A commit keeps what is seen; one that is refused changes nothing. *)
  commit_law s e s' : store_ok s -> commit_requests s = (e, s') ->
    store_ok s' /\ forall i, get_request i s' = get_request i s
}.

(** *** The in-memory adapter *)

Record memory_ok (s : memory_store) : Prop := {
  mo_unique : NoDup (Dict.keys (Plain.records (staged_requests s)));
  mo_ids : forall i r, staged_request i s = Some r -> Approval.request_id r = i;
  mo_dirty : forall i, i ∈ Plain.dirty (staged_requests s) -> staged_request i s <> None;
  mo_base_unique : NoDup (Dict.keys (committed_requests s));
  mo_clean : forall i, i ∉ Plain.dirty (staged_requests s) -> staged_request i s = Dict.get i (committed_requests s)
}.

Lemma opened_memory_ok db : NoDup (Dict.keys db) ->
  (forall i r, Dict.get i db = Some r -> Approval.request_id r = i) -> memory_ok (open_store db).
Proof. intros Hn Hi. split; try done. by intros i ?%elem_of_nil. Qed.

Lemma staged_put r s i :
  staged_request i (put_request r s).2 = if decide (Approval.request_id r = i) then Some r else staged_request i s.
Proof. unfold staged_request. cbn. apply get_set. Qed.

Lemma put_memory r s : memory_ok s -> memory_ok (put_request r s).2.
Proof.
  intros [Hu Hi Hd Hbu Hc]. split.
  - cbn. by apply keys_set_NoDup.
  - intros i r0. rewrite staged_put. case_decide as Hr; [by intros [= <-]|apply Hi].
  - intros i Hin. change (i ∈ set_add (Approval.request_id r) (Plain.dirty (staged_requests s))) in Hin.
    apply elem_set_add in Hin. rewrite staged_put. case_decide; [done|]. apply Hd. naive_solver.
  - exact Hbu.
  - intros i Hn. change (i ∉ set_add (Approval.request_id r) (Plain.dirty (staged_requests s))) in Hn.
    rewrite elem_set_add in Hn. rewrite staged_put, decide_False by naive_solver. apply Hc. naive_solver.
Qed.

Lemma committed_memory s : memory_ok s ->
  exists s', commit_requests s = (Ok tt, s') /\ memory_ok s' /\
    forall i, staged_request i s' = staged_request i s.
Proof.
  intros [Hu Hi Hd Hbu Hc]. set (db := published (Plain.records (staged_requests s))
    (Plain.dirty (staged_requests s)) (committed_requests s)).
  assert (Hg : forall i, Dict.get i db = staged_request i s).
  { intros i. unfold db. rewrite get_published by exact Hd. case_decide as Hin; [done|]. symmetry. by apply Hc. }
  exists (open_store db). split; [|split].
  - cbn [commit_requests in_memory_approvals]. unfold mbind at 1, M_bind at 1. cbn [get_state].
    unfold mbind at 1, M_bind at 1, zoom.
    rewrite (publish_to_Ok id (fun x _ => x)); [done|done|done|done|exact Hd].
  - apply opened_memory_ok; [by apply published_keys|]. intros i r. rewrite Hg. apply Hi.
  - intros i. unfold staged_request. cbn. apply Hg.
Qed.

Lemma last_greatest {A} (le : A -> A -> bool) (f : A -> Z) l m :
  (forall x y, le x y = true -> f x <= f y) -> Sorted le l -> last l = Some m -> forall y, y ∈ l -> f y <= f m.
Proof.
  intros Hf. revert m. induction l as [|x l IH]; intros m Hs Hl y Hy; [by apply elem_of_nil in Hy|].
  apply Sorted_inv in Hs as [Hs Hhd]. destruct l as [|z l].
  - injection Hl as ->. by apply list_elem_of_singleton in Hy as ->.
  - change (last (z :: l) = Some m) in Hl. apply elem_of_cons in Hy as [->|Hy]; [|by apply IH].
    apply HdRel_inv in Hhd. transitivity (f z); [apply Hf; by apply Is_true_eq_true|]. apply IH; [done..|by left].
Qed.

Lemma head_rev {A} (l : list A) : head (rev l) = last l.
Proof. induction l as [|x l IH] using rev_ind; [done|]. by rewrite rev_app_distr, last_snoc. Qed.

Lemma max_by_greatest {A B} (le : B -> B -> bool) (key : A -> B) (f : A -> Z) l m :
  (forall x y, le x y = true \/ le y x = true) -> (forall x y, le (key x) (key y) = true -> f x <= f y) ->
  max_by le key l = Some m -> m ∈ l /\ forall y, y ∈ l -> f y <= f m.
Proof.
  intros Ht Hf H. unfold max_by, sort_desc in H. rewrite head_rev in H. unfold sort_by in H.
  set (le' := fun x y => le (key x) (key y)) in H.
  assert (Hin : forall y, y ∈ isort le' (rev l) <-> y ∈ l).
  { intros y. rewrite (isort_perm le' (rev l)). rewrite <- Permutation_rev. done. }
  split; [apply Hin; by apply last_Some_elem_of|].
  intros y Hy. apply (last_greatest le' f (isort le' (rev l))); [done| |done|by apply Hin].
  apply isort_Sorted. intros a b. apply Ht.
Qed.

Lemma rank_leb_total x y : rank_leb x y = true \/ rank_leb y x = true.
Proof.
  destruct x as [[p t] i], y as [[p' t'] i']. unfold rank_leb, stamp_leb. cbn.
  destruct (String.leb_total i i') as [Hs|Hs]; rewrite Hs; lia.
Qed.

Lemma rank_leb_priority x y : rank_leb (rank x) (rank y) = true ->
  priority (Approval.status x) <= priority (Approval.status y).
Proof. unfold rank_leb, rank. cbn. lia. Qed.

Lemma priority_open r r' : is_open (Approval.status r') = true ->
  priority (Approval.status r') <= priority (Approval.status r) -> is_open (Approval.status r) = true.
Proof. by destruct (Approval.status r), (Approval.status r'). Qed.

Lemma staged_values s r : memory_ok s ->
  r ∈ Dict.values (Plain.records (staged_requests s)) <-> staged_request (Approval.request_id r) s = Some r.
Proof.
  intros [Hu Hi _ _ _]. unfold staged_request. split; [|apply elem_values].
  intros (k & Hk)%values_elem; [|done]. by rewrite (Hi k r Hk).
Qed.

Lemma memory_current s project instance : memory_ok s ->
  match get_current project instance s with
  | Some r => get_request (Approval.request_id r) s = Some r /\ in_scope project instance r = true /\
      (forall i r', get_request i s = Some r' -> in_scope project instance r' = true ->
         is_open (Approval.status r') = true -> is_open (Approval.status r) = true)
  | None => forall i r', get_request i s = Some r' -> in_scope project instance r' = false
  end.
Proof.
  intros Hok. cbn [get_current get_request in_memory_approvals]. set (l := List.filter _ _).
  assert (Hl : forall r, r ∈ l <-> staged_request (Approval.request_id r) s = Some r /\ in_scope project instance r = true).
  { intros r. unfold l. rewrite list_elem_of_In, List.filter_In, <- list_elem_of_In. by rewrite staged_values. }
  assert (Hin : forall i r, staged_request i s = Some r -> staged_request (Approval.request_id r) s = Some r).
  { intros i r Hr. by rewrite (mo_ids s Hok i r Hr). }
  destruct (max_by rank_leb rank l) as [m|] eqn:Hm.
  - apply (max_by_greatest rank_leb rank (fun r => priority (Approval.status r))) in Hm as [Hml Hge];
      [|intros; apply rank_leb_total|apply rank_leb_priority].
    apply Hl in Hml as [Hm Hs]. split_and!; [done|done|]. intros i r Hr Hsc Ho.
    apply (priority_open m r); [done|]. apply Hge, Hl. split; [by apply (Hin i)|done].
  - apply max_by_None in Hm. intros i r Hr. apply not_true_is_false. intros Hs.
    assert (r ∈ l) as Hrl by (apply Hl; split; [by apply (Hin i)|done]). rewrite Hm in Hrl. by apply elem_of_nil in Hrl.
Qed.

#[export] Instance in_memory_laws : ApprovalStoreLaws memory_store.
Proof.
  refine {| store_ok := memory_ok |}.
  - intros s i r Hok. apply (mo_ids s Hok).
  - intros. by apply memory_current.
  - intros r s Hok Hn. exists (put_request r s).2. split_and!; [|by apply put_memory|intros i; apply staged_put].
    cbn in Hn. cbn [add_request in_memory_approvals]. unfold mbind at 1, M_bind at 1. cbn [get_state]. by rewrite Hn.
  - intros r s Hok Hn. exists (put_request r s).2. split_and!; [|by apply put_memory|intros i; apply staged_put].
    cbn in Hn. cbn [save_request in_memory_approvals]. unfold mbind at 1, M_bind at 1. cbn [get_state].
    by destruct (staged_request _ s).
  - intros s e s' Hok Hc. destruct (committed_memory s Hok) as (s1 & H1 & Hok1 & Hg).
    rewrite H1 in Hc. injection Hc as <- <-. by split.
Defined.
