(* ===== verification/RunApprovalSafety.v ===== *)
(** The histories of controlled-local run approvals: what any sequence of calls
    of the service on one store, one after another, successful or not, leaves
    true of every stored request. *)
From S2P Require Import Prelude Errors Text Float Value Json Sha256 Lifecycle Lexical Calendar Regex Canonical Dict Tables Repositories RunApproval RunApprovalFacts.
From Stdlib Require Import String.
Local Open Scope string_scope.
Local Open Scope list_scope.
Local Open Scope Z_scope.

(** ** One call *)

Section calls.
Context (unicode_word : N -> bool) {S : Type} `{ApprovalStoreLaws S}.
Context (instance_resolver : string -> string -> res (string * string)).

(** One instance has one open request at a time. *)
Definition exclusive (s : S) : Prop :=
  forall i j r r', get_request i s = Some r -> get_request j s = Some r' ->
    is_open (Approval.status r) = true -> is_open (Approval.status r') = true ->
    in_scope (Approval.project_id r) (Approval.workflow_instance_id r) r' = true -> i = j.

Record sound (s : S) : Prop := {
  so_store : store_ok s;
  so_valid i r : get_request i s = Some r -> valid r;
  so_exclusive : exclusive s
}.

(** Every request of [s'] is that of [s], is new, or has moved. *)
Definition progresses (s s' : S) : Prop :=
  sound s' /\ forall i, progress (get_request i s) (get_request i s').

Lemma progresses_refl s : sound s -> progresses s s.
Proof. split; [done|constructor]. Qed.

(** A request that was open before under the same key, for the same instance. *)
Lemma progress_open o r' : progress o (Some r') -> o <> None -> is_open (Approval.status r') = true ->
  exists r, o = Some r /\ is_open (Approval.status r) = true /\
    forall project instance, in_scope project instance r' = in_scope project instance r.
Proof.
  intros Hp Hn Ho. inversion Hp as [o' | |r r1 _ Hm]; subst; [by eauto|done|].
  exists r. split_and!; [done|by eapply moves_open|]. intros. by apply moves_scope.
Qed.

Lemma progresses_of s s' : sound s -> store_ok s' ->
  (forall i, progress (get_request i s) (get_request i s')) -> exclusive s' -> progresses s s'.
Proof.
  intros [_ Hv _] Hok Hp He. split; [split; [done| |done]|done]. intros i. apply (progress_valid _ _ (Hp i)), Hv.
Qed.

Lemma scope_refl r : in_scope (Approval.project_id r) (Approval.workflow_instance_id r) r = true.
Proof. unfold in_scope. by rewrite !String.eqb_refl. Qed.

Lemma in_scope_eq project instance r : in_scope project instance r = true ->
  Approval.project_id r = project /\ Approval.workflow_instance_id r = instance.
Proof. unfold in_scope. intros [?%String.eqb_eq ?%String.eqb_eq]%andb_true_iff. done. Qed.

Lemma progresses_moves s s' : sound s -> store_ok s' ->
  (forall i, progress (get_request i s) (get_request i s')) ->
  (forall i, get_request i s = None -> get_request i s' = None) -> progresses s s'.
Proof.
  intros Hs Hok Hp Hn. apply progresses_of; [done..|]. intros i j r r' Hr Hr' Ho Ho' Hsc.
  pose proof (Hp i) as Hi. rewrite Hr in Hi. apply progress_open in Hi as (r0 & Hr0 & Ho0 & Hs0); [|by intros ?%Hn; congruence|done].
  pose proof (Hp j) as Hj. rewrite Hr' in Hj. apply progress_open in Hj as (r1 & Hr1 & Ho1 & Hs1); [|by intros ?%Hn; congruence|done].
  apply (so_exclusive s Hs i j r0 r1); [done..|].
  pose proof (scope_refl r) as Hrr. rewrite Hs0 in Hrr. apply in_scope_eq in Hrr as [-> ->]. by rewrite <- Hs1.
Qed.

(** Reading a request changes nothing and finds it where it is stored. *)
Lemma find_request_triple s0 project instance id :
  triple (eq s0) (find_request instance_resolver project instance id)
    (fun r s => s0 = s /\ get_request id s0 = Some r) (fun _ s => s0 = s).
Proof.
  intros s <-. unfold find_request, mbind, M_bind, lift_result, get_state.
  destruct (scope _ _ _); [|done]. destruct (get_request id s0) as [r|]; [|done]. by destruct (_ && _).
Qed.

Lemma lift_triple {A} (r : res A) (s0 : S) :
  triple (eq s0) (lift_result r) (fun a s => s0 = s /\ r = Ok a) (fun _ s => s0 = s).
Proof. intros s <-. by destruct r. Qed.

Lemma raise_if_triple b (e : exn) (s0 : S) :
  triple (eq s0) (raise_if b e) (fun _ s => s0 = s /\ b = false) (fun _ s => s0 = s).
Proof. intros s <-. by destruct b. Qed.

Lemma commit_as_ok code s e s' : store_ok s -> commit_as code s = (e, s') ->
  store_ok s' /\ forall i, get_request i s' = get_request i s.
Proof.
  intros Hok Hc. unfold commit_as in Hc. destruct (commit_requests s) as [x s1] eqn:Hx.
  destruct (commit_law s x s1 Hok Hx) as [Hok1 Hg1].
  assert (s' = s1) as -> by (destruct x; [|destruct (_ || _)]; by injection Hc). done.
Qed.

(** Saving a moved request and committing moves that request only. *)
Lemma store_as_triple r n code s0 : sound s0 -> get_request (Approval.request_id r) s0 = Some r ->
  (forall r', n = Ok r' -> moves r r' /\ valid r') ->
  triple (eq s0) (store_as n code)
    (fun r' s => progresses s0 s /\ n = Ok r' /\ get_request (Approval.request_id r) s = Some r')
    (fun _ s => progresses s0 s).
Proof.
  intros Hs Hr Hn s <-. unfold store_as, mbind, M_bind, lift_result.
  destruct n as [r'|e]; [|by apply progresses_refl]. destruct (Hn r' eq_refl) as [Hm Hv].
  assert (Hi : Approval.request_id r' = Approval.request_id r) by by apply moves_id.
  destruct (save_law r' s0) as (s1 & -> & Hok1 & Hg1); [apply Hs|by rewrite Hi, Hr|]. rewrite Hi in Hg1.
  destruct (commit_as code s1) as [x s2] eqn:Hc. apply commit_as_ok in Hc as [Hok2 Hg2]; [|done].
  assert (progresses s0 s2).
  { apply progresses_moves; [done..| |]; intros i; rewrite Hg2, Hg1; case_decide as Hdec; [|constructor| |done].
    - rewrite <- Hdec, Hr. by constructor.
    - subst i. congruence. }
  destruct x; [|done]. split_and!; [done..|]. by rewrite Hg2, Hg1, decide_True.
Qed.

Definition outcome (s0 : S) (id : string) (r' : Approval.t) (s : S) : Prop :=
  progresses s0 s /\ get_request id s = Some r'.

(** From [s0], the call answers the request it left under [id], or raises. *)
Definition safe (s0 : S) (id : string) (c : M exn S Approval.t) : Prop :=
  triple (eq s0) c (outcome s0 id) (fun _ s => progresses s0 s).

Lemma reading_then {A} (c : M exn S A) (P : A -> Prop) f s0 id : sound s0 ->
  triple (eq s0) c (fun a s => s0 = s /\ P a) (fun _ s => s0 = s) ->
  (forall a, P a -> safe s0 id (f a)) -> safe s0 id (c ≫= f).
Proof.
  intros Hs Hc Hf s <-. specialize (Hc s0 eq_refl). unfold mbind, M_bind.
  destruct (c s0) as [[a|e] s1]; [|subst; by apply progresses_refl]. destruct Hc as [<- Hp]. by apply (Hf a Hp).
Qed.

Lemma unchanged s0 id r : sound s0 -> get_request id s0 = Some r ->
  safe s0 id (mret r).
Proof. intros ? ? s <-. split; [by apply progresses_refl|done]. Qed.

Lemma refused code message s0 id : sound s0 -> safe s0 id (conflict code message).
Proof. intros ? s <-. by apply progresses_refl. Qed.

Lemma stored r n code s0 id : sound s0 -> get_request id s0 = Some r ->
  (forall r', n = Ok r' -> moves r r' /\ valid r') ->
  safe s0 id (store_as n code).
Proof.
  intros Hs Hr Hn. assert (Approval.request_id r = id) as <- by (eapply request_law; [apply Hs|done]).
  eapply triple_conseq; [by apply (store_as_triple r)|done| |done]. intros r' s (? & _ & ?). by split.
Qed.

#[local] Opaque Approval.post_init.

Lemma text_Ok s label maximum s' : text unicode_word s label maximum = Ok s' -> s' = s.
Proof. unfold text. by intros (? & _ & [= <-])%bind_Ok. Qed.
#[local] Opaque text.
Ltac inv_text := repeat match goal with H : text _ _ _ _ = Ok _ |- _ => apply text_Ok in H as -> end.


(** What [approved], [rejected] and [consumed] make of a request. *)
Lemma approved_moves r owner key now r' : Approval.status r = REQUESTED ->
  approved unicode_word r owner key now = Ok r' -> moves r r' /\ valid r'.
Proof.
  intros Hs Ha. unfold approved in Ha. repeat (apply bind_Ok in Ha as (? & ? & Ha)). inv_text.
  apply post_init_same in Ha as [-> ?]. split; [by constructor|done].
Qed.

Lemma rejected_moves r owner key reason now r' : Approval.status r = REQUESTED ->
  rejected unicode_word r owner key reason now = Ok r' -> moves r r' /\ valid r'.
Proof.
  intros Hs Ha. unfold rejected in Ha. repeat (apply bind_Ok in Ha as (? & ? & Ha)).
  inv_text. apply post_init_same in Ha as [-> ?]. split; [by constructor|done].
Qed.

Lemma consumed_moves r approval attempt now r' : Approval.status r = APPROVED ->
  consumed r approval attempt now = Ok r' -> moves r r' /\ valid r'.
Proof.
  intros Hs Ha. unfold consumed in Ha. repeat (apply bind_Ok in Ha as (? & ? & Ha)).
  apply post_init_same in Ha as [-> ?]. split; [by constructor|done].
Qed.

Lemma superseded_moves r r' : is_open (Approval.status r) = true ->
  superseded r = Ok r' -> moves r r' /\ valid r'.
Proof. intros Hs [-> ?]%post_init_same. split; [by constructor|done]. Qed.

(** ** The calls *)

Inductive call :=
  | Report (project instance objective plan package : string) (runtime capability : option string)
      (summary_ : Summary.t) (created : datetime)
  | Approve (project instance id plan checksum key owner : string) (now : datetime)
  | Reject (project instance id plan checksum key owner : string) (reason : option string) (now : datetime)
  | Consume (project instance id plan attempt : string) (now : datetime).

(** The call of the API: a reported request is built before it is reported. *)
Definition run_call (c : call) : M exn S Approval.t :=
  match c with
  | Report project instance objective plan package runtime capability summary_ created =>
      request ← lift_result (Approval.create project instance objective plan package runtime capability
                               summary_ created);
      report instance_resolver request
  | Approve project instance id plan checksum key owner now =>
      approve unicode_word instance_resolver project instance id plan checksum key owner now
  | Reject project instance id plan checksum key owner reason now =>
      reject unicode_word instance_resolver project instance id plan checksum key owner reason now
  | Consume project instance id plan attempt now =>
      consume instance_resolver project instance id plan attempt now
  end.

Lemma after_finding project instance id f s0 : sound s0 ->
  (forall r, get_request id s0 = Some r -> safe s0 id (f r)) ->
  safe s0 id (find_request instance_resolver project instance id ≫= f).
Proof. intros Hs. apply reading_then; [done|apply find_request_triple]. Qed.

Lemma after_check b (e : exn) f s0 id : sound s0 ->
  (b = false -> safe s0 id (f tt)) -> safe s0 id (raise_if b e ≫= f).
Proof. intros Hs Hf. apply (reading_then _ (fun _ => b = false)); [done|apply raise_if_triple|by intros []]. Qed.

Lemma after_lift {A} (r : res A) f s0 id : sound s0 ->
  (forall a, r = Ok a -> safe s0 id (f a)) -> safe s0 id (lift_result r ≫= f).
Proof. intros Hs. apply reading_then; [done|apply lift_triple]. Qed.

Lemma approve_safe project instance id plan checksum key owner now s0 : sound s0 ->
  safe s0 id (approve unicode_word instance_resolver project instance id plan checksum key owner now).
Proof.
  intros Hs. apply after_finding; [done|]. intros r Hr. apply after_check; [done|]. intros _.
  destruct (Approval.status r) eqn:Hst; try by apply refused.
  - apply (stored r); [done..|]. intros r'. by eapply approved_moves.
  - case_bool_decide; [by apply unchanged|by apply refused].
Qed.

Lemma reject_safe project instance id plan checksum key owner reason now s0 : sound s0 ->
  safe s0 id (reject unicode_word instance_resolver project instance id plan checksum key owner reason now).
Proof.
  intros Hs. apply after_finding; [done|]. intros r Hr. apply after_check; [done|]. intros _.
  destruct (Approval.status r) eqn:Hst; try by apply refused.
  - apply (stored r); [done..|]. intros r'. by eapply rejected_moves.
  - case_bool_decide; [by apply unchanged|by apply refused].
Qed.

Lemma consume_safe project instance id plan attempt now s0 : sound s0 ->
  safe s0 id (consume instance_resolver project instance id plan attempt now).
Proof.
  intros Hs. apply after_finding; [done|]. intros r Hr. apply after_lift; [done|]. intros _ _.
  apply after_check; [done|]. intros _. apply after_check; [done|]. intros _.
  destruct (Approval.status r) eqn:Hst; try by apply refused.
  - destruct (Approval.approval_checksum r) as [approval|]; [|by apply refused].
    apply (stored r); [done..|]. intros r'. by eapply consumed_moves.
  - case_bool_decide; [by apply unchanged|by apply refused].
Qed.
(** The open request of the instance, superseded, when there is one. *)
Definition supersede (current : option Approval.t) : M exn S unit :=
  match current with
  | Some current =>
      if is_open (Approval.status current)
      then old ← lift_result (superseded current); save_request old
      else mret tt
  | None => mret tt
  end.

(** [s] is [s0] without an open request of the instance. *)
Record cleared (project instance : string) (s0 s : S) : Prop := {
  cl_progresses : progresses s0 s;
  cl_new i : get_request i s0 = None -> get_request i s = None;
  cl_none i r : get_request i s = Some r -> in_scope project instance r = true -> is_open (Approval.status r) = false
}.

Lemma supersede_ok project instance s0 : sound s0 ->
  match supersede (get_current project instance s0) s0 with
  | (Ok _, s) => cleared project instance s0 s
  | (Err _, s) => progresses s0 s
  end.
Proof.
  intros Hs. pose proof (current_law s0 project instance (so_store s0 Hs)) as Hcur.
  destruct (get_current project instance s0) as [r|]; cbn.
  2:{ split; [by apply progresses_refl|done|]. intros i r Hr Hsc. by rewrite (Hcur i r Hr) in Hsc. }
  destruct Hcur as (Hr & Hsc & Hopen). destruct (is_open (Approval.status r)) eqn:Ho.
  2:{ split; [by apply progresses_refl|done|]. intros i r' Hr' Hsc'. apply not_true_is_false. intros Ho'.
      by specialize (Hopen i r' Hr' Hsc' Ho'). }
  unfold mbind, M_bind, lift_result. destruct (superseded r) as [old|] eqn:Hold; [|by apply progresses_refl].
  assert (Hst : is_open (Approval.status old) = false) by (apply post_init_same in Hold as [-> _]; done).
  apply superseded_moves in Hold as [Hm Hv]; [|done]. pose proof (moves_id _ _ Hm) as Hi.
  destruct (save_law old s0) as (s1 & -> & Hok1 & Hg1); [apply Hs|by rewrite Hi, Hr|]. rewrite Hi in Hg1.
  assert (Hnew : forall i, get_request i s0 = None -> get_request i s1 = None).
  { intros i Hn. rewrite Hg1. case_decide; [congruence|done]. }
  split; [|done|].
  - apply progresses_moves; [done..| |done]. intros i. rewrite Hg1. case_decide as Hdec; [|constructor].
    rewrite <- Hdec, Hr. by constructor.
  - intros i r'. rewrite Hg1. case_decide as Hdec; [by intros [= <-]|]. intros Hr' Hsc'.
    apply not_true_is_false. intros Ho'. apply Hdec, (so_exclusive s0 Hs _ _ r r'); [done..|].
    by apply in_scope_eq in Hsc as [-> ->].
Qed.

Lemma exclusive_add request s s' : exclusive s ->
  (forall i r, get_request i s = Some r ->
     in_scope (Approval.project_id request) (Approval.workflow_instance_id request) r = true ->
     is_open (Approval.status r) = false) ->
  (forall i, get_request i s' = if decide (Approval.request_id request = i) then Some request else get_request i s) ->
  exclusive s'.
Proof.
  intros He Hnone Hg i j r r'. rewrite !Hg. repeat case_decide; subst; try done.
  - intros [= <-] Hr' _ Ho' Hsc. by rewrite (Hnone j r') in Ho'.
  - intros Hr [= <-] Ho _ [Hp Hq]%in_scope_eq. rewrite (Hnone i r) in Ho; [done..|]. unfold in_scope.
    by rewrite Hp, Hq, !String.eqb_refl.
  - by apply He.
Qed.

(** A new request, added and committed on top of what [supersede] left. *)
Lemma report_new request code s0 s : sound s0 ->
  cleared (Approval.project_id request) (Approval.workflow_instance_id request) s0 s -> valid request ->
  Approval.status request = REQUESTED -> get_request (Approval.request_id request) s0 = None ->
  match (add_request request ;; commit_as code ;; mret request) s with
  | (Ok r', s') => outcome s0 (Approval.request_id request) r' s'
  | (Err _, s') => progresses s0 s'
  end.
Proof.
  intros Hs [[Hs1 Hp] Hnew Hnone] Hv Hst Hn0. unfold mbind, M_bind.
  destruct (add_law request s) as (s1 & -> & Hok1 & Hg1); [by apply Hs1|by apply Hnew|].
  destruct (commit_as code s1) as [x s2] eqn:Hc. apply commit_as_ok in Hc as [Hok2 Hg2]; [|done].
  assert (Hg : forall i, get_request i s2 =
    if decide (Approval.request_id request = i) then Some request else get_request i s) by (intros i; by rewrite Hg2).
  assert (progresses s0 s2).
  { apply progresses_of; [done..| |].
    - intros i. rewrite Hg. case_decide as Hdec; [|apply Hp]. rewrite <- Hdec, Hn0. by constructor.
    - by apply (exclusive_add request s); [apply (so_exclusive s)| |]. }
  destruct x; [|done]. split; [done|]. by rewrite Hg, decide_True.
Qed.

Lemma report_safe request s0 : sound s0 -> valid request -> Approval.status request = REQUESTED ->
  safe s0 (Approval.request_id request) (report instance_resolver request).
Proof.
  intros Hs Hv Hst. apply after_lift; [done|]. intros _ _ s <-. unfold mbind at 1, M_bind at 1. cbn [get_state].
  destruct (get_request (Approval.request_id request) s0) as [existing|] eqn:Hex.
  { destruct (String.eqb _ _); [by apply (unchanged s0)|by apply (refused _ _ s0 (Approval.request_id request))]. }
  fold (supersede (get_current (Approval.project_id request) (Approval.workflow_instance_id request) s0)).
  pose proof (supersede_ok (Approval.project_id request) (Approval.workflow_instance_id request) s0 Hs) as Hsup.
  unfold mbind at 1, M_bind at 1. destruct (supersede _ s0) as [[] s1]; [|done]. by apply report_new.
Qed.

Lemma created_request_valid project instance objective plan package runtime capability summary_ created r :
  Approval.create project instance objective plan package runtime capability summary_ created = Ok r ->
  valid r /\ Approval.status r = REQUESTED.
Proof. unfold Approval.create. by intros (? & _ & [-> ?]%post_init_same)%bind_Ok. Qed.

Lemma run_call_progresses c s x s' : sound s -> run_call c s = (x, s') -> progresses s s'.
Proof.
  intros Hs Hc. assert (Hsafe : forall id m, safe s id m -> m s = (x, s') -> progresses s s').
  { intros id m Hm Hr. specialize (Hm s eq_refl). rewrite Hr in Hm. destruct x; [apply Hm|done]. }
  destruct c; cbn in Hc.
  - unfold mbind, M_bind, lift_result in Hc. destruct (Approval.create _ _ _ _ _ _ _ _ _) as [r|] eqn:Hr.
    + apply created_request_valid in Hr as [? ?]. by eapply Hsafe; [apply report_safe|].
    + injection Hc as _ <-. by apply progresses_refl.
  - by eapply Hsafe; [apply approve_safe|].
  - by eapply Hsafe; [apply reject_safe|].
  - by eapply Hsafe; [apply consume_safe|].
Qed.

(** ** Histories *)

(** One call of the service, whatever it answers. *)
Inductive service_step (s s' : S) : Prop :=
  | a_call c x : run_call c s = (x, s') -> service_step s s'.

Lemma history_sound s s' : sound s -> rtc service_step s s' -> sound s'.
Proof. intros Hs Hh. induction Hh as [|s s1 s2 [c x Hc] _ IH]; [done|]. apply IH. by eapply run_call_progresses. Qed.

Lemma history_progress s s' i : sound s -> rtc service_step s s' -> rtc progress (get_request i s) (get_request i s').
Proof.
  intros Hs Hh. induction Hh as [|s s1 s2 [c x Hc] _ IH]; [done|].
  apply run_call_progresses in Hc as [Hs1 Hp]; [|done]. eapply rtc_l; [apply Hp|by apply IH].
Qed.

(** The requests the service stores stay valid: whatever calls are made, and whether they succeed or not, every stored request passes the checks of its constructor: its identity and checksum are those of its content, and it has exactly the decision and consumption fields of its status. *)
Theorem stored_requests_valid s s' i r :
  sound s -> rtc service_step s s' -> get_request i s' = Some r -> Approval.post_init r = Ok r.
Proof. intros Hs Hh Hr. by apply (history_sound s s' Hs Hh) in Hr. Qed.

(** C34: A workflow instance has at most one open request: after any calls made
    one after another on one store, two requested or approved requests of the
    same project and instance are one request, because reporting a new one
    supersedes the other. *)
Theorem one_open_request s s' i j r r' :
  sound s -> rtc service_step s s' -> get_request i s' = Some r -> get_request j s' = Some r' ->
  is_open (Approval.status r) = true -> is_open (Approval.status r') = true ->
  Approval.project_id r = Approval.project_id r' ->
  Approval.workflow_instance_id r = Approval.workflow_instance_id r' -> i = j /\ r = r'.
Proof.
  intros Hs Hh Hr Hr' Ho Ho' Hp Hi. assert (i = j) as <-; [|by split; [|congruence]].
  eapply so_exclusive; [by eapply history_sound|done..|]. rewrite Hp, Hi. apply scope_refl.
Qed.

(** C5: A decision is final: once a request is rejected, consumed or superseded,
    no sequence of calls made one after another on its store changes anything of
    it. *)
Theorem decision_final s s' i r :
  sound s -> rtc service_step s s' -> get_request i s = Some r -> is_open (Approval.status r) = false ->
  get_request i s' = Some r.
Proof.
  intros Hs Hh Hr Hf. pose proof (history_progress s s' i Hs Hh) as Hp. rewrite Hr in Hp.
  by apply progress_final in Hp.
Qed.

Lemma store_as_Ok n code s r s' : store_as n code s = (Ok r, s') -> n = Ok r.
Proof.
  unfold store_as, mbind, M_bind, lift_result. destruct n as [r0|]; [|done].
  destruct (save_request r0 s) as [[] s1]; [|done]. destruct (commit_as code s1) as [[] s2]; [|done]. by intros [= -> _].
Qed.

Lemma consumed_fields r approval attempt now r' : consumed r approval attempt now = Ok r' ->
  Approval.status r' = CONSUMED /\ Approval.consumed_attempt_id r' = Some attempt.
Proof.
  unfold consumed. intros Ha. repeat (apply bind_Ok in Ha as (? & ? & Ha)).
  by apply post_init_same in Ha as [-> ?].
Qed.

Lemma consume_result project instance id plan attempt now s r s' :
  consume instance_resolver project instance id plan attempt now s = (Ok r, s') ->
  Approval.status r = CONSUMED /\ Approval.consumed_attempt_id r = Some attempt.
Proof.
  intros Hc. unfold consume, mbind, M_bind, lift_result in Hc.
  destruct (find_request _ _ _ _ s) as [[r0|] s1]; [|done]. destruct (require_sha256 _ _); [|done].
  destruct (negb _) in Hc; [done|]. destruct (negb _) in Hc; [done|]. cbn [raise_if mret M_ret] in Hc.
  destruct (Approval.status r0) eqn:Hst; try done.
  - destruct (Approval.approval_checksum r0); [|done]. apply store_as_Ok in Hc. by eapply consumed_fields.
  - case_bool_decide; [|done]. by injection Hc as <- _.
Qed.

Lemma consume_stored project instance id plan attempt now s r s' : sound s ->
  consume instance_resolver project instance id plan attempt now s = (Ok r, s') ->
  sound s' /\ progress (get_request id s) (Some r) /\ get_request id s' = Some r.
Proof.
  intros Hs Hc. pose proof (consume_safe project instance id plan attempt now s Hs s eq_refl) as Hsafe.
  rewrite Hc in Hsafe. destruct Hsafe as [[Hs' Hp] Hr]. rewrite <- Hr. by split_and!.
Qed.

(** C6: Among calls made one after another on one store, an authorization is used
    for one attempt: after a successful [consume], whatever calls follow, any
    later successful [consume] of the same request is for the same attempt and
    answers the same request.  Two units of work that consume side by side are
    not one such sequence: each sees the request approved, and the commit does
    not compare them (RunApprovalExamples.units_consume_one_approval_twice). *)
Theorem authorization_used_once s s1 s2 s3 project instance id plan attempt now project' instance' plan' attempt' now' r r' :
  sound s ->
  consume instance_resolver project instance id plan attempt now s = (Ok r, s1) ->
  rtc service_step s1 s2 ->
  consume instance_resolver project' instance' id plan' attempt' now' s2 = (Ok r', s3) ->
  attempt' = attempt /\ r' = r.
Proof.
  intros Hs Hc Hh Hc'. pose proof (consume_result _ _ _ _ _ _ _ _ _ Hc) as [Hst Ha].
  pose proof (consume_result _ _ _ _ _ _ _ _ _ Hc') as [Hst' Ha'].
  apply consume_stored in Hc as (Hs1 & _ & Hr); [|done].
  assert (Hs2 : sound s2) by by eapply history_sound.
  pose proof (history_progress s1 s2 id Hs1 Hh) as Hp. rewrite Hr in Hp.
  apply progress_final in Hp; [|by rewrite Hst].
  apply consume_stored in Hc' as (_ & Hp' & _); [|done]. rewrite Hp in Hp'.
  apply rtc_once, progress_final in Hp'; [|by rewrite Hst]. injection Hp' as ->. split; [congruence|done].
Qed.
End calls.

(** ** What a call answers *)

Lemma utc_text_defined at_ : is_aware at_ = true -> exists s, utc_text at_ = Ok s.
Proof. unfold utc_text. intros ->. cbn. eauto. Qed.

(** The checks of the constructor on what no decision changes. *)
Definition lineage (r : Approval.t) : res unit :=
  _ ← fail_if (negb (prefixed_hex "clra-" 32 (Approval.request_id r)))
        (Exn PyValueError "Run Approval request identity is invalid");
  _ ← fail_if (negb (prefixed_hex "project-" 32 (Approval.project_id r))
               || negb (prefixed_hex "wfi-" 32 (Approval.workflow_instance_id r)))
        (Exn PyValueError "Run Approval Project or Workflow Instance identity is invalid");
  _ ← each_ok (fun s => require_sha256 s "Run Approval lineage checksum")
        [Approval.research_objective_checksum r; Approval.execution_plan_checksum r;
         Approval.validated_package_checksum r];
  _ ← each_ok Approval.require_optional
        [Approval.runtime_compatibility_checksum r; Approval.capability_checksum r];
  expected ← Approval.payload_hash (Approval.payload_of r);
  fail_if (negb (String.eqb (Approval.request_checksum r) expected)
           || negb (String.eqb (Approval.request_id r) (Approval.id_of_checksum expected)))
    (Exn PyValueError "Run Approval request checksum mismatch").

Lemma post_init_split r : Approval.post_init r = (_ ← lineage r; _ ← Approval.validate_state r; Ok r).
Proof.
  unfold lineage, Approval.post_init.
  repeat match goal with |- context [mbind _ ?c] =>
    lazymatch c with Ok _ => fail | Err _ => fail | mbind _ _ => fail | _ => destruct c; cbn [mbind result_bind]; [|done] end
  end.
  done.
Qed.

Lemma valid_split r : valid r <-> lineage r = Ok tt /\ Approval.validate_state r = Ok tt.
Proof.
  unfold valid. rewrite post_init_split, then_Ok, then_Ok. naive_solver.
Qed.

Lemma with_state_valid r s actor reason key decided_ approval attempt consumed_ consumption_ :
  let r' := Approval.with_state r s actor reason key decided_ approval attempt consumed_ consumption_ in
  valid r -> Approval.validate_state r' = Ok tt -> Approval.post_init r' = Ok r'.
Proof. intros r' [Hl _]%valid_split Hs. by apply valid_split. Qed.

Lemma approved_state r : valid r -> Approval.status r = APPROVED ->
  Approval.all_set (Approval.decided r) = true /\ exists approval, Approval.approval_checksum r = Some approval.
Proof.
  intros [_ Hv]%valid_split Hst. unfold Approval.validate_state in Hv. rewrite Hst in Hv.
  apply fail_if_Ok, orb_false_iff in Hv as [Hv%negb_false_iff _]. split; [done|].
  unfold Approval.all_set, Approval.decided in Hv. cbn in Hv.
  destruct (Approval.approval_checksum r); [by eexists|]. by rewrite !andb_false_r in Hv.
Qed.

(** An approved request can be consumed by any attempt at any aware time. *)
Lemma consumed_defined r approval attempt now : valid r -> Approval.status r = APPROVED -> is_aware now = true ->
  exists checksum, consumed r approval attempt now =
    Ok (Approval.with_state r CONSUMED (Approval.owner_actor r) (Approval.decision_reason r)
          (Approval.decision_idempotency_key r) (Approval.decided_at r) (Approval.approval_checksum r)
          (Some attempt) (Some now) (Some checksum)).
Proof.
  intros Hv Hst Hn. unfold consumed. destruct (utc_text_defined now Hn) as [t ->]. cbn [mbind result_bind].
  match goal with |- context [canonical_hash ?v] => destruct (canonical_hash_defined v) as [h ->]; [done|] end.
  exists h. cbn [mbind result_bind]. apply with_state_valid; [done|].
  destruct (approved_state r Hv Hst) as [Hd _]. unfold Approval.validate_state.
  change (Approval.decided (Approval.with_state _ _ _ _ _ _ _ _ _ _)) with (Approval.decided r). by rewrite Hd.
Qed.

(** *** With the in-memory adapter, where a commit always succeeds *)

Section in_memory.
Context (unicode_word : N -> bool).
Context (instance_resolver : string -> string -> res (string * string)).

(** The conditions under which an attempt may run on a request. *)
Definition authorizes (r : Approval.t) (project instance plan attempt : string) : bool :=
  in_scope project instance r && String.eqb (Approval.execution_plan_checksum r) plan &&
  prefixed_hex "attempt-" 32 attempt &&
  match Approval.status r with
  | APPROVED => true
  | CONSUMED => bool_decide (Approval.consumed_attempt_id r = Some attempt)
  | _ => false
  end.

Lemma memory_store_as r code s : memory_ok s -> get_request (Approval.request_id r) s <> None ->
  exists s', store_as (Ok r) code s = (Ok r, s') /\
    forall i, Dict.get i (committed_requests s') =
      if decide (i = Approval.request_id r) then Some r else get_request i s.
Proof.
  intros Hok Hr. cbn in Hr. pose proof (put_memory r s Hok) as Hok1.
  destruct (committed_memory _ Hok1) as (s2 & H2 & Hok2 & Hg2). exists s2.
  assert (Hsv : save_request r s = (Ok tt, (put_request r s).2)).
  { cbn [save_request in_memory_approvals]. unfold mbind at 1, M_bind at 1. cbn [get_state].
    by destruct (staged_request (Approval.request_id r) s). }
  unfold store_as, commit_as, lift_result, mbind, M_bind. rewrite Hsv, H2. split; [done|]. intros i.
  transitivity (staged_request i s2).
  - symmetry. apply (mo_clean s2 Hok2).
    unfold commit_requests, in_memory_approvals, mbind, M_bind, get_state, zoom, modify in H2.
    destruct (publish_to _ _ _ _ _) as [[] db]; [|done]. injection H2 as <-. by intros ?%elem_of_nil.
  - rewrite Hg2, staged_put. by repeat case_decide.
Qed.

Lemma valid_plan r : valid r -> require_sha256 (Approval.execution_plan_checksum r) "execution_plan_checksum" = Ok tt.
Proof.
  intros [Hl _]%valid_split. unfold lineage in Hl. do 2 (apply then_Ok in Hl as [_ Hl]).
  apply then_Ok in Hl as [Hl _]. unfold each_ok, require_sha256 in *.
  destruct (is_sha256 (Approval.research_objective_checksum r)); [|done].
  by destruct (is_sha256 (Approval.execution_plan_checksum r)).
Qed.

(** [consume] on a request that was found. *)
Definition use (r : Approval.t) (attempt : string) (now : datetime) : M exn memory_store Approval.t :=
  match Approval.status r, Approval.approval_checksum r with
  | CONSUMED, _ =>
      if bool_decide (Approval.consumed_attempt_id r = Some attempt) then mret r
      else conflict "ALREADY_CONSUMED" "Run Approval was consumed by another attempt"
  | REJECTED, _ => conflict "APPROVAL_REJECTED" "Rejected Run Approval cannot be consumed"
  | SUPERSEDED, _ => conflict "APPROVAL_SUPERSEDED" "Superseded Run Approval cannot be consumed"
  | APPROVED, Some approval => store_as (consumed r approval attempt now) "APPROVAL_CONSUMPTION_CONFLICT"
  | _, _ => conflict "APPROVAL_NOT_APPROVED" "Run Approval is not approved"
  end.

Lemma use_approved r attempt now s : memory_ok s -> valid r -> is_aware now = true -> Approval.status r = APPROVED ->
  get_request (Approval.request_id r) s = Some r ->
  exists r' s', use r attempt now s = (Ok r', s') /\ moves r r' /\
    Approval.consumed_attempt_id r' = Some attempt /\ Approval.consumed_at r' = Some now /\
    forall i, Dict.get i (committed_requests s') =
      if decide (i = Approval.request_id r) then Some r' else get_request i s.
Proof.
  intros Hok Hv Hn Hst Hr. destruct (approved_state r Hv Hst) as (_ & approval & Ha).
  unfold use. rewrite Hst, Ha. destruct (consumed_defined r approval attempt now Hv Hst Hn) as [checksum Hc].
  pose proof (consumed_moves _ _ _ _ _ Hst Hc) as [Hm _]. rewrite Hc. pose proof (moves_id _ _ Hm) as Hi.
  match goal with |- context [store_as (Ok ?n) ?code] =>
    destruct (memory_store_as n code s Hok) as (s' & Hs' & Hg); [by rewrite Hi, Hr|exists n, s'] end.
  rewrite Hi in Hg. split_and!; [exact Hs'|exact Hm|reflexivity|reflexivity|exact Hg].
Qed.

(** [consume] succeeds exactly when the instance runs a controlled-local experiment, the request is one of it whose plan is the given one, the attempt is well formed, and the request is approved or was consumed by that same attempt; in the first case the consumed request is committed, and nothing else changes. *)
Theorem consume_exactly_when_authorized s project instance id plan attempt now :
  @sound memory_store _ _ s -> is_aware now = true ->
  match consume instance_resolver project instance id plan attempt now s with
  | (Ok r', s') => scope instance_resolver project instance = Ok tt /\
      exists r, get_request id s = Some r /\ authorizes r project instance plan attempt = true /\
        (Approval.status r = CONSUMED /\ r' = r /\ s' = s \/
         Approval.status r = APPROVED /\ moves r r' /\
         Approval.consumed_attempt_id r' = Some attempt /\ Approval.consumed_at r' = Some now /\
         forall i, Dict.get i (committed_requests s') = if decide (i = id) then Some r' else get_request i s)
  | (Err _, s') => s' = s /\
      (scope instance_resolver project instance <> Ok tt \/
       forall r, get_request id s = Some r -> authorizes r project instance plan attempt = false)
  end.
Proof.
  intros Hs Hn. unfold consume, find_request, mbind, M_bind, lift_result, get_state.
  destruct (scope instance_resolver project instance) as [[]|]; [|split; [done|by left]].
  destruct (get_request id s) as [r|] eqn:Hr; [|split; [done|right; intros r; congruence]].
  fold (in_scope project instance r). unfold authorizes.
  destruct (in_scope project instance r) eqn:Hsc; [|split; [done|right; intros r0 [= <-]; by rewrite Hsc]].
  cbn [mret M_ret]. pose proof (valid_plan r (so_valid _ Hs _ _ Hr)) as Hplan.
  destruct (require_sha256 plan _) as [[]|] eqn:Hp.
  2:{ split; [done|]. right. intros r0 [= <-]. rewrite Hsc. destruct (String.eqb _ plan) eqn:He; [|done].
      apply String.eqb_eq in He. congruence. }
  destruct (String.eqb (Approval.execution_plan_checksum r) plan) eqn:He; cbn [negb raise_if];
    [|split; [done|right; intros r0 [= <-]; by rewrite Hsc, He]].
  destruct (prefixed_hex "attempt-" 32 attempt) eqn:Hat; cbn [negb raise_if mret M_ret];
    [|split; [done|right; intros r0 [= <-]; by rewrite Hsc, He]].
  assert (Hid : Approval.request_id r = id) by by apply (request_law (S := memory_store) s id r (so_store _ Hs)).
  destruct (Approval.status r) eqn:Hst.
  1, 3, 5: by (split; [done|right; intros r0 [= <-]; by rewrite Hsc, He, Hst]).
  - pose proof (use_approved r attempt now s (so_store _ Hs) (so_valid _ Hs _ _ Hr) Hn Hst) as Hu.
    rewrite Hid in Hu. destruct (Hu Hr) as (r' & s' & Hrun & Hm & Ha & Hc & Hg).
    unfold use in Hrun. rewrite Hst in Hrun. rewrite Hrun. split; [done|]. exists r. rewrite Hsc, He, Hst.
    do 2 (split; [done|]). right. by split_and!.
  - case_bool_decide as Hca.
    + split; [done|]. exists r. rewrite Hsc, He, Hst, bool_decide_true by done. do 2 (split; [done|]). by left.
    + split; [done|]. right. intros r0 [= <-]. by rewrite Hst, bool_decide_false, andb_false_r.
Qed.
End in_memory.
