(* ===== verification/RunApprovalExamples.v ===== *)
(** Concrete histories of controlled-local run approvals: the witnesses of the
    theorems, and the race the in-memory adapter does not see. *)
From S2P Require Import Prelude Errors Text Float Value Json Sha256 Lifecycle Lexical Calendar Regex Canonical Dict Tables Repositories RunApproval RunApprovalFacts RunApprovalSafety.
From Stdlib Require Import String.
Local Open Scope string_scope.
Local Open Scope list_scope.
Local Open Scope Z_scope.

Module RunApprovalWitness.
(** Of the example, every character above U+007F is a word character. *)
Definition any_word (c : N) : bool := true.
Definition resolver (project instance : string) : res (string * string) := Ok (GENERIC_EXPERIMENT_ID, "0.8.0").

Definition hex32 : string := "0123456789abcdef0123456789abcdef".
Definition project : string := "project-" +:+ hex32.
Definition instance : string := "wfi-" +:+ hex32.
Definition digest : string := "sha256:" +:+ hex32 +:+ hex32.
Definition first_attempt : string := "attempt-" +:+ hex32.
Definition second_attempt : string := "attempt-fedcba9876543210fedcba9876543210".
Definition at_ (n : Z) : datetime := Datetime (1767225600000000 + n * 1000000) true.

Definition summary : Summary.t := Summary.mk "One run" "Accuracy" "Prepared" [] "Local" "DISABLED" []
  ["A table"] "Compare" [] [] "sha256:a117628dd6ca7708f0ca9e810d52227a637cab7ff9dbc6d97f474e30197ffec8".

Definition report_at (n : Z) : call := Report project instance digest digest digest None None summary (at_ n).

(** The identities of the requests reported at 0 and at 3, and the checksum of the first. *)
Definition first_id : string := "clra-9d0b8e1fa077d9030d994d9881b4b373".
Definition second_id : string := "clra-b3feabc3e97eb9da1821285ffebccb4f".
Definition first_checksum : string := "sha256:9d0b8e1fa077d9030d994d9881b4b373ef1ba5e4c495cee2ed84c12f7a3c471f".

Definition next (c : call) (s : memory_store) : memory_store := (run_call any_word resolver c s).2.
Definition empty : memory_store := open_store [].
Definition requested : memory_store := next (report_at 0) empty.
Definition approved_store : memory_store :=
  next (Approve project instance first_id digest first_checksum "key" "owner" (at_ 1)) requested.
Definition use_by (attempt : string) (n : Z) : M exn memory_store Approval.t :=
  consume resolver project instance first_id digest attempt (at_ n).
Definition consumed_store : memory_store := (use_by first_attempt 2 approved_store).2.
(** A newer request, reported while the first is open. *)
Definition renewed : memory_store := next (report_at 3) requested.

Lemma used_step attempt n s : service_step any_word resolver s (use_by attempt n s).2.
Proof.
  destruct (use_by attempt n s) as [x s'] eqn:Hu.
  exact (a_call any_word resolver s s' (Consume project instance first_id digest attempt (at_ n)) x Hu).
Qed.

Lemma next_step c s : service_step any_word resolver s (next c s).
Proof. unfold next. destruct (run_call any_word resolver c s) as [x s'] eqn:Hc. by econstructor. Qed.

Lemma used_attempt attempt n s r s' : use_by attempt n s = (Ok r, s') -> Approval.consumed_attempt_id r = Some attempt.
Proof. intros Hu. apply (consume_result resolver) in Hu as [_ Ha]. exact Ha. Qed.

Lemma requested_step : service_step any_word resolver empty requested.
Proof. unfold requested. apply next_step. Qed.
Lemma approved_step : service_step any_word resolver requested approved_store.
Proof. unfold approved_store. apply next_step. Qed.
Lemma consumed_step : service_step any_word resolver approved_store consumed_store.
Proof. unfold consumed_store. apply used_step. Qed.
Lemma consumed_eq : (use_by first_attempt 2 approved_store).2 = consumed_store.
Proof. unfold consumed_store. reflexivity. Qed.
Lemma renewed_step : service_step any_word resolver requested renewed.
Proof. unfold renewed. apply next_step. Qed.

#[local] Opaque requested approved_store use_by consumed_store renewed.

Lemma empty_sound : sound empty.
Proof.
  split; [|done|done]. apply opened_memory_ok; [apply NoDup_nil_2|done].
Qed.

Lemma approved_history : rtc (service_step any_word resolver) empty approved_store.
Proof.
  exact (rtc_l _ _ _ _ requested_step (rtc_once _ _ approved_step)).
Qed.

Lemma approved_sound : sound approved_store.
Proof. eapply history_sound; [apply empty_sound|apply approved_history]. Qed.

Lemma consumed_history : rtc (service_step any_word resolver) approved_store consumed_store.
Proof.
  exact (rtc_once _ _ consumed_step).
Qed.

(** What a computation answers, from a test of its outcome. *)
Lemma answers {A} (c : M exn memory_store A) s (test : A -> bool) :
  match (c s).1 with Ok a => test a | Err _ => false end = true ->
  exists a, c s = (Ok a, (c s).2) /\ test a = true.
Proof. destruct (c s) as [[a|] s']; cbn; [eauto|done]. Qed.

Lemma stored_in i s (test : Approval.t -> bool) :
  match get_request i s with Some r => test r | None => false end = true ->
  exists r, get_request i s = Some r /\ test r = true.
Proof. destruct (get_request i s); [eauto|done]. Qed.

Lemma committed_answer (c : M exn memory_store Approval.t) s :
  match c s with
  | (Ok r, s') => bool_decide (Dict.get first_id (committed_requests s') = Some r)
  | _ => false
  end = true ->
  exists r s', c s = (Ok r, s') /\ Dict.get first_id (committed_requests s') = Some r.
Proof. destruct (c s) as [[r|] s']; [|done]. intros ?%bool_decide_eq_true. eauto. Qed.

Definition has_status (st : ControlledLocalApprovalStatus) (r : Approval.t) : bool :=
  bool_decide (Approval.status r = st).

Lemma stored_requests_valid_witness :
  exists r, get_request first_id approved_store = Some r /\ Approval.status r = APPROVED /\ Approval.post_init r = Ok r.
Proof.
  destruct (stored_in first_id approved_store (has_status APPROVED)) as (r & Hr & Hst); [by vm_compute|].
  exists r. split; [exact Hr|]. split; [by apply bool_decide_eq_true in Hst|].
  exact (stored_requests_valid any_word resolver empty approved_store first_id r empty_sound approved_history Hr).
Defined.

Lemma one_open_request_witness :
  exists r r', get_request first_id renewed = Some r /\ Approval.status r = SUPERSEDED /\
    get_request second_id renewed = Some r' /\ Approval.status r' = REQUESTED /\ second_id = second_id /\ r' = r'.
Proof.
  destruct (stored_in first_id renewed (has_status SUPERSEDED)) as (r & Hr & Hst); [by vm_compute|].
  destruct (stored_in second_id renewed (has_status REQUESTED)) as (r' & Hr' & Hst'); [by vm_compute|].
  apply bool_decide_eq_true in Hst. apply bool_decide_eq_true in Hst'.
  exists r, r'. do 4 (split; [done|]).
  pose proof (rtc_l _ _ _ _ requested_step (rtc_once _ _ renewed_step)) as Hh.
  apply (one_open_request any_word resolver empty renewed second_id second_id r' r' empty_sound Hh Hr' Hr');
    [by rewrite Hst'..|reflexivity|reflexivity].
Defined.

Lemma decision_final_witness :
  exists r, get_request first_id consumed_store = Some r /\ Approval.status r = CONSUMED /\
    get_request first_id (next (report_at 3) consumed_store) = Some r.
Proof.
  destruct (stored_in first_id consumed_store (has_status CONSUMED)) as (r & Hr & Hst); [by vm_compute|].
  apply bool_decide_eq_true in Hst. exists r. split; [exact Hr|]. split; [exact Hst|].
  apply (decision_final any_word resolver consumed_store).
  - eapply history_sound; [apply approved_sound|apply consumed_history].
  - exact (rtc_once _ _ (next_step (report_at 3) consumed_store)).
  - exact Hr.
  - by rewrite Hst.
Defined.

#[local] Transparent use_by.

Lemma authorization_used_once_witness :
  exists r r' s, use_by first_attempt 2 approved_store = (Ok r, consumed_store) /\
    use_by first_attempt 5 consumed_store = (Ok r', s) /\ first_attempt = first_attempt /\ r' = r.
Proof.
  destruct (answers (use_by first_attempt 2) approved_store (fun _ => true)) as (r & Hr & _); [by vm_compute|].
  destruct (answers (use_by first_attempt 5) consumed_store (fun _ => true)) as (r' & Hr' & _); [by vm_compute|].
  rewrite consumed_eq in Hr. exists r, r', (use_by first_attempt 5 consumed_store).2.
  split; [exact Hr|]. split; [exact Hr'|]. revert Hr Hr'. generalize (use_by first_attempt 5 consumed_store).2.
  unfold use_by. intros s Hr Hr'. exact (authorization_used_once any_word resolver approved_store consumed_store consumed_store _ _ _ _ _ _ _
    _ _ _ _ _ r r' approved_sound Hr (rtc_refl _ _) Hr').
Defined.

#[local] Opaque use_by.

Lemma consume_exactly_when_authorized_witness :
  exists r r' s, use_by first_attempt 2 approved_store = (Ok r', s) /\
    get_request first_id approved_store = Some r /\ authorizes r project instance digest first_attempt = true.
Proof.
  destruct (answers (use_by first_attempt 2) approved_store (fun _ => true)) as (r' & Hr & _); [by vm_compute|].
  pose proof (consume_exactly_when_authorized resolver approved_store project instance first_id digest
    first_attempt (at_ 2) approved_sound eq_refl) as H.
  change (consume resolver project instance first_id digest first_attempt (at_ 2)) with (use_by first_attempt 2) in H.
  rewrite Hr in H. destruct H as (_ & r & H0 & Ha & _).
  exists r, r', (use_by first_attempt 2 approved_store).2. split; [exact Hr|]. split; [exact H0|exact Ha].
Defined.

(** Two units of work opened on one database with an approved request can each consume it for their own attempt, and both commit: the in-memory commit publishes the requests it wrote without comparing them with what is committed. *)
Theorem units_consume_one_approval_twice :
  let db := committed_requests approved_store in
  let first := open_store db in
  exists r1 s1 r2 s2, use_by first_attempt 2 first = (Ok r1, s1) /\
    use_by second_attempt 3 (MemoryStore (committed_requests s1) (Plain.refresh db)) = (Ok r2, s2) /\
    Approval.consumed_attempt_id r1 = Some first_attempt /\
    Approval.consumed_attempt_id r2 = Some second_attempt /\ first_attempt <> second_attempt /\
    Dict.get first_id (committed_requests s1) = Some r1 /\ Dict.get first_id (committed_requests s2) = Some r2.
Proof.
  intros db first.
  destruct (committed_answer (use_by first_attempt 2) first) as (r1 & s1 & H1 & Hc1); [by vm_compute|].
  destruct (committed_answer (use_by second_attempt 3) (MemoryStore (committed_requests (use_by first_attempt 2 first).2) (Plain.refresh db)))
    as (r2 & s2 & H2 & Hc2); [by vm_compute|].
  exists r1, s1, r2, s2. rewrite H1 in H2. cbn [snd] in H2.
  pose proof (used_attempt _ _ _ _ _ H1) as Ha1. pose proof (used_attempt _ _ _ _ _ H2) as Ha2.
  split_and!; [exact H1|exact H2|exact Ha1|exact Ha2|discriminate|exact Hc1|exact Hc2].
Qed.
End RunApprovalWitness.
