(* ===== verification/Views.v ===== *)
(** [application/views.py]: the read models the services answer with. *)
From S2P Require Import Prelude Errors Text Float Value Lifecycle Workflow Checkpoint Coordinator Approval Events Provider Dict Tables Repositories.
Local Open Scope string_scope.
Local Open Scope list_scope.
Local Open Scope Z_scope.

(** [_plain] *)
Definition plain : value -> value := thaw.
Definition plain_mapping : mapping -> mapping := thaw_mapping.

(** ** Runs *)

Module StepRunView.
Record t := mk {
  id : string;
  step_id : string;
  attempt : Z;
  status : StepRunStatus.t;
  inputs : mapping;
  outputs : mapping;
  error_code : option string;
  created_at : datetime;
  updated_at : datetime
}.

Definition of_step_run (s : StepRun.t) : t :=
  mk (StepRun.id s) (StepRun.step_id s) (StepRun.attempt s) (StepRun.status s)
    (plain_mapping (StepRun.inputs s)) (plain_mapping (StepRun.outputs s)) (StepRun.error_code s)
    (StepRun.created_at s) (StepRun.updated_at s).
End StepRunView.

Module WorkflowRunView.
Record t := mk {
  id : string;
  project_id : string;
  workflow_id : string;
  workflow_version : string;
  actor_user_id : string;
  agent_session_id : string;
  status : WorkflowRunStatus.t;
  inputs : mapping;
  outputs : mapping;
  wait_reason : option string;
  error_code : option string;
  completed_steps : list string;
  checkpoint_count : Z;
  created_at : datetime;
  updated_at : datetime;
  steps : list StepRunView.t
}.

(** The sort key of a step attempt: the place of its step in the definition,
    and the attempt. [get_step] raises for a step the definition lacks. *)
Definition sort_key (w : Workflow.t) (s : StepRun.t) : res ((nat * Z) * StepRun.t) :=
  step ← Workflow.get_step w (StepRun.step_id s);
  match list_find (fun x => WorkflowStep.id x = WorkflowStep.id step) (Workflow.steps w) with
  | Some (i, _) => Ok ((i, StepRun.attempt s), s)
  | None => Err (Exn PyValueError "tuple.index(x): x not in tuple")
  end.

Definition key_leb (x y : nat * Z) : bool :=
  (x.1 <? y.1)%nat || ((x.1 =? y.1)%nat && (x.2 <=? y.2)).

Definition sorted_step_runs (x : ExecutionState.t) : res (list StepRun.t) :=
  keyed ← map_ok (sort_key (ExecutionState.workflow x)) (ExecutionState.step_runs x);
  Ok (sort_by key_leb fst keyed).*2.

Definition is_done (s : StepRunStatus.t) : bool :=
  match s with StepRunStatus.COMPLETED | StepRunStatus.SKIPPED => true | _ => false end.

Definition completed (x : ExecutionState.t) : res (list string) :=
  flags ← map_ok (fun step => found ← ExecutionState.latest_step_run x (WorkflowStep.id step);
                              Ok (WorkflowStep.id step, is_done (StepRun.status found.2)))
            (Workflow.steps (ExecutionState.workflow x));
  Ok (List.filter snd flags).*1.

(** [from_execution] *)
Definition from_execution (x : ExecutionState.t) : res t :=
  let run := ExecutionState.workflow_run x in
  step_runs ← sorted_step_runs x;
  done_ ← completed x;
  Ok (mk (WorkflowRun.id run) (WorkflowRun.project_id run) (WorkflowRun.workflow_id run)
        (WorkflowRun.workflow_version run) (WorkflowRun.actor_user_id run)
        (AgentSession.id (ExecutionState.agent_session x)) (WorkflowRun.status run)
        (plain_mapping (WorkflowRun.inputs run)) (plain_mapping (WorkflowRun.outputs run))
        (WorkflowRun.wait_reason run) (WorkflowRun.error_code run) done_
        (Z.of_nat (List.length (ExecutionState.checkpoints x))) (WorkflowRun.created_at run)
        (WorkflowRun.updated_at run) (StepRunView.of_step_run <$> step_runs)).
End WorkflowRunView.

Module WorkflowRunSummaryView.
Record t := mk {
  id : string;
  project_id : string;
  workflow_id : string;
  workflow_version : string;
  workflow_name : string;
  status : WorkflowRunStatus.t;
  wait_reason : option string;
  error_code : option string;
  created_at : datetime;
  updated_at : datetime
}.

Definition from_execution (x : ExecutionState.t) : t :=
  let run := ExecutionState.workflow_run x in
  mk (WorkflowRun.id run) (WorkflowRun.project_id run) (WorkflowRun.workflow_id run)
    (WorkflowRun.workflow_version run) (Workflow.name (ExecutionState.workflow x)) (WorkflowRun.status run)
    (WorkflowRun.wait_reason run) (WorkflowRun.error_code run) (WorkflowRun.created_at run)
    (WorkflowRun.updated_at run).
End WorkflowRunSummaryView.

(** ** Approvals *)

Module ApprovalView.
Record t := mk {
  id : string;
  project_id : string;
  workflow_run_id : string;
  step_run_id : string;
  policy_key : string;
  request_fingerprint : string;
  prompt : string;
  requested_action : mapping;
  requested_by : string;
  permitted_approver_role : string;
  requested_at : datetime;
  expires_at : option datetime;
  status : ApprovalRequestStatus.t;
  resolved_by : option string;
  resolved_at : option datetime;
  decision_reason : option string
}.

Definition from_approval (a : ApprovalRequest.t) : t :=
  mk (ApprovalRequest.id a) (ApprovalRequest.project_id a) (ApprovalRequest.workflow_run_id a)
    (ApprovalRequest.step_run_id a) (ApprovalRequest.policy_key a) (ApprovalRequest.request_fingerprint a)
    (ApprovalRequest.prompt a) (plain_mapping (ApprovalRequest.requested_action a))
    (ApprovalRequest.requested_by a) (ApprovalRequest.permitted_approver_role a)
    (ApprovalRequest.requested_at a) (ApprovalRequest.expires_at a) (ApprovalRequest.status a)
    (ApprovalRequest.resolved_by a) (ApprovalRequest.resolved_at a) (ApprovalRequest.decision_reason a).
End ApprovalView.

Record ApprovalDecisionView := DecisionView {
  view_approval : ApprovalView.t;
  view_workflow_run : WorkflowRunView.t
}.

(** ** Pages *)

Record page_view (A : Type) := PageView { items : list A; total : Z; offset : Z; limit : Z }.
Arguments PageView {A} _ _ _ _.
Arguments items {A} _.
Arguments total {A} _.

(** ** Events, definitions, artifacts and provider operations *)

Module ExecutionEventView.
Record t := mk {
  id : string;
  sequence : Z;
  event_type : ExecutionEventType;
  severity : EventSeverity;
  payload : mapping;
  occurred_at : datetime;
  agent_session_id : option string;
  step_run_id : option string;
  correlation_id : option string;
  causation_id : option string
}.

(** The payload is [event.payload.to_dict()["data"]]. *)
Definition from_event (e : ExecutionEvent.t) : t :=
  mk (ExecutionEvent.id e) (ExecutionEvent.sequence e) (ExecutionEvent.event_type e)
    (ExecutionEvent.severity e) (thaw_mapping (EventPayload.data (ExecutionEvent.payload e)))
    (ExecutionEvent.occurred_at e) (ExecutionEvent.agent_session_id e) (ExecutionEvent.step_run_id e)
    (ExecutionEvent.correlation_id e) (ExecutionEvent.causation_id e).
End ExecutionEventView.

Module WorkflowStepDefinitionView.
Record t := mk {
  id : string;
  kind : string;
  needs : list string;
  uses : option string;
  input_mapping : mapping;
  timeout_seconds : Z;
  max_attempts : Z;
  approval_policy : option string
}.

Definition kind_value (k : WorkflowStepKind) : string :=
  match k with SKILL => "skill" | APPROVAL => "approval" end.

Definition of_step (s : WorkflowStep.t) : t :=
  mk (WorkflowStep.id s) (kind_value (WorkflowStep.kind s)) (WorkflowStep.needs s) (WorkflowStep.uses s)
    (plain_mapping (WorkflowStep.input_mapping s)) (WorkflowStep.timeout_seconds s)
    (WorkflowStep.max_attempts s) (WorkflowStep.approval_policy s).
End WorkflowStepDefinitionView.

Module WorkflowDefinitionView.
Record t := mk {
  id : string;
  version : string;
  name : string;
  schema_version : string;
  input_schema : mapping;
  outputs : mapping;
  steps : list WorkflowStepDefinitionView.t
}.

Definition from_workflow (w : Workflow.t) : t :=
  mk (Workflow.id w) (Workflow.version w) (Workflow.name w) (Workflow.schema_version w)
    (plain_mapping (Workflow.input_schema w)) (plain_mapping (Workflow.outputs w))
    (WorkflowStepDefinitionView.of_step <$> Workflow.steps w).
End WorkflowDefinitionView.

Module ArtifactView.
Record t := mk {
  id : string;
  logical_name : string;
  version : Z;
  kind : string;
  checksum : string;
  media_type : string;
  size : Z;
  producer_run_id : option string;
  producer_step_run_id : option string;
  metadata : mapping;
  created_at : datetime
}.

Definition from_artifact (a : ArtifactMetadata.t) : t :=
  mk (ArtifactMetadata.id a) (ArtifactMetadata.logical_name a) (ArtifactMetadata.version a)
    (ArtifactMetadata.kind a) (ArtifactMetadata.checksum a) (ArtifactMetadata.media_type a)
    (ArtifactMetadata.size a) (ArtifactMetadata.producer_run_id a) (ArtifactMetadata.producer_step_run_id a)
    (plain_mapping (ArtifactMetadata.metadata a)) (ArtifactMetadata.created_at a).
End ArtifactView.

Record ArtifactContentView := ContentView { content_artifact : ArtifactView.t; content_bytes : string }.

(** The [value] of the enumerations of provider operations. *)
Definition category_value (c : ProviderCategory.t) : string :=
  match c with
  | ProviderCategory.PAPER_SEARCH => "paper_search" | ProviderCategory.SOURCE_CONTENT => "source_content"
  | ProviderCategory.LLM => "llm"
  end.

Definition operation_kind_value (k : ProviderOperationKind.t) : string :=
  match k with
  | ProviderOperationKind.SEARCH => "search"
  | ProviderOperationKind.RETRIEVE => "retrieve"
  | ProviderOperationKind.GENERATE_TEXT => "generate_text"
  | ProviderOperationKind.GENERATE_STRUCTURED => "generate_structured"
  | ProviderOperationKind.SUMMARIZE_EVIDENCE => "summarize_evidence"
  | ProviderOperationKind.SYNTHESIZE_CLAIMS => "synthesize_claims"
  | ProviderOperationKind.COMPOSE_REPORT => "compose_report"
  | ProviderOperationKind.MECHANICAL_REPAIR => "mechanical_repair"
  end.

Definition operation_status_value (s : ProviderOperationStatus.t) : string :=
  match s with
  | ProviderOperationStatus.RESERVED => "RESERVED" | ProviderOperationStatus.RUNNING => "RUNNING"
  | ProviderOperationStatus.SUCCEEDED => "SUCCEEDED" | ProviderOperationStatus.FAILED => "FAILED"
  | ProviderOperationStatus.CANCELLED => "CANCELLED"
  end.

Definition settlement_value (s : SettlementState.t) : string :=
  match s with
  | SettlementState.UNSETTLED => "UNSETTLED" | SettlementState.SETTLED => "SETTLED"
  | SettlementState.RELEASED => "RELEASED"
  end.

Definition failure_value (f : ProviderFailureCategory.t) : string :=
  match f with
  | ProviderFailureCategory.INVALID_QUERY => "INVALID_QUERY"
  | ProviderFailureCategory.PROVIDER_AUTHENTICATION => "PROVIDER_AUTHENTICATION"
  | ProviderFailureCategory.PROVIDER_RATE_LIMIT => "PROVIDER_RATE_LIMIT"
  | ProviderFailureCategory.PROVIDER_TIMEOUT => "PROVIDER_TIMEOUT"
  | ProviderFailureCategory.PROVIDER_UNAVAILABLE => "PROVIDER_UNAVAILABLE"
  | ProviderFailureCategory.MALFORMED_PROVIDER_RESPONSE => "MALFORMED_PROVIDER_RESPONSE"
  | ProviderFailureCategory.CONTENT_UNAVAILABLE => "CONTENT_UNAVAILABLE"
  | ProviderFailureCategory.SCHEMA_VALIDATION => "SCHEMA_VALIDATION"
  | ProviderFailureCategory.LLM_STRUCTURED_OUTPUT => "LLM_STRUCTURED_OUTPUT"
  | ProviderFailureCategory.PROVENANCE_VALIDATION => "PROVENANCE_VALIDATION"
  | ProviderFailureCategory.ARTIFACT_STORAGE => "ARTIFACT_STORAGE"
  | ProviderFailureCategory.BUDGET_EXCEEDED => "BUDGET_EXCEEDED"
  | ProviderFailureCategory.CANCELLED => "CANCELLED"
  end.

Module ProviderOperationView.
Record t := mk {
  id : string;
  logical_step_id : string;
  provider_category : string;
  operation_kind : string;
  provider_identity : string;
  adapter_version : string;
  model_or_endpoint : string;
  status : string;
  settlement_state : string;
  request_count : Z;
  input_tokens : option Z;
  output_tokens : option Z;
  estimated_cost_minor_units : option Z;
  cost_currency : option string;
  failure_category : option string;
  created_at : datetime;
  finished_at : option datetime
}.

Definition from_operation (op : ProviderOperation.t) : t :=
  let usage := ProviderOperation.actual_usage op in
  mk (ProviderOperation.id op) (ProviderOperation.logical_step_id op)
    (category_value (ProviderOperation.provider_category op))
    (operation_kind_value (ProviderOperation.operation_kind op)) (ProviderOperation.provider_identity op)
    (ProviderOperation.adapter_version op) (ProviderOperation.model_or_endpoint op)
    (operation_status_value (ProviderOperation.status op))
    (settlement_value (ProviderOperation.settlement_state op))
    (match usage with Some u => ProviderUsage.request_count u | None => 0 end)
    (usage ≫= ProviderUsage.input_tokens) (usage ≫= ProviderUsage.output_tokens)
    (usage ≫= ProviderUsage.estimated_cost_minor_units) (usage ≫= ProviderUsage.cost_currency)
    (failure_value <$> ProviderOperation.failure_category op) (ProviderOperation.created_at op)
    (ProviderOperation.finished_at op).
End ProviderOperationView.
