(* ===== verification/Application.v ===== *)
(** [application/]: the use cases. Each loads what it needs through the unit
    of work, delegates to the domain coordinator or the runtime, commits, and
    translates the exceptions of the layers below after rolling back.

    They run on the state of the runtime's process: the session, the clock and
    the source of identifiers. *)
From S2P Require Import Prelude Errors Text Float Value Json Lexical SkillSchema Sha256 Lifecycle Workflow Checkpoint Coordinator Approval Events Records Provider Budget Dict Tables Repositories Manifests UnitOfWork RetryPolicy EngineModels References Validator Scheduler Engine EngineCoordinator Skills Calendar AgentRuntime Canonical Views.
Local Open Scope string_scope.
Local Open Scope list_scope.
Local Open Scope Z_scope.

(** ** [commands.py] *)

Module StepSpec.
Record t := mk {
  id : string;
  kind : WorkflowStepKind;
  needs : list string;
  uses : option string;
  input_mapping : mapping;
  timeout_seconds : Z;
  max_attempts : Z;
  retry_backoff : string;
  retry_initial_seconds : float;
  retry_max_seconds : float;
  checkpoint_policy : string;
  approval_policy : option string
}.
End StepSpec.

Module WorkflowSpec.
Record t := mk {
  id : string;
  version : string;
  name : string;
  steps : list StepSpec.t;
  schema_version : string;
  input_schema : mapping;
  outputs : mapping
}.
End WorkflowSpec.

Record CreateWorkflowRunCommand := CreateRun {
  cr_project_id : string;
  cr_actor_user_id : string;
  cr_idempotency_key : string;
  cr_agent_profile_ref : string;
  cr_workflow : WorkflowSpec.t;
  cr_inputs : mapping
}.

Record CreateCatalogWorkflowRunCommand := CreateCatalogRun {
  cc_project_id : string;
  cc_actor_user_id : string;
  cc_idempotency_key : string;
  cc_agent_profile_ref : string;
  cc_workflow_id : string;
  cc_workflow_version : string;
  cc_inputs : mapping
}.

Inductive ApprovalDecision := APPROVE | REJECT.
#[export] Instance approval_decision_eq_dec : EqDecision ApprovalDecision.
Proof. solve_decision. Defined.

Record ApprovalDecisionCommand := DecisionCommand {
  dc_approval_id : string;
  dc_decision : ApprovalDecision;
  dc_resolved_by : string;
  dc_idempotency_key : string;
  dc_current_fingerprint : option string;
  dc_reason : option string;
  dc_metadata : mapping
}.

(** ** [_build_workflow] *)

Definition build_step (s : StepSpec.t) : res WorkflowStep.t :=
  WorkflowStep.post_init
    (WorkflowStep.mk (StepSpec.id s) (StepSpec.kind s) (StepSpec.needs s) (StepSpec.uses s)
       (StepSpec.input_mapping s) (StepSpec.timeout_seconds s) (StepSpec.max_attempts s)
       (StepSpec.retry_backoff s) (StepSpec.retry_initial_seconds s) (StepSpec.retry_max_seconds s)
       (StepSpec.checkpoint_policy s) (StepSpec.approval_policy s)).

Definition build_workflow (w : WorkflowSpec.t) : res Workflow.t :=
  steps ← map_ok build_step (WorkflowSpec.steps w);
  Workflow.post_init
    (Workflow.mk (WorkflowSpec.id w) (WorkflowSpec.version w) (WorkflowSpec.name w) steps
       (WorkflowSpec.schema_version w) (WorkflowSpec.input_schema w) (WorkflowSpec.outputs w)).

(** The built definition, if the engine accepts it too. *)
Definition validated_workflow (w : WorkflowSpec.t) : res Workflow.t :=
  workflow ← build_workflow w;
  definition ← WorkflowDefinition.from_domain workflow;
  _ ← Validator.validate definition;
  Ok workflow.

(** The specification of a catalog definition. *)
Definition step_spec (s : WorkflowStep.t) : StepSpec.t :=
  StepSpec.mk (WorkflowStep.id s) (WorkflowStep.kind s) (WorkflowStep.needs s) (WorkflowStep.uses s)
    (WorkflowStep.input_mapping s) (WorkflowStep.timeout_seconds s) (WorkflowStep.max_attempts s)
    (WorkflowStep.retry_backoff s) (WorkflowStep.retry_initial_seconds s) (WorkflowStep.retry_max_seconds s)
    (WorkflowStep.checkpoint_policy s) (WorkflowStep.approval_policy s).

Definition workflow_spec (w : Workflow.t) : WorkflowSpec.t :=
  WorkflowSpec.mk (Workflow.id w) (Workflow.version w) (Workflow.name w) (step_spec <$> Workflow.steps w)
    (Workflow.schema_version w) (Workflow.input_schema w) (Workflow.outputs w).

(** ** Equality of definitions, as the dataclasses define it *)

Definition step_eqb (a b : WorkflowStep.t) : bool :=
  let same {A} `{EqDecision A} (f : WorkflowStep.t -> A) := bool_decide (f a = f b) in
  same WorkflowStep.id && same WorkflowStep.kind && same WorkflowStep.needs && same WorkflowStep.uses
  && mapping_eq (WorkflowStep.input_mapping a) (WorkflowStep.input_mapping b)
  && same WorkflowStep.timeout_seconds && same WorkflowStep.max_attempts && same WorkflowStep.retry_backoff
  && value_eq (VFloat (WorkflowStep.retry_initial_seconds a)) (VFloat (WorkflowStep.retry_initial_seconds b))
  && value_eq (VFloat (WorkflowStep.retry_max_seconds a)) (VFloat (WorkflowStep.retry_max_seconds b))
  && same WorkflowStep.checkpoint_policy && same WorkflowStep.approval_policy.

Definition steps_eqb (l l' : list WorkflowStep.t) : bool :=
  (List.length l =? List.length l')%nat && forallb (fun p => step_eqb p.1 p.2) (zip l l').

Definition workflow_eqb (a b : Workflow.t) : bool :=
  let same {A} `{EqDecision A} (f : Workflow.t -> A) := bool_decide (f a = f b) in
  same Workflow.id && same Workflow.version && same Workflow.name
  && steps_eqb (Workflow.steps a) (Workflow.steps b) && same Workflow.schema_version
  && mapping_eq (Workflow.input_schema a) (Workflow.input_schema b)
  && mapping_eq (Workflow.outputs a) (Workflow.outputs b).

(** ** Exceptions *)

Definition caught_by (classes : list exn_class) (e : exn) : bool :=
  existsb (is_instance (exn_kind e)) classes.

(** The first clause that catches the exception decides; the others let it through. *)
Fixpoint translate (clauses : list (list exn_class * exn_class)) (e : exn) : exn :=
  match clauses with
  | [] => e
  | (classes, target) :: clauses' =>
      if caught_by classes e then Exn target (exn_msg e) else translate clauses' e
  end.

(** ** [_verify_idempotent_request] *)

Definition verify_idempotent_request (x : ExecutionState.t) (command : CreateWorkflowRunCommand)
    (workflow : Workflow.t) : res unit :=
  let run := ExecutionState.workflow_run x in
  fail_if (negb (workflow_eqb (ExecutionState.workflow x) workflow)
           || negb (String.eqb (WorkflowRun.actor_user_id run) (cr_actor_user_id command))
           || negb (String.eqb (AgentSession.agent_profile_ref (ExecutionState.agent_session x))
                      (cr_agent_profile_ref command))
           || negb (mapping_eq (WorkflowRun.inputs run) (cr_inputs command)))
    (Exn ApplicationConflictError "Idempotency key is already associated with a different run request").

Definition with_checkpoints (x : ExecutionState.t) (cs : list Checkpoint.t) : ExecutionState.t :=
  ExecutionState.mk (ExecutionState.workflow x) (ExecutionState.workflow_run x)
    (ExecutionState.agent_session x) (ExecutionState.step_runs x) (ExecutionState.checkpoints x ++ cs).

Section application.
Context {EN : Entities} {P : Type}.
Context (clock : nat -> datetime) (id_factory : nat -> string -> string).
Context (skills : dict (string * string) (@RegisteredSkill session P)).
Context (capability_provider : option (step_request -> SkillCapabilities.t P)).
Context (max_decisions : nat) (approval_ttl : Z).

Definition on_environment {A} : M exn env A -> M exn (@process EN P) A :=
  zoom pr_environment (fun e p => Process e (pr_observed p) (pr_versions p)).
Definition on_process_session {A} : M exn session A -> M exn (@process EN P) A :=
  zoom (fun p => obs_session (pr_observed p))
    (fun s p => Process (pr_environment p) (Observed s (obs_calls (pr_observed p))) (pr_versions p)).
Definition on_process_unit {A} (c : M exn unit_of_work A) : M exn (@process EN P) A :=
  on_process_session (on_unit c).

(** A service's clock is the wall clock of the runtime. *)
Definition service_now : M exn (@process EN P) datetime := on_environment (tick clock).

(** [try: ... except <class>: rollback; raise <other> ...]: whatever is raised,
    the unit of work is rolled back, but for the classes [passing] that are
    raised again before. *)
Definition guarded {A} (passing : list exn_class) (clauses : list (list exn_class * exn_class))
    (c : M exn process A) : M exn (@process EN P) A :=
  fun p => match c p with
           | (Ok a, p') => (Ok a, p')
           | (Err e, p') =>
               if caught_by passing e then (Err e, p')
               else (Err (translate clauses e), (on_process_session rollback p').2)
           end.
Definition rolling_back {A} := @guarded A [].

(** ** [_shared.py] *)

Definition load_stored (run_id : string) : M exn (@process EN P) ExecutionState.t :=
  p ← get_state;
  found ← lift_result (WorkflowRepository.get run_id (workflows (pr_unit p)));
  match found with
  | None => raise (Exn ApplicationNotFoundError ("WorkflowRun " +:+ run_id +:+ " was not found"))
  | Some x => mret (with_checkpoints x (CheckpointRepository.list run_id (checkpoints (pr_unit p))))
  end.

Definition load_run_view (run_id : string) : M exn (@process EN P) WorkflowRunView.t :=
  x ← load_stored run_id;
  lift_result (WorkflowRunView.from_execution x).

(** ** [CreateWorkflowRunService] *)

Definition creation_errors : list (list exn_class * exn_class) :=
  [([DomainError; WorkflowEngineError], ApplicationValidationError);
   ([DuplicateEntityError; StaleStateError], ApplicationConflictError)].

(** The execution created and stored with its first checkpoint. *)
Definition create_and_store (command : CreateWorkflowRunCommand) (workflow : Workflow.t) :
    M exn (@process EN P) WorkflowRunView.t :=
  x ← on_environment (create_workflow_run clock id_factory workflow (cr_project_id command)
        (cr_actor_user_id command) (cr_idempotency_key command) (VDict false (cr_inputs command))
        (cr_agent_profile_ref command));
  on_process_unit (on_workflows (WorkflowRepository.save x None)) ;;
  c ← lift_result (ExecutionState.latest_checkpoint x);
  on_process_unit (on_checkpoints (CheckpointRepository.save c BASELINE None None)) ;;
  on_process_session commit ;;
  lift_result (WorkflowRunView.from_execution x).

(** The answer to a request made again. *)
Definition replay (x : ExecutionState.t) (command : CreateWorkflowRunCommand) (workflow : Workflow.t) :
    M exn (@process EN P) WorkflowRunView.t :=
  lift_result (verify_idempotent_request x command workflow) ;;
  p ← get_state;
  lift_result (WorkflowRunView.from_execution
    (with_checkpoints x (CheckpointRepository.list (WorkflowRun.id (ExecutionState.workflow_run x))
                           (checkpoints (pr_unit p))))).

Definition create_validated (command : CreateWorkflowRunCommand) (workflow : Workflow.t) :
    M exn (@process EN P) WorkflowRunView.t :=
  p ← get_state;
  existing ← lift_result (WorkflowRepository.get_by_idempotency_key (cr_project_id command)
               (cr_idempotency_key command) (workflows (pr_unit p)));
  match existing with
  | Some x => replay x command workflow
  | None => rolling_back creation_errors (create_and_store command workflow)
  end.

Definition create_run (command : CreateWorkflowRunCommand) : M exn (@process EN P) WorkflowRunView.t :=
  match validated_workflow (cr_workflow command) with
  | Ok workflow => create_validated command workflow
  | Err e =>
      if caught_by [DomainError; WorkflowEngineError] e
      then on_process_session rollback ;; raise (Exn ApplicationValidationError (exn_msg e))
      else raise e
  end.

(** ** [CreateCatalogWorkflowRunService] *)

Definition hash_reference (hash : string) : string :=
  if starts_with "sha256:" hash then hash else "sha256:" +:+ hash.

Definition create_catalog_run (definition_hash : Workflow.t -> string) (command : CreateCatalogWorkflowRunCommand) :
    M exn (@process EN P) WorkflowRunView.t :=
  p ← get_state;
  match List.find (fun w => String.eqb (Workflow.id w) (cc_workflow_id command)
                            && String.eqb (Workflow.version w) (cc_workflow_version command))
          (WorkflowRepository.list_definitions (workflows (pr_unit p))) with
  | None => raise (Exn ApplicationValidationError ("Catalog workflow " +:+ cc_workflow_id command +:+ "@"
                     +:+ cc_workflow_version command +:+ " was not found"))
  | Some workflow =>
      raise_if (dict_has "workflow_hash" (cc_inputs command))
        (Exn ApplicationValidationError "workflow_hash is server-owned and cannot be supplied by clients") ;;
      create_run (CreateRun (cc_project_id command) (cc_actor_user_id command) (cc_idempotency_key command)
        (cc_agent_profile_ref command) (workflow_spec workflow)
        (dict_set "workflow_hash" (VStr (hash_reference (definition_hash workflow))) (cc_inputs command)))
  end.

(** ** [GetWorkflowRunService], [ResumeWorkflowRunService] *)

Definition get_run (run_id : string) : M exn (@process EN P) WorkflowRunView.t := load_run_view run_id.

(** [SyncExecutionDispatcher.submit] *)
Definition submit (run_id : string) (outcome : option ApprovalOutcome.t) (outputs : option mapping) :
    M exn (@process EN P) RuntimeResult.t :=
  run clock id_factory skills capability_provider max_decisions approval_ttl (RunId run_id) outcome outputs.

Definition resume_errors : list (list exn_class * exn_class) :=
  [([ExecutionNotResumableError; WorkflowEngineError; AgentRuntimeError], ApplicationConflictError);
   ([PersistenceError], ApplicationConflictError)].

Definition resume_run (run_id : string) : M exn (@process EN P) WorkflowRunView.t :=
  load_stored run_id ;;
  guarded [ApplicationConflictError] resume_errors
    (submit run_id None None ;;
     load_run_view run_id).

(** ** [CancelWorkflowRunService] *)

Definition cancel_errors : list (list exn_class * exn_class) :=
  [([ExecutionNotResumableError], ApplicationConflictError);
   ([DomainError; WorkflowEngineError], ApplicationValidationError);
   ([DuplicateEntityError; StaleStateError], ApplicationConflictError)].

(** The cancellation of an execution, between two recovery checkpoints. *)
Definition cancel_and_store (expected_version : Z) : M exn (@machine EN P) WorkflowRunView.t :=
  before ← on_world (create_checkpoint clock id_factory);
  on_uow (on_checkpoints (CheckpointRepository.save before BEFORE_TERMINAL None None)) ;;
  terminal ← on_world (cancel_execution clock id_factory);
  on_uow (on_checkpoints (CheckpointRepository.save terminal TERMINAL None None)) ;;
  x ← gets rt_execution;
  on_uow (on_workflows (WorkflowRepository.save x (Some expected_version))) ;;
  on_session commit ;;
  lift_result (WorkflowRunView.from_execution x).

Definition cancel_run (run_id : string) : M exn (@process EN P) WorkflowRunView.t :=
  x ← load_stored run_id;
  if WorkflowRunStatus.is_terminal (WorkflowRun.status (ExecutionState.workflow_run x))
  then lift_result (WorkflowRunView.from_execution x)
  else
    p ← get_state;
    match WorkflowRepository.get_version run_id (workflows (pr_unit p)) with
    | None => raise (Exn ApplicationConflictError ("WorkflowRun " +:+ run_id +:+ " has no persistence version"))
    | Some expected_version =>
        rolling_back cancel_errors (with_execution x (cancel_and_store expected_version))
    end.

(** ** [ApprovalDecisionService] *)

(** [_verify_waiting_execution] *)
Definition verify_waiting_execution (x : ExecutionState.t) (a : ApprovalRequest.t) : res unit :=
  let run := ExecutionState.workflow_run x in
  _ ← fail_if (negb (String.eqb (WorkflowRun.project_id run) (ApprovalRequest.project_id a)))
        (Exn ApplicationConflictError "ApprovalRequest project does not match its WorkflowRun");
  _ ← fail_if (negb (bool_decide (WorkflowRun.status run = WorkflowRunStatus.WAITING_FOR_APPROVAL)))
        (Exn ApplicationConflictError ("WorkflowRun " +:+ WorkflowRun.id run +:+ " is not waiting for approval"));
  current ← ExecutionState.current_step_runs x;
  let waiting := List.filter (fun f => bool_decide (StepRun.status f.2 = StepRunStatus.WAITING_APPROVAL)) current in
  fail_if (match waiting with
           | [f] => negb (String.eqb (StepRun.id f.2) (ApprovalRequest.step_run_id a))
           | _ => true
           end)
    (Exn ApplicationConflictError "ApprovalRequest does not identify the current waiting step").

(** A [Mapping], and a [list] or [tuple]. *)
Definition mapping_value (v : value) : option mapping := match v with VDict _ d => Some d | _ => None end.
Definition sequence_value (v : value) : option (list value) :=
  match v with VList l | VTuple l => Some l | _ => None end.
Definition string_value (v : value) : option string := match v with VStr s => Some s | _ => None end.
Definition get_field (k : string) (d : mapping) : value := default VNone (dict_get k d).

(** The artifact an approval is bound to: identifier, checksum, the selected
    papers and their preview. *)
Definition bound_artifact (resolved_inputs bound : mapping) :
    res (string * string * list value * list value) :=
  match string_value (get_field "artifact_id" bound), string_value (get_field "checksum" bound),
        sequence_value (get_field "selected_paper_ids" resolved_inputs),
        sequence_value (get_field "approval_preview" resolved_inputs) with
  | Some artifact_id, Some checksum, Some selected, Some preview => Ok (artifact_id, checksum, selected, preview)
  | _, _, _, _ => Err (Exn ApplicationConflictError "Approval-bound selected-paper artifact is incomplete")
  end.

(** [ArtifactApplicationGateway.read_verified]; [read] is the content storage. *)
Definition read_verified (read : string -> res string) (artifact_id : string) (t : ArtifactRepository.t) :
    res string :=
  match ArtifactRepository.get artifact_id t with
  | None => Err (Exn ArtifactGatewayError ("Artifact " +:+ artifact_id +:+ " was not found"))
  | Some a =>
      content ← read (ArtifactMetadata.storage_ref a);
      _ ← fail_if (negb (Z.of_nat (String.length content) =? ArtifactMetadata.size a)
                   || negb (String.eqb (sha256_bytes content) (ArtifactMetadata.checksum a)))
            (Exn ArtifactGatewayError ("Artifact " +:+ artifact_id +:+ " failed checksum or size verification"));
      Ok content
  end.

(** [try: read_verified except ArtifactGatewayError: raise ApplicationConflictError] *)
Definition read_or_conflict (read : string -> res string) (artifact_id message : string) (t : ArtifactRepository.t) :
    res string :=
  match read_verified read artifact_id t with
  | Ok content => Ok content
  | Err e => Err (if caught_by [ArtifactGatewayError] e then Exn ApplicationConflictError message else e)
  end.

Definition verify_bound_content (read : string -> res string) (t : ArtifactRepository.t)
    (artifact_id checksum : string) (selected preview : list value) : res unit :=
  _ ← fail_if (negb (value_eq (VList (get_field "paper_id" <$> omap mapping_value preview)) (VList selected)))
        (Exn ApplicationConflictError "Approval candidate preview no longer matches selected paper IDs");
  _ ← fail_if (match ArtifactRepository.get artifact_id t with
               | Some a => negb (String.eqb (ArtifactMetadata.checksum a) checksum)
               | None => true
               end)
        (Exn ApplicationConflictError "Approval-bound selected-paper artifact metadata changed");
  content ← read_or_conflict read artifact_id
              "Approval-bound selected-paper artifact failed integrity verification" t;
  fail_if (negb (String.eqb checksum (sha256_bytes content)))
    (Exn ApplicationConflictError "Approval-bound selected-paper artifact checksum changed").

(** [_verify_bound_candidate_artifact]; [artifacts] is the gateway's storage, if any. *)
Definition verify_bound_candidate_artifact (artifacts : option (string -> res string))
    (t : ArtifactRepository.t) (a : ApprovalRequest.t) : res unit :=
  match artifacts, mapping_value (default (VDict false []) (dict_get "resolved_inputs" (ApprovalRequest.requested_action a))) with
  | Some read, Some resolved_inputs =>
      match mapping_value (get_field "selected_papers_artifact" resolved_inputs) with
      | Some bound =>
          found ← bound_artifact resolved_inputs bound;
          let '(artifact_id, checksum, selected, preview) := found in
          verify_bound_content read t artifact_id checksum selected preview
      | None => Ok tt
      end
  | _, _ => Ok tt
  end.

(** The mutation of a loaded request. *)
Definition on_approval (a : ApprovalRequest.t) (c : M exn ApprovalRequest.t unit) :
    M exn (@process EN P) ApprovalRequest.t :=
  fun p => match c a with (Ok _, a') => (Ok a', p) | (Err e, _) => (Err e, p) end.

Definition decision_outputs (a : ApprovalRequest.t) : mapping :=
  [("approval_request_id", VStr (ApprovalRequest.id a));
   ("approval_fingerprint", VStr (ApprovalRequest.request_fingerprint a));
   ("approval_status", VStr (ApprovalRequestStatus.value (ApprovalRequest.status a)));
   ("resolved_at", match ApprovalRequest.resolved_at a with Some at_ => VStr (isoformat at_) | None => VNone end)].

(** The decision stored and the runtime resumed with its outcome. *)
Definition store_decision (expected_version : Z) (a : ApprovalRequest.t) (outcome : ApprovalOutcome.t)
    (outputs : option mapping) : M exn (@process EN P) ApprovalDecisionView :=
  on_process_unit (on_approvals (ApprovalRepository.save a (Some expected_version))) ;;
  submit (ApprovalRequest.workflow_run_id a) (Some outcome) outputs ;;
  view ← load_run_view (ApprovalRequest.workflow_run_id a);
  mret (DecisionView (ApprovalView.from_approval a) view).

Definition approve_and_store (artifacts : option (string -> res string)) (command : ApprovalDecisionCommand)
    (expected_version : Z) (a : ApprovalRequest.t) : M exn (@process EN P) ApprovalDecisionView :=
  match dc_current_fingerprint command with
  | None => raise (Exn ApplicationValidationError "current_fingerprint is required for approval")
  | Some fingerprint =>
      p ← get_state;
      lift_result (verify_bound_candidate_artifact artifacts (UnitOfWork.artifacts (pr_unit p)) a) ;;
      at_ ← service_now;
      a' ← on_approval a (ApprovalRequest.approve at_ (dc_resolved_by command) (dc_idempotency_key command)
             fingerprint (Some at_) (dc_reason command) (Some (dc_metadata command)));
      store_decision expected_version a' ApprovalOutcome.APPROVED (Some (decision_outputs a'))
  end.

Definition reject_and_store (command : ApprovalDecisionCommand) (expected_version : Z) (a : ApprovalRequest.t) :
    M exn (@process EN P) ApprovalDecisionView :=
  at_ ← service_now;
  a' ← on_approval a (ApprovalRequest.reject at_ (dc_resolved_by command) (dc_idempotency_key command)
         (Some at_) (dc_reason command) (Some (dc_metadata command)));
  store_decision expected_version a' ApprovalOutcome.REJECTED None.

Definition expire_and_store (expected_version : Z) (a : ApprovalRequest.t) : M exn (@process EN P) ApprovalDecisionView :=
  at_ ← service_now;
  a' ← on_approval a (ApprovalRequest.expire at_ (Some at_) (Some "Approval request expired")
         (Some [("policy", VStr "cancel")]));
  store_decision expected_version a' ApprovalOutcome.EXPIRED None.

Definition decision_errors : list (list exn_class * exn_class) :=
  [([DomainError], ApplicationValidationError);
   ([WorkflowEngineError; AgentRuntimeError; PersistenceError], ApplicationConflictError)].

Definition expiry_errors : list (list exn_class * exn_class) :=
  [([DomainError; WorkflowEngineError], ApplicationValidationError);
   ([AgentRuntimeError; PersistenceError], ApplicationConflictError)].

(** What both paths check before they change anything: the version to store at. *)
Definition waiting_version (a : ApprovalRequest.t) : M exn (@process EN P) Z :=
  x ← load_stored (ApprovalRequest.workflow_run_id a);
  lift_result (verify_waiting_execution x a) ;;
  p ← get_state;
  match ApprovalRepository.get_version (ApprovalRequest.id a) (approvals (pr_unit p)) with
  | None => raise (Exn ApplicationConflictError
                     ("ApprovalRequest " +:+ ApprovalRequest.id a +:+ " has no persistence version"))
  | Some v => mret v
  end.

(** [_expire_and_cancel] *)
Definition expire_and_cancel (a : ApprovalRequest.t) : M exn (@process EN P) ApprovalDecisionView :=
  v ← waiting_version a;
  rolling_back expiry_errors (expire_and_store v a).

(** [self.clock() >= approval.expires_at], when the request is pending. *)
Definition has_expired (a : ApprovalRequest.t) : M exn (@process EN P) bool :=
  match ApprovalRequest.status a, ApprovalRequest.expires_at a with
  | ApprovalRequestStatus.PENDING, Some e =>
      at_ ← service_now;
      before ← lift_result (datetime_lt at_ e);
      mret (negb before)
  | _, _ => mret false
  end.

Definition target_status (d : ApprovalDecision) : ApprovalRequestStatus.t :=
  match d with APPROVE => ApprovalRequestStatus.APPROVED | REJECT => ApprovalRequestStatus.REJECTED end.

(** A request that is already decided: the same decision again, or a conflict. *)
Definition repeat_decision (command : ApprovalDecisionCommand) (a : ApprovalRequest.t) :
    M exn (@process EN P) ApprovalDecisionView :=
  if bool_decide (ApprovalRequest.status a = target_status (dc_decision command))
     && bool_decide (ApprovalRequest.decision_idempotency_key a = Some (dc_idempotency_key command))
  then view ← load_run_view (ApprovalRequest.workflow_run_id a);
       mret (DecisionView (ApprovalView.from_approval a) view)
  else raise (Exn ApplicationConflictError ("ApprovalRequest " +:+ ApprovalRequest.id a +:+ " is already "
                +:+ ApprovalRequestStatus.value (ApprovalRequest.status a))).

Definition decide_pending (artifacts : option (string -> res string)) (command : ApprovalDecisionCommand)
    (a : ApprovalRequest.t) : M exn (@process EN P) ApprovalDecisionView :=
  v ← waiting_version a;
  rolling_back decision_errors
    match dc_decision command with
    | APPROVE => approve_and_store artifacts command v a
    | REJECT => reject_and_store command v a
    end.

Definition decide_approval (artifacts : option (string -> res string)) (command : ApprovalDecisionCommand) :
    M exn (@process EN P) ApprovalDecisionView :=
  p ← get_state;
  found ← lift_result (ApprovalRepository.get (dc_approval_id command) (approvals (pr_unit p)));
  match found with
  | None => raise (Exn ApplicationNotFoundError ("ApprovalRequest " +:+ dc_approval_id command +:+ " was not found"))
  | Some a =>
      expired ← has_expired a;
      if (expired : bool) then expire_and_cancel a
      else if ApprovalRequestStatus.is_terminal (ApprovalRequest.status a) then repeat_decision command a
      else decide_pending artifacts command a
  end.
End application.
