(* ===== verification/Contents.v ===== *)
(** The contents of artifacts and of uploads: [research/ports/artifact_storage.py],
    the port to immutable contents, whose adapters keep the bytes outside of the
    program; and [base64] of the standard library, [b64encode] and [b64decode]
    with [validate=True], which accepts groups of four characters of the alphabet
    with the padding only at the end. *)
From S2P Require Import Prelude Errors Text.
From Stdlib Require Import Ascii String NArith.
Local Open Scope string_scope.
Local Open Scope list_scope.
Local Open Scope N_scope.

(** ** The port *)

Record StoredArtifactContent := StoredContent {
  stored_key : string;
  stored_checksum : string;
  stored_size : Z;
  stored_media_type : string
}.

Record ArtifactVerification := Verification {
  vf_valid : bool;
  vf_actual_checksum : string;
  vf_actual_size : Z
}.

(** [ArtifactContentStorage]; reading through a file object ([open_read]) is
    not used by what is modelled. *)
Class ContentStorage (C : Type) := {
  write_immutable : string -> string -> string -> M exn C StoredArtifactContent;
  read_content : string -> C -> res string;
  verify_content : string -> string -> Z -> C -> res ArtifactVerification
}.

(** ** Base64 *)

Definition pad : ascii := "=".

Definition encode_digit (n : N) : ascii :=
  if n <? 26 then ascii_of_N (65 + n)
  else if n <? 52 then ascii_of_N (71 + n)
  else if n <? 62 then ascii_of_N (n - 4)
  else if n =? 62 then "+" else "/".

Definition decode_digit (c : ascii) : option N :=
  if between 65 90 c then Some (code c - 65)
  else if between 97 122 c then Some (code c - 71)
  else if between 48 57 c then Some (code c + 4)
  else if Ascii.eqb c "+" then Some 62
  else if Ascii.eqb c "/" then Some 63
  else None.

(** The digits of three bytes, and the bytes of four digits. *)
Definition digits3 (a b c : N) : list ascii :=
  encode_digit <$> [N.shiftr a 2; N.lor (N.shiftl (N.land a 3) 4) (N.shiftr b 4);
                    N.lor (N.shiftl (N.land b 15) 2) (N.shiftr c 6); N.land c 63].
Definition bytes4 (x y z w : N) : list N :=
  [N.lor (N.shiftl x 2) (N.shiftr y 4); N.lor (N.shiftl (N.land y 15) 4) (N.shiftr z 2);
   N.lor (N.shiftl (N.land z 3) 6) w].

Fixpoint encode_bytes (s : list ascii) : list ascii :=
  match s with
  | a :: b :: c :: s' => digits3 (code a) (code b) (code c) ++ encode_bytes s'
  | [a; b] => take 3 (digits3 (code a) (code b) 0) ++ [pad]
  | [a] => take 2 (digits3 (code a) 0 0) ++ [pad; pad]
  | [] => []
  end.

Definition of_codes (l : list N) : list ascii := ascii_of_N <$> l.

(** Bits of the last digit that no byte takes are dropped. *)
Fixpoint decode_bytes (s : list ascii) : option (list ascii) :=
  match s with
  | [] => Some []
  | x :: y :: z :: w :: s' =>
      a ← decode_digit x;
      b ← decode_digit y;
      match decode_digit z, decode_digit w with
      | Some c, Some d => rest ← decode_bytes s'; Some (of_codes (bytes4 a b c d) ++ rest)
      | Some c, None => if Ascii.eqb w pad && bool_decide (s' = []) then Some (take 2 (of_codes (bytes4 a b c 0))) else None
      | None, _ => if Ascii.eqb z pad && Ascii.eqb w pad && bool_decide (s' = [])
                   then Some (take 1 (of_codes (bytes4 a b 0 0))) else None
      end
  | _ => None
  end.

Definition b64encode (s : string) : string := string_of_list_ascii (encode_bytes (list_ascii_of_string s)).
Definition b64decode (s : string) : option string :=
  string_of_list_ascii <$> decode_bytes (list_ascii_of_string s).

(** ** Round trip *)

(** A high part of some bits above a low part of [n] bits. *)
Lemma high_part x y n : y < 2 ^ n -> N.shiftr (N.lor (N.shiftl x n) y) n = x.
Proof.
  intros Hy. rewrite N.shiftr_lor, N.shiftr_shiftl_l by lia. rewrite N.sub_diag, N.shiftl_0_r.
  rewrite (N.shiftr_div_pow2 y), N.div_small by done. apply N.lor_0_r.
Qed.

Lemma low_part x y n : y < 2 ^ n -> N.land (N.lor (N.shiftl x n) y) (N.ones n) = y.
Proof.
  intros Hy. rewrite N.land_lor_distr_l, !N.land_ones. rewrite N.shiftl_mul_pow2, N.Div0.mod_mul, N.lor_0_l.
  by apply N.mod_small.
Qed.

Lemma parts x n : N.lor (N.shiftl (N.shiftr x n) n) (N.land x (N.ones n)) = x.
Proof. rewrite <- N.ldiff_ones_r. apply N.lor_ldiff_and. Qed.

Lemma high_small x n m : x < 2 ^ (n + m) -> N.shiftr x n < 2 ^ m.
Proof.
  intros Hx. rewrite N.shiftr_div_pow2. apply N.Div0.div_lt_upper_bound. by rewrite <- N.pow_add_r.
Qed.

Lemma low_small x n : N.land x (N.ones n) < 2 ^ n.
Proof. rewrite N.land_ones. apply N.mod_lt. apply N.pow_nonzero. lia. Qed.

Lemma joined_small x y n m : x < 2 ^ m -> y < 2 ^ n -> N.lor (N.shiftl x n) y < 2 ^ (n + m).
Proof.
  intros Hx Hy. set (v := N.lor (N.shiftl x n) y).
  assert (Hp : 2 ^ n <> 0) by (apply N.pow_nonzero; lia).
  assert (Hs : v / 2 ^ n = x) by (rewrite <- N.shiftr_div_pow2; by apply high_part).
  rewrite N.pow_add_r. pose proof (N.div_mod v (2 ^ n) Hp) as Hd. pose proof (N.mod_lt v (2 ^ n) Hp). nia.
Qed.

Lemma decode_encode_digit n : n < 64 -> decode_digit (encode_digit n) = Some n.
Proof.
  intros Hn. assert (Hall : forallb (fun k => bool_decide (decode_digit (encode_digit (N.of_nat k)) = Some (N.of_nat k))) (seq 0 64) = true)
    by (vm_compute; reflexivity).
  rewrite forallb_forall in Hall. specialize (Hall (N.to_nat n)). rewrite N2Nat.id in Hall.
  apply (bool_decide_eq_true_1 _), Hall, in_seq. lia.
Qed.

Lemma encode_digit_not_pad n : n < 64 -> encode_digit n <> pad.
Proof. intros Hn Hp. apply decode_encode_digit in Hn. by rewrite Hp in Hn. Qed.

Lemma code_small c : code c < 256.
Proof. apply N_ascii_bounded. Qed.

Section quad.
Context (a b c : N) (Ha : a < 256) (Hb : b < 256) (Hc : c < 256).
Let x := N.shiftr a 2.
Let y := N.lor (N.shiftl (N.land a 3) 4) (N.shiftr b 4).
Let z := N.lor (N.shiftl (N.land b 15) 2) (N.shiftr c 6).
Let w := N.land c 63.

Lemma digits_small : x < 64 /\ y < 64 /\ z < 64 /\ w < 64.
Proof using Ha Hb Hc.
  split; [exact (high_small a 2 6 Ha)|]. split.
  { apply (joined_small _ _ 4 2); [exact (low_small a 2)|exact (high_small b 4 4 Hb)]. }
  split; [|exact (low_small c 6)]. apply (joined_small _ _ 2 4); [exact (low_small b 4)|exact (high_small c 6 2 Hc)].
Qed.

Lemma bytes_of_digits : bytes4 x y z w = [a; b; c].
Proof using Ha Hb Hc.
  pose proof (high_small b 4 4 Hb) as Hb4. pose proof (high_small c 6 2 Hc) as Hc6.
  unfold bytes4, x, y, z, w. rewrite (high_part _ _ 4 Hb4), (high_part _ _ 2 Hc6).
  rewrite (low_part _ _ 4 Hb4 : N.land _ 15 = _), (low_part _ _ 2 Hc6 : N.land _ 3 = _).
  by rewrite (parts a 2 : N.lor _ (N.land a 3) = a), (parts b 4 : N.lor _ (N.land b 15) = b), (parts c 6 : N.lor _ (N.land c 63) = c).
Qed.
End quad.

Lemma of_codes_code l : of_codes (code <$> l) = l.
Proof. unfold of_codes. induction l as [|c l IH]; [done|]. cbn. unfold code at 1. by rewrite ascii_N_embedding, IH. Qed.

Lemma decode_digits (a b c : ascii) s r : decode_bytes s = Some r ->
  decode_bytes (digits3 (code a) (code b) (code c) ++ s) = Some (a :: b :: c :: r).
Proof.
  intros Hs. destruct (digits_small (code a) (code b) (code c)) as (Hx & Hy & Hz & Hw); [apply code_small..|].
  cbn [digits3 fmap list_fmap app decode_bytes]. rewrite !decode_encode_digit by assumption. cbn [mbind option_bind].
  rewrite Hs. cbn [mbind option_bind]. rewrite bytes_of_digits by apply code_small.
  by rewrite (of_codes_code [a; b; c] : of_codes [code a; code b; code c] = _).
Qed.

Lemma decode_encode_bytes s : decode_bytes (encode_bytes s) = Some s.
Proof.
  induction s as [s IH] using (induction_ltof1 _ (@List.length ascii)). unfold ltof in IH.
  destruct s as [|a [|b [|c s]]]; [|clear IH|clear IH|].
  - done.
  - destruct (digits_small (code a) 0 0) as (Hx & Hy & _); [apply code_small|lia..|].
    cbn [encode_bytes digits3 fmap list_fmap take app decode_bytes]. rewrite !decode_encode_digit by assumption.
    cbn. f_equal. pose proof (bytes_of_digits (code a) 0 0) as Hb. specialize (Hb (code_small a) ltac:(lia) ltac:(lia)).
    apply (f_equal (fun l => List.nth 0 l 0)) in Hb. cbn in Hb. rewrite Hb. unfold code. by rewrite ascii_N_embedding.
  - destruct (digits_small (code a) (code b) 0) as (Hx & Hy & Hz & _); [apply code_small..|lia|].
    cbn [encode_bytes digits3 fmap list_fmap take app decode_bytes]. rewrite !decode_encode_digit by assumption.
    pose proof (bytes_of_digits (code a) (code b) 0) as Hb. specialize (Hb (code_small a) (code_small b) ltac:(lia)).
    pose proof (f_equal (fun l => List.nth 0 l 0) Hb) as Hb1. apply (f_equal (fun l => List.nth 1 l 0)) in Hb as Hb2.
    cbn. cbn in Hb1, Hb2. rewrite Hb1, Hb2. unfold code. by rewrite !ascii_N_embedding.
  - cbn [encode_bytes]. apply decode_digits, IH. cbn. lia.
Qed.

Lemma b64_round_trip s : b64decode (b64encode s) = Some s.
Proof.
  unfold b64decode, b64encode. rewrite list_ascii_of_string_of_list_ascii, decode_encode_bytes. cbn.
  by rewrite string_of_list_ascii_of_string.
Qed.
