(* ===== verification/Queries.v ===== *)
(** The read-only use cases of [application/services/queries.py] and
    [research_outputs.py], and the gateway to artifacts of
    [research/services/artifacts.py]. *)
From S2P Require Import Prelude Errors Text Float Value Json Lexical SkillSchema Sha256 Lifecycle Workflow Checkpoint Coordinator Approval Events Records Provider Budget Dict Tables Repositories Manifests UnitOfWork RetryPolicy EngineModels References Validator Scheduler Engine EngineCoordinator Skills Calendar AgentRuntime Canonical Contents Views Application.
Local Open Scope string_scope.
Local Open Scope list_scope.
Local Open Scope Z_scope.

(** ** [ArtifactApplicationGateway] *)

Record CreateArtifactContent := CreateContent {
  ca_id : string;
  ca_project_id : string;
  ca_workflow_run_id : string;
  ca_step_run_id : option string;
  ca_logical_artifact_id : string;
  ca_logical_name : string;
  ca_version : Z;
  ca_kind : string;
  ca_storage_key : string;
  ca_media_type : string;
  ca_content : string;
  ca_metadata : mapping;
  ca_created_at : option datetime
}.

Section gateway.
Context {EN : Entities} {C : Type} `{ContentStorage C}.

Record gateway := Gateway { gw_storage : C; gw_unit : unit_of_work }.

Definition on_storage {A} : M exn C A -> M exn gateway A := zoom gw_storage (fun c g => Gateway c (gw_unit g)).
Definition on_gateway_unit {A} : M exn unit_of_work A -> M exn gateway A :=
  zoom gw_unit (fun u g => Gateway (gw_storage g) u).

(** [create]: the bytes first, then the metadata in the caller's unit of work.
    [now] is the time of a request that brings none. *)
Definition create_artifact (now : datetime) (request : CreateArtifactContent) : M exn gateway ArtifactMetadata.t :=
  stored ← on_storage (write_immutable (ca_storage_key request) (ca_content request) (ca_media_type request));
  artifact ← lift_result (ArtifactMetadata.post_init
    (ArtifactMetadata.mk (ca_id request) (ca_project_id request) (ca_logical_artifact_id request)
       (ca_logical_name request) (ca_version request) (ca_kind request) (stored_key stored)
       (stored_checksum stored) (stored_media_type stored) (stored_size stored)
       (Some (ca_workflow_run_id request)) (ca_step_run_id request) (ca_metadata request)
       (default now (ca_created_at request))));
  on_gateway_unit (on_artifacts (ArtifactRepository.save artifact)) ;;
  mret artifact.
End gateway.

(** [list_for_run] and [get_metadata] *)
Definition artifacts_of_run (project_id run_id : string) (t : ArtifactRepository.t) : list ArtifactMetadata.t :=
  List.filter (fun a => bool_decide (ArtifactMetadata.producer_run_id a = Some run_id))
    (ArtifactRepository.list_for_project project_id t).
Definition artifact_metadata : string -> ArtifactRepository.t -> option ArtifactMetadata.t := ArtifactRepository.get.

(** ** Pages *)

Definition validate_page (offset limit : Z) : res unit :=
  _ ← fail_if (offset <? 0) (Exn ApplicationValidationError "offset cannot be negative");
  fail_if ((limit <=? 0) || (100 <? limit)) (Exn ApplicationValidationError "limit must be between 1 and 100").

Section queries.
Context {EN : Entities} {P : Type}.

(** [ListWorkflowRunsService] *)
Definition list_workflow_runs (status : option WorkflowRunStatus.t) (offset limit : Z) :
    M exn (@process EN P) (page_view WorkflowRunSummaryView.t) :=
  lift_result (validate_page offset limit) ;;
  p ← get_state;
  executions ← lift_result (WorkflowRepository.list_runs status offset limit (workflows (pr_unit p)));
  mret (PageView (WorkflowRunSummaryView.from_execution <$> executions)
          (WorkflowRepository.count_runs status (workflows (pr_unit p))) offset limit).

(** [ListExecutionEventsService] *)
Definition list_execution_events (run_id : string) : M exn (@process EN P) (list ExecutionEventView.t) :=
  x ← load_stored run_id;
  p ← get_state;
  let run := ExecutionState.workflow_run x in
  mret (ExecutionEventView.from_event <$>
          ExecutionEventStore.list_for_run (WorkflowRun.project_id run) (WorkflowRun.id run) (events (pr_unit p))).

(** [ListApprovalsService] *)
Definition list_approvals (status : option ApprovalRequestStatus.t) (offset limit : Z) :
    M exn (@process EN P) (page_view ApprovalView.t) :=
  lift_result (validate_page offset limit) ;;
  p ← get_state;
  found ← lift_result (ApprovalRepository.list_requests status offset limit (approvals (pr_unit p)));
  mret (PageView (ApprovalView.from_approval <$> found)
          (ApprovalRepository.count_requests status (approvals (pr_unit p))) offset limit).

(** [ListWorkflowsService] *)
Definition list_workflows : M exn (@process EN P) (list WorkflowDefinitionView.t) :=
  gets (fun p => WorkflowDefinitionView.from_workflow <$> WorkflowRepository.list_definitions (workflows (pr_unit p))).

(** ** Research outputs *)

Definition artifact_not_found {A} (artifact_id : string) : M exn (@process EN P) A :=
  raise (Exn ApplicationNotFoundError ("Artifact " +:+ artifact_id +:+ " was not found")).

(** [ListRunArtifactsService] *)
Definition list_run_artifacts (run_id : string) : M exn (@process EN P) (list ArtifactView.t) :=
  x ← load_stored run_id;
  p ← get_state;
  mret (ArtifactView.from_artifact <$>
          artifacts_of_run (WorkflowRun.project_id (ExecutionState.workflow_run x)) run_id
            (UnitOfWork.artifacts (pr_unit p))).

(** [GetArtifactService] *)
Definition get_artifact (artifact_id : string) : M exn (@process EN P) ArtifactView.t :=
  p ← get_state;
  match artifact_metadata artifact_id (UnitOfWork.artifacts (pr_unit p)) with
  | Some a => mret (ArtifactView.from_artifact a)
  | None => artifact_not_found artifact_id
  end.

(** [ReadArtifactContentService] *)
Definition read_artifact_content (read : string -> res string) (artifact_id : string) :
    M exn (@process EN P) ArtifactContentView :=
  p ← get_state;
  match artifact_metadata artifact_id (UnitOfWork.artifacts (pr_unit p)) with
  | None => artifact_not_found artifact_id
  | Some a =>
      content ← lift_result (read_or_conflict read artifact_id
                  ("Artifact " +:+ artifact_id +:+ " failed integrity verification")
                  (UnitOfWork.artifacts (pr_unit p)));
      mret (ContentView (ArtifactView.from_artifact a) content)
  end.

(** [ListProviderUsageService] *)
Definition list_provider_usage (run_id : string) : M exn (@process EN P) (list ProviderOperationView.t) :=
  x ← load_stored run_id;
  p ← get_state;
  mret (ProviderOperationView.from_operation <$>
          ProviderOperationRepository.list_for_run (WorkflowRun.project_id (ExecutionState.workflow_run x)) run_id
            (provider_operations (pr_unit p))).
End queries.
