(* ===== verification/ApplicationFacts.v ===== *)
(** What the use cases guarantee: a failed creation or cancellation changes
    nothing, a request made again never creates a second run, and between two
    use cases nothing is left staged. *)
From S2P Require Import Prelude Isolation Errors Text Float Value Json Lexical SkillSchema Sha256 Lifecycle Workflow Checkpoint Coordinator CoordinatorFacts CoordinatorSpec CancelFacts Approval Events Records RecordFacts Provider Budget BudgetFacts Dict Tables TableFacts Repositories RepositoryFacts Manifests UnitOfWork UnitOfWorkFacts CommitFacts RetryPolicy EngineModels References Validator Scheduler Engine EngineFacts EngineCoordinator EngineCoordinatorFacts Skills Calendar AgentRuntime RuntimeInvariants RuntimeFacts RuntimeDurability RuntimeExamples Canonical Views Application.
Local Open Scope string_scope.
Local Open Scope list_scope.
Local Open Scope Z_scope.

(** ** Views *)

Lemma map_ok_total {A B} (f : A -> res B) l : (forall x, x ∈ l -> exists y, f x = Ok y) -> exists ys, map_ok f l = Ok ys.
Proof.
  induction l as [|x l IH]; intros Hf; [by eexists|]. cbn.
  destruct (Hf x) as [y ->]; [by left|]. destruct IH as [ys ->]; [|by eexists]. intros z Hz. apply Hf. by right.
Qed.

Lemma step_found w sid : sid ∈ Workflow.step_ids w ->
  exists i s, list_find (fun s => WorkflowStep.id s = sid) (Workflow.steps w) = Some (i, s) /\ WorkflowStep.id s = sid.
Proof.
  intros (s & Hid & Hin)%list_elem_of_fmap.
  destruct (list_find_elem_of (fun s => WorkflowStep.id s = sid) (Workflow.steps w) s Hin) as [[i s'] Hf]; [done|].
  exists i, s'. split; [done|]. by apply list_find_Some in Hf as (_ & ? & _).
Qed.

(** An execution the coordinator can reach has a view. *)
Lemma view_total x : attempts_ok x -> exists v, WorkflowRunView.from_execution x = Ok v.
Proof.
  intros [_ _ _ Hk Hp _ _]. unfold WorkflowRunView.from_execution.
  assert (exists l, WorkflowRunView.sorted_step_runs x = Ok l) as [l ->].
  { unfold WorkflowRunView.sorted_step_runs. destruct (map_ok_total (WorkflowRunView.sort_key (ExecutionState.workflow x))
      (ExecutionState.step_runs x)) as [ys ->]; [|by eexists].
    intros s Hs. destruct (step_found _ _ (Hk s Hs)) as (i & step & Hf & Hid).
    unfold WorkflowRunView.sort_key, Workflow.get_step. rewrite Hf. cbn [mbind result_bind]. rewrite Hid, Hf. by eexists. }
  cbn [mbind result_bind].
  assert (exists d, WorkflowRunView.completed x = Ok d) as [d ->]; [|by eexists].
  unfold WorkflowRunView.completed. match goal with |- context [map_ok ?f ?l] => destruct (map_ok_total f l) as [ys ->] end;
    [|by eexists].
  intros step Hs. destruct (latest_exists x (WorkflowStep.id step)) as [f ->]; [|by eexists].
  apply Hp, list_elem_of_fmap. by exists step.
Qed.

Section facts.
Context {EN : Entities} {P : Type}.
Context (clock : nat -> datetime) (id_factory : nat -> string -> string).
Implicit Types (p : @process EN P) (m : @machine EN P).

(** ** The session of a process *)

Lemma clean_session p : process_ok p ->
  obs_session (pr_observed p) = Session (pr_database p) (refresh (pr_database p)).
Proof using. intros [_ Hu]. unfold pr_unit, pr_database in *. destruct (obs_session _) as [db u]. cbn in *. by rewrite Hu. Qed.

(** The process after a rollback. *)
Definition rolled_back p : process :=
  Process (pr_environment p)
    (Observed (Session (pr_database p) (refresh (pr_database p))) (pr_calls p)) (pr_versions p).

Lemma rollback_eq p : (on_process_session rollback p).2 = rolled_back p.
Proof using. done. Qed.

(** Nothing of the database is changed, and no skill was called. *)
Definition same_base p p' : Prop := pr_database p' = pr_database p /\ pr_calls p' = pr_calls p.

#[local] Instance same_base_preorder : PreOrder same_base.
Proof using. split; unfold same_base; red; [done|]. intros x y z [] []. split; congruence. Qed.

Lemma rolled_back_same p p' : process_ok p -> same_base p p' -> pr_observed (rolled_back p') = pr_observed p.
Proof using.
  intros Hp [Hd Hc]. unfold rolled_back. cbn [pr_observed]. rewrite Hd, Hc, <- (clean_session p Hp).
  unfold pr_calls. by destruct (pr_observed p).
Qed.

(** ** On one execution *)

(** The computations of a use case on an execution, as computations of the
    runtime's machine. *)
Lemma on_unit_machine {A} (c : M exn unit_of_work A) x p :
  on_process_unit c p = with_execution x (on_uow c) p.
Proof using.
  unfold on_process_unit, on_process_session, with_execution, on_uow, on_session, on_observed, zoom.
  cbn. by destruct (on_unit c _) as [r s].
Qed.

Lemma on_session_machine {A} (c : M exn session A) x p :
  on_process_session c p = with_execution x (on_session c) p.
Proof using.
  unfold on_process_session, with_execution, on_session, on_observed, zoom. cbn. by destruct (c _) as [r s].
Qed.

Lemma with_bind {A B} (c : M exn machine A) (f : A -> M exn (@machine EN P) B) x p :
  (forall r m, c (start_machine x p) = (r, m) -> rt_execution m = x) ->
  with_execution x (c ≫= f) p = (with_execution x c ≫= fun a => with_execution x (f a)) p.
Proof using.
  intros Hx. unfold with_execution, mbind at 1 2, M_bind. destruct (c (start_machine x p)) as [[a|e] m] eqn:H; [|done].
  assert (start_machine x (stop_machine m) = m) as ->; [|done].
  specialize (Hx _ _ eq_refl). destruct m as [[env ex] o v]. cbn in Hx. unfold rt_execution in Hx. cbn in Hx. by subst.
Qed.
(** *** Committing a stored execution *)

Definition with_unit m (u : unit_of_work) : machine :=
  Machine (rt_world m) (Observed (Session (rt_database m) u) (rt_calls m)) (rt_versions m).

Lemma on_uow_eq {A} (c : M exn unit_of_work A) m r u : c (rt_unit m) = (r, u) -> on_uow c m = (r, with_unit m u).
Proof using.
  intros H. unfold on_uow, on_session, on_observed, on_unit, zoom, rt_unit, rt_session in *. by rewrite H.
Qed.

(** The row of the execution is committed, and nothing is staged. *)
Record settled_row (x : ExecutionState.t) (n : Z) p : Prop := {
  st_ok : process_ok p;
  st_row : exists r, WorkflowExecutionRecord.from_execution x n = Ok r /\
    Dict.get (run_id_of x) (db_executions (pr_database p)) = Some r
}.

(** What the end of a transaction leaves: everything, or nothing of it. *)
Definition ends_with (x : ExecutionState.t) (n : Z) m (r : res unit) m' : Prop :=
  match r with
  | Ok _ => settled_row x n (stop_machine m') /\ rt_world m' = rt_world m
  | Err _ => rt_database m' = rt_database m /\ rt_calls m' = rt_calls m
  end.

Lemma commit_stored m n u r m' : runtime_ok m -> stored m n u ->
  on_session commit (with_unit m u) = (r, m') -> ends_with (rt_execution m) n m r m'.
Proof using.
  intros Hm Hs H. unfold on_session, on_observed, zoom in H. cbn -[commit] in H.
  destruct (commit_saved m n u (rt_versions m) Hm Hs) as [[e He]|(db & Hc & _ & _ & Hok & Hrow)];
    [rewrite He in H; by injection H as <- <-|].
  rewrite Hc in H. injection H as <- <-. split; [|done]. split; [|exact Hrow]. split; [apply Hok|done].
Qed.

Lemma same_observed_base p p' : pr_observed p' = pr_observed p -> same_base p p'.
Proof using. intros H. unfold same_base, pr_database, pr_calls. by rewrite H. Qed.

(** ** Creation *)

(** The end of [create_and_store], on the new execution. *)
Definition store_new (x : ExecutionState.t) : M exn (@process EN P) WorkflowRunView.t :=
  on_process_unit (on_workflows (WorkflowRepository.save x None)) ;;
  c ← lift_result (ExecutionState.latest_checkpoint x);
  on_process_unit (on_checkpoints (CheckpointRepository.save c BASELINE None None)) ;;
  on_process_session commit ;;
  lift_result (WorkflowRunView.from_execution x).

Lemma from_execution_id x v : WorkflowRunView.from_execution x = Ok v -> WorkflowRunView.id v = run_id_of x.
Proof using.
  unfold WorkflowRunView.from_execution. intros (l & _ & H)%bind_Ok. by apply bind_Ok in H as (d & _ & [= <-]).
Qed.

(** A run identifier that is taken is refused before anything is staged. *)
Lemma save_taken x p row : Dict.get (run_id_of x) (db_executions (pr_database p)) = Some row -> process_ok p ->
  exists e, on_process_unit (on_workflows (WorkflowRepository.save x None)) p = (Err e, p).
Proof using.
  intros Hrow Hp. unfold on_process_unit, on_process_session, on_unit, zoom. rewrite (clean_session p Hp).
  cbn -[WorkflowRepository.save]. unfold on_workflows, zoom, WorkflowRepository.save, mbind, M_bind, get_state, lift_result.
  cbn. unfold Versioned.next_version. cbn. fold (run_id_of x). rewrite Hrow.
  change (set_workflows _ (refresh _)) with (refresh (pr_database p)). rewrite <- (clean_session p Hp).
  eexists. destruct p as [env [s l] v]. done.
Qed.

Lemma bind_Ok_run {A B} (c : M exn (@process EN P) A) (f : A -> M exn process B) p a p1 :
  c p = (Ok a, p1) -> (c ≫= f) p = f a p1.
Proof using. unfold mbind, M_bind. by intros ->. Qed.

(** The new execution stored: everything, or nothing. *)
Lemma store_new_cases x p r p' : process_ok p -> sound x -> store_new x p = (r, p') ->
  match r with
  | Ok v => (exists n, settled_row x n p') /\ WorkflowRunView.id v = run_id_of x
  | Err _ => same_base p p'
  end.
Proof using.
  intros Hp Hx H. unfold store_new in H.
  destruct (Dict.get (run_id_of x) (db_executions (pr_database p))) as [row|] eqn:Hrow.
  { destruct (save_taken x p row Hrow Hp) as [e He].
    apply bind_inv in H as [(? & ? & H1 & _)|(e0 & H1 & ->)]; rewrite He in H1; [done|]. by injection H1 as _ <-. }
  assert (Hm : runtime_ok (start_machine x p)) by (apply start_ok; [by apply ok_ready|done|congruence]).
  set (m := start_machine x p) in *.
  apply bind_inv in H as [(n & p1 & H1 & H)|(e & H1 & ->)];
    rewrite (on_unit_machine _ x) in H1; unfold with_execution in H1; fold m in H1;
    destruct (on_workflows (WorkflowRepository.save x None) (rt_unit m)) as [r1 u1] eqn:Hu1;
    rewrite (on_uow_eq _ _ _ _ Hu1) in H1; injection H1 as -> <-; [|done].
  pose proof (save_staged _ _ _ _ Hm Hu1) as [Hs _].
  apply bind_inv in H as [(c & p2 & H2 & H)|(e & H2 & ->)]; injection H2 as _ <-; [|done].
  apply bind_inv in H as [(rec & p3 & H3 & H)|(e & H3 & ->)];
    rewrite (on_unit_machine _ x) in H3; unfold with_execution in H3;
    change (start_machine x (stop_machine (with_unit m u1))) with (with_unit m u1) in H3;
    destruct (on_checkpoints (CheckpointRepository.save c BASELINE None None) u1) as [r2 u2] eqn:Hu2;
    rewrite (on_uow_eq _ (with_unit m u1) _ _ Hu2) in H3; injection H3 as -> <-; [|done].
  assert (Hs2 : stored m n u2).
  { apply (stored_step m n u1); [done|by eapply save_checkpoint|]. by apply zoom_inv in Hu2 as (t & _ & ->). }
  apply bind_inv in H as [(? & p4 & H4 & H)|(e & H4 & ->)];
    rewrite (on_session_machine _ x) in H4; unfold with_execution in H4;
    change (start_machine x (stop_machine (with_unit (with_unit m u1) u2))) with (with_unit m u2) in H4;
    destruct (on_session commit (with_unit m u2)) as [r4 m4] eqn:Hc;
    apply (commit_stored m n u2 _ _ Hm Hs2) in Hc; injection H4 as -> <-; [|done].
  destruct Hc as [Hrow' _]. injection H as Hv <-. destruct (view_total x (proj2 Hx)) as [v Hv0].
  rewrite Hv0 in Hv. subst r. split; [by exists n|by apply from_execution_id].
Qed.
Lemma validated_steps spec w : validated_workflow spec = Ok w ->
  NoDup (Workflow.step_ids w) /\ forall step, step ∈ Workflow.steps w -> 1 <= WorkflowStep.max_attempts step.
Proof using.
  unfold validated_workflow, build_workflow. intros (w0 & Hb & H)%bind_Ok.
  apply bind_Ok in H as (d & _ & H). apply then_Ok in H as [_ [= <-]].
  apply bind_Ok in Hb as (steps & Hs & Hb). unfold Workflow.post_init in Hb.
  do 5 (apply then_Ok in Hb as [_ Hb]). apply then_Ok in Hb as [Hnd Hb].
  apply fail_if_Ok, negb_false_iff, bool_decide_eq_true in Hnd.
  do 3 (apply then_Ok in Hb as [_ Hb]). injection Hb as <-. split; [exact Hnd|]. cbn [Workflow.steps].
  intros step Hin. apply map_ok_Forall2 in Hs.
  apply list_elem_of_lookup in Hin as [i Hi]. destruct (Forall2_lookup_r _ _ _ _ _ Hs Hi) as (spec0 & _ & Hstep).
  unfold build_step, WorkflowStep.post_init in Hstep. do 5 (apply then_Ok in Hstep as [_ Hstep]).
  apply then_Ok in Hstep as [Hlim Hstep]. injection Hstep as <-. unfold WorkflowStep.check_limits in Hlim.
  apply then_Ok in Hlim as [_ Hlim]. apply then_Ok in Hlim as [Hm _]. apply fail_if_Ok in Hm. cbn in *. lia.
Qed.

Lemma created_key w project a k inp prof e x e' :
  create_workflow_run clock id_factory w project a k inp prof e = (Ok x, e') -> execution_key x = (project, k).
Proof using.
  unfold create_workflow_run, first_checkpoint, mbind, M_bind, lift_result, tick, new_id. intros H.
  destruct (validate_inputs w inp) as [[]|err] eqn:Hv; [|done]. cbn [fst snd ticks ids_given] in H.
  destruct (WorkflowRun.post_init _) as [run|err] eqn:Hr; [|done].
  destruct (AgentSession.post_init _) as [session|err] eqn:Hs; [|done].
  destruct (new_step_runs _ _ _ _ _) as [[steps|err] e1] eqn:Hl; [|done].
  pose proof (ps_checkpoint _ _ _ (identity_primitive clock id_factory)
    (Coordinator.World e1 (ExecutionState.mk w run session steps []))) as Hk.
  destruct (create_checkpoint _ _ _) as [[c|err] [e2 x2]]; [|done]. injection H as <- <-.
  unfold same_identity in Hk. cbn [execution snd] in Hk. rewrite Hk. clear Hk.
  unfold WorkflowRun.post_init in Hr. repeat (apply then_Ok in Hr as [_ Hr]).
  injection Hr as <-. done.
Qed.
(** A stored row is found by its key, and loads. *)
Lemma row_found p i row : process_ok p -> Dict.get i (db_executions (pr_database p)) = Some row ->
  exists x, WorkflowRepository.get_by_idempotency_key (WorkflowRepository.key_of row).1
      (WorkflowRepository.key_of row).2 (workflows (pr_unit p)) = Ok (Some x) /\
    WorkflowRepository.to_execution row = Ok x /\ run_id_of x = i /\
    execution_key x = WorkflowRepository.key_of row /\ sound x.
Proof using.
  intros Hp Hrow. pose proof (pr_journal _ Hp) as Hj. pose proof (d_executions _ (proj1 (j_session _ _ Hj))) as Hex.
  pose proof (j_rows _ _ Hj _ _ Hrow) as Hok. destruct Hok as (x0 & v & [Hv Ha] & Hr).
  pose proof (execution_round_trip _ _ _ [] Hv Hr) as Hx. set (x := reloaded x0 []) in *.
  assert (Hok : row_ok row) by (exists x0, v; done).
  destruct (row_loads row x Hok Hx) as (Hs & _ & Hk & Hid). rewrite (ex_ids _ Hex _ _ Hrow) in Hid.
  exists x. split; [|by split_and!]. unfold WorkflowRepository.get_by_idempotency_key.
  rewrite (pr_clean _ Hp). cbn [workflows refresh Versioned.refresh Versioned.records]. rewrite <- surjective_pairing.
  match goal with |- context [min_by ?le ?key ?l] => destruct (min_by le key l) as [row'|] eqn:Hmin end.
  - apply min_by_Some, elem_List_filter in Hmin as [Hin Hkey]. apply bool_decide_eq_true in Hkey.
    destruct (values_elem _ _ (ex_keys _ Hex) Hin) as [j Hj'].
    pose proof (ex_unique _ Hex _ _ _ _ Hj' Hrow Hkey) as ->. assert (Some row' = Some row) as [= ->] by (etransitivity; [symmetry; exact Hj'|exact Hrow]).
    unfold reconstitute. unfold WorkflowRepository.to_execution in *. by rewrite Hx.
  - apply min_by_None in Hmin. apply elem_values in Hrow.
    assert (row ∈ []) as []%elem_of_nil. rewrite <- Hmin. apply elem_List_filter. split; [done|]. by apply bool_decide_eq_true.
Qed.

(** A replay reads. *)
Lemma replay_cases x command workflow p r p' : replay x command workflow p = (r, p') ->
  p' = p /\ forall v, r = Ok v -> WorkflowRunView.id v = run_id_of x.
Proof using.
  unfold replay, mbind, M_bind, lift_result, get_state. destruct (verify_idempotent_request _ _ _); [|by intros [= <- <-]].
  intros [= <- <-]. split; [done|]. intros v Hv. by apply from_execution_id in Hv.
Qed.

(** What a creation leaves: the stored row of the run it answers. *)
Record created_row (command : CreateWorkflowRunCommand) (v : WorkflowRunView.t) p : Prop := {
  cw_ok : process_ok p;
  cw_row : exists row, Dict.get (WorkflowRunView.id v) (db_executions (pr_database p)) = Some row /\
    WorkflowRepository.key_of row = (cr_project_id command, cr_idempotency_key command)
}.

Lemma create_and_store_cases command workflow spec p r p' : process_ok p -> validated_workflow spec = Ok workflow ->
  create_and_store clock id_factory command workflow p = (r, p') ->
  match r with Ok v => created_row command v p' | Err _ => same_base p p' end.
Proof using.
  intros Hp Hw H. unfold create_and_store in H.
  apply bind_inv in H as [(x & p1 & H1 & H)|(e & H1 & ->)].
  2:{ unfold on_environment, zoom in H1. destruct (create_workflow_run _ _ _ _ _ _ _ _ _) as [r0 e0]. by injection H1 as _ <-. }
  unfold on_environment, zoom in H1. destruct (create_workflow_run _ _ _ _ _ _ _ _ _) as [r0 e0] eqn:Hc.
  injection H1 as -> <-. destruct (validated_steps _ _ Hw) as [Hnd Hmax].
  pose proof (created_sound _ _ _ _ _ _ _ _ _ _ _ Hnd Hmax Hc) as Hx. apply created_key in Hc.
  set (p1 := Process e0 (pr_observed p) (pr_versions p)) in *.
  assert (Hp1 : process_ok p1) by (by apply (process_ok_same p)).
  pose proof (store_new_cases x p1 r p' Hp1 Hx H) as Hs. destruct r as [v|]; [|exact Hs].
  destruct Hs as [[n [Hok (row & Hr & Hrow)]] Hv]. split; [done|]. exists row. rewrite Hv. split; [done|].
  apply from_execution_fields in Hr as (_ & Hk & _). by rewrite Hk.
Qed.
(** Every outcome of [create_run]. *)
Lemma create_cases command p r p' : process_ok p -> create_run clock id_factory command p = (r, p') ->
  match r with
  | Ok v => created_row command v p' /\ (exists w, validated_workflow (cr_workflow command) = Ok w)
  | Err _ => pr_observed p' = pr_observed p
  end.
Proof using.
  intros Hp H. unfold create_run in H. destruct (validated_workflow (cr_workflow command)) as [w|e] eqn:Hw.
  2:{ destruct (caught_by _ e); [|by injection H as <- <-].
      unfold mbind, M_bind in H. cbn in H. injection H as <- <-. by apply (rolled_back_same p p). }
  unfold create_validated in H. apply bind_inv in H as [(q & p1 & H1 & H)|(e & H1 & ->)]; [injection H1 as <- <-|done].
  apply bind_inv in H as [(existing & p1 & H1 & H)|(e & H1 & ->)]; injection H1 as H1 <-; [|done].
  destruct existing as [x|].
  - apply replay_cases in H as [-> Hv]. destruct r as [v|]; [|done]. split; [|by eexists]. split; [done|].
    rewrite (Hv v eq_refl). unfold WorkflowRepository.get_by_idempotency_key in H1. rewrite (pr_clean _ Hp) in H1.
    match type of H1 with reconstitute _ ?o = _ => destruct o as [row|] eqn:Hmin end; [|done].
    apply min_by_Some, elem_List_filter in Hmin as [Hin Hkey]. apply bool_decide_eq_true in Hkey.
    pose proof (pr_journal _ Hp) as Hj. pose proof (d_executions _ (proj1 (j_session _ _ Hj))) as Hex.
    destruct (values_elem _ _ (ex_keys _ Hex) Hin) as [i Hi].
    destruct (row_found p i row Hp Hi) as (y & _ & Hy & Hid & _).
    unfold reconstitute in H1. apply bind_Ok in H1 as (x1 & Hx1 & [= ->]).
    rewrite Hy in Hx1. injection Hx1 as <-. exists row. by rewrite Hid.
  - unfold rolling_back, guarded in H. destruct (create_and_store clock id_factory command w p) as [[v|e] p1] eqn:Hc.
    + injection H as <- <-. split; [|by eexists]. exact (create_and_store_cases _ _ _ _ _ _ Hp Hw Hc).
    + pose proof (create_and_store_cases _ _ _ _ _ _ Hp Hw Hc) as Hb.
      cbn [caught_by existsb] in H. rewrite rollback_eq in H. injection H as <- <-. by apply rolled_back_same.
Qed.

(** C8: A creation request made again never creates a second run: once it has succeeded, repeating it changes nothing, and if it answers, it answers the same run. *)
Theorem creation_idempotent command p v p' r p'' : process_ok p ->
  create_run clock id_factory command p = (Ok v, p') ->
  create_run clock id_factory command p' = (r, p'') ->
  pr_observed p'' = pr_observed p' /\
  forall v', r = Ok v' -> WorkflowRunView.id v' = WorkflowRunView.id v.
Proof using.
  intros Hp H1 H2. pose proof (create_cases _ _ _ _ Hp H1) as [[Hok (row & Hrow & Hkey)] [w Hw]].
  destruct (row_found p' _ row Hok Hrow) as (x & Hx & _ & Hid & _ & _). rewrite Hkey in Hx. cbn [fst snd] in Hx.
  unfold create_run in H2. rewrite Hw in H2. unfold create_validated in H2.
  apply bind_inv in H2 as [(q & p1 & E & H2)|(e & E & ->)]; [injection E as <- <-|done].
  rewrite Hx in H2. apply bind_inv in H2 as [(existing & p1 & E & H2)|(e & E & ->)]; [injection E as <- <-|done].
  apply replay_cases in H2 as [-> Hv]. split; [done|]. intros v' Hv'. by rewrite (Hv v' Hv').
Qed.
(** ** Cancellation *)

(** Neither the database nor the staged executions are touched, and no skill is
    called. *)
Definition holding : relation (@machine EN P) := fun m m' => runtime_ok m ->
  runtime_ok m' /\ rt_database m' = rt_database m /\ rt_calls m' = rt_calls m /\
  workflows (rt_unit m') = workflows (rt_unit m) /\ run_id_of (rt_execution m') = run_id_of (rt_execution m).

#[local] Instance holding_preorder : PreOrder holding.
Proof using.
  split; red; unfold holding; [naive_solver|]. intros x y z Hxy Hyz H.
  destruct (Hxy H) as (Hy & ? & ? & ? & ?). destruct (Hyz Hy) as (? & ? & ? & ? & ?). split_and!; congruence.
Qed.

Lemma holding_world {A} (c : M exn Coordinator.world A) : respects moved c -> along holding (on_world c).
Proof using.
  intros Hm m Hok. pose proof (preserved_world _ Hm m Hok) as Hp. unfold on_world, zoom in *.
  specialize (Hm (rt_world m)). destruct (c (rt_world m)) as [r w]. split_and!; try done.
  apply (ev_run_id _ _ (proj1 (proj1 Hm))).
Qed.

Lemma holding_aside {A} (c : M exn machine A) : along aside c -> along holding c.
Proof using. intros H m Hok. destruct (H m) as [Hp []]. split_and!; [by apply Hp|done..|]. congruence. Qed.

(** A stored run, loaded by a use case, is one the runtime can go on with. *)
Lemma load_stored_cases run_id p r p' : process_ok p -> load_stored run_id p = (r, p') ->
  p' = p /\ forall x, r = Ok x -> run_id_of x = run_id /\ runtime_ok (start_machine x p) /\
    exists row, Dict.get run_id (db_executions (pr_database p)) = Some row /\ shown row x.
Proof using.
  intros Hp H. unfold load_stored in H.
  apply bind_inv in H as [(q & p1 & H1 & H)|(e & H1 & ->)]; [injection H1 as <- <-|done].
  apply bind_inv in H as [(found & p1 & H1 & H)|(e & H1 & ->)]; injection H1 as H1 <-; [|done].
  destruct found as [x0|]; [|by injection H as <- <-]. injection H as <- <-. split; [done|]. intros x [= <-].
  unfold WorkflowRepository.get in H1. rewrite (pr_clean _ Hp) in H1. cbn [workflows refresh Versioned.refresh Versioned.records] in H1.
  destruct (Dict.get run_id (db_executions (pr_database p))) as [row|] eqn:Hrow; [|done].
  apply bind_Ok in H1 as (x1 & Hx & [= ->]). destruct (row_found p run_id row Hp Hrow) as (y & _ & Hy & Hid & Hk & Hs).
  rewrite Hy in Hx. injection Hx as <-.
  pose proof (j_rows _ _ (pr_journal _ Hp) _ _ Hrow) as Hok. destruct (row_loads row y Hok Hy) as (_ & He & _ & _).
  split; [done|]. split; [|exists row; split; [done|by apply loaded_shown]].
  apply start_ok; [by apply ok_ready|by apply sound_checkpoints|].
  intros row'. change (run_id_of (with_checkpoints y _)) with (run_id_of y). rewrite Hid, Hrow. intros [= <-]. done.
Qed.
(** A cancellation that returns has cancelled the run. *)
Lemma run_to_status target at_ reason code w w' : run_to target at_ reason code w = (Ok tt, w') ->
  WorkflowRun.status (ExecutionState.workflow_run (execution w')) = target.
Proof using.
  unfold run_to, edit_execution. destruct (_ ≫= _) as [x'|e] eqn:Hx; [|done]. intros [= <-].
  apply bind_Ok in Hx as (r & Hr & [= <-]). cbn [execution ExecutionState.workflow_run].
  unfold WorkflowRun.transition_to in Hr. case_in Hr; [done|]. cbv zeta in Hr.
  by apply then_Ok in Hr as [_ [= <-]].
Qed.

Lemma session_to_run target at_ w r w' : session_to target at_ w = (r, w') ->
  ExecutionState.workflow_run (execution w') = ExecutionState.workflow_run (execution w).
Proof using.
  unfold session_to, edit_execution. destruct (_ ≫= _) as [x'|e] eqn:Hx; [|by intros [= _ <-]]. intros [= _ <-].
  by apply bind_Ok in Hx as (a & _ & [= <-]).
Qed.

Definition same_run (x x' : ExecutionState.t) : Prop :=
  ExecutionState.workflow_run x' = ExecutionState.workflow_run x.
#[local] Instance same_run_preorder : PreOrder same_run.
Proof using. split; red; unfold same_run; congruence. Qed.

Lemma cancelled_status w c w' : cancel_execution clock id_factory w = (Ok c, w') ->
  WorkflowRun.status (ExecutionState.workflow_run (execution w')) = WorkflowRunStatus.CANCELLED.
Proof using.
  unfold cancel_execution. intros H.
  apply bind_inv in H as [(x & w1 & _ & H)|(e & _ & [=])]. apply bind_inv in H as [(? & w2 & _ & H)|(e & _ & [=])].
  apply bind_inv in H as [(ts & w3 & _ & H)|(e & _ & [=])]. apply bind_inv in H as [(l & w4 & _ & H)|(e & _ & [=])].
  apply bind_inv in H as [(? & w5 & _ & H)|(e & _ & [=])]. apply bind_inv in H as [([] & w6 & Hb & H)|(e & _ & [=])].
  unfold cancel_both in Hb.
  apply bind_inv in Hb as [(? & v1 & _ & Hb)|(e & _ & [=])]. apply bind_inv in Hb as [(? & v2 & _ & Hb)|(e & _ & [=])].
  apply bind_inv in Hb as [([] & v3 & Hr & Hb)|(e & _ & [=])]. apply session_to_run in Hb.
  assert (Hc : respects same_run (create_checkpoint clock id_factory)) by (apply respects_checkpoint; [typeclasses eauto|done]).
  specialize (Hc w6). rewrite H in Hc. unfold same_run in Hc. cbn [snd] in Hc.
  rewrite Hc, Hb. by eapply run_to_status.
Qed.
(** What stays true until the commit. *)
Record uncommitted m m' : Prop := {
  un_ok : runtime_ok m';
  un_database : rt_database m' = rt_database m;
  un_calls : rt_calls m' = rt_calls m;
  un_run : run_id_of (rt_execution m') = run_id_of (rt_execution m)
}.

Lemma uncommitted_step {A} (c : M exn machine A) m m1 r m2 : along holding c -> uncommitted m m1 ->
  c m1 = (r, m2) -> uncommitted m m2.
Proof using.
  intros Hc [Hm Hd Hl Hr] H. specialize (Hc m1 Hm). rewrite H in Hc. destruct Hc as (Hm2 & Hd2 & Hl2 & _ & Hr2).
  cbn [snd] in *. split; [exact Hm2|by rewrite Hd2|by rewrite Hl2|by rewrite Hr2].
Qed.

Lemma holding_checkpoint : along holding (on_world (create_checkpoint clock id_factory)).
Proof using. apply holding_world, checkpoint_moves. Qed.

Lemma holding_cancel : along holding (on_world (cancel_execution clock id_factory)).
Proof using. apply holding_world. apply respects_discarded, (operation_moves clock id_factory OpCancel). Qed.

Lemma holding_save c boundary : along holding (on_uow (on_checkpoints (CheckpointRepository.save c boundary None None))).
Proof using. apply holding_aside, aside_checkpoint. Qed.

Lemma cancelled_machine m c m' : on_world (cancel_execution clock id_factory) m = (Ok c, m') ->
  WorkflowRun.status (ExecutionState.workflow_run (rt_execution m')) = WorkflowRunStatus.CANCELLED.
Proof using.
  unfold on_world, zoom. destruct (cancel_execution _ _ (rt_world m)) as [r w] eqn:Hc. intros [= -> <-].
  by apply cancelled_status in Hc.
Qed.

(** The cancelled execution stored: everything, or nothing. *)
Lemma cancel_and_store_cases v m r m' : runtime_ok m -> cancel_and_store clock id_factory v m = (r, m') ->
  match r with
  | Ok view => (exists n, settled_row (rt_execution m') n (stop_machine m')) /\
      run_id_of (rt_execution m') = run_id_of (rt_execution m) /\
      WorkflowRunView.from_execution (rt_execution m') = Ok view /\
      WorkflowRun.status (ExecutionState.workflow_run (rt_execution m')) = WorkflowRunStatus.CANCELLED
  | Err _ => rt_database m' = rt_database m /\ rt_calls m' = rt_calls m
  end.
Proof using.
  intros Hm H. unfold cancel_and_store in H. assert (H0 : uncommitted m m) by done.
  apply bind_inv in H as [(before & m1 & E & H)|(e & E & ->)];
    pose proof (uncommitted_step _ _ _ _ _ holding_checkpoint H0 E) as H1; [|split; apply H1].
  apply bind_inv in H as [(? & m2 & E2 & H)|(e & E2 & ->)];
    pose proof (uncommitted_step _ _ _ _ _ (holding_save _ _) H1 E2) as H2; [|split; apply H2].
  apply bind_inv in H as [(terminal & m3 & E3 & H)|(e & E3 & ->)];
    pose proof (uncommitted_step _ _ _ _ _ holding_cancel H2 E3) as H3; [|split; apply H3].
  apply bind_inv in H as [(? & m4 & E4 & H)|(e & E4 & ->)];
    pose proof (uncommitted_step _ _ _ _ _ (holding_save _ _) H3 E4) as [Hm4 Hd4 Hl4 Hr4]; [|done].
  apply bind_inv in H as [(y & m5 & E5 & H)|(e & E5 & ->)]; [injection E5 as <- <-|done].
  assert (Hx4 : rt_execution m4 = rt_execution m3).
  { pose proof (aside_checkpoint (EN := EN) (P := P) terminal TERMINAL None None m3) as [_ Hn]. rewrite E4 in Hn. apply Hn. }
  destruct (on_workflows (WorkflowRepository.save (rt_execution m4) (Some v)) (rt_unit m4)) as [r5 u5] eqn:Hu5.
  apply bind_inv in H as [(n & m5 & E5 & H)|(e & E5 & ->)];
    rewrite (on_uow_eq _ _ _ _ Hu5) in E5; injection E5 as -> <-; [|done].
  pose proof (save_staged _ _ _ _ Hm4 Hu5) as [Hs _].
  apply bind_inv in H as [([] & m6 & E6 & H)|(e & E6 & ->)];
    apply (commit_stored _ _ _ _ _ Hm4 Hs) in E6; [|destruct E6; split; congruence].
  destruct E6 as [Hrow Hw]. injection H as Hv <-.
  assert (Hx : rt_execution m6 = rt_execution m4) by (unfold rt_execution; by rewrite Hw).
  destruct (view_total _ (proj2 (m_sound _ Hm4))) as [v0 Hv0]. rewrite Hv0 in Hv. subst r. rewrite Hx.
  split_and!; [by exists n|done|done|]. rewrite Hx4. by eapply cancelled_machine.
Qed.
Lemma from_execution_status x v : WorkflowRunView.from_execution x = Ok v ->
  WorkflowRunView.status v = WorkflowRun.status (ExecutionState.workflow_run x).
Proof using.
  unfold WorkflowRunView.from_execution. intros (l & _ & H)%bind_Ok. by apply bind_Ok in H as (d & _ & [= <-]).
Qed.

(** Every outcome of [cancel_run]. *)
Lemma cancel_cases run_id p r p' : process_ok p -> cancel_run clock id_factory run_id p = (r, p') ->
  match r with
  | Ok view => process_ok p' /\ WorkflowRunView.id view = run_id /\
      (pr_observed p' = pr_observed p /\ WorkflowRunStatus.is_terminal (WorkflowRunView.status view) = true \/
       WorkflowRunView.status view = WorkflowRunStatus.CANCELLED /\
       exists row, Dict.get run_id (db_executions (pr_database p')) = Some row /\
         WorkflowRunRecord.status (WorkflowRepository.run_of row) = WorkflowRunStatus.CANCELLED)
  | Err _ => pr_observed p' = pr_observed p
  end.
Proof using.
  intros Hp H. unfold cancel_run in H. apply bind_inv in H as [(x & p1 & E & H)|(e & E & ->)];
    apply (load_stored_cases _ _ _ _ Hp) in E as [-> Hx]; [|done].
  destruct (Hx x eq_refl) as (Hid & Hm & _). clear Hx.
  destruct (WorkflowRunStatus.is_terminal _) eqn:Ht.
  { injection H as <- <-. destruct (view_total x (proj2 (m_sound _ Hm))) as [v Hv]. rewrite Hv.
    split; [done|]. split; [by rewrite (from_execution_id _ _ Hv)|]. left. by rewrite (from_execution_status _ _ Hv). }
  apply bind_inv in H as [(q & p1 & E & H)|(e & E & ->)]; [injection E as <- <-|done].
  destruct (WorkflowRepository.get_version _ _) as [v|]; [|by injection H as <- <-].
  unfold rolling_back, guarded, with_execution in H.
  destruct (cancel_and_store clock id_factory v (start_machine x p)) as [r1 m1] eqn:Hc.
  apply (cancel_and_store_cases v _ _ _ Hm) in Hc. destruct r1 as [view|e].
  - injection H as <- <-. destruct Hc as ([n [Hok (row & Hr & Hrow)]] & Hrun & Hv & Hst).
    change (run_id_of (rt_execution m1) = run_id_of x) in Hrun.
    split; [exact Hok|]. split; [by rewrite (from_execution_id _ _ Hv), Hrun|]. right.
    split; [by rewrite (from_execution_status _ _ Hv)|]. exists row. rewrite <- Hid, <- Hrun. split; [exact Hrow|].
    apply stored_shown in Hr. by rewrite (sh_status _ _ Hr).
  - cbn [caught_by existsb] in H. rewrite rollback_eq in H. injection H as <- <-. by apply rolled_back_same.
Qed.

(** C39: A creation or a cancellation that is refused changes nothing: whatever it raises, the session (the database and what is staged) and the log of skill calls are as they were, although both write to several repositories. *)
Theorem refused_requests_change_nothing p e p' : process_ok p ->
  (forall command, create_run clock id_factory command p = (Err e, p') -> pr_observed p' = pr_observed p) /\
  (forall run_id, cancel_run clock id_factory run_id p = (Err e, p') -> pr_observed p' = pr_observed p).
Proof using.
  intros Hp. split.
  - intros command H. exact (create_cases _ _ _ _ Hp H).
  - intros run_id H. exact (cancel_cases _ _ _ _ Hp H).
Qed.

(** C9: A cancellation that answers has happened: the database holds the run as cancelled and nothing is left staged, unless the run had already ended, and then nothing changed. *)
Theorem cancellation_durable run_id p view p' : process_ok p ->
  cancel_run clock id_factory run_id p = (Ok view, p') ->
  WorkflowRunView.id view = run_id /\ pr_unit p' = refresh (pr_database p') /\
  (pr_observed p' = pr_observed p /\ WorkflowRunStatus.is_terminal (WorkflowRunView.status view) = true \/
   WorkflowRunView.status view = WorkflowRunStatus.CANCELLED /\
   exists row, Dict.get run_id (db_executions (pr_database p')) = Some row /\
     WorkflowRunRecord.status (WorkflowRepository.run_of row) = WorkflowRunStatus.CANCELLED).
Proof using.
  intros Hp H. destruct (cancel_cases _ _ _ _ Hp H) as (Hok & Hid & Hc). split; [done|]. split; [apply Hok|exact Hc].
Qed.
End facts.
