(* ===== verification/DecisionFacts.v ===== *)
(** Decisions on approvals, and the invariant of all use cases: between two of
    them nothing is left staged. A decision is staged before the runtime acts on
    it, and both are committed together. *)
From S2P Require Import Prelude Isolation Errors Text Float Value Json Lexical SkillSchema Sha256 Lifecycle Workflow Checkpoint Coordinator CoordinatorFacts CoordinatorSpec CancelFacts Approval Events Records RecordFacts Provider Budget BudgetFacts Dict Tables TableFacts Repositories RepositoryFacts Manifests UnitOfWork UnitOfWorkFacts CommitFacts RetryPolicy EngineModels References Validator Scheduler Engine EngineFacts EngineCoordinator EngineCoordinatorFacts Skills Calendar AgentRuntime RuntimeInvariants RuntimeFacts RuntimeDurability RuntimeExamples Canonical Views Application ApplicationFacts.
Local Open Scope string_scope.
Local Open Scope list_scope.
Local Open Scope Z_scope.

Section decisions.
Context {EN : Entities} {P : Type}.
Context (clock : nat -> datetime) (id_factory : nat -> string -> string).
Context (skills : dict (string * string) (@RegisteredSkill session P)).
Context (capability_provider : option (step_request -> SkillCapabilities.t P)).
Context (max_decisions : nat) (approval_ttl : Z).
Context (Hskills : skills_ok skills).
Implicit Types (p : @process EN P) (m : @machine EN P).

(** ** Resuming a waiting run with an outcome *)

Lemma initialize_execution is_new m r m' : runtime_ok m -> initialize clock id_factory is_new m = (r, m') ->
  rt_execution m' = rt_execution m.
Proof using.
  intros Hm H. unfold initialize in H. apply get_inv in H. cbv zeta in H.
  pose proof (aside_initialize_memory (EN := EN) (P := P) m) as [Hok1 [Hx1 _ _ _ _ _]].
  apply bind_inv in H as [([] & m1 & E & H)|(e & E & ->)]; rewrite E in Hok1, Hx1; cbn [snd] in *; [|done].
  pose proof (aside_baseline (EN := EN) (P := P) clock id_factory m1) as [Hok2 [Hx2 _ _ _ _ _]].
  apply bind_inv in H as [([] & m2 & E2 & H)|(e & E2 & ->)]; rewrite E2 in Hok2, Hx2; cbn [snd] in *; [|by rewrite Hx2].
  destruct (_ || _) in H; [|injection H as _ <-; by rewrite Hx2].
  apply commit_execution_cases in H as (_ & Hx & _); [by rewrite Hx, Hx2|]. by apply Hok2, Hok1.
Qed.

(** A waiting run given an outcome ends with everything committed. *)
Lemma outcome_run_clean is_new outcome outputs m r m' : runtime_ok m ->
  WorkflowRun.status (ExecutionState.workflow_run (rt_execution m)) = WorkflowRunStatus.WAITING_FOR_APPROVAL ->
  run_execution clock id_factory skills capability_provider max_decisions approval_ttl is_new (Some outcome) outputs m
    = (Ok r, m') -> yielded r m'.
Proof using Hskills.
  intros Hm Hst H. unfold run_execution in H.
  pose proof (preserved_initialize (P := P) clock id_factory is_new m Hm) as Hm1.
  apply bind_inv in H as [([] & m1 & E & H)|(e & _ & [=])]. rewrite E in Hm1.
  apply (initialize_execution _ _ _ _ Hm) in E as Hx. apply get_inv in H.
  unfold is_terminal_run in H. rewrite Hx, Hst in H. cbn [WorkflowRunStatus.is_terminal bool_decide] in H.
  rewrite bool_decide_false in H by done.
  apply bind_inv in H as [([] & m2 & E2 & H)|(e & _ & [=])]. injection E2 as <-.
  pose proof (preserved_prepare (P := P) clock id_factory approval_ttl (Some outcome) outputs m1 Hm1) as Hm3.
  apply bind_inv in H as [(prepared & m3 & E3 & H)|(e & _ & [=])]. rewrite E3 in Hm3. cbn [snd] in Hm3.
  unfold prepare_resume in E3. apply get_inv in E3. rewrite Hx, Hst in E3.
  apply (outcome_settled clock id_factory approval_ttl outcome outputs _ _ _ Hm1) in E3 as [Hd Hr].
  destruct prepared as [r0|]; [|by eapply loop_yields].
  injection H as <- <-. split; [done|by apply Hr].
Qed.
(** The invariant, and what a computation that returned has committed. *)
Definition kept {A} (r : res A) p : Prop :=
  journal_ok (obs_session (pr_observed p)) (pr_calls p) /\
  (is_ok r = true -> pr_unit p = refresh (pr_database p)).

Lemma kept_ok {A} (r : res A) p : process_ok p -> kept r p.
Proof using. intros [Hj Hu]. by split. Qed.

Lemma submit_kept run_id outcome outputs row p r p' : process_ready p ->
  Dict.get run_id (db_executions (pr_database p)) = Some row ->
  WorkflowRunRecord.status (WorkflowRepository.run_of row) = WorkflowRunStatus.WAITING_FOR_APPROVAL ->
  submit clock id_factory skills capability_provider max_decisions approval_ttl run_id (Some outcome) outputs p
    = (r, p') -> kept r p'.
Proof using Hskills.
  intros Hp Hrow Hst H. unfold submit in H. split.
  { exact (run_journal clock id_factory skills capability_provider max_decisions approval_ttl Hskills (RunId run_id) _ _ _ _ _ Hp I H). }
  intros Hok. destruct r as [r|]; [|done].
  unfold run in H. apply bind_inv in H as [([x is_new] & p1 & E & H)|(e & _ & [=])].
  destruct (resolution_cases (RunId run_id) _ _ _ Hp I E) as [Ho Hx]. destruct (Hx x is_new eq_refl) as [Hm _].
  unfold with_execution in H. cbn [fst snd] in H.
  destruct (run_execution _ _ _ _ _ _ _ _ _ _) as [r' m'] eqn:Hrun. injection H as -> <-.
  apply outcome_run_clean in Hrun as [[Hu _] _]; [exact Hu|done|].
  change (WorkflowRun.status (ExecutionState.workflow_run x) = WorkflowRunStatus.WAITING_FOR_APPROVAL).
  unfold resolve_execution in E. apply bind_inv in E as [(y & p2 & E & E')|(e & _ & [=])]. injection E' as <- <- <-.
  destruct (load_cases _ _ _ _ Hp E) as (_ & _ & Hl). destruct (Hl y eq_refl) as (row' & x0 & Hrow' & Hto & -> & _).
  rewrite Hrow in Hrow'. injection Hrow' as <-.
  pose proof (j_rows _ _ (rd_journal _ Hp) _ _ Hrow) as Hrok.
  pose proof (sh_status _ _ (loaded_shown row x0 (ExecutionState.checkpoints y) Hrok Hto)) as Hs.
  cbn in Hs |- *. by rewrite <- Hs.
Qed.

(** ** The approval staged *)

Lemma approval_staged a v x p r p' : process_ok p -> runtime_ok (start_machine x p) ->
  on_process_unit (on_approvals (ApprovalRepository.save a v)) p = (r, p') ->
  process_ready p' /\ same_base p p'.
Proof using.
  intros Hp Hm H. rewrite (on_unit_machine _ x) in H. unfold with_execution in H.
  pose proof (aside_approval (EN := EN) (P := P) a v (start_machine x p)) as [Hok [Hx Hc Hd Hw _ _]].
  destruct (on_uow _ (start_machine x p)) as [r1 m1]. injection H as <- <-. cbn [snd] in *.
  specialize (Hok Hm). split; [split|by split].
  - apply Hok.
  - change (workflows (rt_unit m1) = Versioned.refresh (db_executions (rt_database m1))). rewrite Hw, Hd.
    change (workflows (pr_unit p) = Versioned.refresh (db_executions (pr_database p))). by rewrite (pr_clean _ Hp).
Qed.

Abbreviation store_decision_ :=
  (store_decision clock id_factory skills capability_provider max_decisions approval_ttl).

Lemma load_view_kept run_id p r p' : process_ok p -> load_run_view run_id p = (r, p') -> p' = p.
Proof using.
  intros Hp H. unfold load_run_view in H. apply bind_inv in H as [(x & p1 & E & H)|(e & E & ->)];
    apply (load_stored_cases _ _ _ _ Hp) in E as [-> _]; [by injection H as _ <-|done].
Qed.

Lemma store_decision_kept v a outcome outputs x row p r p' : process_ok p -> runtime_ok (start_machine x p) ->
  Dict.get (ApprovalRequest.workflow_run_id a) (db_executions (pr_database p)) = Some row ->
  WorkflowRunRecord.status (WorkflowRepository.run_of row) = WorkflowRunStatus.WAITING_FOR_APPROVAL ->
  store_decision_ v a outcome outputs p = (r, p') -> kept r p'.
Proof using Hskills.
  intros Hp Hm Hrow Hst H. unfold store_decision in H.
  apply bind_inv in H as [(n & p1 & E & H)|(e & E & ->)];
    destruct (approval_staged _ _ _ _ _ _ Hp Hm E) as [Hr1 [Hd1 _]]; [|split; [apply Hr1|done]].
  rewrite <- Hd1 in Hrow.
  apply bind_inv in H as [(res_ & p2 & E2 & H)|(e & E2 & ->)];
    pose proof (submit_kept _ _ _ _ _ _ _ Hr1 Hrow Hst E2) as [Hj2 Hu2]; [|split; [done|done]].
  assert (Hp2 : process_ok p2) by (split; [done|by apply Hu2]).
  apply bind_inv in H as [(view & p3 & E3 & H)|(e & E3 & ->)]; apply (load_view_kept _ _ _ _ Hp2) in E3 as ->;
    [|by apply kept_ok]. injection H as <- <-. by apply kept_ok.
Qed.
(** ** Deciding *)

(** A mutation of a request that leaves it the request of its run. *)
Definition same_target (c : M exn ApprovalRequest.t unit) : Prop :=
  forall a, ApprovalRequest.workflow_run_id (c a).2 = ApprovalRequest.workflow_run_id a.

Lemma same_target_bind {A} (c : M exn ApprovalRequest.t A) (f : A -> M exn ApprovalRequest.t unit) :
  (forall a, ApprovalRequest.workflow_run_id (c a).2 = ApprovalRequest.workflow_run_id a) ->
  (forall x, same_target (f x)) -> same_target (c ≫= f).
Proof using.
  intros Hc Hf a. specialize (Hc a). unfold mbind, M_bind. destruct (c a) as [[x|e] a1]; [|done].
  by rewrite (Hf x a1).
Qed.

Lemma raise_if_same (b : bool) (e : exn) (a : ApprovalRequest.t) : (raise_if b e a).2 = a.
Proof using. by destruct b. Qed.

Lemma metadata_target metadata : same_target (ApprovalRequest.store_metadata metadata).
Proof using. apply same_target_bind; by intros. Qed.

Lemma pending_target target : same_target (ApprovalRequest.ensure_pending target).
Proof using. apply same_target_bind; [by intros|]. intros x a. by rewrite raise_if_same. Qed.

Lemma resolve_target now target by_ key fp at_ reason metadata :
  same_target (ApprovalRequest.resolve now target by_ key fp at_ reason metadata).
Proof using.
  apply same_target_bind; [apply pending_target|intros _]. do 2 (apply same_target_bind; [by intros|intros _]).
  cbv zeta. do 3 (apply same_target_bind; [by intros|intros ?]).
  apply same_target_bind; [intros a; by rewrite raise_if_same|intros _].
  apply same_target_bind; [by intros|intros _]. apply metadata_target.
Qed.

Lemma expire_target now at_ reason metadata : same_target (ApprovalRequest.expire now at_ reason metadata).
Proof using.
  unfold ApprovalRequest.expire. cbv zeta. do 2 (apply same_target_bind; [by intros|intros ?]).
  destruct (ApprovalRequest.expires_at _); [|by intros]. apply same_target_bind; [by intros|intros ?].
  apply same_target_bind; [intros a; by rewrite raise_if_same|intros _].
  apply same_target_bind; [apply pending_target|intros _].
  apply same_target_bind; [by intros|intros _]. apply metadata_target.
Qed.

Lemma on_approval_cases a c p r p' : same_target c -> on_approval a c p = (r, p') ->
  p' = p /\ forall a', r = Ok a' -> ApprovalRequest.workflow_run_id a' = ApprovalRequest.workflow_run_id a.
Proof using.
  intros Hc H. unfold on_approval in H. specialize (Hc a). destruct (c a) as [[[]|e] a1]; injection H as <- <-.
  - split; [done|]. by intros ? [= <-].
  - done.
Qed.
(** The clock moves, nothing else. *)
Lemma service_now_cases p r p' : service_now clock p = (r, p') -> pr_observed p' = pr_observed p.
Proof using. by intros [= _ <-]. Qed.

(** A run that waits, with the version to store the decision at. *)
Lemma waiting_cases a p r p' : process_ok p -> waiting_version a p = (r, p') ->
  p' = p /\ forall v, r = Ok v -> exists x row, runtime_ok (start_machine x p) /\
    Dict.get (ApprovalRequest.workflow_run_id a) (db_executions (pr_database p)) = Some row /\
    WorkflowRunRecord.status (WorkflowRepository.run_of row) = WorkflowRunStatus.WAITING_FOR_APPROVAL.
Proof using.
  intros Hp H. unfold waiting_version in H.
  apply bind_inv in H as [(x & p1 & E & H)|(e & E & ->)]; apply (load_stored_cases _ _ _ _ Hp) in E as [-> Hx]; [|done].
  destruct (Hx x eq_refl) as (_ & Hm & row & Hrow & Hsh).
  apply bind_inv in H as [([] & p1 & E & H)|(e & E & ->)]; injection E as E <-; [|done].
  apply bind_inv in H as [(q & p1 & E2 & H)|(e & E2 & ->)]; [injection E2 as <- <-|done].
  assert (p' = p) as -> by (destruct (ApprovalRepository.get_version _ _); by injection H as _ <-).
  split; [done|]. intros v Hv. exists x, row. split_and!; [done|done|]. rewrite (sh_status _ _ Hsh).
  unfold verify_waiting_execution in E. apply then_Ok in E as [_ E]. apply then_Ok in E as [E _].
  by apply fail_if_Ok, negb_false_iff, bool_decide_eq_true in E.
Qed.

(** A body that keeps the invariant makes a use case that keeps the process. *)
Definition settles {A} (c : M exn (@process EN P) A) : Prop :=
  forall p r p', process_ok p -> c p = (r, p') -> process_ok p'.

Lemma rolling_back_settles {A} clauses (c : M exn (@process EN P) A) p r p' :
  (forall r p', c p = (r, p') -> kept r p') -> rolling_back clauses c p = (r, p') -> process_ok p'.
Proof using.
  intros Hc H. unfold rolling_back, guarded in H. destruct (c p) as [[a|e] p1] eqn:H1; destruct (Hc _ _ eq_refl) as [Hj Hu].
  - injection H as <- <-. split; [done|by apply Hu].
  - cbn [caught_by existsb] in H. rewrite rollback_eq in H. injection H as <- <-. split; [|done].
    destruct Hj as [[Hd Hb] ? ? ? ? ? ?]. split; try done. split; [done|]. by apply refreshed_ok.
Qed.
(** A process ready for a decision on a request. *)
Record deciding (a : ApprovalRequest.t) p : Prop := {
  de_ok : process_ok p;
  de_machine : exists x, runtime_ok (start_machine x p);
  de_row : exists row, Dict.get (ApprovalRequest.workflow_run_id a) (db_executions (pr_database p)) = Some row /\
    WorkflowRunRecord.status (WorkflowRepository.run_of row) = WorkflowRunStatus.WAITING_FOR_APPROVAL
}.

Lemma deciding_same a a' p p' : pr_observed p' = pr_observed p ->
  ApprovalRequest.workflow_run_id a' = ApprovalRequest.workflow_run_id a -> deciding a p -> deciding a' p'.
Proof using.
  intros Ho Ha [Hok (x & Hm) Hrow]. split.
  - by eapply process_ok_same.
  - exists x. unfold start_machine in *. rewrite Ho. destruct Hm as [Hj Hs Hk Hsk Hst].
    split; [exact Hj|exact Hs|exact Hk|exact Hsk|exact Hst].
  - unfold pr_database. rewrite Ha, Ho. exact Hrow.
Qed.

Lemma store_kept v a outcome outputs p r p' : deciding a p ->
  store_decision_ v a outcome outputs p = (r, p') -> kept r p'.
Proof using Hskills.
  intros [Hok (x & Hm) (row & Hrow & Hst)] H. by eapply store_decision_kept.
Qed.

(** A timed mutation of the request, and its decision stored. *)
Lemma mutate_and_store (mutation : datetime -> M exn ApprovalRequest.t unit) next a p r p' : deciding a p ->
  (forall at_, same_target (mutation at_)) ->
  (forall a' p r p', deciding a' p -> next a' p = (r, p') -> kept r p') ->
  (at_ ← service_now clock; a' ← on_approval a (mutation at_); next a') p = (r, p') -> kept (A := ApprovalDecisionView) r p'.
Proof using.
  intros Hd Hm Hn H. apply bind_inv in H as [(at_ & p1 & E & H)|(e & E & ->)];
    apply service_now_cases in E as Ho; pose proof (deciding_same a a p _ Ho eq_refl Hd) as Hd1; [|by apply kept_ok, Hd1].
  apply bind_inv in H as [(a' & p2 & E2 & H)|(e & E2 & ->)];
    apply on_approval_cases in E2 as [-> Ha]; try apply Hm; [|by apply kept_ok, Hd1].
  eapply Hn; [|exact H]. apply (deciding_same a a' p1 p1 eq_refl); [by apply Ha|exact Hd1].
Qed.

Abbreviation decide_approval_ :=
  (decide_approval clock id_factory skills capability_provider max_decisions approval_ttl).

Lemma decide_pending_ok artifacts command a p r p' : process_ok p ->
  decide_pending clock id_factory skills capability_provider max_decisions approval_ttl artifacts command a p = (r, p') ->
  process_ok p'.
Proof using Hskills.
  intros Hp H. unfold decide_pending in H.
  apply bind_inv in H as [(v & p1 & E & H)|(e & E & ->)]; apply (waiting_cases _ _ _ _ Hp) in E as [-> Hv]; [|done].
  destruct (Hv v eq_refl) as (x & row & Hm & Hrow & Hst).
  assert (Hd : deciding a p) by (split; [done|by exists x|by exists row]).
  eapply rolling_back_settles; [|exact H]. clear H r p'. intros r p' H. destruct (dc_decision command).
  - unfold approve_and_store in H. destruct (dc_current_fingerprint command) as [fp|]; [|injection H as <- <-; by apply kept_ok].
    apply bind_inv in H as [(q & p1 & E & H)|(e & E & ->)]; [injection E as <- <-|done].
    apply bind_inv in H as [([] & p1 & E & H)|(e & E & ->)]; injection E as E <-; [|by apply kept_ok].
    revert H. apply mutate_and_store; [done|intros at_; apply resolve_target|].
    intros a' q r' q' Hd' H'. by eapply store_kept.
  - unfold reject_and_store in H. revert H. apply mutate_and_store; [done|intros at_; apply resolve_target|].
    intros a' q r' q' Hd' H'. by eapply store_kept.
Qed.

Lemma expire_and_cancel_ok a p r p' : process_ok p ->
  expire_and_cancel clock id_factory skills capability_provider max_decisions approval_ttl a p = (r, p') -> process_ok p'.
Proof using Hskills.
  intros Hp H. unfold expire_and_cancel in H.
  apply bind_inv in H as [(v & p1 & E & H)|(e & E & ->)]; apply (waiting_cases _ _ _ _ Hp) in E as [-> Hv]; [|done].
  destruct (Hv v eq_refl) as (x & row & Hm & Hrow & Hst).
  assert (Hd : deciding a p) by (split; [done|by exists x|by exists row]).
  eapply rolling_back_settles; [|exact H]. clear H r p'. intros r p' H.
  unfold expire_and_store in H. revert H. apply mutate_and_store; [done|intros at_; apply expire_target|].
  intros a' q r' q' Hd' H'. by eapply store_kept.
Qed.

Lemma decide_approval_ok artifacts command p r p' : process_ok p -> decide_approval_ artifacts command p = (r, p') ->
  process_ok p'.
Proof using Hskills.
  intros Hp H. unfold decide_approval in H.
  apply bind_inv in H as [(q & p1 & E & H)|(e & E & ->)]; [injection E as <- <-|done].
  apply bind_inv in H as [(found & p1 & E & H)|(e & E & ->)]; injection E as E <-; [|done].
  destruct found as [a|]; [|by injection H as _ <-].
  assert (He : forall r1 p1, has_expired clock a p = (r1, p1) -> process_ok p1).
  { intros r1 p1 H1. eapply process_ok_same; [|exact Hp]. unfold has_expired in H1.
    destruct (ApprovalRequest.status a), (ApprovalRequest.expires_at a); try by injection H1 as _ <-.
    apply bind_inv in H1 as [(at_ & p2 & E1 & H1)|(e & E1 & ->)]; apply service_now_cases in E1; [|done].
    apply bind_inv in H1 as [(? & p3 & E2 & H1)|(e & E2 & ->)]; injection E2 as _ <-; [|done]. by injection H1 as _ <-. }
  apply bind_inv in H as [(expired & p1 & E1 & H)|(e & E1 & ->)]; apply He in E1; [|done].
  destruct expired; [by eapply expire_and_cancel_ok|].
  destruct (ApprovalRequestStatus.is_terminal _); [|by eapply decide_pending_ok].
  unfold repeat_decision in H. destruct (_ && _); [|by injection H as _ <-].
  apply bind_inv in H as [(view & p3 & E3 & H)|(e & E3 & ->)]; apply (load_view_kept _ _ _ _ E1) in E3 as ->; [|done].
  by injection H as _ <-.
Qed.
(** ** Resuming *)

Lemma run_kept run_id outcome outputs p r p' : process_ok p ->
  submit clock id_factory skills capability_provider max_decisions approval_ttl run_id outcome outputs p = (r, p') ->
  kept r p'.
Proof using Hskills.
  intros Hp H. unfold submit in H. split.
  { exact (run_journal clock id_factory skills capability_provider max_decisions approval_ttl Hskills (RunId run_id)
      _ _ _ _ _ (ok_ready _ Hp) I H). }
  intros Hok. destruct r as [r|]; [|done]. unfold run in H.
  apply bind_inv in H as [([x is_new] & p1 & E & H)|(e & _ & [=])].
  destruct (resolution_cases (RunId run_id) _ _ _ (ok_ready _ Hp) I E) as [Ho Hx].
  destruct (Hx x is_new eq_refl) as [Hm Hload]. unfold with_execution in H. cbn [fst snd] in H.
  destruct (run_execution _ _ _ _ _ _ _ _ _ _) as [r' m'] eqn:Hrun. injection H as -> <-.
  apply run_execution_yields in Hrun as [[Hu _] _]; [exact Hu|done|done|].
  intros Hn. destruct (Hload Hn) as (p0 & i & Ho0 & Hl). eapply loaded_durable; [|exact Hl]. by eapply process_ok_same.
Qed.

(** What a resumption does inside its guard. *)
Definition resumption (run_id : string) : M exn (@process EN P) WorkflowRunView.t :=
  submit clock id_factory skills capability_provider max_decisions approval_ttl run_id None None ;;
  load_run_view run_id.

Lemma resumption_journal run_id p r p' : process_ok p -> resumption run_id p = (r, p') ->
  journal_ok (obs_session (pr_observed p')) (pr_calls p') /\ (is_ok r = true -> process_ok p').
Proof using Hskills.
  intros Hp H. apply bind_inv in H as [(res_ & p2 & E & H)|(e & E & ->)]; apply run_kept in E as [Hj Hu]; try done.
  assert (Hp2 : process_ok p2) by (split; [done|by apply Hu]).
  apply (load_view_kept _ _ _ _ Hp2) in H as ->. by split.
Qed.

(** The conflicts of the application that reach the guard pass it; every other
    error is translated, and the unit of work is rolled back. *)
Definition passes_guard (run_id : string) p (r : res WorkflowRunView.t) p' : Prop :=
  exists e, r = Err e /\ resumption run_id p = (Err e, p') /\ caught_by [ApplicationConflictError] e = true.

Lemma resume_ok run_id p r p' : process_ok p ->
  resume_run clock id_factory skills capability_provider max_decisions approval_ttl run_id p = (r, p') ->
  journal_ok (obs_session (pr_observed p')) (pr_calls p') /\ (process_ok p' \/ passes_guard run_id p r p').
Proof using Hskills.
  intros Hp H. unfold resume_run in H.
  apply bind_inv in H as [(x & p1 & E & H)|(e & E & ->)]; apply (load_stored_cases _ _ _ _ Hp) in E as [-> _];
    [|split; [apply Hp|by left]].
  unfold guarded in H. fold (resumption run_id) in H.
  destruct (resumption run_id p) as [[a|e] p1] eqn:Hb; pose proof (resumption_journal _ _ _ _ Hp Hb) as [Hj1 Hk].
  - injection H as <- <-. split; [done|]. left. by apply Hk.
  - destruct (caught_by [ApplicationConflictError] e) eqn:He.
    + injection H as <- <-. split; [done|]. right. by exists e.
    + rewrite rollback_eq in H. injection H as <- <-.
      assert (Hp' : process_ok (on_process_session rollback p1).2); [|split; [apply Hp'|by left]].
      rewrite rollback_eq. split; [|done]. destruct Hj1 as [[Hd Hb1] ? ? ? ? ? ?]. split; try done.
      split; [done|]. by apply refreshed_ok.
Qed.

(** ** Every use case *)

Inductive use_case :=
  | CreateCase (command : CreateWorkflowRunCommand)
  | CreateCatalogCase (definition_hash : Workflow.t -> string) (command : CreateCatalogWorkflowRunCommand)
  | GetCase (run_id : string)
  | ResumeCase (run_id : string)
  | CancelCase (run_id : string)
  | DecideCase (artifacts : option (string -> res string)) (command : ApprovalDecisionCommand).

Inductive answer := RunAnswer (v : WorkflowRunView.t) | DecisionAnswer (v : ApprovalDecisionView).

Definition answering {A} (f : A -> answer) (c : M exn (@process EN P) A) : M exn process answer :=
  v ← c; mret (f v).

Definition perform_case (u : use_case) : M exn (@process EN P) answer :=
  match u with
  | CreateCase command => answering RunAnswer (create_run clock id_factory command)
  | CreateCatalogCase hash command => answering RunAnswer (create_catalog_run clock id_factory hash command)
  | GetCase run_id => answering RunAnswer (get_run run_id)
  | ResumeCase run_id => answering RunAnswer
      (resume_run clock id_factory skills capability_provider max_decisions approval_ttl run_id)
  | CancelCase run_id => answering RunAnswer (cancel_run clock id_factory run_id)
  | DecideCase artifacts command => answering DecisionAnswer (decide_approval_ artifacts command)
  end.

Lemma answering_cases {A} (f : A -> answer) c p r p' : answering f c p = (r, p') ->
  exists r0, c p = (r0, p') /\ forall e, r0 = Err e -> r = Err e.
Proof using.
  intros H. unfold answering in H. apply bind_inv in H as [(v & p1 & E & H)|(e & E & ->)].
  - injection H as <- <-. by exists (Ok v).
  - exists (Err e). split; [done|]. by intros ? [= <-].
Qed.

Lemma create_ok command p r p' : process_ok p -> create_run clock id_factory command p = (r, p') -> process_ok p'.
Proof using.
  intros Hp H. pose proof (create_cases _ _ _ _ _ _ Hp H) as Hc. destruct r; [apply Hc|by eapply process_ok_same].
Qed.

Lemma raise_if_run b e p (r : res unit) p' : raise_if (S := @process EN P) b e p = (r, p') -> p' = p.
Proof using. destruct b; by intros [= _ <-]. Qed.

(** C7: Between two use cases nothing is left staged: creating, reading,
    resuming and cancelling runs and deciding approvals all keep the invariant
    of the process (a well-formed database and call log, rows that load, and a
    unit of work freshly opened on the database), whether they answer or raise,
    the errors of the runtime, the engine and the persistence that a resumption
    or a decision translates included.  What is let through without a rollback
    is only an [ApplicationConflictError] raised inside the guard of a
    resumption itself, and it is passed on as it was raised; the database and
    the call log are well formed even then. *)
Theorem use_cases_keep_process u p r p' : process_ok p -> perform_case u p = (r, p') ->
  journal_ok (obs_session (pr_observed p')) (pr_calls p') /\
  (process_ok p' \/
   exists run_id e, u = ResumeCase run_id /\ r = Err e /\ resumption run_id p = (Err e, p') /\
     caught_by [ApplicationConflictError] e = true).
Proof using Hskills.
  intros Hp H. assert (Hfine : process_ok p' -> journal_ok (obs_session (pr_observed p')) (pr_calls p') /\
    (process_ok p' \/ exists run_id e, u = ResumeCase run_id /\ r = Err e /\ resumption run_id p = (Err e, p') /\
       caught_by [ApplicationConflictError] e = true)) by (intros Hp'; split; [apply Hp'|by left]).
  destruct u; cbn [perform_case] in H; apply answering_cases in H as (r0 & H & Hr).
  - apply Hfine. by eapply create_ok.
  - apply Hfine. unfold create_catalog_run in H.
    apply bind_inv in H as [(q & p1 & E & H)|(e & E & ->)]; [injection E as <- <-|done].
    destruct (List.find _ _); [|by injection H as _ <-].
    apply bind_inv in H as [([] & p1 & E & H)|(e & E & ->)]; apply raise_if_run in E as ->; [|done].
    by eapply create_ok.
  - apply Hfine. by apply (load_view_kept _ _ _ _ Hp) in H as ->.
  - apply resume_ok in H as [Hj [Hp'|(e & He & Hb & Hc)]]; [by apply Hfine| |done].
    split; [done|]. right. exists run_id, e. by split_and!; [|apply Hr|..].
  - apply Hfine. pose proof (cancel_cases _ _ _ _ _ _ Hp H) as Hcc. destruct r0; [apply Hcc|by eapply process_ok_same].
  - apply Hfine. by eapply decide_approval_ok.
Qed.
End decisions.
