(* ===== verification/ApplicationExamples.v ===== *)
(** The use cases on concrete requests: the witnesses of their theorems, and a
    request whose retry is refused. *)
From S2P Require Import Prelude Isolation Errors Text Float Value Lexical SkillSchema Lifecycle Workflow Checkpoint Coordinator CoordinatorFacts CoordinatorSpec Approval Events Records RecordFacts Provider Budget Dict Tables Repositories UnitOfWork UnitOfWorkFacts Concurrency Engine EngineCoordinator Skills Calendar AgentRuntime RuntimeInvariants RuntimeFacts RuntimeExamples Canonical Views Application ApplicationFacts DecisionFacts.
Local Open Scope string_scope.
Local Open Scope list_scope.
Local Open Scope Z_scope.

Module UseCaseWitness.
Import Answering.

Definition spec : WorkflowSpec.t := workflow_spec one_step.
Definition request (inputs : mapping) : CreateWorkflowRunCommand :=
  CreateRun "project" "user" "key" "agent@1" spec inputs.
Definition plain_request : CreateWorkflowRunCommand := request [("topic", VStr "proofs")].
Definition list_request : CreateWorkflowRunCommand := request [("topics", VList [VStr "proofs"])].
Definition other_request : CreateWorkflowRunCommand :=
  CreateRun "project" "user" "other key" "agent@1" spec [("topic", VStr "proofs")].

Definition start : @process sample_entities unit :=
  Process (Env 0 0) (Observed (Session empty_database (refresh empty_database)) []) [].
Definition ask (command : CreateWorkflowRunCommand) : M exn (@process sample_entities unit) WorkflowRunView.t :=
  create_run test_clock test_ids command.
Definition cancel (run_id : string) : M exn (@process sample_entities unit) WorkflowRunView.t :=
  cancel_run test_clock test_ids run_id.

Lemma clean_start : process_ok start.
Proof.
  split; [|done]. split; try (by intros ? ?%elem_of_nil); [split; [apply empty_ok|apply refreshed_ok, empty_ok]|..].
  - by intros ? ?.
  - by intros ? ?.
  - constructor.
Qed.

(** What a use case answers, from a test of its outcome. *)
Lemma answers_ok {A} (c : M exn (@process sample_entities unit) A) p (test : A -> bool) :
  match (c p).1 with Ok a => test a | Err _ => false end = true ->
  exists a, c p = (Ok a, (c p).2) /\ test a = true.
Proof. destruct (c p) as [[a|] p']; cbn; [eauto|done]. Qed.

Lemma raises_error {A} (c : M exn (@process sample_entities unit) A) p (test : exn -> bool) :
  match (c p).1 with Ok _ => false | Err e => test e end = true ->
  exists e, c p = (Err e, (c p).2) /\ test e = true.
Proof. destruct (c p) as [[a|e] p']; cbn; [done|eauto]. Qed.

Definition created_process : @process sample_entities unit := (ask plain_request start).2.
(** A process on the same database whose identifiers start again. *)
Definition colliding : @process sample_entities unit := Process (Env 0 0) (pr_observed created_process) [].
Definition created_id : string := "run_0".
Definition is_run (i : string) (v : WorkflowRunView.t) : bool := String.eqb (WorkflowRunView.id v) i.
Definition is_a (k : exn_class) (e : exn) : bool := is_instance (exn_kind e) k.

Lemma ask_eq : ask plain_request start = ((ask plain_request start).1, created_process).
Proof. apply surjective_pairing. Qed.
Lemma created_ok v : ask plain_request start = (Ok v, created_process) -> process_ok created_process.
Proof. intros H. apply (create_ok test_clock test_ids plain_request start _ _ clean_start H). Qed.
#[local] Opaque created_process.

Lemma creation_idempotent_witness :
  exists v v' p, ask plain_request start = (Ok v, created_process) /\
    ask plain_request created_process = (Ok v', p) /\ WorkflowRunView.id v' = WorkflowRunView.id v.
Proof.
  destruct (answers_ok (ask plain_request) start (fun _ => true)) as (v & Hv & _); [by vm_compute|].
  destruct (answers_ok (ask plain_request) created_process (fun _ => true)) as (v' & Hv' & _); [by vm_compute|].
  exists v, v', (ask plain_request created_process).2. split; [exact Hv|]. split; [exact Hv'|].
  exact (proj2 (creation_idempotent test_clock test_ids plain_request start v created_process (Ok v') _
    clean_start Hv Hv') v' eq_refl).
Defined.

(** The identifiers collide: the creation is refused after the checkpoint and
    the row were prepared. *)
Lemma refused_requests_change_nothing_witness :
  exists e p, ask other_request colliding = (Err e, p) /\ is_a ApplicationConflictError e = true /\
    pr_observed p = pr_observed created_process.
Proof.
  destruct (answers_ok (ask plain_request) start (fun _ => true)) as (v & Hv & _); [by vm_compute|].
  assert (Hok : process_ok colliding) by (eapply process_ok_same; [|exact (created_ok v Hv)]; reflexivity).
  destruct (raises_error (ask other_request) colliding (is_a ApplicationConflictError)) as (e & He & Hk); [by vm_compute|].
  exists e, (ask other_request colliding).2. split; [exact He|]. split; [exact Hk|].
  exact (proj1 (refused_requests_change_nothing test_clock test_ids colliding e _ Hok) other_request He).
Defined.

Lemma cancellation_durable_witness :
  exists view p, cancel created_id created_process = (Ok view, p) /\
    WorkflowRunView.status view = WorkflowRunStatus.CANCELLED /\ pr_unit p = refresh (pr_database p).
Proof.
  destruct (answers_ok (ask plain_request) start (fun _ => true)) as (v & Hv & _); [by vm_compute|].
  destruct (answers_ok (cancel created_id) created_process
    (fun v => bool_decide (WorkflowRunView.status v = WorkflowRunStatus.CANCELLED))) as (view & Hc & Hst); [by vm_compute|].
  exists view, (cancel created_id created_process).2. split; [exact Hc|].
  split; [by apply bool_decide_eq_true in Hst|].
  exact (proj1 (proj2 (cancellation_durable test_clock test_ids created_id created_process view _
    (created_ok v Hv) Hc))).
Defined.

(** The run is created and resumed to its end. *)
Definition perform (u : use_case) : M exn (@process sample_entities unit) DecisionFacts.answer :=
  perform_case test_clock test_ids skills None 10 1000000 u.
Definition completed_answer (a : DecisionFacts.answer) : bool :=
  match a with RunAnswer v => bool_decide (WorkflowRunView.status v = WorkflowRunStatus.COMPLETED) | _ => false end.

Lemma use_cases_keep_process_witness :
  exists a p, perform (ResumeCase created_id) created_process = (Ok a, p) /\ completed_answer a = true /\ process_ok p.
Proof.
  destruct (answers_ok (ask plain_request) start (fun _ => true)) as (v & Hv & _); [by vm_compute|].
  destruct (answers_ok (perform (ResumeCase created_id)) created_process completed_answer) as (a & Ha & Hc); [by vm_compute|].
  exists a, (perform (ResumeCase created_id) created_process).2. split; [exact Ha|]. split; [exact Hc|].
  destruct (proj2 (use_cases_keep_process test_clock test_ids skills None 10 1000000 skills_keep (ResumeCase created_id)
    created_process (Ok a) _ (created_ok v Hv) Ha)) as [Hp|(run_id & e & _ & He & _)]; [exact Hp|discriminate He].
Defined.

(** A request made again exactly as it was is refused when an input is a list: the run's inputs are stored with tuples for lists, and the retry compares them with the lists of the command. *)
Theorem retry_with_list_conflicts :
  exists v e p, ask list_request start = (Ok v, p) /\
    (ask list_request p).1 = Err e /\ exn_kind e = ApplicationConflictError.
Proof.
  destruct (answers_ok (ask list_request) start (fun _ => true)) as (v & Hv & _); [by vm_compute|].
  destruct (raises_error (ask list_request) (ask list_request start).2
    (fun e => bool_decide (exn_kind e = ApplicationConflictError))) as (e & He & Hk); [by vm_compute|].
  apply bool_decide_eq_true in Hk. exists v, e, (ask list_request start).2.
  split; [exact Hv|]. split; [|exact Hk]. by rewrite He.
Qed.
End UseCaseWitness.
