(* ===== verification/Order.v ===== *)
(** Total orders by comparison functions, their products, and the sorting of a
    list by a key: elements with distinct keys are sorted in one way. *)
From S2P Require Import Prelude Errors Dict Tables Repositories RepositoryFacts.
From Stdlib Require Import Ascii String.
Local Open Scope list_scope.

Record total_compare {A} (cmp : A -> A -> comparison) : Prop := {
  tc_eq x y : cmp x y = Eq -> x = y;
  tc_refl x : cmp x x = Eq;
  tc_opp x y : cmp y x = CompOpp (cmp x y);
  tc_trans x y z : cmp x y = Lt -> cmp y z = Lt -> cmp x z = Lt
}.

Lemma Z_total : total_compare Z.compare.
Proof.
  split; [apply Z.compare_eq|apply Z.compare_refl|intros; apply Z.compare_antisym|].
  intros x y z. rewrite !Z.compare_lt_iff. lia.
Qed.

Lemma N_total : total_compare N.compare.
Proof.
  split; [apply N.compare_eq|apply N.compare_refl|intros; apply N.compare_antisym|].
  intros x y z. rewrite !N.compare_lt_iff. lia.
Qed.

Lemma ascii_trans a b c : Ascii.compare a b = Lt -> Ascii.compare b c = Lt -> Ascii.compare a c = Lt.
Proof. apply (tc_trans _ N_total). Qed.

Lemma string_trans s t u : String.compare s t = Lt -> String.compare t u = Lt -> String.compare s u = Lt.
Proof.
  revert t u. induction s as [|a s IH]; intros [|b t] [|c u]; try done. cbn.
  destruct (Ascii.compare a b) eqn:Hab; [|intros _|done].
  - apply Ascii.compare_eq_iff in Hab as ->. destruct (Ascii.compare b c); [apply IH|done|done].
  - destruct (Ascii.compare b c) eqn:Hbc; [|intros _|done].
    + apply Ascii.compare_eq_iff in Hbc as ->. by rewrite Hab.
    + by rewrite (ascii_trans _ _ _ Hab Hbc).
Qed.

Lemma string_total : total_compare String.compare.
Proof.
  split; [apply String.compare_eq_iff| |intros; apply String.compare_antisym|apply string_trans].
  intros s. pose proof (String.compare_antisym s s) as H. by destruct (String.compare s s).
Qed.

Definition pair_compare {A B} (ca : A -> A -> comparison) (cb : B -> B -> comparison) (x y : A * B) : comparison :=
  match ca x.1 y.1 with Eq => cb x.2 y.2 | o => o end.

Lemma pair_total {A B} (ca : A -> A -> comparison) (cb : B -> B -> comparison) :
  total_compare ca -> total_compare cb -> total_compare (pair_compare ca cb).
Proof.
  intros Ha Hb. unfold pair_compare. split.
  - intros [x y] [x' y']. cbn. destruct (ca x x') eqn:Hx; [|done..].
    apply (tc_eq _ Ha) in Hx as ->. by intros ->%(tc_eq _ Hb).
  - intros [x y]. cbn. rewrite (tc_refl _ Ha). apply (tc_refl _ Hb).
  - intros [x y] [x' y']. cbn. rewrite (tc_opp _ Ha x). destruct (ca x x'); cbn; [apply (tc_opp _ Hb)|done..].
  - intros [x y] [x1 y1] [x2 y2]. cbn. destruct (ca x x1) eqn:H1; [|intros _|done].
    + apply (tc_eq _ Ha) in H1 as ->. destruct (ca x1 x2); [apply (tc_trans _ Hb)|done..].
    + destruct (ca x1 x2) eqn:H2; [|intros _|done].
      * apply (tc_eq _ Ha) in H2 as ->. by rewrite H1.
      * by rewrite (tc_trans _ Ha _ _ _ H1 H2).
Qed.

Definition at_most {A} (cmp : A -> A -> comparison) (x y : A) : bool :=
  match cmp x y with Gt => false | _ => true end.

Section at_most.
Context {A : Type} (cmp : A -> A -> comparison) (Hc : total_compare cmp).

Lemma at_most_total x y : at_most cmp x y = true \/ at_most cmp y x = true.
Proof using Hc. unfold at_most. rewrite (tc_opp _ Hc x y). destruct (cmp x y); cbn; auto. Qed.

Lemma at_most_antisym x y : at_most cmp x y = true -> at_most cmp y x = true -> x = y.
Proof using Hc.
  unfold at_most. rewrite (tc_opp _ Hc x y). destruct (cmp x y) eqn:H; cbn; [|done..].
  by intros _ _; apply (tc_eq _ Hc).
Qed.

Lemma at_most_trans x y z : at_most cmp x y = true -> at_most cmp y z = true -> at_most cmp x z = true.
Proof using Hc.
  unfold at_most. destruct (cmp x y) eqn:H1; [apply (tc_eq _ Hc) in H1 as ->; done|intros _|done].
  destruct (cmp y z) eqn:H2; [apply (tc_eq _ Hc) in H2 as <-; by rewrite H1|intros _|done].
  by rewrite (tc_trans _ Hc _ _ _ H1 H2).
Qed.

Lemma key_trans {B} (key : B -> A) x y z : Is_true (at_most cmp (key x) (key y)) ->
  Is_true (at_most cmp (key y) (key z)) -> Is_true (at_most cmp (key x) (key z)).
Proof using Hc. rewrite !Is_true_true. apply at_most_trans. Qed.

(** Two arrangements of elements with distinct keys are sorted alike. *)
Lemma sort_by_unique {B} (key : B -> A) l l' : l ≡ₚ l' ->
  (forall x y, x ∈ l -> y ∈ l -> key x = key y -> x = y) ->
  sort_by (at_most cmp) key l = sort_by (at_most cmp) key l'.
Proof using Hc.
  intros Hp Hinj. set (R := fun x y => Is_true (at_most cmp (key x) (key y))).
  assert (Ht : Transitive R) by (intros x y z; apply key_trans).
  apply (Sorted_unique_strong R).
  - intros x y Hx Hy Hxy Hyx. rewrite sort_by_perm in Hx. rewrite sort_by_perm, <- Hp in Hy.
    apply Hinj; [done..|]. apply Is_true_true in Hxy, Hyx. by apply at_most_antisym.
  - apply (isort_Sorted (fun x y => at_most cmp (key x) (key y))). intros x y. apply at_most_total.
  - apply (isort_Sorted (fun x y => at_most cmp (key x) (key y))). intros x y. apply at_most_total.
  - by rewrite !sort_by_perm.
Qed.

Lemma sort_by_last {B} (key : B -> A) l x y : last (sort_by (at_most cmp) key l) = Some x -> y ∈ l ->
  at_most cmp (key y) (key x) = true.
Proof using Hc.
  intros Hl Hy. rewrite <- (sort_by_perm (at_most cmp) key) in Hy.
  assert (Hs : StronglySorted (fun x y => Is_true (at_most cmp (key x) (key y))) (sort_by (at_most cmp) key l)).
  { apply Sorted_StronglySorted; [intros ? ? ?; apply key_trans|apply isort_Sorted; intros; apply at_most_total]. }
  revert Hl Hy Hs. generalize (sort_by (at_most cmp) key l). intros s Hl Hy Hs.
  apply last_Some in Hl as [s' ->]. apply elem_of_app in Hy as [Hy|Hy].
  - apply StronglySorted_app in Hs as (Hs & _ & _). apply Is_true_true, Hs; [done|by apply list_elem_of_singleton].
  - apply list_elem_of_singleton in Hy as ->. unfold at_most. by rewrite (tc_refl _ Hc).
Qed.
End at_most.
