(* ===== verification/Progress.v ===== *)
(** [progress_reports/]: the cloud's history of uploaded progress reports.
    The contracts of [contracts.py] a service works on, the chain rule of
    [chain.py] and the projection of [projection.py].

    Texts of timestamps are kept as the strings they are: the code compares
    them as strings. *)
From S2P Require Import Prelude Errors Text Float Value Json Sha256 Lifecycle Lexical Calendar Canonical Dict Tables Repositories Order.
From Stdlib Require Import Ascii String.
Local Open Scope string_scope.
Local Open Scope list_scope.
Local Open Scope Z_scope.

(** ** [contracts.py] *)

Definition PROGRESS_REPORT_SCHEMA_V1 : string := "progress-report/v0.1".
Definition PROGRESS_REPORT_SCHEMA_V2 : string := "progress-report/v0.2".
Definition UPLOAD_SCHEMA_VERSION : string := "progress-report-upload/v0.1".
Definition PROJECTION_SCHEMA_VERSION : string := "project-progress-projection/v0.1".
Definition ZERO_HASH : string := "sha256:0000000000000000000000000000000000000000000000000000000000000000".

Module ProgressStatus.
Inductive t := IN_PROGRESS | COMPLETED | BLOCKED | FAILED | CANCELLED.
#[export] Instance eq_dec : EqDecision t.
Proof. solve_decision. Defined.
Definition value (s : t) : string :=
  match s with
  | IN_PROGRESS => "IN_PROGRESS" | COMPLETED => "COMPLETED" | BLOCKED => "BLOCKED"
  | FAILED => "FAILED" | CANCELLED => "CANCELLED"
  end.
End ProgressStatus.
#[export] Existing Instance ProgressStatus.eq_dec.

Module ChainState.
Inductive t := VALID_CHAIN | LEGACY_CHAIN_WITH_WARNINGS | INCOMPLETE_CHAIN | CONTINUITY_CONFLICT
  | IDENTITY_CONFLICT | BRANCHED_HISTORY.
#[export] Instance eq_dec : EqDecision t.
Proof. solve_decision. Defined.
Definition value (s : t) : string :=
  match s with
  | VALID_CHAIN => "VALID_CHAIN" | LEGACY_CHAIN_WITH_WARNINGS => "LEGACY_CHAIN_WITH_WARNINGS"
  | INCOMPLETE_CHAIN => "INCOMPLETE_CHAIN" | CONTINUITY_CONFLICT => "CONTINUITY_CONFLICT"
  | IDENTITY_CONFLICT => "IDENTITY_CONFLICT" | BRANCHED_HISTORY => "BRANCHED_HISTORY"
  end.
End ChainState.
#[export] Existing Instance ChainState.eq_dec.

Module ValidationStatus.
Inductive t := ACCEPTED | REJECTED.
#[export] Instance eq_dec : EqDecision t.
Proof. solve_decision. Defined.
Definition value (s : t) : string := match s with ACCEPTED => "ACCEPTED" | REJECTED => "REJECTED" end.
End ValidationStatus.
#[export] Existing Instance ValidationStatus.eq_dec.

Definition optional_text (o : option string) : value := match o with Some s => VStr s | None => VNone end.
Definition optional_int (o : option Z) : value := match o with Some z => VInt z | None => VNone end.

Module PinReference.
Record t := mk { pin_type : string; identity : string; version : string; checksum : string }.
#[export] Instance eq_dec : EqDecision t.
Proof. solve_decision. Defined.
End PinReference.
#[export] Existing Instance PinReference.eq_dec.

Module OutputArtifactReference.
Record t := mk {
  relative_path : string; artifact_kind : string; media_type : string; checksum : string; size : option Z
}.
#[export] Instance eq_dec : EqDecision t.
Proof. solve_decision. Defined.
Definition to_dict (o : t) : value :=
  VDict false [("relative_path", VStr (relative_path o)); ("artifact_kind", VStr (artifact_kind o));
               ("media_type", VStr (media_type o)); ("checksum", VStr (checksum o));
               ("size", optional_int (size o))].
End OutputArtifactReference.
#[export] Existing Instance OutputArtifactReference.eq_dec.

Module NormalizedProgressRecord.
Record t := mk {
  normalized_schema_version : string;
  source_schema_version : string;
  normalizer_version : string;
  report_id : string;
  report_checksum : string;
  report_content_checksum : option string;
  original_report_checksum : string;
  package_id : string;
  package_schema_version : option string;
  package_checksum : string;
  project_id : string;
  workflow_id : string;
  workflow_version : string;
  workflow_checksum : option string;
  execution_round : Z;
  harness_type : string;
  harness_version : option string;
  harness_session_id : option string;
  previous_report_id : option string;
  previous_report_checksum : option string;
  started_at : string;
  completed_at : string;
  status : ProgressStatus.t;
  completed_work : list string;
  current_state : string;
  next_recommended_action : string;
  continuation_reason : option string;
  output_artifacts : list OutputArtifactReference.t;
  context_before_checksum : option string;
  context_after_checksum : option string;
  legacy_context_checksum : option string;
  warnings : list string;
  errors : list string;
  unresolved_questions : list string;
  continuation_instructions : list string;
  skill_pins : list PinReference.t;
  template_pins : list PinReference.t;
  generated_at : option string;
  experimental_declaration : string;
  compatibility_assumptions : list string;
  unavailable_fields : list string;
  evidence_limitations : list string;
  chain_state : ChainState.t
}.

#[export] Instance eq_dec : EqDecision t.
Proof. solve_decision. Defined.

(** [replace(self, chain_state=...)] *)
Definition with_chain_state (r : t) (s : ChainState.t) : t :=
  mk (normalized_schema_version r) (source_schema_version r) (normalizer_version r) (report_id r)
    (report_checksum r) (report_content_checksum r) (original_report_checksum r) (package_id r)
    (package_schema_version r) (package_checksum r) (project_id r) (workflow_id r) (workflow_version r)
    (workflow_checksum r) (execution_round r) (harness_type r) (harness_version r) (harness_session_id r)
    (previous_report_id r) (previous_report_checksum r) (started_at r) (completed_at r) (status r)
    (completed_work r) (current_state r) (next_recommended_action r) (continuation_reason r)
    (output_artifacts r) (context_before_checksum r) (context_after_checksum r) (legacy_context_checksum r)
    (warnings r) (errors r) (unresolved_questions r) (continuation_instructions r) (skill_pins r)
    (template_pins r) (generated_at r) (experimental_declaration r) (compatibility_assumptions r)
    (unavailable_fields r) (evidence_limitations r) s.
End NormalizedProgressRecord.
#[export] Existing Instance NormalizedProgressRecord.eq_dec.
Abbreviation record := NormalizedProgressRecord.t.

Module UploadedProgressReport.
Record t := mk {
  receipt_id : string;
  project_id : string;
  workflow_instance_id : string;
  package_id : string;
  package_checksum : string;
  report_id : string;
  report_checksum : string;
  report_schema_version : string;
  original_report_checksum : string;
  original_report_size : Z;
  original_report_media_type : string;
  original_storage_key : string;
  envelope_checksum : string;
  uploaded_at : string;
  received_at : string;
  uploader_type : string;
  client_version : string;
  source_path_hint : string;
  validation_status : ValidationStatus.t;
  validation_errors : list string;
  validation_warnings : list string;
  chain_state : ChainState.t;
  accepted_for_projection : bool;
  normalized_record : option record
}.
#[export] Instance eq_dec : EqDecision t.
Proof. solve_decision. Defined.
End UploadedProgressReport.
#[export] Existing Instance UploadedProgressReport.eq_dec.
Abbreviation upload := UploadedProgressReport.t.

(** The record of a report that counts. *)
Definition accepted_record (u : upload) : option record :=
  if UploadedProgressReport.accepted_for_projection u then UploadedProgressReport.normalized_record u else None.

Module ProgressUploadReceipt.
Record t := mk {
  receipt_id : string;
  project_id : string;
  workflow_instance_id : string;
  package_id : string;
  report_id : string;
  report_checksum : string;
  original_report_checksum : string;
  validation_status : ValidationStatus.t;
  chain_state : ChainState.t;
  accepted_for_projection : bool;
  idempotent_replay : bool;
  uploaded_at : string;
  received_at : string;
  warning_count : Z;
  error_count : Z;
  receipt_checksum : string
}.

(** [to_dict], without the two entries [with_computed_checksum] removes. *)
Definition checksum_payload (r : t) : mapping :=
  [("receipt_id", VStr (receipt_id r)); ("project_id", VStr (project_id r));
   ("workflow_instance_id", VStr (workflow_instance_id r)); ("package_id", VStr (package_id r));
   ("report_id", VStr (report_id r)); ("report_checksum", VStr (report_checksum r));
   ("original_report_checksum", VStr (original_report_checksum r));
   ("validation_status", VStr (ValidationStatus.value (validation_status r)));
   ("chain_state", VStr (ChainState.value (chain_state r)));
   ("accepted_for_projection", VBool (accepted_for_projection r));
   ("uploaded_at", VStr (uploaded_at r)); ("received_at", VStr (received_at r));
   ("warning_count", VInt (warning_count r)); ("error_count", VInt (error_count r))].

Definition with_checksum (r : t) (c : string) : t :=
  mk (receipt_id r) (project_id r) (workflow_instance_id r) (package_id r) (report_id r)
    (report_checksum r) (original_report_checksum r) (validation_status r) (chain_state r)
    (accepted_for_projection r) (idempotent_replay r) (uploaded_at r) (received_at r)
    (warning_count r) (error_count r) c.

Definition post_init (r : t) : res t :=
  _ ← fail_if ((warning_count r <? 0) || (error_count r <? 0)) (Exn PyValueError "receipt counts must be non-negative");
  _ ← require_sha256 (receipt_checksum r) "receipt_checksum";
  Ok r.

Definition with_computed_checksum (r : t) : res t :=
  checksum ← canonical_hash (VDict false (checksum_payload r));
  post_init (with_checksum r checksum).

Definition verify_checksum (r : t) : res bool :=
  computed ← with_computed_checksum r;
  Ok (String.eqb (receipt_checksum r) (receipt_checksum computed)).
End ProgressUploadReceipt.

Module ProjectProgressProjection.
Record t := mk {
  schema_version : string;
  project_id : string;
  package_id : string;
  package_schema_version : option string;
  package_checksum : string;
  workflow_id : string;
  workflow_version : string;
  latest_accepted_report_id : string;
  latest_accepted_report_checksum : string;
  latest_execution_round : Z;
  latest_status : ProgressStatus.t;
  completed_work_summary : list string;
  current_state_summary : string;
  next_recommended_action : string;
  output_artifacts : list OutputArtifactReference.t;
  warning_count : Z;
  error_count : Z;
  unresolved_question_count : Z;
  harness_type : string;
  latest_local_execution_timestamp : string;
  latest_upload_timestamp : string;
  chain_state : ChainState.t;
  legacy_warning_state : bool;
  projection_checksum : string
}.

Definition payload (p : t) (checksum : value) : mapping :=
  [("schema_version", VStr (schema_version p)); ("project_id", VStr (project_id p));
   ("package_id", VStr (package_id p)); ("package_schema_version", optional_text (package_schema_version p));
   ("package_checksum", VStr (package_checksum p)); ("workflow_id", VStr (workflow_id p));
   ("workflow_version", VStr (workflow_version p));
   ("latest_accepted_report_id", VStr (latest_accepted_report_id p));
   ("latest_accepted_report_checksum", VStr (latest_accepted_report_checksum p));
   ("latest_execution_round", VInt (latest_execution_round p));
   ("latest_status", VStr (ProgressStatus.value (latest_status p)));
   ("completed_work_summary", VList (VStr <$> completed_work_summary p));
   ("current_state_summary", VStr (current_state_summary p));
   ("next_recommended_action", VStr (next_recommended_action p));
   ("output_artifacts", VList (OutputArtifactReference.to_dict <$> output_artifacts p));
   ("warning_count", VInt (warning_count p)); ("error_count", VInt (error_count p));
   ("unresolved_question_count", VInt (unresolved_question_count p));
   ("harness_type", VStr (harness_type p));
   ("latest_local_execution_timestamp", VStr (latest_local_execution_timestamp p));
   ("latest_upload_timestamp", VStr (latest_upload_timestamp p));
   ("chain_state", VStr (ChainState.value (chain_state p)));
   ("legacy_warning_state", VBool (legacy_warning_state p)); ("projection_checksum", checksum)].

Definition with_checksum (p : t) (c : string) : t :=
  mk (schema_version p) (project_id p) (package_id p) (package_schema_version p) (package_checksum p)
    (workflow_id p) (workflow_version p) (latest_accepted_report_id p) (latest_accepted_report_checksum p)
    (latest_execution_round p) (latest_status p) (completed_work_summary p) (current_state_summary p)
    (next_recommended_action p) (output_artifacts p) (warning_count p) (error_count p)
    (unresolved_question_count p) (harness_type p) (latest_local_execution_timestamp p)
    (latest_upload_timestamp p) (chain_state p) (legacy_warning_state p) c.

Definition post_init (p : t) : res t :=
  _ ← fail_if (negb (String.eqb (schema_version p) PROJECTION_SCHEMA_VERSION))
        (Exn PyValueError "invalid projection schema");
  _ ← require_sha256 (projection_checksum p) "projection_checksum";
  Ok p.

Definition with_computed_checksum (p : t) : res t :=
  checksum ← canonical_hash (VDict false (payload p VNone));
  post_init (with_checksum p checksum).

Definition verify_checksum (p : t) : res bool :=
  computed ← with_computed_checksum p;
  Ok (String.eqb (projection_checksum p) (projection_checksum computed)).
End ProjectProgressProjection.

(** ** [chain.py] *)

Import NormalizedProgressRecord.

Record ChainValidation := Chain {
  cv_state : ChainState.t;
  cv_accepted : bool;
  cv_warnings : list string;
  cv_errors : list string
}.

Definition refused (state : ChainState.t) (error : string) : ChainValidation := Chain state false [] [error].
Definition accepted_with (state : ChainState.t) (warnings : list string) : ChainValidation := Chain state true warnings [].

(** The same project, package and workflow. *)
Definition same_scope (a b : record) : bool :=
  String.eqb (project_id a) (project_id b) && String.eqb (package_id a) (package_id b)
  && String.eqb (package_checksum a) (package_checksum b) && String.eqb (workflow_id a) (workflow_id b)
  && String.eqb (workflow_version a) (workflow_version b).

Definition is_status (s : ProgressStatus.t) (r : record) : bool := bool_decide (status r = s).
Definition is_legacy (r : record) : bool := String.eqb (source_schema_version r) PROGRESS_REPORT_SCHEMA_V1.

(** A checkpoint no accepted report continues. *)
Definition stale_checkpoint (history : list record) (r : record) : bool :=
  is_status ProgressStatus.IN_PROGRESS r
  && negb (existsb (fun o => bool_decide (previous_report_id o = Some (report_id r))) history).

(** The accepted reports of the candidate's scope and round. *)
Definition round_of (candidate : record) (history : list record) : list record :=
  List.filter (fun r => same_scope r candidate && (execution_round r =? execution_round candidate)) history.

(** Another report already stands for the round. *)
Definition round_taken (candidate : record) (same_round : list record) : bool :=
  negb (bool_decide (same_round = []))
  && forallb (fun r => negb (String.eqb (report_id r) (report_id candidate))) same_round.

Definition may_supersede (candidate : record) (history same_round : list record) : bool :=
  is_status ProgressStatus.COMPLETED candidate && forallb (stale_checkpoint history) same_round.

Definition superseding_warning (superseding : bool) : list string :=
  if superseding
  then ["terminal report supersedes an earlier IN_PROGRESS checkpoint for this execution round"] else [].

Definition first_round (candidate : record) (superseding : bool) : ChainValidation :=
  match previous_report_id candidate with
  | Some _ => refused ChainState.IDENTITY_CONFLICT "round 1 must not reference a previous report"
  | None =>
      if is_legacy candidate
      then accepted_with ChainState.LEGACY_CHAIN_WITH_WARNINGS
             ["legacy round accepted without context-transition verification"]
      else accepted_with ChainState.VALID_CHAIN (superseding_warning superseding)
  end.

(** Both are given and differ. *)
Definition discontinuous (before after : option string) : bool :=
  match before, after with Some b, Some a => negb (String.eqb b a) | _, _ => false end.

Definition later_round (candidate predecessor : record) (superseding : bool) : ChainValidation :=
  if negb (same_scope predecessor candidate)
  then refused ChainState.IDENTITY_CONFLICT "previous report belongs to another project/package/workflow"
  else if match previous_report_checksum candidate with
          | Some c => negb (String.eqb c (report_checksum predecessor))
          | None => false
          end
  then refused ChainState.IDENTITY_CONFLICT "previous report checksum does not resolve"
  else if negb (execution_round candidate =? execution_round predecessor + 1)
  then refused ChainState.INCOMPLETE_CHAIN "execution round is not monotonic from its predecessor"
  else if discontinuous (context_after_checksum predecessor) (context_before_checksum candidate)
  then refused ChainState.CONTINUITY_CONFLICT "context transition checksum does not continue the predecessor"
  else if is_status ProgressStatus.COMPLETED predecessor && is_blank (default "" (continuation_reason candidate))
  then refused ChainState.CONTINUITY_CONFLICT "a completed report requires a new-request continuation reason"
  else if is_legacy candidate || is_legacy predecessor
  then accepted_with ChainState.LEGACY_CHAIN_WITH_WARNINGS ["chain includes legacy context semantics"]
  else accepted_with ChainState.VALID_CHAIN (superseding_warning superseding).

(** The first accepted report of the history with that identifier. *)
Definition find_accepted (id : string) (history : list upload) : option record :=
  match List.find (fun u => String.eqb (UploadedProgressReport.report_id u) id
                            && bool_decide (accepted_record u <> None)) history with
  | Some u => accepted_record u
  | None => None
  end.

Definition follow (candidate : record) (history : list upload) (superseding : bool) : ChainValidation :=
  if execution_round candidate =? 1 then first_round candidate superseding
  else match previous_report_id candidate with
       | None => refused ChainState.INCOMPLETE_CHAIN "later round does not identify its predecessor"
       | Some id =>
           match find_accepted id history with
           | None => refused ChainState.INCOMPLETE_CHAIN "previous report is not present in accepted history"
           | Some predecessor => later_round candidate predecessor superseding
           end
       end.

(** [ProgressReportChainValidator.validate] *)
Definition validate_chain (candidate : record) (history : list upload) : ChainValidation :=
  let normalized_history := omap accepted_record history in
  let same_round := round_of candidate normalized_history in
  let superseding := round_taken candidate same_round in
  if superseding && negb (may_supersede candidate normalized_history same_round)
  then refused ChainState.BRANCHED_HISTORY "another accepted report already occupies this execution round"
  else follow candidate history superseding.

(** ** [projection.py] *)

(** [html.escape] *)
Definition escape_char (c : ascii) : string :=
  if Ascii.eqb c "&" then "&amp;"
  else if Ascii.eqb c "<" then "&lt;"
  else if Ascii.eqb c ">" then "&gt;"
  else if Ascii.eqb c double_quote then "&quot;"
  else if Ascii.eqb c "'" then "&#x27;"
  else String c "".
Definition html_escape : string -> string := concat_map escape_char.

(** The sort key of an accepted report: round, completion, the terminal one
    last, identifier. *)
Definition rank : Type := Z * string * Z * string.
Definition rank_of (u : upload) (r : record) : rank :=
  (execution_round r, completed_at r, (if is_status ProgressStatus.COMPLETED r then 1 else 0),
   UploadedProgressReport.report_id u).
Definition rank_compare : rank -> rank -> comparison :=
  pair_compare (pair_compare (pair_compare Z.compare String.compare) Z.compare) String.compare.

Definition with_record (u : upload) : option (upload * record) := pair u <$> accepted_record u.

Definition ranked (history : list upload) : list (upload * record) :=
  sort_by (at_most rank_compare) (fun x => rank_of x.1 x.2) (omap with_record history).

(** [seen]: the items in the order they first appear. *)
Fixpoint unique_items (seen : list string) (l : list string) : list string :=
  match l with
  | [] => []
  | x :: l' => if bool_decide (x ∈ seen) then unique_items seen l' else x :: unique_items (x :: seen) l'
  end.

Definition project_onto (accepted : list (upload * record)) (latest_upload : upload) (latest : record) :
    res ProjectProgressProjection.t :=
  p ← ProjectProgressProjection.post_init
    (ProjectProgressProjection.mk PROJECTION_SCHEMA_VERSION (project_id latest) (package_id latest)
       (package_schema_version latest) (package_checksum latest) (workflow_id latest) (workflow_version latest)
       (report_id latest) (report_checksum latest) (execution_round latest) (status latest)
       (html_escape <$> unique_items [] (List.concat ((fun a => completed_work a.2) <$> accepted)))
       (html_escape (current_state latest)) (html_escape (next_recommended_action latest))
       (output_artifacts latest) (Z.of_nat (List.length (warnings latest)))
       (Z.of_nat (List.length (errors latest))) (Z.of_nat (List.length (unresolved_questions latest)))
       (harness_type latest) (completed_at latest) (UploadedProgressReport.received_at latest_upload)
       (chain_state latest) (existsb (fun a => is_legacy a.2) accepted) ZERO_HASH);
  ProjectProgressProjection.with_computed_checksum p.

(** [build_projection] *)
Definition build_projection (history : list upload) : res (option ProjectProgressProjection.t) :=
  let accepted := ranked history in
  match last accepted with
  | None => Ok None
  | Some (latest_upload, latest) => p ← project_onto accepted latest_upload latest; Ok (Some p)
  end.
