(* ===== verification/ProgressService.v ===== *)
(** [progress_reports/service.py]: reports are received, kept and projected.

    The service works on the contents it stores, on the tables of progress
    reports and projections, and on the other tables of the unit of work, which
    it reaches through the artifact references and the identity resolver. What
    the normalizer makes of the bytes of a report is a parameter: nothing below
    depends on it. *)
From S2P Require Import Prelude Errors Text Float Value Json Sha256 Lifecycle Lexical Calendar Canonical Dict Tables Repositories Order Contents Progress.
From Stdlib Require Import Ascii String.
Local Open Scope string_scope.
Local Open Scope list_scope.
Local Open Scope Z_scope.

(** ** [ProgressReportUploadEnvelope] *)

Module Envelope.
Record t := mk {
  upload_schema_version : string;
  project_id : string;
  package_id : string;
  package_checksum : string;
  report_schema_version : string;
  report_id : string;
  report_checksum : string;
  original_report_media_type : string;
  original_report_base64 : string;
  original_report_checksum : string;
  original_report_size : Z;
  uploaded_at : string;
  uploader_type : string;
  client_version : string;
  source_path_hint : string;
  context_snapshot_metadata : option mapping;
  envelope_checksum : string
}.

(** [original_report_bytes] *)
Definition original_report_bytes (e : t) : res string :=
  match b64decode (original_report_base64 e) with
  | None => Err (Exn PyValueError "original report is not valid base64")
  | Some content =>
      _ ← fail_if (negb (Z.of_nat (String.length content) =? original_report_size e))
            (Exn PyValueError "original report size mismatch");
      _ ← fail_if (negb (String.eqb (sha256_bytes content) (original_report_checksum e)))
            (Exn PyValueError "original report byte checksum mismatch");
      Ok content
  end.
End Envelope.

(** ** The tables *)

Definition projection_key : Type := string * string * string * string.

Record progress_database := ProgressDatabase {
  db_reports : dict string upload;
  db_projections : dict projection_key ProjectProgressProjection.t
}.

Record progress_unit := ProgressUnit {
  u_reports : Plain.t string upload;
  u_projections : Plain.t projection_key ProjectProgressProjection.t
}.

Definition open_unit (db : progress_database) : progress_unit :=
  ProgressUnit (Plain.refresh (db_reports db)) (Plain.refresh (db_projections db)).

(** *** [InMemoryProgressReportRepository] *)

Module ReportRepository.
Definition rows (u : progress_unit) : list upload := Dict.values (Plain.records (u_reports u)).

Definition get_receipt (id : string) (u : progress_unit) : option upload := Dict.get id (Plain.records (u_reports u)).

Definition append (r : upload) : M exn progress_unit unit :=
  u ← get_state;
  match get_receipt (UploadedProgressReport.receipt_id r) u with
  | Some existing =>
      raise_if (negb (bool_decide (existing = r)))
        (Exn DuplicateEntityError ("Progress receipt " +:+ UploadedProgressReport.receipt_id r +:+ " has conflicting content"))
  | None => put_state (ProgressUnit (Plain.put (UploadedProgressReport.receipt_id r) r (u_reports u)) (u_projections u))
  end.

(** [key=lambda item: (item.received_at, item.receipt_id)] *)
Definition received (u : upload) : string * string :=
  (UploadedProgressReport.received_at u, UploadedProgressReport.receipt_id u).
Definition by_received : list upload -> list upload := sort_by (at_most (pair_compare String.compare String.compare)) received.

Definition given (o : option string) (s : string) : bool :=
  match o with Some x => String.eqb s x | None => true end.

Definition in_project (project : string) (package instance : option string) (r : upload) : bool :=
  String.eqb (UploadedProgressReport.project_id r) project
  && given package (UploadedProgressReport.package_id r)
  && given instance (UploadedProgressReport.workflow_instance_id r).

Definition list_for_project (project : string) (package instance : option string) (u : progress_unit) : list upload :=
  by_received (List.filter (in_project project package instance) (rows u)).

Definition list_by_report_id (id : string) (u : progress_unit) : list upload :=
  by_received (List.filter (fun r => String.eqb (UploadedProgressReport.report_id r) id) (rows u)).

Definition list_by_original_checksum (checksum : string) (u : progress_unit) : list upload :=
  by_received (List.filter (fun r => String.eqb (UploadedProgressReport.original_report_checksum r) checksum) (rows u)).

(** The report of the envelope's identity: [find_exact] without the instance. *)
Definition exactly (e : Envelope.t) (r : upload) : bool :=
  String.eqb (UploadedProgressReport.project_id r) (Envelope.project_id e)
  && String.eqb (UploadedProgressReport.package_id r) (Envelope.package_id e)
  && String.eqb (UploadedProgressReport.package_checksum r) (Envelope.package_checksum e)
  && String.eqb (UploadedProgressReport.report_checksum r) (Envelope.report_checksum e)
  && String.eqb (UploadedProgressReport.original_report_checksum r) (Envelope.original_report_checksum e).

Definition find_exact (e : Envelope.t) (instance : string) (u : progress_unit) : option upload :=
  List.find (fun r => exactly e r && String.eqb (UploadedProgressReport.workflow_instance_id r) instance
                      && String.eqb (UploadedProgressReport.report_id r) (Envelope.report_id e)) (rows u).

Definition key_of (p : ProjectProgressProjection.t) : projection_key :=
  (ProjectProgressProjection.project_id p, ProjectProgressProjection.package_id p,
   ProjectProgressProjection.workflow_id p, ProjectProgressProjection.workflow_version p).

Definition save_projection (p : ProjectProgressProjection.t) : M exn progress_unit unit :=
  modify (fun u => ProgressUnit (u_reports u) (Plain.put (key_of p) p (u_projections u))).

Definition get_projection (k : projection_key) (u : progress_unit) : option ProjectProgressProjection.t :=
  Dict.get k (Plain.records (u_projections u)).
End ReportRepository.
Import ReportRepository.

(** ** [ProgressReportService] *)

(** [_timestamp] *)
Definition timestamp (at_ : datetime) : res string :=
  _ ← fail_if (negb (is_aware at_)) (Exn PyValueError "cloud clock must be timezone-aware");
  Ok (isoformat (Datetime (instant at_) false) +:+ "Z").

(** [text.split(":", 1)[1]] *)
Definition after_colon (s : string) : res string :=
  match cut_chars ":" (to_chars s) with
  | (_, Some rest) => Ok (of_chars rest)
  | (_, None) => Err (Exn PyIndexError "list index out of range")
  end.

(** [_storage_key] *)
Definition storage_key (e : Envelope.t) : res string :=
  digest ← after_colon (Envelope.original_report_checksum e);
  Ok ("progress-reports/" +:+ Envelope.project_id e +:+ "/" +:+ Envelope.package_id e +:+ "/" +:+ digest +:+ ".json").

(** [_receipt_id] *)
Definition receipt_name (project package package_checksum report report_checksum original_checksum : string) : res string :=
  hash ← canonical_hash (VDict false
    [("project_id", VStr project); ("package_id", VStr package); ("package_checksum", VStr package_checksum);
     ("report_id", VStr report); ("report_checksum", VStr report_checksum);
     ("original_report_checksum", VStr original_checksum)]);
  digest ← after_colon hash;
  Ok ("progress-receipt-" +:+ digest).

Definition receipt_id_of (e : Envelope.t) : res string :=
  receipt_name (Envelope.project_id e) (Envelope.package_id e) (Envelope.package_checksum e) (Envelope.report_id e)
    (Envelope.report_checksum e) (Envelope.original_report_checksum e).

(** [_receipt] *)
Definition receipt (r : upload) (idempotent : bool) : res ProgressUploadReceipt.t :=
  x ← ProgressUploadReceipt.post_init
    (ProgressUploadReceipt.mk (UploadedProgressReport.receipt_id r) (UploadedProgressReport.project_id r)
       (UploadedProgressReport.workflow_instance_id r) (UploadedProgressReport.package_id r)
       (UploadedProgressReport.report_id r) (UploadedProgressReport.report_checksum r)
       (UploadedProgressReport.original_report_checksum r) (UploadedProgressReport.validation_status r)
       (UploadedProgressReport.chain_state r) (UploadedProgressReport.accepted_for_projection r) idempotent
       (UploadedProgressReport.uploaded_at r) (UploadedProgressReport.received_at r)
       (Z.of_nat (List.length (UploadedProgressReport.validation_warnings r)))
       (Z.of_nat (List.length (UploadedProgressReport.validation_errors r))) ZERO_HASH);
  ProgressUploadReceipt.with_computed_checksum x.

(** The conflicts of the envelope with accepted reports of the same identifier
    and of the same bytes. *)
Definition when (b : bool) (message : string) : list string := if b then [message] else [].
Definition differ (a b : string) : bool := negb (String.eqb a b).

Definition identifier_conflicts (e : Envelope.t) (r : upload) : list string :=
  if UploadedProgressReport.accepted_for_projection r then
    (if differ (UploadedProgressReport.report_checksum r) (Envelope.report_checksum e)
     then ["report ID already exists with another checksum"]
     else when (differ (UploadedProgressReport.original_report_checksum r) (Envelope.original_report_checksum e))
            "report ID already exists with different original bytes")
    ++ when (differ (UploadedProgressReport.project_id r) (Envelope.project_id e)
             || differ (UploadedProgressReport.package_id r) (Envelope.package_id e))
         "report ID is already bound to another identity"
  else [].

Definition content_conflicts (e : Envelope.t) (r : upload) : list string :=
  when (UploadedProgressReport.accepted_for_projection r
        && (differ (UploadedProgressReport.project_id r) (Envelope.project_id e)
            || differ (UploadedProgressReport.package_id r) (Envelope.package_id e)
            || differ (UploadedProgressReport.package_checksum r) (Envelope.package_checksum e)))
    "original report checksum is already bound to an incompatible identity".

Definition stored_conflicts (e : Envelope.t) (u : progress_unit) : list string :=
  List.concat (identifier_conflicts e <$> list_by_report_id (Envelope.report_id e) u)
  ++ List.concat (content_conflicts e <$> list_by_original_checksum (Envelope.original_report_checksum e) u).

Definition record_conflicts (e : Envelope.t) (n : record) : list string :=
  when (differ (NormalizedProgressRecord.project_id n) (Envelope.project_id e)) "envelope project does not match report"
  ++ when (differ (NormalizedProgressRecord.package_id n) (Envelope.package_id e)) "envelope package does not match report"
  ++ when (differ (NormalizedProgressRecord.package_checksum n) (Envelope.package_checksum e))
       "envelope package checksum does not match report"
  ++ when (differ (NormalizedProgressRecord.report_id n) (Envelope.report_id e)) "envelope report ID does not match report"
  ++ when (differ (NormalizedProgressRecord.report_checksum n) (Envelope.report_checksum e))
       "envelope report checksum does not match report".

(** What the examination of a report found. *)
Record findings := Findings {
  f_record : option record;
  f_identity : list string;
  f_errors : list string;
  f_warnings : list string
}.

(** [tuple(dict.fromkeys(values))] *)
Definition deduplicated (l : list string) : list string := unique_items [] l.

(** The service of artifact references, on the tables [W] it works on; [D] is
    what it calls a declaration. *)
Record ArtifactReferences (W D : Type) := {
  derive_reviewed_progress_declarations : string -> record -> W -> res (list D);
  promote_progress_artifacts : upload -> record -> list D -> M exn W unit;
  assert_progress_replay : string -> list D -> W -> res unit
}.
Arguments derive_reviewed_progress_declarations {W D}.
Arguments promote_progress_artifacts {W D}.
Arguments assert_progress_replay {W D}.

Section service.
Context {C : Type} `{ContentStorage C} {W D : Type}.
Context (normalize : string -> res record).
Context (resolve_workflow_identity : W -> Envelope.t -> option record -> option string -> res string).
Context (artifact_references : option (ArtifactReferences W D)).
Context (commit_others : M exn W unit).

Record cloud := Cloud {
  cl_contents : C;
  cl_others : W;
  cl_database : progress_database;
  cl_unit : progress_unit
}.

Definition on_contents {A} : M exn C A -> M exn cloud A :=
  zoom cl_contents (fun c s => Cloud c (cl_others s) (cl_database s) (cl_unit s)).
Definition on_others {A} : M exn W A -> M exn cloud A :=
  zoom cl_others (fun w s => Cloud (cl_contents s) w (cl_database s) (cl_unit s)).
Definition on_reports {A} : M exn progress_unit A -> M exn cloud A :=
  zoom cl_unit (fun u s => Cloud (cl_contents s) (cl_others s) (cl_database s) u).

(** *** The commit, as far as these tables go *)

Definition check_reports (s : cloud) : res unit :=
  each_ok (fun id =>
    candidate ← Dict.item id (Plain.records (u_reports (cl_unit s)));
    fail_if (match Dict.get id (db_reports (cl_database s)) with
             | Some current => negb (bool_decide (current = candidate))
             | None => false
             end)
      (Exn DuplicateEntityError ("Progress receipt " +:+ id +:+ " was concurrently reused")))
    (Plain.dirty (u_reports (cl_unit s))).

Definition publish_reports (u : progress_unit) : M exn progress_database unit :=
  publish_to db_reports (fun t db => ProgressDatabase t (db_projections db))
    (Plain.records (u_reports u)) (Plain.dirty (u_reports u)) ;;
  publish_to db_projections (fun t db => ProgressDatabase (db_reports db) t)
    (Plain.records (u_projections u)) (Plain.dirty (u_projections u)).

Definition commit : M exn cloud unit :=
  s ← get_state;
  lift_result (check_reports s) ;;
  on_others commit_others ;;
  zoom cl_database (fun db s => Cloud (cl_contents s) (cl_others s) db (cl_unit s)) (publish_reports (cl_unit s)) ;;
  modify (fun s => Cloud (cl_contents s) (cl_others s) (cl_database s) (open_unit (cl_database s))).

(** *** A replay *)

(** [_assert_artifact_replay] *)
Definition assert_artifact_replay (id : string) (declarations : list D) : M exn cloud unit :=
  match artifact_references with
  | None => raise_if (negb (Nat.eqb (List.length declarations) 0))
              (Exn PyValueError "canonical Artifact declaration service is unavailable")
  | Some a => s ← get_state; lift_result (assert_progress_replay a id declarations (cl_others s))
  end.

(** The record a declaration may be derived from: what the bytes normalize to,
    when none is declared and there is a service to derive it. *)
Definition derivation_record (content : string) (declarations : list D) :
    res (option (ArtifactReferences W D * record)) :=
  match artifact_references, declarations with
  | Some a, [] =>
      match normalize content with
      | Ok n => Ok (Some (a, n))
      | Err e => if is_instance (exn_kind e) PyValueError then Ok None else Err e
      end
  | _, _ => Ok None
  end.

Definition promote_derived (r : upload) (derivation : ArtifactReferences W D * record) : M exn cloud (list D) :=
  let '(a, n) := derivation in
  s ← get_state;
  derived ← lift_result (derive_reviewed_progress_declarations a (UploadedProgressReport.workflow_instance_id r) n
                           (cl_others s));
  match derived with
  | [] => mret []
  | _ => on_others (promote_progress_artifacts a r n derived) ;; commit ;; mret derived
  end.

Definition answer_replay (r : upload) (declarations : list D)
    (derivation : option (ArtifactReferences W D * record)) : M exn cloud ProgressUploadReceipt.t :=
  known ← match derivation with
          | Some d => promote_derived r d
          | None => mret declarations
          end;
  assert_artifact_replay (UploadedProgressReport.receipt_id r) known ;;
  lift_result (receipt r true).

(** *** A new report *)

(** [try: normalize; resolve again] with its handlers. *)
Definition examination_failed (e : exn) (n : option record) (identity : list string) : res findings :=
  if is_instance (exn_kind e) UnsafeProgressReportError then Err e
  else if is_instance (exn_kind e) PyValueError then Ok (Findings n identity [exn_msg e] [])
  else Err e.

Definition examine (w : W) (e : Envelope.t) (content : string) (instance : string) (requested : option string)
    (identity : list string) : res findings :=
  match normalize content with
  | Err x => examination_failed x None identity
  | Ok n =>
      match verified ← resolve_workflow_identity w e (Some n) requested;
            fail_if (differ verified instance) (Exn PyValueError "Progress Workflow Instance resolution changed") with
      | Err x => examination_failed x (Some n) identity
      | Ok _ =>
          Ok (Findings (Some n) (identity ++ record_conflicts e n)
                (when (differ (NormalizedProgressRecord.source_schema_version n) (Envelope.report_schema_version e))
                   "envelope report schema does not match report")
                (NormalizedProgressRecord.compatibility_assumptions n ++ NormalizedProgressRecord.evidence_limitations n))
      end
  end.

(** The chain rule applied to what was found; [None] stands for a report that
    was refused before. *)
Definition chain_of (f : findings) (history : list upload) : option ChainValidation :=
  match f_record f, f_errors f, f_identity f with
  | Some n, [], [] => Some (validate_chain n history)
  | _, _, _ => None
  end.

(** The uploaded report, from the envelope and the findings. *)
Definition uploaded_report (e : Envelope.t) (id instance key received_at : string) (f : findings)
    (chain : option ChainValidation) : upload :=
  let state := match chain with
               | Some c => cv_state c
               | None => match f_identity f with [] => ChainState.INCOMPLETE_CHAIN | _ => ChainState.IDENTITY_CONFLICT end
               end in
  let errors := f_errors f ++ match chain with Some c => cv_errors c | None => f_identity f end in
  let warnings := f_warnings f ++ match chain with Some c => cv_warnings c | None => [] end in
  let accepted := match chain with Some c => cv_accepted c | None => false end
                  && (List.length errors =? 0)%nat in
  UploadedProgressReport.mk id (Envelope.project_id e) instance (Envelope.package_id e) (Envelope.package_checksum e)
    (Envelope.report_id e) (Envelope.report_checksum e) (Envelope.report_schema_version e)
    (Envelope.original_report_checksum e) (Envelope.original_report_size e) (Envelope.original_report_media_type e)
    key (Envelope.envelope_checksum e) (Envelope.uploaded_at e) received_at (Envelope.uploader_type e)
    (Envelope.client_version e) (Envelope.source_path_hint e)
    (if accepted then ValidationStatus.ACCEPTED else ValidationStatus.REJECTED)
    (deduplicated errors) (deduplicated warnings) state accepted
    ((fun n => NormalizedProgressRecord.with_chain_state n state) <$> f_record f).

(** The artifacts of an accepted report, declared or derived. *)
Definition promote (r : upload) (declarations : list D) : M exn cloud unit :=
  s ← get_state;
  declared ← match declarations, accepted_record r, artifact_references with
             | [], Some n, Some a =>
                 lift_result (derive_reviewed_progress_declarations a (UploadedProgressReport.workflow_instance_id r) n
                                (cl_others s))
             | _, _, _ => mret declarations
             end;
  match declared with
  | [] => mret tt
  | _ =>
      match artifact_references, UploadedProgressReport.normalized_record r with
      | Some a, Some n => on_others (promote_progress_artifacts a r n declared)
      | _, _ => raise (Exn PyValueError "canonical Artifact declaration service is unavailable")
      end
  end.

Definition same_workflow (n : record) (r : upload) : bool :=
  match UploadedProgressReport.normalized_record r with
  | Some m => String.eqb (NormalizedProgressRecord.workflow_id m) (NormalizedProgressRecord.workflow_id n)
              && String.eqb (NormalizedProgressRecord.workflow_version m) (NormalizedProgressRecord.workflow_version n)
  | None => false
  end.

(** The projection of the workflow the report belongs to, rebuilt. *)
Definition project_report (r : upload) : M exn cloud unit :=
  match accepted_record r with
  | Some n =>
      s ← get_state;
      p ← lift_result (build_projection (List.filter (same_workflow n)
            (list_for_project (UploadedProgressReport.project_id r) (Some (UploadedProgressReport.package_id r))
               (Some (UploadedProgressReport.workflow_instance_id r)) (cl_unit s))));
      match p with
      | Some p => on_reports (save_projection p)
      | None => mret tt
      end
  | None => mret tt
  end.

Definition receive (now : datetime) (e : Envelope.t) (content instance : string) (requested : option string)
    (declarations : list D) : M exn cloud ProgressUploadReceipt.t :=
  s ← get_state;
  f ← lift_result (examine (cl_others s) e content instance requested (stored_conflicts e (cl_unit s)));
  key ← lift_result (storage_key e);
  on_contents (write_immutable key content (Envelope.original_report_media_type e)) ;;
  received_at ← lift_result (timestamp now);
  id ← lift_result (receipt_id_of e);
  let r := uploaded_report e id instance key received_at f
             (chain_of f (list_for_project (Envelope.project_id e) None (Some instance) (cl_unit s))) in
  on_reports (append r) ;;
  promote r declarations ;;
  project_report r ;;
  commit ;;
  lift_result (receipt r false).

Definition is_accepted (r : upload) : bool := UploadedProgressReport.accepted_for_projection r.

Definition receive_new (now : datetime) (e : Envelope.t) (content : string) (requested : option string)
    (declarations : list D) (derivation : option (ArtifactReferences W D * record)) :
    M exn cloud ProgressUploadReceipt.t :=
  s ← get_state;
  instance ← lift_result (resolve_workflow_identity (cl_others s) e None requested);
  match List.filter is_accepted (option_list (find_exact e instance (cl_unit s))) with
  | r :: _ => answer_replay r declarations derivation
  | [] => receive now e content instance requested declarations
  end.

(** [upload]; [now] is what the clock answers. *)
Definition upload_report (now : datetime) (e : Envelope.t) (requested : option string) (declarations : list D) :
    M exn cloud ProgressUploadReceipt.t :=
  content ← lift_result (Envelope.original_report_bytes e);
  derivation ← lift_result (derivation_record content declarations);
  s ← get_state;
  match List.filter is_accepted (List.filter (exactly e) (list_by_report_id (Envelope.report_id e) (cl_unit s))) with
  | [] => receive_new now e content requested declarations derivation
  | [r] => answer_replay r declarations derivation
  | _ => raise (Exn PyValueError "immutable Progress Report identity is ambiguous")
  end.

(** *** Reading *)

Definition report_order (r : upload) : Z * (string * string) :=
  ((if is_accepted r then 0 else 1), received r).
Definition report_order_leb : Z * (string * string) -> Z * (string * string) -> bool :=
  at_most (pair_compare Z.compare (pair_compare String.compare String.compare)).

(** [get_report] *)
Definition get_report (project id : string) (receipt_id : option string) (u : progress_unit) : option upload :=
  match receipt_id with
  | Some i =>
      match get_receipt i u with
      | Some r => if String.eqb (UploadedProgressReport.project_id r) project
                     && String.eqb (UploadedProgressReport.report_id r) id then Some r else None
      | None => None
      end
  | None => min_by report_order_leb report_order
              (List.filter (fun r => String.eqb (UploadedProgressReport.project_id r) project) (list_by_report_id id u))
  end.

(** [get_projection] *)
Definition latest_order (a : upload * record) : string * (Z * string) :=
  (UploadedProgressReport.received_at a.1,
   (NormalizedProgressRecord.execution_round a.2, UploadedProgressReport.report_id a.1)).
Definition latest_leb : string * (Z * string) -> string * (Z * string) -> bool :=
  at_most (pair_compare String.compare (pair_compare Z.compare String.compare)).

Definition same_projection (n : record) (r : upload) : bool :=
  match accepted_record r with
  | Some m => String.eqb (NormalizedProgressRecord.package_id m) (NormalizedProgressRecord.package_id n)
              && same_workflow n r
  | None => false
  end.

Definition read_projection (project : string) (package : option string) (u : progress_unit) :
    res (option ProjectProgressProjection.t) :=
  let history := list_for_project project package None u in
  match max_by latest_leb latest_order (omap with_record history) with
  | None => Ok None
  | Some (_, n) =>
      rebuilt ← build_projection (List.filter (same_projection n) history);
      match rebuilt with
      | None => Ok None
      | Some p =>
          _ ← fail_if
                (match get_projection (NormalizedProgressRecord.project_id n, NormalizedProgressRecord.package_id n,
                         NormalizedProgressRecord.workflow_id n, NormalizedProgressRecord.workflow_version n) u with
                 | Some stored => differ (ProjectProgressProjection.projection_checksum stored)
                                    (ProjectProgressProjection.projection_checksum p)
                 | None => false
                 end)
                (Exn PyValueError "stored progress projection does not match immutable history");
          Ok (Some p)
      end
  end.

(** [read_original] *)
Definition read_original (r : upload) (c : C) : res string :=
  v ← verify_content (UploadedProgressReport.original_storage_key r) (UploadedProgressReport.original_report_checksum r)
        (UploadedProgressReport.original_report_size r) c;
  _ ← fail_if (negb (vf_valid v)) (Exn PyValueError "stored original Progress Report failed integrity verification");
  read_content (UploadedProgressReport.original_storage_key r) c.
End service.
