(* ===== verification/ProgressIdentity.v ===== *)
(** [progress_reports/identity.py]: the workflow instance a package of a
    project belongs to, read from the tables of the other services. *)
From S2P Require Import Prelude Errors Text Sha256 Dict Progress ProgressService.
From Stdlib Require Import String NArith.
Local Open Scope string_scope.
Local Open Scope list_scope.

(** [project_workspaces/legacy.py] *)
Definition LITERATURE_SEARCH_WORKFLOW : string := "LITERATURE_SEARCH".

Definition LEGACY_WORKFLOW_INSTANCE_NAMESPACE : list N :=
  [133; 160; 17; 160; 136; 205; 84; 185; 166; 73; 124; 204; 158; 210; 217; 102]%N.

Definition legacy_workflow_instance_id (project_id : string) : string :=
  "wfi-" +:+ uuid5_hex LEGACY_WORKFLOW_INSTANCE_NAMESPACE
    ("legacy-workflow-instance/v1|project=" +:+ project_id +:+ "|workflow=" +:+ LITERATURE_SEARCH_WORKFLOW).

Example legacy_instance : legacy_workflow_instance_id "project-a" = "wfi-665efde558d6571bb8bfa50dd5ad0cd3".
Proof. vm_compute. reflexivity. Qed.

(** What is read of a capsule artifact, of the package of a local project and of
    a workflow instance. *)
Record capsule_artifact := CapsuleArtifact {
  ca_workflow_instance_id : string;
  ca_package_id : string;
  ca_package_checksum : string
}.

Record package_metadata := PackageMetadata {
  pm_package_id : string;
  pm_package_checksum : string
}.

Record workflow_instance := WorkflowInstance {
  wi_workflow_instance_id : string;
  wi_project_id : string;
  wi_workflow_definition_id : string;
  wi_workflow_version : string
}.

(** The repositories that are read: the registered projects, the local projects
    with their current package, the capsule artifacts of a project and the
    workflow instances. *)
Class IdentityRepositories (W : Type) := {
  project_registered : string -> W -> bool;
  local_project : string -> W -> option (option package_metadata);
  list_capsule_artifacts : string -> W -> list capsule_artifact;
  get_workflow_instance : string -> W -> option workflow_instance
}.

Definition _identity_error {A} (message : string) : res A :=
  Err (Exn (ApplicationCodedValidationError "PROGRESS_WORKFLOW_IDENTITY_MISMATCH") message).

Section resolver.
Context {W : Type} `{IdentityRepositories W}.
Implicit Types (w : W) (e : Envelope.t) (n : record).

Definition of_package e (a : capsule_artifact) : bool :=
  String.eqb (ca_package_id a) (Envelope.package_id e)
  && String.eqb (ca_package_checksum a) (Envelope.package_checksum e).

Definition exact_artifacts w e : list capsule_artifact :=
  List.filter (of_package e) (list_capsule_artifacts (Envelope.project_id e) w).

Definition legacy_matches (p : option package_metadata) e : bool :=
  match p with
  | Some p => String.eqb (pm_package_id p) (Envelope.package_id e)
              && String.eqb (pm_package_checksum p) (Envelope.package_checksum e)
  | None => false
  end.

(** The instance that is asked for, or the only one there is. *)
Definition bound_instance (artifacts : list capsule_artifact) (legacy : bool) (legacy_id : string)
    (requested : option string) : res string :=
  match requested with
  | Some i =>
      if negb (existsb (fun a => String.eqb (ca_workflow_instance_id a) i) artifacts)
         && negb (legacy && String.eqb i legacy_id)
      then _identity_error "Progress Package is not bound to the requested Workflow Instance"
      else Ok i
  | None =>
      match artifacts with
      | [a] => Ok (ca_workflow_instance_id a)
      | _ :: _ :: _ => _identity_error "Progress Package identity is ambiguous"
      | [] => if legacy then Ok legacy_id
              else _identity_error ("Progress upload requires an exact Capsule artifact or supported " +:+
                                    "legacy Package binding")
      end
  end.

(** The record says what the instance says. *)
Definition agrees e n (i : workflow_instance) : bool :=
  String.eqb (NormalizedProgressRecord.project_id n) (Envelope.project_id e)
  && String.eqb (NormalizedProgressRecord.workflow_id n) (wi_workflow_definition_id i)
  && String.eqb (NormalizedProgressRecord.workflow_version n) (wi_workflow_version i).

(** [ProgressWorkflowIdentityResolver.resolve] *)
Definition resolve w e (normalized : option record) (requested : option string) : res string :=
  match project_registered (Envelope.project_id e) w, local_project (Envelope.project_id e) w with
  | true, Some package =>
      id ← bound_instance (exact_artifacts w e) (legacy_matches package e)
             (legacy_workflow_instance_id (Envelope.project_id e)) requested;
      match get_workflow_instance id w with
      | None => _identity_error "Workflow Instance does not exist"
      | Some i =>
          _ ← (if negb (String.eqb (wi_project_id i) (Envelope.project_id e))
               then _identity_error "Workflow Instance belongs to another Project" else Ok tt);
          _ ← (if match normalized with Some n => negb (agrees e n i) | None => false end
               then _identity_error "Progress Report Workflow identity does not match the Workflow Instance" else Ok tt);
          Ok (wi_workflow_instance_id i)
      end
  | _, _ => _identity_error "Progress Project is not registered"
  end.

(** What binds a package to an instance: an artifact that was issued for it, or
    the package of a project from before there were artifacts. *)
Definition bound w e (id : string) : Prop :=
  (exists a, a ∈ list_capsule_artifacts (Envelope.project_id e) w /\ of_package e a = true /\
     ca_workflow_instance_id a = id) \/
  (id = legacy_workflow_instance_id (Envelope.project_id e) /\
   exists p, local_project (Envelope.project_id e) w = Some (Some p) /\ legacy_matches (Some p) e = true).
End resolver.
