(* ===== verification/ProgressFacts.v ===== *)
(** The chain rule and the projection of progress reports: what an accepted
    report stands on, that the projection depends on the accepted reports only,
    and that what it shows is inert text. *)
From S2P Require Import Prelude Errors Text Float Value Json Sha256 Lifecycle Lexical Calendar Canonical Dict Tables Repositories RepositoryFacts Order Contents Progress ProgressService.
From Stdlib Require Import Ascii String.
Local Open Scope string_scope.
Local Open Scope list_scope.
Local Open Scope Z_scope.
Import NormalizedProgressRecord.

(** ** The chain rule *)

(** What an accepted report says of the one it continues. *)
Record continues (previous next : record) : Prop := {
  co_scope : same_scope previous next = true;
  co_round : execution_round next = execution_round previous + 1;
  co_checksum c : previous_report_checksum next = Some c -> c = report_checksum previous;
  co_context a b : context_after_checksum previous = Some a -> context_before_checksum next = Some b -> a = b;
  co_reason : status previous = ProgressStatus.COMPLETED -> is_blank (default "" (continuation_reason next)) = false
}.

Lemma later_round_accepted candidate predecessor superseding :
  cv_accepted (later_round candidate predecessor superseding) = true -> continues predecessor candidate.
Proof.
  unfold later_round. intros H.
  destruct (same_scope predecessor candidate) eqn:Hs; [cbn [negb] in H|done].
  destruct (match previous_report_checksum candidate with Some c => _ | None => false end) eqn:Hc; [done|].
  destruct (execution_round candidate =? _) eqn:Hr; [cbn [negb] in H|done].
  destruct (discontinuous _ _) eqn:Hd; [done|]. destruct (_ && is_blank _) eqn:Hb; [done|]. clear H.
  split.
  - exact Hs.
  - by apply Z.eqb_eq.
  - intros c Hp. rewrite Hp in Hc. by apply negb_false_iff, String.eqb_eq in Hc.
  - intros a b Ha Hbb. unfold discontinuous in Hd. rewrite Ha, Hbb in Hd. by apply negb_false_iff, String.eqb_eq in Hd.
  - intros Hst. unfold is_status in Hb. by rewrite bool_decide_true in Hb.
Qed.

Lemma find_accepted_Some id history m : find_accepted id history = Some m ->
  exists u, u ∈ history /\ accepted_record u = Some m /\ UploadedProgressReport.report_id u = id.
Proof.
  unfold find_accepted. destruct (List.find _ history) as [u|] eqn:Hf; [|done]. intros Hu.
  apply List.find_some in Hf as [Hin [Hid%String.eqb_eq _]%andb_true_iff]. exists u. by rewrite list_elem_of_In.
Qed.

(** The three ways a report is accepted. *)
Definition roots (n : record) : Prop := execution_round n = 1 /\ previous_report_id n = None.
Definition follows (history : list upload) (n : record) : Prop :=
  exists u m, u ∈ history /\ accepted_record u = Some m /\
    previous_report_id n = Some (UploadedProgressReport.report_id u) /\ continues m n.

Lemma follow_accepted n history superseding : cv_accepted (follow n history superseding) = true ->
  roots n \/ follows history n.
Proof.
  unfold follow. destruct (Z.eqb_spec (execution_round n) 1) as [H1|H1].
  - unfold first_round. destruct (previous_report_id n) eqn:Hp; [done|]. intros _. by left.
  - destruct (previous_report_id n) as [id|] eqn:Hp; [|done].
    destruct (find_accepted id history) as [m|] eqn:Hf; [|done]. intros H. right.
    apply find_accepted_Some in Hf as (u & Hu & Hm & <-). exists u, m. split_and!; [done..|].
    by eapply later_round_accepted.
Qed.

(** A report of a round that others hold is the terminal one of checkpoints
    that nothing continues. *)
Definition undisputed (n : record) (history : list record) : Prop :=
  forall r, r ∈ history -> same_scope r n = true -> execution_round r = execution_round n ->
    (forall r', r' ∈ history -> report_id r' <> report_id n) ->
    status r = ProgressStatus.IN_PROGRESS /\ status n = ProgressStatus.COMPLETED /\
    forall o, o ∈ history -> previous_report_id o <> Some (report_id r).

Lemma chain_accepted n history : cv_accepted (validate_chain n history) = true ->
  (roots n \/ follows history n) /\ undisputed n (omap accepted_record history).
Proof.
  unfold validate_chain. set (h := omap accepted_record history). intros H.
  destruct (round_taken n (round_of n h) && _) eqn:Hb; [done|]. split; [by eapply follow_accepted|].
  intros r Hr Hs He Hid.
  assert (Hin : r ∈ round_of n h).
  { apply elem_List_filter. split; [done|]. rewrite Hs. by apply Z.eqb_eq. }
  assert (Ht : round_taken n (round_of n h) = true).
  { unfold round_taken. apply andb_true_iff. split.
    - apply negb_true_iff, bool_decide_eq_false. intros Hn. rewrite Hn in Hin. by apply not_elem_of_nil in Hin.
    - apply forallb_forall. intros r' Hr'. apply list_elem_of_In, elem_List_filter in Hr' as [Hr' _].
      apply negb_true_iff, String.eqb_neq. by apply Hid. }
  rewrite Ht in Hb. cbn [andb] in Hb. apply negb_false_iff in Hb. unfold may_supersede in Hb.
  apply andb_true_iff in Hb as [Hc Hall]. rewrite forallb_forall in Hall.
  specialize (Hall r (proj1 (list_elem_of_In _ _) Hin)). apply andb_true_iff in Hall as [Hp Hn].
  split; [by apply bool_decide_eq_true in Hp|]. split; [by apply bool_decide_eq_true in Hc|].
  intros o Ho Hpo. apply negb_true_iff in Hn. rewrite <- not_true_iff_false in Hn. apply Hn, existsb_exists.
  exists o. split; [by apply list_elem_of_In|]. by apply bool_decide_eq_true.
Qed.

Lemma chain_accepted_errors n history : cv_accepted (validate_chain n history) = true ->
  cv_errors (validate_chain n history) = [].
Proof.
  unfold validate_chain. case_match; [done|]. unfold follow, first_round, later_round.
  repeat case_match; done.
Qed.

(** ** Rendering *)

Definition inert_char (c : ascii) : bool :=
  negb (Ascii.eqb c "<" || Ascii.eqb c ">" || Ascii.eqb c double_quote || Ascii.eqb c "'").
Definition inert (s : string) : bool := forallb inert_char (list_ascii_of_string s).

Lemma inert_app s t : inert (s +:+ t) = inert s && inert t.
Proof.
  unfold inert. rewrite <- forallb_app. f_equal. induction s as [|c s IH]; [done|].
  change (String c s +:+ t) with (String c (s +:+ t)). cbn. by rewrite IH.
Qed.

Lemma escape_char_inert c : inert (escape_char c) = true.
Proof.
  unfold escape_char. repeat case_match; try done. unfold inert.
  cbn [list_ascii_of_string forallb]. unfold inert_char.
  by repeat match goal with H : Ascii.eqb _ _ = false |- _ => rewrite H; clear H end.
Qed.

Lemma html_escape_inert s : inert (html_escape s) = true.
Proof.
  unfold html_escape. induction s as [|c s IH]; [done|]. cbn [concat_map].
  by rewrite inert_app, escape_char_inert, IH.
Qed.

(** ** The projection *)

Lemma optional_text_finite o : all_finite (optional_text o) = true.
Proof. by destruct o. Qed.

Lemma texts_finite l : all_finite (VList (VStr <$> l)) = true.
Proof. cbn. induction l as [|x l IH]; [done|]. by rewrite fmap_cons. Qed.

Lemma artifacts_finite l : all_finite (VList (OutputArtifactReference.to_dict <$> l)) = true.
Proof.
  cbn. induction l as [|x l IH]; [done|]. rewrite fmap_cons. cbn [forallb]. rewrite IH.
  unfold OutputArtifactReference.to_dict. cbn. by destruct (OutputArtifactReference.size x).
Qed.

Lemma projection_finite p c : all_finite c = true ->
  all_finite (VDict false (ProjectProgressProjection.payload p c)) = true.
Proof.
  intros Hc. unfold ProjectProgressProjection.payload. set (works := VList (VStr <$> _)).
  set (outputs := VList (OutputArtifactReference.to_dict <$> _)). cbn [all_finite forallb snd].
  unfold works, outputs. by rewrite optional_text_finite, texts_finite, artifacts_finite, Hc.
Qed.

Lemma with_computed_checksum_defined p : ProjectProgressProjection.schema_version p = PROJECTION_SCHEMA_VERSION ->
  exists c, ProjectProgressProjection.with_computed_checksum p = Ok (ProjectProgressProjection.with_checksum p c) /\
    canonical_hash (VDict false (ProjectProgressProjection.payload p VNone)) = Ok c.
Proof.
  intros Hs. unfold ProjectProgressProjection.with_computed_checksum.
  destruct (canonical_hash_defined _ (projection_finite p VNone eq_refl)) as [c Hc]. rewrite Hc. cbn [mbind result_bind].
  exists c. split; [|done]. unfold ProjectProgressProjection.post_init.
  cbn [ProjectProgressProjection.schema_version ProjectProgressProjection.with_checksum
       ProjectProgressProjection.projection_checksum]. rewrite Hs, String.eqb_refl. cbn [negb fail_if mbind result_bind].
  unfold require_sha256. rewrite (canonical_hash_is_sha256 _ _ Hc). done.
Qed.

Lemma with_checksum_twice p c d :
  ProjectProgressProjection.with_checksum (ProjectProgressProjection.with_checksum p c) d =
  ProjectProgressProjection.with_checksum p d.
Proof. done. Qed.

Lemma zero_hash_is_sha256 : is_sha256 ZERO_HASH = true.
Proof. vm_compute. reflexivity. Qed.

(** The projection before its checksum. *)
Definition projection_of (accepted : list (upload * record)) (latest_upload : upload) (latest : record) :
    ProjectProgressProjection.t :=
  ProjectProgressProjection.mk PROJECTION_SCHEMA_VERSION (project_id latest) (package_id latest)
    (package_schema_version latest) (package_checksum latest) (workflow_id latest) (workflow_version latest)
    (report_id latest) (report_checksum latest) (execution_round latest) (status latest)
    (html_escape <$> unique_items [] (List.concat ((fun a => completed_work a.2) <$> accepted)))
    (html_escape (current_state latest)) (html_escape (next_recommended_action latest))
    (output_artifacts latest) (Z.of_nat (List.length (warnings latest)))
    (Z.of_nat (List.length (errors latest))) (Z.of_nat (List.length (unresolved_questions latest)))
    (harness_type latest) (completed_at latest) (UploadedProgressReport.received_at latest_upload)
    (chain_state latest) (existsb (fun a => is_legacy a.2) accepted) ZERO_HASH.

(** A projection is always built, with its own checksum. *)
Lemma project_onto_defined accepted u n : exists c,
  project_onto accepted u n = Ok (ProjectProgressProjection.with_checksum (projection_of accepted u n) c) /\
  canonical_hash (VDict false (ProjectProgressProjection.payload (projection_of accepted u n) VNone)) = Ok c.
Proof.
  unfold project_onto. fold (projection_of accepted u n).
  assert (Hp : ProjectProgressProjection.post_init (projection_of accepted u n) = Ok (projection_of accepted u n)).
  { unfold ProjectProgressProjection.post_init, require_sha256.
    assert (ProjectProgressProjection.projection_checksum (projection_of accepted u n) = ZERO_HASH) as -> by done.
    rewrite zero_hash_is_sha256. done. }
  rewrite Hp. cbn [mbind result_bind]. by apply with_computed_checksum_defined.
Qed.

(** What a history is projected to. *)
Lemma build_cases history :
  match last (ranked history) with
  | None => build_projection history = Ok None
  | Some (u, n) => exists c,
      build_projection history =
        Ok (Some (ProjectProgressProjection.with_checksum (projection_of (ranked history) u n) c)) /\
      canonical_hash (VDict false (ProjectProgressProjection.payload (projection_of (ranked history) u n) VNone)) = Ok c
  end.
Proof.
  unfold build_projection. destruct (last (ranked history)) as [[u n]|]; [|done].
  destruct (project_onto_defined (ranked history) u n) as (c & -> & Hc). by exists c.
Qed.

Lemma rank_total : total_compare rank_compare.
Proof. repeat apply pair_total; (apply Z_total || apply string_total). Qed.

Lemma with_record_Some x u n : with_record x = Some (u, n) <-> x = u /\ accepted_record u = Some n.
Proof.
  unfold with_record. destruct (accepted_record x) as [m|] eqn:Hm; cbn.
  - split; [intros [= <- <-]; done|]. intros [<- Hn]. congruence.
  - split; [done|]. intros [<- Hn]. congruence.
Qed.

Lemma elem_of_records (history : list upload) u n :
  (u, n) ∈ omap with_record history <-> u ∈ history /\ accepted_record u = Some n.
Proof.
  rewrite list_elem_of_omap. split.
  - intros (x & Hx & [-> Hn]%with_record_Some). done.
  - intros [Hu Hn]. exists u. by rewrite with_record_Some.
Qed.

(** The key a projection of the record's workflow is stored under. *)
Definition record_key (n : record) : projection_key := (project_id n, package_id n, workflow_id n, workflow_version n).

(** No two accepted reports of the history have one identifier. *)
Definition distinct_reports (history : list upload) : Prop :=
  forall u v, u ∈ history -> v ∈ history -> accepted_record u <> None -> accepted_record v <> None ->
    UploadedProgressReport.report_id u = UploadedProgressReport.report_id v -> u = v.

(** Histories that arrange the same accepted records are projected alike. *)
Lemma build_arranged history history' : distinct_reports history ->
  omap with_record history ≡ₚ omap with_record history' -> build_projection history = build_projection history'.
Proof.
  intros Hd Hp. assert (Hr : ranked history = ranked history').
  { unfold ranked. apply (sort_by_unique _ rank_total); [done|].
    intros [u n] [v m] [Hu Hn]%elem_of_records [Hv Hm]%elem_of_records Hk. cbn in Hk. unfold rank_of in Hk.
    assert (UploadedProgressReport.report_id u = UploadedProgressReport.report_id v) as Hid by congruence.
    assert (u = v) as <- by (apply Hd; congruence). congruence. }
  pose proof (build_cases history) as H. pose proof (build_cases history') as H'. rewrite <- Hr in H'.
  destruct (last (ranked history)) as [[u n]|]; [|congruence].
  destruct H as (c & -> & Hc), H' as (c' & -> & Hc'). congruence.
Qed.

Lemma with_record_NoDup history : NoDup history -> NoDup (omap with_record history).
Proof.
  induction 1 as [|u history Hu _ IH]; [constructor|]. cbn. destruct (with_record u) as [[v n]|] eqn:Hw; [|done].
  apply with_record_Some in Hw as [-> Hn]. constructor; [|done]. by intros [? _]%elem_of_records.
Qed.

(** Histories of the same accepted reports are projected alike. *)
Lemma build_ext history history' : NoDup history -> NoDup history' -> distinct_reports history ->
  (forall u, accepted_record u <> None -> (u ∈ history <-> u ∈ history')) ->
  build_projection history = build_projection history'.
Proof.
  intros Hn Hn' Hd Heq. apply build_arranged; [done|]. apply NoDup_Permutation; [by apply with_record_NoDup..|].
  intros [u n]. rewrite !elem_of_records. split; intros [Hu Hr]; (split; [apply Heq; [congruence|done]|done]).
Qed.

(** The latest record gives the projection its identity. *)
Lemma build_latest history : (exists u, u ∈ history /\ accepted_record u <> None) ->
  exists u n p, u ∈ history /\ accepted_record u = Some n /\ build_projection history = Ok (Some p) /\
    ReportRepository.key_of p = record_key n.
Proof.
  intros (v & Hv & Ha). pose proof (build_cases history) as Hb.
  destruct (last (ranked history)) as [[u n]|] eqn:Hl.
  - destruct Hb as (c & Hb & _). exists u, n. eexists. assert (Hin : (u, n) ∈ ranked history).
    { apply last_Some in Hl as [s ->]. apply elem_of_app. right. by apply list_elem_of_singleton. }
    unfold ranked in Hin. rewrite sort_by_perm in Hin. apply elem_of_records in Hin as [Hu Hn]. done.
  - apply last_None in Hl. destruct (accepted_record v) as [m|] eqn:Hm; [|done].
    assert (Hin : (v, m) ∈ ranked history) by (unfold ranked; rewrite sort_by_perm; by apply elem_of_records).
    rewrite Hl in Hin. by apply elem_of_nil in Hin.
Qed.

(** The projection of a history of progress reports does not depend on the order in which they were stored: any rearrangement of reports with distinct identifiers is projected to the same value, checksum included. *)
Theorem projection_order_independent history history' : distinct_reports history -> history ≡ₚ history' ->
  build_projection history = build_projection history'.
Proof.
  intros Hd Hp. apply build_arranged; [done|]. by rewrite Hp.
Qed.

(** C35: A projection shows the latest round of the accepted reports it was built
    from: its identifier and round are those of one of them, and none of them is
    of a later round.  Its summary, next action and completed work contain neither
    angle brackets nor quotes, and its checksum verifies. *)
Theorem projection_shows_latest history p : build_projection history = Ok (Some p) ->
  (exists u n, u ∈ history /\ accepted_record u = Some n /\
    ProjectProgressProjection.latest_accepted_report_id p = report_id n /\
    ProjectProgressProjection.latest_execution_round p = execution_round n) /\
  (forall v m, v ∈ history -> accepted_record v = Some m ->
    execution_round m <= ProjectProgressProjection.latest_execution_round p) /\
  (forall s, s ∈ ProjectProgressProjection.current_state_summary p ::
     ProjectProgressProjection.next_recommended_action p :: ProjectProgressProjection.completed_work_summary p ->
     inert s = true) /\
  ProjectProgressProjection.verify_checksum p = Ok true.
Proof.
  intros H. pose proof (build_cases history) as Hb. destruct (last (ranked history)) as [[u n]|] eqn:Hl; [|congruence].
  destruct Hb as (c & Hb & Hc). rewrite H in Hb. injection Hb as ->. split_and!.
  - exists u, n. assert (Hin : (u, n) ∈ ranked history).
    { apply last_Some in Hl as [s ->]. apply elem_of_app. right. by apply list_elem_of_singleton. }
    unfold ranked in Hin. rewrite sort_by_perm in Hin. apply elem_of_records in Hin as [Hu Hn]. done.
  - intros v m Hv Hm. assert (Hin : (v, m) ∈ omap with_record history) by by apply elem_of_records.
    pose proof (sort_by_last _ rank_total _ _ _ _ Hl Hin) as Hle. unfold at_most, rank_of in Hle. cbn in Hle.
    unfold rank_compare, pair_compare in Hle. cbn in Hle. cbn [ProjectProgressProjection.latest_execution_round
      ProjectProgressProjection.with_checksum projection_of].
    destruct (Z.compare_spec (execution_round m) (execution_round n)); [lia|lia|done].
  - intros s Hs. cbn [ProjectProgressProjection.with_checksum projection_of
      ProjectProgressProjection.current_state_summary ProjectProgressProjection.next_recommended_action
      ProjectProgressProjection.completed_work_summary] in Hs.
    rewrite !elem_of_cons in Hs. destruct Hs as [->|[->|Hs]]; [apply html_escape_inert..|].
    apply list_elem_of_fmap in Hs as (t & -> & _). apply html_escape_inert.
  - unfold ProjectProgressProjection.verify_checksum.
    destruct (with_computed_checksum_defined (ProjectProgressProjection.with_checksum (projection_of (ranked history) u n) c))
      as (d & -> & Hd); [done|]. cbn [mbind result_bind].
    change (ProjectProgressProjection.payload _ VNone) with
      (ProjectProgressProjection.payload (projection_of (ranked history) u n) VNone) in Hd.
    assert (d = c) as -> by congruence. cbn [ProjectProgressProjection.projection_checksum
      ProjectProgressProjection.with_checksum]. by rewrite String.eqb_refl.
Qed.
