(* ===== verification/ProgressHistory.v ===== *)
(** The histories of uploaded progress reports: what one upload does, and what
    holds after any sequence of uploads, answered or refused, from an empty
    database. Accepted reports have one identity, stand on chains of accepted
    reports that begin at round 1, do not branch and are never changed, and an
    accepted upload is never received twice. *)
From S2P Require Import Prelude Errors Text Float Value Json Sha256 Lifecycle Lexical Calendar Canonical Dict Tables TableFacts Repositories RepositoryFacts Order Contents Progress ProgressService ProgressFacts.
From Stdlib Require Import String.
Local Open Scope string_scope.
Local Open Scope list_scope.
Local Open Scope Z_scope.
Import ReportRepository.

Abbreviation report_of := UploadedProgressReport.report_id.
Abbreviation receipt_of := UploadedProgressReport.receipt_id.
Abbreviation round := NormalizedProgressRecord.execution_round.

(** ** The table of reports *)

Definition row (t : dict string upload) (r : upload) : Prop := Dict.get (receipt_of r) t = Some r.

(** The record says of itself what the row says of the report. *)
Record describes (n : record) (r : upload) : Prop := {
  ds_report : NormalizedProgressRecord.report_id n = report_of r;
  ds_project : NormalizedProgressRecord.project_id n = UploadedProgressReport.project_id r;
  ds_package : NormalizedProgressRecord.package_id n = UploadedProgressReport.package_id r;
  ds_checksum : NormalizedProgressRecord.package_checksum n = UploadedProgressReport.package_checksum r
}.

(** Of the same workflow instance. *)
Definition beside (r r' : upload) : Prop :=
  UploadedProgressReport.project_id r = UploadedProgressReport.project_id r' /\
  UploadedProgressReport.workflow_instance_id r = UploadedProgressReport.workflow_instance_id r'.

(** The accepted reports a report continues, from round 1 on. *)
Inductive linked (R : upload -> Prop) : list upload -> upload -> Prop :=
  | linked_first r n : R r -> accepted_record r = Some n -> roots n -> linked R [r] r
  | linked_next l r m r' n : linked R l r -> accepted_record r = Some m -> R r' -> accepted_record r' = Some n ->
      NormalizedProgressRecord.previous_report_id n = Some (report_of r) -> beside r r' -> continues m n ->
      linked R (l ++ [r']) r'.

Lemma linked_mono (R R' : upload -> Prop) l r : (forall x, R x -> R' x) -> linked R l r -> linked R' l r.
Proof. intros HR. induction 1; econstructor; eauto. Qed.

(** Of two accepted reports of one round, one is the checkpoint the other supersedes. *)
Definition one_outcome (m n : record) : Prop :=
  NormalizedProgressRecord.status m = ProgressStatus.IN_PROGRESS /\
  NormalizedProgressRecord.status n = ProgressStatus.COMPLETED.

Definition receipt_name_of (r : upload) : res string :=
  receipt_name (UploadedProgressReport.project_id r) (UploadedProgressReport.package_id r)
    (UploadedProgressReport.package_checksum r) (report_of r) (UploadedProgressReport.report_checksum r)
    (UploadedProgressReport.original_report_checksum r).

Record reports_ok (t : dict string upload) : Prop := {
  ro_unique : NoDup (Dict.keys t);
  ro_ids i r : Dict.get i t = Some r -> receipt_of r = i;
  ro_receipt r : row t r -> receipt_name_of r = Ok (receipt_of r);
  ro_accepted r : row t r -> UploadedProgressReport.accepted_for_projection r = true -> accepted_record r <> None;
  ro_describes r n : row t r -> accepted_record r = Some n -> describes n r;
  ro_distinct r r' : row t r -> row t r' -> accepted_record r <> None -> accepted_record r' <> None ->
    report_of r = report_of r' -> r = r';
  ro_rounds r r' m n : row t r -> row t r' -> beside r r' -> accepted_record r = Some m -> accepted_record r' = Some n ->
    same_scope m n = true -> round m = round n -> r = r' \/ one_outcome m n \/ one_outcome n m;
  ro_linked r n : row t r -> accepted_record r = Some n -> exists l, linked (row t) l r /\ Z.of_nat (List.length l) = round n
}.

Lemma empty_reports_ok : reports_ok [].
Proof. split; try done. apply NoDup_nil_2. Qed.

Lemma elem_rows t r : reports_ok t -> r ∈ Dict.values t <-> row t r.
Proof.
  intros Ht. split.
  - intros (i & Hi)%values_elem; [|apply Ht]. unfold row. by rewrite (ro_ids t Ht _ _ Hi).
  - apply elem_values.
Qed.

Lemma same_scope_sym m n : same_scope m n = same_scope n m.
Proof. unfold same_scope. repeat (f_equal; [|apply String.eqb_sym]). apply String.eqb_sym. Qed.

(** A new row that the chain rule admits, or one that was refused. *)
Record admissible (t : dict string upload) (r : upload) : Prop := {
  ad_new : Dict.get (receipt_of r) t = None;
  ad_receipt : receipt_name_of r = Ok (receipt_of r);
  ad_accepted : UploadedProgressReport.accepted_for_projection r = true -> accepted_record r <> None;
  ad_describes n : accepted_record r = Some n -> describes n r;
  ad_fresh r' : accepted_record r <> None -> row t r' -> accepted_record r' <> None -> report_of r' <> report_of r;
  ad_chain n : accepted_record r = Some n -> roots n \/
    exists r' m, row t r' /\ beside r' r /\ accepted_record r' = Some m /\
      NormalizedProgressRecord.previous_report_id n = Some (report_of r') /\ continues m n;
  ad_rounds n r' m : accepted_record r = Some n -> row t r' -> beside r' r -> accepted_record r' = Some m ->
    same_scope m n = true -> round m = round n -> one_outcome m n
}.

Lemma row_set t r r' : Dict.get (receipt_of r) t = None ->
  row (Dict.set (receipt_of r) r t) r' <-> r' = r \/ row t r'.
Proof.
  intros Hn. unfold row. rewrite get_set. case_decide as Hd.
  - split; [intros [= ->]; by left|]. intros [->|Hr]; [done|]. rewrite <- Hd in Hr. congruence.
  - split; [by right|]. by intros [->|Hr].
Qed.

Lemma linked_length_pos R l r : linked R l r -> (0 < List.length l)%nat.
Proof. destruct 1; [cbn; lia|]. rewrite length_app. cbn. lia. Qed.

Lemma admit_reports t r : reports_ok t -> admissible t r -> reports_ok (Dict.set (receipt_of r) r t).
Proof.
  intros Ht [Hn Hre Hac Hde Hfr Hch Hro]. set (t' := Dict.set (receipt_of r) r t).
  assert (Hrow : forall x, row t' x <-> x = r \/ row t x) by (intros; by apply row_set).
  assert (Hlink : forall l x, linked (row t) l x -> linked (row t') l x).
  { intros l x. apply linked_mono. intros y Hy. apply Hrow. by right. }
  split.
  - apply keys_set_NoDup, Ht.
  - intros i x. unfold t'. rewrite get_set. case_decide; [by intros [= <-]|apply (ro_ids t Ht)].
  - intros x [->|Hx]%Hrow; [done|by apply (ro_receipt t Ht)].
  - intros x [->|Hx]%Hrow; [done|by apply (ro_accepted t Ht)].
  - intros x n [->|Hx]%Hrow; [apply Hde|by apply (ro_describes t Ht)].
  - intros x y [->|Hx]%Hrow [->|Hy]%Hrow Ha Hb Hid; [done|..].
    + by destruct (Hfr y Ha Hy Hb).
    + by destruct (Hfr x Hb Hx Ha).
    + by apply (ro_distinct t Ht).
  - intros x y m n [->|Hx]%Hrow [->|Hy]%Hrow Hbe Hm Hnn Hs Hr; [by left|..].
    + right; right. apply (Hro m y n Hm Hy); [by destruct Hbe|done|by rewrite same_scope_sym|done].
    + right; left. by apply (Hro n x m).
    + by apply (ro_rounds t Ht).
  - intros x n [->|Hx]%Hrow Hxn.
    + destruct (Hch n Hxn) as [Hroot|(y & m & Hy & Hbe & Hm & Hp & Hc)].
      * exists [r]. split; [eapply linked_first; [by apply Hrow; left|done|done]|]. destruct Hroot as [-> _]. done.
      * destruct (ro_linked t Ht y m Hy Hm) as (l & Hl & Hlen). exists (l ++ [r]). split.
        { eapply linked_next; [by apply Hlink|done|by apply Hrow; left|done..]. }
        rewrite length_app, (co_round _ _ Hc). cbn. lia.
    + destruct (ro_linked t Ht x n Hx Hxn) as (l & Hl & Hlen). exists l. split; [by apply Hlink|done].
Qed.

(** ** One report *)

Lemma elem_of_concat_nil {A B} (f : A -> list B) l x : List.concat (f <$> l) = [] -> x ∈ l -> f x = [].
Proof.
  induction l as [|y l IH]; [by intros _ ?%elem_of_nil|]. rewrite fmap_cons. cbn [List.concat].
  intros [Hy Hl]%app_eq_nil. intros [->|Hx]%elem_of_cons; [done|by apply IH].
Qed.

Lemma when_nil b message : when b message = [] -> b = false.
Proof. by destruct b. Qed.

Lemma differ_false a b : differ a b = false -> a = b.
Proof. unfold differ. by intros ?%negb_false_iff%String.eqb_eq. Qed.

Lemma elem_by_received p l r : r ∈ by_received (List.filter p l) <-> r ∈ l /\ p r = true.
Proof. unfold by_received. by rewrite sort_by_perm, elem_List_filter. Qed.

(** An accepted report of the envelope's identifier that does not conflict with
    the envelope is the envelope's. *)
Lemma no_conflict_exact e u r : stored_conflicts e u = [] -> r ∈ rows u -> is_accepted r = true ->
  report_of r = Envelope.report_id e -> exactly e r = true.
Proof.
  unfold stored_conflicts. intros [Hi Hc]%app_eq_nil Hr Ha Hid.
  apply (elem_of_concat_nil _ _ r) in Hi; [|by apply elem_by_received; rewrite Hid, String.eqb_refl].
  unfold identifier_conflicts in Hi. unfold is_accepted in Ha. rewrite Ha in Hi. apply app_eq_nil in Hi as [Hi Hp].
  destruct (differ (UploadedProgressReport.report_checksum r) _) eqn:H1; [done|]. apply when_nil in Hi.
  apply when_nil, orb_false_iff in Hp as [Hp Hk]. apply differ_false in H1, Hi, Hp, Hk.
  apply (elem_of_concat_nil _ _ r) in Hc; [|by apply elem_by_received; rewrite Hi, String.eqb_refl].
  unfold content_conflicts in Hc. rewrite Ha in Hc. apply when_nil, orb_false_iff in Hc as [_ Hs]. apply differ_false in Hs.
  unfold exactly. by rewrite Hp, Hk, Hs, H1, Hi, !String.eqb_refl.
Qed.

Lemma record_conflicts_nil e n : record_conflicts e n = [] ->
  NormalizedProgressRecord.report_id n = Envelope.report_id e /\
  NormalizedProgressRecord.project_id n = Envelope.project_id e /\
  NormalizedProgressRecord.package_id n = Envelope.package_id e /\
  NormalizedProgressRecord.package_checksum n = Envelope.package_checksum e.
Proof.
  unfold record_conflicts. intros [H1 [H2 [H3 [H4 H5]%app_eq_nil]%app_eq_nil]%app_eq_nil]%app_eq_nil.
  apply when_nil, differ_false in H1, H2, H3, H4. done.
Qed.

Lemma with_state_continues m n s : continues m n -> continues m (NormalizedProgressRecord.with_chain_state n s).
Proof. intros [? ? ? ? ?]. by split. Qed.

Lemma with_state_describes n r s : describes n r -> describes (NormalizedProgressRecord.with_chain_state n s) r.
Proof. intros [? ? ? ?]. by split. Qed.

(** What an accepted report came from. *)
Lemma uploaded_accepted e id instance key at_ f history r n' :
  r = uploaded_report e id instance key at_ f (chain_of f history) -> accepted_record r = Some n' ->
  exists n, f_record f = Some n /\ f_errors f = [] /\ f_identity f = [] /\
    cv_accepted (validate_chain n history) = true /\
    n' = NormalizedProgressRecord.with_chain_state n (cv_state (validate_chain n history)).
Proof.
  intros -> Hn. unfold accepted_record, uploaded_report in Hn. cbn [UploadedProgressReport.accepted_for_projection
    UploadedProgressReport.normalized_record] in Hn.
  destruct (chain_of f history) as [c|] eqn:Hc; [|done]. unfold chain_of in Hc.
  destruct (f_record f) as [n|]; [|done]. destruct (f_errors f); [|done]. destruct (f_identity f); [|done].
  injection Hc as <-. destruct (cv_accepted _) eqn:Ha; [|done]. cbn in Hn.
  destruct (_ =? 0)%nat; [|done]. injection Hn as <-. exists n. done.
Qed.

Lemma uploaded_has_record e id instance key at_ f history r :
  r = uploaded_report e id instance key at_ f (chain_of f history) ->
  UploadedProgressReport.accepted_for_projection r = true -> accepted_record r <> None.
Proof.
  intros -> Ha. unfold accepted_record. rewrite Ha. unfold uploaded_report in *.
  cbn [UploadedProgressReport.accepted_for_projection UploadedProgressReport.normalized_record] in *.
  destruct (chain_of f history) as [c|] eqn:Hc; [|done]. unfold chain_of in Hc. by destruct (f_record f).
Qed.

(** ** The service *)

Section service.
Context {C : Type} `{ContentStorage C} {W D : Type}.
Context (normalize : string -> res record).
Context (resolve_workflow_identity : W -> Envelope.t -> option record -> option string -> res string).
Context (artifact_references : option (ArtifactReferences W D)).
Context (commit_others : M exn W unit).
Implicit Types (s : @cloud C W).

Abbreviation upload_ := (upload_report normalize resolve_workflow_identity artifact_references commit_others).
Abbreviation receive_ := (receive normalize resolve_workflow_identity artifact_references commit_others).
Abbreviation examine_ := (examine normalize resolve_workflow_identity).

Definition reports s : dict string upload := db_reports (cl_database s).

(** The unit of work has just been opened, or committed. *)
Definition at_rest s : Prop := cl_unit s = open_unit (cl_database s).

(** A unit of work that is given up, and another one opened. *)
Definition dropped s : cloud :=
  Cloud (cl_contents s) (cl_others s) (cl_database s) (open_unit (cl_database s)).

Definition same_tables s s' : Prop := cl_database s' = cl_database s /\ cl_unit s' = cl_unit s.

Lemma rows_at_rest s : at_rest s -> rows (cl_unit s) = Dict.values (reports s).
Proof using. unfold at_rest. by intros ->. Qed.

Lemma elem_history s project package instance r : at_rest s -> reports_ok (reports s) ->
  r ∈ list_for_project project package instance (cl_unit s) <->
  row (reports s) r /\ in_project project package instance r = true.
Proof using.
  intros Hr Ht. unfold list_for_project. rewrite elem_by_received, (rows_at_rest s Hr). by rewrite elem_rows.
Qed.

(** What the examination lets through. *)
Lemma examine_passed w e content instance requested identity f n :
  examine_ w e content instance requested identity = Ok f ->
  f_record f = Some n -> f_errors f = [] -> f_identity f = [] ->
  normalize content = Ok n /\ identity = [] /\ record_conflicts e n = [] /\
  resolve_workflow_identity w e (Some n) requested = Ok instance.
Proof using.
  unfold examine. intros Hf Hn He Hi.
  assert (Hfail : forall x o, examination_failed x o identity = Ok f -> False).
  { intros x o Hx. unfold examination_failed in Hx. destruct (is_instance _ _); [done|].
    destruct (is_instance _ _); [|done]. injection Hx as <-. done. }
  destruct (normalize content) as [m|x]; [|by apply Hfail in Hf].
  destruct (resolve_workflow_identity w e (Some m) requested) as [v|x] eqn:Hres; cbn [mbind result_bind] in Hf;
    [|by apply Hfail in Hf].
  destruct (differ v instance) eqn:Hd; cbn [fail_if] in Hf; [by apply Hfail in Hf|].
  apply differ_false in Hd as ->. injection Hf as <-. cbn in Hn, Hi. injection Hn as ->.
  apply app_eq_nil in Hi as [? ?]. done.
Qed.

(** No accepted report is the envelope's. *)
Definition not_accepted s e : Prop :=
  forall r, row (reports s) r -> is_accepted r = true -> report_of r = Envelope.report_id e -> exactly e r = false.

Lemma uploaded_admissible s e content instance requested f id key at_ r : at_rest s -> reports_ok (reports s) ->
  not_accepted s e ->
  examine_ (cl_others s) e content instance requested (stored_conflicts e (cl_unit s)) = Ok f ->
  receipt_id_of e = Ok id -> Dict.get id (reports s) = None ->
  r = uploaded_report e id instance key at_ f
        (chain_of f (list_for_project (Envelope.project_id e) None (Some instance) (cl_unit s))) ->
  admissible (reports s) r.
Proof using.
  intros Hrest Ht Hna Hf Hid Hnew Hr.
  assert (Hacc : forall n', accepted_record r = Some n' -> exists n,
      describes n r /\ stored_conflicts e (cl_unit s) = [] /\
      cv_accepted (validate_chain n (list_for_project (Envelope.project_id e) None (Some instance) (cl_unit s))) = true /\
      exists st, n' = NormalizedProgressRecord.with_chain_state n st).
  { intros n' Hn'. destruct (uploaded_accepted _ _ _ _ _ _ _ _ _ Hr Hn') as (n & Hn & He & Hi & Hc & ->). exists n.
    destruct (examine_passed _ _ _ _ _ _ _ _ Hf Hn He Hi) as (_ & Hs & Hrec & _).
    apply record_conflicts_nil in Hrec as (? & ? & ? & ?). split; [by subst r; split|]. split; [done|]. split; [done|]. by eexists. }
  assert (Hrid : receipt_of r = id) by by rewrite Hr.
  assert (Hfresh : forall r', accepted_record r <> None -> row (reports s) r' -> accepted_record r' <> None ->
            report_of r' <> report_of r).
  { intros r' Ha Hr' Ha' Heq. destruct (accepted_record r) as [n'|] eqn:Hn'; [|done].
    destruct (Hacc n' eq_refl) as (n & _ & Hs & _).
    assert (Hac : is_accepted r' = true) by (unfold accepted_record in Ha'; unfold is_accepted; by destruct (UploadedProgressReport.accepted_for_projection r')).
    assert (Hrep : report_of r' = Envelope.report_id e) by (rewrite Heq; by subst r).
    pose proof (no_conflict_exact e (cl_unit s) r' Hs) as Hex. rewrite (rows_at_rest s Hrest), (elem_rows _ _ Ht) in Hex.
    specialize (Hex Hr' Hac Hrep). by rewrite (Hna r' Hr' Hac Hrep) in Hex. }
  assert (Hhist : forall r', r' ∈ list_for_project (Envelope.project_id e) None (Some instance) (cl_unit s) <->
            row (reports s) r' /\ beside r' r).
  { intros r'. rewrite (elem_history s _ _ _ _ Hrest Ht). unfold in_project, given, beside. subst r. cbn.
    rewrite andb_true_r, andb_true_iff, !String.eqb_eq. done. }
  split.
  - by rewrite Hrid.
  - rewrite Hrid. by rewrite Hr.
  - by eapply uploaded_has_record.
  - intros n' Hn'. destruct (Hacc n' Hn') as (n & Hd & _ & _ & st & ->). by apply with_state_describes.
  - exact Hfresh.
  - intros n' Hn'. destruct (Hacc n' Hn') as (n & Hd & _ & Hc & st & ->).
    apply chain_accepted in Hc as [[Hroot|(u & m & Hu & Hm & Hp & Hco)] _]; [left; exact Hroot|right].
    apply Hhist in Hu as [Hu Hb]. exists u, m. split_and!; try done. by apply with_state_continues.
  - intros n' r' m Hn' Hr' Hb Hm Hs Hro. destruct (Hacc n' Hn') as (n & Hd & _ & Hc & st & ->).
    apply chain_accepted in Hc as [_ Hu].
    assert (Hin : forall x k, row (reports s) x -> beside x r -> accepted_record x = Some k ->
              k ∈ omap accepted_record (list_for_project (Envelope.project_id e) None (Some instance) (cl_unit s))).
    { intros x k Hx Hxb Hk. apply list_elem_of_omap. exists x. split; [by apply Hhist|done]. }
    destruct (Hu m) as (H1 & H2 & _); [by eapply Hin|exact Hs|exact Hro| |by split].
    intros k Hk. apply list_elem_of_omap in Hk as (x & [Hx Hxb]%Hhist & Hk).
    rewrite (ds_report _ _ (ro_describes _ Ht _ _ Hx Hk)), (ds_report _ _ Hd). apply Hfresh; congruence.
Qed.

(** *** The parts of a call *)

Lemma contents_frame {A} (c : M exn C A) s x s' : on_contents c s = (x, s') -> same_tables s s'.
Proof using. unfold on_contents, zoom. destruct (c (cl_contents s)) as [y c']. by intros [= <- <-]. Qed.

Lemma others_frame {A} (c : M exn W A) s x s' : on_others c s = (x, s') -> same_tables s s'.
Proof using. unfold on_others, zoom. destruct (c (cl_others s)) as [y w]. by intros [= <- <-]. Qed.

Lemma same_tables_trans s s1 s2 : same_tables s s1 -> same_tables s1 s2 -> same_tables s s2.
Proof using. intros [] []. split; congruence. Qed.

Lemma promote_frame r declarations s x s' : promote artifact_references r declarations s = (x, s') -> same_tables s s'.
Proof using.
  intros Hp. unfold promote in Hp.
  apply bind_inv in Hp as [(q & s1 & E & Hp)|(e & E & ->)]; [injection E as <- <-|done].
  assert (Hread : forall (y : res (list D)) s1, match declarations, accepted_record r, artifact_references with
      | [], Some n, Some a => lift_result (derive_reviewed_progress_declarations a (UploadedProgressReport.workflow_instance_id r) n (cl_others s))
      | _, _, _ => mret declarations end s = (y, s1) -> s1 = s) by (intros y s1; repeat case_match; by intros [= _ <-]).
  apply bind_inv in Hp as [(known & s1 & E & Hp)|(e & E & ->)]; apply Hread in E as ->; [|done].
  destruct known as [|d known]; [by injection Hp as _ <-|].
  destruct artifact_references as [a|]; [|by injection Hp as _ <-].
  destruct (UploadedProgressReport.normalized_record r); [by eapply others_frame|by injection Hp as _ <-].
Qed.

(** The dirty keys of the unit of work are staged. *)
Definition unit_ok (u : progress_unit) : Prop :=
  (forall k, k ∈ Plain.dirty (u_reports u) -> Dict.get k (Plain.records (u_reports u)) <> None) /\
  (forall k, k ∈ Plain.dirty (u_projections u) -> Dict.get k (Plain.records (u_projections u)) <> None).

Definition published_database (u : progress_unit) (db : progress_database) : progress_database :=
  ProgressDatabase
    (published (Plain.records (u_reports u)) (Plain.dirty (u_reports u)) (db_reports db))
    (published (Plain.records (u_projections u)) (Plain.dirty (u_projections u)) (db_projections db)).

Lemma publish_reports_Ok u db : unit_ok u -> publish_reports u db = (Ok tt, published_database u db).
Proof using.
  intros [Hr Hp]. unfold publish_reports, mbind, M_bind.
  rewrite (publish_to_Ok db_reports (fun t db => ProgressDatabase t (db_projections db)));
    [|done|done|by intros []|exact Hr].
  rewrite (publish_to_Ok db_projections (fun t db => ProgressDatabase (db_reports db) t));
    [done|done|done|by intros []|exact Hp].
Qed.

Lemma progress_commit_cases s x s' : unit_ok (cl_unit s) -> commit commit_others s = (x, s') ->
  match x with
  | Ok _ => cl_database s' = published_database (cl_unit s) (cl_database s) /\ at_rest s'
  | Err _ => cl_database s' = cl_database s
  end.
Proof using.
  intros Hu Hc. unfold commit in Hc.
  apply bind_inv in Hc as [(q & s1 & E & Hc)|(e & E & ->)]; [injection E as <- <-|done].
  apply bind_inv in Hc as [([] & s1 & E & Hc)|(e & E & ->)]; injection E as _ <-; [|done].
  apply bind_inv in Hc as [([] & s1 & E & Hc)|(e & E & ->)]; apply others_frame in E as [Hd Hun]; [|done].
  unfold mbind at 1, M_bind at 1, zoom in Hc. rewrite Hd, publish_reports_Ok in Hc by done.
  injection Hc as <- <-. done.
Qed.

Lemma project_cases r s x s' : project_report r s = (x, s') ->
  x = Ok tt /\ cl_database s' = cl_database s /\ u_reports (cl_unit s') = u_reports (cl_unit s) /\
  u_projections (cl_unit s') =
    match accepted_record r with
    | None => u_projections (cl_unit s)
    | Some n =>
        match build_projection (List.filter (same_workflow n)
                (list_for_project (UploadedProgressReport.project_id r) (Some (UploadedProgressReport.package_id r))
                   (Some (UploadedProgressReport.workflow_instance_id r)) (cl_unit s))) with
        | Ok (Some p) => Plain.put (key_of p) p (u_projections (cl_unit s))
        | _ => u_projections (cl_unit s)
        end
    end.
Proof using.
  intros Hp. unfold project_report in Hp. destruct (accepted_record r) as [n|]; [|by injection Hp as <- <-].
  apply bind_inv in Hp as [(q & s1 & E & Hp)|(e & E & ->)]; [injection E as <- <-|done].
  match type of Hp with (lift_result (build_projection ?l) ≫= _) _ = _ => pose proof (build_cases l) as Hb; set (h := l) in * end.
  unfold mbind, M_bind, lift_result in Hp. destruct (last (ranked h)) as [[u m]|].
  - destruct Hb as (c & Hb & _). rewrite Hb in *. injection Hp as <- <-. done.
  - rewrite Hb in *. by injection Hp as <- <-.
Qed.

Lemma rest_unit s : at_rest s -> unit_ok (cl_unit s) /\ published_database (cl_unit s) (cl_database s) = cl_database s.
Proof using. unfold at_rest. intros ->. split; [by split; intros k ?%elem_of_nil|]. by destruct (cl_database s). Qed.

(** A replay changes no table; if it answers, with the receipt of the report it found. *)
Lemma answer_cases r declarations derivation s x s' : at_rest s ->
  answer_replay artifact_references commit_others r declarations derivation s = (x, s') ->
  cl_database s' = cl_database s /\ forall c, x = Ok c -> at_rest s' /\ receipt r true = Ok c.
Proof using.
  intros Hr Ha. unfold answer_replay in Ha.
  assert (Hp : forall (d : res (list D)) s1, match derivation with
      | Some d => promote_derived commit_others r d | None => mret declarations end s = (d, s1) ->
      cl_database s1 = cl_database s /\ (is_ok d = true -> at_rest s1)).
  { intros d s1. destruct derivation as [[a n]|]; [|by intros [= <- <-]]. intros Hd. unfold promote_derived in Hd.
    apply bind_inv in Hd as [(q & s2 & E & Hd)|(e & E & ->)]; [injection E as <- <-|done].
    apply bind_inv in Hd as [(derived & s2 & E & Hd)|(e & E & ->)]; injection E as _ <-; [|done].
    destruct derived as [|y derived]; [by injection Hd as <- <-|].
    apply bind_inv in Hd as [([] & s2 & E & Hd)|(e & E & ->)]; apply others_frame in E as [Hd2 Hu2]; [|done].
    assert (Hr2 : at_rest s2) by (unfold at_rest; by rewrite Hu2, Hd2).
    destruct (rest_unit s2 Hr2) as [Hok Hpub].
    apply bind_inv in Hd as [([] & s3 & E & Hd)|(e & E & ->)]; apply (progress_commit_cases _ _ _ Hok) in E.
    - destruct E as [E Hr3]. injection Hd as <- <-. rewrite E, Hpub. done.
    - split; [congruence|done]. }
  apply bind_inv in Ha as [(known & s1 & E & Ha)|(e & E & ->)]; apply Hp in E as [Hd1 Hr1]; [|by split].
  assert (Hsame : forall (y : res unit) s2, assert_artifact_replay artifact_references (receipt_of r) known s1 = (y, s2) -> s2 = s1).
  { intros y s2. unfold assert_artifact_replay. destruct artifact_references; [|by destruct (negb _); intros [= _ <-]].
    unfold mbind, M_bind. by intros [= _ <-]. }
  apply bind_inv in Ha as [([] & s2 & E & Ha)|(e & E & ->)]; apply Hsame in E as ->; [|by split].
  injection Ha as <- <-. split; [done|]. intros c Hc. by split; [apply Hr1|].
Qed.

Lemma receipt_defined r b : exists c, receipt r b = Ok c /\ ProgressUploadReceipt.receipt_id c = receipt_of r /\
  ProgressUploadReceipt.accepted_for_projection c = UploadedProgressReport.accepted_for_projection r /\
  ProgressUploadReceipt.idempotent_replay c = b /\ ProgressUploadReceipt.verify_checksum c = Ok true.
Proof using.
  unfold receipt. match goal with |- context [ProgressUploadReceipt.post_init ?x] => set (c := x) end.
  assert (Hpost : forall h, is_sha256 h = true ->
    ProgressUploadReceipt.post_init (ProgressUploadReceipt.with_checksum c h) = Ok (ProgressUploadReceipt.with_checksum c h)).
  { intros h Hh. unfold ProgressUploadReceipt.post_init, require_sha256.
    cbn [ProgressUploadReceipt.receipt_checksum ProgressUploadReceipt.with_checksum]. rewrite Hh.
    cbn [ProgressUploadReceipt.warning_count ProgressUploadReceipt.error_count ProgressUploadReceipt.with_checksum].
    rewrite (proj2 (Z.ltb_ge _ _)), (proj2 (Z.ltb_ge _ _)); [done|apply Zle_0_nat..]. }
  change (ProgressUploadReceipt.post_init c) with (ProgressUploadReceipt.post_init (ProgressUploadReceipt.with_checksum c ZERO_HASH)).
  rewrite (Hpost _ zero_hash_is_sha256). cbn [mbind result_bind].
  destruct (canonical_hash_defined (VDict false (ProgressUploadReceipt.checksum_payload c)) eq_refl) as [h Hh].
  assert (Hw : forall x, ProgressUploadReceipt.with_computed_checksum (ProgressUploadReceipt.with_checksum c x) =
                         Ok (ProgressUploadReceipt.with_checksum c h)).
  { intros x. unfold ProgressUploadReceipt.with_computed_checksum.
    change (ProgressUploadReceipt.checksum_payload (ProgressUploadReceipt.with_checksum c x)) with (ProgressUploadReceipt.checksum_payload c).
    rewrite Hh. cbn [mbind result_bind].
    change (ProgressUploadReceipt.with_checksum (ProgressUploadReceipt.with_checksum c x) h) with (ProgressUploadReceipt.with_checksum c h).
    apply Hpost. by eapply canonical_hash_is_sha256. }
  rewrite Hw. exists (ProgressUploadReceipt.with_checksum c h). do 4 (split; [done|]).
  unfold ProgressUploadReceipt.verify_checksum. rewrite Hw. cbn [mbind result_bind]. by rewrite String.eqb_refl.
Qed.

(** *** A new report *)

(** The report that a successful reception has stored, and what it changed. *)
Record received_as s (e : Envelope.t) (instance : string) (r : upload) s' : Prop := {
  rv_rest : at_rest s';
  rv_receipt : receipt_id_of e = Ok (receipt_of r);
  rv_exact : exactly e r = true /\ report_of r = Envelope.report_id e;
  rv_instance : UploadedProgressReport.workflow_instance_id r = instance;
  rv_reports : (admissible (reports s) r /\ reports s' = Dict.set (receipt_of r) r (reports s)) \/
    (row (reports s) r /\ accepted_record r = None /\ reports s' = reports s);
  rv_projections : db_projections (cl_database s') =
    match accepted_record r with
    | None => db_projections (cl_database s)
    | Some n =>
        match build_projection (List.filter (same_workflow n)
                (list_for_project (UploadedProgressReport.project_id r) (Some (UploadedProgressReport.package_id r))
                   (Some (UploadedProgressReport.workflow_instance_id r)) (cl_unit s'))) with
        | Ok (Some p) => Dict.set (key_of p) p (db_projections (cl_database s))
        | _ => db_projections (cl_database s)
        end
    end
}.

Lemma append_cases r s x s' : at_rest s -> on_reports (append r) s = (x, s') ->
  match x with
  | Err _ => cl_database s' = cl_database s
  | Ok _ => cl_database s' = cl_database s /\
      ((row (reports s) r /\ cl_unit s' = open_unit (cl_database s)) \/
       (Dict.get (receipt_of r) (reports s) = None /\
        cl_unit s' = ProgressUnit (Plain.mk (Dict.set (receipt_of r) r (reports s)) (set_add (receipt_of r) []))
                       (Plain.refresh (db_projections (cl_database s)))))
  end.
Proof using.
  unfold at_rest. intros Hr Ha. unfold on_reports, zoom, append, mbind, M_bind, get_state in Ha. rewrite Hr in Ha.
  change (get_receipt (receipt_of r) (open_unit (cl_database s))) with (Dict.get (receipt_of r) (reports s)) in Ha.
  destruct (Dict.get (receipt_of r) (reports s)) as [old|] eqn:Ho.
  - destruct (bool_decide_reflect (old = r)) as [->|Hne]; injection Ha as <- <-; [|done].
    split; [done|]. left. by split.
  - injection Ha as <- <-. split; [done|]. right. by split.
Qed.

(** What storing the report and committing leaves. *)
Lemma receive_stored s s1 s2 s3 e instance r x : at_rest s -> not_accepted s e ->
  UploadedProgressReport.workflow_instance_id r = instance ->
  exactly e r = true -> report_of r = Envelope.report_id e -> receipt_id_of e = Ok (receipt_of r) ->
  (Dict.get (receipt_of r) (reports s) = None -> admissible (reports s) r) ->
  cl_database s1 = cl_database s ->
  (row (reports s) r /\ cl_unit s1 = open_unit (cl_database s)) \/
  (Dict.get (receipt_of r) (reports s) = None /\
   cl_unit s1 = ProgressUnit (Plain.mk (Dict.set (receipt_of r) r (reports s)) (set_add (receipt_of r) []))
                  (Plain.refresh (db_projections (cl_database s)))) ->
  project_report r s1 = (Ok tt, s2) -> commit commit_others s2 = (x, s3) ->
  match x with Err _ => cl_database s3 = cl_database s | Ok _ => received_as s e instance r s3 end.
Proof using.
  intros Hrest Hna Hins Hex Hrid Hid Hadm Hd1 Hcase Hp Hc. apply project_cases in Hp as (_ & Hd2 & Hr2 & Hp2).
  rewrite Hd1 in Hd2. destruct Hcase as [[Hrow Hu1]|[Hnew Hu1]].
  - assert (Hnone : accepted_record r = None).
    { unfold accepted_record. destruct (UploadedProgressReport.accepted_for_projection r) eqn:Ha; [|done].
      by rewrite (Hna r Hrow Ha Hrid) in Hex. }
    rewrite Hnone, Hu1 in Hp2. rewrite Hu1 in Hr2.
    assert (Hrest2 : at_rest s2) by (unfold at_rest; rewrite Hd2; destruct (cl_unit s2); cbn in *; by rewrite Hr2, Hp2).
    destruct (rest_unit s2 Hrest2) as [Hok Hpub]. apply (progress_commit_cases _ _ _ Hok) in Hc. destruct x; [|congruence].
    destruct Hc as [Hc Hrest3]. rewrite Hpub, Hd2 in Hc.
    split; [done..| |]; rewrite ?Hnone, ?Hc; [|done]. right. unfold reports. by rewrite Hc.
  - rewrite Hu1 in Hr2. cbn [u_reports] in Hr2.
    assert (HX : u_projections (cl_unit s2) = Plain.refresh (db_projections (cl_database s)) \/
              exists p, u_projections (cl_unit s2) = Plain.put (key_of p) p (Plain.refresh (db_projections (cl_database s)))).
    { rewrite Hp2, Hu1. repeat case_match; eauto. }
    assert (Hok : unit_ok (cl_unit s2)).
    { split; intros k.
      - rewrite Hr2. cbn [Plain.dirty Plain.records]. intros [->|?%elem_of_nil]%elem_set_add; [|done]. by rewrite get_set_eq.
      - destruct HX as [->|[p ->]]; [by intros ?%elem_of_nil|]. cbn [Plain.put Plain.dirty Plain.records Plain.refresh].
        intros [->|?%elem_of_nil]%elem_set_add; [|done]. by rewrite get_set_eq. }
    apply (progress_commit_cases _ _ _ Hok) in Hc. destruct x; [|congruence]. destruct Hc as [Hc Hrest3]. rewrite Hd2 in Hc.
    assert (Hrep : reports s3 = Dict.set (receipt_of r) r (reports s)).
    { unfold reports at 1. rewrite Hc. unfold published_database. cbn [db_reports]. rewrite Hr2. apply published_put. }
    assert (Hrows : rows (cl_unit s3) = rows (cl_unit s1)) by by rewrite (rows_at_rest s3 Hrest3), Hrep, Hu1.
    split; [done..|left; by split; [apply Hadm|]|].
    assert (Hl : forall a b c, list_for_project a b c (cl_unit s3) = list_for_project a b c (cl_unit s1))
      by (intros; unfold list_for_project; by rewrite Hrows).
    assert (Hup : u_projections (cl_unit s1) = Plain.refresh (db_projections (cl_database s))) by by rewrite Hu1.
    rewrite Hl, Hc. unfold published_database. cbn [db_projections]. rewrite Hp2, Hup. clear.
    destruct (accepted_record r); [|reflexivity].
    destruct (build_projection _) as [[p|]|]; [apply published_put|reflexivity..].
Qed.

Lemma receive_cases now e content instance requested declarations s x s' : at_rest s -> reports_ok (reports s) ->
  not_accepted s e -> receive_ now e content instance requested declarations s = (x, s') ->
  match x with
  | Err _ => cl_database s' = cl_database s
  | Ok c => exists r, received_as s e instance r s' /\ receipt r false = Ok c
  end.
Proof using.
  intros Hrest Ht Hna Hr. unfold receive in Hr.
  apply bind_inv in Hr as [(q & s1 & E & Hr)|(err & E & ->)]; [injection E as <- <-|done].
  apply bind_inv in Hr as [(f & s1 & E & Hr)|(err & E & ->)]; apply lift_inv in E as [Hf ->]; [|done].
  apply bind_inv in Hr as [(key & s1 & E & Hr)|(err & E & ->)]; apply lift_inv in E as [_ ->]; [|done].
  apply bind_inv in Hr as [(st & s1 & E & Hr)|(err & E & ->)]; apply contents_frame in E as [Hd1 Hu1]; [|done].
  apply bind_inv in Hr as [(at_ & s2 & E & Hr)|(err & E & ->)]; apply lift_inv in E as [_ ->]; [|done].
  apply bind_inv in Hr as [(id & s2 & E & Hr)|(err & E & ->)]; apply lift_inv in E as [Hid ->]; [|done].
  cbv zeta in Hr. match type of Hr with context [append ?y] => set (r := y) in * end.
  assert (Hrest1 : at_rest s1) by (unfold at_rest; by rewrite Hu1, Hd1).
  assert (Hreports : reports s1 = reports s) by (unfold reports; by rewrite Hd1).
  apply bind_inv in Hr as [([] & s2 & E & Hr)|(err & E & ->)]; apply (append_cases _ _ _ _ Hrest1) in E; [|congruence].
  rewrite Hd1, Hreports in E. destruct E as [Hd2 Hcase].
  apply bind_inv in Hr as [([] & s3 & E & Hr)|(err & E & ->)]; apply promote_frame in E as [Hd3 Hu3]; [|congruence].
  rewrite <- Hu3 in Hcase. rewrite Hd2 in Hd3.
  destruct (project_report r s3) as [y s4] eqn:Hp. pose proof (project_cases _ _ _ _ Hp) as (-> & Hd4 & _).
  unfold mbind at 1, M_bind at 1 in Hr. rewrite Hp in Hr.
  destruct (commit commit_others s4) as [y s5] eqn:Hc.
  pose proof (receive_stored s s3 s4 s5 e instance r y Hrest Hna eq_refl) as Hst.
  assert (Hall : match y with Err _ => cl_database s5 = cl_database s | Ok _ => received_as s e instance r s5 end).
  { apply Hst; [|reflexivity|exact Hid| |exact Hd3|exact Hcase|exact Hp|exact Hc].
    - unfold exactly. subst r. cbn. by rewrite !String.eqb_refl.
    - intros Hnew. by eapply (uploaded_admissible s e content instance requested f id key at_ r). }
  unfold mbind at 1, M_bind at 1 in Hr. rewrite Hc in Hr. destruct y as [[]|err]; [|by injection Hr as <- <-].
  injection Hr as <- <-. destruct (receipt_defined r false) as (c & Hrc & _). rewrite Hrc. by exists r.
Qed.

(** *** Every outcome of an upload *)

(** The accepted report of the envelope, if there is one. *)
Definition accepted_as s (e : Envelope.t) (r : upload) : Prop :=
  row (reports s) r /\ is_accepted r = true /\ report_of r = Envelope.report_id e /\ exactly e r = true.

Lemma exact_filter s e r : at_rest s -> reports_ok (reports s) ->
  r ∈ List.filter is_accepted (List.filter (exactly e) (list_by_report_id (Envelope.report_id e) (cl_unit s))) <->
  accepted_as s e r.
Proof using.
  intros Hrest Ht. rewrite !elem_List_filter. unfold list_by_report_id. rewrite elem_by_received, (rows_at_rest s Hrest), (elem_rows _ _ Ht).
  rewrite String.eqb_eq. unfold accepted_as. naive_solver.
Qed.

Lemma upload_cases now e requested declarations s x s' : at_rest s -> reports_ok (reports s) ->
  upload_ now e requested declarations s = (x, s') ->
  match x with
  | Err _ => cl_database s' = cl_database s
  | Ok c =>
      (exists r, accepted_as s e r /\ cl_database s' = cl_database s /\ at_rest s' /\ receipt r true = Ok c) \/
      (exists r instance, not_accepted s e /\ received_as s e instance r s' /\ receipt r false = Ok c /\
         resolve_workflow_identity (cl_others s) e None requested = Ok instance)
  end.
Proof using.
  intros Hrest Ht Hu. unfold upload_report in Hu.
  apply bind_inv in Hu as [(content & s1 & E & Hu)|(err & E & ->)]; apply lift_inv in E as [_ ->]; [|done].
  apply bind_inv in Hu as [(derivation & s1 & E & Hu)|(err & E & ->)]; apply lift_inv in E as [_ ->]; [|done].
  apply bind_inv in Hu as [(q & s1 & E & Hu)|(err & E & ->)]; [injection E as <- <-|done].
  pose proof (fun r => exact_filter s e r Hrest Ht) as Hin.
  destruct (List.filter is_accepted _) as [|r [|r' l]]; [| |by injection Hu as <- <-].
  - assert (Hna : not_accepted s e).
    { intros r Hr Ha Hid. destruct (exactly e r) eqn:Hex; [|done]. exfalso. apply (not_elem_of_nil r), Hin. done. }
    unfold receive_new in Hu. apply bind_inv in Hu as [(q & s1 & E & Hu)|(err & E & ->)]; [injection E as <- <-|done].
    apply bind_inv in Hu as [(instance & s1 & E & Hu)|(err & E & ->)]; apply lift_inv in E as [Hins ->]; [|done].
    assert (Hnone : List.filter is_accepted (option_list (find_exact e instance (cl_unit s))) = []).
    { unfold find_exact. rewrite (rows_at_rest s Hrest). destruct (List.find _ _) as [r|] eqn:Hf; [|done].
      apply List.find_some in Hf as [Hr Hf]. apply list_elem_of_In, (elem_rows _ _ Ht) in Hr.
      apply andb_true_iff in Hf as [[Hex _]%andb_true_iff Hid%String.eqb_eq].
      cbn. destruct (is_accepted r) eqn:Ha; [|done]. by rewrite (Hna r Hr Ha Hid) in Hex. }
    rewrite Hnone in Hu. apply (receive_cases _ _ _ _ _ _ _ _ _ Hrest Ht Hna) in Hu. destruct x; [|done]. right. naive_solver.
  - apply (answer_cases _ _ _ _ _ _ Hrest) in Hu as [Hd Hu]. destruct x as [c|]; [|done].
    destruct (Hu c eq_refl) as [Hr Hc]. left. exists r. split; [apply Hin; by left|done].
Qed.
End service.

(** ** Any sequence of uploads *)

#[local] Opaque receipt_name receipt_id_of canonical_hash.

Section uploads.
Context {C : Type} `{ContentStorage C} {W D : Type}.
Context (normalize : string -> res record).
Context (resolve_workflow_identity : W -> Envelope.t -> option record -> option string -> res string).
Context (artifact_references : option (ArtifactReferences W D)).
Context (commit_others : M exn W unit).
Implicit Types (s : @cloud C W).

Abbreviation upload_now := (upload_report normalize resolve_workflow_identity artifact_references commit_others).

(** One call, or a change of what the reports do not own. A call that raises
    leaves its unit of work behind. *)
Inductive step : @cloud C W -> @cloud C W -> Prop :=
  | step_answered now e requested declarations s c s' :
      upload_now now e requested declarations s = (Ok c, s') -> step s s'
  | step_raised now e requested declarations s x s' :
      upload_now now e requested declarations s = (Err x, s') -> step s (dropped s')
  | step_elsewhere s c w : step s (dropped (Cloud c w (cl_database s) (cl_unit s))).

Definition empty s : Prop := s = dropped s /\ cl_database s = ProgressDatabase [] [].

Definition sound s : Prop := at_rest s /\ reports_ok (reports s).

Lemma dropped_at_rest s : at_rest (dropped s).
Proof using. done. Qed.

(** Rows are appended, and each is what the chain rule admits. *)
Lemma step_rows s s' : sound s -> step s s' ->
  sound s' /\ (forall r, row (reports s) r -> row (reports s') r).
Proof using.
  intros [Hrest Ht] Hs. destruct Hs as [now e q d s c s' Hu|now e q d s x s' Hu|s c w].
  - apply upload_cases in Hu as [(r & _ & Hd & Hr & _)|(r & ins & _ & Hrec & _)]; [..|done|done].
    + unfold sound, reports. rewrite Hd. done.
    + destruct Hrec as [Hr _ _ _ Hrep _]. unfold sound. destruct Hrep as [[Ha ->]|(_ & _ & ->)]; [|done].
      split; [split; [done|by apply admit_reports]|].
      intros y Hy. apply row_set; [apply Ha|by right].
  - apply upload_cases in Hu; [|done..]. unfold sound, reports. cbn. by rewrite Hu.
  - done.
Qed.

Lemma steps_rows s s' : sound s -> rtc step s s' ->
  sound s' /\ (forall r, row (reports s) r -> row (reports s') r).
Proof using.
  intros Hs. induction 1 as [s|s1 s2 s3 H12 _ IH]; [done|].
  destruct (step_rows _ _ Hs H12) as [Hs2 Hr2]. destruct (IH Hs2) as [Hs3 Hr3]. split; [done|auto].
Qed.

Lemma nothing_sound s : empty s -> sound s.
Proof using.
  intros [He Hd]. split; [unfold at_rest; by rewrite He|]. unfold reports. rewrite Hd. apply empty_reports_ok.
Qed.

Lemma uploads_sound s0 s : empty s0 -> rtc step s0 s -> sound s.
Proof using. intros He Hs. by apply (steps_rows s0 s (nothing_sound _ He)). Qed.

Lemma row_receipt s r e : reports_ok (reports s) -> row (reports s) r -> exactly e r = true ->
  report_of r = Envelope.report_id e -> receipt_id_of e = Ok (receipt_of r).
Proof using.
  intros Ht Hr Hex Hid. rewrite <- (ro_receipt _ Ht _ Hr). unfold exactly in Hex.
  rewrite !andb_true_iff, !String.eqb_eq in Hex. destruct Hex as [[[[Hp Hk] Hs] Hc] Ho].
  Transparent receipt_id_of. unfold receipt_id_of, receipt_name_of. Opaque receipt_id_of.
  by rewrite Hp, Hk, Hs, Hc, Ho, Hid.
Qed.

(** C10: Whatever is uploaded, answered or refused, an accepted report of round
    [n] stands on a chain of exactly [n] accepted and stored reports of its
    workflow instance: the first is of round 1 and names no predecessor, and
    each names the one before it and continues its process. *)
Theorem accepted_reports_linked s0 s r n : empty s0 -> rtc step s0 s -> row (reports s) r ->
  accepted_record r = Some n ->
  exists l, linked (row (reports s)) l r /\ Z.of_nat (List.length l) = round n.
Proof using. intros He Hs Hr Hn. destruct (uploads_sound _ _ He Hs) as [_ Ht]. by apply (ro_linked _ Ht). Qed.


(** What the service does with a report it has refused (its own comment wants
    the report validated again on a retry): the row is kept, and as long as it is
    there no upload of the same report is accepted, since the receipt it would be
    stored under is the refused row's. *)
Lemma rejected_report_locked_out s0 s s1 s2 r now e requested declarations c : empty s0 -> rtc step s0 s ->
  row (reports s) r -> is_accepted r = false -> receipt_id_of e = Ok (receipt_of r) -> rtc step s s1 ->
  upload_now now e requested declarations s1 = (Ok c, s2) ->
  row (reports s1) r /\ ProgressUploadReceipt.accepted_for_projection c = false.
Proof using.
  intros He Hs Hr Ha Hid Hs1 Hu. destruct (steps_rows s s1 (uploads_sound _ _ He Hs) Hs1) as [[Hrest Ht] Hkeep].
  apply Hkeep in Hr. split; [done|]. apply upload_cases in Hu; [|done..].
  assert (Hsame : forall r', row (reports s1) r' -> receipt_of r' = receipt_of r -> r' = r)
    by (unfold row; intros r' Hr' Heq; rewrite Heq in Hr'; congruence).
  destruct Hu as [(r' & (Hr' & Hacc & Hrid & Hex) & _)|(r' & ins & _ & [_ Hid' _ _ Hrep _] & Hc & _)].
  - apply (row_receipt _ _ _ Ht Hr' Hex) in Hrid. rewrite Hid in Hrid. injection Hrid as Hrid.
    rewrite (Hsame r' Hr') in Hacc by done. congruence.
  - rewrite Hid in Hid'. injection Hid' as Hid'. destruct Hrep as [[Had _]|(Hr' & _ & _)].
    + pose proof (ad_new _ _ Had) as Hn. rewrite <- Hid' in Hn. unfold row in Hr. congruence.
    + rewrite (Hsame r' Hr') in Hc by done. destruct (receipt_defined r false) as (c' & Hc' & _ & Hb & _).
      rewrite Hc' in Hc. injection Hc as <-. by rewrite Hb.
Qed.

(** *** Replays *)

(** Each row is listed once. *)
Lemma values_NoDup (t : dict string upload) : reports_ok t -> NoDup (Dict.values t).
Proof using.
  intros Ht. apply (NoDup_fmap_1 receipt_of). replace (receipt_of <$> Dict.values t) with (Dict.keys t); [apply Ht|].
  assert (Hk : forall k r, (k, r) ∈ t -> receipt_of r = k).
  { intros k r Hin. apply (ro_ids _ Ht). by apply elem_get; [apply Ht|]. }
  unfold Dict.keys, Dict.values. clear Ht. induction t as [|[k r] t IH]; [done|]. cbn. f_equal.
  - symmetry. apply Hk. by left.
  - apply IH. intros k' r' Hin. apply Hk. by right.
Qed.

Lemma singleton_of {A} (l : list A) x : NoDup l -> x ∈ l -> (forall y, y ∈ l -> y = x) -> l = [x].
Proof using.
  intros Hn Hx Hall. destruct l as [|y [|z l]]; [by apply elem_of_nil in Hx|by rewrite (Hall y) by left|].
  rewrite (Hall y), (Hall z) in Hn by set_solver. apply NoDup_cons in Hn as [Hn _]. by destruct Hn; left.
Qed.

Lemma NoDup_filter_b {A} (p : A -> bool) l : NoDup l -> NoDup (List.filter p l).
Proof using. rewrite !NoDup_ListNoDup. apply List.NoDup_filter. Qed.

Lemma accepted_alone s e r : sound s -> accepted_as s e r ->
  List.filter is_accepted (List.filter (exactly e) (list_by_report_id (Envelope.report_id e) (cl_unit s))) = [r].
Proof using.
  intros [Hrest Ht] Hr. apply singleton_of.
  - do 2 apply NoDup_filter_b. unfold list_by_report_id, by_received. rewrite sort_by_perm.
    apply NoDup_filter_b. rewrite (rows_at_rest _ Hrest). by apply values_NoDup.
  - by apply exact_filter.
  - intros y (Hy & Hya & Hyid & _)%exact_filter; [|done..]. destruct Hr as (Hr & Hra & Hrid & _).
    assert (Hacc : forall z, row (reports s) z -> is_accepted z = true -> accepted_record z <> None)
      by (intros z Hz Hza; by apply (ro_accepted _ Ht)).
    apply (ro_distinct _ Ht); [done|done|by apply Hacc|by apply Hacc|congruence].
Qed.

(** An accepted answer is about an accepted report that is stored. *)
Lemma answer_stored now e requested declarations s c s' : sound s ->
  upload_now now e requested declarations s = (Ok c, s') -> ProgressUploadReceipt.accepted_for_projection c = true ->
  exists r, accepted_as s' e r /\ ProgressUploadReceipt.receipt_id c = receipt_of r.
Proof using.
  intros [Hrest Ht] Hu Ha.
  assert (Hc : forall r b, receipt r b = Ok c ->
      is_accepted r = true /\ ProgressUploadReceipt.receipt_id c = receipt_of r).
  { intros r b Hr. destruct (receipt_defined r b) as (c' & Hc' & Hi & Hb & _). rewrite Hc' in Hr. injection Hr as ->.
    unfold is_accepted. by rewrite <- Hb. }
  apply upload_cases in Hu; [|done..]. destruct Hu as [(r & Hr & Hd & _ & [_ Hid]%Hc)|(r & ins & _ & [_ _ Hex _ Hrep _] & [Hra Hid]%Hc & _)].
  - exists r. split; [|done]. unfold accepted_as, reports. by rewrite Hd.
  - exists r. split; [|done]. destruct Hex as [Hex Hrid]. split_and!; [|done..].
    destruct Hrep as [[Had ->]|(Hr & _ & ->)]; [|done]. apply row_set; [apply Had|by left].
Qed.
(** Without a derivation a replay only looks at the artifacts. *)
Lemma answer_plain r declarations s x s' :
  answer_replay artifact_references commit_others r declarations None s = (x, s') -> s' = s.
Proof using.
  intros H1. unfold answer_replay in H1. apply bind_inv in H1 as [(d & s1 & E & H1)|(e & E & ->)];
    [injection E as <- <-|by injection E as _ <-].
  assert (Hsame : forall (y : res unit) s2, assert_artifact_replay artifact_references (receipt_of r) declarations s = (y, s2) -> s2 = s).
  { intros y s2. unfold assert_artifact_replay. destruct artifact_references; [|by destruct (negb _); intros [= _ <-]].
    unfold mbind, M_bind. by intros [= _ <-]. }
  apply bind_inv in H1 as [([] & s2 & E & H1)|(e & E & ->)]; apply Hsame in E as ->; [|done].
  by injection H1 as _ <-.
Qed.

(** What an upload of an accepted report comes to. *)
Lemma upload_is_replay now e requested declarations s r content : sound s -> accepted_as s e r ->
  Envelope.original_report_bytes e = Ok content ->
  upload_now now e requested declarations s =
    match derivation_record normalize artifact_references content declarations with
    | Ok derivation => answer_replay artifact_references commit_others r declarations derivation s
    | Err x => (Err x, s)
    end.
Proof using.
  intros Hs Hr Hc. unfold upload_report. rewrite Hc. unfold mbind at 1, M_bind at 1, lift_result at 1.
  unfold mbind at 1, M_bind at 1, lift_result at 1. destruct (derivation_record _ _ _ _) as [d|x]; [|done].
  unfold mbind at 1, M_bind at 1, get_state at 1. by rewrite (accepted_alone s e r Hs Hr).
Qed.

(** C12: An accepted upload is never received a second time: at any later time,
    with or without a service of artifact references and whatever artifacts are
    declared, an upload of the same report leaves the tables of reports and
    projections as they are.  If it answers, the answer is the accepted receipt
    of the report first stored, marked as a replay and with a checksum that
    verifies, and nothing is left staged.  It can only raise where artifacts are
    concerned: without such a service and without declarations it always answers.
    Anything outside those tables can only change where the service derives
    declarations the upload did not make. *)
Theorem accepted_upload_replays s0 s now e requested declarations c s1 s2 now' requested' declarations' x s3 :
  empty s0 -> rtc step s0 s ->
  upload_now now e requested declarations s = (Ok c, s1) -> ProgressUploadReceipt.accepted_for_projection c = true ->
  rtc step s1 s2 -> upload_now now' e requested' declarations' s2 = (x, s3) ->
  cl_database s3 = cl_database s2 /\
  (artifact_references = None \/ declarations' <> [] -> s3 = s2) /\
  match x with
  | Ok c' => at_rest s3 /\ ProgressUploadReceipt.receipt_id c' = ProgressUploadReceipt.receipt_id c /\
      ProgressUploadReceipt.accepted_for_projection c' = true /\
      ProgressUploadReceipt.idempotent_replay c' = true /\ ProgressUploadReceipt.verify_checksum c' = Ok true
  | Err _ => artifact_references <> None \/ declarations' <> []
  end.
Proof using.
  intros He Hs Hu Ha Hs2 Hu3. pose proof (uploads_sound _ _ He Hs) as Hsound.
  assert (Hbytes : exists content, Envelope.original_report_bytes e = Ok content).
  { unfold upload_report in Hu. apply bind_inv in Hu as [(content & s' & E & _)|(err & _ & ?)]; [|done].
    apply lift_inv in E as [E _]. by exists content. }
  destruct (step_rows _ _ Hsound (step_answered _ _ _ _ _ _ _ Hu)) as [Hsound1 _].
  destruct (steps_rows _ _ Hsound1 Hs2) as [Hsound2 Hkeep].
  destruct (answer_stored _ _ _ _ _ _ _ Hsound Hu Ha) as (r & (Hr & Hra & Hrid & Hex) & Hc). apply Hkeep in Hr.
  destruct Hbytes as [content Hcontent].
  rewrite (upload_is_replay _ _ _ _ s2 r content Hsound2 ltac:(by split) Hcontent) in Hu3.
  destruct (receipt_defined r true) as (c' & Hc' & Hi & Hb & Hrep & Hv).
  assert (Hplain : artifact_references = None \/ declarations' <> [] ->
    derivation_record normalize artifact_references content declarations' = Ok None).
  { unfold derivation_record. by intros [->|Hne]; destruct artifact_references, declarations'. }
  split; [|split].
  - destruct (derivation_record _ _ _ _) as [d|]; [|by injection Hu3 as _ <-].
    by apply (answer_cases _ _ _ _ _ _ _ _ (proj1 Hsound2)) in Hu3 as [Hd _].
  - intros Hp. rewrite (Hplain Hp) in Hu3. by apply answer_plain in Hu3.
  - destruct x as [c3|err].
    + destruct (derivation_record _ _ _ _) as [d|]; [|done].
      apply (answer_cases _ _ _ _ _ _ _ _ (proj1 Hsound2)) in Hu3 as [_ Hok]. destruct (Hok c3 eq_refl) as [Hrest Hc3].
      rewrite Hc' in Hc3. injection Hc3 as <-. by rewrite Hi, Hb, Hrep, Hc.
    + destruct artifact_references as [a|] eqn:Har; [by left|right]. intros ->.
      unfold derivation_record, answer_replay, assert_artifact_replay, mbind, M_bind, lift_result in Hu3.
      cbn [mret M_ret List.length Nat.eqb negb raise_if] in Hu3. by rewrite Hc' in Hu3.
Qed.
End uploads.
