(* ===== verification/ProjectionFacts.v ===== *)
(** The stored projections and the workflow instances they are made for: a
    projection that is read is the one that is stored, and the one the accepted
    reports give. *)
From S2P Require Import Prelude Errors Text Float Value Json Sha256 Lifecycle Lexical Calendar Canonical Dict Tables TableFacts Repositories RepositoryFacts Order Contents Progress ProgressService ProgressIdentity ProgressFacts ProgressHistory.
From Stdlib Require Import String.
Local Open Scope string_scope.
Local Open Scope list_scope.
Local Open Scope Z_scope.
Import ReportRepository.

#[local] Opaque receipt_name receipt_id_of canonical_hash.

(** ** The identity of an upload *)

Section identity.
Context {W : Type} `{IdentityRepositories W}.

Lemma bound_instance_Ok artifacts legacy legacy_id requested id :
  bound_instance artifacts legacy legacy_id requested = Ok id ->
  ((exists a, a ∈ artifacts /\ ca_workflow_instance_id a = id) \/ (id = legacy_id /\ legacy = true)) /\
  match requested with
  | Some i => id = i
  | None => forall a, a ∈ artifacts -> ca_workflow_instance_id a = id
  end.
Proof using.
  unfold bound_instance. destruct requested as [i|].
  - destruct (existsb _ artifacts) eqn:He; cbn [negb andb].
    + intros [= ->]. split; [left|done]. apply existsb_exists in He as (a & Ha & Hi%String.eqb_eq).
      exists a. by rewrite list_elem_of_In.
    + destruct (legacy && String.eqb i legacy_id) eqn:Hl; [|done]. intros [= ->].
      apply andb_true_iff in Hl as [-> ->%String.eqb_eq]. split; [by right|done].
  - destruct artifacts as [|a [|b l]]; [destruct legacy; [|done]|..|done]; intros [= <-].
    + split; [by right|]. by intros a ?%elem_of_nil.
    + split; [left; exists a; by split; [left|]|]. by intros b ->%list_elem_of_singleton.
Qed.

(** C36: The workflow instance a report is filed under is registered, belongs to
    the project of the upload, and runs the workflow the report names; the
    package is bound to it, and when none was asked for it is the only instance
    the package's artifacts name: an ambiguous package is never resolved. *)
Theorem resolved_instance_is_bound w e normalized requested id : resolve w e normalized requested = Ok id ->
  exists bound_id i, bound w e bound_id /\ get_workflow_instance bound_id w = Some i /\
    id = wi_workflow_instance_id i /\ wi_project_id i = Envelope.project_id e /\
    (forall n, normalized = Some n -> agrees e n i = true) /\
    match requested with
    | Some asked => bound_id = asked
    | None => forall a, a ∈ list_capsule_artifacts (Envelope.project_id e) w -> of_package e a = true ->
                ca_workflow_instance_id a = bound_id
    end.
Proof using.
  unfold resolve. destruct (project_registered _ w); [|done]. destruct (local_project _ w) as [package|] eqn:Hp; [|done].
  destruct (bound_instance _ _ _ requested) as [bound_id|] eqn:Hb; cbn [mbind result_bind]; [|done].
  destruct (get_workflow_instance bound_id w) as [i|] eqn:Hi; [|done].
  destruct (String.eqb (wi_project_id i) _) eqn:Hpr; cbn [negb]; [|done]. apply String.eqb_eq in Hpr.
  destruct (match normalized with Some n => _ | None => false end) eqn:Hn; [done|]. cbn [mbind result_bind].
  intros [= <-]. exists bound_id, i. apply bound_instance_Ok in Hb as [Hb Hr].
  assert (Hin : forall a, a ∈ exact_artifacts w e <->
            a ∈ list_capsule_artifacts (Envelope.project_id e) w /\ of_package e a = true)
    by (intros a; apply elem_List_filter).
  split_and!; [|done..| |].
  - destruct Hb as [(a & [Ha1 Ha2]%Hin & Ha)|[-> Hl]]; [left; by exists a|right]. split; [done|].
    destruct package as [p|]; [|done]. by exists p.
  - intros n ->. by apply negb_false_iff in Hn.
  - destruct requested; [done|]. intros a Ha1 Ha2. apply Hr, Hin. by split.
Qed.
End identity.

(** ** The stored projections *)











(** *** Where each package has one workflow instance *)





Section homes.
Context (home : string -> string -> string).



End homes.

Section projections.
Context {C : Type} `{ContentStorage C} {W D : Type}.
Context (normalize : string -> res record).
Context (resolve_workflow_identity : W -> Envelope.t -> option record -> option string -> res string).
Context (artifact_references : option (ArtifactReferences W D)).
Context (commit_others : M exn W unit).
Context (home : string -> string -> string).
Context (resolves_home : forall w e n requested i, resolve_workflow_identity w e n requested = Ok i ->
  i = home (Envelope.project_id e) (Envelope.package_id e)).
Implicit Types (s : @cloud C W).

Abbreviation step_ := (step normalize resolve_workflow_identity artifact_references commit_others).



End projections.
