(* ===== verification/ProgressExamples.v ===== *)
(** Concrete uploads of progress reports: the witnesses of the theorems, and the
    report that arrives before its predecessor. *)
From S2P Require Import Prelude Errors Text Float Value Json Sha256 Lifecycle Lexical Calendar Canonical Dict Tables TableFacts Repositories RepositoryFacts Order Contents Progress ProgressService ProgressIdentity ProgressFacts ProgressHistory ProjectionFacts.
From Stdlib Require Import String.
Local Open Scope string_scope.
Local Open Scope list_scope.
Local Open Scope Z_scope.
Import ReportRepository.

Module ProgressWitness.
(** Of the example, the contents are kept in a dict, and a report is known by
    its bytes. *)
#[local] Instance kept_contents : ContentStorage (dict string string) := {
  write_immutable key content media c :=
    (Ok (StoredContent key (sha256_bytes content) (Z.of_nat (String.length content)) media), Dict.set key content c);
  read_content key c := Dict.item key c;
  verify_content key checksum size c :=
    content ← Dict.item key c;
    Ok (Verification (String.eqb (sha256_bytes content) checksum && (Z.of_nat (String.length content) =? size))
          (sha256_bytes content) (Z.of_nat (String.length content)))
}.

Definition digest : string := ZERO_HASH.

Definition make_record (id : string) (round_ : Z) (previous : option string) (status : ProgressStatus.t) : record :=
  NormalizedProgressRecord.mk "normalized-progress-record/v0.2" PROGRESS_REPORT_SCHEMA_V2 "reagent-progress-normalizer/0.2.0"
    id digest None digest "package-a" None digest "project-a" "workflow-a" "1.0.0" None round_ "codex" None None previous None
    "2026-01-01T00:00:00Z" "2026-01-01T00:01:00Z" status ["Read a paper"] "Reading" "Read on" (Some "A new request") []
    None None None [] [] [] [] [] [] None "EXPERIMENTAL_PROGRESS_REPORT_V0_2" [] [] [] ChainState.VALID_CHAIN.

(** A checkpoint of round 1, the completed report of round 1 and one of round 2. *)
Definition normalize (content : string) : res record :=
  if String.eqb content "one" then Ok (make_record "one" 1 None ProgressStatus.IN_PROGRESS)
  else if String.eqb content "two" then Ok (make_record "two" 1 None ProgressStatus.COMPLETED)
  else if String.eqb content "six" then Ok (make_record "six" 2 (Some "two") ProgressStatus.COMPLETED)
  else Err (Exn PyValueError "not a report").

Definition envelope (id encoded checksum : string) : Envelope.t :=
  Envelope.mk UPLOAD_SCHEMA_VERSION "project-a" "package-a" digest PROGRESS_REPORT_SCHEMA_V2 id digest "application/json" encoded
    ("sha256:" +:+ checksum) 3 "2026-01-01T00:02:00Z" "local" "1" "report.json" None digest.

Definition one : Envelope.t :=
  envelope "one" "b25l" "7692c3ad3540bb803c020b3aee66cd8887123234ea0c6e7143c0add73ff431ed".
Definition two : Envelope.t :=
  envelope "two" "dHdv" "3fc4ccfe745870e2c0d99f71f30ff0656c8dedd41cc1d7d3d376b0dbe685e2f3".
Definition six : Envelope.t :=
  envelope "six" "c2l4" "44778d82365e4af681c40d5f0eef5cf6f5899d3f0ac335050a7ed6779cf3f674".

Definition state : Type := @cloud (dict string string) unit.
Definition home (project package : string) : string := "wfi".
Definition resolve_home (w : unit) (e : Envelope.t) (n : option record) (requested : option string) : res string :=
  Ok (home (Envelope.project_id e) (Envelope.package_id e)).

Definition at_ (n : Z) : datetime := Datetime (1767225600000000 + n * 1000000) true.
Abbreviation upload_at n e := (upload_report (C:=dict string string) (W:=unit) (D:=unit) normalize resolve_home None
  (mret tt) (at_ n) e None []).

Definition nothing : state := Cloud [] tt (ProgressDatabase [] []) (open_unit (ProgressDatabase [] [])).
Definition first_state : state := (upload_at 1 one nothing).2.
Definition second_state : state := (upload_at 2 two first_state).2.
Definition third_state : state := (upload_at 3 six second_state).2.
(** Round 2 arrives first. *)
Definition early_state : state := (upload_at 1 six nothing).2.
Definition late_state : state := (upload_at 2 two early_state).2.

Abbreviation step_ := (step (D:=unit) normalize resolve_home None (mret tt)).

(** ** What is computed *)

Definition accepts (x : res ProgressUploadReceipt.t) : bool :=
  match x with Ok c => ProgressUploadReceipt.accepted_for_projection c | Err _ => false end.
Definition refuses (x : res ProgressUploadReceipt.t) : bool :=
  match x with Ok c => negb (ProgressUploadReceipt.accepted_for_projection c) | Err _ => false end.
Definition is_duplicate (x : res ProgressUploadReceipt.t) : bool :=
  match x with Ok _ => false | Err e => bool_decide (exn_kind e = DuplicateEntityError) end.

(** The accepted rows: identifier, round and status. *)
Definition accepted_rows (s : state) : list (string * Z * ProgressStatus.t) :=
  omap (fun r => (fun n => (report_of r, round n, NormalizedProgressRecord.status n)) <$> accepted_record r)
    (Dict.values (reports s)).

Lemma three_uploads :
  accepts (upload_at 1 one nothing).1 && accepts (upload_at 2 two first_state).1
  && accepts (upload_at 3 six second_state).1
  && bool_decide (accepted_rows third_state =
       [("one", 1, ProgressStatus.IN_PROGRESS); ("two", 1, ProgressStatus.COMPLETED); ("six", 2, ProgressStatus.COMPLETED)])
  = true.
Proof. vm_compute. reflexivity. Qed.
Definition filed_under (e : Envelope.t) (r : upload) : bool :=
  match receipt_id_of e with Ok id => String.eqb id (receipt_of r) | Err _ => false end.

Lemma early_upload :
  refuses (upload_at 1 six nothing).1 && refuses (upload_at 1 six early_state).1
  && accepts (upload_at 2 two early_state).1 && is_duplicate (upload_at 3 six late_state).1
  && negb (Nat.eqb (List.length (Dict.values (reports early_state))) 0)
  && forallb (fun r => negb (is_accepted r) && filed_under six r)
       (Dict.values (reports early_state)) = true.
Proof. vm_compute. reflexivity. Qed.

(** ** The histories *)

Lemma accepts_Ok n e s : accepts (upload_at n e s).1 = true ->
  exists c, upload_at n e s = (Ok c, (upload_at n e s).2) /\ ProgressUploadReceipt.accepted_for_projection c = true.
Proof. destruct (upload_at n e s) as [[c|x] s']; [|done]. intros H. by exists c. Qed.

Lemma accepts_step n e s : accepts (upload_at n e s).1 = true -> step_ s (upload_at n e s).2.
Proof. intros (c & Hc & _)%accepts_Ok. exact (step_answered _ _ _ _ (at_ n) e None [] s c _ Hc). Qed.

Lemma nothing_empty : empty nothing.
Proof. done. Qed.

Lemma three_steps : step_ nothing first_state /\ step_ first_state second_state /\ step_ second_state third_state /\
  accepted_rows third_state =
    [("one", 1, ProgressStatus.IN_PROGRESS); ("two", 1, ProgressStatus.COMPLETED); ("six", 2, ProgressStatus.COMPLETED)] /\
  exists c, upload_at 1 one nothing = (Ok c, first_state) /\ ProgressUploadReceipt.accepted_for_projection c = true.
Proof.
  pose proof three_uploads as H. apply andb_true_iff in H as [[[H1 H2]%andb_true_iff H3]%andb_true_iff H4%bool_decide_eq_true].
  split_and!; [exact (accepts_step _ _ _ H1)|exact (accepts_step _ _ _ H2)|exact (accepts_step _ _ _ H3)|exact H4|exact (accepts_Ok _ _ _ H1)].
Qed.

#[local] Opaque upload_report first_state second_state third_state early_state late_state.

Lemma third_history : rtc step_ nothing third_state.
Proof. destruct three_steps as (H1 & H2 & H3 & _). exact (rtc_l _ _ _ _ H1 (rtc_l _ _ _ _ H2 (rtc_once _ _ H3))). Qed.

Lemma accepted_row s id k st : rtc step_ nothing s -> (id, k, st) ∈ accepted_rows s ->
  exists r n, row (reports s) r /\ accepted_record r = Some n /\ report_of r = id /\ round n = k.
Proof.
  intros Hs. destruct (uploads_sound _ _ _ _ _ _ nothing_empty Hs) as [_ Ht].
  intros (r & Hr & Hk)%list_elem_of_omap. apply (elem_rows _ _ Ht) in Hr.
  destruct (accepted_record r) as [n|] eqn:Hn; [|done]. cbn in Hk. injection Hk as <- <- _. by exists r, n.
Qed.

Lemma third_rows (i : nat) x : [("one", 1, ProgressStatus.IN_PROGRESS); ("two", 1, ProgressStatus.COMPLETED);
    ("six", 2, ProgressStatus.COMPLETED)] !! i = Some x -> x ∈ accepted_rows third_state.
Proof. destruct three_steps as (_ & _ & _ & -> & _). apply list_elem_of_lookup_2. Qed.

Lemma accepted_reports_linked_witness : exists r n, accepted_record r = Some n /\ round n = 2 /\
  exists l, linked (row (reports third_state)) l r /\ Z.of_nat (List.length l) = round n.
Proof.
  destruct (accepted_row third_state "six" 2 ProgressStatus.COMPLETED third_history (third_rows 2 _ eq_refl))
    as (r & n & Hr & Hn & _ & Hk).
  exists r, n. split; [exact Hn|]. split; [exact Hk|].
  exact (accepted_reports_linked _ _ _ _ nothing third_state r n nothing_empty third_history Hr Hn).
Defined.


(** The first report, uploaded again after the others: the same receipt. *)
Lemma accepted_upload_replays_witness : exists c c', upload_at 1 one nothing = (Ok c, first_state) /\
  upload_at 9 one third_state = (Ok c', third_state) /\
  ProgressUploadReceipt.receipt_id c' = ProgressUploadReceipt.receipt_id c /\
  ProgressUploadReceipt.idempotent_replay c' = true.
Proof.
  destruct three_steps as (_ & H2 & H3 & _ & c & Hc & Ha).
  destruct (upload_at 9 one third_state) as [x s3] eqn:H9.
  destruct (accepted_upload_replays (D:=unit) normalize resolve_home None (mret tt) nothing nothing (at_ 1) one None [] c
    first_state third_state (at_ 9) None [] x s3 nothing_empty (rtc_refl _ _) Hc Ha
    (rtc_l _ _ _ _ H2 (rtc_once _ _ H3)) H9) as (_ & Hsame & Hx).
  rewrite (Hsame (or_introl eq_refl)). destruct x as [c'|e].
  - exists c, c'. split; [exact Hc|]. split; [reflexivity|]. split; [exact (proj1 (proj2 Hx))|].
    exact (proj1 (proj2 (proj2 (proj2 Hx)))).
  - exfalso. destruct Hx as [Hx|Hx]; exact (Hx eq_refl).
Defined.


(** A report that arrives before its predecessor is lost: it is refused, and
    once its predecessor has been accepted it is still not accepted: a retry
    raises, because the receipt it would be stored under is taken by the refusal. *)
Theorem early_report_is_lost :
  refuses (upload_at 1 six nothing).1 = true /\ accepts (upload_at 2 two early_state).1 = true /\
  is_duplicate (upload_at 3 six late_state).1 = true.
Proof.
  pose proof early_upload as H.
  apply andb_true_iff in H as [[[[[H1 _]%andb_true_iff H3]%andb_true_iff H4]%andb_true_iff _]%andb_true_iff _].
  split; [exact H1|]. split; [exact H3|exact H4].
Qed.

(** ** The projection *)

Definition row_of (id : string) (round_ : Z) : upload :=
  uploaded_report (envelope id "" "") id "wfi" "" "2026-01-01T00:03:00Z"
    (Findings (Some (make_record id round_ None ProgressStatus.COMPLETED)) [] [] []) (Some (accepted_with ChainState.VALID_CHAIN [])).

Lemma two_reports_distinct : distinct_reports [row_of "one" 1; row_of "two" 2].
Proof.
  intros u v Hu Hv _ _ Hid. rewrite !elem_of_cons, !elem_of_nil in Hu, Hv.
  destruct Hu as [->|[->|[]]], Hv as [->|[->|[]]]; try reflexivity; discriminate.
Qed.

Lemma projection_order_independent_witness :
  build_projection [row_of "one" 1; row_of "two" 2] = build_projection [row_of "two" 2; row_of "one" 1].
Proof. exact (projection_order_independent _ _ two_reports_distinct (perm_swap _ _ _)). Defined.

Lemma projection_shows_latest_witness : exists p, build_projection [row_of "one" 1; row_of "two" 2] = Ok (Some p) /\
  ProjectProgressProjection.verify_checksum p = Ok true.
Proof.
  destruct (build_latest [row_of "one" 1; row_of "two" 2]) as (_ & _ & p & _ & _ & Hp & _).
  - exists (row_of "one" 1). split; [by left|discriminate].
  - exists p. split; [exact Hp|]. exact (proj2 (proj2 (proj2 (projection_shows_latest _ p Hp)))).
Defined.

(** ** The identity of an upload *)

(** One project, with one artifact of the package. *)
#[local] Instance one_artifact : IdentityRepositories unit := {
  project_registered project w := String.eqb project "project-a";
  local_project project w := if String.eqb project "project-a" then Some None else None;
  list_capsule_artifacts project w := [CapsuleArtifact "wfi" "package-a" digest];
  get_workflow_instance id w := if String.eqb id "wfi" then Some (WorkflowInstance "wfi" "project-a" "workflow-a" "1.0.0") else None
}.

Lemma one_resolved : resolve tt one None None = Ok "wfi".
Proof. vm_compute. reflexivity. Qed.

Lemma resolved_instance_is_bound_witness : resolve tt one None None = Ok "wfi" /\
  exists bound_id i, bound tt one bound_id /\ get_workflow_instance bound_id tt = Some i /\
    "wfi" = wi_workflow_instance_id i.
Proof.
  split; [exact one_resolved|].
  destruct (resolved_instance_is_bound tt one None None "wfi" one_resolved)
    as (b & i & Hb & Hi & Hw & _).
  exists b, i. split; [exact Hb|]. split; [exact Hi|exact Hw].
Defined.
End ProgressWitness.
