(* ===== verification/Resources.v ===== *)
(** [resource_references/]: the metadata of the external resources of a project,
    the requirements of workflows for resources, and the exact bindings of
    resources to the requirements of a workflow instance. The contracts of
    [contracts.py], the repository of [persistence/adapters/in_memory.py] with its
    part of the commit, and the service of [service.py], which reaches the projects and the workflow instances through the
    other tables of the unit of work. *)
From S2P Require Import Prelude Errors Text Value Json Sha256 Lifecycle Lexical Canonical Dict Tables Repositories Order ProgressIdentity.
From Stdlib Require Import Ascii String NArith.
Local Open Scope string_scope.
Local Open Scope list_scope.
Local Open Scope Z_scope.

Definition invalid {A} (message : string) : res A := Err (Exn PyValueError message).

(** [Enum(value)] *)
Definition enum_of {A} (name : string) (value : A -> string) (all : list A) (s : string) : res A :=
  match List.find (fun a => String.eqb (value a) s) all with
  | Some a => Ok a
  | None => invalid (py_repr s +:+ " is not a valid " +:+ name)
  end.

Module ResourceKind.
Inductive t := SOURCE_REPOSITORY | DATASET | MODEL | CHECKPOINT | GENERIC_FILE.
#[export] Instance eq_dec : EqDecision t.
Proof. solve_decision. Defined.
Definition value (k : t) : string :=
  match k with
  | SOURCE_REPOSITORY => "SOURCE_REPOSITORY" | DATASET => "DATASET" | MODEL => "MODEL"
  | CHECKPOINT => "CHECKPOINT" | GENERIC_FILE => "GENERIC_FILE"
  end.
Definition of_string : string -> res t :=
  enum_of "ResourceKind" value [SOURCE_REPOSITORY; DATASET; MODEL; CHECKPOINT; GENERIC_FILE].
End ResourceKind.
#[export] Existing Instance ResourceKind.eq_dec.

Module ResourceProvider.
Inductive t := GITHUB | HUGGING_FACE | LOCAL_TEST.
#[export] Instance eq_dec : EqDecision t.
Proof. solve_decision. Defined.
Definition value (p : t) : string :=
  match p with GITHUB => "GITHUB" | HUGGING_FACE => "HUGGING_FACE" | LOCAL_TEST => "LOCAL_TEST" end.
Definition of_string : string -> res t := enum_of "ResourceProvider" value [GITHUB; HUGGING_FACE; LOCAL_TEST].
End ResourceProvider.
#[export] Existing Instance ResourceProvider.eq_dec.

(** [ResourceLifecycle] and [ResourceBindingState] *)
Inductive resource_state := ACTIVE | RETIRED.
#[export] Instance resource_state_eq_dec : EqDecision resource_state.
Proof. solve_decision. Defined.

(** ** Lexical checks *)

Definition must_match (p : string -> bool) (s name : string) : res unit :=
  fail_if (negb (p s)) (Exn PyValueError (name +:+ " has an invalid canonical format")).

Definition bounded (s : string) (low high : Z) (name : string) : res unit :=
  fail_if (negb ((low <=? code_points s) && (code_points s <=? high)))
    (Exn PyValueError (name +:+ " length is outside the reviewed bound")).

Definition aware (at_ : datetime) (name : string) : res unit :=
  fail_if (negb (is_aware at_)) (Exn PyValueError (name +:+ " must be timezone-aware")).

(** A first character and then between [low] and [high] others. *)
Definition first_then (first rest : ascii -> bool) (low high : nat) (s : string) : bool :=
  match to_chars s with
  | c :: l => first c && forallb rest l && (low <=? List.length l)%nat && (List.length l <=? high)%nat
  | [] => false
  end.

Definition key_char (c : ascii) : bool :=
  is_lower c || is_digit c || Ascii.eqb c "." || Ascii.eqb c "_" || Ascii.eqb c "-".
Definition locator_char (c : ascii) : bool :=
  is_letter c || is_digit c || Ascii.eqb c "." || Ascii.eqb c "_" || Ascii.eqb c "-".

(** [_RESOURCE_ID], [_BINDING_ID], [_PROJECT_ID], [_INSTANCE_ID], [_KEY],
    [_SEMVER], [_COMMIT] and [_LOCAL_REVISION], as [fullmatch] decides them. *)
Definition is_resource_id : string -> bool := prefixed_hex "resource-" 32.
Definition is_binding_id : string -> bool := prefixed_hex "resource-binding-" 32.
Definition is_project_id : string -> bool := prefixed_hex "project-" 32.
Definition is_instance_id : string -> bool := prefixed_hex "wfi-" 32.
Definition is_key : string -> bool := first_then is_lower key_char 1 127.
Definition is_plain_semver (s : string) : bool :=
  let parts := split_chars "." (to_chars s) in
  (List.length parts =? 3)%nat && forallb is_version_number parts.
Definition is_commit (s : string) : bool := lower_hex_string 40 s || lower_hex_string 64 s.
Definition is_local_revision : string -> bool :=
  first_then (fun c => is_lower c || is_digit c) key_char 6 127.

(** [_LOCATOR] *)
Definition locator_part (high : nat) (l : list ascii) : bool :=
  (1 <=? List.length l)%nat && (List.length l <=? high)%nat && forallb locator_char l.
Definition is_locator (s : string) : bool :=
  match cut_chars "/" (to_chars s) with
  | (owner, Some name) => locator_part 120 owner && locator_part 180 name
  | (_, None) => false
  end.

Definition hostile_char (c : ascii) : bool :=
  ascii_space c || (code c <? 32)%N || existsb (Ascii.eqb c) (to_chars "$`;&|<>@?#%=").

(** [validate_locator]. White space above U+007F is not in the pattern either. *)
Definition validate_locator (provider : ResourceProvider.t) (locator : string) : res unit :=
  _ ← bounded locator 3 300 "locator";
  _ ← fail_if (negb (is_locator locator) || str_contains "://" locator || str_contains "\" locator
               || existsb hostile_char (to_chars locator))
        (Exn PyValueError "locator must be a credential-free provider identity");
  fail_if (bool_decide (provider = ResourceProvider.LOCAL_TEST) && negb (starts_with "fixture/" locator))
    (Exn PyValueError "LOCAL_TEST locator must use the fixture namespace").

Definition FLOATING_REVISIONS : list string := ["main"; "master"; "latest"; "head"; "develop"; "trunk"].

Definition lower_char (c : ascii) : ascii := if between 65 90 c then ascii_of_N (code c + 32) else c.

(** [validate_exact_revision]. Of the floating names only [develop] has the
    length that is required, and no other character than a letter of ASCII is
    folded to one of its letters. *)
Definition validate_exact_revision (provider : ResourceProvider.t) (revision : string) : res unit :=
  _ ← bounded revision 7 128 "exact_revision";
  _ ← fail_if (bool_decide (of_chars (lower_char <$> to_chars revision) ∈ FLOATING_REVISIONS))
        (Exn PyValueError "Resource revision must not be floating");
  match provider with
  | ResourceProvider.GITHUB | ResourceProvider.HUGGING_FACE =>
      fail_if (negb (is_commit revision)) (Exn PyValueError "External Resource revision must be an exact commit")
  | ResourceProvider.LOCAL_TEST =>
      fail_if (negb (is_local_revision revision))
        (Exn PyValueError "LOCAL_TEST revision has an invalid immutable identity")
  end.

(** [_freeze_json] *)
Fixpoint freeze_metadata (v : value) : res value :=
  match v with
  | VNone | VStr _ | VInt _ | VBool _ => Ok v
  | VFloat _ => invalid "Resource metadata contains a non-canonical value"
  | VDict _ d => d' ← map_ok (fun kv => w ← freeze_metadata kv.2; Ok (kv.1, w)) d; Ok (VDict true d')
  | VList l | VTuple l => l' ← map_ok freeze_metadata l; Ok (VTuple l')
  end.

(** ** [str(UUID(text)) == text] *)

Fixpoint without (fuel : nat) (sub l : list ascii) : list ascii :=
  match fuel with
  | O => l
  | S n =>
      match l with
      | [] => []
      | c :: l' => if bool_decide (take (List.length sub) l = sub) then without n sub (drop (List.length sub) l)
                   else c :: without n sub l'
      end
  end.
Definition remove_all (sub : string) (l : list ascii) : list ascii := without (List.length l) (to_chars sub) l.

Fixpoint drop_while {A} (p : A -> bool) (l : list A) : list A :=
  match l with c :: l' => if p c then drop_while p l' else l | [] => [] end.
Definition strip_while {A} (p : A -> bool) (l : list A) : list A := rev (drop_while p (rev (drop_while p l))).

Definition brace (c : ascii) : bool := Ascii.eqb c "{" || Ascii.eqb c "}".

(** [hex.replace("urn:", "").replace("uuid:", "").strip("{}").replace("-", "")] *)
Definition uuid_digits (s : string) : list ascii :=
  List.filter (fun c => negb (Ascii.eqb c "-")) (strip_while brace (remove_all "uuid:" (remove_all "urn:" (to_chars s)))).

(** The literals of [int(text, 16)]. *)
Definition hex_numeral (c : N) : bool :=
  is_decimal c || ((97 <=? c) && (c <=? 102))%N || ((65 <=? c) && (c <=? 70))%N.
Fixpoint digit_groups (after_digit : bool) (l : list N) : bool :=
  match l with
  | [] => after_digit
  | c :: l' => if hex_numeral c then digit_groups true l' else (c =? 95)%N && after_digit && digit_groups false l'
  end.
Definition without_sign (l : list N) : list N :=
  match l with c :: l' => if (c =? 43)%N || (c =? 45)%N then l' else l | [] => [] end.
Definition hex_literal (l : list N) : bool :=
  match without_sign (strip_while Regex.unicode_space l) with
  | z :: x :: l' =>
      if (z =? 48)%N && ((x =? 120)%N || (x =? 88)%N)
      then digit_groups false (match l' with c :: l'' => if (c =? 95)%N then l'' else l' | [] => [] end)
      else digit_groups false (z :: x :: l')
  | l => digit_groups false l
  end.

Definition is_canonical_uuid (s : string) : bool :=
  match split_chars "-" (to_chars s) with
  | [a; b; c; d; e] =>
      forallb (fun part => lower_hex_string part.1 (of_chars part.2))
        [(8%nat, a); (4%nat, b); (4%nat, c); (4%nat, d); (12%nat, e)]
  | _ => false
  end.

Definition require_canonical_uuid (s : string) : res unit :=
  let digits := of_chars (uuid_digits s) in
  _ ← fail_if (negb (code_points digits =? 32)) (Exn PyValueError "badly formed hexadecimal UUID string");
  _ ← fail_if (negb (hex_literal (Lexical.decode (uuid_digits s))))
        (Exn PyValueError ("invalid literal for int() with base 16: " +:+ py_repr digits));
  fail_if (negb (is_canonical_uuid s)) (Exn PyValueError "idempotency_key must use canonical UUID text").

(** ** Contracts *)

Module Resource.
Record t := mk {
  resource_id : string;
  project_id : string;
  resource_kind : ResourceKind.t;
  provider : ResourceProvider.t;
  locator : string;
  exact_revision : string;
  expected_content_checksum : string;
  display_name : string;
  metadata : value;
  lifecycle : resource_state;
  created_at : datetime;
  updated_at : datetime;
  retired_at : option datetime
}.

Definition with_metadata (r : t) (m : value) : t :=
  mk (resource_id r) (project_id r) (resource_kind r) (provider r) (locator r) (exact_revision r)
    (expected_content_checksum r) (display_name r) m (lifecycle r) (created_at r) (updated_at r) (retired_at r).

(** [__post_init__] *)
Definition post_init (r : t) : res t :=
  _ ← must_match is_resource_id (resource_id r) "resource_id";
  _ ← must_match is_project_id (project_id r) "project_id";
  _ ← validate_locator (provider r) (locator r);
  _ ← validate_exact_revision (provider r) (exact_revision r);
  _ ← require_sha256 (expected_content_checksum r) "expected_content_checksum";
  _ ← bounded (display_name r) 1 160 "display_name";
  frozen ← freeze_metadata (metadata r);
  text ← canonical_json (thaw frozen);
  _ ← fail_if (16384 <? Z.of_nat (String.length text))
        (Exn PyValueError "Resource metadata exceeds the reviewed bound");
  _ ← aware (created_at r) "created_at";
  _ ← aware (updated_at r) "updated_at";
  _ ← match retired_at r with Some at_ => aware at_ "retired_at" | None => Ok tt end;
  Ok (with_metadata r frozen).

(** Equality of [immutable_identity()]. *)
Definition same_identity (r r' : t) : bool :=
  String.eqb (resource_id r) (resource_id r') && String.eqb (project_id r) (project_id r')
  && bool_decide (resource_kind r = resource_kind r') && bool_decide (provider r = provider r')
  && String.eqb (locator r) (locator r') && String.eqb (exact_revision r) (exact_revision r')
  && String.eqb (expected_content_checksum r) (expected_content_checksum r')
  && String.eqb (display_name r) (display_name r') && value_eq (metadata r) (metadata r').
End Resource.

Module Requirement.
Record t := mk {
  workflow_definition_id : string;
  workflow_version : string;
  requirement_key : string;
  resource_kind : ResourceKind.t;
  cardinality_min : Z;
  cardinality_max : Z;
  required : bool;
  allowed_providers : list ResourceProvider.t;
  usage_description : string;
  created_at : datetime;
  updated_at : datetime
}.
#[export] Instance eq_dec : EqDecision t.
Proof. solve_decision. Defined.

Definition post_init (r : t) : res t :=
  _ ← must_match is_key (workflow_definition_id r) "workflow_definition_id";
  _ ← must_match is_plain_semver (workflow_version r) "workflow_version";
  _ ← must_match is_key (requirement_key r) "requirement_key";
  _ ← fail_if (negb ((0 <=? cardinality_min r) && (cardinality_min r <=? cardinality_max r) && (cardinality_max r <=? 20)))
        (Exn PyValueError "Resource requirement cardinality is invalid");
  _ ← fail_if (bool_decide (allowed_providers r = []))
        (Exn PyValueError "Resource requirement must declare allowed providers");
  _ ← fail_if (negb (bool_decide (NoDup (allowed_providers r))))
        (Exn PyValueError "Resource requirement providers must be unique");
  _ ← bounded (usage_description r) 1 500 "usage_description";
  _ ← aware (created_at r) "created_at";
  _ ← aware (updated_at r) "updated_at";
  Ok r.
End Requirement.
#[export] Existing Instance Requirement.eq_dec.

Module Binding.
Record t := mk {
  binding_id : string;
  project_id : string;
  workflow_instance_id : string;
  workflow_definition_id : string;
  workflow_version : string;
  requirement_key : string;
  resource_id : string;
  expected_content_checksum : string;
  state : resource_state;
  idempotency_key : string;
  created_at : datetime;
  updated_at : datetime;
  retired_at : option datetime
}.
#[export] Instance eq_dec : EqDecision t.
Proof. solve_decision. Defined.

Definition post_init (b : t) : res t :=
  _ ← must_match is_binding_id (binding_id b) "binding_id";
  _ ← must_match is_project_id (project_id b) "project_id";
  _ ← must_match is_instance_id (workflow_instance_id b) "workflow_instance_id";
  _ ← must_match is_key (workflow_definition_id b) "workflow_definition_id";
  _ ← must_match is_plain_semver (workflow_version b) "workflow_version";
  _ ← must_match is_key (requirement_key b) "requirement_key";
  _ ← must_match is_resource_id (resource_id b) "resource_id";
  _ ← require_sha256 (expected_content_checksum b) "expected_content_checksum";
  _ ← require_canonical_uuid (idempotency_key b);
  _ ← aware (created_at b) "created_at";
  _ ← aware (updated_at b) "updated_at";
  _ ← match retired_at b with Some at_ => aware at_ "retired_at" | None => Ok tt end;
  Ok b.

Definition is_active (b : t) : bool := bool_decide (state b = ACTIVE).
End Binding.
#[export] Existing Instance Binding.eq_dec.

(** ** [InMemoryResourceReferenceRepository] *)

Definition requirement_key_of (r : Requirement.t) : string * string * string :=
  (Requirement.workflow_definition_id r, Requirement.workflow_version r, Requirement.requirement_key r).

Record resource_database := ResourceDatabase {
  db_resources : dict string Resource.t;
  db_requirements : dict (string * string * string) Requirement.t;
  db_bindings : dict string Binding.t
}.

Record resource_unit := ResourceUnit {
  u_resources : Plain.t string Resource.t;
  u_requirements : Plain.t (string * string * string) Requirement.t;
  u_bindings : Plain.t string Binding.t
}.

Definition open_resources (db : resource_database) : resource_unit :=
  ResourceUnit (Plain.refresh (db_resources db)) (Plain.refresh (db_requirements db)) (Plain.refresh (db_bindings db)).

Definition by_time_and_id : (Z * string) -> (Z * string) -> bool := at_most (pair_compare Z.compare String.compare).

Module ResourceRepository.
Definition get_resource (id : string) (u : resource_unit) : option Resource.t := Dict.get id (Plain.records (u_resources u)).

Definition add_resource (r : Resource.t) : M exn resource_unit unit :=
  u ← get_state;
  match get_resource (Resource.resource_id r) u with
  | Some existing =>
      raise_if (negb (Resource.same_identity existing r))
        (Exn ResourceReferenceConflictError "Resource immutable identity already exists with different metadata")
  | None =>
      put_state (ResourceUnit (Plain.put (Resource.resource_id r) r (u_resources u)) (u_requirements u) (u_bindings u))
  end.

Definition of_project (project : string) (r : Resource.t) : bool := String.eqb (Resource.project_id r) project.

Definition list_resources (project : string) (offset limit : Z) (u : resource_unit) : list Resource.t :=
  page offset limit
    (sort_by by_time_and_id (fun r => (instant (Resource.created_at r), Resource.resource_id r))
       (List.filter (of_project project) (Dict.values (Plain.records (u_resources u))))).

Definition count_resources (project : string) (u : resource_unit) : Z :=
  Z.of_nat (List.length (List.filter (of_project project) (Dict.values (Plain.records (u_resources u))))).

Definition get_requirement (definition version key : string) (u : resource_unit) : option Requirement.t :=
  Dict.get (definition, version, key) (Plain.records (u_requirements u)).

Definition add_requirement (r : Requirement.t) : M exn resource_unit unit :=
  u ← get_state;
  match Dict.get (requirement_key_of r) (Plain.records (u_requirements u)) with
  | Some existing =>
      raise_if (negb (bool_decide (existing = r)))
        (Exn ResourceReferenceConflictError "Workflow Resource Requirement immutable-content conflict")
  | None =>
      put_state (ResourceUnit (u_resources u) (Plain.put (requirement_key_of r) r (u_requirements u)) (u_bindings u))
  end.

Definition list_requirements (u : resource_unit) : list Requirement.t :=
  sort_by (at_most (pair_compare (pair_compare String.compare String.compare) String.compare)) requirement_key_of
    (Dict.values (Plain.records (u_requirements u))).

Definition bindings_of (u : resource_unit) : list Binding.t := Dict.values (Plain.records (u_bindings u)).

Definition get_binding (id : string) (u : resource_unit) : option Binding.t := Dict.get id (Plain.records (u_bindings u)).

Definition of_instance (project instance : string) (b : Binding.t) : bool :=
  String.eqb (Binding.project_id b) project && String.eqb (Binding.workflow_instance_id b) instance.

(** Another active binding of the requirement. *)
Definition competes (b : Binding.t) (other : Binding.t) : bool :=
  of_instance (Binding.project_id b) (Binding.workflow_instance_id b) other
  && String.eqb (Binding.requirement_key other) (Binding.requirement_key b) && Binding.is_active other.

Definition add_binding (b : Binding.t) : M exn resource_unit unit :=
  u ← get_state;
  match get_binding (Binding.binding_id b) u with
  | Some existing =>
      raise_if (negb (bool_decide (existing = b)))
        (Exn ResourceReferenceConflictError "Workflow Resource Binding immutable-content conflict")
  | None =>
      raise_if (existsb (competes b) (bindings_of u))
        (Exn DuplicateEntityError "Resource requirement already has an active binding") ;;
      put_state (ResourceUnit (u_resources u) (u_requirements u) (Plain.put (Binding.binding_id b) b (u_bindings u)))
  end.

Definition get_binding_by_idempotency (project instance key : string) (u : resource_unit) : option Binding.t :=
  List.find (fun b => of_instance project instance b && String.eqb (Binding.idempotency_key b) key) (bindings_of u).

Definition binding_order (b : Binding.t) : string * (Z * string) :=
  (Binding.requirement_key b, (instant (Binding.created_at b), Binding.binding_id b)).

Definition list_bindings (project instance : string) (offset limit : Z) (u : resource_unit) : list Binding.t :=
  page offset limit
    (sort_by (at_most (pair_compare String.compare (pair_compare Z.compare String.compare))) binding_order
       (List.filter (of_instance project instance) (bindings_of u))).

Definition list_project_bindings (project : string) (u : resource_unit) : list Binding.t :=
  sort_by (at_most (pair_compare String.compare (pair_compare String.compare String.compare)))
    (fun b => (Binding.workflow_instance_id b, (Binding.requirement_key b, Binding.binding_id b)))
    (List.filter (fun b => String.eqb (Binding.project_id b) project) (bindings_of u)).
End ResourceRepository.
Import ResourceRepository.

(** ** [ResourceReferenceService] *)

Definition resource_name (project : string) (kind : ResourceKind.t) (source : ResourceProvider.t)
    (locator revision checksum : string) : string :=
  "project-resource/v1|project=" +:+ project +:+ "|kind=" +:+ ResourceKind.value kind +:+ "|provider=" +:+
  ResourceProvider.value source +:+ "|locator=" +:+ locator +:+ "|revision=" +:+ revision +:+ "|checksum=" +:+ checksum.

Definition resource_identity (project : string) (kind : ResourceKind.t) (source : ResourceProvider.t)
    (locator revision checksum : string) : string :=
  "resource-" +:+ uuid5_hex LEGACY_WORKFLOW_INSTANCE_NAMESPACE (resource_name project kind source locator revision checksum).

Definition binding_identity (project instance key resource idempotency : string) : string :=
  "resource-binding-" +:+ uuid5_hex LEGACY_WORKFLOW_INSTANCE_NAMESPACE
    ("workflow-resource-binding/v1|project=" +:+ project +:+ "|instance=" +:+ instance +:+ "|requirement=" +:+ key +:+
     "|resource=" +:+ resource +:+ "|idempotency=" +:+ idempotency).

(** [except (TypeError, ValueError) as error: raise Application...] *)
Definition or_invalid {A} (code : string) (r : res A) : res A :=
  match r with
  | Ok a => Ok a
  | Err e => if is_instance (exn_kind e) PyTypeError || is_instance (exn_kind e) PyValueError
             then Err (Exn (ApplicationCodedValidationError code) (exn_msg e))
             else Err e
  end.

(** What a request asks to reference. *)
Record resource_request := ResourceRequest {
  rq_kind : string;
  rq_provider : string;
  rq_locator : string;
  rq_revision : string;
  rq_checksum : string;
  rq_name : string;
  rq_metadata : value
}.

Definition candidate_resource (project : string) (q : resource_request) (now : datetime) : res Resource.t :=
  kind ← ResourceKind.of_string (rq_kind q);
  source ← ResourceProvider.of_string (rq_provider q);
  Resource.post_init
    (Resource.mk (resource_identity project kind source (rq_locator q) (rq_revision q) (rq_checksum q))
       project kind source (rq_locator q) (rq_revision q) (rq_checksum q) (rq_name q) (rq_metadata q) ACTIVE now now None).

Definition new_binding (project : string) (i : workflow_instance) (instance key : string) (r : Resource.t)
    (resource idempotency : string) (now : datetime) : res Binding.t :=
  Binding.post_init
    (Binding.mk (binding_identity project instance key resource idempotency) project instance
       (wi_workflow_definition_id i) (wi_workflow_version i) key resource (Resource.expected_content_checksum r)
       ACTIVE idempotency now now None).

Definition scope_mismatch (message : string) : exn :=
  Exn (ApplicationCodedAuthorizationError "PROJECT_SCOPE_MISMATCH") message.

Definition has_provider (q : Requirement.t) (p : ResourceProvider.t) : bool :=
  bool_decide (p ∈ Requirement.allowed_providers q).

Section service.
Context {W : Type} `{IdentityRepositories W} (commit_others : M exn W unit).

Record resource_store := ResourceStore {
  rs_others : W;
  rs_database : resource_database;
  rs_unit : resource_unit
}.

Definition on_resources {A} : M exn resource_unit A -> M exn resource_store A :=
  zoom rs_unit (fun u s => ResourceStore (rs_others s) (rs_database s) u).

(** The commit, as far as these tables go. *)
Definition publish_resources (u : resource_unit) : M exn resource_database unit :=
  publish_to db_resources (fun t db => ResourceDatabase t (db_requirements db) (db_bindings db))
    (Plain.records (u_resources u)) (Plain.dirty (u_resources u)) ;;
  publish_to db_requirements (fun t db => ResourceDatabase (db_resources db) t (db_bindings db))
    (Plain.records (u_requirements u)) (Plain.dirty (u_requirements u)) ;;
  publish_to db_bindings (fun t db => ResourceDatabase (db_resources db) (db_requirements db) t)
    (Plain.records (u_bindings u)) (Plain.dirty (u_bindings u)).

Definition commit_resources : M exn resource_store unit :=
  s ← get_state;
  zoom rs_others (fun w s => ResourceStore w (rs_database s) (rs_unit s)) commit_others ;;
  zoom rs_database (fun db s => ResourceStore (rs_others s) db (rs_unit s)) (publish_resources (rs_unit s)) ;;
  modify (fun s => ResourceStore (rs_others s) (rs_database s) (open_resources (rs_database s))).

(** [_require_project] *)
Definition require_project (project : string) (w : W) : res unit :=
  fail_if (negb (project_registered project w)) (Exn (ApplicationCodedNotFoundError "PROJECT_NOT_FOUND") "Project not found").

Definition create_resource (project : string) (q : resource_request) (now : datetime) : M exn resource_store Resource.t :=
  s ← get_state;
  lift_result (require_project project (rs_others s)) ;;
  candidate ← lift_result (or_invalid "RESOURCE_REFERENCE_INVALID" (candidate_resource project q now));
  match get_resource (Resource.resource_id candidate) (rs_unit s) with
  | Some existing =>
      raise_if (negb (Resource.same_identity existing candidate))
        (Exn (ApplicationCodedConflictError "RESOURCE_REFERENCE_CONFLICT")
           "Resource identity conflicts with existing metadata") ;;
      mret existing
  | None => on_resources (add_resource candidate) ;; commit_resources ;; mret candidate
  end.

Definition read_resources (project : string) (offset limit : Z) (s : resource_store) : res (list Resource.t * Z) :=
  _ ← require_project project (rs_others s);
  _ ← fail_if ((offset <? 0) || negb ((1 <=? limit) && (limit <=? 100)))
        (Exn (ApplicationCodedValidationError "RESOURCE_PAGINATION_INVALID")
           "Resource pagination is outside the supported bound");
  Ok (list_resources project offset limit (rs_unit s), count_resources project (rs_unit s)).

Definition read_resource (project id : string) (s : resource_store) : res Resource.t :=
  _ ← require_project project (rs_others s);
  match get_resource id (rs_unit s) with
  | None => Err (Exn (ApplicationCodedNotFoundError "RESOURCE_REFERENCE_NOT_FOUND") "Resource Reference not found")
  | Some r =>
      if negb (String.eqb (Resource.project_id r) project)
      then Err (scope_mismatch "Resource is outside the Project scope") else Ok r
  end.

(** [requirements_for]; the service keeps what it has read first. *)
Definition requirements_for (cache : option (list Requirement.t)) (definition version : string) (s : resource_store) :
    list Requirement.t * list Requirement.t :=
  let known := default (list_requirements (rs_unit s)) cache in
  (List.filter (fun r => String.eqb (Requirement.workflow_definition_id r) definition
                         && String.eqb (Requirement.workflow_version r) version) known, known).

(** The workflow instance, if it is one of the project. *)
Definition own_instance (project instance : string) (w : W) : res workflow_instance :=
  match get_workflow_instance instance w with
  | Some i => if String.eqb (wi_project_id i) project then Ok i
              else Err (scope_mismatch "Workflow Instance is outside the Project scope")
  | None => Err (scope_mismatch "Workflow Instance is outside the Project scope")
  end.

(** The requirement a resource is to meet. *)
Definition met_requirement (i : workflow_instance) (key : string) (r : Resource.t) (u : resource_unit) : res Requirement.t :=
  match get_requirement (wi_workflow_definition_id i) (wi_workflow_version i) key u with
  | None => Err (Exn (ApplicationCodedValidationError "RESOURCE_REQUIREMENT_NOT_FOUND")
                   "Workflow Resource Requirement is unavailable")
  | Some q =>
      _ ← fail_if (negb (bool_decide (Resource.resource_kind r = Requirement.resource_kind q)))
            (Exn (ApplicationCodedValidationError "RESOURCE_KIND_MISMATCH")
               "Resource kind is incompatible with the requirement");
      _ ← fail_if (negb (has_provider q (Resource.provider r)))
            (Exn (ApplicationCodedValidationError "RESOURCE_PROVIDER_MISMATCH")
               "Resource provider is incompatible with the requirement");
      Ok q
  end.

(** The binding of a request that was made before. *)
Definition answer_binding (b : Binding.t) (key resource : string) : res Binding.t :=
  if negb (String.eqb (Binding.requirement_key b) key) || negb (String.eqb (Binding.resource_id b) resource)
  then Err (Exn (ApplicationCodedConflictError "IDEMPOTENCY_CONFLICT")
              "Resource binding idempotency key has different content")
  else Ok b.

Definition bind_new (project : string) (i : workflow_instance) (instance key : string) (r : Resource.t)
    (resource idempotency : string) (now : datetime) : M exn resource_store Binding.t :=
  s ← get_state;
  raise_if (existsb (fun b => String.eqb (Binding.requirement_key b) key && Binding.is_active b)
              (list_bindings project instance 0 100 (rs_unit s)))
    (Exn (ApplicationCodedConflictError "RESOURCE_BINDING_CONFLICT")
       "Resource requirement already has an active exact binding") ;;
  b ← lift_result (or_invalid "RESOURCE_BINDING_INVALID" (new_binding project i instance key r resource idempotency now));
  on_resources (add_binding b) ;;
  commit_resources ;;
  mret b.

Definition bind_resource (project instance key resource idempotency : string) (now : datetime) :
    M exn resource_store Binding.t :=
  s ← get_state;
  lift_result (require_project project (rs_others s)) ;;
  i ← lift_result (own_instance project instance (rs_others s));
  r ← lift_result (read_resource project resource s);
  lift_result (met_requirement i key r (rs_unit s)) ;;
  match get_binding_by_idempotency project instance idempotency (rs_unit s) with
  | Some b => lift_result (answer_binding b key resource)
  | None => bind_new project i instance key r resource idempotency now
  end.

Definition read_bindings (project instance : string) (offset limit : Z) (s : resource_store) : res (list Binding.t) :=
  _ ← require_project project (rs_others s);
  _ ← own_instance project instance (rs_others s);
  Ok (list_bindings project instance offset limit (rs_unit s)).

(** [binding_projections] *)
Definition binding_projections (project instance : string) (s : resource_store) : res (list (Binding.t * Resource.t)) :=
  bindings ← read_bindings project instance 0 100 s;
  page_ ← read_resources project 0 100 s;
  let by_id := foldl (fun d r => Dict.set (Resource.resource_id r) r d) [] page_.1 in
  map_ok (fun b => match Dict.get (Binding.resource_id b) by_id with
                   | Some r => Ok (b, r)
                   | None => Err (Exn (ApplicationCodedConflictError "RESOURCE_BINDING_CONFLICT")
                                    "Resource binding authority is incomplete")
                   end) bindings.
End service.
