(* ===== verification/ResourceFacts.v ===== *)
(** What the bindings of resources guarantee: whatever is created and bound by
    calls that follow one another, a requirement of a workflow instance has one
    active binding, a binding is of a stored resource that meets the
    requirement, and requests may be repeated. *)
From S2P Require Import Prelude Errors Text Value Json Sha256 Lifecycle Lexical Canonical Dict Tables TableFacts Repositories RepositoryFacts Order ProgressIdentity Resources.
From Stdlib Require Import Ascii String NArith.
Local Open Scope string_scope.
Local Open Scope list_scope.
Local Open Scope Z_scope.
Import ResourceRepository.

#[local] Opaque resource_identity binding_identity.

(** ** The tables *)

(** Stored under its own identifier. *)
Definition stored_resource (db : resource_database) (r : Resource.t) : Prop :=
  Dict.get (Resource.resource_id r) (db_resources db) = Some r.
Definition stored_binding (db : resource_database) (b : Binding.t) : Prop :=
  Dict.get (Binding.binding_id b) (db_bindings db) = Some b.

(** Of one requirement of one workflow instance. *)
Definition same_target (b b' : Binding.t) : Prop :=
  Binding.project_id b = Binding.project_id b' /\ Binding.workflow_instance_id b = Binding.workflow_instance_id b' /\
  Binding.requirement_key b = Binding.requirement_key b'.

Definition same_request (b b' : Binding.t) : Prop :=
  Binding.project_id b = Binding.project_id b' /\ Binding.workflow_instance_id b = Binding.workflow_instance_id b' /\
  Binding.idempotency_key b = Binding.idempotency_key b'.

(** The resource is the one that was bound, and it meets the requirement. *)
Definition exact_binding (db : resource_database) (b : Binding.t) : Prop :=
  exists r q, stored_resource db r /\ Resource.resource_id r = Binding.resource_id b /\
    Resource.project_id r = Binding.project_id b /\
    Resource.expected_content_checksum r = Binding.expected_content_checksum b /\
    Dict.get (Binding.workflow_definition_id b, Binding.workflow_version b, Binding.requirement_key b)
      (db_requirements db) = Some q /\
    Resource.resource_kind r = Requirement.resource_kind q /\ Resource.provider r ∈ Requirement.allowed_providers q.

Record bindings_ok (db : resource_database) : Prop := {
  bo_resources i r : Dict.get i (db_resources db) = Some r -> Resource.resource_id r = i;
  bo_unique : NoDup (Dict.keys (db_bindings db));
  bo_ids i b : Dict.get i (db_bindings db) = Some b -> Binding.binding_id b = i;
  bo_active b b' : stored_binding db b -> stored_binding db b' -> Binding.is_active b = true ->
    Binding.is_active b' = true -> same_target b b' -> b = b';
  bo_requests b b' : stored_binding db b -> stored_binding db b' -> same_request b b' -> b = b';
  bo_exact b : stored_binding db b -> exact_binding db b
}.

Lemma no_bindings_ok : bindings_ok (ResourceDatabase [] [] []).
Proof. split; try done. apply NoDup_nil_2. Qed.

Lemma elem_bindings db b : bindings_ok db -> b ∈ Dict.values (db_bindings db) <-> stored_binding db b.
Proof.
  intros Hdb. split.
  - intros (i & Hi)%values_elem; [|apply Hdb]. unfold stored_binding. by rewrite (bo_ids _ Hdb _ _ Hi).
  - apply elem_values.
Qed.

(** Tables that only grow keep what bindings rely on. *)
Lemma exact_grows db db' b : exact_binding db b ->
  (forall r, stored_resource db r -> stored_resource db' r) ->
  (forall k q, Dict.get k (db_requirements db) = Some q -> Dict.get k (db_requirements db') = Some q) ->
  exact_binding db' b.
Proof. intros (r & q & Hr & Hi & Hp & Hc & Hq & Hk & Ha) Hres Hreq. exists r, q. auto 10. Qed.

Lemma get_set_new {K V} `{EqDecision K} k k' (v v' : V) (d : dict K V) : Dict.get k d = None ->
  Dict.get k' d = Some v' -> Dict.get k' (Dict.set k v d) = Some v'.
Proof. intros Hn Hs. rewrite get_set. case_decide as Hd; [congruence|done]. Qed.

Lemma resource_added db r : bindings_ok db -> Dict.get (Resource.resource_id r) (db_resources db) = None ->
  bindings_ok (ResourceDatabase (Dict.set (Resource.resource_id r) r (db_resources db)) (db_requirements db) (db_bindings db)).
Proof.
  intros Hdb Hn. split; [|apply Hdb..|].
  - intros i x. cbn. rewrite get_set. case_decide; [by intros [= <-]|apply (bo_resources _ Hdb)].
  - intros b Hb. apply (exact_grows db); [by apply (bo_exact _ Hdb)| |done].
    intros x Hx. by apply get_set_new.
Qed.

Lemma requirement_added db k q : bindings_ok db -> Dict.get k (db_requirements db) = None ->
  bindings_ok (ResourceDatabase (db_resources db) (Dict.set k q (db_requirements db)) (db_bindings db)).
Proof.
  intros Hdb Hn. split; [apply Hdb..|]. intros b Hb.
  apply (exact_grows db); [by apply (bo_exact _ Hdb)|done|]. intros. by apply get_set_new.
Qed.

Lemma binding_added db b : bindings_ok db -> Dict.get (Binding.binding_id b) (db_bindings db) = None ->
  exact_binding db b -> (forall b', stored_binding db b' -> Binding.is_active b' = true -> ~ same_target b' b) ->
  (forall b', stored_binding db b' -> ~ same_request b' b) ->
  bindings_ok (ResourceDatabase (db_resources db) (db_requirements db) (Dict.set (Binding.binding_id b) b (db_bindings db))).
Proof.
  intros Hdb Hn He Ha Hr. set (db' := ResourceDatabase _ _ _).
  assert (Hrow : forall x, stored_binding db' x -> x = b \/ stored_binding db x).
  { intros x. unfold stored_binding. cbn. rewrite get_set. case_decide as Hd; [intros [= <-]; by left|by right]. }
  assert (Hsym : forall x y, same_target x y -> same_target y x) by (unfold same_target; intros x y; intuition congruence).
  assert (Hsym' : forall x y, same_request x y -> same_request y x) by (unfold same_request; intros x y; intuition congruence).
  split; [apply Hdb|by apply keys_set_NoDup, Hdb| | | |].
  - intros i x. cbn. rewrite get_set. case_decide; [by intros [= <-]|apply (bo_ids _ Hdb)].
  - intros x y [->|Hx]%Hrow [->|Hy]%Hrow Hxa Hya Hs; [done| | |by apply (bo_active _ Hdb)].
    + destruct (Ha y Hy Hya). by apply Hsym.
    + by destruct (Ha x Hx Hxa).
  - intros x y [->|Hx]%Hrow [->|Hy]%Hrow Hs; [done| | |by apply (bo_requests _ Hdb)].
    + destruct (Hr y Hy). by apply Hsym'.
    + by destruct (Hr x Hx).
  - intros x [->|Hx]%Hrow; [exact He|by apply (bo_exact _ Hdb)].
Qed.

(** ** The service *)

Section service.
Context {W : Type} `{IdentityRepositories W} (commit_others : M exn W unit).
Implicit Types (s : @resource_store W) (u : resource_unit) (db : resource_database).

Definition at_rest s : Prop := rs_unit s = open_resources (rs_database s).

(** A unit of work that is given up, and another one opened. *)
Definition dropped s : @resource_store W :=
  ResourceStore (rs_others s) (rs_database s) (open_resources (rs_database s)).

Definition staged_ok {K R} `{EqDecision K} (t : Plain.t K R) : Prop :=
  forall k, k ∈ Plain.dirty t -> Dict.get k (Plain.records t) <> None.

Definition published_of {K R} `{EqDecision K} (t : Plain.t K R) (d : dict K R) : dict K R :=
  published (Plain.records t) (Plain.dirty t) d.

Definition published_resources u db : resource_database :=
  ResourceDatabase (published_of (u_resources u) (db_resources db))
    (published_of (u_requirements u) (db_requirements db)) (published_of (u_bindings u) (db_bindings db)).

Definition unit_ok u : Prop := staged_ok (u_resources u) /\ staged_ok (u_requirements u) /\ staged_ok (u_bindings u).

Lemma refresh_ok {K R} `{EqDecision K} (d : dict K R) : staged_ok (Plain.refresh d).
Proof using. by intros k ?%elem_of_nil. Qed.

Lemma put_ok {K R} `{EqDecision K} (k : K) (r : R) (d : dict K R) : staged_ok (Plain.put k r (Plain.refresh d)).
Proof using. intros k'. cbn. intros [->|?%elem_of_nil]%elem_set_add; [|done]. by rewrite get_set_eq. Qed.

Lemma published_of_put {K R} `{EqDecision K} (k : K) (r : R) (d : dict K R) :
  published_of (Plain.put k r (Plain.refresh d)) d = Dict.set k r d.
Proof using. apply published_put. Qed.

Lemma publish_resources_Ok u db : unit_ok u -> publish_resources u db = (Ok tt, published_resources u db).
Proof using.
  intros (Hr & Hq & Hb). unfold publish_resources, mbind, M_bind.
  rewrite (publish_to_Ok db_resources (fun t db => ResourceDatabase t (db_requirements db) (db_bindings db)));
    [|done|done|by intros []|exact Hr].
  rewrite (publish_to_Ok db_requirements (fun t db => ResourceDatabase (db_resources db) t (db_bindings db)));
    [|done|done|by intros []|exact Hq].
  by rewrite (publish_to_Ok db_bindings (fun t db => ResourceDatabase (db_resources db) (db_requirements db) t));
    [|done|done|by intros []|exact Hb].
Qed.

Lemma commit_resources_cases s x s' : unit_ok (rs_unit s) -> commit_resources commit_others s = (x, s') ->
  match x with
  | Ok _ => rs_database s' = published_resources (rs_unit s) (rs_database s) /\ at_rest s'
  | Err _ => rs_database s' = rs_database s
  end.
Proof using.
  intros Hu Hc. unfold commit_resources in Hc.
  apply bind_inv in Hc as [(q & s1 & E & Hc)|(e & E & ->)]; [injection E as <- <-|done].
  apply bind_inv in Hc as [([] & s1 & E & Hc)|(e & E & ->)];
    unfold zoom in E; destruct (commit_others (rs_others s)) as [y w]; injection E as -> <-; [|done].
  unfold mbind at 1, M_bind at 1, zoom in Hc. cbn [rs_database] in Hc. rewrite publish_resources_Ok in Hc by done.
  injection Hc as <- <-. done.
Qed.

(** Stage and commit. *)
Lemma stored_cases {A} (m : M exn resource_unit unit) u1 (a : A) s x s' : m (rs_unit s) = (Ok tt, u1) -> unit_ok u1 ->
  (on_resources m ;; commit_resources commit_others ;; mret a) s = (x, s') ->
  match x with
  | Ok b => b = a /\ at_rest s' /\ rs_database s' = published_resources u1 (rs_database s)
  | Err _ => rs_database s' = rs_database s
  end.
Proof using.
  intros Hm Hu Hc. apply bind_inv in Hc as [([] & s1 & E & Hc)|(e & E & ->)];
    unfold on_resources, zoom in E; rewrite Hm in E; [|done]. injection E as <-.
  apply bind_inv in Hc as [([] & s2 & E & Hc)|(e & E & ->)]; apply commit_resources_cases in E; [|done..].
  injection Hc as <- <-. by destruct E as [Hd Hr].
Qed.

(** *** Creation *)

Lemma candidate_identity project q now r : candidate_resource project q now = Ok r ->
  exists kind source, ResourceKind.of_string (rq_kind q) = Ok kind /\ ResourceProvider.of_string (rq_provider q) = Ok source /\
    Resource.resource_id r = resource_identity project kind source (rq_locator q) (rq_revision q) (rq_checksum q) /\
    Resource.project_id r = project.
Proof using.
  unfold candidate_resource. destruct (ResourceKind.of_string (rq_kind q)) as [kind|]; [|done].
  destruct (ResourceProvider.of_string (rq_provider q)) as [source|]; [|done]. cbn [mbind result_bind].
  intros Hr. exists kind, source. split; [done|]. split; [done|]. unfold Resource.post_init in Hr.
  repeat (apply bind_Ok in Hr as (? & _ & Hr)). by injection Hr as <-.
Qed.

Lemma or_invalid_Ok {A} code (r : res A) a : or_invalid code r = Ok a -> r = Ok a.
Proof using. destruct r as [b|e]; [done|]. unfold or_invalid. by destruct (_ || _). Qed.

(** What a creation does: it finds the resource, or stores it. *)
Lemma resource_creation_cases project q now s x s' : at_rest s -> create_resource commit_others project q now s = (x, s') ->
  match x with
  | Err _ => rs_database s' = rs_database s
  | Ok r => at_rest s' /\ exists c, candidate_resource project q now = Ok c /\ Resource.resource_id r = Resource.resource_id c /\
      ((Dict.get (Resource.resource_id c) (db_resources (rs_database s)) = Some r /\ rs_database s' = rs_database s) \/
       (r = c /\ Dict.get (Resource.resource_id c) (db_resources (rs_database s)) = None /\
        rs_database s' = ResourceDatabase (Dict.set (Resource.resource_id r) r (db_resources (rs_database s)))
                           (db_requirements (rs_database s)) (db_bindings (rs_database s))))
  end.
Proof using.
  intros Hrest Hc. unfold create_resource in Hc.
  apply bind_inv in Hc as [(p & s1 & E & Hc)|(e & E & ->)]; [injection E as <- <-|done].
  apply bind_inv in Hc as [([] & s1 & E & Hc)|(e & E & ->)]; apply lift_inv in E as [_ ->]; [|done].
  apply bind_inv in Hc as [(c & s1 & E & Hc)|(e & E & ->)]; apply lift_inv in E as [Hcand ->]; [|done].
  apply or_invalid_Ok in Hcand.
  assert (Hg : forall id, get_resource id (rs_unit s) = Dict.get id (db_resources (rs_database s)))
    by (intros id; by rewrite Hrest).
  rewrite Hg in Hc. destruct (Dict.get (Resource.resource_id c) (db_resources (rs_database s))) as [old|] eqn:Hold.
  - destruct (Resource.same_identity old c) eqn:Hsame; cbn in Hc; [|by injection Hc as <- <-].
    injection Hc as <- <-. split; [done|]. exists c. split; [done|].
    unfold Resource.same_identity in Hsame. rewrite !andb_true_iff, !String.eqb_eq in Hsame.
    split; [by destruct Hsame as [[[[[[[[Hi _] _] _] _] _] _] _] _]|]. left. by split.
  - assert (Ha : add_resource c (rs_unit s) = (Ok tt,
              ResourceUnit (Plain.put (Resource.resource_id c) c (Plain.refresh (db_resources (rs_database s))))
                (Plain.refresh (db_requirements (rs_database s))) (Plain.refresh (db_bindings (rs_database s))))).
    { unfold add_resource, mbind, M_bind, get_state. rewrite Hg, Hold, Hrest. done. }
    apply (stored_cases _ _ _ _ _ _ Ha) in Hc; [|split; [apply put_ok|split; apply refresh_ok]].
    destruct x as [r|]; [|done]. destruct Hc as (-> & Hr & Hd). split; [done|]. exists c. split; [done|]. split; [done|].
    right. split; [done|]. split; [done|]. rewrite Hd. unfold published_resources.
    cbn [u_resources u_requirements u_bindings]. by rewrite published_of_put.
Qed.

(** *** Binding *)

(** The request a binding answers. *)
Definition answers (project instance key resource idempotency : string) (b : Binding.t) : Prop :=
  Binding.project_id b = project /\ Binding.workflow_instance_id b = instance /\ Binding.requirement_key b = key /\
  Binding.resource_id b = resource /\ Binding.idempotency_key b = idempotency.

Lemma new_binding_fields project i instance key r resource idempotency now b :
  new_binding project i instance key r resource idempotency now = Ok b ->
  answers project instance key resource idempotency b /\
  Binding.workflow_definition_id b = wi_workflow_definition_id i /\ Binding.workflow_version b = wi_workflow_version i /\
  Binding.expected_content_checksum b = Resource.expected_content_checksum r /\ Binding.is_active b = true.
Proof using.
  unfold new_binding, Binding.post_init. intros Hb. repeat (apply bind_Ok in Hb as (? & _ & Hb)).
  injection Hb as <-. repeat split.
Qed.

Lemma requirement_met i key r u q : met_requirement i key r u = Ok q ->
  get_requirement (wi_workflow_definition_id i) (wi_workflow_version i) key u = Some q /\
  Resource.resource_kind r = Requirement.resource_kind q /\ Resource.provider r ∈ Requirement.allowed_providers q.
Proof using.
  unfold met_requirement. destruct (get_requirement _ _ _ u) as [p|]; [|done]. intros Hq.
  apply bind_Ok in Hq as (? & Hk & Hq). apply bind_Ok in Hq as (? & Hp & Hq). injection Hq as ->.
  apply fail_if_Ok in Hk. apply fail_if_Ok in Hp.
  apply negb_false_iff, bool_decide_eq_true in Hk. apply negb_false_iff, bool_decide_eq_true in Hp. done.
Qed.

Lemma resource_read project id s r : read_resource project id s = Ok r ->
  get_resource id (rs_unit s) = Some r /\ Resource.project_id r = project.
Proof using.
  unfold read_resource. intros Hr. apply bind_Ok in Hr as (? & _ & Hr).
  destruct (get_resource id (rs_unit s)) as [r0|]; [|done].
  destruct (String.eqb (Resource.project_id r0) project) eqn:He; [|done]. injection Hr as ->.
  by apply String.eqb_eq in He.
Qed.

(** The binding of a request made before, and a new one. *)
Definition found_binding s (project instance key resource idempotency : string) (b : Binding.t) s' : Prop :=
  stored_binding (rs_database s) b /\ answers project instance key resource idempotency b /\ s' = s.

Record made_binding s (project instance key resource idempotency : string) (b : Binding.t) s' : Prop := {
  mb_answers : answers project instance key resource idempotency b;
  mb_active : Binding.is_active b = true;
  mb_new : Dict.get (Binding.binding_id b) (db_bindings (rs_database s)) = None;
  mb_exact : exact_binding (rs_database s) b;
  mb_alone b' : stored_binding (rs_database s) b' -> Binding.is_active b' = true -> ~ same_target b' b;
  mb_first b' : stored_binding (rs_database s) b' -> ~ same_request b' b;
  mb_rest : at_rest s';
  mb_database : rs_database s' =
    ResourceDatabase (db_resources (rs_database s)) (db_requirements (rs_database s))
      (Dict.set (Binding.binding_id b) b (db_bindings (rs_database s)))
}.

Lemma requests_first s project instance key resource idempotency b : at_rest s -> bindings_ok (rs_database s) ->
  get_binding_by_idempotency project instance idempotency (rs_unit s) = None ->
  answers project instance key resource idempotency b ->
  forall b', stored_binding (rs_database s) b' -> ~ same_request b' b.
Proof using.
  intros Hrest Hdb Hn (Hp & Hi & _ & _ & Hid) b' Hb' (Hp' & Hi' & Hid').
  unfold get_binding_by_idempotency, bindings_of in Hn. rewrite Hrest in Hn.
  apply (elem_bindings _ _ Hdb), list_elem_of_In in Hb'. apply (find_none _ _ Hn) in Hb'.
  unfold of_instance in Hb'. by rewrite Hp', Hi', Hid', Hp, Hi, Hid, !String.eqb_refl in Hb'.
Qed.

Lemma add_binding_new b s : at_rest s -> bindings_ok (rs_database s) ->
  (forall b', stored_binding (rs_database s) b' -> ~ same_request b' b) ->
  match add_binding b (rs_unit s) with
  | (Ok _, u1) => u1 = ResourceUnit (Plain.refresh (db_resources (rs_database s))) (Plain.refresh (db_requirements (rs_database s)))
                         (Plain.put (Binding.binding_id b) b (Plain.refresh (db_bindings (rs_database s)))) /\
      Dict.get (Binding.binding_id b) (db_bindings (rs_database s)) = None /\
      forall b', stored_binding (rs_database s) b' -> Binding.is_active b' = true -> ~ same_target b' b
  | (Err _, _) => True
  end.
Proof using.
  intros Hrest Hdb Hfirst. unfold add_binding, mbind, M_bind, get_state, get_binding, bindings_of. rewrite Hrest.
  change (Plain.records (u_bindings (open_resources (rs_database s)))) with (db_bindings (rs_database s)).
  destruct (Dict.get (Binding.binding_id b) (db_bindings (rs_database s))) as [old|] eqn:Hold.
  - destruct (bool_decide_reflect (old = b)) as [->|Hne]; [|done]. by destruct (Hfirst b Hold).
  - destruct (existsb (competes b) _) eqn:Hc; [done|]. split; [done|]. split; [done|].
    intros b' Hb' Ha (Hp & Hi & Hk). apply (elem_bindings _ _ Hdb) in Hb'.
    apply not_true_iff_false in Hc. apply Hc, existsb_exists. exists b'. rewrite <- list_elem_of_In. split; [done|].
    unfold competes, of_instance. by rewrite Hp, Hi, Hk, !String.eqb_refl, Ha.
Qed.

Lemma bind_cases project instance key resource idempotency now s x s' : at_rest s -> bindings_ok (rs_database s) ->
  bind_resource commit_others project instance key resource idempotency now s = (x, s') ->
  match x with
  | Err _ => rs_database s' = rs_database s
  | Ok b => found_binding s project instance key resource idempotency b s' \/
            made_binding s project instance key resource idempotency b s'
  end.
Proof using.
  intros Hrest Hdb Hb. unfold bind_resource in Hb.
  apply bind_inv in Hb as [(p & s1 & E & Hb)|(e & E & ->)]; [injection E as <- <-|done].
  apply bind_inv in Hb as [([] & s1 & E & Hb)|(e & E & ->)]; apply lift_inv in E as [_ ->]; [|done].
  apply bind_inv in Hb as [(i & s1 & E & Hb)|(e & E & ->)]; apply lift_inv in E as [Hi ->]; [|done].
  apply bind_inv in Hb as [(r & s1 & E & Hb)|(e & E & ->)]; apply lift_inv in E as [Hr ->]; [|done].
  apply bind_inv in Hb as [(q & s1 & E & Hb)|(e & E & ->)]; apply lift_inv in E as [Hq ->]; [|done].
  apply resource_read in Hr as [Hr Hrp]. apply requirement_met in Hq as (Hq & Hkind & Hprov).
  destruct (get_binding_by_idempotency project instance idempotency (rs_unit s)) as [old|] eqn:Hold.
  - apply lift_inv in Hb as [Hb ->]. unfold answer_binding in Hb. destruct (negb _ || negb _) eqn:Hc; subst x; [done|].
    apply orb_false_iff in Hc as [Hk%negb_false_iff%String.eqb_eq Hres%negb_false_iff%String.eqb_eq].
    apply List.find_some in Hold as [Hin Ho]. unfold of_instance in Ho.
    rewrite !andb_true_iff, !String.eqb_eq in Ho. destruct Ho as [[Hp Hin'] Hid].
    left. split; [|by repeat split]. unfold bindings_of in Hin. rewrite Hrest in Hin.
    by apply (elem_bindings _ _ Hdb), list_elem_of_In.
  - unfold bind_new in Hb.
    apply bind_inv in Hb as [(p & s1 & E & Hb)|(e & E & ->)]; [injection E as <- <-|done].
    apply bind_inv in Hb as [([] & s1 & E & Hb)|(e & E & ->)];
      [|destruct (existsb _ _); [by injection E as _ <-|done]].
    assert (s1 = s) as -> by (destruct (existsb _ _); [done|by injection E as <-]). clear E.
    apply bind_inv in Hb as [(b & s1 & E & Hb)|(e & E & ->)]; apply lift_inv in E as [Hn ->]; [|done].
    apply or_invalid_Ok, new_binding_fields in Hn as (Hans & Hd & Hv & Hsum & Hact).
    pose proof (requests_first _ _ _ _ _ _ _ Hrest Hdb Hold Hans) as Hfirst.
    pose proof (add_binding_new b s Hrest Hdb Hfirst) as Hadd.
    destruct (add_binding b (rs_unit s)) as [[[]|e] u1] eqn:Ha.
    + destruct Hadd as (-> & Hnew & Halone).
      apply (stored_cases _ _ _ _ _ _ Ha) in Hb; [|split; [apply refresh_ok|split; [apply refresh_ok|apply put_ok]]].
      destruct x as [b'|]; [|done]. destruct Hb as (-> & Hr' & Hdb'). right.
      unfold published_resources in Hdb'. cbn [u_resources u_requirements u_bindings] in Hdb'. rewrite published_of_put in Hdb'.
      split; try done. rewrite Hrest in Hr, Hq. change (get_resource resource (open_resources (rs_database s)))
        with (Dict.get resource (db_resources (rs_database s))) in Hr.
      destruct Hans as (Hp & Hins & Hk & Hres & _). pose proof (bo_resources _ Hdb _ _ Hr) as Hrid.
      exists r, q. unfold stored_resource. rewrite Hrid, Hp, Hd, Hv, Hk, Hsum, Hres. done.
    + apply bind_inv in Hb as [([] & s1 & E & Hb)|(e' & E & ->)]; unfold on_resources, zoom in E; rewrite Ha in E; [done|].
      by injection E as _ <-.
Qed.

(** *** Any sequence of calls *)

(** One call of the service, the declaration of a requirement, or a change of
    what these tables do not own. A call that raises leaves its unit of work
    behind. *)
Inductive resource_step : @resource_store W -> @resource_store W -> Prop :=
  | rs_created project q now s r s' : create_resource commit_others project q now s = (Ok r, s') -> resource_step s s'
  | rs_create_raised project q now s e s' :
      create_resource commit_others project q now s = (Err e, s') -> resource_step s (dropped s')
  | rs_bound project instance key resource idempotency now s b s' :
      bind_resource commit_others project instance key resource idempotency now s = (Ok b, s') -> resource_step s s'
  | rs_bind_raised project instance key resource idempotency now s e s' :
      bind_resource commit_others project instance key resource idempotency now s = (Err e, s') -> resource_step s (dropped s')
  | rs_required q s s' :
      (on_resources (add_requirement q) ;; commit_resources commit_others ;; mret tt) s = (Ok tt, s') -> resource_step s s'
  | rs_elsewhere s w : resource_step s (dropped (ResourceStore w (rs_database s) (rs_unit s))).

Definition sound s : Prop := at_rest s /\ bindings_ok (rs_database s).

Definition nothing_bound s : Prop := at_rest s /\ rs_database s = ResourceDatabase [] [] [].

(** Rows are kept. *)
Definition keeps s s' : Prop :=
  (forall r, stored_resource (rs_database s) r -> stored_resource (rs_database s') r) /\
  (forall b, stored_binding (rs_database s) b -> stored_binding (rs_database s') b).

Lemma keeps_same s s' : rs_database s' = rs_database s -> keeps s s'.
Proof using. intros Hd. unfold keeps. by rewrite Hd. Qed.

Lemma required_cases q s s' : sound s ->
  (on_resources (add_requirement q) ;; commit_resources commit_others ;; mret tt) s = (Ok tt, s') -> sound s' /\ keeps s s'.
Proof using.
  intros [Hrest Hdb] Hs. destruct (add_requirement q (rs_unit s)) as [[[]|e] u1] eqn:Ha.
  2: { apply bind_inv in Hs as [([] & s1 & E & Hs)|(e' & E & Hs)]; [|done]. unfold on_resources, zoom in E. by rewrite Ha in E. }
  pose proof Ha as Ha'. unfold add_requirement, mbind, M_bind, get_state in Ha'. rewrite Hrest in Ha'.
  change (Plain.records (u_requirements (open_resources (rs_database s)))) with (db_requirements (rs_database s)) in Ha'.
  destruct (Dict.get (requirement_key_of q) (db_requirements (rs_database s))) as [old|] eqn:Hold.
  - assert (u1 = open_resources (rs_database s)) as -> by (destruct (bool_decide (old = q)); [by injection Ha' as <-|done]).
    apply (stored_cases _ _ _ _ _ _ Ha) in Hs as (_ & Hr & Hd); [|split; [apply refresh_ok|split; apply refresh_ok]].
    assert (Hsame : rs_database s' = rs_database s) by (rewrite Hd; by destruct (rs_database s)).
    split; [split; [done|by rewrite Hsame]|by apply keeps_same].
  - injection Ha' as <-.
    apply (stored_cases _ _ _ _ _ _ Ha) in Hs as (_ & Hr & Hd); [|split; [apply refresh_ok|split; [apply put_ok|apply refresh_ok]]].
    unfold published_resources in Hd. cbn [u_resources u_requirements u_bindings open_resources] in Hd. rewrite published_of_put in Hd.
    split; [split; [done|]; rewrite Hd; by apply requirement_added|]. unfold keeps. by rewrite Hd.
Qed.

Lemma step_sound s s' : sound s -> resource_step s s' -> sound s' /\ keeps s s'.
Proof using.
  intros Hs Hstep. destruct Hstep as [p q now s r s' Hc|p q now s e s' Hc|p i k r id now s b s' Hc|p i k r id now s e s' Hc|q s s' Hc|s w];
    destruct Hs as [Hrest Hdb].
  - apply resource_creation_cases in Hc as (Hr & c & _ & Hid & [[_ Hd]|(-> & Hnew & Hd)]); [..|done].
    + split; [split; [done|by rewrite Hd]|by apply keeps_same].
    + split; [split; [done|]; rewrite Hd; by apply resource_added|]. unfold keeps. rewrite Hd. split; [|done].
      intros x Hx. by apply get_set_new.
  - apply resource_creation_cases in Hc; [|done]. split; [split; [done|]|by apply keeps_same]. cbn. by rewrite Hc.
  - apply bind_cases in Hc as [(_ & _ & ->)|Hm]; [by split; [|apply keeps_same]| |done|done].
    destruct Hm as [_ _ Hnew Hex Hal Hfi Hr Hd]. split; [split; [done|]; rewrite Hd; by apply binding_added|].
    unfold keeps. rewrite Hd. split; [done|]. intros x Hx. by apply get_set_new.
  - apply bind_cases in Hc; [|done..]. split; [split; [done|]|by apply keeps_same]. cbn. by rewrite Hc.
  - by eapply required_cases.
  - by split; [split|apply keeps_same].
Qed.

Lemma steps_sound s s' : sound s -> rtc resource_step s s' -> sound s' /\ keeps s s'.
Proof using.
  intros Hs. induction 1 as [s|s1 s2 s3 H12 _ IH]; [by split; [|apply keeps_same]|].
  destruct (step_sound _ _ Hs H12) as [Hs2 [Hr2 Hb2]]. destruct (IH Hs2) as [Hs3 [Hr3 Hb3]].
  split; [done|]. split; auto.
Qed.

Lemma bound_from_nothing s0 s : nothing_bound s0 -> rtc resource_step s0 s -> sound s.
Proof using.
  intros [Hr Hd] Hs. apply (steps_sound s0 s); [|done]. split; [done|]. rewrite Hd. apply no_bindings_ok.
Qed.

(** C37: Whatever is created and bound by calls that follow one another, each on a
    unit of work opened after the call before it ended, a requirement of a
    workflow instance has at most one active binding, and every binding is of a stored resource of
    its project, with the checksum it was bound at, whose kind and provider a
    declared requirement of the instance's workflow allows.  Two units of work
    open at the same time are not such calls, and can bind one requirement twice
    ([ResourceWitness.units_bind_one_requirement_twice]). *)
Theorem one_exact_binding s0 s b : nothing_bound s0 -> rtc resource_step s0 s -> stored_binding (rs_database s) b ->
  exact_binding (rs_database s) b /\
  forall b', stored_binding (rs_database s) b' -> Binding.is_active b = true -> Binding.is_active b' = true ->
    same_target b b' -> b = b'.
Proof using.
  intros H0 Hs Hb. destruct (bound_from_nothing _ _ H0 Hs) as [_ Hdb]. split; [by apply (bo_exact _ Hdb)|].
  intros b' Hb' Ha Ha'. by apply (bo_active _ Hdb).
Qed.

(** C38: A request to bind is answered once: after any later calls, none of them
    on a unit of work opened before the binding was committed, a request
    with the same key for the instance changes nothing, and if it is answered,
    then with the binding it made first, for the same requirement and resource. *)
Theorem binding_idempotent s0 s s1 s2 s3 project instance key resource idempotency now b key' resource' now' x :
  nothing_bound s0 -> rtc resource_step s0 s ->
  bind_resource commit_others project instance key resource idempotency now s = (Ok b, s1) -> rtc resource_step s1 s2 ->
  bind_resource commit_others project instance key' resource' idempotency now' s2 = (x, s3) ->
  rs_database s3 = rs_database s2 /\ forall b', x = Ok b' -> b' = b /\ key' = key /\ resource' = resource.
Proof using.
  intros H0 Hs Hb Hs2 Hx. pose proof (bound_from_nothing _ _ H0 Hs) as Hsound.
  destruct (step_sound _ _ Hsound (rs_bound _ _ _ _ _ _ _ _ _ Hb)) as [Hsound1 _].
  destruct (steps_sound _ _ Hsound1 Hs2) as [[Hrest2 Hdb2] [_ Hkeep]]. destruct Hsound as [Hrest Hdb].
  assert (Hst : stored_binding (rs_database s1) b /\ answers project instance key resource idempotency b).
  { apply bind_cases in Hb as [(Hst & Hans & ->)|[Hans _ _ _ _ _ _ Hd]]; [done|..|done|done].
    split; [|done]. unfold stored_binding. rewrite Hd. apply get_set_eq. }
  destruct Hst as [Hst Hans]. apply Hkeep in Hst. destruct Hans as (Hp & Hi & Hk & Hr & Hid).
  apply bind_cases in Hx; [|done..]. destruct x as [b'|]; [|by split]. destruct Hx as [(Hst' & Hans' & ->)|Hm].
  - split; [done|]. intros b'' [= <-]. destruct Hans' as (Hp' & Hi' & Hk' & Hr' & Hid').
    assert (b' = b) as -> by (apply (bo_requests _ Hdb2); [done..|unfold same_request; split_and!; congruence]).
    split; [done|]. split; congruence.
  - destruct Hm as [(Hp' & Hi' & _ & _ & Hid') _ _ _ _ Hfirst _ _].
    destruct (Hfirst b Hst). unfold same_request. split_and!; congruence.
Qed.

(** A resource is created once: after any later calls, a request for the
    same source changes nothing, and if it is answered, then with the resource
    that was created first. *)
Theorem creation_of_resource_idempotent s0 s s1 s2 s3 project q now r q' now' x :
  nothing_bound s0 -> rtc resource_step s0 s -> create_resource commit_others project q now s = (Ok r, s1) ->
  rtc resource_step s1 s2 ->
  rq_kind q' = rq_kind q -> rq_provider q' = rq_provider q -> rq_locator q' = rq_locator q ->
  rq_revision q' = rq_revision q -> rq_checksum q' = rq_checksum q ->
  create_resource commit_others project q' now' s2 = (x, s3) ->
  rs_database s3 = rs_database s2 /\ forall r', x = Ok r' -> r' = r.
Proof using.
  intros H0 Hs Hc Hs2 Hk Hp Hl Hv Hsum Hx. pose proof (bound_from_nothing _ _ H0 Hs) as Hsound.
  destruct (step_sound _ _ Hsound (rs_created _ _ _ _ _ _ Hc)) as [Hsound1 _].
  destruct (steps_sound _ _ Hsound1 Hs2) as [[Hrest2 Hdb2] [Hkeep _]]. destruct Hsound as [Hrest Hdb].
  apply resource_creation_cases in Hc as (_ & c & Hcand & Hid & Hcase); [|done].
  assert (Hst : stored_resource (rs_database s1) r).
  { unfold stored_resource. rewrite Hid. destruct Hcase as [[Hg ->]|(-> & _ & ->)]; [done|apply get_set_eq]. }
  apply Hkeep in Hst. apply resource_creation_cases in Hx; [|done]. destruct x as [r'|]; [|by split].
  destruct Hx as (_ & c' & Hcand' & Hid' & Hcase').
  apply candidate_identity in Hcand as (k1 & p1 & Hk1 & Hp1 & Hi1 & _).
  apply candidate_identity in Hcand' as (k2 & p2 & Hk2 & Hp2 & Hi2 & _).
  rewrite Hk, Hk1 in Hk2. injection Hk2 as <-. rewrite Hp, Hp1 in Hp2. injection Hp2 as <-.
  rewrite Hl, Hv, Hsum, <- Hi1, <- Hid in Hi2. rewrite Hi2 in Hcase'. unfold stored_resource in Hst.
  destruct Hcase' as [[Hg Hd]|(_ & Hg & _)]; [|congruence]. split; [done|]. intros r'' [= <-]. congruence.
Qed.
End service.

(** ** A concrete project *)

Module ResourceWitness.
Definition hex32 : string := "0123456789abcdef0123456789abcdef".
Definition project : string := "project-" +:+ hex32.
Definition instance : string := "wfi-" +:+ hex32.
Definition key : string := "3f2504e0-4f89-11d3-9a0c-0305e82c3301".
Definition at_ (n : Z) : datetime := Datetime (1767225600000000 + n * 1000000) true.

(** One project with one workflow instance. *)
#[local] Instance one_instance : IdentityRepositories unit := {
  project_registered p w := String.eqb p project;
  local_project p w := None;
  list_capsule_artifacts p w := [];
  get_workflow_instance i w :=
    if String.eqb i instance then Some (WorkflowInstance instance project "workflow-a" "1.0.0") else None
}.

Definition store : Type := @resource_store unit.
Definition needed : Requirement.t :=
  Requirement.mk "workflow-a" "1.0.0" "dataset" ResourceKind.DATASET 0 1 false
    [ResourceProvider.HUGGING_FACE; ResourceProvider.LOCAL_TEST] "Data to learn from" (at_ 0) (at_ 0).
Definition request (locator : string) : resource_request :=
  ResourceRequest "DATASET" "LOCAL_TEST" locator "revision-1" ("sha256:" +:+ hex32 +:+ hex32) "Data" (VDict false []).

Abbreviation create locator n := (create_resource (W:=unit) (mret tt) project (request locator) (at_ n)).
Abbreviation bind resource idempotency n :=
  (bind_resource (W:=unit) (mret tt) project instance "dataset" resource idempotency (at_ n)).
Abbreviation declare := (on_resources (add_requirement needed) ;; commit_resources (W:=unit) (mret tt) ;; mret tt).

Definition id_of (x : res Resource.t) : string := match x with Ok r => Resource.resource_id r | Err _ => "" end.

Definition nothing : store := ResourceStore tt (ResourceDatabase [] [] []) (open_resources (ResourceDatabase [] [] [])).
Definition declared : store := (declare nothing).2.
Definition created : store := (create "fixture/one" 1 declared).2.
Definition one : string := Eval vm_compute in id_of (create "fixture/one" 1 declared).1.
Definition bound_store : store := (bind one key 2 created).2.
Definition two : string := Eval vm_compute in id_of (create "fixture/two" 3 created).1.

Lemma computed : is_ok (declare nothing).1 && is_ok (create "fixture/one" 1 declared).1 && is_ok (bind one key 2 created).1
  && is_ok (bind one key 9 bound_store).1 && is_ok (create "fixture/one" 9 bound_store).1
  && (List.length (Dict.values (db_bindings (rs_database bound_store))) =? 1)%nat = true.
Proof. vm_compute. reflexivity. Qed.

Lemma is_ok_inv {S A} (m : M exn S A) s : is_ok (m s).1 = true -> exists a, m s = (Ok a, (m s).2).
Proof. destruct (m s) as [[a|e] s']; [|done]. by exists a. Qed.

Lemma declared_step x : is_ok (declare nothing).1 = true -> declared = x -> resource_step (mret tt) nothing x.
Proof.
  intros (a & Ha)%is_ok_inv <-. apply (rs_required (mret tt) needed). destruct a. exact Ha.
Qed.

Lemma answers_hold :
  rtc (resource_step (mret tt)) nothing declared /\
  (exists r, create "fixture/one" 1 declared = (Ok r, created)) /\
  (exists b, bind one key 2 created = (Ok b, bound_store)) /\
  (exists b s, bind one key 9 bound_store = (Ok b, s)) /\
  (exists r s, create "fixture/one" 9 bound_store = (Ok r, s)) /\
  (0 < List.length (Dict.values (db_bindings (rs_database bound_store))))%nat.
Proof.
  pose proof computed as H.
  apply andb_true_iff in H as [[[[[H1 H2]%andb_true_iff H3]%andb_true_iff H4]%andb_true_iff H5]%andb_true_iff H6%Nat.eqb_eq].
  split; [exact (rtc_once _ _ (declared_step _ H1 eq_refl))|].
  split; [exact (is_ok_inv _ _ H2)|]. split; [exact (is_ok_inv _ _ H3)|].
  apply is_ok_inv in H4 as (b & H4), H5 as (r & H5).
  split; [exact (ex_intro _ b (ex_intro _ _ H4))|]. split; [exact (ex_intro _ r (ex_intro _ _ H5))|].
  rewrite H6. exact (le_n 1).
Qed.

#[local] Opaque declared created bound_store create_resource bind_resource.

Lemma some_binding (s : store) : sound s -> (0 < List.length (Dict.values (db_bindings (rs_database s))))%nat ->
  exists b, stored_binding (rs_database s) b.
Proof.
  intros [_ Hdb] Hl. destruct (Dict.values (db_bindings (rs_database s))) as [|b l] eqn:Hv; [by apply Nat.nlt_0_r in Hl|].
  exists b. apply (elem_bindings _ _ Hdb). rewrite Hv. by left.
Qed.

Lemma nothing_nothing : nothing_bound nothing.
Proof. done. Qed.

Lemma created_history : rtc (resource_step (mret tt)) nothing created.
Proof. destruct answers_hold as (Hd & (r & Hr) & _). exact (rtc_r _ _ _ Hd (rs_created _ _ _ _ _ _ _ Hr)). Qed.

Lemma bound_step : resource_step (mret tt) created bound_store.
Proof. destruct answers_hold as (_ & _ & (b & Hb) & _). exact (rs_bound _ _ _ _ _ _ _ _ _ _ Hb). Qed.

Lemma bound_history : rtc (resource_step (mret tt)) nothing bound_store.
Proof. exact (rtc_r _ _ _ created_history bound_step). Qed.

Lemma one_exact_binding_witness : exists b, stored_binding (rs_database bound_store) b /\
  exact_binding (rs_database bound_store) b.
Proof.
  destruct answers_hold as (_ & _ & _ & _ & _ & Hl).
  destruct (some_binding _ (bound_from_nothing _ _ _ nothing_nothing bound_history) Hl) as [b Hb].
  exists b. split; [exact Hb|]. exact (proj1 (one_exact_binding _ nothing bound_store b nothing_nothing bound_history Hb)).
Defined.

Lemma binding_idempotent_witness : exists b s, bind one key 9 bound_store = (Ok b, s) /\
  rs_database s = rs_database bound_store.
Proof.
  destruct answers_hold as (_ & _ & (b & Hb) & (b' & s & Hb') & _).
  exists b', s. split; [exact Hb'|].
  exact (proj1 (binding_idempotent _ nothing created bound_store bound_store s _ _ _ _ _ _ b _ _ _ _ nothing_nothing
    created_history Hb (rtc_refl _ _) Hb')).
Defined.

Lemma creation_of_resource_idempotent_witness : exists r r' s, create "fixture/one" 9 bound_store = (Ok r', s) /\
  rs_database s = rs_database bound_store /\ r' = r.
Proof.
  destruct answers_hold as (Hd & (r & Hr) & _ & _ & (r' & s & Hr') & _).
  destruct (creation_of_resource_idempotent _ nothing declared created bound_store s _ _ _ r _ _ _ nothing_nothing Hd Hr
    (rtc_once _ _ bound_step) eq_refl eq_refl eq_refl eq_refl eq_refl Hr') as [Hdb Heq].
  exists r, r', s. split; [exact Hr'|]. split; [exact Hdb|exact (Heq r' eq_refl)].
Defined.

(** ** Two limits *)

(** A second unit of work, opened before the first one commits. *)
Definition other_store : store := (create "fixture/two" 3 created).2.
Definition first_unit : store := (bind one key 4 other_store).2.
Definition second_unit : store := ResourceStore tt (rs_database first_unit) (open_resources (rs_database other_store)).
Definition both : store := (bind two key 4 second_unit).2.

(** The commit of the in-memory unit of work does not check bindings: two
    units of work that run side by side bind two resources to one requirement
    of one workflow instance, under one idempotency key, and both succeed. *)
Theorem units_bind_one_requirement_twice :
  is_ok (bind one key 4 other_store).1 = true /\ is_ok (bind two key 4 second_unit).1 = true /\
  List.length (List.filter Binding.is_active (bindings_of (open_resources (rs_database both)))) = 2%nat.
Proof. vm_compute. split; [|split]; reflexivity. Qed.

(** A project with 101 resources, of which the last is bound. *)
Definition digit (n : nat) : string := String (hex_digit (N.of_nat n)) "".
Definition padded_id (n : nat) : string :=
  "resource-000000000000000000000000000000" +:+ digit (n / 16) +:+ digit (n mod 16).
Definition plain_resource (n : nat) : Resource.t :=
  Resource.mk (padded_id n) project ResourceKind.DATASET ResourceProvider.LOCAL_TEST "fixture/one" "revision-1"
    ("sha256:" +:+ hex32 +:+ hex32) "Data" (VDict true []) ACTIVE (at_ (Z.of_nat n)) (at_ (Z.of_nat n)) None.
Definition last_binding (n : nat) : Binding.t :=
  Binding.mk ("resource-binding-" +:+ hex32) project instance "workflow-a" "1.0.0" "dataset" (padded_id n)
    ("sha256:" +:+ hex32 +:+ hex32) ACTIVE key (at_ 200) (at_ 200) None.
Definition crowded (n : nat) : store :=
  let db := ResourceDatabase ((fun i => (padded_id i, plain_resource i)) <$> seq 0 n)
    [(("workflow-a", "1.0.0", "dataset"), needed)] [("resource-binding-" +:+ hex32, last_binding (n - 1))] in
  ResourceStore tt db (open_resources db).

Definition is_conflict {A} (x : res A) : bool :=
  match x with
  | Err e => bool_decide (exn_kind e = ApplicationCodedConflictError "RESOURCE_BINDING_CONFLICT")
  | Ok _ => false
  end.

(** The bindings of an instance are shown with the first hundred resources of
    its project: with a hundred resources they are shown, with one more the
    binding of the newest is reported as an incomplete authority. *)
Theorem projections_stop_at_a_hundred :
  is_ok (binding_projections project instance (crowded 100)) = true /\
  is_conflict (binding_projections project instance (crowded 101)) = true.
Proof. vm_compute. split; reflexivity. Qed.
End ResourceWitness.
